(* ===== verification/_CoqProject ===== *)
-Q . S2P
Prelude.v
PyValue.v
Calendar.v
Reservation.v
Amounts.v
LedgerTables.v
LedgerStore.v
Budget.v
LedgerEvidence.v
FundingService.v
Assets.v
Receipts.v
Submission.v
ProxyPayment.v
Evm.v
ChainEvidence.v
Settlement.v
GrantStore.v
AmountProperties.v
GrantProperties.v
CandidateChoice.v
LedgerFacts.v
FundingMachine.v
BudgetFacts.v
FundingEffects.v
FundingRefinement.v
SubmissionEffects.v
FundingCommands.v
ReceiptProperties.v
FundingSafety.v
FundingProperties.v
ChainFacts.v
PaymentEvidence.v
SettlementEffects.v
SettlementFacts.v
PaymentVerdicts.v
PaymentProperties.v
FundingScenario.v
FundingWitnesses.v
PaymentWitnesses.v
ExecutionModels.v
ExecutionTables.v
PilotGate.v
NonceAllocator.v
ExecutionRepository.v
ExecutionSettlement.v
ExecutionMachine.v
ExecutionRefinement.v
ExecutionInvariants.v
GateInvariants.v
Scenario.v
DerivedInvariants.v
ExecutionIdentity.v
Atomicity.v
ModelProperties.v
ExecutionLiveness.v
WatchQueue.v
ExecutionProperties.v
ExecutionWitnesses.v
Relayer.v
RelayMachine.v
RelayPrograms.v
RelayProperties.v
SigningLimits.v
Watcher.v
WatcherFacts.v
WatcherProperties.v
RelayWitnesses.v
DeviceKeys.v
ControlPlane.v
NodeRegistry.v
NodeMemory.v
NodeSpec.v
NodeFacts.v
NodeRefinement.v
NodeHistory.v
NodeProperties.v
Enrollment.v
EnrollmentProperties.v
NodeWitnesses.v
