(* ===== verification/Prelude.v ===== *)
(** * Agentonomy Commerce: a verification of its payment core

    Agentonomy Commerce lets software agents pay for purchases in USDC.  Two
    parts of it decide whether money moves, and how often: the funding ledger of
    the core service, which reserves an amount of a user's spending grant,
    submits one payment for it and settles or releases it; and the hosted
    facilitator, which allocates a relayer nonce to an execution, signs and
    broadcasts one transaction for it and settles it with chain evidence.  This
    library models both as executable functions on an explicit database and
    proves what they promise, and with them the registry of the nodes that may ask
    the facilitator for payments.  Paths below are relative to [src/apps].

    ** Conventions

    - A Python call that returns or raises is a [result]; a transaction is a
      [txn], state passing with rollback ([write_session]) when its body raises.
      A write session is one atomic step and a history is a sequence of sessions
      in any order: the code serialises its writers, by BEGIN IMMEDIATE on SQLite,
      by row locks and, under a pilot policy, advisory locks on PostgreSQL.  The one
      place that expects another writer in between, the retries of an allocation,
      is said below.
    - A table is a finite map from primary keys to rows, or a list where the code
      only appends.  CHECK and unique constraints are decidable predicates; a
      violation raises [IntegrityError].
    - Payloads are JSON values ([PyValue]): ordered dictionaries with Python's
      equality, so a missing key, [None] and the type of a value are told apart
      where the code does.  Strings are sequences of 8-bit characters; of
      Unicode, category C below 256 is modelled, no case mapping above 127.
    - Amounts are integers of micro-USDC, the columns being Numeric(38, 6); the
      code's [Decimal] operations are exact on them up to the 28 digits of the
      default context.  Reading and writing their decimal text is [Amounts].
    - Instants are microseconds since the epoch, in UTC.  Reading the clock,
      drawing an id or a nonce, asking the policy service, the chain or a signer:
      each is an argument, the answer or the exception.
    - SHA-256, HMAC-SHA-256, Keccak and the checksummed spelling of an address are
      library functions: the classes [Sha256], [Sha256Bytes], [HmacSha256], [KeccakHex],
      [Keccak] and [Checksum] stand for them; [AbiEncode] and [RlpEncode] stand for the
      eth_abi and rlp packages, [P256] for the curve check of the cryptography package.  Theorems hold for every instance; those that need
      more say it (digests of 64 digits or 32 bytes, the ABI's selector).
    - The systems a payment talks to are a [World]: the node, which may answer or
      raise anything at each request, the relayer's account and the policy service.

    ** The funding ledger

    [Reservation] - the rules of a reservation's payload: provenance, immutable
    fields, single submission, failure evidence (core/.../funding_service/ledger.py).
    [Amounts] - decimal text.  [Calendar] - ISO dates and times.
    [LedgerTables] - the rows of the ledger and of the account service, and
    their database [FundingDb].  [LedgerStore] - [FundingTransaction.put], [get],
    [by_tx_hash], the authorization scope, relayer nonces.  [Budget] -
    [reserve_unified_budget] with its stages, [release_unified_budget],
    [settle_unified_budget], [validate_unified_lifecycle].  [LedgerEvidence] -
    watcher evidence, reorganisations, revocations, allowance observations.
    [FundingService], [Submission], [ProxyPayment], [Receipts] - the transactions
    of funding_service/service.py: reserve, finalize, release, the reconciliation
    outcomes, submission on the native, payer-proxy and external rails, the two
    checks before a broadcast, completion with a signed receipt.
    [ChainEvidence] - what that file asks a node and how it judges the answers:
    JSON-RPC quantities, confirmations, the calldata of transfers, the evidence
    that a mined transaction is the reserved payment, building and reconstructing
    the relayer's transaction (and core/shared/evm_rpc.py's definite refusals).
    [Settlement] - [settle_reservation], [reconcile_reservation],
    [finalize_external_payment], [finalize_proxy_payment]: programs ([service]) of
    the transactions above and the node's answers.
    [Assets] - core/shared/canonical_assets.py.  [GrantStore] - the grants and
    allowances of account_service/repository.py with the validators of schemas.py.

    [FundingMachine] is the specification: a book of reservations in which a
    step reserves an amount within every limit, closes a reserved line as used or
    released, or edits a grant without touching its counters.  [BudgetFacts] and
    [LedgerFacts] give the exact effect of each ledger operation;
    [FundingEffects] says what a transaction may do to the whole database and
    composes such effects; [FundingRefinement] and [SubmissionEffects] prove one
    effect per transaction; [FundingCommands] collects the thirty-one calls as
    commands and derives, by induction on a history of calls from a ledger that
    charged nothing, what holds of every reachable ledger.

    [FundingProperties] (with [FundingSafety]): every command refines the machine; the
    books balance; a grant is never overspent; a reservation is made only within
    every limit; release undoes reserve; accounting closes once and agrees with
    the reservation's state; provenance is permanent; a failed single submission
    stays sealed; one transaction pays one reservation; nonces increase; the audit
    trail is append-only.  [ReceiptProperties]: a recorded receipt verifies and
    reads back.  [AmountProperties]: amount text round-trips.  [GrantProperties],
    [CandidateChoice]: grants are validated stably, reductions only lower, the
    charged grant is the canonical candidate.  [FundingScenario] is a concrete run
    of two purchases on which [FundingWitnesses] evaluates the properties.

    [PaymentEvidence] is the specification of evidence: a mined, confirmed
    transaction of the reserved hash whose calldata is byte for byte the reserved
    transfer ([paid_on_chain]), or which failed ([reverted_on_chain]).  [ChainFacts]
    holds the lemmas on hexadecimal, big-endian words and quantities;
    [SettlementEffects] shows that each program is a history of ledger
    transactions, [SettlementFacts] and [PaymentVerdicts] that its verdicts are
    justified by the chain.  [PaymentProperties] states it: payment calls refine
    histories, spending needs evidence, reconciliation follows the chain, a
    transaction that was built is recognised when mined, quantities have one text.
    [PaymentWitnesses] evaluates them on a run.

    ** The hosted facilitator

    [ExecutionModels] - facilitator/execution_models.py and the chain profiles of
    core/shared/hosted_facilitator_protocol.py.  [Evm] - facilitator/evm.py: the
    transaction hash, authorizations, their EIP-712 digest, the calldata of the
    executor, EIP-1559 transactions.  [ExecutionTables], [NonceAllocator], [PilotGate],
    [ExecutionRepository], [ExecutionSettlement] - the tables and every operation
    of facilitator/execution_repository.py, and facilitator/pilot_gate.py.

    [ExecutionMachine] is the specification: steps on rows, on gate reservations
    and on the database.  [ExecutionRefinement] proves that every operation, on
    every branch, makes only its steps; [ExecutionInvariants], [GateInvariants],
    [ExecutionIdentity], [DerivedInvariants] derive
    what holds of every reachable database; [ExecutionProperties] states it: the
    life cycle, nonces signed once, immutable signatures, exclusive signing
    claims, quotas and gas budgets, exact replays, safe closing.  [Atomicity] is about
    calls that raise, [WatchQueue] about the watcher's queue, [ModelProperties] about
    the values, [ExecutionLiveness] about progress: an open execution can always
    be released after its deadline.
    [Scenario] and [ExecutionWitnesses] evaluate the properties on a run.

    [Relayer] - facilitator/relayer.py: the reconciler and the relayer,
    programs on the repository that other processes share, with a log of what was
    sent.  [RelayMachine] is the specification: a step is a repository call of any
    process or a broadcast with a justification, and triples in the style of Hoare,
    with assertions that survive the calls of others and a bound on the
    broadcasts, judge programs.  [RelayPrograms] proves the triples;
    [RelayProperties] that only stored and claimed transactions are sent, that a
    nonce pays once however many relayers run, that executing an intent sends at
    most once, before its deadline, and never again; [SigningLimits] that what is
    signed is the authorization the intent names, within the operator's limits,
    and that a serialized transaction reads back.

    [Watcher] - facilitator/watcher.py and watcher_worker.py: the readers of a node's
    answers, the observation of an execution, what a pass does with it, one round of
    the worker; programs on the shared repository, with a log of the calls asked of
    it.  [WatcherFacts] shows that the decoder accepts exactly the canonical layout
    of the executor's call and what a passed observation says about the answers
    ([chain_shows]).  [WatcherProperties]: outcomes are asked for on evidence only; what the relayer
    signs is what the watcher recognises; a proved payment is finalized in one pass;
    a round attempts every execution it lists; and a confirmation that was left
    unfinalized is refused once the boundary has moved.
    [RelayWitnesses] evaluates both on a run with a lost answer, and on its end.

    ** The node registry

    A node enrolls with a one-time token and signs its requests with a P-256 key;
    the facilitator knows it by the digest of an access token, which is rotated and
    revoked.  [DeviceKeys] - base64url, JSON Web Keys and thumbprints
    (core/shared/hosted_facilitator_protocol.py).  [ControlPlane] - the records of
    facilitator/models.py with the checks of their constructors, the binding
    digest of an enrollment, and the interface
    [ControlPlaneRepository] of facilitator/repository.py: its calls as a type,
    its adapters as instances.  [NodeRegistry] and [NodeMemory] - the adapters
    PostgresRepository (tables, constraints, transactions, savepoints) and
    InMemoryRepository (dictionaries changed in place).  [Enrollment] - the service
    of facilitator/enrollment.py, a program over any adapter.

    [NodeSpec] is the contract: the class [Adapter] relates the states of an
    adapter to well-formed dictionaries and demands the same answers, up to the
    wording of a conflict, for every admissible call; of the checks of proofs of
    possession only while their clocks do not go back ([in_time]), since a refused
    check leaves expired proofs in the database and not in the dictionaries.  The
    class [ReplayLog] is what both promise of accepted proofs in any order.  [NodeFacts] reads off a call
    the condition under which it changes anything; [NodeRefinement] proves call by
    call that the database decides on the condition of the dictionaries and keeps
    the relation.  [NodeHistory] says what one call may do to the dictionaries, as
    a preorder, and that both adapters keep the proofs they accepted.  [NodeProperties] proves, against the interface, that a rotated or
    revoked token never authenticates again, that a token enrolls one node, a
    proof of possession is accepted once and a preflight is bound once; and that
    the two adapters agree.  [EnrollmentProperties] proves that a client cannot
    tell the adapters apart, that a lost answer of an enrollment or a rotation
    can be asked for again, and that a revocation is final.  [NodeWitnesses]
    evaluates them on a run with the curve's generator as key.

    ** Fuel

    The one loop with a bound in the code, the allocation retries, is recursive on
    the number of attempts left, four as in the code.  It exists for writers that
    insert while an allocation runs, which PostgreSQL allows without a pilot policy;
    sessions being atomic here, what two such writers do to each other is not
    modelled, and the first attempt of a new intent violates no constraint
    ([ExecutionLiveness.allocate_once_integrity]).  [hex_of] writes an integer with one more digit of
    fuel than its binary logarithm, which [ChainFacts] proves enough.  The others
    recurse on their data.

    ** Assumptions

    Grants exist in the initial ledger with zero counters: their creation from a
    signed challenge is not modelled, nor is the hosted rail of the funding service;
    what is said of reachable ledgers is said of the thirty-one calls.  That a built transaction is recognised assumes
    of the checksummed spelling that it reads back as the address.  Instants lie in the years [datetime]
    represents.  The receipt id a completion may draw is fresh.  Between the
    two transactions of a submission nothing intervenes in one command; the code
    re-reads and re-checks the row in the second one, and so does the model.
    A digest has 32 bytes, and an id the registry draws ([DrawnIds]) is not in use.
    A record given to the registry was built by its constructor, and times are
    positive ([admissible]).  What fails in a savepoint is taken back by it
    ([savepoint]); a row that is pending when the savepoint begins is flushed outside
    of it, and a violation rolls the whole transaction back ([flushed_before]).
    A call of the in-memory adapter holds its lock, so it is one step.

    ** Not modelled

    Of the ledger: payment capabilities, the two release-evidence recorders,
    [list] and the schema.  Of the funding service: the hosted rail
    ([_settle_hosted_reservation] to [_release_unsigned_hosted_expiry]), the payment
    capabilities, the policy checks, readiness reports; the HTTP requests to a node.  Of the account service: challenges,
    sessions, grant creation, disconnection, the console.  Of the
    facilitator: its HTTP processes, the loop that repeats a watcher's rounds, and the
    signed envelopes of the protocol.  Of the registry: the set-up of the engine and the failures of
    the database.  The policy service; the marketplace; the merchant and node
    applications; prediction markets.  They are I/O, or applications on top of this
    core that change no state modelled here. *)

From stdpp Require Export base gmap sets list strings pretty fin_maps.
From Stdlib Require Export ZArith Lia.
From Stdlib Require Import Ascii Strings.Byte.

Open Scope Z_scope.

(** ** Python exceptions and fallible code *)

(** The exceptions the modelled code raises, with their message or code. *)
Inductive exn : Type :=
| ExecutionConflict (message : string)
| ExecutionNotFound (message : string)
| PilotGateDenied (reason_code : string)
| EvmEncodingError (message : string)
| IntegrityError (constraint : string)
| ValueError (message : string)
| KeyError (key : string)
| TypeError (message : string)
| ArithmeticError (message : string)
| CapabilityConflict (message : string)
| RuntimeError (message : string)
| PrebroadcastRiskBlocked (message : string)
| RpcSubmissionRejected (reason_code : string)
| RepositoryConflict (message : string)
| HostedProtocolError (message : string)
| EnrollmentError (message : string)
| RelayerExecutionError (message : string)
| RpcSubmissionUnknown (message : string)
| EvidenceError (reason : string) (reorg : bool)
| WatcherNotFound (message : string).

#[export] Instance exn_eq_dec : EqDecision exn.
Proof. solve_decision. Defined.

(** A Python call either returns a value or raises. *)
Inductive result (A : Type) : Type :=
| Ok (a : A)
| Err (e : exn).
Arguments Ok {A} a.
Arguments Err {A} e.

#[export] Instance result_ret : MRet result := λ A, Ok.
#[export] Instance result_bind : MBind result := λ A B f m,
  match m with Ok a => f a | Err e => Err e end.
#[export] Instance result_fmap : FMap result := λ A B f m,
  match m with Ok a => Ok (f a) | Err e => Err e end.

(** [if not b: raise e]. *)
Definition require (b : bool) (e : exn) : result unit :=
  if b then Ok tt else Err e.

(** [raise e] when an optional value is absent. *)
Definition from_option_or {A} (o : option A) (e : exn) : result A :=
  match o with Some a => Ok a | None => Err e end.

Definition is_ok {A} (r : result A) : bool :=
  match r with Ok _ => true | Err _ => false end.

(** ** Database transactions

    A [txn S A] reads and writes a database of type [S] and may raise; the
    state it threads is the uncommitted one. *)

Definition txn (S A : Type) : Type := S → result (A * S).

#[export] Instance txn_ret {S} : MRet (txn S) := λ A a s, Ok (a, s).
#[export] Instance txn_bind {S} : MBind (txn S) := λ A B f m s,
  match m s with Ok (a, s') => f a s' | Err e => Err e end.

Section Transactions.
Context {S : Type}.

(** Read from the current database. *)
Definition reads {A} (f : S → A) : txn S A := λ s, Ok (f s, s).
(** Replace the current database. *)
Definition writes (f : S → S) : txn S unit := λ s, Ok (tt, f s).
(** Raise. *)
Definition raises {A} (e : exn) : txn S A := λ _, Err e.
(** A pure fallible computation inside a transaction. *)
Definition lifts {A} (r : result A) : txn S A := λ s,
  match r with Ok a => Ok (a, s) | Err e => Err e end.
(** [if not b: raise e] inside a transaction. *)
Definition requires (b : bool) (e : exn) : txn S unit := lifts (require b e).

(** [with self._write_session() as session: ...]: commit the state of a body
    that returns, roll back the state of a body that raises. *)
Definition write_session {A} (body : txn S A) (s : S) : result A * S :=
  match body s with
  | Ok (a, s') => (Ok a, s')
  | Err e => (Err e, s)
  end.

(** Code that runs after the session was committed or rolled back. *)
Definition after_session {A B} (k : A → result B) (r : result A * S) : result B * S :=
  (r.1 ≫= k, r.2).

Lemma txn_bind_Ok {A B} (m : txn S A) (k : A → txn S B) s b s' :
  (m ≫= k) s = Ok (b, s') ↔ ∃ a s1, m s = Ok (a, s1) ∧ k a s1 = Ok (b, s').
Proof.
  unfold mbind, txn_bind. destruct (m s) as [[a s1]|e].
  - split; [eauto|]. by intros (? & ? & [= <- <-] & ?).
  - split; [done|]. by intros (? & ? & [=] & _).
Qed.

Lemma reads_Ok {A} (f : S → A) s a s' : reads f s = Ok (a, s') ↔ a = f s ∧ s' = s.
Proof. unfold reads. split; [intros [= <- <-]|intros [-> ->]]; done. Qed.
Lemma writes_Ok (f : S → S) s a s' : writes f s = Ok (a, s') ↔ a = tt ∧ s' = f s.
Proof. unfold writes. split; [intros [= <- <-]|intros [-> ->]]; done. Qed.
Lemma raises_Ok {A} e s (a : A) s' : raises e s = Ok (a, s') ↔ False.
Proof. unfold raises. by split. Qed.
Lemma lifts_Ok {A} (r : result A) s a s' : lifts r s = Ok (a, s') ↔ r = Ok a ∧ s' = s.
Proof.
  unfold lifts. destruct r; (split; [intros [=]|intros [[=] ?]]); subst; auto.
Qed.
Lemma require_Ok b e u : require b e = Ok u ↔ b = true ∧ u = tt.
Proof. unfold require. destruct b, u; (split; [intros [=]|intros [[=] ?]]); auto. Qed.
Lemma requires_Ok b e s u s' :
  requires b e s = Ok (u, s') ↔ b = true ∧ u = tt ∧ s' = s.
Proof. unfold requires. rewrite lifts_Ok, require_Ok. tauto. Qed.
Lemma mret_Ok {A} (a : A) (s : S) b s' :
  (mret a : txn S A) s = Ok (b, s') ↔ b = a ∧ s' = s.
Proof. unfold mret, txn_ret. split; [intros [= <- <-]|intros [-> ->]]; done. Qed.

Lemma write_session_snd {A} (body : txn S A) s :
  (write_session body s).2 = s ∨ ∃ a, body s = Ok (a, (write_session body s).2).
Proof. unfold write_session. destruct (body s) as [[a s']|e]; eauto. Qed.

Lemma write_session_Ok {A} (body : txn S A) s a s' :
  write_session body s = (Ok a, s') ↔ body s = Ok (a, s').
Proof.
  unfold write_session. destruct (body s) as [[a0 s0]|e]; split; congruence.
Qed.
Lemma after_session_Ok {A B} (k : A → result B) body s b s' :
  after_session k (write_session body s) = (Ok b, s') ↔
  ∃ a, body s = Ok (a, s') ∧ k a = Ok b.
Proof.
  unfold after_session, write_session. destruct (body s) as [[a0 s0]|e]; simpl.
  - split; [intros [= ? ->]; eauto|]. intros (a & [= -> ->] & ->). done.
  - split; [done|]. by intros (a & [=] & _).
Qed.
End Transactions.

Lemma result_bind_Ok {A B} (m : result A) (k : A → result B) b :
  m ≫= k = Ok b ↔ ∃ a, m = Ok a ∧ k a = Ok b.
Proof.
  unfold mbind, result_bind. destruct m.
  - split; [eauto|]. by intros (? & [= <-] & ?).
  - split; [done|]. by intros (? & [=] & _).
Qed.

(** Two computations that start with the same call fail or continue together. *)
Lemma same_bind {A B C} (m : result A) (k : A → result B) (k' : A → result C) :
  (∀ a, m = Ok a → is_ok (k a) = true → is_ok (k' a) = true) →
  is_ok (m ≫= k) = true → is_ok (m ≫= k') = true.
Proof. destruct m; simpl; auto. Qed.

Lemma next_bind {A B C D} (m : result A) (m' : result B) (k : A → result C) (k' : B → result D) :
  (∀ a, m = Ok a → ∃ b, m' = Ok b ∧ (is_ok (k a) = true → is_ok (k' b) = true)) →
  is_ok (m ≫= k) = true → is_ok (m' ≫= k') = true.
Proof.
  intros Hm. destruct m as [a|]; [|done]. destruct (Hm a eq_refl) as (b & -> & ?). auto.
Qed.

Lemma is_ok_bind {A B} (m : result A) (k : A → result B) :
  is_ok (m ≫= k) = true → ∃ a, m = Ok a ∧ is_ok (k a) = true.
Proof. destruct m; [eauto|done]. Qed.

Lemma from_option_or_Ok {A} (o : option A) e a :
  from_option_or o e = Ok a ↔ o = Some a.
Proof. unfold from_option_or. destruct o; (split; [intros [=]|intros [=]]); by subst. Qed.

(** ** Service calls

    A service call is a program of transactions and of requests to other
    systems: what a transaction committed stays when a later step raises. *)
Definition service (S A : Type) : Type := S → result A * S.

#[export] Instance service_ret {S} : MRet (service S) := λ A a s, (Ok a, s).
#[export] Instance service_bind {S} : MBind (service S) := λ A B f m s,
  match m s with (Ok a, s') => f a s' | (Err e, s') => (Err e, s') end.
#[export] Instance service_fmap {S} : FMap (service S) := λ A B f m s, (f <$> (m s).1, (m s).2).

Section Services.
Context {S : Type}.

(** A transaction, or another call. *)
Definition runs {A} (m : S → result A * S) : service S A := m.
(** A computation that at most reads the database. *)
Definition answers {A} (f : S → result A) : service S A := λ s, (f s, s).
(** [try: m except: handler]. *)
Definition recover {A} (m : service S A) (handler : exn → service S A) : service S A := λ s,
  match m s with (Ok a, s') => (Ok a, s') | (Err e, s') => handler e s' end.

(** The databases before and after a transaction that returns, and before and
    after a call, are related by [R]. *)
Definition steps_by {A} (R : S → S → Prop) (m : txn S A) : Prop :=
  ∀ s a s', m s = Ok (a, s') → R s s'.
Definition moves_by {A} (R : S → S → Prop) (m : service S A) : Prop := ∀ s, R s (m s).2.

Section Moves.
Context (R : S → S → Prop) `{!PreOrder R}.
Lemma ret_moves {A} (a : A) : moves_by R (mret a).
Proof. intros s. reflexivity. Qed.
Lemma answers_moves {A} (f : S → result A) : moves_by R (answers f).
Proof. intros s. reflexivity. Qed.
Lemma bind_moves {A B} (m : service S A) (k : A → service S B) :
  moves_by R m → (∀ a, moves_by R (k a)) → moves_by R (m ≫= k).
Proof.
  intros Hm Hk s. unfold mbind, service_bind. specialize (Hm s).
  destruct (m s) as [[a|e] s']; [|done]. etrans; [exact Hm|apply Hk].
Qed.
Lemma ret_steps {A} (a : A) : steps_by R (mret a).
Proof. intros s b s' [= _ ->]. reflexivity. Qed.
Lemma lifts_steps {A} (r : result A) : steps_by R (lifts r).
Proof. intros s a s' [_ ->]%lifts_Ok. reflexivity. Qed.
Lemma requires_steps b e : steps_by R (requires b e).
Proof. apply lifts_steps. Qed.
Lemma reads_steps {A} (f : S → A) : steps_by R (reads f).
Proof. intros s a s' [_ ->]%reads_Ok. reflexivity. Qed.
Lemma raises_steps {A} e : steps_by R (raises e : txn S A).
Proof. by intros s a s' ?%raises_Ok. Qed.
Lemma bind_steps {A B} (m : txn S A) (k : A → txn S B) :
  steps_by R m → (∀ a, steps_by R (k a)) → steps_by R (m ≫= k).
Proof.
  intros Hm Hk s b s' (a & s1 & Ha & Hb)%txn_bind_Ok. etrans; [by eapply Hm|by eapply Hk].
Qed.
(** A committed transaction, or one that left no trace. *)
Lemma session_moves {A} (m : txn S A) : steps_by R m → moves_by R (runs (write_session m)).
Proof.
  intros Hm s. unfold runs, write_session. destruct (m s) as [[a s']|e] eqn:E; simpl; [|done].
  by eapply Hm.
Qed.
Lemma recover_moves {A} (m : service S A) (handler : exn → service S A) :
  moves_by R m → (∀ e, moves_by R (handler e)) → moves_by R (recover m handler).
Proof.
  intros Hm Hh s. unfold recover. specialize (Hm s).
  destruct (m s) as [[a|e] s']; [done|]. etrans; [exact Hm|apply Hh].
Qed.
End Moves.
End Services.

(** ** Inverting a successful transaction *)

(** [txn_inv] turns hypotheses that say a transaction or a fallible
    computation returned into the facts each step contributes. *)
Ltac txn_inv_step :=
  match goal with
  | H : mbind _ _ _ = Ok (_, _) |- _ =>
      apply txn_bind_Ok in H; destruct H as (? & ? & ? & H)
  | H : mbind _ _ = Ok _ |- _ =>
      apply result_bind_Ok in H; destruct H as (? & ? & H)
  | H : reads _ _ = Ok (_, _) |- _ => let E := fresh in
      apply reads_Ok in H; destruct H as [E ?]; cbv beta delta [id] in E
  | H : writes _ _ = Ok (_, _) |- _ => apply writes_Ok in H; destruct H as [? ?]
  | H : raises _ _ = Ok (_, _) |- _ => apply raises_Ok in H; destruct H
  | H : lifts _ _ = Ok (_, _) |- _ => apply lifts_Ok in H; destruct H as [? ?]
  | H : requires _ _ _ = Ok (_, _) |- _ =>
      apply requires_Ok in H; destruct H as (? & ? & ?)
  | H : require _ _ = Ok _ |- _ => apply require_Ok in H; destruct H as [? ?]
  | H : from_option_or _ _ = Ok _ |- _ => apply from_option_or_Ok in H
  | H : mret _ _ = Ok (_, _) |- _ => apply mret_Ok in H; destruct H as [? ?]
  | H : mret ?a = Ok ?b |- _ => change (Ok a = Ok b) in H
  | H : Ok _ = Ok _ |- _ => injection H as H
  | H : Err _ = Ok _ |- _ => discriminate H
  | H : Some _ = Some _ |- _ => injection H as H
  | H : (_, _) = (_, _) |- _ => injection H as H
  end.
Ltac txn_inv := repeat (txn_inv_step; simplify_eq).

(** Boolean guards as propositions. *)
Ltac bool_inv :=
  repeat match goal with
  | H : _ && _ = true |- _ => apply andb_true_iff in H as [? ?]
  | H : _ || _ = false |- _ => apply orb_false_iff in H as [? ?]
  | H : negb _ = true |- _ => apply negb_true_iff in H
  | H : negb _ = false |- _ => apply negb_false_iff in H
  | H : bool_decide _ = true |- _ => apply bool_decide_eq_true in H
  | H : bool_decide _ = false |- _ => apply bool_decide_eq_false in H
  | H : (_ =? _) = true |- _ => apply Z.eqb_eq in H
  | H : (_ =? _) = false |- _ => apply Z.eqb_neq in H
  | H : (_ <=? _) = true |- _ => apply Z.leb_le in H
  | H : (_ <=? _) = false |- _ => apply Z.leb_gt in H
  | H : (_ <? _) = true |- _ => apply Z.ltb_lt in H
  | H : (_ <? _) = false |- _ => apply Z.ltb_ge in H
  end.

(** Case analysis on membership in an explicit list, and its introduction. *)
Ltac list_member :=
  solve [repeat (apply elem_of_cons; first [left; congruence | right])].
Ltac list_cases :=
  repeat match goal with
  | H : _ ∈ _ :: _ |- _ => apply elem_of_cons in H as [H|H]
  | H : _ ∈ [] |- _ => by apply elem_of_nil in H
  end.
(** A closed decidable fact, by computation. *)
Ltac decided :=
  lazymatch goal with |- ?P => refine (proj1 (bool_decide_eq_true P) _) end;
  vm_compute; reflexivity.
Ltac by_members :=
  list_cases; first [done | congruence | solve [auto] | list_member | solve [intros ?; list_cases; congruence]
    | match goal with H : _ ∉ _ |- _ => exfalso; apply H; list_member end].

(** ** Record update

    [r <| f := v |>] is the record [r] with the value of its field [f] replaced,
    the Python statement [r.f = v].  A record declares the eta-expansion of
    itself once, as an instance of [Eta], and every field gets its update from
    it by abstracting the projection. *)
Class Eta (R : Type) := eta : R → R.
Class Field {R T : Type} (f : R → T) := over : (T → T) → R → R.
Arguments over {R T} f {_} _ _ /.

Ltac derive_field :=
  lazymatch goal with
  | |- @Field ?R ?T ?f =>
      let inst := constr:(_ : Eta R) in
      let body := eval hnf in inst in
      lazymatch eval pattern f in body with
      | ?k _ =>
          let upd := eval cbv beta in (fun (g : T -> T) (r : R) => k (fun r' => g (f r')) r) in
          exact upd
      end
  end.
#[export] Hint Extern 1 (Field _) => derive_field : typeclass_instances.

Declare Scope record_scope.
Delimit Scope record_scope with record.
Open Scope record_scope.
Notation "r <| f := v |>" := (over f (λ _, v) r)
  (at level 1, f at next level, v at level 200, left associativity,
   format "r  <| f  :=  v |>") : record_scope.

(** ** Sums over tables *)

Definition table_sum {K A} `{Countable K} (f : A → Z) (m : gmap K A) : Z :=
  map_fold (λ _ a acc, f a + acc) 0 m.

(** [SELECT count( * ) ... WHERE p]. *)
Definition table_count {K A} `{Countable K} (p : A → bool) (m : gmap K A) : Z :=
  table_sum (λ a, if p a then 1 else 0) m.

Section TableSum.
Context {K A : Type} `{Countable K}.
Implicit Types (f : A → Z) (m : gmap K A).

Lemma table_sum_empty f : table_sum f (∅ : gmap K A) = 0.
Proof. apply map_fold_empty. Qed.

Lemma table_sum_insert_new f m k a :
  m !! k = None → table_sum f (<[k:=a]> m) = f a + table_sum f m.
Proof.
  intros Hk. unfold table_sum. rewrite map_fold_insert_L; [done| |done].
  intros. lia.
Qed.

Lemma table_sum_insert f m k a b :
  m !! k = Some a → table_sum f (<[k:=b]> m) = table_sum f m - f a + f b.
Proof.
  intros Hk. rewrite <- (insert_delete_eq m k b).
  rewrite table_sum_insert_new by apply lookup_delete_eq.
  rewrite <- (insert_id m k a Hk) at 2.
  rewrite <- (insert_delete_eq m k a).
  rewrite table_sum_insert_new by apply lookup_delete_eq. lia.
Qed.

Lemma table_sum_nonneg f m :
  (∀ k a, m !! k = Some a → 0 <= f a) → 0 <= table_sum f m.
Proof.
  induction m as [|k a m Hk IH] using map_ind; intros Hf.
  - by rewrite table_sum_empty.
  - rewrite table_sum_insert_new by done.
    assert (0 <= f a) by (apply (Hf k); apply lookup_insert_eq).
    assert (0 <= table_sum f m); [|lia].
    apply IH. intros k' a' Hk'. apply (Hf k').
    rewrite lookup_insert_ne; [done|]. by intros ->; congruence.
Qed.

Lemma table_sum_mono f g m :
  (∀ k a, m !! k = Some a → f a <= g a) → table_sum f m <= table_sum g m.
Proof.
  induction m as [|k a m Hk IH] using map_ind; intros Hf.
  - by rewrite !table_sum_empty.
  - rewrite !table_sum_insert_new by done.
    assert (f a <= g a) by (apply (Hf k); apply lookup_insert_eq).
    assert (table_sum f m <= table_sum g m); [|lia].
    apply IH. intros k' a' Hk'. apply (Hf k').
    rewrite lookup_insert_ne; [done|]. by intros ->; congruence.
Qed.

Lemma table_sum_ext f g m :
  (∀ k a, m !! k = Some a → f a = g a) → table_sum f m = table_sum g m.
Proof.
  intros Hfg. apply Z.le_antisymm; apply table_sum_mono;
    intros k a Hk; rewrite (Hfg k a Hk); lia.
Qed.

Lemma table_sum_member f m k a :
  (∀ k a, m !! k = Some a → 0 <= f a) → m !! k = Some a → f a <= table_sum f m.
Proof.
  intros Hf Hk. rewrite <- (insert_id m k a Hk), <- (insert_delete_eq m k a).
  rewrite table_sum_insert_new by apply lookup_delete_eq.
  assert (0 <= table_sum f (delete k m)); [|lia].
  apply table_sum_nonneg. intros k' a' Hk'.
  apply lookup_delete_Some in Hk' as [_ Hk']. by apply (Hf k').
Qed.

(** Replacing a row: its old contribution leaves, its new one enters. *)
Lemma table_sum_replace f m k a :
  table_sum f (<[k:=a]> m) = f a + table_sum f (delete k m).
Proof.
  rewrite <- (insert_delete_eq m k a). apply table_sum_insert_new, lookup_delete_eq.
Qed.

Lemma table_sum_delete f m k :
  (∀ k' a, m !! k' = Some a → 0 <= f a) → table_sum f (delete k m) <= table_sum f m.
Proof.
  intros Hf. destruct (m !! k) as [a|] eqn:Hk; [|by rewrite delete_id].
  rewrite <- (insert_id m k a Hk) at 2. rewrite table_sum_replace.
  specialize (Hf k a Hk). lia.
Qed.

(** A row replaced by one that contributes no more. *)
Lemma table_sum_shrink f m k a b :
  m !! k = Some a → f b <= f a → table_sum f (<[k:=b]> m) <= table_sum f m.
Proof. intros Hk Hab. rewrite (table_sum_insert f m k a b Hk). lia. Qed.
End TableSum.

(** [auto with tables] bounds sums, [autorewrite with tables] computes lookups
    and sums in tables built by insertion. *)
Create HintDb tables.
#[export] Hint Resolve table_sum_nonneg table_sum_mono table_sum_ext table_sum_member : tables.
#[export] Hint Rewrite @table_sum_empty @lookup_empty @lookup_insert_eq : tables.

(** [session.scalar(select(Row).where(p))]: a row satisfying [p], if any.  The
    tables queried this way carry a unique constraint on the columns tested. *)
Definition find_row {K A} `{Countable K} (p : A → bool) (m : gmap K A) : option A :=
  snd <$> head (filter (λ ka, p ka.2 = true) (map_to_list m)).

Lemma find_row_Some {K A} `{Countable K} p (m : gmap K A) a :
  find_row p m = Some a → p a = true ∧ ∃ k, m !! k = Some a.
Proof.
  unfold find_row. intros Hf.
  destruct (filter _ (map_to_list m)) as [|[k a'] l] eqn:E; [done|].
  simpl in Hf. injection Hf as ->.
  assert ((k, a) ∈ filter (λ ka : K * A, p ka.2 = true) (map_to_list m)) as Hin
    by (rewrite E; left).
  apply list_elem_of_filter in Hin as [Hp Hin]. apply elem_of_map_to_list in Hin.
  eauto.
Qed.

Lemma find_row_None {K A} `{Countable K} p (m : gmap K A) k a :
  find_row p m = None → m !! k = Some a → p a = false.
Proof.
  unfold find_row. intros Hf Hk. destruct (p a) eqn:Hp; [|done].
  assert ((k, a) ∈ filter (λ ka : K * A, p ka.2 = true) (map_to_list m)) as Hin.
  { apply list_elem_of_filter. split; [done|]. by apply elem_of_map_to_list. }
  destruct (filter _ (map_to_list m)) as [|[k' a'] l]; [|done].
  by apply elem_of_nil in Hin.
Qed.

(** ** Characters, strings and bytes

    A Python [str] is modelled by a string of 8-bit characters, so the code
    points considered are those below 256; every identifier, address and hash
    of the program is ASCII. *)

Definition code (c : ascii) : Z := Z.of_N (N_of_ascii c).

Definition is_digit (c : ascii) : bool := (48 <=? code c) && (code c <=? 57).
Definition is_upper (c : ascii) : bool := (65 <=? code c) && (code c <=? 90).
Definition is_lower (c : ascii) : bool := (97 <=? code c) && (code c <=? 122).
Definition is_alnum (c : ascii) : bool := is_digit c || is_upper c || is_lower c.
(** [[0-9a-f]] and [[0-9a-fA-F]]. *)
Definition is_lower_hex (c : ascii) : bool :=
  is_digit c || ((97 <=? code c) && (code c <=? 102)).
Definition is_hex (c : ascii) : bool :=
  is_lower_hex c || ((65 <=? code c) && (code c <=? 70)).
(** [ord(char) < 32 or ord(char) == 127]. *)
Definition is_control (c : ascii) : bool := (code c <? 32) || (code c =? 127).

Fixpoint all_chars (p : ascii → bool) (s : string) : bool :=
  match s with
  | EmptyString => true
  | String c s' => p c && all_chars p s'
  end.

Definition str_len (s : string) : Z := Z.of_nat (String.length s).

(** [str.lower] on ASCII letters. *)
Definition lower_char (c : ascii) : ascii :=
  if is_upper c then ascii_of_N (N_of_ascii c + 32) else c.
Fixpoint lower (s : string) : string :=
  match s with
  | EmptyString => EmptyString
  | String c s' => String (lower_char c) (lower s')
  end.

Lemma str_app_assoc (s t u : string) : (s +:+ t) +:+ u = s +:+ (t +:+ u).
Proof. induction s as [|c s IH]; [done|]. exact (f_equal (String c) IH). Qed.
Lemma str_app_empty_r (s : string) : s +:+ EmptyString = s.
Proof. induction s as [|c s IH]; [done|]. exact (f_equal (String c) IH). Qed.

Lemma lower_char_idem c : lower_char (lower_char c) = lower_char c.
Proof. destruct c as [[] [] [] [] [] [] [] []]; reflexivity. Qed.

Lemma lower_idem s : lower (lower s) = lower s.
Proof. induction s as [|c s IH]; simpl; [done|]. by rewrite lower_char_idem, IH. Qed.

Lemma str_len_lower s : str_len (lower s) = str_len s.
Proof.
  unfold str_len. f_equal. induction s as [|c s IH]; simpl; [done|]. by rewrite IH.
Qed.

Lemma all_chars_app p s t : all_chars p (s +:+ t) = all_chars p s && all_chars p t.
Proof.
  induction s as [|c s IH]; [done|].
  change (all_chars p (String c s +:+ t)) with (p c && all_chars p (s +:+ t)).
  rewrite IH. simpl. by rewrite andb_assoc.
Qed.
Lemma all_chars_weaken (p q : ascii → bool) s :
  (∀ c, p c = true → q c = true) → all_chars p s = true → all_chars q s = true.
Proof.
  intros Hpq. induction s as [|c s IH]; [done|]. simpl. intros [? ?]%andb_true_iff.
  apply andb_true_iff. auto.
Qed.

Lemma all_chars_lower p s :
  (∀ c, p c = true → p (lower_char c) = true) → all_chars p s = true →
  all_chars p (lower s) = true.
Proof.
  intros Hp. induction s as [|c s IH]; simpl; [done|].
  intros [? ?]%andb_true_iff. apply andb_true_iff. auto.
Qed.

(** A string [0x] followed by exactly [n] characters that satisfy [p]. *)
Definition is_prefixed (p : ascii → bool) (n : Z) (s : string) : bool :=
  match s with
  | String c0 (String c1 body) =>
      Ascii.eqb c0 "0" && Ascii.eqb c1 "x" && (str_len body =? n) && all_chars p body
  | _ => false
  end.

Lemma is_prefixed_len p n s : is_prefixed p n s = true → str_len s = n + 2.
Proof.
  unfold is_prefixed. destruct s as [|c0 [|c1 s]]; try done.
  intros H. bool_inv. subst n. unfold str_len. simpl. lia.
Qed.

Lemma is_prefixed_lower p n s :
  (∀ c, p c = true → p (lower_char c) = true) →
  is_prefixed p n s = true → is_prefixed p n (lower s) = true.
Proof.
  intros Hp. unfold is_prefixed. destruct s as [|c0 [|c1 s]]; try done.
  simpl. intros H. bool_inv.
  repeat match goal with H : Ascii.eqb _ _ = true |- _ => apply Ascii.eqb_eq in H end.
  subst. rewrite str_len_lower, all_chars_lower by done.
  by rewrite Z.eqb_refl.
Qed.

(** Bytes and their lower-case hexadecimal rendering ([bytes.hex]). *)
Abbreviation bytes := (list byte).
#[export] Instance byte_eq_dec : EqDecision byte := Byte.byte_eq_dec.
#[export] Program Instance byte_countable : Countable byte :=
  inj_countable Byte.to_N Byte.of_N _.
Next Obligation. apply Byte.of_to_N. Qed.

Definition hex_digit (n : N) : ascii :=
  ascii_of_N (if (n <? 10)%N then 48 + n else 87 + n).
Definition hex_byte (b : byte) (s : string) : string :=
  let n := Byte.to_N b in
  String (hex_digit (n / 16)) (String (hex_digit (n mod 16)) s).
Fixpoint hex (bs : bytes) : string :=
  match bs with
  | [] => EmptyString
  | b :: bs' => hex_byte b (hex bs')
  end.
Definition zeros (n : nat) : bytes := replicate n x00.

Definition blen (bs : bytes) : Z := Z.of_nat (length bs).

Lemma str_len_hex bs : str_len (hex bs) = 2 * blen bs.
Proof.
  unfold str_len, blen. induction bs as [|b bs IH]; [done|]. simpl in *. lia.
Qed.

(** ** Hexadecimal text *)

(** The value of a hexadecimal digit. *)
Definition hex_value (c : ascii) : option Z :=
  let n := code c in
  if (48 <=? n) && (n <=? 57) then Some (n - 48)
  else if (97 <=? n) && (n <=? 102) then Some (n - 87)
  else if (65 <=? n) && (n <=? 70) then Some (n - 55) else None.

(** The number hexadecimal digits stand for, continuing from [acc]. *)
Fixpoint hex_number (acc : Z) (s : string) : option Z :=
  match s with
  | EmptyString => Some acc
  | String c s' => v ← hex_value c; hex_number (acc * 16 + v) s'
  end.

(** The blanks [bytes.fromhex] skips. *)
Definition is_blank (c : ascii) : bool := (code c =? 32) || ((9 <=? code c) && (code c <=? 13)).

(** [bytes.fromhex(s)]. *)
Fixpoint from_hex (s : string) : option bytes :=
  match s with
  | EmptyString => Some []
  | String c s' =>
      if is_blank c then from_hex s'
      else match s' with
           | String c' s'' =>
               high ← hex_value c;
               low ← hex_value c';
               b ← Byte.of_N (Z.to_N (high * 16 + low));
               bs ← from_hex s'';
               Some (b :: bs)
           | EmptyString => None
           end
  end.
Definition bytes_fromhex (s : string) : result bytes :=
  from_option_or (from_hex s) (ValueError "non-hexadecimal number found in fromhex()").

(** [raw[i:j]]. *)
Definition slice (raw : bytes) (i j : nat) : bytes := take (j - i) (drop i raw).

(** [hex(value)] of a non-negative integer, without its [0x]. *)
Fixpoint hex_digits (fuel : nat) (n : Z) (s : string) : string :=
  match fuel with
  | O => s
  | S fuel' =>
      let s' := String (hex_digit (Z.to_N (n mod 16))) s in
      if (n <? 16)%Z then s' else hex_digits fuel' (n / 16)%Z s'
  end.
Definition hex_of (n : Z) : string := hex_digits (S (Z.to_nat (Z.log2 n))) n EmptyString.
(** [hex(value)]. *)
Definition py_hex (n : Z) : string :=
  (if (n <? 0)%Z then "-0x" else "0x")%string +:+ hex_of (Z.abs n).

(** ** Bytes of integers *)

Definition byte_value (b : byte) : Z := Z.of_N (Byte.to_N b).
(** [int.from_bytes(bs, "big")]. *)
Definition be_value (bs : bytes) : Z := fold_left (λ acc b, acc * 256 + byte_value b) bs 0.

Lemma byte_value_range b : 0 <= byte_value b < 256.
Proof. unfold byte_value. pose proof (Byte.to_N_bounded b). lia. Qed.

Lemma byte_value_inj b b' : byte_value b = byte_value b' → b = b'.
Proof.
  unfold byte_value. intros Hb%N2Z.inj.
  pose proof (Byte.of_to_N b) as H1. rewrite Hb, Byte.of_to_N in H1. by injection H1.
Qed.

(** [value.to_bytes(n, "big")]. *)
Fixpoint be_bytes (n : nat) (value : Z) : bytes :=
  match n with
  | O => []
  | S n' => be_bytes n' (value / 256) ++ [default x00 (Byte.of_N (Z.to_N (value mod 256)))]
  end.

Lemma be_value_snoc bs b : be_value (bs ++ [b]) = be_value bs * 256 + byte_value b.
Proof. unfold be_value. by rewrite fold_left_app. Qed.

Lemma be_value_range bs : 0 <= be_value bs < 256 ^ Z.of_nat (length bs).
Proof.
  induction bs as [|b bs IH] using rev_ind; [done|].
  rewrite be_value_snoc, length_app. pose proof (byte_value_range b). simpl.
  replace (Z.of_nat (length bs + 1)) with (Z.of_nat (length bs) + 1) by lia.
  rewrite Z.pow_add_r by lia. nia.
Qed.

(** The bytes of the value are the bytes. *)
Lemma be_bytes_value bs : be_bytes (length bs) (be_value bs) = bs.
Proof.
  induction bs as [|b bs IH] using rev_ind; [done|].
  rewrite be_value_snoc, length_app, Nat.add_comm. simpl.
  pose proof (byte_value_range b).
  rewrite Z.div_add_l, Z.div_small, Z.add_0_r, IH by lia. f_equal.
  rewrite Z.add_comm, Z.mod_add, Z.mod_small by lia.
  unfold byte_value. rewrite N2Z.id, Byte.of_to_N. done.
Qed.

Lemma be_bytes_length n v : length (be_bytes n v) = n.
Proof. revert v. induction n as [|n IH]; intros v; [done|]. simpl. rewrite length_app, IH. simpl. lia. Qed.

(** [int.from_bytes(value.to_bytes(n, "big"), "big") == value]. *)
Lemma be_value_bytes n v : 0 <= v < 256 ^ Z.of_nat n → be_value (be_bytes n v) = v.
Proof.
  revert v. induction n as [|n IH]; intros v Hv; [unfold be_value; simpl in *; lia|]. cbn [be_bytes].
  rewrite be_value_snoc. rewrite Nat2Z.inj_succ, Z.pow_succ_r in Hv by lia.
  rewrite IH by (split; [apply Z.div_pos|apply Z.div_lt_upper_bound]; lia).
  assert (0 <= v mod 256 < 256) as Hm by (apply Z.mod_pos_bound; lia).
  assert (byte_value (default x00 (Byte.of_N (Z.to_N (v mod 256)))) = v mod 256) as ->.
  { destruct (Byte.of_N _) as [b|] eqn:E; simpl.
    - apply Byte.to_of_N in E. unfold byte_value. rewrite E. lia.
    - exfalso. destruct (Byte.of_N_None_iff (Z.to_N (v mod 256))) as [Hn _].
      specialize (Hn E). lia. }
  pose proof (Z.div_mod v 256). lia.
Qed.

(** ** Decimal integers *)

(** [int(s)] of a string of decimal digits, continuing from [acc]. *)
Fixpoint digits_value (acc : Z) (s : string) : Z :=
  match s with
  | EmptyString => acc
  | String c s' => digits_value (acc * 10 + (code c - 48)) s'
  end.

(** [s.isdigit()] on ASCII, then [int(s)]; anything else raises. *)
Definition parse_digits (s : string) : option Z :=
  if negb (bool_decide (s = EmptyString)) && all_chars is_digit s
  then Some (digits_value 0 s) else None.

Lemma digits_value_go n s :
  digits_value 0 (pretty_N_go n s) = digits_value (Z.of_N n) s.
Proof.
  revert s. induction (N.lt_wf_0 n) as [n _ IH]; intros s.
  destruct (decide (0 < n)%N) as [Hn|Hn].
  - rewrite pretty_N_go_step by done. rewrite IH by (apply N.div_lt; lia).
    simpl. f_equal.
    assert (code (pretty_N_char (n `mod` 10)) = 48 + Z.of_N (n `mod` 10)) as ->.
    { assert (n `mod` 10 < 10)%N as Hm by (apply N.mod_lt; lia).
      destruct (n `mod` 10)%N as [|[[[[]|[]|]|[[]|[]|]|]|[[[]|[]|]|[[]|[]|]|]|]];
        try lia; reflexivity. }
    rewrite N2Z.inj_div, N2Z.inj_mod.
    pose proof (Z.div_mod (Z.of_N n) 10). lia.
  - assert (n = 0)%N as -> by lia. by rewrite pretty_N_go_0.
Qed.

(** [int(str(z)) == z] for a non-negative integer. *)
Lemma digits_value_pretty z : 0 <= z → digits_value 0 (pretty z) = z.
Proof.
  intros Hz. destruct z as [|p|p]; [done| |lia].
  change (pretty (Zpos p)) with (pretty (Npos p)).
  unfold pretty, pretty_N. case_decide; [done|]. by rewrite digits_value_go.
Qed.

(** [str(z)] of a non-negative integer is made of digits. *)
Lemma pretty_N_go_digits n s :
  all_chars is_digit s = true → all_chars is_digit (pretty_N_go n s) = true.
Proof.
  revert s. induction (N.lt_wf_0 n) as [n _ IH]; intros s Hs.
  destruct (decide (0 < n)%N) as [Hn|Hn].
  - rewrite pretty_N_go_step by done. apply IH; [apply N.div_lt; lia|].
    simpl. rewrite Hs, andb_true_r.
    assert (n `mod` 10 < 10)%N as Hm by (apply N.mod_lt; lia).
    destruct (n `mod` 10)%N as [|[[[[]|[]|]|[[]|[]|]|]|[[[]|[]|]|[[]|[]|]|]|]];
      try lia; reflexivity.
  - assert (n = 0)%N as -> by lia. by rewrite pretty_N_go_0.
Qed.

(** [str(z)] parses back to [z]. *)
Lemma parse_digits_pretty z : 0 <= z → parse_digits (pretty z) = Some z.
Proof.
  intros Hz. unfold parse_digits. rewrite digits_value_pretty by done.
  assert (all_chars is_digit (pretty z) = true ∧ pretty z ≠ EmptyString) as [-> Hne].
  { destruct z as [|p|p]; [done| |lia].
    change (pretty (Zpos p)) with (pretty (Npos p)). unfold pretty, pretty_N.
    case_decide; [done|]. split; [by apply pretty_N_go_digits|].
    intros E. assert (digits_value 0 (pretty_N_go (Npos p) EmptyString) = 0) as Hd by by rewrite E.
    rewrite digits_value_go in Hd. simpl in Hd. lia. }
  by rewrite bool_decide_eq_false_2.
Qed.
