(* ===== verification/PyValue.v ===== *)
(** * Python values

    JSON values as Python holds them, ordered dictionaries with Python's
    equality, [json.dumps] with sorted keys, and the text functions ([str],
    [lower], [join]) the modelled code applies to them. *)

From S2P Require Import Prelude.
From Stdlib Require Import Ascii.

(** ** Values *)

(** The JSON-shaped values that cross the program's boundaries.  A [dict] keeps
    its keys in insertion order; its keys are strings. *)
Inductive pyval : Type :=
| PNone
| PBool (b : bool)
| PInt (z : Z)
| PStr (s : string)
| PList (l : list pyval)
| PDict (d : list (string * pyval)).

Abbreviation pydict := (list (string * pyval)).

(** The [isinstance] tests the source uses. *)
Definition is_none (v : pyval) : bool := match v with PNone => true | _ => false end.
Definition is_str (v : pyval) : bool := match v with PStr _ => true | _ => false end.
Definition is_list (v : pyval) : bool := match v with PList _ => true | _ => false end.
Definition is_dict (v : pyval) : bool := match v with PDict _ => true | _ => false end.
Definition is_bool (v : pyval) : bool := match v with PBool _ => true | _ => false end.
(** [value is True] and [value is False]. *)
Definition is_true (v : pyval) : bool := match v with PBool true => true | _ => false end.
Definition is_false (v : pyval) : bool := match v with PBool false => true | _ => false end.

(** ** Dictionaries *)

(** [d.get(k)]: the value of a key, [None] when the key is absent. *)
Fixpoint dict_find {V} (d : list (string * V)) (k : string) : option V :=
  match d with
  | [] => None
  | (k', v) :: d' => if bool_decide (k = k') then Some v else dict_find d' k
  end.
Definition dict_get (d : pydict) (k : string) : pyval :=
  default PNone (dict_find d k).
Definition dict_get_or (d : pydict) (k : string) (v : pyval) : pyval :=
  default v (dict_find d k).
(** [d[k]], which raises [KeyError] when the key is absent. *)
Definition dict_item (d : pydict) (k : string) : result pyval :=
  from_option_or (dict_find d k) (KeyError k).
(** [d[k] = v], also [{**d, k: v}]: an existing key keeps its position. *)
Fixpoint dict_set {V} (d : list (string * V)) (k : string) (v : V)
    : list (string * V) :=
  match d with
  | [] => [(k, v)]
  | (k', v') :: d' =>
      if bool_decide (k = k') then (k', v) :: d' else (k', v') :: dict_set d' k v
  end.
(** [d.pop(k, None)]. *)
Definition dict_pop {V} (d : list (string * V)) (k : string) : list (string * V) :=
  filter (λ kv, kv.1 ≠ k) d.
Definition dict_keys {V} (d : list (string * V)) : list string := d.*1.
(** [set(d) == {...}] *)
Definition same_keys (ks ks' : list string) : bool :=
  bool_decide ((list_to_set ks : gset string) = list_to_set ks').

Section Dict.
Context {V : Type}.
Implicit Types (d : list (string * V)).

Lemma dict_find_set d k k' v :
  dict_find (dict_set d k v) k' = if decide (k' = k) then Some v else dict_find d k'.
Proof.
  induction d as [|[k0 v0] d IH]; simpl.
  - repeat case_bool_decide; repeat case_decide; congruence.
  - repeat (case_bool_decide; simpl); repeat case_decide; subst; try congruence;
      rewrite ?IH; repeat case_decide; congruence.
Qed.

Lemma dict_find_set_eq d k v : dict_find (dict_set d k v) k = Some v.
Proof. rewrite dict_find_set. by case_decide. Qed.

Lemma dict_find_set_ne d k k' v : k' ≠ k → dict_find (dict_set d k v) k' = dict_find d k'.
Proof. intros ?. rewrite dict_find_set. by case_decide. Qed.

Lemma dict_find_pop d k k' :
  dict_find (dict_pop d k) k' = if decide (k' = k) then None else dict_find d k'.
Proof.
  unfold dict_pop. induction d as [|[k0 v0] d IH]; simpl.
  - by case_decide.
  - rewrite filter_cons; simpl. repeat (case_decide || case_bool_decide);
      subst; simpl; rewrite ?IH; repeat (case_decide || case_bool_decide); congruence.
Qed.
End Dict.

Lemma dict_get_set d k k' v :
  dict_get (dict_set d k v) k' = if decide (k' = k) then v else dict_get d k'.
Proof. unfold dict_get. rewrite dict_find_set. by case_decide. Qed.

Lemma dict_get_pop d k k' :
  dict_get (dict_pop d k) k' = if decide (k' = k) then PNone else dict_get d k'.
Proof. unfold dict_get. rewrite dict_find_pop. by case_decide. Qed.

(** ** Equality

    Python's [==]: [True == 1] and [False == 0], and two dictionaries are equal
    when they bind the same keys to equal values, in any order. *)
Definition bool_int (b : bool) : Z := if b then 1 else 0.

Fixpoint py_eqb (a b : pyval) {struct a} : bool :=
  match a, b with
  | PNone, PNone => true
  | PBool x, PBool y => Bool.eqb x y
  | PInt x, PInt y => x =? y
  | PBool x, PInt y => bool_int x =? y
  | PInt x, PBool y => x =? bool_int y
  | PStr s, PStr t => bool_decide (s = t)
  | PList l, PList m =>
      (fix go (l m : list pyval) {struct l} : bool :=
         match l, m with
         | [], [] => true
         | x :: l', y :: m' => py_eqb x y && go l' m'
         | _, _ => false
         end) l m
  | PDict d, PDict e =>
      (Nat.eqb (length d) (length e)) &&
      (fix go (d : list (string * pyval)) {struct d} : bool :=
         match d with
         | [] => true
         | (k, v) :: d' =>
             match dict_find e k with
             | Some w => py_eqb v w
             | None => false
             end && go d'
         end) d
  | _, _ => false
  end.

(** [d == e] on dictionaries and [l == m] on lists. *)
Definition dict_eqb (d e : pydict) : bool := py_eqb (PDict d) (PDict e).
Definition list_eqb (l m : list pyval) : bool := py_eqb (PList l) (PList m).

(** [value in {x1, ..., xn}]. *)
Definition py_in (v : pyval) (l : list pyval) : bool := existsb (py_eqb v) l.
Definition strs : list string → list pyval := map PStr.

(** A list or a dict cannot be hashed: [value in {x1, ..., xn}] raises. *)
Definition py_hashable (v : pyval) : bool := negb (is_list v || is_dict v).
Definition in_set (v : pyval) (l : list pyval) : result bool :=
  if py_hashable v then Ok (py_in v l) else Err (TypeError "unhashable type").

(** [bool(v)]. *)
Definition py_truthy (v : pyval) : bool :=
  match v with
  | PNone => false
  | PBool b => b
  | PInt z => negb (z =? 0)
  | PStr s => negb (bool_decide (s = EmptyString))
  | PList l => negb (bool_decide (length l = 0%nat))
  | PDict d => negb (bool_decide (length d = 0%nat))
  end.

(** [str(v)].  The texts of containers are only compared with addresses; of
    them the model keeps the opening bracket, which no address starts with. *)
Definition py_str (v : pyval) : string :=
  match v with
  | PNone => "None"
  | PBool true => "True"
  | PBool false => "False"
  | PInt z => pretty z
  | PStr s => s
  | PList _ => "["
  | PDict _ => "{"
  end.

(** An induction principle that reaches the values inside lists and dicts. *)
Section PyvalInd.
Variable P : pyval → Prop.
Hypothesis HNone : P PNone.
Hypothesis HBool : ∀ b, P (PBool b).
Hypothesis HInt : ∀ z, P (PInt z).
Hypothesis HStr : ∀ s, P (PStr s).
Hypothesis HList : ∀ l, Forall P l → P (PList l).
Hypothesis HDict : ∀ d, Forall (λ kv, P kv.2) d → P (PDict d).

Fixpoint pyval_rect_nested (v : pyval) : P v :=
  match v with
  | PNone => HNone
  | PBool b => HBool b
  | PInt z => HInt z
  | PStr s => HStr s
  | PList l => HList l
      ((fix go l : Forall P l :=
          match l with
          | [] => Forall_nil_2 _
          | x :: l' => Forall_cons_2 _ _ _ (pyval_rect_nested x) (go l')
          end) l)
  | PDict d => HDict d
      ((fix go d : Forall (λ kv, P kv.2) d :=
          match d with
          | [] => Forall_nil_2 _
          | kv :: d' => Forall_cons_2 _ _ _ (pyval_rect_nested kv.2) (go d')
          end) d)
  end.
End PyvalInd.

(** A value whose dictionaries have distinct keys, as every Python dict does. *)
Fixpoint py_wf (v : pyval) : Prop :=
  match v with
  | PList l => (fix go l := match l with [] => True | x :: l' => py_wf x ∧ go l' end) l
  | PDict d =>
      NoDup (d.*1) ∧
      (fix go (d : list (string * pyval)) :=
         match d with [] => True | kv :: d' => py_wf kv.2 ∧ go d' end) d
  | _ => True
  end.

Lemma dict_find_member {V} (d : list (string * V)) k v :
  NoDup (d.*1) → (k, v) ∈ d → dict_find d k = Some v.
Proof.
  induction d as [|[k0 v0] d IH]; intros Hnd Hin; simpl in *.
  - by apply elem_of_nil in Hin.
  - apply NoDup_cons in Hnd as [Hk0 Hnd].
    apply elem_of_cons in Hin as [[= -> ->]|Hin]; case_bool_decide; try done.
    + subst k0. destruct Hk0. apply list_elem_of_fmap. by exists (k, v).
    + by apply IH.
Qed.
Lemma dict_find_in {V} (d : list (string * V)) k v : dict_find d k = Some v → (k, v) ∈ d.
Proof.
  induction d as [|[k0 v0] d IH]; simpl; [done|].
  case_bool_decide; [intros [= <-]; subst; left|intros; right; auto].
Qed.
Lemma dict_find_entry {V} (d : list (string * V)) k v :
  NoDup (dict_keys d) → ((k, v) ∈ d ↔ dict_find d k = Some v).
Proof. split; [by apply dict_find_member|apply dict_find_in]. Qed.

Lemma dict_keys_set {V} (d : list (string * V)) k v :
  NoDup (dict_keys d) → NoDup (dict_keys (dict_set d k v)).
Proof.
  intros Hd. assert (dict_keys (dict_set d k v) = dict_keys d ∨
    k ∉ dict_keys d ∧ dict_keys (dict_set d k v) = dict_keys d ++ [k]) as [->|[Hk ->]]; [|done|].
  - clear Hd. induction d as [|[k0 v0] d IH]; simpl; [right; split; [apply not_elem_of_nil|done]|].
    case_bool_decide as Hk; simpl; [by left; subst|].
    destruct IH as [->|[Hn ->]]; [by left|right]. split; [|done].
    by apply not_elem_of_cons.
  - apply NoDup_app. split_and!; [done| |apply NoDup_singleton].
    intros k' Hk' ->%list_elem_of_singleton. done.
Qed.

Lemma dict_eq_go_intro (d e : list (string * pyval)) :
  Forall (λ kv, ∃ w, dict_find e kv.1 = Some w ∧ py_eqb kv.2 w = true) d →
  (fix go (d : list (string * pyval)) {struct d} : bool :=
     match d with
     | [] => true
     | (k, v) :: d' =>
         match dict_find e k with Some w => py_eqb v w | None => false end && go d'
     end) d = true.
Proof.
  induction 1 as [|[k v] d (w & Hw & Hv) _ IH]; [done|]. simpl in *.
  by rewrite Hw, Hv, IH.
Qed.

Lemma py_eqb_refl v : py_wf v → py_eqb v v = true.
Proof.
  induction v as [| | | |l IH|d IH] using pyval_rect_nested; simpl; try done.
  - intros _. apply Bool.eqb_reflx.
  - intros _. apply Z.eqb_refl.
  - intros _. by apply bool_decide_eq_true.
  - induction IH as [|x l Hx _ IHl]; [done|]. intros [? ?]. by rewrite Hx, IHl.
  - intros [Hnd Hwf]. rewrite Nat.eqb_refl. simpl. apply dict_eq_go_intro.
    assert (Forall (λ kv : string * pyval, py_eqb kv.2 kv.2 = true) d) as Hd.
    { clear Hnd. induction IH as [|kv d Hkv _ IHd]; constructor; naive_solver. }
    rewrite Forall_forall in Hd |- *. intros [k w] Hin. exists w. split.
    + by apply dict_find_member.
    + exact (Hd (k, w) Hin).
Qed.

(** Equal dictionaries bind a key of the first to equal values. *)
Lemma dict_eqb_find d e k v :
  dict_eqb d e = true → dict_find d k = Some v →
  ∃ w, dict_find e k = Some w ∧ py_eqb v w = true.
Proof.
  unfold dict_eqb. simpl. intros [_ Hgo]%andb_true_iff.
  induction d as [|[k' v'] d IH]; simpl; [done|].
  apply andb_true_iff in Hgo as [Hv Hgo]. case_bool_decide as Hk; [|auto].
  intros [= <-]. subst k'. destruct (dict_find e k) as [w|]; [eauto|done].
Qed.

Lemma py_eqb_str s w : py_eqb (PStr s) w = true → w = PStr s.
Proof. destruct w; try done. simpl. intros ->%bool_decide_eq_true. done. Qed.

(** ** Canonical JSON

    [json.dumps(v, sort_keys=True, separators=(",", ":"), ensure_ascii=True)]. *)
Definition u_escape (c : ascii) : string :=
  let n := N_of_ascii c in
  String "\" (String "u" (String "0" (String "0"
    (String (hex_digit (n / 16)) (String (hex_digit (n mod 16)) EmptyString))))).

Definition json_char (c : ascii) : string :=
  let n := code c in
  if n =? 34 then String "\" (String c EmptyString)
  else if n =? 92 then String "\" (String c EmptyString)
  else if n =? 8 then String "\" (String "b" EmptyString)
  else if n =? 9 then String "\" (String "t" EmptyString)
  else if n =? 10 then String "\" (String "n" EmptyString)
  else if n =? 12 then String "\" (String "f" EmptyString)
  else if n =? 13 then String "\" (String "r" EmptyString)
  else if (32 <=? n) && (n <=? 126) then String c EmptyString
  else u_escape c.

Fixpoint json_chars (s : string) : string :=
  match s with
  | EmptyString => EmptyString
  | String c s' => json_char c +:+ json_chars s'
  end.

Definition quote : string := String (ascii_of_N 34) EmptyString.
Definition json_str (s : string) : string := quote +:+ json_chars s +:+ quote.

(** Sorting the members of an object by key, in code-point order. *)
Fixpoint insert_member (kv : string * string) (l : list (string * string))
    : list (string * string) :=
  match l with
  | [] => [kv]
  | kv' :: l' => if String.leb kv.1 kv'.1 then kv :: l else kv' :: insert_member kv l'
  end.
Definition sort_members (l : list (string * string)) : list (string * string) :=
  foldr insert_member [] l.

Fixpoint join (sep : string) (l : list string) : string :=
  match l with
  | [] => EmptyString
  | [x] => x
  | x :: l' => x +:+ sep +:+ join sep l'
  end.

Definition json_object (members : list (string * string)) : string :=
  "{" +:+ join "," (map (λ kv, json_str kv.1 +:+ ":" +:+ kv.2) (sort_members members))
  +:+ "}".

Fixpoint json_dumps (v : pyval) : string :=
  match v with
  | PNone => "null"
  | PBool true => "true"
  | PBool false => "false"
  | PInt z => pretty z
  | PStr s => json_str s
  | PList l => "[" +:+ join "," (map json_dumps l) +:+ "]"
  | PDict d => json_object (map (λ kv, (kv.1, json_dumps kv.2)) d)
  end.

(** [hashlib.sha256(text.encode()).hexdigest()]. *)
Class Sha256 := sha256_hex : string → string.

(** ["0x" + hashlib.sha256(canonical_json.encode("utf-8")).hexdigest()]. *)
Definition json_digest `{Sha256} (v : pyval) : string := "0x" +:+ sha256_hex (json_dumps v).
