(* ===== verification/Calendar.v ===== *)
(** * Civil dates and ISO 8601 text

    The part of Python's [datetime] the funding ledger uses: the date of an
    instant, [isoformat] and [fromisoformat].  An instant is a number of
    microseconds since 1970-01-01T00:00:00 UTC, a date a number of days. *)

From S2P Require Import Prelude.
From Stdlib Require Import Ascii.

Open Scope Z_scope.

(** ** Days and civil dates (proleptic Gregorian calendar) *)

Definition is_leap (y : Z) : bool :=
  (y mod 4 =? 0) && (negb (y mod 100 =? 0) || (y mod 400 =? 0)).

Definition days_in_month (y m : Z) : Z :=
  if m =? 2 then (if is_leap y then 29 else 28)
  else if (m =? 4) || (m =? 6) || (m =? 9) || (m =? 11) then 30 else 31.

(** [date(y, m, d)] is defined. *)
Definition valid_date (y m d : Z) : bool :=
  (1 <=? y) && (y <=? 9999) && (1 <=? m) && (m <=? 12) && (1 <=? d)
  && (d <=? days_in_month y m).

(** Years counted from March, so that the leap day comes last; an era is 400 of
    them. *)
Definition era_days : Z := 146097.
Definition epoch_shift : Z := 719468.

Definition day_of_era (yoe mp d : Z) : Z :=
  yoe * 365 + yoe / 4 - yoe / 100 + ((153 * mp + 2) / 5 + d - 1).

Definition days_of_date (y m d : Z) : Z :=
  let y' := if m <=? 2 then y - 1 else y in
  let era := y' / 400 in
  era * era_days + day_of_era (y' - era * 400) ((m + 9) mod 12) d - epoch_shift.

(** The month, counted from March, and the day of a day of the year. *)
Definition month_of_year (doy : Z) : Z * Z :=
  let mp := (5 * doy + 2) / 153 in (mp, doy - (153 * mp + 2) / 5 + 1).

(** Year of the era and day of the year: centuries, groups of four years and
    years are taken off in turn, the last of each being a day longer. *)
Definition year_of_era (doe : Z) : Z * Z :=
  let century := Z.min (doe / 36524) 3 in
  let r := doe - century * 36524 in
  let r' := r mod 1461 in
  let year := Z.min (r' / 365) 3 in
  (century * 100 + r / 1461 * 4 + year, r' - year * 365).

(** Year of the era, month and day of a day of the era. *)
Definition civil_of_era (doe : Z) : Z * Z * Z :=
  let '(yoe, doy) := year_of_era doe in
  let '(mp, d) := month_of_year doy in
  (yoe, (if mp <? 10 then mp + 3 else mp - 9), d).

Definition date_of_days (z : Z) : Z * Z * Z :=
  let '(yoe, m, d) := civil_of_era ((z + epoch_shift) mod era_days) in
  let y := yoe + (z + epoch_shift) / era_days * 400 in
  ((if m <=? 2 then y + 1 else y), m, d).

(** The first and the last day Python's [date] knows. *)
Definition min_day : Z := -719162.
Definition max_day : Z := 2932896.

(** What holds of every day of the year, checked by computation. *)
Definition day_of_year_ok (doy : Z) : bool :=
  let '(mp, d) := month_of_year doy in
  let m := if mp <? 10 then mp + 3 else mp - 9 in
  (0 <=? mp) && (mp <? 12) && (1 <=? d) && ((m + 9) mod 12 =? mp)
  && ((153 * mp + 2) / 5 + d - 1 =? doy)
  && (d <=? days_in_month (if doy =? 365 then 4 else 1) m)
  && Bool.eqb (m <=? 2) (306 <=? doy) && (1 <=? m) && (m <=? 12)
  && ((doy <? 365) || (m =? 2)).

Lemma day_of_year_all doy : 0 <= doy < 366 → day_of_year_ok doy = true.
Proof.
  intros Hd. assert (forallb day_of_year_ok (seqZ 0 366) = true) as Hall by reflexivity.
  rewrite forallb_forall in Hall. apply Hall, list_elem_of_In, elem_of_seqZ. lia.
Qed.

(** The year and the day of the year of a day of the era. *)
Lemma year_of_era_spec doe :
  0 <= doe < era_days →
  let '(yoe, doy) := year_of_era doe in
  0 <= yoe < 400 ∧ 0 <= doy < 366 ∧
  yoe * 365 + yoe / 4 - yoe / 100 + doy = doe ∧
  (doy = 365 → is_leap (yoe + 1) = true).
Proof.
  unfold era_days, year_of_era. intros Hdoe.
  set (c := Z.min (doe / 36524) 3). set (r := doe - c * 36524).
  assert (0 <= c <= 3 ∧ 0 <= r <= 36524 ∧ (r = 36524 → c = 3)) as (Hc & Hr & Hr3)
    by (subst c r; Z.to_euclidean_division_equations; lia).
  assert (0 <= r / 1461 <= 24 ∧ 0 <= r mod 1461 < 1461 ∧ r = 1461 * (r / 1461) + r mod 1461)
    as (Hq & Hr' & Hrq) by (Z.to_euclidean_division_equations; lia).
  set (q := r / 1461) in *. set (r' := r mod 1461) in *.
  set (y := Z.min (r' / 365) 3).
  assert (0 <= y <= 3 ∧ 0 <= r' - y * 365 <= 365 ∧ (r' - y * 365 = 365 → y = 3))
    as (Hy & Hdoy & Hy3) by (subst y; Z.to_euclidean_division_equations; lia).
  assert ((c * 100 + q * 4 + y) / 4 = c * 25 + q) as ->
    by (Z.to_euclidean_division_equations; lia).
  assert ((c * 100 + q * 4 + y) / 100 = c) as ->
    by (Z.to_euclidean_division_equations; lia).
  split_and!; try (subst r; lia).
  intros Hlast. specialize (Hy3 Hlast). unfold is_leap. rewrite Hy3.
  apply andb_true_intro. split; [apply Z.eqb_eq; Z.to_euclidean_division_equations; lia|].
  apply orb_true_iff. destruct (decide (q = 24)) as [->|].
  - right. assert (c = 3) as -> by (apply Hr3; lia). reflexivity.
  - left. apply negb_true_iff, Z.eqb_neq. Z.to_euclidean_division_equations; lia.
Qed.

(** What holds of every day of the era. *)
Definition era_day_ok (doe : Z) : bool :=
  let '(yoe, m, d) := civil_of_era doe in
  (0 <=? yoe) && (yoe <? 400) && (1 <=? m) && (m <=? 12) && (1 <=? d)
  && (d <=? days_in_month (if m <=? 2 then yoe + 1 else yoe) m)
  && (day_of_era yoe ((m + 9) mod 12) d =? doe)
  && ((doe <? 306) || (1 <=? (if m <=? 2 then yoe + 1 else yoe)))
  && ((146036 <? doe) || ((if m <=? 2 then yoe + 1 else yoe) <=? 399)).

Lemma days_in_month_common y m : days_in_month 1 m <= days_in_month y m.
Proof. unfold days_in_month. change (is_leap 1) with false. repeat case_match; lia. Qed.

Lemma era_days_ok k : 0 <= k < era_days → era_day_ok k = true.
Proof.
  intros Hk. pose proof (year_of_era_spec k Hk) as Hy. unfold era_day_ok, civil_of_era.
  destruct (year_of_era k) as [yoe doy]. destruct Hy as (Hyoe & Hdoy & Hk' & Hleap).
  pose proof (day_of_year_all doy Hdoy) as Hok. unfold day_of_year_ok in Hok.
  destruct (month_of_year doy) as [mp d]. set (m := if mp <? 10 then mp + 3 else mp - 9) in *.
  rewrite !andb_true_iff, orb_true_iff, !Z.leb_le, !Z.ltb_lt, !Z.eqb_eq in Hok.
  destruct Hok as [[[[[[[[[Hmp0 Hmp] Hd1] Hmod] Hday] Hdim] Hearly] Hm1] Hm12] Hlast].
  apply Bool.eqb_prop in Hearly.
  rewrite !andb_true_iff, !orb_true_iff, !Z.leb_le, !Z.ltb_lt, Z.eqb_eq.
  assert (d <= days_in_month (if m <=? 2 then yoe + 1 else yoe) m) as Hd.
  { destruct (doy =? 365) eqn:E.
    - apply Z.eqb_eq in E. assert (m = 2) as Hm2 by lia. rewrite Hm2 in *. simpl.
      unfold days_in_month in *. simpl in *. by rewrite (Hleap E).
    - etrans; [exact Hdim|apply days_in_month_common]. }
  unfold day_of_era. rewrite Hmod. repeat split; try lia.
  - rewrite Hearly. destruct (306 <=? doy) eqn:E; [right; lia|].
    apply Z.leb_gt in E. destruct (decide (yoe = 0)) as [->|]; [left|right; lia].
    change (0 * 365 + 0 / 4 - 0 / 100) with 0 in Hk'. lia.
  - rewrite Hearly. destruct (306 <=? doy) eqn:E; [|right; lia].
    apply Z.leb_le in E. destruct (decide (yoe = 399)) as [->|]; [left|right; lia].
    change (399 * 365 + 399 / 4 - 399 / 100) with 145731 in Hk'. lia.
Qed.

Lemma is_leap_shift y k : is_leap (y + k * 400) = is_leap y.
Proof.
  unfold is_leap. replace (k * 400) with ((k * 100) * 4) at 1 by lia.
  replace (k * 400) with ((k * 4) * 100) at 1 by lia.
  by rewrite !Z.mod_add.
Qed.

Lemma days_in_month_shift y k m : days_in_month (y + k * 400) m = days_in_month y m.
Proof. unfold days_in_month. by rewrite is_leap_shift. Qed.

(** The parts of a date, and the day they name again. *)
Lemma date_of_days_spec z y m d :
  date_of_days z = (y, m, d) →
  1 <= m <= 12 ∧ 1 <= d <= days_in_month y m ∧ days_of_date y m d = z.
Proof.
  unfold date_of_days. set (era := (z + epoch_shift) / era_days).
  assert (0 <= (z + epoch_shift) mod era_days < era_days) as Hmod
    by (apply Z.mod_pos_bound; done).
  pose proof (era_days_ok _ Hmod) as Hok. unfold era_day_ok in Hok.
  destruct (civil_of_era _) as [[yoe m'] d']. intros [= <- <- <-]. bool_inv.
  assert ((if m' <=? 2 then yoe + era * 400 + 1 else yoe + era * 400)
          = (if m' <=? 2 then yoe + 1 else yoe) + era * 400) as -> by (destruct (m' <=? 2); lia).
  rewrite days_in_month_shift. split_and!; try lia. unfold days_of_date.
  assert (((if m' <=? 2 then (if m' <=? 2 then yoe + 1 else yoe) + era * 400 - 1
            else (if m' <=? 2 then yoe + 1 else yoe) + era * 400)) = yoe + era * 400) as ->
    by (destruct (m' <=? 2); lia).
  rewrite Z.div_add, Z.div_small by lia.
  replace (yoe + era * 400 - (0 + era) * 400) with yoe by lia.
  pose proof (Z.div_mod (z + epoch_shift) era_days ltac:(done)). fold era in H. lia.
Qed.

Lemma date_of_days_years z y m d :
  min_day <= z <= max_day → date_of_days z = (y, m, d) → 1 <= y <= 9999.
Proof.
  unfold date_of_days, min_day, max_day. intros Hz.
  assert (0 <= (z + epoch_shift) mod era_days < era_days) as Hmod
    by (apply Z.mod_pos_bound; done).
  pose proof (era_days_ok _ Hmod) as Hok. unfold era_day_ok in Hok.
  pose proof (Z.div_mod (z + epoch_shift) era_days ltac:(done)) as Hdm.
  unfold era_days, epoch_shift in *.
  destruct (civil_of_era _) as [[yoe m'] d']. intros [= <- <- <-]. bool_inv.
  repeat match goal with H : _ || _ = true |- _ => apply orb_true_iff in H end.
  rewrite !Z.ltb_lt, !Z.leb_le in *.
  destruct (m' <=? 2); lia.
Qed.

(** ** Text *)

Definition digit_char (k : Z) : ascii := ascii_of_N (Z.to_N (48 + k mod 10)).
Definition digit_value (c : ascii) : option Z :=
  if is_digit c then Some (code c - 48) else None.

(** [f"{z:0{n}d}"] for [0 <= z < 10 ** n]. *)
Fixpoint padded (n : nat) (z : Z) : string :=
  match n with
  | O => EmptyString
  | S n' => padded n' (z / 10) +:+ String (digit_char z) EmptyString
  end.

(** Take [n] digits off a string. *)
Fixpoint take_digits (n : nat) (acc : Z) (s : string) : option (Z * string) :=
  match n with
  | O => Some (acc, s)
  | S n' =>
      match s with
      | String c s' => k ← digit_value c; take_digits n' (acc * 10 + k) s'
      | EmptyString => None
      end
  end.
Definition take_char (c : ascii) (s : string) : option string :=
  match s with String c' s' => if Ascii.eqb c c' then Some s' else None | EmptyString => None end.

Lemma digit_value_char k : 0 <= k < 10 → digit_value (digit_char k) = Some k.
Proof.
  intros Hk. assert (k ∈ seqZ 0 10) as Hin by (apply elem_of_seqZ; lia).
  revert k Hin Hk. apply (Forall_forall (λ k, 0 <= k < 10 → digit_value (digit_char k) = Some k)).
  repeat constructor.
Qed.

(** Taking one digit more: the last one comes off the rest. *)
Lemma take_digits_S n acc s :
  take_digits (S n) acc s =
  '(a, s') ← take_digits n acc s;
  match s' with
  | String c s'' => k ← digit_value c; Some (a * 10 + k, s'')
  | EmptyString => None
  end.
Proof.
  revert acc s. induction n as [|n IH]; intros acc s.
  - simpl. destruct s as [|c s]; [done|]. by destruct (digit_value c).
  - destruct s as [|c s]; [done|].
    change (take_digits (S (S n)) acc (String c s)) with
      (k ← digit_value c; take_digits (S n) (acc * 10 + k) s).
    change (take_digits (S n) acc (String c s)) with
      (k ← digit_value c; take_digits n (acc * 10 + k) s).
    destruct (digit_value c); [|done]. apply IH.
Qed.

Lemma take_digits_padded n acc z s :
  0 <= z < 10 ^ Z.of_nat n →
  take_digits n acc (padded n z +:+ s) = Some (acc * 10 ^ Z.of_nat n + z, s).
Proof.
  revert z s. induction n as [|n IH]; intros z s Hz.
  - simpl in *. do 2 f_equal. lia.
  - rewrite Nat2Z.inj_succ, Z.pow_succ_r in * by lia. rewrite take_digits_S.
    change (padded (S n) z) with (padded n (z / 10) +:+ String (digit_char z) EmptyString).
    rewrite str_app_assoc, IH by (split; [apply Z.div_pos; lia|apply Z.div_lt_upper_bound; lia]).
    simpl. assert (digit_char z = digit_char (z mod 10)) as ->
      by (unfold digit_char; by rewrite Z.mod_mod).
    rewrite digit_value_char by (apply Z.mod_pos_bound; lia). simpl. do 2 f_equal.
    pose proof (Z.div_mod z 10 ltac:(lia)). lia.
Qed.

#[global] Arguments take_digits : simpl never.
#[global] Arguments padded : simpl never.

(** [date.isoformat()] and [date.fromisoformat]. *)
Definition iso_date (z : Z) : string :=
  let '(y, m, d) := date_of_days z in
  padded 4 y +:+ "-" +:+ padded 2 m +:+ "-" +:+ padded 2 d.

(** The date a string starts with, and the rest of the string. *)
Definition take_date (s : string) : option (Z * string) :=
  '(y, s) ← take_digits 4 0 s;
  s ← take_char "-" s;
  '(m, s) ← take_digits 2 0 s;
  s ← take_char "-" s;
  '(d, s) ← take_digits 2 0 s;
  if valid_date y m d then Some (days_of_date y m d, s) else None.

Definition parse_date (s : string) : option Z :=
  match take_date s with Some (z, EmptyString) => Some z | _ => None end.

Definition us_per_second : Z := 1000000.
Definition us_per_day : Z := 86400 * us_per_second.

(** [datetime.date()] and [int(datetime.timestamp())], of an instant since 1970. *)
Definition day_of (us : Z) : Z := us / us_per_day.
Definition epoch_seconds (us : Z) : Z := us / us_per_second.

(** [datetime.isoformat()] of a naive datetime. *)
Definition iso_datetime (us : Z) : string :=
  let time := us mod us_per_day in
  let seconds := time / us_per_second in
  let fraction := time mod us_per_second in
  iso_date (day_of us) +:+ "T" +:+ padded 2 (seconds / 3600) +:+ ":"
  +:+ padded 2 (seconds / 60 mod 60) +:+ ":" +:+ padded 2 (seconds mod 60)
  +:+ (if fraction =? 0 then EmptyString else "." +:+ padded 6 fraction).

(** [value.isoformat() + "Z"]. *)
Definition format_time (us : Z) : string := iso_datetime us +:+ "Z".

(** The optional fraction of a second, padded to microseconds. *)
Definition take_fraction (s : string) : option (Z * string) :=
  match take_char "." s with
  | None => Some (0, s)
  | Some s =>
      (fix go (n : nat) (acc : Z) (s : string) {struct n} : option (Z * string) :=
         match n with
         | O => Some (acc, s)
         | S n' =>
             match take_digits 1 0 s with
             | Some (k, s') => go n' (acc * 10 + k) s'
             | None => if (n <? 6)%nat then Some (acc * 10 ^ Z.of_nat n, s) else None
             end
         end) 6%nat 0 s
  end.

(** [datetime.fromisoformat(s.removesuffix("Z"))] of a string of the form
    [YYYY-MM-DDTHH:MM:SS[.f]Z]. *)
Definition parse_time (s : string) : option Z :=
  '(day, s) ← take_date s;
  s ← take_char "T" s;
  '(hh, s) ← take_digits 2 0 s;
  s ← take_char ":" s;
  '(mm, s) ← take_digits 2 0 s;
  s ← take_char ":" s;
  '(ss, s) ← take_digits 2 0 s;
  '(fraction, s) ← take_fraction s;
  s ← take_char "Z" s;
  if bool_decide (s = EmptyString) && (hh <? 24) && (mm <? 60) && (ss <? 60)
  then Some (day * us_per_day + ((hh * 60 + mm) * 60 + ss) * us_per_second + fraction)
  else None.

(** The same of a string that may lack the suffix. *)
Definition parse_utc (s : string) : option Z :=
  match parse_time s with Some us => Some us | None => parse_time (s +:+ "Z") end.

Lemma take_char_app c s : take_char c (String c EmptyString +:+ s) = Some s.
Proof. simpl. by rewrite Ascii.eqb_refl. Qed.

(** Read a text just written, one item at a time. *)
Lemma some_bind {A B} (a : A) (f : A → option B) : Some a ≫= f = f a.
Proof. reflexivity. Qed.
Ltac text_steps :=
  repeat (first [rewrite take_digits_padded by (simpl; lia) | rewrite take_char_app];
          rewrite some_bind; cbv beta iota).

Lemma take_date_iso z s :
  min_day <= z <= max_day → take_date (iso_date z +:+ s) = Some (z, s).
Proof.
  intros Hz. unfold take_date, iso_date. destruct (date_of_days z) as [[y m] d] eqn:Hd.
  pose proof (date_of_days_years z y m d Hz Hd) as Hy.
  destruct (date_of_days_spec z y m d Hd) as (Hm & Hday & Hz').
  assert (days_in_month y m <= 31) by (unfold days_in_month; repeat case_match; lia).
  rewrite !str_app_assoc. text_steps.
  assert (valid_date y m d = true) as Hv.
  { unfold valid_date. rewrite !andb_true_iff, !Z.leb_le. lia. }
  change (0 * 10 ^ Z.of_nat 4 + y) with y. change (0 * 10 ^ Z.of_nat 2 + m) with m.
  change (0 * 10 ^ Z.of_nat 2 + d) with d. by rewrite Hv, Hz'.
Qed.

Lemma parse_date_iso z : min_day <= z <= max_day → parse_date (iso_date z) = Some z.
Proof.
  intros Hz. unfold parse_date. rewrite <- (str_app_empty_r (iso_date z)).
  by rewrite take_date_iso.
Qed.
