(* ===== verification/Reservation.v ===== *)
(** * Reservations

    The rules a funding reservation obeys, as pure functions of its JSON
    payload: the provenance it must carry, the fields a later write may not
    change, the states of a single-submission payment and the failure evidence
    that seals one ([funding_service/ledger.py]). *)

From S2P Require Import Prelude PyValue Calendar.
From Stdlib Require Import Ascii.

Open Scope string_scope.
Open Scope Z_scope.

(** ** Field lists *)

Definition LEGACY_READ_ONLY_ERROR : string := "legacy spending authorizations are read-only".
Definition LEGACY_EXTERNAL_PAYMENT_FIELD : string := "external_payment_response".
Definition LEGACY_SIGNED_TRANSACTION_FIELD : string := "settlement_raw_transaction".
Definition PAYMENT_CAPABILITY_RECORD_TYPE : string := "payment_capability".

Definition UNIFIED_RESERVATION_PROVENANCE_FIELDS : list string :=
  ["reservation_id"; "wallet_identity_id"; "spending_grant_id"; "authorization_rail";
   "product"; "network"; "token_address"; "token_symbol"; "token_decimals"].
Definition NATIVE_ALLOWANCE_PROVENANCE_FIELDS : list string :=
  ["asset_allowance_id"; "spender_address"].
Definition EXTERNAL_X402_PROVENANCE_FIELDS : list string :=
  ["token_address"; "token_symbol"; "token_decimals"].

Definition RESERVATION_IMMUTABLE_FIELDS : list string :=
  ["reservation_id"; "purchase_id"; "idempotency_key"; "user_id"; "agent_id"; "action_id";
   "policy_decision_id"; "quote_hash"; "product"; "single_submission"; "venue";
   "merchant_id"; "destination"; "resource"; "network"; "asset"; "token_address";
   "token_symbol"; "token_decimals"; "spender_address"; "wallet_identity_id";
   "spending_grant_id"; "asset_allowance_id"; "opc_installation_id"; "amount_usdc";
   "amount_atomic"; "authorization_rail"; "authorization_path"; "authorization_source";
   "spending_authorization_id"; "usage_date"; "nonce"; "valid_after"; "valid_before";
   "settlement_transaction"].

Definition SINGLE_SUBMISSION_CANONICAL_FIELDS : list string :=
  ["tx_hash"; "settlement_sender"; "settlement_nonce"; "settlement_transaction"].

(** ** Provenance *)

(** [any(row.get(field) in {None, ""} for field in fields)]. *)
Fixpoint any_missing (row : pydict) (fields : list string) : result bool :=
  match fields with
  | [] => Ok false
  | f :: fields' =>
      missing ← in_set (dict_get row f) [PNone; PStr EmptyString];
      if missing : bool then Ok true else any_missing row fields'
  end.

Definition is_text (v : pyval) (s : string) : bool := py_eqb v (PStr s).

(** [rail in {"native_allowance", "clink_payer_proxy"}], of a string. *)
Definition allowance_rail (v : pyval) : bool :=
  py_in v (strs ["native_allowance"; "clink_payer_proxy"]).

Definition require_unified_reservation (row : pydict) : result unit :=
  require (is_text (dict_get row "authorization_path") "unified_grant")
    (ValueError LEGACY_READ_ONLY_ERROR);;
  incomplete ← any_missing row UNIFIED_RESERVATION_PROVENANCE_FIELDS;
  require (negb incomplete) (ValueError "unified authorization references are incomplete");;
  let single_submission := dict_get_or row "single_submission" (PBool false) in
  require (is_bool single_submission) (ValueError "single-submission provenance is invalid");;
  require (negb (is_text (dict_get row "product") "prediction_markets"
                 && negb (is_true single_submission)))
    (ValueError "prediction-markets reservations require single submission");;
  require (is_bool (dict_get_or row "replacement_forbidden" (PBool false)))
    (ValueError "single-submission replacement state is invalid");;
  let rail := dict_get row "authorization_rail" in
  if allowance_rail rail then
    incomplete ← any_missing row NATIVE_ALLOWANCE_PROVENANCE_FIELDS;
    require (negb incomplete) (ValueError "native allowance provenance is incomplete")
  else if is_text rail "external_x402" then
    require (is_none (dict_get row "asset_allowance_id")
             && is_none (dict_get row "spender_address"))
      (ValueError "external x402 must not contain allowance provenance");;
    incomplete ← any_missing row EXTERNAL_X402_PROVENANCE_FIELDS;
    require (negb incomplete) (ValueError "external x402 asset provenance is incomplete")
  else Err (ValueError "unified reservation authorization rail is invalid").

(** ** Immutable fields *)

(** A field whose value a write changes, the sealing of the settlement
    transaction and its reset after a proven failure set aside. *)
Definition immutable_field_changed (stored replacement : pydict) (field : string) : bool :=
  let old := dict_get stored field in
  let new := dict_get replacement field in
  negb (py_eqb old new)
  && negb (bool_decide (field = "settlement_transaction") && is_none old && is_dict new)
  && negb (bool_decide (field = "settlement_transaction")
           && is_text (dict_get replacement "state") "spending_reserved"
           && is_none new && negb (is_true (dict_get stored "single_submission"))).

Definition evidence_of (row : pydict) : pyval :=
  dict_get_or row "failed_submission_evidence" (PList []).

(** Evidence is append-only: the stored list is a prefix of its replacement. *)
Definition evidence_changed (stored replacement : pydict) : bool :=
  match evidence_of stored, evidence_of replacement with
  | PList l, PList m => negb (list_eqb (take (length l) m) l)
  | v, w => negb (py_eqb v w)
  end.

Definition changed_fields (stored replacement : pydict) : list string :=
  let changed := filter (λ f, immutable_field_changed stored replacement f = true)
                   RESERVATION_IMMUTABLE_FIELDS in
  if is_true (dict_get stored "single_submission") then
    changed
    ++ filter (λ f, negb (is_none (dict_get stored f))
                    && negb (py_eqb (dict_get stored f) (dict_get replacement f))
                    && negb (bool_decide (f ∈ changed)) = true)
         SINGLE_SUBMISSION_CANONICAL_FIELDS
    ++ (if is_true (dict_get stored "replacement_forbidden")
           && negb (is_true (dict_get replacement "replacement_forbidden"))
        then ["replacement_forbidden"] else [])
    ++ (if evidence_changed stored replacement
        then ["failed_submission_evidence"] else [])
  else changed.

Definition require_matching_reservation_immutable_fields (stored replacement : pydict)
    : result unit :=
  let changed := changed_fields stored replacement in
  require (bool_decide (changed = []))
    (ValueError ("immutable reservation provenance or spend scope changed: "
                 +:+ join ", " changed)).

(** ** Transaction hashes *)

(** [re.fullmatch("0[xX]([0-9a-fA-F]{64})")]. *)
Definition canonicalize_transaction_hash (value : pyval) : result string :=
  match value with
  | PStr (String c (String x digits)) =>
      if Ascii.eqb c "0" && (Ascii.eqb x "x" || Ascii.eqb x "X")
         && (str_len digits =? 64) && all_chars is_hex digits
      then Ok ("0x" +:+ lower digits)
      else Err (ValueError "transaction hash must be 0x followed by 64 hex characters")
  | PStr _ => Err (ValueError "transaction hash must be 0x followed by 64 hex characters")
  | _ => Err (ValueError "transaction hash must be a string")
  end.

Definition redact_external_payment_payload (payload : pydict) : pydict :=
  dict_pop (dict_pop payload LEGACY_EXTERNAL_PAYMENT_FIELD) LEGACY_SIGNED_TRANSACTION_FIELD.

(** ** Single-submission payments *)

(** [re.fullmatch("0x[0-9a-f]{40}", s)]. *)
Definition is_lower_address (s : string) : bool :=
  match s with
  | String c (String x digits) =>
      Ascii.eqb c "0" && Ascii.eqb x "x" && (str_len digits =? 40)
      && all_chars is_lower_hex digits
  | _ => false
  end.

(** An [int] that is no [bool] and fits 64 bits. *)
Definition nonce_value (v : pyval) : option Z :=
  match v with
  | PInt n => if (0 <=? n) && (n <? 2 ^ 64) then Some n else None
  | _ => None
  end.

Definition TRANSACTION_PROJECTION_FIELDS : list string :=
  ["chainId"; "from"; "to"; "value"; "data"; "nonce"; "gasPrice"; "gas"].

(** [_validate_single_submission_transaction_binding]. *)
Definition validate_single_submission_transaction_binding (payload : pydict) : result unit :=
  require (forallb (λ f, negb (is_none (dict_get payload f))) SINGLE_SUBMISSION_CANONICAL_FIELDS)
    (ValueError "single-submission transaction binding is incomplete");;
  let tx_hash := dict_get payload "tx_hash" in
  canonical_hash ← canonicalize_transaction_hash tx_hash;
  require (is_text tx_hash canonical_hash)
    (ValueError "single-submission transaction hash is not canonical");;
  let sender := lower (py_str (dict_get payload "settlement_sender")) in
  require (is_lower_address sender)
    (ValueError "single-submission relayer identity is invalid");;
  nonce ← from_option_or (nonce_value (dict_get payload "settlement_nonce"))
            (ValueError "single-submission nonce is invalid");
  match dict_get payload "settlement_transaction" with
  | PDict projection =>
      require (same_keys (dict_keys projection) TRANSACTION_PROJECTION_FIELDS)
        (ValueError "single-submission transaction projection is invalid");;
      require (bool_decide (lower (py_str (dict_get_or projection "from" (PStr EmptyString)))
                            = sender))
        (ValueError "single-submission relayer binding is inconsistent");;
      require (py_eqb (dict_get projection "nonce") (PInt nonce))
        (ValueError "single-submission nonce binding is inconsistent")
  | _ => Err (ValueError "single-submission transaction projection is invalid")
  end.

Definition EVIDENCE_FIELDS : list string :=
  ["kind"; "reason_code"; "tx_hash"; "relayer"; "nonce"; "recorded_at"].

Definition allowed_reasons : list (string * list string) :=
  [("definite_rpc_rejection",
    ["insufficient_funds"; "intrinsic_gas_too_low"; "invalid_sender";
     "transaction_type_not_supported"]);
   ("failed_receipt", ["onchain_revert"])].

(** A timestamp in the form [isoformat() + "Z"] writes. *)
Definition is_canonical_time (v : pyval) : bool :=
  match v with
  | PStr s => match parse_time s with
              | Some us => bool_decide (format_time us = s)
              | None => false
              end
  | _ => false
  end.

Definition EVIDENCE_INVALID : exn := ValueError "single-submission failure evidence is invalid".

(** One item of the failure evidence. *)
Definition validate_failure_item (payload : pydict) (item : pyval) : result unit :=
  match item with
  | PDict item =>
      require (same_keys (dict_keys item) EVIDENCE_FIELDS) EVIDENCE_INVALID;;
      canonical_hash ← canonicalize_transaction_hash (dict_get item "tx_hash");
      require (is_text (dict_get payload "tx_hash") canonical_hash)
        (ValueError "single-submission failure transaction drift");;
      require (py_eqb (dict_get item "relayer") (dict_get payload "settlement_sender"))
        (ValueError "single-submission failure relayer drift");;
      require (py_eqb (dict_get item "nonce") (dict_get payload "settlement_nonce"))
        (ValueError "single-submission failure nonce drift");;
      known ← in_set (dict_get item "kind") (strs (dict_keys allowed_reasons));
      require known EVIDENCE_INVALID;;
      allowed ← in_set (dict_get item "reason_code")
                  (strs (default [] (dict_find allowed_reasons (py_str (dict_get item "kind")))));
      require (allowed && is_canonical_time (dict_get item "recorded_at")) EVIDENCE_INVALID
  | _ => Err EVIDENCE_INVALID
  end.

Fixpoint validate_failure_items (payload : pydict) (items : list pyval) : result unit :=
  match items with
  | [] => Ok tt
  | item :: items' => validate_failure_item payload item;; validate_failure_items payload items'
  end.

Definition FAILURE_STATE_INVALID : exn := ValueError "single-submission failure state is invalid".

(** [_validate_single_submission_failure_evidence]. *)
Definition validate_single_submission_failure_evidence (payload : pydict) : result unit :=
  match evidence_of payload with
  | PList evidence =>
      let sealed := is_true (dict_get payload "replacement_forbidden") in
      if bool_decide (evidence = []) && negb sealed then Ok tt
      else
        require (bool_decide (length evidence = 1%nat) && sealed) FAILURE_STATE_INVALID;;
        closed ← in_set (dict_get payload "state") (strs ["spending_reserved"; "released"]);
        require (closed
                 && is_text (dict_get payload "reconciliation_status") "failed"
                 && is_text (dict_get payload "next_action") "release_reservation")
          FAILURE_STATE_INVALID;;
        validate_failure_items payload evidence
  | _ => Err EVIDENCE_INVALID
  end.

Definition populated (payload : pydict) : list bool :=
  map (λ f, negb (is_none (dict_get payload f))) SINGLE_SUBMISSION_CANONICAL_FIELDS.

(** A nonempty string. *)
Definition is_nonempty_str (v : pyval) : bool := is_str v && negb (is_text v EmptyString).

Definition HOSTED_STATE_INVALID : exn := ValueError "hosted single-submission state is invalid".

(** The branch for a reservation the hosted facilitator settles. *)
Definition validate_hosted_submission_state (payload : pydict) (evidence : list pyval)
    : result unit :=
  let state := dict_get payload "state" in
  let forbidden := is_true (dict_get payload "replacement_forbidden") in
  let failed := forbidden || negb (bool_decide (evidence = [])) in
  submitted ← in_set state (strs ["payment_submitted"; "settled"; "finalized"; "reorg_review"]);
  if submitted : bool then
    require (is_nonempty_str (dict_get payload "hosted_execution_id") && negb failed)
      HOSTED_STATE_INVALID
  else if py_in state (strs ["spending_reserved"; "released"]) then
    require (negb failed) (ValueError "hosted single-submission failure state is invalid")
  else Err HOSTED_STATE_INVALID.

(** [_validate_single_submission_state]. *)
Definition validate_single_submission_state_of (payload : pydict) : result unit :=
  match evidence_of payload with
  | PList evidence =>
      if is_text (dict_get payload "settlement_rail") "hosted" then
        validate_hosted_submission_state payload evidence
      else
        let canonical_complete := forallb id (populated payload) in
        require (negb (existsb id (populated payload)) || canonical_complete)
          (ValueError "single-submission transaction binding is incomplete");;
        let replacement_forbidden := is_true (dict_get payload "replacement_forbidden") in
        let failed := replacement_forbidden || negb (bool_decide (evidence = [])) in
        let state := dict_get payload "state" in
        submitted ← in_set state (strs ["payment_submitted"; "settled"; "finalized"]);
        (if submitted : bool then
           require (negb failed) FAILURE_STATE_INVALID;;
           require canonical_complete
             (ValueError "single-submission transaction state is invalid")
         else if py_in state (strs ["spending_reserved"; "released"]) then
           if canonical_complete then
             require (replacement_forbidden && bool_decide (length evidence = 1%nat))
               FAILURE_STATE_INVALID
           else require (negb failed) FAILURE_STATE_INVALID
         else Err (ValueError "single-submission transaction state is invalid"));;
        validate_single_submission_failure_evidence payload
  | _ => Err EVIDENCE_INVALID
  end.

(** [validate_single_submission_state]. *)
Definition validate_single_submission_state (payload : pydict) : result unit :=
  if is_true (dict_get payload "single_submission") then
    validate_single_submission_state_of payload;;
    if forallb id (populated payload)
    then validate_single_submission_transaction_binding payload
    else mret tt
  else mret tt.
