(* ===== verification/Amounts.v ===== *)
(** * Decimal amounts

    Amounts of USDC are kept in micro-USDC, the last of the six decimals the
    [Numeric(38, 6)] columns store: the text of a [Decimal], the text the
    funding service writes, and the atomic units of a token. *)

From S2P Require Import Prelude Calendar.
From Stdlib Require Import Ascii.

Open Scope string_scope.
Open Scope Z_scope.

(** ** Reading [Decimal(text)] *)

(** [str.strip] and [str.replace("_", "")]. *)
Definition is_space (c : ascii) : bool :=
  let n := code c in
  ((9 <=? n) && (n <=? 13)) || ((28 <=? n) && (n <=? 32)) || (n =? 133) || (n =? 160).

Fixpoint lstrip (s : string) : string :=
  match s with
  | String c s' => if is_space c then lstrip s' else s
  | EmptyString => EmptyString
  end.
Fixpoint rstrip_by (p : ascii → bool) (s : string) : string :=
  match s with
  | EmptyString => EmptyString
  | String c s' =>
      let r := rstrip_by p s' in
      if bool_decide (r = EmptyString) && p c then EmptyString else String c r
  end.
Definition strip (s : string) : string := rstrip_by is_space (lstrip s).
Fixpoint remove_char (c : ascii) (s : string) : string :=
  match s with
  | EmptyString => EmptyString
  | String c' s' => if Ascii.eqb c c' then remove_char c s' else String c' (remove_char c s')
  end.

Fixpoint span_digits (s : string) : string * string :=
  match s with
  | String c s' =>
      if is_digit c then let '(d, r) := span_digits s' in (String c d, r) else (EmptyString, s)
  | EmptyString => (EmptyString, EmptyString)
  end.

Definition span_sign (s : string) : Z * string :=
  match s with
  | String c s' =>
      if Ascii.eqb c "-" then (-1, s') else if Ascii.eqb c "+" then (1, s') else (1, s)
  | EmptyString => (1, s)
  end.

(** The digits of an [int] literal: single underscores may stand between them. *)
Fixpoint ungrouped (digit : ascii → bool) (after_digit : bool) (s : string) : option string :=
  match s with
  | EmptyString => if after_digit then Some EmptyString else None
  | String c s' =>
      if Ascii.eqb c "_" then if after_digit then ungrouped digit false s' else None
      else if digit c then String c <$> ungrouped digit true s' else None
  end.

(** The exponent part, [(E[-+]?\d+)?]. *)
Definition read_exponent (s : string) : option Z :=
  match s with
  | EmptyString => Some 0
  | String c s' =>
      if Ascii.eqb c "e" || Ascii.eqb c "E" then
        let '(sign, digits) := span_sign s' in
        n ← parse_digits digits; Some (sign * n)
      else None
  end.

(** A coefficient and a power of ten as micro-units, when they are whole. *)
Definition scale_micros (coefficient exponent : Z) : option Z :=
  let shift := exponent + 6 in
  if 0 <=? shift then Some (coefficient * 10 ^ shift)
  else if coefficient mod 10 ^ (- shift) =? 0 then Some (coefficient / 10 ^ (- shift))
  else None.

(** The finite decimals with at most six places; the others have no amount. *)
Definition decimal_micros (text : string) : option Z :=
  let s := remove_char "_" (rstrip_by is_space (lstrip text)) in
  let '(sign, s) := span_sign s in
  let '(whole, s) := span_digits s in
  let '(fraction, s) := match take_char "." s with
                        | Some s' => span_digits s'
                        | None => (EmptyString, s)
                        end in
  exponent ← read_exponent s;
  coefficient ← parse_digits (whole +:+ fraction);
  scale_micros (sign * coefficient) (exponent - str_len fraction).

(** ** Writing an amount *)

(** [FundingService._format_amount]: plain notation without trailing zeros. *)
Definition format_amount (micros : Z) : string :=
  let fraction := rstrip_by (Ascii.eqb "0") (padded 6 (Z.abs micros mod 1000000)) in
  (if micros <? 0 then "-" else "")
  +:+ pretty (Z.abs micros / 1000000)
  +:+ (if bool_decide (fraction = EmptyString) then "" else "." +:+ fraction).

(** ** Atomic token units *)

(** [_atomic_amount]: [str.isdigit] also accepts the superscript digits, which
    [int] then refuses. *)
Definition isdigit_char (c : ascii) : bool :=
  is_digit c || (code c =? 178) || (code c =? 179) || (code c =? 185).
Definition atomic_amount (value : string) : result Z :=
  require (negb (bool_decide (value = EmptyString)) && all_chars isdigit_char value)
    (ValueError "amount_atomic must be a non-negative base-10 integer");;
  from_option_or (parse_digits value) (ValueError "invalid literal for int() with base 10").

(** [amount * Decimal(10) ** decimals], when it is whole. *)
Definition required_atomic (amount decimals : Z) : option Z := scale_micros amount (decimals - 6 - 6).

Definition atomic_matches (amount decimals atomic : Z) : bool :=
  bool_decide (required_atomic amount decimals = Some atomic).
