(* ===== verification/LedgerTables.v ===== *)
(** * The tables of the funding ledger

    The rows the funding ledger keeps ([funding_service/ledger.py]) and those of
    the account service it locks and updates ([account_service/repository.py],
    [opc_service.py]).  Amounts are in micro-USDC, instants in microseconds
    since the epoch; [_utc], which reads a naive datetime as UTC, is the
    identity on instants. *)

From S2P Require Import Prelude PyValue.

Open Scope string_scope.
Open Scope Z_scope.

(** ** The ledger's own tables *)

(** [RelayerNonceRow]; its primary key is (network, relayer address). *)
Record RelayerNonceRow := MkRelayerNonce { rn_next_nonce : Z; rn_updated_at : Z }.

(** [TransactionBindingRow]; its primary key is the transaction hash. *)
Record TransactionBindingRow := MkBinding { tb_reservation_id : string; tb_created_at : Z }.

(** [LedgerRow]; its primary key is the record id. *)
Record LedgerRow := MkLedgerRow {
  lr_record_type : string;
  lr_purchase_id : option string;
  lr_idempotency_key : option string;
  lr_action_id : option string;
  lr_policy_decision_id : option string;
  lr_reservation_id : option string;
  lr_tx_hash : option string;
  lr_token_address : option string;
  lr_payload : pydict;
  lr_updated_at : Z;
}.

(** ** The account tables *)

Record WalletIdentityRow := MkIdentity {
  wi_wallet_identity_id : string;
  wi_user_id : string;
  wi_chain_family : string;
  wi_wallet_address : string;
  wi_status : string;
  wi_proof_scheme : string;
  wi_proof_hash : string;
  wi_verified_at : option Z;
  wi_created_at : Z;
  wi_updated_at : Z;
}.

Record SpendingGrantRow := MkGrant {
  sg_spending_grant_id : string;
  sg_wallet_identity_id : string;
  sg_user_id : string;
  sg_agent_id : string;
  sg_status : string;
  sg_status_reason : option string;
  sg_max_amount_usdc : Z;
  sg_per_transaction_limit_usdc : Z;
  sg_hourly_limit_usdc : Z;
  sg_daily_limit_usdc : Z;
  sg_used_amount_usdc : Z;
  sg_reserved_amount_usdc : Z;
  sg_product_scopes : list string;
  sg_venue_scopes : list string;
  sg_merchant_scopes : list string;
  sg_merchant_trust_scopes : list string;
  sg_notification_mode : string;
  sg_network_scopes : list string;
  sg_asset_scopes : list string;
  sg_starts_at : Z;
  sg_expires_at : Z;
  sg_created_at : Z;
  sg_updated_at : Z;
}.

#[export] Instance eta_grant_row : Eta SpendingGrantRow := λ g,
  MkGrant (sg_spending_grant_id g) (sg_wallet_identity_id g) (sg_user_id g) (sg_agent_id g)
    (sg_status g) (sg_status_reason g) (sg_max_amount_usdc g)
    (sg_per_transaction_limit_usdc g) (sg_hourly_limit_usdc g) (sg_daily_limit_usdc g)
    (sg_used_amount_usdc g) (sg_reserved_amount_usdc g) (sg_product_scopes g)
    (sg_venue_scopes g) (sg_merchant_scopes g) (sg_merchant_trust_scopes g)
    (sg_notification_mode g) (sg_network_scopes g) (sg_asset_scopes g) (sg_starts_at g)
    (sg_expires_at g) (sg_created_at g) (sg_updated_at g).

Record AssetAllowanceRow := MkAllowance {
  aa_asset_allowance_id : string;
  aa_wallet_identity_id : string;
  aa_network : string;
  aa_token_address : string;
  aa_token_symbol : string;
  aa_token_decimals : Z;
  aa_spender_address : string;
  aa_approved_amount_atomic : Z;
  aa_observed_allowance_atomic : Z;
  aa_allowance_tx_hash : option string;
  aa_status : string;
  aa_confirmed_block : option Z;
  aa_last_chain_check_at : option Z;
  aa_created_at : Z;
  aa_updated_at : Z;
}.

#[export] Instance eta_allowance_row : Eta AssetAllowanceRow := λ a,
  MkAllowance (aa_asset_allowance_id a) (aa_wallet_identity_id a) (aa_network a)
    (aa_token_address a) (aa_token_symbol a) (aa_token_decimals a) (aa_spender_address a)
    (aa_approved_amount_atomic a) (aa_observed_allowance_atomic a) (aa_allowance_tx_hash a)
    (aa_status a) (aa_confirmed_block a) (aa_last_chain_check_at a) (aa_created_at a)
    (aa_updated_at a).

(** [SpendingGrantDailyUsageRow]; the unique pair (grant, date) keys it. *)
Record SpendingGrantDailyUsageRow := MkDailyUsage {
  du_spending_grant_daily_usage_id : string;
  du_used_amount_usdc : Z;
  du_reserved_amount_usdc : Z;
  du_created_at : Z;
  du_updated_at : Z;
}.

#[export] Instance eta_daily_row : Eta SpendingGrantDailyUsageRow := λ u,
  MkDailyUsage (du_spending_grant_daily_usage_id u) (du_used_amount_usdc u)
    (du_reserved_amount_usdc u) (du_created_at u) (du_updated_at u).

Inductive RollingState := RollingReserved | RollingUsed | RollingReleased.
#[export] Instance RollingState_eq_dec : EqDecision RollingState.
Proof. solve_decision. Defined.

(** [SpendingGrantRollingUsageRow]; its primary key is the reservation id. *)
Record SpendingGrantRollingUsageRow := MkRollingUsage {
  ru_spending_grant_id : string;
  ru_amount_usdc : Z;
  ru_state : RollingState;
  ru_occurred_at : Z;
  ru_updated_at : Z;
}.

#[export] Instance eta_rolling_row : Eta SpendingGrantRollingUsageRow := λ u,
  MkRollingUsage (ru_spending_grant_id u) (ru_amount_usdc u) (ru_state u)
    (ru_occurred_at u) (ru_updated_at u).

#[export] Instance eta_identity_row : Eta WalletIdentityRow := λ w,
  MkIdentity (wi_wallet_identity_id w) (wi_user_id w) (wi_chain_family w)
    (wi_wallet_address w) (wi_status w) (wi_proof_scheme w) (wi_proof_hash w)
    (wi_verified_at w) (wi_created_at w) (wi_updated_at w).

(** [OpcInstallationRow]: the columns an authority check reads. *)
Record OpcInstallationRow := MkInstallation {
  oi_status : string;
  oi_scope : string;
  oi_user_id : option string;
  oi_wallet_identity_id : option string;
  oi_spending_grant_id : option string;
  oi_consent_expires_at : option Z;
  oi_approved_at : option Z;
}.

(** [AuditEventRow]; its unique event id keys it. *)
Record AuditEventRow := MkAuditEvent {
  ae_idempotency_key : option string;
  ae_event_type : string;
  ae_source_service : string;
  ae_action_id : pyval;
  ae_user_id : option string;
  ae_agent_id : option string;
  ae_policy_decision_id : pyval;
  ae_payment_id : pyval;
  ae_order_id : pyval;
  ae_receipt_id : pyval;
  ae_tx_hash : pyval;
  ae_payload : pydict;
  ae_created_at : Z;
}.

(** ** The database *)

Record FundingDb := MkFundingDb {
  fd_records : gmap string LedgerRow;
  fd_bindings : gmap string TransactionBindingRow;
  fd_relayer_nonces : gmap (string * string) RelayerNonceRow;
  fd_identities : gmap string WalletIdentityRow;
  fd_grants : gmap string SpendingGrantRow;
  fd_allowances : gmap string AssetAllowanceRow;
  fd_daily : gmap (string * Z) SpendingGrantDailyUsageRow;
  fd_rolling : gmap string SpendingGrantRollingUsageRow;
  fd_installations : gmap string OpcInstallationRow;
  fd_audit : gmap string AuditEventRow;
}.

#[export] Instance eta_funding_db : Eta FundingDb := λ d,
  MkFundingDb (fd_records d) (fd_bindings d) (fd_relayer_nonces d) (fd_identities d)
    (fd_grants d) (fd_allowances d) (fd_daily d) (fd_rolling d) (fd_installations d)
    (fd_audit d).

(** The transactions of [FundingTransaction]. *)
Abbreviation funding := (txn FundingDb).

Definition put_record (record_id : string) (r : LedgerRow) : funding unit :=
  writes (λ d, d <| fd_records := <[record_id := r]> (fd_records d) |>).
Definition put_grant (g : SpendingGrantRow) : funding unit :=
  writes (λ d, d <| fd_grants := <[sg_spending_grant_id g := g]> (fd_grants d) |>).
Definition put_allowance (a : AssetAllowanceRow) : funding unit :=
  writes (λ d, d <| fd_allowances := <[aa_asset_allowance_id a := a]> (fd_allowances d) |>).
Definition put_daily (key : string * Z) (u : SpendingGrantDailyUsageRow) : funding unit :=
  writes (λ d, d <| fd_daily := <[key := u]> (fd_daily d) |>).
Definition put_rolling (reservation_id : string) (u : SpendingGrantRollingUsageRow)
    : funding unit :=
  writes (λ d, d <| fd_rolling := <[reservation_id := u]> (fd_rolling d) |>).

Definition put_identity (w : WalletIdentityRow) : funding unit :=
  writes (λ d, d <| fd_identities := <[wi_wallet_identity_id w := w]> (fd_identities d) |>).

(** [session.scalar(select(Model).where(primary_key == value))], of a value read
    from a JSON payload: only a string can match. *)
Definition locked {A} (table : FundingDb → gmap string A) (key : pyval) (d : FundingDb)
    : option A :=
  match key with PStr k => table d !! k | _ => None end.

(** Adding an audit event: its event id and its idempotency key are unique. *)
Definition add_audit_event (event_id : string) (e : AuditEventRow) : funding unit :=
  d ← reads id;
  requires (bool_decide (fd_audit d !! event_id = None)
            && bool_decide (find_row (λ e', bool_decide (is_Some (ae_idempotency_key e'))
                 && bool_decide (ae_idempotency_key e' = ae_idempotency_key e)) (fd_audit d)
                 = None))
    (IntegrityError "audit_events");;
  writes (λ d, d <| fd_audit := <[event_id := e]> (fd_audit d) |>).
