(* ===== verification/LedgerStore.v ===== *)
(** * The record store of the funding ledger

    [FundingTransaction]: reading and writing ledger records, the scope a
    reservation is authorised by, and the relayer nonces
    ([funding_service/ledger.py]). *)

From S2P Require Import Prelude PyValue Reservation Amounts LedgerTables.
From Stdlib Require Import Ascii.

Open Scope string_scope.
Open Scope Z_scope.

(** ** Reading records *)

(** The payload a reader sees: that of a reservation is redacted. *)
Definition visible_payload (r : LedgerRow) : pydict :=
  if bool_decide (lr_record_type r = "reservation")
  then redact_external_payment_payload (lr_payload r) else lr_payload r.

(** [get]. *)
Definition get (record_id : string) (d : FundingDb) : option pydict :=
  visible_payload <$> fd_records d !! record_id.

(** [by_purchase]; [purchase_id] is unique. *)
Definition by_purchase (purchase_id : string) (d : FundingDb) : option pydict :=
  redact_external_payment_payload ∘ lr_payload <$>
    find_row (λ r, bool_decide (lr_purchase_id r = Some purchase_id)) (fd_records d).

(** [by_tx_hash]: the record a transaction is bound to, or that names it. *)
Definition by_tx_hash (tx_hash : pyval) (d : FundingDb) : result (option pydict) :=
  canonical_hash ← canonicalize_transaction_hash tx_hash;
  mret (match fd_bindings d !! canonical_hash with
        | Some binding =>
            match fd_records d !! tb_reservation_id binding with
            | Some r => Some (redact_external_payment_payload (lr_payload r))
            | None => Some [("reservation_id", PStr (tb_reservation_id binding));
                            ("tx_hash", PStr canonical_hash)]
            end
        | None =>
            redact_external_payment_payload ∘ lr_payload <$>
              find_row (λ r, match lr_tx_hash r with
                             | Some h => bool_decide (lower h = canonical_hash)
                             | None => false
                             end) (fd_records d)
        end).

(** ** The scope of a reservation *)

Definition UNAVAILABLE : exn := ValueError "unified authorization references are unavailable".
Definition NO_SHARED_IDENTITY : exn :=
  ValueError "unified authorization references do not share an identity".
Definition SCOPE_CHANGED : exn :=
  ValueError "immutable allowance scope changed after reservation".

(** [str(row.get(field, "")).lower()]. *)
Definition lower_field (row : pydict) (field : string) : string :=
  lower (py_str (dict_get_or row field (PStr EmptyString))).

(** The grant still covers the reservation. *)
Definition grant_covers (g : SpendingGrantRow) (row : pydict) : bool :=
  py_in (dict_get row "product") (strs (sg_product_scopes g))
  && py_in (dict_get row "network") (strs (sg_network_scopes g))
  && (is_none (dict_get row "merchant_trust_tier")
      || py_in (dict_get row "merchant_trust_tier") (strs (sg_merchant_trust_scopes g)))
  && bool_decide (lower_field row "token_address" ∈ map lower (sg_asset_scopes g)).

(** The allowance is still the one reserved against. *)
Definition allowance_covers (a : AssetAllowanceRow) (row : pydict) : bool :=
  is_text (dict_get row "network") (aa_network a)
  && bool_decide (lower (aa_token_address a) = lower_field row "token_address")
  && is_text (dict_get row "token_symbol") (aa_token_symbol a)
  && py_eqb (PInt (aa_token_decimals a)) (dict_get row "token_decimals")
  && bool_decide (lower (aa_spender_address a) = lower_field row "spender_address").

(** The rows a reservation names: its allowance only on an allowance-backed rail. *)
Definition scope_rows (row : pydict) (d : FundingDb)
    : result (WalletIdentityRow * SpendingGrantRow * option AssetAllowanceRow) :=
  identity ← from_option_or (locked fd_identities (dict_get row "wallet_identity_id") d)
               UNAVAILABLE;
  grant ← from_option_or (locked fd_grants (dict_get row "spending_grant_id") d) UNAVAILABLE;
  if allowance_rail (dict_get row "authorization_rail") then
    allowance ← from_option_or (locked fd_allowances (dict_get row "asset_allowance_id") d)
                  UNAVAILABLE;
    mret (identity, grant, Some allowance)
  else mret (identity, grant, None).

(** [unified_authorization_scope]. *)
Definition unified_authorization_scope (row : pydict) (d : FundingDb)
    : result (WalletIdentityRow * SpendingGrantRow * option AssetAllowanceRow) :=
  require_unified_reservation row;;
  '(identity, grant, allowance) ← scope_rows row d;
  require (bool_decide (sg_wallet_identity_id grant = wi_wallet_identity_id identity)
           && bool_decide (sg_user_id grant = wi_user_id identity)
           && match allowance with
              | Some a => bool_decide (aa_wallet_identity_id a = wi_wallet_identity_id identity)
              | None => true
              end) NO_SHARED_IDENTITY;;
  require (grant_covers grant row
           && match allowance with Some a => allowance_covers a row | None => true end)
    SCOPE_CHANGED;;
  mret (identity, grant, allowance).

(** ** Writing records *)

Definition IDENTITY_FIELDS : list string :=
  ["purchase_id"; "idempotency_key"; "action_id"; "policy_decision_id"; "reservation_id"].

(** [_validate_reservation_write]: the identity columns are those of the payload. *)
Fixpoint require_identity (payload identity : pydict) (fields : list string) : result unit :=
  match fields with
  | [] => Ok tt
  | f :: fields' =>
      require (py_eqb (dict_get identity f) (dict_get payload f))
        (ValueError ("reservation " +:+ f +:+ " identity mismatch"));;
      require_identity payload identity fields'
  end.

(** A write that seals the settlement transaction for the first time. *)
Definition seals_transaction (payload : pydict) (stored : option pydict) : bool :=
  existsb id (populated payload)
  && match stored with
     | None => true
     | Some s => negb (existsb id (populated s))
     end.

Definition validate_reservation_write (record_id : string) (payload identity : pydict)
    (stored : option pydict) (d : FundingDb) : result unit :=
  (if is_text (dict_get payload "authorization_path") "unified_grant" then mret tt
   else require_unified_reservation payload);;
  reservation_id ← dict_item payload "reservation_id";
  require (is_text reservation_id record_id)
    (ValueError "reservation record identity mismatch");;
  require_identity payload identity IDENTITY_FIELDS;;
  match stored with
  | Some s => require_matching_reservation_immutable_fields s payload
  | None => mret tt
  end;;
  require_unified_reservation payload;;
  (if is_true (dict_get payload "single_submission") then
     (if seals_transaction payload stored
      then validate_single_submission_transaction_binding payload else mret tt);;
     validate_single_submission_state_of payload
   else mret tt);;
  unified_authorization_scope payload d;;
  mret tt.

(** The value a text column takes. *)
Definition column (v : pyval) : result (option string) :=
  match v with
  | PNone => Ok None
  | PStr s => Ok (Some s)
  | _ => Err (TypeError "value of a text column")
  end.
(** A column named by the keyword arguments; one left out keeps its value. *)
Definition identity_column (identity : pydict) (field : string) (old : option string)
    : result (option string) :=
  match dict_find identity field with Some v => column v | None => Ok old end.

Definition blank_row (record_type : string) : LedgerRow :=
  MkLedgerRow record_type None None None None None None None [] 0.

(** The row after [setattr] of every value. *)
Definition assigned_row (record_type : string) (payload identity : pydict) (timestamp : Z)
    (r : LedgerRow) : result LedgerRow :=
  purchase_id ← identity_column identity "purchase_id" (lr_purchase_id r);
  idempotency_key ← identity_column identity "idempotency_key" (lr_idempotency_key r);
  action_id ← identity_column identity "action_id" (lr_action_id r);
  policy_decision_id ← identity_column identity "policy_decision_id" (lr_policy_decision_id r);
  reservation_id ← identity_column identity "reservation_id" (lr_reservation_id r);
  tx_hash ← identity_column identity "tx_hash" (lr_tx_hash r);
  token_address ← column (dict_get payload "token_address");
  mret (MkLedgerRow record_type purchase_id idempotency_key action_id policy_decision_id
          reservation_id tx_hash token_address payload timestamp).

(** The unique columns of the table; the last is [lower(tx_hash)]. *)
Definition unique_columns (r : LedgerRow) : list (option string) :=
  [lr_purchase_id r; lr_idempotency_key r; lr_action_id r; lr_policy_decision_id r;
   lr_reservation_id r; lr_tx_hash r; lower <$> lr_tx_hash r].
Definition records_collide (r r' : LedgerRow) : bool :=
  existsb (λ cc, bool_decide (is_Some cc.1) && bool_decide (cc.1 = cc.2))
    (zip (unique_columns r) (unique_columns r')).

(** [session.flush()] of a record. *)
Definition flush_record (record_id : string) (r : LedgerRow) : funding unit :=
  d ← reads id;
  requires (bool_decide (find_row (records_collide r) (delete record_id (fd_records d)) = None))
    (IntegrityError "funding_ledger_records");;
  put_record record_id r.

(** The binding of a transaction to the reservation that submitted it. *)
Definition bind_transaction (tx_hash reservation_id : string) (timestamp : Z) : funding unit :=
  d ← reads id;
  match fd_bindings d !! tx_hash with
  | Some binding =>
      requires (bool_decide (tb_reservation_id binding = reservation_id))
        (ValueError "transaction is already bound to another reservation")
  | None =>
      writes (λ d, d <| fd_bindings :=
                <[tx_hash := MkBinding reservation_id timestamp]> (fd_bindings d) |>)
  end.

(** [identity.get("reservation_id") or payload.get("reservation_id")]. *)
Definition bound_reservation (payload identity : pydict) : pyval :=
  let id := dict_get identity "reservation_id" in
  if py_truthy id then id else dict_get payload "reservation_id".

(** The transaction hash of a write, canonical in the payload and in the columns;
    that of a reservation is bound to it. *)
Definition bind_hash (clock : Z) (is_reservation : bool) (payload identity : pydict)
    : funding (pydict * pydict) :=
  let tx_hash := dict_get identity "tx_hash" in
  if is_none tx_hash then mret (payload, identity)
  else
    canonical_hash ← lifts (canonicalize_transaction_hash tx_hash);
    let identity' := dict_set identity "tx_hash" (PStr canonical_hash) in
    let payload' := dict_set payload "tx_hash" (PStr canonical_hash) in
    (if is_reservation then
       match bound_reservation payload' identity' with
       | PStr reservation_id =>
           if bool_decide (reservation_id = EmptyString) then mret tt
           else bind_transaction canonical_hash reservation_id clock
       | _ => mret tt
       end
     else mret tt);;
    mret (payload', identity').

(** [put]. *)
Definition put (clock : Z) (record_type record_id : string) (payload0 identity0 : pydict)
    : funding pydict :=
  requires (negb (bool_decide (record_type = PAYMENT_CAPABILITY_RECORD_TYPE)))
    (ValueError "payment capabilities require the dedicated ledger API");;
  let is_reservation := bool_decide (record_type = "reservation") in
  let payload := if is_reservation then redact_external_payment_payload payload0
                 else payload0 in
  d ← reads id;
  let row := fd_records d !! record_id in
  lifts (if is_reservation
         then validate_reservation_write record_id payload identity0 (lr_payload <$> row) d
         else mret tt);;
  '(payload, identity) ← bind_hash clock is_reservation payload identity0;
  r ← lifts (assigned_row record_type payload identity clock
               (default (blank_row record_type) row));
  flush_record record_id r;;
  mret payload.

(** [FundingService._put_reservation]. *)
Definition put_reservation (clock : Z) (row : pydict) (tx_hash : pyval) : funding pydict :=
  lifts (require_unified_reservation row);;
  reservation_id ← lifts (dict_item row "reservation_id");
  purchase_id ← lifts (dict_item row "purchase_id");
  idempotency_key ← lifts (dict_item row "idempotency_key");
  action_id ← lifts (dict_item row "action_id");
  policy_decision_id ← lifts (dict_item row "policy_decision_id");
  match reservation_id with
  | PStr record_id =>
      put clock "reservation" record_id row
        [("purchase_id", purchase_id); ("idempotency_key", idempotency_key);
         ("action_id", action_id); ("policy_decision_id", policy_decision_id);
         ("reservation_id", reservation_id); ("tx_hash", tx_hash)]
  | _ => raises (ValueError "reservation record identity mismatch")
  end.

(** ** Relayer nonces *)

(** [int(value)] of a JSON value. *)
Definition py_int (v : pyval) : result Z :=
  match v with
  | PInt n => Ok n
  | PBool b => Ok (bool_int b)
  | PStr s =>
      let '(sign, digits) := span_sign (strip s) in
      n ← from_option_or (digits ← ungrouped is_digit false digits; parse_digits digits)
            (ValueError "invalid literal for int() with base 10");
      Ok (sign * n)
  | _ => Err (TypeError "int() argument")
  end.

(** The nonce a reservation already owns, if it owns one. *)
Definition owned_nonce (row : pydict) (canonical_relayer : string) : result (option Z) :=
  let nonce := dict_get row "settlement_nonce" in
  let sender := dict_get row "settlement_sender" in
  if is_none nonce && is_none sender then Ok None
  else
    require (negb (is_none nonce || is_none sender))
      (ValueError "reservation nonce ownership is incomplete");;
    require (bool_decide (lower (py_str sender) = canonical_relayer))
      (ValueError "reservation nonce belongs to another relayer");;
    n ← py_int nonce;
    require ((0 <=? n) && (n <? 2 ^ 64)) (ValueError "reservation nonce ownership is invalid");;
    mret (Some n).

(** [allocate_relayer_nonce]. *)
Definition allocate_relayer_nonce (row : pydict) (network relayer_address : string)
    (chain_pending_nonce now : Z) : funding Z :=
  lifts (require_unified_reservation row);;
  requires (allowance_rail (dict_get row "authorization_rail"))
    (ValueError "relayer nonce allocation requires an allowance-backed rail");;
  requires (is_text (dict_get row "network") network)
    (ValueError "relayer nonce network does not match reservation");;
  let canonical_relayer := lower relayer_address in
  requires (is_lower_address canonical_relayer) (ValueError "relayer address is invalid");;
  requires ((0 <=? chain_pending_nonce) && (chain_pending_nonce <? 2 ^ 64))
    (ValueError "chain pending nonce is invalid");;
  owned ← lifts (owned_nonce row canonical_relayer);
  match owned with
  | Some n => mret n
  | None =>
      allocator ← reads (λ d, fd_relayer_nonces d !! (network, canonical_relayer));
      let next_nonce := match allocator with
                        | Some a => rn_next_nonce a
                        | None => chain_pending_nonce
                        end in
      let nonce := Z.max next_nonce chain_pending_nonce in
      requires (nonce <? 2 ^ 64) (ValueError "relayer nonce space is exhausted");;
      writes (λ d, d <| fd_relayer_nonces :=
        <[(network, canonical_relayer) := MkRelayerNonce (nonce + 1) now]>
          (fd_relayer_nonces d) |>);;
      mret nonce
  end.
