(* ===== verification/Budget.v ===== *)
(** * Spending budgets

    Reserving, releasing and settling the budget of a spending grant
    ([FundingTransaction] in [funding_service/ledger.py]). *)

From S2P Require Import Prelude PyValue Calendar Reservation Amounts LedgerTables LedgerStore.

Open Scope string_scope.
Open Scope Z_scope.

(** ** Requests *)

(** [CreateSpendingReservationRequest] ([funding_service/schemas.py]). *)
Record CreateSpendingReservationRequest := MkReservationRequest {
  rq_purchase_id : string;
  rq_idempotency_key : string;
  rq_spending_authorization_id : option string;
  rq_authorization_rail : string;
  rq_wallet_identity_id : option string;
  rq_spending_grant_id : option string;
  rq_asset_allowance_id : option string;
  rq_opc_installation_id : option string;
  rq_product : option string;
  rq_action_id : string;
  rq_policy_decision_id : string;
  rq_merchant_id : string;
  rq_merchant_trust_tier : option string;
  rq_quote_hash : string;
  rq_amount_usdc : string;
  rq_amount_atomic : string;
  rq_network : string;
  rq_asset : string;
  rq_token_address : option string;
  rq_destination : string;
  rq_resource : string;
  rq_venue : string;
}.

(** The references a reservation is resolved to. *)
Record Selection := MkSelection {
  se_wallet_identity_id : string;
  se_spending_grant_id : string;
  se_asset_allowance_id : option string;
}.
#[export] Instance Selection_eq_dec : EqDecision Selection.
Proof. solve_decision. Defined.

(** What [reserve_unified_budget] returns: the selection, its asset and the date
    the daily budget is charged to. *)
Record ReservedBudget := MkReservedBudget {
  rb_selection : Selection;
  rb_token_address : string;
  rb_token_decimals : Z;
  rb_token_symbol : string;
  rb_spender_address : option string;
  rb_usage_date : Z;
}.

(** ** Eligible grants *)

(** Membership of an optional value in a list of strings. *)
Definition opt_in (o : option string) (l : list string) : bool :=
  match o with Some s => bool_decide (s ∈ l) | None => false end.
(** [not scopes or value in scopes]. *)
Definition scope_allows (scopes : list string) (value : string) : bool :=
  bool_decide (scopes = []) || bool_decide (value ∈ scopes).

(** [scope_stages]: each stage with the reason it fails for. *)
Definition scope_stages (rq : CreateSpendingReservationRequest) (amount : Z)
    : list (string * (SpendingGrantRow → bool)) :=
  [("PRODUCT_SCOPE_MISMATCH", λ g, opt_in (rq_product rq) (sg_product_scopes g));
   ("VENUE_SCOPE_MISMATCH", λ g, scope_allows (sg_venue_scopes g) (rq_venue rq));
   ("MERCHANT_SCOPE_MISMATCH", λ g, scope_allows (sg_merchant_scopes g) (rq_merchant_id rq));
   ("MERCHANT_TRUST_SCOPE_MISMATCH", λ g,
      (negb (bool_decide (rq_product rq = Some "marketplace"))
       && bool_decide (rq_merchant_trust_tier rq = None))
      || opt_in (rq_merchant_trust_tier rq) (sg_merchant_trust_scopes g));
   ("NETWORK_SCOPE_MISMATCH", λ g, bool_decide (rq_network rq ∈ sg_network_scopes g));
   ("PER_TRANSACTION_LIMIT_EXCEEDED", λ g, amount <=? sg_per_transaction_limit_usdc g);
   ("BUDGET_EXCEEDED", λ g,
      sg_used_amount_usdc g + sg_reserved_amount_usdc g + amount <=? sg_max_amount_usdc g)].

Fixpoint filter_stages (stages : list (string * (SpendingGrantRow → bool)))
    (grants : list SpendingGrantRow) : result (list SpendingGrantRow) :=
  match stages with
  | [] => Ok grants
  | (reason, predicate) :: stages' =>
      let grants' := filter (λ g, predicate g = true) grants in
      require (negb (bool_decide (length grants' = 0%nat))) (ValueError reason);;
      filter_stages stages' grants'
  end.

Definition rows {A} (table : gmap string A) : list A := (map_to_list table).*2.

(** The grants of the actor in their term, on one of the actor's active wallets. *)
Definition actor_grants (user_id agent_id : string) (now : Z) (d : FundingDb)
    : result (list SpendingGrantRow) :=
  let identities := filter (λ w, wi_user_id w = user_id ∧ wi_status w = "active")
                      (rows (fd_identities d)) in
  require (negb (bool_decide (length identities = 0%nat)))
    (ValueError "WALLET_IDENTITY_REQUIRED: active wallet identity required");;
  let grants := filter (λ g, sg_user_id g = user_id ∧ sg_agent_id g = agent_id
                             ∧ sg_wallet_identity_id g ∈ map wi_wallet_identity_id identities
                             ∧ sg_status g = "active"
                             ∧ sg_starts_at g <= now < sg_expires_at g)
                  (rows (fd_grants d)) in
  require (negb (bool_decide (length grants = 0%nat)))
    (ValueError "SPENDING_GRANT_REQUIRED: active spending grant required");;
  mret grants.

(** The daily usage of a grant. *)
Definition daily_total (d : FundingDb) (grant_id : string) (date : Z) : Z :=
  match fd_daily d !! (grant_id, date) with
  | Some u => du_used_amount_usdc u + du_reserved_amount_usdc u
  | None => 0
  end.

Definition us_per_hour : Z := 3600 * us_per_second.

(** The amounts of a grant that occurred after an instant and were not released. *)
Definition counts_after (grant_id : string) (cutoff : Z) (u : SpendingGrantRollingUsageRow) : Z :=
  if bool_decide (ru_spending_grant_id u = grant_id) && (cutoff <? ru_occurred_at u)
     && bool_decide (ru_state u ∈ [RollingReserved; RollingUsed])
  then ru_amount_usdc u else 0.
Definition rolling_total (d : FundingDb) (grant_id : string) (cutoff : Z) : Z :=
  table_sum (counts_after grant_id cutoff) (fd_rolling d).

(** The grants every scope, daily and hourly limit leaves. *)
Definition eligible_grants (rq : CreateSpendingReservationRequest) (user_id agent_id : string)
    (amount now : Z) (d : FundingDb) : result (list SpendingGrantRow) :=
  grants ← actor_grants user_id agent_id now d;
  grants ← filter_stages (scope_stages rq amount) grants;
  let daily := filter (λ g, daily_total d (sg_spending_grant_id g) (day_of now) + amount
                            <= sg_daily_limit_usdc g) grants in
  require (negb (bool_decide (length daily = 0%nat))) (ValueError "DAILY_LIMIT_EXCEEDED");;
  let hourly := filter (λ g, rolling_total d (sg_spending_grant_id g) (now - us_per_hour) + amount
                             <= sg_hourly_limit_usdc g) daily in
  require (negb (bool_decide (length hourly = 0%nat))) (ValueError "HOURLY_LIMIT_EXCEEDED");;
  mret hourly.

(** ** Candidates *)

(** Tuples of identifiers compare by their first difference. *)
Definition key_leb (k k' : string * string) : bool :=
  match String.compare k.1 k'.1 with
  | Lt => true
  | Eq => String.leb k.2 k'.2
  | Gt => false
  end.
Definition smaller {A} (key : A → string * string) (a b : A) : A :=
  if key_leb (key a) (key b) then a else b.
(** [min(candidates)]. *)
Definition pick_min {A} (key : A → string * string) (l : list A) : option A :=
  match l with [] => None | a :: l' => Some (fold_left (smaller key) l' a) end.

Definition grant_key (g : SpendingGrantRow) : string * string :=
  (sg_spending_grant_id g, sg_wallet_identity_id g).
Definition pair_key (ga : SpendingGrantRow * AssetAllowanceRow) : string * string :=
  (sg_spending_grant_id ga.1, aa_asset_allowance_id ga.2).

(** Grants paired with the allowances of their wallet that hold the asset. *)
Definition asset_pairs (rq : CreateSpendingReservationRequest)
    (grants : list SpendingGrantRow) (allowances : list AssetAllowanceRow)
    : list (SpendingGrantRow * AssetAllowanceRow) :=
  filter (λ ga : SpendingGrantRow * AssetAllowanceRow,
            aa_wallet_identity_id ga.2 = sg_wallet_identity_id ga.1
            ∧ aa_token_address ga.2 ∈ sg_asset_scopes ga.1
            ∧ lower (rq_asset rq) ∈ [lower (aa_token_symbol ga.2); lower (aa_token_address ga.2)])
    (g ← grants; a ← allowances; [(g, a)]).

(** [_require_opc_installation_authority]. *)
Definition require_opc_installation_authority (installation_id : option string)
    (user_id : string) (g : SpendingGrantRow) (now : Z) (d : FundingDb) : result unit :=
  match installation_id with
  | None => mret tt
  | Some k =>
      require (match fd_installations d !! k with
               | None => false
               | Some i =>
                   bool_decide (oi_status i = "active") && bool_decide (oi_scope i = "payments")
                   && bool_decide (oi_user_id i = Some user_id)
                   && bool_decide (oi_wallet_identity_id i = Some (sg_wallet_identity_id g))
                   && bool_decide (oi_spending_grant_id i = Some (sg_spending_grant_id g))
                   && bool_decide (is_Some (oi_approved_at i))
                   && match oi_consent_expires_at i with
                      | Some t => (now <? t) && (t <=? sg_expires_at g)
                      | None => false
                      end
               end)
        (ValueError "OPC installation authority is unavailable for this spending grant")
  end.

(** ** Reserving *)

Section Reserve.
Context `{Sha256}.

Definition new_daily_usage (grant_id : string) (date now : Z) : SpendingGrantDailyUsageRow :=
  MkDailyUsage ("grant_daily_" +:+ sha256_hex (grant_id +:+ ":" +:+ iso_date date)) 0 0 now now.

(** [_commit_budget_reservation]. *)
Definition commit_budget_reservation (g : SpendingGrantRow) (amount now date : Z)
    (reservation_id : string) : funding unit :=
  d ← reads id;
  let key := (sg_spending_grant_id g, date) in
  let usage := default (new_daily_usage (sg_spending_grant_id g) date now) (fd_daily d !! key) in
  requires (du_used_amount_usdc usage + du_reserved_amount_usdc usage + amount
            <=? sg_daily_limit_usdc g) (ValueError "DAILY_LIMIT_EXCEEDED");;
  put_grant (g <| sg_reserved_amount_usdc := sg_reserved_amount_usdc g + amount |>
               <| sg_updated_at := now |>);;
  put_daily key (usage <| du_reserved_amount_usdc := du_reserved_amount_usdc usage + amount |>
                       <| du_updated_at := now |>);;
  requires (bool_decide (fd_rolling d !! reservation_id = None))
    (IntegrityError "spending_grant_rolling_usage");;
  put_rolling reservation_id
    (MkRollingUsage (sg_spending_grant_id g) amount RollingReserved now now).

Definition STALE_RESOLUTION : exn := ValueError "authorization resolution is stale".
Definition ATOMIC_MISMATCH : exn :=
  ValueError "amount_atomic does not match amount_usdc and token decimals".
Definition CANONICAL_PAIR_REQUIRED : exn :=
  ValueError "canonical asset pair required before reservation".

(** The spender of the allowance the caller resolved, of an allowance-backed rail. *)
Definition trusted_spender (rq : CreateSpendingReservationRequest)
    (expected : option Selection) (canonical_token_address : option string) (d : FundingDb)
    : result (option string) :=
  match expected with
  | Some e =>
      if allowance_rail (PStr (rq_authorization_rail rq)) then
        a ← from_option_or (k ← se_asset_allowance_id e; fd_allowances d !! k) STALE_RESOLUTION;
        require (bool_decide (aa_network a = rq_network rq)
                 && bool_decide (Some (aa_token_address a) = canonical_token_address))
          CANONICAL_PAIR_REQUIRED;;
        mret (Some (aa_spender_address a))
      else mret None
  | None => mret None
  end.

(** The reservation both rails end with. *)
Definition reserve_on (rq : CreateSpendingReservationRequest) (user_id : string)
    (amount now : Z) (reservation_id : string) (expected : option Selection)
    (g : SpendingGrantRow) (selection : Selection) : funding Z :=
  requires (match expected with Some e => bool_decide (selection = e) | None => true end)
    STALE_RESOLUTION;;
  d ← reads id;
  lifts (require_opc_installation_authority (rq_opc_installation_id rq) user_id g now d);;
  commit_budget_reservation g amount now (day_of now) reservation_id;;
  mret (day_of now).

(** The rail of an external x402 payment: the grant alone is charged. *)
Definition reserve_external (rq : CreateSpendingReservationRequest) (user_id : string)
    (amount atomic now : Z) (reservation_id : string) (expected : option Selection)
    (decimals : Z) (symbol : string) (canonical_token_address : option string)
    (grants : list SpendingGrantRow) : funding ReservedBudget :=
  let token_address := lower (default EmptyString (rq_token_address rq)) in
  requires (bool_decide (Some token_address = canonical_token_address)) CANONICAL_PAIR_REQUIRED;;
  let candidates := filter (λ g, token_address ∈ map lower (sg_asset_scopes g)) grants in
  g ← lifts (from_option_or (pick_min grant_key candidates) (ValueError "ASSET_SCOPE_MISMATCH"));
  requires (atomic_matches amount decimals atomic) ATOMIC_MISMATCH;;
  let selection := MkSelection (sg_wallet_identity_id g) (sg_spending_grant_id g) None in
  date ← reserve_on rq user_id amount now reservation_id expected g selection;
  mret (MkReservedBudget selection token_address decimals symbol None date).

(** The allowance-backed rails: a grant and an allowance of its wallet. *)
Definition reserve_allowance (rq : CreateSpendingReservationRequest) (user_id : string)
    (amount atomic now : Z) (reservation_id : string) (expected : option Selection)
    (spender canonical_token_address : option string)
    (grants : list SpendingGrantRow) : funding ReservedBudget :=
  d ← reads id;
  let allowances := filter (λ a, aa_wallet_identity_id a ∈ map sg_wallet_identity_id grants
                                 ∧ aa_status a = "active" ∧ aa_network a = rq_network rq
                                 ∧ Some (aa_token_address a) = canonical_token_address
                                 ∧ match spender with
                                   | Some s => bool_decide (aa_spender_address a = s)
                                   | None => true
                                   end = true)
                      (rows (fd_allowances d)) in
  let pairs := asset_pairs rq grants allowances in
  let atomic_pairs := filter (λ ga : SpendingGrantRow * AssetAllowanceRow,
                        atomic_matches amount (aa_token_decimals ga.2) atomic = true) pairs in
  let candidates := filter (λ ga : SpendingGrantRow * AssetAllowanceRow,
                      atomic <= aa_observed_allowance_atomic ga.2) atomic_pairs in
  requires (bool_decide (length pairs = 0%nat) || negb (bool_decide (length atomic_pairs = 0%nat)))
    ATOMIC_MISMATCH;;
  '(g, a) ← lifts (from_option_or (pick_min pair_key candidates)
                     (ValueError "ASSET_ALLOWANCE_REQUIRED: matching allowance required"));
  let selection := MkSelection (sg_wallet_identity_id g) (sg_spending_grant_id g)
                     (Some (aa_asset_allowance_id a)) in
  date ← reserve_on rq user_id amount now reservation_id expected g selection;
  mret (MkReservedBudget selection (aa_token_address a) (aa_token_decimals a)
          (aa_token_symbol a) (Some (aa_spender_address a)) date).

(** [reserve_unified_budget]. *)
Definition reserve_unified_budget (rq : CreateSpendingReservationRequest)
    (user_id agent_id : string) (amount now : Z) (reservation_id : string)
    (expected : option Selection) (external_token_decimals : Z) (external_token_symbol : string)
    (canonical_token_address : option string) : funding ReservedBudget :=
  d ← reads id;
  spender ← lifts (trusted_spender rq expected canonical_token_address d);
  grants ← lifts (eligible_grants rq user_id agent_id amount now d);
  atomic ← lifts (atomic_amount (rq_amount_atomic rq));
  if bool_decide (rq_authorization_rail rq = "external_x402") then
    reserve_external rq user_id amount atomic now reservation_id expected
      external_token_decimals external_token_symbol canonical_token_address grants
  else
    reserve_allowance rq user_id amount atomic now reservation_id expected spender
      canonical_token_address grants.
End Reserve.

(** ** Closing a reservation *)

(** [Decimal(row["amount_usdc"])], in micro-USDC. *)
Definition row_amount (row : pydict) : result Z :=
  v ← dict_item row "amount_usdc";
  match v with
  | PStr s => from_option_or (decimal_micros s) (ArithmeticError "decimal.InvalidOperation")
  | PInt n => mret (n * 1000000)
  | PBool b => mret (bool_int b * 1000000)
  | _ => Err (TypeError "conversion to Decimal is not supported")
  end.

(** [datetime.fromisoformat(row["usage_date"]).date()], of the text
    [isoformat] writes. *)
Definition row_usage_date (row : pydict) : result Z :=
  v ← dict_item row "usage_date";
  match v with
  | PStr s => from_option_or (parse_date s) (ValueError "Invalid isoformat string")
  | _ => Err (TypeError "fromisoformat: argument must be str")
  end.

Definition INCONSISTENT : exn := ValueError "reserved budget accounting is inconsistent".

(** The rows a reservation charges, and its amount. *)
Definition charged_rows (row : pydict) (d : FundingDb)
    : result (Z * SpendingGrantRow * (string * Z) * SpendingGrantDailyUsageRow) :=
  amount ← row_amount row;
  grant_id ← dict_item row "spending_grant_id";
  g ← from_option_or (locked fd_grants grant_id d) (ValueError "spending grant was not found");
  date ← row_usage_date row;
  let key := (sg_spending_grant_id g, date) in
  usage ← from_option_or (fd_daily d !! key) (ValueError "daily usage was not found");
  require (negb ((sg_reserved_amount_usdc g <? amount)
                 || (du_reserved_amount_usdc usage <? amount))) INCONSISTENT;;
  mret (amount, g, key, usage).

(** The rolling row of a reservation moves to its closing state. *)
Definition close_rolling (row : pydict) (state : RollingState) (now : Z) : funding unit :=
  reservation_id ← lifts (dict_item row "reservation_id");
  d ← reads id;
  match reservation_id, locked fd_rolling reservation_id d with
  | PStr k, Some u => put_rolling k (u <| ru_state := state |> <| ru_updated_at := now |>)
  | _, _ => mret tt
  end.

(** A grant the budget of which was exhausted becomes active again. *)
Definition reactivated (g : SpendingGrantRow) (now : Z) (d : FundingDb) : SpendingGrantRow :=
  if bool_decide (sg_status g = "exhausted")
     && bool_decide (sg_status_reason g = Some "budget_exhausted")
     && (sg_used_amount_usdc g + sg_reserved_amount_usdc g <? sg_max_amount_usdc g)
     && match fd_identities d !! sg_wallet_identity_id g with
        | Some w => bool_decide (wi_status w = "active")
        | None => false
        end
     && (sg_starts_at g <=? now) && (now <? sg_expires_at g)
  then g <| sg_status := "active" |> <| sg_status_reason := None |> else g.

(** A grant that spent its budget. *)
Definition exhausted (g : SpendingGrantRow) : SpendingGrantRow :=
  if bool_decide (sg_status g ∈ ["active"; "exhausted"])
     && bool_decide (sg_status_reason g ∈ [None; Some "budget_exhausted"])
     && (sg_max_amount_usdc g <=? sg_used_amount_usdc g + sg_reserved_amount_usdc g)
  then g <| sg_status := "exhausted" |> <| sg_status_reason := Some "budget_exhausted" |> else g.

(** The accounting state of a reservation. *)
Definition accounting_is (row : pydict) (state : string) : bool :=
  is_text (dict_get row "budget_accounting_state") state.

(** [release_unified_budget]. *)
Definition release_unified_budget (row : pydict) (now : Z) : funding pydict :=
  lifts (require_unified_reservation row);;
  if accounting_is row "released" then mret row
  else
    requires (accounting_is row "reserved") (ValueError "reservation budget is not releasable");;
    d ← reads id;
    '(amount, g, key, usage) ← lifts (charged_rows row d);
    let g' := g <| sg_reserved_amount_usdc := sg_reserved_amount_usdc g - amount |>
                <| sg_updated_at := now |> in
    put_grant (reactivated g' now d);;
    put_daily key (usage <| du_reserved_amount_usdc := du_reserved_amount_usdc usage - amount |>
                         <| du_updated_at := now |>);;
    close_rolling row RollingReleased now;;
    mret (dict_set row "budget_accounting_state" (PStr "released")).

(** [settle_unified_budget]. *)
Definition settle_unified_budget (row : pydict) (now : Z) : funding pydict :=
  lifts (require_unified_reservation row);;
  if accounting_is row "settled" then mret row
  else
    requires (accounting_is row "reserved") (ValueError "reservation budget is not settleable");;
    d ← reads id;
    '(amount, g, key, usage) ← lifts (charged_rows row d);
    let g' := g <| sg_reserved_amount_usdc := sg_reserved_amount_usdc g - amount |>
                <| sg_used_amount_usdc := sg_used_amount_usdc g + amount |>
                <| sg_updated_at := now |> in
    put_grant (exhausted g');;
    put_daily key (usage <| du_reserved_amount_usdc := du_reserved_amount_usdc usage - amount |>
                         <| du_used_amount_usdc := du_used_amount_usdc usage + amount |>
                         <| du_updated_at := now |>);;
    close_rolling row RollingUsed now;;
    mret (dict_set row "budget_accounting_state" (PStr "settled")).

(** ** Checks before a payment is submitted *)

(** [validate_unified_lifecycle]. *)
Definition validate_unified_lifecycle (row : pydict) (now : Z) (payment_already_executed : bool)
    (d : FundingDb) : result (WalletIdentityRow * SpendingGrantRow * option AssetAllowanceRow) :=
  '(identity, grant, allowance) ← unified_authorization_scope row d;
  require (negb (negb payment_already_executed
                 && is_text (dict_get row "product") "marketplace"
                 && is_none (dict_get row "merchant_trust_tier")))
    (ValueError "MERCHANT_TRUST_SCOPE_MISMATCH");;
  require (bool_decide (wi_status identity = "active"))
    (ValueError "active wallet identity required before payment submission");;
  require (bool_decide (sg_status grant = "active")
           && (sg_starts_at grant <=? now) && (now <? sg_expires_at grant))
    (ValueError "active spending grant required before payment submission");;
  require (match allowance with
           | Some a => bool_decide (aa_status a = "active")
           | None => true
           end)
    (ValueError "active asset allowance required before payment submission");;
  mret (identity, grant, allowance).
