(* ===== verification/LedgerEvidence.v ===== *)
(** * Chain evidence and its audit trail

    Recording what the chain watcher and the reconciler observed about a
    reservation, each projection with one audit event
    ([funding_service/ledger.py]). *)

From S2P Require Import Prelude PyValue Reservation Amounts LedgerTables LedgerStore.

Open Scope string_scope.
Open Scope Z_scope.

Section Evidence.
Context `{Sha256}.

(** [hashlib.sha256(text.encode()).hexdigest()[:32]]. *)
Definition digest32 (text : string) : string := String.substring 0 32 (sha256_hex text).

(** The id of the audit event of a piece of evidence. *)
Definition evidence_event_id (prefix : string) (row : pydict) (evidence_hash : string) : string :=
  prefix +:+ digest32 (py_str (dict_get row "reservation_id") +:+ ":" +:+ evidence_hash).

(** The audit event of a reservation: its references come from the row. *)
Definition reservation_event (event_type : string) (idempotency_key : option string)
    (row : pydict) (identity : WalletIdentityRow) (g : SpendingGrantRow) (order_id : pyval)
    (payload : pydict) (now : Z) : AuditEventRow :=
  MkAuditEvent idempotency_key event_type "funding_service" (dict_get row "action_id")
    (Some (wi_user_id identity)) (Some (sg_agent_id g)) (dict_get row "policy_decision_id")
    (dict_get row "reservation_id") order_id (dict_get row "receipt_id")
    (dict_get row "tx_hash") payload now.

(** Add the audit event unless it was recorded before. *)
Definition record_event_once (event_id event_type : string) (row : pydict) (payload : pydict)
    (now : Z) : funding unit :=
  d ← reads id;
  match fd_audit d !! event_id with
  | Some _ => mret tt
  | None =>
      '(identity, g, _) ← lifts (unified_authorization_scope row d);
      add_audit_event event_id
        (reservation_event event_type (Some event_id) row identity g
           (dict_get row "purchase_id") payload now)
  end.

(** [record_hosted_watcher_evidence]: one projection, immutable once stored. *)
Definition record_hosted_watcher_evidence (row evidence : pydict) (now : Z) : funding pydict :=
  lifts (require_unified_reservation row);;
  let previous := dict_get row "hosted_watcher_evidence" in
  requires (is_none previous || py_eqb previous (PDict evidence))
    (ValueError "hosted watcher evidence changed");;
  let evidence_hash := json_digest (PDict evidence) in
  record_event_once (evidence_event_id "audit_hosted_watcher_" row evidence_hash)
    "hosted_watcher_evidence_recorded" row
    [("reservation_id", dict_get row "reservation_id");
     ("hosted_execution_id", dict_get row "hosted_execution_id");
     ("evidence_hash", PStr evidence_hash);
     ("watcher_version", dict_get evidence "watcher_version");
     ("state", dict_get evidence "state")] now;;
  mret (dict_set (dict_set row "hosted_watcher_evidence" (PDict evidence))
          "hosted_watcher_evidence_hash" (PStr evidence_hash)).

(** [history[-1] != value]. *)
Definition last_differs (history : list pyval) (value : pyval) : bool :=
  match last history with Some v => negb (py_eqb v value) | None => true end.
Definition append_unless_last (history : list pyval) (value : pyval) : list pyval :=
  if last_differs history value then history ++ [value] else history.

(** [record_hosted_watcher_reorg_evidence]: a changed projection is appended to
    the history, after the one it replaces. *)
Definition record_hosted_watcher_reorg_evidence (row evidence : pydict) (now : Z)
    : funding pydict :=
  lifts (require_unified_reservation row);;
  let previous := dict_get row "hosted_watcher_evidence" in
  if is_none previous || py_eqb previous (PDict evidence)
  then record_hosted_watcher_evidence row evidence now
  else
    match dict_get_or row "hosted_watcher_evidence_history" (PList []) with
    | PList history0 =>
        let evidence_hash := json_digest (PDict evidence) in
        let history := append_unless_last (append_unless_last history0 previous)
                         (PDict evidence) in
        record_event_once (evidence_event_id "audit_hosted_watcher_reorg_" row evidence_hash)
          "hosted_watcher_reorg_evidence_recorded" row
          [("reservation_id", dict_get row "reservation_id");
           ("hosted_execution_id", dict_get row "hosted_execution_id");
           ("previous_evidence_hash", dict_get row "hosted_watcher_evidence_hash");
           ("evidence_hash", PStr evidence_hash);
           ("watcher_version", dict_get evidence "watcher_version");
           ("state", dict_get evidence "state")] now;;
        mret (dict_set (dict_set (dict_set row "hosted_watcher_evidence" (PDict evidence))
                          "hosted_watcher_evidence_hash" (PStr evidence_hash))
                "hosted_watcher_evidence_history" (PList history))
    | _ => raises (ValueError "hosted watcher evidence history is invalid")
    end.

(** [require_no_durable_transaction_evidence]: the stored row, not its redacted
    view, shows no transaction. *)
Definition require_no_durable_transaction_evidence (reservation_id : string) (d : FundingDb)
    : result unit :=
  stored ← from_option_or
    (r ← fd_records d !! reservation_id;
     if bool_decide (lr_record_type r = "reservation") then Some r else None)
    (ValueError "Hosted unsigned expiry reservation is unavailable");
  require (bool_decide (lr_tx_hash stored = None)
           && bool_decide (find_row (λ b, bool_decide (tb_reservation_id b = reservation_id))
                             (fd_bindings d) = None)
           && is_none (dict_get (lr_payload stored) LEGACY_SIGNED_TRANSACTION_FIELD)
           && is_none (dict_get (lr_payload stored) LEGACY_EXTERNAL_PAYMENT_FIELD))
    (ValueError "Hosted unsigned expiry conflicts with durable transaction evidence").

(** The authorizations of a reservation that were revoked meanwhile. *)
Definition revocations (identity : WalletIdentityRow) (g : SpendingGrantRow) : list string :=
  (if bool_decide (wi_status identity = "revoked") then ["wallet_identity"] else [])
  ++ (if bool_decide (sg_status g = "revoked") then ["spending_grant"]
      else if bool_decide (sg_status g = "paused")
              && bool_decide (sg_status_reason g = Some "wallet_identity_revoked")
      then ["spending_grant_identity_cascade"] else []).

(** [record_external_reconciliation_after_revocation]. *)
Definition record_external_reconciliation_after_revocation (row : pydict) (now : Z)
    : funding (list string) :=
  d ← reads id;
  '(identity, g, _) ← lifts (unified_authorization_scope row d);
  let revoked := revocations identity g in
  if bool_decide (revoked = []) then mret []
  else
    let event_id := "audit_x402_revoked_" +:+ digest32 (py_str (dict_get row "reservation_id")) in
    match fd_audit d !! event_id with
    | Some _ => mret revoked
    | None =>
        network ← lifts (dict_item row "network");
        token_address ← lifts (dict_item row "token_address");
        add_audit_event event_id
          (reservation_event "external_payment_reconciled_after_authorization_revocation" None
             row identity g PNone
             [("reservation_id", dict_get row "reservation_id");
              ("wallet_identity_id", PStr (wi_wallet_identity_id identity));
              ("spending_grant_id", PStr (sg_spending_grant_id g));
              ("network", network); ("token_address", token_address);
              ("revoked_authorizations", PList (strs revoked))] now);;
        mret revoked
    end.

(** An allowance after a refresh: stale, or as observed on chain. *)
Definition observed_allowance (a : AssetAllowanceRow) (observed : option Z) (now : Z)
    : AssetAllowanceRow :=
  match observed with
  | None => a <| aa_status := "stale" |> <| aa_updated_at := now |>
  | Some n =>
      a <| aa_observed_allowance_atomic := n |> <| aa_last_chain_check_at := Some now |>
        <| aa_updated_at := now |>
        <| aa_status := if n =? 0 then "revoked" else "active" |>
  end.

(** [observe_allowance_before_submission]; [uuid4] is the id of the event. *)
Definition observe_allowance_before_submission (event_id : string) (row : pydict)
    (observed_allowance_atomic : pyval) (stale : bool) (now : Z) : funding string :=
  backed ← lifts (in_set (dict_get row "authorization_rail")
                    (strs ["native_allowance"; "clink_payer_proxy"]));
  requires backed (ValueError "allowance refresh requires an allowance-backed rail");;
  d ← reads id;
  '(identity, g, allowance) ← lifts (unified_authorization_scope row d);
  a ← lifts (from_option_or allowance UNAVAILABLE);
  observed ← (if stale then mret None
              else n ← lifts (atomic_amount (py_str observed_allowance_atomic)); mret (Some n));
  let a' := observed_allowance a observed now in
  put_allowance a';;
  add_audit_event event_id
    (MkAuditEvent None "allowance_refreshed" "funding_service" (dict_get row "action_id")
       (Some (wi_user_id identity)) (Some (sg_agent_id g)) (dict_get row "policy_decision_id")
       PNone PNone PNone PNone
       [("asset_allowance_id", PStr (aa_asset_allowance_id a'));
        ("wallet_identity_id", PStr (wi_wallet_identity_id identity));
        ("spending_grant_id", PStr (sg_spending_grant_id g));
        ("reservation_id", dict_get row "reservation_id");
        ("network", PStr (aa_network a')); ("token_address", PStr (aa_token_address a'));
        ("status", PStr (aa_status a'));
        ("observed_allowance_atomic", PStr (pretty (aa_observed_allowance_atomic a')))] now);;
  mret (aa_status a').
End Evidence.
