(* ===== verification/FundingService.v ===== *)
(** * Reservations of the funding service

    The service's transactions on one reservation ([funding_service/service.py]):
    reserving, finalizing, releasing, and the reconciliation outcomes that hold,
    retry or complete a submitted payment.  [clock] is the instant
    [_utc_now] returns; identifiers the code draws at random are arguments. *)

From S2P Require Import Prelude PyValue Calendar Reservation Amounts LedgerTables LedgerStore.
From S2P Require Import Budget.

Open Scope string_scope.
Open Scope Z_scope.

(** [{ ** d, k1: v1, ...}]. *)
Definition dict_update (d : pydict) (kvs : pydict) : pydict :=
  foldl (λ d kv, dict_set d kv.1 kv.2) d kvs.

Definition opt_str (o : option string) : pyval :=
  match o with Some s => PStr s | None => PNone end.

(** [_parse_amount]. *)
Definition parse_amount (value : string) : result Z :=
  amount ← from_option_or (decimal_micros value)
             (ValueError "amount_usdc must be a valid decimal string");
  require (0 <=? amount) (ValueError "amount_usdc must be non-negative");;
  mret amount.

(** ** Reserving *)

(** [ReservationProvenance]: what the action and the policy authorise. *)
Record ReservationProvenance := MkProvenance {
  pv_user_id : string;
  pv_agent_id : string;
  pv_authorization_path : string;
  pv_product : string;
  pv_wallet_identity_id : string;
  pv_spending_grant_id : string;
  pv_asset_allowance_id : option string;
  pv_opc_installation_id : option string;
  pv_authorization_rail : string;
}.

(** [request.model_copy(update=...)]: the references of the provenance replace
    the caller's hints. *)
Definition trusted_request (rq : CreateSpendingReservationRequest) (pv : ReservationProvenance)
    : CreateSpendingReservationRequest :=
  MkReservationRequest (rq_purchase_id rq) (rq_idempotency_key rq) None
    (pv_authorization_rail pv) (Some (pv_wallet_identity_id pv))
    (Some (pv_spending_grant_id pv))
    (match pv_asset_allowance_id pv with Some a => Some a | None => rq_asset_allowance_id rq end)
    (match pv_opc_installation_id pv with Some i => Some i | None => rq_opc_installation_id rq end)
    (Some (pv_product pv)) (rq_action_id rq) (rq_policy_decision_id rq) (rq_merchant_id rq)
    (rq_merchant_trust_tier rq) (rq_quote_hash rq) (rq_amount_usdc rq) (rq_amount_atomic rq)
    (rq_network rq) (rq_asset rq) (rq_token_address rq) (rq_destination rq) (rq_resource rq)
    (rq_venue rq).

(** [request.model_dump()]. *)
Definition model_dump (rq : CreateSpendingReservationRequest) : pydict :=
  [("purchase_id", PStr (rq_purchase_id rq));
   ("idempotency_key", PStr (rq_idempotency_key rq));
   ("spending_authorization_id", opt_str (rq_spending_authorization_id rq));
   ("authorization_rail", PStr (rq_authorization_rail rq));
   ("wallet_identity_id", opt_str (rq_wallet_identity_id rq));
   ("spending_grant_id", opt_str (rq_spending_grant_id rq));
   ("asset_allowance_id", opt_str (rq_asset_allowance_id rq));
   ("opc_installation_id", opt_str (rq_opc_installation_id rq));
   ("product", opt_str (rq_product rq));
   ("action_id", PStr (rq_action_id rq));
   ("policy_decision_id", PStr (rq_policy_decision_id rq));
   ("merchant_id", PStr (rq_merchant_id rq));
   ("merchant_trust_tier", opt_str (rq_merchant_trust_tier rq));
   ("quote_hash", PStr (rq_quote_hash rq));
   ("amount_usdc", PStr (rq_amount_usdc rq));
   ("amount_atomic", PStr (rq_amount_atomic rq));
   ("network", PStr (rq_network rq));
   ("asset", PStr (rq_asset rq));
   ("token_address", opt_str (rq_token_address rq));
   ("destination", PStr (rq_destination rq));
   ("resource", PStr (rq_resource rq));
   ("venue", PStr (rq_venue rq))].

(** [_verify_reservation_replay]. *)
Definition verify_reservation_replay (existing : pydict) (rq : CreateSpendingReservationRequest)
    : result unit :=
  require (forallb (λ kv, is_none kv.2 || py_eqb (dict_get existing kv.1) kv.2) (model_dump rq))
    (ValueError "purchase replay changed immutable scope").

Definition EXTERNAL_AUTHORIZATION_CLOCK_SKEW_SECONDS : Z := 60.
Definition EXTERNAL_AUTHORIZATION_LIFETIME_SECONDS : Z := 900.

(** The signing challenge of an external payment. *)
Definition external_challenge (rail nonce : string) (now : Z) : pydict :=
  if bool_decide (rail = "external_x402") then
    [("nonce", PStr nonce);
     ("valid_after", PStr (pretty (epoch_seconds now - EXTERNAL_AUTHORIZATION_CLOCK_SKEW_SECONDS)));
     ("valid_before", PStr (pretty (epoch_seconds now + EXTERNAL_AUTHORIZATION_LIFETIME_SECONDS)))]
  else [].

(** The payload of a new reservation. *)
Definition reservation_payload (rq : CreateSpendingReservationRequest)
    (pv : ReservationProvenance) (reservation_id nonce : string) (b : ReservedBudget) (now : Z)
    : pydict :=
  let trusted := match rq_opc_installation_id rq with
                 | None => dict_pop (model_dump rq) "opc_installation_id"
                 | Some _ => model_dump rq
                 end in
  dict_update [("reservation_id", PStr reservation_id)]
    (trusted ++ external_challenge (pv_authorization_rail pv) nonce now ++
     [("user_id", PStr (pv_user_id pv)); ("agent_id", PStr (pv_agent_id pv));
      ("product", PStr (pv_product pv));
      ("single_submission", PBool (bool_decide (pv_product pv = "prediction_markets")));
      ("replacement_forbidden", PBool false);
      ("authorization_rail", PStr (pv_authorization_rail pv));
      ("token_address", PStr (rb_token_address b));
      ("token_decimals", PInt (rb_token_decimals b));
      ("token_symbol", PStr (rb_token_symbol b));
      ("spender_address", opt_str (rb_spender_address b));
      ("authorization_path", PStr "unified_grant");
      ("budget_accounting_state", PStr "reserved");
      ("usage_date", PStr (iso_date (rb_usage_date b)));
      ("state", PStr "spending_reserved"); ("receipt_id", PNone); ("tx_hash", PNone);
      ("created_at", PStr (format_time now))]).

Section Service.
Context `{Sha256} (clock : Z).

(** [_reserve_unified_spending]: a replay of the purchase returns the stored
    reservation; otherwise the budget and the record are written together. *)
Definition reserve_unified_spending (rq0 : CreateSpendingReservationRequest)
    (pv : ReservationProvenance) (amount : Z) (reservation_id nonce : string)
    (external_token_decimals : Z) (external_token_symbol : string)
    (canonical_token_address : option string) : FundingDb → result pydict * FundingDb :=
  let rq := trusted_request rq0 pv in
  write_session
    (existing ← reads (by_purchase (rq_purchase_id rq));
     match existing with
     | Some (kv :: row) =>
         lifts (verify_reservation_replay (kv :: row) rq);; mret (kv :: row)
     | _ =>
         let expected := MkSelection (pv_wallet_identity_id pv) (pv_spending_grant_id pv)
                           (if allowance_rail (PStr (pv_authorization_rail pv))
                            then pv_asset_allowance_id pv else None) in
         b ← reserve_unified_budget rq (pv_user_id pv) (pv_agent_id pv) amount clock
               reservation_id (Some expected) external_token_decimals external_token_symbol
               canonical_token_address;
         let payload := reservation_payload rq pv reservation_id nonce b clock in
         put clock "reservation" reservation_id payload
           [("purchase_id", PStr (rq_purchase_id rq));
            ("idempotency_key", PStr (rq_idempotency_key rq));
            ("action_id", PStr (rq_action_id rq));
            ("policy_decision_id", PStr (rq_policy_decision_id rq));
            ("reservation_id", PStr reservation_id)];;
         mret payload
     end).

(** [reserve_spending], after the provenance was verified. *)
Definition reserve_spending (rq : CreateSpendingReservationRequest) (pv : ReservationProvenance)
    (reservation_id nonce : string) (external_token_decimals : Z)
    (external_token_symbol : string) (canonical_token_address : option string) (d : FundingDb)
    : result pydict * FundingDb :=
  match (require (bool_decide (pv_authorization_path pv = "unified_grant"))
           (ValueError LEGACY_READ_ONLY_ERROR);;
         amount ← parse_amount (rq_amount_usdc rq);
         require (0 <? amount) (ValueError "reservation amount must be positive");;
         mret amount) with
  | Ok amount =>
      reserve_unified_spending rq pv amount reservation_id nonce external_token_decimals
        external_token_symbol canonical_token_address d
  | Err e => (Err e, d)
  end.

(** ** Closing a reservation *)

(** [tx.get(id)] of a record that must exist. *)
Definition required_row (reservation_id : string) (e : exn) : funding pydict :=
  d ← reads id;
  match get reservation_id d with
  | Some (kv :: row) => mret (kv :: row)
  | _ => raises e
  end.

Definition state_in (row : pydict) (states : list string) : result bool :=
  state ← dict_item row "state"; in_set state (strs states).

(** [finalize_reservation]. *)
Definition finalize_reservation (reservation_id : string) (delivery_status output_hash : pyval)
    : FundingDb → result pydict * FundingDb :=
  write_session
    (row ← required_row reservation_id (ValueError "settled reservation required");
     lifts (require_unified_reservation row);;
     settled ← lifts (state_in row ["settled"; "finalized"]);
     requires settled (ValueError "settled reservation required");;
     if is_text (dict_get row "state") "finalized" then mret row
     else
       let row' := dict_update row
         [("state", PStr "finalized"); ("delivery_status", delivery_status);
          ("output_hash", output_hash); ("finalized_at", PStr (format_time clock))] in
       put_reservation clock row' (dict_get row' "tx_hash");;
       mret row').

(** [release_reservation]. *)
Definition release_reservation (reservation_id reason : string)
    : FundingDb → result pydict * FundingDb :=
  write_session
    (row ← required_row reservation_id (ValueError "reservation not found");
     lifts (require_unified_reservation row);;
     lifts (validate_single_submission_state row);;
     submitted ← lifts (state_in row ["payment_submitted"; "payer_funded"; "proxy_payment_ready";
                                      "settled"; "finalized"]);
     requires (negb submitted)
       (ValueError "submitted or settled reservation cannot be released");;
     if is_text (dict_get row "state") "released" then mret row
     else
       row ← release_unified_budget row clock;
       let row' := dict_update row
                     [("state", PStr "released"); ("release_reason", PStr reason)] in
       put_reservation clock row' PNone;;
       mret row').

(** ** Reconciliation outcomes *)

(** [_same_pending_payment]: the stored reservation still waits for the payment
    the caller looked up. *)
Definition same_pending_payment (current : option pydict) (expected : pydict) : bool :=
  match current with
  | Some (kv :: row) =>
      is_text (dict_get (kv :: row) "state") "payment_submitted"
      && match canonicalize_transaction_hash (dict_get (kv :: row) "tx_hash"),
               canonicalize_transaction_hash (dict_get expected "tx_hash") with
         | Ok h, Ok h' => bool_decide (h = h')
         | _, _ => false
         end
  | _ => false
  end.

(** Run [k] on the stored reservation when it is the pending one, else return it. *)
Definition on_pending (row : pydict) (k : pydict → funding pydict)
    : FundingDb → result (option pydict) * FundingDb :=
  write_session
    (id_ ← lifts (dict_item row "reservation_id");
     current ← reads (λ d, get (py_str id_) d);
     if same_pending_payment current row
     then updated ← k (default [] current); mret (Some updated)
     else mret current).

(** [value or default]. *)
Definition py_or (v w : pyval) : pyval := if py_truthy v then v else w.

(** [_manual_review_reservation]. *)
Definition manual_review_reservation (row : pydict) (reason : string) (now : Z) : pydict :=
  dict_update row
    [("reconciliation_status", PStr "manual_review_required");
     ("next_action", PStr "operator_reconcile"); ("manual_review_reason", PStr reason);
     ("manual_review_required_at",
      py_or (dict_get row "manual_review_required_at") (PStr (format_time now)))].

(** [_pending_reservation]. *)
Definition pending_reservation (row : pydict) (error : option string) (manual_review : bool)
    : FundingDb → result (option pydict) * FundingDb :=
  on_pending row (λ current,
    let updated :=
      if manual_review then
        manual_review_reservation current
          (match error with
           | None | Some EmptyString => "operator reconciliation remains ambiguous"
           | Some e => e
           end) clock
      else dict_update current [("reconciliation_status", PStr "pending");
                                ("next_action", PStr "reconcile_payment")] in
    let updated := match error with
                   | None | Some EmptyString => updated
                   | Some e => dict_set updated "last_reconciliation_error" (PStr e)
                   end in
    put_reservation clock updated (dict_get current "tx_hash");;
    mret updated).

(** [_put_blocked_native_reservation] and [_block_unbroadcast_native_reservation]. *)
Definition put_blocked_native_reservation (current : pydict) (reason : string) : funding pydict :=
  let updated := manual_review_reservation current reason clock in
  let updated := dict_update updated
    [("risk_prebroadcast_state", PStr "blocked"); ("risk_prebroadcast_blocked", PBool true);
     ("risk_prebroadcast_blocked_at",
      py_or (dict_get current "risk_prebroadcast_blocked_at") (PStr (format_time clock)));
     ("last_reconciliation_error", PStr reason)] in
  tx_hash ← lifts (dict_item current "tx_hash");
  put_reservation clock updated tx_hash;;
  mret updated.
Definition block_unbroadcast_native_reservation (row : pydict) (reason : string)
    : FundingDb → result (option pydict) * FundingDb :=
  on_pending row (λ current, put_blocked_native_reservation current reason).

(** [[*value]] of a field that defaults to the empty list. *)
Definition list_field (row : pydict) (field : string) : result (list pyval) :=
  match dict_get_or row field (PList []) with
  | PList l => Ok l
  | _ => Err (TypeError "value is not a list")
  end.

(** [_cleared_proxy_authorization]. *)
Definition cleared_proxy_authorization : pydict :=
  [("proxy_nonce", PNone); ("proxy_valid_after", PNone); ("proxy_valid_before", PNone);
   ("proxy_challenge_hash", PNone); ("payment_payload", PNone);
   ("proxy_payment_prepared_at", PNone)].
Definition is_proxy (row : pydict) : bool :=
  is_text (dict_get row "authorization_rail") "clink_payer_proxy".

(** The sealed outcome of a single-submission payment that failed. *)
Definition failed_single_submission (current : pydict) (reason failure_kind reason_code : string)
    (tx_hash : string) (failed evidence : list pyval) : pydict :=
  dict_update current
    [("state", PStr "spending_reserved"); ("reconciliation_status", PStr "failed");
     ("next_action", PStr "release_reservation");
     ("last_reconciliation_error", PStr reason);
     ("failed_tx_hashes",
      PList (if py_in (PStr tx_hash) failed then failed else failed ++ [PStr tx_hash]));
     ("failed_submission_evidence",
      PList (evidence ++
        [PDict [("kind", PStr failure_kind); ("reason_code", PStr reason_code);
                ("tx_hash", PStr tx_hash);
                ("relayer", dict_get current "settlement_sender");
                ("nonce", dict_get current "settlement_nonce");
                ("recorded_at", PStr (format_time clock))]]));
     ("replacement_forbidden", PBool true)].

(** The reset outcome of a payment that may be submitted again. *)
Definition retryable_row (current : pydict) (reason : string) (preserve_nonce : bool)
    (tx_hash : string) (failed : list pyval) : pydict :=
  let kept field := if preserve_nonce then dict_get current field else PNone in
  let updated := dict_update current
    [("state", PStr "spending_reserved"); ("reconciliation_status", PStr "retryable");
     ("next_action", PStr (if is_proxy current then "prepare_proxy_payment"
                           else "retry_settlement"));
     ("last_reconciliation_error", PStr reason);
     ("failed_tx_hashes", PList (failed ++ [PStr tx_hash])); ("tx_hash", PNone);
     ("settlement_sender", kept "settlement_sender");
     ("settlement_nonce", kept "settlement_nonce"); ("settlement_transaction", PNone);
     ("settlement_rail", PNone); ("payment_authorization_hash", PNone);
     ("payment_proof_hash", PNone)] in
  if is_proxy current then dict_update updated cleared_proxy_authorization else updated.

(** [_retryable_reservation]. *)
Definition retryable_reservation (row : pydict) (reason : string) (preserve_nonce : bool)
    (failure_kind reason_code : string) : FundingDb → result (option pydict) * FundingDb :=
  on_pending row (λ current,
    tx_hash ← lifts (canonicalize_transaction_hash (dict_get current "tx_hash"));
    failed ← lifts (list_field current "failed_tx_hashes");
    if is_true (dict_get current "single_submission") then
      evidence ← lifts (list_field current "failed_submission_evidence");
      let updated := failed_single_submission current reason failure_kind reason_code tx_hash
                       failed evidence in
      put_reservation clock updated (PStr tx_hash);;
      mret updated
    else
      let updated := retryable_row current reason preserve_nonce tx_hash failed in
      put_reservation clock updated PNone;;
      mret updated).

(** [_retryable_proxy_payment]: the merchant payment of a funded payer failed. *)
Definition retryable_proxy_payment (row : pydict) (reason : string)
    : FundingDb → result (option pydict) * FundingDb :=
  on_pending row (λ current,
    failed ← lifts (list_field current "failed_merchant_tx_hashes");
    tx_hash ← lifts (canonicalize_transaction_hash (dict_get current "tx_hash"));
    reimbursement ← lifts (dict_item current "reimbursement_tx_hash");
    reimbursement_hash ← lifts (canonicalize_transaction_hash reimbursement);
    let updated := dict_update (dict_update current
      [("state", PStr "payer_funded"); ("reconciliation_status", PStr "retryable");
       ("next_action", PStr "prepare_proxy_payment");
       ("last_reconciliation_error", PStr reason);
       ("failed_merchant_tx_hashes", PList (failed ++ [PStr tx_hash]));
       ("merchant_tx_hash", PNone); ("tx_hash", PStr reimbursement_hash);
       ("settlement_rail", PStr "clink_payer_reimbursement"); ("receipt_id", PNone);
       ("payment_proof_hash", PNone)]) cleared_proxy_authorization in
    put_reservation clock updated (PStr reimbursement_hash);;
    mret updated).

(** [_save_reconciliation_error]. *)
Definition save_reconciliation_error (reservation_id : string) (tx_hash : pyval) (error : string)
    (d : FundingDb) : result unit * FundingDb :=
  match canonicalize_transaction_hash tx_hash with
  | Err e => (Err e, d)
  | Ok h =>
      write_session
        (current ← reads (get reservation_id);
         match current with
         | Some (kv :: row) =>
             if is_text (dict_get (kv :: row) "state") "payment_submitted" then
               h' ← lifts (canonicalize_transaction_hash (dict_get (kv :: row) "tx_hash"));
               if bool_decide (h' = h) then
                 put_reservation clock
                   (dict_set (kv :: row) "last_reconciliation_error" (PStr error)) (PStr h);;
                 mret tt
               else mret tt
             else mret tt
         | _ => mret tt
         end) d
  end.

(** [_complete_native_reservation] of the payer-proxy rail: the reimbursement is
    settled and the payer is funded. *)
Definition complete_proxy_reimbursement (row : pydict)
    : FundingDb → result (option pydict) * FundingDb :=
  on_pending row (λ current,
    d ← reads id;
    lifts (require_unified_reservation current;; unified_authorization_scope current d;; mret tt);;
    requires (is_proxy current) (ValueError "native receipts are recorded elsewhere");;
    current ← settle_unified_budget current clock;
    tx_hash ← lifts (dict_item current "tx_hash");
    let proxy_ready := is_dict (dict_get current "payment_payload") in
    let funded := dict_update current
      [("state", PStr (if proxy_ready then "proxy_payment_ready" else "payer_funded"));
       ("reimbursement_tx_hash", tx_hash); ("receipt_id", PNone);
       ("reconciliation_status", PStr "settled");
       ("next_action", PStr (if proxy_ready then "submit_proxy_payment"
                             else "prepare_proxy_payment"));
       ("payer_funded_at", PStr (format_time clock))] in
    put_reservation clock funded tx_hash;;
    mret funded).

(** [_authoritative_reservation]: the stored row behind a caller's copy. *)
Definition authoritative_reservation (row : pydict) (d : FundingDb) : result pydict :=
  (if py_truthy (dict_get row "reservation_id") then mret tt
   else require_unified_reservation row);;
  reservation_id ← dict_item row "reservation_id";
  current ← from_option_or (k ← (match reservation_id with PStr k => Some k | _ => None end);
                            get k d)
              (ValueError "unified authorization provenance is unavailable");
  require_matching_reservation_immutable_fields current row;;
  require_unified_reservation row;;
  unified_authorization_scope current d;;
  mret current.

(** [_reconciliation_limit_reason]; the limits are configuration. *)
Definition reconciliation_limit_reason (max_attempts max_age_seconds : Z) (row : pydict) (now : Z)
    : result (option string) :=
  attempts ← py_int (py_or (dict_get row "reconciliation_attempts") (PInt 0));
  mret (if max_attempts <=? attempts
        then Some "automatic reconciliation attempt limit reached"
        else
          match parse_utc (py_str (py_or (dict_get row "reconciliation_started_at")
                                         (dict_get row "created_at"))) with
          | None => Some "reconciliation timing metadata is invalid"
          | Some started =>
              if max_age_seconds * us_per_second <=? now - started
              then Some "automatic reconciliation age limit reached" else None
          end).
End Service.
