(* ===== verification/Assets.v ===== *)
(** * Canonical assets

    The registry of supported network and token pairs
    ([apps/core/shared/canonical_assets.py]). *)

From S2P Require Import Prelude PyValue Reservation Amounts.

Open Scope string_scope.
Open Scope Z_scope.

Definition POLYGON_NETWORK : string := "eip155:137".
Definition BASE_NETWORK : string := "eip155:8453".
Definition AMOY_NETWORK : string := "eip155:80002".
Definition POLYGON_USDC_ADDRESS : string := "0x3c499c542cef5e3811e1192ce70d8cc03d5c3359".
Definition BASE_USDC_ADDRESS : string := "0x833589fcd6edb6e08f4c7c32d4f71b54bda02913".
Definition AMOY_USDC_ADDRESS : string := "0x41e94eb019c0762f9bfcf9fb1e58725bfb0e7582".

(** [_canonical_address]. *)
Definition canonical_address (value : pyval) : result string :=
  let normalized := lower (strip (py_str value)) in
  require (is_lower_address normalized)
    (ValueError "canonical asset token_address must be an EVM address");;
  mret normalized.

Record CanonicalAsset := MkAsset {
  ca_network : string;
  ca_token_address : string;
  ca_token_symbol : string;
  ca_token_decimals : Z;
}.

(** [CanonicalAssetRegistry._assets]. *)
Abbreviation AssetRegistry := (list (string * CanonicalAsset)).

Definition asset_decimals (v : pyval) : option Z :=
  match v with
  | PInt n => if (0 <=? n) && (n <=? 255) then Some n else None
  | _ => None
  end.

(** One entry of the mapping: an address, or its fields. *)
Definition validated_asset (network : string) (value : pyval) : result CanonicalAsset :=
  require (negb (bool_decide (strip network = EmptyString)))
    (ValueError "canonical asset network is required");;
  values ← match value with
           | PStr _ => mret [("token_address", value)]
           | PDict d => mret d
           | _ => Err (TypeError "canonical asset is not a mapping")
           end;
  let symbol := strip (py_str (dict_get_or values "token_symbol" (PStr "USDC"))) in
  let decimals := asset_decimals (dict_get_or values "token_decimals" (PInt 6)) in
  require (negb (bool_decide (symbol = EmptyString)))
    (ValueError "canonical asset token_symbol is required");;
  decimals ← from_option_or decimals (ValueError "canonical asset token_decimals are invalid");
  token_address ← canonical_address (dict_get_or values "token_address" (PStr EmptyString));
  mret (MkAsset network token_address symbol decimals).

(** [__init__]. *)
Fixpoint validated_assets (assets : pydict) (validated : AssetRegistry) : result AssetRegistry :=
  match assets with
  | [] => mret validated
  | (network, value) :: assets' =>
      a ← validated_asset network value;
      validated_assets assets' (dict_set validated network a)
  end.
Definition CanonicalAssetRegistry (assets : pydict) : result AssetRegistry :=
  validated_assets assets [].

(** [value or default] of two texts. *)
Definition text_or (value default : string) : string :=
  if bool_decide (value = EmptyString) then default else value.

(** [from_config]. *)
Definition registry_from_config (hosted_rehearsal_enabled : bool)
    (polygon_usdc_address base_usdc_address : string) : result AssetRegistry :=
  CanonicalAssetRegistry
    (if hosted_rehearsal_enabled then [(AMOY_NETWORK, PStr AMOY_USDC_ADDRESS)]
     else [(POLYGON_NETWORK, PStr (text_or polygon_usdc_address POLYGON_USDC_ADDRESS));
           (BASE_NETWORK, PStr (text_or base_usdc_address BASE_USDC_ADDRESS))]).

Section Registry.
Context (registry : AssetRegistry).

(** [asset]. *)
Definition asset (network : pyval) : result CanonicalAsset :=
  match network with
  | PStr n =>
      from_option_or (dict_find registry n)
        (ValueError ("canonical asset network is unsupported: " +:+ n))
  | _ =>
      if py_hashable network
      then Err (ValueError ("canonical asset network is unsupported: " +:+ py_str network))
      else Err (TypeError "unhashable type")
  end.

(** [require_pair]. *)
Definition require_pair (network token_address : pyval) : result CanonicalAsset :=
  a ← asset network;
  address ← canonical_address token_address;
  require (bool_decide (address = ca_token_address a))
    (ValueError ("canonical asset pair required for " +:+ py_str network +:+ ": "
                 +:+ ca_token_address a));;
  mret a.

(** [token_address]. *)
Definition canonical_token_address (network : string) : result string :=
  a ← asset (PStr network); mret (ca_token_address a).

(** [FundingService._require_canonical_asset_pair]. *)
Definition require_canonical_asset_pair (row : pydict) : result unit :=
  network ← dict_item row "network";
  token_address ← dict_item row "token_address";
  require_pair network token_address;;
  mret tt.
End Registry.
