(* ===== verification/Receipts.v ===== *)
(** * Funding receipts

    The authorization a reservation spends under, and the signed receipt that is
    recorded when its payment settled ([funding_service/schemas.py],
    [funding_service/service.py], [shared/config.py]). *)

From S2P Require Import Prelude PyValue Calendar Reservation Amounts LedgerTables LedgerStore.
From S2P Require Import FundingService Assets.
From Stdlib Require Import Ascii.

Open Scope string_scope.
Open Scope Z_scope.

(** ** Validated fields *)

Definition INVALID_STRING : exn := ValueError "Input should be a valid string".
Definition as_str (v : pyval) : result string :=
  match v with PStr s => Ok s | _ => Err INVALID_STRING end.
Definition as_opt_str (v : pyval) : result (option string) :=
  match v with PNone => Ok None | PStr s => Ok (Some s) | _ => Err INVALID_STRING end.
Definition as_dict (v : pyval) : result pydict :=
  match v with
  | PDict d => Ok d
  | _ => Err (ValueError "Input should be a valid dictionary")
  end.
Fixpoint as_dicts (l : list pyval) : result (list pydict) :=
  match l with
  | [] => Ok []
  | v :: l' => d ← as_dict v; ds ← as_dicts l'; mret (d :: ds)
  end.
Definition as_dict_list (v : pyval) : result (list pydict) :=
  match v with
  | PList l => as_dicts l
  | _ => Err (ValueError "Input should be a valid list")
  end.

(** A required field of a model. *)
Definition required_field (d : pydict) (f : string) : result pyval :=
  from_option_or (dict_find d f) (ValueError "Field required").

(** [{key: row[key] for key in keys}]. *)
Fixpoint pick_items (row : pydict) (keys : list string) : result pydict :=
  match keys with
  | [] => Ok []
  | k :: keys' => v ← dict_item row k; kvs ← pick_items row keys'; mret ((k, v) :: kvs)
  end.

(** ** Spending authorizations *)

(** [SpendingAuthorization]; its event log, always empty here, is left out. *)
Record SpendingAuthorization := MkAuthorization {
  sa_legacy : bool;
  sa_spending_authorization_id : string;
  sa_user_id : string;
  sa_agent_id : string;
  sa_wallet_address : string;
  sa_max_amount_usdc : string;
  sa_per_order_limit_usdc : string;
  sa_used_amount_usdc : string;
  sa_remaining_amount_usdc : string;
  sa_venue : string;
  sa_chain : string;
  sa_token : string;
  sa_spender_address : string;
  sa_allowance_tx_hash : option string;
  sa_purpose : string;
  sa_status : string;
  sa_expires_at : string;
  sa_created_at : string;
  sa_updated_at : option string;
  sa_metadata : pydict;
}.

(** [SpendFromSpendingAuthorizationRequest]. *)
Record SpendRequest := MkSpendRequest {
  sp_spending_authorization_id : string;
  sp_amount_usdc : string;
  sp_destination : string;
  sp_resource : option string;
  sp_metadata : pydict;
}.

Definition AUTHORIZATION_METADATA_KEYS : list string :=
  ["wallet_identity_id"; "spending_grant_id"; "asset_allowance_id"; "authorization_rail";
   "product"; "reservation_id"; "token_address"; "token_decimals"; "amount_atomic"].

(** [_synthetic_authorization]. *)
Definition synthetic_authorization (identity : WalletIdentityRow) (g : SpendingGrantRow)
    (allowance : option AssetAllowanceRow) (row : pydict) : result SpendingAuthorization :=
  let remaining := Z.max (sg_max_amount_usdc g - sg_used_amount_usdc g
                          - sg_reserved_amount_usdc g) 0 in
  venue ← dict_item row "venue";
  network ← dict_item row "network";
  token_symbol ← dict_item row "token_symbol";
  spender ← (if py_truthy (dict_get row "spender_address")
             then mret (dict_get row "spender_address") else dict_item row "destination");
  product ← dict_item row "product";
  metadata ← pick_items row AUTHORIZATION_METADATA_KEYS;
  venue ← as_str venue;
  chain ← as_str network;
  token ← as_str token_symbol;
  spender_address ← as_str spender;
  purpose ← as_str product;
  mret {|
    sa_legacy := false;
    sa_spending_authorization_id := sg_spending_grant_id g;
    sa_user_id := sg_user_id g;
    sa_agent_id := sg_agent_id g;
    sa_wallet_address := wi_wallet_address identity;
    sa_max_amount_usdc := format_amount (sg_max_amount_usdc g);
    sa_per_order_limit_usdc := format_amount (sg_per_transaction_limit_usdc g);
    sa_used_amount_usdc := format_amount (sg_used_amount_usdc g);
    sa_remaining_amount_usdc := format_amount remaining;
    sa_venue := venue; sa_chain := chain; sa_token := token;
    sa_spender_address := spender_address;
    sa_allowance_tx_hash := a ← allowance; aa_allowance_tx_hash a;
    sa_purpose := purpose; sa_status := sg_status g;
    sa_expires_at := format_time (sg_expires_at g);
    sa_created_at := format_time (sg_created_at g);
    sa_updated_at := Some (format_time (sg_updated_at g));
    sa_metadata := metadata |}.

(** [_reservation_authorization], inside a transaction. *)
Definition reservation_authorization (row : pydict) (d : FundingDb)
    : result SpendingAuthorization :=
  require_unified_reservation row;;
  '(identity, g, allowance) ← unified_authorization_scope row d;
  synthetic_authorization identity g allowance row.

(** The request the service makes for the reservation it settles. *)
Definition spend_request (authorization : SpendingAuthorization) (row : pydict)
    : result SpendRequest :=
  amount_usdc ← dict_item row "amount_usdc";
  destination ← dict_item row "destination";
  resource ← dict_item row "resource";
  metadata ← pick_items row ["purchase_id"; "merchant_id"; "quote_hash"];
  amount_usdc ← as_str amount_usdc;
  destination ← as_str destination;
  resource ← as_opt_str resource;
  mret (MkSpendRequest (sa_spending_authorization_id authorization) amount_usdc destination
          resource metadata).

Definition BASE_PROVENANCE_FIELDS : list string :=
  ["reservation_id"; "wallet_identity_id"; "spending_grant_id"; "authorization_rail";
   "product"; "token_address"; "token_decimals"; "amount_atomic"].

(** The provenance fields an authorization must carry on its rail. *)
Definition provenance_fields (metadata : pydict) : result (list string) :=
  let rail := dict_get metadata "authorization_rail" in
  backed ← in_set rail (strs ["native_allowance"; "clink_payer_proxy"]);
  if backed : bool then mret (BASE_PROVENANCE_FIELDS ++ ["asset_allowance_id"])%list
  else if is_text rail "external_x402" then
    require (is_none (dict_get metadata "asset_allowance_id"))
      (ValueError "external x402 authorization cannot use an allowance");;
    mret BASE_PROVENANCE_FIELDS
  else Err (ValueError "unified authorization provenance has invalid rail").

(** The authorization is the one the ledger derives. *)
Definition same_authorization (a canonical : SpendingAuthorization) (fields : list string)
    : bool :=
  bool_decide (sa_spending_authorization_id a = sa_spending_authorization_id canonical)
  && bool_decide (sa_user_id a = sa_user_id canonical)
  && bool_decide (sa_agent_id a = sa_agent_id canonical)
  && bool_decide (sa_wallet_address a = sa_wallet_address canonical)
  && bool_decide (sa_venue a = sa_venue canonical)
  && bool_decide (sa_chain a = sa_chain canonical)
  && bool_decide (sa_token a = sa_token canonical)
  && bool_decide (sa_spender_address a = sa_spender_address canonical)
  && bool_decide (sa_purpose a = sa_purpose canonical)
  && forallb (λ f, py_eqb (dict_get (sa_metadata a) f) (dict_get (sa_metadata canonical) f))
       fields.

(** [_parse_amount] of a stored value. *)
Definition item_amount (row : pydict) : result Z :=
  v ← dict_item row "amount_usdc"; parse_amount (py_str v).

Definition PROVENANCE_UNAVAILABLE : exn :=
  ValueError "unified authorization provenance is unavailable".

(** [_resolve_authoritative_unified_spend], inside a transaction. *)
Definition resolve_authoritative_unified_spend (authorization : SpendingAuthorization)
    (request : SpendRequest) (d : FundingDb) : result (SpendingAuthorization * pydict) :=
  require (negb (sa_legacy authorization)) (ValueError LEGACY_READ_ONLY_ERROR);;
  let metadata := sa_metadata authorization in
  fields ← provenance_fields metadata;
  incomplete ← any_missing metadata fields;
  require (negb incomplete) (ValueError "unified authorization provenance is incomplete");;
  reservation ← from_option_or
    (match dict_get metadata "reservation_id" with PStr k => get k d | _ => None end)
    PROVENANCE_UNAVAILABLE;
  canonical ← reservation_authorization reservation d;
  require (same_authorization authorization canonical fields)
    (ValueError "unified authorization provenance does not match ledger");;
  requested ← parse_amount (sp_amount_usdc request);
  reserved ← item_amount reservation;
  destination ← dict_item reservation "destination";
  resource ← dict_item reservation "resource";
  require (bool_decide (sp_spending_authorization_id request
                        = sa_spending_authorization_id canonical)
           && (requested =? reserved)
           && is_text destination (sp_destination request)
           && match sp_resource request with
              | None => true
              | Some r => is_text resource r
              end)
    (ValueError "unified authorization provenance does not match spend");;
  mret (canonical, reservation).

(** ** Receipts *)

(** [FundingReceipt]. *)
Record FundingReceipt := MkReceipt {
  fr_receipt_id : string;
  fr_spending_authorization_id : string;
  fr_resource : option string;
  fr_user_id : option string;
  fr_agent_id : option string;
  fr_wallet_address : option string;
  fr_amount_usdc : string;
  fr_venue : string;
  fr_destination : string;
  fr_chain : string;
  fr_token : string;
  fr_token_address : option string;
  fr_status : string;
  fr_tx_hash : option string;
  fr_next_action : string;
  fr_created_at : string;
  fr_metadata : pydict;
  fr_event_log : list pydict;
}.

#[export] Instance eta_receipt : Eta FundingReceipt := λ r,
  MkReceipt (fr_receipt_id r) (fr_spending_authorization_id r) (fr_resource r) (fr_user_id r)
    (fr_agent_id r) (fr_wallet_address r) (fr_amount_usdc r) (fr_venue r) (fr_destination r)
    (fr_chain r) (fr_token r) (fr_token_address r) (fr_status r) (fr_tx_hash r)
    (fr_next_action r) (fr_created_at r) (fr_metadata r) (fr_event_log r).

(** [to_dict]. *)
Definition receipt_to_dict (r : FundingReceipt) : pydict :=
  [("receipt_id", PStr (fr_receipt_id r));
   ("spending_authorization_id", PStr (fr_spending_authorization_id r));
   ("resource", opt_str (fr_resource r));
   ("user_id", opt_str (fr_user_id r));
   ("agent_id", opt_str (fr_agent_id r));
   ("wallet_address", opt_str (fr_wallet_address r));
   ("amount_usdc", PStr (fr_amount_usdc r));
   ("venue", PStr (fr_venue r));
   ("destination", PStr (fr_destination r));
   ("chain", PStr (fr_chain r));
   ("token", PStr (fr_token r));
   ("token_address", opt_str (fr_token_address r));
   ("status", PStr (fr_status r));
   ("tx_hash", opt_str (fr_tx_hash r));
   ("next_action", PStr (fr_next_action r));
   ("created_at", PStr (fr_created_at r));
   ("metadata", PDict (fr_metadata r));
   ("event_log", PList (map PDict (fr_event_log r)))].

(** [FundingReceipt.model_validate]. *)
Definition receipt_of_dict (p : pydict) : result FundingReceipt :=
  let text f := (v ← required_field p f; as_str v) in
  let optional f := as_opt_str (dict_get p f) in
  receipt_id ← text "receipt_id";
  spending_authorization_id ← text "spending_authorization_id";
  resource ← optional "resource";
  user_id ← optional "user_id";
  agent_id ← optional "agent_id";
  wallet_address ← optional "wallet_address";
  amount_usdc ← text "amount_usdc";
  venue ← text "venue";
  destination ← text "destination";
  chain ← text "chain";
  token ← text "token";
  token_address ← optional "token_address";
  status ← text "status";
  tx_hash ← optional "tx_hash";
  next_action ← text "next_action";
  created_at ← text "created_at";
  metadata ← as_dict (dict_get_or p "metadata" (PDict []));
  event_log ← as_dict_list (dict_get_or p "event_log" (PList []));
  mret (MkReceipt receipt_id spending_authorization_id resource user_id agent_id
          wallet_address amount_usdc venue destination chain token token_address status
          tx_hash next_action created_at metadata event_log).

(** [_receipt_scope]: what the signature covers. *)
Definition receipt_scope (r : FundingReceipt) : pydict :=
  let metadata f := dict_get (fr_metadata r) f in
  [("receipt_id", PStr (fr_receipt_id r));
   ("reservation_id", metadata "reservation_id");
   ("spending_authorization_id", PStr (fr_spending_authorization_id r));
   ("spending_grant_id", metadata "spending_grant_id");
   ("asset_allowance_id", metadata "asset_allowance_id");
   ("wallet_identity_id", metadata "wallet_identity_id");
   ("authorization_rail", metadata "authorization_rail");
   ("user_id", opt_str (fr_user_id r));
   ("agent_id", opt_str (fr_agent_id r));
   ("action_id", metadata "action_id");
   ("policy_decision_id", metadata "policy_decision_id");
   ("purchase_id", metadata "purchase_id");
   ("merchant_id", metadata "merchant_id");
   ("quote_hash", metadata "quote_hash");
   ("payer", opt_str (fr_wallet_address r));
   ("pay_to", PStr (fr_destination r));
   ("resource", opt_str (fr_resource r));
   ("amount_usdc", PStr (fr_amount_usdc r));
   ("amount_atomic", metadata "amount_atomic");
   ("venue", PStr (fr_venue r));
   ("product", metadata "product");
   ("chain", PStr (fr_chain r));
   ("token", PStr (fr_token r));
   ("token_address", opt_str (fr_token_address r));
   ("token_decimals", metadata "token_decimals");
   ("tx_hash", opt_str (fr_tx_hash r));
   ("status", PStr (fr_status r));
   ("next_action", PStr (fr_next_action r));
   ("created_at", PStr (fr_created_at r));
   ("event_log", PList (map PDict (fr_event_log r)))].

(** ** The signing key *)

Definition PLACEHOLDER_RECEIPT_SIGNING_KEYS : list string :=
  ["change-me"; "changeme"; "replace-me"; "replace-with-a-different-long-random-secret";
   "replace-with-a-long-random-secret"].
Definition MIN_RECEIPT_SIGNING_KEY_BYTES : Z := 32.

(** [len(text.encode("utf-8"))] of a text of characters below 256. *)
Fixpoint utf8_length (s : string) : Z :=
  match s with
  | EmptyString => 0
  | String c s' => (if code c <? 128 then 1 else 2) + utf8_length s'
  end.

(** [receipt_signing_key_error]. *)
Definition receipt_signing_key_error (receipt_signing_key internal_api_token : string)
    : option string :=
  let key := strip receipt_signing_key in
  let token := strip internal_api_token in
  if bool_decide (key = EmptyString) then Some "CLINK_RECEIPT_SIGNING_KEY is required"
  else if bool_decide (lower key ∈ PLACEHOLDER_RECEIPT_SIGNING_KEYS)
  then Some "CLINK_RECEIPT_SIGNING_KEY must be a non-placeholder secret"
  else if utf8_length key <? MIN_RECEIPT_SIGNING_KEY_BYTES
  then Some "CLINK_RECEIPT_SIGNING_KEY must contain at least 32 bytes"
  else if negb (bool_decide (token = EmptyString)) && bool_decide (key = token)
  then Some "CLINK_RECEIPT_SIGNING_KEY must be independent from CLINK_CORE_INTERNAL_API_TOKEN"
  else None.

(** [hmac.new(key, text, hashlib.sha256).hexdigest()]. *)
Class HmacSha256 := hmac_sha256_hex : string → string → string.

(** The configuration of the funding service. *)
Record FundingConfig := MkFundingConfig {
  fc_receipt_signing_key : string;
  fc_internal_api_token : string;
  fc_assets : AssetRegistry;
  fc_reconciliation_max_attempts : Z;
  fc_reconciliation_max_age_seconds : Z;
  fc_x402_payment_token_name : string;
  fc_x402_payment_token_version : string;
}.

Section Receipts.
Context `{HmacSha256} (config : FundingConfig) (clock : Z).

(** [_receipt_signing_key]. *)
Definition receipt_signing_key : result string :=
  match receipt_signing_key_error (fc_receipt_signing_key config) (fc_internal_api_token config)
  with
  | Some error => Err (RuntimeError error)
  | None => Ok (strip (fc_receipt_signing_key config))
  end.

Definition receipt_signature (key : string) (scope : pydict) : string :=
  "sha256=" +:+ hmac_sha256_hex key (json_dumps (PDict scope)).

(** [verify_receipt_signature]. *)
Definition verify_receipt_signature (r : FundingReceipt) : bool :=
  match fr_token_address r with
  | None | Some EmptyString => false
  | Some _ =>
      match receipt_signing_key with
      | Err _ => false
      | Ok key =>
          py_eqb (dict_get (fr_metadata r) "receipt_scope") (PDict (receipt_scope r))
          && is_text (dict_get (fr_metadata r) "receipt_signature")
               (receipt_signature key (receipt_scope r))
      end
  end.

Definition RECEIPT_METADATA_KEYS : list string :=
  ["reservation_id"; "wallet_identity_id"; "spending_grant_id"; "asset_allowance_id";
   "authorization_rail"; "product"; "purchase_id"; "merchant_id"; "quote_hash"; "action_id";
   "policy_decision_id"; "amount_atomic"; "token_decimals"].

(** The receipt of a settled reservation, before it is signed. *)
Definition unsigned_receipt (authorization : SpendingAuthorization) (reservation : pydict)
    (receipt_id tx_hash : pyval) (metadata : pydict) : result FundingReceipt :=
  resource ← dict_item reservation "resource";
  amount ← item_amount reservation;
  destination ← dict_item reservation "destination";
  token_address ← dict_item reservation "token_address";
  provenance ← pick_items reservation RECEIPT_METADATA_KEYS;
  receipt_id ← as_str receipt_id;
  resource ← as_opt_str resource;
  destination ← as_str destination;
  token_address ← as_opt_str token_address;
  tx_hash' ← as_opt_str tx_hash;
  mret {|
    fr_receipt_id := receipt_id;
    fr_spending_authorization_id := sa_spending_authorization_id authorization;
    fr_resource := resource;
    fr_user_id := Some (sa_user_id authorization);
    fr_agent_id := Some (sa_agent_id authorization);
    fr_wallet_address := Some (sa_wallet_address authorization);
    fr_amount_usdc := format_amount amount;
    fr_venue := sa_venue authorization;
    fr_destination := destination;
    fr_chain := sa_chain authorization;
    fr_token := sa_token authorization;
    fr_token_address := token_address;
    fr_status := "settled";
    fr_tx_hash := tx_hash';
    fr_next_action := "sync_venue_balance";
    fr_created_at := format_time clock;
    fr_metadata := dict_update metadata provenance;
    fr_event_log := [[("event", PStr "spending_authorization_receipt_recorded");
                      ("status", PStr "settled"); ("tx_hash", tx_hash);
                      ("created_at", PStr (format_time clock))]] |}.

(** The receipt with its scope and signature. *)
Definition signed_receipt (key : string) (r : FundingReceipt) : FundingReceipt :=
  let scope := receipt_scope r in
  r <| fr_metadata := dict_update (fr_metadata r)
         [("receipt_scope", PDict scope);
          ("receipt_signature", PStr (receipt_signature key scope))] |>.

(** The transaction hash of the pending payment the receipt is for. *)
Definition pending_hash (reservation : pydict) (receipt_id tx_hash : pyval) : result pyval :=
  tx_hash' ← (if is_none tx_hash then mret PNone
              else h ← canonicalize_transaction_hash tx_hash; mret (PStr h));
  require (is_text (dict_get reservation "state") "payment_submitted"
           && py_eqb (dict_get reservation "receipt_id") receipt_id)
    (ValueError "unified authorization provenance does not match pending receipt");;
  h ← canonicalize_transaction_hash (dict_get reservation "tx_hash");
  require (is_text tx_hash' h)
    (ValueError "unified authorization provenance does not match pending receipt");;
  mret tx_hash'.

(** [_record_spending_receipt]; [drawn_id] is the id the code draws for a receipt
    that has none. *)
Definition record_spending_receipt (authorization : SpendingAuthorization)
    (request : SpendRequest) (tx_hash receipt_id : pyval) (metadata : pydict)
    (drawn_id : string) : funding FundingReceipt :=
  d ← reads id;
  '(authorization, reservation) ← lifts (resolve_authoritative_unified_spend authorization
                                           request d);
  lifts (require_canonical_asset_pair (fc_assets config) reservation);;
  tx_hash ← lifts (pending_hash reservation receipt_id tx_hash);
  key ← lifts receipt_signing_key;
  let existing := match receipt_id with PStr k => get k d | _ => None end in
  match (if py_truthy receipt_id then existing else None) with
  | Some (kv :: stored) =>
      receipt ← lifts (receipt_of_dict (kv :: stored));
      requires (verify_receipt_signature receipt)
        (RuntimeError "stored Funding receipt signature is invalid");;
      mret receipt
  | _ =>
      let receipt_id := if py_truthy receipt_id then receipt_id else PStr drawn_id in
      receipt ← lifts (unsigned_receipt authorization reservation receipt_id tx_hash metadata);
      let receipt := signed_receipt key receipt in
      put clock "receipt" (fr_receipt_id receipt) (receipt_to_dict receipt) [];;
      mret receipt
  end.
End Receipts.
