(* ===== verification/Submission.v ===== *)
(** * Submitting and completing payments

    The service's transactions that move a reservation into and out of the
    pending payment ([funding_service/service.py]).  What the code asks of other
    systems while a transaction is open - the policy service, the chain, the
    relayer's signer - is an argument: the answer, or the exception it raised. *)

From S2P Require Import Prelude PyValue Calendar Reservation Amounts LedgerTables LedgerStore.
From S2P Require Import Budget LedgerEvidence FundingService Assets Receipts.
From Stdlib Require Import Ascii.

Open Scope string_scope.
Open Scope Z_scope.

(** ** Payment challenges *)

(** [int(text, 16)] succeeds. *)
Definition hex_literal (text : string) : bool :=
  let '(_, s) := span_sign (strip text) in
  let digits := match s with
                | String "0" (String x s') =>
                    if Ascii.eqb x "x" || Ascii.eqb x "X"
                    then match s' with String "_" s'' => s'' | _ => s' end else s
                | _ => s
                end in
  bool_decide (is_Some (ungrouped is_hex false digits)).

Definition drop2 (s : string) : string := String.substring 2 (String.length s - 2) s.
Definition has_0x (s : string) : bool := String.prefix "0x" s.
(** [s.removeprefix("0x")]. *)
Definition without_0x (s : string) : string := if has_0x s then drop2 s else s.

(** A bytes32 nonce and a validity window a reservation carries. *)
Definition challenge_ok (nonce valid_after valid_before : pyval) : bool :=
  match nonce, py_int valid_after, py_int valid_before with
  | PStr n, Ok after, Ok before =>
      (str_len n =? 66) && has_0x n && hex_literal (drop2 n)
      && negb ((after <? 0) || (before <=? after))
  | _, _, _ => false
  end.

(** [_require_external_payment_challenge]. *)
Definition require_external_payment_challenge (row : pydict) : result unit :=
  require (challenge_ok (dict_get row "nonce") (dict_get row "valid_after")
             (dict_get row "valid_before"))
    (ValueError "external x402 reservation challenge is unavailable; legacy reservation is read-only").

(** [_require_proxy_payment_challenge]. *)
Definition require_proxy_payment_challenge (row : pydict) : result unit :=
  require (challenge_ok (dict_get row "proxy_nonce") (dict_get row "proxy_valid_after")
             (dict_get row "proxy_valid_before")
           && match dict_get row "payer_address" with
              | PStr a => hex_literal (without_0x a)
              | _ => false
              end)
    (ValueError "proxy payment challenge is unavailable").

Definition SCOPE_MISMATCH : exn := ValueError "external payment scope mismatch".

(** The text of [n] bytes after its [0x] or [0X], in lower case. *)
Definition lower_hex_text (length : Z) (s : string) : option string :=
  if (str_len s =? length) && (has_0x s || String.prefix "0X" s) && hex_literal (drop2 s)
  then Some ("0x" +:+ lower (drop2 s)) else None.

(** [_canonical_external_payment_scope]: every failure is a mismatch. *)
Definition canonical_external_payment_scope (payment : pydict) : result pydict :=
  from_option_or
    (let text f := py_str <$> dict_find payment f in
     let number f := (t ← text f; match py_int (PStr t) with Ok n => Some n | Err _ => None end) in
     network ← text "network"; let network := lower (strip network) in
     asset ← text "asset"; let asset := lower (strip asset) in
     amount ← number "amount_atomic";
     pay_to ← text "pay_to";
     nonce ← text "nonce";
     valid_after ← number "valid_after";
     valid_before ← number "valid_before";
     if bool_decide (network = EmptyString) || bool_decide (asset = EmptyString) || (amount <? 0)
        || (valid_after <? 0) || (valid_before <=? valid_after) || (2 ^ 256 <=? valid_before)
     then None
     else
       pay_to ← lower_hex_text 42 pay_to;
       nonce ← lower_hex_text 66 nonce;
       Some [("network", PStr network); ("asset", PStr asset);
             ("amount_atomic", PStr (pretty amount)); ("pay_to", PStr pay_to);
             ("nonce", PStr nonce); ("valid_after", PStr (pretty valid_after));
             ("valid_before", PStr (pretty valid_before))])
    SCOPE_MISMATCH.

(** The scope the reservation expects; the proxy rail keeps its own challenge. *)
Definition expected_scope_fields (proxy : bool) : list (string * string) :=
  [("network", "network"); ("asset", if proxy then "token_address" else "asset");
   ("amount_atomic", "amount_atomic"); ("pay_to", "destination");
   ("nonce", if proxy then "proxy_nonce" else "nonce");
   ("valid_after", if proxy then "proxy_valid_after" else "valid_after");
   ("valid_before", if proxy then "proxy_valid_before" else "valid_before")].
Fixpoint renamed_items (row : pydict) (fields : list (string * string)) : result pydict :=
  match fields with
  | [] => Ok []
  | (k, f) :: fields' => v ← dict_item row f; kvs ← renamed_items row fields'; mret ((k, v) :: kvs)
  end.

(** [keccak(text.encode()).hex()]. *)
Class KeccakHex := keccak_hex : string → string.

(** The hash of a payment proof of the scope the reservation expects. *)
Definition payment_proof_hash `{KeccakHex} (proxy : bool) (row proof : pydict)
    (transaction_hash : string) : result string :=
  expected ← renamed_items row (expected_scope_fields proxy);
  expected_scope ← canonical_external_payment_scope expected;
  proof_scope ← canonical_external_payment_scope proof;
  require (dict_eqb proof_scope expected_scope)
    (ValueError (if proxy then "proxy payment scope mismatch"
                 else "external payment scope mismatch"));;
  mret ("0x" +:+ keccak_hex
          (json_dumps (PDict (("transaction_hash", PStr transaction_hash) :: proof_scope)))).

(** ** What a settlement request leads to *)

(** The row is returned, its pending payment is reconciled, or a new payment is
    prepared. *)
Inductive Route := Returned (row : pydict) | Reconcile | Proceed (row : pydict).

(** The row a transaction fetched; a missing one is the empty payload, which no
    check accepts. *)
Definition fetched (reservation_id : string) (d : FundingDb) : pydict :=
  default [] (get reservation_id d).

Definition REPLACEMENT_FORBIDDEN : exn :=
  ValueError "single-submission reservation forbids a replacement transaction".
Definition forbids_replacement (row : pydict) : bool :=
  is_true (dict_get row "single_submission") && is_true (dict_get row "replacement_forbidden").

(** The state a native payment is prepared from. *)
Definition native_ready_state (row : pydict) : string :=
  if is_proxy row then "proxy_authorization_ready" else "spending_reserved".

Section Submission.
Context `{Sha256} `{HmacSha256} `{KeccakHex} (config : FundingConfig) (clock : Z).

Definition checked_row (row : pydict) : result unit :=
  require_unified_reservation row;; require_canonical_asset_pair (fc_assets config) row.

(** [settle_reservation]: the first transaction. *)
Definition settle_route (reservation_id authorization_hash : string) (d : FundingDb)
    : result Route :=
  row ← from_option_or (get reservation_id d) (ValueError "reservation not found");
  checked_row row;;
  rail ← dict_item row "authorization_rail";
  require (allowance_rail rail)
    (ValueError "external x402 reservation requires external finalize");;
  settled ← state_in row ["settled"; "finalized"];
  if settled : bool then mret (Returned row)
  else
    require (negb (forbids_replacement row)) REPLACEMENT_FORBIDDEN;;
    if is_text (dict_get row "state") "payment_submitted" then
      require (is_text (dict_get row "payment_authorization_hash") authorization_hash)
        (ValueError "a different payment authorization is pending");;
      mret Reconcile
    else
      require (is_text (dict_get row "state") (native_ready_state row))
        (ValueError ("reservation is " +:+ py_str (dict_get row "state")));;
      mret (Proceed row).

(** [_build_native_transaction]: the signed transfer of the relayer. *)
Record PreparedTransaction := MkPrepared {
  pt_relayer : string;
  pt_nonce : Z;
  pt_transaction : pydict;
  pt_tx_hash : string;
  pt_raw_transaction : string;
}.

(** Why an allowance does not cover the payment. *)
Definition allowance_error (observed : option Z) (status : string) (amount_atomic : Z)
    : option string :=
  match observed with
  | None => Some "asset allowance refresh failed closed"
  | Some n =>
      if negb (bool_decide (status = "active"))
      then Some ("asset allowance is " +:+ status +:+ " before submission")
      else if n <? amount_atomic
      then Some "asset allowance is insufficient before submission" else None
  end.

(** The row of a submitted native payment. *)
Definition native_submitted (current : pydict) (reservation_id authorization_hash : string)
    (prepared : PreparedTransaction) : pydict :=
  let proxy := is_proxy current in
  dict_update current
    [("state", PStr "payment_submitted");
     ("payment_authorization_hash", PStr authorization_hash);
     ("settlement_rail", PStr (if proxy then "clink_payer_reimbursement" else "clink_allowance"));
     ("tx_hash", PStr (pt_tx_hash prepared));
     ("settlement_sender", PStr (pt_relayer prepared));
     ("settlement_nonce", PInt (pt_nonce prepared));
     ("settlement_transaction", PDict (pt_transaction prepared));
     ("receipt_id", if proxy then PNone else PStr ("fund_receipt_" +:+ reservation_id));
     ("reconciliation_status", PStr "pending"); ("next_action", PStr "reconcile_payment");
     ("reconciliation_attempts", PInt 0);
     ("reconciliation_started_at", PStr (format_time clock));
     ("last_reconciliation_at", PNone); ("manual_review_reason", PNone);
     ("manual_review_required_at", PNone); ("risk_prebroadcast_state", PStr "pending");
     ("risk_prebroadcast_blocked", PBool false); ("risk_prebroadcast_blocked_at", PNone)].

(** What the second transaction of [settle_reservation] commits: the row, another
    state's row, or the refreshed allowance that refuses the payment. *)
Inductive Submitted :=
| SubReturned (row : pydict) | SubRefused (message : string)
| SubRow (row : pydict) (prepared : PreparedTransaction).

(** The arguments a submission gets from outside. *)
Record NativeContext := MkNativeContext {
  nc_event_id : string;
  nc_observed_allowance : option Z;
  nc_controls : result unit;
  nc_relayer : result string;
  nc_chain_pending_nonce : result Z;
  nc_build : SpendingAuthorization → pydict → Z → result PreparedTransaction;
  nc_controls_again : result unit;
}.

(** [observe_allowance_before_submission] and its verdict. *)
Definition refresh_allowance (current : pydict) (x : NativeContext) : funding (option string) :=
  match nc_observed_allowance x with
  | None =>
      observe_allowance_before_submission (nc_event_id x) current PNone true clock;;
      mret (allowance_error None EmptyString 0)
  | Some n =>
      status ← observe_allowance_before_submission (nc_event_id x) current (PInt n) false clock;
      if negb (bool_decide (status = "active")) then mret (allowance_error (Some n) status 0)
      else
        v ← lifts (dict_item current "amount_atomic");
        amount_atomic ← lifts (py_int v);
        mret (allowance_error (Some n) status amount_atomic)
  end.

(** The nonce, the signed transaction and the row of the pending payment. *)
Definition submit_prepared (reservation_id authorization_hash : string)
    (authorization : SpendingAuthorization) (current : pydict) (x : NativeContext)
    : funding (pydict * PreparedTransaction) :=
  lifts (nc_controls x);;
  relayer ← lifts (nc_relayer x);
  network ← lifts (dict_item current "network");
  pending ← lifts (nc_chain_pending_nonce x);
  nonce ← allocate_relayer_nonce current (py_str network) relayer pending clock;
  prepared ← lifts (nc_build x authorization current nonce);
  lifts (nc_controls_again x);;
  let row := native_submitted current reservation_id authorization_hash prepared in
  put_reservation clock row (PStr (pt_tx_hash prepared));;
  mret (row, prepared).

(** [settle_reservation]: the second transaction. *)
Definition submit_native_txn (reservation_id authorization_hash : string) (x : NativeContext)
    : funding Submitted :=
  d ← reads id;
  let current := fetched reservation_id d in
  lifts (checked_row current);;
  state ← lifts (dict_item current "state");
  if negb (is_text state (native_ready_state current))
  then mret (SubReturned current)
  else
    requires (negb (forbids_replacement current)) REPLACEMENT_FORBIDDEN;;
    lifts (validate_unified_lifecycle current clock false d);;
    authorization ← lifts (reservation_authorization current d);
    refused ← refresh_allowance current x;
    match refused with
    | Some message => mret (SubRefused message)
    | None =>
        '(row, prepared) ← submit_prepared reservation_id authorization_hash authorization
                             current x;
        mret (SubRow row prepared)
    end.
Definition submit_native (reservation_id authorization_hash : string) (x : NativeContext)
    (d : FundingDb) : result pydict * FundingDb :=
  match write_session (submit_native_txn reservation_id authorization_hash x) d with
  | (Ok (SubReturned row), d') | (Ok (SubRow row _), d') => (Ok row, d')
  | (Ok (SubRefused message), d') => (Err (ValueError message), d')
  | (Err e, d') => (Err e, d')
  end.

(** ** Before the broadcast *)

(** [_authorize_native_broadcast], once the policy controls passed; a failing
    control blocks the payment ([block_unbroadcast_native_reservation]). *)
Definition authorize_native_broadcast (row : pydict)
    : FundingDb → result pydict * FundingDb :=
  write_session
    (id_ ← lifts (dict_item row "reservation_id");
     current ← reads (λ d, get (py_str id_) d);
     requires (same_pending_payment current row)
       (PrebroadcastRiskBlocked "native transaction changed before submission");;
     let current := default [] current in
     requires (negb (is_true (dict_get current "risk_prebroadcast_blocked")
                     || is_text (dict_get current "risk_prebroadcast_state") "blocked"))
       (PrebroadcastRiskBlocked "native transaction is blocked before submission");;
     requires (is_text (dict_get current "risk_prebroadcast_state") "pending")
       (PrebroadcastRiskBlocked "native transaction is not pending risk authorization");;
     let authorized := dict_update current [("risk_prebroadcast_state", PStr "ready")] in
     tx_hash ← lifts (dict_item current "tx_hash");
     put_reservation clock authorized tx_hash;;
     mret authorized).

(** [_send_native_raw_transaction]: the controls are asked once more, and the
    transaction is sent while the row is locked. *)
Definition send_native_raw_transaction (row : pydict) (controls : result unit)
    (rpc_send : result pyval) (d : FundingDb) : result string * FundingDb :=
  match write_session
    (id_ ← lifts (dict_item row "reservation_id");
     current ← reads (λ d, get (py_str id_) d);
     requires (same_pending_payment current row)
       (PrebroadcastRiskBlocked "native transaction changed before submission");;
     let current := default [] current in
     unready ← lifts (in_set (dict_get current "risk_prebroadcast_state")
                        (strs ["pending"; "blocked"]));
     requires (negb (is_true (dict_get current "risk_prebroadcast_blocked") || unready))
       (PrebroadcastRiskBlocked "native transaction is blocked before submission");;
     match controls with
     | Err _ =>
         put_blocked_native_reservation clock current
           "live funding risk assessment failed immediately before submission";;
         mret None
     | Ok _ => submitted ← lifts rpc_send; mret (Some submitted)
     end) d
  with
  | (Ok (Some submitted), d') => (canonicalize_transaction_hash submitted, d')
  | (Ok None, d') =>
      (Err (PrebroadcastRiskBlocked
              "live funding risk assessment is unavailable before submission"), d')
  | (Err e, d') => (Err e, d')
  end.

(** ** External payments *)

Definition BOUND_ELSEWHERE : exn :=
  ValueError "transaction is already bound to another reservation".
(** No other reservation has the transaction. *)
Definition unbound (transaction_hash reservation_id : string) (d : FundingDb) : result unit :=
  bound ← by_tx_hash (PStr transaction_hash) d;
  require (match bound with
           | Some (kv :: row) => is_text (dict_get (kv :: row) "reservation_id") reservation_id
           | _ => true
           end) BOUND_ELSEWHERE.

(** [finalize_external_payment] and [finalize_proxy_payment]: the first
    transaction. *)
Definition finalize_route (proxy : bool) (reservation_id transaction_hash : string)
    (d : FundingDb) : result Route :=
  row ← from_option_or (get reservation_id d) (ValueError "reservation not found");
  checked_row row;;
  rail ← dict_item row "authorization_rail";
  require (is_text rail (if proxy then "clink_payer_proxy" else "external_x402"))
    (ValueError (if proxy then "reservation is not a Clink payer proxy payment"
                 else "native allowance reservation cannot accept external payment"));;
  (if proxy then require_proxy_payment_challenge row
   else require_external_payment_challenge row);;
  settled ← state_in row ["settled"; "finalized"];
  if settled : bool then mret (Returned row)
  else
    accepts ← state_in row [if proxy then "proxy_payment_ready" else "spending_reserved";
                            "payment_submitted"];
    require accepts (ValueError (if proxy then "reservation cannot accept proxy payment"
                                 else "reservation cannot accept external payment"));;
    unbound transaction_hash reservation_id d;;
    if is_text (dict_get row "state") "payment_submitted" then
      require (is_text (dict_get row "settlement_rail")
                 (if proxy then "clink_payer_proxy" else "external_x402_signature"))
        (ValueError (if proxy then "a different payment rail is pending"
                     else "native payment is pending"));;
      h ← canonicalize_transaction_hash (dict_get row "tx_hash");
      require (bool_decide (h = transaction_hash))
        (ValueError "a different transaction is pending");;
      mret Reconcile
    else mret (Proceed row).

(** The row of a submitted external payment. *)
Definition external_submitted (proxy : bool) (current : pydict)
    (reservation_id transaction_hash proof_hash : string) : pydict :=
  dict_update current
    ([("state", PStr "payment_submitted");
      ("settlement_rail",
       PStr (if proxy then "clink_payer_proxy" else "external_x402_signature"))]
     ++ (if proxy then [("merchant_tx_hash", PStr transaction_hash)] else [])
     ++ [("tx_hash", PStr transaction_hash);
         ("receipt_id", PStr ("fund_receipt_" +:+ reservation_id));
         ("payment_proof_hash", PStr proof_hash);
         ("reconciliation_status", PStr "pending"); ("next_action", PStr "reconcile_payment");
         ("reconciliation_attempts", PInt 0);
         ("reconciliation_started_at", PStr (format_time clock));
         ("last_reconciliation_at", PNone); ("manual_review_reason", PNone);
         ("manual_review_required_at", PNone)])%list.

(** The lifecycle check of an external payment: after a revocation only a payment
    that already executed on chain is let through. *)
Definition external_lifecycle (current : pydict) (payment_executed : bool) (d : FundingDb)
    : result unit :=
  '(identity, g, _) ← unified_authorization_scope current d;
  if bool_decide (revocations identity g = []) then
    validate_unified_lifecycle current clock payment_executed d;; mret tt
  else if payment_executed then mret tt
  else validate_unified_lifecycle current clock false d;; mret tt.

(** [finalize_external_payment] and [finalize_proxy_payment]: the second
    transaction. *)
Definition finalize_txn (proxy : bool) (reservation_id transaction_hash proof_hash : string)
    (payment_executed : bool) : funding Route :=
  d ← reads id;
  lifts (unbound transaction_hash reservation_id d);;
  let current := fetched reservation_id d in
  lifts (checked_row current);;
  state ← lifts (dict_item current "state");
  if negb (is_text state (if proxy then "proxy_payment_ready" else "spending_reserved"))
  then mret (Returned current)
  else
    lifts (if proxy then mret tt else external_lifecycle current payment_executed d);;
    let row := external_submitted proxy current reservation_id transaction_hash proof_hash in
    put_reservation clock row (PStr transaction_hash);;
    mret Reconcile.

(** The whole call up to the reconciliation it ends with; [observed] is the chain
    check of the transaction ([_require_observed_external_payment_matches]).  A
    constraint violation means the hash is bound. *)
Definition submit_external (proxy : bool) (reservation_id : string) (transaction_hash : pyval)
    (proof : pydict) (observed : result unit) (payment_executed : bool) (d : FundingDb)
    : result Route * FundingDb :=
  match (h ← canonicalize_transaction_hash transaction_hash;
         route ← finalize_route proxy reservation_id h d;
         match route with
         | Proceed row =>
             proof_hash ← payment_proof_hash proxy row proof h;
             observed;;
             mret (inr (h, proof_hash))
         | _ => mret (inl route)
         end) with
  | Err e => (Err e, d)
  | Ok (inl route) => (Ok route, d)
  | Ok (inr (h, proof_hash)) =>
      match write_session (finalize_txn proxy reservation_id h proof_hash payment_executed) d with
      | (Ok route, d') => (Ok route, d')
      | (Err (IntegrityError _), d') => (Err BOUND_ELSEWHERE, d')
      | (Err e, d') => (Err e, d')
      end
  end.

(** ** Reconciling *)

(** [row["field"]] incremented: [int(row.get(field) or 0) + 1]. *)
Definition incremented (row : pydict) (field : string) : result pyval :=
  n ← py_int (py_or (dict_get row field) (PInt 0)); mret (PInt (n + 1)).

(** [reconcile_reservation]: the transaction that takes up a pending payment, or
    closes the question for any other state.  The bounds are configuration. *)
Definition reconcile_pending (max_attempts max_age_seconds : Z) (operator_reconcile : bool)
    (row : pydict) : funding Route :=
  if is_text (dict_get row "reconciliation_status") "manual_review_required"
     && negb operator_reconcile
  then mret (Returned row)
  else
    limit ← lifts (if operator_reconcile then mret None
                   else reconciliation_limit_reason max_attempts max_age_seconds row clock);
    match limit with
    | Some reason =>
        let row := manual_review_reservation row reason clock in
        put_reservation clock row (dict_get row "tx_hash");;
        mret (Returned row)
    | None =>
        updated ← lifts
          (if operator_reconcile then
             n ← incremented row "operator_reconciliation_attempts";
             mret [("operator_reconciliation_attempts", n);
                   ("last_operator_reconciliation_at", PStr (format_time clock))]
           else
             n ← incremented row "reconciliation_attempts";
             mret [("reconciliation_attempts", n);
                   ("reconciliation_started_at",
                    py_or (dict_get row "reconciliation_started_at") (PStr (format_time clock)));
                   ("last_reconciliation_at", PStr (format_time clock))]);
        let row := dict_update row updated in
        put_reservation clock row (dict_get row "tx_hash");;
        mret (Proceed row)
    end.
Definition reconcile_txn (max_attempts max_age_seconds : Z) (operator_reconcile : bool)
    (reservation_id : string) : funding Route :=
  row ← required_row reservation_id (ValueError "reservation not found");
  lifts (checked_row row);;
  unbroadcast ← lifts (if is_true (dict_get row "risk_prebroadcast_blocked") then mret true
                       else in_set (dict_get row "risk_prebroadcast_state")
                              (strs ["pending"; "blocked"]));
  if unbroadcast : bool then mret (Returned row)
  else
    done ← lifts (state_in row ["settled"; "finalized"; "payer_funded"; "proxy_payment_ready"]);
    if done : bool then
      if is_text (dict_get row "reconciliation_status") "settled" then mret (Returned row)
      else
        let row := dict_update row [("reconciliation_status", PStr "settled");
                                    ("next_action", PStr "deliver_service")] in
        put_reservation clock row (dict_get row "tx_hash");;
        mret (Returned row)
    else if is_text (dict_get row "state") "proxy_authorization_ready" then mret (Returned row)
    else if is_text (dict_get row "state") "spending_reserved" then
      if forbids_replacement row then mret (Returned row)
      else
        let row := dict_update row [("reconciliation_status", PStr "retryable");
                                    ("next_action", PStr "retry_settlement")] in
        put_reservation clock row PNone;;
        mret (Returned row)
    else
      requires (is_text (dict_get row "state") "payment_submitted")
        (ValueError ("reservation is " +:+ py_str (dict_get row "state")));;
      reconcile_pending max_attempts max_age_seconds operator_reconcile row.
Definition reconcile_reservation (max_attempts max_age_seconds : Z) (operator_reconcile : bool)
    (reservation_id : string) : FundingDb → result Route * FundingDb :=
  write_session (reconcile_txn max_attempts max_age_seconds operator_reconcile reservation_id).

(** The branch of [_reconcile_external_reservation] for a reverted transaction:
    the row is read again and the payment of its rail is retried. *)
Definition external_reverted (row : pydict) (d : FundingDb)
    : result (option pydict) * FundingDb :=
  match authoritative_reservation row d with
  | Err e => (Err e, d)
  | Ok current =>
      if is_proxy current
      then retryable_proxy_payment clock current "proxy payment transaction failed onchain" d
      else retryable_reservation clock current "external payment transaction failed onchain"
             false "failed_receipt" "onchain_revert" d
  end.

(** ** Completing *)

(** The row of a settled reservation. *)
Definition settled_row (current : pydict) (receipt : FundingReceipt) (more : pydict) : pydict :=
  dict_update current
    ([("state", PStr "settled"); ("receipt", PDict (receipt_to_dict receipt));
      ("reconciliation_status", PStr "settled"); ("next_action", PStr "deliver_service");
      ("settled_at", PStr (format_time clock))] ++ more)%list.

Definition RECEIPT_REFERENCES : list string :=
  ["purchase_id"; "merchant_id"; "quote_hash"; "action_id"; "policy_decision_id"].

(** The receipt of the pending payment. *)
Definition record_payment_receipt (authorization : SpendingAuthorization) (current : pydict)
    (drawn_id : string) (more : pydict) : funding FundingReceipt :=
  request ← lifts (spend_request authorization current);
  tx_hash ← lifts (dict_item current "tx_hash");
  receipt_id ← lifts (dict_item current "receipt_id");
  metadata ← lifts (pick_items current RECEIPT_REFERENCES);
  record_spending_receipt config clock authorization request tx_hash receipt_id
    (metadata ++ more)%list drawn_id.

(** [_complete_native_reservation] of an allowance payment: receipt, budget, row.
    The other rail is [complete_proxy_reimbursement]. *)
Definition settle_native (current : pydict) (drawn_id : string) : funding pydict :=
  d ← reads id;
  lifts (require_unified_reservation current);;
  authorization ← lifts (reservation_authorization current d);
  requires (negb (is_proxy current)) (ValueError "payer proxy reimbursements are funded");;
  receipt ← record_payment_receipt authorization current drawn_id [];
  current ← settle_unified_budget current clock;
  tx_hash ← lifts (dict_item current "tx_hash");
  let settled := settled_row current receipt [] in
  put_reservation clock settled tx_hash;;
  mret settled.
Definition complete_native_reservation (row : pydict) (drawn_id : string)
    : FundingDb → result (option pydict) * FundingDb :=
  on_pending row (λ current, settle_native current drawn_id).

(** The completion of [_reconcile_external_reservation]: the payer proxy's budget
    was settled when its reimbursement completed. *)
Definition settle_external (row current : pydict) (drawn_id : string) : funding pydict :=
  d ← reads id;
  lifts (require_unified_reservation current);;
  authorization ← lifts (reservation_authorization current d);
  receipt ← record_payment_receipt authorization current drawn_id
              [("payer_address", dict_get current "payer_address");
               ("reimbursement_tx_hash", dict_get current "reimbursement_tx_hash");
               ("merchant_tx_hash", dict_get current "merchant_tx_hash")];
  revoked ← record_external_reconciliation_after_revocation current clock;
  current ← (if is_proxy current then mret current else settle_unified_budget current clock);
  let settled := settled_row current receipt
                   [("reconciled_after_authorization_revocation",
                     PBool (negb (bool_decide (revoked = []))))] in
  tx_hash ← lifts (dict_item row "tx_hash");
  put_reservation clock settled tx_hash;;
  mret settled.
Definition complete_external_reservation (row : pydict) (drawn_id : string)
    : FundingDb → result (option pydict) * FundingDb :=
  on_pending row (λ current, settle_external row current drawn_id).
End Submission.
