(* ===== verification/ProxyPayment.v ===== *)
(** * Preparing a payer-proxy payment

    The transaction that signs the merchant payment of a payer-proxy reservation
    ([prepare_proxy_payment] of [funding_service/service.py]).  The signature,
    the random nonce, the policy's answer and the chain's are arguments. *)

From S2P Require Import Prelude PyValue Calendar Reservation Amounts LedgerTables LedgerStore.
From S2P Require Import Budget FundingService Assets Receipts Submission.
From Stdlib Require Import Ascii.

Open Scope string_scope.
Open Scope Z_scope.

(** [ProxyPaymentRequirement]. *)
Record ProxyPaymentRequirement := MkRequirement {
  pr_scheme : string;
  pr_network : string;
  pr_asset : string;
  pr_amount_atomic : string;
  pr_pay_to : string;
  pr_resource : string;
  pr_token_name : string;
  pr_token_version : string;
}.

(** [model_dump(mode="json")]. *)
Definition requirement_scope (r : ProxyPaymentRequirement) : pydict :=
  [("scheme", PStr (pr_scheme r)); ("network", PStr (pr_network r));
   ("asset", PStr (pr_asset r)); ("amount_atomic", PStr (pr_amount_atomic r));
   ("pay_to", PStr (pr_pay_to r)); ("resource", PStr (pr_resource r));
   ("token_name", PStr (pr_token_name r)); ("token_version", PStr (pr_token_version r))].

(** [_canonical_evm_address]; [bytes.fromhex] accepts no 40 characters but digits
    that decode to 20 bytes. *)
Definition canonical_evm_address (value : pyval) : result string :=
  match value with
  | PStr s =>
      require ((str_len s =? 42) && has_0x s && all_chars is_hex (drop2 s))
        (ValueError "invalid EVM address");;
      mret ("0x" +:+ lower (drop2 s))
  | _ => Err (ValueError "invalid EVM address")
  end.

(** [_reservation_token_address]. *)
Definition reservation_token_address (row : pydict) : result string :=
  require_unified_reservation row;;
  token_address ← from_option_or (dict_find row "token_address")
    (ValueError "unified reservation is missing selected token scope");
  canonical_evm_address token_address.

(** [_proxy_requirement_matches_reservation]: an exception is a mismatch. *)
Definition requirement_matches (row : pydict) (r : ProxyPaymentRequirement) : bool :=
  match (network ← dict_item row "network";
         asset ← canonical_evm_address (PStr (pr_asset r));
         token_address ← reservation_token_address row;
         amount_atomic ← dict_item row "amount_atomic";
         pay_to ← canonical_evm_address (PStr (pr_pay_to r));
         destination ← dict_item row "destination";
         destination ← canonical_evm_address destination;
         resource ← dict_item row "resource";
         mret (bool_decide (pr_scheme r = "exact") && is_text network (pr_network r)
               && bool_decide (asset = token_address)
               && bool_decide (pr_amount_atomic r = py_str amount_atomic)
               && bool_decide (pay_to = destination) && is_text resource (pr_resource r)))
  with
  | Ok b => b
  | Err _ => false
  end.

(** [_proxy_authorization_expired]. *)
Definition proxy_authorization_expired (row : pydict) (now : Z) : bool :=
  match (v ← dict_item row "proxy_valid_before"; py_int v) with
  | Ok valid_before => valid_before <=? epoch_seconds now
  | Err _ => true
  end.

(** What the outside world answers. *)
Record ProxyContext := MkProxyContext {
  px_rotation_safe : result unit;
  px_risk_expires_at : result Z;
  px_payer_address : result string;
  px_nonce : string;
  px_signature : pydict → result string;
}.

(** The authorization the relayer signs. *)
Definition transfer_authorization (r : ProxyPaymentRequirement) (payer nonce : string)
    (valid_after valid_before : Z) : pydict :=
  [("from", PStr payer); ("to", PStr (pr_pay_to r)); ("value", PStr (pr_amount_atomic r));
   ("validAfter", PStr (pretty valid_after)); ("validBefore", PStr (pretty valid_before));
   ("nonce", PStr nonce)].

(** [_chain_id]. *)
Definition chain_id (network : string) : result Z :=
  if String.prefix "eip155:" network
  then py_int (PStr (String.substring 7 (String.length network - 7) network))
  else Err (ValueError ("unsupported x402 EVM network: " +:+ network)).

(** [_ensure_0x]. *)
Definition ensure_0x (value : string) : string :=
  if has_0x value then value else "0x" +:+ value.

Definition typed_field (name type : string) : pyval :=
  PDict [("name", PStr name); ("type", PStr type)].

(** [_proxy_payment_typed_data]: the EIP-712 message the payer signs. *)
Definition proxy_payment_typed_data (r : ProxyPaymentRequirement) (authorization : pydict)
    : result pydict :=
  chain ← chain_id (pr_network r);
  mret
    [("types", PDict
        [("EIP712Domain", PList
            [typed_field "name" "string"; typed_field "version" "string";
             typed_field "chainId" "uint256"; typed_field "verifyingContract" "address"]);
         ("TransferWithAuthorization", PList
            [typed_field "from" "address"; typed_field "to" "address";
             typed_field "value" "uint256"; typed_field "validAfter" "uint256";
             typed_field "validBefore" "uint256"; typed_field "nonce" "bytes32"])]);
     ("primaryType", PStr "TransferWithAuthorization");
     ("domain", PDict
        [("name", PStr (pr_token_name r)); ("version", PStr (pr_token_version r));
         ("chainId", PInt chain); ("verifyingContract", PStr (pr_asset r))]);
     ("message", PDict authorization)].

(** The x402 payment the merchant is handed. *)
Definition payment_payload (r : ProxyPaymentRequirement) (signature : string)
    (authorization typed_data : pydict) : pydict :=
  [("x402Version", PInt 2);
   ("resource", PDict [("url", PStr (pr_resource r))]);
   ("accepted", PDict
      [("scheme", PStr (pr_scheme r)); ("network", PStr (pr_network r));
       ("amount", PStr (pr_amount_atomic r)); ("asset", PStr (pr_asset r));
       ("payTo", PStr (pr_pay_to r));
       ("extra", PDict [("name", PStr (pr_token_name r));
                        ("version", PStr (pr_token_version r))])]);
   ("payload", PDict [("signature", PStr signature); ("authorization", PDict authorization)]);
   ("typed_data", PDict typed_data)].

Definition PROXY_PREPARED_STATES : list string :=
  ["proxy_authorization_ready"; "proxy_payment_ready"].
Definition PROXY_PREPARABLE_STATES : list string :=
  ["spending_reserved"; "proxy_authorization_ready"; "payer_funded"; "proxy_payment_ready"].

Section Proxy.
Context `{Sha256} `{HmacSha256} `{KeccakHex} (config : FundingConfig) (clock : Z).
Context (token_name token_version : string).

(** The row with a fresh signed payment. *)
Definition proxy_prepared (row : pydict) (r : ProxyPaymentRequirement)
    (requirement_hash payer nonce : string) (valid_after valid_before : Z) (payload : pydict)
    : pydict :=
  let payer_is_funded :=
    py_in (dict_get row "state") (strs ["payer_funded"; "proxy_payment_ready"]) in
  dict_update row
    [("state", PStr (if payer_is_funded then "proxy_payment_ready"
                     else "proxy_authorization_ready"));
     ("payer_address", PStr payer); ("proxy_nonce", PStr nonce);
     ("proxy_valid_after", PStr (pretty valid_after));
     ("proxy_valid_before", PStr (pretty valid_before));
     ("proxy_challenge_hash", PStr requirement_hash);
     ("payment_payload", PDict payload);
     ("next_action", PStr (if payer_is_funded then "submit_proxy_payment"
                           else "fund_clink_payer"));
     ("proxy_payment_prepared_at", PStr (format_time clock))].

(** Signing: the window ends with the risk assessment. *)
Definition sign_proxy_payment (row : pydict) (r : ProxyPaymentRequirement)
    (requirement_hash : string) (x : ProxyContext) : funding pydict :=
  risk_expires_at ← lifts (px_risk_expires_at x);
  payer ← lifts (px_payer_address x);
  payer_address ← lifts (canonical_evm_address (PStr payer));
  let now_epoch := epoch_seconds clock in
  let valid_after := now_epoch - EXTERNAL_AUTHORIZATION_CLOCK_SKEW_SECONDS in
  let valid_before := Z.min (now_epoch + EXTERNAL_AUTHORIZATION_LIFETIME_SECONDS)
                            (epoch_seconds risk_expires_at) in
  requires (now_epoch <? valid_before)
    (ValueError "live funding risk assessment has insufficient validity");;
  let authorization := transfer_authorization r payer_address (px_nonce x) valid_after
                         valid_before in
  typed_data ← lifts (proxy_payment_typed_data r authorization);
  signature ← lifts (px_signature x typed_data);
  let payload := payment_payload r (ensure_0x signature) authorization typed_data in
  let prepared := proxy_prepared row r requirement_hash payer_address (px_nonce x) valid_after
                    valid_before payload in
  put_reservation clock prepared (dict_get row "tx_hash");;
  mret prepared.

(** [prepare_proxy_payment]. *)
Definition prepare_proxy_txn (reservation_id : string) (r : ProxyPaymentRequirement)
    (x : ProxyContext) : funding pydict :=
  let requirement_hash := "0x" +:+ keccak_hex (json_dumps (PDict (requirement_scope r))) in
  row ← required_row reservation_id (ValueError "reservation not found");
  lifts (checked_row config row);;
  rail ← lifts (dict_item row "authorization_rail");
  requires (is_text rail "clink_payer_proxy")
    (ValueError "reservation is not a Clink payer proxy payment");;
  requires (requirement_matches row r) (ValueError "merchant challenge drift");;
  requires (bool_decide (pr_token_name r = token_name)
            && bool_decide (pr_token_version r = token_version))
    (ValueError "merchant token domain does not match trusted Core configuration");;
  prepared ← lifts (state_in row PROXY_PREPARED_STATES);
  requires (negb prepared || is_text (dict_get row "proxy_challenge_hash") requirement_hash)
    (ValueError "merchant challenge drift");;
  if prepared && negb (proxy_authorization_expired row clock) then mret row
  else
    lifts (if is_text (dict_get row "state") "proxy_payment_ready"
           then px_rotation_safe x else mret tt);;
    preparable ← lifts (state_in row PROXY_PREPARABLE_STATES);
    requires preparable (ValueError ("reservation is " +:+ py_str (dict_get row "state")));;
    sign_proxy_payment row r requirement_hash x.
Definition prepare_proxy_payment (reservation_id : string) (r : ProxyPaymentRequirement)
    (x : ProxyContext) : FundingDb → result pydict * FundingDb :=
  write_session (prepare_proxy_txn reservation_id r x).
End Proxy.
