(* ===== verification/Evm.v ===== *)
(** * Ethereum encodings

    [facilitator/evm.py]: the hash of a raw transaction, the EIP-712 digest of an
    authorization, the calldata of [execute], and EIP-1559 transactions.  Keccak,
    [eth_abi] and [rlp] are parameters; what they are given is not. *)

From S2P Require Import Prelude.
From Stdlib Require Import Ascii Strings.Byte.

#[local] Open Scope string_scope.
#[local] Open Scope Z_scope.

(** [eth_utils.keccak]. *)
Class Keccak := keccak : bytes → bytes.

(** [raw_transaction_hash]: only an EIP-1559 envelope, whose first byte is 2, has one. *)
Definition raw_transaction_hash `{Keccak} (raw : bytes) : result bytes :=
  match raw with
  | x02 :: _ => Ok (keccak raw)
  | _ => Err (EvmEncodingError "raw transaction must be an EIP-1559 transaction")
  end.

(** ** The libraries *)

(** The values [eth_abi.encode] is given. *)
Inductive abi_value : Type :=
| ABytes (bs : bytes)
| AAddress (address : string)
| AUint (n : Z)
| ATuple (values : list abi_value).
(** [eth_abi.encode(types, values)]. *)
Class AbiEncode := abi_encode : list string → list abi_value → bytes.

(** What [rlp.encode] encodes. *)
Inductive rlp_item : Type :=
| RBytes (bs : bytes)
| RList (items : list rlp_item).
Class RlpEncode := rlp_encode : rlp_item → bytes.

(** ** Constants *)

Definition BASE_CHAIN_ID : Z := 8453.
Definition BASE_SEPOLIA_CHAIN_ID : Z := 84532.
Definition USDC_BY_CHAIN_ID : list (Z * string) :=
  [(8453, "0x833589fCD6eDb6E08f4c7C32D4f71b54bdA02913");
   (137, "0x3c499c542cEF5E3811e1192ce70d8cC03d5c3359");
   (84532, "0x036CbD53842c5426634e7929541eC2318f3dCF7e");
   (80002, "0x41E94Eb019C0762f9Bfcf9Fb1E58725BfB0e7582")].
(** [USDC_BY_CHAIN_ID[chain_id]]. *)
Definition usdc_of (chain_id : Z) : option string :=
  head (snd <$> filter (λ cu, cu.1 = chain_id) USDC_BY_CHAIN_ID).

Definition EIP712_DOMAIN_TYPE : string :=
  "EIP712Domain(string name,string version,uint256 chainId,address verifyingContract)".
Definition EXECUTOR_EIP712_NAME : string := "Agentonomy USDC Executor".
Definition EXECUTOR_EIP712_VERSION : string := "1".
Definition EXECUTION_TYPE : string :=
  "Execution(bytes32 capabilityHash,bytes32 reservationHash,address owner,address payee,address token," +:+
  "uint256 amount,uint256 nonce,uint256 deadline,uint256 signerEpoch,address relayer)".
Definition EXECUTION_TUPLE : string :=
  "(bytes32,bytes32,address,address,address,uint256,uint256,uint256,uint256,address)".
Definition EXECUTE_FUNCTION_TYPE : string := "execute(" +:+ EXECUTION_TUPLE +:+ ",bytes)".

Definition UINT256_MAX : Z := 2 ^ 256 - 1.
Definition SECP256K1_N : Z :=
  115792089237316195423570985008687907852837564279074904382605163141518161494337.
Definition SECP256K1_HALF_N : Z :=
  57896044618658097711785492504343953926418782139537452191302581570759080747168.

(** ** Checks *)

(** [_bytes], of a text. *)
Definition evm_bytes (field value : string) : result bytes :=
  match value with
  | String "0" (String "x" digits) =>
      from_option_or (from_hex digits) (EvmEncodingError (field +:+ " is not valid hex"))
  | _ => Err (EvmEncodingError (field +:+ " must be bytes or 0x-prefixed hex"))
  end.
(** [_bytes32]. *)
Definition evm_bytes32 (field value : string) : result bytes :=
  bs ← evm_bytes field value;
  require (length bs =? 32)%nat (EvmEncodingError (field +:+ " must be exactly 32 bytes"));;
  mret bs.
(** [_address]. *)
Definition evm_address (field value : string) : result string :=
  match value with
  | String "0" (String "x" digits) =>
      require (str_len value =? 42) (EvmEncodingError (field +:+ " must be a 20-byte 0x address"));;
      raw ← from_option_or (from_hex digits)
              (EvmEncodingError (field +:+ " must be a 20-byte 0x address"));
      require ((length raw =? 20)%nat && negb (bool_decide (raw = zeros 20)))
        (EvmEncodingError (field +:+ " must be a nonzero 20-byte address"));;
      mret ("0x" +:+ hex raw)
  | _ => Err (EvmEncodingError (field +:+ " must be a 20-byte 0x address"))
  end.
(** [_uint]. *)
Definition evm_uint (field : string) (positive : bool) (value : Z) : result Z :=
  require ((0 <=? value) && (value <=? UINT256_MAX)) (EvmEncodingError (field +:+ " must be a uint256"));;
  require (negb (positive && (value =? 0))) (EvmEncodingError (field +:+ " must be positive"));;
  mret value.
(** [_approved_chain]. *)
Definition approved_chain (value : Z) : result Z :=
  chain_id ← evm_uint "chain_id" false value;
  require (bool_decide (is_Some (usdc_of chain_id)))
    (EvmEncodingError "chain_id is not an approved execution chain");;
  mret chain_id.
(** [_normalise_signature]. *)
Definition normalise_signature (execution : bool) (signature : bytes) : result (Z * Z * Z) :=
  require (length signature =? 65)%nat (EvmEncodingError "signature must be exactly 65 bytes");;
  let r := be_value (take 32 signature) in
  let s := be_value (slice signature 32 64) in
  let v := be_value (drop 64 signature) in
  require (bool_decide (v ∈ if execution then [27; 28] else [0; 1; 27; 28]))
    (EvmEncodingError "signature recovery id is invalid");;
  require (negb ((r =? 0) || (SECP256K1_N <=? r) || (s =? 0) || (SECP256K1_HALF_N <? s)))
    (EvmEncodingError "signature scalar is invalid");;
  mret (v, r, s).

(** ** Authorizations *)

(** [ExecutionAuthorization], once validated. *)
Record ExecutionAuthorization := MkAuthorization {
  au_capability_hash : bytes;
  au_reservation_hash : bytes;
  au_owner : string;
  au_payee : string;
  au_token : string;
  au_amount : Z;
  au_nonce : Z;
  au_deadline : Z;
  au_signer_epoch : Z;
  au_relayer : string;
  au_chain_id : Z;
}.

(** The chain of an authorization: the one given, or the one its token names. *)
Definition authorization_chain (token : string) (chain_id : option Z) : result Z :=
  match chain_id with
  | Some chain_id => approved_chain chain_id
  | None =>
      match filter (λ cu, lower token = lower cu.2) USDC_BY_CHAIN_ID with
      | [(chain_id, _)] => Ok chain_id
      | _ => Err (EvmEncodingError "token is not an approved USDC contract")
      end
  end.

(** [ExecutionAuthorization(...)], its two hashes given as text. *)
Definition make_authorization (capability_hash reservation_hash owner payee token : string)
    (amount nonce deadline signer_epoch : Z) (relayer : string) (chain_id : option Z)
    : result ExecutionAuthorization :=
  capability_hash ← evm_bytes32 "capability_hash" capability_hash;
  reservation_hash ← evm_bytes32 "reservation_hash" reservation_hash;
  require (negb (bool_decide (capability_hash = zeros 32)))
    (EvmEncodingError "capability_hash must be nonzero");;
  require (negb (bool_decide (reservation_hash = zeros 32)))
    (EvmEncodingError "reservation_hash must be nonzero");;
  owner ← evm_address "owner" owner;
  payee ← evm_address "payee" payee;
  relayer ← evm_address "relayer" relayer;
  token ← evm_address "token" token;
  chain_id ← authorization_chain token chain_id;
  require (bool_decide (Some (lower token) = lower <$> usdc_of chain_id))
    (EvmEncodingError "token must be canonical USDC for chain");;
  amount ← evm_uint "amount" true amount;
  nonce ← evm_uint "nonce" false nonce;
  deadline ← evm_uint "deadline" false deadline;
  signer_epoch ← evm_uint "signer_epoch" true signer_epoch;
  mret (MkAuthorization capability_hash reservation_hash owner payee token amount nonce deadline
          signer_epoch relayer chain_id).

(** [_execution_values]. *)
Definition execution_values (a : ExecutionAuthorization) : list abi_value :=
  [ABytes (au_capability_hash a); ABytes (au_reservation_hash a); AAddress (au_owner a);
   AAddress (au_payee a); AAddress (au_token a); AUint (au_amount a); AUint (au_nonce a);
   AUint (au_deadline a); AUint (au_signer_epoch a); AAddress (au_relayer a)].

Section Encoding.
Context `{Keccak} `{AbiEncode} `{RlpEncode}.

(** [keccak(text=text)]. *)
Definition keccak_text (text : string) : bytes := keccak (String.list_byte_of_string text).

(** [domain_separator]. *)
Definition domain_separator (executor_address : string) (chain_id : Z) : result bytes :=
  executor ← evm_address "executor_address" executor_address;
  chain_id ← approved_chain chain_id;
  mret (keccak (abi_encode ["bytes32"; "bytes32"; "bytes32"; "uint256"; "address"]
    [ABytes (keccak_text EIP712_DOMAIN_TYPE); ABytes (keccak_text EXECUTOR_EIP712_NAME);
     ABytes (keccak_text EXECUTOR_EIP712_VERSION); AUint chain_id; AAddress executor])).

(** [hash_execution]: the EIP-712 digest. *)
Definition hash_execution (execution : ExecutionAuthorization) (executor_address : string)
    (chain_id : option Z) : result bytes :=
  chain_id ← match chain_id with
             | None => Ok (au_chain_id execution)
             | Some chain_id => approved_chain chain_id
             end;
  require (chain_id =? au_chain_id execution) (EvmEncodingError "chain_id does not match execution");;
  let struct_hash := keccak (abi_encode
    ["bytes32"; "bytes32"; "bytes32"; "address"; "address"; "address"; "uint256"; "uint256";
     "uint256"; "uint256"; "address"]
    (ABytes (keccak_text EXECUTION_TYPE) :: execution_values execution)) in
  separator ← domain_separator executor_address chain_id;
  mret (keccak ([x19; x01] ++ separator ++ struct_hash)%list).

Definition EXECUTE_SELECTOR : bytes := take 4 (keccak_text EXECUTE_FUNCTION_TYPE).

(** [encode_execute_calldata]; no signature is an error too. *)
Definition encode_execute_calldata (execution : ExecutionAuthorization) (signature : option bytes)
    : result bytes :=
  signature ← from_option_or signature (EvmEncodingError "signature must be bytes or 0x-prefixed hex");
  normalise_signature true signature;;
  mret (EXECUTE_SELECTOR ++ abi_encode [EXECUTION_TUPLE; "bytes"]
          [ATuple (execution_values execution); ABytes signature])%list.

(** ** Transactions *)

(** [EIP1559Transaction], once validated; the relayer's have no access list. *)
Record EIP1559Transaction := MkTransaction {
  tx_nonce : Z;
  tx_max_priority_fee_per_gas : Z;
  tx_max_fee_per_gas : Z;
  tx_gas_limit : Z;
  tx_to : string;
  tx_data : bytes;
  tx_value : Z;
  tx_chain_id : Z;
}.

(** [EIP1559Transaction(...)]. *)
Definition make_transaction (tx : EIP1559Transaction) : result EIP1559Transaction :=
  chain_id ← approved_chain (tx_chain_id tx);
  nonce ← evm_uint "nonce" false (tx_nonce tx);
  priority ← evm_uint "max_priority_fee_per_gas" false (tx_max_priority_fee_per_gas tx);
  max_fee ← evm_uint "max_fee_per_gas" true (tx_max_fee_per_gas tx);
  require (negb (max_fee <? priority))
    (EvmEncodingError "max_fee_per_gas must cover max_priority_fee_per_gas");;
  gas_limit ← evm_uint "gas_limit" true (tx_gas_limit tx);
  to ← evm_address "to" (tx_to tx);
  value ← evm_uint "value" false (tx_value tx);
  require (value =? 0) (EvmEncodingError "executor transaction value must be zero");;
  mret (MkTransaction nonce priority max_fee gas_limit to (tx_data tx) value chain_id).

(** [_uint_bytes]: the shortest big-endian bytes. *)
Definition uint_bytes (value : Z) : bytes :=
  if value =? 0 then [] else be_bytes (Z.to_nat ((Z.log2 value + 8) / 8)) value.

(** [bytes.fromhex(self.to[2:])]. *)
Definition address_bytes (address : string) : bytes :=
  match address with
  | String "0" (String "x" digits) => default [] (from_hex digits)
  | _ => []
  end.

(** [_unsigned_fields]. *)
Definition unsigned_fields (tx : EIP1559Transaction) : list rlp_item :=
  [RBytes (uint_bytes (tx_chain_id tx)); RBytes (uint_bytes (tx_nonce tx));
   RBytes (uint_bytes (tx_max_priority_fee_per_gas tx)); RBytes (uint_bytes (tx_max_fee_per_gas tx));
   RBytes (uint_bytes (tx_gas_limit tx)); RBytes (address_bytes (tx_to tx));
   RBytes (uint_bytes (tx_value tx)); RBytes (tx_data tx); RList []].

(** [encode_eip1559_unsigned], [eip1559_signing_hash], [encode_eip1559_signed]. *)
Definition unsigned_bytes (tx : EIP1559Transaction) : bytes := x02 :: rlp_encode (RList (unsigned_fields tx)).
Definition signing_hash (tx : EIP1559Transaction) : bytes := keccak (unsigned_bytes tx).
Definition signed_bytes (tx : EIP1559Transaction) (signature : bytes) : result bytes :=
  '(v, r, s) ← normalise_signature false signature;
  let y_parity := if bool_decide (v ∈ [27; 28]) then v - 27 else v in
  mret (x02 :: rlp_encode (RList (unsigned_fields tx ++
    [RBytes (uint_bytes y_parity); RBytes (uint_bytes r); RBytes (uint_bytes s)])))%list.
End Encoding.
