(* ===== verification/ChainEvidence.v ===== *)
(** * Reading the chain

    What the funding service asks an EVM node and how it judges the answers
    ([funding_service/service.py], [shared/evm_rpc.py]): JSON-RPC quantities and
    confirmations, the calldata of token transfers, and the evidence that a
    mined transaction is the reserved payment. *)

From S2P Require Import Prelude PyValue Calendar Reservation Amounts LedgerTables LedgerStore.
From S2P Require Import Budget FundingService Assets Receipts Submission ProxyPayment Evm.
From Stdlib Require Import Ascii Strings.Byte.

Open Scope string_scope.
Open Scope Z_scope.

(** ** Exceptions *)

(** [except ValueError]: the blocked broadcast and the protocol's errors are
    [ValueError]s too. *)
Definition is_value_error (e : exn) : bool :=
  match e with
  | ValueError _ | PrebroadcastRiskBlocked _ | HostedProtocolError _ => true
  | _ => false
  end.
(** [except (TypeError, ValueError)]. *)
Definition is_type_or_value_error (e : exn) : bool :=
  match e with TypeError _ => true | _ => is_value_error e end.

(** [try: r except p: k]. *)
Definition catching {A} (p : exn → bool) (r k : result A) : result A :=
  match r with Err e => if p e then k else r | Ok _ => r end.

(** ** Numbers and bytes *)

(** [int(text, 16)]. *)
Definition int16 (text : string) : result Z :=
  from_option_or
    (let '(sign, s) := span_sign (strip text) in
     let digits := match s with
                   | String "0" (String x s') =>
                       if Ascii.eqb x "x" || Ascii.eqb x "X"
                       then match s' with String "_" s'' => s'' | _ => s' end else s
                   | _ => s
                   end in
     digits ← ungrouped is_hex false digits;
     n ← hex_number 0 digits;
     Some (sign * n))
    (ValueError "invalid literal for int() with base 16").

(** [_abi_word_address]. *)
Definition abi_word_address (word : bytes) : result string :=
  require ((length word =? 32)%nat && bool_decide (take 12 word = zeros 12))
    (ValueError "invalid ABI address word");;
  canonical_evm_address (PStr ("0x" +:+ hex (drop 12 word))).

(** [value.rjust(64, "0")]. *)
Definition rjust64 (s : string) : string :=
  String.concat "" (replicate (64 - String.length s) "0") +:+ s.
(** [_abi_address]. *)
Definition abi_address (value : string) : string := rjust64 (lower (without_0x value)).

(** [_abi_uint]. *)
Definition abi_uint (value : Z) : result string :=
  require (negb (value <? 0)) (RuntimeError "ABI uint cannot be negative");;
  mret (rjust64 (hex_of value)).

(** ** JSON-RPC *)

(** The configuration of the chain. *)
Record ChainConfig := MkChainConfig {
  cc_allowed_evm_networks : list string;
  cc_native_min_confirmations : Z;
  cc_live_funding : bool;
  cc_native_facilitator_enabled : bool;
  cc_native_facilitator_gas_limit : Z;
}.

(** The RPC transport: what the node answers, or the exception it raises, when
    asked for the n-th time in an operation. *)
Definition Transport : Type := nat → string → string → list pyval → result pyval.

(** [_submission_rejection_reason]: the node's refusals that are definite. *)
Definition submission_rejection_reason (error : pyval) : option string :=
  match error with
  | PDict error =>
      match dict_get error "code", dict_get error "message" with
      | PInt code, PStr message =>
          let normalized := lower message in
          if negb (((code =? -32000) || (code =? -32003))
                   && negb (bool_decide (message = EmptyString)) && (str_len message <=? 256)
                   && bool_decide (strip message = message))
          then None
          else if bool_decide (normalized = "insufficient funds")
                  || String.prefix "insufficient funds for gas" normalized
          then Some "insufficient_funds"
          else snd <$> head (filter (λ pr : string * string,
                 bool_decide (normalized = pr.1)
                 || String.prefix (pr.1 +:+ ":") normalized = true)
               [("intrinsic gas too low", "intrinsic_gas_too_low");
                ("invalid sender", "invalid_sender");
                ("transaction type not supported", "transaction_type_not_supported")])
      | _, _ => None
      end
  | _ => None
  end.

(** [_parse_rpc_quantity]: [0x0], or digits in lower case without a leading zero. *)
Definition parse_rpc_quantity (value : pyval) (field : string) : result Z :=
  let missing := ValueError (field +:+ " is missing or invalid") in
  match value with
  | PStr (String zero (String x (String c digits))) =>
      require (Ascii.eqb zero "0" && Ascii.eqb x "x" && all_chars is_lower_hex (String c digits)
               && (negb (Ascii.eqb c "0") || bool_decide (digits = EmptyString))) missing;;
      from_option_or (hex_number 0 (String c digits)) missing
  | _ => Err missing
  end.

Section Chain.
Context (chain : ChainConfig).

(** [_rpc_call]: the node must serve the chain of the network. *)
Definition rpc_call (node : Transport) (n : nat) (network : pyval) (method : string)
    (params : list pyval) : result pyval :=
  let name := py_str network in
  require (py_in network (strs (cc_allowed_evm_networks chain)))
    (RuntimeError ("unsupported configured EVM network: " +:+ name));;
  expected_chain_id ← chain_id name;
  observed ← node n name "eth_chainId" [];
  observed_chain_id ← catching is_type_or_value_error (int16 (py_str observed))
                        (Err (RuntimeError "RPC chain id is invalid"));
  require (observed_chain_id =? expected_chain_id)
    (RuntimeError "RPC chain id does not match requested network");;
  if bool_decide (method = "eth_chainId") then mret observed else node n name method params.

(** [_rpc_int]. *)
Definition rpc_int (node : Transport) (n : nat) (network : pyval) (method : string)
    (params : list pyval) : result Z :=
  v ← rpc_call node n network method params;
  match v with
  | PStr s => if has_0x s then int16 s else py_int v
  | _ => py_int v
  end.

(** [_receipt_has_confirmations]. *)
Definition receipt_has_confirmations (node : Transport) (n : nat) (receipt : pydict)
    (network : pyval) : result bool :=
  included ← parse_rpc_quantity (dict_get receipt "blockNumber") "receipt block number";
  v ← rpc_call node n network "eth_blockNumber" [];
  latest ← parse_rpc_quantity v "latest block number";
  mret (cc_native_min_confirmations chain <=? latest - included + 1).

(** [str(receipt.get("status", "")).lower()]. *)
Definition receipt_status (receipt : pydict) : string :=
  lower (py_str (dict_get_or receipt "status" (PStr EmptyString))).
Definition status_failed (status : string) : bool := bool_decide (status ∈ ["0x0"; "0" : string]).
Definition status_succeeded (status : string) : bool :=
  bool_decide (status ∈ ["0x1"; "1" : string]).

(** [_read_reservation_allowance]: the ERC-20 allowance the spender has. *)
Definition read_reservation_allowance (node : Transport) (n : nat) (reservation : pydict)
    (wallet_address : string) : result Z :=
  require_unified_reservation reservation;;
  spender ← dict_item reservation "spender_address";
  spender ← as_str spender;
  network ← dict_item reservation "network";
  token_address ← dict_item reservation "token_address";
  observed ← rpc_int node n network "eth_call"
    [PDict [("to", token_address);
            ("data", PStr ("0xdd62ed3e" +:+ abi_address wallet_address +:+ abi_address spender))];
     PStr "latest"];
  require (negb ((observed <? 0) || (2 ^ 256 <=? observed)))
    (RuntimeError "asset allowance result is invalid");;
  mret observed.

(** ** Native payments *)

(** [_native_transfer_destination]: the payer proxy pays itself. *)
Definition native_transfer_destination (reservation : pydict) (relayer_address : pyval)
    : result string :=
  if is_proxy reservation then
    payer ← canonical_evm_address relayer_address;
    spender ← dict_item reservation "spender_address";
    spender ← canonical_evm_address spender;
    require (bool_decide (payer = spender))
      (ValueError "Clink payer does not match the approved spender");;
    mret payer
  else
    destination ← dict_item reservation "destination";
    canonical_evm_address destination.

Definition TRANSFER_FROM_SELECTOR : bytes := [x23; xb8; x72; xdd].

(** What a native payment transfers: owner, destination and amount. *)
Definition transfer_from_arguments (raw : bytes) : result (string * string * Z) :=
  owner ← abi_word_address (slice raw 4 36);
  destination ← abi_word_address (slice raw 36 68);
  mret (owner, destination, be_value (slice raw 68 100)).

(** The first group of checks of [_validate_native_settlement_evidence]: an error
    message, or the sender, its expected value, the nonce, the token and its
    expected value. *)
Definition native_evidence_identity (row receipt chain_tx : pydict)
    : result (string + string * string * Z * string * string) :=
  v ← dict_item row "tx_hash";
  tx_hash ← canonicalize_transaction_hash v;
  receipt_hash ← canonicalize_transaction_hash (dict_get receipt "transactionHash");
  if negb (bool_decide (receipt_hash = tx_hash))
  then mret (inl "native receipt hash does not match the reserved transaction")
  else
    chain_hash ← canonicalize_transaction_hash (dict_get chain_tx "hash");
    if negb (bool_decide (chain_hash = tx_hash))
    then mret (inl "native transaction hash does not match the reservation")
    else
      sender ← canonical_evm_address (dict_get chain_tx "from");
      v ← dict_item row "settlement_sender";
      expected_sender ← canonical_evm_address v;
      nonce ← parse_rpc_quantity (dict_get chain_tx "nonce") "native transaction nonce";
      token ← canonical_evm_address (dict_get chain_tx "to");
      expected_token ← reservation_token_address row;
      mret (inr (sender, expected_sender, nonce, token, expected_token)).

(** The arguments of the transfer and what the reservation expects of them;
    [None] when the calldata is no [transferFrom]. *)
Definition native_transfer (row : pydict) (calldata : string) (d : FundingDb)
    : result (option (string * string * Z * string * string)) :=
  raw ← bytes_fromhex (drop2 calldata);
  if negb ((length raw =? 4 + 3 * 32)%nat && bool_decide (take 4 raw = TRANSFER_FROM_SELECTOR))
  then mret None
  else
    '(owner, destination, amount) ← transfer_from_arguments raw;
    authorization ← reservation_authorization row d;
    expected_owner ← canonical_evm_address (PStr (sa_wallet_address authorization));
    relayer ← dict_item row "settlement_sender";
    expected_destination ← native_transfer_destination row relayer;
    mret (Some (owner, destination, amount, expected_owner, expected_destination)).

(** The second group of checks: the calldata is the signed transfer. *)
Definition native_evidence_transfer (row chain_tx : pydict) (d : FundingDb)
    : result (option string) :=
  let malformed := Some "native settlement calldata is malformed" in
  let calldata := dict_get chain_tx "input" in
  match dict_get row "settlement_transaction" with
  | PDict transaction =>
      if negb (py_eqb calldata (dict_get transaction "data"))
      then mret (Some "native settlement calldata does not match the signed reservation")
      else
        match calldata with
        | PStr text =>
            if negb (has_0x text) then mret malformed
            else
              transfer ← catching is_type_or_value_error (native_transfer row text d) (mret None);
              match transfer with
              | None => mret malformed
              | Some (owner, destination, amount, expected_owner, expected_destination) =>
                  if negb (bool_decide (owner = expected_owner))
                  then mret (Some "native settlement owner does not match the authorization")
                  else if negb (bool_decide (destination = expected_destination))
                  then mret (Some "native settlement destination does not match the reservation")
                  else
                    v ← dict_item row "amount_atomic";
                    expected_amount ← py_int v;
                    mret (if negb (amount =? expected_amount)
                          then Some "native settlement amount does not match the reservation"
                          else None)
              end
        | _ => mret malformed
        end
  | _ => mret (Some "native settlement calldata does not match the signed reservation")
  end.

(** [_validate_native_settlement_evidence]: the error found in the evidence. *)
Definition validate_native_settlement_evidence (row receipt : pydict) (chain_tx : pyval)
    (d : FundingDb) : result (option string) :=
  match chain_tx with
  | PDict chain_tx =>
      identity ← catching is_type_or_value_error (native_evidence_identity row receipt chain_tx)
        (mret (inl "native settlement transaction evidence is malformed"));
      match identity with
      | inl error => mret (Some error)
      | inr (sender, expected_sender, nonce, token, expected_token) =>
          if negb (bool_decide (sender = expected_sender))
          then mret (Some "native settlement sender does not match the reservation")
          else
            v ← dict_item row "settlement_nonce";
            expected_nonce ← py_int v;
            if negb (nonce =? expected_nonce)
            then mret (Some "native settlement nonce does not match the reservation")
            else if negb (bool_decide (token = expected_token))
            then mret (Some "native settlement token target does not match the reservation")
            else native_evidence_transfer row chain_tx d
      end
  | _ => mret (Some "native transaction details are unavailable for a mined receipt")
  end.

(** ** External payments *)

Definition TRANSFER_WITH_AUTHORIZATION_SELECTOR : bytes := [xe3; xee; x16; x0e].
Definition TRANSFER_WITH_AUTHORIZATION_CALLDATA_BYTES : nat := 4 + 9 * 32.
(** What the Coinbase facilitator appends to its calldata. *)
Definition CDP_FACILITATOR_ATTRIBUTION : bytes :=
  [xa1; x61; x77; x6a; x63; x64; x70; x5f; x66; x61; x63; x69; x6c; x31;
   x00; x0e; x02; x80; x21; x80; x21; x80; x21; x80; x21; x80; x21; x80; x21; x80; x21; x80; x21].

(** The words of the calldata. *)
Definition calldata_word (raw : bytes) (i : nat) : bytes := slice raw (4 + 32 * i) (36 + 32 * i).

(** The arguments of [transferWithAuthorization] the reservation fixes. *)
Record ExternalTransfer := MkExternalTransfer {
  et_payer : string;
  et_recipient : string;
  et_amount : Z;
  et_valid_after : Z;
  et_valid_before : Z;
  et_nonce : string;
}.

(** The arguments the calldata has, next to those the reservation expects; the
    payer is looked up later. *)
Definition external_arguments (row : pydict) (raw : bytes)
    : result (ExternalTransfer * (string → ExternalTransfer)) :=
  let field name := if is_proxy row then "proxy_" +:+ name else name in
  payer ← abi_word_address (calldata_word raw 0);
  recipient ← abi_word_address (calldata_word raw 1);
  destination ← dict_item row "destination";
  expected_recipient ← canonical_evm_address destination;
  v ← dict_item row "amount_atomic";
  expected_amount ← py_int v;
  v ← dict_item row (field "valid_after");
  expected_valid_after ← py_int v;
  v ← dict_item row (field "valid_before");
  expected_valid_before ← py_int v;
  nonce ← dict_item row (field "nonce");
  mret (MkExternalTransfer payer recipient (be_value (calldata_word raw 2))
          (be_value (calldata_word raw 3)) (be_value (calldata_word raw 4))
          ("0x" +:+ hex (calldata_word raw 5)),
        λ expected_payer, MkExternalTransfer expected_payer expected_recipient expected_amount
          expected_valid_after expected_valid_before (lower (py_str nonce))).

(** Who pays. *)
Definition external_payer (row : pydict) (d : FundingDb) : result string :=
  if is_proxy row then canonical_evm_address (dict_get row "payer_address")
  else
    authorization ← reservation_authorization row d;
    canonical_evm_address (PStr (sa_wallet_address authorization)).

(** The first argument that differs. *)
Definition transfer_mismatch (x expected : ExternalTransfer) : option string :=
  let differs name := Some ("external payment calldata " +:+ name +:+ " mismatch") in
  if negb (bool_decide (et_payer x = et_payer expected)) then differs "payer"
  else if negb (bool_decide (et_recipient x = et_recipient expected)) then differs "recipient"
  else if negb (et_amount x =? et_amount expected) then differs "amount"
  else if negb (et_valid_after x =? et_valid_after expected) then differs "validAfter"
  else if negb (et_valid_before x =? et_valid_before expected) then differs "validBefore"
  else if negb (bool_decide (et_nonce x = et_nonce expected)) then differs "nonce"
  else None.

(** The bytes of the calldata, with the error of an unacceptable envelope. *)
Definition external_calldata_bytes (calldata : pyval) : string + bytes :=
  let invalid := inl "external payment calldata encoding is invalid" in
  match calldata with
  | PStr text =>
      if negb (has_0x text) then invalid
      else
        match from_hex (drop2 text) with
        | None => invalid
        | Some raw =>
            let attribution := drop TRANSFER_WITH_AUTHORIZATION_CALLDATA_BYTES raw in
            if (length raw <? TRANSFER_WITH_AUTHORIZATION_CALLDATA_BYTES)%nat
            then inl "external payment calldata length mismatch"
            else if negb (bool_decide (take 4 raw = TRANSFER_WITH_AUTHORIZATION_SELECTOR))
            then inl "external payment calldata selector is not allowed"
            else if negb (bool_decide (attribution = [])
                          || bool_decide (attribution = CDP_FACILITATOR_ATTRIBUTION))
            then inl "external payment calldata attribution is not allowed"
            else inr raw
        end
  | _ => invalid
  end.

(** [_validate_external_payment_calldata]: the error found in the calldata. *)
Definition validate_external_payment_calldata (row : pydict) (calldata : pyval) (d : FundingDb)
    : result (option string) :=
  let challenge := if is_proxy row then require_proxy_payment_challenge row
                   else require_external_payment_challenge row in
  if negb (is_ok challenge)
  then mret (Some "external payment reservation challenge is unavailable")
  else
    match external_calldata_bytes calldata with
    | inl error => mret (Some error)
    | inr raw =>
        arguments ← catching is_type_or_value_error (Some <$> external_arguments row raw)
                      (mret None);
        match arguments with
        | None => mret (Some "external payment calldata arguments are invalid")
        | Some (transfer, expected) =>
            if 255 <? be_value (calldata_word raw 6)
            then mret (Some "external payment calldata signature arguments are invalid")
            else
              payer ← catching is_value_error (Some <$> external_payer row d) (mret None);
              mret (match payer with
                    | None => Some "external payment calldata authorization scope is invalid"
                    | Some payer => transfer_mismatch transfer (expected payer)
                    end)
        end
    end.

(** The receipt and the transaction of a hash; the two requests of an operation. *)
Definition transaction_receipt (node : Transport) (row : pydict) (tx_hash : pyval)
    : result pyval :=
  network ← dict_item row "network";
  rpc_call node 0 network "eth_getTransactionReceipt" [tx_hash].
Definition transaction_details (node : Transport) (row : pydict) (tx_hash : pyval)
    : result pyval :=
  network ← dict_item row "network";
  rpc_call node 1 network "eth_getTransactionByHash" [tx_hash].

(** The hash of a receipt or of a transaction is the reserved one. *)
Definition hash_is (v tx_hash : pyval) : result bool :=
  h ← canonicalize_transaction_hash v; mret (is_text tx_hash h).

(** [_external_payment_has_executed]: anything but a confirmed success that pays
    the reservation is not an execution. *)
Definition payment_has_executed (node : Transport) (row : pydict) (tx_hash : pyval)
    (d : FundingDb) : result bool :=
  receipt ← transaction_receipt node row tx_hash;
  chain_tx ← transaction_details node row tx_hash;
  match receipt, chain_tx with
  | PDict receipt, PDict chain_tx =>
      network ← dict_item row "network";
      confirmed ← receipt_has_confirmations node 2 receipt network;
      if negb confirmed then mret false
      else if negb (status_succeeded (receipt_status receipt)) then mret false
      else
        same_receipt ← hash_is (dict_get receipt "transactionHash") tx_hash;
        if negb same_receipt then mret false
        else
          same_tx ← hash_is (dict_get chain_tx "hash") tx_hash;
          if negb same_tx then mret false
          else
            token ← reservation_token_address row;
            target ← canonical_evm_address (dict_get chain_tx "to");
            if negb (bool_decide (target = token)) then mret false
            else
              error ← validate_external_payment_calldata row (dict_get chain_tx "input") d;
              mret (bool_decide (error = None))
  | _, _ => mret false
  end.
Definition external_payment_has_executed (node : Transport) (row : pydict) (tx_hash : pyval)
    (d : FundingDb) : bool :=
  match payment_has_executed node row tx_hash d with Ok b => b | Err _ => false end.

(** [_require_observed_external_payment_matches]: every failure is a mismatch. *)
Definition require_observed_external_payment_matches (node : Transport) (row : pydict)
    (tx_hash : pyval) (d : FundingDb) : result unit :=
  catching (λ _, true)
    (chain_tx ← transaction_details node row tx_hash;
     match chain_tx with
     | PDict chain_tx =>
         require (forallb (λ field, negb (is_none (dict_get chain_tx field)))
                    ["hash"; "to"; "input"])
           (ValueError "external payment transaction is incomplete");;
         same ← hash_is (dict_get chain_tx "hash") tx_hash;
         require same (ValueError "external payment transaction hash mismatch");;
         target ← canonical_evm_address (dict_get chain_tx "to");
         token ← reservation_token_address row;
         error ← validate_external_payment_calldata row (dict_get chain_tx "input") d;
         require (bool_decide (target = token) && bool_decide (error = None))
           (ValueError "external payment transaction scope mismatch")
     | _ => Err (ValueError "external payment transaction is incomplete")
     end)
    (Err (ValueError "external payment transaction does not match reservation challenge")).

(** ** Rotating a payment authorization *)

(** [0x] and 64 hexadecimal digits. *)
Definition bool_word (encoded_state : pyval) : result bool :=
  let invalid := RuntimeError "authorizationState result is invalid" in
  match encoded_state with
  | PStr text =>
      require (is_prefixed is_hex 64 text) invalid;;
      used ← from_option_or (hex_number 0 (drop2 text)) invalid;
      require ((used =? 0) || (used =? 1)) invalid;;
      mret (used =? 1)
  | _ => Err invalid
  end.

(** [keccak(text=...)[:4].hex()]. *)
Definition selector_hex `{Keccak} (signature : string) : string :=
  hex (take 4 (keccak (String.list_byte_of_string signature))).

(** [_require_proxy_authorization_rotation_safe]: the signed payment expired on the
    finalized chain and was not used. *)
Definition require_proxy_authorization_rotation_safe `{Keccak} (node : Transport)
    (reservation : pydict) : result unit :=
  '(valid_before, nonce) ← match (v ← dict_item reservation "proxy_valid_before";
                                  valid_before ← py_int v;
                                  nonce ← dict_item reservation "proxy_nonce";
                                  mret (valid_before, lower (py_str nonce))) with
                           | Ok x => Ok x
                           | Err _ => Err (ValueError
                               "merchant payment authorization state is unavailable")
                           end;
  require ((str_len nonce =? 66) && has_0x nonce)
    (ValueError "merchant payment authorization nonce is invalid");;
  network ← dict_item reservation "network";
  latest ← rpc_call node 0 network "eth_getBlockByNumber" [PStr "finalized"; PBool false];
  match latest with
  | PDict latest =>
      '(finalized_number, chain_timestamp) ← catching is_value_error
        (number ← parse_rpc_quantity (dict_get latest "number") "finalized block number";
         timestamp ← parse_rpc_quantity (dict_get latest "timestamp") "finalized block timestamp";
         mret (number, timestamp))
        (Err (RuntimeError "finalized block metadata is invalid"));
      require (negb (chain_timestamp <=? valid_before))
        (ValueError "merchant payment authorization may still be live; reconciliation required");;
      payer ← canonical_evm_address (dict_get reservation "payer_address");
      token ← dict_item reservation "token_address";
      encoded_state ← rpc_call node 1 network "eth_call"
        [PDict [("to", token);
                ("data", PStr ("0x" +:+ selector_hex "authorizationState(address,bytes32)"
                               +:+ abi_address payer +:+ drop2 nonce))];
         PStr ("0x" +:+ hex_of finalized_number)];
      used ← bool_word encoded_state;
      require (negb used)
        (ValueError
           "merchant payment authorization was already consumed; reconciliation required")
  | _ => Err (RuntimeError "finalized block is unavailable")
  end.

(** ** The relayer's transaction *)

(** [_require_native_funding_enabled]. *)
Definition require_native_funding_enabled : result unit :=
  require (cc_live_funding chain) (RuntimeError "CLINK_LIVE_FUNDING is disabled");;
  require (cc_native_facilitator_enabled chain)
    (RuntimeError "CLINK_NATIVE_FACILITATOR_ENABLED is disabled").

(** The relayer's account: its address, and the raw transaction it signs, as the
    signing library returns them. *)
Record Relayer := MkRelayer {
  rl_address : string;
  rl_sign : pydict → result string;
}.

(** [_native_relayer_credentials]: the account the configured key stands for. *)
Definition native_relayer_credentials (account : option (result Relayer)) : result Relayer :=
  require_native_funding_enabled;;
  match account with
  | None => Err (RuntimeError "CLINK_NATIVE_FACILITATOR_RELAYER_PRIVATE_KEY is not configured")
  | Some account => account
  end.

(** [to_checksum_address] of the Ethereum library. *)
Class Checksum := to_checksum_address : string → string.

(** [_authorization_token_scope]. *)
Definition authorization_token_scope `{Checksum} (authorization : SpendingAuthorization)
    : result (string * Z) :=
  match (token ← dict_item (sa_metadata authorization) "token_address";
         token_address ← canonical_evm_address token;
         decimals ← dict_item (sa_metadata authorization) "token_decimals";
         token_decimals ← py_int decimals;
         mret (token_address, token_decimals)) with
  | Ok (token_address, token_decimals) =>
      require ((0 <=? token_decimals) && (token_decimals <=? 255))
        (RuntimeError "unified authorization token decimals are invalid");;
      mret (to_checksum_address token_address, token_decimals)
  | Err _ => Err (RuntimeError "unified authorization is missing selected token scope")
  end.

(** [_transfer_from_calldata]. *)
Definition transfer_from_calldata `{Keccak} (from_address to_address : string)
    (atomic_amount : Z) : result string :=
  amount ← abi_uint atomic_amount;
  mret ("0x" +:+ selector_hex "transferFrom(address,address,uint256)"
        +:+ abi_address from_address +:+ abi_address to_address +:+ amount).

(** [_json_rpc_tx]. *)
Definition json_rpc_tx (tx : pydict) : pydict :=
  map (λ kv, (kv.1, match kv.2 with
                    | PInt n => PStr (py_hex n)
                    | PBool b => PStr (py_hex (bool_int b))
                    | v => v
                    end))
    (filter (λ kv, kv.1 ≠ "chainId") tx).

(** The hash of a raw transaction. *)
Definition raw_hash `{Keccak} (raw : string) : result string :=
  bs ← bytes_fromhex (without_0x raw); mret ("0x" +:+ hex (keccak bs)).

(** The atomic amount of an authorization, checked against the amount it settles. *)
Definition settlement_atomic_amount (authorization : SpendingAuthorization) (amount decimals : Z)
    : result Z :=
  atomic_value ← from_option_or (required_atomic amount decimals)
    (RuntimeError "settlement amount cannot be represented by selected token decimals");
  match dict_get (sa_metadata authorization) "amount_atomic" with
  | PStr persisted =>
      require (negb (bool_decide (persisted = EmptyString)) && all_chars isdigit_char persisted)
        (RuntimeError "unified authorization is missing immutable atomic amount");;
      atomic_amount ← py_int (PStr persisted);
      require (atomic_amount =? atomic_value)
        (RuntimeError "immutable atomic amount does not match reservation amount and decimals");;
      mret atomic_amount
  | _ => Err (RuntimeError "unified authorization is missing immutable atomic amount")
  end.

(** [_build_native_transaction], of a nonce the ledger allocated. *)
Definition build_native_transaction `{Keccak} `{Checksum} (node : Transport) (relayer : Relayer)
    (authorization : SpendingAuthorization) (reservation : pydict) (nonce : Z)
    : result PreparedTransaction :=
  require_native_funding_enabled;;
  require (bool_decide (lower (sa_spender_address authorization) = lower (rl_address relayer)))
    (RuntimeError "current native spending mode requires spender_address to match the Clink relayer address");;
  v ← dict_item reservation "amount_usdc";
  amount_usdc ← as_str v;
  amount ← parse_amount amount_usdc;
  '(token_address, token_decimals) ← authorization_token_scope authorization;
  atomic_amount ← settlement_atomic_amount authorization amount token_decimals;
  destination ← native_transfer_destination reservation (PStr (rl_address relayer));
  calldata ← transfer_from_calldata (sa_wallet_address authorization) destination atomic_amount;
  chain_id ← chain_id (sa_chain authorization);
  let network := PStr (sa_chain authorization) in
  gas_price ← rpc_int node 0 network "eth_gasPrice" [];
  let tx from to := [("chainId", PInt chain_id); ("from", PStr from); ("to", PStr to);
                     ("value", PInt 0); ("data", PStr calldata); ("nonce", PInt nonce);
                     ("gasPrice", PInt gas_price)] in
  let signing := tx (rl_address relayer) token_address in
  gas ← catching (λ _, true)
          (rpc_int node 1 network "eth_estimateGas" [PDict (json_rpc_tx signing)])
          (mret (cc_native_facilitator_gas_limit chain));
  signed ← rl_sign relayer (signing ++ [("gas", PInt gas)])%list;
  let raw := ensure_0x signed in
  from ← canonical_evm_address (PStr (rl_address relayer));
  to ← canonical_evm_address (PStr token_address);
  tx_hash ← raw_hash raw;
  mret (MkPrepared from nonce (tx from to ++ [("gas", PInt gas)])%list tx_hash raw).

Definition RECONSTRUCTION_INVALID : exn :=
  ValueError "native transaction reconstruction fields are invalid".
Definition RECONSTRUCTION_FIELDS : list string :=
  ["chainId"; "from"; "to"; "value"; "data"; "nonce"; "gasPrice"; "gas"].

(** The fields of the stored transaction, read as the code reads them. *)
Record StoredTransaction := MkStoredTransaction {
  st_sender : string;
  st_token : string;
  st_nonce : Z;
  st_chain_id : Z;
  st_value : Z;
  st_gas_price : Z;
  st_gas : Z;
  st_calldata : string;
}.
Definition stored_transaction (transaction : pydict) : result StoredTransaction :=
  let item f := dict_item transaction f in
  let number f := (v ← item f; py_int v) in
  from ← item "from"; sender ← canonical_evm_address from;
  to ← item "to"; token ← canonical_evm_address to;
  nonce ← number "nonce";
  chain_id ← number "chainId"; value ← number "value"; gas_price ← number "gasPrice";
  gas ← number "gas";
  data ← item "data";
  mret (MkStoredTransaction sender token nonce chain_id value gas_price gas (py_str data)).

(** The stored transaction is still that of the reservation. *)
Definition require_stored_transaction (t : StoredTransaction) (row : pydict) : result unit :=
  let invalid := RECONSTRUCTION_INVALID in
  require (negb (st_nonce t <? 0)) invalid;;
  v ← dict_item row "network"; network ← as_str v; expected_chain_id ← chain_id network;
  require (st_chain_id t =? expected_chain_id) invalid;;
  require (st_value t =? 0) invalid;;
  v ← dict_item row "settlement_nonce"; expected_nonce ← py_int v;
  require (st_nonce t =? expected_nonce) invalid;;
  v ← dict_item row "settlement_sender"; expected_sender ← canonical_evm_address v;
  require (bool_decide (st_sender t = expected_sender)) invalid;;
  expected_token ← reservation_token_address row;
  require (bool_decide (st_token t = expected_token)) invalid;;
  require (has_0x (st_calldata t)) invalid.

(** [_reconstruct_native_transaction]: the stored transaction is signed again, and
    must hash to the stored hash. *)
Definition reconstruct_native_transaction `{Keccak} `{Checksum}
    (account : option (result Relayer)) (row : pydict) : result string :=
  match dict_get row "settlement_transaction" with
  | PDict transaction =>
      require (same_keys (dict_keys transaction) RECONSTRUCTION_FIELDS) RECONSTRUCTION_INVALID;;
      t ← catching is_type_or_value_error (stored_transaction transaction)
            (Err RECONSTRUCTION_INVALID);
      require_stored_transaction t row;;
      relayer ← native_relayer_credentials account;
      address ← canonical_evm_address (PStr (rl_address relayer));
      require (bool_decide (st_sender t = address))
        (ValueError "native transaction reconstruction relayer does not match");;
      signed ← rl_sign relayer
        [("chainId", PInt (st_chain_id t)); ("from", PStr (rl_address relayer));
         ("to", PStr (to_checksum_address (st_token t))); ("value", PInt (st_value t));
         ("data", PStr (st_calldata t)); ("nonce", PInt (st_nonce t));
         ("gasPrice", PInt (st_gas_price t)); ("gas", PInt (st_gas t))];
      let raw := ensure_0x signed in
      reconstructed_hash ← raw_hash raw;
      v ← dict_item row "tx_hash";
      require (is_text v reconstructed_hash)
        (ValueError "reconstructed native transaction hash does not match");;
      mret raw
  | _ => Err (ValueError "native transaction reconstruction fields are unavailable")
  end.
End Chain.
