(* ===== verification/Settlement.v ===== *)
(** * Settling and reconciling a payment

    The calls of [funding_service/service.py] that submit a payment and follow it
    up, as programs of the ledger's transactions and of what the chain
    answers: [settle_reservation], [reconcile_reservation],
    [finalize_external_payment], [finalize_proxy_payment]. *)

From S2P Require Import Prelude PyValue Calendar Reservation Amounts LedgerTables LedgerStore.
From S2P Require Import Budget LedgerEvidence FundingService Assets Receipts Submission.
From S2P Require Import ProxyPayment Evm ChainEvidence.
From Stdlib Require Import Ascii.

Open Scope string_scope.
Open Scope Z_scope.

(** [str(exc)] of the exceptions the model has. *)
Definition exn_text (e : exn) : string :=
  match e with
  | KeyError k => "'" +:+ k +:+ "'"
  | RpcSubmissionRejected _ => "EVM transaction submission was definitely rejected"
  | ExecutionConflict m | ExecutionNotFound m | PilotGateDenied m | EvmEncodingError m
  | IntegrityError m | ValueError m | TypeError m | ArithmeticError m | CapabilityConflict m
  | RuntimeError m | PrebroadcastRiskBlocked m | RepositoryConflict m | HostedProtocolError m
  | EnrollmentError m | RelayerExecutionError m | RpcSubmissionUnknown m | EvidenceError m _
  | WatcherNotFound m => m
  end.

(** What a stored error says: single submissions keep no text of an exception. *)
Definition redacted_error (row : pydict) (generic detail : string) : string :=
  if is_true (dict_get row "single_submission") then generic else detail.

(** The systems a call talks to: the node, the relayer's account and the policy
    service, which the n-th request asks; [sw_event_id] is the id drawn for an
    audit event, [sw_draw] the one drawn for a receipt. *)
Record World := MkWorld {
  sw_node : Transport;
  sw_account : option (result Relayer);
  sw_controls : nat → pydict → result unit;
  sw_event_id : string;
  sw_draw : FundingDb → string;
}.
(** The same systems after [n] requests. *)
Definition later (n : nat) (w : World) : World :=
  MkWorld (λ m, sw_node w (n + m)%nat) (sw_account w) (λ m, sw_controls w (n + m)%nat)
    (sw_event_id w) (sw_draw w).

(** What the evidence of a payment leads to. *)
Inductive Verdict :=
| VPending (error : option string) (manual_review : bool)
| VReverted
| VComplete.

Section Reconciliation.
Context `{Sha256} `{HmacSha256} `{KeccakHex} `{Keccak} `{Checksum}.
Context (config : FundingConfig) (chain : ChainConfig) (clock : Z) (w : World).

Abbreviation call A := (service FundingDb A).

(** [get_reservation]. *)
Definition get_reservation (reservation_id : pyval) : call (option pydict) :=
  answers (λ d, Ok (k ← match reservation_id with PStr k => Some k | _ => None end; get k d)).

(** ** Native payments *)

(** A mined native transaction: its evidence, then its confirmations, then its
    status. *)
Definition mined_verdict (row receipt : pydict) (chain_tx : pyval) (operator_reconcile : bool)
    (d : FundingDb) : result Verdict :=
  evidence_error ← validate_native_settlement_evidence row receipt chain_tx d;
  match evidence_error with
  | Some error => mret (VPending (Some error) true)
  | None =>
      mret (match (network ← dict_item row "network";
                   receipt_has_confirmations chain (sw_node w) 2 receipt network) with
            | Err e =>
                VPending (Some (redacted_error row "native confirmation lookup failed" (exn_text e)))
                  operator_reconcile
            | Ok false =>
                VPending (Some "native transaction lacks required confirmations")
                  operator_reconcile
            | Ok true =>
                let status := receipt_status receipt in
                if status_failed status then VReverted
                else if status_succeeded status then VComplete
                else VPending (Some "native receipt status is not final") operator_reconcile
            end)
  end.

(** A native transaction the node does not know: the raw transaction to send again. *)
Definition lost_verdict (row : pydict) : result (Verdict + string) :=
  if negb (cc_live_funding chain) || negb (cc_native_facilitator_enabled chain)
  then mret (inl (VPending
    (Some "native transaction cannot be found; replacement is forbidden") true))
  else
    match reconstruct_native_transaction chain (sw_account w) row with
    | Ok raw => mret (inr raw)
    | Err e => if is_value_error e then mret (inl (VPending (Some (exn_text e)) true)) else Err e
    end.

(** [_reconcile_native_reservation], up to the transaction it decides on. *)
Definition native_verdict (row : pydict) (tx_hash : pyval) (operator_reconcile : bool)
    (d : FundingDb) : result (Verdict + string) :=
  receipt ← transaction_receipt chain (sw_node w) row tx_hash;
  chain_tx ← transaction_details chain (sw_node w) row tx_hash;
  match receipt, chain_tx with
  | PDict receipt, _ => inl <$> mined_verdict row receipt chain_tx operator_reconcile d
  | _, PDict _ => mret (inl (VPending None operator_reconcile))
  | _, _ => lost_verdict row
  end.

(** [_complete_native_reservation]. *)
Definition complete_native (row : pydict) : call (option pydict) := λ d,
  if is_proxy (fetched (py_str (dict_get row "reservation_id")) d)
  then complete_proxy_reimbursement clock row d
  else complete_native_reservation config clock row (sw_draw w d) d.

Definition pending (row : pydict) (error : option string) (manual_review : bool)
    : call (option pydict) := pending_reservation clock row error manual_review.

(** [_rpc_call] of [eth_sendRawTransaction], of the stored row's network. *)
Definition send_raw (n : nat) (row : pydict) (raw : string) (d : FundingDb) : result pyval :=
  network ← dict_item (fetched (py_str (dict_get row "reservation_id")) d) "network";
  rpc_call chain (sw_node w) n network "eth_sendRawTransaction" [PStr raw].
Definition send_native (n : nat) (row : pydict) (raw : string) : call string := λ d,
  send_native_raw_transaction clock row
    (sw_controls w n (fetched (py_str (dict_get row "reservation_id")) d))
    (send_raw n row raw d) d.

(** The exact rebroadcast of a lost transaction. *)
Definition rebroadcast_native (row : pydict) (tx_hash : pyval) (raw : string)
    : call (option pydict) :=
  sent ← recover (submitted ← send_native 3 row raw; mret (inl submitted))
           (λ e, mret (inr e));
  match sent with
  | inr (PrebroadcastRiskBlocked _) =>
      reservation_id ← answers (λ _, dict_item row "reservation_id");
      get_reservation reservation_id
  | inr e =>
      pending row (Some (redacted_error row
        "exact native transaction rebroadcast status is ambiguous"
        ("exact native transaction rebroadcast failed: " +:+ exn_text e))) true
  | inl submitted =>
      if negb (is_text tx_hash submitted)
      then pending row
             (Some "exact native transaction rebroadcast returned a mismatched hash") true
      else pending row (Some "exact native transaction rebroadcast for reconciliation") false
  end.

Definition apply_native_verdict (row : pydict) (tx_hash : pyval) (v : Verdict + string)
    : call (option pydict) :=
  match v with
  | inl (VPending error manual_review) => pending row error manual_review
  | inl VReverted => runs (retryable_reservation clock row "native transaction failed onchain" false
                         "failed_receipt" "onchain_revert")
  | inl VComplete => complete_native row
  | inr raw => rebroadcast_native row tx_hash raw
  end.

(** The stored row of a payment and its hash. *)
Definition payment_under_review (row : pydict) : call (pydict * pyval) :=
  answers (λ d,
    row ← authoritative_reservation row d;
    require_canonical_asset_pair (fc_assets config) row;;
    tx_hash ← dict_item row "tx_hash";
    mret (row, tx_hash)).

(** [_reconcile_native_reservation]: whatever fails, also while the decision is
    applied, leaves the payment pending. *)
Definition reconcile_native_reservation (row : pydict) (operator_reconcile : bool)
    : call (option pydict) :=
  '(row, tx_hash) ← payment_under_review row;
  recover
    (v ← answers (native_verdict row tx_hash operator_reconcile);
     apply_native_verdict row tx_hash v)
    (λ e, pending row
            (Some (redacted_error row "native settlement reconciliation lookup failed"
                     (exn_text e))) operator_reconcile).

(** ** External payments *)

(** The identity of a mined external payment. *)
Definition external_identity (receipt chain_tx : pydict) (tx_hash : pyval) : result bool :=
  same_receipt ← hash_is (dict_get receipt "transactionHash") tx_hash;
  same_tx ← hash_is (dict_get chain_tx "hash") tx_hash;
  mret (same_receipt && same_tx).

(** A successful external payment: its token and its calldata. *)
Definition external_success (row chain_tx : pydict) (d : FundingDb) : result Verdict :=
  match (token_address ← reservation_token_address row;
         transaction_target ← canonical_evm_address (dict_get chain_tx "to");
         mret (bool_decide (transaction_target = token_address))) with
  | Err e =>
      if is_value_error e then
        mret (VPending
          (Some "external payment token contract cannot be verified after successful receipt")
          true)
      else Err e
  | Ok false =>
      mret (VPending (Some "external payment token contract mismatch after successful receipt")
              true)
  | Ok true =>
      calldata_error ← validate_external_payment_calldata row (dict_get chain_tx "input") d;
      mret (match calldata_error with
            | Some error => VPending (Some (error +:+ " after successful receipt")) true
            | None => VComplete
            end)
  end.

(** [_reconcile_external_reservation], of a mined transaction. *)
Definition external_mined_verdict (row receipt chain_tx : pydict) (tx_hash : pyval)
    (operator_reconcile : bool) (d : FundingDb) : result Verdict :=
  let manual error := mret (VPending (Some error) true) in
  match external_identity receipt chain_tx tx_hash with
  | Err e =>
      if is_value_error e then manual "external mined payment identity is incomplete" else Err e
  | Ok false => manual "external mined payment hash does not match the reserved transaction"
  | Ok true =>
      match (network ← dict_item row "network";
             receipt_has_confirmations chain (sw_node w) 2 receipt network) with
      | Err _ => manual "external receipt block number is missing or invalid"
      | Ok false =>
          mret (VPending (Some "external payment lacks required confirmations")
                  operator_reconcile)
      | Ok true =>
          let status := receipt_status receipt in
          if status_failed status then mret VReverted
          else if negb (status_succeeded status)
          then mret (VPending (Some "external receipt status is not final") operator_reconcile)
          else external_success row chain_tx d
      end
  end.

(** [_reconcile_external_reservation], up to the transaction it decides on. *)
Definition external_verdict (row : pydict) (tx_hash : pyval) (operator_reconcile : bool)
    (d : FundingDb) : result Verdict :=
  let manual error := mret (VPending (Some error) true) in
  match transaction_receipt chain (sw_node w) row tx_hash with
  | Err _ => manual "external receipt lookup failed"
  | Ok PNone => mret (VPending None operator_reconcile)
  | Ok (PDict receipt) =>
      match transaction_details chain (sw_node w) row tx_hash with
      | Err _ => manual "external transaction lookup failed for a mined receipt"
      | Ok (PDict chain_tx) =>
          external_mined_verdict row receipt chain_tx tx_hash operator_reconcile d
      | Ok _ => manual "external transaction details are unavailable for a mined receipt"
      end
  | Ok _ => manual "external receipt response is invalid"
  end.

Definition reconcile_external_reservation (row : pydict) (operator_reconcile : bool)
    : call (option pydict) :=
  '(row, tx_hash) ← payment_under_review row;
  v ← answers (external_verdict row tx_hash operator_reconcile);
  match v with
  | VPending error manual_review => pending row error manual_review
  | VReverted => runs (external_reverted clock row)
  | VComplete => λ d, complete_external_reservation config clock row (sw_draw w d) d
  end.

(** ** Reconciling *)

Definition NATIVE_RAILS : list string := ["clink_allowance"; "clink_payer_reimbursement"].
Definition EXTERNAL_RAILS : list string := ["external_x402_signature"; "clink_payer_proxy"].

(** [reconcile_reservation], of a payment that is not on the hosted rail. *)
Definition reconcile_payment (reservation_id : string) (operator_reconcile : bool)
    : call (option pydict) :=
  route ← runs (reconcile_reservation config clock (fc_reconciliation_max_attempts config)
                  (fc_reconciliation_max_age_seconds config) operator_reconcile reservation_id);
  match route with
  | Proceed row =>
      native ← answers (λ _, in_set (dict_get row "settlement_rail") (strs NATIVE_RAILS));
      if native : bool then reconcile_native_reservation row operator_reconcile
      else if py_in (dict_get row "settlement_rail") (strs EXTERNAL_RAILS)
      then reconcile_external_reservation row operator_reconcile
      else pending row (Some "settlement rail is missing") operator_reconcile
  | Returned row => mret (Some row)
  | Reconcile => mret None   (* that transaction never asks for it *)
  end.
End Reconciliation.

Section Settlement.
Context `{Sha256} `{HmacSha256} `{KeccakHex} `{Keccak} `{Checksum}.
Context (config : FundingConfig) (chain : ChainConfig) (clock : Z) (w : World).

Abbreviation call A := (service FundingDb A).
(** The reconciliation a call ends with, after at most five requests of its own. *)
Definition reconcile_afterwards (reservation_id : string) : call (option pydict) :=
  reconcile_payment config chain clock (later 5 w) reservation_id false.

(** ** Settling *)

(** What the second transaction of [settle_reservation] asks. *)
Definition native_context (current : pydict) (d : FundingDb) : NativeContext :=
  let network := dict_get current "network" in
  let credentials := native_relayer_credentials chain (sw_account w) in {|
    nc_event_id := sw_event_id w;
    nc_observed_allowance :=
      match (authorization ← reservation_authorization current d;
             read_reservation_allowance chain (sw_node w) 0 current
               (sa_wallet_address authorization)) with
      | Ok observed => Some observed
      | Err _ => None
      end;
    nc_controls := sw_controls w 0 current;
    nc_relayer := rl_address <$> credentials;
    nc_chain_pending_nonce :=
      relayer ← credentials;
      rpc_int chain (sw_node w) 1 network "eth_getTransactionCount"
        [PStr (rl_address relayer); PStr "pending"];
    nc_build := λ authorization current nonce,
      relayer ← credentials;
      build_native_transaction chain (λ n, sw_node w (2 + n)%nat) relayer authorization current
        nonce;
    nc_controls_again := sw_controls w 1 current |}.

(** [_authorize_native_broadcast]: a failing control blocks the payment. *)
Definition authorize_broadcast (row : pydict) : call pydict :=
  match sw_controls w 2 row with
  | Err _ =>
      runs (block_unbroadcast_native_reservation clock row
              "live funding risk assessment failed immediately before submission");;
      answers (λ _, Err (PrebroadcastRiskBlocked
        "live funding risk assessment is unavailable before submission"))
  | Ok _ => runs (authorize_native_broadcast clock row)
  end.

(** The broadcast of a prepared transaction. *)
Definition broadcast_native (row : pydict) (prepared : PreparedTransaction) : call unit :=
  raw ← answers (λ _,
    require_native_funding_enabled chain;;
    if is_true (dict_get row "single_submission")
    then reconstruct_native_transaction chain (sw_account w) row
    else mret (pt_raw_transaction prepared));
  row ← authorize_broadcast row;
  submitted ← send_native chain clock w 4 row raw;
  answers (λ _, require (bool_decide (submitted = pt_tx_hash prepared))
    (RuntimeError "native facilitator returned a mismatched transaction hash")).

(** After the broadcast: a definite refusal of the node lets the payment be
    retried, everything else is reconciled. *)
Definition follow_up (reservation_id : string) (row : pydict) (prepared : PreparedTransaction)
    : call (option pydict) :=
  let save error := runs (save_reconciliation_error clock reservation_id
                            (PStr (pt_tx_hash prepared)) error) in
  outcome ← recover (broadcast_native row prepared;; mret None) (λ e, mret (Some e));
  match outcome with
  | Some (PrebroadcastRiskBlocked m) => answers (λ _, Err (PrebroadcastRiskBlocked m))
  | Some (RpcSubmissionRejected reason_code) =>
      let error := "native transaction submission was definitely rejected: " +:+ reason_code in
      save error;;
      runs (retryable_reservation clock row error true "definite_rpc_rejection" reason_code)
  | Some e =>
      save (redacted_error row "native transaction submission status is ambiguous" (exn_text e));;
      reconcile_afterwards reservation_id
  | None => reconcile_afterwards reservation_id
  end.

(** [settle_reservation], of a reservation that is not on the hosted rail. *)
Definition settle_payment (reservation_id authorization_hash : string) : call (option pydict) :=
  route ← answers (settle_route config reservation_id authorization_hash);
  match route with
  | Returned row => mret (Some row)
  | Reconcile => reconcile_afterwards reservation_id
  | Proceed _ =>
      answers (λ _, receipt_signing_key config;; require_native_funding_enabled chain);;
      submitted ← runs (λ d, write_session
        (submit_native_txn config clock reservation_id authorization_hash
           (native_context (fetched reservation_id d) d)) d);
      match submitted with
      | SubReturned row => mret (Some row)
      | SubRefused message => answers (λ _, Err (ValueError message))
      | SubRow row prepared => follow_up reservation_id row prepared
      end
  end.

(** ** Finalizing *)

(** [finalize_external_payment] and [finalize_proxy_payment]. *)
Definition finalize_payment (proxy : bool) (reservation_id : string) (transaction_hash : pyval)
    (proof : pydict) : call (option pydict) :=
  hash ← answers (λ _, canonicalize_transaction_hash transaction_hash);
  route ← runs (λ d,
    let row := fetched reservation_id d in
    submit_external config clock proxy reservation_id transaction_hash proof
      (require_observed_external_payment_matches chain (sw_node w) row (PStr hash) d)
      (negb proxy && external_payment_has_executed chain (sw_node w) row (PStr hash) d) d);
  match route with
  | Returned row | Proceed row => mret (Some row)
  | Reconcile => reconcile_afterwards reservation_id
  end.
End Settlement.

(** ** The calls of a payment *)

Inductive PaymentCall :=
| PSettle (reservation_id authorization_hash : string)
| PReconcile (reservation_id : string) (operator_reconcile : bool)
| PFinalize (proxy : bool) (reservation_id : string) (transaction_hash : pyval) (proof : pydict).

(** The reservation a call is about. *)
Definition paid_reservation (c : PaymentCall) : string :=
  match c with PSettle k _ | PReconcile k _ | PFinalize _ k _ _ => k end.

Definition run_payment `{Sha256} `{HmacSha256} `{KeccakHex} `{Keccak} `{Checksum}
    (config : FundingConfig) (chain : ChainConfig) (clock : Z) (w : World) (c : PaymentCall)
    : service FundingDb (option pydict) :=
  match c with
  | PSettle k hash => settle_payment config chain clock w k hash
  | PReconcile k operator_reconcile => reconcile_payment config chain clock w k operator_reconcile
  | PFinalize proxy k transaction_hash proof =>
      finalize_payment config chain clock w proxy k transaction_hash proof
  end.
