(* ===== verification/GrantStore.v ===== *)
(** * Spending grants and asset allowances

    The account service's own operations on the grants and allowances the
    funding ledger charges ([account_service/repository.py], with the
    validators of [account_service/schemas.py]).  The ids of audit events, which
    the code draws at random, are arguments. *)

From S2P Require Import Prelude PyValue Reservation Amounts LedgerTables Budget.
From Stdlib Require Import Ascii.

Open Scope string_scope.
Open Scope Z_scope.

(** ** Validation of a grant *)

(** [reject_control_characters]: the control and format characters below 256. *)
Definition is_control_or_format (c : ascii) : bool :=
  let n := code c in (n <? 32) || ((127 <=? n) && (n <=? 159)) || (n =? 173).
Definition reject_control_characters (value : string) : result string :=
  require (all_chars (λ c, negb (is_control_or_format c)) value)
    (ValueError "message fields must not contain control characters");;
  mret value.

(** [sorted(set(values))]. *)
Fixpoint insert_string (s : string) (l : list string) : list string :=
  match l with
  | [] => [s]
  | s' :: l' => match String.compare s s' with
                | Lt => s :: l
                | Eq => l
                | Gt => s' :: insert_string s l'
                end
  end.
Definition sorted_set (l : list string) : list string := foldr insert_string [] l.

Definition normalize_scope (field_name scope : string) : result string :=
  reject_control_characters scope;;
  let scope := lower (strip scope) in
  require (negb (bool_decide (scope = EmptyString)))
    (ValueError (field_name +:+ " scopes must not contain empty values"));;
  mret scope.

Fixpoint map_result {A B} (f : A → result B) (l : list A) : result (list B) :=
  match l with
  | [] => Ok []
  | a :: l' => b ← f a; bs ← map_result f l'; Ok (b :: bs)
  end.

(** [normalize_scope_list]. *)
Definition normalize_scope_list (field_name : string) (value : list string)
    : result (list string) :=
  sorted_set <$> map_result (normalize_scope field_name) value.

(** [canonicalize_evm_address]. *)
Definition canonicalize_evm_address (value : string) : result string :=
  match value with
  | String c (String x digits) =>
      if Ascii.eqb c "0" && (Ascii.eqb x "x" || Ascii.eqb x "X")
         && (str_len digits =? 40) && all_chars is_hex digits
      then Ok ("0x" +:+ lower digits)
      else Err (ValueError "EVM address must be 0x followed by 40 hex characters")
  | _ => Err (ValueError "EVM address must be 0x followed by 40 hex characters")
  end.

(** [USDCAmount]: at most 38 digits, six of them decimals; amounts are micro-USDC. *)
Definition usdc_amount (micros : Z) : bool := Z.abs micros <? 10 ^ 38.

(** [_validate_grant_policy]: a grant asked for without an hourly limit gets its daily
    one.  A stored row always has an hourly limit. *)
Definition validate_grant_policy (hourly_limit_usdc : option Z) (g : SpendingGrantRow)
    : result SpendingGrantRow :=
  let g := g <| sg_hourly_limit_usdc := default (sg_daily_limit_usdc g) hourly_limit_usdc |> in
  require ((0 <? sg_max_amount_usdc g) && (0 <? sg_per_transaction_limit_usdc g)
           && (0 <? sg_hourly_limit_usdc g) && (0 <? sg_daily_limit_usdc g))
    (ValueError "grant amounts must be positive");;
  require (sg_per_transaction_limit_usdc g <=? sg_max_amount_usdc g)
    (ValueError "per-transaction limit exceeds total grant");;
  require (sg_per_transaction_limit_usdc g <=? sg_hourly_limit_usdc g)
    (ValueError "per-transaction limit exceeds hourly limit");;
  require (sg_hourly_limit_usdc g <=? sg_daily_limit_usdc g)
    (ValueError "hourly limit exceeds daily limit");;
  require (sg_daily_limit_usdc g <=? sg_max_amount_usdc g)
    (ValueError "daily limit exceeds total grant");;
  require (sg_starts_at g <? sg_expires_at g) (ValueError "starts_at must be before expires_at");;
  mret g.

Definition GRANT_STATUSES : list string :=
  ["pending"; "active"; "paused"; "exhausted"; "expired"; "revoked"].

(** [SpendingGrant( ** values)]: the validated, normalised grant of a row. *)
Definition make_spending_grant (g : SpendingGrantRow) : result SpendingGrantRow :=
  require (bool_decide (sg_status g ∈ GRANT_STATUSES)) (ValueError "status");;
  require (forallb usdc_amount
             [sg_max_amount_usdc g; sg_per_transaction_limit_usdc g; sg_hourly_limit_usdc g;
              sg_daily_limit_usdc g; sg_used_amount_usdc g; sg_reserved_amount_usdc g])
    (ValueError "max_digits");;
  require (negb (bool_decide (length (sg_product_scopes g) = 0%nat))
           && forallb (λ s, negb (bool_decide (s ∈ ["" : string; "all"]))) (sg_product_scopes g))
    (ValueError "product scopes must be explicit and non-empty");;
  products ← normalize_scope_list "product" (sg_product_scopes g);
  venues ← normalize_scope_list "venue" (sg_venue_scopes g);
  merchants ← normalize_scope_list "merchant" (sg_merchant_scopes g);
  require (forallb (λ s, bool_decide (s ∈ ["clink_verified"; "registry_verified"]))
             (sg_merchant_trust_scopes g)) (ValueError "merchant_trust_scopes");;
  require (negb (bool_decide (length (sg_merchant_trust_scopes g) = 0%nat)))
    (ValueError "at least one merchant trust scope is required");;
  require (bool_decide (sg_notification_mode g ∈ ["silent_under_limits"; "notify_all"]))
    (ValueError "notification_mode");;
  networks ← normalize_scope_list "network" (sg_network_scopes g);
  assets ← map_result canonicalize_evm_address (sg_asset_scopes g);
  g ← validate_grant_policy (Some (sg_hourly_limit_usdc g)) g;
  mret (g <| sg_product_scopes := products |> <| sg_venue_scopes := venues |>
          <| sg_merchant_scopes := merchants |>
          <| sg_merchant_trust_scopes := sorted_set (sg_merchant_trust_scopes g) |>
          <| sg_network_scopes := networks |> <| sg_asset_scopes := sorted_set assets |>).

(** ** Grants *)

Section Grants.
Context (event_id : string) (now : Z).

Definition required_locked_grant (spending_grant_id : string) : funding SpendingGrantRow :=
  d ← reads id;
  lifts (from_option_or (fd_grants d !! spending_grant_id)
           (ValueError "spending grant was not found")).

(** [_append_account_audit]. *)
Definition account_event (event_type user_id : string) (agent_id : option string)
    (payload : pydict) (now : Z) : AuditEventRow :=
  MkAuditEvent None event_type "account_service" PNone (Some user_id) agent_id PNone PNone
    PNone PNone PNone payload now.
Definition audit_grant (event_type : string) (g : SpendingGrantRow) (details : pydict)
    : funding unit :=
  add_audit_event event_id
    (account_event event_type (sg_user_id g) (Some (sg_agent_id g))
       ([("spending_grant_id", PStr (sg_spending_grant_id g));
         ("wallet_identity_id", PStr (sg_wallet_identity_id g))] ++ details) now).

(** [pause_spending_grant]. *)
Definition pause_spending_grant (spending_grant_id : string)
    : FundingDb → result SpendingGrantRow * FundingDb :=
  write_session
    (row ← required_locked_grant spending_grant_id;
     if bool_decide (sg_status row ∈ ["active"; "pending"]) then
       let row' := row <| sg_status := "paused" |> <| sg_status_reason := Some "user_paused" |>
                       <| sg_updated_at := now |> in
       put_grant row';;
       audit_grant "grant_paused" row'
         [("status", PStr "paused"); ("status_reason", PStr "user_paused")];;
       lifts (make_spending_grant row')
     else lifts (make_spending_grant row)).

(** The row of a resumed grant. *)
Definition resumed_grant (row : SpendingGrantRow) : SpendingGrantRow :=
  row <| sg_status := if now <? sg_starts_at row then "pending" else "active" |>
      <| sg_status_reason := None |> <| sg_updated_at := now |>.

(** [resume_spending_grant]. *)
Definition resume_spending_grant (spending_grant_id : string)
    : FundingDb → result SpendingGrantRow * FundingDb :=
  write_session
    (row ← required_locked_grant spending_grant_id;
     identity ← reads (λ d, fd_identities d !! sg_wallet_identity_id row);
     requires (negb (bool_decide (sg_status row = "revoked")))
       (ValueError "revoked grant cannot be resumed");;
     if sg_expires_at row <=? now then
       (if bool_decide (sg_status row = "expired") then lifts (make_spending_grant row)
        else
          let row' := row <| sg_status := "expired" |>
                          <| sg_status_reason := Some "grant_expired" |>
                          <| sg_updated_at := now |> in
          put_grant row';; lifts (make_spending_grant row'))
     else if bool_decide (sg_status row ∈ ["active"; "pending"])
     then lifts (make_spending_grant row)
     else
       requires (bool_decide (sg_status_reason row = Some "user_paused"))
         (ValueError "security-paused grant cannot be resumed");;
       requires (match identity with
                 | Some w => bool_decide (wi_status w = "active")
                 | None => false
                 end) (ValueError "wallet identity is not active");;
       let row' := resumed_grant row in
       put_grant row';;
       audit_grant "grant_resumed" row' [("status", PStr (sg_status row'))];;
       lifts (make_spending_grant row')).

(** [revoke_spending_grant]. *)
Definition revoke_spending_grant (spending_grant_id : string)
    : FundingDb → result SpendingGrantRow * FundingDb :=
  write_session
    (row ← required_locked_grant spending_grant_id;
     if bool_decide (sg_status row = "revoked") then lifts (make_spending_grant row)
     else
       let row' := row <| sg_status := "revoked" |>
                       <| sg_status_reason := Some "user_revoked" |>
                       <| sg_updated_at := now |> in
       put_grant row';;
       audit_grant "grant_revoked" row' [("status", PStr "revoked")];;
       lifts (make_spending_grant row')).

(** The four limits a reduction proposes: (total, transaction, hour, day). *)
Definition proposed_limits (row : SpendingGrantRow) (maximum transaction hourly daily : option Z)
    : SpendingGrantRow :=
  row <| sg_max_amount_usdc := default (sg_max_amount_usdc row) maximum |>
      <| sg_per_transaction_limit_usdc := default (sg_per_transaction_limit_usdc row) transaction |>
      <| sg_hourly_limit_usdc := default (sg_hourly_limit_usdc row) hourly |>
      <| sg_daily_limit_usdc := default (sg_daily_limit_usdc row) daily |>.
Definition limits (g : SpendingGrantRow) : list Z :=
  [sg_max_amount_usdc g; sg_per_transaction_limit_usdc g; sg_hourly_limit_usdc g;
   sg_daily_limit_usdc g].

(** Every proposed limit is positive and no higher than the current one. *)
Fixpoint require_reduction (proposed current : list Z) : result unit :=
  match proposed, current with
  | p :: proposed', c :: current' =>
      require (0 <? p) (ValueError "grant amounts must be positive");;
      require (p <=? c)
        (ValueError "spending grant limits cannot increase without a new challenge");;
      require_reduction proposed' current'
  | _, _ => Ok tt
  end.

(** [str(value)] of an amount in the audit payload; the model does not track how
    many trailing zeros a [Decimal] carries and writes none. *)
Definition amount_value (micros : Z) : pyval := PStr (format_amount micros).

(** [reduce_spending_grant]. *)
Definition reduce_spending_grant (spending_grant_id : string)
    (maximum transaction hourly daily : option Z)
    : FundingDb → result SpendingGrantRow * FundingDb :=
  write_session
    (row ← required_locked_grant spending_grant_id;
     let proposed := proposed_limits row maximum transaction hourly daily in
     lifts (require_reduction (limits proposed) (limits row));;
     requires (sg_per_transaction_limit_usdc proposed <=? sg_max_amount_usdc proposed)
       (ValueError "per-transaction limit exceeds total grant");;
     requires (sg_per_transaction_limit_usdc proposed <=? sg_hourly_limit_usdc proposed)
       (ValueError "per-transaction limit exceeds hourly limit");;
     requires (sg_hourly_limit_usdc proposed <=? sg_daily_limit_usdc proposed)
       (ValueError "hourly limit exceeds daily limit");;
     requires (sg_daily_limit_usdc proposed <=? sg_max_amount_usdc proposed)
       (ValueError "daily limit exceeds total grant");;
     requires (sg_used_amount_usdc row + sg_reserved_amount_usdc row
               <=? sg_max_amount_usdc proposed)
       (ValueError "total grant cannot be reduced below committed amount");;
     if bool_decide (limits proposed = limits row) then lifts (make_spending_grant row)
     else
       let row' := proposed <| sg_updated_at := now |> in
       put_grant row';;
       audit_grant "grant_reduced" row'
         [("max_amount_usdc", amount_value (sg_max_amount_usdc row'));
          ("per_transaction_limit_usdc", amount_value (sg_per_transaction_limit_usdc row'));
          ("hourly_limit_usdc", amount_value (sg_hourly_limit_usdc row'));
          ("daily_limit_usdc", amount_value (sg_daily_limit_usdc row'))];;
       lifts (make_spending_grant row')).
End Grants.

(** ** Reading grants *)

Fixpoint insert_by {A} (leb : A → A → bool) (a : A) (l : list A) : list A :=
  match l with
  | [] => [a]
  | b :: l' => if leb a b then a :: l else b :: insert_by leb a l'
  end.
Definition sort_by {A} (leb : A → A → bool) (l : list A) : list A := foldr (insert_by leb) [] l.

(** [ORDER BY created_at, spending_grant_id]. *)
Definition grant_leb (g g' : SpendingGrantRow) : bool :=
  (sg_created_at g <? sg_created_at g')
  || ((sg_created_at g =? sg_created_at g')
      && String.leb (sg_spending_grant_id g) (sg_spending_grant_id g')).

(** What the passage of time makes of a grant that is not closed. *)
Definition aged_grant (at_ : Z) (g : SpendingGrantRow) : SpendingGrantRow :=
  if sg_expires_at g <=? at_ then
    g <| sg_status := "expired" |> <| sg_status_reason := Some "grant_expired" |>
      <| sg_updated_at := at_ |>
  else if bool_decide (sg_status g = "pending") && (sg_starts_at g <=? at_) then
    g <| sg_status := "active" |> <| sg_status_reason := None |> <| sg_updated_at := at_ |>
  else g.
Definition ages (user_id : string) (g : SpendingGrantRow) : bool :=
  bool_decide (sg_user_id g = user_id)
  && bool_decide (sg_status g ∈ ["active"; "pending"; "paused"]).

(** [active_spending_grants]. *)
Definition active_spending_grants (user_id : string) (at_ : Z)
    : FundingDb → result (list SpendingGrantRow) * FundingDb :=
  write_session
    (d ← reads id;
     let aged := (λ g, if ages user_id g then aged_grant at_ g else g) <$> fd_grants d in
     let seen := filter (λ g, ages user_id g = true) (rows (fd_grants d)) in
     let active := filter (λ g, sg_status g = "active" ∧ sg_starts_at g <= at_ < sg_expires_at g)
                     (map (aged_grant at_) (sort_by grant_leb seen)) in
     writes (λ d, d <| fd_grants := aged |>);;
     lifts (map_result make_spending_grant active)).

(** [spending_grant_daily_usage]: what was used and what is reserved on a day. *)
Definition spending_grant_daily_usage (spending_grant_id : string) (date : Z) (d : FundingDb)
    : Z * Z :=
  match fd_daily d !! (spending_grant_id, date) with
  | Some u => (du_used_amount_usdc u, du_reserved_amount_usdc u)
  | None => (0, 0)
  end.

(** The rolling rows of a grant in one state after an instant. *)
Definition in_state_after (grant_id : string) (cutoff : Z) (state : RollingState)
    (u : SpendingGrantRollingUsageRow) : Z :=
  if bool_decide (ru_spending_grant_id u = grant_id) && (cutoff <? ru_occurred_at u)
     && bool_decide (ru_state u = state)
  then ru_amount_usdc u else 0.

(** [spending_grant_rolling_hour_usage]. *)
Definition spending_grant_rolling_hour_usage (spending_grant_id : string) (now : Z)
    (d : FundingDb) : Z * Z :=
  let cutoff := now - us_per_hour in
  (table_sum (in_state_after spending_grant_id cutoff RollingUsed) (fd_rolling d),
   table_sum (in_state_after spending_grant_id cutoff RollingReserved) (fd_rolling d)).

(** ** Wallets *)

(** Audit events of a cascade: one id per grant. *)
Fixpoint audit_each (event_ids : string → string) (now : Z) (user_id : string)
    (grants : list SpendingGrantRow) : funding unit :=
  match grants with
  | [] => mret tt
  | g :: grants' =>
      add_audit_event (event_ids (sg_spending_grant_id g))
        (account_event "grant_paused" user_id (Some (sg_agent_id g))
           [("spending_grant_id", PStr (sg_spending_grant_id g));
            ("wallet_identity_id", PStr (sg_wallet_identity_id g));
            ("status", PStr "paused"); ("status_reason", PStr "wallet_identity_revoked")] now);;
      audit_each event_ids now user_id grants'
  end.

Definition identity_paused (wallet_identity_id : string) (g : SpendingGrantRow) : bool :=
  bool_decide (sg_wallet_identity_id g = wallet_identity_id)
  && bool_decide (sg_status g ∈ ["active"; "pending"]).
Definition paused_by_identity (now : Z) (g : SpendingGrantRow) : SpendingGrantRow :=
  g <| sg_status := "paused" |> <| sg_status_reason := Some "wallet_identity_revoked" |>
    <| sg_updated_at := now |>.

(** [revoke_wallet_identity_and_pause_active_grants]. *)
Definition revoke_wallet_identity_and_pause_active_grants (event_ids : string → string)
    (wallet_event_id wallet_identity_id : string) (now : Z)
    : FundingDb → result WalletIdentityRow * FundingDb :=
  write_session
    (d ← reads id;
     identity ← lifts (from_option_or (fd_identities d !! wallet_identity_id)
                         (ValueError "wallet identity was not found"));
     let changed := negb (bool_decide (wi_status identity = "revoked")) in
     let identity' := if changed then identity <| wi_status := "revoked" |>
                                               <| wi_updated_at := now |> else identity in
     put_identity identity';;
     writes (λ d, d <| fd_grants := (λ g, if identity_paused wallet_identity_id g
                                          then paused_by_identity now g else g)
                                     <$> fd_grants d |>);;
     audit_each event_ids now (wi_user_id identity)
       (filter (λ g, identity_paused wallet_identity_id g = true) (rows (fd_grants d)));;
     (if changed then
        add_audit_event wallet_event_id
          (account_event "wallet_revoked" (wi_user_id identity) None
             [("wallet_identity_id", PStr wallet_identity_id);
              ("wallet_address", PStr (wi_wallet_address identity));
              ("status", PStr "revoked")] now)
      else mret tt);;
     mret identity').

(** ** Allowances *)

Section Allowances.
Context (event_id : string).

Definition audit_allowance (event_type user_id : string) (a : AssetAllowanceRow) (now : Z)
    : funding unit :=
  add_audit_event event_id
    (account_event event_type user_id None
       [("asset_allowance_id", PStr (aa_asset_allowance_id a));
        ("wallet_identity_id", PStr (aa_wallet_identity_id a));
        ("network", PStr (aa_network a)); ("token_address", PStr (aa_token_address a));
        ("status", PStr (aa_status a));
        ("observed_allowance_atomic", PStr (pretty (aa_observed_allowance_atomic a)))] now).

Definition ALLOWANCE_STATUSES : list string :=
  ["pending"; "active"; "insufficient"; "revoked"; "stale"].
Definition MAX_ALLOWANCE : Z := 2 ^ 256 - 1.

(** [AssetAllowance( ** values)]. *)
Definition make_asset_allowance (a : AssetAllowanceRow) : result AssetAllowanceRow :=
  token ← canonicalize_evm_address (aa_token_address a);
  spender ← canonicalize_evm_address (aa_spender_address a);
  tx_hash ← match aa_allowance_tx_hash a with
            | Some h => Some <$> canonicalize_transaction_hash (PStr h)
            | None => mret None
            end;
  require ((0 <=? aa_approved_amount_atomic a) && (aa_approved_amount_atomic a <=? MAX_ALLOWANCE)
           && (0 <=? aa_observed_allowance_atomic a)
           && (aa_observed_allowance_atomic a <=? MAX_ALLOWANCE)
           && bool_decide (aa_status a ∈ ALLOWANCE_STATUSES)
           && match aa_confirmed_block a with Some n => 0 <=? n | None => true end)
    (ValueError "asset allowance");;
  mret (a <| aa_token_address := token |> <| aa_spender_address := spender |>
          <| aa_allowance_tx_hash := tx_hash |>).

Definition required_locked_allowance (asset_allowance_id : string) : funding AssetAllowanceRow :=
  d ← reads id;
  lifts (from_option_or (fd_allowances d !! asset_allowance_id)
           (ValueError "asset allowance was not found")).
Definition required_identity (wallet_identity_id : string) : funding WalletIdentityRow :=
  d ← reads id;
  lifts (from_option_or (fd_identities d !! wallet_identity_id)
           (ValueError "wallet identity was not found")).

(** [refresh_asset_allowance]. *)
Definition refresh_asset_allowance (asset_allowance_id : string) (observed : Z) (status : string)
    (now : Z) : FundingDb → result AssetAllowanceRow * FundingDb :=
  write_session
    (row ← required_locked_allowance asset_allowance_id;
     identity ← required_identity (aa_wallet_identity_id row);
     let row' := row <| aa_observed_allowance_atomic := observed |> <| aa_status := status |>
                     <| aa_last_chain_check_at := Some now |> <| aa_updated_at := now |> in
     put_allowance row';;
     audit_allowance "allowance_refreshed" (wi_user_id identity) row' now;;
     lifts (make_asset_allowance row')).

(** [mark_asset_allowance_stale]. *)
Definition mark_asset_allowance_stale (asset_allowance_id : string) (now : Z)
    : FundingDb → result AssetAllowanceRow * FundingDb :=
  write_session
    (row ← required_locked_allowance asset_allowance_id;
     identity ← required_identity (aa_wallet_identity_id row);
     let row' := row <| aa_status := "stale" |> <| aa_updated_at := now |> in
     put_allowance row';;
     audit_allowance "allowance_refreshed" (wi_user_id identity) row' now;;
     lifts (make_asset_allowance row')).

(** The unique scope of an allowance. *)
Definition same_allowance_scope (a b : AssetAllowanceRow) : bool :=
  bool_decide (aa_wallet_identity_id a = aa_wallet_identity_id b)
  && bool_decide (aa_network a = aa_network b)
  && bool_decide (aa_token_address a = aa_token_address b)
  && bool_decide (aa_spender_address a = aa_spender_address b).

(** A later observation of the proof an allowance already carries. *)
Definition reobserved (existing a : AssetAllowanceRow) : AssetAllowanceRow :=
  existing <| aa_observed_allowance_atomic := aa_observed_allowance_atomic a |>
           <| aa_status := aa_status a |> <| aa_confirmed_block := aa_confirmed_block a |>
           <| aa_last_chain_check_at := aa_last_chain_check_at a |>
           <| aa_updated_at := aa_updated_at a |>.
(** A newer proof. *)
Definition reproved (existing a : AssetAllowanceRow) : AssetAllowanceRow :=
  reobserved existing a
    <| aa_approved_amount_atomic := aa_approved_amount_atomic a |>
    <| aa_allowance_tx_hash := aa_allowance_tx_hash a |>.

(** [save_verified_asset_allowance]: the latest proof of a scope wins. *)
Definition save_verified_asset_allowance (a : AssetAllowanceRow)
    : FundingDb → result AssetAllowanceRow * FundingDb :=
  write_session
    (identity ← required_identity (aa_wallet_identity_id a);
     requires (bool_decide (wi_status identity = "active"))
       (ValueError "wallet identity is not active");;
     d ← reads id;
     match find_row (λ b, same_allowance_scope b a) (fd_allowances d) with
     | Some existing =>
         if bool_decide (aa_allowance_tx_hash existing = aa_allowance_tx_hash a)
            && (aa_approved_amount_atomic existing =? aa_approved_amount_atomic a) then
           let row := reobserved existing a in
           put_allowance row;;
           (if (aa_observed_allowance_atomic existing =? aa_observed_allowance_atomic a)
               && bool_decide (aa_status existing = aa_status a) then mret tt
            else audit_allowance "allowance_refreshed" (wi_user_id identity) row
                   (aa_updated_at a));;
           lifts (make_asset_allowance row)
         else
           requires (match aa_confirmed_block a, aa_confirmed_block existing with
                     | None, _ => false
                     | Some n, Some m => m <? n
                     | Some _, None => true
                     end) (ValueError "proof conflicts with existing allowance");;
           let row := reproved existing a in
           put_allowance row;;
           audit_allowance "allowance_verified" (wi_user_id identity) row (aa_updated_at a);;
           lifts (make_asset_allowance row)
     | None =>
         requires (bool_decide (fd_allowances d !! aa_asset_allowance_id a = None))
           (ValueError "proof conflicts with existing allowance");;
         put_allowance a;;
         audit_allowance "allowance_verified" (wi_user_id identity) a (aa_updated_at a);;
         mret a
     end).
End Allowances.
