(* ===== verification/AmountProperties.v ===== *)
(** * Amounts survive being written and read

    The text the funding service writes for an amount reads back as the amount. *)

From S2P Require Import Prelude Calendar Amounts.
From Stdlib Require Import Ascii.

Open Scope string_scope.
Open Scope Z_scope.

(** ** Strings of digits *)

Lemma str_len_app s t : str_len (s +:+ t) = str_len s + str_len t.
Proof.
  unfold str_len. induction s as [|c s IH]; [done|].
  change (String c s +:+ t) with (String c (s +:+ t)). cbn [String.length]. lia.
Qed.

Lemma digits_value_app s t a :
  digits_value a (s +:+ t) = digits_value (digits_value a s) t.
Proof. revert a. induction s as [|c s IH]; intros a; [done|]. apply IH. Qed.
Lemma digits_value_acc s a :
  digits_value a s = a * 10 ^ str_len s + digits_value 0 s.
Proof.
  unfold str_len. revert a. induction s as [|c s IH]; intros a; simpl digits_value.
  - simpl. lia.
  - cbn [String.length]. rewrite IH, (IH (0 * 10 + _)), Nat2Z.inj_succ, Z.pow_succ_r by lia. lia.
Qed.

(** A number padded to [n] digits. *)
Lemma digit_char_props k : 0 <= k →
  is_digit (digit_char k) = true ∧ code (digit_char k) - 48 = k mod 10.
Proof.
  intros Hk. assert (0 <= k mod 10 < 10) as Hm by (apply Z.mod_pos_bound; lia).
  assert (digit_char k = digit_char (k mod 10)) as -> by (unfold digit_char; by rewrite Z.mod_mod).
  pose proof (digit_value_char _ Hm) as Hd. unfold digit_value in Hd.
  destruct (is_digit _); [|done]. split; [done|]. by injection Hd.
Qed.

Lemma padded_digits n z : 0 <= z → all_chars is_digit (padded n z) = true.
Proof.
  revert z. induction n as [|n IH]; intros z Hz; [done|].
  change (padded (S n) z) with (padded n (z / 10) +:+ String (digit_char z) EmptyString).
  rewrite all_chars_app, IH by (apply Z.div_pos; lia). simpl.
  by rewrite (proj1 (digit_char_props z Hz)).
Qed.
Lemma padded_len n z : str_len (padded n z) = Z.of_nat n.
Proof.
  revert z. induction n as [|n IH]; intros z; [done|].
  change (padded (S n) z) with (padded n (z / 10) +:+ String (digit_char z) EmptyString).
  rewrite str_len_app, IH. unfold str_len. cbn [String.length]. lia.
Qed.
Lemma padded_value n z : 0 <= z < 10 ^ Z.of_nat n → digits_value 0 (padded n z) = z.
Proof.
  revert z. induction n as [|n IH]; intros z Hz; [simpl in Hz; change (0 = z); lia|].
  rewrite Nat2Z.inj_succ, Z.pow_succ_r in Hz by lia.
  change (padded (S n) z) with (padded n (z / 10) +:+ String (digit_char z) EmptyString).
  rewrite digits_value_app, IH by (split; [apply Z.div_pos; lia|apply Z.div_lt_upper_bound; lia]).
  simpl. rewrite (proj2 (digit_char_props z ltac:(lia))). pose proof (Z.div_mod z 10). lia.
Qed.

(** Stripping the trailing zeros of digits. *)
Lemma rstrip_zeros s :
  all_chars is_digit s = true →
  ∃ k, 0 <= k ∧ str_len s = str_len (rstrip_by (Ascii.eqb "0") s) + k ∧
    digits_value 0 s = digits_value 0 (rstrip_by (Ascii.eqb "0") s) * 10 ^ k ∧
    all_chars is_digit (rstrip_by (Ascii.eqb "0") s) = true.
Proof.
  induction s as [|c s IH]; [by exists 0|]. cbn [all_chars rstrip_by].
  intros [Hc Hs]%andb_true_iff.
  destruct (IH Hs) as (k & Hk & Hl & Hv & Hd). clear IH. revert Hl Hv Hd.
  generalize (rstrip_by (Ascii.eqb "0") s). intros r Hl Hv Hd.
  assert (str_len (String c s) = 1 + str_len s) as El
    by (unfold str_len; cbn [String.length]; lia).
  match goal with |- context [if ?b then EmptyString else _] => destruct b eqn:E end.
  - apply andb_true_iff in E as [->%bool_decide_eq_true <-%Ascii.eqb_eq]. exists (k + 1).
    split_and!; [lia|lia| |done]. simpl digits_value in *. change (code "0" - 48) with 0.
    rewrite digits_value_acc, Hv. lia.
  - exists k. assert (str_len (String c r) = 1 + str_len r) as Er
      by (unfold str_len; cbn [String.length]; lia).
    split_and!; [done|lia| |simpl; by rewrite Hc, Hd]. simpl digits_value.
    rewrite (digits_value_acc s), (digits_value_acc r), Hv, Hl.
    rewrite Z.pow_add_r by (unfold str_len; lia). lia.
Qed.

(** ** Reading an amount back *)

(** The characters of a written amount. *)
Definition plain (c : ascii) : bool := negb (is_space c) && negb (Ascii.eqb "_" c).

Lemma plain_digit c : is_digit c = true → plain c = true.
Proof.
  unfold plain, is_space, is_digit. intros Hc. bool_inv.
  destruct (Ascii.eqb "_" c) eqn:E; [apply Ascii.eqb_eq in E as <-; by vm_compute in H|].
  simpl. rewrite andb_true_r, negb_true_iff, !orb_false_iff, !andb_false_iff, !Z.leb_gt, !Z.eqb_neq.
  lia.
Qed.

Lemma strip_plain s :
  all_chars plain s = true → remove_char "_" (rstrip_by is_space (lstrip s)) = s.
Proof.
  assert (∀ s, all_chars plain s = true → rstrip_by is_space s = s ∧ remove_char "_" s = s) as Hp.
  { clear. intros s. induction s as [|c s IH]; [done|]. cbn [all_chars rstrip_by remove_char].
    intros [Hc Hs]%andb_true_iff. destruct (IH Hs) as [-> ->].
    unfold plain in Hc. apply andb_true_iff in Hc as [->%negb_true_iff ->%negb_true_iff].
    by rewrite andb_false_r. }
  intros Hs. assert (lstrip s = s) as ->.
  { destruct s as [|c s]; [done|]. cbn [all_chars lstrip] in *. unfold plain in Hs.
    by apply andb_true_iff in Hs as [[->%negb_true_iff _]%andb_true_iff _]. }
  destruct (Hp s Hs) as [-> ->]. done.
Qed.

Lemma span_digits_app s t :
  all_chars is_digit s = true →
  match t with EmptyString => True | String c _ => is_digit c = false end →
  span_digits (s +:+ t) = (s, t).
Proof.
  intros Hs Ht. induction s as [|c s IH].
  - destruct t as [|c t]; [done|]. simpl. by rewrite Ht.
  - cbn [all_chars] in Hs. apply andb_true_iff in Hs as [Hc Hs].
    change (String c s +:+ t) with (String c (s +:+ t)). simpl. by rewrite Hc, IH.
Qed.

Lemma pretty_digits z :
  0 <= z → all_chars is_digit (pretty z) = true ∧ pretty z ≠ EmptyString.
Proof.
  intros Hz. pose proof (parse_digits_pretty z Hz) as Hp. unfold parse_digits in Hp.
  destruct (negb _ && all_chars is_digit (pretty z)) eqn:E; [|done]. by bool_inv.
Qed.

(** The absolute value: whole digits, and a fraction without trailing zeros. *)
Definition magnitude_text (n : Z) : string :=
  let fraction := rstrip_by (Ascii.eqb "0") (padded 6 (n mod 1000000)) in
  pretty (n / 1000000)
  +:+ (if bool_decide (fraction = EmptyString) then "" else "." +:+ fraction).

(** Reading the digits of a magnitude after its sign. *)
Definition read_magnitude (sign : Z) (s : string) : option Z :=
  let '(whole, s) := span_digits s in
  let '(fraction, s) := match take_char "." s with
                        | Some s' => span_digits s'
                        | None => (EmptyString, s)
                        end in
  exponent ← read_exponent s;
  coefficient ← parse_digits (whole +:+ fraction);
  scale_micros (sign * coefficient) (exponent - str_len fraction).

Lemma parse_digits_app s t :
  s ≠ EmptyString → all_chars is_digit s = true → all_chars is_digit t = true →
  parse_digits (s +:+ t) = Some (digits_value 0 s * 10 ^ str_len t + digits_value 0 t).
Proof.
  intros Hne Hs Ht. unfold parse_digits. rewrite all_chars_app, Hs, Ht.
  rewrite bool_decide_eq_false_2 by (by destruct s). simpl.
  by rewrite digits_value_app, digits_value_acc.
Qed.

Lemma read_magnitude_text sign n :
  0 <= n → read_magnitude sign (magnitude_text n) = Some (sign * n).
Proof.
  intros Hn. assert (0 <= n mod 1000000 < 10 ^ Z.of_nat 6) as Hmod
    by (apply Z.mod_pos_bound; lia).
  destruct (pretty_digits (n / 1000000)) as [Hw Hwne]; [apply Z.div_pos; lia|].
  destruct (rstrip_zeros (padded 6 (n mod 1000000))) as (k & Hk & Hlen & Hval & Hd);
    [apply padded_digits; lia|].
  rewrite padded_len in Hlen. rewrite padded_value in Hval by done.
  unfold magnitude_text, read_magnitude. set (fr := rstrip_by _ _) in *.
  assert (Z.of_nat 6 = str_len fr + k) as Hlen' by done. clearbody fr.
  assert (0 <= str_len fr) by (unfold str_len; lia).
  assert (span_digits (pretty (n / 1000000)
            +:+ (if bool_decide (fr = EmptyString) then "" else "." +:+ fr))
          = (pretty (n / 1000000), if bool_decide (fr = EmptyString) then "" else "." +:+ fr)) as ->
    by (apply span_digits_app; [done|by case_bool_decide]).
  assert (match take_char "." (if bool_decide (fr = EmptyString) then "" else "." +:+ fr) with
          | Some s' => span_digits s'
          | None => (EmptyString, if bool_decide (fr = EmptyString) then "" else "." +:+ fr)
          end = (fr, EmptyString)) as ->.
  { case_bool_decide as Hf; [by rewrite Hf|]. rewrite take_char_app.
    rewrite <- (str_app_empty_r fr) at 1. by apply span_digits_app. }
  simpl read_exponent. rewrite some_bind, parse_digits_app, some_bind by done.
  rewrite digits_value_pretty by (apply Z.div_pos; lia).
  unfold scale_micros. rewrite (proj2 (Z.leb_le _ _)) by lia. f_equal.
  replace (0 - str_len fr + 6) with k by lia.
  rewrite <- Z.mul_assoc, Z.mul_add_distr_r, <- Hval, <- Z.mul_assoc, <- Z.pow_add_r by lia.
  replace (str_len fr + k) with 6 by lia. pose proof (Z.div_mod n 1000000). lia.
Qed.

Lemma magnitude_plain n : 0 <= n → all_chars plain (magnitude_text n) = true.
Proof.
  intros Hn. unfold magnitude_text.
  destruct (pretty_digits (n / 1000000)) as [Hw _]; [apply Z.div_pos; lia|].
  assert (0 <= n mod 1000000) by (apply Z.mod_pos_bound; lia).
  destruct (rstrip_zeros (padded 6 (n mod 1000000))) as (_ & _ & _ & _ & Hd);
    [by apply padded_digits|].
  rewrite all_chars_app, (all_chars_weaken is_digit plain _ plain_digit Hw), andb_true_l.
  case_bool_decide; [done|].
  change (all_chars plain ("." +:+ ?s)) with (all_chars plain s).
  exact (all_chars_weaken is_digit plain _ plain_digit Hd).
Qed.

Lemma magnitude_sign n : 0 <= n → span_sign (magnitude_text n) = (1, magnitude_text n).
Proof.
  intros Hn. destruct (pretty_digits (n / 1000000)) as [Hw Hne]; [apply Z.div_pos; lia|].
  unfold magnitude_text. destruct (pretty (n / 1000000)) as [|c w]; [done|].
  cbn [all_chars] in Hw. apply andb_true_iff in Hw as [Hc _].
  change (String c w +:+ ?t) with (String c (w +:+ t)). unfold span_sign.
  destruct (Ascii.eqb c "-") eqn:E1; [apply Ascii.eqb_eq in E1 as ->; by vm_compute in Hc|].
  destruct (Ascii.eqb c "+") eqn:E2; [apply Ascii.eqb_eq in E2 as ->; by vm_compute in Hc|].
  reflexivity.
Qed.

(** The text the service writes for an amount, plain decimal
    notation without trailing zeros, is read by [Decimal] as the same number of
    micro-USDC, whatever its size and sign; so no amount changes between the
    ledger's columns and the payloads of its reservations. *)
Theorem amount_text_round_trip m : decimal_micros (format_amount m) = Some m.
Proof.
  assert (decimal_micros (format_amount m) =
    let '(sign, s) := span_sign (format_amount m) in read_magnitude sign s) as ->.
  { unfold decimal_micros. rewrite strip_plain; [done|]. unfold format_amount.
    fold (magnitude_text (Z.abs m)). rewrite all_chars_app, magnitude_plain by lia.
    by destruct (m <? 0). }
  unfold format_amount. fold (magnitude_text (Z.abs m)).
  destruct (m <? 0) eqn:E; bool_inv.
  - assert (span_sign ("-" +:+ magnitude_text (Z.abs m)) = (-1, magnitude_text (Z.abs m))) as ->
      by done.
    rewrite read_magnitude_text by lia. replace (-1 * Z.abs m) with m by lia. done.
  - change (span_sign ("" +:+ magnitude_text (Z.abs m)))
      with (span_sign (magnitude_text (Z.abs m))).
    rewrite magnitude_sign, read_magnitude_text by lia.
    replace (1 * Z.abs m) with m by lia. done.
Qed.
