(* ===== verification/GrantProperties.v ===== *)
(** * Validated grants

    Validating a grant normalises its scopes; a validated grant is unchanged by
    validating it again, as reading it back from its row does. *)

From S2P Require Import Prelude Amounts LedgerTables GrantStore.
From Stdlib Require Import Ascii.
From Stdlib Require Import Sorting.Sorted.

Open Scope string_scope.
Open Scope Z_scope.

(** ** Sorted sets of strings *)

Definition str_lt (s t : string) : Prop := String.compare s t = Lt.

Lemma ascii_compare_N a b : Ascii.compare a b = N.compare (N_of_ascii a) (N_of_ascii b).
Proof. reflexivity. Qed.

Lemma str_lt_trans s t u : str_lt s t → str_lt t u → str_lt s u.
Proof.
  unfold str_lt. revert t u. induction s as [|a s IH]; intros [|b t] [|c u]; simpl; try done.
  rewrite !ascii_compare_N. destruct (N.compare_spec (N_of_ascii a) (N_of_ascii b)) as [E|E|E];
    destruct (N.compare_spec (N_of_ascii b) (N_of_ascii c)) as [F|F|F]; try done; intros.
  - rewrite E, F, N.compare_refl. by eapply IH.
  - rewrite E. by rewrite (proj2 (N.compare_lt_iff _ _)).
  - rewrite <- F. by rewrite (proj2 (N.compare_lt_iff _ _)).
  - rewrite (proj2 (N.compare_lt_iff _ _)); [done|]. by etrans.
Qed.

Lemma str_compare_gt s t : String.compare s t = Gt → str_lt t s.
Proof. unfold str_lt. rewrite String.compare_antisym. by destruct (String.compare t s). Qed.

Lemma insert_string_elem s l x : x ∈ insert_string s l → x = s ∨ x ∈ l.
Proof.
  induction l as [|t l IH]; simpl; [rewrite list_elem_of_singleton; auto|].
  destruct (String.compare s t); [auto| |].
  - intros [->|?]%elem_of_cons; auto.
  - intros [->|Hx]%elem_of_cons; [right; left|]. destruct (IH Hx); [auto|]. right. by right.
Qed.

Lemma insert_string_sorted s l :
  StronglySorted str_lt l → StronglySorted str_lt (insert_string s l).
Proof.
  induction 1 as [|t l Hs IH Hall]; simpl; [by repeat constructor|].
  destruct (String.compare s t) eqn:E.
  - by constructor.
  - constructor; [by constructor|]. constructor; [done|].
    eapply Forall_impl; [exact Hall|]. intros u Hu. by eapply str_lt_trans.
  - constructor; [done|]. apply Forall_forall. intros x [->|Hx]%insert_string_elem.
    + by apply str_compare_gt.
    + rewrite Forall_forall in Hall. auto.
Qed.

Lemma sorted_set_sorted l : StronglySorted str_lt (sorted_set l).
Proof. induction l; simpl; [constructor|]. by apply insert_string_sorted. Qed.

Lemma sorted_set_id l : StronglySorted str_lt l → sorted_set l = l.
Proof.
  induction 1 as [|s l Hs IH Hall]; [done|]. simpl. rewrite IH.
  destruct l as [|t l]; [done|]. simpl. by rewrite (Forall_inv Hall).
Qed.

Lemma sorted_set_elem l x : x ∈ sorted_set l → x ∈ l.
Proof.
  induction l as [|s l IH]; simpl; [done|]. intros [->|Hx]%insert_string_elem; [by left|].
  right. auto.
Qed.

Lemma sorted_set_idem l : sorted_set (sorted_set l) = sorted_set l.
Proof. apply sorted_set_id, sorted_set_sorted. Qed.

Lemma sorted_set_nonempty l : l ≠ [] → sorted_set l ≠ [].
Proof.
  destruct l as [|s l]; [done|]. intros _. simpl. destruct (sorted_set l); simpl; [done|].
  by destruct (String.compare _ _).
Qed.

(** ** Validators of one element *)

Lemma map_result_fixed {A} (f : A → result A) l : (∀ a, a ∈ l → f a = Ok a) → map_result f l = Ok l.
Proof.
  induction l as [|a l IH]; intros Hf; [done|]. simpl.
  rewrite (Hf a) by left. simpl. rewrite IH; [done|]. intros b Hb. apply Hf. by right.
Qed.

Lemma map_result_elem {A B} (f : A → result B) l l' :
  map_result f l = Ok l' → ∀ b, b ∈ l' → ∃ a, a ∈ l ∧ f a = Ok b.
Proof.
  revert l'. induction l as [|a l IH]; simpl; intros l' Hm b Hb.
  - injection Hm as <-. by apply elem_of_nil in Hb.
  - apply result_bind_Ok in Hm as (x & Hx & Hm). apply result_bind_Ok in Hm as (bs & Hbs & Hm).
    injection Hm as <-. apply elem_of_cons in Hb as [->|Hb]; [exists a; split; [left|done]|].
    destruct (IH _ Hbs b Hb) as (a' & Ha' & ?). exists a'. split; [by right|done].
Qed.

(** A validator that accepts its own results gives a list it accepts. *)
Lemma sorted_map_idem (f : string → result string) l l' :
  (∀ a b, f a = Ok b → f b = Ok b) → map_result f l = Ok l' →
  map_result f (sorted_set l') = Ok (sorted_set l').
Proof.
  intros Hf Hm. apply map_result_fixed. intros b Hb%sorted_set_elem.
  destruct (map_result_elem f l l' Hm b Hb) as (a & _ & Ha). by eapply Hf.
Qed.

Lemma is_space_lower c : is_space (lower_char c) = is_space c.
Proof. destruct c as [[] [] [] [] [] [] [] []]; reflexivity. Qed.
Lemma is_control_lower c : is_control_or_format (lower_char c) = is_control_or_format c.
Proof. destruct c as [[] [] [] [] [] [] [] []]; reflexivity. Qed.
Lemma is_hex_lower c : is_hex c = true → is_hex (lower_char c) = true.
Proof. destruct c as [[] [] [] [] [] [] [] []]; try done; reflexivity. Qed.

Lemma lstrip_lower s : lstrip (lower s) = lower (lstrip s).
Proof. induction s as [|c s IH]; [done|]. simpl. rewrite is_space_lower. by destruct (is_space c). Qed.

Lemma rstrip_lower s : rstrip_by is_space (lower s) = lower (rstrip_by is_space s).
Proof.
  induction s as [|c s IH]; [done|]. cbn [lower rstrip_by]. rewrite IH, is_space_lower.
  destruct (rstrip_by is_space s); [|done]. simpl. by destruct (is_space c).
Qed.

Lemma rstrip_idem p s : rstrip_by p (rstrip_by p s) = rstrip_by p s.
Proof.
  induction s as [|c s IH]; [done|]. cbn [rstrip_by].
  destruct (bool_decide (rstrip_by p s = EmptyString) && p c) eqn:E; [done|].
  cbn [rstrip_by]. by rewrite IH, E.
Qed.

Lemma strip_idem s : strip (strip s) = strip s.
Proof.
  unfold strip. assert (lstrip (rstrip_by is_space (lstrip s)) = rstrip_by is_space (lstrip s)) as ->.
  { assert (∃ c t, lstrip s = String c t ∧ is_space c = false ∨ lstrip s = EmptyString)
      as (c & t & [[-> Hc]| ->]).
    { induction s as [|c s IH]; [exists zero, ""; by right|]. simpl.
      destruct (is_space c) eqn:E; [done|]. exists c, s. by left. }
    - cbn [rstrip_by]. rewrite Hc, andb_false_r. simpl. by rewrite Hc.
    - done. }
  apply rstrip_idem.
Qed.

Lemma all_chars_lstrip p s : all_chars p s = true → all_chars p (lstrip s) = true.
Proof.
  induction s as [|c s IH]; [done|]. simpl. intros [Hc Hs]%andb_true_iff.
  destruct (is_space c); [auto|]. simpl. by rewrite Hc, Hs.
Qed.
Lemma all_chars_rstrip p q s : all_chars p s = true → all_chars p (rstrip_by q s) = true.
Proof.
  induction s as [|c s IH]; [done|]. cbn [all_chars rstrip_by]. intros [Hc Hs]%andb_true_iff.
  destruct (_ && q c); [done|]. cbn [all_chars]. by rewrite Hc, IH.
Qed.

Lemma normalize_scope_idem f s t : normalize_scope f s = Ok t → normalize_scope f t = Ok t.
Proof.
  unfold normalize_scope, reject_control_characters. intros Hn.
  apply result_bind_Ok in Hn as (? & Hr & Hn).
  apply result_bind_Ok in Hr as (? & [Hall _]%require_Ok & _).
  apply result_bind_Ok in Hn as (? & [He _]%require_Ok & [= <-]).
  assert (strip (lower (strip s)) = lower (strip s)) as Hst.
  { unfold strip at 1. rewrite lstrip_lower, rstrip_lower. f_equal. apply strip_idem. }
  assert (all_chars (λ c, negb (is_control_or_format c)) (lower (strip s)) = true) as Hc.
  { apply all_chars_lower; [intros c; by rewrite is_control_lower|].
    unfold strip. by apply all_chars_rstrip, all_chars_lstrip. }
  rewrite Hc. simpl. by rewrite Hst, lower_idem, He.
Qed.

Lemma canonicalize_idem s t :
  canonicalize_evm_address s = Ok t → canonicalize_evm_address t = Ok t.
Proof.
  unfold canonicalize_evm_address at 1. destruct s as [|c [|x digits]]; try done.
  destruct (_ && all_chars is_hex digits) eqn:E; [|done]. intros [= <-].
  apply andb_true_iff in E as [[_ E]%andb_true_iff Hh].
  change (canonicalize_evm_address ("0x" +:+ lower digits)) with
    (if (str_len (lower digits) =? 40) && all_chars is_hex (lower digits)
     then Ok ("0x" +:+ lower (lower digits))
     else Err (ValueError "EVM address must be 0x followed by 40 hex characters")).
  by rewrite str_len_lower, E, all_chars_lower, lower_idem by (done || apply is_hex_lower).
Qed.

(** ** Grants *)

Lemma normalize_scope_list_Ok f l l' :
  normalize_scope_list f l = Ok l' →
  normalize_scope_list f l' = Ok l' ∧ ∀ s, s ∈ l' → normalize_scope f s = Ok s.
Proof.
  unfold normalize_scope_list. destruct (map_result _ l) as [l1|] eqn:E; [|done]. intros [= <-].
  assert (∀ s, s ∈ sorted_set l1 → normalize_scope f s = Ok s) as Hs.
  { intros s Hin%sorted_set_elem. destruct (map_result_elem _ _ _ E s Hin) as (a & _ & Ha).
    by eapply normalize_scope_idem. }
  rewrite (map_result_fixed _ _ Hs). simpl. by rewrite sorted_set_idem.
Qed.

Lemma normalize_scope_list_nonempty f l l' :
  normalize_scope_list f l = Ok l' → l ≠ [] → l' ≠ [].
Proof.
  unfold normalize_scope_list. destruct (map_result _ l) as [l1|] eqn:E; [|done]. intros [= <-] Hl.
  apply sorted_set_nonempty. destruct l as [|s l]; [done|]. simpl in E.
  apply result_bind_Ok in E as (x & _ & E). apply result_bind_Ok in E as (xs & _ & E).
  by injection E as <-.
Qed.

Lemma normalize_scope_nonempty f s t : normalize_scope f s = Ok t → t ≠ EmptyString.
Proof.
  unfold normalize_scope. intros Hn. apply result_bind_Ok in Hn as (? & _ & Hn).
  apply result_bind_Ok in Hn as (? & [He _]%require_Ok & [= <-]). by bool_inv.
Qed.

Lemma sorted_set_in l x : x ∈ l → x ∈ sorted_set l.
Proof.
  assert (∀ s l x, x = s ∨ x ∈ l → x ∈ insert_string s l) as Hi.
  { clear. intros s l x. induction l as [|t l IH]; simpl.
    - intros [->|Hx]; [by left|by apply elem_of_nil in Hx].
    - destruct (String.compare s t) eqn:E.
      + apply String.compare_eq_iff in E as ->. intros [->|?]; [by left|done].
      + intros [->|?]; [by left|by right].
      + intros [->|[->|?]%elem_of_cons]; [right|left|right]; auto. }
  induction l as [|s l IH]; simpl; [done|]. intros [->|Hx]%elem_of_cons; apply Hi; auto.
Qed.

Lemma forallb_sorted (p : string → bool) l : forallb p l = true → forallb p (sorted_set l) = true.
Proof.
  rewrite !forallb_forall. intros Hp x Hx. apply Hp, list_elem_of_In, sorted_set_elem.
  by apply list_elem_of_In.
Qed.

(** The limits and the term of a valid grant. *)
Definition policy_ok (g : SpendingGrantRow) : Prop :=
  (0 < sg_max_amount_usdc g ∧ 0 < sg_per_transaction_limit_usdc g ∧ 0 < sg_hourly_limit_usdc g ∧
   0 < sg_daily_limit_usdc g) ∧
  sg_per_transaction_limit_usdc g <= sg_max_amount_usdc g ∧
  sg_per_transaction_limit_usdc g <= sg_hourly_limit_usdc g ∧
  sg_hourly_limit_usdc g <= sg_daily_limit_usdc g ∧
  sg_daily_limit_usdc g <= sg_max_amount_usdc g ∧ sg_starts_at g < sg_expires_at g.

Lemma validate_grant_policy_Ok g g1 :
  validate_grant_policy (Some (sg_hourly_limit_usdc g)) g = Ok g1 ↔ policy_ok g ∧ g1 = g.
Proof.
  destruct g. unfold validate_grant_policy, policy_ok. simpl. split.
  - intros Hp. txn_inv. bool_inv. split; [lia|done].
  - intros [(Hpos & Hlimits) ->]. by rewrite !(proj2 (Z.ltb_lt _ _)), !(proj2 (Z.leb_le _ _)) by lia.
Qed.

(** The text fields a validated grant has, and what the validators say of them. *)
Lemma make_spending_grant_Ok g g' :
  make_spending_grant g = Ok g' →
  sg_status g' ∈ GRANT_STATUSES ∧ sg_product_scopes g' ≠ [] ∧
  normalize_scope_list "product" (sg_product_scopes g') = Ok (sg_product_scopes g') ∧
  (∀ s, s ∈ sg_product_scopes g' → s ≠ EmptyString) ∧
  normalize_scope_list "venue" (sg_venue_scopes g') = Ok (sg_venue_scopes g') ∧
  normalize_scope_list "merchant" (sg_merchant_scopes g') = Ok (sg_merchant_scopes g') ∧
  normalize_scope_list "network" (sg_network_scopes g') = Ok (sg_network_scopes g') ∧
  (forallb (λ s, bool_decide (s ∈ ["clink_verified"; "registry_verified"]))
     (sg_merchant_trust_scopes g') = true ∧ sg_merchant_trust_scopes g' ≠ [] ∧
   sorted_set (sg_merchant_trust_scopes g') = sg_merchant_trust_scopes g') ∧
  sg_notification_mode g' ∈ ["silent_under_limits"; "notify_all"] ∧
  (map_result canonicalize_evm_address (sg_asset_scopes g') = Ok (sg_asset_scopes g') ∧
   sorted_set (sg_asset_scopes g') = sg_asset_scopes g') ∧
  forallb usdc_amount
    [sg_max_amount_usdc g'; sg_per_transaction_limit_usdc g'; sg_hourly_limit_usdc g';
     sg_daily_limit_usdc g'; sg_used_amount_usdc g'; sg_reserved_amount_usdc g'] = true ∧
  validate_grant_policy (Some (sg_hourly_limit_usdc g')) g' = Ok g'.
Proof.
  unfold make_spending_grant. intros Hm.
  apply result_bind_Ok in Hm as (? & [Hst _]%require_Ok & Hm).
  apply result_bind_Ok in Hm as (? & [Hamounts _]%require_Ok & Hm).
  apply result_bind_Ok in Hm as (? & [Hpr _]%require_Ok & Hm).
  apply result_bind_Ok in Hm as (products & Hp & Hm).
  apply result_bind_Ok in Hm as (venues & Hv & Hm).
  apply result_bind_Ok in Hm as (merchants & Hme & Hm).
  apply result_bind_Ok in Hm as (? & [Htr _]%require_Ok & Hm).
  apply result_bind_Ok in Hm as (? & [Htn _]%require_Ok & Hm).
  apply result_bind_Ok in Hm as (? & [Hno _]%require_Ok & Hm).
  apply result_bind_Ok in Hm as (networks & Hn & Hm).
  apply result_bind_Ok in Hm as (assets & Ha & Hm).
  apply result_bind_Ok in Hm as (g1 & Hpol & [= <-]).
  apply validate_grant_policy_Ok in Hpol as [Hpol ->]. simpl. bool_inv.
  destruct (normalize_scope_list_Ok _ _ _ Hp) as [Hp' Hps].
  assert (∀ l : list string, length l ≠ 0%nat → l ≠ []) as Hlen by (intros [|? ?]; done).
  split_and!; try done.
  - eapply normalize_scope_list_nonempty; [exact Hp|]. by apply Hlen.
  - intros s Hs. eapply normalize_scope_nonempty, Hps, Hs.
  - by apply normalize_scope_list_Ok in Hv as [? _].
  - by apply normalize_scope_list_Ok in Hme as [? _].
  - by apply normalize_scope_list_Ok in Hn as [? _].
  - by apply forallb_sorted.
  - by apply sorted_set_nonempty, Hlen.
  - apply sorted_set_idem.
  - eapply sorted_map_idem; [apply canonicalize_idem|done].
  - apply sorted_set_idem.
  - match goal with |- validate_grant_policy _ ?g' = _ =>
      exact (proj2 (validate_grant_policy_Ok g' g') (conj Hpol eq_refl)) end.
Qed.

(** C40: type.  A validated grant is well formed: its limits are positive and
    ordered, a transaction within the hour, the hour within the day, the day
    within the total, and its term is not empty.  Its scopes are normal forms:
    validating it again, as every reading of its row does, accepts it unchanged,
    provided its products are still explicit, which the validator only checks
    before it lowers their case. *)
Theorem grant_validation_stable g g' :
  make_spending_grant g = Ok g' →
  (0 < sg_per_transaction_limit_usdc g' ∧
   sg_per_transaction_limit_usdc g' <= sg_hourly_limit_usdc g' ∧
   sg_hourly_limit_usdc g' <= sg_daily_limit_usdc g' ∧
   sg_daily_limit_usdc g' <= sg_max_amount_usdc g' ∧ sg_starts_at g' < sg_expires_at g') ∧
  ("all" ∉ sg_product_scopes g' → make_spending_grant g' = Ok g').
Proof.
  intros (Hst & Hne & Hp & Hps & Hv & Hme & Hn & (Ht & Htne & Hts) & Hno & (Ha & Has) & Hamounts & Hpol)
    %make_spending_grant_Ok.
  split.
  - apply validate_grant_policy_Ok in Hpol as [(? & ? & ? & ? & ? & ?) _]. lia.
  - intros Hall. unfold make_spending_grant.
    assert (∀ l : list string, l ≠ [] → bool_decide (length l = 0%nat) = false) as Hlen
      by (intros [|? ?]; done).
    assert (forallb (λ s, negb (bool_decide (s ∈ ["" : string; "all"]))) (sg_product_scopes g')
            = true) as Hexp.
    { apply forallb_forall. intros s Hs%list_elem_of_In. rewrite bool_decide_eq_false_2; [done|].
      intros [->|[->|[]%elem_of_nil]%elem_of_cons]%elem_of_cons; [by apply (Hps "")|by apply Hall]. }
    rewrite bool_decide_eq_true_2, Hamounts, !Hlen, Hexp, Hp, Hv, Hme, Ht, Hn, Ha by done. simpl.
    rewrite bool_decide_eq_true_2 by done. simpl. rewrite Hpol. simpl. rewrite Hts, Has. simpl.
    by destruct g'.
Qed.

(** A reduction of a grant that succeeds only lowers limits: each
    of the four is positive and no higher than before, they stay ordered, the
    total still covers what is used and reserved, and nothing else of the grant
    but its clock changes. *)
Theorem reduction_only_lowers event_id now k maximum transaction hourly daily d g h d' :
  fd_grants d !! k = Some g → sg_spending_grant_id g = k →
  reduce_spending_grant event_id now k maximum transaction hourly daily d = (Ok h, d') →
  ∃ g', fd_grants d' !! k = Some g' ∧
    Forall2 (λ new old, 0 < new <= old) (limits g') (limits g) ∧
    sg_per_transaction_limit_usdc g' <= sg_hourly_limit_usdc g' ∧
    sg_hourly_limit_usdc g' <= sg_daily_limit_usdc g' ∧
    sg_daily_limit_usdc g' <= sg_max_amount_usdc g' ∧
    sg_used_amount_usdc g' + sg_reserved_amount_usdc g' <= sg_max_amount_usdc g' ∧
    g' = (proposed_limits g (Some (sg_max_amount_usdc g'))
            (Some (sg_per_transaction_limit_usdc g')) (Some (sg_hourly_limit_usdc g'))
            (Some (sg_daily_limit_usdc g')))
           <| sg_updated_at := sg_updated_at g' |>.
Proof.
  intros Hk Hid Hr%write_session_Ok.
  apply txn_bind_Ok in Hr as (g0 & d0 & Hg & Hr). unfold required_locked_grant in Hg.
  apply txn_bind_Ok in Hg as (? & ? & [-> ->]%reads_Ok & Hg). change (id d) with d in Hg.
  apply lifts_Ok in Hg as [Hg%from_option_or_Ok ->]. rewrite Hk in Hg. injection Hg as <-.
  apply txn_bind_Ok in Hr as (u & ? & [Hred ->]%lifts_Ok & Hr).
  assert (Forall2 (λ new old, 0 < new <= old)
    (limits (proposed_limits g maximum transaction hourly daily)) (limits g)) as Hlow.
  { unfold limits in *. simpl in Hred. txn_inv. bool_inv. repeat constructor; done. }
  do 4 (apply txn_bind_Ok in Hr as (? & ? & (?%Z.leb_le & _ & ->)%requires_Ok & Hr)).
  apply txn_bind_Ok in Hr as (? & ? & (Hc%Z.leb_le & _ & ->)%requires_Ok & Hr).
  destruct (bool_decide (limits (proposed_limits g maximum transaction hourly daily) = limits g))
    eqn:E.
  - apply bool_decide_eq_true in E. rewrite E in Hlow. unfold limits in E. simpl in *.
    injection E as E1 E2 E3 E4. rewrite E1, E2, E3, E4 in *.
    apply lifts_Ok in Hr as [_ ->]. exists g. split_and!; try done. by destruct g.
  - apply txn_bind_Ok in Hr as (? & d1 & [_ ->]%writes_Ok & Hr).
    apply txn_bind_Ok in Hr as (? & d2 & Ha & [_ ->]%lifts_Ok).
    assert (fd_grants d2 !! k = Some ((proposed_limits g maximum transaction hourly daily)
              <| sg_updated_at := now |>)) as Hg2.
    { unfold audit_grant, add_audit_event in Ha. txn_inv. simpl. by rewrite lookup_insert_eq. }
    eexists. split; [exact Hg2|]. split_and!; done.
Qed.
