(* ===== verification/CandidateChoice.v ===== *)
(** * The choice of a grant

    [reserve_unified_budget] takes the least of its candidates, so the grant it
    charges does not depend on the order in which the database returns rows. *)

From S2P Require Import Prelude LedgerTables Budget GrantProperties.
From Stdlib Require Import Ascii.

Open Scope Z_scope.

(** [key_leb] is a total order of pairs of identifiers. *)
Lemma str_compare_refl s : String.compare s s = Eq.
Proof.
  induction s as [|c s IH]; [done|]. simpl.
  by rewrite ascii_compare_N, N.compare_refl.
Qed.
Lemma str_compare_eq s t : String.compare s t = Eq ↔ s = t.
Proof. split; [apply String.compare_eq_iff|intros ->; apply str_compare_refl]. Qed.

Lemma leb_compare s t : String.leb s t = true ↔ str_lt s t ∨ s = t.
Proof.
  unfold String.leb, str_lt. rewrite <- str_compare_eq.
  destruct (String.compare s t); naive_solver.
Qed.

Lemma key_leb_spec k k' :
  key_leb k k' = true ↔ str_lt k.1 k'.1 ∨ k.1 = k'.1 ∧ (str_lt k.2 k'.2 ∨ k.2 = k'.2).
Proof.
  unfold key_leb. rewrite <- leb_compare. unfold str_lt. destruct (String.compare k.1 k'.1) eqn:E.
  - apply str_compare_eq in E. naive_solver.
  - naive_solver.
  - split; [done|]. intros [?|[Eq _]]; [done|]. by rewrite Eq, str_compare_refl in E.
Qed.

Lemma str_trichotomy s t : str_lt s t ∨ s = t ∨ str_lt t s.
Proof.
  destruct (String.compare s t) eqn:E; [right; left; by apply str_compare_eq|by left|].
  right. right. by apply str_compare_gt.
Qed.
Lemma str_lt_irrefl s : ¬ str_lt s s.
Proof. unfold str_lt. by rewrite str_compare_refl. Qed.

Lemma key_leb_refl k : key_leb k k = true.
Proof. apply key_leb_spec. auto. Qed.
Lemma key_leb_trans a b c : key_leb a b = true → key_leb b c = true → key_leb a c = true.
Proof.
  rewrite !key_leb_spec. intros [H1|[E1 H1]] [H2|[E2 H2]].
  - left. by eapply str_lt_trans.
  - left. congruence.
  - left. congruence.
  - right. split; [congruence|]. destruct H1 as [H1|H1], H2 as [H2|H2].
    + left. by eapply str_lt_trans.
    + left. congruence.
    + left. congruence.
    + right. congruence.
Qed.
Lemma key_leb_total a b : key_leb a b = false → key_leb b a = true.
Proof.
  intros Hn. destruct (key_leb b a) eqn:E; [done|].
  assert (key_leb a b ≠ true) as H1 by congruence. assert (key_leb b a ≠ true) as H2 by congruence.
  rewrite key_leb_spec in H1, H2.
  destruct (str_trichotomy a.1 b.1) as [|[|]], (str_trichotomy a.2 b.2) as [|[|]];
    exfalso; naive_solver.
Qed.
Lemma key_leb_antisym a b : key_leb a b = true → key_leb b a = true → a = b.
Proof.
  rewrite !key_leb_spec. destruct a as [a1 a2], b as [b1 b2]. simpl.
  intros [H1|[E1 H1]] [H2|[E2 H2]].
  - exfalso. eapply str_lt_irrefl. by eapply str_lt_trans.
  - subst. by eapply str_lt_irrefl in H1.
  - subst. by eapply str_lt_irrefl in H2.
  - subst. destruct H1 as [H1| ->], H2 as [H2|E]; try done; subst; try done.
    exfalso. eapply str_lt_irrefl. by eapply str_lt_trans.
Qed.

Section Choice.
Context {A : Type} (key : A → string * string).

Lemma fold_smaller_least l a :
  key_leb (key (fold_left (smaller key) l a)) (key a) = true ∧
  ∀ b, b ∈ l → key_leb (key (fold_left (smaller key) l a)) (key b) = true.
Proof.
  revert a. induction l as [|b l IH]; intros a; simpl.
  - split; [apply key_leb_refl|]. intros b Hb. by apply elem_of_nil in Hb.
  - destruct (IH (smaller key a b)) as [H1 H2].
    assert (key_leb (key (smaller key a b)) (key a) = true ∧
            key_leb (key (smaller key a b)) (key b) = true) as [Ha Hb].
    { unfold smaller. destruct (key_leb (key a) (key b)) eqn:E.
      - split; [apply key_leb_refl|done].
      - split; [by apply key_leb_total|apply key_leb_refl]. }
    split; [by eapply key_leb_trans|]. intros c [->|Hc]%elem_of_cons; [by eapply key_leb_trans|auto].
Qed.

Lemma pick_min_least l a b :
  pick_min key l = Some a → b ∈ l → key_leb (key a) (key b) = true.
Proof.
  destruct l as [|x l]; [done|]. intros [= <-]. destruct (fold_smaller_least l x) as [H1 H2].
  intros [->|Hb]%elem_of_cons; auto.
Qed.

Lemma fold_smaller_member l a : fold_left (smaller key) l a ∈ a :: l.
Proof.
  revert a. induction l as [|b l IH]; intros a; simpl; [by left|].
  specialize (IH (smaller key a b)). unfold smaller in *.
  apply elem_of_cons in IH as [->|IH]; [case_match|]; set_solver.
Qed.
Lemma pick_min_member l a : pick_min key l = Some a → a ∈ l.
Proof. destruct l; [done|]. intros [= <-]. apply fold_smaller_member. Qed.

Lemma pick_min_order l l' :
  (∀ a b, a ∈ l → b ∈ l → key a = key b → a = b) → l ≡ₚ l' →
  pick_min key l = pick_min key l'.
Proof.
  intros Hinj Hp.
  assert (∀ l, l ≠ [] → ∃ a, pick_min key l = Some a ∧ a ∈ l) as Hsome.
  { intros [|x m]; [done|]. intros _. eexists. split; [done|]. apply fold_smaller_member. }
  destruct (decide (l = [])) as [->|Hne].
  { apply Permutation_nil_l in Hp as ->. done. }
  destruct (Hsome l Hne) as (a & Ha & Hin).
  destruct (Hsome l') as (b & Hb & Hin'); [intros ->; by apply Permutation_nil_r in Hp|].
  rewrite Ha, Hb. f_equal. rewrite <- Hp in Hin'. apply Hinj; try done.
  apply key_leb_antisym; eapply pick_min_least; try done. by rewrite <- Hp.
Qed.
End Choice.

(** The grant an external payment charges, and the grant and
    allowance any other payment charges, are the candidates with the least
    identifiers, whatever order the candidates are read in. *)
Theorem candidate_choice_is_canonical gs gs' pairs pairs' :
  gs ≡ₚ gs' → pairs ≡ₚ pairs' →
  (∀ g h, g ∈ gs → h ∈ gs → sg_spending_grant_id g = sg_spending_grant_id h → g = h) →
  (∀ p q, p ∈ pairs → q ∈ pairs → pair_key p = pair_key q → p = q) →
  pick_min grant_key gs = pick_min grant_key gs' ∧
  pick_min pair_key pairs = pick_min pair_key pairs' ∧
  (∀ g h, pick_min grant_key gs = Some g → h ∈ gs → key_leb (grant_key g) (grant_key h) = true) ∧
  (∀ p q, pick_min pair_key pairs = Some p → q ∈ pairs →
     key_leb (pair_key p) (pair_key q) = true).
Proof.
  intros Hg Hp Hig Hip. split_and!.
  - apply pick_min_order; [|done]. intros a b Ha Hb [= E _]. by apply Hig.
  - by apply pick_min_order.
  - intros g h. apply pick_min_least.
  - intros p q. apply pick_min_least.
Qed.
