(* ===== verification/LedgerFacts.v ===== *)
(** * What the ledger's operations do

    The effect of a successful write, release or settlement on the tables, and
    the accounting entry a reservation payload carries. *)

From S2P Require Import Prelude PyValue Calendar Reservation Amounts LedgerTables LedgerStore.
From S2P Require Import Budget.

Open Scope string_scope.
Open Scope Z_scope.

(** ** Accounting entries *)

(** The entry a reservation payload makes in the books. *)
Record Entry := MkEntry {
  en_reservation_id : string;
  en_grant_id : string;
  en_amount : Z;
  en_date : Z;
  en_state : string;
}.

Definition entry_of (p : pydict) : option Entry :=
  match dict_get p "reservation_id", dict_get p "spending_grant_id", row_amount p,
        row_usage_date p, dict_get p "budget_accounting_state" with
  | PStr k, PStr g, Ok amount, Ok date, PStr state => Some (MkEntry k g amount date state)
  | _, _, _, _, _ => None
  end.

Definition ENTRY_FIELDS : list string :=
  ["reservation_id"; "spending_grant_id"; "amount_usdc"; "usage_date"; "budget_accounting_state"].

(** The entry depends on its five fields only. *)
Lemma entry_of_ext p q :
  (∀ f, f ∈ ENTRY_FIELDS → dict_find p f = dict_find q f) → entry_of p = entry_of q.
Proof.
  intros Hf. unfold entry_of, row_amount, row_usage_date, dict_get, dict_item.
  by rewrite !Hf by list_member.
Qed.

Lemma entry_of_set p k v : k ∉ ENTRY_FIELDS → entry_of (dict_set p k v) = entry_of p.
Proof.
  intros Hk. apply entry_of_ext. intros f Hf. apply dict_find_set_ne. by intros ->.
Qed.

Lemma entry_of_pop p k : k ∉ ENTRY_FIELDS → entry_of (dict_pop p k) = entry_of p.
Proof.
  intros Hk. apply entry_of_ext. intros f Hf. rewrite dict_find_pop.
  case_decide; [by subst|done].
Qed.

Lemma entry_of_redact p : entry_of (redact_external_payment_payload p) = entry_of p.
Proof. unfold redact_external_payment_payload. by rewrite !entry_of_pop by decided. Qed.

Lemma entry_of_update p kvs :
  Forall (λ kv : string * pyval, kv.1 ∉ ENTRY_FIELDS) kvs → entry_of (foldl (λ d kv, dict_set d kv.1 kv.2) p kvs) = entry_of p.
Proof.
  intros Hkvs. revert p. induction Hkvs as [|kv kvs Hkv _ IH]; intros p; [done|].
  simpl. by rewrite IH, entry_of_set.
Qed.

(** Immutable fields keep the entry: a write may only change its state. *)
Lemma entry_of_immutable p q e :
  entry_of p = Some e →
  (∀ f, f ∈ ["reservation_id"; "spending_grant_id"; "amount_usdc"; "usage_date"] →
     py_eqb (dict_get p f) (dict_get q f) = true) →
  dict_get q "budget_accounting_state" = PStr (en_state e) →
  entry_of q = Some e.
Proof.
  unfold entry_of. intros He Hq Hs.
  pose proof (Hq "reservation_id" ltac:(decided)) as Hk.
  pose proof (Hq "spending_grant_id" ltac:(decided)) as Hg.
  pose proof (Hq "amount_usdc" ltac:(decided)) as Ha.
  pose proof (Hq "usage_date" ltac:(decided)) as Hd. clear Hq.
  destruct (dict_get p "reservation_id") eqn:Ek; try discriminate.
  destruct (dict_get p "spending_grant_id") eqn:Eg; try discriminate.
  rewrite (py_eqb_str _ _ Hk), (py_eqb_str _ _ Hg), Hs. clear Hk Hg.
  destruct (row_amount p) as [amount|] eqn:Ea; [|discriminate].
  destruct (row_usage_date p) as [date|] eqn:Ed; [|discriminate].
  assert (row_amount q = Ok amount) as ->.
  { unfold row_amount, dict_item, dict_get in *.
    destruct (dict_find p "amount_usdc") as [[]|]; simpl in Ea; try discriminate;
      destruct (dict_find q "amount_usdc") as [[]|]; simpl in Ha; try discriminate;
      simpl in *; try (apply bool_decide_eq_true in Ha as <-); try done;
      try apply Z.eqb_eq in Ha; try apply Bool.eqb_prop in Ha; by subst. }
  assert (row_usage_date q = Ok date) as ->.
  { unfold row_usage_date, dict_item, dict_get in *.
    destruct (dict_find p "usage_date") as [[]|]; simpl in Ed; try discriminate;
      destruct (dict_find q "usage_date") as [[]|]; simpl in Hd; try discriminate.
    simpl in *. by apply bool_decide_eq_true in Hd as <-. }
  destruct (dict_get p "budget_accounting_state"); try discriminate.
  injection He as <-. done.
Qed.

(** ** Writing a reservation *)

(** The tables [put] does not touch. *)
Definition same_accounts (d d' : FundingDb) : Prop :=
  fd_grants d' = fd_grants d ∧ fd_daily d' = fd_daily d ∧ fd_rolling d' = fd_rolling d ∧
  fd_identities d' = fd_identities d ∧ fd_allowances d' = fd_allowances d ∧
  fd_relayer_nonces d' = fd_relayer_nonces d ∧ fd_installations d' = fd_installations d ∧
  fd_audit d' = fd_audit d.

(** The effect of writing the reservation [k]: its row becomes [r]. *)
Record written (k : string) (payload identity : pydict) (d : FundingDb) (r : LedgerRow)
    (d' : FundingDb) : Prop := {
  wr_records : fd_records d' = <[k := r]> (fd_records d);
  wr_type : lr_record_type r = "reservation";
  wr_fields : ∀ f, f ≠ "tx_hash" →
    dict_find (lr_payload r) f = dict_find (redact_external_payment_payload payload) f;
  wr_valid : validate_reservation_write k (redact_external_payment_payload payload) identity
               (lr_payload <$> fd_records d !! k) d = Ok tt;
  wr_accounts : same_accounts d d';
  wr_bindings : ∀ h b, fd_bindings d !! h = Some b → fd_bindings d' !! h = Some b;
  wr_bound : ∀ h, lr_tx_hash r = Some h →
    tb_reservation_id <$> fd_bindings d' !! h = Some k ∨
    dict_find identity "tx_hash" = None ∧ lr_tx_hash <$> fd_records d !! k = Some (Some h);
}.

Lemma bind_transaction_Ok h k t d u d' :
  bind_transaction h k t d = Ok (u, d') →
  same_accounts d d' ∧ fd_records d' = fd_records d ∧
  (fd_bindings d' = fd_bindings d ∧ tb_reservation_id <$> fd_bindings d !! h = Some k ∨
   fd_bindings d !! h = None ∧ fd_bindings d' = <[h := MkBinding k t]> (fd_bindings d)).
Proof.
  unfold bind_transaction. intros Hb. apply txn_bind_Ok in Hb as (? & ? & [-> ->]%reads_Ok & Hb).
  change (id d) with d in Hb. destruct (fd_bindings d !! h) as [b|] eqn:E.
  - txn_inv. bool_inv. subst. split_and!; try done. left. by split.
  - txn_inv. split_and!; [by repeat split|done|]. by right.
Qed.

Lemma flush_record_Ok k r d u d' :
  flush_record k r d = Ok (u, d') →
  fd_records d' = <[k := r]> (fd_records d) ∧ same_accounts d d' ∧ fd_bindings d' = fd_bindings d.
Proof. unfold flush_record, put_record. intros Hf. txn_inv. done. Qed.

Lemma assigned_row_Ok t p i c r r' :
  assigned_row t p i c r = Ok r' →
  lr_record_type r' = t ∧ lr_payload r' = p ∧
  identity_column i "tx_hash" (lr_tx_hash r) = Ok (lr_tx_hash r').
Proof. unfold assigned_row. intros Ha. txn_inv. done. Qed.

Lemma entry_of_written k payload identity d r d' :
  written k payload identity d r d' → entry_of (lr_payload r) = entry_of payload.
Proof.
  intros Hw. rewrite <- (entry_of_redact payload). apply entry_of_ext.
  intros f Hf. apply (wr_fields _ _ _ _ _ _ Hw). intros ->. revert Hf. decided.
Qed.

Lemma is_text_eq v s : is_text v s = true ↔ v = PStr s.
Proof.
  unfold is_text. split; [|intros ->; simpl; by rewrite bool_decide_eq_true].
  destruct v; try done. simpl. by intros ->%bool_decide_eq_true.
Qed.

Lemma require_identity_Ok p i fields u :
  require_identity p i fields = Ok u →
  ∀ f, f ∈ fields → py_eqb (dict_get i f) (dict_get p f) = true.
Proof.
  induction fields as [|f fields IH]; simpl; intros Hr g Hg; [by apply elem_of_nil in Hg|].
  txn_inv. apply elem_of_cons in Hg as [->|Hg]; eauto.
Qed.

(** What a validated write guarantees. *)
Lemma validate_write_Ok k p i stored d u :
  validate_reservation_write k p i stored d = Ok u →
  dict_get p "reservation_id" = PStr k ∧ dict_get i "reservation_id" = PStr k ∧
  require_unified_reservation p = Ok tt ∧ is_ok (unified_authorization_scope p d) = true ∧
  (∀ s, stored = Some s → changed_fields s p = []).
Proof.
  unfold validate_reservation_write. intros Hv.
  apply result_bind_Ok in Hv as (? & _ & Hv).
  apply result_bind_Ok in Hv as (v & Hk & Hv).
  apply result_bind_Ok in Hv as (? & Hkey & Hv). apply require_Ok in Hkey as [Hkey _].
  apply is_text_eq in Hkey as ->.
  apply result_bind_Ok in Hv as (? & Hi & Hv).
  apply result_bind_Ok in Hv as (? & Hs & Hv).
  apply result_bind_Ok in Hv as ([] & Hu & Hv).
  apply result_bind_Ok in Hv as (? & _ & Hv).
  apply result_bind_Ok in Hv as (? & Hscope & _).
  assert (dict_get p "reservation_id" = PStr k) as Hp.
  { unfold dict_item in Hk. txn_inv. unfold dict_get. by rewrite Hk. }
  split_and!; try done.
  - apply is_text_eq. pose proof (require_identity_Ok _ _ _ _ Hi "reservation_id" ltac:(decided)) as He.
    by rewrite Hp in He.
  - by rewrite Hscope.
  - intros s ->. unfold require_matching_reservation_immutable_fields in Hs. txn_inv. by bool_inv.
Qed.

Lemma any_missing_false p fields :
  any_missing p fields = Ok false →
  ∀ f, f ∈ fields → dict_get p f ≠ PNone ∧ dict_get p f ≠ PStr EmptyString.
Proof.
  induction fields as [|f fields IH]; simpl; intros Hm g Hg; [by apply elem_of_nil in Hg|].
  apply result_bind_Ok in Hm as ([] & Hin & Hm); [done|].
  apply elem_of_cons in Hg as [->|Hg]; [|by apply IH].
  unfold in_set in Hin. destruct (py_hashable _); [|done]. injection Hin as Hin.
  split; intros E; rewrite E in Hin; done.
Qed.

Lemma unified_fields p u :
  require_unified_reservation p = Ok u →
  ∀ f, f ∈ UNIFIED_RESERVATION_PROVENANCE_FIELDS →
    dict_get p f ≠ PNone ∧ dict_get p f ≠ PStr EmptyString.
Proof.
  unfold require_unified_reservation. intros Hu.
  apply result_bind_Ok in Hu as (? & _ & Hu).
  apply result_bind_Ok in Hu as ([] & Hm & Hu); apply result_bind_Ok in Hu as (? & Hn & _);
    apply require_Ok in Hn as [Hn _]; [done|]. by apply any_missing_false.
Qed.

(** Sealing a hash: the payload changes in that field only. *)
Lemma bind_hash_Ok clock k p i d p' i' d' :
  dict_get i "reservation_id" = PStr k → k ≠ EmptyString →
  bind_hash clock true p i d = Ok (p', i', d') →
  same_accounts d d' ∧ fd_records d' = fd_records d ∧
  (∀ f, f ≠ "tx_hash" → dict_find p' f = dict_find p f) ∧
  (∀ h b, fd_bindings d !! h = Some b → fd_bindings d' !! h = Some b) ∧
  (i' = i ∧ dict_get i "tx_hash" = PNone ∨
   ∃ h, dict_find i' "tx_hash" = Some (PStr h) ∧ tb_reservation_id <$> fd_bindings d' !! h = Some k).
Proof.
  intros Hi Hk Hb. unfold bind_hash in Hb. destruct (is_none (dict_get i "tx_hash")) eqn:Ei.
  { apply mret_Ok in Hb as [[= -> ->] ->]. split_and!; try done.
    left. split; [done|]. by destruct (dict_get i "tx_hash"). }
  apply txn_bind_Ok in Hb as (h & ? & [_ ->]%lifts_Ok & Hb).
  apply txn_bind_Ok in Hb as (? & d1 & Hb & Hret). apply mret_Ok in Hret as [[= -> ->] ->].
  unfold bound_reservation in Hb. rewrite !dict_get_set, !decide_False, Hi in Hb by done.
  simpl in Hb. rewrite !bool_decide_eq_false_2 in Hb by done. simpl in Hb.
  rewrite !bool_decide_eq_false_2 in Hb by done.
  apply bind_transaction_Ok in Hb as (Hacc & Hr & Hbi).
  split_and!; [done|done|intros f Hf; by rewrite dict_find_set_ne| |].
  - intros h' b Hb. destruct Hbi as [[-> _]|[Hn ->]]; [done|].
    rewrite lookup_insert_ne; [done|]. by intros ->; congruence.
  - right. exists h. rewrite dict_find_set_eq. split; [done|].
    destruct Hbi as [[-> ?]|[_ ->]]; [done|by rewrite lookup_insert_eq].
Qed.

Lemma put_Ok clock k payload identity d p' d' :
  put clock "reservation" k payload identity d = Ok (p', d') →
  ∃ r, written k payload identity d r d' ∧ lr_payload r = p'.
Proof.
  unfold put. rewrite !(bool_decide_eq_true_2 ("reservation" = "reservation")) by done.
  intros Hp. apply txn_bind_Ok in Hp as (? & ? & (_ & _ & ->)%requires_Ok & Hp).
  apply txn_bind_Ok in Hp as (? & ? & [-> ->]%reads_Ok & Hp). change (id d) with d in Hp.
  apply txn_bind_Ok in Hp as ([] & ? & [Hv ->]%lifts_Ok & Hp).
  destruct (validate_write_Ok _ _ _ _ _ _ Hv) as (Hk & Hi & Hu & _).
  pose proof (unified_fields _ _ Hu "reservation_id" ltac:(decided)) as [_ Hne].
  rewrite Hk in Hne.
  apply txn_bind_Ok in Hp as ([p i] & d1 & Hb & Hp).
  apply (bind_hash_Ok _ k) in Hb as (Hacc & Hr & Hf & Hm & Hh); [|done|congruence].
  apply txn_bind_Ok in Hp as (r & ? & [Ha ->]%lifts_Ok & Hp).
  apply txn_bind_Ok in Hp as (? & d2 & Hfl & Hret). apply mret_Ok in Hret as [-> ->].
  apply assigned_row_Ok in Ha as (Ht & Hpl & Htx).
  apply flush_record_Ok in Hfl as (Hr2 & Hacc2 & Hbi2).
  exists r. split; [|done]. constructor; try done.
  - by rewrite Hr2, Hr.
  - by rewrite Hpl.
  - unfold same_accounts in *. destruct Hacc as (?&?&?&?&?&?&?&?), Hacc2 as (?&?&?&?&?&?&?&?).
    split_and!; congruence.
  - intros h b Hb. rewrite Hbi2. by apply Hm.
  - intros h Hh'. rewrite Hbi2. unfold identity_column in Htx. destruct Hh as [[-> Hn]|(h' & Hs & Hbd)].
    + right. unfold dict_get in Hn. destruct (dict_find identity "tx_hash") as [v|].
      * simpl in Hn. subst v. simpl in Htx. congruence.
      * split; [done|]. injection Htx as Htx. rewrite <- Htx in Hh'.
        destruct (fd_records d !! k); simpl in *; by rewrite ?Hh'.
    + left. rewrite Hs in Htx. simpl in Htx. congruence.
Qed.
