(* ===== verification/FundingMachine.v ===== *)
(** * The books of the funding ledger

    The abstract machine of budget accounting: a book of reservations, each
    holding an amount of one grant on one day until it is settled or released,
    the balance of its books, and the proof that every step keeps it.
    [FundingRefinement] and [SubmissionEffects] show that the transactions of
    the services only make these steps. *)

From S2P Require Import Prelude PyValue Calendar Reservation Amounts LedgerTables LedgerStore.
From S2P Require Import Budget LedgerEvidence FundingService GrantStore LedgerFacts.

Open Scope string_scope.
Open Scope Z_scope.

(** ** Steps *)

Definition is_reservation_row (r : LedgerRow) : Prop := lr_record_type r = "reservation".

(** The entries the stored reservations make. *)
Definition entries (d : FundingDb) : gmap string Entry :=
  omap (λ r, if bool_decide (is_reservation_row r) then entry_of (lr_payload r) else None)
    (fd_records d).

(** What accounting is about: the grants and daily usages with their counters,
    the lines of the rolling usage, and the entries. *)
Definition books (d : FundingDb) :=
  (fd_grants d, fd_daily d, fd_rolling d, entries d).

(** The limits of a grant, which accounting never touches. *)
Definition same_terms (g g' : SpendingGrantRow) : Prop :=
  sg_spending_grant_id g' = sg_spending_grant_id g ∧
  sg_max_amount_usdc g' = sg_max_amount_usdc g ∧
  sg_per_transaction_limit_usdc g' = sg_per_transaction_limit_usdc g ∧
  sg_hourly_limit_usdc g' = sg_hourly_limit_usdc g ∧
  sg_daily_limit_usdc g' = sg_daily_limit_usdc g.

(** What closing a reservation adds to the used amounts. *)
Definition spent (state : RollingState) (amount : Z) : Z :=
  if bool_decide (state = RollingUsed) then amount else 0.

(** The accounting state of the payload of a reservation. *)
Definition state_text (state : RollingState) : string :=
  match state with
  | RollingReserved => "reserved" | RollingUsed => "settled" | RollingReleased => "released"
  end.

(** The change the account service may make to a grant: the counters stay and
    the total stays above what is committed. *)
Definition grant_edit (g g' : SpendingGrantRow) : Prop :=
  sg_spending_grant_id g' = sg_spending_grant_id g ∧
  sg_used_amount_usdc g' = sg_used_amount_usdc g ∧
  sg_reserved_amount_usdc g' = sg_reserved_amount_usdc g ∧
  (sg_used_amount_usdc g + sg_reserved_amount_usdc g <= sg_max_amount_usdc g →
   sg_used_amount_usdc g + sg_reserved_amount_usdc g <= sg_max_amount_usdc g').

(** A fresh daily usage. *)
Definition daily_used (d : FundingDb) (key : string * Z) : Z :=
  from_option du_used_amount_usdc 0 (fd_daily d !! key).
Definition daily_reserved (d : FundingDb) (key : string * Z) : Z :=
  from_option du_reserved_amount_usdc 0 (fd_daily d !! key).

Inductive ledger_step (d d' : FundingDb) : Prop :=
| ls_frame :
    books d' = books d → ledger_step d d'
| ls_reserve g g' usage k amount now :
    fd_grants d !! sg_spending_grant_id g = Some g →
    0 < amount → amount <= sg_per_transaction_limit_usdc g →
    sg_used_amount_usdc g + sg_reserved_amount_usdc g + amount <= sg_max_amount_usdc g →
    daily_total d (sg_spending_grant_id g) (day_of now) + amount <= sg_daily_limit_usdc g →
    rolling_total d (sg_spending_grant_id g) (now - us_per_hour) + amount
      <= sg_hourly_limit_usdc g →
    fd_rolling d !! k = None →
    same_terms g g' →
    sg_used_amount_usdc g' = sg_used_amount_usdc g →
    sg_reserved_amount_usdc g' = sg_reserved_amount_usdc g + amount →
    du_used_amount_usdc usage = daily_used d (sg_spending_grant_id g, day_of now) →
    du_reserved_amount_usdc usage
      = daily_reserved d (sg_spending_grant_id g, day_of now) + amount →
    books d' = (<[sg_spending_grant_id g := g']> (fd_grants d),
                <[(sg_spending_grant_id g, day_of now) := usage]> (fd_daily d),
                <[k := MkRollingUsage (sg_spending_grant_id g) amount RollingReserved now now]>
                  (fd_rolling d),
                <[k := MkEntry k (sg_spending_grant_id g) amount (day_of now) "reserved"]>
                  (entries d)) →
    ledger_step d d'
| ls_close state g g' usage usage' k amount date now :
    state ∈ [RollingUsed; RollingReleased] →
    entries d !! k = Some (MkEntry k (sg_spending_grant_id g) amount date "reserved") →
    fd_grants d !! sg_spending_grant_id g = Some g →
    fd_daily d !! (sg_spending_grant_id g, date) = Some usage →
    amount <= sg_reserved_amount_usdc g → amount <= du_reserved_amount_usdc usage →
    same_terms g g' →
    sg_used_amount_usdc g' = sg_used_amount_usdc g + spent state amount →
    sg_reserved_amount_usdc g' = sg_reserved_amount_usdc g - amount →
    du_used_amount_usdc usage' = du_used_amount_usdc usage + spent state amount →
    du_reserved_amount_usdc usage' = du_reserved_amount_usdc usage - amount →
    books d' = (<[sg_spending_grant_id g := g']> (fd_grants d),
                <[(sg_spending_grant_id g, date) := usage']> (fd_daily d),
                alter (λ u, u <| ru_state := state |> <| ru_updated_at := now |>) k
                  (fd_rolling d),
                <[k := MkEntry k (sg_spending_grant_id g) amount date (state_text state)]>
                  (entries d)) →
    ledger_step d d'
| ls_edit :
    (∀ k, option_Forall2 grant_edit (fd_grants d !! k) (fd_grants d' !! k)) →
    books d' = (fd_grants d', fd_daily d, fd_rolling d, entries d) →
    ledger_step d d'.

(** ** The balance of the books *)

(** What a grant holds in one state, in all and on one day. *)
Definition held (grant_id : string) (state : RollingState) (u : SpendingGrantRollingUsageRow)
    : Z :=
  if bool_decide (ru_spending_grant_id u = grant_id) && bool_decide (ru_state u = state)
  then ru_amount_usdc u else 0.
Definition held_on (key : string * Z) (state : RollingState) (u : SpendingGrantRollingUsageRow)
    : Z :=
  if day_of (ru_occurred_at u) =? key.2 then held key.1 state u else 0.

(** The entry a line of the book stands for. *)
Definition line_entry (k : string) (u : SpendingGrantRollingUsageRow) : Entry :=
  MkEntry k (ru_spending_grant_id u) (ru_amount_usdc u) (day_of (ru_occurred_at u))
    (state_text (ru_state u)).

(** The counters of a grant are the sums of its lines, within its total. *)
Record grant_balanced (d : FundingDb) (k : string) (g : SpendingGrantRow) : Prop := {
  gb_key : sg_spending_grant_id g = k;
  gb_used : sg_used_amount_usdc g = table_sum (held k RollingUsed) (fd_rolling d);
  gb_reserved : sg_reserved_amount_usdc g = table_sum (held k RollingReserved) (fd_rolling d);
  gb_total : sg_used_amount_usdc g + sg_reserved_amount_usdc g <= sg_max_amount_usdc g;
}.

Record balanced (d : FundingDb) : Prop := {
  ba_grants : ∀ k g, fd_grants d !! k = Some g → grant_balanced d k g;
  ba_used : ∀ key, daily_used d key = table_sum (held_on key RollingUsed) (fd_rolling d);
  ba_reserved : ∀ key,
    daily_reserved d key = table_sum (held_on key RollingReserved) (fd_rolling d);
  ba_lines : ∀ k u, fd_rolling d !! k = Some u → 0 < ru_amount_usdc u;
  ba_entries : ∀ k, entries d !! k = line_entry k <$> fd_rolling d !! k;
}.

(** ** Proof that every step keeps the balance *)

Lemma held_nonneg d key state :
  balanced d → ∀ k u, fd_rolling d !! k = Some u → 0 <= held key state u.
Proof.
  intros Hb k u Hk. unfold held. pose proof (ba_lines d Hb k u Hk). case_match; lia.
Qed.
Lemma held_on_nonneg d key state :
  balanced d → ∀ k u, fd_rolling d !! k = Some u → 0 <= held_on key state u.
Proof.
  intros Hb k u Hk. unfold held_on. case_match; [|done]. by eapply held_nonneg.
Qed.

Lemma alter_insert_eq {K A} `{Countable K} (f : A → A) (m : gmap K A) k a :
  m !! k = Some a → alter f k m = <[k := f a]> m.
Proof.
  intros Hk. apply map_eq. intros i. destruct (decide (i = k)) as [->|].
  - by rewrite lookup_alter_eq, lookup_insert_eq, Hk.
  - by rewrite lookup_alter_ne, lookup_insert_ne.
Qed.

(** A counter that follows a sum: a line is replaced and the counter moves by
    what it contributes. *)
Lemma table_sum_line f (m : gmap string SpendingGrantRollingUsageRow) k u u' c delta :
  m !! k = Some u → c = table_sum f m → f u' = f u + delta →
  c + delta = table_sum f (<[k := u']> m).
Proof. intros Hk -> Hf. rewrite (table_sum_insert f m k u u' Hk). lia. Qed.

Lemma table_sum_new_line f (m : gmap string SpendingGrantRollingUsageRow) k u c delta :
  m !! k = None → c = table_sum f m → f u = delta →
  c + delta = table_sum f (<[k := u]> m).
Proof. intros Hk -> Hf. rewrite table_sum_insert_new by done. lia. Qed.

Lemma balanced_frame d d' : books d' = books d → balanced d → balanced d'.
Proof.
  unfold books. intros [= Hg Hd Hr Hrec] [Bg Bu Br Bl Be].
  constructor; unfold daily_used, daily_reserved in *; rewrite ?Hg, ?Hd, ?Hr, ?Hrec; try done.
  intros k g Hk. destruct (Bg k g Hk). constructor; by rewrite ?Hr.
Qed.

Lemma balanced_edit d d' :
  (∀ k, option_Forall2 grant_edit (fd_grants d !! k) (fd_grants d' !! k)) →
  books d' = (fd_grants d', fd_daily d, fd_rolling d, entries d) →
  balanced d → balanced d'.
Proof.
  unfold books. intros Hf [= Hd Hr Hrec] [Bg Bu Br Bl Be].
  constructor; unfold daily_used, daily_reserved in *; rewrite ?Hd, ?Hr, ?Hrec; try done.
  intros k g' Hk. specialize (Hf k). rewrite Hk in Hf. inversion Hf as [g ? Hgg E|]; subst.
  symmetry in E. destruct (Bg k g E). destruct Hgg as (? & Hu & Hv & ?).
  constructor; rewrite ?Hr; try congruence. rewrite Hu, Hv. auto.
Qed.

(** Closing a line moves its amount out of the reserved sums and, when it was
    spent, into the used ones. *)
Lemma held_close gid (u : SpendingGrantRollingUsageRow) state now st :
  ru_state u = RollingReserved → state ∈ [RollingUsed; RollingReleased] →
  held gid st (u <| ru_state := state |> <| ru_updated_at := now |>) =
  held gid st u +
  (if bool_decide (ru_spending_grant_id u = gid) then
     match st with
     | RollingReserved => - ru_amount_usdc u
     | RollingUsed => spent state (ru_amount_usdc u)
     | RollingReleased => if bool_decide (state = RollingReleased) then ru_amount_usdc u else 0
     end else 0).
Proof.
  intros Hu Hs. unfold held, spent. simpl. rewrite Hu.
  case_bool_decide; simpl; [|lia]. list_cases; subst; destruct st; simpl; lia.
Qed.

Lemma held_on_close key (u : SpendingGrantRollingUsageRow) state now st date :
  ru_state u = RollingReserved → state ∈ [RollingUsed; RollingReleased] →
  day_of (ru_occurred_at u) = date →
  held_on key st (u <| ru_state := state |> <| ru_updated_at := now |>) =
  held_on key st u +
  (if bool_decide (key = (ru_spending_grant_id u, date)) then
     match st with
     | RollingReserved => - ru_amount_usdc u
     | RollingUsed => spent state (ru_amount_usdc u)
     | RollingReleased => if bool_decide (state = RollingReleased) then ru_amount_usdc u else 0
     end else 0).
Proof.
  intros Hu Hs Hd. pose proof (λ gid, held_close gid u state now st Hu Hs) as Hclose.
  set (u' := u <| ru_state := state |> <| ru_updated_at := now |>) in *. unfold held_on.
  change (ru_occurred_at u') with (ru_occurred_at u). rewrite Hd.
  destruct key as [gid day]. simpl. destruct (date =? day) eqn:E.
  - apply Z.eqb_eq in E as ->. rewrite Hclose. f_equal.
    repeat case_bool_decide; simplify_eq; done.
  - rewrite bool_decide_eq_false_2; [lia|]. intros [= _ ->]. by rewrite Z.eqb_refl in E.
Qed.

Lemma state_text_inj s s' : state_text s = state_text s' → s = s'.
Proof. by destruct s, s'. Qed.

Lemma balanced_reserve d d' g g' usage k amount now :
  fd_grants d !! sg_spending_grant_id g = Some g → 0 < amount →
  sg_used_amount_usdc g + sg_reserved_amount_usdc g + amount <= sg_max_amount_usdc g →
  fd_rolling d !! k = None → same_terms g g' →
  sg_used_amount_usdc g' = sg_used_amount_usdc g →
  sg_reserved_amount_usdc g' = sg_reserved_amount_usdc g + amount →
  du_used_amount_usdc usage = daily_used d (sg_spending_grant_id g, day_of now) →
  du_reserved_amount_usdc usage
    = daily_reserved d (sg_spending_grant_id g, day_of now) + amount →
  books d' = (<[sg_spending_grant_id g := g']> (fd_grants d),
              <[(sg_spending_grant_id g, day_of now) := usage]> (fd_daily d),
              <[k := MkRollingUsage (sg_spending_grant_id g) amount RollingReserved now now]>
                (fd_rolling d),
              <[k := MkEntry k (sg_spending_grant_id g) amount (day_of now) "reserved"]>
                (entries d)) →
  balanced d → balanced d'.
Proof.
  unfold books. intros Hgk Ha Hmax Hk (Hid & Hm & _) Hu' Hr' Hdu Hdr [= Hg Hd Hr Hrec]
    [Bg Bu Br Bl Be].
  set (gid := sg_spending_grant_id g) in *. set (line := MkRollingUsage _ _ _ _ _) in *.
  constructor; unfold daily_used, daily_reserved in *; rewrite ?Hg, ?Hd, ?Hr, ?Hrec.
  - intros k' g0 Hk'. destruct (decide (k' = gid)) as [->|Hne].
    + rewrite lookup_insert_eq in Hk'. injection Hk' as <-. destruct (Bg gid g Hgk).
      constructor; rewrite ?Hr; [done| | |lia].
      * rewrite Hu', <- (Z.add_0_r (sg_used_amount_usdc g)). apply table_sum_new_line; try done.
        unfold held. simpl. by rewrite andb_false_r.
      * rewrite Hr'. apply table_sum_new_line; try done. unfold held. simpl.
        by rewrite bool_decide_eq_true_2.
    + rewrite lookup_insert_ne in Hk' by done. destruct (Bg k' g0 Hk').
      constructor; rewrite ?Hr; [done| | |lia];
        rewrite table_sum_insert_new by done; unfold held at 1; simpl;
        rewrite bool_decide_eq_false_2 by done; simpl; lia.
  - intros key. rewrite table_sum_insert_new by done.
    assert (held_on key RollingUsed line = 0) as ->
      by (unfold held_on, held; simpl; rewrite andb_false_r; by case_match).
    rewrite <- Bu. destruct (decide (key = (gid, day_of now))) as [->|].
    + rewrite lookup_insert_eq. simpl. lia.
    + rewrite lookup_insert_ne by done. lia.
  - intros key. rewrite table_sum_insert_new by done. rewrite <- Br.
    destruct key as [k' date]. unfold held_on, held. simpl.
    destruct (decide ((k', date) = (gid, day_of now))) as [[= -> ->]|Hne].
    + rewrite lookup_insert_eq, Z.eqb_refl, bool_decide_eq_true_2 by done. simpl. lia.
    + rewrite lookup_insert_ne by done. destruct (day_of now =? date) eqn:E; [|lia].
      apply Z.eqb_eq in E as <-. rewrite bool_decide_eq_false_2 by congruence. simpl. lia.
  - intros k' u Hk'. destruct (decide (k' = k)) as [->|].
    + rewrite lookup_insert_eq in Hk'. by injection Hk' as <-.
    + rewrite lookup_insert_ne in Hk' by done. eauto.
  - intros k'. destruct (decide (k' = k)) as [->|].
    + by rewrite !lookup_insert_eq.
    + rewrite !lookup_insert_ne by done. apply Be.
Qed.

Lemma balanced_close d d' state g g' usage usage' k amount date now :
  state ∈ [RollingUsed; RollingReleased] →
  entries d !! k = Some (MkEntry k (sg_spending_grant_id g) amount date "reserved") →
  fd_grants d !! sg_spending_grant_id g = Some g →
  fd_daily d !! (sg_spending_grant_id g, date) = Some usage →
  same_terms g g' →
  sg_used_amount_usdc g' = sg_used_amount_usdc g + spent state amount →
  sg_reserved_amount_usdc g' = sg_reserved_amount_usdc g - amount →
  du_used_amount_usdc usage' = du_used_amount_usdc usage + spent state amount →
  du_reserved_amount_usdc usage' = du_reserved_amount_usdc usage - amount →
  books d' = (<[sg_spending_grant_id g := g']> (fd_grants d),
              <[(sg_spending_grant_id g, date) := usage']> (fd_daily d),
              alter (λ u, u <| ru_state := state |> <| ru_updated_at := now |>) k
                (fd_rolling d),
              <[k := MkEntry k (sg_spending_grant_id g) amount date (state_text state)]>
                (entries d)) →
  balanced d → balanced d'.
Proof.
  unfold books. intros Hs He Hgk Hdk (Hid & Hm & _) Hu' Hr' Hdu Hdr
    [= Hg Hd Hr Hrec] [Bg Bu Br Bl Be].
  pose proof (Be k) as Heu. rewrite He in Heu.
  destruct (fd_rolling d !! k) as [u|] eqn:Hku; [|done]. simpl in Heu.
  assert (ru_state u = RollingReserved) as Hust
    by (apply state_text_inj; unfold line_entry in Heu; simpl; congruence).
  injection Heu as Hgid Hamt Hdate _. symmetry in Hgid, Hdate. subst amount.
  rewrite (alter_insert_eq _ _ _ _ Hku) in Hr.
  set (gid := sg_spending_grant_id g) in *.
  pose proof (λ st, held_close (ru_spending_grant_id u) u state now st Hust Hs) as Hheld.
  pose proof (λ k' st, held_close k' u state now st Hust Hs) as Hother.
  pose proof (λ key st, held_on_close key u state now st date Hust Hs Hdate) as Hday.
  set (u' := u <| ru_state := state |> <| ru_updated_at := now |>) in *.
  constructor; unfold daily_used, daily_reserved in *; rewrite ?Hg, ?Hd, ?Hr, ?Hrec.
  - intros k' g0 Hk'. destruct (decide (k' = gid)) as [->|Hne].
    + rewrite lookup_insert_eq in Hk'. injection Hk' as <-. destruct (Bg gid g Hgk).
      constructor; rewrite ?Hr; [done| | |].
      * rewrite Hu'. eapply table_sum_line; [done..|]. rewrite Hother.
        by rewrite bool_decide_eq_true_2.
      * rewrite Hr'. unfold Z.sub. eapply table_sum_line; [done..|]. rewrite Hother.
        by rewrite bool_decide_eq_true_2.
      * pose proof (Bl k u Hku). rewrite Hu', Hr', Hm. unfold spent.
        destruct (bool_decide (state = RollingUsed)); lia.
    + rewrite lookup_insert_ne in Hk' by done. destruct (Bg k' g0 Hk').
      constructor; rewrite ?Hr; [done| | |lia];
        rewrite (table_sum_insert _ _ _ _ _ Hku), Hother, bool_decide_eq_false_2 by congruence;
        lia.
  - intros key. rewrite (table_sum_insert _ _ _ _ _ Hku), Hday, <- Bu, Hgid.
    destruct (decide (key = (gid, date))) as [->|Hkey].
    + rewrite lookup_insert_eq, Hdk, bool_decide_eq_true_2 by done. simpl. lia.
    + rewrite lookup_insert_ne, bool_decide_eq_false_2 by done. lia.
  - intros key. rewrite (table_sum_insert _ _ _ _ _ Hku), Hday, <- Br, Hgid.
    destruct (decide (key = (gid, date))) as [->|Hkey].
    + rewrite lookup_insert_eq, Hdk, bool_decide_eq_true_2 by done. simpl. lia.
    + rewrite lookup_insert_ne, bool_decide_eq_false_2 by done. lia.
  - intros k' u0 Hk'. destruct (decide (k' = k)) as [->|].
    + rewrite lookup_insert_eq in Hk'. injection Hk' as <-. exact (Bl k u Hku).
    + rewrite lookup_insert_ne in Hk' by done. eauto.
  - intros k'. destruct (decide (k' = k)) as [->|].
    + rewrite !lookup_insert_eq. unfold u', line_entry. simpl. by rewrite Hgid, Hdate.
    + rewrite !lookup_insert_ne by done. apply Be.
Qed.

(** Every step keeps the books balanced. *)
Lemma balanced_step d d' : ledger_step d d' → balanced d → balanced d'.
Proof.
  destruct 1; eauto using balanced_frame, balanced_edit,
    balanced_reserve, balanced_close.
Qed.
