(* ===== verification/BudgetFacts.v ===== *)
(** * What reserving, releasing and settling a budget do

    The exact effect of the budget operations of [Budget] on the tables, in the
    terms of the machine of [FundingMachine]. *)

From S2P Require Import Prelude PyValue Calendar Reservation Amounts LedgerTables LedgerStore.
From S2P Require Import Budget LedgerFacts FundingMachine CandidateChoice.

Open Scope string_scope.
Open Scope Z_scope.

(** ** Closing *)

(** The tables no budget operation touches. *)
Definition same_records (d d' : FundingDb) : Prop :=
  fd_records d' = fd_records d ∧ fd_bindings d' = fd_bindings d ∧
  fd_relayer_nonces d' = fd_relayer_nonces d ∧ fd_identities d' = fd_identities d ∧
  fd_allowances d' = fd_allowances d ∧ fd_installations d' = fd_installations d ∧
  fd_audit d' = fd_audit d.

(** The budget of an entry is closed: its amount leaves the reserved counters. *)
Record closes (state : RollingState) (e : Entry) (now : Z) (d d' : FundingDb)
    (g g' : SpendingGrantRow) (usage usage' : SpendingGrantDailyUsageRow) : Prop := {
  cl_grant : fd_grants d !! en_grant_id e = Some g;
  cl_usage : fd_daily d !! (sg_spending_grant_id g, en_date e) = Some usage;
  cl_reserved : en_amount e <= sg_reserved_amount_usdc g;
  cl_reserved_on : en_amount e <= du_reserved_amount_usdc usage;
  cl_terms : same_terms g g';
  cl_used' : sg_used_amount_usdc g' = sg_used_amount_usdc g + spent state (en_amount e);
  cl_reserved' : sg_reserved_amount_usdc g' = sg_reserved_amount_usdc g - en_amount e;
  cl_used_on' : du_used_amount_usdc usage'
                = du_used_amount_usdc usage + spent state (en_amount e);
  cl_reserved_on' : du_reserved_amount_usdc usage'
                    = du_reserved_amount_usdc usage - en_amount e;
  cl_grants : fd_grants d' = <[sg_spending_grant_id g := g']> (fd_grants d);
  cl_daily : fd_daily d' = <[(sg_spending_grant_id g, en_date e) := usage']> (fd_daily d);
  cl_rolling : fd_rolling d' =
    alter (λ u, u <| ru_state := state |> <| ru_updated_at := now |>) (en_reservation_id e)
      (fd_rolling d);
  cl_records : same_records d d';
}.

Lemma entry_of_Some p e :
  entry_of p = Some e →
  dict_get p "reservation_id" = PStr (en_reservation_id e) ∧
  dict_get p "spending_grant_id" = PStr (en_grant_id e) ∧
  row_amount p = Ok (en_amount e) ∧ row_usage_date p = Ok (en_date e) ∧
  dict_get p "budget_accounting_state" = PStr (en_state e).
Proof.
  unfold entry_of. repeat case_match; try done. by intros [= <-].
Qed.

Lemma dict_item_get p f v : dict_item p f = Ok v → dict_get p f = v.
Proof. unfold dict_item, dict_get. intros Hv. txn_inv. by rewrite Hv. Qed.
Lemma dict_get_item p f v : dict_get p f = v → v ≠ PNone → dict_item p f = Ok v.
Proof. unfold dict_item, dict_get. by destruct (dict_find p f); simpl; intros; subst. Qed.

Lemma close_rolling_Ok row k state now d u d' :
  dict_get row "reservation_id" = PStr k → close_rolling row state now d = Ok (u, d') →
  d' = d <| fd_rolling :=
    alter (λ u, u <| ru_state := state |> <| ru_updated_at := now |>) k (fd_rolling d) |>.
Proof.
  unfold close_rolling. intros Hk Hc.
  apply txn_bind_Ok in Hc as (v & ? & [Hv ->]%lifts_Ok & Hc).
  apply dict_item_get in Hv. rewrite Hk in Hv. subst v.
  apply txn_bind_Ok in Hc as (? & ? & [-> ->]%reads_Ok & Hc). change (id d) with d in Hc.
  simpl in Hc. destruct (fd_rolling d !! k) as [r|] eqn:E.
  - unfold put_rolling in Hc. txn_inv. by rewrite (alter_insert_eq _ _ _ _ E).
  - txn_inv. destruct d; simpl in *. f_equal. apply map_eq. intros i.
    destruct (decide (i = k)) as [->|]; [by rewrite lookup_alter_eq, E|by rewrite lookup_alter_ne].
Qed.

Lemma charged_rows_Ok row e d amount g key usage :
  entry_of row = Some e → charged_rows row d = Ok (amount, g, key, usage) →
  amount = en_amount e ∧ key = (sg_spending_grant_id g, en_date e) ∧
  fd_grants d !! en_grant_id e = Some g ∧ fd_daily d !! key = Some usage ∧
  en_amount e <= sg_reserved_amount_usdc g ∧ en_amount e <= du_reserved_amount_usdc usage.
Proof.
  intros (Hk & Hg & Ha & Hd & _)%entry_of_Some. unfold charged_rows. rewrite Ha, Hd.
  rewrite (dict_get_item _ _ _ Hg) by done. intros Hc. txn_inv. bool_inv. done.
Qed.

Lemma same_terms_reactivated g g' now d : same_terms g g' → same_terms g (reactivated g' now d).
Proof. unfold reactivated. by case_match. Qed.
Lemma same_terms_exhausted g g' : same_terms g g' → same_terms g (exhausted g').
Proof. unfold exhausted. by case_match. Qed.
Lemma reactivated_counters g now d :
  sg_used_amount_usdc (reactivated g now d) = sg_used_amount_usdc g ∧
  sg_reserved_amount_usdc (reactivated g now d) = sg_reserved_amount_usdc g.
Proof. unfold reactivated. by case_match. Qed.
Lemma exhausted_counters g :
  sg_used_amount_usdc (exhausted g) = sg_used_amount_usdc g ∧
  sg_reserved_amount_usdc (exhausted g) = sg_reserved_amount_usdc g.
Proof. unfold exhausted. by case_match. Qed.

(** Releasing a reservation that is not released yet closes its entry. *)
Lemma release_Ok row e now d row' d' :
  entry_of row = Some e → release_unified_budget row now d = Ok (row', d') →
  en_state e = "released" ∧ row' = row ∧ d' = d ∨
  en_state e = "reserved" ∧ row' = dict_set row "budget_accounting_state" (PStr "released") ∧
  ∃ g g' usage usage', closes RollingReleased e now d d' g g' usage usage'.
Proof.
  intros He Hr. pose proof (entry_of_Some _ _ He) as (Hk & _ & _ & _ & Hs).
  unfold release_unified_budget in Hr. unfold accounting_is in Hr. rewrite Hs in Hr.
  apply txn_bind_Ok in Hr as (? & ? & [_ ->]%lifts_Ok & Hr).
  destruct (is_text (PStr (en_state e)) "released") eqn:E.
  { apply is_text_eq in E as [= Es]. txn_inv. by left. }
  apply txn_bind_Ok in Hr as (? & ? & ([= E2]%is_text_eq & _ & ->)%requires_Ok & Hr).
  apply txn_bind_Ok in Hr as (? & ? & [-> ->]%reads_Ok & Hr). change (id d) with d in Hr.
  apply txn_bind_Ok in Hr as ([[[amount g] key] usage] & ? & [Hc ->]%lifts_Ok & Hr).
  apply (charged_rows_Ok _ _ _ _ _ _ _ He) in Hc as (-> & -> & Hg & Hu & Ha & Hb).
  unfold put_grant, put_daily in Hr.
  apply txn_bind_Ok in Hr as (? & d1 & [-> ->]%writes_Ok & Hr).
  apply txn_bind_Ok in Hr as (? & d1 & [-> ->]%writes_Ok & Hr).
  apply txn_bind_Ok in Hr as (? & d1 & Hc & [-> ->]%mret_Ok).
  apply (close_rolling_Ok _ _ _ _ _ _ _ Hk) in Hc as ->.
  right. split_and!; [done|done|]. set (g' := g <| sg_reserved_amount_usdc := _ |> <| sg_updated_at := now |>).
  exists g, (reactivated g' now d), usage. eexists.
  destruct (reactivated_counters g' now d) as [Hu1 Hu2].
  assert (same_terms g (reactivated g' now d)) as Ht by by apply same_terms_reactivated.
  pose proof Ht as (Hid & _).
  constructor; try done; rewrite ?Hu1, ?Hu2; simpl; unfold spent; simpl; try lia.
  by rewrite Hid.
Qed.

(** Settling one does too, and spends its amount. *)
Lemma settle_Ok row e now d row' d' :
  entry_of row = Some e → settle_unified_budget row now d = Ok (row', d') →
  en_state e = "settled" ∧ row' = row ∧ d' = d ∨
  en_state e = "reserved" ∧ row' = dict_set row "budget_accounting_state" (PStr "settled") ∧
  ∃ g g' usage usage', closes RollingUsed e now d d' g g' usage usage'.
Proof.
  intros He Hr. pose proof (entry_of_Some _ _ He) as (Hk & _ & _ & _ & Hs).
  unfold settle_unified_budget in Hr. unfold accounting_is in Hr. rewrite Hs in Hr.
  apply txn_bind_Ok in Hr as (? & ? & [_ ->]%lifts_Ok & Hr).
  destruct (is_text (PStr (en_state e)) "settled") eqn:E.
  { apply is_text_eq in E as [= Es]. txn_inv. by left. }
  apply txn_bind_Ok in Hr as (? & ? & ([= E2]%is_text_eq & _ & ->)%requires_Ok & Hr).
  apply txn_bind_Ok in Hr as (? & ? & [-> ->]%reads_Ok & Hr). change (id d) with d in Hr.
  apply txn_bind_Ok in Hr as ([[[amount g] key] usage] & ? & [Hc ->]%lifts_Ok & Hr).
  apply (charged_rows_Ok _ _ _ _ _ _ _ He) in Hc as (-> & -> & Hg & Hu & Ha & Hb).
  unfold put_grant, put_daily in Hr.
  apply txn_bind_Ok in Hr as (? & d1 & [-> ->]%writes_Ok & Hr).
  apply txn_bind_Ok in Hr as (? & d1 & [-> ->]%writes_Ok & Hr).
  apply txn_bind_Ok in Hr as (? & d1 & Hc & [-> ->]%mret_Ok).
  apply (close_rolling_Ok _ _ _ _ _ _ _ Hk) in Hc as ->.
  right. split_and!; [done|done|]. set (g' := g <| sg_reserved_amount_usdc := _ |>
    <| sg_used_amount_usdc := _ |> <| sg_updated_at := now |>).
  exists g, (exhausted g'), usage. eexists.
  destruct (exhausted_counters g') as [Hu1 Hu2].
  assert (same_terms g (exhausted g')) as Ht by by apply same_terms_exhausted.
  pose proof Ht as (Hid & _).
  constructor; try done; rewrite ?Hu1, ?Hu2; simpl; unfold spent; simpl; try lia.
  by rewrite Hid.
Qed.

(** ** Reserving *)

(** A grant every scope and every limit lets pay an amount at an instant. *)
Record payable (rq : CreateSpendingReservationRequest) (user_id agent_id : string)
    (amount now : Z) (d : FundingDb) (g : SpendingGrantRow) : Prop := {
  py_row : ∃ k, fd_grants d !! k = Some g;
  py_actor : sg_user_id g = user_id ∧ sg_agent_id g = agent_id;
  py_wallet : ∃ k w, fd_identities d !! k = Some w ∧ wi_status w = "active" ∧
    wi_user_id w = user_id ∧ wi_wallet_identity_id w = sg_wallet_identity_id g;
  py_active : sg_status g = "active" ∧ sg_starts_at g <= now < sg_expires_at g;
  py_product : opt_in (rq_product rq) (sg_product_scopes g) = true;
  py_venue : scope_allows (sg_venue_scopes g) (rq_venue rq) = true;
  py_merchant : scope_allows (sg_merchant_scopes g) (rq_merchant_id rq) = true;
  py_trust : rq_product rq = Some "marketplace" ∨ is_Some (rq_merchant_trust_tier rq) →
    opt_in (rq_merchant_trust_tier rq) (sg_merchant_trust_scopes g) = true;
  py_network : rq_network rq ∈ sg_network_scopes g;
  py_transaction : amount <= sg_per_transaction_limit_usdc g;
  py_total : sg_used_amount_usdc g + sg_reserved_amount_usdc g + amount
             <= sg_max_amount_usdc g;
  py_daily : daily_total d (sg_spending_grant_id g) (day_of now) + amount
             <= sg_daily_limit_usdc g;
  py_hourly : rolling_total d (sg_spending_grant_id g) (now - us_per_hour) + amount
              <= sg_hourly_limit_usdc g;
}.

Lemma elem_of_rows {A} (m : gmap string A) a : a ∈ rows m ↔ ∃ k, m !! k = Some a.
Proof.
  unfold rows. rewrite list_elem_of_fmap. split.
  - intros ([k a'] & -> & Hin). exists k. by apply elem_of_map_to_list.
  - intros (k & Hk). exists (k, a). split; [done|]. by apply elem_of_map_to_list.
Qed.

Lemma filter_stages_Ok stages gs gs' :
  filter_stages stages gs = Ok gs' →
  ∀ g, g ∈ gs' → g ∈ gs ∧ Forall (λ s : string * (SpendingGrantRow → bool), s.2 g = true) stages.
Proof.
  revert gs. induction stages as [|[reason p] stages IH]; simpl; intros gs Hf g Hg.
  - injection Hf as <-. auto.
  - apply result_bind_Ok in Hf as (? & _ & Hf). apply (IH _ Hf) in Hg as [Hg Hs].
    apply list_elem_of_filter in Hg as [? ?]. auto.
Qed.

Lemma actor_grants_Ok user_id agent_id now d gs :
  actor_grants user_id agent_id now d = Ok gs →
  ∀ g, g ∈ gs →
    (∃ k, fd_grants d !! k = Some g) ∧ (sg_user_id g = user_id ∧ sg_agent_id g = agent_id) ∧
    (∃ k w, fd_identities d !! k = Some w ∧ wi_status w = "active" ∧
       wi_user_id w = user_id ∧ wi_wallet_identity_id w = sg_wallet_identity_id g) ∧
    (sg_status g = "active" ∧ sg_starts_at g <= now < sg_expires_at g).
Proof.
  unfold actor_grants. intros Ha g Hg. txn_inv.
  apply list_elem_of_filter in Hg as [(Hu & Ha & Hw & Hs & Ht) Hg].
  apply elem_of_rows in Hg. apply list_elem_of_fmap in Hw as (w & Hw & Hin).
  apply list_elem_of_filter in Hin as [[? ?] [k Hk]%elem_of_rows].
  split_and!; try done; try apply Ht. by exists k, w.
Qed.

Lemma eligible_grants_Ok rq user_id agent_id amount now d gs :
  eligible_grants rq user_id agent_id amount now d = Ok gs →
  ∀ g, g ∈ gs → payable rq user_id agent_id amount now d g.
Proof.
  unfold eligible_grants. intros He g Hg.
  apply result_bind_Ok in He as (gs1 & H1 & He).
  apply result_bind_Ok in He as (gs2 & H2 & He). txn_inv.
  apply list_elem_of_filter in Hg as [Hh [Hd Hg]%list_elem_of_filter].
  apply (filter_stages_Ok _ _ _ H2) in Hg as [Hg Hs].
  apply (actor_grants_Ok _ _ _ _ _ H1) in Hg as (? & ? & ? & ?).
  unfold scope_stages in Hs. rewrite !Forall_cons in Hs. simpl in Hs.
  destruct Hs as (? & ? & ? & Ht & ? & ? & ? & _). bool_inv. constructor; try done.
  intros Htier. apply orb_true_iff in Ht as [Ht|Ht]; [|done]. bool_inv.
  destruct Htier as [?|[? ?]]; congruence.
Qed.

(** The selected wallet is that of the grant.  The asset of a request, worth [amount] in
    its atomic units, is the canonical token of its rail and in the scope of the
    grant; on an allowance-backed rail, the selected allowance of the wallet is
    active and covers it. *)
Definition asset_allowed (rq : CreateSpendingReservationRequest) (amount : Z) (selected : Selection)
    (external_token_decimals : Z) (canonical_token_address : option string) (d : FundingDb)
    (g : SpendingGrantRow) : Prop :=
  se_wallet_identity_id selected = sg_wallet_identity_id g ∧
  ∃ atomic, atomic_amount (rq_amount_atomic rq) = Ok atomic ∧
  if bool_decide (rq_authorization_rail rq = "external_x402") then
    let token_address := lower (default EmptyString (rq_token_address rq)) in
    Some token_address = canonical_token_address ∧ token_address ∈ map lower (sg_asset_scopes g) ∧
    atomic_matches amount external_token_decimals atomic = true
  else
    ∃ k a, fd_allowances d !! k = Some a ∧ se_asset_allowance_id selected = Some (aa_asset_allowance_id a) ∧
    aa_wallet_identity_id a = sg_wallet_identity_id g ∧ aa_status a = "active" ∧
    aa_network a = rq_network rq ∧ Some (aa_token_address a) = canonical_token_address ∧
    aa_token_address a ∈ sg_asset_scopes g ∧
    lower (rq_asset rq) ∈ [lower (aa_token_symbol a); lower (aa_token_address a)] ∧
    atomic_matches amount (aa_token_decimals a) atomic = true ∧
    atomic <= aa_observed_allowance_atomic a.

(** The effect of a new reservation on the budget. *)
Record reserves (g : SpendingGrantRow) (k : string) (amount now : Z) (d d' : FundingDb)
    (g' : SpendingGrantRow) (usage : SpendingGrantDailyUsageRow) : Prop := {
  rs_fresh : fd_rolling d !! k = None;
  rs_terms : same_terms g g';
  rs_used : sg_used_amount_usdc g' = sg_used_amount_usdc g;
  rs_reserved : sg_reserved_amount_usdc g' = sg_reserved_amount_usdc g + amount;
  rs_used_on : du_used_amount_usdc usage = daily_used d (sg_spending_grant_id g, day_of now);
  rs_reserved_on : du_reserved_amount_usdc usage
    = daily_reserved d (sg_spending_grant_id g, day_of now) + amount;
  rs_grants : fd_grants d' = <[sg_spending_grant_id g := g']> (fd_grants d);
  rs_daily : fd_daily d' = <[(sg_spending_grant_id g, day_of now) := usage]> (fd_daily d);
  rs_rolling : fd_rolling d' =
    <[k := MkRollingUsage (sg_spending_grant_id g) amount RollingReserved now now]>
      (fd_rolling d);
  rs_records : same_records d d';
}.

Section Reserve.
Context `{Sha256}.

Lemma commit_Ok g amount now k d u d' :
  commit_budget_reservation g amount now (day_of now) k d = Ok (u, d') →
  ∃ g' usage, reserves g k amount now d d' g' usage.
Proof.
  unfold commit_budget_reservation, put_grant, put_daily, put_rolling. intros Hc. txn_inv.
  bool_inv. set (key := (sg_spending_grant_id g, day_of now)) in *.
  exists (g <| sg_reserved_amount_usdc := sg_reserved_amount_usdc g + amount |>
            <| sg_updated_at := now |>).
  set (usage := default (new_daily_usage (sg_spending_grant_id g) (day_of now) now)
                  (fd_daily d !! key)) in *.
  exists (usage <| du_reserved_amount_usdc := du_reserved_amount_usdc usage + amount |>
                <| du_updated_at := now |>). subst usage.
  constructor; try done; simpl; unfold daily_used, daily_reserved;
    fold key; by destruct (fd_daily d !! key).
Qed.

Lemma reserve_on_Ok rq user_id amount now k expected g selection d date d' :
  reserve_on rq user_id amount now k (Some expected) g selection d = Ok (date, d') →
  date = day_of now ∧ selection = expected ∧
  ∃ g' usage, reserves g k amount now d d' g' usage.
Proof.
  unfold reserve_on. intros Hr.
  apply txn_bind_Ok in Hr as (? & ? & (Hs%bool_decide_eq_true & _ & ->)%requires_Ok & Hr).
  apply txn_bind_Ok in Hr as (? & ? & [-> ->]%reads_Ok & Hr). change (id d) with d in Hr.
  apply txn_bind_Ok in Hr as (? & ? & [_ ->]%lifts_Ok & Hr).
  apply txn_bind_Ok in Hr as (? & d1 & Hc & [-> ->]%mret_Ok).
  apply commit_Ok in Hc. done.
Qed.

(** A reservation that succeeds charges a payable grant, the expected one. *)
Lemma reserve_unified_budget_Ok rq user_id agent_id amount now k expected decimals symbol token
    d b d' :
  reserve_unified_budget rq user_id agent_id amount now k (Some expected) decimals symbol token d
    = Ok (b, d') →
  ∃ g g' usage, payable rq user_id agent_id amount now d g ∧
    asset_allowed rq amount expected decimals token d g ∧
    reserves g k amount now d d' g' usage ∧
    rb_selection b = expected ∧ se_spending_grant_id expected = sg_spending_grant_id g ∧
    rb_usage_date b = day_of now.
Proof.
  unfold reserve_unified_budget. intros Hr.
  apply txn_bind_Ok in Hr as (? & ? & [-> ->]%reads_Ok & Hr). change (id d) with d in Hr.
  apply txn_bind_Ok in Hr as (? & ? & [_ ->]%lifts_Ok & Hr).
  apply txn_bind_Ok in Hr as (gs & ? & [Hgs ->]%lifts_Ok & Hr).
  apply txn_bind_Ok in Hr as (atomic & ? & [Hat ->]%lifts_Ok & Hr).
  pose proof (eligible_grants_Ok _ _ _ _ _ _ _ Hgs) as Hpay. unfold asset_allowed. rewrite Hat.
  case_bool_decide.
  - unfold reserve_external in Hr.
    apply txn_bind_Ok in Hr as (? & ? & (Hcanon%bool_decide_eq_true & _ & ->)%requires_Ok & Hr).
    apply txn_bind_Ok in Hr as (g & ? & [Hg%from_option_or_Ok ->]%lifts_Ok & Hr).
    apply txn_bind_Ok in Hr as (? & ? & (Hmatch & _ & ->)%requires_Ok & Hr).
    apply txn_bind_Ok in Hr as (date & ? & Hon & [-> ->]%mret_Ok).
    apply reserve_on_Ok in Hon as (-> & <- & g' & usage & Hrs).
    apply pick_min_member, list_elem_of_filter in Hg as [Hscope Hg].
    exists g, g', usage. split_and!; try done; [by apply Hpay|]. by exists atomic.
  - unfold reserve_allowance in Hr.
    apply txn_bind_Ok in Hr as (? & ? & [-> ->]%reads_Ok & Hr). change (id d) with d in Hr.
    apply txn_bind_Ok in Hr as (? & ? & (_ & _ & ->)%requires_Ok & Hr).
    apply txn_bind_Ok in Hr as ([g a] & ? & [Hg%from_option_or_Ok ->]%lifts_Ok & Hr).
    apply txn_bind_Ok in Hr as (date & ? & Hon & [-> ->]%mret_Ok).
    apply reserve_on_Ok in Hon as (-> & <- & g' & usage & Hrs).
    apply pick_min_member, list_elem_of_filter in Hg as [Hobs [Hmatch Hg]%list_elem_of_filter].
    unfold asset_pairs in Hg. apply list_elem_of_filter in Hg as [(Hw & Hscope & Has) Hg].
    apply list_elem_of_bind in Hg as (g0 & Hg & Hin). apply list_elem_of_bind in Hg as (a0 & Hg & Hina).
    apply list_elem_of_singleton in Hg as [= <- <-].
    apply list_elem_of_filter in Hina as [(_ & Hst & Hn & Ht & _) [ka Hka]%elem_of_rows].
    exists g, g', usage. split_and!; try done; [by apply Hpay|]. exists atomic. split; [done|].
    by exists ka, a.
Qed.
End Reserve.
