(* ===== verification/FundingEffects.v ===== *)
(** * Effects of a transaction on the funding ledger

    What a transaction may do to the database: one step of the books, one write
    of a reservation, receipts added, nonces advanced, audit events appended;
    and how the effects of its parts compose. *)

From S2P Require Import Prelude PyValue Calendar Reservation Amounts LedgerTables LedgerStore.
From S2P Require Import Budget FundingService LedgerFacts FundingMachine BudgetFacts.

Open Scope string_scope.
Open Scope Z_scope.

(** ** The rows of the ledger *)

(** A row that is no reservation: nothing is bound to it and no reservation
    write can replace it. *)
Definition receipt_row (r : LedgerRow) : Prop :=
  ¬ is_reservation_row r ∧ lr_tx_hash r = None ∧ lr_payload r ≠ [] ∧
  dict_get (lr_payload r) "reservation_id" = PNone ∧
  dict_get (lr_payload r) "single_submission" = PNone.

(** Every stored row is a reservation with an entry, or a receipt. *)
Definition typed (d : FundingDb) : Prop :=
  ∀ k r, fd_records d !! k = Some r →
    is_reservation_row r ∧ is_Some (entry_of (lr_payload r)) ∨ receipt_row r.

(** The accounting state that goes with each state of a reservation. *)
Definition accounting_of (state : string) : option string :=
  match state with
  | "spending_reserved" | "payment_submitted" => Some "reserved"
  | "settled" | "finalized" => Some "settled"
  | "released" => Some "released"
  | _ => None
  end.

(** A reservation is in a state that agrees with its accounting.  The payer proxy,
    which is charged before the merchant is paid, is set apart. *)
Definition stage_ok (p : pydict) : Prop :=
  is_proxy p = false →
  ∃ s b, dict_get p "state" = PStr s ∧ dict_get p "budget_accounting_state" = PStr b ∧
    accounting_of s = Some b.

Definition staged (d : FundingDb) : Prop :=
  ∀ k r, fd_records d !! k = Some r → is_reservation_row r → stage_ok (lr_payload r).

Record well_formed (d : FundingDb) : Prop := {
  wf_balanced : balanced d;
  wf_typed : typed d;
  wf_staged : staged d;
}.

(** Two payloads that agree on some fields. *)
Definition same_on (fields : list string) (p q : pydict) : Prop :=
  ∀ f, f ∈ fields → dict_find q f = dict_find p f.
Definition STAGE_FIELDS : list string :=
  ["authorization_rail"; "state"; "budget_accounting_state"].

Lemma same_on_refl fields p : same_on fields p p.
Proof. done. Qed.

Lemma same_on_set fields p q k v :
  bool_decide (k ∉ fields) = true → same_on fields p q → same_on fields p (dict_set q k v).
Proof.
  intros Hk%bool_decide_eq_true Hpq f Hf. rewrite dict_find_set_ne; [by apply Hpq|]. by intros ->.
Qed.

Lemma same_on_update fields p q kvs :
  forallb (λ kv : string * pyval, bool_decide (kv.1 ∉ fields)) kvs = true →
  same_on fields p q → same_on fields p (dict_update q kvs).
Proof.
  unfold dict_update. revert q. induction kvs as [|kv kvs IH]; intros q; [done|].
  simpl. intros [Hk Hkvs]%andb_true_iff Hpq. apply IH; [done|]. by apply same_on_set.
Qed.

Lemma same_on_get fields p q f : same_on fields p q → f ∈ fields → dict_get q f = dict_get p f.
Proof. intros Hpq Hf. unfold dict_get. by rewrite Hpq. Qed.

(** [same_fields]: an edit that leaves the fields alone. *)
Ltac same_fields :=
  repeat case_match;
  repeat first [apply same_on_set; [reflexivity|] | apply same_on_update; [reflexivity|]];
  apply same_on_refl.

Lemma same_stage p q : same_on STAGE_FIELDS p q → stage_ok p → stage_ok q.
Proof.
  intros Hpq. unfold stage_ok, is_proxy.
  by rewrite !(same_on_get _ _ _ _ Hpq) by (unfold STAGE_FIELDS; list_member).
Qed.

Lemma stage_redact p : stage_ok (redact_external_payment_payload p) ↔ stage_ok p.
Proof.
  assert (∀ f, f ∈ STAGE_FIELDS → dict_find (redact_external_payment_payload p) f = dict_find p f)
    as Hf.
  { intros f Hin. unfold redact_external_payment_payload. rewrite !dict_find_pop, !decide_False;
      [done|intros ->; revert Hin; decided..]. }
  split; apply same_stage; intros f Hin; [symmetry|]; by apply Hf.
Qed.

Lemma dict_find_update d kvs f :
  dict_find (dict_update d kvs) f =
  match dict_find (rev kvs) f with Some v => Some v | None => dict_find d f end.
Proof.
  unfold dict_update. revert d. induction kvs as [|[k v] kvs IH] using rev_ind; intros d; [done|].
  rewrite foldl_app, rev_app_distr. simpl. rewrite dict_find_set, IH.
  by case_decide; case_bool_decide.
Qed.

Lemma py_in_strs v l : py_in v (strs l) = true → v ∈ strs l.
Proof.
  unfold py_in. intros (w & Hw & Hv)%existsb_exists. apply list_elem_of_In in Hw.
  assert (∃ s, w = PStr s) as [s ->].
  { unfold strs in Hw. apply list_elem_of_fmap in Hw as (s & -> & _). eauto. }
  by apply is_text_eq in Hv as ->.
Qed.

Lemma state_in_Ok row states :
  state_in row states = Ok true → ∃ s, dict_get row "state" = PStr s ∧ s ∈ states.
Proof.
  unfold state_in, in_set. intros Hs. apply result_bind_Ok in Hs as (v & Hv%dict_item_get & Hs).
  destruct (py_hashable v); [|done]. injection Hs as Hs.
  apply py_in_strs, list_elem_of_fmap in Hs as (s & -> & Hs). eauto.
Qed.

Lemma stage_proxy p q : same_on ["authorization_rail"] p q → is_proxy p = true → stage_ok q.
Proof.
  unfold stage_ok, is_proxy. intros Hpq. rewrite (same_on_get _ _ _ _ Hpq) by list_member.
  by intros ->.
Qed.

(** An edit that moves the state. *)
Lemma stage_moved row kvs s b :
  dict_find (rev kvs) "authorization_rail" = None →
  dict_find (rev kvs) "state" = Some (PStr s) →
  dict_find (rev kvs) "budget_accounting_state" = None →
  (is_proxy row = false → dict_get row "budget_accounting_state" = PStr b) →
  accounting_of s = Some b → stage_ok (dict_update row kvs).
Proof.
  intros Hr Hs Hb Hrow Ha. unfold stage_ok, is_proxy, dict_get in *.
  rewrite !dict_find_update, Hr, Hs, Hb. simpl. eauto 10.
Qed.

Lemma stage_accounting row s b :
  stage_ok row → dict_get row "state" = PStr s → accounting_of s = Some b →
  is_proxy row = false → dict_get row "budget_accounting_state" = PStr b.
Proof. intros Hst Hs Ha Hp. destruct (Hst Hp) as (? & ? & ? & ? & ?). congruence. Qed.

Lemma stage_step row kvs s s0 b :
  dict_find (rev kvs) "authorization_rail" = None →
  dict_find (rev kvs) "state" = Some (PStr s) →
  dict_find (rev kvs) "budget_accounting_state" = None →
  dict_get row "state" = PStr s0 → accounting_of s0 = Some b → accounting_of s = Some b →
  stage_ok row → stage_ok (dict_update row kvs).
Proof.
  intros Hr Hs Hb H0 Ha0 Ha Hst. eapply stage_moved; try done. by eapply stage_accounting.
Qed.

(** The stored rows are kept; those that are new are receipts. *)
Definition receipts_added (d d' : FundingDb) : Prop :=
  fd_records d ⊆ fd_records d' ∧
  ∀ k r, fd_records d' !! k = Some r → fd_records d !! k = None → receipt_row r.

Lemma receipts_same d d' : fd_records d' = fd_records d → receipts_added d d'.
Proof. intros Hr. unfold receipts_added. rewrite Hr. split; [done|]. congruence. Qed.

Lemma receipts_trans d d1 d2 :
  receipts_added d d1 → receipts_added d1 d2 → receipts_added d d2.
Proof.
  intros [Hs Hr] [Hs1 Hr1]. split; [by etrans|]. intros k r Hk Hn.
  destruct (fd_records d1 !! k) as [r1|] eqn:E; [|eauto].
  pose proof (lookup_weaken _ _ _ _ E Hs1). simplify_eq. eauto.
Qed.

Lemma receipts_typed d d' : receipts_added d d' → typed d → typed d'.
Proof.
  intros [Hs Hr] Ht k r Hk. destruct (fd_records d !! k) as [r0|] eqn:E; [|right; eauto].
  pose proof (lookup_weaken _ _ _ _ E Hs). simplify_eq. eauto.
Qed.

Lemma receipts_staged d d' : receipts_added d d' → staged d → staged d'.
Proof.
  intros [Hs Hr] Ht k r Hk Hres. destruct (fd_records d !! k) as [r0|] eqn:E.
  - pose proof (lookup_weaken _ _ _ _ E Hs). simplify_eq. eauto.
  - by destruct (Hr k r Hk E).
Qed.

(** ** Entries *)

Lemma entries_lookup d k :
  entries d !! k =
  r ← fd_records d !! k;
  if bool_decide (is_reservation_row r) then entry_of (lr_payload r) else None.
Proof. unfold entries. by rewrite lookup_omap. Qed.

Lemma entries_receipts d d' : receipts_added d d' → entries d' = entries d.
Proof.
  intros [Hs Hr]. apply map_eq. intros k. rewrite !entries_lookup.
  destruct (fd_records d !! k) as [r|] eqn:E.
  - by rewrite (lookup_weaken _ _ _ _ E Hs).
  - destruct (fd_records d' !! k) as [r'|] eqn:E'; [|done]. simpl.
    rewrite bool_decide_eq_false_2; [done|]. by apply (Hr k r' E' E).
Qed.

Lemma entries_written k payload identity d r d' e :
  written k payload identity d r d' → entry_of payload = Some e →
  entries d' = <[k := e]> (entries d).
Proof.
  intros Hw He. apply map_eq. intros i. rewrite entries_lookup, (wr_records _ _ _ _ _ _ Hw).
  destruct (decide (i = k)) as [->|].
  - rewrite !lookup_insert_eq. simpl. rewrite bool_decide_eq_true_2 by apply Hw.
    by rewrite (entry_of_written _ _ _ _ _ _ Hw).
  - rewrite !lookup_insert_ne by done. by rewrite entries_lookup.
Qed.

(** A row that names itself is a reservation: its entry is its line. *)
Lemma get_entry d k row :
  well_formed d → get k d = Some row → dict_get row "reservation_id" ≠ PNone →
  ∃ r u, fd_records d !! k = Some r ∧ fd_rolling d !! k = Some u ∧
    is_reservation_row r ∧ entries d !! k = entry_of row ∧ entry_of row = Some (line_entry k u).
Proof.
  unfold get. intros [Hb Ht _] Hk Hid. destruct (fd_records d !! k) as [r|] eqn:E; [|done].
  injection Hk as <-. unfold visible_payload in *.
  destruct (Ht k r E) as [[Hr [e He]]|(Hr & _ & _ & Hn & _)].
  - rewrite bool_decide_eq_true_2 by done. pose proof (ba_entries d Hb k) as Hk.
    rewrite entries_lookup, E in Hk. simpl in Hk.
    rewrite bool_decide_eq_true_2, He in Hk by done.
    destruct (fd_rolling d !! k) as [u|] eqn:Eu; [|done]. simpl in Hk.
    exists r, u. rewrite entries_lookup, E. simpl.
    rewrite bool_decide_eq_true_2, entry_of_redact, He by done. by split_and!.
  - rewrite bool_decide_eq_false_2 in Hid by done. done.
Qed.

(** ** Effects *)

(** At most one reservation is written, by [put], after receipts were added. *)
Inductive record_step (d d' : FundingDb) : Prop :=
| rs_same :
    receipts_added d d' → fd_bindings d' = fd_bindings d → record_step d d'
| rs_written k payload identity d1 r :
    receipts_added d d1 → fd_bindings d1 = fd_bindings d →
    written k payload identity d1 r d' → is_Some (entry_of payload) → stage_ok payload →
    record_step d d'.

(** The next nonce of a relayer never moves back. *)
Definition nonces_grow (d d' : FundingDb) : Prop :=
  ∀ key a, fd_relayer_nonces d !! key = Some a →
    ∃ a', fd_relayer_nonces d' !! key = Some a' ∧ rn_next_nonce a <= rn_next_nonce a'.

Record effect (d d' : FundingDb) : Prop := {
  ef_books : ledger_step d d';
  ef_records : record_step d d';
  ef_nonces : nonces_grow d d';
  ef_audit : fd_audit d ⊆ fd_audit d';
}.

(** A change outside the books: receipts, nonces, audit events, allowances. *)
Record outside (d d' : FundingDb) : Prop := {
  os_grants : fd_grants d' = fd_grants d;
  os_daily : fd_daily d' = fd_daily d;
  os_rolling : fd_rolling d' = fd_rolling d;
  os_records : receipts_added d d';
  os_bindings : fd_bindings d' = fd_bindings d;
  os_nonces : nonces_grow d d';
  os_audit : fd_audit d ⊆ fd_audit d';
}.

Lemma nonces_grow_same d d' : fd_relayer_nonces d' = fd_relayer_nonces d → nonces_grow d d'.
Proof. intros Hn key a Ha. exists a. rewrite Hn. split; [done|lia]. Qed.

Lemma nonces_grow_trans d d1 d2 : nonces_grow d d1 → nonces_grow d1 d2 → nonces_grow d d2.
Proof.
  intros H1 H2 key a Ha. destruct (H1 _ _ Ha) as (a1 & Ha1 & ?).
  destruct (H2 _ _ Ha1) as (a2 & Ha2 & ?). exists a2. split; [done|lia].
Qed.

#[export] Instance outside_preorder : PreOrder outside.
Proof.
  split.
  - intros d. constructor; try done; [by apply receipts_same|by apply nonces_grow_same].
  - intros d d1 d2 [] []. constructor; try congruence.
    + by eapply receipts_trans.
    + by eapply nonces_grow_trans.
    + by etrans.
Qed.

Lemma outside_books d d' : outside d d' → books d' = books d.
Proof.
  intros [Hg Hd Hr Hrec _ _ _]. unfold books. by rewrite Hg, Hd, Hr, (entries_receipts _ _ Hrec).
Qed.

Lemma outside_wf d d' : outside d d' → well_formed d → well_formed d'.
Proof.
  intros Ho [Hb Ht Hst]. split.
  - eapply balanced_frame; [by apply outside_books|done].
  - eapply receipts_typed; [apply Ho|done].
  - eapply receipts_staged; [apply Ho|done].
Qed.

Lemma outside_get d d' k row : outside d d' → get k d = Some row → get k d' = Some row.
Proof.
  unfold get. intros [_ _ _ [Hs _] _ _ _] Hk. destruct (fd_records d !! k) eqn:E; [|done].
  by rewrite (lookup_weaken _ _ _ _ E Hs).
Qed.

Lemma outside_effect d d' : outside d d' → effect d d'.
Proof.
  intros Ho. constructor; [apply ls_frame; by apply outside_books| |apply Ho|apply Ho].
  apply rs_same; apply Ho.
Qed.

Lemma effect_refl d : effect d d.
Proof. by apply outside_effect. Qed.

(** An effect may follow changes outside the books. *)
Lemma ledger_step_from d d1 d' : books d1 = books d → ledger_step d1 d' → ledger_step d d'.
Proof.
  unfold books. intros [= Hg Hd Hr He] Hs.
  destruct Hs as [Hb|g g' usage k amount now|state g g' usage usage' k amount date now|Hf Hb].
  - apply ls_frame. unfold books in *. congruence.
  - eapply (ls_reserve _ _ g g' usage k amount now);
      unfold books, daily_total, rolling_total, daily_used, daily_reserved in *;
      by rewrite <- ?Hg, <- ?Hd, <- ?Hr, <- ?He.
  - eapply (ls_close _ _ state g g' usage usage' k amount date now); try done;
      unfold books in *; by rewrite <- ?Hg, <- ?Hd, <- ?Hr, <- ?He.
  - apply ls_edit; [by rewrite <- Hg|]. unfold books in *. congruence.
Qed.

Lemma effect_after d d1 d' : outside d d1 → effect d1 d' → effect d d'.
Proof.
  intros Ho [Hs Hr Hn Ha]. constructor.
  - eapply ledger_step_from; [by apply outside_books|done].
  - destruct Hr as [Hr Hb|k p i d2 r Hr Hb Hw He Hst].
    + apply rs_same; [by eapply receipts_trans; [apply Ho|]|]. by rewrite Hb, (os_bindings _ _ Ho).
    + eapply rs_written; [by eapply receipts_trans; [apply Ho|]| |done..].
      by rewrite Hb, (os_bindings _ _ Ho).
  - by eapply nonces_grow_trans; [apply Ho|].
  - etrans; [apply Ho|done].
Qed.

(** A change to the grants that accounting does not see, then one outside the books. *)
Lemma effect_edit d d1 d' :
  (∀ k, option_Forall2 grant_edit (fd_grants d !! k) (fd_grants d1 !! k)) →
  fd_daily d1 = fd_daily d → fd_rolling d1 = fd_rolling d → fd_records d1 = fd_records d →
  fd_bindings d1 = fd_bindings d → fd_relayer_nonces d1 = fd_relayer_nonces d →
  fd_audit d1 = fd_audit d → outside d1 d' → effect d d'.
Proof.
  intros Hg Hd Hr Hrec Hb Hn Ha Ho. constructor.
  - apply ls_edit; [by rewrite (os_grants _ _ Ho)|]. rewrite (outside_books _ _ Ho).
    unfold books, entries. rewrite Hd, Hr, Hrec. by rewrite (os_grants _ _ Ho).
  - apply rs_same; [|by rewrite (os_bindings _ _ Ho)].
    eapply receipts_trans; [by apply receipts_same|apply Ho].
  - eapply nonces_grow_trans; [by apply nonces_grow_same|apply Ho].
  - rewrite <- Ha. apply Ho.
Qed.

Lemma effect_wf d d' : effect d d' → well_formed d → well_formed d'.
Proof.
  intros He [Hb Ht Hst]. split; [by eapply balanced_step; [apply He|]| |];
    (destruct (ef_records _ _ He) as [Hr _|k p i d1 r Hr _ Hw Hp Hsp];
      [by eapply receipts_typed || by eapply receipts_staged|]).
  - intros k' r' Hk'. rewrite (wr_records _ _ _ _ _ _ Hw) in Hk'.
    apply lookup_insert_Some in Hk' as [[<- <-]|[_ Hk']]; [|by eapply (receipts_typed d d1)].
    left. split; [apply Hw|]. by rewrite (entry_of_written _ _ _ _ _ _ Hw).
  - intros k' r' Hk' Hres. rewrite (wr_records _ _ _ _ _ _ Hw) in Hk'.
    apply lookup_insert_Some in Hk' as [[<- <-]|[_ Hk']]; [|by eapply (receipts_staged d d1)].
    apply stage_redact in Hsp. revert Hsp. apply same_stage. intros f Hf.
    apply (wr_fields _ _ _ _ _ _ Hw). intros ->. revert Hf. decided.
Qed.

Lemma effect_session {A} (body : funding A) d :
  (∀ a d', body d = Ok (a, d') → effect d d') → effect d (write_session body d).2.
Proof.
  intros Hb. destruct (write_session_snd body d) as [->|(a & Ha)]; [apply effect_refl|eauto].
Qed.

Lemma outside_session {A} (body : funding A) d :
  (∀ a d', body d = Ok (a, d') → outside d d') → effect d (write_session body d).2.
Proof. intros Hb. apply effect_session. intros a d' Ha. by eapply outside_effect, Hb. Qed.

(** ** Writing the stored reservation *)

Lemma put_reservation_Ok clock row tx d p d' :
  put_reservation clock row tx d = Ok (p, d') →
  ∃ k r identity, dict_get row "reservation_id" = PStr k ∧ written k row identity d r d' ∧
    lr_payload r = p ∧ dict_find identity "tx_hash" = Some tx.
Proof.
  unfold put_reservation. intros Hp.
  apply txn_bind_Ok in Hp as (? & ? & [_ ->]%lifts_Ok & Hp).
  apply txn_bind_Ok in Hp as (v & ? & [Hv%dict_item_get ->]%lifts_Ok & Hp).
  do 4 (apply txn_bind_Ok in Hp as (? & ? & [_ ->]%lifts_Ok & Hp)).
  destruct v as [| | |k| |]; try (by apply raises_Ok in Hp).
  apply put_Ok in Hp as (r & Hw & Hr). eauto 10.
Qed.

(** Two payloads that agree on the fields of the entry. *)
Abbreviation same_entry := (same_on ENTRY_FIELDS).

Lemma same_entry_of p q : same_entry p q → entry_of q = entry_of p.
Proof. intros Hpq. by apply entry_of_ext. Qed.

Lemma same_entry_id p q :
  same_entry p q → dict_get q "reservation_id" = dict_get p "reservation_id".
Proof. intros Hpq. apply (same_on_get _ _ _ _ Hpq). unfold ENTRY_FIELDS. list_member. Qed.

(** The reservation a caller gets is in a state that agrees with its accounting. *)
Lemma get_stage d k row :
  well_formed d → get k d = Some row → dict_get row "reservation_id" ≠ PNone → stage_ok row.
Proof.
  intros Hb Hk Hid. destruct (get_entry d k row Hb Hk Hid) as (r & u & Hr & _ & Hres & _).
  pose proof (wf_staged d Hb k r Hr Hres) as Hst. unfold get in Hk. rewrite Hr in Hk.
  injection Hk as <-. unfold visible_payload. rewrite bool_decide_eq_true_2 by done.
  by apply stage_redact.
Qed.

Lemma written_effect k payload identity d d1 r d' :
  same_records d d1 → written k payload identity d1 r d' → is_Some (entry_of payload) →
  stage_ok payload → ledger_step d d' → effect d d'.
Proof.
  intros (Hr & Hb & Hn & _ & _ & _ & Ha) Hw He Hst Hs. pose proof (wr_accounts _ _ _ _ _ _ Hw) as Hacc.
  destruct Hacc as (_ & _ & _ & _ & _ & Hn' & _ & Ha').
  constructor; [done|eapply rs_written; [by apply receipts_same|done..]| |by rewrite Ha', Ha].
  apply nonces_grow_same. congruence.
Qed.

(** A write that keeps the entry of the stored reservation. *)
Lemma row_write clock d k row row' tx p d' :
  well_formed d → get k d = Some row → same_entry row row' →
  (stage_ok row → stage_ok row') →
  put_reservation clock row' tx d = Ok (p, d') → effect d d'.
Proof.
  intros Hb Hk He Hst Hp. apply put_reservation_Ok in Hp as (k' & r' & i & Hk' & Hw & _ & _).
  assert (dict_get row "reservation_id" ≠ PNone) as Hne
    by (rewrite <- (same_entry_id _ _ He), Hk'; done).
  destruct (get_entry d k row Hb Hk Hne) as (r & u & Hr & _ & _ & Hre & Hent).
  pose proof (same_entry_of _ _ He) as He'. rewrite Hent in He'.
  destruct (entry_of_Some _ _ He') as (Hk2 & _). simpl in Hk2.
  rewrite Hk' in Hk2. injection Hk2 as ->.
  eapply (written_effect _ _ _ d d); [by repeat split|done|by eexists|by eapply Hst, get_stage|].
  apply ls_frame. pose proof (entries_written _ _ _ _ _ _ _ Hw He') as Hes.
  destruct (wr_accounts _ _ _ _ _ _ Hw) as (Hg & Hd & Hro & _).
  unfold books. rewrite Hg, Hd, Hro, Hes, insert_id; [done|]. by rewrite Hre.
Qed.

Lemma entry_of_set_state p e s :
  entry_of p = Some e →
  entry_of (dict_set p "budget_accounting_state" (PStr s)) =
    Some (MkEntry (en_reservation_id e) (en_grant_id e) (en_amount e) (en_date e) s).
Proof.
  intros (Hk & Hg & Ha & Hd & _)%entry_of_Some.
  unfold entry_of, row_amount, row_usage_date, dict_get, dict_item in *.
  rewrite dict_find_set_eq, !dict_find_set_ne by done. simpl. by rewrite Hk, Hg, Ha, Hd.
Qed.

(** The write after the budget of the stored reservation was closed. *)
Lemma row_close clock d d1 k row row' e state now g g' usage usage' tx p d' :
  well_formed d → get k d = Some row → entry_of row = Some e → en_state e = "reserved" →
  state ∈ [RollingUsed; RollingReleased] →
  closes state e now d d1 g g' usage usage' →
  same_entry (dict_set row "budget_accounting_state" (PStr (state_text state))) row' →
  (stage_ok row → stage_ok row') → put_reservation clock row' tx d1 = Ok (p, d') → effect d d'.
Proof.
  intros Hb Hk He Hst Hs Hc He' Hsg Hp. pose proof Hb as Hwf. destruct (entry_of_Some _ _ He) as (Hid & _).
  assert (dict_get row "reservation_id" ≠ PNone) as Hne by by rewrite Hid.
  destruct (get_entry d k row Hb Hk Hne) as (r & u & Hr & _ & _ & Hre & Hent).
  rewrite He in Hent. injection Hent as ->. simpl in *.
  apply same_entry_of in He'. rewrite (entry_of_set_state _ _ _ He) in He'. simpl in He'.
  apply put_reservation_Ok in Hp as (k' & r' & i & Hk' & Hw & _ & _).
  destruct (entry_of_Some _ _ He') as (Hk2 & _). simpl in Hk2. rewrite Hk' in Hk2.
  injection Hk2 as ->.
  destruct Hc as [Hg Hu Ha Ha2 Ht Hu' Hr' Hu2 Hr2 Hcg Hcd Hcr Hrec]. simpl in *.
  pose proof (gb_key _ _ _ (ba_grants d (wf_balanced _ Hb) _ _ Hg)) as Hgid. rewrite <- Hgid in *.
  eapply written_effect; [done|done|by eexists|by eapply Hsg, get_stage|].
  pose proof (entries_written _ _ _ _ _ _ _ Hw He') as Hes.
  destruct (wr_accounts _ _ _ _ _ _ Hw) as (Hwg & Hwd & Hwro & _). destruct Hrec as (Hrec & _).
  eapply (ls_close _ _ state g g' usage usage' k); try done.
  - rewrite Hre, He. unfold line_entry. by rewrite Hst, Hgid.
  - unfold books. rewrite Hwg, Hwd, Hwro, Hes, Hcg, Hcd, Hcr, Hgid. unfold entries. by rewrite Hrec.
Qed.

(** A reservation a transaction fetched and checked has an entry. *)
Lemma unified_entry d k row v :
  well_formed d → get k d = Some row → require_unified_reservation row = Ok v →
  ∃ u, entry_of row = Some (line_entry k u).
Proof.
  intros Hb Hk Hu.
  destruct (unified_fields _ _ Hu "reservation_id" ltac:(decided)) as [Hne _].
  destruct (get_entry d k row Hb Hk Hne) as (_ & u & _ & _ & _ & _ & He). eauto.
Qed.
