(* ===== verification/FundingRefinement.v ===== *)
(** * The transactions of the funding service refine the ledger machine

    The transactions of [Budget], [LedgerEvidence], [FundingService] and
    [GrantStore]: each has an effect of [FundingEffects], so it makes one step of
    [FundingMachine], writes at most one reservation, never lowers a nonce and
    never touches an audit event. *)

From S2P Require Import Prelude PyValue Calendar Reservation Amounts LedgerTables LedgerStore.
From S2P Require Import Budget LedgerEvidence FundingService GrantStore LedgerFacts.
From S2P Require Import FundingMachine BudgetFacts FundingEffects.

Open Scope string_scope.
Open Scope Z_scope.

(** ** The transactions of the funding service *)

Lemma required_row_Ok k e d row d' :
  required_row k e d = Ok (row, d') → d' = d ∧ get k d = Some row.
Proof.
  unfold required_row. intros Hr. apply txn_bind_Ok in Hr as (? & ? & [-> ->]%reads_Ok & Hr).
  change (id d) with d in Hr. destruct (get k d) as [[|kv row']|]; try (by apply raises_Ok in Hr).
  by apply mret_Ok in Hr as [-> ->].
Qed.

Section Service.
Context `{Sha256} (clock : Z).

Lemma finalize_effect k status hash d :
  well_formed d → effect d (finalize_reservation clock k status hash d).2.
Proof.
  intros Hb. apply effect_session. intros p d' Hf.
  apply txn_bind_Ok in Hf as (row & ? & [-> Hk]%required_row_Ok & Hf).
  apply txn_bind_Ok in Hf as (? & ? & [_ ->]%lifts_Ok & Hf).
  apply txn_bind_Ok in Hf as (b & ? & [Hset ->]%lifts_Ok & Hf).
  apply txn_bind_Ok in Hf as (? & ? & (-> & _ & ->)%requires_Ok & Hf).
  destruct (is_text _ "finalized"); [apply mret_Ok in Hf as [_ ->]; apply effect_refl|].
  apply txn_bind_Ok in Hf as (? & ? & Hp & [_ ->]%mret_Ok).
  destruct (state_in_Ok _ _ Hset) as (st & Hst & Hin).
  eapply row_write; [done|done| | |exact Hp]; [same_fields|].
  list_cases; subst; by eapply stage_step.
Qed.

Lemma release_effect k reason d :
  well_formed d → effect d (release_reservation clock k reason d).2.
Proof.
  intros Hb. apply effect_session. intros p d' Hf.
  apply txn_bind_Ok in Hf as (row & ? & [-> Hk]%required_row_Ok & Hf).
  apply txn_bind_Ok in Hf as (? & ? & [Hun ->]%lifts_Ok & Hf).
  apply txn_bind_Ok in Hf as (? & ? & [_ ->]%lifts_Ok & Hf).
  apply txn_bind_Ok in Hf as (? & ? & [_ ->]%lifts_Ok & Hf).
  apply txn_bind_Ok in Hf as (? & ? & (_ & _ & ->)%requires_Ok & Hf).
  destruct (is_text _ "released"); [apply mret_Ok in Hf as [_ ->]; apply effect_refl|].
  apply txn_bind_Ok in Hf as (row' & d1 & Hrel & Hf).
  apply txn_bind_Ok in Hf as (? & ? & Hp & [_ ->]%mret_Ok).
  destruct (unified_entry d k row _ Hb Hk Hun) as (u & He).
  destruct (release_Ok _ _ _ _ _ _ He Hrel) as [(Hst & -> & ->)|(Hst & -> & g & g' & us & us' & Hc)].
  - eapply row_write; [done|done| | |exact Hp]; [same_fields|]. intros _.
    eapply stage_moved; try done. intros _.
    destruct (entry_of_Some _ _ He) as (_ & _ & _ & _ & Ha). by rewrite Ha, Hst.
  - eapply (row_close _ _ _ _ _ _ _ RollingReleased); [done..|list_member|done| | |exact Hp];
      [same_fields|]. intros _. eapply stage_moved; try done. intros _. by rewrite dict_get_set.
Qed.

(** An edit of the pending reservation. *)
Lemma same_pending_state current row :
  same_pending_payment current row = true →
  ∃ p, current = Some p ∧ dict_get p "state" = PStr "payment_submitted".
Proof.
  destruct current as [[|kv p]|]; try done. unfold same_pending_payment.
  intros [Hs%is_text_eq _]%andb_true_iff. eauto.
Qed.

Lemma on_pending_related (R : FundingDb → FundingDb → Prop) row f d :
  Reflexive R →
  (∀ k current p d', get k d = Some current →
     dict_get row "reservation_id" = PStr k ∨ is_str (dict_get row "reservation_id") = false →
     dict_get current "state" = PStr "payment_submitted" →
     f current d = Ok (p, d') → R d d') →
  R d (on_pending row f d).2.
Proof.
  intros Hrefl Hf. unfold on_pending.
  match goal with |- context [write_session ?body d] =>
    destruct (write_session_snd body d) as [->|(p & Hp)] end; [done|].
  set (d' := (write_session _ d).2) in *. clearbody d'.
  apply txn_bind_Ok in Hp as (v & ? & [Hv%dict_item_get ->]%lifts_Ok & Hp).
  apply txn_bind_Ok in Hp as (? & ? & [-> ->]%reads_Ok & Hp).
  destruct (same_pending_payment _ row) eqn:E; [|apply mret_Ok in Hp as [_ ->]; apply Hrefl].
  apply txn_bind_Ok in Hp as (updated & d1 & Hup & [_ ->]%mret_Ok).
  apply same_pending_state in E as (q & Hk & Hst). rewrite Hk in Hup.
  change (default [] (Some q)) with q in Hup.
  eapply Hf; [exact Hk| |exact Hst|exact Hup].
  rewrite Hv. destruct v; auto.
Qed.

Lemma on_pending_effect row f d :
  (∀ k current p d', get k d = Some current →
     dict_get row "reservation_id" = PStr k ∨ is_str (dict_get row "reservation_id") = false →
     dict_get current "state" = PStr "payment_submitted" →
     f current d = Ok (p, d') → effect d d') →
  effect d (on_pending row f d).2.
Proof. apply on_pending_related. intros d'. apply effect_refl. Qed.

Lemma pending_effect row error manual d :
  well_formed d → effect d (pending_reservation clock row error manual d).2.
Proof.
  intros Hb. apply on_pending_effect. intros k current p d' Hk _ _ Hf.
  apply txn_bind_Ok in Hf as (? & ? & Hp & [_ ->]%mret_Ok).
  eapply row_write; [done|done| | |exact Hp]; unfold manual_review_reservation;
    [|apply same_stage]; same_fields.
Qed.

(** Writing back the row with edits outside its entry and its stage. *)
Lemma row_touch d k row row' tx p d' :
  well_formed d → get k d = Some row → same_entry row row' → same_on STAGE_FIELDS row row' →
  put_reservation clock row' tx d = Ok (p, d') → effect d d'.
Proof. intros Hb Hk He Hs Hp. eapply row_write; [done|done|done|by apply same_stage|done]. Qed.

Lemma put_blocked_effect k current reason d p d' :
  well_formed d → get k d = Some current →
  put_blocked_native_reservation clock current reason d = Ok (p, d') → effect d d'.
Proof.
  intros Hb Hk Hf. apply txn_bind_Ok in Hf as (? & ? & [_ ->]%lifts_Ok & Hf).
  apply txn_bind_Ok in Hf as (? & ? & Hp & [_ ->]%mret_Ok).
  eapply row_touch; [done|done| | |exact Hp]; unfold manual_review_reservation; same_fields.
Qed.

Lemma block_effect row reason d :
  well_formed d → effect d (block_unbroadcast_native_reservation clock row reason d).2.
Proof.
  intros Hb. apply on_pending_effect. intros k current p d' Hk _ _ Hf. by eapply put_blocked_effect.
Qed.

Lemma retry_effect row reason preserve kind reason_code d :
  well_formed d → effect d (retryable_reservation clock row reason preserve kind reason_code d).2.
Proof.
  intros Hb. apply on_pending_effect. intros k current p d' Hk _ Hst Hf.
  apply txn_bind_Ok in Hf as (? & ? & [_ ->]%lifts_Ok & Hf).
  apply txn_bind_Ok in Hf as (? & ? & [_ ->]%lifts_Ok & Hf).
  destruct (is_true _).
  - apply txn_bind_Ok in Hf as (? & ? & [_ ->]%lifts_Ok & Hf).
    apply txn_bind_Ok in Hf as (? & ? & Hp & [_ ->]%mret_Ok).
    eapply row_write; [done|done| | |exact Hp]; unfold failed_single_submission; [same_fields|].
    by eapply stage_step.
  - apply txn_bind_Ok in Hf as (? & ? & Hp & [_ ->]%mret_Ok).
    eapply row_write; [done|done| | |exact Hp]; unfold retryable_row, cleared_proxy_authorization;
      [same_fields|].
    destruct (is_proxy current) eqn:E; [intros _|by eapply stage_step].
    eapply stage_proxy; [|done]. same_fields.
Qed.

(** The merchant payment of a payer-proxy reservation failed. *)
Lemma retry_proxy_effect row reason k d :
  well_formed d → dict_get row "reservation_id" = PStr k →
  (∀ current, get k d = Some current → is_proxy current = true) →
  effect d (retryable_proxy_payment clock row reason d).2.
Proof.
  intros Hb Hid Hproxy. apply on_pending_effect. intros k' current p d' Hk Hk' _ Hf.
  assert (k' = k) as -> by (rewrite Hid in Hk'; destruct Hk' as [Hk'|Hk']; by inversion Hk').
  do 4 (apply txn_bind_Ok in Hf as (? & ? & [_ ->]%lifts_Ok & Hf)).
  apply txn_bind_Ok in Hf as (? & ? & Hp & [_ ->]%mret_Ok).
  eapply row_write; [done|done| | |exact Hp]; unfold cleared_proxy_authorization; [same_fields|].
  intros _. eapply stage_proxy; [|by apply Hproxy]. same_fields.
Qed.

Lemma save_error_effect k tx_hash error d :
  well_formed d → effect d (save_reconciliation_error clock k tx_hash error d).2.
Proof.
  intros Hb. unfold save_reconciliation_error.
  destruct (canonicalize_transaction_hash tx_hash) as [h|]; [|apply effect_refl].
  apply effect_session. intros p d' Hf.
  apply txn_bind_Ok in Hf as (? & ? & [-> ->]%reads_Ok & Hf).
  destruct (get k d) as [[|kv row]|] eqn:Hk; try (apply mret_Ok in Hf as [_ ->]; apply effect_refl).
  destruct (is_text _ _); [|apply mret_Ok in Hf as [_ ->]; apply effect_refl].
  apply txn_bind_Ok in Hf as (? & ? & [_ ->]%lifts_Ok & Hf).
  case_bool_decide; [|apply mret_Ok in Hf as [_ ->]; apply effect_refl].
  apply txn_bind_Ok in Hf as (? & ? & Hp & [_ ->]%mret_Ok).
  eapply row_touch; [done|done| | |exact Hp]; same_fields.
Qed.

(** The budget of the fetched row is settled and the row written in a state of
    settled accounting. *)
Lemma settle_write k current kvs d row d1 tx p d' :
  well_formed d → get k d = Some current →
  settle_unified_budget current clock d = Ok (row, d1) →
  forallb (λ kv : string * pyval, bool_decide (kv.1 ∉ ENTRY_FIELDS)) kvs = true →
  (dict_get row "budget_accounting_state" = PStr "settled" → is_proxy row = is_proxy current →
     stage_ok (dict_update row kvs)) →
  put_reservation clock (dict_update row kvs) tx d1 = Ok (p, d') → effect d d'.
Proof.
  intros Hb Hk Hset Hkvs Hst Hp.
  assert (∃ u, entry_of current = Some (line_entry k u)) as (u & He).
  { pose proof Hset as Hun. unfold settle_unified_budget in Hun.
    apply txn_bind_Ok in Hun as ([] & ? & [Hun _]%lifts_Ok & _). by eapply unified_entry. }
  destruct (settle_Ok _ _ _ _ _ _ He Hset) as [(Hs & -> & ->)|(Hs & -> & g & g' & us & us' & Hc)].
  - eapply row_write; [done|done| | |exact Hp]; [by apply same_on_update|]. intros _.
    apply Hst; [|done]. destruct (entry_of_Some _ _ He) as (_ & _ & _ & _ & Ha).
    by rewrite Ha, Hs.
  - eapply (row_close _ _ _ _ _ _ _ RollingUsed); [done..|list_member|done| | |exact Hp];
      [by apply same_on_update|]. intros _.
    apply Hst; [by rewrite dict_get_set|]. unfold is_proxy. by rewrite dict_get_set.
Qed.

Lemma fund_payer_effect row d :
  well_formed d → effect d (complete_proxy_reimbursement clock row d).2.
Proof.
  intros Hb. apply on_pending_effect. intros k current p d' Hk _ _ Hf.
  apply txn_bind_Ok in Hf as (? & ? & [-> ->]%reads_Ok & Hf). change (id d) with d in Hf.
  apply txn_bind_Ok in Hf as (? & ? & [_ ->]%lifts_Ok & Hf).
  apply txn_bind_Ok in Hf as (? & ? & (Hproxy & _ & ->)%requires_Ok & Hf).
  apply txn_bind_Ok in Hf as (row' & d1 & Hset & Hf).
  apply txn_bind_Ok in Hf as (? & ? & [_ ->]%lifts_Ok & Hf).
  apply txn_bind_Ok in Hf as (? & ? & Hp & [_ ->]%mret_Ok).
  eapply settle_write; [done|done|exact Hset| | |exact Hp]; [reflexivity|].
  intros _ Hrail. eapply stage_proxy; [|by rewrite Hrail]. same_fields.
Qed.

(** Instants whose date Python can represent. *)
Definition representable (now : Z) : Prop := min_day <= day_of now <= max_day.

Lemma entry_of_payload rq pv k nonce b now gid amount :
  decimal_micros (rq_amount_usdc rq) = Some amount → min_day <= rb_usage_date b <= max_day →
  rq_spending_grant_id rq = Some gid →
  entry_of (reservation_payload rq pv k nonce b now)
    = Some (MkEntry k gid amount (rb_usage_date b) "reserved").
Proof.
  intros Ha Hd Hg. set (p := reservation_payload rq pv k nonce b now).
  assert (dict_find p "reservation_id" = Some (PStr k)
          ∧ dict_find p "spending_grant_id" = Some (PStr gid)
          ∧ dict_find p "amount_usdc" = Some (PStr (rq_amount_usdc rq))
          ∧ dict_find p "usage_date" = Some (PStr (iso_date (rb_usage_date b)))
          ∧ dict_find p "budget_accounting_state" = Some (PStr "reserved"))
    as (E1 & E2 & E3 & E4 & E5).
  { unfold p, reservation_payload, external_challenge.
    destruct rq as [? ? ? ? ? ? ? oi]. simpl in Hg. subst. simpl rq_opc_installation_id.
    destruct oi, (bool_decide (pv_authorization_rail pv = "external_x402")); by split_and!. }
  assert (row_amount p = Ok amount) as Hra.
  { unfold row_amount, dict_item. rewrite E3. cbn [from_option_or mbind result_bind].
    by rewrite Ha. }
  assert (row_usage_date p = Ok (rb_usage_date b)) as Hrd.
  { unfold row_usage_date, dict_item. rewrite E4. cbn [from_option_or mbind result_bind].
    by rewrite parse_date_iso. }
  unfold entry_of, dict_get. rewrite E1, E2, E5, Hra, Hrd. done.
Qed.

Lemma payload_stage rq pv k nonce b now : stage_ok (reservation_payload rq pv k nonce b now).
Proof.
  intros _. exists "spending_reserved", "reserved".
  unfold reservation_payload, external_challenge.
  by destruct (rq_opc_installation_id rq), (bool_decide (pv_authorization_rail pv = "external_x402")).
Qed.

(** A new reservation: the budget is charged and the record written. *)
Lemma new_reservation_effect rq pv amount k nonce expected decimals symbol token identity d b d1
    p d' :
  well_formed d → representable clock → 0 < amount →
  decimal_micros (rq_amount_usdc rq) = Some amount →
  rq_spending_grant_id rq = Some (se_spending_grant_id expected) →
  reserve_unified_budget rq (pv_user_id pv) (pv_agent_id pv) amount clock k (Some expected)
    decimals symbol token d = Ok (b, d1) →
  put clock "reservation" k (reservation_payload rq pv k nonce b clock) identity d1 = Ok (p, d') →
  effect d d'.
Proof.
  intros Hb Hn Hpos Ha Hrq Hres Hp.
  apply reserve_unified_budget_Ok in Hres as (g & g' & usage & Hpay & _ & Hrs & Hsel & Hgid & Hdate).
  apply put_Ok in Hp as (r & Hw & _).
  pose proof Hrs as [Hfresh Hterms Hu Hr Hu2 Hr2 Hcg Hcd Hcr Hrec].
  destruct (py_row _ _ _ _ _ _ _ Hpay) as (kg & Hkg).
  pose proof (gb_key _ _ _ (ba_grants d (wf_balanced _ Hb) _ _ Hkg)) as Hid. subst kg.
  assert (entry_of (reservation_payload rq pv k nonce b clock)
    = Some (MkEntry k (sg_spending_grant_id g) amount (day_of clock) "reserved")) as He.
  { rewrite <- Hgid, <- Hdate. apply entry_of_payload; [done| |done]. by rewrite Hdate. }
  eapply written_effect; [done|done|by eexists|by apply payload_stage|].
  pose proof (entries_written _ _ _ _ _ _ _ Hw He) as Hes.
  destruct (wr_accounts _ _ _ _ _ _ Hw) as (Hwg & Hwd & Hwro & _). destruct Hrec as (Hrec & _).
  eapply (ls_reserve _ _ g g' usage k amount clock); try done; try apply Hpay.
  unfold books. rewrite Hwg, Hwd, Hwro, Hes, Hcg, Hcd, Hcr. unfold entries. by rewrite Hrec.
Qed.

Lemma reserve_unified_effect rq0 pv amount k nonce decimals symbol token d :
  well_formed d → representable clock → 0 < amount →
  decimal_micros (rq_amount_usdc rq0) = Some amount →
  effect d (reserve_unified_spending clock rq0 pv amount k nonce decimals symbol token d).2.
Proof.
  intros Hb Hn Hpos Ha. apply effect_session. intros p d' Hf.
  apply txn_bind_Ok in Hf as (? & ? & [-> ->]%reads_Ok & Hf).
  destruct (by_purchase _ d) as [[|kv row]|].
  2: { apply txn_bind_Ok in Hf as (? & ? & [_ ->]%lifts_Ok & [_ ->]%mret_Ok). apply effect_refl. }
  all: apply txn_bind_Ok in Hf as (b & d1 & Hres & Hf);
    apply txn_bind_Ok in Hf as (? & ? & Hp & [_ ->]%mret_Ok);
    eapply (new_reservation_effect (trusted_request rq0 pv));
    [done|done|exact Hpos|exact Ha| |exact Hres|exact Hp]; done.
Qed.

Lemma reserve_effect rq pv k nonce decimals symbol token d :
  well_formed d → representable clock →
  effect d (reserve_spending clock rq pv k nonce decimals symbol token d).2.
Proof.
  intros Hb Hn. unfold reserve_spending.
  destruct (mbind _ _) as [amount|e] eqn:E; [|apply effect_refl].
  unfold parse_amount in E. txn_inv. bool_inv. by apply reserve_unified_effect.
Qed.
End Service.

(** ** The other ledger operations and those of the account service *)

Lemma add_audit_Ok event_id e d u d' :
  add_audit_event event_id e d = Ok (u, d') →
  d' = d <| fd_audit := <[event_id := e]> (fd_audit d) |> ∧ fd_audit d ⊆ fd_audit d'.
Proof.
  unfold add_audit_event. intros Ha. txn_inv. bool_inv. split; [done|]. by apply insert_subseteq.
Qed.

(** A change to one of the tables the books do not read. *)
Lemma outside_tables d d' :
  fd_grants d' = fd_grants d → fd_daily d' = fd_daily d → fd_rolling d' = fd_rolling d →
  fd_records d' = fd_records d → fd_bindings d' = fd_bindings d →
  fd_relayer_nonces d' = fd_relayer_nonces d → fd_audit d ⊆ fd_audit d' → outside d d'.
Proof. constructor; try done; [by apply receipts_same|by apply nonces_grow_same]. Qed.

Lemma add_audit_outside event_id e d u d' :
  add_audit_event event_id e d = Ok (u, d') → outside d d'.
Proof. intros [-> ?]%add_audit_Ok. by apply outside_tables. Qed.

Lemma put_allowance_outside a d u d' :
  put_allowance a d = Ok (u, d') → outside d d'.
Proof. intros [_ ->]%writes_Ok. by apply outside_tables. Qed.
Lemma put_identity_outside a d u d' :
  put_identity a d = Ok (u, d') → outside d d'.
Proof. intros [_ ->]%writes_Ok. by apply outside_tables. Qed.

(** A single grant is replaced, its counters kept. *)
Lemma put_grant_edit d g g' :
  well_formed d → fd_grants d !! sg_spending_grant_id g' = Some g → grant_edit g g' →
  ∀ k, option_Forall2 grant_edit (fd_grants d !! k)
         (<[sg_spending_grant_id g' := g']> (fd_grants d) !! k).
Proof.
  intros Hb Hg He k. destruct (decide (k = sg_spending_grant_id g')) as [->|].
  - rewrite lookup_insert_eq, Hg. by constructor.
  - rewrite lookup_insert_ne by done. destruct (fd_grants d !! k); constructor. by repeat split.
Qed.

Lemma edited_effect d g g' d' :
  well_formed d → fd_grants d !! sg_spending_grant_id g' = Some g → grant_edit g g' →
  outside (d <| fd_grants := <[sg_spending_grant_id g' := g']> (fd_grants d) |>) d' →
  effect d d'.
Proof.
  intros Hb Hg He Ho. eapply effect_edit; [..|exact Ho]; [|done..]. simpl. by eapply put_grant_edit.
Qed.

Lemma required_grant_Ok k d g d' :
  well_formed d → required_locked_grant k d = Ok (g, d') →
  d' = d ∧ fd_grants d !! sg_spending_grant_id g = Some g.
Proof.
  unfold required_locked_grant. intros Hb Hr.
  apply txn_bind_Ok in Hr as (? & ? & [-> ->]%reads_Ok & Hr). change (id d) with d in Hr.
  apply lifts_Ok in Hr as [Hg%from_option_or_Ok ->].
  pose proof (gb_key _ _ _ (ba_grants d (wf_balanced _ Hb) _ _ Hg)) as Hk. by rewrite Hk.
Qed.

(** A transaction that replaces one grant and audits it. *)
Lemma audited_edit_effect event_id now event_type d g g' details r d' :
  well_formed d → fd_grants d !! sg_spending_grant_id g' = Some g → grant_edit g g' →
  (put_grant g';; audit_grant event_id now event_type g' details;;
   lifts (make_spending_grant g')) d = Ok (r, d') → effect d d'.
Proof.
  intros Hb Hg He Hr. apply txn_bind_Ok in Hr as (? & d1 & [_ ->]%writes_Ok & Hr).
  apply txn_bind_Ok in Hr as (? & d2 & Ha%add_audit_outside & [_ ->]%lifts_Ok).
  by eapply edited_effect.
Qed.

Lemma plain_edit_effect d g g' r d' :
  well_formed d → fd_grants d !! sg_spending_grant_id g' = Some g → grant_edit g g' →
  (put_grant g';; lifts (make_spending_grant g')) d = Ok (r, d') → effect d d'.
Proof.
  intros Hb Hg He Hr. apply txn_bind_Ok in Hr as (? & d1 & [_ ->]%writes_Ok & [_ ->]%lifts_Ok).
  by eapply edited_effect.
Qed.

Section Grants.
Context (event_id : string) (now : Z).

Lemma pause_effect k d : well_formed d → effect d (pause_spending_grant event_id now k d).2.
Proof.
  intros Hb. apply effect_session. intros p d' Hf.
  apply txn_bind_Ok in Hf as (g & ? & [-> Hg]%required_grant_Ok & Hf); [|done].
  case_bool_decide; [|apply lifts_Ok in Hf as [_ ->]; apply effect_refl].
  eapply audited_edit_effect; [done| |..|exact Hf]; [exact Hg|]. by repeat split.
Qed.

Lemma revoke_effect k d : well_formed d → effect d (revoke_spending_grant event_id now k d).2.
Proof.
  intros Hb. apply effect_session. intros p d' Hf.
  apply txn_bind_Ok in Hf as (g & ? & [-> Hg]%required_grant_Ok & Hf); [|done].
  case_bool_decide; [apply lifts_Ok in Hf as [_ ->]; apply effect_refl|].
  eapply audited_edit_effect; [done| |..|exact Hf]; [exact Hg|]. by repeat split.
Qed.

Lemma resume_effect k d : well_formed d → effect d (resume_spending_grant event_id now k d).2.
Proof.
  intros Hb. apply effect_session. intros p d' Hf.
  apply txn_bind_Ok in Hf as (g & ? & [-> Hg]%required_grant_Ok & Hf); [|done].
  apply txn_bind_Ok in Hf as (w & ? & [-> ->]%reads_Ok & Hf).
  apply txn_bind_Ok in Hf as (? & ? & (_ & _ & ->)%requires_Ok & Hf).
  destruct (sg_expires_at g <=? now).
  { case_bool_decide; [apply lifts_Ok in Hf as [_ ->]; apply effect_refl|].
    eapply plain_edit_effect; [done| |..|exact Hf]; [exact Hg|]. by repeat split. }
  case_bool_decide; [apply lifts_Ok in Hf as [_ ->]; apply effect_refl|].
  apply txn_bind_Ok in Hf as (? & ? & (_ & _ & ->)%requires_Ok & Hf).
  apply txn_bind_Ok in Hf as (? & ? & (_ & _ & ->)%requires_Ok & Hf).
  eapply audited_edit_effect; [done| |..|exact Hf]; [exact Hg|]. by repeat split.
Qed.

Lemma reduce_effect k maximum transaction hourly daily d :
  well_formed d →
  effect d (reduce_spending_grant event_id now k maximum transaction hourly daily d).2.
Proof.
  intros Hb. apply effect_session. intros p d' Hf.
  apply txn_bind_Ok in Hf as (g & ? & [-> Hg]%required_grant_Ok & Hf); [|done].
  apply txn_bind_Ok in Hf as (? & ? & [_ ->]%lifts_Ok & Hf).
  do 4 (apply txn_bind_Ok in Hf as (? & ? & (_ & _ & ->)%requires_Ok & Hf)).
  apply txn_bind_Ok in Hf as (? & ? & (Hc%Z.leb_le & _ & ->)%requires_Ok & Hf).
  case_bool_decide; [apply lifts_Ok in Hf as [_ ->]; apply effect_refl|].
  eapply audited_edit_effect; [done| |..|exact Hf]; [exact Hg|]. by repeat split.
Qed.

Lemma aged_edit at_ g : grant_edit g (aged_grant at_ g).
Proof. unfold aged_grant. repeat case_match; by repeat split. Qed.
Lemma paused_edit g : grant_edit g (paused_by_identity now g).
Proof. by repeat split. Qed.
Lemma grant_edit_refl g : grant_edit g g.
Proof. by repeat split. Qed.

Lemma mapped_edit f (m : gmap string SpendingGrantRow) :
  (∀ g, grant_edit g (f g)) → ∀ k, option_Forall2 grant_edit (m !! k) ((f <$> m) !! k).
Proof. intros Hf k. rewrite lookup_fmap. destruct (m !! k); constructor. apply Hf. Qed.

Lemma active_effect user_id at_ d : effect d (active_spending_grants user_id at_ d).2.
Proof.
  apply effect_session. intros p d' Hf.
  apply txn_bind_Ok in Hf as (? & ? & [-> ->]%reads_Ok & Hf).
  apply txn_bind_Ok in Hf as (? & ? & [_ ->]%writes_Ok & [_ ->]%lifts_Ok).
  eapply effect_edit; [..|reflexivity]; [|done..]. apply mapped_edit. intros g.
  case_match; [apply aged_edit|apply grant_edit_refl].
Qed.

Lemma audit_each_outside event_ids user_id gs d u d' :
  audit_each event_ids now user_id gs d = Ok (u, d') → outside d d'.
Proof.
  revert d. induction gs as [|g gs IH]; simpl; intros d Hf.
  - by apply mret_Ok in Hf as [_ ->].
  - apply txn_bind_Ok in Hf as (? & d1 & Ha%add_audit_outside & Hf).
    etrans; [done|]. by apply IH.
Qed.

Lemma revoke_wallet_effect event_ids wallet_event k d :
  effect d (revoke_wallet_identity_and_pause_active_grants event_ids wallet_event k now d).2.
Proof.
  apply effect_session. intros p d' Hf.
  apply txn_bind_Ok in Hf as (? & ? & [-> ->]%reads_Ok & Hf). change (id d) with d in Hf.
  apply txn_bind_Ok in Hf as (w & ? & [_ ->]%lifts_Ok & Hf).
  apply txn_bind_Ok in Hf as (? & d1 & [_ ->]%writes_Ok & Hf).
  apply txn_bind_Ok in Hf as (? & d2 & [_ ->]%writes_Ok & Hf).
  apply txn_bind_Ok in Hf as (? & d3 & Ha%audit_each_outside & Hf).
  apply txn_bind_Ok in Hf as (? & d4 & Hw & [_ ->]%mret_Ok).
  assert (outside d3 d4) as Ho.
  { case_match; [by eapply add_audit_outside|by apply mret_Ok in Hw as [_ ->]]. }
  eapply effect_edit; [..|etrans; [exact Ha|exact Ho]]; [|done..]. simpl. apply mapped_edit. intros g.
  destruct (identity_paused k g); [apply paused_edit|apply grant_edit_refl].
Qed.

(** The allowances: they are no part of the books. *)
Lemma refresh_effect k observed status d :
  effect d (refresh_asset_allowance event_id k observed status now d).2.
Proof.
  apply outside_session. intros p d' Hf.
  unfold required_locked_allowance, required_identity in Hf. txn_inv.
  etrans; [by eapply put_allowance_outside|by eapply add_audit_outside].
Qed.
Lemma stale_effect k d : effect d (mark_asset_allowance_stale event_id k now d).2.
Proof.
  apply outside_session. intros p d' Hf.
  unfold required_locked_allowance, required_identity in Hf. txn_inv.
  etrans; [by eapply put_allowance_outside|by eapply add_audit_outside].
Qed.
Lemma save_allowance_effect a d : effect d (save_verified_asset_allowance event_id a d).2.
Proof.
  apply outside_session. intros p d' Hf.
  unfold required_identity in Hf. txn_inv. repeat case_match; txn_inv;
    (etrans; [by eapply put_allowance_outside|]);
    first [by eapply add_audit_outside | done].
Qed.
End Grants.

(** ** Nonces and evidence *)

Lemma nonces_grow_set d key a :
  (∀ a0, fd_relayer_nonces d !! key = Some a0 → rn_next_nonce a0 <= rn_next_nonce a) →
  nonces_grow d (d <| fd_relayer_nonces := <[key := a]> (fd_relayer_nonces d) |>).
Proof.
  intros Ha key' a0 Hk. simpl. destruct (decide (key' = key)) as [->|].
  - exists a. rewrite lookup_insert_eq. auto.
  - exists a0. rewrite lookup_insert_ne by done. split; [done|lia].
Qed.

(** An allocation either returns the nonce the reservation owns or takes the
    next one and moves the relayer past it. *)
Lemma allocate_Ok row network relayer pending now d n d' :
  allocate_relayer_nonce row network relayer pending now d = Ok (n, d') →
  owned_nonce row (lower relayer) = Ok (Some n) ∧ d' = d ∨
  owned_nonce row (lower relayer) = Ok None ∧
  d' = d <| fd_relayer_nonces := <[(network, lower relayer) := MkRelayerNonce (n + 1) now]>
                                   (fd_relayer_nonces d) |> ∧
  (∀ a, fd_relayer_nonces d !! (network, lower relayer) = Some a → rn_next_nonce a <= n) ∧
  pending <= n < 2 ^ 64.
Proof.
  unfold allocate_relayer_nonce. intros Ha.
  apply txn_bind_Ok in Ha as (? & ? & [_ ->]%lifts_Ok & Ha).
  do 4 (apply txn_bind_Ok in Ha as (? & ? & (_ & _ & ->)%requires_Ok & Ha)).
  apply txn_bind_Ok in Ha as (owned & ? & [Ho ->]%lifts_Ok & Ha).
  destruct owned as [m|]; [apply mret_Ok in Ha as [-> ->]; by left|].
  apply txn_bind_Ok in Ha as (a & ? & [-> ->]%reads_Ok & Ha).
  apply txn_bind_Ok in Ha as (? & ? & (Hlt%Z.ltb_lt & _ & ->)%requires_Ok & Ha).
  apply txn_bind_Ok in Ha as (? & ? & [_ ->]%writes_Ok & [-> ->]%mret_Ok).
  right. split_and!; [done|done| |lia|done]. intros a Hk. rewrite Hk. lia.
Qed.

Lemma allocate_outside row network relayer pending now d n d' :
  allocate_relayer_nonce row network relayer pending now d = Ok (n, d') → outside d d'.
Proof.
  intros [(_ & ->)|(_ & -> & Hn & _)]%allocate_Ok; [done|].
  constructor; try done; [by apply receipts_same|]. apply nonces_grow_set.
  intros a Ha. specialize (Hn a Ha). simpl. lia.
Qed.

Section Evidence.
Context `{Sha256}.

Lemma record_event_outside event_id event_type row payload now d u d' :
  record_event_once event_id event_type row payload now d = Ok (u, d') → outside d d'.
Proof.
  unfold record_event_once. intros Hr.
  apply txn_bind_Ok in Hr as (? & ? & [-> ->]%reads_Ok & Hr). change (id d) with d in Hr.
  destruct (fd_audit d !! event_id); [by apply mret_Ok in Hr as [_ ->]|].
  apply txn_bind_Ok in Hr as ([[identity g] a] & ? & [_ ->]%lifts_Ok & Hr).
  by eapply add_audit_outside.
Qed.

Lemma watch_outside row evidence now d row' d' :
  record_hosted_watcher_evidence row evidence now d = Ok (row', d') → outside d d'.
Proof.
  unfold record_hosted_watcher_evidence. intros Hr.
  apply txn_bind_Ok in Hr as (? & ? & [_ ->]%lifts_Ok & Hr).
  apply txn_bind_Ok in Hr as (? & ? & (_ & _ & ->)%requires_Ok & Hr).
  apply txn_bind_Ok in Hr as (? & ? & Ho & [_ ->]%mret_Ok). by eapply record_event_outside.
Qed.

Lemma reorg_outside row evidence now d row' d' :
  record_hosted_watcher_reorg_evidence row evidence now d = Ok (row', d') → outside d d'.
Proof.
  unfold record_hosted_watcher_reorg_evidence. intros Hr.
  apply txn_bind_Ok in Hr as (? & ? & [_ ->]%lifts_Ok & Hr).
  case_match; [by eapply watch_outside|]. case_match; try (by apply raises_Ok in Hr).
  apply txn_bind_Ok in Hr as (? & ? & Ho & [_ ->]%mret_Ok). by eapply record_event_outside.
Qed.

Lemma revocation_outside row now d names d' :
  record_external_reconciliation_after_revocation row now d = Ok (names, d') →
  outside d d'.
Proof.
  unfold record_external_reconciliation_after_revocation. intros Hr.
  apply txn_bind_Ok in Hr as (? & ? & [-> ->]%reads_Ok & Hr). change (id d) with d in Hr.
  apply txn_bind_Ok in Hr as ([[identity g] a] & ? & [_ ->]%lifts_Ok & Hr).
  case_bool_decide; [by apply mret_Ok in Hr as [_ ->]|].
  destruct (fd_audit d !! _); [by apply mret_Ok in Hr as [_ ->]|].
  do 2 (apply txn_bind_Ok in Hr as (? & ? & [_ ->]%lifts_Ok & Hr)).
  apply txn_bind_Ok in Hr as (? & ? & Ho & [_ ->]%mret_Ok). by eapply add_audit_outside.
Qed.

Lemma observe_outside event_id row observed stale now d status d' :
  observe_allowance_before_submission event_id row observed stale now d = Ok (status, d') →
  outside d d'.
Proof.
  unfold observe_allowance_before_submission. intros Hr.
  apply txn_bind_Ok in Hr as (? & ? & [_ ->]%lifts_Ok & Hr).
  apply txn_bind_Ok in Hr as (? & ? & (_ & _ & ->)%requires_Ok & Hr).
  apply txn_bind_Ok in Hr as (? & ? & [-> ->]%reads_Ok & Hr). change (id d) with d in Hr.
  apply txn_bind_Ok in Hr as ([[identity g] a] & ? & [_ ->]%lifts_Ok & Hr).
  apply txn_bind_Ok in Hr as (? & ? & [_ ->]%lifts_Ok & Hr).
  apply txn_bind_Ok in Hr as (n & d0 & Hn & Hr).
  assert (d0 = d) as ->.
  { destruct stale; [by apply mret_Ok in Hn as [_ ->]|].
    by apply txn_bind_Ok in Hn as (? & ? & [_ ->]%lifts_Ok & [_ ->]%mret_Ok). }
  apply txn_bind_Ok in Hr as (? & d1 & Hp%put_allowance_outside & Hr).
  apply txn_bind_Ok in Hr as (? & d2 & Ha%add_audit_outside & [_ ->]%mret_Ok).
  by etrans.
Qed.
End Evidence.

