(* ===== verification/SubmissionEffects.v ===== *)
(** * The effects of submitting and completing payments

    Each transaction of [Submission] and [ProxyPayment] makes one step of the
    ledger machine; a receipt is added next to the reservation it settles. *)

From S2P Require Import Prelude PyValue Calendar Reservation Amounts LedgerTables LedgerStore.
From S2P Require Import Budget LedgerEvidence FundingService Assets Receipts Submission ProxyPayment.
From S2P Require Import LedgerFacts FundingMachine BudgetFacts FundingEffects FundingRefinement.

Open Scope string_scope.
Open Scope Z_scope.

(** ** Receipts *)

Lemma put_receipt_Ok clock k payload d p d' :
  fd_records d !! k = None → payload ≠ [] → dict_get payload "reservation_id" = PNone →
  dict_get payload "single_submission" = PNone →
  put clock "receipt" k payload [] d = Ok (p, d') → outside d d'.
Proof.
  unfold put. rewrite (bool_decide_eq_false_2 ("receipt" = "reservation")) by done.
  intros Hk Hne Hid Hss Hp. apply txn_bind_Ok in Hp as (? & ? & (_ & _ & ->)%requires_Ok & Hp).
  apply txn_bind_Ok in Hp as (? & ? & [-> ->]%reads_Ok & Hp). change (id d) with d in Hp.
  apply txn_bind_Ok in Hp as (? & ? & [_ ->]%lifts_Ok & Hp).
  apply txn_bind_Ok in Hp as ([q i] & ? & [[= -> ->] ->]%mret_Ok & Hp).
  rewrite Hk in Hp. apply txn_bind_Ok in Hp as (r & ? & [Ha ->]%lifts_Ok & Hp).
  apply txn_bind_Ok in Hp as (? & d1 & Hfl & [_ ->]%mret_Ok).
  apply flush_record_Ok in Hfl as (Hrec & Hacc & Hb).
  apply assigned_row_Ok in Ha as (Ht & Hpl & Htx). injection Htx as Htx.
  assert (receipt_row r) as Hr.
  { split_and!; [|done|by rewrite Hpl..]. unfold is_reservation_row. by rewrite Ht. }
  destruct Hacc as (Hg & Hd & Hro & _ & _ & Hn & _ & Hau).
  constructor; try done; [|by apply nonces_grow_same|by rewrite Hau].
  unfold receipts_added. rewrite Hrec. split; [by apply insert_subseteq|].
  intros k' r' [[<- <-]|[_ Hk']]%lookup_insert_Some; [done|congruence].
Qed.

(** No stored payload is empty. *)
Lemma get_nonempty d k : well_formed d → get k d ≠ Some [].
Proof.
  intros Hb. unfold get. destruct (fd_records d !! k) as [r|] eqn:E; [|done]. simpl.
  intros [= Hv]. unfold visible_payload in Hv.
  destruct (wf_typed d Hb k r E) as [[Hr [e He]]|(Hr & _ & Hne & _)].
  - rewrite bool_decide_eq_true_2 in Hv by done. rewrite <- entry_of_redact, Hv in He. done.
  - by rewrite bool_decide_eq_false_2 in Hv.
Qed.

Section Submission.
Context `{Sha256} `{HmacSha256} `{KeccakHex} (config : FundingConfig) (clock : Z).

Lemma unsigned_receipt_id authorization reservation receipt_id tx_hash metadata r :
  unsigned_receipt clock authorization reservation receipt_id tx_hash metadata = Ok r →
  receipt_id = PStr (fr_receipt_id r).
Proof.
  unfold unsigned_receipt. intros Hu.
  do 5 (apply result_bind_Ok in Hu as (? & _ & Hu)).
  apply result_bind_Ok in Hu as (i & Hi & Hu).
  do 4 (apply result_bind_Ok in Hu as (? & _ & Hu)).
  injection Hu as <-. simpl. destruct receipt_id; try done. by injection Hi as ->.
Qed.

Lemma record_receipt_outside authorization request tx_hash receipt_id metadata drawn d r d' :
  well_formed d → fd_records d !! drawn = None →
  record_spending_receipt config clock authorization request tx_hash receipt_id metadata drawn d
    = Ok (r, d') → outside d d'.
Proof.
  intros Hb Hdrawn Hf. unfold record_spending_receipt in Hf.
  apply txn_bind_Ok in Hf as (? & ? & [-> ->]%reads_Ok & Hf). change (id d) with d in Hf.
  apply txn_bind_Ok in Hf as ([au res] & ? & [_ ->]%lifts_Ok & Hf).
  do 3 (apply txn_bind_Ok in Hf as (? & ? & [_ ->]%lifts_Ok & Hf)).
  destruct (if py_truthy receipt_id then _ else None) as [[|kv stored]|] eqn:E.
  - exfalso. destruct (py_truthy receipt_id); [|done]. destruct receipt_id; try done.
    by eapply get_nonempty.
  - apply txn_bind_Ok in Hf as (? & ? & [_ ->]%lifts_Ok & Hf).
    apply txn_bind_Ok in Hf as (? & ? & (_ & _ & ->)%requires_Ok & [_ ->]%mret_Ok). done.
  - apply txn_bind_Ok in Hf as (receipt & ? & [Hu ->]%lifts_Ok & Hf).
    apply txn_bind_Ok in Hf as (? & d1 & Hp & [_ ->]%mret_Ok).
    eapply put_receipt_Ok; [|..|exact Hp]; [|done..].
    change (fr_receipt_id (signed_receipt _ receipt)) with (fr_receipt_id receipt).
    apply unsigned_receipt_id in Hu.
    destruct (py_truthy receipt_id); [|by injection Hu as <-].
    rewrite Hu in E. unfold get in E. by destruct (fd_records d !! fr_receipt_id receipt).
Qed.

Lemma record_payment_outside authorization current drawn more d r d' :
  well_formed d → fd_records d !! drawn = None →
  record_payment_receipt config clock authorization current drawn more d = Ok (r, d') →
  outside d d'.
Proof.
  intros Hb Hdrawn Hf. unfold record_payment_receipt in Hf.
  do 4 (apply txn_bind_Ok in Hf as (? & ? & [_ ->]%lifts_Ok & Hf)).
  by eapply record_receipt_outside.
Qed.

(** ** Completing *)

Lemma complete_native_effect row drawn d :
  well_formed d → fd_records d !! drawn = None →
  effect d (complete_native_reservation config clock row drawn d).2.
Proof.
  intros Hb Hdrawn. apply on_pending_effect. intros k current p d' Hk _ _ Hf.
  apply txn_bind_Ok in Hf as (? & ? & [-> ->]%reads_Ok & Hf). change (id d) with d in Hf.
  do 2 (apply txn_bind_Ok in Hf as (? & ? & [_ ->]%lifts_Ok & Hf)).
  apply txn_bind_Ok in Hf as (? & ? & (_ & _ & ->)%requires_Ok & Hf).
  apply txn_bind_Ok in Hf as (receipt & d1 & Ho%record_payment_outside & Hf); [|done..].
  apply txn_bind_Ok in Hf as (row' & d2 & Hset & Hf).
  apply txn_bind_Ok in Hf as (? & ? & [_ ->]%lifts_Ok & Hf).
  apply txn_bind_Ok in Hf as (? & ? & Hp & [_ ->]%mret_Ok).
  eapply effect_after; [exact Ho|].
  eapply settle_write; [by eapply outside_wf|by eapply outside_get|exact Hset| | |exact Hp];
    [reflexivity|]. intros Ha _. by eapply stage_moved.
Qed.

Lemma complete_external_effect row drawn d :
  well_formed d → fd_records d !! drawn = None →
  effect d (complete_external_reservation config clock row drawn d).2.
Proof.
  intros Hb Hdrawn. apply on_pending_effect. intros k current p d' Hk _ _ Hf.
  apply txn_bind_Ok in Hf as (? & ? & [-> ->]%reads_Ok & Hf). change (id d) with d in Hf.
  do 2 (apply txn_bind_Ok in Hf as (? & ? & [_ ->]%lifts_Ok & Hf)).
  apply txn_bind_Ok in Hf as (receipt & d1 & Ho%record_payment_outside & Hf); [|done..].
  apply txn_bind_Ok in Hf as (names & d2 & Ho2%revocation_outside & Hf).
  pose proof (transitivity Ho Ho2) as Ho'. clear Ho Ho2.
  apply txn_bind_Ok in Hf as (row' & d3 & Hset & Hf).
  apply txn_bind_Ok in Hf as (? & ? & [_ ->]%lifts_Ok & Hf).
  apply txn_bind_Ok in Hf as (? & ? & Hp & [_ ->]%mret_Ok).
  eapply effect_after; [exact Ho'|]. apply (outside_wf _ _ Ho') in Hb.
  eapply (outside_get _ _ _ _ Ho') in Hk. destruct (is_proxy current) eqn:E.
  - apply mret_Ok in Hset as [-> ->].
    eapply row_write; [done|done| | |exact Hp]; unfold settled_row; [same_fields|].
    intros _. eapply stage_proxy; [|done]. same_fields.
  - eapply settle_write; [done|done|exact Hset| | |exact Hp]; [reflexivity|].
    intros Ha _. by eapply stage_moved.
Qed.

Lemma external_reverted_effect row d :
  well_formed d → effect d (external_reverted clock row d).2.
Proof.
  intros Hb. unfold external_reverted.
  destruct (authoritative_reservation row d) as [current|] eqn:E; [|apply effect_refl].
  destruct (is_proxy current) eqn:Hp; [|by apply retry_effect].
  unfold authoritative_reservation in E. apply result_bind_Ok in E as (? & _ & E).
  apply result_bind_Ok in E as (v & Hv & E).
  apply result_bind_Ok in E as (c & Hc%from_option_or_Ok & E).
  destruct v as [| | |k| |]; try done. simpl in Hc.
  apply result_bind_Ok in E as (? & Him & E). apply result_bind_Ok in E as (? & Hun & E).
  apply result_bind_Ok in E as ([[] ?] & Hsc & [= ->]).
  unfold unified_authorization_scope in Hsc. apply result_bind_Ok in Hsc as (? & Hu & _).
  destruct (unified_entry _ _ _ _ Hb Hc Hu) as (u & (Hid & _)%entry_of_Some).
  eapply retry_proxy_effect; [done|exact Hid|]. simpl. intros c'. by rewrite Hc; intros [= <-].
Qed.

(** ** Submitting *)

Lemma refresh_outside current x d refused d' :
  refresh_allowance clock current x d = Ok (refused, d') → outside d d'.
Proof.
  unfold refresh_allowance. intros Hf. destruct (nc_observed_allowance x).
  - apply txn_bind_Ok in Hf as (status & d1 & Ho%observe_outside & Hf).
    case_bool_decide; simpl in Hf; [|by apply mret_Ok in Hf as [_ ->]].
    do 2 (apply txn_bind_Ok in Hf as (? & ? & [_ ->]%lifts_Ok & Hf)).
    by apply mret_Ok in Hf as [_ ->].
  - by apply txn_bind_Ok in Hf as (? & d1 & Ho%observe_outside & [_ ->]%mret_Ok).
Qed.

Lemma submit_prepared_effect k hash authorization current x d row d' :
  well_formed d → get k d = Some current →
  dict_get current "state" = PStr (native_ready_state current) →
  submit_prepared clock k hash authorization current x d = Ok (row, d') → effect d d'.
Proof.
  intros Hb Hk Hst Hf. unfold submit_prepared in Hf.
  do 4 (apply txn_bind_Ok in Hf as (? & ? & [_ ->]%lifts_Ok & Hf)).
  apply txn_bind_Ok in Hf as (nonce & d1 & Ho%allocate_outside & Hf).
  do 2 (apply txn_bind_Ok in Hf as (? & ? & [_ ->]%lifts_Ok & Hf)).
  apply txn_bind_Ok in Hf as (? & ? & Hp & [_ ->]%mret_Ok).
  eapply effect_after; [exact Ho|].
  eapply row_write; [by eapply outside_wf|by eapply outside_get| | |exact Hp];
    unfold native_submitted; [same_fields|].
  unfold native_ready_state in Hst. destruct (is_proxy current) eqn:E; [|by eapply stage_step].
  intros _. eapply stage_proxy; [|done]. same_fields.
Qed.

Lemma fetched_get k d kv row : fetched k d = kv :: row → get k d = Some (kv :: row).
Proof. unfold fetched. destruct (get k d); [by intros <-|done]. Qed.

Lemma unified_nonempty row u : require_unified_reservation row = Ok u → row ≠ [].
Proof. by intros Hu ->. Qed.

(** A checked row was fetched. *)
Lemma checked_get k d u : checked_row config (fetched k d) = Ok u → get k d = Some (fetched k d).
Proof.
  unfold checked_row. intros Hc. apply result_bind_Ok in Hc as (? & Hu%unified_nonempty & _).
  destruct (fetched k d) eqn:E; [done|]. by apply fetched_get.
Qed.

Lemma submit_native_effect k hash x d :
  well_formed d → effect d (submit_native config clock k hash x d).2.
Proof.
  intros Hb. unfold submit_native.
  assert (effect d (write_session (submit_native_txn config clock k hash x) d).2) as He.
  { apply effect_session. intros p d' Hf.
    apply txn_bind_Ok in Hf as (? & ? & [-> ->]%reads_Ok & Hf). change (id d) with d in Hf.
    apply txn_bind_Ok in Hf as (? & ? & [Hk%checked_get ->]%lifts_Ok & Hf).
    apply txn_bind_Ok in Hf as (v & ? & [Hv%dict_item_get ->]%lifts_Ok & Hf).
    destruct (is_text v _) eqn:Hst; simpl in Hf; [|apply mret_Ok in Hf as [_ ->]; apply effect_refl].
    apply is_text_eq in Hst as ->.
    apply txn_bind_Ok in Hf as (? & ? & (_ & _ & ->)%requires_Ok & Hf).
    do 2 (apply txn_bind_Ok in Hf as (? & ? & [_ ->]%lifts_Ok & Hf)).
    apply txn_bind_Ok in Hf as (refused & d1 & Ho%refresh_outside & Hf).
    destruct refused; [apply mret_Ok in Hf as [_ ->]; by apply outside_effect|].
    apply txn_bind_Ok in Hf as ([? ?] & d2 & Hs & [_ ->]%mret_Ok).
    eapply effect_after; [exact Ho|].
    eapply submit_prepared_effect; [by eapply outside_wf|by eapply outside_get|done|done]. }
  by destruct (write_session _ d) as [[[]|] ?].
Qed.

Lemma authorize_effect row d :
  well_formed d → effect d (authorize_native_broadcast clock row d).2.
Proof.
  intros Hb. apply effect_session. intros p d' Hf.
  apply txn_bind_Ok in Hf as (v & ? & [_ ->]%lifts_Ok & Hf).
  apply txn_bind_Ok in Hf as (? & ? & [-> ->]%reads_Ok & Hf).
  apply txn_bind_Ok in Hf as (? & ? & (Hs & _ & ->)%requires_Ok & Hf).
  apply same_pending_state in Hs as (q & Hk & _). rewrite Hk in Hf.
  change (default [] (Some q)) with q in Hf.
  do 2 (apply txn_bind_Ok in Hf as (? & ? & (_ & _ & ->)%requires_Ok & Hf)).
  apply txn_bind_Ok in Hf as (? & ? & [_ ->]%lifts_Ok & Hf).
  apply txn_bind_Ok in Hf as (? & ? & Hp & [_ ->]%mret_Ok).
  eapply row_touch; [done|exact Hk| | |exact Hp]; same_fields.
Qed.

Lemma send_effect row controls sent d :
  well_formed d → effect d (send_native_raw_transaction clock row controls sent d).2.
Proof.
  intros Hb. unfold send_native_raw_transaction.
  match goal with |- effect d (match write_session ?b d with _ => _ end).2 =>
    assert (effect d (write_session b d).2) as He end.
  { apply effect_session. intros p d' Hf.
    apply txn_bind_Ok in Hf as (v & ? & [_ ->]%lifts_Ok & Hf).
    apply txn_bind_Ok in Hf as (? & ? & [-> ->]%reads_Ok & Hf).
    apply txn_bind_Ok in Hf as (? & ? & (Hs & _ & ->)%requires_Ok & Hf).
    apply same_pending_state in Hs as (q & Hk & _). rewrite Hk in Hf.
  change (default [] (Some q)) with q in Hf.
    apply txn_bind_Ok in Hf as (? & ? & [_ ->]%lifts_Ok & Hf).
    apply txn_bind_Ok in Hf as (? & ? & (_ & _ & ->)%requires_Ok & Hf).
    destruct controls.
    - apply txn_bind_Ok in Hf as (? & ? & [_ ->]%lifts_Ok & [_ ->]%mret_Ok). apply effect_refl.
    - apply txn_bind_Ok in Hf as (? & ? & Hp & [_ ->]%mret_Ok). by eapply put_blocked_effect. }
  by destruct (write_session _ d) as [[[]|] ?].
Qed.

Lemma finalize_txn_effect proxy k hash proof executed d row d' :
  well_formed d → finalize_txn config clock proxy k hash proof executed d = Ok (row, d') →
  effect d d'.
Proof.
  intros Hb Hf.
  apply txn_bind_Ok in Hf as (? & ? & [-> ->]%reads_Ok & Hf). change (id d) with d in Hf.
  apply txn_bind_Ok in Hf as (? & ? & [_ ->]%lifts_Ok & Hf).
  apply txn_bind_Ok in Hf as (? & ? & [Hk%checked_get ->]%lifts_Ok & Hf).
  apply txn_bind_Ok in Hf as (v & ? & [Hv%dict_item_get ->]%lifts_Ok & Hf).
  destruct (is_text v _) eqn:Hst; simpl in Hf; [|apply mret_Ok in Hf as [_ ->]; apply effect_refl].
  apply is_text_eq in Hst as ->.
  apply txn_bind_Ok in Hf as (? & ? & [_ ->]%lifts_Ok & Hf).
  apply txn_bind_Ok in Hf as (? & ? & Hp & [_ ->]%mret_Ok).
  eapply row_write; [done|done| | |exact Hp]; unfold external_submitted.
  - destruct proxy; same_fields.
  - intros Hok. destruct proxy; [|by eapply stage_step]. destruct (is_proxy (fetched k d)) eqn:E.
    + eapply stage_proxy; [|done]. same_fields.
    + destruct (Hok E) as (? & ? & Hs & _ & Ha). rewrite Hv in Hs. by injection Hs as <-.
Qed.

Lemma submit_external_effect proxy k hash proof observed executed d :
  well_formed d → effect d (submit_external config clock proxy k hash proof observed executed d).2.
Proof.
  intros Hb. unfold submit_external. destruct (mbind _ _) as [[|[h proof_hash]]|];
    [apply effect_refl| |apply effect_refl].
  assert (effect d (write_session
    (finalize_txn config clock proxy k h proof_hash executed) d).2) as He
    by (apply effect_session; intros ? ? Hf; by eapply finalize_txn_effect).
  by destruct (write_session _ d) as [[|[]] ?].
Qed.

(** ** Reconciling *)

Lemma reconcile_pending_effect attempts age operator k row d r d' :
  well_formed d → get k d = Some row →
  reconcile_pending clock attempts age operator row d = Ok (r, d') → effect d d'.
Proof.
  intros Hb Hk Hf. unfold reconcile_pending in Hf.
  case_match; [apply mret_Ok in Hf as [_ ->]; apply effect_refl|].
  apply txn_bind_Ok in Hf as (limit & ? & [_ ->]%lifts_Ok & Hf). destruct limit.
  - apply txn_bind_Ok in Hf as (? & ? & Hp & [_ ->]%mret_Ok).
    eapply row_touch; [done|done| | |exact Hp]; unfold manual_review_reservation; same_fields.
  - apply txn_bind_Ok in Hf as (kvs & ? & [Hu ->]%lifts_Ok & Hf).
    apply txn_bind_Ok in Hf as (? & ? & Hp & [_ ->]%mret_Ok).
    destruct operator; apply result_bind_Ok in Hu as (n & _ & [= <-]);
      (eapply row_touch; [done|done| | |exact Hp]; same_fields).
Qed.

Lemma reconcile_effect attempts age operator k d :
  well_formed d → effect d (reconcile_reservation config clock attempts age operator k d).2.
Proof.
  intros Hb. apply effect_session. intros p d' Hf.
  apply txn_bind_Ok in Hf as (row & ? & [-> Hk]%required_row_Ok & Hf).
  do 2 (apply txn_bind_Ok in Hf as (? & ? & [_ ->]%lifts_Ok & Hf)).
  case_match; [apply mret_Ok in Hf as [_ ->]; apply effect_refl|].
  apply txn_bind_Ok in Hf as (? & ? & [_ ->]%lifts_Ok & Hf).
  repeat case_match;
    try (apply mret_Ok in Hf as [_ ->]; apply effect_refl);
    try (apply txn_bind_Ok in Hf as (? & ? & Hp & [_ ->]%mret_Ok);
         eapply row_touch; [done|done| | |exact Hp]; same_fields).
  apply txn_bind_Ok in Hf as (? & ? & (_ & _ & ->)%requires_Ok & Hf).
  by eapply reconcile_pending_effect.
Qed.

(** ** Payer-proxy payments *)

Lemma sign_proxy_effect k row r hash x d p d' :
  well_formed d → get k d = Some row → is_proxy row = true →
  sign_proxy_payment clock row r hash x d = Ok (p, d') → effect d d'.
Proof.
  intros Hb Hk Hpr Hf. unfold sign_proxy_payment in Hf.
  do 3 (apply txn_bind_Ok in Hf as (? & ? & [_ ->]%lifts_Ok & Hf)).
  apply txn_bind_Ok in Hf as (? & ? & (_ & _ & ->)%requires_Ok & Hf).
  do 2 (apply txn_bind_Ok in Hf as (? & ? & [_ ->]%lifts_Ok & Hf)).
  apply txn_bind_Ok in Hf as (? & ? & Hp & [_ ->]%mret_Ok).
  eapply row_write; [done|done| | |exact Hp]; unfold proxy_prepared; [same_fields|].
  intros _. eapply stage_proxy; [|done]. same_fields.
Qed.

Lemma prepare_proxy_effect name version k r x d :
  well_formed d → effect d (prepare_proxy_payment config clock name version k r x d).2.
Proof.
  intros Hb. apply effect_session. intros p d' Hf.
  apply txn_bind_Ok in Hf as (row & ? & [-> Hk]%required_row_Ok & Hf).
  apply txn_bind_Ok in Hf as (? & ? & [_ ->]%lifts_Ok & Hf).
  apply txn_bind_Ok in Hf as (rail & ? & [Hr%dict_item_get ->]%lifts_Ok & Hf).
  apply txn_bind_Ok in Hf as (? & ? & (Hp & _ & ->)%requires_Ok & Hf).
  do 2 (apply txn_bind_Ok in Hf as (? & ? & (_ & _ & ->)%requires_Ok & Hf)).
  apply txn_bind_Ok in Hf as (? & ? & [_ ->]%lifts_Ok & Hf).
  apply txn_bind_Ok in Hf as (? & ? & (_ & _ & ->)%requires_Ok & Hf).
  case_match; [apply mret_Ok in Hf as [_ ->]; apply effect_refl|].
  do 2 (apply txn_bind_Ok in Hf as (? & ? & [_ ->]%lifts_Ok & Hf)).
  apply txn_bind_Ok in Hf as (? & ? & (_ & _ & ->)%requires_Ok & Hf).
  eapply sign_proxy_effect; [done|exact Hk| |exact Hf]. unfold is_proxy. by rewrite Hr.
Qed.
End Submission.
