(* ===== verification/FundingCommands.v ===== *)
(** * Calls of the funding and account services

    The calls the model covers, as commands on the funding database, the states
    they reach from a ledger that has charged nothing, and the proof that each
    call has one of the effects of [FundingEffects]. *)

From S2P Require Import Prelude PyValue Calendar Reservation Amounts LedgerTables LedgerStore.
From S2P Require Import Budget LedgerEvidence FundingService Assets Receipts Submission ProxyPayment.
From S2P Require Import GrantStore LedgerFacts FundingMachine BudgetFacts FundingEffects.
From S2P Require Import FundingRefinement SubmissionEffects.

Open Scope string_scope.
Open Scope Z_scope.

(** ** Commands *)

(** A call of the services; the arguments the code draws at random or reads from
    its configuration or the chain are part of the call. *)
Inductive FundingCommand :=
| CReserve (rq : CreateSpendingReservationRequest) (pv : ReservationProvenance)
    (reservation_id nonce : string) (decimals : Z) (symbol : string) (token : option string)
| CFinalize (reservation_id : string) (delivery_status output_hash : pyval)
| CRelease (reservation_id reason : string)
| CPending (row : pydict) (error : option string) (manual_review : bool)
| CBlock (row : pydict) (reason : string)
| CRetry (row : pydict) (reason : string) (preserve_nonce : bool)
    (failure_kind reason_code : string)
| CExternalReverted (row : pydict)
| CSaveError (reservation_id : string) (tx_hash : pyval) (error : string)
| CFundPayer (row : pydict)
| CSubmitNative (reservation_id authorization_hash : string) (x : NativeContext)
| CAuthorize (row : pydict)
| CSend (row : pydict) (controls : result unit) (rpc_send : result pyval)
| CCompleteNative (row : pydict) (drawn_id : string)
| CSubmitExternal (proxy : bool) (reservation_id : string) (transaction_hash : pyval)
    (proof : pydict) (observed : result unit) (payment_executed : bool)
| CReconcile (reservation_id : string) (operator_reconcile : bool)
| CCompleteExternal (row : pydict) (drawn_id : string)
| CPrepareProxy (reservation_id : string) (r : ProxyPaymentRequirement) (x : ProxyContext)
| CNonce (row : pydict) (network relayer : string) (chain_pending_nonce : Z)
| CWatch (row evidence : pydict)
| CReorg (row evidence : pydict)
| CRevocation (row : pydict)
| CObserve (event_id : string) (row : pydict) (observed : pyval) (stale : bool)
| CPause (event_id grant_id : string)
| CResume (event_id grant_id : string)
| CRevoke (event_id grant_id : string)
| CReduce (event_id grant_id : string) (maximum transaction hourly daily : option Z)
| CActive (user_id : string)
| CRevokeWallet (event_ids : string → string) (wallet_event wallet_identity_id : string)
| CRefreshAllowance (event_id allowance_id : string) (observed : Z) (status : string)
| CStaleAllowance (event_id allowance_id : string)
| CSaveAllowance (event_id : string) (a : AssetAllowanceRow).

Section Commands.
Context `{Sha256} `{HmacSha256} `{KeccakHex} (config : FundingConfig).

(** The database after a call at an instant; a call that raises leaves it. *)
Definition frun (now : Z) (c : FundingCommand) (d : FundingDb) : FundingDb :=
  match c with
  | CReserve rq pv k nonce decimals symbol token =>
      (reserve_spending now rq pv k nonce decimals symbol token d).2
  | CFinalize k status hash => (finalize_reservation now k status hash d).2
  | CRelease k reason => (release_reservation now k reason d).2
  | CPending row error manual => (pending_reservation now row error manual d).2
  | CBlock row reason => (block_unbroadcast_native_reservation now row reason d).2
  | CRetry row reason preserve kind code =>
      (retryable_reservation now row reason preserve kind code d).2
  | CExternalReverted row => (external_reverted now row d).2
  | CSaveError k tx_hash error => (save_reconciliation_error now k tx_hash error d).2
  | CFundPayer row => (complete_proxy_reimbursement now row d).2
  | CSubmitNative k hash x => (submit_native config now k hash x d).2
  | CAuthorize row => (authorize_native_broadcast now row d).2
  | CSend row controls sent => (send_native_raw_transaction now row controls sent d).2
  | CCompleteNative row drawn => (complete_native_reservation config now row drawn d).2
  | CSubmitExternal proxy k hash proof observed executed =>
      (submit_external config now proxy k hash proof observed executed d).2
  | CReconcile k operator =>
      (reconcile_reservation config now (fc_reconciliation_max_attempts config)
         (fc_reconciliation_max_age_seconds config) operator k d).2
  | CCompleteExternal row drawn => (complete_external_reservation config now row drawn d).2
  | CPrepareProxy k r x =>
      (prepare_proxy_payment config now (fc_x402_payment_token_name config)
         (fc_x402_payment_token_version config) k r x d).2
  | CNonce row network relayer pending =>
      (write_session (allocate_relayer_nonce row network relayer pending now) d).2
  | CWatch row evidence => (write_session (record_hosted_watcher_evidence row evidence now) d).2
  | CReorg row evidence =>
      (write_session (record_hosted_watcher_reorg_evidence row evidence now) d).2
  | CRevocation row =>
      (write_session (record_external_reconciliation_after_revocation row now) d).2
  | CObserve event_id row observed stale =>
      (write_session (observe_allowance_before_submission event_id row observed stale now) d).2
  | CPause event_id k => (pause_spending_grant event_id now k d).2
  | CResume event_id k => (resume_spending_grant event_id now k d).2
  | CRevoke event_id k => (revoke_spending_grant event_id now k d).2
  | CReduce event_id k maximum transaction hourly daily =>
      (reduce_spending_grant event_id now k maximum transaction hourly daily d).2
  | CActive user_id => (active_spending_grants user_id now d).2
  | CRevokeWallet event_ids wallet_event k =>
      (revoke_wallet_identity_and_pause_active_grants event_ids wallet_event k now d).2
  | CRefreshAllowance event_id k observed status =>
      (refresh_asset_allowance event_id k observed status now d).2
  | CStaleAllowance event_id k => (mark_asset_allowance_stale event_id k now d).2
  | CSaveAllowance event_id a => (save_verified_asset_allowance event_id a d).2
  end.

(** A receipt id the code draws at random is not in use. *)
Definition drawn_fresh (c : FundingCommand) (d : FundingDb) : Prop :=
  match c with
  | CCompleteNative _ drawn | CCompleteExternal _ drawn => fd_records d !! drawn = None
  | _ => True
  end.

Lemma command_effect now c d :
  well_formed d → representable now → drawn_fresh c d → effect d (frun now c d).
Proof.
  intros Hb Hn Hd. destruct c; simpl.
  - by apply reserve_effect.
  - by apply finalize_effect.
  - by apply release_effect.
  - by apply pending_effect.
  - by apply block_effect.
  - by apply retry_effect.
  - by apply external_reverted_effect.
  - by apply save_error_effect.
  - by apply fund_payer_effect.
  - by apply submit_native_effect.
  - by apply authorize_effect.
  - by apply send_effect.
  - by apply complete_native_effect.
  - by apply submit_external_effect.
  - by apply reconcile_effect.
  - by apply complete_external_effect.
  - by apply prepare_proxy_effect.
  - apply outside_session. intros p d' Hf. eapply allocate_outside, Hf.
  - apply outside_session. intros p d' Hf. eapply watch_outside, Hf.
  - apply outside_session. intros p d' Hf. eapply reorg_outside, Hf.
  - apply outside_session. intros p d' Hf. eapply revocation_outside, Hf.
  - apply outside_session. intros p d' Hf. eapply observe_outside, Hf.
  - by apply pause_effect.
  - by apply resume_effect.
  - by apply revoke_effect.
  - by apply reduce_effect.
  - apply active_effect.
  - apply revoke_wallet_effect.
  - apply refresh_effect.
  - apply stale_effect.
  - apply save_allowance_effect.
Qed.

(** A history of calls, each at a representable instant; clocks need not be
    ordered, as the services run on several hosts. *)
Definition call (d d' : FundingDb) : Prop :=
  ∃ now c, representable now ∧ drawn_fresh c d ∧ d' = frun now c d.

(** A ledger that has charged nothing: every grant with zero counters. *)
Definition fresh_ledger (d : FundingDb) : Prop :=
  fd_records d = ∅ ∧ fd_bindings d = ∅ ∧ fd_daily d = ∅ ∧ fd_rolling d = ∅ ∧
  ∀ k g, fd_grants d !! k = Some g →
    sg_spending_grant_id g = k ∧ sg_used_amount_usdc g = 0 ∧ sg_reserved_amount_usdc g = 0 ∧
    0 <= sg_max_amount_usdc g.

Definition reachable_ledger (d : FundingDb) : Prop := ∃ d0, fresh_ledger d0 ∧ rtc call d0 d.

Lemma fresh_balanced d : fresh_ledger d → balanced d.
Proof.
  intros (Hrec & _ & Hda & Hr & Hg). constructor; unfold daily_used, daily_reserved, entries;
    rewrite ?Hrec, ?Hda, ?Hr; try (intros key; by autorewrite with tables);
    try (intros k x Hk; by autorewrite with tables in Hk).
  intros k g Hk. destruct (Hg k g Hk) as (? & Hu & Hv & ?).
  constructor; rewrite ?Hr; autorewrite with tables; rewrite ?Hu, ?Hv; try done; lia.
Qed.

Lemma fresh_wf d : fresh_ledger d → well_formed d.
Proof.
  intros Hf. split; [by apply fresh_balanced|..]; destruct Hf as (Hrec & _);
    intros k r Hk; by rewrite Hrec, lookup_empty in Hk.
Qed.

(** Whatever one effect preserves holds after any number of calls. *)
Lemma calls_induction (P : FundingDb → Prop) d d' :
  (∀ d1 d2, well_formed d1 → P d1 → effect d1 d2 → P d2) →
  well_formed d → P d → rtc call d d' → P d'.
Proof.
  intros Hstep Hb HP Hr. revert Hb HP. induction Hr as [|d d1 d' (now & c & Hn & Hd & ->) _ IH]; [done|].
  intros Hb HP. pose proof (command_effect now c d Hb Hn Hd) as He. apply IH; [|by eapply Hstep].
  by eapply effect_wf.
Qed.

Lemma reachable_wf d : reachable_ledger d → well_formed d.
Proof.
  intros (d0 & Hf%fresh_wf & Hr). apply (calls_induction well_formed d0 d); try done.
  intros d1 d2 _ Hb He. by eapply effect_wf.
Qed.
End Commands.
