(* ===== verification/ReceiptProperties.v ===== *)
(** * Receipts verify

    A receipt the service records carries a signature its own verifier accepts,
    and is stored so that reading it back gives the same receipt. *)

From S2P Require Import Prelude PyValue Calendar Reservation Amounts LedgerTables LedgerStore.
From S2P Require Import FundingService Assets Receipts LedgerFacts BudgetFacts FundingEffects.

Open Scope string_scope.
Open Scope Z_scope.

(** ** Reading a receipt back *)

Lemma as_opt_str_opt o : as_opt_str (opt_str o) = Ok o.
Proof. by destruct o. Qed.

Lemma as_dicts_map l : as_dicts (map PDict l) = Ok l.
Proof. induction l as [|d l IH]; [done|]. simpl. by rewrite IH. Qed.

Lemma receipt_round_trip r : receipt_of_dict (receipt_to_dict r) = Ok r.
Proof.
  destruct r as [i s re us ag wa am ve de ch to ta st tx na cr me ev].
  change (receipt_of_dict _) with
    (resource ← as_opt_str (opt_str re); user_id ← as_opt_str (opt_str us);
     agent_id ← as_opt_str (opt_str ag); wallet_address ← as_opt_str (opt_str wa);
     token_address ← as_opt_str (opt_str ta); tx_hash ← as_opt_str (opt_str tx);
     event_log ← as_dicts (map PDict ev);
     mret (MkReceipt i s resource user_id agent_id wallet_address am ve de ch to token_address
             st tx_hash na cr me event_log)).
  rewrite !as_opt_str_opt. simpl. by rewrite as_dicts_map.
Qed.

(** ** Well-formed values *)

Lemma py_wf_dict d :
  py_wf (PDict d) ↔ NoDup (d.*1) ∧ Forall (λ kv : string * pyval, py_wf kv.2) d.
Proof.
  simpl. split; intros [Hnd Hd]; split; try done.
  - clear Hnd. induction d as [|kv d IH]; constructor; [by destruct Hd|]. apply IH, Hd.
  - clear Hnd. induction Hd; [done|]. by split.
Qed.

Lemma opt_str_wf o : py_wf (opt_str o).
Proof. by destruct o. Qed.

Lemma py_wf_find d k v : py_wf (PDict d) → dict_find d k = Some v → py_wf v.
Proof.
  intros [_ Hd]%py_wf_dict Hk%dict_find_in. rewrite Forall_forall in Hd. exact (Hd _ Hk).
Qed.

Lemma visible_find r f v :
  dict_find (visible_payload r) f = Some v → dict_find (lr_payload r) f = Some v.
Proof.
  unfold visible_payload, redact_external_payment_payload. case_bool_decide; [|done].
  rewrite !dict_find_pop. by repeat case_decide.
Qed.

Lemma py_wf_pop d k : py_wf (PDict d) → py_wf (PDict (dict_pop d k)).
Proof.
  rewrite !py_wf_dict. intros [Hnd Hd]. unfold dict_pop. split.
  - clear Hd. induction d as [|kv d IH]; [done|]. apply NoDup_cons in Hnd as [Hkv Hnd].
    rewrite filter_cons. case_decide; [|by apply IH]. apply NoDup_cons. split; [|by apply IH].
    intros (kv' & Heq & [_ Hin]%list_elem_of_filter)%list_elem_of_fmap.
    apply Hkv. rewrite Heq. by apply list_elem_of_fmap_2.
  - rewrite Forall_forall in Hd |- *. intros kv [_ Hin]%list_elem_of_filter. by apply Hd.
Qed.

Lemma py_wf_redact d : py_wf (PDict d) → py_wf (PDict (redact_external_payment_payload d)).
Proof. intros Hd. by do 2 apply py_wf_pop. Qed.

(** The picked items are those of the row. *)
Lemma pick_items_keys row keys kvs :
  pick_items row keys = Ok kvs →
  kvs.*1 = keys ∧ ∀ k v, (k, v) ∈ kvs → dict_find row k = Some v.
Proof.
  revert kvs. induction keys as [|k keys IH]; simpl; intros kvs Hp.
  - injection Hp as <-. split; [done|]. by intros ? ? ?%elem_of_nil.
  - apply result_bind_Ok in Hp as (v & Hv & Hp). apply result_bind_Ok in Hp as (kvs' & Hk & Hp).
    injection Hp as <-. destruct (IH _ Hk) as [<- Hin]. split; [done|].
    intros k' v' [[= -> ->]|?]%elem_of_cons; [|auto].
    unfold dict_item in Hv. by apply from_option_or_Ok in Hv.
Qed.

Lemma picked_find row keys kvs d f :
  pick_items row keys = Ok kvs → NoDup keys → f ∈ keys →
  ∃ v, dict_find row f = Some v ∧ dict_get (dict_update d kvs) f = v.
Proof.
  intros Hp Hnd Hf. destruct (pick_items_keys _ _ _ Hp) as [Hk Hin].
  rewrite <- Hk in Hf. apply list_elem_of_fmap in Hf as ([k v] & -> & Hkv). simpl.
  exists v. split; [by apply Hin|]. unfold dict_get. rewrite dict_find_update.
  rewrite (dict_find_member (rev kvs) k v); [done| |].
  - assert ((rev kvs).*1 = rev keys) as -> by (rewrite <- Hk; apply map_rev).
    by rewrite <- (Permutation_rev keys).
  - by rewrite <- (Permutation_rev kvs).
Qed.

(** ** The signature *)

Section Receipts.
Context `{HmacSha256} (config : FundingConfig) (clock : Z).

(** Signing adds nothing the scope reads. *)
Lemma scope_signed key r : receipt_scope (signed_receipt key r) = receipt_scope r.
Proof.
  assert (∀ f v w, f ≠ "receipt_scope" → f ≠ "receipt_signature" →
    dict_get (dict_update (fr_metadata r) [("receipt_scope", v); ("receipt_signature", w)]) f
      = dict_get (fr_metadata r) f) as Hf.
  { intros f v w H1 H2. unfold dict_get. rewrite dict_find_update. simpl.
    by rewrite !bool_decide_eq_false_2. }
  unfold receipt_scope. change (fr_metadata (signed_receipt key r)) with
    (dict_update (fr_metadata r) [("receipt_scope", PDict (receipt_scope r));
       ("receipt_signature", PStr (receipt_signature key (receipt_scope r)))]).
  by rewrite !Hf by done.
Qed.

Lemma signed_verifies key r a :
  receipt_signing_key config = Ok key → fr_token_address r = Some a → a ≠ EmptyString →
  py_wf (PDict (receipt_scope r)) →
  verify_receipt_signature config (signed_receipt key r) = true.
Proof.
  intros Hk Ha Hne Hwf. unfold verify_receipt_signature.
  change (fr_token_address (signed_receipt key r)) with (fr_token_address r).
  rewrite Ha, Hk. destruct a; [done|]. rewrite scope_signed.
  change (fr_metadata (signed_receipt key r)) with
    (dict_update (fr_metadata r) [("receipt_scope", PDict (receipt_scope r));
       ("receipt_signature", PStr (receipt_signature key (receipt_scope r)))]).
  unfold dict_get. rewrite !dict_find_update.
  change (dict_find (rev _) "receipt_scope") with (Some (PDict (receipt_scope r))).
  change (dict_find (rev _) "receipt_signature") with
    (Some (PStr (receipt_signature key (receipt_scope r)))). cbn [default from_option].
  apply andb_true_iff. split; [by apply py_eqb_refl|by apply is_text_eq].
Qed.

(** ** Recording *)

Lemma pending_hash_text reservation receipt_id tx_hash v :
  pending_hash reservation receipt_id tx_hash = Ok v → ∃ h, v = PStr h.
Proof.
  unfold pending_hash. intros Hp. apply result_bind_Ok in Hp as (w & _ & Hp).
  apply result_bind_Ok in Hp as (? & _ & Hp). apply result_bind_Ok in Hp as (h & _ & Hp).
  apply result_bind_Ok in Hp as (? & [Ht _]%require_Ok & [= <-]).
  apply is_text_eq in Ht. eauto.
Qed.

(** The scope of a new receipt is a JSON object. *)
Lemma unsigned_scope_wf authorization row receipt_id h metadata r :
  py_wf (PDict row) →
  unsigned_receipt clock authorization row receipt_id (PStr h) metadata = Ok r →
  py_wf (PDict (receipt_scope r)) ∧ as_opt_str (dict_get row "token_address") = Ok (fr_token_address r).
Proof.
  intros Hrow Hu. unfold unsigned_receipt in Hu.
  apply result_bind_Ok in Hu as (? & _ & Hu). apply result_bind_Ok in Hu as (? & _ & Hu).
  apply result_bind_Ok in Hu as (? & _ & Hu).
  apply result_bind_Ok in Hu as (ta & Hta%dict_item_get & Hu).
  apply result_bind_Ok in Hu as (kvs & Hkvs & Hu).
  do 3 (apply result_bind_Ok in Hu as (? & _ & Hu)).
  apply result_bind_Ok in Hu as (ta' & Hta' & Hu). apply result_bind_Ok in Hu as (? & _ & Hu).
  injection Hu as <-. split; [|by rewrite Hta].
  assert (∀ f, f ∈ RECEIPT_METADATA_KEYS → py_wf (dict_get (dict_update metadata kvs) f)) as Hm.
  { intros f Hf. destruct (picked_find row _ kvs metadata f Hkvs ltac:(decided) Hf) as (v & Hv & ->).
    by eapply py_wf_find. }
  apply py_wf_dict. split; [vm_compute; decided|].
  unfold receipt_scope, fr_metadata.
  repeat (apply Forall_cons; split;
    [first [apply Hm; decided | apply opt_str_wf | exact I
           | split; [split; [decided|by repeat split]|done]]|]).
  constructor.
Qed.

(** A reservation the ledger resolves names a token. *)
Lemma resolved_row authorization request d canonical row :
  resolve_authoritative_unified_spend authorization request d = Ok (canonical, row) →
  ∃ k, get k d = Some row ∧ require_unified_reservation row = Ok tt.
Proof.
  unfold resolve_authoritative_unified_spend. intros Hr.
  do 3 (apply result_bind_Ok in Hr as (? & _ & Hr)).
  apply result_bind_Ok in Hr as (? & _ & Hr).
  apply result_bind_Ok in Hr as (row' & Hg%from_option_or_Ok & Hr).
  apply result_bind_Ok in Hr as (can & Hcan & Hr).
  do 6 (apply result_bind_Ok in Hr as (? & _ & Hr)). injection Hr as _ <-.
  unfold reservation_authorization in Hcan. apply result_bind_Ok in Hcan as ([] & Hu & _).
  destruct (dict_get _ _) as [| | |k| |]; try done. eauto.
Qed.

Lemma put_receipt_stored k payload d p d' :
  put clock "receipt" k payload [] d = Ok (p, d') → get k d' = Some payload.
Proof.
  unfold put. rewrite (bool_decide_eq_false_2 ("receipt" = "reservation")) by done. intros Hp.
  apply txn_bind_Ok in Hp as (? & ? & (_ & _ & ->)%requires_Ok & Hp).
  apply txn_bind_Ok in Hp as (? & ? & [-> ->]%reads_Ok & Hp). change (id d) with d in Hp.
  apply txn_bind_Ok in Hp as (? & ? & [_ ->]%lifts_Ok & Hp).
  apply txn_bind_Ok in Hp as ([q i] & ? & [[= -> ->] ->]%mret_Ok & Hp).
  apply txn_bind_Ok in Hp as (r & ? & [Ha ->]%lifts_Ok & Hp).
  apply txn_bind_Ok in Hp as (? & d1 & Hfl & [_ ->]%mret_Ok).
  apply flush_record_Ok in Hfl as (Hrec & _). apply assigned_row_Ok in Ha as (Ht & Hpl & _).
  unfold get. rewrite Hrec, lookup_insert_eq. simpl. unfold visible_payload.
  by rewrite Ht, Hpl, (bool_decide_eq_false_2 ("receipt" = "reservation")).
Qed.

(** C31: functional.  A receipt the service records, or finds recorded, is accepted
    by the service's own verifier, and is stored: reading its payload back gives
    the receipt that was returned.  Stored payloads are JSON objects. *)
Theorem recorded_receipt_verifies authorization request tx_hash receipt_id metadata drawn d r d' :
  (∀ k row, fd_records d !! k = Some row → py_wf (PDict (lr_payload row))) →
  record_spending_receipt config clock authorization request tx_hash receipt_id metadata drawn d
    = Ok (r, d') →
  verify_receipt_signature config r = true ∧
  ∃ k payload, get k d' = Some payload ∧ receipt_of_dict payload = Ok r.
Proof.
  intros Hwf Hf. unfold record_spending_receipt in Hf.
  apply txn_bind_Ok in Hf as (? & ? & [-> ->]%reads_Ok & Hf). change (id d) with d in Hf.
  apply txn_bind_Ok in Hf as ([au row] & ? & [Hres%resolved_row ->]%lifts_Ok & Hf).
  apply txn_bind_Ok in Hf as (? & ? & [_ ->]%lifts_Ok & Hf).
  apply txn_bind_Ok in Hf as (v & ? & [[h ->]%pending_hash_text ->]%lifts_Ok & Hf).
  apply txn_bind_Ok in Hf as (key & ? & [Hkey ->]%lifts_Ok & Hf).
  destruct Hres as (k & Hk & Hu).
  assert (py_wf (PDict row)) as Hrow.
  { unfold get in Hk. destruct (fd_records d !! k) as [lr|] eqn:E; [|done]. injection Hk as <-.
    specialize (Hwf k lr E). unfold visible_payload. case_bool_decide; [by apply py_wf_redact|done]. }
  assert (∀ rid : pyval,
    (receipt ← lifts (unsigned_receipt clock au row rid (PStr h) metadata);
     put clock "receipt" (fr_receipt_id (signed_receipt key receipt))
       (receipt_to_dict (signed_receipt key receipt)) [];; mret (signed_receipt key receipt)) d
      = Ok (r, d') →
    verify_receipt_signature config r = true ∧
    ∃ k payload, get k d' = Some payload ∧ receipt_of_dict payload = Ok r) as Hnew.
  { intros rid Hn. apply txn_bind_Ok in Hn as (receipt & ? & [Hun ->]%lifts_Ok & Hn).
    apply txn_bind_Ok in Hn as (? & d1 & Hp%put_receipt_stored & [-> ->]%mret_Ok).
    destruct (unsigned_scope_wf _ _ _ _ _ _ Hrow Hun) as [Hs Ht]. split.
    - destruct (unified_fields _ _ Hu "token_address" ltac:(decided)) as [Hn1 Hn2].
      destruct (dict_get row "token_address"); try done. simpl in Ht. injection Ht as Ht.
      eapply signed_verifies; [done|by symmetry| |done]. congruence.
    - do 2 eexists. split; [exact Hp|apply receipt_round_trip]. }
  destruct (if py_truthy receipt_id then _ else None) as [[|kv stored]|] eqn:E; try by eapply Hnew.
  apply txn_bind_Ok in Hf as (receipt & ? & [Hr ->]%lifts_Ok & Hf).
  apply txn_bind_Ok in Hf as (? & ? & (Hver & _ & ->)%requires_Ok & [-> ->]%mret_Ok).
  split; [done|]. destruct (py_truthy receipt_id), receipt_id; try done. eauto.
Qed.
End Receipts.
