(* ===== verification/FundingSafety.v ===== *)
(** * What the ledger never forgets

    Invariants of the stored reservations, of the transaction bindings and of
    the relayer nonces over histories of calls. *)

From S2P Require Import Prelude PyValue Reservation LedgerTables LedgerStore Budget LedgerFacts.
From S2P Require Import Receipts Submission FundingMachine FundingEffects FundingRefinement.
From S2P Require Import FundingCommands.

Open Scope string_scope.
Open Scope Z_scope.

(** ** A write over a stored reservation *)

(** The row [r'] was validated as a replacement of [r]. *)
Record replaces (r r' : LedgerRow) : Prop := {
  re_unchanged : ∀ f, f ∈ RESERVATION_IMMUTABLE_FIELDS → f ≠ "settlement_transaction" →
    py_eqb (dict_get (lr_payload r) f) (dict_get (lr_payload r') f) = true;
  re_sealed : is_true (dict_get (lr_payload r) "single_submission") = true →
    ∀ f, f ∈ ["settlement_sender"; "settlement_nonce"; "settlement_transaction"] →
    dict_get (lr_payload r) f ≠ PNone →
    py_eqb (dict_get (lr_payload r) f) (dict_get (lr_payload r') f) = true;
  re_forbidden : is_true (dict_get (lr_payload r) "single_submission") = true →
    is_true (dict_get (lr_payload r) "replacement_forbidden") = true →
    is_true (dict_get (lr_payload r') "replacement_forbidden") = true;
  re_single : is_true (dict_get (lr_payload r) "single_submission") = true →
    is_true (dict_get (lr_payload r') "single_submission") = true;
}.

Lemma changed_none stored q f :
  changed_fields stored q = [] → f ∈ RESERVATION_IMMUTABLE_FIELDS →
  immutable_field_changed stored q f = false.
Proof.
  intros Hc Hf. destruct (immutable_field_changed stored q f) eqn:E; [|done].
  assert (f ∈ filter (λ f, immutable_field_changed stored q f = true)
                RESERVATION_IMMUTABLE_FIELDS) as Hin by by apply list_elem_of_filter.
  unfold changed_fields in Hc. exfalso.
  destruct (is_true _); [apply app_nil in Hc as [Hc _]|]; rewrite Hc in Hin;
    by apply elem_of_nil in Hin.
Qed.

Lemma sealed_none stored q f :
  changed_fields stored q = [] → is_true (dict_get stored "single_submission") = true →
  f ∈ SINGLE_SUBMISSION_CANONICAL_FIELDS → dict_get stored f ≠ PNone →
  py_eqb (dict_get stored f) (dict_get q f) = true.
Proof.
  unfold changed_fields. intros Hc Hs Hf Hn. rewrite Hs in Hc.
  apply app_nil in Hc as [Hc1 Hc]. apply app_nil in Hc as [Hc _].
  rewrite Hc1 in Hc. destruct (py_eqb (dict_get stored f) (dict_get q f)) eqn:E; [done|].
  exfalso. eapply elem_of_nil. rewrite <- Hc. apply list_elem_of_filter. split; [|exact Hf].
  rewrite E. simpl.
  by destruct (dict_get stored f).
Qed.

Lemma forbidden_none stored q :
  changed_fields stored q = [] → is_true (dict_get stored "single_submission") = true →
  is_true (dict_get stored "replacement_forbidden") = true →
  is_true (dict_get q "replacement_forbidden") = true.
Proof.
  unfold changed_fields. intros Hc Hs Hf. rewrite Hs, Hf in Hc.
  apply app_nil in Hc as [_ Hc]. apply app_nil in Hc as [_ Hc]. apply app_nil in Hc as [Hc _].
  by destruct (is_true (dict_get q _)).
Qed.

Lemma written_get k p i d r d' f :
  written k p i d r d' → f ≠ "tx_hash" →
  dict_get (lr_payload r) f = dict_get (redact_external_payment_payload p) f.
Proof. intros Hw Hf. unfold dict_get. by rewrite (wr_fields _ _ _ _ _ _ Hw). Qed.

(** A unified reservation says whether it is single-submission by a boolean. *)
Lemma unified_single q u :
  require_unified_reservation q = Ok u →
  is_bool (dict_get_or q "single_submission" (PBool false)) = true.
Proof.
  unfold require_unified_reservation. intros Hq.
  do 3 (apply result_bind_Ok in Hq as (? & _ & Hq)).
  by apply result_bind_Ok in Hq as (? & [Hs _]%require_Ok & _).
Qed.

Lemma written_replaces k p i d r r' d' :
  written k p i d r' d' → fd_records d !! k = Some r → replaces r r'.
Proof.
  intros Hw Hk. pose proof (wr_valid _ _ _ _ _ _ Hw) as Hv.
  apply validate_write_Ok in Hv as (_ & _ & Hun & _ & Hc). rewrite Hk in Hc.
  specialize (Hc _ eq_refl).
  assert (∀ f, f ≠ "tx_hash" → dict_get (lr_payload r') f
            = dict_get (redact_external_payment_payload p) f) as Hf
    by (intros f; by eapply written_get).
  constructor.
  - intros f Hin Hne. pose proof (changed_none _ _ _ Hc Hin) as Hi.
    rewrite Hf by (intros ->; revert Hin; decided).
    unfold immutable_field_changed in Hi.
    rewrite (bool_decide_eq_false_2 (f = "settlement_transaction")) in Hi by done.
    simpl in Hi. rewrite !andb_true_r in Hi. by apply negb_false_iff in Hi.
  - intros Hs f Hin Hn. rewrite Hf by (intros ->; revert Hin; decided).
    apply sealed_none; try done. revert Hin. clear. intros Hin. list_cases; subst; list_member.
  - intros Hs Hr. rewrite Hf by done. by eapply forbidden_none.
  - intros Hs. rewrite Hf by done. apply unified_single in Hun.
    pose proof (changed_none _ _ "single_submission" Hc ltac:(decided)) as Hi.
    unfold immutable_field_changed in Hi.
    assert (bool_decide ("single_submission" = "settlement_transaction") = false) as E by done.
    rewrite E in Hi. simpl in Hi. rewrite !andb_true_r in Hi. apply negb_false_iff in Hi.
    destruct (dict_get (lr_payload r) _) as [|[]| | | |]; try done.
    unfold dict_get_or, dict_get in *. by destruct (dict_find _ _) as [[|[]| | | |]|].
Qed.

(** ** The state of a failed single-submission payment *)

(** A payment that failed for good is reserved or released. *)
Definition failure_closed (r : LedgerRow) : Prop :=
  is_true (dict_get (lr_payload r) "single_submission") = true →
  is_true (dict_get (lr_payload r) "replacement_forbidden") = true →
  dict_get (lr_payload r) "state" ∈ [PStr "spending_reserved"; PStr "released"].

Lemma validated_failure_closed q u :
  validate_single_submission_state_of q = Ok u →
  is_true (dict_get q "replacement_forbidden") = true →
  dict_get q "state" ∈ [PStr "spending_reserved"; PStr "released"].
Proof.
  unfold validate_single_submission_state_of, validate_hosted_submission_state. intros Hv Hf.
  rewrite Hf in Hv. destruct (evidence_of q) as [| | | |evidence|]; try done.
  apply (py_in_strs _ ["spending_reserved"; "released"]).
  destruct (is_text (dict_get q "settlement_rail") "hosted").
  - apply result_bind_Ok in Hv as (submitted & _ & Hv). destruct submitted.
    { apply require_Ok in Hv as [Hv _]. by rewrite andb_false_r in Hv. }
    by destruct (py_in _ _).
  - apply result_bind_Ok in Hv as (? & _ & Hv).
    apply result_bind_Ok in Hv as (submitted & _ & Hv).
    apply result_bind_Ok in Hv as (? & Hst & _). destruct submitted.
    { by apply result_bind_Ok in Hst as (? & [Hst _]%require_Ok & _). }
    by destruct (py_in _ _).
Qed.

Lemma written_failure_closed k p i d r d' : written k p i d r d' → failure_closed r.
Proof.
  intros Hw. pose proof (wr_valid _ _ _ _ _ _ Hw) as Hv. unfold failure_closed.
  rewrite !(written_get _ _ _ _ _ _ _ Hw) by done. intros Hs Hf.
  unfold validate_reservation_write in Hv. rewrite Hs in Hv.
  do 5 (apply result_bind_Ok in Hv as (? & _ & Hv)).
  apply result_bind_Ok in Hv as (? & _ & Hv).
  apply result_bind_Ok in Hv as (? & Hst & _).
  apply result_bind_Ok in Hst as (? & _ & Hst). by eapply validated_failure_closed.
Qed.

(** ** Over one effect *)

(** A row after an effect is the row before it, a receipt, or a reservation that
    was validated as the replacement of its predecessor. *)
Lemma effect_row_before d d' k r' :
  effect d d' → fd_records d' !! k = Some r' →
  fd_records d !! k = Some r' ∨ receipt_row r' ∨ failure_closed r'.
Proof.
  assert (∀ d1, receipts_added d d1 → fd_records d1 !! k = Some r' →
            fd_records d !! k = Some r' ∨ receipt_row r') as Hold.
  { intros d1 [Hs Hr] Hk. destruct (fd_records d !! k) as [r|] eqn:E; [left|right; eauto].
    by rewrite <- (lookup_weaken _ _ _ _ E Hs). }
  intros He Hk. destruct (ef_records _ _ He) as [Hr _|k' p i d1 r1 Hr _ Hw _].
  - destruct (Hold _ Hr Hk); auto.
  - rewrite (wr_records _ _ _ _ _ _ Hw) in Hk.
    apply lookup_insert_Some in Hk as [[<- <-]|[_ Hk]].
    + right; right. by eapply written_failure_closed.
    + destruct (Hold _ Hr Hk); auto.
Qed.

Lemma effect_row d d' k r :
  effect d d' → fd_records d !! k = Some r →
  ∃ r', fd_records d' !! k = Some r' ∧ (r' = r ∨ replaces r r' ∧ failure_closed r').
Proof.
  intros He Hk. destruct (ef_records _ _ He) as [[Hs _] _|k' p i d1 r' [Hs _] _ Hw _].
  - exists r. split; [by eapply lookup_weaken|by left].
  - pose proof (lookup_weaken _ _ _ _ Hk Hs) as Hk1. rewrite (wr_records _ _ _ _ _ _ Hw).
    destruct (decide (k' = k)) as [->|].
    + exists r'. rewrite lookup_insert_eq. split; [done|]. right.
      split; [by eapply written_replaces|by eapply written_failure_closed].
    + exists r. rewrite lookup_insert_ne by done. auto.
Qed.

(** Every binding is kept, and a stored hash is bound to its reservation. *)
Definition bound (d : FundingDb) : Prop :=
  ∀ k r h, fd_records d !! k = Some r → lr_tx_hash r = Some h →
    tb_reservation_id <$> fd_bindings d !! h = Some k.

Lemma effect_bindings d d' h b :
  effect d d' → fd_bindings d !! h = Some b → fd_bindings d' !! h = Some b.
Proof.
  intros He Hb. destruct (ef_records _ _ He) as [_ Hbi|k p i d1 r _ Hbi Hw _].
  - by rewrite Hbi.
  - apply (wr_bindings _ _ _ _ _ _ Hw). by rewrite Hbi.
Qed.

Lemma receipts_bound d d' :
  receipts_added d d' → fd_bindings d' = fd_bindings d → bound d → bound d'.
Proof.
  intros [Hs Hr] Hbi Hb k r h Hk Hh. rewrite Hbi.
  destruct (fd_records d !! k) as [r0|] eqn:E.
  - pose proof (lookup_weaken _ _ _ _ E Hs). simplify_eq. eauto.
  - destruct (Hr k r Hk E) as (_ & Hn & _). congruence.
Qed.

Lemma written_bound k p i d r d' : written k p i d r d' → bound d → bound d'.
Proof.
  intros Hw Hb.
  assert (∀ k0 r0 h, fd_records d !! k0 = Some r0 → lr_tx_hash r0 = Some h →
            tb_reservation_id <$> fd_bindings d' !! h = Some k0) as Hold.
  { intros k0 r0 h Hk0 Hh0. specialize (Hb _ _ _ Hk0 Hh0).
    destruct (fd_bindings d !! h) as [b|] eqn:E; [|done].
    by rewrite (wr_bindings _ _ _ _ _ _ Hw _ _ E). }
  intros k' r' h Hk Hh. rewrite (wr_records _ _ _ _ _ _ Hw) in Hk.
  apply lookup_insert_Some in Hk as [[<- <-]|[_ Hk]]; [|eauto].
  destruct (wr_bound _ _ _ _ _ _ Hw h Hh) as [?|[_ Hold']]; [done|].
  destruct (fd_records d !! k) as [r0|] eqn:E; [|done]. injection Hold' as Hold'. eauto.
Qed.

Lemma effect_bound d d' : effect d d' → bound d → bound d'.
Proof.
  intros He Hb. destruct (ef_records _ _ He) as [Hr Hbi|k p i d1 r Hr Hbi Hw _].
  - by eapply receipts_bound.
  - eapply written_bound; [done|]. by eapply receipts_bound.
Qed.

Section Histories.
Context `{Sha256} `{HmacSha256} `{KeccakHex} (config : FundingConfig).
Abbreviation call := (call config).
Abbreviation reachable_ledger := (reachable_ledger config).

Lemma reachable_bound d : reachable_ledger d → bound d.
Proof.
  intros (d0 & Hd0 & Hr). eapply (calls_induction config bound); [|by apply fresh_wf| |exact Hr].
  - intros d1 d2 _ Hb He. by eapply effect_bound.
  - intros k r h Hk. destruct Hd0 as [Hrec _]. by rewrite Hrec, lookup_empty in Hk.
Qed.

Lemma reachable_failure_closed d :
  reachable_ledger d → ∀ k r, fd_records d !! k = Some r → failure_closed r.
Proof.
  intros (d0 & Hd0 & Hr).
  eapply (calls_induction config (λ d, ∀ k r, fd_records d !! k = Some r → failure_closed r));
    [|by apply fresh_wf| |exact Hr].
  - intros d1 d2 _ Hc He k r Hk.
    destruct (effect_row_before _ _ _ _ He Hk) as [?|[(_ & _ & _ & _ & Hs)|?]]; eauto.
    intros Ht. by rewrite Hs in Ht.
  - intros k r Hk. destruct Hd0 as [Hrec _]. by rewrite Hrec, lookup_empty in Hk.
Qed.

(** A property of the stored row that every replacement keeps, forever. *)
Lemma row_forever (P : LedgerRow → Prop) d d' k r :
  (∀ r1 r2, replaces r1 r2 → failure_closed r2 → P r1 → P r2) →
  well_formed d → fd_records d !! k = Some r → P r → rtc call d d' →
  ∃ r', fd_records d' !! k = Some r' ∧ P r'.
Proof.
  intros HP Hb Hk Hr Hc.
  eapply (calls_induction config (λ d, ∃ r', fd_records d !! k = Some r' ∧ P r')); [|done|eauto|exact Hc].
  intros d1 d2 _ (r1 & Hk1 & Hr1) He.
  destruct (effect_row _ _ _ _ He Hk1) as (r2 & Hk2 & [->|[Hre Hf]]); eauto.
Qed.

Lemma bindings_forever d d' h b :
  well_formed d → rtc call d d' → fd_bindings d !! h = Some b → fd_bindings d' !! h = Some b.
Proof.
  intros Hb Hc Hh. eapply (calls_induction config (λ d, fd_bindings d !! h = Some b)); try done.
  intros d1 d2 _ Hh1 He. by eapply effect_bindings.
Qed.

Lemma nonces_forever d d' key n :
  well_formed d → rtc call d d' →
  (∃ a, fd_relayer_nonces d !! key = Some a ∧ n <= rn_next_nonce a) →
  ∃ a, fd_relayer_nonces d' !! key = Some a ∧ n <= rn_next_nonce a.
Proof.
  intros Hb Hc Hn. eapply (calls_induction config
    (λ d, ∃ a, fd_relayer_nonces d !! key = Some a ∧ n <= rn_next_nonce a)); try done.
  intros d1 d2 _ (a & Ha & Hle) He. destruct (ef_nonces _ _ He key a Ha) as (a' & Ha' & ?).
  exists a'. split; [done|lia].
Qed.
End Histories.
