(* ===== verification/FundingProperties.v ===== *)
(** * The properties of the funding ledger

    What holds of every state the funding and account services reach from a
    ledger that has charged nothing. *)

From S2P Require Import Prelude PyValue Calendar Reservation Amounts LedgerTables LedgerStore.
From S2P Require Import Budget FundingService GrantStore LedgerFacts FundingMachine BudgetFacts.
From S2P Require Import Receipts Submission FundingEffects FundingRefinement FundingCommands.
From S2P Require Import FundingSafety.

Open Scope string_scope.
Open Scope Z_scope.

Section Properties.
Context `{Sha256} `{HmacSha256} `{KeccakHex} (config : FundingConfig).
Abbreviation call := (call config).
Abbreviation reachable_ledger := (reachable_ledger config).

(** ** The books *)

(** C1: refinement.  Each of the thirty-one calls of [FundingCommand], whether it
    returns or raises, makes one step of the ledger machine: it leaves the books
    alone, edits a grant without touching its counters, rewrites a reservation
    without changing its entry, reserves within every limit, or closes an entry
    that was reserved.  The settlement and the release of a reservation on the
    hosted rail and the creation of a grant from a signed challenge are not among
    these calls. *)
Theorem funding_calls_refine_ledger now c d :
  reachable_ledger d → representable now → drawn_fresh c d →
  ledger_step d (frun config now c d).
Proof. intros Hd Hn Hf. apply ef_books, command_effect; [by eapply reachable_wf|done..]. Qed.

(** C3: the books balance in every reachable state.  The used and the reserved
    counter of a grant, and of a grant on a day, are the sums of the amounts of
    its reservations in that state, and the stored reservations carry exactly the
    grants, amounts, dates and accounting states of the lines of the book. *)
Theorem books_balance d :
  reachable_ledger d →
  (∀ k g, fd_grants d !! k = Some g →
     sg_used_amount_usdc g = table_sum (held k RollingUsed) (fd_rolling d) ∧
     sg_reserved_amount_usdc g = table_sum (held k RollingReserved) (fd_rolling d)) ∧
  (∀ key, daily_used d key = table_sum (held_on key RollingUsed) (fd_rolling d) ∧
     daily_reserved d key = table_sum (held_on key RollingReserved) (fd_rolling d)) ∧
  (∀ k, entries d !! k = line_entry k <$> fd_rolling d !! k).
Proof.
  intros [Hb _]%reachable_wf. split_and!.
  - intros k g Hk. by destruct (ba_grants d Hb k g Hk).
  - intros key. by destruct Hb.
  - apply (ba_entries d Hb).
Qed.

(** C18: a grant is never overspent.  In every reachable state what a grant has
    used and reserved is non-negative and within its total, also after its
    limits were reduced, it was paused or its wallet was revoked. *)
Theorem committed_within_grant d k g :
  reachable_ledger d → fd_grants d !! k = Some g →
  0 <= sg_used_amount_usdc g ∧ 0 <= sg_reserved_amount_usdc g ∧
  sg_used_amount_usdc g + sg_reserved_amount_usdc g <= sg_max_amount_usdc g.
Proof.
  intros Hb%reachable_wf Hk. destruct (ba_grants d (wf_balanced _ Hb) k g Hk) as [_ Hu Hr Hmax].
  rewrite Hu, Hr in *. split_and!; [| |done]; apply table_sum_nonneg;
    intros; by eapply held_nonneg; [apply Hb|].
Qed.

Lemma daily_total_reserved g k amount now d d' g' usage :
  reserves g k amount now d d' g' usage →
  daily_total d' (sg_spending_grant_id g) (day_of now)
    = daily_total d (sg_spending_grant_id g) (day_of now) + amount.
Proof.
  intros Hr. unfold daily_total. rewrite (rs_daily _ _ _ _ _ _ _ _ Hr), lookup_insert_eq.
  rewrite (rs_used_on _ _ _ _ _ _ _ _ Hr), (rs_reserved_on _ _ _ _ _ _ _ _ Hr).
  unfold daily_used, daily_reserved. destruct (fd_daily d !! _); simpl; lia.
Qed.

Lemma rolling_total_reserved g k amount now d d' g' usage :
  reserves g k amount now d d' g' usage →
  rolling_total d' (sg_spending_grant_id g) (now - us_per_hour)
    = rolling_total d (sg_spending_grant_id g) (now - us_per_hour) + amount.
Proof.
  intros Hr. unfold rolling_total. rewrite (rs_rolling _ _ _ _ _ _ _ _ Hr).
  rewrite table_sum_insert_new by apply (rs_fresh _ _ _ _ _ _ _ _ Hr).
  unfold counts_after at 1. simpl.
  rewrite (bool_decide_eq_true_2 (sg_spending_grant_id g = sg_spending_grant_id g)) by done.
  assert ((now - us_per_hour <? now) = true) as ->.
  { apply Z.ltb_lt. unfold us_per_hour, us_per_second. lia. }
  simpl. lia.
Qed.

(** What a reservation of a new purchase did. *)
Lemma reserve_new now rq pv k nonce decimals symbol token d row d' :
  by_purchase (rq_purchase_id rq) d = None →
  reserve_spending now rq pv k nonce decimals symbol token d = (Ok row, d') →
  ∃ amount g g' usage d1 r identity,
    decimal_micros (rq_amount_usdc rq) = Some amount ∧ 0 < amount ∧
    pv_spending_grant_id pv = sg_spending_grant_id g ∧
    payable (trusted_request rq pv) (pv_user_id pv) (pv_agent_id pv) amount now d g ∧
    asset_allowed (trusted_request rq pv) amount
      (MkSelection (pv_wallet_identity_id pv) (pv_spending_grant_id pv)
         (if allowance_rail (PStr (pv_authorization_rail pv)) then pv_asset_allowance_id pv else None))
      decimals token d g ∧
    reserves g k amount now d d1 g' usage ∧ written k row identity d1 r d' ∧
    dict_get row "state" = PStr "spending_reserved".
Proof.
  intros Hnew. unfold reserve_spending. destruct (mbind _ _) as [amount|e] eqn:E; [|done].
  unfold parse_amount in E. txn_inv. bool_inv.
  unfold reserve_unified_spending. intros Hs%write_session_Ok.
  apply txn_bind_Ok in Hs as (? & ? & [-> ->]%reads_Ok & Hs).
  change (rq_purchase_id (trusted_request rq pv)) with (rq_purchase_id rq) in Hs.
  rewrite Hnew in Hs. apply txn_bind_Ok in Hs as (b & d1 & Hres & Hs).
  apply txn_bind_Ok in Hs as (? & ? & Hp & [-> ->]%mret_Ok).
  apply reserve_unified_budget_Ok in Hres as (g & g' & usage & Hpay & Hasset & Hrs & _ & Hgid & _).
  apply put_Ok in Hp as (r & Hw & _). simpl in Hgid.
  do 7 eexists. split_and!; try done. unfold reservation_payload, external_challenge.
  by destruct (rq_opc_installation_id (trusted_request rq pv)),
    (bool_decide (pv_authorization_rail pv = "external_x402")).
Qed.

(** The grant [g], its day and the line [k] of its last hour carry [amount] more, and no
    other counter changes; neither do the limits of the grant nor any allowance. *)
Record charged (g : SpendingGrantRow) (k : string) (amount now : Z) (d d' : FundingDb) : Prop := {
  cg_grant : ∃ g', fd_grants d' = <[sg_spending_grant_id g := g']> (fd_grants d) ∧ same_terms g g' ∧
    sg_used_amount_usdc g' = sg_used_amount_usdc g ∧
    sg_reserved_amount_usdc g' = sg_reserved_amount_usdc g + amount;
  cg_day : let key := (sg_spending_grant_id g, day_of now) in
    ∃ usage, fd_daily d' = <[key := usage]> (fd_daily d) ∧
    du_used_amount_usdc usage = daily_used d key ∧
    du_reserved_amount_usdc usage = daily_reserved d key + amount;
  cg_hour : fd_rolling d !! k = None ∧
    fd_rolling d' = <[k := MkRollingUsage (sg_spending_grant_id g) amount RollingReserved now now]>
                      (fd_rolling d);
  cg_allowances : fd_allowances d' = fd_allowances d;
}.

Lemma reserves_charged g k amount now d d1 g' usage d' :
  reserves g k amount now d d1 g' usage → same_accounts d1 d' → charged g k amount now d d'.
Proof.
  intros Hrs (Hg & Hd & Hr & _ & Ha & _). destruct (rs_records _ _ _ _ _ _ _ _ Hrs) as (_ & _ & _ & _ & Hsame & _).
  destruct Hrs. constructor.
  - exists g'. by rewrite Hg.
  - exists usage. by rewrite Hd.
  - by rewrite Hr.
  - by rewrite Ha.
Qed.

(** C19: functional.  A new reservation that succeeds charges its amount to the grant
    the provenance names, and to its day and its last hour, and to nothing else.
    The grant is active, in its term and on an active wallet of the user; the
    product, the venue, the merchant and its trust tier, the network and the asset
    are in its scope; the amount fits under each of its four limits; afterwards the
    day and the last hour are still within their limits. *)
Theorem reserve_within_limits now rq pv k nonce decimals symbol token d row d' :
  reachable_ledger d → by_purchase (rq_purchase_id rq) d = None →
  reserve_spending now rq pv k nonce decimals symbol token d = (Ok row, d') →
  ∃ amount g, decimal_micros (rq_amount_usdc rq) = Some amount ∧ 0 < amount ∧
    fd_grants d !! pv_spending_grant_id pv = Some g ∧
    payable (trusted_request rq pv) (pv_user_id pv) (pv_agent_id pv) amount now d g ∧
    asset_allowed (trusted_request rq pv) amount
      (MkSelection (pv_wallet_identity_id pv) (pv_spending_grant_id pv)
         (if allowance_rail (PStr (pv_authorization_rail pv)) then pv_asset_allowance_id pv else None))
      decimals token d g ∧
    charged g k amount now d d' ∧
    daily_total d' (pv_spending_grant_id pv) (day_of now) <= sg_daily_limit_usdc g ∧
    rolling_total d' (pv_spending_grant_id pv) (now - us_per_hour) <= sg_hourly_limit_usdc g.
Proof.
  intros Hb%reachable_wf Hnew Hs.
  destruct (reserve_new _ _ _ _ _ _ _ _ _ _ _ Hnew Hs)
    as (amount & g & g' & usage & d1 & r & i & Ha & Hpos & Hgid & Hpay & Hasset & Hrs & Hw & _).
  exists amount, g. destruct (py_row _ _ _ _ _ _ _ Hpay) as (kg & Hkg).
  pose proof (gb_key _ _ _ (ba_grants d (wf_balanced _ Hb) _ _ Hkg)) as Hid. subst kg. rewrite Hgid in Hasset |- *.
  pose proof (wr_accounts _ _ _ _ _ _ Hw) as Hacc. pose proof Hacc as (_ & Hwd & Hwr & _).
  split_and!; try done; [by eapply reserves_charged| |].
  - pose proof (py_daily _ _ _ _ _ _ _ Hpay) as Hd.
    rewrite <- (daily_total_reserved _ _ _ _ _ _ _ _ Hrs) in Hd.
    unfold daily_total in *. by rewrite Hwd.
  - pose proof (py_hourly _ _ _ _ _ _ _ Hpay) as Hd.
    rewrite <- (rolling_total_reserved _ _ _ _ _ _ _ _ Hrs) in Hd.
    unfold rolling_total in *. by rewrite Hwr.
Qed.

(** The lines of the book after a reservation was made and released. *)
Lemma reserve_release_lines now now' rq pv k nonce decimals symbol token reason d row d1 row' d2 :
  well_formed d → representable now → by_purchase (rq_purchase_id rq) d = None →
  reserve_spending now rq pv k nonce decimals symbol token d = (Ok row, d1) →
  release_reservation now' k reason d1 = (Ok row', d2) →
  ∃ u, fd_rolling d !! k = None ∧ fd_rolling d2 = <[k := u]> (fd_rolling d) ∧
    ru_state u = RollingReleased ∧
    ∀ i, is_Some (fd_grants d !! i) → is_Some (fd_grants d2 !! i).
Proof.
  intros Hb Hn Hnew Hs Hrel. pose proof (reserve_effect now rq pv k nonce decimals symbol token d Hb Hn) as He.
  rewrite Hs in He. simpl in He. pose proof (effect_wf _ _ He Hb) as Hb1. clear He.
  destruct (reserve_new _ _ _ _ _ _ _ _ _ _ _ Hnew Hs)
    as (amount & g & g' & usage & d0 & r & i & _ & _ & _ & _ & _ & Hrs & Hw & Hst).
  apply write_session_Ok in Hrel.
  apply txn_bind_Ok in Hrel as (cur & ? & [-> Hk]%required_row_Ok & Hf).
  apply txn_bind_Ok in Hf as (? & ? & [Hun ->]%lifts_Ok & Hf).
  destruct (unified_fields _ _ Hun "reservation_id" ltac:(decided)) as [Hne _].
  destruct (get_entry d1 k cur Hb1 Hk Hne) as (r1 & u & _ & Hu & _ & _ & Hent).
  pose proof (wr_accounts _ _ _ _ _ _ Hw) as (Hwg & _ & Hwr & _).
  assert (dict_get cur "state" = PStr "spending_reserved") as Hcur.
  { unfold get in Hk. rewrite (wr_records _ _ _ _ _ _ Hw), lookup_insert_eq in Hk. simpl in Hk.
    injection Hk as <-. unfold visible_payload. rewrite bool_decide_eq_true_2 by apply Hw.
    unfold redact_external_payment_payload. rewrite !dict_get_pop, !decide_False by done.
    rewrite (written_get _ _ _ _ _ _ "state" Hw) by done.
    unfold redact_external_payment_payload. by rewrite !dict_get_pop, !decide_False by done. }
  do 2 (apply txn_bind_Ok in Hf as (? & ? & [_ ->]%lifts_Ok & Hf)).
  apply txn_bind_Ok in Hf as (? & ? & (_ & _ & ->)%requires_Ok & Hf).
  rewrite Hcur in Hf. change (is_text (PStr "spending_reserved") "released") with false in Hf.
  cbv iota in Hf. apply txn_bind_Ok in Hf as (row2 & d3 & Hbud & Hf).
  apply txn_bind_Ok in Hf as (? & ? & Hp & [_ ->]%mret_Ok).
  apply put_reservation_Ok in Hp as (k' & r' & i' & _ & Hw' & _).
  pose proof (wr_accounts _ _ _ _ _ _ Hw') as (Hwg' & _ & Hwr' & _).
  assert (fd_rolling d1 !! k = Some (MkRollingUsage (sg_spending_grant_id g) amount
            RollingReserved now now)) as Hline
    by by rewrite Hwr, (rs_rolling _ _ _ _ _ _ _ _ Hrs), lookup_insert_eq.
  rewrite Hu in Hline. injection Hline as ->. simpl in Hent.
  destruct (release_Ok _ _ _ _ _ _ Hent Hbud) as [(? & _)|(_ & _ & g1 & g2 & us & us' & Hc)];
    [done|].
  eexists. split_and!; [apply (rs_fresh _ _ _ _ _ _ _ _ Hrs)| | |].
  - rewrite Hwr', (cl_rolling _ _ _ _ _ _ _ _ _ Hc). simpl.
    rewrite (alter_insert_eq _ _ _ _ Hu), Hwr, (rs_rolling _ _ _ _ _ _ _ _ Hrs).
    by rewrite insert_insert_eq.
  - done.
  - intros j Hj. rewrite Hwg', (cl_grants _ _ _ _ _ _ _ _ _ Hc), Hwg,
      (rs_grants _ _ _ _ _ _ _ _ Hrs).
    by rewrite !lookup_insert_is_Some'; right; right.
Qed.

(** C37: round trip.  A reservation that is made and then released leaves every
    grant and every daily usage with the used and reserved amounts they had. *)
Theorem release_restores_budget now now' rq pv k nonce decimals symbol token reason
    d row d1 row' d2 :
  reachable_ledger d → representable now →
  by_purchase (rq_purchase_id rq) d = None →
  reserve_spending now rq pv k nonce decimals symbol token d = (Ok row, d1) →
  release_reservation now' k reason d1 = (Ok row', d2) →
  (∀ j g, fd_grants d !! j = Some g →
     ∃ g2, fd_grants d2 !! j = Some g2 ∧
       sg_used_amount_usdc g2 = sg_used_amount_usdc g ∧
       sg_reserved_amount_usdc g2 = sg_reserved_amount_usdc g) ∧
  (∀ key, daily_used d2 key = daily_used d key ∧ daily_reserved d2 key = daily_reserved d key).
Proof.
  intros Hb%reachable_wf Hn Hnew Hs Hrel.
  destruct (reserve_release_lines _ _ _ _ _ _ _ _ _ _ _ _ _ _ _ Hb Hn Hnew Hs Hrel)
    as (u & Hfresh & Hlines & Hu & Hgrants).
  assert (well_formed d2) as Hb2.
  { pose proof (reserve_effect now rq pv k nonce decimals symbol token d Hb Hn) as He.
    rewrite Hs in He. pose proof (effect_wf _ _ He Hb) as Hb1.
    pose proof (release_effect now' k reason d1 Hb1) as He2. rewrite Hrel in He2.
    exact (effect_wf _ _ He2 Hb1). }
  assert (∀ f, f u = 0 → table_sum f (fd_rolling d2) = table_sum f (fd_rolling d)) as Hsum
    by (intros f Hf; rewrite Hlines, table_sum_insert_new by done; lia).
  assert (∀ j st, st ≠ RollingReleased → held j st u = 0) as Hheld.
  { intros j st Hne. unfold held. rewrite Hu, (bool_decide_eq_false_2 (_ = st)) by done.
    by rewrite andb_false_r. }
  split.
  - intros j g Hj. destruct (Hgrants j) as [g2 Hg2]; [by rewrite Hj|]. exists g2.
    destruct (ba_grants d (wf_balanced _ Hb) j g Hj) as [_ -> -> _].
    destruct (ba_grants d2 (wf_balanced _ Hb2) j g2 Hg2) as [_ -> -> _]. by rewrite !Hsum by by apply Hheld.
  - intros key. rewrite !(ba_used _ (wf_balanced _ Hb)), !(ba_used _ (wf_balanced _ Hb2)), !(ba_reserved _ (wf_balanced _ Hb)),
      !(ba_reserved _ (wf_balanced _ Hb2)), !Hsum; [done|..];
      unfold held_on; case_match; try done; by apply Hheld.
Qed.

(** ** Closed entries *)

Lemma closed_step d d' k e :
  balanced d → ledger_step d d' → entries d !! k = Some e → en_state e ≠ "reserved" →
  entries d' !! k = Some e.
Proof.
  intros Hb Hs He Hne.
  destruct Hs as [Hbk|g g' usage k' amount now _ _ _ _ _ _ Hfresh _ _ _ _ _ Hbk
    |state g g' usage usage' k' amount date now _ He1 _ _ _ _ _ _ _ _ _ Hbk|_ Hbk];
    apply (f_equal snd) in Hbk; simpl in Hbk; rewrite Hbk; try done;
    (destruct (decide (k' = k)) as [->|]; [|by rewrite lookup_insert_ne]).
  - rewrite (ba_entries d Hb), Hfresh in He. done.
  - rewrite He in He1. by injection He1 as ->.
Qed.

(** C34: safety.  The accounting of a reservation closes once: a reservation that
    was settled or released keeps its grant, amount, date and state through any
    further calls, so its amount is never charged, spent or given back again. *)
Theorem accounting_is_final d d' k e :
  reachable_ledger d → rtc call d d' → entries d !! k = Some e → en_state e ≠ "reserved" →
  entries d' !! k = Some e.
Proof.
  intros Hb%reachable_wf Hc He Hne. eapply (calls_induction config (λ d, entries d !! k = Some e)); eauto.
  intros d1 d2 Hb1 He1 Heff. eapply closed_step; eauto; [apply Hb1|apply Heff].
Qed.

(** The state of a reservation and the books agree wherever the modelled calls lead:
    off the payer-proxy rail a reservation that is reserved or submitted holds a
    reserved line, one that is settled or finalized a used line and one that is
    released a released line, and these calls know no other states.  The hosted rail,
    which also writes [reorg_review], is not among them. *)
Theorem status_matches_accounting d k r :
  reachable_ledger d → fd_records d !! k = Some r → is_reservation_row r →
  is_proxy (lr_payload r) = false →
  ∃ state u, dict_get (lr_payload r) "state" = PStr state ∧ fd_rolling d !! k = Some u ∧
    accounting_of state = Some (state_text (ru_state u)).
Proof.
  intros [Hb Ht Hs]%reachable_wf Hk Hr Hp.
  destruct (Hs k r Hk Hr Hp) as (s & b & Hst & Hac & Ha).
  destruct (Ht k r Hk) as [[_ [e He]]|[Hn _]]; [|by destruct Hn].
  pose proof (ba_entries d Hb k) as Hu. rewrite entries_lookup, Hk in Hu. simpl in Hu.
  rewrite bool_decide_eq_true_2, He in Hu by done.
  destruct (fd_rolling d !! k) as [u|] eqn:E; [|done]. injection Hu as ->.
  destruct (entry_of_Some _ _ He) as (_ & _ & _ & _ & He'). simpl in He'.
  exists s, u. split_and!; try done. congruence.
Qed.

(** ** Stored reservations *)

(** The provenance of a reservation is permanent: once stored, a
    text field of its identity, actor, scope, references, amount or rail keeps
    its value through any further calls. *)
Theorem provenance_is_permanent d d' k r f s :
  reachable_ledger d → rtc call d d' → fd_records d !! k = Some r →
  f ∈ RESERVATION_IMMUTABLE_FIELDS → f ≠ "settlement_transaction" →
  dict_get (lr_payload r) f = PStr s →
  ∃ r', fd_records d' !! k = Some r' ∧ dict_get (lr_payload r') f = PStr s.
Proof.
  intros Hb%reachable_wf Hc Hk Hf Hne Hs.
  eapply (row_forever config (λ r, dict_get (lr_payload r) f = PStr s)); eauto.
  intros r1 r2 Hre _ Hr1. pose proof (re_unchanged _ _ Hre f Hf Hne) as He.
  rewrite Hr1 in He. by apply py_eqb_str.
Qed.

(** C33: safety.  A single-submission payment that failed is never submitted
    again: once its replacement is forbidden it stays forbidden, and the
    reservation stays reserved or released, through any further calls. *)
Theorem failed_submission_is_final d d' k r :
  reachable_ledger d → rtc call d d' → fd_records d !! k = Some r →
  dict_get (lr_payload r) "single_submission" = PBool true →
  dict_get (lr_payload r) "replacement_forbidden" = PBool true →
  ∃ r', fd_records d' !! k = Some r' ∧
    dict_get (lr_payload r') "replacement_forbidden" = PBool true ∧
    dict_get (lr_payload r') "state" ∈ [PStr "spending_reserved"; PStr "released"].
Proof.
  intros Hd Hc Hk Hs Hf. pose proof (reachable_failure_closed config d Hd k r Hk) as Hcl.
  apply reachable_wf in Hd.
  assert (∀ v, is_true v = true → v = PBool true) as Htrue by by intros [|[]| | | |].
  destruct (row_forever config (λ r, is_true (dict_get (lr_payload r) "single_submission") = true
    ∧ is_true (dict_get (lr_payload r) "replacement_forbidden") = true ∧ failure_closed r)
    d d' k r) as (r' & Hk' & Hs' & Hf' & Hcl'); try done.
  - intros r1 r2 Hre Hcl2 (Hs1 & Hf1 & _).
    split_and!; [by apply (re_single _ _ Hre)|by apply (re_forbidden _ _ Hre)|done].
  - by rewrite Hs, Hf.
  - exists r'. split; [done|]. split; [by apply Htrue|by apply Hcl'].
Qed.

(** C28: safety.  A transaction pays for one reservation: when a stored
    reservation carries a transaction hash, no other reservation carries it in
    any later state, even after the first one dropped it to retry. *)
Theorem transaction_pays_one_reservation d d' k k' r r' h :
  reachable_ledger d → rtc call d d' → fd_records d !! k = Some r → lr_tx_hash r = Some h →
  fd_records d' !! k' = Some r' → lr_tx_hash r' = Some h → k' = k.
Proof.
  intros Hd Hc Hk Hh Hk' Hh'.
  assert (reachable_ledger d') as Hd' by (destruct Hd as (d0 & Hd0 & Hr); exists d0; split; [done|by etrans]).
  pose proof (reachable_bound config d Hd k r h Hk Hh) as Hb.
  pose proof (reachable_bound config d' Hd' k' r' h Hk' Hh') as Hb'.
  apply reachable_wf in Hd. destruct (fd_bindings d !! h) as [b|] eqn:E; [|done].
  rewrite (bindings_forever config _ _ _ _ Hd Hc E) in Hb'. simpl in *. congruence.
Qed.

(** ** Nonces and the audit trail *)

(** The nonces the ledger hands to the reservations of a relayer
    strictly increase: a reservation that owns none never gets a nonce that an
    earlier allocation for the same network and relayer returned. *)
Theorem relayer_nonces_increase row row' network relayer pending pending' now now'
    d d1 d2 d3 n m :
  reachable_ledger d →
  owned_nonce row (lower relayer) = Ok None → owned_nonce row' (lower relayer) = Ok None →
  allocate_relayer_nonce row network relayer pending now d = Ok (n, d1) → rtc call d1 d2 →
  allocate_relayer_nonce row' network relayer pending' now' d2 = Ok (m, d3) → n < m.
Proof.
  intros Hb%reachable_wf Ho Ho' Ha Hc Ha'.
  assert (well_formed d1) as Hb1
    by (eapply outside_wf; [by eapply allocate_outside|exact Hb]).
  apply allocate_Ok in Ha as [(Hcon & _)|(_ & -> & _ & _)]; [congruence|].
  destruct (nonces_forever config _ _ (network, lower relayer) (n + 1) Hb1 Hc) as (a & Ha & Hle).
  { eexists. simpl. rewrite lookup_insert_eq. split; [done|]. simpl. lia. }
  apply allocate_Ok in Ha' as [(Hcon & _)|(_ & _ & Hm & _)]; [congruence|].
  specialize (Hm a Ha). lia.
Qed.

(** The audit trail is append-only: an event, once recorded, is in
    every later state as it was recorded. *)
Theorem audit_is_append_only d d' event_id e :
  reachable_ledger d → rtc call d d' → fd_audit d !! event_id = Some e →
  fd_audit d' !! event_id = Some e.
Proof.
  intros Hb%reachable_wf Hc He.
  eapply (calls_induction config (λ d, fd_audit d !! event_id = Some e)); try done.
  intros d1 d2 _ He1 Heff. by eapply lookup_weaken, ef_audit.
Qed.
End Properties.
