(* ===== verification/ChainFacts.v ===== *)
(** * Encodings of the chain

    Hexadecimal text, big-endian words and JSON-RPC quantities: each reader
    inverts its writer, which the evidence of a payment rests on. *)

From S2P Require Import Prelude PyValue Calendar Reservation Amounts LedgerTables LedgerStore.
From S2P Require Import Budget FundingService Assets Receipts Submission ProxyPayment Evm ChainEvidence.
From Stdlib Require Import Ascii Strings.Byte.

Open Scope string_scope.
Open Scope Z_scope.

(** ** Digits *)

(** Every fact about one character, by computation on the 256 of them. *)
Ltac each_char c := destruct c as [[] [] [] [] [] [] [] []].

Lemma hex_value_digit c v :
  hex_value c = Some v → 0 <= v < 16 ∧ hex_digit (Z.to_N v) = lower_char c.
Proof. each_char c; vm_compute; intros [= <-]; repeat split; discriminate. Qed.

Lemma is_hex_value c : is_hex c = true → ∃ v, hex_value c = Some v.
Proof. each_char c; vm_compute; intros [=]; eauto. Qed.

Lemma hex_digit_value v : 0 <= v < 16 → hex_value (hex_digit (Z.to_N v)) = Some v.
Proof.
  intros Hv. assert (v ∈ seqZ 0 16) as Hin by (apply elem_of_seqZ; lia).
  clear Hv. revert v Hin. apply Forall_forall. decided.
Qed.

Lemma hex_digit_lower v : 0 <= v < 16 → is_lower_hex (hex_digit (Z.to_N v)) = true.
Proof.
  intros Hv. assert (v ∈ seqZ 0 16) as Hin by (apply elem_of_seqZ; lia).
  clear Hv. revert v Hin. apply Forall_forall. decided.
Qed.

Lemma hex_not_blank c v : hex_value c = Some v → is_blank c = false.
Proof. each_char c; vm_compute; congruence. Qed.

Lemma lower_hex_is_hex c : is_lower_hex c = true → is_hex c = true.
Proof. unfold is_hex. by intros ->. Qed.

Lemma lower_hex_lower c : is_lower_hex c = true → lower_char c = c.
Proof. each_char c; vm_compute; congruence. Qed.

Lemma hex_lowered c : is_hex c = true → is_lower_hex (lower_char c) = true.
Proof. each_char c; vm_compute; congruence. Qed.

(** The byte two digits stand for. *)
Lemma byte_of_digits high low :
  0 <= high < 16 → 0 <= low < 16 →
  ∃ b, Byte.of_N (Z.to_N (high * 16 + low)) = Some b ∧ byte_value b = high * 16 + low ∧
    ∀ s, hex_byte b s = String (hex_digit (Z.to_N high)) (String (hex_digit (Z.to_N low)) s).
Proof.
  intros Hh Hl. destruct (Byte.of_N _) as [b|] eqn:E.
  - exists b. pose proof E as Hb; apply Byte.to_of_N in Hb. split_and!; [done| |].
    + unfold byte_value. rewrite Hb. lia.
    + intros s. unfold hex_byte. rewrite Hb.
      assert (Z.to_N (high * 16 + low) / 16 = Z.to_N high)%N as ->.
      { apply N2Z.inj. rewrite N2Z.inj_div, !Z2N.id by lia.
        rewrite Z.div_add_l by lia. rewrite Z.div_small by lia. lia. }
      assert (Z.to_N (high * 16 + low) mod 16 = Z.to_N low)%N as ->; [|done].
      apply N2Z.inj. rewrite N2Z.inj_mod, !Z2N.id by lia.
      rewrite Z.add_comm, Z.mod_add by lia. by apply Z.mod_small.
  - exfalso. destruct (Byte.of_N_None_iff (Z.to_N (high * 16 + low))) as [Hn _].
    specialize (Hn E). lia.
Qed.

(** The two digits of a byte. *)
Lemma byte_digits b s :
  0 <= byte_value b / 16 < 16 ∧ 0 <= byte_value b mod 16 < 16 ∧
  hex_byte b s = String (hex_digit (Z.to_N (byte_value b / 16)))
                   (String (hex_digit (Z.to_N (byte_value b mod 16))) s).
Proof.
  pose proof (byte_value_range b). split_and!; try (apply Z.mod_pos_bound; lia).
  - apply Z.div_pos; lia.
  - apply Z.div_lt_upper_bound; lia.
  - unfold hex_byte. do 2 f_equal; [|do 2 f_equal]; f_equal; apply N2Z.inj; unfold byte_value in *.
    + rewrite N2Z.inj_div, Z2N.id; [done|]. apply Z.div_pos; lia.
    + rewrite N2Z.inj_mod, Z2N.id; [done|]. apply Z.mod_pos_bound. lia.
Qed.

Lemma hex_number_app acc s n t :
  hex_number acc s = Some n → hex_number acc (s +:+ t) = hex_number n t.
Proof.
  revert acc. induction s as [|c s IH]; simpl; intros acc; [by intros [= <-]|].
  destruct (hex_value c) as [v|]; [|done]. apply IH.
Qed.

Lemma hex_number_total acc s :
  all_chars is_hex s = true → ∃ n, hex_number acc s = Some n.
Proof.
  revert acc. induction s as [|c s IH]; simpl; intros acc; [eauto|].
  intros [(v & ->)%is_hex_value Hs]%andb_true_iff. by apply IH.
Qed.

(** ** [bytes.fromhex] *)

(** An even number of digits decodes; the bytes are those the digits spell. *)
Lemma from_hex_digits n s :
  all_chars is_hex s = true → String.length s = (2 * n)%nat →
  ∃ bs, from_hex s = Some bs ∧ length bs = n ∧ hex bs = lower s.
Proof.
  revert s. induction n as [|n IH]; intros s Hs Hlen.
  - destruct s; [|done]. by exists [].
  - destruct s as [|c [|c' s]]; simpl in Hlen; try lia. simpl in Hs.
    apply andb_true_iff in Hs as [(v & Hv)%is_hex_value [(v' & Hv')%is_hex_value Hs]%andb_true_iff].
    destruct (IH s Hs) as (bs & Hbs & Hl & Hx); [lia|].
    destruct (hex_value_digit _ _ Hv) as [? Hd], (hex_value_digit _ _ Hv') as [? Hd'].
    destruct (byte_of_digits v v') as (b & Hb & _ & Hbx); [done..|].
    exists (b :: bs). simpl. rewrite (hex_not_blank _ _ Hv), Hv, Hv'. simpl.
    rewrite Hb. simpl. rewrite Hbs. simpl.
    split_and!; [done|lia|]. by rewrite Hbx, Hx, Hd, Hd'.
Qed.

Lemma hex_lower bs : all_chars is_lower_hex (hex bs) = true ∧ lower (hex bs) = hex bs.
Proof.
  induction bs as [|b bs [IH IH']]; [done|]. cbn [hex].
  destruct (byte_digits b (hex bs)) as (Hh & Hl & ->). cbn [all_chars lower].
  apply hex_digit_lower in Hh, Hl. by rewrite !lower_hex_lower, Hh, Hl, IH, IH'.
Qed.

Lemma hex_byte_inj b b' s s' : hex_byte b s = hex_byte b' s' → b = b' ∧ s = s'.
Proof.
  destruct (byte_digits b s) as (Hh & Hl & ->), (byte_digits b' s') as (Hh' & Hl' & ->).
  intros [= H1%(f_equal hex_value) H2%(f_equal hex_value) ->]. split; [|done].
  rewrite !hex_digit_value in H1, H2 by done. injection H1 as H1. injection H2 as H2.
  apply byte_value_inj. rewrite (Z.div_mod (byte_value b) 16), H1, H2, <- Z.div_mod; lia.
Qed.
Lemma hex_inj bs bs' : hex bs = hex bs' → bs = bs'.
Proof.
  revert bs'. induction bs as [|b bs IH]; intros [|b' bs']; try done.
  simpl. intros [-> Hs]%hex_byte_inj. by rewrite (IH bs').
Qed.

(** [bytes.fromhex(bs.hex()) == bs]. *)
Lemma from_hex_hex bs : from_hex (hex bs) = Some bs.
Proof.
  destruct (hex_lower bs) as [Hl Hx].
  destruct (from_hex_digits (length bs) (hex bs)) as (bs' & -> & _ & Hb).
  - eapply all_chars_weaken; [|exact Hl]. apply lower_hex_is_hex.
  - pose proof (str_len_hex bs). unfold str_len, blen in *. lia.
  - f_equal. apply hex_inj. by rewrite Hb.
Qed.

Lemma from_hex_app s t bs cs :
  from_hex s = Some bs → from_hex t = Some cs → from_hex (s +:+ t) = Some (bs ++ cs)%list.
Proof.
  intros Hs Ht. remember (String.length s) as n eqn:Hn. revert s bs Hs Hn.
  induction (lt_wf n) as [n _ IH]. intros [|c s] bs Hs ->.
  { by injection Hs as <-. }
  simpl in *. destruct (is_blank c).
  - eapply (IH (String.length s)); [lia|done|done].
  - destruct s as [|c' s]; [done|]. simpl.
    destruct (hex_value c) as [v|]; [|done]. simpl in *.
    destruct (hex_value c') as [v'|]; [|done]. simpl in *.
    destruct (Byte.of_N _) as [b|]; [|done]. simpl in *.
    destruct (from_hex s) as [bs'|] eqn:E; [|done]. injection Hs as <-.
    by rewrite (IH (String.length s) ltac:(lia) s bs' E eq_refl).
Qed.

(** ** Words *)

(** The value of bytes is that of the digits they spell. *)
Lemma hex_number_hex acc bs :
  hex_number acc (hex bs) = Some (fold_left (λ acc b, acc * 256 + byte_value b) bs acc).
Proof.
  revert acc. induction bs as [|b bs IH]; intros acc; [done|]. cbn [hex fold_left].
  rewrite <- IH. destruct (byte_digits b (hex bs)) as (Hh & Hl & ->). cbn [hex_number].
  rewrite !hex_digit_value by done. simpl.
  f_equal. pose proof (Z.div_mod (byte_value b) 16). lia.
Qed.

Lemma hex_number_be bs : hex_number 0 (hex bs) = Some (be_value bs).
Proof. apply hex_number_hex. Qed.

(** ** [hex] of an integer *)

Lemma hex_digits_value fuel n s :
  0 <= n < 16 ^ Z.of_nat fuel → hex_number 0 (hex_digits fuel n s) = hex_number n s.
Proof.
  revert n s. induction fuel as [|fuel IH]; intros n s Hn.
  { simpl in *. assert (n = 0) as -> by lia. done. }
  simpl. rewrite Nat2Z.inj_succ, Z.pow_succ_r in Hn by lia.
  assert (0 <= n mod 16 < 16) by (apply Z.mod_pos_bound; lia).
  destruct (n <? 16) eqn:E.
  - apply Z.ltb_lt in E. cbn [hex_number]. rewrite hex_digit_value by done. simpl.
    f_equal. rewrite Z.mod_small by lia. done.
  - apply Z.ltb_ge in E. rewrite IH by (split; [apply Z.div_pos|apply Z.div_lt_upper_bound]; lia).
    cbn [hex_number]. rewrite hex_digit_value by done. simpl. f_equal.
    pose proof (Z.div_mod n 16). lia.
Qed.

Lemma log2_fuel n : 0 <= n → n < 16 ^ Z.of_nat (S (Z.to_nat (Z.log2 n))).
Proof.
  intros Hn. destruct (decide (n = 0)) as [->|]; [done|].
  pose proof (Z.log2_spec n ltac:(lia)) as [_ Hl]. pose proof (Z.log2_nonneg n).
  eapply Z.lt_le_trans; [exact Hl|].
  replace (Z.of_nat (S (Z.to_nat (Z.log2 n)))) with (Z.succ (Z.log2 n)) by lia.
  change 16 with (2 ^ 4). rewrite <- Z.pow_mul_r by lia. apply Z.pow_le_mono_r; lia.
Qed.

(** [int(hex(n), 16) == n]. *)
Lemma hex_of_value n : 0 <= n → hex_number 0 (hex_of n) = Some n.
Proof.
  intros Hn. unfold hex_of. rewrite hex_digits_value; [done|]. split; [done|]. by apply log2_fuel.
Qed.

Lemma hex_digits_chars fuel n s :
  0 <= n → all_chars is_lower_hex s = true → all_chars is_lower_hex (hex_digits fuel n s) = true.
Proof.
  revert n s. induction fuel as [|fuel IH]; intros n s Hn Hs; [done|]. simpl.
  assert (all_chars is_lower_hex (String (hex_digit (Z.to_N (n mod 16))) s) = true) as Hs'.
  { simpl. rewrite hex_digit_lower by (apply Z.mod_pos_bound; lia). done. }
  destruct (n <? 16); [done|]. apply IH; [|done]. apply Z.div_pos; lia.
Qed.
Lemma hex_of_chars n : 0 <= n → all_chars is_lower_hex (hex_of n) = true.
Proof. intros Hn. by apply hex_digits_chars. Qed.

Lemma hex_digits_length fuel n s k :
  0 <= n < 16 ^ Z.of_nat (S k) →
  (String.length (hex_digits fuel n s) <= String.length s + S k)%nat.
Proof.
  revert n s k. induction fuel as [|fuel IH]; intros n s k Hn; simpl; [lia|].
  destruct (n <? 16) eqn:E; simpl; [lia|]. apply Z.ltb_ge in E.
  rewrite Nat2Z.inj_succ, Z.pow_succ_r in Hn by lia.
  destruct k as [|k]; [simpl in Hn; lia|].
  etrans; [apply (IH _ _ k)|simpl; lia].
  split; [apply Z.div_pos; lia|]. apply Z.div_lt_upper_bound; lia.
Qed.

(** ** Addresses and words *)

Definition zero_digits (n : nat) : string := String.concat "" (replicate n "0").

Lemma zero_digits_S n : zero_digits (S n) = String "0" (zero_digits n).
Proof. by destruct n. Qed.

Lemma zero_digits_facts n :
  String.length (zero_digits n) = n ∧ all_chars is_lower_hex (zero_digits n) = true ∧
  hex_number 0 (zero_digits n) = Some 0.
Proof.
  induction n as [|n (IHl & IHc & IHv)]; [done|]. rewrite zero_digits_S. simpl.
  split_and!; [by rewrite IHl|by rewrite IHc|done].
Qed.

Lemma length_app_string (s t : string) :
  String.length (s +:+ t) = (String.length s + String.length t)%nat.
Proof. induction s as [|c s IH]; [done|]. simpl. by f_equal. Qed.

(** [value.rjust(64, "0")] of at most 64 digits: the bytes of their number. *)
Lemma rjust64_bytes s n :
  all_chars is_lower_hex s = true → (String.length s <= 64)%nat → hex_number 0 s = Some n →
  from_hex (rjust64 s) = Some (be_bytes 32 n) ∧ hex (be_bytes 32 n) = rjust64 s.
Proof.
  intros Hs Hl Hn. unfold rjust64. fold (zero_digits (64 - String.length s)).
  destruct (zero_digits_facts (64 - String.length s)) as (Hzl & Hzc & Hzv).
  set (z := zero_digits _) in *.
  assert (all_chars is_lower_hex (z +:+ s) = true) as Hc by (rewrite all_chars_app, Hzc, Hs; done).
  destruct (from_hex_digits 32 (z +:+ s)) as (bs & Hbs & Hlen & Hx).
  - eapply all_chars_weaken; [|exact Hc]. apply lower_hex_is_hex.
  - rewrite length_app_string, Hzl. lia.
  - assert (lower (z +:+ s) = z +:+ s) as Hlow.
    { clear -Hc. induction (z +:+ s) as [|c t IH]; [done|]. simpl in *.
      apply andb_true_iff in Hc as [Hc Ht]. by rewrite (lower_hex_lower _ Hc), IH. }
    rewrite Hlow in Hx.
    pose proof (hex_number_be bs) as Hv. rewrite Hx, (hex_number_app _ _ _ _ Hzv), Hn in Hv.
    injection Hv as ->. by rewrite <- Hlen, be_bytes_value.
Qed.

(** [_abi_uint] writes the word of its value. *)
Lemma abi_uint_word n :
  0 <= n < 2 ^ 256 → ∃ t, abi_uint n = Ok t ∧ from_hex t = Some (be_bytes 32 n).
Proof.
  intros [Hn Hm]. unfold abi_uint. rewrite (proj2 (Z.ltb_ge n 0) Hn). cbn [negb require].
  exists (rjust64 (hex_of n)). split; [reflexivity|]. apply rjust64_bytes.
  - by apply hex_of_chars.
  - unfold hex_of. etrans; [apply (hex_digits_length _ _ _ 63)|reflexivity].
    split; [exact Hn|]. eapply Z.lt_le_trans; [exact Hm|]. by apply Z.leb_le.
  - by apply hex_of_value.
Qed.

(** A 20-byte address and its canonical text. *)
Definition address_text (bs : bytes) : string := "0x" +:+ hex bs.

Lemma substring_all s : String.substring 0 (String.length s) s = s.
Proof. induction s as [|c s IH]; [done|]. simpl. by rewrite IH. Qed.

Lemma drop2_0x s : drop2 ("0x" +:+ s) = s.
Proof.
  unfold drop2. rewrite length_app_string. simpl. rewrite Nat.sub_0_r. apply substring_all.
Qed.

Lemma has_0x_app t : has_0x ("0x" +:+ t) = true.
Proof. by destruct t. Qed.

Lemma has_0x_split s : has_0x s = true → s = "0x" +:+ drop2 s.
Proof.
  unfold has_0x. destruct s as [|c [|c' s]]; try done; cbn [String.prefix].
  - by destruct (ascii_dec "0" c); intros [=].
  - destruct (ascii_dec "0" c) as [<-|]; [|done]. destruct (ascii_dec "x" c') as [<-|]; [|done].
    intros _. exact (f_equal (String.append "0x") (eq_sym (drop2_0x s))).
Qed.

Lemma canonical_address_Ok v a :
  canonical_evm_address v = Ok a →
  ∃ s bs, v = PStr s ∧ length bs = 20%nat ∧ a = address_text bs ∧ has_0x s = true ∧
    lower (drop2 s) = hex bs ∧ from_hex (drop2 s) = Some bs.
Proof.
  unfold canonical_evm_address. destruct v as [| | |s| |]; try done. intros Ha. txn_inv. bool_inv.
  assert (∃ t, s = "0x" +:+ t) as [t ->] by (eexists; by apply has_0x_split).
  rewrite drop2_0x in *.
  match goal with H : str_len _ = 42 |- _ => rename H into Hlen end.
  unfold str_len in Hlen. rewrite length_app_string in Hlen. simpl in Hlen.
  destruct (from_hex_digits 20 t) as (bs & Hbs & Hl & Hx); [done|lia|].
  exists ("0x" +:+ t), bs. rewrite drop2_0x. unfold address_text. by rewrite Hx.
Qed.

Lemma canonical_address_text bs :
  length bs = 20%nat → canonical_evm_address (PStr (address_text bs)) = Ok (address_text bs).
Proof.
  intros Hl. unfold canonical_evm_address, address_text. rewrite drop2_0x.
  destruct (hex_lower bs) as [Hc Hx]. rewrite Hx.
  assert (str_len ("0x" +:+ hex bs) = 42) as ->.
  { unfold str_len. rewrite length_app_string. simpl.
    pose proof (str_len_hex bs). unfold str_len, blen in *. lia. }
  rewrite (all_chars_weaken _ is_hex _ lower_hex_is_hex Hc), has_0x_app. reflexivity.
Qed.

(** The word of an address. *)
Definition address_word (bs : bytes) : bytes := zeros 12 ++ bs.

Lemma abi_word_address_Ok word a :
  abi_word_address word = Ok a →
  ∃ bs, length bs = 20%nat ∧ word = address_word bs ∧ a = address_text bs.
Proof.
  unfold abi_word_address. intros Ha. txn_inv. bool_inv.
  apply canonical_address_Ok in Ha as (s & bs & [= <-] & Hl & -> & _ & _ & Hx).
  rewrite drop2_0x, from_hex_hex in Hx. injection Hx as <-.
  eexists. split_and!; [done| |done]. unfold address_word.
  match goal with H : take 12 word = _ |- _ => rewrite <- H end. by rewrite take_drop.
Qed.

Lemma abi_word_address_word bs :
  length bs = 20%nat → abi_word_address (address_word bs) = Ok (address_text bs).
Proof.
  intros Hl. unfold abi_word_address, address_word.
  rewrite length_app, take_app_length', drop_app_length', Hl by done.
  rewrite bool_decide_eq_true_2 by done. simpl. by apply canonical_address_text.
Qed.

(** [_abi_address] writes the word of an address. *)
Lemma abi_address_word s bs :
  has_0x s = true → lower (drop2 s) = hex bs → length bs = 20%nat →
  from_hex (abi_address s) = Some (address_word bs).
Proof.
  intros H0 Hs Hl. unfold abi_address, without_0x. rewrite H0, Hs. unfold rjust64.
  assert (String.length (hex bs) = 40%nat) as ->
    by (pose proof (str_len_hex bs); unfold str_len, blen in *; lia).
  apply from_hex_app; [|apply from_hex_hex]. reflexivity.
Qed.

(** ** JSON-RPC quantities *)

(** The text of a sequence of digits, and its value. *)
Definition digits_text (ds : list Z) : string :=
  foldr (λ v s, String (hex_digit (Z.to_N v)) s) EmptyString ds.
Definition digits_number (ds : list Z) : Z := fold_left (λ acc v, acc * 16 + v) ds 0.
Abbreviation digits := (Forall (λ v, 0 <= v < 16)).

Lemma text_digits s :
  all_chars is_lower_hex s = true → ∃ ds, digits ds ∧ s = digits_text ds.
Proof.
  induction s as [|c s IH]; [by exists []|]. simpl. intros [Hc Hs]%andb_true_iff.
  destruct (IH Hs) as (ds & Hds & ->).
  destruct (is_hex_value c) as [v Hv]; [by apply lower_hex_is_hex|].
  destruct (hex_value_digit c v Hv) as [? Hd]. exists (v :: ds).
  split; [by constructor|]. simpl. by rewrite Hd, lower_hex_lower.
Qed.

Lemma digits_text_value acc ds :
  digits ds → hex_number acc (digits_text ds) = Some (fold_left (λ acc v, acc * 16 + v) ds acc).
Proof.
  intros Hds. revert acc. induction Hds as [|v ds Hv _ IH]; intros acc; [done|].
  cbn [digits_text foldr hex_number]. rewrite hex_digit_value by done. apply IH.
Qed.

Lemma digits_text_snoc ds v t :
  digits_text (ds ++ [v]) +:+ t = digits_text ds +:+ String (hex_digit (Z.to_N v)) t.
Proof.
  induction ds as [|u ds IH]; [done|].
  exact (f_equal (String (hex_digit (Z.to_N u))) IH).
Qed.

Lemma digits_number_snoc ds v : digits_number (ds ++ [v]) = digits_number ds * 16 + v.
Proof. unfold digits_number. by rewrite fold_left_app. Qed.

Lemma digits_number_pos d ds : 0 < d → digits ds → 0 < digits_number (d :: ds).
Proof.
  intros Hd Hds. induction ds as [|v ds IH] using rev_ind; [unfold digits_number; simpl; lia|].
  apply Forall_app in Hds as [Hds [Hv _]%Forall_cons]. rewrite app_comm_cons, digits_number_snoc.
  specialize (IH Hds). simpl in Hv. lia.
Qed.

(** [hex] writes the digits of a number without leading zeros. *)
Lemma hex_digits_text fuel d ds t :
  0 < d < 16 → digits ds → digits_number (d :: ds) < 16 ^ Z.of_nat fuel →
  hex_digits fuel (digits_number (d :: ds)) t = digits_text (d :: ds) +:+ t.
Proof.
  intros Hd Hds. revert fuel t. induction ds as [|v ds IH] using rev_ind; intros [|fuel] t Hf.
  - unfold digits_number in Hf. simpl in Hf. lia.
  - unfold digits_number, digits_text. cbn [hex_digits fold_left foldr].
    rewrite (proj2 (Z.ltb_lt (0 * 16 + d) 16)) by lia. by rewrite Z.mod_small by lia.
  - pose proof (digits_number_pos d (ds ++ [v]) (proj1 Hd) Hds).
    change (16 ^ Z.of_nat 0) with 1 in Hf. lia.
  - apply Forall_app in Hds as [Hds [Hv _]%Forall_cons].
    pose proof (digits_number_pos d ds (proj1 Hd) Hds) as Hpos. simpl in Hv.
    rewrite app_comm_cons, digits_number_snoc in *. set (n := digits_number (d :: ds)) in *.
    rewrite Nat2Z.inj_succ, Z.pow_succ_r in Hf by lia. cbn [hex_digits].
    rewrite (proj2 (Z.ltb_ge (n * 16 + v) 16)) by lia.
    assert ((n * 16 + v) / 16 = n) as -> by (rewrite Z.div_add_l, Z.div_small; lia).
    assert ((n * 16 + v) mod 16 = v) as -> by (rewrite Z.add_comm, Z.mod_add, Z.mod_small; lia).
    rewrite IH by (done || lia). by rewrite digits_text_snoc.
Qed.

Lemma hex_digits_nonzero fuel n t :
  0 < n < 16 ^ Z.of_nat fuel →
  ∃ v s, hex_digits fuel n t = String (hex_digit (Z.to_N v)) s ∧ 0 < v < 16.
Proof.
  revert n t. induction fuel as [|fuel IH]; intros n t Hn; [simpl in Hn; lia|].
  rewrite Nat2Z.inj_succ, Z.pow_succ_r in Hn by lia. simpl.
  destruct (n <? 16) eqn:E.
  - apply Z.ltb_lt in E. exists n, t. split; [by rewrite Z.mod_small by lia|lia].
  - apply Z.ltb_ge in E. apply IH. split; [apply Z.div_str_pos; lia|].
    apply Z.div_lt_upper_bound; lia.
Qed.

Lemma hex_digit_zero v : 0 <= v < 16 → Ascii.eqb (hex_digit (Z.to_N v)) "0" = (v =? 0).
Proof.
  intros Hv. assert (v ∈ seqZ 0 16) as Hin by (apply elem_of_seqZ; lia).
  clear Hv. revert v Hin. apply Forall_forall. decided.
Qed.

(** The reader of quantities accepts the text [hex] writes, and no other. *)
Lemma quantity_text v field n :
  parse_rpc_quantity v field = Ok n → 0 <= n ∧ v = PStr (py_hex n).
Proof.
  unfold parse_rpc_quantity. destruct v as [| | |[|zero [|x [|c s]]]| |]; try done.
  intros Hp. apply result_bind_Ok in Hp as (? & [Hc _]%require_Ok & Hn%from_option_or_Ok).
  apply andb_true_iff in Hc as [Hc Hlead].
  apply andb_true_iff in Hc as [[->%Ascii.eqb_eq ->%Ascii.eqb_eq]%andb_true_iff Hc].
  destruct (text_digits _ Hc) as (ds & Hds & Htext).
  rewrite Htext, digits_text_value in Hn by done. destruct ds as [|d ds]; [done|].
  apply Forall_cons in Hds as [Hd Hds]. injection Hn as Hn.
  change (digits_number (d :: ds) = n) in Hn. simpl in Hd.
  injection Htext as -> Hs. rewrite hex_digit_zero in Hlead by done.
  destruct (d =? 0) eqn:E.
  + apply Z.eqb_eq in E as ->. apply bool_decide_eq_true in Hlead as ->.
    destruct ds; [|done]. by subst n.
  + apply Z.eqb_neq in E. assert (0 < n) by (subst n; apply digits_number_pos; [lia|done]).
    split; [lia|]. unfold py_hex. rewrite (proj2 (Z.ltb_ge n 0)), Z.abs_eq by lia.
    do 2 f_equal. unfold hex_of. rewrite <- Hn.
    rewrite (hex_digits_text _ d ds EmptyString); [|lia|done|apply log2_fuel; lia].
    simpl. by rewrite str_app_empty_r, Hs.
Qed.

Lemma parse_quantity n field : 0 <= n → parse_rpc_quantity (PStr (py_hex n)) field = Ok n.
Proof.
  intros Hn. unfold py_hex. rewrite (proj2 (Z.ltb_ge n 0)), Z.abs_eq by done.
  pose proof (hex_of_value n Hn) as Hv. pose proof (hex_of_chars n Hn) as Hc.
  destruct (decide (n = 0)) as [->|Hne]; [reflexivity|].
  destruct (hex_digits_nonzero (S (Z.to_nat (Z.log2 n))) n EmptyString) as (d & s & Hs & Hd);
    [split; [lia|by apply log2_fuel]|].
  fold (hex_of n) in Hs. rewrite Hs in *.
  change (parse_rpc_quantity (PStr (String "0" (String "x" (String (hex_digit (Z.to_N d)) s)))) field = Ok n).
  unfold parse_rpc_quantity. rewrite Hc, hex_digit_zero, (proj2 (Z.eqb_neq d 0)), Hv by lia.
  done.
Qed.
