(* ===== verification/PaymentEvidence.v ===== *)
(** * What the chain proves about a payment

    The specification of the evidence: a mined transaction, its confirmations
    and the transfer its calldata encodes, byte for byte; and the proof that the
    checks of [ChainEvidence] and the verdicts of [Settlement] imply it. *)

From S2P Require Import Prelude PyValue Calendar Reservation Amounts LedgerTables LedgerStore.
From S2P Require Import Budget LedgerEvidence FundingService Assets Receipts Submission.
From S2P Require Import ProxyPayment Evm ChainEvidence Settlement LedgerFacts FundingMachine BudgetFacts.
From S2P Require Import FundingEffects ChainFacts.
From Stdlib Require Import Ascii Strings.Byte.

Open Scope string_scope.
Open Scope Z_scope.

(** ** The calldata of a payment *)

(** [transferFrom(owner, destination, amount)]. *)
Definition transfer_from_bytes (owner destination : bytes) (amount : Z) : bytes :=
  TRANSFER_FROM_SELECTOR ++ address_word owner ++ address_word destination ++ be_bytes 32 amount.

(** [transferWithAuthorization(payer, recipient, amount, after, before, nonce, v, r, s)]
    and what the facilitator may append. *)
Definition transfer_with_authorization_bytes (payer recipient : bytes)
    (amount valid_after valid_before : Z) (nonce signature attribution : bytes) : bytes :=
  TRANSFER_WITH_AUTHORIZATION_SELECTOR ++ address_word payer ++ address_word recipient
  ++ be_bytes 32 amount ++ be_bytes 32 valid_after ++ be_bytes 32 valid_before
  ++ nonce ++ signature ++ attribution.

(** ** Evidence *)

(** The node reports a receipt and a transaction of the reserved hash, deep enough. *)
Record mined (chain : ChainConfig) (node : Transport) (row receipt chain_tx : pydict) : Prop := {
  mi_receipt : transaction_receipt chain node row (dict_get row "tx_hash") = Ok (PDict receipt);
  mi_transaction :
    transaction_details chain node row (dict_get row "tx_hash") = Ok (PDict chain_tx);
  mi_hash : ∃ h, canonicalize_transaction_hash (dict_get row "tx_hash") = Ok h ∧
    canonicalize_transaction_hash (dict_get receipt "transactionHash") = Ok h ∧
    canonicalize_transaction_hash (dict_get chain_tx "hash") = Ok h;
  mi_confirmed :
    receipt_has_confirmations chain node 2 receipt (dict_get row "network") = Ok true;
}.

(** The transaction calls the reservation's token. *)
Definition calls_token (row chain_tx : pydict) : Prop :=
  ∃ token, reservation_token_address row = Ok token ∧
    canonical_evm_address (dict_get chain_tx "to") = Ok token.

(** The relayer's transfer from the user's wallet. *)
Definition transfers_native (row chain_tx : pydict) (d : FundingDb) : Prop :=
  ∃ authorization text owner destination amount,
    dict_get chain_tx "input" = PStr text ∧
    from_hex (drop2 text) = Some (transfer_from_bytes owner destination amount) ∧
    reservation_authorization row d = Ok authorization ∧
    canonical_evm_address (PStr (sa_wallet_address authorization)) = Ok (address_text owner) ∧
    native_transfer_destination row (dict_get row "settlement_sender")
      = Ok (address_text destination) ∧
    py_int (dict_get row "amount_atomic") = Ok amount.

(** It is the relayer's transaction of the reserved nonce. *)
Definition sent_by_relayer (row chain_tx : pydict) : Prop :=
  ∃ sender nonce,
    canonical_evm_address (dict_get chain_tx "from") = Ok sender ∧
    canonical_evm_address (dict_get row "settlement_sender") = Ok sender ∧
    parse_rpc_quantity (dict_get chain_tx "nonce") "native transaction nonce" = Ok nonce ∧
    py_int (dict_get row "settlement_nonce") = Ok nonce.

(** The payer's signed transfer to the merchant, with the reserved challenge. *)
Definition transfers_external (row chain_tx : pydict) (d : FundingDb) : Prop :=
  let field name := dict_get row (if is_proxy row then "proxy_" +:+ name else name) in
  ∃ text payer recipient amount valid_after valid_before nonce signature attribution,
    dict_get chain_tx "input" = PStr text ∧
    from_hex (drop2 text) =
      Some (transfer_with_authorization_bytes payer recipient amount valid_after valid_before
              nonce signature attribution) ∧
    attribution ∈ [[]; CDP_FACILITATOR_ATTRIBUTION] ∧
    length nonce = 32%nat ∧ length signature = 96%nat ∧
    external_payer row d = Ok (address_text payer) ∧
    canonical_evm_address (dict_get row "destination") = Ok (address_text recipient) ∧
    py_int (dict_get row "amount_atomic") = Ok amount ∧
    py_int (field "valid_after") = Ok valid_after ∧
    py_int (field "valid_before") = Ok valid_before ∧
    lower (py_str (field "nonce")) = "0x" +:+ hex nonce.

(** The chain shows that the reservation was paid, or that its payment failed. *)
Definition paid_on_chain (chain : ChainConfig) (node : Transport) (row : pydict) (d : FundingDb)
    : Prop :=
  ∃ receipt chain_tx, mined chain node row receipt chain_tx ∧
    status_succeeded (receipt_status receipt) = true ∧ calls_token row chain_tx ∧
    (transfers_native row chain_tx d ∧ sent_by_relayer row chain_tx ∨
     transfers_external row chain_tx d).
Definition reverted_on_chain (chain : ChainConfig) (node : Transport) (row : pydict) : Prop :=
  ∃ receipt chain_tx, mined chain node row receipt chain_tx ∧
    status_failed (receipt_status receipt) = true.

(** ** Decoding *)

Lemma slice_cons raw i j : (i ≤ j)%nat → drop i raw = (slice raw i j ++ drop j raw)%list.
Proof.
  intros Hij. unfold slice. rewrite <- (take_drop (j - i) (drop i raw)) at 1.
  rewrite drop_drop. do 2 f_equal. lia.
Qed.

Lemma slice_length raw i j : (j ≤ length raw)%nat → length (slice raw i j) = (j - i)%nat.
Proof. intros Hj. unfold slice. rewrite length_take, length_drop. lia. Qed.

Lemma catching_Ok {A} p (r k : result A) a :
  catching p r k = Ok a → r = Ok a ∨ k = Ok a.
Proof. unfold catching. destruct r as [b|e]; [auto|]. destruct (p e); auto. Qed.

Lemma from_hex_Ok s bs : bytes_fromhex s = Ok bs → from_hex s = Some bs.
Proof. apply from_option_or_Ok. Qed.

Lemma canonical_hash_idem v h :
  canonicalize_transaction_hash v = Ok h → canonicalize_transaction_hash (PStr h) = Ok h.
Proof.
  unfold canonicalize_transaction_hash. destruct v as [| | |[|c [|x s]]| |]; try done.
  destruct (_ && all_chars is_hex s) eqn:E; [|done]. intros [= <-].
  apply andb_true_iff in E as [E Hs]. apply andb_true_iff in E as [_ Hl].
  change ("0x" +:+ lower s) with (String "0" (String "x" (lower s))). cbv beta iota.
  rewrite str_len_lower, Hl, lower_idem, (all_chars_lower is_hex s); try done.
  intros c'. unfold is_hex. intros Hc. apply lower_hex_is_hex, hex_lowered, Hc.
Qed.

(** A check that was passed: its condition holds. *)
Ltac passes H :=
  lazymatch type of H with
  | (if negb (bool_decide ?P) then _ else _) = _ =>
      destruct (bool_decide_reflect P); [cbn [negb] in H|done]
  | (if negb ?b then _ else _) = _ => destruct b eqn:?; [cbn [negb] in H|done]
  end.

(** The bytes of [transferFrom] and what the checks read in them. *)
Lemma native_transfer_sound row text d owner destination amount owner' destination' :
  native_transfer row text d = Ok (Some (owner, destination, amount, owner', destination')) →
  ∃ authorization o t,
    from_hex (drop2 text) = Some (transfer_from_bytes o t amount) ∧
    owner = address_text o ∧ destination = address_text t ∧
    reservation_authorization row d = Ok authorization ∧
    canonical_evm_address (PStr (sa_wallet_address authorization)) = Ok owner' ∧
    native_transfer_destination row (dict_get row "settlement_sender") = Ok destination'.
Proof.
  unfold native_transfer. intros Hn.
  apply result_bind_Ok in Hn as (raw & Hraw%from_hex_Ok & Hn).
  destruct (_ && _) eqn:E; [|done]. cbn [negb] in Hn. bool_inv.
  apply Nat.eqb_eq in H. rename H0 into Hsel.
  apply result_bind_Ok in Hn as ([[a b] n] & Hargs & Hn).
  unfold transfer_from_arguments in Hargs.
  apply result_bind_Ok in Hargs as (? & (o & Hol & Ho & ->)%abi_word_address_Ok & Hargs).
  apply result_bind_Ok in Hargs as (? & (t & Htl & Ht & ->)%abi_word_address_Ok & Hargs).
  injection Hargs as <- <- Hv.
  apply result_bind_Ok in Hn as (authorization & Hauth & Hn).
  apply result_bind_Ok in Hn as (? & Hw & Hn).
  apply result_bind_Ok in Hn as (v & Hs%dict_item_get & Hn).
  apply result_bind_Ok in Hn as (? & Hd & Hn). injection Hn as <- <- <- <- <-. subst v.
  exists authorization, o, t. split_and!; try done. rewrite Hraw. f_equal.
  unfold transfer_from_bytes. rewrite <- (take_drop 4 raw) at 1. rewrite Hsel. f_equal.
  rewrite (slice_cons raw 4 36), Ho by lia. f_equal.
  rewrite (slice_cons raw 36 68), Ht by lia. f_equal.
  rewrite (slice_cons raw 68 100), (drop_ge raw 100), app_nil_r by lia.
  rewrite <- Hv, <- (be_bytes_value (slice raw 68 100)) at 1. by rewrite slice_length by lia.
Qed.

(** Evidence that passes the checks of the native rail. *)
Lemma native_evidence_sound row receipt v d :
  validate_native_settlement_evidence row receipt v d = Ok None →
  ∃ chain_tx, v = PDict chain_tx ∧ calls_token row chain_tx ∧ transfers_native row chain_tx d ∧
    sent_by_relayer row chain_tx ∧
    ∃ h, canonicalize_transaction_hash (dict_get row "tx_hash") = Ok h ∧
      canonicalize_transaction_hash (dict_get receipt "transactionHash") = Ok h ∧
      canonicalize_transaction_hash (dict_get chain_tx "hash") = Ok h.
Proof.
  unfold validate_native_settlement_evidence. destruct v as [| | | | |chain_tx]; try done.
  intros Hv. apply result_bind_Ok in Hv as (identity & Hid & Hv).
  apply catching_Ok in Hid as [Hid|[= <-]]; [|done].
  destruct identity as [|[[[[sender sender'] nonce] token] token']]; [done|].
  unfold native_evidence_identity in Hid.
  apply result_bind_Ok in Hid as (? & Htx%dict_item_get & Hid).
  apply result_bind_Ok in Hid as (h & Hh & Hid).
  apply result_bind_Ok in Hid as (h' & Hh' & Hid).
  passes Hid. subst h'.
  apply result_bind_Ok in Hid as (h' & Hh'' & Hid).
  passes Hid. subst h'.
  apply result_bind_Ok in Hid as (? & Hfrom & Hid).
  apply result_bind_Ok in Hid as (? & Hss%dict_item_get & Hid).
  apply result_bind_Ok in Hid as (? & Hsender & Hid).
  apply result_bind_Ok in Hid as (? & Hnonce & Hid).
  apply result_bind_Ok in Hid as (? & Hto & Hid).
  apply result_bind_Ok in Hid as (? & Htoken & Hid). injection Hid as -> -> -> -> ->. subst.
  passes Hv. subst sender'.
  apply result_bind_Ok in Hv as (? & Hsn%dict_item_get & Hv).
  apply result_bind_Ok in Hv as (n & Hn & Hv).
  destruct (nonce =? n) eqn:E; [|done]. cbn [negb] in Hv. apply Z.eqb_eq in E as ->.
  passes Hv. subst.
  exists chain_tx. split; [done|]. split; [by exists token'|].
  split; [|split; [by exists sender, n|by exists h]].
  unfold native_evidence_transfer in Hv.
  destruct (dict_get row "settlement_transaction") as [| | | | |transaction]; try done.
  destruct (py_eqb _ _); [|done]. cbn [negb] in Hv.
  destruct (dict_get chain_tx "input") as [| | |text| |] eqn:Htext; try done.
  destruct (has_0x text); [|done]. cbn [negb] in Hv.
  apply result_bind_Ok in Hv as (transfer & Ht & Hv).
  apply catching_Ok in Ht as [Ht|[= <-]]; [|done].
  destruct transfer as [[[[[owner destination] amount] owner'] destination']|]; [|done].
  apply native_transfer_sound in Ht as (authorization & o & t & Hraw & -> & -> & Ha & Hw & Hd).
  passes Hv. passes Hv. subst.
  apply result_bind_Ok in Hv as (? & Ham%dict_item_get & Hv).
  apply result_bind_Ok in Hv as (a & Ha' & Hv).
  destruct (amount =? a) eqn:E; [|done]. apply Z.eqb_eq in E as ->. subst.
  by exists authorization, text, o, t, a.
Qed.

Lemma external_bytes_sound calldata raw :
  external_calldata_bytes calldata = inr raw →
  ∃ text, calldata = PStr text ∧ from_hex (drop2 text) = Some raw ∧ (292 ≤ length raw)%nat ∧
    take 4 raw = TRANSFER_WITH_AUTHORIZATION_SELECTOR ∧
    drop 292 raw ∈ [[]; CDP_FACILITATOR_ATTRIBUTION].
Proof.
  unfold external_calldata_bytes. destruct calldata as [| | |text| |]; try done.
  destruct (has_0x text); [|done]. cbn [negb].
  destruct (from_hex (drop2 text)) as [bs|] eqn:E; [|done].
  change TRANSFER_WITH_AUTHORIZATION_CALLDATA_BYTES with 292%nat.
  destruct (length bs <? 292)%nat eqn:Hl; [done|]. apply Nat.ltb_ge in Hl.
  case_bool_decide; [|done]. cbn [negb].
  destruct (_ || _) eqn:Ha; [|done]. intros [= ->].
  exists text. split_and!; try done.
  apply orb_true_iff in Ha as [Ha%bool_decide_eq_true|Ha%bool_decide_eq_true]; rewrite Ha;
    [left|right; left].
Qed.

(** The calldata, cut into its words. *)
Lemma calldata_words raw payer recipient :
  (292 ≤ length raw)%nat → take 4 raw = TRANSFER_WITH_AUTHORIZATION_SELECTOR →
  calldata_word raw 0 = address_word payer → calldata_word raw 1 = address_word recipient →
  raw = transfer_with_authorization_bytes payer recipient (be_value (calldata_word raw 2))
          (be_value (calldata_word raw 3)) (be_value (calldata_word raw 4))
          (calldata_word raw 5) (slice raw 196 292) (drop 292 raw).
Proof.
  intros Hl Hsel Hp Hr. unfold transfer_with_authorization_bytes.
  rewrite <- (take_drop 4 raw) at 1. rewrite Hsel. f_equal.
  assert (∀ i, (36 + 32 * i ≤ length raw)%nat →
    be_bytes 32 (be_value (calldata_word raw i)) = calldata_word raw i) as Hw.
  { intros i Hi. rewrite <- (be_bytes_value (calldata_word raw i)) at 2. f_equal.
    unfold calldata_word. rewrite slice_length by done. lia. }
  rewrite !Hw by lia. clear Hw.
  change (slice raw 4 36 = address_word payer) in Hp.
  change (slice raw 36 68 = address_word recipient) in Hr.
  change (calldata_word raw 2) with (slice raw 68 100).
  change (calldata_word raw 3) with (slice raw 100 132).
  change (calldata_word raw 4) with (slice raw 132 164).
  change (calldata_word raw 5) with (slice raw 164 196).
  rewrite (slice_cons raw 4 36), Hp by lia. f_equal.
  rewrite (slice_cons raw 36 68), Hr by lia. f_equal.
  rewrite (slice_cons raw 68 100) by lia. f_equal.
  rewrite (slice_cons raw 100 132) by lia. f_equal.
  rewrite (slice_cons raw 132 164) by lia. f_equal.
  rewrite (slice_cons raw 164 196) by lia. f_equal.
  by rewrite (slice_cons raw 196 292) by lia.
Qed.

Lemma transfer_mismatch_none x y : transfer_mismatch x y = None → x = y.
Proof.
  unfold transfer_mismatch. intros Hx.
  do 6 (passes Hx). bool_inv. destruct x, y; simpl in *. congruence.
Qed.

(** Calldata that passes the checks of the external rails. *)
Lemma external_calldata_sound row calldata d :
  validate_external_payment_calldata row calldata d = Ok None →
  ∀ chain_tx, dict_get chain_tx "input" = calldata → transfers_external row chain_tx d.
Proof.
  unfold validate_external_payment_calldata. intros Hv chain_tx Hin.
  destruct (is_ok _); [|done]. cbn [negb] in Hv.
  destruct (external_calldata_bytes calldata) as [|raw] eqn:Hraw; [done|].
  apply external_bytes_sound in Hraw as (text & -> & Hhex & Hl & Hsel & Hatt).
  apply result_bind_Ok in Hv as (arguments & Ha & Hv).
  apply catching_Ok in Ha as [Ha|[= <-]]; [|done].
  destruct (external_arguments row raw) as [[x expected]|] eqn:Harg; [|done].
  injection Ha as <-. destruct (255 <? _); [done|].
  apply result_bind_Ok in Hv as (payer & Hp & Hv).
  apply catching_Ok in Hp as [Hp|[= <-]]; [|done].
  destruct (external_payer row d) as [p|] eqn:Hpayer; [|done]. injection Hp as <-.
  injection Hv as Hv%transfer_mismatch_none. unfold external_arguments in Harg.
  apply result_bind_Ok in Harg as (? & (a & Hal & Ha & ->)%abi_word_address_Ok & Harg).
  apply result_bind_Ok in Harg as (? & (b & Hbl & Hb & ->)%abi_word_address_Ok & Harg).
  apply result_bind_Ok in Harg as (? & Hd%dict_item_get & Harg).
  apply result_bind_Ok in Harg as (r & Hr & Harg).
  apply result_bind_Ok in Harg as (? & Ham%dict_item_get & Harg).
  apply result_bind_Ok in Harg as (n & Hn & Harg).
  apply result_bind_Ok in Harg as (? & Haf%dict_item_get & Harg).
  apply result_bind_Ok in Harg as (after & Hafter & Harg).
  apply result_bind_Ok in Harg as (? & Hbe%dict_item_get & Harg).
  apply result_bind_Ok in Harg as (before & Hbefore & Harg).
  apply result_bind_Ok in Harg as (? & Hno%dict_item_get & Harg).
  injection Harg as <- <-. injection Hv as Hpe Hre Hne Hafe Hbfe Hnoe. subst.
  exists text, a, b. do 3 eexists. exists (calldata_word raw 5), (slice raw 196 292), (drop 292 raw).
  pose proof (calldata_words raw a b Hl Hsel Ha Hb) as Hwords.
  split_and!; try done; try (by rewrite Hhex, Hwords at 1); try done.
  all: try (unfold calldata_word; rewrite slice_length by lia; lia).
Qed.

(** ** A payment that was built is recognised *)

Lemma pick_items_item row keys kvs k :
  pick_items row keys = Ok kvs → k ∈ keys → dict_find kvs k = dict_find row k.
Proof.
  revert kvs. induction keys as [|k' keys IH]; simpl; intros kvs Hp Hin; [by apply elem_of_nil in Hin|].
  unfold dict_item in Hp. destruct (dict_find row k') as [v|] eqn:E; [|done]. simpl in Hp.
  destruct (pick_items row keys) as [kvs'|] eqn:E'; [|done]. injection Hp as <-. simpl.
  case_bool_decide as Hk; [by subst|]. apply elem_of_cons in Hin as [|Hin]; [done|]. by apply IH.
Qed.

Lemma transfer_arguments_complete o t n :
  length o = 20%nat → length t = 20%nat → 0 <= n < 256 ^ 32 →
  transfer_from_arguments (transfer_from_bytes o t n) = Ok (address_text o, address_text t, n) ∧
  length (transfer_from_bytes o t n) = 100%nat.
Proof.
  intros Ho Ht Hn. unfold transfer_from_arguments, transfer_from_bytes.
  assert (length (address_word o) = 32%nat ∧ length (address_word t) = 32%nat) as [Hwo Hwt]
    by (unfold address_word; rewrite !length_app, Ho, Ht; done).
  assert (slice (TRANSFER_FROM_SELECTOR ++ address_word o ++ address_word t ++ be_bytes 32 n) 4 36
          = address_word o) as ->
    by (unfold slice; rewrite drop_app_length', take_app_length'; done).
  assert (slice (TRANSFER_FROM_SELECTOR ++ address_word o ++ address_word t ++ be_bytes 32 n) 36 68
          = address_word t) as ->.
  { unfold slice. rewrite app_assoc, drop_app_length', take_app_length'; [done..|].
    rewrite length_app, Hwo. done. }
  assert (slice (TRANSFER_FROM_SELECTOR ++ address_word o ++ address_word t ++ be_bytes 32 n) 68 100
          = be_bytes 32 n) as ->.
  { unfold slice. rewrite (app_assoc (address_word o)), app_assoc, drop_app_length'.
    - apply take_ge. by rewrite be_bytes_length.
    - rewrite !length_app, Hwo, Hwt. done. }
  rewrite !abi_word_address_word by done. cbn [mbind result_bind]. rewrite be_value_bytes by done.
  split; [done|]. by rewrite !length_app, Hwo, Hwt, be_bytes_length.
Qed.

Lemma native_transfer_complete row text d o t n authorization sender :
  from_hex (drop2 text) = Some (transfer_from_bytes o t n) →
  length o = 20%nat → length t = 20%nat → 0 <= n < 256 ^ 32 →
  reservation_authorization row d = Ok authorization →
  canonical_evm_address (PStr (sa_wallet_address authorization)) = Ok (address_text o) →
  dict_find row "settlement_sender" = Some sender →
  native_transfer_destination row sender = Ok (address_text t) →
  native_transfer row text d
    = Ok (Some (address_text o, address_text t, n, address_text o, address_text t)).
Proof.
  intros Htext Ho Ht Hn Ha Hw Hs Hd.
  destruct (transfer_arguments_complete o t n Ho Ht Hn) as [Hargs Hlen].
  unfold native_transfer, bytes_fromhex. rewrite Htext. cbn [from_option_or mbind result_bind].
  rewrite Hlen, bool_decide_eq_true_2 by done. cbn [Nat.eqb Nat.add Nat.mul andb negb].
  rewrite Hargs. cbn [mbind result_bind]. rewrite Ha. cbn [mbind result_bind]. rewrite Hw.
  unfold dict_item. rewrite Hs. cbn [from_option_or mbind result_bind]. by rewrite Hd.
Qed.

Lemma canonical_hash_text bs :
  length bs = 32%nat →
  canonicalize_transaction_hash (PStr ("0x" +:+ hex bs)) = Ok ("0x" +:+ hex bs).
Proof.
  intros Hl. change ("0x" +:+ hex bs) with (String "0" (String "x" (hex bs))).
  unfold canonicalize_transaction_hash. destruct (hex_lower bs) as [Hc Hx].
  assert (str_len (hex bs) =? 64 = true) as ->
    by (rewrite str_len_hex; unfold blen; rewrite Hl; done).
  by rewrite (all_chars_weaken _ is_hex _ lower_hex_is_hex Hc), Hx.
Qed.

Lemma destination_text row v destination :
  native_transfer_destination row v = Ok destination →
  ∃ bs, length bs = 20%nat ∧ destination = address_text bs.
Proof.
  unfold native_transfer_destination. intros Hd. destruct (is_proxy row).
  - apply result_bind_Ok in Hd as (a & (? & bs & _ & Hl & -> & _)%canonical_address_Ok & Hd).
    apply result_bind_Ok in Hd as (? & _ & Hd). apply result_bind_Ok in Hd as (? & _ & Hd).
    apply result_bind_Ok in Hd as (? & _ & [= <-]). by exists bs.
  - apply result_bind_Ok in Hd as (? & _ & (? & bs & _ & Hl & -> & _)%canonical_address_Ok).
    by exists bs.
Qed.

(** What a built transaction was built from. *)
Lemma build_Ok `{Keccak} `{Checksum} chain node relayer authorization current nonce prepared :
  build_native_transaction chain node relayer authorization current nonce = Ok prepared →
  ∃ token decimals destination persisted atomic calldata target raw,
    authorization_token_scope authorization = Ok (token, decimals) ∧
    dict_get (sa_metadata authorization) "amount_atomic" = PStr persisted ∧
    py_int (PStr persisted) = Ok atomic ∧
    native_transfer_destination current (PStr (rl_address relayer)) = Ok destination ∧
    transfer_from_calldata (sa_wallet_address authorization) destination atomic = Ok calldata ∧
    canonical_evm_address (PStr (rl_address relayer)) = Ok (pt_relayer prepared) ∧
    canonical_evm_address (PStr token) = Ok target ∧ pt_nonce prepared = nonce ∧
    dict_get (pt_transaction prepared) "to" = PStr target ∧
    dict_get (pt_transaction prepared) "data" = PStr calldata ∧
    pt_tx_hash prepared = "0x" +:+ hex (keccak raw).
Proof.
  unfold build_native_transaction. intros Hb.
  do 5 (apply result_bind_Ok in Hb as (? & _ & Hb)).
  apply result_bind_Ok in Hb as ([token decimals] & Hscope & Hb).
  apply result_bind_Ok in Hb as (atomic & Hatomic & Hb).
  apply result_bind_Ok in Hb as (destination & Hdest & Hb).
  apply result_bind_Ok in Hb as (calldata & Hdata & Hb).
  apply result_bind_Ok in Hb as (id & _ & Hb).
  apply result_bind_Ok in Hb as (price & _ & Hb).
  apply result_bind_Ok in Hb as (gas & _ & Hb).
  apply result_bind_Ok in Hb as (signed & _ & Hb).
  apply result_bind_Ok in Hb as (from & Hfrom & Hb).
  apply result_bind_Ok in Hb as (target & Hto & Hb).
  apply result_bind_Ok in Hb as (h & Hh & Hb). injection Hb as <-.
  unfold raw_hash in Hh. apply result_bind_Ok in Hh as (raw & _ & [= <-]).
  unfold settlement_atomic_amount in Hatomic.
  apply result_bind_Ok in Hatomic as (value & _ & Hatomic).
  destruct (dict_get (sa_metadata authorization) "amount_atomic") as [| | |persisted| |] eqn:Hp;
    try done.
  apply result_bind_Ok in Hatomic as (? & _ & Hatomic).
  apply result_bind_Ok in Hatomic as (n & Hn & Hatomic).
  apply result_bind_Ok in Hatomic as (? & _ & [= <-]).
  by exists token, decimals, destination, persisted, n, calldata, target, raw.
Qed.

(** The calldata of a built transaction encodes its transfer. *)
Lemma transfer_calldata_bytes `{Keccak} wallet destination o t n calldata :
  take 4 (keccak (String.list_byte_of_string "transferFrom(address,address,uint256)"))
    = TRANSFER_FROM_SELECTOR →
  canonical_evm_address (PStr wallet) = Ok (address_text o) →
  destination = address_text t → length t = 20%nat → n < 2 ^ 256 →
  transfer_from_calldata wallet destination n = Ok calldata →
  0 <= n ∧ length o = 20%nat ∧ has_0x calldata = true ∧
  from_hex (drop2 calldata) = Some (transfer_from_bytes o t n).
Proof.
  intros Hsel (s & bs & [= <-] & Hl & Ho & H0 & Hlow & _)%canonical_address_Ok -> Ht Hn Hc.
  unfold address_text in Ho. injection Ho as Ho%hex_inj. subst bs.
  unfold transfer_from_calldata in Hc. apply result_bind_Ok in Hc as (amount & Ha & [= <-]).
  assert (0 <= n) as Hn0.
  { unfold abi_uint in Ha. destruct (n <? 0) eqn:E; [done|]. by apply Z.ltb_ge in E. }
  destruct (abi_uint_word n (conj Hn0 Hn)) as (a & Ha' & Hx).
  rewrite Ha' in Ha. injection Ha as ->.
  split_and!; [done|done|apply has_0x_app|]. rewrite drop2_0x. unfold selector_hex. rewrite Hsel.
  unfold transfer_from_bytes.
  apply from_hex_app; [reflexivity|]. apply from_hex_app; [by apply abi_address_word|].
  apply from_hex_app; [|done]. apply abi_address_word; [apply has_0x_app| |done].
  unfold address_text. rewrite drop2_0x. apply hex_lower.
Qed.

(** The metadata of a reservation's authorization is read from its row. *)
Lemma authorization_metadata row d authorization k :
  reservation_authorization row d = Ok authorization → k ∈ AUTHORIZATION_METADATA_KEYS →
  dict_find (sa_metadata authorization) k = dict_find row k ∧
  require_unified_reservation row = Ok tt.
Proof.
  unfold reservation_authorization. intros Ha Hk.
  apply result_bind_Ok in Ha as ([] & Hu & Ha).
  apply result_bind_Ok in Ha as ([[identity g] allowance] & _ & Ha).
  unfold synthetic_authorization in Ha.
  do 5 (apply result_bind_Ok in Ha as (? & _ & Ha)).
  apply result_bind_Ok in Ha as (metadata & Hm & Ha).
  do 5 (apply result_bind_Ok in Ha as (? & _ & Ha)). injection Ha as <-.
  split; [|done]. by eapply pick_items_item.
Qed.

(** The token of the row is the target of its transaction. *)
Lemma token_scope_target `{Checksum} row d authorization token decimals target :
  (∀ a, canonical_evm_address (PStr a) = Ok a →
     canonical_evm_address (PStr (to_checksum_address a)) = Ok a) →
  reservation_authorization row d = Ok authorization →
  authorization_token_scope authorization = Ok (token, decimals) →
  canonical_evm_address (PStr token) = Ok target →
  reservation_token_address row = Ok target.
Proof.
  intros Hck Ha Hs Ht.
  destruct (authorization_metadata _ _ _ "token_address" Ha ltac:(decided)) as [Hm Hu].
  unfold authorization_token_scope, dict_item in Hs. rewrite Hm in Hs.
  unfold reservation_token_address. rewrite Hu. cbn [mbind result_bind].
  destruct (dict_find row "token_address") as [v|]; [|done]. cbn [from_option_or mbind result_bind] in *.
  destruct (canonical_evm_address v) as [a|] eqn:Hv; [|done]. cbn [mbind result_bind] in Hs.
  destruct (decimals ← _; _) as [[? ?]|] eqn:E; [|done].
  assert (s = a) as ->.
  { apply result_bind_Ok in E as (? & _ & E). by apply result_bind_Ok in E as (? & _ & [= <- _]). }
  apply result_bind_Ok in Hs as (? & _ & [= <- _]).
  apply canonical_address_Ok in Hv as (? & bs & _ & Hl & -> & _).
  rewrite Hck in Ht by by apply canonical_address_text. done.
Qed.

(** The fields a submission sets, and those it keeps. *)
Section Submitted.
Context (clock : Z) (current : pydict) (k hash : string) (p : PreparedTransaction).
Let row := native_submitted clock current k hash p.
Lemma submitted_fields :
  dict_find row "tx_hash" = Some (PStr (pt_tx_hash p)) ∧
  dict_find row "settlement_sender" = Some (PStr (pt_relayer p)) ∧
  dict_find row "settlement_nonce" = Some (PInt (pt_nonce p)) ∧
  dict_find row "settlement_transaction" = Some (PDict (pt_transaction p)).
Proof. unfold row, native_submitted. rewrite !dict_find_update. by split_and!. Qed.
Lemma submitted_keeps f :
  f ∈ ["authorization_rail"; "spender_address"; "destination"; "amount_atomic"; "token_address"] →
  dict_find row f = dict_find current f.
Proof.
  intros Hf. unfold row, native_submitted. rewrite dict_find_update.
  list_cases; subst; reflexivity.
Qed.

Lemma submitted_destination sender relayer destination :
  canonical_evm_address (PStr relayer) = Ok sender →
  native_transfer_destination current (PStr relayer) = Ok destination →
  native_transfer_destination row (PStr sender) = Ok destination.
Proof.
  intros Hs. unfold native_transfer_destination, is_proxy, dict_get, dict_item.
  rewrite !submitted_keeps by list_member. rewrite Hs.
  apply canonical_address_Ok in Hs as (? & bs & _ & Hl & -> & _).
  by rewrite canonical_address_text.
Qed.
End Submitted.

(** The transfer checks of a payment's own calldata pass. *)
Lemma transfer_evidence_complete row chain_tx transaction text d o t n authorization sender :
  dict_find row "settlement_transaction" = Some (PDict transaction) →
  dict_get transaction "data" = PStr text → dict_get chain_tx "input" = PStr text →
  has_0x text = true → from_hex (drop2 text) = Some (transfer_from_bytes o t n) →
  length o = 20%nat → length t = 20%nat → 0 <= n < 256 ^ 32 →
  reservation_authorization row d = Ok authorization →
  canonical_evm_address (PStr (sa_wallet_address authorization)) = Ok (address_text o) →
  dict_find row "settlement_sender" = Some sender →
  native_transfer_destination row sender = Ok (address_text t) →
  (v ← dict_item row "amount_atomic"; py_int v) = Ok n →
  native_evidence_transfer row chain_tx d = Ok None.
Proof.
  intros Htx Hd Hi H0 Hx Ho Ht Hn Ha Hw Hs Hdest Ham.
  apply result_bind_Ok in Ham as (v & Hv & Hint).
  assert (dict_get row "settlement_transaction" = PDict transaction) as Hst
    by (unfold dict_get; by rewrite Htx).
  unfold native_evidence_transfer. rewrite Hst, Hi, Hd. cbn [py_eqb]. rewrite bool_decide_eq_true_2 by done. cbn [negb]. rewrite H0.
  cbn [negb]. rewrite (native_transfer_complete row text d o t n authorization sender) by done.
  cbn [catching mbind result_bind]. rewrite !bool_decide_eq_true_2 by done. cbn [negb].
  rewrite Hv. cbn [mbind result_bind]. rewrite Hint. cbn [mbind result_bind]. by rewrite Z.eqb_refl.
Qed.

(** The identity checks of an echoed transaction pass. *)
Lemma identity_complete row receipt chain_tx tx_hash sender target nonce :
  canonicalize_transaction_hash (PStr tx_hash) = Ok tx_hash →
  canonical_evm_address (PStr sender) = Ok sender → canonical_evm_address (PStr target) = Ok target →
  dict_find row "tx_hash" = Some (PStr tx_hash) →
  dict_find row "settlement_sender" = Some (PStr sender) →
  reservation_token_address row = Ok target → 0 <= nonce →
  dict_get receipt "transactionHash" = PStr tx_hash → dict_get chain_tx "hash" = PStr tx_hash →
  dict_get chain_tx "from" = PStr sender → dict_get chain_tx "to" = PStr target →
  dict_get chain_tx "nonce" = PStr (py_hex nonce) →
  native_evidence_identity row receipt chain_tx = Ok (inr (sender, sender, nonce, target, target)).
Proof.
  intros Hc Hcs Hct Hh Hs Ht Hn Hr Hx Hf Hto Hno. unfold native_evidence_identity, dict_item.
  rewrite Hh, Hs, Hr, Hx, Hf, Hto, Hno. cbn [from_option_or mbind result_bind].
  rewrite Hc. cbn [mbind result_bind]. rewrite !bool_decide_eq_true_2 by done. cbn [negb].
  rewrite Hcs. cbn [mbind result_bind]. rewrite parse_quantity by done. cbn [mbind result_bind].
  rewrite Hct. cbn [mbind result_bind]. by rewrite Ht.
Qed.
