(* ===== verification/SettlementEffects.v ===== *)
(** * The payment calls are made of ledger transactions

    Whatever the chain, the signer and the policy service answer, a call of
    [Settlement] moves the ledger by a history of the calls of
    [FundingCommands]; and what it does to a reservation follows its verdict. *)

From S2P Require Import Prelude PyValue Calendar Reservation Amounts LedgerTables LedgerStore.
From S2P Require Import Budget LedgerEvidence FundingService Assets Receipts Submission.
From S2P Require Import ProxyPayment Evm ChainEvidence Settlement.
From S2P Require Import LedgerFacts FundingMachine BudgetFacts FundingEffects FundingRefinement.
From S2P Require Import SubmissionEffects FundingCommands ChainFacts PaymentEvidence.

Open Scope string_scope.
Open Scope Z_scope.

(** ** Histories *)

(** The tactic that follows a program, with the parts known so far. *)
Create HintDb moves.
Ltac program :=
  repeat first
    [ solve [auto with moves]
    | apply bind_moves; [apply _| |intros ?]
    | apply recover_moves; [apply _| |intros ?]
    | apply ret_moves; apply _
    | apply answers_moves; apply _
    | progress case_match ].

Section Histories.
Context `{Sha256} `{HmacSha256} `{KeccakHex} `{Keccak} `{Checksum}.
Context (config : FundingConfig) (chain : ChainConfig) (clock : Z).
Context (Hclock : representable clock).

Abbreviation history := (rtc (call config)).

(** One command of the ledger. *)
Lemma command_moves {A} (m : FundingDb → result A * FundingDb) :
  (∀ d, ∃ c, drawn_fresh c d ∧ (m d).2 = frun config clock c d) → moves_by history (runs m).
Proof.
  intros Hm d. destruct (Hm d) as (c & Hc & E). apply rtc_once. by exists clock, c.
Qed.

Ltac by_command c := apply command_moves; intros d; exists c; split; [try done|reflexivity].

Section World.
Context (w : World) (Hdraw : ∀ d, fd_records d !! sw_draw w d = None).

Lemma pending_moves row error manual : moves_by history (pending clock row error manual).
Proof. by_command (CPending row error manual). Qed.
#[local] Hint Resolve pending_moves : moves.

Lemma send_native_moves n row raw : moves_by history (send_native chain clock w n row raw).
Proof.
  apply command_moves. intros d.
  exists (CSend row (sw_controls w n (fetched (py_str (dict_get row "reservation_id")) d))
            (send_raw chain w n row raw d)). by split.
Qed.
#[local] Hint Resolve send_native_moves : moves.

Lemma complete_native_moves row : moves_by history (complete_native config clock w row).
Proof.
  apply command_moves. intros d. unfold complete_native. destruct (is_proxy _).
  - by exists (CFundPayer row).
  - exists (CCompleteNative row (sw_draw w d)). by split; [apply Hdraw|].
Qed.
#[local] Hint Resolve complete_native_moves : moves.

Lemma rebroadcast_moves row tx_hash raw :
  moves_by history (rebroadcast_native chain clock w row tx_hash raw).
Proof.
  unfold rebroadcast_native, get_reservation. program.
Qed.
#[local] Hint Resolve rebroadcast_moves : moves.

Lemma reconcile_native_moves row operator :
  moves_by history (reconcile_native_reservation config chain clock w row operator).
Proof.
  unfold reconcile_native_reservation, payment_under_review, apply_native_verdict. program.
  apply command_moves; intros d; eexists (CRetry _ _ _ _ _); by split.
Qed.
#[local] Hint Resolve reconcile_native_moves : moves.

Lemma reconcile_external_moves row operator :
  moves_by history (reconcile_external_reservation config chain clock w row operator).
Proof.
  unfold reconcile_external_reservation, payment_under_review. program.
  - apply command_moves; intros d; eexists (CExternalReverted _); by split.
  - apply command_moves. intros d. eexists (CCompleteExternal _ (sw_draw w d)).
    by split; [apply Hdraw|].
Qed.
#[local] Hint Resolve reconcile_external_moves : moves.

Lemma reconcile_payment_moves k operator :
  moves_by history (reconcile_payment config chain clock w k operator).
Proof.
  unfold reconcile_payment. program.
  by_command (CReconcile k operator).
Qed.
#[local] Hint Resolve reconcile_payment_moves : moves.
End World.
#[local] Hint Resolve pending_moves send_native_moves reconcile_payment_moves : moves.

Context (w : World) (Hdraw : ∀ d, fd_records d !! sw_draw w d = None).

Lemma reconcile_afterwards_moves k :
  moves_by history (reconcile_afterwards config chain clock w k).
Proof. by apply reconcile_payment_moves. Qed.
#[local] Hint Resolve reconcile_afterwards_moves : moves.

Lemma authorize_moves row : moves_by history (authorize_broadcast clock w row).
Proof.
  unfold authorize_broadcast. program.
  - by_command (CAuthorize row).
  - by_command (CBlock row "live funding risk assessment failed immediately before submission").
Qed.
#[local] Hint Resolve authorize_moves : moves.

Lemma follow_up_moves k row prepared :
  moves_by history (follow_up config chain clock w k row prepared).
Proof.
  unfold follow_up, broadcast_native. program.
  all: try (apply command_moves; intros d; eexists (CSaveError _ _ _); by split).
  apply command_moves; intros d; eexists (CRetry _ _ _ _ _); by split.
Qed.
#[local] Hint Resolve follow_up_moves : moves.

(** The transaction that submits a native payment. *)
Lemma submit_moves k hash :
  moves_by history (runs (λ d, write_session
    (submit_native_txn config clock k hash (native_context chain w (fetched k d) d)) d)).
Proof.
  apply command_moves. intros d.
  exists (CSubmitNative k hash (native_context chain w (fetched k d) d)). split; [done|].
  simpl. unfold submit_native. by destruct (write_session _ d) as [[[]|] ?].
Qed.
#[local] Hint Resolve submit_moves : moves.

Lemma settle_payment_moves k hash :
  moves_by history (settle_payment config chain clock w k hash).
Proof. unfold settle_payment. program. Qed.

Lemma finalize_payment_moves proxy k transaction_hash proof :
  moves_by history (finalize_payment config chain clock w proxy k transaction_hash proof).
Proof.
  unfold finalize_payment. program.
  apply command_moves. intros d. eexists (CSubmitExternal _ _ _ _ _ _). by split.
Qed.
End Histories.
