(* ===== verification/SettlementFacts.v ===== *)
(** * Spending and failing on evidence

    The transactions of a payment keep the books of spending, except the one that
    completes it; and a verdict to complete or to give up a payment rests on
    evidence ([PaymentEvidence]). *)

From S2P Require Import Prelude PyValue Calendar Reservation Amounts LedgerTables LedgerStore.
From S2P Require Import Budget LedgerEvidence FundingService Assets Receipts Submission.
From S2P Require Import ProxyPayment Evm ChainEvidence Settlement.
From S2P Require Import LedgerFacts FundingMachine BudgetFacts FundingEffects FundingRefinement.
From S2P Require Import SubmissionEffects FundingCommands FundingSafety ChainFacts PaymentEvidence SettlementEffects.

Open Scope string_scope.
Open Scope Z_scope.

(** ** Transactions that spend nothing *)

(** The lines of the book are the same. *)
Definition same_lines (d d' : FundingDb) : Prop := fd_rolling d' = fd_rolling d.
#[export] Instance same_lines_po : PreOrder same_lines.
Proof. split; [by intros d|]. intros d d1 d2. unfold same_lines. congruence. Qed.

Lemma outside_lines d d' : outside d d' → same_lines d d'.
Proof. intros Ho%outside_books. unfold books in Ho. by injection Ho. Qed.

Lemma put_reservation_lines clock row tx : steps_by same_lines (put_reservation clock row tx).
Proof.
  intros d p d' (k & r & i & _ & Hw & _)%put_reservation_Ok.
  by destruct (wr_accounts _ _ _ _ _ _ Hw) as (_ & _ & Hr & _).
Qed.

Create HintDb lines.
#[local] Hint Resolve put_reservation_lines : lines.

(** The tactic that follows a transaction. *)
Ltac transaction :=
  repeat first
    [ solve [auto with lines]
    | apply bind_steps; [apply _| |intros ?]
    | apply ret_steps; apply _ | apply lifts_steps; apply _ | apply requires_steps; apply _
    | apply reads_steps; apply _ | apply raises_steps
    | progress case_match ].

Section Lines.
Context `{Sha256} `{HmacSha256} `{KeccakHex} `{Keccak} `{Checksum}.
Context (config : FundingConfig) (chain : ChainConfig) (clock : Z).

Lemma required_row_lines k e : steps_by same_lines (required_row k e).
Proof. unfold required_row. transaction. Qed.
Lemma on_pending_lines row f :
  (∀ current, steps_by same_lines (f current)) → moves_by same_lines (on_pending row f).
Proof. intros Hf. apply (session_moves same_lines). transaction. Qed.

Lemma pending_lines row error manual :
  moves_by same_lines (pending_reservation clock row error manual).
Proof. apply on_pending_lines. intros current. transaction. Qed.

Lemma put_blocked_lines current reason :
  steps_by same_lines (put_blocked_native_reservation clock current reason).
Proof. unfold put_blocked_native_reservation. transaction. Qed.
#[local] Hint Resolve put_blocked_lines required_row_lines : lines.

Lemma block_lines row reason :
  moves_by same_lines (block_unbroadcast_native_reservation clock row reason).
Proof. apply on_pending_lines. intros current. transaction. Qed.

Lemma retry_lines row reason preserve kind reason_code :
  moves_by same_lines (retryable_reservation clock row reason preserve kind reason_code).
Proof. apply on_pending_lines. intros current. transaction. Qed.

Lemma retry_proxy_lines row reason :
  moves_by same_lines (retryable_proxy_payment clock row reason).
Proof. apply on_pending_lines. intros current. transaction. Qed.

Lemma external_reverted_lines row : moves_by same_lines (external_reverted clock row).
Proof.
  intros d. unfold external_reverted. destruct (authoritative_reservation row d) as [c|]; [|done].
  destruct (is_proxy c); [apply retry_proxy_lines|apply retry_lines].
Qed.

Lemma save_error_lines k tx_hash error :
  moves_by same_lines (save_reconciliation_error clock k tx_hash error).
Proof.
  intros d. unfold save_reconciliation_error.
  destruct (canonicalize_transaction_hash tx_hash); [|done].
  apply (session_moves same_lines). transaction.
Qed.

Lemma reconcile_pending_lines attempts age operator row :
  steps_by same_lines (reconcile_pending clock attempts age operator row).
Proof. unfold reconcile_pending. transaction. Qed.
#[local] Hint Resolve reconcile_pending_lines : lines.

Lemma reconcile_lines attempts age operator k :
  moves_by same_lines (reconcile_reservation config clock attempts age operator k).
Proof. apply (session_moves same_lines). unfold reconcile_txn. transaction. Qed.

Lemma authorize_lines row : moves_by same_lines (authorize_native_broadcast clock row).
Proof. apply (session_moves same_lines). transaction. Qed.

Lemma send_lines row controls sent :
  moves_by same_lines (send_native_raw_transaction clock row controls sent).
Proof.
  intros d. unfold send_native_raw_transaction.
  match goal with |- same_lines d (match write_session ?b d with _ => _ end).2 =>
    assert (same_lines d (write_session b d).2) as Hs
      by (apply (session_moves same_lines); transaction) end.
  by destruct (write_session _ d) as [[[]|] ?].
Qed.

Lemma refresh_lines current x : steps_by same_lines (refresh_allowance clock current x).
Proof. intros d r d' Ho%refresh_outside. by apply outside_lines. Qed.
Lemma allocate_lines row network relayer pending :
  steps_by same_lines (allocate_relayer_nonce row network relayer pending clock).
Proof. intros d n d' Ho%allocate_outside. by apply outside_lines. Qed.
#[local] Hint Resolve refresh_lines allocate_lines : lines.

Lemma submit_native_lines k hash (x : FundingDb → NativeContext) :
  moves_by same_lines (λ d, write_session (submit_native_txn config clock k hash (x d)) d).
Proof.
  intros d. apply (session_moves same_lines). unfold submit_native_txn, submit_prepared. transaction.
Qed.

Lemma finalize_lines proxy k hash proof_hash executed :
  steps_by same_lines (finalize_txn config clock proxy k hash proof_hash executed).
Proof. unfold finalize_txn. transaction. Qed.

Lemma submit_external_lines proxy k hash proof observed executed :
  moves_by same_lines (submit_external config clock proxy k hash proof observed executed).
Proof.
  intros d. unfold submit_external. destruct (mbind _ _) as [[|[h proof_hash]]|]; [done| |done].
  assert (same_lines d (write_session
    (finalize_txn config clock proxy k h proof_hash executed) d).2) as Hs
    by (apply (session_moves same_lines), finalize_lines).
  by destruct (write_session _ d) as [[|[]] ?].
Qed.
End Lines.

(** ** Transactions that leave every state alone *)

(** The state of a reservation. *)
Definition state_at (k : string) (d : FundingDb) : pyval := dict_get (fetched k d) "state".

(** From a well-formed ledger: nothing is spent and no reservation moves. *)
Definition quiet (d d' : FundingDb) : Prop :=
  well_formed d → well_formed d' ∧ same_lines d d' ∧ ∀ k, state_at k d' = state_at k d.
#[export] Instance quiet_po : PreOrder quiet.
Proof.
  split; [by intros d Hd|]. intros d d1 d2 H1 H2 Hd.
  destruct (H1 Hd) as (Hd1 & Hl1 & Hs1), (H2 Hd1) as (Hd2 & Hl2 & Hs2).
  split_and!; [done|by etrans|]. intros k. by rewrite Hs2.
Qed.

Definition QUIET_FIELDS : list string := "state" :: ENTRY_FIELDS.

Lemma quiet_entry p q : same_on QUIET_FIELDS p q → same_entry p q.
Proof. intros Hpq f Hf. apply Hpq. by right. Qed.
Lemma quiet_stage p q : same_on QUIET_FIELDS p q → same_on ["authorization_rail"] p q →
  same_on STAGE_FIELDS p q.
Proof.
  intros Hpq Hr f Hf. unfold STAGE_FIELDS in Hf. list_cases; subst; [apply Hr|apply Hpq..];
    unfold QUIET_FIELDS, ENTRY_FIELDS; list_member.
Qed.

Lemma written_fetched k payload identity d r d' f :
  written k payload identity d r d' → f ∉ ["tx_hash"; LEGACY_EXTERNAL_PAYMENT_FIELD; LEGACY_SIGNED_TRANSACTION_FIELD] →
  dict_get (fetched k d') f = dict_get payload f.
Proof.
  intros Hw Hf. unfold fetched, get. rewrite (wr_records _ _ _ _ _ _ Hw), lookup_insert_eq. simpl.
  unfold visible_payload. rewrite bool_decide_eq_true_2 by apply Hw.
  assert (∀ p, dict_get (redact_external_payment_payload p) f = dict_get p f) as Hredact.
  { intros p. unfold redact_external_payment_payload. rewrite !dict_get_pop, !decide_False; [done|..];
      intros ->; apply Hf; list_member. }
  rewrite Hredact, (written_get _ _ _ _ _ _ _ Hw), Hredact; [done|]. intros ->. apply Hf. by left.
Qed.

(** Writing back a row with edits outside its entry, its rail and its state. *)
Lemma row_quiet clock k row row' tx d p d' :
  get k d = Some row → same_on QUIET_FIELDS row row' → same_on ["authorization_rail"] row row' →
  put_reservation clock row' tx d = Ok (p, d') → quiet d d'.
Proof.
  intros Hk Hq Hr Hp Hd. split_and!.
  - eapply effect_wf; [|done].
    eapply row_touch; [done|exact Hk|by apply quiet_entry|by apply quiet_stage|exact Hp].
  - by eapply put_reservation_lines.
  - apply put_reservation_Ok in Hp as (k' & r & i & Hk' & Hw & _).
    pose proof (quiet_entry _ _ Hq) as He.
    assert (k' = k) as ->.
    { rewrite (same_entry_id _ _ He) in Hk'.
      destruct (get_entry d k row Hd Hk) as (? & u & _ & _ & _ & _ & Hent); [by rewrite Hk'|].
      apply entry_of_Some in Hent as (Hid & _). simpl in Hid. congruence. }
    intros j. unfold state_at. destruct (decide (j = k)) as [->|Hj].
    + rewrite (written_fetched _ _ _ _ _ _ _ Hw) by decided.
      rewrite (same_on_get _ _ _ _ Hq) by (unfold QUIET_FIELDS; list_member).
      unfold fetched. by rewrite Hk.
    + unfold fetched, get. by rewrite (wr_records _ _ _ _ _ _ Hw), lookup_insert_ne.
Qed.

Section Quiet.
Context `{Sha256} `{HmacSha256} `{KeccakHex} `{Keccak} `{Checksum}.
Context (config : FundingConfig) (chain : ChainConfig) (clock : Z).

Ltac quiet_write Hp := eapply row_quiet; [eassumption| | |exact Hp]; same_fields.

Lemma pending_quiet row error manual : moves_by quiet (pending clock row error manual).
Proof.
  intros d. apply (on_pending_related quiet); [apply _|]. intros k current p d' Hk _ _ Hf.
  apply txn_bind_Ok in Hf as (? & ? & Hp & [_ ->]%mret_Ok).
  eapply row_quiet; [exact Hk| | |exact Hp]; unfold manual_review_reservation; same_fields.
Qed.

Lemma send_quiet row controls sent :
  moves_by quiet (send_native_raw_transaction clock row controls sent).
Proof.
  intros d. unfold send_native_raw_transaction.
  match goal with |- quiet d (match write_session ?b d with _ => _ end).2 =>
    assert (quiet d (write_session b d).2) as Hs end.
  { match goal with |- context [write_session ?b d] =>
      destruct (write_session_snd b d) as [->|(p & Hf)] end; [done|].
    set (d' := (write_session _ d).2) in *. clearbody d'.
    apply txn_bind_Ok in Hf as (v & ? & [_ ->]%lifts_Ok & Hf).
    apply txn_bind_Ok in Hf as (? & ? & [-> ->]%reads_Ok & Hf).
    apply txn_bind_Ok in Hf as (? & ? & (Hs & _ & ->)%requires_Ok & Hf).
    apply same_pending_state in Hs as (q & Hk & _). rewrite Hk in Hf.
    change (default [] (Some q)) with q in Hf.
    apply txn_bind_Ok in Hf as (? & ? & [_ ->]%lifts_Ok & Hf).
    apply txn_bind_Ok in Hf as (? & ? & (_ & _ & ->)%requires_Ok & Hf).
    destruct controls.
    - by apply txn_bind_Ok in Hf as (? & ? & [_ ->]%lifts_Ok & [_ ->]%mret_Ok).
    - apply txn_bind_Ok in Hf as (? & ? & Hp & [_ ->]%mret_Ok).
      apply txn_bind_Ok in Hp as (? & ? & [_ ->]%lifts_Ok & Hp).
      apply txn_bind_Ok in Hp as (? & ? & Hp & [_ ->]%mret_Ok).
      eapply row_quiet; [exact Hk| | |exact Hp]; unfold manual_review_reservation; same_fields. }
  by destruct (write_session _ d) as [[[]|] ?].
Qed.

(** Taking up a pending payment: the row a reconciliation continues with names
    the stored reservation. *)
Lemma reconcile_txn_quiet attempts age operator k d route d' :
  reconcile_txn config clock attempts age operator k d = Ok (route, d') →
  quiet d d' ∧ (well_formed d → ∀ row, route = Proceed row → dict_get row "reservation_id" = PStr k).
Proof.
  intros Hf. unfold reconcile_txn in Hf.
  apply txn_bind_Ok in Hf as (row & ? & [-> Hk]%required_row_Ok & Hf).
  apply txn_bind_Ok in Hf as (? & ? & [Hc ->]%lifts_Ok & Hf).
  apply txn_bind_Ok in Hf as (b & ? & [_ ->]%lifts_Ok & Hf).
  destruct b; [by apply mret_Ok in Hf as [-> ->]|].
  apply txn_bind_Ok in Hf as (b & ? & [_ ->]%lifts_Ok & Hf). destruct b.
  { destruct (is_text _ "settled"); [by apply mret_Ok in Hf as [-> ->]|].
    apply txn_bind_Ok in Hf as (? & ? & Hp & [-> ->]%mret_Ok). split; [quiet_write Hp|done]. }
  destruct (is_text _ "proxy_authorization_ready"); [by apply mret_Ok in Hf as [-> ->]|].
  destruct (is_text _ "spending_reserved").
  { destruct (forbids_replacement row); [by apply mret_Ok in Hf as [-> ->]|].
    apply txn_bind_Ok in Hf as (? & ? & Hp & [-> ->]%mret_Ok). split; [quiet_write Hp|done]. }
  apply txn_bind_Ok in Hf as (? & ? & (_ & _ & ->)%requires_Ok & Hf). unfold reconcile_pending in Hf.
  destruct (_ && negb operator); [by apply mret_Ok in Hf as [-> ->]|].
  apply txn_bind_Ok in Hf as (limit & ? & [_ ->]%lifts_Ok & Hf). destruct limit.
  { apply txn_bind_Ok in Hf as (? & ? & Hp & [-> ->]%mret_Ok).
    split; [unfold manual_review_reservation in Hp; quiet_write Hp|done]. }
  apply txn_bind_Ok in Hf as (updated & ? & [Hu ->]%lifts_Ok & Hf).
  apply txn_bind_Ok in Hf as (? & ? & Hp & [-> ->]%mret_Ok).
  assert (forallb (λ kv : string * pyval, bool_decide (kv.1 ∉ "authorization_rail" :: QUIET_FIELDS))
            updated = true) as Hfields.
  { destruct operator; apply result_bind_Ok in Hu as (n & _ & [= <-]); reflexivity. }
  assert (same_on ("authorization_rail" :: QUIET_FIELDS) row (dict_update row updated)) as Hsame
    by (by apply same_on_update; [|apply same_on_refl]).
  split.
  - eapply row_quiet; [exact Hk| | |exact Hp]; intros f Hin; apply Hsame; [by right|].
    list_cases. subst. left.
  - intros Hd row' [= <-]. rewrite (same_on_get _ _ _ _ Hsame) by
      (unfold QUIET_FIELDS, ENTRY_FIELDS; list_member).
    apply result_bind_Ok in Hc as (? & Hun & _).
    destruct (unified_entry d k row _ Hd Hk Hun) as (u & (Hid & _)%entry_of_Some). done.
Qed.
End Quiet.
