(* ===== verification/PaymentVerdicts.v ===== *)
(** * Verdicts and their evidence

    A verdict to complete a payment, or to give it up, rests on what the chain
    shows; a reconciliation moves a reservation only by such a verdict. *)

From S2P Require Import Prelude PyValue Calendar Reservation Amounts LedgerTables LedgerStore.
From S2P Require Import Budget LedgerEvidence FundingService Assets Receipts Submission.
From S2P Require Import ProxyPayment Evm ChainEvidence Settlement.
From S2P Require Import LedgerFacts FundingMachine BudgetFacts FundingEffects FundingRefinement.
From S2P Require Import SubmissionEffects FundingCommands ChainFacts PaymentEvidence SettlementEffects.
From S2P Require Import SettlementFacts.

Open Scope string_scope.
Open Scope Z_scope.

(** What justifies a verdict. *)
Definition justified (chain : ChainConfig) (node : Transport) (row : pydict) (d : FundingDb)
    (v : Verdict) : Prop :=
  match v with
  | VPending _ _ => True
  | VReverted => reverted_on_chain chain node row
  | VComplete => paid_on_chain chain node row d
  end.

Section Verdicts.
Context `{Keccak} `{Checksum} (chain : ChainConfig) (w : World).

Lemma confirmations_item row receipt n b :
  (network ← dict_item row "network"; receipt_has_confirmations chain n 2 receipt network) = Ok b →
  receipt_has_confirmations chain n 2 receipt (dict_get row "network") = Ok b.
Proof. intros Hc. by apply result_bind_Ok in Hc as (? & ->%dict_item_get & Hc). Qed.

Lemma native_verdict_justified row operator d v :
  native_verdict chain w row (dict_get row "tx_hash") operator d = Ok (inl v) →
  justified chain (sw_node w) row d v.
Proof.
  unfold native_verdict. intros Hv.
  apply result_bind_Ok in Hv as (r & Hr & Hv).
  apply result_bind_Ok in Hv as (t & Ht & Hv).
  assert (∀ u, lost_verdict chain w row = Ok (inl u) → justified chain (sw_node w) row d u) as Hlost.
  { intros u. unfold lost_verdict. destruct (_ || _); [by intros [= <-]|].
    destruct (reconstruct_native_transaction _ _ _) as [|e]; [done|].
    destruct (is_value_error e); [by intros [= <-]|done]. }
  destruct r as [| | | | |receipt]; try (destruct t; try (by injection Hv as <-); by apply Hlost).
  destruct (mined_verdict chain w row receipt t operator d) as [u|] eqn:Hm; [|done].
  injection Hv as <-. unfold mined_verdict in Hm.
  apply result_bind_Ok in Hm as (error & He & Hm). destruct error; [by injection Hm as <-|].
  apply native_evidence_sound in He as (chain_tx & -> & Htoken & Htr & Hsent & Hash).
  destruct (network ← _; _) as [b|] eqn:Hc; [|by injection Hm as <-].
  apply confirmations_item in Hc. destruct b; [|by injection Hm as <-].
  destruct (status_failed _) eqn:Hf; [injection Hm as <-|];
    [|destruct (status_succeeded _) eqn:Hs; [injection Hm as <-|by injection Hm as <-]];
    exists receipt, chain_tx; split_and!; try done; by left.
Qed.

Lemma external_verdict_justified row operator d v :
  external_verdict chain w row (dict_get row "tx_hash") operator d = Ok v →
  justified chain (sw_node w) row d v.
Proof.
  unfold external_verdict. intros Hv.
  destruct (transaction_receipt _ _ _ _) as [r|] eqn:Hr; [|by injection Hv as <-].
  destruct r as [| | | | |receipt]; try (by injection Hv as <-).
  destruct (transaction_details _ _ _ _) as [t|] eqn:Ht; [|by injection Hv as <-].
  destruct t as [| | | | |chain_tx]; try (by injection Hv as <-).
  unfold external_mined_verdict in Hv.
  destruct (external_identity _ _ _) as [b|e] eqn:Hid;
    [|destruct (is_value_error e); [by injection Hv as <-|done]].
  destruct b; [|by injection Hv as <-]. unfold external_identity, hash_is in Hid.
  apply result_bind_Ok in Hid as (b & Hh & Hid). apply result_bind_Ok in Hh as (h & Hh & [= <-]).
  apply result_bind_Ok in Hid as (b & Hh' & Hid). apply result_bind_Ok in Hh' as (h' & Hh' & [= <-]).
  injection Hid as Hid. apply andb_true_iff in Hid as [H1%is_text_eq H2%is_text_eq].
  assert (h' = h) as -> by congruence.
  destruct (network ← _; _) as [b|] eqn:Hc; [|by injection Hv as <-].
  apply confirmations_item in Hc. destruct b; [|by injection Hv as <-].
  assert (mined chain (sw_node w) row receipt chain_tx) as Hm.
  { constructor; try done. exists h. rewrite H1. split_and!; [by eapply canonical_hash_idem|done..]. }
  destruct (status_failed _) eqn:Hf; [injection Hv as <-; by exists receipt, chain_tx|].
  destruct (status_succeeded _) eqn:Hs; [|by injection Hv as <-]. cbn [negb] in Hv.
  unfold external_success in Hv.
  destruct (token_address ← _; _) as [b|e] eqn:Htok;
    [|destruct (is_value_error e); [by injection Hv as <-|done]].
  apply result_bind_Ok in Htok as (token & Htoken & Htok).
  apply result_bind_Ok in Htok as (target & Hto & [= <-]).
  case_bool_decide; [|by injection Hv as <-]. subst.
  apply result_bind_Ok in Hv as (error & He & Hv). destruct error; [by injection Hv as <-|].
  injection Hv as <-. exists receipt, chain_tx. split_and!; [done|done|by eexists|].
  right. by eapply external_calldata_sound.
Qed.
End Verdicts.

(** ** Reconciling *)

Section Reconciling.
Context `{Sha256} `{HmacSha256} `{KeccakHex} `{Keccak} `{Checksum}.
Context (config : FundingConfig) (chain : ChainConfig) (clock : Z).
Context (Hclock : representable clock).

Abbreviation history := (rtc (call config)).

(** A reconciliation of [k] from [d] ends in [d']: nothing moved, or the stored
    row shows evidence and, when the payment failed, nothing was spent. *)
Definition decided_by_chain (w : World) (k : string) (d d' : FundingDb) : Prop :=
  quiet d d' ∨
  ∃ d1 row, history d d1 ∧ history d1 d' ∧ quiet d d1 ∧ get k d1 = Some row ∧
    (paid_on_chain chain (sw_node w) row d1 ∨
     reverted_on_chain chain (sw_node w) row ∧ same_lines d1 d').

Section World.
Context (w : World) (Hdraw : ∀ d, fd_records d !! sw_draw w d = None).

(** A call that is quiet, whatever it answers. *)
Lemma rebroadcast_quiet row tx_hash raw :
  moves_by quiet (rebroadcast_native chain clock w row tx_hash raw).
Proof.
  unfold rebroadcast_native, get_reservation.
  apply bind_moves; [apply _| |intros [submitted|e]].
  - apply recover_moves; [apply _| |intros e; apply ret_moves; apply _].
    apply bind_moves; [apply _| |intros s; apply ret_moves; apply _].
    intros d. apply send_quiet.
  - case_match; apply pending_quiet.
  - destruct e; try apply pending_quiet.
    apply bind_moves; [apply _|apply answers_moves; apply _|intros v; apply answers_moves; apply _].
Qed.

(** The row under review is the stored one. *)
Lemma under_review_Ok row d row' tx_hash d' :
  payment_under_review config row d = (Ok (row', tx_hash), d') →
  d' = d ∧ tx_hash = dict_get row' "tx_hash" ∧
  ∀ k, dict_get row "reservation_id" = PStr k → get k d = Some row'.
Proof.
  unfold payment_under_review, answers. intros [= Hr ->].
  apply result_bind_Ok in Hr as (r & Ha & Hr). apply result_bind_Ok in Hr as (? & _ & Hr).
  apply result_bind_Ok in Hr as (v & Hv%dict_item_get & Hr). injection Hr as <- <-.
  split_and!; [done|done|]. intros k Hk. unfold authoritative_reservation in Ha.
  apply result_bind_Ok in Ha as (? & _ & Ha).
  apply result_bind_Ok in Ha as (i & Hi%dict_item_get & Ha).
  apply result_bind_Ok in Ha as (c & Hc%from_option_or_Ok & Ha).
  do 3 (apply result_bind_Ok in Ha as (? & _ & Ha)). injection Ha as <-.
  rewrite Hk in Hi. subst i. done.
Qed.

(** What a rail's reconciliation does from the ledger it reads. *)
Definition rail_decided (k : string) (d d' : FundingDb) : Prop :=
  quiet d d' ∨
  ∃ row, get k d = Some row ∧
    (paid_on_chain chain (sw_node w) row d ∨
     reverted_on_chain chain (sw_node w) row ∧ same_lines d d').

Lemma native_decided k row operator d :
  dict_get row "reservation_id" = PStr k →
  rail_decided k d (reconcile_native_reservation config chain clock w row operator d).2.
Proof.
  intros Hk. unfold reconcile_native_reservation, mbind, service_bind.
  destruct (payment_under_review config row d) as [[[row' tx_hash]|e] d0] eqn:Hr;
    [|left; unfold payment_under_review, answers in Hr; by injection Hr as _ <-].
  apply under_review_Ok in Hr as (-> & -> & Hget). specialize (Hget k Hk).
  set (handler := λ e, pending clock row' _ operator).
  unfold recover at 1. simpl.
  destruct (native_verdict chain w row' _ operator d) as [[v|raw]|e] eqn:Hv;
    [|left; by apply (recover_moves quiet _ handler (rebroadcast_quiet _ _ _)); intros e; apply pending_quiet
     |left; apply pending_quiet].
  apply native_verdict_justified in Hv. destruct v as [error manual| |].
  - left. apply (recover_moves quiet (pending clock row' error manual) handler);
      [apply pending_quiet|intros e; apply pending_quiet].
  - right. exists row'. split; [done|]. right. split; [done|].
    apply (recover_moves same_lines (retryable_reservation clock row' _ _ _ _) handler);
      [apply retry_lines|intros e; apply pending_lines].
  - right. exists row'. split; [done|]. by left.
Qed.

Lemma external_decided k row operator d :
  dict_get row "reservation_id" = PStr k →
  rail_decided k d (reconcile_external_reservation config chain clock w row operator d).2.
Proof.
  intros Hk. unfold reconcile_external_reservation, mbind, service_bind.
  destruct (payment_under_review config row d) as [[[row' tx_hash]|e] d0] eqn:Hr;
    [|left; unfold payment_under_review, answers in Hr; by injection Hr as _ <-].
  apply under_review_Ok in Hr as (-> & -> & Hget). specialize (Hget k Hk).
  unfold answers. destruct (external_verdict chain w row' _ operator d) as [v|e] eqn:Hv; [|by left].
  apply external_verdict_justified in Hv. destruct v as [error manual| |].
  - left. apply pending_quiet.
  - right. exists row'. split; [done|]. right. split; [done|]. apply external_reverted_lines.
  - right. exists row'. split; [done|]. by left.
Qed.

Lemma reconcile_payment_decided k operator d :
  well_formed d →
  decided_by_chain w k d (reconcile_payment config chain clock w k operator d).2.
Proof.
  intros Hd. unfold reconcile_payment, mbind, service_bind, runs.
  set (attempts := fc_reconciliation_max_attempts config).
  set (age := fc_reconciliation_max_age_seconds config).
  assert (history d (reconcile_reservation config clock attempts age operator k d).2) as Hh
    by (apply rtc_once; by exists clock, (CReconcile k operator)).
  unfold reconcile_reservation, write_session in *.
  destruct (reconcile_txn config clock attempts age operator k d) as [[route d1]|e] eqn:Ht;
    [|by left]. cbn [fst snd] in *.
  apply reconcile_txn_quiet in Ht as [Hq Hk]. specialize (Hk Hd).
  destruct route as [row| |row]; [by left..|]. specialize (Hk row eq_refl).
  unfold answers at 1.
  destruct (in_set (dict_get row "settlement_rail") (strs NATIVE_RAILS)) as [native|e];
    [|left; exact Hq].
  assert (∀ m : service FundingDb (option pydict), moves_by history m →
    rail_decided k d1 (m d1).2 → decided_by_chain w k d (m d1).2) as Hlift.
  { intros m Hm [Hq'|(row' & Hg & He)]; [left; by etrans|].
    right. exists d1, row'. by split_and!; [|apply Hm|..]. }
  destruct native; [|destruct (py_in (dict_get row "settlement_rail") (strs EXTERNAL_RAILS))].
  - apply (Hlift (reconcile_native_reservation config chain clock w row operator));
      [by apply reconcile_native_moves|by apply native_decided].
  - apply (Hlift (reconcile_external_reservation config chain clock w row operator));
      [by apply reconcile_external_moves|by apply external_decided].
  - left. etrans; [exact Hq|apply pending_quiet].
Qed.
End World.

(** ** Spending

    The lines of the book stay, or the reconciliation of [k] on the way found
    the payment on the chain. *)
Definition evidenced (w : World) (k : string) (d d' : FundingDb) : Prop :=
  history d d' ∧
  (well_formed d → same_lines d d' ∨
   ∃ n d1 row, history d d1 ∧ history d1 d' ∧ same_lines d d1 ∧ get k d1 = Some row ∧
     paid_on_chain chain (sw_node (later n w)) row d1).

Lemma history_wf d d' : history d d' → well_formed d → well_formed d'.
Proof.
  intros Hh Hd. apply (calls_induction config well_formed d d'); try done.
  intros d1 d2 _ Hb He. by eapply effect_wf.
Qed.

#[local] Instance evidenced_po w k : PreOrder (evidenced w k).
Proof.
  split; [by split; [|left]|]. intros d d1 d2 [Ha E1] [Hb E2]. split; [by etrans|]. intros Hd.
  destruct (E1 Hd) as [L1|(n & d0 & row & ? & ? & ? & ? & ?)];
    [|right; exists n, d0, row; split_and!; try done; by etrans].
  destruct (E2 (history_wf _ _ Ha Hd)) as [L2|(n & d0 & row & ? & ? & ? & ? & ?)];
    [left; by etrans|].
  right. exists n, d0, row. split_and!; try done; by etrans.
Qed.

Section Spending.
Context (w : World) (k : string) (Hdraw : ∀ d, fd_records d !! sw_draw w d = None).

Lemma lines_evidenced {A} (m : service FundingDb A) :
  moves_by history m → moves_by same_lines m → moves_by (evidenced w k) m.
Proof. intros Hh Hl d. split; [apply Hh|]. left. apply Hl. Qed.

Lemma reconcile_evidenced n operator :
  moves_by (evidenced w k) (reconcile_payment config chain clock (later n w) k operator).
Proof.
  intros d. split; [by apply reconcile_payment_moves|]. intros Hd.
  destruct (reconcile_payment_decided (later n w) Hdraw k operator d Hd)
    as [Hq|(d1 & row & Hh & Hh' & Hq & Hk & [Hp|[_ Hl]])].
  - left. by apply Hq.
  - right. exists n, d1, row. split_and!; try done. by apply Hq.
  - left. etrans; [by apply Hq|done].
Qed.

Lemma follow_up_evidenced row prepared :
  moves_by (evidenced w k) (follow_up config chain clock w k row prepared).
Proof.
  pose proof (reconcile_evidenced 5 false) as Hr.
  assert (∀ row, moves_by (evidenced w k) (authorize_broadcast clock w row)) as Ha.
  { intros r. apply lines_evidenced; [by apply authorize_moves|]. unfold authorize_broadcast.
    program; [apply authorize_lines|apply block_lines]. }
  assert (∀ n row raw, moves_by (evidenced w k) (send_native chain clock w n row raw)) as Hs.
  { intros n r raw. apply lines_evidenced; [by apply send_native_moves|]. intros d. apply send_lines. }
  unfold follow_up, broadcast_native, reconcile_afterwards. program.
  all: apply lines_evidenced; unfold runs.
  all: try (intros d; first [apply save_error_lines|apply retry_lines]).
  all: apply (command_moves config clock Hclock); intros d;
    first [eexists (CSaveError _ _ _); by split|eexists (CRetry _ _ _ _ _); by split].
Qed.

Lemma settle_evidenced hash :
  moves_by (evidenced w k) (settle_payment config chain clock w k hash).
Proof.
  pose proof (reconcile_evidenced 5 false) as Hr. pose proof follow_up_evidenced as Hf.
  unfold settle_payment, reconcile_afterwards. program. apply lines_evidenced.
  - by apply submit_moves.
  - apply submit_native_lines.
Qed.

Lemma finalize_evidenced proxy transaction_hash proof :
  moves_by (evidenced w k) (finalize_payment config chain clock w proxy k transaction_hash proof).
Proof.
  pose proof (reconcile_evidenced 5 false) as Hr.
  unfold finalize_payment, reconcile_afterwards. program. apply lines_evidenced.
  - apply (command_moves config clock Hclock). intros d. eexists (CSubmitExternal _ _ _ _ _ _). by split.
  - intros d. apply submit_external_lines.
Qed.
End Spending.

Lemma payment_evidenced w c :
  (∀ d, fd_records d !! sw_draw w d = None) →
  moves_by (evidenced w (paid_reservation c)) (run_payment config chain clock w c).
Proof.
  intros Hdraw. destruct c as [k hash|k operator|proxy k transaction_hash proof]; simpl.
  - by apply settle_evidenced.
  - intros d. pose proof (reconcile_evidenced w k Hdraw 0 operator d) as Hr.
    destruct w. exact Hr.
  - by apply finalize_evidenced.
Qed.
End Reconciling.
