(* ===== verification/PaymentProperties.v ===== *)
(** * Properties of the payment calls

    What settling, reconciling and finalizing promise, whatever the chain, the
    signer and the policy service answer. *)

From S2P Require Import Prelude PyValue Calendar Reservation Amounts LedgerTables LedgerStore.
From S2P Require Import Budget LedgerEvidence FundingService Assets Receipts Submission.
From S2P Require Import ProxyPayment Evm ChainEvidence Settlement.
From S2P Require Import LedgerFacts FundingMachine BudgetFacts FundingEffects FundingRefinement.
From S2P Require Import SubmissionEffects FundingCommands ChainFacts PaymentEvidence SettlementEffects.
From S2P Require Import SettlementFacts PaymentVerdicts.
From Stdlib Require Import Ascii Strings.Byte.

Open Scope string_scope.
Open Scope Z_scope.

Section Payments.
Context `{Sha256} `{HmacSha256} `{KeccakHex} `{Keccak} `{Checksum}.
Context (config : FundingConfig) (chain : ChainConfig).

(** C6: Settling, reconciling and finalizing a payment move the ledger by a
    history of the ledger's own transactions, whatever the node, the relayer's
    account and the policy service answer and wherever a step raises: so every
    property of reachable ledgers holds after them, and the ledger they leave is
    reachable again. *)
Theorem payment_calls_refine_transactions clock w c d :
  reachable_ledger config d → representable clock →
  (∀ d, fd_records d !! sw_draw w d = None) →
  rtc (call config) d (run_payment config chain clock w c d).2 ∧
  reachable_ledger config (run_payment config chain clock w c d).2.
Proof.
  intros (d0 & Hfresh & Hr) Hclock Hdraw.
  destruct (payment_evidenced config chain clock Hclock w c Hdraw d) as [Hh _].
  split; [done|]. exists d0. split; [done|]. by etrans.
Qed.

(** C4: A payment call changes the spending records of the ledger only if, on the
    way, the node reported for the stored reservation a mined transaction of the
    reserved hash, confirmed deeply enough and successful, that calls the
    reserved token and whose calldata is, byte for byte, the transfer of the
    reserved amount from the user's wallet (sent by the relayer with the reserved
    nonce) or the payer's signed authorization with the reserved challenge. *)
Theorem budget_spent_on_evidence clock w c d :
  reachable_ledger config d → representable clock →
  (∀ d, fd_records d !! sw_draw w d = None) →
  fd_rolling (run_payment config chain clock w c d).2 ≠ fd_rolling d →
  ∃ n d1 row,
    rtc (call config) d d1 ∧ rtc (call config) d1 (run_payment config chain clock w c d).2 ∧
    fd_rolling d1 = fd_rolling d ∧ get (paid_reservation c) d1 = Some row ∧
    paid_on_chain chain (sw_node (later n w)) row d1.
Proof.
  intros Hd%reachable_wf Hclock Hdraw Hne.
  destruct (payment_evidenced config chain clock Hclock w c Hdraw d) as [_ He].
  destruct (He Hd) as [|(n & d1 & row & Hr)]; [done|]. by exists n, d1, row.
Qed.

(** C5: A reconciliation moves a reservation from its state only on the word of the
    chain: either no reservation changes state and nothing is spent, or the
    stored reservation has a confirmed transaction of its hash, and it is a
    success that pays it, or a failure after which nothing was spent. *)
Theorem reconciliation_follows_chain clock w k operator d :
  reachable_ledger config d → representable clock →
  (∀ d, fd_records d !! sw_draw w d = None) →
  let d' := (reconcile_payment config chain clock w k operator d).2 in
  fd_rolling d' = fd_rolling d ∧ (∀ k', state_at k' d' = state_at k' d) ∨
  ∃ d1 row, get k d1 = Some row ∧ fd_rolling d1 = fd_rolling d ∧
    (∀ k', state_at k' d1 = state_at k' d) ∧
    (paid_on_chain chain (sw_node w) row d1 ∨
     reverted_on_chain chain (sw_node w) row ∧ fd_rolling d' = fd_rolling d).
Proof.
  intros Hd%reachable_wf Hclock Hdraw d'.
  destruct (reconcile_payment_decided config chain clock Hclock w Hdraw k operator d Hd)
    as [Hq|(d1 & row & _ & _ & Hq & Hk & He)].
  - left. by apply Hq.
  - right. destruct (Hq Hd) as (_ & Hl & Hs). exists d1, row. split_and!; [done..|].
    destruct He as [Hp|[Hr Hl']]; [by left|right]. split; [done|]. by etrans.
Qed.
End Payments.

(** A JSON-RPC quantity has exactly one text: the reader accepts a value for an
    integer exactly when it is the string [hex] writes for it, so leading
    zeros, capitals, signs, booleans and numbers are refused. *)
Theorem rpc_quantity_canonical v field n :
  parse_rpc_quantity v field = Ok n ↔ 0 <= n ∧ v = PStr (py_hex n).
Proof. split; [apply quantity_text|]. intros [Hn ->]. by apply parse_quantity. Qed.

(** C17: A native payment that was built is recognised when it is mined: with the
    ABI's selector, a 32-byte hash function and a checksum that only changes the
    case of an address, the transaction the relayer signed for a reservation,
    echoed by the node with its receipt, passes every check of the settlement
    evidence. *)
Theorem built_payment_recognised `{Sha256} `{KeccakHex} `{Keccak} `{Checksum} chain clock node
    relayer authorization current nonce prepared k hash d receipt chain_tx owner amount :
  take 4 (keccak (String.list_byte_of_string "transferFrom(address,address,uint256)"))
    = TRANSFER_FROM_SELECTOR →
  (∀ bs, length (keccak bs) = 32%nat) →
  (∀ a, canonical_evm_address (PStr a) = Ok a →
     canonical_evm_address (PStr (to_checksum_address a)) = Ok a) →
  build_native_transaction chain node relayer authorization current nonce = Ok prepared →
  0 <= nonce →
  let row := native_submitted clock current k hash prepared in
  reservation_authorization row d = Ok authorization →
  canonical_evm_address (PStr (sa_wallet_address authorization)) = Ok owner →
  py_int (dict_get row "amount_atomic") = Ok amount → amount < 2 ^ 256 →
  dict_get receipt "transactionHash" = PStr (pt_tx_hash prepared) →
  dict_get chain_tx "hash" = PStr (pt_tx_hash prepared) →
  dict_get chain_tx "from" = PStr (pt_relayer prepared) →
  dict_get chain_tx "to" = dict_get (pt_transaction prepared) "to" →
  dict_get chain_tx "nonce" = PStr (py_hex nonce) →
  dict_get chain_tx "input" = dict_get (pt_transaction prepared) "data" →
  validate_native_settlement_evidence row receipt (PDict chain_tx) d = Ok None.
Proof.
  intros Hsel Hlen Hck Hb Hnonce row Hauth Hw Ham Hmax Hrh Hch Hfrom Hto Hcn Hin.
  destruct (build_Ok _ _ _ _ _ _ _ Hb) as (token & decimals & destination & persisted & atomic &
    calldata & target & raw & Hscope & Hp & Hn & Hdest & Hdata & Hrel & Htarget & Hpn & Htx & Hpd &
    Hhash).
  destruct (submitted_fields clock current k hash prepared) as (Ft & Fs & Fn & Ftx).
  fold row in Ft, Fs, Fn, Ftx. rewrite Hpd in Hin. rewrite Htx in Hto. rewrite Hpn in Fn.
  pose proof (submitted_destination clock current k hash prepared _ _ _ Hrel Hdest) as Hd'.
  fold row in Hd'.
  pose proof (token_scope_target row d _ _ _ _ Hck Hauth Hscope Htarget) as Htok.
  destruct (canonical_address_Ok _ _ Hw) as (? & o & _ & Ho & -> & _).
  destruct (canonical_address_Ok _ _ Hrel) as (? & r & _ & Hr & Hrt & _).
  destruct (canonical_address_Ok _ _ Htarget) as (? & g & _ & Hg & Hgt & _).
  destruct (destination_text _ _ _ Hdest) as (t & Ht & ->).
  destruct (authorization_metadata _ _ _ "amount_atomic" Hauth ltac:(decided)) as [Hm _].
  assert (dict_find row "amount_atomic" = Some (PStr persisted)) as Hamount.
  { rewrite <- Hm. unfold dict_get in Hp. destruct (dict_find _ _); [by simpl in Hp; subst|done]. }
  assert (atomic = amount) as -> by (unfold dict_get in Ham; rewrite Hamount in Ham; simpl in *; congruence).
  destruct (transfer_calldata_bytes _ _ _ _ _ _ Hsel Hw eq_refl Ht Hmax Hdata) as (Hpos & _ & Hx & Hbytes).
  unfold validate_native_settlement_evidence.
  rewrite (identity_complete row receipt chain_tx (pt_tx_hash prepared) (pt_relayer prepared) target
             nonce); try done.
  - cbn [catching mbind result_bind]. rewrite bool_decide_eq_true_2 by done. cbn [negb].
    unfold dict_item at 1. rewrite Fn. cbn [from_option_or mbind result_bind py_int].
    rewrite Z.eqb_refl, bool_decide_eq_true_2 by done. cbn [negb].
    apply (transfer_evidence_complete row chain_tx (pt_transaction prepared) calldata d o t amount
             authorization (PStr (pt_relayer prepared))); try done.
    unfold dict_item. by rewrite Hamount.
  - rewrite Hhash. by apply canonical_hash_text.
  - rewrite Hrt. by apply canonical_address_text.
  - rewrite Hgt. by apply canonical_address_text.
Qed.
