(* ===== verification/FundingScenario.v ===== *)
(** * A concrete run of the funding ledger

    Two purchases of one grant: the first is reserved, submitted, settled and
    finalized; the second, a single-submission payment, is reserved, submitted,
    fails and is released.  The witnesses of the properties evaluate on it. *)

From S2P Require Import Prelude PyValue Calendar Reservation Amounts LedgerTables LedgerStore.
From S2P Require Import Budget LedgerEvidence FundingService Assets Receipts Submission ProxyPayment.
From S2P Require Import FundingMachine FundingEffects FundingRefinement FundingCommands.
From Stdlib Require Import Ascii.

Open Scope string_scope.
Open Scope Z_scope.

Module FundingDemo.

Fixpoint repeated (c : ascii) (n : nat) : string :=
  match n with O => EmptyString | S n' => String c (repeated c n') end.
Definition hash_of (c : ascii) : string := "0x" +:+ repeated c 64.
Definition address_of (c : ascii) : string := "0x" +:+ repeated c 40.

(** Stand-ins for the hash functions, of the right output length. *)
#[export] Instance demo_sha256 : Sha256 := λ _, repeated "a" 64.
#[export] Instance demo_hmac : HmacSha256 := λ _ _, repeated "b" 64.
#[export] Instance demo_keccak : KeccakHex := λ _, repeated "c" 64.

Definition start : Z := 1700000000 * us_per_second.
Definition relayer : string := address_of "d".

Definition config : FundingConfig := {|
  fc_receipt_signing_key := repeated "k" 40;
  fc_internal_api_token := "token";
  fc_assets := [(POLYGON_NETWORK, MkAsset POLYGON_NETWORK POLYGON_USDC_ADDRESS "USDC" 6)];
  fc_reconciliation_max_attempts := 5;
  fc_reconciliation_max_age_seconds := 3600;
  fc_x402_payment_token_name := "USD Coin";
  fc_x402_payment_token_version := "2" |}.

Definition wallet : WalletIdentityRow :=
  MkIdentity "wallet" "user" "evm" (address_of "a") "active" "siwe" (hash_of "1") (Some 0) 0 0.

(** 100 USDC in all, 50 a day, 20 an hour and 10 a payment. *)
Definition grant : SpendingGrantRow := {|
  sg_spending_grant_id := "grant"; sg_wallet_identity_id := "wallet"; sg_user_id := "user";
  sg_agent_id := "agent"; sg_status := "active"; sg_status_reason := None;
  sg_max_amount_usdc := 100000000; sg_per_transaction_limit_usdc := 10000000;
  sg_hourly_limit_usdc := 20000000; sg_daily_limit_usdc := 50000000;
  sg_used_amount_usdc := 0; sg_reserved_amount_usdc := 0;
  sg_product_scopes := ["marketplace"; "prediction_markets"]; sg_venue_scopes := [];
  sg_merchant_scopes := []; sg_merchant_trust_scopes := ["registry_verified"];
  sg_notification_mode := "notify_all"; sg_network_scopes := [POLYGON_NETWORK];
  sg_asset_scopes := [POLYGON_USDC_ADDRESS]; sg_starts_at := 0;
  sg_expires_at := 2 * start; sg_created_at := 0; sg_updated_at := 0 |}.

Definition allowance : AssetAllowanceRow := {|
  aa_asset_allowance_id := "allowance"; aa_wallet_identity_id := "wallet";
  aa_network := POLYGON_NETWORK; aa_token_address := POLYGON_USDC_ADDRESS;
  aa_token_symbol := "USDC"; aa_token_decimals := 6; aa_spender_address := relayer;
  aa_approved_amount_atomic := 100000000; aa_observed_allowance_atomic := 100000000;
  aa_allowance_tx_hash := None; aa_status := "active"; aa_confirmed_block := None;
  aa_last_chain_check_at := None; aa_created_at := 0; aa_updated_at := 0 |}.

Definition empty : FundingDb := {|
  fd_records := ∅; fd_bindings := ∅; fd_relayer_nonces := ∅;
  fd_identities := {[ "wallet" := wallet ]}; fd_grants := {[ "grant" := grant ]};
  fd_allowances := {[ "allowance" := allowance ]};
  fd_daily := ∅; fd_rolling := ∅; fd_installations := ∅; fd_audit := ∅ |}.

Definition request (tag product : string) : CreateSpendingReservationRequest := {|
  rq_purchase_id := "pur_" +:+ tag; rq_idempotency_key := "key_" +:+ tag;
  rq_spending_authorization_id := None; rq_authorization_rail := "native_allowance";
  rq_wallet_identity_id := None; rq_spending_grant_id := None; rq_asset_allowance_id := None;
  rq_opc_installation_id := None; rq_product := Some product;
  rq_action_id := "act_" +:+ tag; rq_policy_decision_id := "pol_" +:+ tag;
  rq_merchant_id := "merchant"; rq_merchant_trust_tier := Some "registry_verified";
  rq_quote_hash := hash_of "2"; rq_amount_usdc := "5"; rq_amount_atomic := "5000000";
  rq_network := POLYGON_NETWORK; rq_asset := "USDC";
  rq_token_address := Some POLYGON_USDC_ADDRESS; rq_destination := address_of "e";
  rq_resource := "https://merchant/item"; rq_venue := "market" |}.

Definition provenance (product : string) : ReservationProvenance := {|
  pv_user_id := "user"; pv_agent_id := "agent"; pv_authorization_path := "unified_grant";
  pv_product := product; pv_wallet_identity_id := "wallet"; pv_spending_grant_id := "grant";
  pv_asset_allowance_id := Some "allowance"; pv_opc_installation_id := None;
  pv_authorization_rail := "native_allowance" |}.

(** The relayer's transaction for a nonce. *)
Definition prepared (c : ascii) (nonce : Z) : PreparedTransaction :=
  MkPrepared relayer nonce
    [("chainId", PInt 137); ("from", PStr relayer); ("to", PStr POLYGON_USDC_ADDRESS);
     ("value", PInt 0); ("data", PStr "0x"); ("nonce", PInt nonce); ("gasPrice", PInt 1);
     ("gas", PInt 90000)] (hash_of c) "0x".
Definition context (event_id : string) (c : ascii) : NativeContext := {|
  nc_event_id := event_id; nc_observed_allowance := Some 100000000; nc_controls := Ok tt;
  nc_relayer := Ok relayer; nc_chain_pending_nonce := Ok 7;
  nc_build := λ _ _ nonce, Ok (prepared c nonce); nc_controls_again := Ok tt |}.

Definition reserve (tag product : string) : FundingCommand :=
  CReserve (request tag product) (provenance product) ("res_" +:+ tag) (hash_of "9") 6 "USDC"
    (Some POLYGON_USDC_ADDRESS).

Definition step (c : FundingCommand) (d : FundingDb) : FundingDb := frun config start c d.

(** The databases of the run, evaluated. *)
Ltac evaluated t := let r := eval vm_compute in t in exact r.
Definition d1 : FundingDb := ltac:(evaluated (step (reserve "a" "marketplace") empty)).
Definition c2 : FundingCommand := CSubmitNative "res_a" (hash_of "3") (context "event_1" "6").
Definition d2 : FundingDb := ltac:(evaluated (step c2 d1)).
Definition c3 : FundingCommand := CCompleteNative (fetched "res_a" d2) "fund_receipt_x".
Definition d3 : FundingDb := ltac:(evaluated (step c3 d2)).
Definition c4 : FundingCommand := CFinalize "res_a" (PStr "delivered") PNone.
Definition d4 : FundingDb := ltac:(evaluated (step c4 d3)).
Definition c5 : FundingCommand := reserve "b" "prediction_markets".
Definition d5 : FundingDb := ltac:(evaluated (step c5 d4)).
Definition c6 : FundingCommand := CSubmitNative "res_b" (hash_of "4") (context "event_2" "7").
Definition d6 : FundingDb := ltac:(evaluated (step c6 d5)).
Definition c7 : FundingCommand :=
  CRetry (fetched "res_b" d6) "reverted" false "failed_receipt" "onchain_revert".
Definition d7 : FundingDb := ltac:(evaluated (step c7 d6)).
Definition c8 : FundingCommand := CRelease "res_b" "failed".
Definition d8 : FundingDb := ltac:(evaluated (step c8 d7)).

(** The state of a reservation. *)
Definition state_of (k : string) (d : FundingDb) : pyval := dict_get (fetched k d) "state".

Example run_states :
  map (state_of "res_a") [d1; d2; d3; d4] =
    [PStr "spending_reserved"; PStr "payment_submitted"; PStr "settled"; PStr "finalized"] ∧
  map (state_of "res_b") [d5; d6; d7; d8] =
    [PStr "spending_reserved"; PStr "payment_submitted"; PStr "spending_reserved";
     PStr "released"].
Proof. vm_compute. split; reflexivity. Qed.
End FundingDemo.
