(* ===== verification/FundingWitnesses.v ===== *)
(** * Witnesses for the funding properties

    Each property of the funding ledger applied to the demonstration run. *)

From S2P Require Import Prelude PyValue Calendar Reservation Amounts LedgerTables LedgerStore.
From S2P Require Import Budget LedgerEvidence FundingService Assets Receipts Submission ProxyPayment.
From S2P Require Import GrantStore LedgerFacts FundingMachine BudgetFacts FundingEffects.
From S2P Require Import FundingRefinement FundingCommands FundingSafety FundingProperties.
From S2P Require Import FundingScenario ReceiptProperties GrantProperties CandidateChoice.
From Stdlib Require Import Ascii.

Open Scope string_scope.
Open Scope Z_scope.

Import FundingDemo.

(** ** The run is reachable *)

Lemma start_representable : representable start.
Proof. split; vm_compute; discriminate. Qed.

Lemma step_call c d d' : drawn_fresh c d → step c d = d' → call config d d'.
Proof. intros Hf <-. exists start, c. by split_and!; [apply start_representable|..]. Qed.

Ltac on_run := vm_compute; reflexivity.

Lemma call_1 : call config empty d1.
Proof. apply (step_call (reserve "a" "marketplace")); [exact I|on_run]. Qed.
Lemma call_2 : call config d1 d2.
Proof. apply (step_call c2); [exact I|on_run]. Qed.
Lemma call_3 : call config d2 d3.
Proof. apply (step_call c3); on_run. Qed.
Lemma call_4 : call config d3 d4.
Proof. apply (step_call c4); [exact I|on_run]. Qed.
Lemma call_5 : call config d4 d5.
Proof. apply (step_call c5); [exact I|on_run]. Qed.
Lemma call_6 : call config d5 d6.
Proof. apply (step_call c6); [exact I|on_run]. Qed.
Lemma call_7 : call config d6 d7.
Proof. apply (step_call c7); [exact I|on_run]. Qed.
Lemma call_8 : call config d7 d8.
Proof. apply (step_call c8); [exact I|on_run]. Qed.

Lemma empty_fresh : fresh_ledger empty.
Proof.
  split_and!; try reflexivity. intros k g Hk. unfold empty in Hk. simpl in Hk.
  apply lookup_singleton_Some in Hk as [<- <-]. by split_and!; vm_compute.
Qed.

Lemma after_call d d' : call config d d' → reachable_ledger config d → reachable_ledger config d'.
Proof. intros Hc (d0 & H0 & Hr). exists d0. split; [done|]. by eapply rtc_r. Qed.

Lemma reachable_0 : reachable_ledger config empty.
Proof. exists empty. split; [apply empty_fresh|apply rtc_refl]. Qed.
Lemma reachable_1 : reachable_ledger config d1.
Proof. exact (after_call _ _ call_1 reachable_0). Qed.
Lemma reachable_2 : reachable_ledger config d2.
Proof. exact (after_call _ _ call_2 reachable_1). Qed.
Lemma reachable_3 : reachable_ledger config d3.
Proof. exact (after_call _ _ call_3 reachable_2). Qed.
Lemma reachable_4 : reachable_ledger config d4.
Proof. exact (after_call _ _ call_4 reachable_3). Qed.
Lemma reachable_5 : reachable_ledger config d5.
Proof. exact (after_call _ _ call_5 reachable_4). Qed.
Lemma reachable_6 : reachable_ledger config d6.
Proof. exact (after_call _ _ call_6 reachable_5). Qed.
Lemma reachable_7 : reachable_ledger config d7.
Proof. exact (after_call _ _ call_7 reachable_6). Qed.
Lemma reachable_8 : reachable_ledger config d8.
Proof. exact (after_call _ _ call_8 reachable_7). Qed.

Lemma calls_1_8 : rtc (call config) d1 d8.
Proof.
  eapply rtc_l; [exact call_2|]. eapply rtc_l; [exact call_3|]. eapply rtc_l; [exact call_4|].
  eapply rtc_l; [exact call_5|]. eapply rtc_l; [exact call_6|]. eapply rtc_l; [exact call_7|].
  eapply rtc_l; [exact call_8|]. apply rtc_refl.
Qed.
Lemma calls_2_8 : rtc (call config) d2 d8.
Proof.
  eapply rtc_l; [exact call_3|]. eapply rtc_l; [exact call_4|]. eapply rtc_l; [exact call_5|].
  eapply rtc_l; [exact call_6|]. eapply rtc_l; [exact call_7|]. eapply rtc_l; [exact call_8|].
  apply rtc_refl.
Qed.
Lemma calls_3_8 : rtc (call config) d3 d8.
Proof.
  eapply rtc_l; [exact call_4|]. eapply rtc_l; [exact call_5|]. eapply rtc_l; [exact call_6|].
  eapply rtc_l; [exact call_7|]. eapply rtc_l; [exact call_8|]. apply rtc_refl.
Qed.

(** The stored row of a reservation. *)
Definition row_of (k : string) (d : FundingDb) : LedgerRow :=
  default (blank_row EmptyString) (fd_records d !! k).
Definition grant_of (d : FundingDb) : SpendingGrantRow := default grant (fd_grants d !! "grant").

(** ** Witnesses *)

Lemma funding_calls_refine_ledger_witness : ledger_step d2 (frun config start c3 d2).
Proof.
  apply (funding_calls_refine_ledger config start c3 d2);
    [exact reachable_2|exact start_representable|on_run].
Defined.

Lemma books_balance_witness :
  sg_used_amount_usdc (grant_of d8) = 5000000 ∧
  sg_used_amount_usdc (grant_of d8) = table_sum (held "grant" RollingUsed) (fd_rolling d8).
Proof.
  split; [on_run|]. apply (books_balance config d8 reachable_8). on_run.
Defined.

Lemma committed_within_grant_witness :
  sg_reserved_amount_usdc (grant_of d6) = 5000000 ∧
  sg_used_amount_usdc (grant_of d6) + sg_reserved_amount_usdc (grant_of d6)
    <= sg_max_amount_usdc (grant_of d6).
Proof.
  split; [on_run|]. apply (committed_within_grant config d6 "grant"); [exact reachable_6|on_run].
Defined.

(** The row a call returned. *)
Definition returned (r : result pydict * FundingDb) : pydict :=
  match r.1 with Ok row => row | Err _ => [] end.
Definition reserve_b (d : FundingDb) : result pydict * FundingDb :=
  reserve_spending start (request "b" "prediction_markets") (provenance "prediction_markets")
    "res_b" (hash_of "9") 6 "USDC" (Some POLYGON_USDC_ADDRESS) d.

Lemma reserve_within_limits_witness :
  ∃ amount g, decimal_micros "5" = Some amount ∧ 0 < amount ∧
    fd_grants d4 !! "grant" = Some g ∧
    payable (trusted_request (request "b" "prediction_markets") (provenance "prediction_markets"))
      "user" "agent" amount start d4 g ∧
    asset_allowed (trusted_request (request "b" "prediction_markets") (provenance "prediction_markets"))
      amount (MkSelection (pv_wallet_identity_id (provenance "prediction_markets")) "grant"
        (if allowance_rail (PStr (pv_authorization_rail (provenance "prediction_markets")))
         then pv_asset_allowance_id (provenance "prediction_markets") else None))
      6 (Some POLYGON_USDC_ADDRESS) d4 g ∧
    charged g "res_b" amount start d4 d5 ∧
    daily_total d5 "grant" (day_of start) <= sg_daily_limit_usdc g ∧
    rolling_total d5 "grant" (start - us_per_hour) <= sg_hourly_limit_usdc g.
Proof.
  apply (reserve_within_limits config start (request "b" "prediction_markets")
    (provenance "prediction_markets") "res_b" (hash_of "9") 6 "USDC" (Some POLYGON_USDC_ADDRESS)
    d4 (returned (reserve_b d4)) d5); [exact reachable_4|on_run|on_run].
Defined.

Definition release_b : result pydict * FundingDb := release_reservation start "res_b" "unused" d5.
Lemma release_restores_budget_witness :
  daily_reserved d5 ("grant", day_of start) = 5000000 ∧
  ∀ key, daily_used release_b.2 key = daily_used d4 key ∧
         daily_reserved release_b.2 key = daily_reserved d4 key.
Proof.
  split; [on_run|].
  apply (release_restores_budget config start start (request "b" "prediction_markets")
    (provenance "prediction_markets") "res_b" (hash_of "9") 6 "USDC" (Some POLYGON_USDC_ADDRESS)
    "unused" d4 (returned (reserve_b d4)) d5 (returned release_b) release_b.2);
    [exact reachable_4|exact start_representable|on_run|on_run|on_run].
Defined.

Lemma accounting_is_final_witness :
  entries d8 !! "res_a" = Some (MkEntry "res_a" "grant" 5000000 (day_of start) "settled").
Proof.
  apply (accounting_is_final config d3 d8 "res_a");
    [exact reachable_3|exact calls_3_8|on_run|discriminate].
Defined.

Lemma status_matches_accounting_witness :
  ∃ state u, dict_get (lr_payload (row_of "res_b" d6)) "state" = PStr state ∧
    fd_rolling d6 !! "res_b" = Some u ∧ accounting_of state = Some (state_text (ru_state u)).
Proof.
  apply (status_matches_accounting config d6 "res_b" (row_of "res_b" d6));
    [exact reachable_6|on_run|on_run|on_run].
Defined.

Lemma provenance_is_permanent_witness :
  ∃ r, fd_records d8 !! "res_a" = Some r ∧
    dict_get (lr_payload r) "destination" = PStr (address_of "e").
Proof.
  apply (provenance_is_permanent config d1 d8 "res_a" (row_of "res_a" d1));
    [exact reachable_1|exact calls_1_8|on_run|decided|discriminate|on_run].
Defined.

Lemma failed_submission_is_final_witness :
  ∃ r, fd_records d8 !! "res_b" = Some r ∧
    dict_get (lr_payload r) "replacement_forbidden" = PBool true ∧
    dict_get (lr_payload r) "state" ∈ [PStr "spending_reserved"; PStr "released"].
Proof.
  apply (failed_submission_is_final config d7 d8 "res_b" (row_of "res_b" d7));
    [exact reachable_7|eapply rtc_l; [exact call_8|apply rtc_refl]|on_run|on_run|on_run].
Defined.

Lemma transaction_pays_one_reservation_witness :
  lr_tx_hash (row_of "res_a" d2) = Some (hash_of "6") ∧
  lr_tx_hash (row_of "res_a" d8) = Some (hash_of "6") ∧ "res_a" = "res_a".
Proof.
  split; [on_run|]. split; [on_run|].
  apply (transaction_pays_one_reservation config d2 d8 "res_a" "res_a" (row_of "res_a" d2)
    (row_of "res_a" d8) (hash_of "6")); [exact reachable_2|exact calls_2_8|on_run..].
Defined.

Definition allocate_on (row : pydict) (d : FundingDb) : result (Z * FundingDb) :=
  allocate_relayer_nonce row POLYGON_NETWORK relayer 7 start d.
Definition after_allocation : FundingDb :=
  match allocate_on (fetched "res_a" d1) d1 with Ok (_, d) => d | Err _ => d1 end.
Definition after_next : FundingDb :=
  match allocate_on (fetched "res_b" d5) after_allocation with Ok (_, d) => d | Err _ => d1 end.
Lemma relayer_nonces_increase_witness : 7 < 8.
Proof.
  apply (relayer_nonces_increase config (fetched "res_a" d1) (fetched "res_b" d5) POLYGON_NETWORK
    relayer 7 7 start start d1 after_allocation after_allocation after_next);
    [exact reachable_1|on_run|on_run|on_run|apply rtc_refl|on_run].
Defined.

Lemma audit_is_append_only_witness :
  fd_audit d8 !! "event_1" = fd_audit d2 !! "event_1" ∧ is_Some (fd_audit d2 !! "event_1").
Proof.
  destruct (fd_audit d2 !! "event_1") as [e|] eqn:E; [|by vm_compute in E].
  split; [|by eexists].
  apply (audit_is_append_only config d2 d8 "event_1" e); [exact reachable_2|exact calls_2_8|exact E].
Defined.

(** ** Receipts *)

Definition pending_row : pydict := fetched "res_a" d2.
Definition pending_authorization : SpendingAuthorization :=
  ltac:(let r := eval vm_compute in (reservation_authorization pending_row d2) in
        lazymatch r with Ok ?a => exact a end).
Definition pending_request : SpendRequest :=
  ltac:(let r := eval vm_compute in (spend_request pending_authorization pending_row) in
        lazymatch r with Ok ?a => exact a end).
Definition recorded : result (FundingReceipt * FundingDb) :=
  record_spending_receipt config start pending_authorization pending_request
    (dict_get pending_row "tx_hash") (dict_get pending_row "receipt_id") [] "drawn" d2.
Definition recorded_receipt : FundingReceipt :=
  ltac:(let r := eval vm_compute in recorded in
        lazymatch r with Ok (?a, _) => exact a end).
Definition recorded_db : FundingDb :=
  match recorded with Ok (_, d) => d | Err _ => d2 end.

Lemma stored_payloads_wf k row : fd_records d2 !! k = Some row → py_wf (PDict (lr_payload row)).
Proof.
  assert (fd_records d2 = {[ "res_a" := row_of "res_a" d2 ]}) as -> by on_run.
  intros [<- <-]%lookup_singleton_Some. apply py_wf_dict. split; [decided|].
  vm_compute lr_payload.
  repeat (apply Forall_cons; split;
    [first [exact I | simpl; split; [decided|by repeat split]]|]). constructor.
Qed.

Lemma recorded_receipt_verifies_witness :
  fr_receipt_id recorded_receipt = "fund_receipt_res_a" ∧
  verify_receipt_signature config recorded_receipt = true.
Proof.
  split; [on_run|].
  apply (recorded_receipt_verifies config start pending_authorization pending_request
    (dict_get pending_row "tx_hash") (dict_get pending_row "receipt_id") [] "drawn" d2
    recorded_receipt recorded_db); [exact stored_payloads_wf|on_run].
Defined.

(** ** Grants *)

Lemma grant_validation_stable_witness : make_spending_grant grant = Ok grant.
Proof.
  apply (grant_validation_stable grant grant); [on_run|decided].
Defined.

Definition reduction : result SpendingGrantRow * FundingDb :=
  reduce_spending_grant "event_3" start "grant" (Some 60000000) None (Some 15000000) None d1.
Lemma reduction_only_lowers_witness :
  ∃ g', fd_grants reduction.2 !! "grant" = Some g' ∧
    Forall2 (λ new old, 0 < new <= old) (limits g') (limits (grant_of d1)).
Proof.
  destruct (reduction_only_lowers "event_3" start "grant" (Some 60000000) None (Some 15000000)
    None d1 (grant_of d1) (match reduction.1 with Ok h => h | Err _ => grant end) reduction.2)
    as (g' & Hg & Hl & _); [on_run|on_run|on_run|]. exists g'. split; [exact Hg|exact Hl].
Defined.

Lemma candidate_choice_is_canonical_witness :
  let other := grant <| sg_spending_grant_id := "another" |> in
  pick_min grant_key [grant; other] = Some other ∧
  pick_min grant_key [grant; other] = pick_min grant_key [other; grant].
Proof.
  split; [reflexivity|].
  apply (candidate_choice_is_canonical _ _ [(grant, allowance)] [(grant, allowance)]).
  - apply Permutation_swap.
  - reflexivity.
  - intros g h Hg Hh Hid. apply elem_of_cons in Hg as [->|[->|[]%elem_of_nil]%elem_of_cons];
      apply elem_of_cons in Hh as [->|[->|[]%elem_of_nil]%elem_of_cons];
      first [reflexivity | discriminate Hid].
  - intros p q Hp Hq _. apply list_elem_of_singleton in Hp as ->.
    apply list_elem_of_singleton in Hq as ->. reflexivity.
Defined.

(** The check for explicit product scopes looks at the text before it is
    normalised: an upper-case [ALL] passes, is stored as [all], and the stored
    grant is then refused. *)
Lemma upper_case_all_is_accepted :
  let g := grant <| sg_product_scopes := ["ALL"] |> in
  let stored := grant <| sg_product_scopes := ["all"] |> in
  make_spending_grant g = Ok stored ∧
  make_spending_grant stored = Err (ValueError "product scopes must be explicit and non-empty").
Proof. split; on_run. Qed.
