(* ===== verification/PaymentWitnesses.v ===== *)
(** * A payment followed to the chain

    The reserved purchase of [FundingScenario], settled against a node that mines
    the relayer's transaction, or reports that it failed; and the properties of
    [PaymentProperties] on that run. *)

From S2P Require Import Prelude PyValue Calendar Reservation Amounts LedgerTables.
From S2P Require Import LedgerStore Budget LedgerEvidence FundingService Assets Receipts.
From S2P Require Import Submission ProxyPayment ChainEvidence Settlement FundingCommands.
From S2P Require Import ChainFacts PaymentEvidence SettlementFacts PaymentVerdicts.
From S2P Require Import PaymentProperties FundingScenario FundingWitnesses Evm.
From Stdlib Require Import Ascii Strings.Byte.

Open Scope string_scope.
Open Scope Z_scope.

Module PaymentDemo.
Import FundingDemo.

(** The selectors the contracts have; every other hash is a constant. *)
#[export] Instance demo_keccak_bytes : Keccak := λ bs,
  if bool_decide (bs = String.list_byte_of_string "transferFrom(address,address,uint256)")
  then (TRANSFER_FROM_SELECTOR ++ replicate 28 x00)%list
  else replicate 32 xcc.
#[export] Instance demo_checksum : Checksum := λ a, a.

Definition chain : ChainConfig := {|
  cc_allowed_evm_networks := [POLYGON_NETWORK];
  cc_native_min_confirmations := 3;
  cc_live_funding := true;
  cc_native_facilitator_enabled := true;
  cc_native_facilitator_gas_limit := 120000 |}.

Definition account : Relayer := MkRelayer relayer (λ _, Ok "0x02aa").
Definition payment_hash : string := "0x" +:+ hex (replicate 32 xcc).

(** The mined transaction and its receipt. *)
Definition calldata : string :=
  "0x23b872dd" +:+ rjust64 (repeated "a" 40) +:+ rjust64 (repeated "e" 40) +:+ rjust64 "4c4b40".
Definition chain_tx : pydict :=
  [("hash", PStr payment_hash); ("from", PStr relayer); ("to", PStr POLYGON_USDC_ADDRESS);
   ("nonce", PStr "0x7"); ("input", PStr calldata)].
Definition receipt (status : string) : pydict :=
  [("transactionHash", PStr payment_hash); ("blockNumber", PStr "0x64"); ("status", PStr status)].

Definition node (status : string) : Transport := λ _ _ method _,
  if bool_decide (method = "eth_chainId") then Ok (PStr "0x89")
  else if bool_decide (method = "eth_call") then Ok (PStr "0x5f5e100")
  else if bool_decide (method = "eth_getTransactionCount") then Ok (PStr "0x7")
  else if bool_decide (method = "eth_gasPrice") then Ok (PStr "0x1")
  else if bool_decide (method = "eth_estimateGas") then Ok (PStr "0x15f90")
  else if bool_decide (method = "eth_sendRawTransaction") then Ok (PStr payment_hash)
  else if bool_decide (method = "eth_getTransactionReceipt") then Ok (PDict (receipt status))
  else if bool_decide (method = "eth_getTransactionByHash") then Ok (PDict chain_tx)
  else if bool_decide (method = "eth_blockNumber") then Ok (PStr "0x70")
  else Err (RuntimeError "method not supported").

(** An id no record has: longer than every key. *)
Definition fresh_id (d : FundingDb) : string :=
  foldr (λ kr s, kr.1 +:+ s) "x" (map_to_list (fd_records d)).

Definition world (status : string) : World := {|
  sw_node := node status; sw_account := Some (Ok account); sw_controls := λ _ _, Ok tt;
  sw_event_id := "event_p"; sw_draw := fresh_id |}.

Definition settle : PaymentCall := PSettle "res_a" (hash_of "3").
Definition run (status : string) (d : FundingDb) : result (option pydict) * FundingDb :=
  run_payment config chain start (world status) settle d.

Definition paid : FundingDb := ltac:(evaluated (run "0x1" d1).2).
(** The payment while its receipt has no final status, and after it failed. *)
Definition submitted : FundingDb := ltac:(evaluated (run EmptyString d1).2).
Definition reconcile (status : string) (d : FundingDb) : result (option pydict) * FundingDb :=
  run_payment config chain start (world status) (PReconcile "res_a" false) d.
Definition failed : FundingDb := ltac:(evaluated (reconcile "0x0" submitted).2).

(** The relayer's transaction, as the service builds it. *)
Ltac returned t := let r := eval vm_compute in t in lazymatch r with Ok ?a => exact a end.
Definition authorization : SpendingAuthorization :=
  ltac:(returned (reservation_authorization (fetched "res_a" d1) d1)).
Definition built : PreparedTransaction :=
  ltac:(returned (build_native_transaction chain (node "0x1") account authorization
                    (fetched "res_a" d1) 7)).

Example payment_states :
  map (state_of "res_a") [paid; failed; submitted]
  = [PStr "settled"; PStr "spending_reserved"; PStr "payment_submitted"].
Proof. vm_compute. reflexivity. Qed.
End PaymentDemo.

Import FundingDemo PaymentDemo.

(** The drawn id is longer than every key. *)
Lemma fresh_id_unused d : fd_records d !! fresh_id d = None.
Proof.
  assert (∀ (l : list (string * LedgerRow)) k r, (k, r) ∈ l →
    (String.length k < String.length (foldr (λ kr s, kr.1 +:+ s) "x" l))%nat) as Hlong.
  { induction l as [|[k0 r0] l IH]; intros k r Hin; [by apply elem_of_nil in Hin|].
    simpl. rewrite length_app_string. apply elem_of_cons in Hin as [[= -> ->]|Hin].
    - assert (0 < String.length (foldr (λ kr s, kr.1 +:+ s) "x" l))%nat; [|lia].
      clear. induction l as [|[k r] l IH]; simpl; [lia|]. rewrite length_app_string. lia.
    - specialize (IH k r Hin). lia. }
  destruct (fd_records d !! fresh_id d) as [r|] eqn:E; [|done].
  apply elem_of_map_to_list in E. apply Hlong in E. unfold fresh_id in E. lia.
Qed.

Lemma run_paid : (run "0x1" d1).2 = paid.
Proof. vm_compute. reflexivity. Qed.
Lemma run_submitted : (run EmptyString d1).2 = submitted.
Proof. vm_compute. reflexivity. Qed.
Lemma run_failed : (reconcile "0x0" submitted).2 = failed.
Proof. vm_compute. reflexivity. Qed.

Lemma submitted_reachable : reachable_ledger config submitted.
Proof.
  destruct reachable_1 as (d0 & Hd0 & Hr). exists d0. split; [done|]. etrans; [exact Hr|].
  rewrite <- run_submitted.
  exact (proj1 (payment_evidenced config chain start start_representable (world EmptyString) settle
           fresh_id_unused d1)).
Qed.

Lemma payment_calls_refine_transactions_witness :
  (rtc (call config) d1 paid ∧ reachable_ledger config paid) ∧ state_of "res_a" paid = PStr "settled".
Proof.
  rewrite <- run_paid at 1 2. split; [|vm_compute; reflexivity].
  exact (payment_calls_refine_transactions config chain start (world "0x1") settle d1
           reachable_1 start_representable fresh_id_unused).
Defined.

Lemma lines_differ d d' : fd_rolling d !! "res_a" ≠ fd_rolling d' !! "res_a" → fd_rolling d ≠ fd_rolling d'.
Proof. congruence. Qed.

Lemma budget_spent_on_evidence_witness :
  ∃ n d row, rtc (call config) d1 d ∧ rtc (call config) d paid ∧ fd_rolling d = fd_rolling d1 ∧
    get "res_a" d = Some row ∧ paid_on_chain chain (sw_node (later n (world "0x1"))) row d.
Proof.
  rewrite <- run_paid.
  apply (budget_spent_on_evidence config chain start (world "0x1") settle d1
           reachable_1 start_representable fresh_id_unused).
  change (run_payment config chain start (world "0x1") settle d1) with (run "0x1" d1).
  rewrite run_paid. apply lines_differ. vm_compute. discriminate.
Defined.

Lemma reconciliation_follows_chain_witness :
  state_of "res_a" failed = PStr "spending_reserved" ∧
  (fd_rolling failed = fd_rolling submitted ∧ (∀ k, state_at k failed = state_at k submitted) ∨
   ∃ d row, get "res_a" d = Some row ∧ fd_rolling d = fd_rolling submitted ∧
     (∀ k, state_at k d = state_at k submitted) ∧
     (paid_on_chain chain (sw_node (world "0x0")) row d ∨
      reverted_on_chain chain (sw_node (world "0x0")) row ∧ fd_rolling failed = fd_rolling submitted)).
Proof.
  split; [vm_compute; reflexivity|]. rewrite <- run_failed.
  exact (reconciliation_follows_chain config chain start (world "0x0") "res_a" false submitted
           submitted_reachable start_representable fresh_id_unused).
Defined.

(** The hashes and addresses of the run. *)
Lemma demo_keccak_length bs : length (demo_keccak_bytes bs) = 32%nat.
Proof. unfold demo_keccak_bytes. by case_bool_decide. Qed.

Lemma built_payment_recognised_witness :
  validate_native_settlement_evidence
    (native_submitted start (fetched "res_a" d1) "res_a" (hash_of "3") built)
    (receipt "0x1") (PDict chain_tx) d1 = Ok None.
Proof.
  apply (built_payment_recognised chain start (node "0x1") account authorization
           (fetched "res_a" d1) 7 built "res_a" (hash_of "3") d1 (receipt "0x1") chain_tx
           (address_of "a") 5000000);
    first [exact demo_keccak_length|done|vm_compute; reflexivity].
Defined.
