(* ===== verification/ExecutionModels.v ===== *)
(** * Execution values and the execution state machine

    The chain profiles of [core/shared/hosted_facilitator_protocol.py] and the
    values of [facilitator/execution_models.py]: the states and the transition
    table, the validators, [ExecutionIntent] with its canonical payload and
    hash, and [HostedExecution].  A constructor that can raise is a function
    that returns the normalised record or the exception. *)

From S2P Require Import Prelude PyValue.
From Stdlib Require Import Ascii.

(** ** Chain profiles *)

(** [HostedChainProfile]. *)
Record HostedChainProfile := {
  profile_chain : string;
  profile_chain_id : Z;
  profile_token : string;
  profile_finality_boundary : string;
  profile_min_confirmation_depth : Z;
}.

Definition HOSTED_BASE_USDC : string := "0x833589fcd6edb6e08f4c7c32d4f71b54bda02913".
Definition HOSTED_POLYGON_USDC : string := "0x3c499c542cef5e3811e1192ce70d8cc03d5c3359".
Definition HOSTED_BASE_SEPOLIA_USDC : string := "0x036cbd53842c5426634e7929541ec2318f3dcf7e".
Definition HOSTED_POLYGON_AMOY_USDC : string := "0x41e94eb019c0762f9bfcf9fb1e58725bfb0e7582".

Definition HOSTED_CHAIN_PROFILES : list (string * HostedChainProfile) :=
  [ ("eip155:8453",
     {| profile_chain := "eip155:8453"; profile_chain_id := 8453;
        profile_token := HOSTED_BASE_USDC;
        profile_finality_boundary := "safe"; profile_min_confirmation_depth := 2 |});
    ("eip155:137",
     {| profile_chain := "eip155:137"; profile_chain_id := 137;
        profile_token := HOSTED_POLYGON_USDC;
        profile_finality_boundary := "finalized"; profile_min_confirmation_depth := 3 |});
    ("eip155:84532",
     {| profile_chain := "eip155:84532"; profile_chain_id := 84532;
        profile_token := HOSTED_BASE_SEPOLIA_USDC;
        profile_finality_boundary := "safe"; profile_min_confirmation_depth := 2 |});
    ("eip155:80002",
     {| profile_chain := "eip155:80002"; profile_chain_id := 80002;
        profile_token := HOSTED_POLYGON_AMOY_USDC;
        profile_finality_boundary := "finalized"; profile_min_confirmation_depth := 3 |}) ].

(** [HOSTED_CHAIN_PROFILES.get(chain)]. *)
Definition chain_profile (chain : string) : option HostedChainProfile :=
  dict_find HOSTED_CHAIN_PROFILES chain.

(** [hosted_chain_profile]. *)
Definition hosted_chain_profile (chain : string) : result HostedChainProfile :=
  from_option_or (chain_profile chain)
    (ValueError "chain_id is not an approved Hosted chain").

(** [validate_hosted_chain_token]. *)
Definition validate_hosted_chain_token (chain token : string) : result string :=
  profile ← hosted_chain_profile chain;
  require (bool_decide (lower token = profile_token profile))
    (ValueError "token is not canonical USDC for chain");;
  mret (lower token).

Lemma chain_profile_cases chain p :
  chain_profile chain = Some p →
  (profile_finality_boundary p = "safe" ∧ profile_min_confirmation_depth p = 2 ∧
   (chain = "eip155:8453" ∨ chain = "eip155:84532")) ∨
  (profile_finality_boundary p = "finalized" ∧ profile_min_confirmation_depth p = 3 ∧
   (chain = "eip155:137" ∨ chain = "eip155:80002")).
Proof.
  unfold chain_profile. simpl. intros H.
  repeat (case_bool_decide; [simplify_eq; simpl; auto|]). done.
Qed.

(** ** The execution state machine *)

Inductive ExecutionState :=
| REQUESTED | PREFLIGHT_APPROVED | SIGNING | SIGNED | SUBMITTED
| SUBMISSION_UNKNOWN | SUBMISSION_REJECTED | CONFIRMED | FINALIZED
| REVERTED | EXPIRED | RELEASED | REORG_REVIEW.

#[export] Instance ExecutionState_eq_dec : EqDecision ExecutionState.
Proof. solve_decision. Defined.

Definition all_states : list ExecutionState :=
  [REQUESTED; PREFLIGHT_APPROVED; SIGNING; SIGNED; SUBMITTED; SUBMISSION_UNKNOWN;
   SUBMISSION_REJECTED; CONFIRMED; FINALIZED; REVERTED; EXPIRED; RELEASED; REORG_REVIEW].

(** [ExecutionState.value]. *)
Definition state_value (s : ExecutionState) : string :=
  match s with
  | REQUESTED => "requested"
  | PREFLIGHT_APPROVED => "preflight_approved"
  | SIGNING => "signing"
  | SIGNED => "signed"
  | SUBMITTED => "submitted"
  | SUBMISSION_UNKNOWN => "submission_unknown"
  | SUBMISSION_REJECTED => "submission_rejected"
  | CONFIRMED => "confirmed"
  | FINALIZED => "finalized"
  | REVERTED => "reverted"
  | EXPIRED => "expired"
  | RELEASED => "released"
  | REORG_REVIEW => "reorg_review"
  end.

(** [ExecutionState(value)]. *)
Definition state_of_value (value : string) : option ExecutionState :=
  head (filter (λ s, state_value s = value) all_states).

(** [_TRANSITIONS]. *)
Definition TRANSITIONS (s : ExecutionState) : list ExecutionState :=
  match s with
  | REQUESTED => [PREFLIGHT_APPROVED; EXPIRED; RELEASED]
  | PREFLIGHT_APPROVED => [SIGNING; EXPIRED; RELEASED]
  | SIGNING => [SIGNED; EXPIRED; RELEASED]
  | SIGNED => [SUBMITTED; SUBMISSION_UNKNOWN; SUBMISSION_REJECTED]
  | SUBMISSION_REJECTED => [SUBMITTED; SUBMISSION_UNKNOWN]
  | SUBMITTED => [SUBMISSION_UNKNOWN; CONFIRMED; REVERTED]
  | SUBMISSION_UNKNOWN => [CONFIRMED; REVERTED]
  | CONFIRMED => [FINALIZED]
  | FINALIZED => [REORG_REVIEW]
  | REVERTED | EXPIRED | RELEASED | REORG_REVIEW => []
  end.

(** [allowed_transitions], on the name of a state. *)
Definition allowed_transitions (state : string) : result (list ExecutionState) :=
  match state_of_value state with
  | Some s => Ok (TRANSITIONS s)
  | None => Err (ValueError "execution state is invalid")
  end.

Lemma state_of_value_value s : state_of_value (state_value s) = Some s.
Proof. destruct s; vm_compute; reflexivity. Qed.

(** ** Field validators *)

Definition MAX_UINT256 : Z := 2 ^ 256 - 1.

Definition identifier_char (c : ascii) : bool :=
  is_alnum c || Ascii.eqb c "_" || Ascii.eqb c "." || Ascii.eqb c ":" || Ascii.eqb c "-".
(** The pattern [[A-Za-z0-9][A-Za-z0-9_.:-]{0,255}]. *)
Definition is_identifier (value : string) : bool :=
  match value with
  | EmptyString => false
  | String c rest => is_alnum c && all_chars identifier_char rest && (str_len rest <=? 255)
  end.

(** [_identifier]. *)
Definition validate_identifier (field_name value : string) : result string :=
  require (is_identifier value) (ValueError (field_name +:+ " is invalid"));;
  require (all_chars (λ c, negb (is_control c)) value)
    (ValueError (field_name +:+ " is invalid"));;
  mret value.

(** [_address]: forty hexadecimal digits, normalised to lower case. *)
Definition validate_address (field_name value : string) : result string :=
  require (is_prefixed is_hex 40 value) (ValueError (field_name +:+ " is invalid"));;
  mret (lower value).

(** The values [_hash] accepts. *)
Inductive hash_input := HashStr (s : string) | HashBytes (b : bytes).
(** [_hash]. *)
Definition validate_hash (field_name : string) (value : hash_input) : result string :=
  match value with
  | HashBytes b =>
      require (blen b =? 32) (ValueError (field_name +:+ " is invalid"));;
      mret ("0x" +:+ hex b)
  | HashStr s =>
      require (is_prefixed is_hex 64 s) (ValueError (field_name +:+ " is invalid"));;
      mret (lower s)
  end.

(** [_positive_int]. *)
Definition validate_positive_int (field_name : string) (value : Z) : result Z :=
  require (0 <? value) (ValueError (field_name +:+ " is invalid"));; mret value.

(** The pattern [[1-9][0-9]*]. *)
Definition is_atomic_amount (s : string) : bool :=
  match s with
  | EmptyString => false
  | String c s' => is_digit c && negb (Ascii.eqb c "0") && all_chars is_digit s'
  end.

(** [ExecutionIntent.validate_atomic_amount]. *)
Definition validate_atomic_amount (value : string) : result string :=
  require (is_atomic_amount value) (ValueError "amount_atomic is invalid");;
  require (digits_value 0 value <=? MAX_UINT256)
    (ValueError "amount_atomic exceeds uint256");;
  mret value.

(** [ExecutionIntent.validate_owner_nonce] and
    [HostedExecution.validate_relayer_nonce]. *)
Definition validate_uint256 (field_name : string) (value : Z) : result Z :=
  require (negb ((value <? 0) || (MAX_UINT256 <? value)))
    (ValueError (field_name +:+ " is invalid"));;
  mret value.

(** The pattern [[a-z][a-z0-9_]{0,n}] of reason and failure codes. *)
Definition is_reason_code (n : Z) (s : string) : bool :=
  match s with
  | EmptyString => false
  | String c s' =>
      is_lower c && all_chars (λ c, is_lower c || is_digit c || Ascii.eqb c "_") s'
      && (str_len s' <=? n)
  end.

(** ** Execution intents *)

Record ExecutionIntent := MkIntent {
  tenant_id : string; node_id : string; wallet_binding_id : string;
  capability_id : string; reservation_id : string; purchase_id : string;
  request_id : string; request_hash : string; idempotency_key : string;
  chain : string; owner : string; payee : string; token : string;
  amount_atomic : string; executor : string; signer_epoch : Z; owner_nonce : Z;
  deadline : Z; capability_hash : string; reservation_hash : string;
  execution_scope_hash : string; execution_digest : string; relayer_address : string;
}.

#[export] Instance ExecutionIntent_eq_dec : EqDecision ExecutionIntent.
Proof. solve_decision. Defined.

(** [ExecutionIntent.validate_fixed_chain_scope]. *)
Definition validate_fixed_chain_scope (i : ExecutionIntent) : result ExecutionIntent :=
  match chain_profile (chain i) with
  | None => Err (ValueError "chain is not an approved Hosted network")
  | Some profile =>
      require (bool_decide (token i = profile_token profile))
        (ValueError "token is not canonical USDC for chain");;
      mret i
  end.

(** Constructing an [ExecutionIntent]: the field validators, then the model
    validator on the normalised fields. *)
Definition make_intent (i : ExecutionIntent) : result ExecutionIntent :=
  tenant ← validate_identifier "tenant_id" (tenant_id i);
  node ← validate_identifier "node_id" (node_id i);
  binding ← validate_identifier "wallet_binding_id" (wallet_binding_id i);
  capability ← validate_identifier "capability_id" (capability_id i);
  reservation ← validate_identifier "reservation_id" (reservation_id i);
  purchase ← validate_identifier "purchase_id" (purchase_id i);
  request ← validate_identifier "request_id" (request_id i);
  rhash ← validate_hash "request_hash" (HashStr (request_hash i));
  key ← validate_identifier "idempotency_key" (idempotency_key i);
  own ← validate_address "owner" (owner i);
  pay ← validate_address "payee" (payee i);
  tok ← validate_address "token" (token i);
  amount ← validate_atomic_amount (amount_atomic i);
  exe ← validate_address "executor" (executor i);
  epoch ← validate_positive_int "signer_epoch" (signer_epoch i);
  nonce ← validate_uint256 "owner_nonce" (owner_nonce i);
  dl ← validate_positive_int "deadline" (deadline i);
  chash ← validate_hash "capability_hash" (HashStr (capability_hash i));
  vhash ← validate_hash "reservation_hash" (HashStr (reservation_hash i));
  shash ← validate_hash "execution_scope_hash" (HashStr (execution_scope_hash i));
  dhash ← validate_hash "execution_digest" (HashStr (execution_digest i));
  relayer ← validate_address "relayer_address" (relayer_address i);
  validate_fixed_chain_scope
    (MkIntent tenant node binding capability reservation purchase request rhash key
       (chain i) own pay tok amount exe epoch nonce dl chash vhash shash dhash relayer).

(** [ExecutionIntent.canonical_payload]: [model_dump(mode="json")], in the order
    of the fields. *)
Definition canonical_payload (i : ExecutionIntent) : pydict :=
  [ ("tenant_id", PStr (tenant_id i)); ("node_id", PStr (node_id i));
    ("wallet_binding_id", PStr (wallet_binding_id i));
    ("capability_id", PStr (capability_id i));
    ("reservation_id", PStr (reservation_id i)); ("purchase_id", PStr (purchase_id i));
    ("request_id", PStr (request_id i)); ("request_hash", PStr (request_hash i));
    ("idempotency_key", PStr (idempotency_key i)); ("chain", PStr (chain i));
    ("owner", PStr (owner i)); ("payee", PStr (payee i)); ("token", PStr (token i));
    ("amount_atomic", PStr (amount_atomic i)); ("executor", PStr (executor i));
    ("signer_epoch", PInt (signer_epoch i)); ("owner_nonce", PInt (owner_nonce i));
    ("deadline", PInt (deadline i)); ("capability_hash", PStr (capability_hash i));
    ("reservation_hash", PStr (reservation_hash i));
    ("execution_scope_hash", PStr (execution_scope_hash i));
    ("execution_digest", PStr (execution_digest i));
    ("relayer_address", PStr (relayer_address i)) ].

(** [ExecutionIntent.canonical_hash] of [canonical_bytes]. *)
Definition canonical_bytes (i : ExecutionIntent) : string :=
  json_dumps (PDict (canonical_payload i)).
Definition canonical_hash `{Sha256} (i : ExecutionIntent) : string :=
  "0x" +:+ sha256_hex (canonical_bytes i).
