(* ===== verification/ExecutionTables.v ===== *)
(** * The tables of the hosted execution repository

    The rows of the seven tables of [facilitator/execution_repository.py], their
    CHECK and unique constraints as decidable predicates, the database they form
    and the elementary writes, with how a row is read back ([_record]). *)

From S2P Require Import Prelude PyValue ExecutionModels.
From Stdlib Require Import Ascii.

(** ** Rows *)

(** The columns [_intent_columns] derives from an intent; no operation of the
    repository assigns them again. *)
Record IntentColumns := MkIntentColumns {
  ic_tenant_id : string; ic_node_id : string; ic_wallet_binding_id : string;
  ic_capability_id : string; ic_reservation_id : string; ic_purchase_id : string;
  ic_idempotency_key : string; ic_chain : string; ic_owner : string;
  ic_payee : string; ic_token : string; ic_amount_atomic : string;
  ic_executor : string; ic_signer_epoch : Z; ic_owner_nonce : string;
  ic_deadline : Z; ic_capability_hash : string; ic_reservation_hash : string;
  ic_execution_scope_hash : string; ic_execution_digest : string;
  ic_relayer_address : string; ic_canonical_payload : pydict;
  ic_canonical_hash : string;
}.

(** [HostedExecutionRow]. *)
Record HostedExecutionRow := MkExecutionRow {
  er_execution_id : string;
  er_columns : IntentColumns;
  er_signature : option bytes;
  er_relayer_nonce : Z;
  er_signing_claim_generation : Z;
  er_signing_claim_expires_at : option Z;
  er_unsigned_transaction_hash : option string;
  er_raw_transaction : option bytes;
  er_raw_transaction_hash : option string;
  er_status : ExecutionState;
  er_broadcast_attempts : Z;
  er_broadcasted_at : option Z;
  er_receipt_status : option Z;
  er_receipt_block_number : option Z;
  er_receipt_block_hash : option string;
  er_confirmations : Z;
  er_safe_block_number : option Z;
  er_safe_block_hash : option string;
  er_watcher_version : option string;
  er_watcher_attempted_at : option Z;
  er_finality_boundary : option string;
  er_reorg_state : string;
  er_reorg_evidence : option pydict;
  er_submission_failure_code : option string;
  er_release_evidence : option pydict;
  er_confirmed_at : option Z;
  er_finalized_at : option Z;
  er_reverted_at : option Z;
  er_released_at : option Z;
  er_expired_at : option Z;
  er_reorg_reviewed_at : option Z;
  er_created_at : Z;
  er_updated_at : Z;
}.

#[export] Instance eta_execution_row : Eta HostedExecutionRow := λ r,
  MkExecutionRow (er_execution_id r) (er_columns r) (er_signature r)
    (er_relayer_nonce r) (er_signing_claim_generation r)
    (er_signing_claim_expires_at r) (er_unsigned_transaction_hash r)
    (er_raw_transaction r) (er_raw_transaction_hash r) (er_status r)
    (er_broadcast_attempts r) (er_broadcasted_at r) (er_receipt_status r)
    (er_receipt_block_number r) (er_receipt_block_hash r) (er_confirmations r)
    (er_safe_block_number r) (er_safe_block_hash r) (er_watcher_version r)
    (er_watcher_attempted_at r) (er_finality_boundary r) (er_reorg_state r)
    (er_reorg_evidence r) (er_submission_failure_code r) (er_release_evidence r)
    (er_confirmed_at r) (er_finalized_at r) (er_reverted_at r) (er_released_at r)
    (er_expired_at r) (er_reorg_reviewed_at r) (er_created_at r) (er_updated_at r).

(** Shorthands for the intent columns the repository reads. *)
Definition er_tenant_id r := ic_tenant_id (er_columns r).
Definition er_node_id r := ic_node_id (er_columns r).
Definition er_idempotency_key r := ic_idempotency_key (er_columns r).
Definition er_chain r := ic_chain (er_columns r).
Definition er_deadline r := ic_deadline (er_columns r).
Definition er_relayer_address r := ic_relayer_address (er_columns r).

(** [RelayerNonceRow]; its primary key is the pair (chain, relayer address). *)
Record RelayerNonceRow := MkNonceRow { nr_next_nonce : Z; nr_updated_at : Z }.
#[export] Instance eta_nonce_row : Eta RelayerNonceRow := λ r,
  MkNonceRow (nr_next_nonce r) (nr_updated_at r).

(** [HostedExecutionAttemptRow], without its surrogate key. *)
Record HostedExecutionAttemptRow := MkAttempt {
  at_execution_id : string; at_attempt_number : Z; at_attempt_kind : string;
  at_raw_transaction_hash : string; at_created_at : Z;
}.

(** [HostedExecutionObservationRow], without its surrogate key. *)
Record HostedExecutionObservationRow := MkObservation {
  ob_execution_id : string; ob_tx_hash : string; ob_block_number : Z;
  ob_block_hash : string; ob_receipt_status : Z; ob_confirmations : Z;
  ob_safe_block_number : option Z; ob_safe_block_hash : option string;
  ob_watcher_version : string; ob_canonical : bool; ob_evidence : pydict;
  ob_observed_at : Z;
}.

(** [HostedGateControlRow]; its primary key is (scope, tenant, node). *)
Record HostedGateControlRow := MkControl {
  gc_paused : bool; gc_reason_code : option string; gc_updated_at : Z;
}.

Inductive GateState := GateReserved | GateSettled | GateReleased.
#[export] Instance GateState_eq_dec : EqDecision GateState.
Proof. solve_decision. Defined.
Definition gate_state_value (s : GateState) : string :=
  match s with
  | GateReserved => "reserved" | GateSettled => "settled" | GateReleased => "released"
  end.

(** [HostedGateReservationRow]; its primary key is the execution id. *)
Record HostedGateReservationRow := MkGateReservation {
  gr_tenant_id : string; gr_node_id : string; gr_idempotency_key : string;
  gr_utc_day : Z; gr_state : GateState; gr_gas_cost_usd_micros : Z;
  gr_gas_utc_day : option Z; gr_created_at : Z; gr_updated_at : Z;
}.
#[export] Instance eta_gate_row : Eta HostedGateReservationRow := λ r,
  MkGateReservation (gr_tenant_id r) (gr_node_id r) (gr_idempotency_key r)
    (gr_utc_day r) (gr_state r) (gr_gas_cost_usd_micros r) (gr_gas_utc_day r)
    (gr_created_at r) (gr_updated_at r).

(** [HostedGateEventRow], without its surrogate key. *)
Record HostedGateEventRow := MkGateEvent {
  ge_execution_id : option string; ge_tenant_id : string; ge_node_id : string;
  ge_idempotency_key : string; ge_event_type : string; ge_reason_code : option string;
  ge_gas_cost_usd_micros : Z; ge_created_at : Z;
}.

(** ** The database *)

Record HostedDb := MkHostedDb {
  db_executions : gmap string HostedExecutionRow;
  db_allocators : gmap (string * string) RelayerNonceRow;
  db_attempts : list HostedExecutionAttemptRow;
  db_observations : list HostedExecutionObservationRow;
  db_controls : gmap (string * string * string) HostedGateControlRow;
  db_gate : gmap string HostedGateReservationRow;
  db_events : list HostedGateEventRow;
}.
#[export] Instance eta_hosted_db : Eta HostedDb := λ d,
  MkHostedDb (db_executions d) (db_allocators d) (db_attempts d) (db_observations d)
    (db_controls d) (db_gate d) (db_events d).

Definition empty_db : HostedDb := MkHostedDb ∅ ∅ [] [] ∅ ∅ [].

(** The repository's transactions over this database. *)
Abbreviation repo := (txn HostedDb).

(** Flushing a mutated row of a table. *)
Definition put_execution (r : HostedExecutionRow) : repo unit :=
  writes (λ d, d <| db_executions := <[er_execution_id r := r]> (db_executions d) |>).
Definition put_gate (execution_id : string) (g : HostedGateReservationRow) : repo unit :=
  writes (λ d, d <| db_gate := <[execution_id := g]> (db_gate d) |>).
Definition put_allocator (key : string * string) (r : RelayerNonceRow) : repo unit :=
  writes (λ d, d <| db_allocators := <[key := r]> (db_allocators d) |>).

(** ** Constraints *)

(** The constraint [ck_hosted_execution_terminal_finality_evidence]. *)
Definition terminal_evidence_check (r : HostedExecutionRow) : bool :=
  if bool_decide (er_status r ∈ [CONFIRMED; FINALIZED; REVERTED; REORG_REVIEW]) then
    (((bool_decide (er_chain r ∈ ["eip155:8453"; "eip155:84532"]%string)) &&
      (2 <=? er_confirmations r) && bool_decide (er_finality_boundary r = Some "safe"%string)) ||
     ((bool_decide (er_chain r ∈ ["eip155:137"; "eip155:80002"]%string)) &&
      (3 <=? er_confirmations r) && bool_decide (er_finality_boundary r = Some "finalized"%string)))
    && bool_decide (is_Some (er_safe_block_number r))
    && bool_decide (is_Some (er_safe_block_hash r))
  else true.

(** The CHECK constraints of [hosted_executions]. *)
Definition row_checks (r : HostedExecutionRow) : bool :=
  let c := er_columns r in
  bool_decide (ic_chain c ∈ ["eip155:8453"; "eip155:137"; "eip155:84532"; "eip155:80002"]%string)
  && (0 <? str_len (ic_amount_atomic c))
  && (str_len (ic_capability_hash c) =? 66) && (str_len (ic_reservation_hash c) =? 66)
  && (str_len (ic_execution_scope_hash c) =? 66) && (str_len (ic_execution_digest c) =? 66)
  && (str_len (ic_canonical_hash c) =? 66)
  && (0 <? ic_signer_epoch c) && (0 <? str_len (ic_owner_nonce c))
  && (0 <=? er_relayer_nonce r) && (0 <=? er_signing_claim_generation r)
  && match er_signing_claim_expires_at r with
     | None => true
     | Some e => (0 <? er_signing_claim_generation r) && (0 <? e)
     end
  && (0 <? ic_deadline c) && terminal_evidence_check r.

(** The CHECK constraints of [hosted_gate_reservations]. *)
Definition gate_checks (g : HostedGateReservationRow) : bool :=
  (0 <=? gr_utc_day g) && (0 <=? gr_gas_cost_usd_micros g)
  && (((gr_gas_cost_usd_micros g =? 0) && bool_decide (gr_gas_utc_day g = None))
      || ((0 <? gr_gas_cost_usd_micros g)
          && match gr_gas_utc_day g with Some day => 0 <=? day | None => false end)).

(** [status NOT IN ('expired', 'released')]. *)
Definition is_active (r : HostedExecutionRow) : bool :=
  negb (bool_decide (er_status r ∈ [EXPIRED; RELEASED])).

(** Two rows that the unique constraints and the unique partial index
    [uq_hosted_execution_active_chain_relayer_nonce] do not allow together. *)
Definition rows_collide (r r' : HostedExecutionRow) : bool :=
  let c := er_columns r in let c' := er_columns r' in
  bool_decide (ic_capability_id c = ic_capability_id c')
  || bool_decide (ic_reservation_id c = ic_reservation_id c')
  || bool_decide (ic_purchase_id c = ic_purchase_id c')
  || (bool_decide (ic_tenant_id c = ic_tenant_id c')
      && bool_decide (ic_node_id c = ic_node_id c')
      && bool_decide (ic_idempotency_key c = ic_idempotency_key c'))
  || (is_active r && is_active r' && bool_decide (ic_chain c = ic_chain c')
      && bool_decide (ic_relayer_address c = ic_relayer_address c')
      && (er_relayer_nonce r =? er_relayer_nonce r')).

(** [session.add(row); session.flush()] of a new execution. *)
Definition insert_execution (r : HostedExecutionRow) : repo unit := λ d,
  if bool_decide (is_Some (db_executions d !! er_execution_id r)) then
    Err (IntegrityError "hosted_executions_pkey")
  else if bool_decide (is_Some (find_row (rows_collide r) (db_executions d))) then
    Err (IntegrityError "uq_hosted_execution")
  else if negb (row_checks r) then Err (IntegrityError "ck_hosted_execution")
  else put_execution r d.

(** ** The projection returned to callers *)

(** [HostedExecution]. *)
Record HostedExecution := MkHostedExecution {
  he_intent : ExecutionIntent;
  he_signature : option bytes; he_raw_transaction : option bytes;
  he_execution_id : string; he_status : ExecutionState; he_relayer_nonce : Z;
  he_signing_claim_generation : Z; he_signing_claim_expires_at : option Z;
  he_broadcast_attempts : Z; he_unsigned_transaction_hash : option string;
  he_raw_transaction_hash : option string; he_broadcasted_at : option Z;
  he_receipt_status : option Z; he_receipt_block_number : option Z;
  he_receipt_block_hash : option string; he_confirmations : Z;
  he_safe_block_number : option Z; he_safe_block_hash : option string;
  he_watcher_version : option string; he_finality_boundary : option string;
  he_reorg_state : string; he_reorg_evidence : option pydict;
  he_submission_failure_code : option string; he_release_evidence : option pydict;
  he_confirmed_at : option Z; he_finalized_at : option Z; he_reverted_at : option Z;
  he_released_at : option Z; he_expired_at : option Z; he_reorg_reviewed_at : option Z;
  he_created_at : Z; he_updated_at : Z;
}.

(** A validator applied to an optional field. *)
Definition validate_optional {A} (f : A → result A) (o : option A) : result (option A) :=
  match o with None => Ok None | Some a => Some <$> f a end.

(** [validate_signature] and [validate_raw_transaction]. *)
Definition validate_signature (b : bytes) : result bytes :=
  require (blen b =? 65) (ValueError "signature is invalid");; mret b.
Definition validate_raw_transaction (b : bytes) : result bytes :=
  require (0 <? blen b) (ValueError "raw_transaction is invalid");; mret b.
(** [validate_signing_claim_generation] and [validate_counters]. *)
Definition validate_counter (field_name : string) (value : Z) : result Z :=
  require (0 <=? value) (ValueError (field_name +:+ " is invalid"));; mret value.
(** [validate_receipt_status]. *)
Definition validate_receipt_status (value : Z) : result Z :=
  require ((value =? 0) || (value =? 1)) (ValueError "receipt_status is invalid");;
  mret value.
(** [validate_finality_boundary]. *)
Definition validate_finality_boundary (value : string) : result string :=
  require (bool_decide (value ∈ ["safe"; "finalized"]%string))
    (ValueError "finality_boundary is invalid");;
  mret value.
(** [validate_submission_failure_code]. *)
Definition validate_submission_failure_code (value : string) : result string :=
  require (is_reason_code 63 value) (ValueError "submission_failure_code is invalid");;
  mret value.
(** [validate_optional_hashes]. *)
Definition validate_optional_hash (field_name : string) :=
  validate_optional (λ s, validate_hash field_name (HashStr s)).
(** [validate_optional_timestamps]. *)
Definition validate_timestamp (field_name : string) :=
  validate_optional (validate_positive_int field_name).

(** [HostedExecution.validate_chain_finality]. *)
Definition validate_chain_finality (h : HostedExecution) : result HostedExecution :=
  match chain_profile (chain (he_intent h)) with
  | None => Err (ValueError "chain is not an approved Hosted network")
  | Some profile =>
      let boundary := Some (profile_finality_boundary profile) in
      require (negb (bool_decide (is_Some (he_finality_boundary h))
                     && negb (bool_decide (he_finality_boundary h = boundary))))
        (ValueError "finality_boundary does not match chain");;
      require (negb (bool_decide (he_status h ∈ [CONFIRMED; FINALIZED; REVERTED; REORG_REVIEW])
                     && negb (bool_decide (he_finality_boundary h = boundary))))
        (ValueError "terminal execution requires the chain finality boundary");;
      mret h
  end.

(** Constructing a [HostedExecution] from its raw fields. *)
Definition make_hosted_execution (h : HostedExecution) : result HostedExecution :=
  intent ← make_intent (he_intent h);
  signature ← validate_optional validate_signature (he_signature h);
  raw ← validate_optional validate_raw_transaction (he_raw_transaction h);
  id ← validate_identifier "execution_id" (he_execution_id h);
  nonce ← validate_uint256 "relayer_nonce" (he_relayer_nonce h);
  generation ← validate_counter "signing_claim_generation" (he_signing_claim_generation h);
  claim ← validate_timestamp "signing_claim_expires_at" (he_signing_claim_expires_at h);
  attempts ← validate_counter "broadcast_attempts" (he_broadcast_attempts h);
  uhash ← validate_optional_hash "unsigned_transaction_hash" (he_unsigned_transaction_hash h);
  rhash ← validate_optional_hash "raw_transaction_hash" (he_raw_transaction_hash h);
  rstatus ← validate_optional validate_receipt_status (he_receipt_status h);
  bhash ← validate_optional_hash "receipt_block_hash" (he_receipt_block_hash h);
  confs ← validate_counter "confirmations" (he_confirmations h);
  shash ← validate_optional_hash "safe_block_hash" (he_safe_block_hash h);
  boundary ← validate_optional validate_finality_boundary (he_finality_boundary h);
  failure ← validate_optional validate_submission_failure_code (he_submission_failure_code h);
  t1 ← validate_timestamp "confirmed_at" (he_confirmed_at h);
  t2 ← validate_timestamp "finalized_at" (he_finalized_at h);
  t3 ← validate_timestamp "reverted_at" (he_reverted_at h);
  t4 ← validate_timestamp "released_at" (he_released_at h);
  t5 ← validate_timestamp "expired_at" (he_expired_at h);
  t6 ← validate_timestamp "reorg_reviewed_at" (he_reorg_reviewed_at h);
  created ← validate_positive_int "created_at" (he_created_at h);
  updated ← validate_positive_int "updated_at" (he_updated_at h);
  validate_chain_finality
    (MkHostedExecution intent signature raw id (he_status h) nonce generation claim
       attempts uhash rhash (he_broadcasted_at h) rstatus (he_receipt_block_number h)
       bhash confs (he_safe_block_number h) shash (he_watcher_version h) boundary
       (he_reorg_state h) (he_reorg_evidence h) failure (he_release_evidence h)
       t1 t2 t3 t4 t5 t6 created updated).

(** A JSON member that must be a string for the projection's validators. *)
Definition str_item (d : pydict) (k : string) : result string :=
  v ← dict_item d k;
  match v with PStr s => Ok s | _ => Err (ValueError (k +:+ " is invalid")) end.

(** The intent half of [_record]: the columns of the row, with [request_id] and
    [request_hash] from the canonical payload. *)
Definition intent_of_columns (c : IntentColumns) : result ExecutionIntent :=
  request ← str_item (ic_canonical_payload c) "request_id";
  rhash ← str_item (ic_canonical_payload c) "request_hash";
  nonce ← from_option_or (parse_digits (ic_owner_nonce c))
            (ValueError "invalid literal for int()");
  mret (MkIntent (ic_tenant_id c) (ic_node_id c) (ic_wallet_binding_id c)
    (ic_capability_id c) (ic_reservation_id c) (ic_purchase_id c) request rhash
    (ic_idempotency_key c) (ic_chain c) (ic_owner c) (ic_payee c) (ic_token c)
    (ic_amount_atomic c) (ic_executor c) (ic_signer_epoch c) nonce
    (ic_deadline c) (ic_capability_hash c) (ic_reservation_hash c)
    (ic_execution_scope_hash c) (ic_execution_digest c) (ic_relayer_address c)).

(** [_record]. *)
Definition record (r : HostedExecutionRow) : result HostedExecution :=
  intent ← intent_of_columns (er_columns r);
  make_hosted_execution
    (MkHostedExecution intent (er_signature r) (er_raw_transaction r)
       (er_execution_id r) (er_status r) (er_relayer_nonce r)
       (er_signing_claim_generation r) (er_signing_claim_expires_at r)
       (er_broadcast_attempts r) (er_unsigned_transaction_hash r)
       (er_raw_transaction_hash r) (er_broadcasted_at r) (er_receipt_status r)
       (er_receipt_block_number r) (er_receipt_block_hash r) (er_confirmations r)
       (er_safe_block_number r) (er_safe_block_hash r) (er_watcher_version r)
       (er_finality_boundary r) (er_reorg_state r) (er_reorg_evidence r)
       (er_submission_failure_code r) (er_release_evidence r) (er_confirmed_at r)
       (er_finalized_at r) (er_reverted_at r) (er_released_at r) (er_expired_at r)
       (er_reorg_reviewed_at r) (er_created_at r) (er_updated_at r)).

(** [HostedExecution.is_terminal]. *)
Definition is_terminal (h : HostedExecution) : bool :=
  bool_decide (he_status h ∈ [REVERTED; EXPIRED; RELEASED; REORG_REVIEW]).

(** [_intent_columns]. *)
Definition intent_columns `{Sha256} (i : ExecutionIntent) : IntentColumns :=
  MkIntentColumns (tenant_id i) (node_id i) (wallet_binding_id i) (capability_id i)
    (reservation_id i) (purchase_id i) (idempotency_key i) (chain i) (owner i)
    (payee i) (token i) (amount_atomic i) (executor i) (signer_epoch i)
    (pretty (owner_nonce i)) (deadline i) (capability_hash i) (reservation_hash i)
    (execution_scope_hash i) (execution_digest i) (relayer_address i)
    (canonical_payload i) (canonical_hash i).
