(* ===== verification/PilotGate.v ===== *)
(** * The pilot gate

    The policy of [facilitator/pilot_gate.py] - its validation, UTC days and the
    worst-case gas cost - and the gate operations of
    [facilitator/execution_repository.py]: admission against pauses and quotas,
    the daily gas budgets, events, and closing a reservation. *)

From S2P Require Import Prelude PyValue ExecutionModels ExecutionTables.
From Stdlib Require Import Ascii.

(** ** Policy arithmetic *)

Definition SECONDS_PER_UTC_DAY : Z := 86400.
Definition WEI_PER_NATIVE_UNIT : Z := 10 ^ 18.

Definition PILOT_GATE_REASON_CODES : list string :=
  ["platform_paused"; "tenant_paused"; "node_paused"; "node_in_flight_limit";
   "node_daily_limit"; "node_lifetime_limit"; "node_daily_gas_limit";
   "platform_daily_gas_limit"]%string.

(** Constructing a [PilotGateDenied]. *)
Definition pilot_gate_denied (reason_code : string) : exn :=
  if bool_decide (reason_code ∈ PILOT_GATE_REASON_CODES) then PilotGateDenied reason_code
  else ValueError "pilot gate reason code is invalid".

(** [PilotGatePolicy]. *)
Record PilotGatePolicy := MkPolicy {
  native_asset_usd_price_ceiling_micros : Z;
  max_in_flight_per_node : Z;
  max_accepted_per_node_utc_day : Z;
  max_accepted_per_node_lifetime : Z;
  max_gas_usd_micros_per_node_utc_day : Z;
  max_gas_usd_micros_platform_utc_day : Z;
}.

(** [_positive_int] of the gate. *)
Definition gate_positive_int (field_name : string) (value : Z) : result Z :=
  require (0 <? value) (ValueError (field_name +:+ " must be a positive integer"));;
  mret value.

(** [PilotGatePolicy.__post_init__]. *)
Definition make_policy (p : PilotGatePolicy) : result PilotGatePolicy :=
  gate_positive_int "max_in_flight_per_node" (max_in_flight_per_node p);;
  gate_positive_int "max_accepted_per_node_utc_day" (max_accepted_per_node_utc_day p);;
  gate_positive_int "max_accepted_per_node_lifetime" (max_accepted_per_node_lifetime p);;
  gate_positive_int "max_gas_usd_micros_per_node_utc_day"
    (max_gas_usd_micros_per_node_utc_day p);;
  gate_positive_int "max_gas_usd_micros_platform_utc_day"
    (max_gas_usd_micros_platform_utc_day p);;
  gate_positive_int "native_asset_usd_price_ceiling_micros"
    (native_asset_usd_price_ceiling_micros p);;
  mret p.

(** The defaults of the dataclass. *)
Definition default_policy (ceiling : Z) : PilotGatePolicy :=
  MkPolicy ceiling 10 50 250 1000000 100000000.

(** [utc_day]. *)
Definition utc_day (timestamp : Z) : result Z :=
  value ← gate_positive_int "timestamp" timestamp;
  mret (value / SECONDS_PER_UTC_DAY).

Lemma utc_day_Ok timestamp day :
  utc_day timestamp = Ok day → 0 < timestamp ∧ day = timestamp / SECONDS_PER_UTC_DAY ∧ 0 <= day.
Proof.
  unfold utc_day, gate_positive_int. intros. txn_inv. bool_inv. split_and!; try done.
  apply Z.div_pos; [lia|done].
Qed.

(** [worst_case_gas_usd_micros]. *)
Definition worst_case_gas_usd_micros (gas_limit max_fee_per_gas_wei price_ceiling_micros : Z)
    : result Z :=
  gas_limit_value ← gate_positive_int "gas_limit" gas_limit;
  max_fee_value ← gate_positive_int "max_fee_per_gas_wei" max_fee_per_gas_wei;
  price_ceiling_value ← gate_positive_int "price_ceiling_micros" price_ceiling_micros;
  let numerator := gas_limit_value * max_fee_value * price_ceiling_value in
  mret ((numerator + WEI_PER_NATIVE_UNIT - 1) / WEI_PER_NATIVE_UNIT).

(** ** Queries *)

(** The scopes [_pilot_admission_denial] reads, with their denial reasons. *)
Definition pilot_controls (tenant_id node_id : string)
    : list (string * string * string * string) :=
  [ (("platform", EmptyString, EmptyString), "platform_paused");
    (("tenant", tenant_id, EmptyString), "tenant_paused");
    (("node", tenant_id, node_id), "node_paused") ]%string.

Definition control_paused (d : HostedDb) (key : string * string * string) : bool :=
  match db_controls d !! key with Some row => gc_paused row | None => false end.

(** The first paused scope. *)
Definition paused_reason (d : HostedDb) (tenant_id node_id : string) : option string :=
  snd <$> head (filter (λ kr, control_paused d kr.1 = true) (pilot_controls tenant_id node_id)).

(** The WHERE clauses of the quota queries. *)
Definition in_scope (tenant_id node_id : string) (g : HostedGateReservationRow) : bool :=
  bool_decide (gr_tenant_id g = tenant_id) && bool_decide (gr_node_id g = node_id).
Definition in_flight (d : HostedDb) (tenant_id node_id : string) : Z :=
  table_count (λ g, in_scope tenant_id node_id g && bool_decide (gr_state g = GateReserved))
    (db_gate d).
Definition accepted_on (d : HostedDb) (tenant_id node_id : string) (day : Z) : Z :=
  table_count (λ g, in_scope tenant_id node_id g && (gr_utc_day g =? day)) (db_gate d).
Definition accepted_lifetime (d : HostedDb) (tenant_id node_id : string) : Z :=
  table_count (in_scope tenant_id node_id) (db_gate d).

(** [_pilot_gas_total] before its exclusion: the gas charged to a day, for one
    node or for the platform. *)
Definition gas_on (day : Z) (scope : HostedGateReservationRow → bool)
    (g : HostedGateReservationRow) : Z :=
  if bool_decide (gr_gas_utc_day g = Some day) && scope g then gr_gas_cost_usd_micros g else 0.
Definition platform_scope (_ : HostedGateReservationRow) : bool := true.

(** [_pilot_gas_total]. *)
Definition pilot_gas_total (d : HostedDb) (day : Z) (scope : HostedGateReservationRow → bool)
    (excluding_execution_id : string) : Z :=
  table_sum (gas_on day scope) (delete excluding_execution_id (db_gate d)).

(** [_pilot_admission_denial]. *)
Definition pilot_admission_denial (policy : option PilotGatePolicy)
    (tenant_id node_id : string) (timestamp : Z) (include_quotas : bool) (d : HostedDb)
    : result (option string) :=
  match policy with
  | None => Ok None
  | Some p =>
      match paused_reason d tenant_id node_id with
      | Some reason => Ok (Some reason)
      | None =>
          if negb include_quotas then Ok None else
          if max_in_flight_per_node p <=? in_flight d tenant_id node_id then
            Ok (Some "node_in_flight_limit"%string) else
          day ← utc_day timestamp;
          if max_accepted_per_node_utc_day p <=? accepted_on d tenant_id node_id day then
            Ok (Some "node_daily_limit"%string) else
          if max_accepted_per_node_lifetime p <=? accepted_lifetime d tenant_id node_id then
            Ok (Some "node_lifetime_limit"%string) else
          Ok None
      end
  end.

(** ** Mutations *)

(** [_add_gate_event]. *)
Definition add_gate_event (execution_id : option string)
    (tenant_id node_id idempotency_key event_type reason_code : string)
    (gas_cost_usd_micros now : Z) : repo unit :=
  writes (λ d, d <| db_events := db_events d ++
    [MkGateEvent execution_id tenant_id node_id idempotency_key event_type
       (Some reason_code) gas_cost_usd_micros now] |>).

(** The event of one execution. *)
Definition add_row_event (r : HostedExecutionRow) (event_type reason_code : string)
    (gas_cost_usd_micros now : Z) : repo unit :=
  add_gate_event (Some (er_execution_id r)) (er_tenant_id r) (er_node_id r)
    (er_idempotency_key r) event_type reason_code gas_cost_usd_micros now.

(** The guard every gated mutation of an execution starts with: the denial
    reason, recorded as an event when there is one. *)
Definition deny_paused (policy : option PilotGatePolicy) (r : HostedExecutionRow)
    (timestamp : Z) : repo (option string) :=
  d ← reads id;
  lifts (pilot_admission_denial policy (er_tenant_id r) (er_node_id r) timestamp false d).

(** The columns a gas charge assigns. *)
Definition charged_gate (g : HostedGateReservationRow) (gas_cost day timestamp : Z)
    : HostedGateReservationRow :=
  g <| gr_gas_cost_usd_micros := gas_cost |>
    <| gr_gas_utc_day := Some day |> <| gr_updated_at := timestamp |>.

(** The columns closing a reservation assigns. *)
Definition closed_gate (g : HostedGateReservationRow) (state : GateState) (clear_gas : bool)
    (now : Z) : HostedGateReservationRow :=
  let g1 := g <| gr_state := state |> in
  let g2 := if clear_gas
            then g1 <| gr_gas_cost_usd_micros := 0 |> <| gr_gas_utc_day := None |>
            else g1 in
  g2 <| gr_updated_at := now |>.

(** The budget checks and the charge [_ensure_pilot_gas_reservation] ends with. *)
Definition charge_gas (p : PilotGatePolicy) (r : HostedExecutionRow)
    (g : HostedGateReservationRow) (day timestamp gas_cost : Z) (reason_code : string)
    : repo (option string) :=
  d ← reads id;
  if max_gas_usd_micros_per_node_utc_day p <?
     pilot_gas_total d day (in_scope (er_tenant_id r) (er_node_id r)) (er_execution_id r)
     + gas_cost
  then mret (Some "node_daily_gas_limit"%string)
  else if max_gas_usd_micros_platform_utc_day p <?
     pilot_gas_total d day platform_scope (er_execution_id r) + gas_cost
  then mret (Some "platform_daily_gas_limit"%string)
  else
    put_gate (er_execution_id r) (charged_gate g gas_cost day timestamp);;
    add_row_event r "gas_reserved" reason_code gas_cost timestamp;;
    mret None.

(** [_ensure_pilot_gas_reservation]. *)
Definition ensure_pilot_gas_reservation (policy : option PilotGatePolicy)
    (r : HostedExecutionRow) (timestamp : Z) : repo (option string) :=
  p ← lifts (from_option_or policy (ExecutionConflict "pilot gate policy is unavailable"));
  found ← reads (λ d, db_gate d !! er_execution_id r);
  g ← lifts (from_option_or found (ExecutionConflict "pilot gate reservation is unavailable"));
  requires (bool_decide (gr_state g = GateReserved))
    (ExecutionConflict "pilot gate reservation is unavailable");;
  day ← lifts (utc_day timestamp);
  if 0 <? gr_gas_cost_usd_micros g then
    match gr_gas_utc_day g with
    | None => raises (ExecutionConflict "pilot gate gas reservation is invalid")
    | Some gas_day =>
        if gas_day =? day then mret None
        else charge_gas p r g day timestamp (gr_gas_cost_usd_micros g) "gas_budget_reassigned"
    end
  else
    match gr_gas_utc_day g with
    | Some _ => raises (ExecutionConflict "pilot gate gas reservation is invalid")
    | None =>
        charge_gas p r g day timestamp (max_gas_usd_micros_per_node_utc_day p)
          "legacy_gas_budget_reserved"
    end.

(** [_mark_gate_terminal]. *)
Definition mark_gate_terminal (policy : option PilotGatePolicy) (r : HostedExecutionRow)
    (state : GateState) (reason_code : string) (clear_gas : bool) (now : Z) : repo unit :=
  match policy with
  | None => mret tt
  | Some _ =>
      found ← reads (λ d, db_gate d !! er_execution_id r);
      g ← lifts (from_option_or found
                   (ExecutionConflict "pilot gate reservation is unavailable"));
      if bool_decide (gr_state g = state) then mret tt else
      requires (bool_decide (gr_state g = GateReserved))
        (ExecutionConflict "pilot gate reservation state conflicts");;
      let g3 := closed_gate g state clear_gas now in
      put_gate (er_execution_id r) g3;;
      add_row_event r (gate_state_value state) reason_code (gr_gas_cost_usd_micros g3) now
  end.

(** [_release_gate_reservation]. *)
Definition release_gate_reservation (policy : option PilotGatePolicy)
    (r : HostedExecutionRow) (now : Z) : repo unit :=
  match policy with
  | None => mret tt
  | Some _ =>
      found ← reads (λ d, db_gate d !! er_execution_id r);
      g ← lifts (from_option_or found
                   (ExecutionConflict "pilot gate reservation is unavailable"));
      if bool_decide (gr_state g = GateReleased) then mret tt else
      requires (bool_decide (gr_state g ∈ [GateReserved; GateSettled]))
        (ExecutionConflict "pilot gate reservation state conflicts");;
      put_gate (er_execution_id r) (closed_gate g GateReleased false now);;
      add_row_event r "released" "safe_revert_release" (gr_gas_cost_usd_micros g) now
  end.

(** [_pilot_identity]. *)
Definition pilot_identity (tenant_id node_id : string) : result unit :=
  require (is_identifier tenant_id) (ExecutionConflict "tenant_id is invalid");;
  require (is_identifier node_id) (ExecutionConflict "node_id is invalid").

(** [_now], for a caller that may pass a clock reading. *)
Definition now_or (clock : Z) (value : option Z) : result Z :=
  match value with
  | None => Ok clock
  | Some t => require (0 <? t) (ExecutionConflict "execution clock is invalid");; mret t
  end.

(** [assert_pilot_gate_open]. *)
Definition assert_pilot_gate_open (policy : option PilotGatePolicy) (clock : Z)
    (tenant_id node_id : string) (now : option Z) (d : HostedDb) : result unit :=
  pilot_identity tenant_id node_id;;
  match policy with
  | None => Ok tt
  | Some _ =>
      timestamp ← now_or clock now;
      denial ← pilot_admission_denial policy tenant_id node_id timestamp false d;
      match denial with
      | Some reason => Err (pilot_gate_denied reason)
      | None => Ok tt
      end
  end.

(** [set_pilot_pause]. *)
Definition set_pilot_pause (clock : Z) (scope_type : string) (paused : bool)
    (reason_code tenant_id node_id : string) (now : option Z) (d : HostedDb)
    : result unit * HostedDb :=
  match
    require (bool_decide (scope_type ∈ ["platform"; "tenant"; "node"]%string))
      (ValueError "pilot pause scope is invalid");;
    require (is_reason_code 127 reason_code) (ValueError "pilot pause reason is invalid");;
    (if bool_decide (scope_type = "platform"%string) then
       require (bool_decide (tenant_id = EmptyString) && bool_decide (node_id = EmptyString))
         (ValueError "platform pause scope is invalid")
     else if bool_decide (scope_type = "tenant"%string) then
       require (is_identifier tenant_id) (ValueError "tenant pause scope is invalid");;
       require (bool_decide (node_id = EmptyString))
         (ValueError "tenant pause scope is invalid")
     else pilot_identity tenant_id node_id);;
    now_or clock now
  with
  | Err e => (Err e, d)
  | Ok timestamp =>
      let lock_tenant := if bool_decide (tenant_id = EmptyString) then "_platform"%string
                         else tenant_id in
      let lock_node :=
        if bool_decide (node_id = EmptyString) then
          (if bool_decide (tenant_id = EmptyString) then "_platform" else "_tenant")%string
        else node_id in
      write_session
        (writes (λ d, d <| db_controls :=
           <[(scope_type, tenant_id, node_id) :=
               MkControl paused (Some reason_code) timestamp]> (db_controls d) |>);;
         add_gate_event None
           (if bool_decide (scope_type = "platform"%string) then EmptyString else lock_tenant)
           (if bool_decide (scope_type = "node"%string) then lock_node else EmptyString)
           EmptyString "pause_changed" reason_code 0 timestamp) d
  end.
