(* ===== verification/NonceAllocator.v ===== *)
(** * Relayer nonces

    [_allocate_relayer_nonce] of [facilitator/execution_repository.py]: the
    least released nonce that is neither held nor tainted by a signature, else
    the next one of the relayer. *)

From S2P Require Import Prelude PyValue ExecutionModels ExecutionTables.
From Stdlib Require Import Ascii.

Definition MAX_RELAYER_NONCE : Z := 2 ^ 63 - 2.

(** [_canonical_nonce]. *)
Definition canonical_nonce (value : Z) : result Z :=
  require (negb ((value <? 0) || (MAX_RELAYER_NONCE <? value)))
    (ExecutionConflict "chain pending nonce is invalid");;
  mret value.

(** The rows of [hosted_executions] that spend from one relayer account. *)
Definition relayer_rows (d : HostedDb) (chain relayer_address : string)
    : list HostedExecutionRow :=
  filter (λ r, er_chain r = chain ∧ er_relayer_address r = relayer_address)
    (map_to_list (db_executions d)).*2.

(** [HostedExecutionRow.signature.is_not(None) or raw_transaction.is_not(None)]. *)
Definition is_signed (r : HostedExecutionRow) : bool :=
  bool_decide (is_Some (er_signature r)) || bool_decide (is_Some (er_raw_transaction r)).

Definition active_nonces (d : HostedDb) (chain relayer_address : string) : list Z :=
  er_relayer_nonce <$>
    filter (λ r, is_active r = true) (relayer_rows d chain relayer_address).
Definition tainted_nonces (d : HostedDb) (chain relayer_address : string) : list Z :=
  er_relayer_nonce <$>
    filter (λ r, is_signed r = true) (relayer_rows d chain relayer_address).

(** [func.min]. *)
Definition min_nonce (l : list Z) : option Z :=
  foldr (λ n acc, Some (match acc with None => n | Some m => Z.min n m end)) None l.

(** The rows whose nonce may be handed out again. *)
Definition is_recyclable (d : HostedDb) (chain relayer_address : string)
    (chain_confirmed_nonce : Z) (r : HostedExecutionRow) : bool :=
  bool_decide (er_status r ∈ [EXPIRED; RELEASED])
  && bool_decide (er_signature r = None) && bool_decide (er_raw_transaction r = None)
  && (chain_confirmed_nonce <=? er_relayer_nonce r)
  && negb (bool_decide (er_relayer_nonce r ∈ active_nonces d chain relayer_address))
  && negb (bool_decide (er_relayer_nonce r ∈ tainted_nonces d chain relayer_address)).

Definition recyclable_nonce (d : HostedDb) (chain relayer_address : string)
    (chain_confirmed_nonce : Z) : option Z :=
  min_nonce (er_relayer_nonce <$>
    filter (λ r, is_recyclable d chain relayer_address chain_confirmed_nonce r = true)
      (relayer_rows d chain relayer_address)).

(** [_allocate_relayer_nonce]. *)
Definition allocate_relayer_nonce (chain relayer_address : string)
    (chain_pending_nonce chain_confirmed_nonce now : Z) : repo Z :=
  let key := (chain, relayer_address) in
  d ← reads id;
  match db_allocators d !! key with
  | None =>
      put_allocator key (MkNonceRow (chain_pending_nonce + 1) now);;
      mret chain_pending_nonce
  | Some row =>
      match recyclable_nonce d chain relayer_address chain_confirmed_nonce with
      | Some nonce =>
          put_allocator key (row <| nr_updated_at := now |>);;
          mret nonce
      | None =>
          let nonce := nr_next_nonce row in
          requires (negb (nonce <? 0))
            (ExecutionConflict "relayer nonce allocator is invalid");;
          let nonce := Z.max nonce chain_pending_nonce in
          put_allocator key
            (row <| nr_next_nonce := nonce + 1 |> <| nr_updated_at := now |>);;
          mret nonce
      end
  end.

(** ** Facts about the queries *)

Lemma relayer_rows_elem d c a r :
  r ∈ relayer_rows d c a ↔
  er_chain r = c ∧ er_relayer_address r = a ∧ ∃ k, db_executions d !! k = Some r.
Proof.
  unfold relayer_rows. rewrite list_elem_of_filter, list_elem_of_fmap.
  split.
  - intros [[? ?] ([k r'] & -> & Hin)]. apply elem_of_map_to_list in Hin. eauto.
  - intros (? & ? & k & Hk). split; [done|]. exists (k, r). split; [done|].
    by apply elem_of_map_to_list.
Qed.

Lemma active_nonces_elem d k r :
  db_executions d !! k = Some r → is_active r = true →
  er_relayer_nonce r ∈ active_nonces d (er_chain r) (er_relayer_address r).
Proof.
  intros Hk Ha. apply list_elem_of_fmap. exists r. split; [done|].
  apply list_elem_of_filter. split; [done|]. apply relayer_rows_elem. eauto.
Qed.

Lemma tainted_nonces_elem d k r :
  db_executions d !! k = Some r → is_signed r = true →
  er_relayer_nonce r ∈ tainted_nonces d (er_chain r) (er_relayer_address r).
Proof.
  intros Hk Ha. apply list_elem_of_fmap. exists r. split; [done|].
  apply list_elem_of_filter. split; [done|]. apply relayer_rows_elem. eauto.
Qed.

Lemma min_nonce_elem l n : min_nonce l = Some n → n ∈ l.
Proof.
  revert n. induction l as [|m l IH]; simpl; [done|]. intros n [= <-].
  destruct (min_nonce l) as [k|]; [|left].
  destruct (Z.min_spec m k) as [[_ ->]|[_ ->]]; [left|right; auto].
Qed.

Lemma min_nonce_le l n m : min_nonce l = Some n → m ∈ l → n <= m.
Proof.
  revert n. induction l as [|k l IH]; simpl; intros n Hn Hm.
  - by apply elem_of_nil in Hm.
  - injection Hn as <-. apply elem_of_cons in Hm as [->|Hm].
    + destruct (min_nonce l); lia.
    + destruct (min_nonce l) as [j|] eqn:E; [specialize (IH j eq_refl Hm); lia|].
      destruct l; [by apply elem_of_nil in Hm|done].
Qed.

(** A recycled nonce belongs to a closed execution that never carried a
    signature; no open and no signed execution of the account holds it. *)
Lemma recyclable_nonce_spec d c a confirmed n :
  recyclable_nonce d c a confirmed = Some n →
  confirmed <= n ∧ n ∉ active_nonces d c a ∧ n ∉ tainted_nonces d c a ∧
  ∃ k r, db_executions d !! k = Some r ∧ er_chain r = c ∧ er_relayer_address r = a ∧
    er_relayer_nonce r = n ∧ er_status r ∈ [EXPIRED; RELEASED].
Proof.
  intros Hn%min_nonce_elem. apply list_elem_of_fmap in Hn as (r & -> & Hr).
  apply list_elem_of_filter in Hr as [Hrec Hr].
  apply relayer_rows_elem in Hr as (? & ? & k & Hk).
  unfold is_recyclable in Hrec. bool_inv. eauto 10.
Qed.
