(* ===== verification/ExecutionRepository.v ===== *)
(** * The hosted execution repository: operations

    [SqlExecutionRepository] of [facilitator/execution_repository.py] up to the
    broadcast: allocation, the gas reservation, the signing claim, the persisted
    signature, submission and its outcomes, rebroadcast.  An operation is a
    function of the database that returns its value or exception and the
    database it leaves; the instant [_now] reads and the ids drawn at random are
    arguments. *)

From S2P Require Import Prelude PyValue ExecutionModels Evm ExecutionTables PilotGate.
From S2P Require Import NonceAllocator.
From Stdlib Require Import Ascii.

Definition SIGNING_CLAIM_LEASE_SECONDS : Z := 15.

(** ** Watcher evidence *)

Definition OBSERVATION_EVIDENCE_KEYS : list string :=
  ["accepted_transfer"; "boundary"; "capability_used"; "confirmations";
   "finality_boundary_timestamp"; "owner_nonce_used"; "payment_event_found"; "reason";
   "receipt_block_number"; "safe_block_number"; "transfer_event_found";
   "watcher_version"; "finality_boundary"]%string.
Definition RELEASE_EVIDENCE_KEYS : list string :=
  ["receipt_status"; "canonical_receipt"; "finality_boundary_timestamp";
   "capability_used"; "owner_nonce_used"; "payment_event_found";
   "transfer_event_found"]%string.
Definition REORG_EVIDENCE_KEYS : list string :=
  ["canonical"; "observed_block_hash"; "previous_block_hash"; "reason";
   "watcher_version"]%string.

Definition no_control (s : string) : bool := all_chars (λ c, negb (is_control c)) s.

(** One member of [_public_evidence]. *)
Definition public_value (key : string) (value : pyval) : result pyval :=
  match value with
  | PBool _ => Ok value
  | PInt z =>
      require (0 <=? z) (ExecutionConflict "watcher evidence field is invalid");; mret value
  | PStr s =>
      if (0 <? str_len s) && (str_len s <=? 256) then
        require (negb (bool_decide (key = "watcher_version"%string) && (128 <? str_len s)))
          (ExecutionConflict "watcher version is invalid");;
        require (no_control s) (ExecutionConflict "watcher evidence field is invalid");;
        mret value
      else Err (ExecutionConflict "watcher evidence field is invalid")
  | _ => Err (ExecutionConflict "watcher evidence field is invalid")
  end.

Fixpoint project_evidence (d : pydict) : result pydict :=
  match d with
  | [] => Ok []
  | (k, v) :: d' =>
      w ← public_value k v;
      rest ← project_evidence d';
      mret ((k, w) :: rest)
  end.

(** [_public_evidence]. *)
Definition public_evidence (evidence : pyval) (allowed_keys : list string) : result pydict :=
  match evidence with
  | PDict d =>
      require (forallb (λ k, bool_decide (k ∈ allowed_keys)) (dict_keys d))
        (ExecutionConflict "watcher evidence contains a private or unknown field");;
      project_evidence d
  | _ => Err (ExecutionConflict "watcher evidence must be a public object")
  end.

(** [type(v) is int and v == z] and [type(v) is int and v > 0]. *)
Definition is_int_eq (z : Z) (v : pyval) : bool :=
  match v with PInt x => x =? z | _ => false end.
Definition is_pos_int (v : pyval) : bool :=
  match v with PInt x => 0 <? x | _ => false end.

(** [_release_evidence]. *)
Definition validate_release_evidence (value : pyval) : result pydict :=
  projected ← public_evidence value RELEASE_EVIDENCE_KEYS;
  require (same_keys (dict_keys projected) RELEASE_EVIDENCE_KEYS)
    (ExecutionConflict "release evidence is incomplete");;
  require (is_int_eq 0 (dict_get projected "receipt_status")
           && is_true (dict_get projected "canonical_receipt")
           && is_false (dict_get projected "capability_used")
           && is_false (dict_get projected "owner_nonce_used")
           && is_false (dict_get projected "payment_event_found")
           && is_false (dict_get projected "transfer_event_found")
           && is_pos_int (dict_get projected "finality_boundary_timestamp"))
    (ExecutionConflict "release evidence is invalid");;
  mret projected.

(** [_require_finality_boundary]. *)
Definition require_finality_boundary (receipt_block_number confirmations safe_block_number : Z)
    (safe_block_hash : string) (finality_boundary : string) (minimum_confirmations : Z)
    : result unit :=
  require (0 <=? receipt_block_number) (ExecutionConflict "receipt block evidence is invalid");;
  require (bool_decide (finality_boundary ∈ ["safe"; "finalized"]%string))
    (ExecutionConflict "finality boundary is invalid");;
  require (2 <=? minimum_confirmations) (ExecutionConflict "finality depth is invalid");;
  require (minimum_confirmations <=? confirmations)
    (ExecutionConflict "confirmation depth is insufficient");;
  require (receipt_block_number <=? safe_block_number)
    (ExecutionConflict "safe boundary is behind receipt");;
  require (negb (bool_decide (safe_block_hash = EmptyString)))
    (ExecutionConflict "safe boundary evidence is missing").

(** The guard on [watcher_version]. *)
Definition valid_watcher_version (v : string) : bool :=
  (0 <? str_len v) && (str_len v <=? 128) && no_control v.

(** ** Row access *)

(** [_require_row(self._locked_execution(session, execution_id))]. *)
Definition locked_execution (execution_id : string) : repo HostedExecutionRow :=
  found ← reads (λ d, db_executions d !! execution_id);
  lifts (from_option_or found (ExecutionNotFound "execution not found")).

(** [_existing_for_intent]: the rows bound to any identity of the intent, each
    once; at most one may exist. *)
Definition identity_matches (i : ExecutionIntent)
    : list (HostedExecutionRow → bool) :=
  [ λ r, bool_decide (ic_capability_id (er_columns r) = capability_id i);
    λ r, bool_decide (ic_reservation_id (er_columns r) = reservation_id i);
    λ r, bool_decide (ic_purchase_id (er_columns r) = purchase_id i);
    λ r, bool_decide (er_idempotency_key r = idempotency_key i)
         && bool_decide (er_tenant_id r = tenant_id i)
         && bool_decide (er_node_id r = node_id i) ].

Definition add_distinct (rows : list HostedExecutionRow) (o : option HostedExecutionRow)
    : list HostedExecutionRow :=
  match o with
  | None => rows
  | Some r =>
      if existsb (λ r', bool_decide (er_execution_id r' = er_execution_id r)) rows
      then rows else rows ++ [r]
  end.

Definition existing_for_intent (i : ExecutionIntent) (d : HostedDb)
    : result (option HostedExecutionRow) :=
  let found := map (λ p, find_row p (db_executions d)) (identity_matches i) in
  match foldl add_distinct [] found with
  | [] => Ok None
  | [r] => Ok (Some r)
  | _ => Err (ExecutionConflict "execution uniqueness bindings are inconsistent")
  end.

(** Code of the form [x = check(...)] before a session is opened. *)
Definition before_session {A B} (pre : result A) (k : A → HostedDb → result B * HostedDb)
    (d : HostedDb) : result B * HostedDb :=
  match pre with Ok a => k a d | Err e => (Err e, d) end.

Lemma before_session_Ok {A B} (pre : result A) (k : A → HostedDb → result B * HostedDb) d b d' :
  before_session pre k d = (Ok b, d') ↔ ∃ a, pre = Ok a ∧ k a d = (Ok b, d').
Proof.
  unfold before_session. destruct pre as [a|e]; [naive_solver|].
  split; [done|]. by intros (a & [=] & _).
Qed.

(** What follows a gated session: raise the denial it recorded, or return. *)
Definition denied_or {A} (message : string) (r : option string * option A) : result A :=
  match r with
  | (Some reason, _) => Err (pilot_gate_denied reason)
  | (None, Some a) => Ok a
  | (None, None) => Err (ExecutionConflict message)
  end.

Lemma denied_or_Ok {A} message (r : option string * option A) a :
  denied_or message r = Ok a ↔ r = (None, Some a).
Proof. unfold denied_or. destruct r as [[] []]; split; congruence. Qed.

(** [_add_attempt], under the unique constraint on (execution, number). *)
Definition add_attempt (r : HostedExecutionRow) (attempt_kind raw_hash : string)
    (attempt_number now : Z) : repo unit :=
  attempts ← reads db_attempts;
  requires (negb (existsb (λ a, bool_decide (at_execution_id a = er_execution_id r)
                                && (at_attempt_number a =? attempt_number)) attempts))
    (IntegrityError "uq_hosted_execution_attempt_number");;
  writes (λ d, d <| db_attempts := db_attempts d ++
    [MkAttempt (er_execution_id r) attempt_number attempt_kind raw_hash now] |>).

(** ** The columns each operation assigns *)

Definition watched_row (r : HostedExecutionRow) (timestamp_ns : Z) : HostedExecutionRow :=
  r <| er_watcher_attempted_at := Some timestamp_ns |>
    <| er_updated_at := Z.max (er_updated_at r) (timestamp_ns / 1000000000) |>.

(** The lease a signing claim receives. *)
Definition signing_lease (r : HostedExecutionRow) (timestamp : Z) : option Z :=
  Some (Z.min (er_deadline r) (timestamp + SIGNING_CLAIM_LEASE_SECONDS)).

(** A claim, from either state that admits one. *)
Definition claimed_row (r : HostedExecutionRow) (timestamp : Z) : HostedExecutionRow :=
  r <| er_status := SIGNING |>
    <| er_signing_claim_generation := er_signing_claim_generation r + 1 |>
    <| er_signing_claim_expires_at := signing_lease r timestamp |>
    <| er_updated_at := timestamp |>.

Definition signed_row (r : HostedExecutionRow) (signature raw_transaction : bytes)
    (raw_hash : string) (unsigned_transaction_hash : option string) (timestamp : Z)
    : HostedExecutionRow :=
  r <| er_signature := Some signature |>
    <| er_raw_transaction := Some raw_transaction |>
    <| er_raw_transaction_hash := Some raw_hash |>
    <| er_unsigned_transaction_hash := unsigned_transaction_hash |>
    <| er_signing_claim_expires_at := None |>
    <| er_status := SIGNED |> <| er_updated_at := timestamp |>.

(** [row.broadcast_attempts += 1; row.broadcasted_at = timestamp]. *)
Definition count_broadcast (r : HostedExecutionRow) (timestamp : Z) : HostedExecutionRow :=
  r <| er_broadcast_attempts := er_broadcast_attempts r + 1 |>
    <| er_broadcasted_at := Some timestamp |>.
(** The same, only when the row leaves [SIGNED]. *)
Definition count_first_broadcast (r : HostedExecutionRow) (timestamp : Z) : HostedExecutionRow :=
  if bool_decide (er_status r = SIGNED) then count_broadcast r timestamp else r.

Definition submission_claimed_row (r : HostedExecutionRow) (timestamp : Z)
    : HostedExecutionRow :=
  (count_broadcast r timestamp)
    <| er_status := SUBMISSION_UNKNOWN |> <| er_updated_at := timestamp |>.

Definition submitted_row (r : HostedExecutionRow) (timestamp : Z) : HostedExecutionRow :=
  (count_first_broadcast r timestamp)
    <| er_status := SUBMITTED |> <| er_submission_failure_code := None |>
    <| er_updated_at := timestamp |>.

(** [submission_failure_code] is cleared only on the way out of a rejection. *)
Definition unknown_row (r : HostedExecutionRow) (timestamp : Z) : HostedExecutionRow :=
  (count_first_broadcast r timestamp)
    <| er_submission_failure_code :=
         if bool_decide (er_status r = SUBMISSION_REJECTED) then None
         else er_submission_failure_code r |>
    <| er_status := SUBMISSION_UNKNOWN |> <| er_updated_at := timestamp |>.

Definition rejected_row (r : HostedExecutionRow) (reason_code : string) (timestamp : Z)
    : HostedExecutionRow :=
  (count_first_broadcast r timestamp)
    <| er_submission_failure_code := Some reason_code |>
    <| er_status := SUBMISSION_REJECTED |> <| er_updated_at := timestamp |>.

Definition rebroadcast_row (r : HostedExecutionRow) (timestamp : Z) : HostedExecutionRow :=
  r <| er_broadcast_attempts := er_broadcast_attempts r + 1 |>
    <| er_updated_at := timestamp |>.

(** The row a new execution starts as. *)
Definition new_execution `{Sha256} (execution_id : string) (i : ExecutionIntent)
    (relayer_nonce timestamp : Z) : HostedExecutionRow :=
  {| er_execution_id := execution_id; er_columns := intent_columns i;
     er_signature := None; er_relayer_nonce := relayer_nonce;
     er_signing_claim_generation := 0; er_signing_claim_expires_at := None;
     er_unsigned_transaction_hash := None; er_raw_transaction := None;
     er_raw_transaction_hash := None; er_status := PREFLIGHT_APPROVED;
     er_broadcast_attempts := 0; er_broadcasted_at := None;
     er_receipt_status := None; er_receipt_block_number := None;
     er_receipt_block_hash := None; er_confirmations := 0;
     er_safe_block_number := None; er_safe_block_hash := None;
     er_watcher_version := None; er_watcher_attempted_at := None;
     er_finality_boundary := None; er_reorg_state := "none";
     er_reorg_evidence := None; er_submission_failure_code := None;
     er_release_evidence := None; er_confirmed_at := None; er_finalized_at := None;
     er_reverted_at := None; er_released_at := None; er_expired_at := None;
     er_reorg_reviewed_at := None; er_created_at := timestamp;
     er_updated_at := timestamp |}.

Section Repository.
Context `{Sha256, Keccak} (policy : option PilotGatePolicy) (clock : Z).

(** [_ethereum_transaction_hash]. *)
Definition ethereum_transaction_hash (raw : bytes) : result string :=
  match raw_transaction_hash raw with
  | Ok digest => Ok ("0x" +:+ hex digest)
  | Err _ => Err (ExecutionConflict "raw transaction is invalid")
  end.

(** [_require_raw_transaction]. *)
Definition require_raw_transaction (r : HostedExecutionRow) : result bytes :=
  match er_raw_transaction r with
  | None | Some [] => Err (ExecutionConflict "raw transaction is missing")
  | Some raw =>
      expected ← ethereum_transaction_hash raw;
      require (bool_decide (er_raw_transaction_hash r = Some expected))
        (ExecutionConflict "raw transaction hash is inconsistent");;
      mret raw
  end.

(** [_require_exact_intent]. *)
Definition require_exact_intent (r : HostedExecutionRow) (i : ExecutionIntent) : result unit :=
  require (bool_decide (ic_canonical_hash (er_columns r) = canonical_hash i)
           && dict_eqb (ic_canonical_payload (er_columns r)) (canonical_payload i))
    (ExecutionConflict "immutable execution scope changed").

(** The pilot guard of an operation on one execution: a denial is recorded
    as an event of the same session. *)
Definition gate_admission (r : HostedExecutionRow) (timestamp : Z) : repo (option string) :=
  denial ← deny_paused policy r timestamp;
  match denial with
  | Some reason => add_row_event r "denied" reason 0 timestamp;; mret (Some reason)
  | None => mret None
  end.

(** The same guard when the operation also spends relayer gas. *)
Definition admit_with_gas (r : HostedExecutionRow) (timestamp : Z) : repo (option string) :=
  match policy with
  | None => mret None
  | Some _ =>
      paused ← deny_paused policy r timestamp;
      denial ← match paused with
               | Some reason => mret (Some reason)
               | None => ensure_pilot_gas_reservation policy r timestamp
               end;
      match denial with
      | Some reason => add_row_event r "denied" reason 0 timestamp;; mret (Some reason)
      | None => mret None
      end
  end.

(** *** Allocation *)

(** The body of the savepoint. *)
Definition allocate_once (execution_id : string) (i : ExecutionIntent)
    (chain_pending_nonce chain_confirmed_nonce timestamp : Z) : repo HostedExecutionRow :=
  relayer_nonce ← allocate_relayer_nonce (chain i) (relayer_address i)
                    chain_pending_nonce chain_confirmed_nonce timestamp;
  let row := new_execution execution_id i relayer_nonce timestamp in
  insert_execution row;;
  match policy with
  | None => mret row
  | Some _ =>
      day ← lifts (utc_day timestamp);
      put_gate execution_id
        (MkGateReservation (tenant_id i) (node_id i) (idempotency_key i) day
           GateReserved 0 None timestamp timestamp);;
      add_gate_event (Some execution_id) (tenant_id i) (node_id i) (idempotency_key i)
        "allowed" "pilot_admission_allowed" 0 timestamp;;
      mret row
  end.

(** [for _attempt in range(4)]: an [IntegrityError] rolls the savepoint back
    and the execution another writer committed, if any, is returned. *)
Fixpoint allocation_attempts (fuel : nat) (ids : nat → string) (i : ExecutionIntent)
    (chain_pending_nonce chain_confirmed_nonce timestamp : Z)
    : repo HostedExecution := λ d,
  match fuel with
  | O => Err (ExecutionConflict "execution allocation could not be committed")
  | S fuel' =>
      match allocate_once (ids fuel') i chain_pending_nonce chain_confirmed_nonce
              timestamp d with
      | Ok (row, d') => (h ← lifts (record row); mret h) d'
      | Err (IntegrityError _) =>
          match existing_for_intent i d with
          | Err e => Err e
          | Ok (Some row) =>
              (lifts (require_exact_intent row i);; lifts (record row)) d
          | Ok None =>
              allocation_attempts fuel' ids i chain_pending_nonce
                chain_confirmed_nonce timestamp d
          end
      | Err e => Err e
      end
  end.

(** [allocate_or_return]. *)
Definition allocate_or_return (ids : nat → string) (i : ExecutionIntent)
    (chain_pending_nonce : Z) (chain_confirmed_nonce now : option Z)
    : HostedDb → result HostedExecution * HostedDb :=
  before_session
    (pending ← canonical_nonce chain_pending_nonce;
     confirmed ← canonical_nonce (default pending chain_confirmed_nonce);
     require (negb (pending <? confirmed))
       (ExecutionConflict "chain nonce observations are inconsistent");;
     timestamp ← now_or clock now;
     mret (pending, confirmed, timestamp))
    (λ '(pending, confirmed, timestamp) d,
      after_session (denied_or "execution allocation could not be committed")
        (write_session
           (existing ← (d ← reads id; lifts (existing_for_intent i d));
            match existing with
            | Some row =>
                lifts (require_exact_intent row i);;
                h ← lifts (record row); mret (None, Some h)
            | None =>
                d ← reads id;
                denial ← lifts (pilot_admission_denial policy (tenant_id i) (node_id i)
                                  timestamp true d);
                match denial with
                | Some reason =>
                    add_gate_event None (tenant_id i) (node_id i) (idempotency_key i)
                      "denied" reason 0 timestamp;;
                    mret (Some reason, None)
                | None =>
                    h ← allocation_attempts 4 ids i pending confirmed timestamp;
                    mret (None, Some h)
                end
            end) d)).

(** [find_for_intent]: the exact durable replay, without any chain input. *)
Definition find_for_intent (i : ExecutionIntent) (d : HostedDb)
    : result (option HostedExecution) :=
  existing ← existing_for_intent i d;
  match existing with
  | None => mret None
  | Some row => require_exact_intent row i;; h ← record row; mret (Some h)
  end.

(** [find_for_identity]. *)
Definition find_for_identity (tenant_id node_id idempotency_key : string) (d : HostedDb)
    : result (option HostedExecution) :=
  require (is_identifier tenant_id) (ExecutionConflict "tenant_id is invalid");;
  require (is_identifier node_id) (ExecutionConflict "node_id is invalid");;
  require (is_identifier idempotency_key) (ExecutionConflict "idempotency_key is invalid");;
  match find_row (λ r, bool_decide (er_tenant_id r = tenant_id)
                       && bool_decide (er_node_id r = node_id)
                       && bool_decide (er_idempotency_key r = idempotency_key))
          (db_executions d) with
  | None => mret None
  | Some row => h ← record row; mret (Some h)
  end.

(** [get_execution]. *)
Definition get_execution (execution_id : string) (d : HostedDb)
    : result (option HostedExecution) :=
  match db_executions d !! execution_id with
  | None => mret None
  | Some row => h ← record row; mret (Some h)
  end.

(** [record_watcher_attempt]. *)
Definition record_watcher_attempt (execution_id : string) (now_ns : option Z)
    : HostedDb → result unit * HostedDb :=
  before_session
    (require (negb (bool_decide (execution_id = EmptyString)))
       (ValueError "execution ID is invalid");;
     let timestamp_ns := default (clock * 1000000000) now_ns in
     require (0 <? timestamp_ns) (ValueError "watcher attempt timestamp is invalid");;
     mret timestamp_ns)
    (λ timestamp_ns, write_session
       (row ← locked_execution execution_id;
        put_execution (watched_row row timestamp_ns))).

(** *** Gas *)

(** [reserve_pilot_gas]. *)
Definition reserve_pilot_gas (execution_id : string)
    (gas_cost_usd_micros signing_claim_generation : Z) (now : option Z)
    : HostedDb → result Z * HostedDb :=
  before_session
    (p ← from_option_or policy (ExecutionConflict "pilot gate policy is unavailable");
     require (0 <? gas_cost_usd_micros)
       (ExecutionConflict "gas budget reservation is invalid");;
     require (0 <? signing_claim_generation) (ExecutionConflict "signing claim is invalid");;
     timestamp ← now_or clock now;
     mret (p, timestamp))
    (λ '(p, timestamp) d,
      after_session (denied_or "unreachable")
        (write_session
           (execution ← locked_execution execution_id;
            requires (bool_decide (er_status execution = SIGNING))
              (ExecutionConflict "execution is not awaiting gas reservation");;
            requires (er_signing_claim_generation execution =? signing_claim_generation)
              (ExecutionConflict "signing claim is stale");;
            found ← reads (λ d, db_gate d !! er_execution_id execution);
            reservation ← lifts (from_option_or found
              (ExecutionConflict "pilot gate reservation is unavailable"));
            requires (bool_decide (gr_state reservation = GateReserved))
              (ExecutionConflict "pilot gate reservation is unavailable");;
            paused ← deny_paused policy execution timestamp;
            let deny (reason : string) : repo (option string * option Z) :=
              add_row_event execution "denied" reason gas_cost_usd_micros timestamp;;
              mret (Some reason, None) in
            match paused with
            | Some reason => deny reason
            | None =>
                day ← lifts (utc_day timestamp);
                d ← reads id;
                let node_total := pilot_gas_total d day
                  (in_scope (er_tenant_id execution) (er_node_id execution))
                  (er_execution_id execution) in
                let platform_total := pilot_gas_total d day platform_scope
                  (er_execution_id execution) in
                if max_gas_usd_micros_per_node_utc_day p <? node_total + gas_cost_usd_micros
                then deny "node_daily_gas_limit"
                else if max_gas_usd_micros_platform_utc_day p
                        <? platform_total + gas_cost_usd_micros
                then deny "platform_daily_gas_limit"
                else if negb (gr_gas_cost_usd_micros reservation =? gas_cost_usd_micros)
                   || negb (bool_decide (gr_gas_utc_day reservation = Some day))
                then
                  put_gate (er_execution_id execution)
                    (charged_gate reservation gas_cost_usd_micros day timestamp);;
                  add_row_event execution "gas_reserved" "gas_budget_reserved"
                    gas_cost_usd_micros timestamp;;
                  mret (None, Some gas_cost_usd_micros)
                else mret (None, Some gas_cost_usd_micros)
            end) d)).

(** *** Signing *)

(** [claim_signing]. *)
Definition claim_signing (execution_id : string) (now : option Z)
    : HostedDb → result (HostedExecution * bool) * HostedDb :=
  before_session (now_or clock now) (λ timestamp d,
    after_session (denied_or "execution signing claim is unavailable")
      (write_session
         (row ← locked_execution execution_id;
          denial ← gate_admission row timestamp;
          match denial with
          | Some reason => mret (Some reason, None)
          | None =>
              if bool_decide (er_status row = SIGNING) then
                requires (timestamp <? er_deadline row)
                  (ExecutionConflict "execution deadline has expired");;
                expires_at ← lifts (from_option_or (er_signing_claim_expires_at row)
                  (ExecutionConflict "execution signing claim is invalid"));
                requires (0 <? er_signing_claim_generation row)
                  (ExecutionConflict "execution signing claim is invalid");;
                if timestamp <? expires_at then
                  h ← lifts (record row); mret (None, Some (h, false))
                else
                  put_execution (claimed_row row timestamp);;
                  h ← lifts (record (claimed_row row timestamp));
                  mret (None, Some (h, true))
              else
                requires (bool_decide (er_status row = PREFLIGHT_APPROVED))
                  (ExecutionConflict "execution cannot be claimed for signing");;
                requires (timestamp <? er_deadline row)
                  (ExecutionConflict "execution deadline has expired");;
                put_execution (claimed_row row timestamp);;
                h ← lifts (record (claimed_row row timestamp));
                mret (None, Some (h, true))
          end) d)).

(** The gas reservation a signed transaction must already hold. *)
Definition require_gas_reserved (r : HostedExecutionRow) : repo unit :=
  match policy with
  | None => mret tt
  | Some _ =>
      found ← reads (λ d, db_gate d !! er_execution_id r);
      g ← lifts (from_option_or found
                   (ExecutionConflict "gas budget reservation is unavailable"));
      requires (bool_decide (gr_state g = GateReserved)
                && (0 <? gr_gas_cost_usd_micros g)
                && bool_decide (is_Some (gr_gas_utc_day g)))
        (ExecutionConflict "gas budget reservation is unavailable")
  end.

(** [persist_signed_transaction]. *)
Definition persist_signed_transaction (execution_id : string) (signature raw_transaction : bytes)
    (signing_claim_generation : Z) (unsigned_transaction_hash : option string)
    (now : option Z) : HostedDb → result HostedExecution * HostedDb :=
  before_session
    (require (blen signature =? 65) (ExecutionConflict "signature is invalid");;
     require (0 <? blen raw_transaction) (ExecutionConflict "raw transaction is invalid");;
     require (0 <? signing_claim_generation) (ExecutionConflict "signing claim is invalid");;
     timestamp ← now_or clock now;
     raw_hash ← ethereum_transaction_hash raw_transaction;
     mret (timestamp, raw_hash))
    (λ '(timestamp, raw_hash) d,
      after_session (denied_or "signed transaction persistence is unavailable")
        (write_session
           (row ← locked_execution execution_id;
            requires (er_signing_claim_generation row =? signing_claim_generation)
              (ExecutionConflict "signing claim is stale");;
            if bool_decide (er_status row = SIGNED) then
              requires (bool_decide (er_signature row = Some signature)
                        && bool_decide (er_raw_transaction row = Some raw_transaction))
                (ExecutionConflict "signed raw transaction is immutable");;
              h ← lifts (record row); mret (None, Some h)
            else
              requires (bool_decide (er_status row = SIGNING))
                (ExecutionConflict "execution is not awaiting signing");;
              requires (timestamp <? er_deadline row)
                (ExecutionConflict "execution deadline has expired");;
              denial ← gate_admission row timestamp;
              match denial with
              | Some reason => mret (Some reason, None)
              | None =>
                  require_gas_reserved row;;
                  let row' := signed_row row signature raw_transaction raw_hash
                                unsigned_transaction_hash timestamp in
                  put_execution row';;
                  add_attempt row' "signed" raw_hash 0 timestamp;;
                  h ← lifts (record row'); mret (None, Some h)
              end) d)).

(** *** Submission *)

(** [row.raw_transaction_hash], which a signed row carries. *)
Definition transaction_hash (r : HostedExecutionRow) : result string :=
  from_option_or (er_raw_transaction_hash r) (ExecutionConflict "transaction hash is missing").

(** [claim_submission]. *)
Definition claim_submission (execution_id : string) (now : option Z)
    : HostedDb → result (HostedExecution * bool) * HostedDb :=
  before_session (now_or clock now) (λ timestamp d,
    after_session (denied_or "execution submission claim is unavailable")
      (write_session
         (row ← locked_execution execution_id;
          denial ← admit_with_gas row timestamp;
          match denial with
          | Some reason => mret (Some reason, None)
          | None =>
              if bool_decide (er_status row = SUBMISSION_UNKNOWN) then
                lifts (require_raw_transaction row);;
                h ← lifts (record row); mret (None, Some (h, false))
              else
                requires (bool_decide (er_status row = SIGNED))
                  (ExecutionConflict "execution cannot be claimed for submission");;
                lifts (require_raw_transaction row);;
                tx_hash ← lifts (transaction_hash row);
                let row' := submission_claimed_row row timestamp in
                put_execution row';;
                add_attempt row' "broadcast_claimed" tx_hash
                  (er_broadcast_attempts row') timestamp;;
                h ← lifts (record row'); mret (None, Some (h, true))
          end) d)).

(** [mark_submitted]. *)
Definition mark_submitted (execution_id : string) (now : option Z)
    : HostedDb → result HostedExecution * HostedDb :=
  before_session (now_or clock now) (λ timestamp, write_session
    (row ← locked_execution execution_id;
     let current := er_status row in
     if bool_decide (current = SUBMITTED) then
       lifts (require_raw_transaction row);; lifts (record row)
     else
       requires (bool_decide (current ∈ [SIGNED; SUBMISSION_UNKNOWN; SUBMISSION_REJECTED]))
         (ExecutionConflict "only a signed execution may be submitted");;
       lifts (require_raw_transaction row);;
       tx_hash ← lifts (transaction_hash row);
       let row' := submitted_row row timestamp in
       put_execution row';;
       (if bool_decide (current = SIGNED) then
          add_attempt row' "broadcast" tx_hash (er_broadcast_attempts row') timestamp
        else mret tt);;
       lifts (record row'))).

(** [mark_submission_unknown]. *)
Definition mark_submission_unknown (execution_id : string) (now : option Z)
    : HostedDb → result HostedExecution * HostedDb :=
  before_session (now_or clock now) (λ timestamp, write_session
    (row ← locked_execution execution_id;
     let current := er_status row in
     if bool_decide (current = SUBMISSION_UNKNOWN) then
       lifts (require_raw_transaction row);; lifts (record row)
     else
       requires (bool_decide (current ∈ [SIGNED; SUBMITTED; SUBMISSION_REJECTED]))
         (ExecutionConflict "execution cannot become submission_unknown");;
       lifts (require_raw_transaction row);;
       let row' := unknown_row row timestamp in
       (if bool_decide (current = SIGNED) then
          tx_hash ← lifts (transaction_hash row);
          add_attempt row' "broadcast_unknown" tx_hash (er_broadcast_attempts row') timestamp
        else mret tt);;
       put_execution row';;
       lifts (record row'))).

(** [mark_submission_rejected]. *)
Definition mark_submission_rejected (execution_id reason_code : string) (now : option Z)
    : HostedDb → result HostedExecution * HostedDb :=
  before_session
    (require (is_reason_code 63 reason_code)
       (ExecutionConflict "submission failure code is invalid");;
     now_or clock now)
    (λ timestamp, write_session
      (row ← locked_execution execution_id;
       let current := er_status row in
       if bool_decide (current = SUBMISSION_REJECTED) then
         lifts (require_raw_transaction row);;
         requires (bool_decide (er_submission_failure_code row = Some reason_code))
           (ExecutionConflict "submission failure reason conflicts");;
         lifts (record row)
       else
         requires (bool_decide (current ∈ [SIGNED; SUBMISSION_UNKNOWN]))
           (ExecutionConflict "only a signed execution may be rejected");;
         lifts (require_raw_transaction row);;
         tx_hash ← lifts (transaction_hash row);
         let row' := rejected_row row reason_code timestamp in
         put_execution row';;
         (if bool_decide (current = SIGNED) then
            add_attempt row' "broadcast_rejected" tx_hash (er_broadcast_attempts row') timestamp
          else mret tt);;
         lifts (record row'))).

(** [rebroadcast_raw_transaction]. *)
Definition rebroadcast_raw_transaction (execution_id : string)
    (raw_transaction : option bytes) (now : option Z)
    : HostedDb → result bytes * HostedDb :=
  before_session (now_or clock now) (λ timestamp d,
    after_session (denied_or "persisted transaction is unavailable")
      (write_session
         (row ← locked_execution execution_id;
          requires (bool_decide (er_status row ∈
                      [SUBMITTED; SUBMISSION_UNKNOWN; SUBMISSION_REJECTED]))
            (ExecutionConflict "replacement or rebroadcast is not allowed");;
          stored ← lifts (require_raw_transaction row);
          requires (match raw_transaction with
                    | None => true
                    | Some raw => bool_decide (raw = stored)
                    end) (ExecutionConflict "raw transaction replacement is forbidden");;
          tx_hash ← lifts (transaction_hash row);
          denial ← admit_with_gas row timestamp;
          match denial with
          | Some reason => mret (Some reason, None)
          | None =>
              let row' := rebroadcast_row row timestamp in
              put_execution row';;
              add_attempt row' "rebroadcast" tx_hash (er_broadcast_attempts row') timestamp;;
              mret (None, Some stored)
          end) d)).
End Repository.
