(* ===== verification/ExecutionSettlement.v ===== *)
(** * The hosted execution repository: settlement and release

    The other half of [SqlExecutionRepository]: the generic transition, the
    watcher's observations (confirm, revert, finalize, reorg review), and the
    ways an execution is released ([facilitator/execution_repository.py]). *)

From S2P Require Import Prelude PyValue ExecutionModels Evm ExecutionTables PilotGate.
From S2P Require Import NonceAllocator ExecutionRepository.
From Stdlib Require Import Ascii.

(** [safe_block_hash.lower() if safe_block_hash else None]. *)
Definition lower_or_none (s : string) : option string :=
  if bool_decide (s = EmptyString) then None else Some (lower s).
(** [x.lower() if x else None] of an optional column. *)
Definition lower_opt (o : option string) : option string :=
  match o with None => None | Some s => lower_or_none s end.

(** The watcher's view of a receipt at a finality boundary. *)
Record Receipt := MkReceipt {
  rc_status : Z; rc_block_number : Z; rc_block_hash : string; rc_confirmations : Z;
  rc_safe_block_number : Z; rc_safe_block_hash : string; rc_watcher_version : string;
  rc_finality_boundary : string;
}.

(** ** The columns each operation assigns *)

(** [transition]: the status and the columns of a closing transition. *)
Definition transitioned_row (r : HostedExecutionRow) (target : ExecutionState)
    (timestamp : Z) : HostedExecutionRow :=
  let row1 := r <| er_status := target |> in
  let row2 := match target with
              | RELEASED => row1 <| er_released_at := Some timestamp |>
              | EXPIRED => row1 <| er_expired_at := Some timestamp |>
              | _ => row1
              end in
  let row3 := if bool_decide (target ∈ [EXPIRED; RELEASED])
              then row2 <| er_signing_claim_expires_at := None |> else row2 in
  row3 <| er_updated_at := timestamp |>.

Definition expired_release_row (r : HostedExecutionRow) (timestamp : Z) : HostedExecutionRow :=
  r <| er_status := RELEASED |> <| er_signing_claim_expires_at := None |>
    <| er_released_at := Some timestamp |> <| er_updated_at := timestamp |>.

Definition finalized_row (r : HostedExecutionRow) (timestamp : Z) : HostedExecutionRow :=
  r <| er_status := FINALIZED |> <| er_finalized_at := Some timestamp |>
    <| er_updated_at := timestamp |>.

Definition reverted_release_row (r : HostedExecutionRow) (rc : Receipt) (evidence : pydict)
    (timestamp : Z) : HostedExecutionRow :=
  r <| er_release_evidence := Some evidence |>
    <| er_confirmations := rc_confirmations rc |>
    <| er_safe_block_number := Some (rc_safe_block_number rc) |>
    <| er_safe_block_hash := Some (lower (rc_safe_block_hash rc)) |>
    <| er_status := RELEASED |> <| er_released_at := Some timestamp |>
    <| er_updated_at := timestamp |>.

Definition reorg_row (r : HostedExecutionRow) (evidence : pydict) (timestamp : Z)
    : HostedExecutionRow :=
  r <| er_status := REORG_REVIEW |> <| er_reorg_state := "review" |>
    <| er_reorg_evidence := Some evidence |>
    <| er_reorg_reviewed_at := Some timestamp |> <| er_updated_at := timestamp |>.

(** The columns a fresh observation writes. *)
Definition observed_row (r : HostedExecutionRow) (target : ExecutionState) (rc : Receipt)
    (timestamp : Z) : HostedExecutionRow :=
  let row1 := r <| er_receipt_status := Some (rc_status rc) |>
    <| er_receipt_block_number := Some (rc_block_number rc) |>
    <| er_receipt_block_hash := Some (lower (rc_block_hash rc)) |>
    <| er_confirmations := rc_confirmations rc |>
    <| er_safe_block_number := Some (rc_safe_block_number rc) |>
    <| er_safe_block_hash := lower_or_none (rc_safe_block_hash rc) |>
    <| er_watcher_version := Some (rc_watcher_version rc) |>
    <| er_finality_boundary := Some (rc_finality_boundary rc) |> in
  let row2 := if bool_decide (target = REVERTED)
              then row1 <| er_reverted_at := Some timestamp |>
              else row1 <| er_confirmed_at := Some timestamp |> in
  row2 <| er_status := target |> <| er_updated_at := timestamp |>.

Section Settlement.
Context `{Sha256, Keccak} (policy : option PilotGatePolicy) (clock : Z).

(** The chain profile of a row and the boundary check every settlement
    operation starts with. *)
Definition require_chain_boundary (r : HostedExecutionRow) (rc : Receipt)
    : result HostedChainProfile :=
  profile ← from_option_or (chain_profile (er_chain r))
    (ExecutionConflict "execution chain is not supported");
  require (bool_decide (rc_finality_boundary rc = profile_finality_boundary profile))
    (ExecutionConflict "finality boundary does not match execution chain");;
  require_finality_boundary (rc_block_number rc) (rc_confirmations rc)
    (rc_safe_block_number rc) (rc_safe_block_hash rc) (rc_finality_boundary rc)
    (profile_min_confirmation_depth profile);;
  mret profile.

(** [transition]. *)
Definition transition (execution_id : string) (target : ExecutionState)
    (expected : option ExecutionState) (now : option Z)
    : HostedDb → result HostedExecution * HostedDb :=
  before_session (now_or clock now) (λ timestamp, write_session
    (current ← locked_execution execution_id;
     requires (match expected with
               | None => true
               | Some e => bool_decide (er_status current = e)
               end) (ExecutionConflict "execution state changed");;
     requires (bool_decide (target ∈ TRANSITIONS (er_status current)))
       (ExecutionConflict "execution state transition is not allowed");;
     requires (negb (bool_decide (target ∈ [SIGNING; SIGNED; SUBMITTED; SUBMISSION_UNKNOWN;
                                            CONFIRMED; REVERTED; REORG_REVIEW])))
       (ExecutionConflict "state requires dedicated persistence or watcher evidence");;
     let closing := bool_decide (target ∈ [EXPIRED; RELEASED]) in
     requires (negb (closing && (bool_decide (is_Some (er_signature current))
                                 || bool_decide (is_Some (er_raw_transaction current)))))
       (ExecutionConflict "signed execution cannot be released");;
     requires (negb (closing && (timestamp <? er_deadline current)))
       (ExecutionConflict "execution deadline has not expired");;
     let row' := transitioned_row current target timestamp in
     (if closing then
        mark_gate_terminal policy row' GateReleased "deadline_expired" true timestamp
      else mret tt);;
     put_execution row';;
     lifts (record row'))).

(** [release_expired]. *)
Definition release_expired (execution_id : string) (now : option Z)
    : HostedDb → result HostedExecution * HostedDb :=
  before_session (now_or clock now) (λ timestamp, write_session
    (row ← locked_execution execution_id;
     let current := er_status row in
     if bool_decide (current ∈ [RELEASED; EXPIRED]) then lifts (record row)
     else
       requires (bool_decide (current ∈ [PREFLIGHT_APPROVED; SIGNING]))
         (ExecutionConflict "signed execution cannot be released");;
       requires (negb (timestamp <? er_deadline row))
         (ExecutionConflict "execution deadline has not expired");;
       requires (negb (bool_decide (is_Some (er_signature row))
                       || bool_decide (is_Some (er_raw_transaction row))))
         (ExecutionConflict "signed execution cannot be released");;
       let row' := expired_release_row row timestamp in
       mark_gate_terminal policy row' GateReleased "deadline_expired" true timestamp;;
       put_execution row';;
       lifts (record row'))).

(** [_replayed_observation]. *)
Definition replayed_observation (r : HostedExecutionRow) (rc : Receipt) (evidence : pydict)
    : repo HostedExecution :=
  lifts (require_raw_transaction r);;
  let expected_block_hash := lower (rc_block_hash rc) in
  let expected_safe_hash := lower_or_none (rc_safe_block_hash rc) in
  observations ← reads (λ d,
    filter (λ o, ob_execution_id o = er_execution_id r) (db_observations d));
  match observations with
  | [o] =>
      requires
        (bool_decide (Some (ob_tx_hash o) = er_raw_transaction_hash r)
         && (ob_block_number o =? rc_block_number rc)
         && bool_decide (lower (ob_block_hash o) = expected_block_hash)
         && (ob_receipt_status o =? rc_status rc)
         && (ob_confirmations o =? rc_confirmations rc)
         && bool_decide (ob_safe_block_number o = Some (rc_safe_block_number rc))
         && bool_decide (lower_opt (ob_safe_block_hash o) = expected_safe_hash)
         && bool_decide (ob_watcher_version o = rc_watcher_version rc)
         && ob_canonical o
         && dict_eqb (ob_evidence o) evidence
         && bool_decide (er_receipt_status r = Some (rc_status rc))
         && bool_decide (er_receipt_block_number r = Some (rc_block_number rc))
         && bool_decide (lower_opt (er_receipt_block_hash r) = Some expected_block_hash)
         && (er_confirmations r =? rc_confirmations rc)
         && bool_decide (er_safe_block_number r = Some (rc_safe_block_number rc))
         && bool_decide (lower_opt (er_safe_block_hash r) = expected_safe_hash)
         && bool_decide (er_watcher_version r = Some (rc_watcher_version rc))
         && bool_decide (er_finality_boundary r = Some (rc_finality_boundary rc)))
        (ExecutionConflict "watcher observation replay conflicts with evidence");;
      lifts (record r)
  | _ => raises (ExecutionConflict "watcher observation replay is inconsistent")
  end.

(** [session.add(HostedExecutionObservationRow(...))] under its unique
    constraint. *)
Definition add_observation (o : HostedExecutionObservationRow) : repo unit :=
  observations ← reads db_observations;
  requires (negb (existsb (λ o', bool_decide (ob_execution_id o' = ob_execution_id o)
                                 && bool_decide (ob_tx_hash o' = ob_tx_hash o)
                                 && bool_decide (ob_block_hash o' = ob_block_hash o))
                    observations))
    (IntegrityError "uq_hosted_execution_observation_block");;
  writes (λ d, d <| db_observations := db_observations d ++ [o] |>).

(** [_record_observation]. *)
Definition record_observation (execution_id : string) (target : ExecutionState)
    (rc : Receipt) (evidence : pyval) (now : option Z)
    : HostedDb → result HostedExecution * HostedDb :=
  before_session
    (require (valid_watcher_version (rc_watcher_version rc))
       (ExecutionConflict "watcher evidence is invalid");;
     projected ← public_evidence evidence OBSERVATION_EVIDENCE_KEYS;
     timestamp ← now_or clock now;
     mret (projected, timestamp))
    (λ '(projected, timestamp), write_session
      (row ← locked_execution execution_id;
       lifts (require_chain_boundary row rc);;
       let current := er_status row in
       if bool_decide (current = target) then replayed_observation row rc projected
       else
         let awaiting := bool_decide
           (current ∈ [SUBMITTED; SUBMISSION_UNKNOWN; SUBMISSION_REJECTED]) in
         requires (negb (bool_decide (target = CONFIRMED) && negb awaiting))
           (ExecutionConflict "execution is not awaiting confirmation");;
         requires (negb (bool_decide (target = REVERTED) && negb awaiting))
           (ExecutionConflict "execution is not awaiting revert evidence");;
         tx_hash ← lifts (transaction_hash row);
         let row' := observed_row row target rc timestamp in
         (if bool_decide (target = REVERTED) then
            mark_gate_terminal policy row' GateSettled "execution_reverted" false timestamp
          else mret tt);;
         put_execution row';;
         add_observation
           (MkObservation (er_execution_id row) tx_hash (rc_block_number rc)
              (lower (rc_block_hash rc)) (rc_status rc) (rc_confirmations rc)
              (Some (rc_safe_block_number rc)) (lower_or_none (rc_safe_block_hash rc))
              (rc_watcher_version rc) true projected timestamp);;
         lifts (record row'))).

(** [confirm]. *)
Definition confirm (execution_id : string) (rc : Receipt) (evidence : option pyval)
    (now : option Z) (d : HostedDb) : result HostedExecution * HostedDb :=
  if negb (rc_status rc =? 1) then
    (Err (ExecutionConflict "only a successful receipt may be confirmed"), d)
  else
    record_observation execution_id CONFIRMED rc
      (default (PDict [("boundary"%string, PStr (rc_finality_boundary rc))]) evidence) now d.

(** [revert]. *)
Definition revert (execution_id : string) (rc : Receipt) (accepted_transfer : bool)
    (evidence : option pyval) (now : option Z) (d : HostedDb)
    : result HostedExecution * HostedDb :=
  if negb (rc_status rc =? 0) || accepted_transfer then
    (Err (ExecutionConflict "revert requires proof of no accepted transfer"), d)
  else
    record_observation execution_id REVERTED rc
      (default (PDict [("accepted_transfer"%string, PBool false)]) evidence) now d.

(** [finalize]. *)
Definition finalize (execution_id : string) (finality_boundary : string) (now : option Z)
    : HostedDb → result HostedExecution * HostedDb :=
  before_session (now_or clock now) (λ timestamp, write_session
    (row ← locked_execution execution_id;
     let current := er_status row in
     profile ← lifts (from_option_or (chain_profile (er_chain row))
       (ExecutionConflict "execution chain is not supported"));
     let boundary := profile_finality_boundary profile in
     let evidence_present := bool_decide (is_Some (er_safe_block_number row))
                             && bool_decide (is_Some (er_safe_block_hash row)) in
     requires (bool_decide (finality_boundary = boundary))
       (ExecutionConflict "finality boundary does not match execution chain");;
     if bool_decide (current = FINALIZED) then
       requires evidence_present (ExecutionConflict "finality evidence is missing");;
       requires (bool_decide (er_finality_boundary row = Some boundary))
         (ExecutionConflict "finality boundary does not match execution chain");;
       lifts (record row)
     else
       requires (bool_decide (current = CONFIRMED))
         (ExecutionConflict "only a confirmed execution may be finalized");;
       requires evidence_present (ExecutionConflict "finality evidence is missing");;
       requires (bool_decide (er_finality_boundary row = Some finality_boundary))
         (ExecutionConflict "finality boundary conflicts with confirmation");;
       requires (bool_decide (er_finality_boundary row = Some boundary))
         (ExecutionConflict "finality boundary does not match execution chain");;
       let row' := finalized_row row timestamp in
       mark_gate_terminal policy row' GateSettled "execution_finalized" false timestamp;;
       put_execution row';;
       lifts (record row'))).

(** The [finality_boundary_timestamp] of a validated release proof. *)
Definition boundary_timestamp (evidence : pydict) : Z :=
  match dict_get evidence "finality_boundary_timestamp" with PInt z => z | _ => 0 end.

(** [release_reverted]. *)
Definition release_reverted (execution_id : string) (rc : Receipt) (release_evidence : pyval)
    (now : option Z) : HostedDb → result HostedExecution * HostedDb :=
  before_session
    (evidence ← validate_release_evidence release_evidence;
     require (rc_status rc =? 0) (ExecutionConflict "release requires a reverted receipt");;
     require (is_prefixed is_hex 64 (rc_block_hash rc))
       (ExecutionConflict "receipt block evidence is invalid");;
     require (is_prefixed is_hex 64 (rc_safe_block_hash rc))
       (ExecutionConflict "safe boundary evidence is invalid");;
     require (valid_watcher_version (rc_watcher_version rc))
       (ExecutionConflict "watcher evidence is invalid");;
     timestamp ← now_or clock now;
     mret (evidence, timestamp))
    (λ '(evidence, timestamp), write_session
      (row ← locked_execution execution_id;
       lifts (require_chain_boundary row rc);;
       requires (negb (boundary_timestamp evidence <? er_deadline row))
         (ExecutionConflict "release finality boundary precedes deadline");;
       requires (negb (timestamp <? boundary_timestamp evidence))
         (ExecutionConflict "release finality boundary is in the future");;
       let current := er_status row in
       requires
         (bool_decide (er_receipt_status row = Some (rc_status rc))
          && bool_decide (er_receipt_block_number row = Some (rc_block_number rc))
          && bool_decide (lower <$> er_receipt_block_hash row = Some (lower (rc_block_hash rc)))
          && bool_decide (er_watcher_version row = Some (rc_watcher_version rc))
          && bool_decide (er_finality_boundary row = Some (rc_finality_boundary rc)))
         (ExecutionConflict "release evidence identity conflicts");;
       if bool_decide (current = RELEASED) then
         requires
           ((er_confirmations row =? rc_confirmations rc)
            && bool_decide (er_safe_block_number row = Some (rc_safe_block_number rc))
            && bool_decide (lower <$> er_safe_block_hash row
                            = Some (lower (rc_safe_block_hash rc)))
            && match er_release_evidence row with
               | Some stored => dict_eqb stored evidence
               | None => false
               end)
           (ExecutionConflict "release evidence changed");;
         lifts (record row)
       else
         requires (bool_decide (current = REVERTED))
           (ExecutionConflict "only a reverted execution can be released");;
         requires (bool_decide (er_release_evidence row = None))
           (ExecutionConflict "release evidence is already recorded");;
         requires (match er_reverted_at row with
                   | None => false
                   | Some t => negb (timestamp <? t)
                   end) (ExecutionConflict "release timestamp is invalid");;
         requires (negb (rc_confirmations rc <? er_confirmations row)
                   && match er_safe_block_number row with
                      | None => false
                      | Some n => negb (rc_safe_block_number rc <? n)
                      end) (ExecutionConflict "release finality boundary regressed");;
         requires (negb (bool_decide (er_safe_block_number row = Some (rc_safe_block_number rc))
                         && negb (bool_decide (lower <$> er_safe_block_hash row
                                               = Some (lower (rc_safe_block_hash rc))))))
           (ExecutionConflict "release finality boundary changed");;
         let row' := reverted_release_row row rc evidence timestamp in
         release_gate_reservation policy row' timestamp;;
         put_execution row';;
         lifts (record row'))).

(** [mark_reorg_review]. *)
Definition mark_reorg_review (execution_id : string) (evidence : pyval) (now : option Z)
    : HostedDb → result HostedExecution * HostedDb :=
  before_session
    (projected ← public_evidence evidence REORG_EVIDENCE_KEYS;
     require (is_false (dict_get projected "canonical"))
       (ExecutionConflict "reorg evidence is invalid");;
     timestamp ← now_or clock now;
     mret (projected, timestamp))
    (λ '(projected, timestamp), write_session
      (row ← locked_execution execution_id;
       requires (bool_decide (er_status row = FINALIZED))
         (ExecutionConflict "only finalized execution can enter reorg_review");;
       let row' := reorg_row row projected timestamp in
       put_execution row';;
       lifts (record row'))).
End Settlement.

(** ** The watch queue *)

(** The printable, space-free ASCII of a cursor. *)
Definition valid_cursor (s : string) : bool :=
  (0 <? str_len s) && (str_len s <=? 96)
  && all_chars (λ c, negb ((code c <? 33) || (126 <? code c))) s.

Definition watchable_states : list ExecutionState :=
  [PREFLIGHT_APPROVED; SIGNING; SUBMITTED; SUBMISSION_UNKNOWN; SUBMISSION_REJECTED;
   CONFIRMED; FINALIZED].

Definition is_watchable (chain : string) (after_execution_id : option string)
    (r : HostedExecutionRow) : bool :=
  bool_decide (er_chain r = chain)
  && (bool_decide (er_status r ∈ watchable_states)
      || (bool_decide (er_status r = REVERTED) && bool_decide (er_release_evidence r = None)))
  && match after_execution_id with
     | None => true
     | Some cursor => String.ltb cursor (er_execution_id r)
     end.

(** [ORDER BY coalesce(watcher_attempted_at, 0), execution_id]. *)
Definition watch_leb (r r' : HostedExecutionRow) : bool :=
  let t := default 0 (er_watcher_attempted_at r) in
  let t' := default 0 (er_watcher_attempted_at r') in
  (t <? t') || ((t =? t') && String.leb (er_execution_id r) (er_execution_id r')).
Fixpoint insert_watch (r : HostedExecutionRow) (l : list HostedExecutionRow)
    : list HostedExecutionRow :=
  match l with
  | [] => [r]
  | r' :: l' => if watch_leb r r' then r :: l else r' :: insert_watch r l'
  end.
Definition sort_watch (l : list HostedExecutionRow) : list HostedExecutionRow :=
  foldr insert_watch [] l.

(** [list_watchable_ids]. *)
Definition list_watchable_ids (chain : string) (after_execution_id : option string)
    (limit : Z) (d : HostedDb) : result (list string) :=
  require (bool_decide (is_Some (chain_profile chain)))
    (ValueError "watch chain is not supported");;
  require (match after_execution_id with None => true | Some s => valid_cursor s end)
    (ValueError "execution cursor is invalid");;
  require ((1 <=? limit) && (limit <=? 1000)) (ValueError "watch limit is unsafe");;
  mret (er_execution_id <$> take (Z.to_nat limit)
    (sort_watch (filter (λ r, is_watchable chain after_execution_id r = true)
                   (map_to_list (db_executions d)).*2))).
