(* ===== verification/ExecutionMachine.v ===== *)
(** * The abstract execution machine

    What a hosted execution promises: a step relation on its rows, on the gate
    reservation of an execution and on the database, and the operations of the
    repository as commands. *)

From S2P Require Import Prelude PyValue ExecutionModels Evm ExecutionTables PilotGate.
From S2P Require Import NonceAllocator ExecutionRepository ExecutionSettlement.

(** ** Steps of one row *)

Section Machine.
Context `{Sha256, Keccak}.

(** The row has been offered to the network: it is signed, or a submission of it
    is pending, ambiguous or refused. *)
Definition submittable_states : list ExecutionState :=
  [SIGNED; SUBMITTED; SUBMISSION_UNKNOWN; SUBMISSION_REJECTED].
Definition awaiting_states : list ExecutionState :=
  [SUBMITTED; SUBMISSION_UNKNOWN; SUBMISSION_REJECTED].

(** An attempt a step logs: its kind, its number and the transaction hash. *)
Definition attempt_log : Type := option (string * Z * string).
Definition first_attempt (r : HostedExecutionRow) (kind : string) (h : string) : attempt_log :=
  if bool_decide (er_status r = SIGNED)
  then Some (kind, er_broadcast_attempts r + 1, h) else None.

Inductive row_step (r : HostedExecutionRow) : attempt_log → HostedExecutionRow → Prop :=
| rs_watch ns :
    0 < ns → row_step r None (watched_row r ns)
| rs_claim t :
    er_status r = PREFLIGHT_APPROVED → 0 < t < er_deadline r →
    row_step r None (claimed_row r t)
| rs_reclaim t lease :
    er_status r = SIGNING → 0 < t < er_deadline r →
    er_signing_claim_expires_at r = Some lease → lease <= t →
    row_step r None (claimed_row r t)
| rs_sign t signature raw h unsigned :
    er_status r = SIGNING → 0 < t < er_deadline r → 0 < er_signing_claim_generation r →
    ethereum_transaction_hash raw = Ok h → blen signature = 65 → 0 < blen raw →
    row_step r (Some ("signed"%string, 0, h)) (signed_row r signature raw h unsigned t)
| rs_claim_submission t h :
    er_status r = SIGNED → 0 < t → er_raw_transaction_hash r = Some h →
    row_step r (Some ("broadcast_claimed"%string, er_broadcast_attempts r + 1, h))
      (submission_claimed_row r t)
| rs_submit t h :
    er_status r ∈ [SIGNED; SUBMISSION_UNKNOWN; SUBMISSION_REJECTED] → 0 < t →
    er_raw_transaction_hash r = Some h →
    row_step r (first_attempt r "broadcast" h) (submitted_row r t)
| rs_unknown t h :
    er_status r ∈ [SIGNED; SUBMITTED; SUBMISSION_REJECTED] → 0 < t →
    er_raw_transaction_hash r = Some h →
    row_step r (first_attempt r "broadcast_unknown" h) (unknown_row r t)
| rs_reject t h reason :
    er_status r ∈ [SIGNED; SUBMISSION_UNKNOWN] → 0 < t → is_reason_code 63 reason = true →
    er_raw_transaction_hash r = Some h →
    row_step r (first_attempt r "broadcast_rejected" h) (rejected_row r reason t)
| rs_rebroadcast t h :
    er_status r ∈ awaiting_states → 0 < t → er_raw_transaction_hash r = Some h →
    row_step r (Some ("rebroadcast"%string, er_broadcast_attempts r + 1, h))
      (rebroadcast_row r t)
| rs_observe t target rc profile :
    er_status r ∈ awaiting_states → 0 < t →
    (target = CONFIRMED ∧ rc_status rc = 1 ∨ target = REVERTED ∧ rc_status rc = 0) →
    require_chain_boundary r rc = Ok profile →
    row_step r None (observed_row r target rc t)
| rs_finalize t :
    er_status r = CONFIRMED → 0 < t → is_Some (er_safe_block_number r) →
    is_Some (er_safe_block_hash r) → row_step r None (finalized_row r t)
| rs_expire t :
    er_status r ∈ [PREFLIGHT_APPROVED; SIGNING] → 0 < t → er_deadline r <= t →
    is_signed r = false → row_step r None (expired_release_row r t)
| rs_transition t target :
    0 < t → target ∈ TRANSITIONS (er_status r) →
    target ∈ [PREFLIGHT_APPROVED; SUBMISSION_REJECTED; FINALIZED; EXPIRED; RELEASED] →
    (target ∈ [EXPIRED; RELEASED] → er_deadline r <= t ∧ is_signed r = false) →
    row_step r None (transitioned_row r target t)
| rs_release t rc proof evidence profile :
    er_status r = REVERTED → 0 < t → validate_release_evidence proof = Ok evidence →
    er_receipt_status r = Some (rc_status rc) → rc_status rc = 0 →
    er_finality_boundary r = Some (rc_finality_boundary rc) → require_chain_boundary r rc = Ok profile →
    is_prefixed is_hex 64 (rc_safe_block_hash rc) = true →
    er_deadline r <= boundary_timestamp evidence <= t →
    er_confirmations r <= rc_confirmations rc →
    er_release_evidence r = None →
    row_step r None (reverted_release_row r rc evidence t)
| rs_reorg t evidence :
    er_status r = FINALIZED → 0 < t → row_step r None (reorg_row r evidence t).

(** ** What a row step does to the gate reservation of its execution *)

Definition funded (G : gmap string HostedGateReservationRow) (execution_id : string) : Prop :=
  ∃ g, G !! execution_id = Some g ∧ gr_state g = GateReserved ∧
    0 < gr_gas_cost_usd_micros g ∧ is_Some (gr_gas_utc_day g).

Inductive gate_move (policy : option PilotGatePolicy) (r r' : HostedExecutionRow)
    (G : gmap string HostedGateReservationRow)
    : gmap string HostedGateReservationRow → Prop :=
| gm_ungated : policy = None → gate_move policy r r' G G
| gm_keep :
    er_status r' = er_status r ∨ er_status r' ∉ [EXPIRED; RELEASED; REVERTED] →
    (is_signed r' = true → is_signed r = true ∨ funded G (er_execution_id r)) →
    gate_move policy r r' G G
| gm_closed g state :
    (er_status r' ∈ [EXPIRED; RELEASED] ∧ er_status r ≠ REVERTED ∧ state = GateReleased
     ∨ er_status r' ∈ [REVERTED; FINALIZED] ∧ state = GateSettled) →
    er_status r' ≠ er_status r → is_signed r' = is_signed r →
    G !! er_execution_id r = Some g → gr_state g = state → gate_move policy r r' G G
| gm_close g state clear t :
    (er_status r' ∈ [EXPIRED; RELEASED] ∧ is_signed r = false ∧ state = GateReleased
       ∧ clear = true
     ∨ er_status r' ∈ [REVERTED; FINALIZED] ∧ state = GateSettled ∧ clear = false) →
    er_status r' ≠ er_status r → is_signed r' = is_signed r →
    G !! er_execution_id r = Some g → gr_state g = GateReserved →
    gate_move policy r r' G (<[er_execution_id r := closed_gate g state clear t]> G)
| gm_release g t :
    er_status r = REVERTED → er_status r' = RELEASED → is_signed r' = is_signed r →
    G !! er_execution_id r = Some g →
    gr_state g ∈ [GateReserved; GateSettled] →
    gate_move policy r r' G (<[er_execution_id r := closed_gate g GateReleased false t]> G)
| gm_released g :
    er_status r = REVERTED → er_status r' = RELEASED → is_signed r' = is_signed r →
    G !! er_execution_id r = Some g → gr_state g = GateReleased →
    gate_move policy r r' G G.

(** ** Steps of the database *)

(** How a new execution gets its nonce, and what the account's allocator then
    holds. *)
Inductive nonce_choice (d : HostedDb) (key : string * string) (pending confirmed : Z)
    : Z → Z → Prop :=
| nc_first : db_allocators d !! key = None → nonce_choice d key pending confirmed pending (pending + 1)
| nc_recycled row n :
    db_allocators d !! key = Some row → recyclable_nonce d key.1 key.2 confirmed = Some n →
    nonce_choice d key pending confirmed n (nr_next_nonce row)
| nc_next row :
    db_allocators d !! key = Some row → recyclable_nonce d key.1 key.2 confirmed = None →
    nonce_choice d key pending confirmed (Z.max (nr_next_nonce row) pending)
      (Z.max (nr_next_nonce row) pending + 1).

(** The admission quotas a node must have left. *)
Definition quota_open (p : PilotGatePolicy) (d : HostedDb) (tenant node : string) (day : Z) : Prop :=
  in_flight d tenant node < max_in_flight_per_node p ∧
  accepted_on d tenant node day < max_accepted_per_node_utc_day p ∧
  accepted_lifetime d tenant node < max_accepted_per_node_lifetime p.

Definition log_attempt (r : HostedExecutionRow) (a : attempt_log) (t : Z)
    : list HostedExecutionAttemptRow :=
  match a with
  | None => []
  | Some (kind, n, h) => [MkAttempt (er_execution_id r) n kind h t]
  end.

Definition presentable (r : HostedExecutionRow) : Prop := is_ok (record r) = true.

Inductive db_step (policy : option PilotGatePolicy) (d d' : HostedDb) : Prop :=
| ds_other :
    db_executions d' = db_executions d → db_allocators d' = db_allocators d →
    db_attempts d' = db_attempts d → db_gate d' = db_gate d → db_step policy d d'
| ds_row r a r' t :
    db_executions d !! er_execution_id r = Some r → row_step r a r' →
    (presentable r → presentable r') →
    db_executions d' = <[er_execution_id r := r']> (db_executions d) →
    db_allocators d' = db_allocators d →
    db_attempts d' = db_attempts d ++ log_attempt r a t →
    gate_move policy r r' (db_gate d) (db_gate d') →
    db_step policy d d'
| ds_charge p r g cost day t :
    policy = Some p → db_executions d !! er_execution_id r = Some r →
    db_gate d !! er_execution_id r = Some g → gr_state g = GateReserved →
    0 < cost ∧ 0 <= day →
    pilot_gas_total d day (in_scope (er_tenant_id r) (er_node_id r)) (er_execution_id r) + cost
      <= max_gas_usd_micros_per_node_utc_day p →
    pilot_gas_total d day platform_scope (er_execution_id r) + cost
      <= max_gas_usd_micros_platform_utc_day p →
    db_executions d' = db_executions d → db_allocators d' = db_allocators d →
    db_attempts d' = db_attempts d →
    db_gate d' = <[er_execution_id r := charged_gate g cost day t]> (db_gate d) →
    db_step policy d d'
| ds_allocate execution_id i pending confirmed n next t :
    0 <= pending <= MAX_RELAYER_NONCE → 0 <= confirmed → 0 < t →
    db_executions d !! execution_id = None →
    (∀ k r, db_executions d !! k = Some r →
       rows_collide (new_execution execution_id i n t) r = false) →
    row_checks (new_execution execution_id i n t) = true →
    presentable (new_execution execution_id i n t) →
    nonce_choice d (chain i, relayer_address i) pending confirmed n next →
    db_executions d' =
      <[execution_id := new_execution execution_id i n t]> (db_executions d) →
    db_allocators d' =
      <[(chain i, relayer_address i) := MkNonceRow next t]> (db_allocators d) →
    db_attempts d' = db_attempts d →
    match policy with
    | None => db_gate d' = db_gate d
    | Some p =>
        quota_open p d (tenant_id i) (node_id i) (t / SECONDS_PER_UTC_DAY) ∧
        db_gate d' = <[execution_id := MkGateReservation (tenant_id i) (node_id i)
          (idempotency_key i) (t / SECONDS_PER_UTC_DAY) GateReserved 0 None t t]> (db_gate d)
    end →
    db_step policy d d'.

(** ** The operations as commands *)

Inductive command : Type :=
| CAllocate (ids : nat → string) (i : ExecutionIntent) (pending : Z)
    (confirmed now : option Z)
| CWatch (execution_id : string) (now_ns : option Z)
| CSetPause (scope_type : string) (paused : bool)
    (reason_code tenant_id node_id : string) (now : option Z)
| CReserveGas (execution_id : string) (gas generation : Z) (now : option Z)
| CTransition (execution_id : string) (target : ExecutionState)
    (expected : option ExecutionState) (now : option Z)
| CPersist (execution_id : string) (signature raw : bytes) (generation : Z)
    (unsigned : option string) (now : option Z)
| CClaimSigning (execution_id : string) (now : option Z)
| CClaimSubmission (execution_id : string) (now : option Z)
| CMarkSubmitted (execution_id : string) (now : option Z)
| CMarkUnknown (execution_id : string) (now : option Z)
| CMarkRejected (execution_id reason_code : string) (now : option Z)
| CRebroadcast (execution_id : string) (raw : option bytes) (now : option Z)
| CReleaseExpired (execution_id : string) (now : option Z)
| CConfirm (execution_id : string) (rc : Receipt) (evidence : option pyval) (now : option Z)
| CFinalize (execution_id finality_boundary : string) (now : option Z)
| CRevert (execution_id : string) (rc : Receipt) (accepted_transfer : bool)
    (evidence : option pyval) (now : option Z)
| CReleaseReverted (execution_id : string) (rc : Receipt) (evidence : pyval) (now : option Z)
| CReorg (execution_id : string) (evidence : pyval) (now : option Z).

(** The database an operation leaves, and whether it returned. *)
Definition run (policy : option PilotGatePolicy) (clock : Z) (c : command) (d : HostedDb)
    : result unit * HostedDb :=
  let done {A} (x : result A * HostedDb) := ((λ _, ()) <$> x.1, x.2) in
  match c with
  | CAllocate ids i pending confirmed now =>
      done (allocate_or_return policy clock ids i pending confirmed now d)
  | CWatch id now => done (record_watcher_attempt clock id now d)
  | CSetPause s p reason t n now => done (set_pilot_pause clock s p reason t n now d)
  | CReserveGas id gas g now => done (reserve_pilot_gas policy clock id gas g now d)
  | CTransition id target expected now => done (transition policy clock id target expected now d)
  | CPersist id s raw g u now => done (persist_signed_transaction policy clock id s raw g u now d)
  | CClaimSigning id now => done (claim_signing policy clock id now d)
  | CClaimSubmission id now => done (claim_submission policy clock id now d)
  | CMarkSubmitted id now => done (mark_submitted clock id now d)
  | CMarkUnknown id now => done (mark_submission_unknown clock id now d)
  | CMarkRejected id reason now => done (mark_submission_rejected clock id reason now d)
  | CRebroadcast id raw now => done (rebroadcast_raw_transaction policy clock id raw now d)
  | CReleaseExpired id now => done (release_expired policy clock id now d)
  | CConfirm id rc ev now => done (confirm policy clock id rc ev now d)
  | CFinalize id b now => done (finalize policy clock id b now d)
  | CRevert id rc acc ev now => done (revert policy clock id rc acc ev now d)
  | CReleaseReverted id rc ev now => done (release_reverted policy clock id rc ev now d)
  | CReorg id ev now => done (mark_reorg_review clock id ev now d)
  end.

(** A policy the gate's constructor accepted. *)
Definition valid_policy (policy : option PilotGatePolicy) : Prop :=
  match policy with None => True | Some p => make_policy p = Ok p end.

(** A call at a clock reading, with an intent that was constructed. *)
Inductive call (policy : option PilotGatePolicy) (d d' : HostedDb) : Prop :=
| call_intro clock c :
    0 < clock → d' = (run policy clock c d).2 → call policy d d'.

Definition reachable (policy : option PilotGatePolicy) : HostedDb → Prop :=
  rtc (call policy) empty_db.

End Machine.
