(* ===== verification/ExecutionRefinement.v ===== *)
(** * The repository refines the abstract execution machine

    Every operation of the repository, on every branch, takes the database
    through steps of the abstract machine; what those steps keep holds of every
    reachable database. *)

From S2P Require Import Prelude PyValue ExecutionModels Evm ExecutionTables PilotGate.
From S2P Require Import NonceAllocator ExecutionRepository ExecutionSettlement ExecutionMachine.

Section Refinement.
Context `{Sha256, Keccak}.
Implicit Types (policy : option PilotGatePolicy) (clock : Z) (d : HostedDb).

(** The primary key of a row is its execution id. *)
Definition keyed (d : HostedDb) : Prop :=
  ∀ k r, db_executions d !! k = Some r → er_execution_id r = k.

Abbreviation steps policy := (rtc (db_step policy)).

Lemma now_or_pos clock now t : 0 < clock → now_or clock now = Ok t → 0 < t.
Proof. intros ?. unfold now_or. destruct now; intros; txn_inv; bool_inv; lia. Qed.

(** A session takes the steps its body takes when it returns. *)
Lemma write_session_steps {A} policy (body : repo A) d :
  (∀ a d', body d = Ok (a, d') → steps policy d d') → steps policy d (write_session body d).2.
Proof.
  intros Hbody. destruct (write_session_snd body d) as [->|[a Ha]]; [done|eauto].
Qed.

Lemma before_session_steps {A B} policy (pre : result A) (k : A → HostedDb → result B * HostedDb) d :
  (∀ a, pre = Ok a → steps policy d (k a d).2) → steps policy d (before_session pre k d).2.
Proof. unfold before_session. destruct pre; [eauto|done]. Qed.

Lemma locked_execution_Ok execution_id d r d' :
  locked_execution execution_id d = Ok (r, d') →
  d' = d ∧ db_executions d !! execution_id = Some r.
Proof. unfold locked_execution. intros. txn_inv. auto. Qed.

Lemma add_row_event_Ok policy r event_type reason cost t d u d' :
  add_row_event r event_type reason cost t d = Ok (u, d') → db_step policy d d'.
Proof.
  unfold add_row_event, add_gate_event. intros. txn_inv. by apply ds_other.
Qed.

Lemma admit_Ok policy r t d denial d' :
  gate_admission policy r t d = Ok (denial, d') →
  steps policy d d' ∧ (denial = None → d' = d).
Proof.
  unfold gate_admission, deny_paused. intros. txn_inv. destruct x as [reason|]; txn_inv.
  - split; [|done]. eapply rtc_once, add_row_event_Ok; eauto.
  - done.
Qed.

Lemma presentable_record r h : record r = Ok h → presentable r.
Proof. unfold presentable. by intros ->. Qed.

(** What closing the gate reservation of a row does. *)
Lemma mark_gate_terminal_Ok policy r state reason clear t d u d' :
  mark_gate_terminal policy r state reason clear t d = Ok (u, d') →
  db_executions d' = db_executions d ∧ db_allocators d' = db_allocators d ∧
  db_attempts d' = db_attempts d ∧
  (policy = None ∧ db_gate d' = db_gate d ∨
   ∃ g, db_gate d !! er_execution_id r = Some g ∧
     (gr_state g = state ∧ db_gate d' = db_gate d ∨
      gr_state g = GateReserved ∧
      db_gate d' = <[er_execution_id r := closed_gate g state clear t]> (db_gate d))).
Proof.
  unfold mark_gate_terminal, put_gate, add_row_event, add_gate_event. intros Hm.
  destruct policy; txn_inv; [|naive_solver].
  case_bool_decide; txn_inv; bool_inv; simpl; eauto 10.
Qed.

Lemma release_gate_reservation_Ok policy r t d u d' :
  release_gate_reservation policy r t d = Ok (u, d') →
  db_executions d' = db_executions d ∧ db_allocators d' = db_allocators d ∧
  db_attempts d' = db_attempts d ∧
  (policy = None ∧ db_gate d' = db_gate d ∨
   ∃ g, db_gate d !! er_execution_id r = Some g ∧
     (gr_state g = GateReleased ∧ db_gate d' = db_gate d ∨
      gr_state g ∈ [GateReserved; GateSettled] ∧
      db_gate d' = <[er_execution_id r := closed_gate g GateReleased false t]> (db_gate d))).
Proof.
  unfold release_gate_reservation, put_gate, add_row_event, add_gate_event. intros Hm.
  destruct policy; txn_inv; [|naive_solver].
  case_bool_decide; txn_inv; bool_inv; simpl; eauto 10.
Qed.

Lemma add_attempt_Ok r kind h n t d u d' :
  add_attempt r kind h n t d = Ok (u, d') →
  d' = d <| db_attempts := db_attempts d ++ [MkAttempt (er_execution_id r) n kind h t] |>.
Proof. unfold add_attempt. intros. txn_inv. done. Qed.

(** A charge leaves everything but the gate row of the execution. *)
Lemma ensure_pilot_gas_reservation_Ok policy r t d denial d' :
  valid_policy policy → db_executions d !! er_execution_id r = Some r → 0 < t →
  ensure_pilot_gas_reservation policy r t d = Ok (denial, d') →
  steps policy d d' ∧ db_executions d' = db_executions d ∧ db_attempts d' = db_attempts d.
Proof.
  intros Hpol Hr Ht. unfold ensure_pilot_gas_reservation. intros Hm. txn_inv.
  match type of Hpol with valid_policy (Some ?x) => rename x into p end.
  match goal with H : db_gate d !! _ = Some ?x |- _ => rename x into g end.
  match goal with H : utc_day t = Ok ?x |- _ => rename x into day, H into Hday end. bool_inv.
  assert (0 < max_gas_usd_micros_per_node_utc_day p) as Hmax.
  { simpl in Hpol. unfold make_policy, gate_positive_int in Hpol.
    txn_inv. bool_inv. lia. }
  assert (∀ cost reason, 0 < cost → charge_gas p r g day t cost reason d = Ok (denial, d') →
    steps (Some p) d d' ∧ db_executions d' = db_executions d ∧ db_attempts d' = db_attempts d)
    as Hcharge.
  { unfold charge_gas, put_gate, add_row_event, add_gate_event. intros cost reason ? Hc. txn_inv.
    destruct (max_gas_usd_micros_per_node_utc_day p <? _) eqn:?; [txn_inv; by split_and!|].
    destruct (max_gas_usd_micros_platform_utc_day p <? _) eqn:?; [txn_inv; by split_and!|].
    txn_inv. bool_inv. simpl.
    split; [|done]. eapply rtc_once, ds_charge; eauto; [|lia..].
    split; [lia|]. by apply utc_day_Ok in Hday as (_ & _ & ?). }
  destruct (0 <? gr_gas_cost_usd_micros g) eqn:E; bool_inv; destruct (gr_gas_utc_day g) as [gd|].
  - destruct (gd =? _); [txn_inv; by split_and!|]. eapply Hcharge; [|eassumption]; done.
  - txn_inv.
  - txn_inv.
  - eapply Hcharge; [|eassumption]; done.
Qed.

Lemma admit_with_gas_Ok policy r t d denial d' :
  valid_policy policy → db_executions d !! er_execution_id r = Some r → 0 < t →
  admit_with_gas policy r t d = Ok (denial, d') →
  steps policy d d' ∧ db_executions d' = db_executions d ∧ db_attempts d' = db_attempts d.
Proof.
  intros Hpol Hr Ht. unfold admit_with_gas, deny_paused. intros Hm.
  destruct policy as [p|]; [|txn_inv; by split_and!]. txn_inv.
  assert (∃ d1 o, (steps (Some p) d d1 ∧ db_executions d1 = db_executions d ∧
      db_attempts d1 = db_attempts d) ∧
    (match o with
     | Some reason => add_row_event r "denied" reason 0 t;; mret (Some reason)
     | None => mret None
     end) d1 = Ok (denial, d')) as (d1 & denial1 & (Hs & He & Ha) & Hd).
  { match goal with H : _ d = Ok (?o, ?d1) |- _ =>
      exists d1, o; split; [clear Hm; rename H into Hc|exact Hm] end.
    match goal with H : pilot_admission_denial _ _ _ _ _ _ = Ok ?x |- _ =>
      destruct x as [reason|] end; txn_inv.
    - by split_and!.
    - eapply ensure_pilot_gas_reservation_Ok; eauto. }
  clear Hm.
  destruct denial1 as [reason|]; txn_inv; [|by split_and!].
  match goal with H : add_row_event _ _ _ _ _ _ = _ |- _ => rename H into He' end.
  pose proof (add_row_event_Ok (Some p) _ _ _ _ _ _ _ _ He').
  unfold add_row_event, add_gate_event in He'. txn_inv. simpl.
  split_and!; [|done..]. etrans; [done|]. by apply rtc_once.
Qed.

(** Opening an operation: the checks before the session, then its body. *)
Ltac open_operation :=
  intros; apply before_session_steps; intros; txn_inv; cbn beta iota in *;
  unfold after_session; cbn [snd]; apply write_session_steps; intros; txn_inv;
  repeat match goal with H : locked_execution _ _ = Ok _ |- _ =>
    apply locked_execution_Ok in H as [? ?]; simplify_eq end;
  repeat match goal with H : now_or _ _ = Ok _ |- _ =>
    apply now_or_pos in H; [|assumption] end.

(** The row an operation works on is stored under its own id. *)
Ltac key_row :=
  match goal with Hk : keyed ?d, H : db_executions ?d !! ?k = Some ?r |- _ =>
    pose proof (Hk k r H); subst k end.

(** No operation changes the id of a row, its intent columns or its nonce. *)
Definition same_identity (r r' : HostedExecutionRow) : Prop :=
  er_execution_id r' = er_execution_id r ∧ er_columns r' = er_columns r ∧
  er_relayer_nonce r' = er_relayer_nonce r ∧ er_created_at r' = er_created_at r.

Lemma row_step_identity r a r' : row_step r a r' → same_identity r r'.
Proof.
  unfold same_identity.
  destruct 1; repeat split; try done;
    unfold submitted_row, unknown_row, rejected_row, observed_row, transitioned_row,
      count_first_broadcast, count_broadcast; simpl;
    repeat case_bool_decide; try done; by destruct target.
Qed.

(** What the two rows with a computed target hold. *)
Lemma transitioned_status r target t : er_status (transitioned_row r target t) = target.
Proof. unfold transitioned_row. case_bool_decide; destruct target; reflexivity. Qed.
Lemma transitioned_signed r target t :
  is_signed (transitioned_row r target t) = is_signed r.
Proof.
  unfold is_signed, transitioned_row.
  destruct (bool_decide (target ∈ _)), target; reflexivity.
Qed.
Lemma observed_signed r target rc t : is_signed (observed_row r target rc t) = is_signed r.
Proof. unfold is_signed, observed_row. by destruct (bool_decide (target = REVERTED)). Qed.

(** The step of one row, once its successor is stored. *)
Lemma row_steps policy d d' r a r' t :
  db_executions d !! er_execution_id r = Some r → row_step r a r' →
  (presentable r → presentable r') →
  db_executions d' = <[er_execution_id r' := r']> (db_executions d) →
  db_allocators d' = db_allocators d →
  db_attempts d' = db_attempts d ++ log_attempt r a t →
  gate_move policy r r' (db_gate d) (db_gate d') →
  steps policy d d'.
Proof.
  intros Hr Hs Hp He Ha Hat Hg. apply row_step_identity in Hs as Hid.
  destruct Hid as [Hid _]. rewrite Hid in He. by eapply rtc_once, ds_row.
Qed.

(** The attempt a submission logs, by whether the row leaves [SIGNED]. *)
Ltac log_attempts :=
  unfold first_attempt, submitted_row, unknown_row, rejected_row, count_first_broadcast;
  match goal with
  | Hs : er_status ?r = SIGNED |- _ => rewrite !(bool_decide_eq_true_2 _ Hs)
  | Hs : er_status ?r ≠ SIGNED |- _ => rewrite !(bool_decide_eq_false_2 _ Hs)
  end; simpl; rewrite ?app_nil_r; reflexivity.

Ltac take_row rule t :=
  eapply (row_steps _ _ _ _ _ _ t);
  [ eassumption | eapply rule; first [eassumption | solve [eauto 4 with lia] | done]
  | first [intros _; eapply presentable_record; eassumption | idtac]
  | simpl; congruence | simpl; congruence
  | first [solve [simpl; rewrite ?app_nil_r; congruence] | solve [log_attempts] ] | ].

(** The counters and the clock columns of a row do not decide whether it can be
    shown. *)
Lemma presentable_touched r n t w :
  presentable r → er_broadcast_attempts r <= n → 0 < t →
  presentable (r <| er_broadcast_attempts := n |> <| er_watcher_attempted_at := w |>
                 <| er_updated_at := t |>).
Proof.
  unfold presentable, record. intros Hr Hn Ht. revert Hr. apply same_bind. intros i _.
  unfold make_hosted_execution. do 7 (apply same_bind; intros ? _).
  apply next_bind. intros b Hb. exists n. split.
  { unfold validate_counter in *. cbn [he_broadcast_attempts] in *. txn_inv. bool_inv.
    simpl. by rewrite (proj2 (Z.leb_le 0 n)) by lia. }
  do 15 (apply same_bind; intros ? _).
  apply next_bind. intros u _. exists t. split.
  { unfold validate_positive_int. simpl. by rewrite (proj2 (Z.ltb_lt 0 t)). }
  unfold validate_chain_finality. cbn [chain he_intent he_finality_boundary he_status].
  destruct (chain_profile _); [|done]. apply same_bind. intros _ _. apply same_bind. done.
Qed.

Lemma presentable_updated r : presentable r → 0 < er_updated_at r.
Proof.
  unfold presentable, record. intros (i & _ & Hr)%is_ok_bind. revert Hr.
  unfold make_hosted_execution. do 23 (intros (? & _ & Hr)%is_ok_bind; revert Hr).
  intros (u & Hu & _)%is_ok_bind. unfold validate_positive_int in Hu. txn_inv. by bool_inv.
Qed.

Lemma presentable_watched r ns : presentable r → 0 < ns → presentable (watched_row r ns).
Proof.
  intros Hr Hns.
  apply (presentable_touched r (er_broadcast_attempts r) _ (Some ns)); [done|lia|].
  pose proof (presentable_updated r Hr). lia.
Qed.

Lemma record_watcher_attempt_refines policy clock execution_id now_ns d :
  keyed d → steps policy d (record_watcher_attempt clock execution_id now_ns d).2.
Proof.
  unfold record_watcher_attempt, put_execution. open_operation. key_row. bool_inv.
  take_row rs_watch 1.
  - intros. by apply presentable_watched.
  - apply gm_keep; auto.
Qed.

Lemma set_pilot_pause_refines policy clock scope paused reason tenant node now d :
  steps policy d (set_pilot_pause clock scope paused reason tenant node now d).2.
Proof.
  unfold set_pilot_pause. case_match; [|done].
  apply write_session_steps. unfold add_gate_event. intros. txn_inv.
  by apply rtc_once, ds_other.
Qed.

(** The guards of an operation as propositions. *)
Ltac row_guards :=
  repeat match goal with
  | H : context [bool_decide (is_Some (er_signature ?r))
                 || bool_decide (is_Some (er_raw_transaction ?r))] |- _ =>
      change (bool_decide (is_Some (er_signature r))
              || bool_decide (is_Some (er_raw_transaction r))) with (is_signed r) in H
  end; bool_inv.

(** Releasing an unsigned execution closes its reservation and clears the gas. *)
Lemma release_unsigned_step policy d d1 r r' reason t u :
  mark_gate_terminal policy r' GateReleased reason true t d = Ok (u, d1) →
  er_execution_id r' = er_execution_id r → er_status r' ∈ [EXPIRED; RELEASED] →
  er_status r ∈ [REQUESTED; PREFLIGHT_APPROVED; SIGNING] →
  is_signed r = false → is_signed r' = is_signed r →
  gate_move policy r r' (db_gate d) (db_gate d1).
Proof.
  intros (_ & _ & _ & Hg)%mark_gate_terminal_Ok Hid Hst Hst' Hs Hs'. rewrite Hid in Hg.
  assert (er_status r' ≠ er_status r ∧ er_status r ≠ REVERTED) as [? ?]
    by (clear -Hst Hst'; split; by_members).
  destruct Hg as [[-> ->]|(g & Hg & [[Hgs ->]|[Hgs ->]])].
  - by apply gm_ungated.
  - eapply gm_closed; eauto.
  - eapply gm_close; eauto.
Qed.

(** Closing the reservation touches no other table. *)
Ltac close_gate :=
  match goal with
  | H : mark_gate_terminal _ _ _ _ _ _ _ = Ok _ |- _ =>
      pose proof (mark_gate_terminal_Ok _ _ _ _ _ _ _ _ _ H) as (? & ? & ? & _)
  | H : release_gate_reservation _ _ _ _ = Ok _ |- _ =>
      pose proof (release_gate_reservation_Ok _ _ _ _ _ _ H) as (? & ? & ? & _)
  end.

Lemma release_expired_refines policy clock execution_id now d :
  0 < clock → keyed d → steps policy d (release_expired policy clock execution_id now d).2.
Proof.
  unfold release_expired, put_execution. open_operation. key_row.
  case_bool_decide as Hcl; txn_inv; [done|].
  row_guards. close_gate.
  take_row rs_expire a. 
  simpl. eapply release_unsigned_step; [eassumption|..]; simpl; try done; by_members.
Qed.

Lemma transition_targets s target :
  target ∈ TRANSITIONS s →
  target ∉ [SIGNING; SIGNED; SUBMITTED; SUBMISSION_UNKNOWN; CONFIRMED; REVERTED; REORG_REVIEW] →
  target ∈ [PREFLIGHT_APPROVED; SUBMISSION_REJECTED; FINALIZED; EXPIRED; RELEASED].
Proof. destruct s; simpl; intros; by_members. Qed.

Lemma closing_source s target :
  target ∈ TRANSITIONS s → target ∈ [EXPIRED; RELEASED] →
  s ∈ [REQUESTED; PREFLIGHT_APPROVED; SIGNING].
Proof. destruct s; simpl; intros; by_members. Qed.

Lemma transition_refines policy clock execution_id target expected now d :
  0 < clock → keyed d →
  steps policy d (transition policy clock execution_id target expected now d).2.
Proof.
  unfold transition, put_execution. open_operation. key_row. row_guards.
  match goal with H : ?b && is_signed _ = false |- _ => rename H into Hsig end.
  match goal with H : ?b && (_ <? _) = false |- _ => rename H into Hdl end.
  match goal with H : target ∈ TRANSITIONS _ |- _ => rename H into Htr end.
  assert (target ∈ [PREFLIGHT_APPROVED; SUBMISSION_REJECTED; FINALIZED; EXPIRED; RELEASED])
    as Htarget by (eapply transition_targets; eauto).
  destruct (decide (target ∈ [EXPIRED; RELEASED])) as [Hcl|Hcl].
  - rewrite (bool_decide_eq_true_2 _ Hcl) in *. simpl in Hsig, Hdl. bool_inv.
    close_gate. take_row rs_transition a. simpl.
    eapply release_unsigned_step;
      rewrite ?transitioned_status, ?transitioned_signed; eauto using closing_source.
    by apply (row_step_identity _ None), rs_transition.
  - rewrite (bool_decide_eq_false_2 _ Hcl) in *. txn_inv.
    take_row rs_transition a. apply gm_keep.
    + right. rewrite transitioned_status. by_members.
    + rewrite transitioned_signed. auto.
Qed.

(** Settling an execution keeps its gas charged. *)
Lemma settle_step policy d d1 r r' reason t u :
  mark_gate_terminal policy r' GateSettled reason false t d = Ok (u, d1) →
  er_execution_id r' = er_execution_id r → er_status r' ∈ [REVERTED; FINALIZED] →
  er_status r' ≠ er_status r → is_signed r' = is_signed r →
  gate_move policy r r' (db_gate d) (db_gate d1).
Proof.
  intros (_ & _ & _ & Hg)%mark_gate_terminal_Ok Hid Hst Hne Hs. rewrite Hid in Hg.
  destruct Hg as [[-> ->]|(g & Hg & [[Hgs ->]|[Hgs ->]])].
  - by apply gm_ungated.
  - eapply gm_closed; eauto.
  - eapply gm_close; eauto.
Qed.

Lemma finalize_refines policy clock execution_id boundary now d :
  0 < clock → keyed d →
  steps policy d (finalize policy clock execution_id boundary now d).2.
Proof.
  unfold finalize, put_execution. open_operation. key_row.
  case_bool_decide as Hf; txn_inv; [done|]. row_guards. close_gate.
  take_row rs_finalize a. simpl. eapply settle_step; [eassumption|..]; simpl; try done; by_members.
Qed.

Lemma mark_reorg_review_refines policy clock execution_id evidence now d :
  0 < clock → keyed d →
  steps policy d (mark_reorg_review clock execution_id evidence now d).2.
Proof.
  unfold mark_reorg_review, put_execution. open_operation. key_row. row_guards.
  take_row rs_reorg 1. apply gm_keep; simpl; [right; by_members|auto].
Qed.

(** Releasing a reverted execution closes its reservation and keeps its gas. *)
Lemma release_step policy d d1 r r' t u :
  release_gate_reservation policy r' t d = Ok (u, d1) →
  er_execution_id r' = er_execution_id r → er_status r = REVERTED →
  er_status r' = RELEASED → is_signed r' = is_signed r →
  gate_move policy r r' (db_gate d) (db_gate d1).
Proof.
  intros (_ & _ & _ & Hg)%release_gate_reservation_Ok Hid Hst Hst' Hs. rewrite Hid in Hg.
  destruct Hg as [[-> ->]|(g & Hg & [[Hgs ->]|[Hgs ->]])].
  - by apply gm_ungated.
  - by eapply gm_released.
  - by eapply gm_release.
Qed.

Lemma release_reverted_refines policy clock execution_id rc evidence now d :
  0 < clock → keyed d →
  steps policy d (release_reverted policy clock execution_id rc evidence now d).2.
Proof.
  unfold release_reverted, put_execution. open_operation. key_row.
  case_bool_decide as Hf; txn_inv; [done|]. row_guards. close_gate.
  take_row rs_release 1. simpl. eapply release_step; [eassumption|..]; done.
Qed.

Lemma record_observation_refines policy clock execution_id target rc evidence now d :
  0 < clock → keyed d →
  (target = CONFIRMED ∧ rc_status rc = 1 ∨ target = REVERTED ∧ rc_status rc = 0) →
  steps policy d (record_observation policy clock execution_id target rc evidence now d).2.
Proof.
  unfold record_observation, put_execution. open_operation. key_row.
  case_bool_decide as Hcur.
  { unfold replayed_observation in *. txn_inv. case_match; txn_inv.
    case_match; txn_inv. done. }
  unfold add_observation in *.
  match goal with H : target = CONFIRMED ∧ _ ∨ _ |- _ =>
    pose proof H as Htarget; destruct H as [[-> _]|[-> _]] end; simpl in *; txn_inv.
  - row_guards. take_row rs_observe 1. apply gm_keep; [right|]; simpl; auto; by_members.
  - row_guards. close_gate. take_row rs_observe 1. simpl.
    eapply settle_step; [eassumption|..]; simpl; try done; by_members.
Qed.

Lemma confirm_refines policy clock execution_id rc evidence now d :
  0 < clock → keyed d →
  steps policy d (confirm policy clock execution_id rc evidence now d).2.
Proof.
  intros. unfold confirm. destruct (negb _) eqn:Hs; [done|]. bool_inv.
  apply record_observation_refines; auto.
Qed.

Lemma revert_refines policy clock execution_id rc accepted evidence now d :
  0 < clock → keyed d →
  steps policy d (revert policy clock execution_id rc accepted evidence now d).2.
Proof.
  intros. unfold revert. destruct (negb _ || _) eqn:Hs; [done|]. bool_inv.
  apply record_observation_refines; auto.
Qed.

(** The rows of a submission keep the signed transaction. *)
Lemma submitted_signed r t : is_signed (submitted_row r t) = is_signed r.
Proof.
  unfold is_signed, submitted_row, count_first_broadcast.
  by destruct (bool_decide (er_status r = SIGNED)).
Qed.
Lemma unknown_signed r t : is_signed (unknown_row r t) = is_signed r.
Proof.
  unfold is_signed, unknown_row, count_first_broadcast.
  by destruct (bool_decide (er_status r = SIGNED)).
Qed.
Lemma rejected_signed r reason t : is_signed (rejected_row r reason t) = is_signed r.
Proof.
  unfold is_signed, rejected_row, count_first_broadcast.
  by destruct (bool_decide (er_status r = SIGNED)).
Qed.

Ltac add_attempts :=
  repeat match goal with H : add_attempt _ _ _ _ _ _ = Ok _ |- _ =>
    apply add_attempt_Ok in H; subst end.

Lemma mark_submitted_refines policy clock execution_id now d :
  0 < clock → keyed d → steps policy d (mark_submitted clock execution_id now d).2.
Proof.
  unfold mark_submitted, put_execution, transaction_hash. open_operation. key_row.
  case_bool_decide as Hcur; txn_inv; [done|]. row_guards.
  case_bool_decide as Hs; txn_inv; add_attempts;
    (take_row rs_submit a; apply gm_keep; [right|rewrite submitted_signed]; simpl; auto; by_members).
Qed.

Lemma require_raw_transaction_Ok r raw :
  require_raw_transaction r = Ok raw →
  er_raw_transaction r = Some raw ∧ raw ≠ [] ∧
  ∃ h, ethereum_transaction_hash raw = Ok h ∧ er_raw_transaction_hash r = Some h.
Proof.
  unfold require_raw_transaction. destruct (er_raw_transaction r) as [[|b raw']|]; try done.
  intros. txn_inv. bool_inv. eauto.
Qed.

Lemma mark_submission_unknown_refines policy clock execution_id now d :
  0 < clock → keyed d → steps policy d (mark_submission_unknown clock execution_id now d).2.
Proof.
  unfold mark_submission_unknown, put_execution, transaction_hash. open_operation. key_row.
  case_bool_decide as Hcur; txn_inv; [done|]. row_guards.
  case_bool_decide as Hs; txn_inv; add_attempts.
  - take_row rs_unknown a. apply gm_keep; [right|rewrite unknown_signed]; simpl; auto; by_members.
  - match goal with H : require_raw_transaction _ = Ok _ |- _ =>
      apply require_raw_transaction_Ok in H as (_ & _ & h & _ & ?) end.
    take_row rs_unknown a. apply gm_keep; [right|rewrite unknown_signed]; simpl; auto; by_members.
Qed.

Lemma mark_submission_rejected_refines policy clock execution_id reason now d :
  0 < clock → keyed d →
  steps policy d (mark_submission_rejected clock execution_id reason now d).2.
Proof.
  unfold mark_submission_rejected, put_execution, transaction_hash. open_operation. key_row.
  case_bool_decide as Hcur; txn_inv; [done|]. row_guards.
  case_bool_decide as Hs; txn_inv; add_attempts;
    (take_row rs_reject a; apply gm_keep; [right|rewrite rejected_signed]; simpl; auto; by_members).
Qed.

Lemma claim_submission_refines policy clock execution_id now d :
  0 < clock → valid_policy policy → keyed d →
  steps policy d (claim_submission policy clock execution_id now d).2.
Proof.
  unfold claim_submission, put_execution, transaction_hash. open_operation. key_row.
  match goal with H : admit_with_gas _ _ _ _ = Ok _ |- _ =>
    apply admit_with_gas_Ok in H as (Hst & He & Ha); [|done..] end.
  etrans; [exact Hst|]. clear Hst. rewrite <- He in *.
  match goal with o : option string |- _ => destruct o end; txn_inv; [done|].
  case_bool_decide as Hcur; txn_inv; [done|]. row_guards. add_attempts.
  take_row rs_claim_submission a. apply gm_keep; [right|]; simpl; auto; by_members.
Qed.

Lemma rebroadcast_refines policy clock execution_id raw now d :
  0 < clock → valid_policy policy → keyed d →
  steps policy d (rebroadcast_raw_transaction policy clock execution_id raw now d).2.
Proof.
  unfold rebroadcast_raw_transaction, put_execution, transaction_hash. open_operation. key_row.
  row_guards.
  match goal with H : admit_with_gas _ _ _ _ = Ok _ |- _ =>
    apply admit_with_gas_Ok in H as (Hst & He & Ha); [|done..] end.
  etrans; [exact Hst|]. clear Hst. rewrite <- He in *.
  match goal with o : option string |- _ => destruct o end; txn_inv; [done|].
  add_attempts. take_row rs_rebroadcast a; [|apply gm_keep; auto].
  intros Hp. apply (presentable_touched x (er_broadcast_attempts x + 1) a (er_watcher_attempted_at x)); [done|lia..].
Qed.

Lemma claim_signing_refines policy clock execution_id now d :
  0 < clock → keyed d → steps policy d (claim_signing policy clock execution_id now d).2.
Proof.
  unfold claim_signing, put_execution. open_operation. key_row.
  match goal with H : gate_admission _ _ _ _ = Ok _ |- _ => apply admit_Ok in H as [Hst Hsame] end.
  match goal with o : option string |- _ => destruct o end; txn_inv; [done|].
  rewrite (Hsame eq_refl) in *. clear Hst Hsame.
  case_bool_decide as Hcur; txn_inv.
  - case_match; txn_inv; [done|]. row_guards. take_row rs_reclaim a.
    apply gm_keep; simpl; auto.
  - row_guards. take_row rs_claim a. apply gm_keep; [right|]; simpl; auto; by_members.
Qed.

(** A transaction may only be persisted against a funded reservation. *)
Lemma require_gas_reserved_Ok policy r d u d' :
  require_gas_reserved policy r d = Ok (u, d') →
  d' = d ∧ (policy = None ∨ funded (db_gate d) (er_execution_id r)).
Proof.
  unfold require_gas_reserved, funded. intros Hg. destruct policy; txn_inv; [|auto].
  bool_inv. eauto 10.
Qed.

Lemma persist_signed_transaction_refines policy clock execution_id signature raw generation
    unsigned now d :
  0 < clock → keyed d →
  steps policy d
    (persist_signed_transaction policy clock execution_id signature raw generation unsigned now d).2.
Proof.
  unfold persist_signed_transaction, put_execution. open_operation. key_row.
  case_bool_decide as Hcur; txn_inv; [done|].
  match goal with H : gate_admission _ _ _ _ = Ok _ |- _ => apply admit_Ok in H as [Hst Hsame] end.
  match goal with o : option string |- _ => destruct o end; txn_inv; [done|].
  rewrite (Hsame eq_refl) in *. clear Hst Hsame.
  match goal with H : require_gas_reserved _ _ _ = Ok _ |- _ =>
    apply require_gas_reserved_Ok in H as [-> Hfund] end.
  row_guards. add_attempts.
  match goal with H : ?t < er_deadline _ |- _ => take_row rs_sign t end.
  destruct Hfund as [->|Hfund]; [by apply gm_ungated|]. apply gm_keep; [right|auto].
  simpl. by_members.
Qed.

Lemma reserve_pilot_gas_refines policy clock execution_id cost generation now d :
  0 < clock → keyed d →
  steps policy d (reserve_pilot_gas policy clock execution_id cost generation now d).2.
Proof.
  unfold reserve_pilot_gas, put_gate, deny_paused. open_operation. key_row.
  case_match; txn_inv.
  { eapply rtc_once, add_row_event_Ok; eauto. }
  match goal with H : (if ?b then _ else _) _ = Ok _ |- _ => destruct b eqn:Hn; txn_inv end.
  { eapply rtc_once, add_row_event_Ok; eauto. }
  match goal with H : (if ?b then _ else _) _ = Ok _ |- _ => destruct b eqn:Hp; txn_inv end.
  { eapply rtc_once, add_row_event_Ok; eauto. }
  match goal with H : (if ?b then _ else _) _ = Ok _ |- _ => destruct b eqn:Hnew; txn_inv end;
    [|done].
  unfold add_row_event, add_gate_event in *. txn_inv. row_guards.
  eapply rtc_once, ds_charge;
    [reflexivity|eassumption|eassumption|eassumption| |exact Hn|exact Hp|reflexivity..].
  match goal with H : utc_day _ = Ok _ |- _ => by apply utc_day_Ok in H as (_ & _ & ?) end.
Qed.

(** *** Allocation *)

Lemma allocate_relayer_nonce_Ok chain relayer pending confirmed t d n d' :
  allocate_relayer_nonce chain relayer pending confirmed t d = Ok (n, d') →
  ∃ next, nonce_choice d (chain, relayer) pending confirmed n next ∧
    d' = d <| db_allocators := <[(chain, relayer) := MkNonceRow next t]> (db_allocators d) |>.
Proof.
  unfold allocate_relayer_nonce, put_allocator. intros. txn_inv.
  case_match eqn:Hrow; txn_inv; [|eexists; split; [by apply nc_first|done]].
  case_match eqn:Hrec; txn_inv.
  - eexists. split; [by eapply nc_recycled|done].
  - eexists. split; [by eapply nc_next|done].
Qed.

Lemma insert_execution_Ok r d u d' :
  insert_execution r d = Ok (u, d') →
  db_executions d !! er_execution_id r = None ∧
  (∀ k r', db_executions d !! k = Some r' → rows_collide r r' = false) ∧
  row_checks r = true ∧
  d' = d <| db_executions := <[er_execution_id r := r]> (db_executions d) |>.
Proof.
  unfold insert_execution. case_bool_decide as Hnew; [done|].
  case_bool_decide as Hc; [done|]. destruct (row_checks r) eqn:Hr; simpl; [|done].
  unfold put_execution. intros. txn_inv. split_and!; [|  |done..].
  - by apply eq_None_not_Some.
  - intros k r' Hk. eapply find_row_None; [|exact Hk]. by apply eq_None_not_Some.
Qed.

Lemma pilot_admission_denial_open p tenant node t d :
  pilot_admission_denial (Some p) tenant node t true d = Ok None →
  quota_open p d tenant node (t / SECONDS_PER_UTC_DAY).
Proof.
  unfold pilot_admission_denial, quota_open, utc_day, gate_positive_int.
  case_match; [done|]. cbn [negb]. destruct (_ <=? in_flight _ _ _) eqn:?; [done|].
  intros. txn_inv.
  destruct (_ <=? accepted_on _ _ _ _) eqn:?; [done|].
  destruct (_ <=? accepted_lifetime _ _ _) eqn:?; [done|]. bool_inv. lia.
Qed.

Lemma allocate_once_step policy execution_id i pending confirmed t d row d' h :
  0 <= pending <= MAX_RELAYER_NONCE → 0 <= confirmed → 0 < t →
  (∀ p, policy = Some p →
     quota_open p d (tenant_id i) (node_id i) (t / SECONDS_PER_UTC_DAY)) →
  allocate_once policy execution_id i pending confirmed t d = Ok (row, d') →
  record row = Ok h → db_step policy d d'.
Proof.
  intros Hp Hc Ht Hq. unfold allocate_once, put_gate, add_gate_event, utc_day, gate_positive_int.
  intros Ha Hrec. txn_inv.
  match goal with H : allocate_relayer_nonce _ _ _ _ _ _ = Ok _ |- _ =>
    apply allocate_relayer_nonce_Ok in H as (next & Hn & ->) end.
  match goal with H : insert_execution _ _ = Ok _ |- _ =>
    apply insert_execution_Ok in H as (Hnew & Hcol & Hrow & ->) end.
  simpl in *. destruct policy as [p|]; txn_inv;
    (eapply (ds_allocate _ _ _ execution_id i pending confirmed _ next);
     [exact Hp|exact Hc|exact Ht|exact Hnew|exact Hcol|exact Hrow
     |eapply presentable_record; eassumption|exact Hn|reflexivity..|]).
  - split; [by apply Hq|done].
  - done.
Qed.

Lemma allocation_attempts_steps policy fuel ids i pending confirmed t d h d' :
  0 <= pending <= MAX_RELAYER_NONCE → 0 <= confirmed → 0 < t →
  (∀ p, policy = Some p →
     quota_open p d (tenant_id i) (node_id i) (t / SECONDS_PER_UTC_DAY)) →
  allocation_attempts policy fuel ids i pending confirmed t d = Ok (h, d') →
  steps policy d d'.
Proof.
  intros Hp Hc Ht Hq. induction fuel as [|fuel IH]; simpl; [done|].
  destruct (allocate_once _ _ _ _ _ _ _) as [[row d1]|e] eqn:Ha.
  - intros. txn_inv. by eapply rtc_once, allocate_once_step.
  - destruct e; try done. destruct (existing_for_intent i d) as [[row|]|]; try done.
    intros. txn_inv. done.
Qed.

Lemma allocate_or_return_refines policy clock ids i pending confirmed now d :
  0 < clock →
  steps policy d (allocate_or_return policy clock ids i pending confirmed now d).2.
Proof.
  unfold allocate_or_return. open_operation.
  case_match; txn_inv; [done|]. case_match; txn_inv.
  { unfold add_gate_event in *. txn_inv. by apply rtc_once, ds_other. }
  unfold canonical_nonce in *. txn_inv. row_guards.
  eapply allocation_attempts_steps; [| | | |eassumption]; [lia..|].
  intros p ->. by apply pilot_admission_denial_open.
Qed.

(** *** Every call *)

Lemma keyed_step policy d d' : db_step policy d d' → keyed d → keyed d'.
Proof.
  unfold keyed. destruct 1 as [He _ _ _|r a r' t Hr Hs _ He _ _ _
    |p r g cost day t _ _ _ _ _ _ _ He _ _ _|id i pending confirmed n next t _ _ _ _ _ _ _ _ He];
    rewrite He; intros Hk k r0; [apply Hk| |apply Hk|].
  - apply row_step_identity in Hs as [Hid _].
    rewrite lookup_insert_Some. intros [[<- <-]|[_ ?]]; auto.
  - rewrite lookup_insert_Some. intros [[<- <-]|[_ ?]]; auto.
Qed.

Lemma keyed_steps policy d d' : steps policy d d' → keyed d → keyed d'.
Proof. induction 1; eauto using keyed_step. Qed.

Lemma run_refines policy clock c d :
  0 < clock → valid_policy policy → keyed d → steps policy d (run policy clock c d).2.
Proof.
  intros. destruct c; simpl;
    [apply allocate_or_return_refines|apply record_watcher_attempt_refines
    |apply set_pilot_pause_refines|apply reserve_pilot_gas_refines
    |apply transition_refines|apply persist_signed_transaction_refines
    |apply claim_signing_refines|apply claim_submission_refines
    |apply mark_submitted_refines|apply mark_submission_unknown_refines
    |apply mark_submission_rejected_refines|apply rebroadcast_refines
    |apply release_expired_refines|apply confirm_refines|apply finalize_refines
    |apply revert_refines|apply release_reverted_refines
    |apply mark_reorg_review_refines]; done.
Qed.

Lemma keyed_empty : keyed empty_db.
Proof. intros k r Hk. done. Qed.

(** A property of the tables that the abstract steps keep holds of every reachable
    database. *)
Lemma reachable_steps policy d :
  valid_policy policy → reachable policy d → steps policy empty_db d.
Proof.
  intros Hp Hd. unfold reachable in Hd.
  enough (keyed d ∧ steps policy empty_db d) by tauto.
  revert d Hd. apply (rtc_ind_r (λ d, keyed d ∧ steps policy empty_db d)).
  { split; [apply keyed_empty|done]. }
  intros d1 d2 _ Hc IH. destruct IH as [Hk Hs]. destruct Hc as [clock c Hpos ->].
  pose proof (run_refines policy clock c d1 Hpos Hp Hk) as Hrun.
  split; [by eapply keyed_steps|by etrans].
Qed.

Lemma invariant_reachable policy (I : HostedDb → Prop) :
  valid_policy policy → I empty_db → (∀ d d', db_step policy d d' → I d → I d') →
  ∀ d, reachable policy d → I d.
Proof.
  intros Hp Hempty Hstep d Hd%reachable_steps; [|done].
  revert d Hd. apply (rtc_ind_r I); eauto.
Qed.

(** *** The history of one row *)

Definition row_move (r r' : HostedExecutionRow) : Prop := ∃ a, row_step r a r'.

(** Rows are never deleted: each goes on by steps of its own. *)
Lemma steps_row policy d d' k r :
  steps policy d d' → db_executions d !! k = Some r →
  ∃ r', db_executions d' !! k = Some r' ∧ rtc row_move r r'.
Proof.
  intros Hs Hk. revert d' Hs. apply rtc_ind_r; [by exists r|].
  intros d1 d2 _ Hstep (r1 & Hr1 & Hm).
  destruct Hstep as [He _ _ _|r0 a r' t Hr Hst Hpres He _ _ _
    |p r0 g cost day t _ _ _ _ _ _ _ He _ _ _
    |id i pending confirmed n next t Hp _ _ Hnew _ _ _ _ He _ _ _]; rewrite He; eauto.
  - destruct (decide (er_execution_id r0 = k)) as [<-|].
    + simplify_eq. exists r'. rewrite lookup_insert_eq. split; [done|].
      eapply rtc_r; [exact Hm|]. by exists a.
    + rewrite lookup_insert_ne by done. eauto.
  - rewrite lookup_insert_ne by congruence. eauto.
Qed.

Lemma call_steps policy d d' :
  valid_policy policy → keyed d → rtc (call policy) d d' → steps policy d d' ∧ keyed d'.
Proof.
  intros Hp Hk. revert d'. apply rtc_ind_r; [done|].
  intros d1 d2 _ [clock c Hpos ->] [Hs Hk1].
  pose proof (run_refines policy clock c d1 Hpos Hp Hk1) as Hrun.
  split; [by etrans|by eapply keyed_steps].
Qed.

Lemma reachable_keyed policy d : valid_policy policy → reachable policy d → keyed d.
Proof. intros Hp Hd. by apply (call_steps policy empty_db). Qed.

Lemma reachable_trans policy d d' :
  reachable policy d → rtc (call policy) d d' → reachable policy d'.
Proof. unfold reachable. by etrans. Qed.

(** A row of a reachable database after any calls. *)
Lemma calls_row policy d d' k r :
  valid_policy policy → reachable policy d → rtc (call policy) d d' →
  db_executions d !! k = Some r →
  ∃ r', db_executions d' !! k = Some r' ∧ rtc row_move r r'.
Proof.
  intros Hp Hd Hc Hk. eapply steps_row; [|done].
  apply call_steps; [done| |done]. by eapply reachable_keyed.
Qed.

Lemma row_move_identity r r' : rtc row_move r r' → same_identity r r'.
Proof.
  induction 1 as [|r1 r2 r3 [a Hs] _ (H1 & H2 & H3 & H4)]; [by split_and!|].
  apply row_step_identity in Hs as (? & ? & ? & ?). split_and!; congruence.
Qed.
End Refinement.
