(* ===== verification/ExecutionInvariants.v ===== *)
(** * Invariants of the hosted execution tables

    Properties of every row and of the tables together that hold in every
    reachable database, by induction on the steps of the abstract machine. *)

From S2P Require Import Prelude PyValue ExecutionModels Evm ExecutionTables PilotGate.
From S2P Require Import NonceAllocator ExecutionRepository ExecutionSettlement ExecutionMachine.
From S2P Require Import ExecutionRefinement.

Section Invariants.
Context `{Sha256, Keccak}.
Implicit Types (policy : option PilotGatePolicy) (d : HostedDb) (r : HostedExecutionRow).

(** ** Row invariants *)

Definition all_rows (P : HostedExecutionRow → Prop) (d : HostedDb) : Prop :=
  ∀ k r, db_executions d !! k = Some r → P r.

Lemma all_rows_step policy (P : HostedExecutionRow → Prop) d d' :
  (∀ id i n t, 0 < t → row_checks (new_execution id i n t) = true →
     presentable (new_execution id i n t) → P (new_execution id i n t)) →
  (∀ r a r', row_step r a r' → (presentable r → presentable r') → P r → P r') →
  db_step policy d d' → all_rows P d → all_rows P d'.
Proof.
  intros Hnew Hstep. unfold all_rows.
  destruct 1 as [He _ _ _|r a r' t Hr Hs Hpres He _ _ _
    |p r g cost day t _ _ _ _ _ _ _ He _ _ _|id i pending confirmed n next t ? ? ? ? ? ? ? ? He];
    rewrite He; intros HP k r0; [apply HP| |apply HP|].
  - rewrite lookup_insert_Some. intros [[<- <-]|[_ ?]]; eauto.
  - rewrite lookup_insert_Some. intros [[<- <-]|[_ ?]]; eauto.
Qed.

Lemma all_rows_empty P : all_rows P empty_db.
Proof. intros k r Hk. done. Qed.

(** The transaction columns of a row move together. *)
Definition signed_states : list ExecutionState :=
  [SIGNED; SUBMITTED; SUBMISSION_UNKNOWN; SUBMISSION_REJECTED; CONFIRMED; FINALIZED;
   REVERTED; REORG_REVIEW; RELEASED].
Definition unsigned_states : list ExecutionState :=
  [PREFLIGHT_APPROVED; SIGNING; EXPIRED; RELEASED].

Inductive transaction_shape (r : HostedExecutionRow) : Prop :=
| shape_unsigned :
    er_signature r = None → er_raw_transaction r = None → er_raw_transaction_hash r = None →
    er_release_evidence r = None → er_broadcast_attempts r = 0 →
    er_status r ∈ unsigned_states → transaction_shape r
| shape_signed signature raw h :
    er_signature r = Some signature → er_raw_transaction r = Some raw →
    er_raw_transaction_hash r = Some h → blen signature = 65 → 0 < blen raw →
    ethereum_transaction_hash raw = Ok h → 0 <= er_broadcast_attempts r →
    er_status r ∈ signed_states →
    (er_status r = RELEASED ↔ is_Some (er_release_evidence r)) → transaction_shape r.

Lemma count_first_broadcast_attempts r t :
  0 <= er_broadcast_attempts r → 0 <= er_broadcast_attempts (count_first_broadcast r t).
Proof. unfold count_first_broadcast. case_bool_decide; simpl; lia. Qed.

(** A step other than signing keeps the transaction columns. *)
Definition same_transaction (r r' : HostedExecutionRow) : Prop :=
  er_signature r' = er_signature r ∧ er_raw_transaction r' = er_raw_transaction r ∧
  er_raw_transaction_hash r' = er_raw_transaction_hash r.

Definition carries_transaction (r : HostedExecutionRow) : Prop :=
  ∃ signature raw h,
    er_signature r = Some signature ∧ er_raw_transaction r = Some raw ∧
    er_raw_transaction_hash r = Some h ∧ blen signature = 65 ∧ 0 < blen raw ∧
    ethereum_transaction_hash raw = Ok h.

Lemma row_step_transaction r a r' :
  row_step r a r' →
  (er_status r = SIGNING ∧ er_status r' = SIGNED ∧ carries_transaction r' ∧
   er_broadcast_attempts r' = er_broadcast_attempts r ∧
   er_release_evidence r' = er_release_evidence r) ∨
  same_transaction r r' ∧ (er_status r' = SIGNED → er_status r = SIGNED).
Proof.
  unfold same_transaction.
  destruct 1; try (right; repeat split; simpl; congruence || done);
    [left; split_and!; try done; by do 3 eexists; split_and!|..]; right.
  - unfold submitted_row, count_first_broadcast. simpl. by destruct (bool_decide _).
  - unfold unknown_row, count_first_broadcast. simpl. by destruct (bool_decide _).
  - unfold rejected_row, count_first_broadcast. simpl. by destruct (bool_decide _).
  - match goal with H : target = _ ∧ _ ∨ _ |- _ => destruct H as [[-> _]|[-> _]] end; done.
  - rewrite transitioned_status. split; [|intros ->; by_members].
    unfold transitioned_row. by destruct (bool_decide _), target.
Qed.

(** The columns of the submission rows the shape reads. *)
Lemma submitted_attempts r t :
  er_broadcast_attempts r <= er_broadcast_attempts (submitted_row r t) ∧
  er_release_evidence (submitted_row r t) = er_release_evidence r.
Proof.
  unfold submitted_row, count_first_broadcast. case_bool_decide; simpl; split; done || lia.
Qed.
Lemma unknown_attempts r t :
  er_broadcast_attempts r <= er_broadcast_attempts (unknown_row r t) ∧
  er_release_evidence (unknown_row r t) = er_release_evidence r.
Proof.
  unfold unknown_row, count_first_broadcast.
  destruct (bool_decide (er_status r = SIGNED)); simpl; split; done || lia.
Qed.
Lemma rejected_attempts r reason t :
  er_broadcast_attempts r <= er_broadcast_attempts (rejected_row r reason t) ∧
  er_release_evidence (rejected_row r reason t) = er_release_evidence r.
Proof.
  unfold rejected_row, count_first_broadcast. case_bool_decide; simpl; split; done || lia.
Qed.
Lemma observed_attempts r target rc t :
  er_broadcast_attempts (observed_row r target rc t) = er_broadcast_attempts r ∧
  er_release_evidence (observed_row r target rc t) = er_release_evidence r ∧
  er_status (observed_row r target rc t) = target.
Proof. unfold observed_row. case_bool_decide; by split_and!. Qed.
Lemma transitioned_attempts r target t :
  er_broadcast_attempts (transitioned_row r target t) = er_broadcast_attempts r ∧
  er_release_evidence (transitioned_row r target t) = er_release_evidence r.
Proof. unfold transitioned_row. destruct (bool_decide _), target; by split_and!. Qed.

(** The transitions that occur: the transition table, and the ones the dedicated
    operations add to it. *)
Definition lifecycle (s : ExecutionState) : list ExecutionState :=
  match s with
  | REQUESTED => [PREFLIGHT_APPROVED; EXPIRED; RELEASED]
  | PREFLIGHT_APPROVED => [SIGNING; EXPIRED; RELEASED]
  | SIGNING => [SIGNED; EXPIRED; RELEASED]
  | SIGNED => [SUBMITTED; SUBMISSION_UNKNOWN; SUBMISSION_REJECTED]
  | SUBMITTED => [SUBMISSION_UNKNOWN; CONFIRMED; REVERTED]
  | SUBMISSION_UNKNOWN => [SUBMITTED; SUBMISSION_REJECTED; CONFIRMED; REVERTED]
  | SUBMISSION_REJECTED => [SUBMITTED; SUBMISSION_UNKNOWN; CONFIRMED; REVERTED]
  | CONFIRMED => [FINALIZED]
  | FINALIZED => [REORG_REVIEW]
  | REVERTED => [RELEASED]
  | EXPIRED | RELEASED | REORG_REVIEW => []
  end.

Lemma transition_lifecycle s target :
  target ∈ TRANSITIONS s → target ∈ lifecycle s.
Proof. destruct s; simpl; intros; by_members. Qed.

Lemma row_step_status r a r' :
  row_step r a r' → er_status r' = er_status r ∨ er_status r' ∈ lifecycle (er_status r).
Proof.
  destruct 1; rewrite ?transitioned_status, ?(proj2 (proj2 (observed_attempts _ _ _ _)));
    simpl; try (left; congruence); try (left; reflexivity); right;
    try (by apply transition_lifecycle); unfold awaiting_states in *;
    try (destruct (er_status r); simpl; by_members).
  match goal with H : target = _ ∧ _ ∨ _ |- _ => destruct H as [[-> _]|[-> _]] end;
    destruct (er_status r); simpl; by_members.
Qed.

Lemma row_step_attempts r a r' :
  row_step r a r' →
  er_broadcast_attempts r' = er_broadcast_attempts r ∨
  er_status r ∈ submittable_states ∧
    er_broadcast_attempts r' = er_broadcast_attempts r + 1.
Proof.
  destruct 1; rewrite ?(proj1 (observed_attempts _ _ _ _)), ?(proj1 (transitioned_attempts _ _ _));
    try (left; reflexivity);
    unfold submitted_row, unknown_row, rejected_row, count_first_broadcast;
    try (destruct (bool_decide (er_status r = SIGNED)) eqn:Hsig; bool_inv);
    try (left; reflexivity); right;
    (split; [unfold submittable_states, awaiting_states in *; by_members|reflexivity]).
Qed.

Lemma row_step_evidence r a r' :
  row_step r a r' →
  er_release_evidence r' = er_release_evidence r ∧
    (er_status r = REVERTED → er_status r' = REVERTED) ∨
  er_status r = REVERTED ∧ er_status r' = RELEASED ∧ is_Some (er_release_evidence r').
Proof.
  destruct 1; try (right; simpl; by eauto); left;
    (split; [|unfold awaiting_states in *; simpl; intros; try assumption; try by_members]);
    try reflexivity.
  - apply submitted_attempts.
  - apply unknown_attempts.
  - apply rejected_attempts.
  - apply observed_attempts.
  - apply transitioned_attempts.
  - match goal with H : _ = REVERTED |- _ => rewrite H in * end. simpl in *. by_members.
Qed.

Lemma transaction_shape_step r a r' :
  row_step r a r' → transaction_shape r → transaction_shape r'.
Proof.
  intros Hstep Hshape. pose proof (row_step_transaction _ _ _ Hstep) as Hsame.
  pose proof (row_step_status _ _ _ Hstep) as Hst'.
  pose proof (row_step_attempts _ _ _ Hstep) as Hb'.
  pose proof (row_step_evidence _ _ _ Hstep) as He'.
  destruct Hshape as [Es Er Eh Ee Eb Hst|signature raw h Es Er Eh Hl Hl' Hh Hb Hst Hrel].
  - unfold unsigned_states in Hst.
    destruct Hsame as [(_ & Hs & (s & raw & h & ?) & Hbs & Hes)|[(Hs & Hr & Hh) Hns]].
    + destruct_and!. eapply shape_signed; try eassumption; [lia|by_members|].
      rewrite Hes, Ee, Hs. split; [done|by intros []].
    + apply shape_unsigned; try congruence.
      * destruct He' as [[-> _]|(E & _)]; [done|by_members].
      * destruct Hb' as [->|[E _]]; [done|]. unfold submittable_states in E. by_members.
      * assert (er_status r' ≠ SIGNED) by (intros E'; apply Hns in E'; by_members).
        unfold unsigned_states. destruct Hst' as [->|Hl]; [done|].
        destruct (er_status r) eqn:E; simpl in Hl; by_members.
  - unfold signed_states in Hst.
    destruct Hsame as [(Hs & _)|[(Hs & Hr & Hh') Hns]]; [by_members|].
    eapply shape_signed; rewrite ?Hs, ?Hr, ?Hh'; try eassumption; [lia| |].
    + unfold signed_states. destruct Hst' as [->|Hc]; [done|].
      destruct (er_status r) eqn:E; simpl in Hc; by_members.
    + destruct He' as [[-> Hrev]|(E & -> & ?)]; [|done].
      destruct Hst' as [->|Hc]; [done|].
      destruct (er_status r) eqn:E; simpl in Hc; rewrite <- Hrel; split; try by_members.
      by rewrite Hrev.
Qed.

(** ** Signing leases *)

Definition same_lease (r r' : HostedExecutionRow) : Prop :=
  er_signing_claim_generation r' = er_signing_claim_generation r ∧
  (er_signing_claim_expires_at r' = er_signing_claim_expires_at r ∧
     (er_status r' = SIGNING ↔ er_status r = SIGNING) ∨
   er_signing_claim_expires_at r' = None ∧ er_status r' ≠ SIGNING).

Lemma row_step_lease r a r' :
  row_step r a r' →
  same_lease r r' ∨
  ∃ t, r' = claimed_row r t ∧ 0 < t < er_deadline r ∧
    (er_status r = PREFLIGHT_APPROVED ∨
     ∃ lease, er_status r = SIGNING ∧ er_signing_claim_expires_at r = Some lease ∧ lease <= t).
Proof.
  unfold same_lease. destruct 1; try (right; by eauto 10); left;
    rewrite ?transitioned_status, ?(proj2 (proj2 (observed_attempts _ _ _ _)));
    try (simpl; by auto);
    try (simpl; split; [done|]; left; split; [done|]; unfold awaiting_states in *;
         split; intros; by_members).
  - unfold submitted_row, count_first_broadcast.
    destruct (bool_decide _); (split; [done|]; left; split; [done|]; split; simpl; intros; by_members).
  - unfold unknown_row, count_first_broadcast.
    destruct (bool_decide (er_status r = SIGNED));
      (split; [done|]; left; split; [done|]; split; simpl; intros; by_members).
  - unfold rejected_row, count_first_broadcast.
    destruct (bool_decide _); (split; [done|]; left; split; [done|]; split; simpl; intros; by_members).
  - match goal with H : target = _ ∧ _ ∨ _ |- _ => destruct H as [[-> _]|[-> _]] end;
      (split; [done|]; left; split; [done|]; unfold awaiting_states in *;
       split; intros; by_members).
  - match goal with H : target ∈ TRANSITIONS _, H' : target ∈ _ :: _ |- _ =>
      rename H into Htr; rename H' into Htg end.
    clear -Htr Htg. unfold transitioned_row.
    destruct target; try (exfalso; clear -Htg; by_members); (split; [reflexivity|]);
      try (right; by split); left; (split; [reflexivity|]);
      destruct (er_status r); simpl in Htr; split; intros; by_members.
Qed.

Definition lease_shape (r : HostedExecutionRow) : Prop :=
  0 <= er_signing_claim_generation r ∧ 0 < er_deadline r ∧
  (er_status r = SIGNING ↔ is_Some (er_signing_claim_expires_at r)) ∧
  (∀ lease, er_signing_claim_expires_at r = Some lease →
     0 < er_signing_claim_generation r ∧ 0 < lease <= er_deadline r).

Lemma lease_shape_step r a r' : row_step r a r' → lease_shape r → lease_shape r'.
Proof.
  intros Hstep (Hg & Hd & Hl & Hle). pose proof (row_step_identity _ _ _ Hstep) as (_ & Hc & _ & _).
  unfold lease_shape, er_deadline in *. rewrite Hc.
  destruct (row_step_lease _ _ _ Hstep) as [[Hgen [[Hs Hst]|[Hs Hst]]]|(t & -> & Ht & Hr)].
  - rewrite Hgen, Hs, Hst. auto.
  - rewrite Hgen, Hs. split_and!; [done..| |done]. by split; [|intros []].
  - simpl. unfold signing_lease, SIGNING_CLAIM_LEASE_SECONDS, er_deadline.
    split_and!; [lia|done|by split; [eexists|]|]. intros lease [= <-]. lia.
Qed.

(** ** Finality evidence *)

Definition settled_states : list ExecutionState := [CONFIRMED; FINALIZED; REVERTED; REORG_REVIEW].

(** The row carries a boundary of its chain, at the depth the chain asks for. *)
Definition boundary_evidence (r : HostedExecutionRow) : Prop :=
  ∃ p, chain_profile (er_chain r) = Some p ∧
    er_finality_boundary r = Some (profile_finality_boundary p) ∧
    profile_min_confirmation_depth p <= er_confirmations r ∧
    is_Some (er_safe_block_number r) ∧ is_Some (er_safe_block_hash r).

Definition finality_shape (r : HostedExecutionRow) : Prop :=
  er_status r ∈ settled_states → boundary_evidence r.

Lemma finality_shape_check r : finality_shape r → terminal_evidence_check r = true.
Proof.
  unfold finality_shape, terminal_evidence_check, settled_states. intros Hf.
  case_bool_decide as Hs; [|done].
  destruct (Hf Hs) as (p & Hp & Hb & Hd & Hn & Hh). rewrite Hb.
  rewrite (bool_decide_eq_true_2 _ Hn), (bool_decide_eq_true_2 _ Hh), !andb_true_r.
  apply chain_profile_cases in Hp as [(-> & E & Hc)|(-> & E & Hc)]; rewrite E in Hd.
  - apply orb_true_iff. left. rewrite bool_decide_eq_true_2 by (destruct Hc as [->| ->]; by_members).
    rewrite (proj2 (Z.leb_le _ _) Hd). done.
  - apply orb_true_iff. right. rewrite bool_decide_eq_true_2 by (destruct Hc as [->| ->]; by_members).
    rewrite (proj2 (Z.leb_le _ _) Hd). done.
Qed.

Lemma require_chain_boundary_Ok r rc p :
  require_chain_boundary r rc = Ok p →
  chain_profile (er_chain r) = Some p ∧
  rc_finality_boundary rc = profile_finality_boundary p ∧
  profile_min_confirmation_depth p <= rc_confirmations rc ∧
  0 <= rc_block_number rc <= rc_safe_block_number rc ∧ rc_safe_block_hash rc ≠ EmptyString.
Proof.
  unfold require_chain_boundary, require_finality_boundary. intros. txn_inv. bool_inv.
  split_and!; auto.
Qed.

Lemma observed_boundary r target rc t p :
  require_chain_boundary r rc = Ok p → boundary_evidence (observed_row r target rc t).
Proof.
  intros (Hp & Hb & Hd & Hn & Hh)%require_chain_boundary_Ok. exists p.
  unfold observed_row, lower_or_none.
  rewrite (bool_decide_eq_false_2 _ Hh). destruct (bool_decide _); simpl; rewrite Hb;
    split_and!; eauto.
Qed.
Lemma released_boundary r rc evidence t p :
  require_chain_boundary r rc = Ok p → er_finality_boundary r = Some (rc_finality_boundary rc) →
  boundary_evidence (reverted_release_row r rc evidence t).
Proof.
  intros (Hp & Hb & Hd & Hn & Hh)%require_chain_boundary_Ok Hf. exists p.
  simpl. rewrite Hf, Hb. split_and!; eauto.
Qed.

Definition same_boundary (r r' : HostedExecutionRow) : Prop :=
  er_finality_boundary r' = er_finality_boundary r ∧ er_confirmations r' = er_confirmations r ∧
  er_safe_block_number r' = er_safe_block_number r ∧
  er_safe_block_hash r' = er_safe_block_hash r ∧
  er_receipt_status r' = er_receipt_status r ∧
  er_receipt_block_number r' = er_receipt_block_number r.

Lemma row_step_boundary r a r' :
  row_step r a r' →
  (same_boundary r r' ∧ (er_status r' ∈ settled_states → er_status r ∈ settled_states)) ∨
  (er_status r ∈ awaiting_states ∧ er_status r' ∈ [CONFIRMED; REVERTED] ∧ boundary_evidence r') ∨
  (er_status r = REVERTED ∧ er_status r' = RELEASED ∧ boundary_evidence r').
Proof.
  unfold same_boundary, settled_states.
  destruct 1; try (left; split; [by split_and!|]; simpl; intros; by_members).
  - left. unfold submitted_row, count_first_broadcast.
    destruct (bool_decide _); (split; [by split_and!|]); simpl; intros; by_members.
  - left. unfold unknown_row, count_first_broadcast.
    destruct (bool_decide (er_status r = SIGNED));
      (split; [by split_and!|]); simpl; intros; by_members.
  - left. unfold rejected_row, count_first_broadcast.
    destruct (bool_decide _); (split; [by split_and!|]); simpl; intros; by_members.
  - right. left. split; [done|].
    match goal with H : target = _ ∧ _ ∨ _ |- _ => destruct H as [[-> _]|[-> _]] end;
      (split; [simpl; by_members|by eapply observed_boundary]).
  - left. split; [unfold transitioned_row; destruct (bool_decide _), target; by split_and!|].
    rewrite transitioned_status.
    match goal with H : target ∈ TRANSITIONS _, H' : target ∈ _ :: _ |- _ =>
      rename H into Htr; rename H' into Htg end.
    clear -Htr Htg. intros Hs.
    assert (target = FINALIZED) as -> by (clear -Htg Hs; destruct target; by_members).
    destruct (er_status r); simpl in Htr; by_members.
  - right. right. split; [done|]. split; [done|]. by eapply released_boundary.
Qed.

Lemma finality_shape_step r a r' : row_step r a r' → finality_shape r → finality_shape r'.
Proof.
  intros Hstep Hf Hs. pose proof (row_step_identity _ _ _ Hstep) as (_ & Hc & _ & _).
  destruct (row_step_boundary _ _ _ Hstep)
    as [[(Hb & Hn & Hsn & Hsh & _) Hst]|[(_ & _ & ?)|(_ & _ & ?)]]; [|done|done].
  destruct (Hf (Hst Hs)) as (p & ? & ? & ? & ? & ?). exists p.
  unfold er_chain in *. rewrite Hc, Hb, Hn, Hsn, Hsh. done.
Qed.

(** ** The table constraints *)

(** The constraints on the columns no operation assigns. *)
Definition column_checks (r : HostedExecutionRow) : Prop :=
  ∃ r0, er_columns r = er_columns r0 ∧ er_relayer_nonce r = er_relayer_nonce r0 ∧
    row_checks r0 = true.

Lemma row_checks_intro r :
  column_checks r → lease_shape r → finality_shape r → row_checks r = true.
Proof.
  intros (r0 & Hc & Hn & Hr) (Hg & _ & _ & Hl) Hf%finality_shape_check.
  unfold row_checks in *. rewrite Hc, Hn, Hf.
  repeat match goal with H : _ && _ = true |- _ => apply andb_true_iff in H as [? ?] end.
  repeat (apply andb_true_iff; split); try assumption; try reflexivity.
  - by apply Z.leb_le.
  - destruct (er_signing_claim_expires_at r) as [e|]; [|done].
    destruct (Hl e eq_refl) as [? ?]. apply andb_true_iff; split; lia.
Qed.

(** Everything a row of a reachable database satisfies. *)
Record row_ok (r : HostedExecutionRow) : Prop := {
  ok_columns : column_checks r;
  ok_lease : lease_shape r;
  ok_finality : finality_shape r;
  ok_transaction : transaction_shape r;
  ok_presentable : presentable r;
}.

Lemma row_ok_new id i n t :
  row_checks (new_execution id i n t) = true → presentable (new_execution id i n t) →
  row_ok (new_execution id i n t).
Proof.
  intros Hr Hp. split; [by eexists| | | |done].
  - unfold row_checks in Hr. simpl in Hr. bool_inv. unfold lease_shape, er_deadline. simpl.
    split_and!; [done|done| |done]. by split; [|intros []].
  - unfold finality_shape, settled_states. simpl. intros. by_members.
  - apply shape_unsigned; try done. unfold unsigned_states. simpl. by_members.
Qed.

Lemma row_ok_step r a r' :
  row_step r a r' → (presentable r → presentable r') → row_ok r → row_ok r'.
Proof.
  intros Hs Hp [Hc Hl Hf Ht Hpr].
  split; eauto using lease_shape_step, finality_shape_step, transaction_shape_step.
  destruct Hc as (r0 & Hc & Hn & ?). exists r0.
  destruct (row_step_identity _ _ _ Hs) as (_ & -> & -> & _). done.
Qed.

Lemma reachable_rows policy d : valid_policy policy → reachable policy d → all_rows row_ok d.
Proof.
  intros Hp. apply invariant_reachable; [done|apply all_rows_empty|].
  intros d1 d2. apply all_rows_step; [|apply row_ok_step].
  intros. by apply row_ok_new.
Qed.
End Invariants.
