(* ===== verification/GateInvariants.v ===== *)
(** * What the pilot gate guarantees

    Under a policy, every execution has one reservation; quotas and daily gas
    budgets are never exceeded; a reservation agrees with the state of its
    execution; and no transaction is signed without gas charged to a day. *)

From S2P Require Import Prelude PyValue ExecutionModels Evm ExecutionTables PilotGate.
From S2P Require Import NonceAllocator ExecutionRepository ExecutionSettlement ExecutionMachine.
From S2P Require Import ExecutionRefinement ExecutionInvariants.

(** The gas charged to a day for one node, and for the platform. *)
Definition node_gas (d : HostedDb) (tenant node : string) (day : Z) : Z :=
  table_sum (gas_on day (in_scope tenant node)) (db_gate d).
Definition platform_gas (d : HostedDb) (day : Z) : Z :=
  table_sum (gas_on day platform_scope) (db_gate d).

(** A reservation after a close: nothing the quotas or the budgets count grew. *)
Definition gate_shrinks (g g' : HostedGateReservationRow) : Prop :=
  gr_tenant_id g' = gr_tenant_id g ∧ gr_node_id g' = gr_node_id g ∧
  gr_utc_day g' = gr_utc_day g ∧ gr_state g' ≠ GateReserved ∧
  (gr_gas_cost_usd_micros g' = gr_gas_cost_usd_micros g ∧ gr_gas_utc_day g' = gr_gas_utc_day g ∨
   gr_gas_cost_usd_micros g' = 0 ∧ gr_gas_utc_day g' = None).

Lemma closed_gate_shrinks g state clear t :
  state ≠ GateReserved → gate_shrinks g (closed_gate g state clear t).
Proof. unfold gate_shrinks, closed_gate. intros. destruct clear; simpl; split_and!; auto. Qed.

Section GateInvariants.
Context `{Sha256, Keccak} (p : PilotGatePolicy).
Implicit Types (d : HostedDb) (r : HostedExecutionRow) (g : HostedGateReservationRow).

Lemma gate_move_shrinks r r' G G' :
  gate_move (Some p) r r' G G' →
  G' = G ∨
  ∃ g g', G !! er_execution_id r = Some g ∧ gate_shrinks g g' ∧
    G' = <[er_execution_id r := g']> G.
Proof.
  destruct 1; try (by left); right; eexists _, _; (split; [eassumption|]); (split; [|reflexivity]);
    apply closed_gate_shrinks; [|done].
  match goal with H : _ ∨ _ |- _ => destruct H as [(_ & _ & -> & _)|(_ & -> & _)]; done end.
Qed.

(** A reservation belongs to an execution of the same node, and its gas is a
    non-negative amount charged to a day. *)
Definition gate_owned d : Prop :=
  ∀ k g, db_gate d !! k = Some g →
    0 <= gr_gas_cost_usd_micros g ∧
    ∃ r, db_executions d !! k = Some r ∧ er_tenant_id r = gr_tenant_id g ∧
      er_node_id r = gr_node_id g.

Definition budgets_kept d : Prop :=
  (∀ tenant node day, node_gas d tenant node day <= max_gas_usd_micros_per_node_utc_day p) ∧
  (∀ day, platform_gas d day <= max_gas_usd_micros_platform_utc_day p).

Definition quotas_kept d : Prop :=
  ∀ tenant node,
    in_flight d tenant node <= max_in_flight_per_node p ∧
    (∀ day, accepted_on d tenant node day <= max_accepted_per_node_utc_day p) ∧
    accepted_lifetime d tenant node <= max_accepted_per_node_lifetime p.

Lemma gas_on_shrinks day scope g g' :
  (∀ g1 g2, gr_tenant_id g1 = gr_tenant_id g2 → gr_node_id g1 = gr_node_id g2 →
     scope g1 = scope g2) →
  0 <= gr_gas_cost_usd_micros g → gate_shrinks g g' → gas_on day scope g' <= gas_on day scope g.
Proof.
  intros Hscope Hg (Ht & Hn & _ & _ & [[Hc Hd]|[Hc Hd]]); unfold gas_on;
    rewrite Hc, Hd, (Hscope g' g Ht Hn); [lia|].
  rewrite bool_decide_eq_false_2 by done. simpl. case_match; lia.
Qed.

Lemma in_scope_ext tenant node g1 g2 :
  gr_tenant_id g1 = gr_tenant_id g2 → gr_node_id g1 = gr_node_id g2 →
  in_scope tenant node g1 = in_scope tenant node g2.
Proof. unfold in_scope. by intros -> ->. Qed.

Lemma gas_on_nonneg day scope g : 0 <= gr_gas_cost_usd_micros g → 0 <= gas_on day scope g.
Proof. unfold gas_on. case_match; lia. Qed.

Lemma gate_owned_step d d' : db_step (Some p) d d' → gate_owned d → gate_owned d'.
Proof.
  intros Hstep Ho. destruct Hstep as [He _ _ Hg|r a r' t Hr Hs Hpres He _ _ Hg
    |p' r g cost day t _ Hr Hgr Hst Hcost _ _ He _ _ Hg
    |id i pending confirmed n next t _ _ _ Hnew _ _ _ _ He _ _ [_ Hg]];
    unfold gate_owned; rewrite He.
  - by rewrite Hg.
  - apply row_step_identity in Hs as (_ & Hc & _ & _).
    apply gate_move_shrinks in Hg as [->|(g & g' & Hgr & Hsh & ->)].
    + intros k g0 Hk. destruct (Ho k g0 Hk) as (? & r0 & Hr0 & ? & ?). split; [done|].
      destruct (decide (er_execution_id r = k)) as [<-|].
      * exists r'. rewrite lookup_insert_eq. unfold er_tenant_id, er_node_id in *.
        rewrite Hc. simplify_eq. done.
      * exists r0. by rewrite lookup_insert_ne.
    + destruct (Ho _ _ Hgr) as (Hnn & r0 & Hr0 & Ht & Hn). simplify_eq.
      destruct Hsh as (Ht' & Hn' & _ & _ & Hgas).
      intros k g0. rewrite lookup_insert_Some. intros [[<- <-]|[Hne Hk]].
      * split; [destruct Hgas as [[-> _]|[-> _]]; lia|].
        exists r'. rewrite lookup_insert_eq. unfold er_tenant_id, er_node_id in *.
        by rewrite Hc, Ht', Hn'.
      * rewrite lookup_insert_ne by done. by apply Ho.
  - rewrite Hg. intros k g0. rewrite lookup_insert_Some. intros [[<- <-]|[Hne Hk]]; [|by apply Ho].
    destruct (Ho _ _ Hgr) as (? & r0 & ? & ? & ?). split; [simpl; lia|]. eauto.
  - rewrite Hg. intros k g0. rewrite lookup_insert_Some. intros [[<- <-]|[Hne Hk]].
    + split; [done|]. eexists. by rewrite lookup_insert_eq.
    + rewrite lookup_insert_ne by done. by apply Ho.
Qed.

(** The gas of a scope after one row changed. *)
Lemma scope_gas_step d d' (scope : HostedGateReservationRow → bool) (limit day : Z) :
  (∀ g1 g2, gr_tenant_id g1 = gr_tenant_id g2 → gr_node_id g1 = gr_node_id g2 →
     scope g1 = scope g2) →
  (∀ r, (∃ g, db_gate d !! er_execution_id r = Some g ∧ scope g = true) →
     db_executions d !! er_execution_id r = Some r → ∀ cost gas_day,
     pilot_gas_total d gas_day (in_scope (er_tenant_id r) (er_node_id r)) (er_execution_id r)
       + cost <= max_gas_usd_micros_per_node_utc_day p →
     pilot_gas_total d gas_day platform_scope (er_execution_id r) + cost
       <= max_gas_usd_micros_platform_utc_day p →
     pilot_gas_total d gas_day scope (er_execution_id r) + cost <= limit) →
  db_step (Some p) d d' → gate_owned d →
  table_sum (gas_on day scope) (db_gate d) <= limit →
  table_sum (gas_on day scope) (db_gate d') <= limit.
Proof.
  intros Hext Hcharge Hstep Ho Hlim.
  assert (∀ k g, db_gate d !! k = Some g → 0 <= gas_on day scope g) as Hnn.
  { intros k g Hk. apply gas_on_nonneg. by destruct (Ho k g Hk). }
  destruct Hstep as [_ _ _ ->|r a r' t Hr Hs Hpres He _ _ Hg
    |p' r g cost day' t Hp Hr Hgr Hst Hcost Hnode Hplat _ _ _ ->
    |id i pending confirmed n next t _ _ _ Hnew _ _ _ _ _ _ _ [_ ->]]; [done| | |].
  - apply gate_move_shrinks in Hg as [->|(g & g' & Hgr & Hsh & ->)]; [done|].
    etrans; [|exact Hlim]. eapply table_sum_shrink; [exact Hgr|].
    apply gas_on_shrinks; auto. by destruct (Ho _ _ Hgr).
  - simplify_eq. rewrite table_sum_replace. unfold gas_on at 1. simpl.
    assert (scope (charged_gate g cost day' t) = scope g) as Hsc by by apply Hext.
    assert (table_sum (gas_on day scope) (delete (er_execution_id r) (db_gate d)) <= limit)
      as Hdel.
    { etrans; [|exact Hlim]. by apply table_sum_delete. }
    destruct (bool_decide _) eqn:Hd; simpl; [|lia]. bool_inv. simplify_eq.
    rewrite Hsc. destruct (scope g) eqn:Hg; [|lia].
    assert (pilot_gas_total d day scope (er_execution_id r) + cost <= limit)
      by (eapply Hcharge; eauto).
    unfold pilot_gas_total in *. lia.
  - rewrite table_sum_replace. unfold gas_on at 1. simpl.
    assert (table_sum (gas_on day scope) (delete id (db_gate d)) <= limit); [|lia].
    etrans; [|exact Hlim]. by apply table_sum_delete.
Qed.

Lemma budgets_kept_step d d' :
  db_step (Some p) d d' → gate_owned d → budgets_kept d → budgets_kept d'.
Proof.
  intros Hstep Ho [Hnode Hplat]. split; [intros tenant node day|intros day].
  - eapply scope_gas_step; [apply in_scope_ext| |exact Hstep|exact Ho|apply Hnode].
    intros r (g & Hg & Hsc) Hr cost gas_day Hn _.
    destruct (Ho _ _ Hg) as (_ & r0 & Hr0 & Ht & Hnd). simplify_eq.
    unfold in_scope in Hsc. bool_inv. subst. by rewrite <- Ht, <- Hnd.
  - eapply scope_gas_step; [done| |exact Hstep|exact Ho|apply Hplat].
    intros r _ _ cost gas_day _ Hpl. exact Hpl.
Qed.

(** A count of reservations that a step other than an allocation never raises. *)
Lemma gate_count_step d d' (P : HostedGateReservationRow → bool) limit :
  (∀ g g', gate_shrinks g g' → P g' = true → P g = true) →
  (∀ g cost day t, P (charged_gate g cost day t) = P g) →
  (∀ i t, quota_open p d (tenant_id i) (node_id i) (t / SECONDS_PER_UTC_DAY) →
     P (MkGateReservation (tenant_id i) (node_id i) (idempotency_key i)
          (t / SECONDS_PER_UTC_DAY) GateReserved 0 None t t) = true →
     table_count P (db_gate d) < limit) →
  db_step (Some p) d d' →
  table_count P (db_gate d) <= limit → table_count P (db_gate d') <= limit.
Proof.
  intros Hshrink Hcharge Hnew Hstep Hlim. unfold table_count in *.
  destruct Hstep as [_ _ _ ->|r a r' t Hr Hs Hpres He _ _ Hg
    |p' r g cost day' t Hp Hr Hgr Hst Hcost Hnode Hplat _ _ _ ->
    |id i pending confirmed n next t _ _ _ _ _ _ _ _ _ _ _ [Hq ->]]; [done| | |].
  - apply gate_move_shrinks in Hg as [->|(g & g' & Hgr & Hsh & ->)]; [done|].
    etrans; [|exact Hlim]. eapply table_sum_shrink; [exact Hgr|].
    specialize (Hshrink g g' Hsh). simpl.
    destruct (P g'); [by rewrite Hshrink|]. destruct (P g); lia.
  - etrans; [|exact Hlim]. eapply table_sum_shrink; [exact Hgr|]. simpl.
    rewrite Hcharge. done.
  - rewrite table_sum_replace. specialize (Hnew i t Hq). simpl in *.
    assert (table_sum (λ a, if P a then 1 else 0) (delete id (db_gate d))
            <= table_sum (λ a, if P a then 1 else 0) (db_gate d)).
    { apply table_sum_delete. intros. case_match; lia. }
    destruct (P _); [specialize (Hnew eq_refl)|]; lia.
Qed.

Lemma quotas_kept_step d d' : db_step (Some p) d d' → quotas_kept d → quotas_kept d'.
Proof.
  intros Hstep Hq tenant node. destruct (Hq tenant node) as (Hf & Ha & Hl).
  split_and!; [|intros day|]; unfold in_flight, accepted_on, accepted_lifetime in *;
    (eapply gate_count_step; [| | |exact Hstep|]; [..|done || apply Ha]).
  all: try reflexivity.
  - intros g g' (_ & _ & _ & Hs & _) Hp. bool_inv. done.
  - intros i t (Hif & _ & _) Hp. unfold in_scope in Hp. simpl in Hp. bool_inv. by subst.
  - intros g g' (Ht & Hn & Hd & _ & _). by rewrite (in_scope_ext _ _ g' g Ht Hn), Hd.
  - intros i t (_ & Hac & _) Hp. unfold in_scope in Hp. simpl in Hp. bool_inv. by subst.
  - intros g g' (Ht & Hn & _). by rewrite (in_scope_ext _ _ g' g Ht Hn).
  - intros i t (_ & _ & Hlt) Hp. unfold in_scope in Hp. simpl in Hp. bool_inv. by subst.
Qed.

(** ** The reservation and the state of its execution *)

(** A reservation is held while the execution is open; it is settled by a final
    outcome and released only when the execution is closed.  [FINALIZED] and what
    follows it may still hold a reservation: [transition] finalizes without
    settling. *)
Definition gate_agrees (r : HostedExecutionRow) (g : HostedGateReservationRow) : Prop :=
  (gr_state g = GateReserved → er_status r ∉ [EXPIRED; RELEASED; REVERTED]) ∧
  (gr_state g = GateSettled → er_status r ∈ [FINALIZED; REVERTED; REORG_REVIEW]) ∧
  (gr_state g = GateReleased → er_status r ∈ [EXPIRED; RELEASED]) ∧
  (is_signed r = true → 0 < gr_gas_cost_usd_micros g ∧ is_Some (gr_gas_utc_day g)).

Definition gates_agree d : Prop :=
  ∀ k r, db_executions d !! k = Some r →
    er_execution_id r = k ∧ ∃ g, db_gate d !! k = Some g ∧ gate_agrees r g.

Lemma gate_move_agrees r a r' G G' g :
  row_step r a r' → gate_move (Some p) r r' G G' → G !! er_execution_id r = Some g →
  gate_agrees r g → ∃ g', G' !! er_execution_id r = Some g' ∧ gate_agrees r' g'.
Proof.
  intros Hs Hm Hg (Hres & Hset & Hrel & Hgas).
  pose proof (row_step_status _ _ _ Hs) as Hst.
  destruct Hm as [?|Hk Hf|g0 state Hcl Hne Hsg Hg0 Hst0|g0 state clear t Hcl Hne Hsg Hg0 Hst0
    |g0 t Hrv Hrl Hsg Hg0 Hst0|g0 Hrv Hrl Hsg Hg0 Hst0]; [done|..]; simplify_eq.
  - exists g. split; [done|]. split_and!.
    + intros E. destruct Hk as [->|Hk]; [by apply Hres|done].
    + intros E%Hset. destruct Hst as [->|Hl]; [done|].
      destruct Hk as [->|Hk]; [done|]. destruct (er_status r); simpl in Hl; by_members.
    + intros E%Hrel. destruct Hst as [->|Hl]; [done|].
      destruct (er_status r); simpl in Hl; by_members.
    + intros E. destruct (Hf E) as [?|(g1 & Hg1 & _ & ? & ?)]; [auto|]. by simplify_eq.
  - exfalso. apply Hne. destruct Hst as [|Hl]; [done|].
    destruct Hcl as [(_ & _ & E)|(Hc & E)].
    + specialize (Hrel E). destruct (er_status r); simpl in Hl; by_members.
    + specialize (Hset E). destruct (er_status r); simpl in Hl; by_members.
  - eexists. split; [apply lookup_insert_eq|].
    destruct Hcl as [(Hc & Hu & -> & ->)|(Hc & -> & ->)]; split_and!; try done; simpl.
    + by rewrite Hsg, Hu.
    + intros _. by_members.
    + rewrite Hsg. auto.
  - eexists. split; [apply lookup_insert_eq|]. split_and!; try done; simpl.
    + intros _. rewrite Hrl. by_members.
    + rewrite Hsg. auto.
  - exfalso. specialize (Hrel Hst0). rewrite Hrv in Hrel. by_members.
Qed.

Lemma gates_agree_step d d' : db_step (Some p) d d' → gates_agree d → gates_agree d'.
Proof.
  intros Hstep Ha. destruct Hstep as [He _ _ Hg|r a r' t Hr Hs Hpres He _ _ Hg
    |p' r g cost day t _ Hr Hgr Hst Hcost _ _ He _ _ Hg
    |id i pending confirmed n next t _ _ _ Hnew _ _ _ _ He _ _ [_ Hg]];
    unfold gates_agree; rewrite He.
  - by rewrite Hg.
  - intros k r0. destruct (Ha _ _ Hr) as (_ & g & Hgr & Hagr).
    pose proof (row_step_identity _ _ _ Hs) as (Hid & _).
    rewrite lookup_insert_Some. intros [[<- <-]|[Hne Hk]].
    + split; [done|]. by eapply gate_move_agrees.
    + destruct (Ha _ _ Hk) as (? & g0 & Hg0 & ?). split; [done|]. exists g0. split; [|done].
      apply gate_move_shrinks in Hg as [->|(g1 & g2 & _ & _ & ->)]; [done|].
      by rewrite lookup_insert_ne.
  - rewrite Hg. intros k r0 Hk. destruct (Ha _ _ Hk) as (Hid & g0 & Hg0 & Hag).
    split; [done|]. destruct (decide (er_execution_id r = k)) as [<-|Hne].
    + simplify_eq. eexists. split; [apply lookup_insert_eq|].
      destruct Hag as (? & ? & ? & ?). split_and!; try done; simpl; destruct Hcost; eauto.
    + exists g0. by rewrite lookup_insert_ne.
  - rewrite Hg. intros k r0. rewrite lookup_insert_Some. intros [[<- <-]|[Hne Hk]].
    + split; [done|]. eexists. split; [apply lookup_insert_eq|]. split_and!; try done.
      intros _ Hin. simpl in Hin. by_members.
    + destruct (Ha _ _ Hk) as (? & g0 & ? & ?). split; [done|]. exists g0.
      by rewrite lookup_insert_ne.
Qed.

(** The CHECK constraints of the reservations. *)
Definition gate_rows_checked d : Prop :=
  ∀ k g, db_gate d !! k = Some g → gate_checks g = true.

Lemma closed_gate_checks g state clear t :
  gate_checks g = true → gate_checks (closed_gate g state clear t) = true.
Proof.
  unfold gate_checks, closed_gate. intros Hg. destruct clear; simpl; [|exact Hg].
  bool_inv. by rewrite (proj2 (Z.leb_le 0 (gr_utc_day g))).
Qed.

Lemma gate_move_checks r r' G G' :
  gate_move (Some p) r r' G G' → (∀ k g, G !! k = Some g → gate_checks g = true) →
  ∀ k g, G' !! k = Some g → gate_checks g = true.
Proof.
  destruct 1; try (by auto); intros HG k g0; rewrite lookup_insert_Some;
    (intros [[<- <-]|[_ ?]]; [apply closed_gate_checks|]; eauto).
Qed.

Lemma gate_rows_checked_step d d' :
  db_step (Some p) d d' → gate_rows_checked d → gate_rows_checked d'.
Proof.
  intros Hstep Hc. destruct Hstep as [_ _ _ Hg|r a r' t Hr Hs Hpres He _ _ Hg
    |p' r g cost day t _ Hr Hgr Hst [Hcost Hday] _ _ He _ _ Hg
    |id i pending confirmed n next t _ _ Ht Hnew _ _ _ _ He _ _ [_ Hg]];
    unfold gate_rows_checked.
  - by rewrite Hg.
  - by eapply gate_move_checks.
  - rewrite Hg. intros k g0. rewrite lookup_insert_Some. intros [[<- <-]|[_ ?]]; [|eauto].
    specialize (Hc _ _ Hgr). unfold gate_checks in *. simpl. bool_inv.
    rewrite (proj2 (Z.leb_le 0 day)), (proj2 (Z.ltb_lt 0 cost)) by done.
    rewrite (proj2 (Z.leb_le 0 cost)), (proj2 (Z.leb_le 0 (gr_utc_day g))) by lia.
    by rewrite orb_true_r.
  - rewrite Hg. intros k g0. rewrite lookup_insert_Some. intros [[<- <-]|[_ ?]]; [|eauto].
    unfold gate_checks. simpl.
    by rewrite (proj2 (Z.leb_le 0 (t / SECONDS_PER_UTC_DAY))) by (apply Z.div_pos; [lia|done]).
Qed.

Lemma reachable_gate_rows d :
  make_policy p = Ok p → reachable (Some p) d → gate_rows_checked d.
Proof.
  intros Hp. apply invariant_reachable; [done|done|]. intros. by eapply gate_rows_checked_step.
Qed.

Lemma reachable_gates d :
  make_policy p = Ok p → reachable (Some p) d →
  gate_owned d ∧ budgets_kept d ∧ quotas_kept d ∧ gates_agree d.
Proof.
  intros Hp. apply (invariant_reachable (Some p)
    (λ d, gate_owned d ∧ budgets_kept d ∧ quotas_kept d ∧ gates_agree d)); [done| |].
  - unfold make_policy, gate_positive_int in Hp. txn_inv. bool_inv.
    split_and!; [done| | |done].
    + split; intros; unfold node_gas, platform_gas; simpl; rewrite table_sum_empty; lia.
    + intros tenant node. unfold in_flight, accepted_on, accepted_lifetime, table_count.
      simpl. split_and!; intros; rewrite table_sum_empty; lia.
  - intros d1 d2 Hs (? & ? & ? & ?). split_and!;
      eauto using gate_owned_step, budgets_kept_step, quotas_kept_step, gates_agree_step.
Qed.
End GateInvariants.
