(* ===== verification/Scenario.v ===== *)
(** * A concrete run of the repository

    Two payments of one node through the repository under a pilot policy: one is
    signed, submitted, confirmed and finalized; the other expires unsigned and its
    nonce is recycled.  The witnesses of the properties evaluate on it. *)

From S2P Require Import Prelude PyValue ExecutionModels Evm ExecutionTables PilotGate.
From S2P Require Import NonceAllocator ExecutionRepository ExecutionSettlement ExecutionMachine.
From S2P Require Import ExecutionRefinement.
From Stdlib Require Import Ascii Strings.Byte.

Fixpoint repeat_char (c : ascii) (n : nat) : string :=
  match n with O => EmptyString | S n' => String c (repeat_char c n') end.

(** Stand-ins for the two hash functions, of the right output length. *)
#[export] Instance demo_sha256 : Sha256 := λ s,
  match s with EmptyString => repeat_char "0" 64 | String _ _ => repeat_char "a" 64 end.
#[export] Instance demo_keccak : Keccak := λ b, take 32 (b ++ zeros 32).

Definition demo_hash (c : ascii) : string := "0x" +:+ repeat_char c 64.
Definition demo_address (c : ascii) : string := "0x" +:+ repeat_char c 40.

Definition demo_intent (tag : string) (deadline : Z) : ExecutionIntent :=
  MkIntent "tenant" "node" "binding" ("cap_" +:+ tag) ("res_" +:+ tag) ("pur_" +:+ tag)
    ("req_" +:+ tag) (demo_hash "1") ("key_" +:+ tag) "eip155:8453" (demo_address "a")
    (demo_address "b") HOSTED_BASE_USDC "1000000" (demo_address "c") 1 7 deadline
    (demo_hash "2") (demo_hash "3") (demo_hash "4") (demo_hash "5") (demo_address "d").

Definition demo_ids (tag : string) (n : nat) : string := "exec_" +:+ tag.
Definition demo_policy : PilotGatePolicy := default_policy 5000000.
Definition demo_signature : bytes := replicate 65 x01.
Definition demo_raw : bytes := [x02; xf8; x6b].
Definition demo_receipt (status : Z) : Receipt :=
  MkReceipt status 100 (demo_hash "e") 5 120 (demo_hash "f") "watcher-1" "safe".

Definition demo_start : Z := 1700000000.
Definition demo_call (c : command) (d : HostedDb) : HostedDb :=
  (run (Some demo_policy) demo_start c d).2.

(** The commands of the run, and the databases between them. *)
Definition demo_commands : list command :=
  [ CAllocate (demo_ids "a") (demo_intent "a" (demo_start + 600)) 41 None None;
    CAllocate (demo_ids "b") (demo_intent "b" (demo_start + 300)) 41 None None;
    CClaimSigning "exec_a" None;
    CReserveGas "exec_a" 2500 1 None;
    CPersist "exec_a" demo_signature demo_raw 1 None None;
    CClaimSubmission "exec_a" None;
    CRebroadcast "exec_a" None None;
    CReleaseExpired "exec_b" (Some (demo_start + 300));
    CAllocate (demo_ids "c") (demo_intent "c" (demo_start + 900)) 42 (Some 41) None;
    CConfirm "exec_a" (demo_receipt 1) None None;
    CFinalize "exec_a" "safe" None ].
Definition demo_db (n : nat) : HostedDb := foldl (λ d c, demo_call c d) empty_db (take n demo_commands).

Definition demo_row (n : nat) (execution_id : string) : HostedExecutionRow :=
  default (new_execution EmptyString (demo_intent EmptyString 1) 0 0)
    (db_executions (demo_db n) !! execution_id).

Lemma demo_policy_valid : make_policy demo_policy = Ok demo_policy.
Proof. reflexivity. Qed.

Lemma demo_reachable n : reachable (Some demo_policy) (demo_db n).
Proof.
  unfold reachable, demo_db. generalize empty_db. generalize (take n demo_commands).
  intros l. induction l as [|c l IH]; intros d; [done|]. simpl.
  eapply rtc_l; [|apply IH]. by apply (call_intro _ _ _ demo_start c).
Qed.

Lemma demo_calls n m : (n <= m)%nat →
  rtc (call (Some demo_policy)) (demo_db n) (demo_db m).
Proof.
  intros Hnm. unfold demo_db.
  replace (take m demo_commands) with (take n demo_commands ++ drop n (take m demo_commands)).
  - rewrite foldl_app. generalize (foldl (λ d c, demo_call c d) empty_db (take n demo_commands)).
    generalize (drop n (take m demo_commands)).
    intros l. induction l as [|c l IH]; intros d; [done|]. simpl.
    eapply rtc_l; [|apply IH]. by apply (call_intro _ _ _ demo_start c).
  - rewrite <- (take_drop n (take m demo_commands)) at 2. f_equal.
    rewrite take_take. f_equal. lia.
Qed.

(** The run goes through every state it was meant to. *)
Example demo_statuses :
  (λ n, (er_status <$> db_executions (demo_db n) !! "exec_a",
         er_status <$> db_executions (demo_db n) !! "exec_b")) <$> seq 0 12 =
  [ (None, None); (Some PREFLIGHT_APPROVED, None);
    (Some PREFLIGHT_APPROVED, Some PREFLIGHT_APPROVED); (Some SIGNING, Some PREFLIGHT_APPROVED);
    (Some SIGNING, Some PREFLIGHT_APPROVED); (Some SIGNED, Some PREFLIGHT_APPROVED);
    (Some SUBMISSION_UNKNOWN, Some PREFLIGHT_APPROVED);
    (Some SUBMISSION_UNKNOWN, Some PREFLIGHT_APPROVED); (Some SUBMISSION_UNKNOWN, Some RELEASED);
    (Some SUBMISSION_UNKNOWN, Some RELEASED); (Some CONFIRMED, Some RELEASED);
    (Some FINALIZED, Some RELEASED) ].
Proof. vm_compute. reflexivity. Qed.

Example demo_recycled_nonce :
  (er_relayer_nonce (demo_row 11 "exec_a"), er_relayer_nonce (demo_row 11 "exec_b"),
   er_relayer_nonce (demo_row 11 "exec_c")) = (41, 42, 42).
Proof. vm_compute. reflexivity. Qed.
