(* ===== verification/DerivedInvariants.v ===== *)
(** * What follows for nonces, attempts and releases

    No two executions of one relayer account that are open or signed hold the same
    nonce.  The attempts of an execution are numbered without a gap and all name
    its transaction.  An execution is closed only after its deadline: unsigned, or
    on validated proof that its reverted transaction can no longer take effect. *)

From S2P Require Import Prelude PyValue ExecutionModels ExecutionTables PilotGate.
From S2P Require Import NonceAllocator ExecutionRepository ExecutionSettlement.
From S2P Require Import ExecutionMachine ExecutionRefinement ExecutionInvariants Evm.

(** The execution may still put, or has put, a transaction with its nonce on chain. *)
Definition holds_nonce (r : HostedExecutionRow) : bool := is_active r || is_signed r.

(** Two executions that spend the same nonce of the same account. *)
Definition same_nonce (r r' : HostedExecutionRow) : Prop :=
  er_chain r = er_chain r' ∧ er_relayer_address r = er_relayer_address r' ∧
  er_relayer_nonce r = er_relayer_nonce r'.

Section NonceExclusion.
Context `{Sha256, Keccak}.
Implicit Types (policy : option PilotGatePolicy) (d : HostedDb) (r : HostedExecutionRow).

(** The allocator of an account is ahead of every nonce it handed out. *)
Definition allocator_ahead d : Prop :=
  ∀ k r, db_executions d !! k = Some r →
    0 <= er_relayer_nonce r ∧
    ∃ a, db_allocators d !! (er_chain r, er_relayer_address r) = Some a ∧
      er_relayer_nonce r < nr_next_nonce a.

Definition nonces_exclusive d : Prop :=
  ∀ k k' r r', db_executions d !! k = Some r → db_executions d !! k' = Some r' →
    k ≠ k' → same_nonce r r' → holds_nonce r = true → holds_nonce r' = true → False.

Lemma holds_nonce_step r a r' :
  row_step r a r' → holds_nonce r' = true → holds_nonce r = true.
Proof.
  intros Hs. unfold holds_nonce. intros Hh%orb_true_iff. apply orb_true_iff.
  destruct (decide (er_status r ∈ [EXPIRED; RELEASED])) as [Hc|Hc];
    [|left; unfold is_active; by rewrite bool_decide_eq_false_2].
  right. destruct (row_step_transaction _ _ _ Hs) as [(E & _)|[(Es & Er & _) _]];
    [rewrite E in Hc; by_members|].
  assert (er_status r' = er_status r) as Est.
  { destruct (row_step_status _ _ _ Hs) as [|Hl]; [done|].
    destruct (er_status r); simpl in Hl; by_members. }
  unfold is_signed, is_active in *. rewrite Es, Er, Est in Hh.
  rewrite bool_decide_eq_true_2 in Hh by done. by destruct Hh.
Qed.

Lemma nonce_choice_bounds d chain relayer pending confirmed n next :
  0 <= pending → allocator_ahead d → nonce_choice d (chain, relayer) pending confirmed n next →
  0 <= n < next ∧
  ∀ a, db_allocators d !! (chain, relayer) = Some a → nr_next_nonce a <= next.
Proof.
  intros Hp Ha. inversion 1 as [Hnone|row ? Hrow Hrec|row Hrow Hrec]; subst; simpl in *.
  - split; [lia|]. congruence.
  - apply recyclable_nonce_spec in Hrec as (_ & _ & _ & k & r & Hk & Hc & Hr & <- & _).
    destruct (Ha k r Hk) as (? & a & Hal & ?). rewrite Hc, Hr, Hrow in Hal. simplify_eq.
    split; [lia|]. intros a' ?. simplify_eq. lia.
  - split; [|intros a ?; simplify_eq; lia].
    split; [lia|lia].
Qed.

(** A nonce handed out is not held by any execution of the account. *)
Lemma nonce_choice_fresh d chain relayer pending confirmed n next k r :
  allocator_ahead d → nonce_choice d (chain, relayer) pending confirmed n next →
  db_executions d !! k = Some r → er_chain r = chain → er_relayer_address r = relayer →
  er_relayer_nonce r = n → holds_nonce r = false.
Proof.
  intros Ha Hn Hk Hc Hr Hnonce. destruct (Ha k r Hk) as (_ & a & Hal & Hlt).
  rewrite Hc, Hr in Hal. inversion Hn as [Hnone|row ? Hrow Hrec|row Hrow Hrec]; subst; simpl in *.
  - congruence.
  - apply recyclable_nonce_spec in Hrec as (_ & Hact & Htaint & _).
    unfold holds_nonce. apply orb_false_iff. split; apply not_true_iff_false; intros Hx.
    + destruct Hact. by eapply active_nonces_elem.
    + destruct Htaint. by eapply tainted_nonces_elem.
  - simplify_eq. lia.
Qed.

Lemma allocator_ahead_step policy d d' :
  db_step policy d d' → allocator_ahead d → allocator_ahead d'.
Proof.
  intros Hstep Ha. destruct Hstep as [He Hal _ _|r a r' t Hr Hs Hpres He Hal _ _
    |p r g cost day t _ _ _ _ _ _ _ He Hal _ _
    |id i pending confirmed n next t Hp _ _ _ _ _ _ Hn He Hal _ _];
    unfold allocator_ahead; rewrite He, Hal; try exact Ha.
  - intros k r0. rewrite lookup_insert_Some. intros [[<- <-]|[_ ?]]; [|eauto].
    apply row_step_identity in Hs as (_ & Hc & Hn & _).
    destruct (Ha _ _ Hr) as (? & al & ? & ?).
    unfold er_chain, er_relayer_address in *. rewrite Hc, Hn. eauto.
  - destruct (nonce_choice_bounds _ _ _ _ _ _ _ (proj1 Hp) Ha Hn) as [Hb Hmono].
    intros k r0. rewrite lookup_insert_Some. intros [[<- <-]|[_ Hk]].
    + simpl. split; [lia|]. eexists. split; [apply lookup_insert_eq|]. simpl. lia.
    + destruct (Ha _ _ Hk) as (? & al & Hlook & ?). split; [done|].
      destruct (decide ((er_chain r0, er_relayer_address r0) = (chain i, relayer_address i)))
        as [E|E].
      * rewrite E in *. eexists. split; [apply lookup_insert_eq|]. simpl.
        pose proof (Hmono _ Hlook). lia.
      * rewrite lookup_insert_ne by done. eauto.
Qed.

Lemma nonces_exclusive_step policy d d' :
  db_step policy d d' → allocator_ahead d → nonces_exclusive d → nonces_exclusive d'.
Proof.
  intros Hstep Ha Hx. destruct Hstep as [He Hal _ _|r a r' t Hr Hs Hpres He Hal _ _
    |p r g cost day t _ _ _ _ _ _ _ He Hal _ _
    |id i pending confirmed n next t Hp _ _ _ _ _ _ Hn He Hal _ _];
    unfold nonces_exclusive; rewrite He; try exact Hx.
  - pose proof (holds_nonce_step _ _ _ Hs) as Hh.
    apply row_step_identity in Hs as (_ & Hc & Hnc & _).
    unfold same_nonce, er_chain, er_relayer_address in *.
    intros k k' r1 r2. rewrite !lookup_insert_Some.
    intros [[<- <-]|[? Hk]] [[<- <-]|[? Hk']] ?; [done| | |]; rewrite ?Hc, ?Hnc; intros Hsame Hh1 Hh2.
    + apply (Hx _ _ _ _ Hr Hk'); auto.
    + apply (Hx _ _ _ _ Hk Hr); auto.
    + apply (Hx _ _ _ _ Hk Hk'); auto.
  - assert (∀ k r0, db_executions d !! k = Some r0 →
      same_nonce (new_execution id i n t) r0 → holds_nonce r0 = false) as Hfresh.
    { intros k r0 Hk (E1 & E2 & E3). eapply nonce_choice_fresh; eauto. }
    intros k k' r1 r2. rewrite !lookup_insert_Some.
    intros [[<- <-]|[? Hk]] [[<- <-]|[? Hk']] ? Hsame Hh1 Hh2.
    + done.
    + by rewrite (Hfresh _ _ Hk' Hsame) in Hh2.
    + destruct Hsame as (? & ? & ?).
      rewrite (Hfresh _ _ Hk) in Hh1; [done|]. by split_and!.
    + by apply (Hx _ _ _ _ Hk Hk').
Qed.

Lemma reachable_nonces policy d :
  valid_policy policy → reachable policy d → allocator_ahead d ∧ nonces_exclusive d.
Proof.
  intros Hp. apply (invariant_reachable policy (λ d, allocator_ahead d ∧ nonces_exclusive d));
    [done|by split|].
  intros d1 d2 Hs [? ?].
  split; [by eapply allocator_ahead_step|by eapply nonces_exclusive_step].
Qed.
End NonceExclusion.

Section AttemptLog.
Context `{Sha256, Keccak}.
Implicit Types (policy : option PilotGatePolicy) (d : HostedDb) (r : HostedExecutionRow).

Definition attempts_of (d : HostedDb) (execution_id : string)
    : list HostedExecutionAttemptRow :=
  filter (λ a, at_execution_id a = execution_id) (db_attempts d).

(** The log an execution should have. *)
Definition log_complete (r : HostedExecutionRow) (l : list HostedExecutionAttemptRow) : Prop :=
  match er_raw_transaction_hash r with
  | None => l = []
  | Some h =>
      at_attempt_number <$> l = seqZ 0 (er_broadcast_attempts r + 1) ∧
      Forall (λ a, at_raw_transaction_hash a = h) l
  end.

Lemma first_attempt_cases r kind h :
  first_attempt r kind h = None ∧ er_status r ≠ SIGNED ∨
  first_attempt r kind h = Some (kind, er_broadcast_attempts r + 1, h) ∧ er_status r = SIGNED.
Proof. unfold first_attempt. case_bool_decide; auto. Qed.

(** What a step logs is what it counts. *)
Lemma row_step_logged r a r' :
  row_step r a r' →
  match a with
  | None =>
      er_raw_transaction_hash r' = er_raw_transaction_hash r ∧
      er_broadcast_attempts r' = er_broadcast_attempts r
  | Some (_, n, h) =>
      er_raw_transaction_hash r' = Some h ∧
      (er_status r = SIGNING ∧ n = 0 ∧ er_broadcast_attempts r' = er_broadcast_attempts r ∨
       er_raw_transaction_hash r = Some h ∧ n = er_broadcast_attempts r + 1 ∧
         er_broadcast_attempts r' = n)
  end.
Proof.
  destruct 1; try (simpl; by auto 6).
  - unfold submitted_row, count_first_broadcast.
    destruct (first_attempt_cases r "broadcast" h) as [[-> Hs]|[-> Hs]];
      [rewrite (bool_decide_eq_false_2 _ Hs)|rewrite (bool_decide_eq_true_2 _ Hs)]; simpl; auto.
  - unfold unknown_row, count_first_broadcast.
    destruct (first_attempt_cases r "broadcast_unknown" h) as [[-> Hs]|[-> Hs]];
      [rewrite (bool_decide_eq_false_2 _ Hs)|rewrite (bool_decide_eq_true_2 _ Hs)]; simpl; auto.
  - unfold rejected_row, count_first_broadcast.
    destruct (first_attempt_cases r "broadcast_rejected" h) as [[-> Hs]|[-> Hs]];
      [rewrite (bool_decide_eq_false_2 _ Hs)|rewrite (bool_decide_eq_true_2 _ Hs)]; simpl; auto.
  - unfold observed_row. by destruct (bool_decide _).
  - unfold transitioned_row. by destruct (bool_decide _), target.
Qed.

Lemma log_complete_step r a r' t l :
  row_step r a r' → transaction_shape r → log_complete r l →
  log_complete r' (l ++ log_attempt r a t).
Proof.
  intros Hs Hshape Hlog. apply row_step_logged in Hs. unfold log_complete in *.
  destruct a as [[[kind n] h]|]; [|destruct Hs as [-> ->]; by rewrite app_nil_r].
  simpl. destruct Hs as [-> [(Hst & -> & ->)|(Hh & -> & ->)]].
  - destruct Hshape as [_ _ Eh _ Eb _|? ? ? _ _ _ _ _ _ _ Hin _];
      [|rewrite Hst in Hin; unfold signed_states in Hin; by_members].
    rewrite Eh in Hlog. subst l. rewrite Eb. split; [reflexivity|]. by repeat constructor.
  - rewrite Hh in Hlog. destruct Hlog as [Hn Hall]. split.
    + rewrite fmap_app, Hn. simpl.
      assert (0 <= er_broadcast_attempts r) as Hb by (by destruct Hshape; congruence || lia).
      rewrite (seqZ_app 0 (er_broadcast_attempts r + 1) 1) by lia. f_equal.
    + apply Forall_app. split; [done|]. by repeat constructor.
Qed.

Definition logs_complete d : Prop :=
  all_rows transaction_shape d ∧ keyed d ∧
  (∀ k r, db_executions d !! k = Some r → log_complete r (attempts_of d k)) ∧
  (∀ k, db_executions d !! k = None → attempts_of d k = []).

Lemma log_attempt_other r a t k :
  er_execution_id r ≠ k → filter (λ a, at_execution_id a = k) (log_attempt r a t) = [].
Proof.
  intros Hne. destruct a as [[[kind n] h]|]; [|done]. simpl.
  by rewrite filter_cons_False.
Qed.
Lemma log_attempt_own r a t :
  filter (λ a, at_execution_id a = er_execution_id r) (log_attempt r a t) = log_attempt r a t.
Proof. destruct a as [[[kind n] h]|]; [|done]. simpl. by rewrite filter_cons_True. Qed.

Lemma logs_complete_step policy d d' :
  db_step policy d d' → logs_complete d → logs_complete d'.
Proof.
  intros Hstep (Hsh & Hk & Hl & Hn).
  assert (all_rows transaction_shape d') as Hsh'.
  { eapply all_rows_step; [| |exact Hstep|exact Hsh]; [|eauto using transaction_shape_step].
    intros id i n t _ Hr Hp. by apply row_ok_new. }
  pose proof (keyed_step _ _ _ Hstep Hk) as Hk'. split; [done|]. split; [done|].
  destruct Hstep as [He _ Ha _|r a r' t Hr Hs Hpres He _ Ha _
    |p r g cost day t _ _ _ _ _ _ _ He _ Ha _
    |id i pending confirmed n next t _ _ _ Hnew _ _ _ _ He _ Ha _];
    unfold attempts_of in *; rewrite He, Ha; try done.
  - split.
    + intros k r0. rewrite filter_app, lookup_insert_Some. intros [[<- <-]|[Hne Hk0]].
      * rewrite log_attempt_own. apply log_complete_step; eauto.
      * rewrite log_attempt_other, app_nil_r by done. eauto.
    + intros k. rewrite filter_app, lookup_insert_None. intros [Hk0 Hne].
      by rewrite log_attempt_other, app_nil_r; auto.
  - split.
    + intros k r0. rewrite lookup_insert_Some. intros [[<- <-]|[Hne Hk0]]; [|eauto].
      by apply Hn.
    + intros k. rewrite lookup_insert_None. intros [? ?]. by apply Hn.
Qed.

Lemma reachable_logs policy d : valid_policy policy → reachable policy d → logs_complete d.
Proof.
  intros Hp. apply invariant_reachable; [done| |by eauto using logs_complete_step].
  split; [apply all_rows_empty|]. split; [apply keyed_empty|]. by split.
Qed.
End AttemptLog.

(** A release proof: the receipt is canonical and reverted, nothing of the payment
    took place, and the boundary it was observed at is dated. *)
Definition release_proof (evidence : pydict) : Prop :=
  dict_get evidence "receipt_status" = PInt 0 ∧
  dict_get evidence "canonical_receipt" = PBool true ∧
  dict_get evidence "capability_used" = PBool false ∧
  dict_get evidence "owner_nonce_used" = PBool false ∧
  dict_get evidence "payment_event_found" = PBool false ∧
  dict_get evidence "transfer_event_found" = PBool false ∧
  0 < boundary_timestamp evidence.

Lemma validate_release_evidence_proof v evidence :
  validate_release_evidence v = Ok evidence → release_proof evidence.
Proof.
  unfold validate_release_evidence, release_proof, is_int_eq, is_true, is_false, is_pos_int,
    boundary_timestamp.
  intros Hv. txn_inv. bool_inv.
  repeat match goal with H : match ?x with _ => _ end = true |- _ =>
    destruct x eqn:?; try discriminate H end.
  repeat match goal with H : match ?x with _ => _ end = true |- _ =>
    destruct x eqn:?; try discriminate H end.
  bool_inv. subst. split_and!; congruence || done || lia.
Qed.

Section ReleaseSafety.
Context `{Sha256, Keccak}.
Implicit Types (policy : option PilotGatePolicy) (d : HostedDb) (r : HostedExecutionRow).

(** Closed because the deadline of an unsigned execution passed. *)
Definition expired_unsigned (r : HostedExecutionRow) : Prop :=
  is_signed r = false ∧
  ∃ t, er_deadline r <= t ∧ (er_released_at r = Some t ∨ er_expired_at r = Some t).

(** Closed on proof of a revert that outlived the deadline. *)
Definition released_on_proof (r : HostedExecutionRow) : Prop :=
  is_signed r = true ∧ er_receipt_status r = Some 0 ∧ boundary_evidence r ∧
  ∃ evidence t, er_release_evidence r = Some evidence ∧ release_proof evidence ∧
    er_released_at r = Some t ∧ er_deadline r <= boundary_timestamp evidence <= t.

Definition closed_justified (r : HostedExecutionRow) : Prop :=
  er_status r ∈ [EXPIRED; RELEASED] → expired_unsigned r ∨ released_on_proof r.

(** Nothing but a watcher attempt happens to a closed row. *)
Lemma closed_row_step r a r' :
  row_step r a r' → er_status r ∈ [EXPIRED; RELEASED] → ∃ ns, r' = watched_row r ns.
Proof.
  intros Hs Hc. destruct Hs; try (by eexists);
    unfold awaiting_states in *; try (exfalso; by_members).
  exfalso. destruct (er_status r); simpl in *; by_members.
Qed.

Lemma transitioned_columns r target t :
  er_columns (transitioned_row r target t) = er_columns r.
Proof. unfold transitioned_row. by destruct (bool_decide _), target. Qed.

Lemma transitioned_closed r target t :
  target ∈ [EXPIRED; RELEASED] →
  er_released_at (transitioned_row r target t) = Some t ∨
  er_expired_at (transitioned_row r target t) = Some t.
Proof. intros. unfold transitioned_row. destruct target; try (exfalso; by_members); auto. Qed.

Lemma closed_justified_step r a r' :
  row_step r a r' → transaction_shape r → closed_justified r → closed_justified r'.
Proof.
  intros Hs Hsh Hj Hc. destruct (decide (er_status r ∈ [EXPIRED; RELEASED])) as [Hc0|Hc0].
  { destruct (closed_row_step _ _ _ Hs Hc0) as [ns ->]. exact (Hj Hc0). }
  clear Hj. destruct Hs; try (exfalso; simpl in *; by_members).
  - match goal with H : target = _ ∧ _ ∨ _ |- _ => destruct H as [[-> _]|[-> _]] end;
      exfalso; simpl in Hc; by_members.
  - left. split; [done|]. exists t. auto.
  - left. rewrite transitioned_status in Hc.
    match goal with H : target ∈ _ → _ |- _ => destruct (H Hc) as [Hd Hu] end.
    split; [by rewrite transitioned_signed|]. exists t.
    unfold er_deadline in *. rewrite transitioned_columns.
    split; [done|]. by apply transitioned_closed.
  - right. split.
    + destruct Hsh as [_ _ _ _ _ Hin|? ? ? Es _ _ _ _ _ _ _ _].
      * unfold unsigned_states in Hin. by_members.
      * unfold is_signed. simpl. by rewrite Es.
    + split; [simpl; congruence|]. split; [by eapply released_boundary|].
      eexists _, t. split_and!; try reflexivity; try (unfold er_deadline in *; simpl; lia).
      by eapply validate_release_evidence_proof.
Qed.

Lemma reachable_closed policy d :
  valid_policy policy → reachable policy d →
  all_rows (λ r, row_ok r ∧ closed_justified r) d.
Proof.
  intros Hp. apply invariant_reachable; [done|apply all_rows_empty|].
  intros d1 d2. apply all_rows_step.
  - intros. split; [by apply row_ok_new|]. intros Hc. simpl in Hc. by_members.
  - intros r a r' Hs Hpr [Hok Hj]. split; [by eapply row_ok_step|].
    eapply closed_justified_step; eauto. apply Hok.
Qed.
End ReleaseSafety.
