(* ===== verification/ExecutionIdentity.v ===== *)
(** * One execution per identity, and exact replays

    The unique constraints hold in every reachable database, every row was made
    from one intent, and the canonical payload of a row determines that intent;
    so the replay of an allocation finds the execution it made. *)

From S2P Require Import Prelude PyValue ExecutionModels Evm ExecutionTables PilotGate.
From S2P Require Import NonceAllocator ExecutionRepository ExecutionSettlement ExecutionMachine.
From S2P Require Import ExecutionRefinement ExecutionInvariants.

(** ** The payload determines the intent *)

Lemma payload_str i j k s t :
  dict_eqb (canonical_payload i) (canonical_payload j) = true →
  dict_find (canonical_payload i) k = Some (PStr s) →
  dict_find (canonical_payload j) k = Some (PStr t) → s = t.
Proof.
  intros He Hi Hj. destruct (dict_eqb_find _ _ _ _ He Hi) as (w & Hw & Heq).
  apply py_eqb_str in Heq. congruence.
Qed.
Lemma payload_int i j k x y :
  dict_eqb (canonical_payload i) (canonical_payload j) = true →
  dict_find (canonical_payload i) k = Some (PInt x) →
  dict_find (canonical_payload j) k = Some (PInt y) → x = y.
Proof.
  intros He Hi Hj. destruct (dict_eqb_find _ _ _ _ He Hi) as (w & Hw & Heq).
  assert (w = PInt y) as -> by congruence. by apply Z.eqb_eq.
Qed.

Lemma canonical_payload_inj i j :
  dict_eqb (canonical_payload i) (canonical_payload j) = true → i = j.
Proof.
  intros He.
  pose proof (λ k s t, payload_str i j k s t He) as Hs.
  pose proof (λ k s t, payload_int i j k s t He) as Hz. clear He.
  destruct i, j.
  f_equal; [apply (Hs "tenant_id")|apply (Hs "node_id")|apply (Hs "wallet_binding_id")
    |apply (Hs "capability_id")|apply (Hs "reservation_id")|apply (Hs "purchase_id")
    |apply (Hs "request_id")|apply (Hs "request_hash")|apply (Hs "idempotency_key")
    |apply (Hs "chain")|apply (Hs "owner")|apply (Hs "payee")|apply (Hs "token")
    |apply (Hs "amount_atomic")|apply (Hs "executor")|apply (Hz "signer_epoch")
    |apply (Hz "owner_nonce")|apply (Hz "deadline")|apply (Hs "capability_hash")
    |apply (Hs "reservation_hash")|apply (Hs "execution_scope_hash")
    |apply (Hs "execution_digest")|apply (Hs "relayer_address")]; reflexivity.
Qed.

Lemma canonical_payload_refl i :
  dict_eqb (canonical_payload i) (canonical_payload i) = true.
Proof.
  apply (py_eqb_refl (PDict (canonical_payload i))). simpl. split; [|tauto].
  apply (bool_decide_unpack _). vm_compute. reflexivity.
Qed.

Section Identity.
Context `{Sha256, Keccak}.
Implicit Types (policy : option PilotGatePolicy) (d : HostedDb) (r : HostedExecutionRow).

(** ** Uniqueness *)

Lemma rows_collide_sym r r' : rows_collide r r' = rows_collide r' r.
Proof.
  assert (∀ s t : string, bool_decide (s = t) = bool_decide (t = s)) as Hs
    by (intros; apply bool_decide_ext; by split).
  unfold rows_collide. rewrite (Z.eqb_sym (er_relayer_nonce r)), (andb_comm (is_active r)).
  by rewrite !(Hs (_ (er_columns r))).
Qed.

Lemma is_active_step r a r' : row_step r a r' → is_active r' = true → is_active r = true.
Proof.
  unfold is_active. intros Hs. rewrite !negb_true_iff, !bool_decide_eq_false.
  intros Hn Hc. apply Hn. destruct (row_step_status _ _ _ Hs) as [->|Hl]; [done|].
  destruct (er_status r); simpl in Hl; by_members.
Qed.

(** A row that only lost its claim on a nonce collides with no more rows. *)
Lemma rows_collide_mono r r' r2 :
  er_columns r' = er_columns r → er_relayer_nonce r' = er_relayer_nonce r →
  (is_active r' = true → is_active r = true) →
  rows_collide r r2 = false → rows_collide r' r2 = false.
Proof.
  unfold rows_collide. intros -> -> Ha. rewrite !orb_false_iff. intros [Hi Hn]. split; [done|].
  destruct (is_active r') eqn:Ea; [|done]. by rewrite Ha in Hn.
Qed.

Definition rows_unique d : Prop :=
  ∀ k k' r r', db_executions d !! k = Some r → db_executions d !! k' = Some r' →
    k ≠ k' → rows_collide r r' = false.

Lemma rows_unique_step policy d d' : db_step policy d d' → rows_unique d → rows_unique d'.
Proof.
  intros Hstep Hx. destruct Hstep as [He _ _ _|r a r' t Hr Hs Hpres He _ _ _
    |p r g cost day t _ _ _ _ _ _ _ He _ _ _
    |id i pending confirmed n next t Hp _ _ Hnew Hcol _ _ Hn He _ _ _];
    unfold rows_unique; rewrite He; try exact Hx; intros k k' r1 r2; rewrite !lookup_insert_Some;
    intros [[<- <-]|[? Hk]] [[<- <-]|[? Hk']] ?; try done.
  - apply (rows_collide_mono r); [by apply row_step_identity in Hs as (_ & ? & _)
      |by apply row_step_identity in Hs as (_ & _ & ? & _)|by eapply is_active_step|eauto].
  - rewrite rows_collide_sym.
    apply (rows_collide_mono r); [by apply row_step_identity in Hs as (_ & ? & _)
      |by apply row_step_identity in Hs as (_ & _ & ? & _)|by eapply is_active_step|eauto].
  - eauto.
  - eauto.
  - rewrite rows_collide_sym. eauto.
  - eauto.
Qed.

(** Every row was made from one intent. *)
Definition made_from (r : HostedExecutionRow) (i : ExecutionIntent) : Prop :=
  er_columns r = intent_columns i.

Lemma reachable_identity policy d :
  valid_policy policy → reachable policy d →
  rows_unique d ∧ all_rows (λ r, ∃ i, made_from r i) d.
Proof.
  intros Hp. apply (invariant_reachable policy
    (λ d, rows_unique d ∧ all_rows (λ r, ∃ i, made_from r i) d));
    [done|split; [done|apply all_rows_empty]|].
  intros d1 d2 Hs [? ?]. split; [by eapply rows_unique_step|].
  eapply all_rows_step; [| |exact Hs|done].
  - intros id i n t _ _ _. by exists i.
  - intros r a r' Hr _ [i Hi]. exists i. unfold made_from in *.
    by destruct (row_step_identity _ _ _ Hr) as (_ & -> & _).
Qed.

(** ** What a record shows *)

Lemma validate_identifier_Ok f v w : validate_identifier f v = Ok w → w = v.
Proof. unfold validate_identifier. intros. by txn_inv. Qed.
Lemma validate_optional_Ok {A} (f : A → result A) o o' :
  (∀ a b, f a = Ok b → b = a) → validate_optional f o = Ok o' → o' = o.
Proof.
  intros Hf. unfold validate_optional. destruct o as [a|]; [|intros; by txn_inv].
  destruct (f a) as [b|] eqn:E; simpl; [|done]. intros [= <-]. by rewrite (Hf _ _ E).
Qed.

Lemma record_shows r h :
  record r = Ok h →
  he_execution_id h = er_execution_id r ∧ he_status h = er_status r ∧
  he_relayer_nonce h = er_relayer_nonce r ∧
  he_signing_claim_generation h = er_signing_claim_generation r ∧
  he_signature h = er_signature r ∧ he_raw_transaction h = er_raw_transaction r.
Proof.
  unfold record, make_hosted_execution. intros Hrec.
  apply result_bind_Ok in Hrec as (i & _ & Hrec). simpl in Hrec.
  do 24 (apply result_bind_Ok in Hrec as (? & ? & Hrec)).
  unfold validate_chain_finality in Hrec. case_match; [|done]. txn_inv. simpl.
  unfold validate_signature, validate_raw_transaction, validate_uint256, validate_counter in *.
  split_and!; try done.
  - by eapply validate_identifier_Ok.
  - by txn_inv.
  - by txn_inv.
  - eapply validate_optional_Ok; [|eassumption]. intros ? ? Hb. cbv beta in Hb. by txn_inv.
  - eapply validate_optional_Ok; [|eassumption]. intros ? ? Hb. cbv beta in Hb. by txn_inv.
Qed.

(** ** Finding the execution of an intent *)

Lemma made_from_matches r i p : made_from r i → p ∈ identity_matches i → p r = true.
Proof.
  unfold made_from, identity_matches. intros Hm Hp.
  list_cases; subst p; unfold er_idempotency_key, er_tenant_id, er_node_id; rewrite Hm; simpl;
    by rewrite !bool_decide_eq_true_2.
Qed.

Lemma identity_collides r r2 i p :
  made_from r i → p ∈ identity_matches i → p r2 = true → rows_collide r r2 = true.
Proof.
  unfold made_from, identity_matches, rows_collide. intros Hm Hp Hr2. rewrite Hm. simpl.
  rewrite !orb_true_iff, !andb_true_iff, !bool_decide_eq_true.
  list_cases; subst p; unfold er_idempotency_key, er_tenant_id, er_node_id in *; bool_inv;
    subst; auto 7.
Qed.

Lemma find_row_made d k r i p :
  rows_unique d → db_executions d !! k = Some r → made_from r i → p ∈ identity_matches i →
  find_row p (db_executions d) = Some r.
Proof.
  intros Hu Hk Hm Hp. destruct (find_row p (db_executions d)) as [r2|] eqn:Hf.
  - apply find_row_Some in Hf as [Hp2 [k2 Hk2]]. destruct (decide (k = k2)) as [<-|Hne]; [congruence|].
    pose proof (Hu _ _ _ _ Hk Hk2 Hne) as Hc. by rewrite (identity_collides _ _ _ _ Hm Hp Hp2) in Hc.
  - pose proof (find_row_None _ _ _ _ Hf Hk) as Hn. by rewrite (made_from_matches _ _ _ Hm Hp) in Hn.
Qed.

(** The four lookups agree on the execution made from the intent. *)
Lemma existing_for_intent_made d k r i :
  rows_unique d → db_executions d !! k = Some r → made_from r i →
  existing_for_intent i d = Ok (Some r).
Proof.
  intros Hu Hk Hm. unfold existing_for_intent.
  assert (map (λ p, find_row p (db_executions d)) (identity_matches i)
          = [Some r; Some r; Some r; Some r]) as ->.
  { pose proof (find_row_made d k r i) as Hf. unfold identity_matches in *. simpl.
    rewrite !Hf; auto; by_members. }
  simpl. repeat (rewrite bool_decide_eq_true_2 by done; simpl). done.
Qed.

Lemma add_distinct_stored d rows o :
  (∀ r, r ∈ rows → ∃ k, db_executions d !! k = Some r) →
  (∀ r, o = Some r → ∃ k, db_executions d !! k = Some r) →
  ∀ r, r ∈ add_distinct rows o → ∃ k, db_executions d !! k = Some r.
Proof.
  intros Hrows Ho r. unfold add_distinct. destruct o as [r0|]; [|auto].
  destruct (existsb _ _); [auto|]. rewrite elem_of_app, list_elem_of_singleton.
  intros [?| ->]; auto.
Qed.

Lemma existing_for_intent_stored d i r :
  existing_for_intent i d = Ok (Some r) → ∃ k, db_executions d !! k = Some r.
Proof.
  unfold existing_for_intent. intros He.
  assert (∀ ps rows, (∀ r, r ∈ rows → ∃ k, db_executions d !! k = Some r) →
    ∀ r, r ∈ foldl add_distinct rows (map (λ p, find_row p (db_executions d)) ps) →
      ∃ k, db_executions d !! k = Some r) as Hfold.
  { induction ps as [|p ps IH]; simpl; [auto|]. intros rows Hrows. apply IH.
    apply add_distinct_stored; [done|]. intros r0 Hf. by apply find_row_Some in Hf as [_ ?]. }
  destruct (foldl _ _ _) as [|r0 [|]] eqn:E; [done| |done]. injection He as ->.
  apply (Hfold (identity_matches i) []); [|rewrite E; by left]. intros r0 Hr0.
  by apply elem_of_nil in Hr0.
Qed.

Lemma require_exact_intent_made r i i0 u :
  made_from r i0 → require_exact_intent r i = Ok u → made_from r i.
Proof.
  unfold require_exact_intent. intros Hm Hx. txn_inv. bool_inv. unfold made_from in *.
  match goal with H : dict_eqb _ _ = true |- _ => rewrite Hm in H; simpl in H;
    apply canonical_payload_inj in H; subst end. done.
Qed.

Lemma require_exact_intent_refl r i : made_from r i → require_exact_intent r i = Ok tt.
Proof.
  unfold require_exact_intent, made_from. intros ->. simpl.
  by rewrite bool_decide_eq_true_2, canonical_payload_refl.
Qed.

(** What an allocation that returns has stored. *)
Lemma allocation_attempts_made policy fuel ids i pending confirmed t d h d' :
  all_rows (λ r, ∃ i, made_from r i) d →
  allocation_attempts policy fuel ids i pending confirmed t d = Ok (h, d') →
  ∃ k r, db_executions d' !! k = Some r ∧ made_from r i ∧ record r = Ok h.
Proof.
  intros Hall. induction fuel as [|fuel IH]; simpl; [done|].
  destruct (allocate_once _ _ _ _ _ _ _) as [[row d1]|e] eqn:Ha.
  - intros. txn_inv. unfold allocate_once, put_gate, add_gate_event in Ha. txn_inv.
    match goal with H : insert_execution _ _ = Ok _ |- _ =>
      apply insert_execution_Ok in H as (_ & _ & _ & ->) end.
    exists (ids fuel). destruct policy; txn_inv; simpl;
      (eexists; split; [apply lookup_insert_eq|by split]).
  - destruct e; try done. destruct (existing_for_intent i d) as [[row|]|] eqn:He; try done.
    intros. txn_inv. apply existing_for_intent_stored in He as [k Hk].
    destruct (Hall _ _ Hk) as [i0 Hi0]. exists k, row. split; [done|]. split; [|done].
    by eapply require_exact_intent_made.
Qed.

Lemma allocate_or_return_made policy clock ids i pending confirmed now d h d' :
  all_rows (λ r, ∃ i, made_from r i) d →
  allocate_or_return policy clock ids i pending confirmed now d = (Ok h, d') →
  ∃ k r, db_executions d' !! k = Some r ∧ made_from r i ∧ record r = Ok h.
Proof.
  intros Hall. unfold allocate_or_return.
  intros ([[pe co] t] & Hpre & Hs)%before_session_Ok.
  apply after_session_Ok in Hs as (o & Hb & Ho). apply denied_or_Ok in Ho. subst o. txn_inv.
  case_match; txn_inv.
  - match goal with H : existing_for_intent _ _ = _ |- _ =>
      apply existing_for_intent_stored in H as [k Hk] end.
    destruct (Hall _ _ Hk) as [i0 Hi0]. eexists k, _. split; [done|]. split; [|done].
    by eapply require_exact_intent_made.
  - case_match; txn_inv. by eapply allocation_attempts_made.
Qed.

(** The replay of an intent reads the stored execution and changes nothing. *)
Lemma allocate_or_return_replays policy clock ids i pending confirmed now d k r h :
  rows_unique d → db_executions d !! k = Some r → made_from r i → record r = Ok h →
  is_ok (canonical_nonce pending) = true →
  is_ok (canonical_nonce (default pending confirmed)) = true →
  default pending confirmed <= pending → is_ok (now_or clock now) = true →
  allocate_or_return policy clock ids i pending confirmed now d = (Ok h, d).
Proof.
  intros Hu Hk Hm Hr Hp Hc Hle Hn. unfold allocate_or_return, before_session.
  unfold canonical_nonce in *.
  destruct (require _ _) as [[]|] eqn:E1 in Hp; [|done].
  rewrite E1. simpl.
  destruct (require _ _) as [[]|] eqn:E2 in Hc; [|done]. rewrite E2. simpl.
  rewrite (proj2 (Z.ltb_ge _ _)) by done. simpl.
  destruct (now_or clock now) as [t|]; [|done]. simpl.
  unfold after_session, write_session. unfold mbind, txn_bind, reads, lifts, id.
  rewrite (existing_for_intent_made _ _ _ _ Hu Hk Hm). simpl.
  by rewrite (require_exact_intent_refl _ _ Hm), Hr.
Qed.
End Identity.
