(* ===== verification/Atomicity.v ===== *)
(** * A call that raises changes nothing

    An operation that raises leaves every table as it was; a denial of the pilot
    gate also leaves one event in the gate log. *)

From S2P Require Import Prelude PyValue ExecutionModels Evm ExecutionTables PilotGate.
From S2P Require Import NonceAllocator ExecutionRepository ExecutionSettlement ExecutionMachine.
From S2P Require Import ExecutionRefinement.

(** The database after a call that raised. *)
Definition denial_logged (d d' : HostedDb) : Prop :=
  ∃ event, ge_event_type event = "denied"%string ∧
    d' = d <| db_events := db_events d ++ [event] |>.
Definition unchanged (d d' : HostedDb) : Prop := d' = d ∨ denial_logged d d'.

Section Atomicity.
Context `{Sha256, Keccak}.
Implicit Types (policy : option PilotGatePolicy) (clock : Z) (d : HostedDb).

Lemma write_session_Err {A} (body : repo A) d e d' :
  write_session body d = (Err e, d') → d' = d.
Proof. unfold write_session. destruct (body d) as [[a d1]|e1]; congruence. Qed.

Lemma before_session_Err {A B} (pre : result A) (k : A → HostedDb → result B * HostedDb) d e d' :
  (∀ a, pre = Ok a → k a d = (Err e, d') → unchanged d d') →
  before_session pre k d = (Err e, d') → unchanged d d'.
Proof. unfold before_session. destruct pre; [eauto|]. intros _ [= _ <-]. by left. Qed.

(** What the body of a gated session returns. *)
Definition gated_outcome {A} d (o : option string * option A) d1 : Prop :=
  match o with
  | (Some _, _) => denial_logged d d1
  | (None, Some _) => True
  | (None, None) => False
  end.

(** A gated session that raises either rolled back or recorded a denial. *)
Lemma denied_session_Err {A} message (body : repo (option string * option A)) d e d' :
  (∀ o d1, body d = Ok (o, d1) → gated_outcome d o d1) →
  after_session (denied_or message) (write_session body d) = (Err e, d') → unchanged d d'.
Proof.
  intros Hbody. unfold after_session, write_session.
  destruct (body d) as [[o d1]|e1] eqn:Hb; simpl; [|intros [= _ <-]; by left].
  specialize (Hbody o d1 eq_refl). destruct o as [[reason|] [a|]]; simpl in *; try done;
    intros [= _ <-]; by right.
Qed.

Lemma add_row_event_denied r reason cost t d u d' :
  add_row_event r "denied" reason cost t d = Ok (u, d') → denial_logged d d'.
Proof. unfold add_row_event, add_gate_event. intros. txn_inv. eexists; split; [|reflexivity]; reflexivity. Qed.

Lemma admit_denied policy r t d reason d' :
  gate_admission policy r t d = Ok (Some reason, d') → denial_logged d d'.
Proof.
  unfold gate_admission, deny_paused. intros. txn_inv. case_match; txn_inv.
  by eapply add_row_event_denied.
Qed.

Lemma ensure_pilot_gas_denied policy r t d reason d' :
  ensure_pilot_gas_reservation policy r t d = Ok (Some reason, d') → d' = d.
Proof.
  unfold ensure_pilot_gas_reservation. intros He. txn_inv.
  assert (∀ p g day cost code,
    charge_gas p r g day t cost code d = Ok (Some reason, d') → d' = d) as Hc.
  { unfold charge_gas. intros p0 g0 day0 cost code Hc. txn_inv.
    repeat (case_match; txn_inv); done. }
  repeat (case_match; txn_inv); eauto.
Qed.

Lemma admit_with_gas_denied policy r t d reason d' :
  admit_with_gas policy r t d = Ok (Some reason, d') → denial_logged d d'.
Proof.
  unfold admit_with_gas, deny_paused. destruct policy as [p|]; intros Ha; [|txn_inv].
  txn_inv. case_match; txn_inv. case_match; txn_inv.
  - by eapply add_row_event_denied.
  - match goal with H : ensure_pilot_gas_reservation _ _ _ _ = _ |- _ =>
      apply ensure_pilot_gas_denied in H; subst end. by eapply add_row_event_denied.
Qed.

(** ** The gated operations *)

Ltac open_gated :=
  intros Hrun; revert Hrun; apply before_session_Err; intros; txn_inv; cbn beta iota in *;
  match goal with H : after_session _ _ = (Err _, _) |- _ =>
    revert H; apply denied_session_Err; intros; txn_inv end;
  repeat match goal with H : locked_execution _ _ = Ok _ |- _ =>
    apply locked_execution_Ok in H as [-> _] end.

(** Split the branches of a body that returned. *)
Ltac split_body :=
  repeat (first
    [ match goal with
      | H : (if ?b then _ else _) _ = Ok _ |- _ => destruct b eqn:?
      | H : (match ?o with Some _ => _ | None => _ end) _ = Ok _ |- _ => destruct o eqn:?
      end ]; txn_inv).

Lemma allocate_or_return_Err policy clock ids i pending confirmed now d e d' :
  allocate_or_return policy clock ids i pending confirmed now d = (Err e, d') → unchanged d d'.
Proof.
  unfold allocate_or_return. open_gated. split_body; try done.
  unfold add_gate_event in *. txn_inv. eexists; split; [|reflexivity]; reflexivity.
Qed.

Lemma reserve_pilot_gas_Err policy clock execution_id cost generation now d e d' :
  reserve_pilot_gas policy clock execution_id cost generation now d = (Err e, d') →
  unchanged d d'.
Proof.
  unfold reserve_pilot_gas, deny_paused. open_gated.
  split_body; try done; by eapply add_row_event_denied.
Qed.

Lemma claim_signing_Err policy clock execution_id now d e d' :
  claim_signing policy clock execution_id now d = (Err e, d') → unchanged d d'.
Proof. unfold claim_signing. open_gated. split_body; try done. by eapply admit_denied. Qed.

Lemma persist_signed_transaction_Err policy clock execution_id signature raw generation
    unsigned now d e d' :
  persist_signed_transaction policy clock execution_id signature raw generation unsigned now d
    = (Err e, d') → unchanged d d'.
Proof.
  unfold persist_signed_transaction. open_gated. split_body; try done. by eapply admit_denied.
Qed.

Lemma claim_submission_Err policy clock execution_id now d e d' :
  claim_submission policy clock execution_id now d = (Err e, d') → unchanged d d'.
Proof.
  unfold claim_submission. open_gated. split_body; try done. by eapply admit_with_gas_denied.
Qed.

Lemma rebroadcast_Err policy clock execution_id raw now d e d' :
  rebroadcast_raw_transaction policy clock execution_id raw now d = (Err e, d') →
  unchanged d d'.
Proof.
  unfold rebroadcast_raw_transaction. open_gated. split_body; try done.
  by eapply admit_with_gas_denied.
Qed.

(** ** The other operations *)

Ltac open_plain :=
  intros Hrun; revert Hrun; apply before_session_Err; intros; txn_inv; cbn beta iota in *; left;
  by eapply write_session_Err.

Lemma run_Err policy clock c d e d' :
  run policy clock c d = (Err e, d') → unchanged d d'.
Proof.
  assert (∀ {A} (x : result A * HostedDb),
    ((λ _, ()) <$> x.1, x.2) = (Err e, d') → x = (Err e, d')) as Hdone.
  { intros A [[a|e1] d1]; simpl; congruence. }
  destruct c; simpl; intros Hr%Hdone; clear Hdone; revert Hr.
  - apply allocate_or_return_Err.
  - unfold record_watcher_attempt. open_plain.
  - unfold set_pilot_pause. case_match; intros Hr; left; [by eapply write_session_Err|congruence].
  - apply reserve_pilot_gas_Err.
  - unfold transition. open_plain.
  - apply persist_signed_transaction_Err.
  - apply claim_signing_Err.
  - apply claim_submission_Err.
  - unfold mark_submitted. open_plain.
  - unfold mark_submission_unknown. open_plain.
  - unfold mark_submission_rejected. open_plain.
  - apply rebroadcast_Err.
  - unfold release_expired. open_plain.
  - unfold confirm. case_match; [intros [= _ <-]; by left|]. unfold record_observation. open_plain.
  - unfold finalize. open_plain.
  - unfold revert. case_match; [intros [= _ <-]; by left|]. unfold record_observation. open_plain.
  - unfold release_reverted. open_plain.
  - unfold mark_reorg_review. open_plain.
Qed.
End Atomicity.
