(* ===== verification/ModelProperties.v ===== *)
(** * Properties of the value models and of the gas arithmetic

    Constructing an intent normalises it once and for all; the columns an intent is
    stored as read back as the intent; the gas cost charged is the exact ceiling. *)

From S2P Require Import Prelude PyValue ExecutionModels ExecutionTables PilotGate.
From S2P Require Import ExecutionRepository ExecutionIdentity Scenario.
From Stdlib Require Import Ascii.

(** ** Validators *)

Lemma is_hex_lower_char c : is_hex c = true → is_hex (lower_char c) = true.
Proof. destruct c as [[] [] [] [] [] [] [] []]; vm_compute; done. Qed.

Lemma validate_identifier_idem f v w :
  validate_identifier f v = Ok w → validate_identifier f w = Ok w.
Proof. intros Hv. pose proof (validate_identifier_Ok _ _ _ Hv) as ->. done. Qed.

Lemma validate_address_idem f v w :
  validate_address f v = Ok w → validate_address f w = Ok w.
Proof.
  unfold validate_address. intros Hv. txn_inv.
  rewrite is_prefixed_lower by (done || apply is_hex_lower_char). simpl. by rewrite lower_idem.
Qed.

Lemma validate_hash_idem f v w :
  validate_hash f (HashStr v) = Ok w → validate_hash f (HashStr w) = Ok w.
Proof.
  unfold validate_hash. intros Hv. txn_inv.
  rewrite is_prefixed_lower by (done || apply is_hex_lower_char). simpl. by rewrite lower_idem.
Qed.

Lemma validate_atomic_amount_idem v w :
  validate_atomic_amount v = Ok w → validate_atomic_amount w = Ok w.
Proof. intros Hv. assert (w = v) as -> by (unfold validate_atomic_amount in Hv; by txn_inv). done. Qed.

Lemma validate_positive_int_idem f v w :
  validate_positive_int f v = Ok w → validate_positive_int f w = Ok w.
Proof. intros Hv. assert (w = v) as -> by (unfold validate_positive_int in Hv; by txn_inv). done. Qed.

Lemma validate_uint256_idem f v w :
  validate_uint256 f v = Ok w → validate_uint256 f w = Ok w.
Proof. intros Hv. assert (w = v) as -> by (unfold validate_uint256 in Hv; by txn_inv). done. Qed.

Lemma validate_fixed_chain_scope_id i j :
  validate_fixed_chain_scope i = Ok j → j = i.
Proof. unfold validate_fixed_chain_scope. case_match; intros; by txn_inv. Qed.

(** The validators are idempotent: the lemmas that say so. *)
Create HintDb validators.
#[export] Hint Resolve validate_identifier_idem validate_address_idem validate_hash_idem
  validate_atomic_amount_idem validate_positive_int_idem validate_uint256_idem : validators.

#[local] Arguments validate_identifier : simpl never.
#[local] Arguments validate_address : simpl never.
#[local] Arguments validate_hash : simpl never.
#[local] Arguments validate_atomic_amount : simpl never.
#[local] Arguments validate_positive_int : simpl never.
#[local] Arguments validate_uint256 : simpl never.

(** Constructing an intent normalises its addresses and hashes; constructing it
    again from the result changes nothing. *)
Theorem make_intent_idempotent i j : make_intent i = Ok j → make_intent j = Ok j.
Proof.
  unfold make_intent. intros Hi.
  repeat (apply result_bind_Ok in Hi as (? & ? & Hi)).
  pose proof (validate_fixed_chain_scope_id _ _ Hi) as ->. simpl.
  repeat match goal with
  | H : _ = Ok ?w |- context [mbind _ ?m] =>
      assert (m = Ok w) as -> by eauto with validators; clear H; cbn [mbind result_bind]
  end. exact Hi.
Qed.

(** the columns an execution row stores read back as exactly the intent they
    were derived from, the owner nonce through its decimal text. *)
Theorem intent_columns_roundtrip `{Sha256} i :
  make_intent i = Ok i → intent_of_columns (intent_columns i) = Ok i.
Proof.
  intros Hi. assert (0 <= owner_nonce i) as Hn.
  { unfold make_intent in Hi. do 15 (apply result_bind_Ok in Hi as (? & _ & Hi)).
    apply result_bind_Ok in Hi as (n & Hn & Hi).
    repeat (apply result_bind_Ok in Hi as (? & _ & Hi)).
    apply validate_fixed_chain_scope_id in Hi. rewrite Hi at 1. simpl.
    unfold validate_uint256 in Hn. txn_inv. bool_inv. lia. }
  unfold intent_of_columns, intent_columns. simpl ic_canonical_payload. simpl ic_owner_nonce.
  rewrite (parse_digits_pretty _ Hn). destruct i. reflexivity.
Qed.

(** Two intents have equal canonical payloads, as Python compares them, exactly
    when they are the same intent: the payload hides no field. *)
Theorem canonical_payload_faithful i j :
  dict_eqb (canonical_payload i) (canonical_payload j) = true ↔ i = j.
Proof.
  split; [apply canonical_payload_inj|]. intros ->. apply canonical_payload_refl.
Qed.

(** The worst-case gas cost of a transaction is the least number of micro-USD
    that covers it: positive inputs always have one, and only they. *)
Theorem worst_case_gas_is_ceiling gas_limit max_fee price :
  (0 < gas_limit ∧ 0 < max_fee ∧ 0 < price ↔
   is_ok (worst_case_gas_usd_micros gas_limit max_fee price) = true) ∧
  ∀ cost, worst_case_gas_usd_micros gas_limit max_fee price = Ok cost →
    (cost - 1) * 10 ^ 18 < gas_limit * max_fee * price <= cost * 10 ^ 18 ∧ 0 < cost.
Proof.
  unfold worst_case_gas_usd_micros, gate_positive_int. split.
  - split.
    + intros (?%Z.ltb_lt & ?%Z.ltb_lt & ?%Z.ltb_lt). unfold require.
      repeat match goal with H : (0 <? _) = true |- _ => rewrite H; clear H end. done.
    + intros Hok. apply is_ok_bind in Hok as (? & Hg & Hok).
      apply is_ok_bind in Hok as (? & Hm & Hok). apply is_ok_bind in Hok as (? & Hp & _).
      txn_inv. bool_inv. done.
  - intros cost Hc. txn_inv. bool_inv. unfold WEI_PER_NATIVE_UNIT.
    match goal with |- _ < ?m <= _ ∧ _ => set (n := m) in * end.
    assert (0 < n) by (unfold n; nia).
    pose proof (Z.div_mod (n + 10 ^ 18 - 1) (10 ^ 18) ltac:(lia)).
    pose proof (Z.mod_pos_bound (n + 10 ^ 18 - 1) (10 ^ 18) ltac:(lia)). lia.
Qed.
