(* ===== verification/ExecutionLiveness.v ===== *)
(** * Open executions can always be closed

    An execution whose transaction was never signed does not hold its relayer
    nonce, its gas or its place in the quotas forever: once its deadline passed,
    one call of [release_expired] closes it, whatever happened before. *)

From S2P Require Import Prelude PyValue ExecutionModels ExecutionTables PilotGate.
From S2P Require Import NonceAllocator ExecutionRepository ExecutionSettlement.
From S2P Require Import ExecutionMachine ExecutionRefinement ExecutionInvariants.
From S2P Require Import GateInvariants DerivedInvariants ExecutionIdentity ModelProperties.
From S2P Require Import Evm.

Open Scope Z_scope.

Section Liveness.
Context `{Sha256, Keccak}.

(** The released row can be shown when the row could. *)
Lemma presentable_expired r t : presentable r → 0 < t → presentable (expired_release_row r t).
Proof.
  unfold presentable, record. intros Hr Ht. revert Hr. apply same_bind. intros i _.
  unfold make_hosted_execution. do 6 (apply same_bind; intros ? _).
  apply next_bind. intros claim _. exists None. split; [done|].
  do 12 (apply same_bind; intros ? _).
  apply next_bind. intros released _. exists (Some t). split.
  { unfold validate_timestamp, validate_positive_int. simpl. by rewrite (proj2 (Z.ltb_lt 0 t)). }
  do 3 (apply same_bind; intros ? _).
  apply next_bind. intros updated _. exists t. split.
  { unfold validate_positive_int. simpl. by rewrite (proj2 (Z.ltb_lt 0 t)). }
  unfold validate_chain_finality. cbn [chain he_intent he_finality_boundary he_status].
  destruct (chain_profile _); [|done]. by apply same_bind.
Qed.

(** The reservation of an open execution is held, and closing it succeeds. *)
Lemma close_open_gate p r r' t d :
  make_policy p = Ok p → reachable (Some p) d → db_executions d !! er_execution_id r = Some r →
  er_execution_id r' = er_execution_id r → er_status r ∈ [PREFLIGHT_APPROVED; SIGNING] →
  ∃ g d', db_gate d !! er_execution_id r = Some g ∧
    mark_gate_terminal (Some p) r' GateReleased "deadline_expired" true t d = Ok (tt, d') ∧
    db_executions d' = db_executions d ∧
    db_gate d' !! er_execution_id r = Some (closed_gate g GateReleased true t).
Proof.
  intros Hp Hd Hr Hid Hst. destruct (reachable_gates p d Hp Hd) as (_ & _ & _ & Hg).
  destruct (Hg _ _ Hr) as (_ & g & Hgk & _ & Hset & Hrel & _). exists g.
  assert (gr_state g = GateReserved) as Hres.
  { destruct (gr_state g); [done| |].
    - specialize (Hset eq_refl). by_members.
    - specialize (Hrel eq_refl). by_members. }
  eexists. split; [done|]. split; [|split].
  - unfold mark_gate_terminal, reads, lifts, requires, require, mbind, txn_bind.
    rewrite Hid, Hgk. simpl. by rewrite Hres.
  - done.
  - simpl. by rewrite lookup_insert_eq.
Qed.

(** C38: liveness.  An open execution whose transaction was never signed can
    always be closed: at any instant from its deadline on, [release_expired]
    returns, leaves the execution released with its nonce free again, touches no
    other execution, and gives back the gas its gate reservation was charged. *)
Theorem open_execution_can_be_released policy clock d k r now :
  valid_policy policy → reachable policy d → db_executions d !! k = Some r →
  er_status r ∈ [PREFLIGHT_APPROVED; SIGNING] → er_deadline r <= now →
  ∃ h d' r', release_expired policy clock k (Some now) d = (Ok h, d') ∧
    db_executions d' = <[k := r']> (db_executions d) ∧ er_status r' = RELEASED ∧
    is_active r' = false ∧ er_relayer_nonce r' = er_relayer_nonce r ∧
    ∀ p, policy = Some p → ∃ g, db_gate d' !! k = Some g ∧ gr_state g = GateReleased ∧
                                gr_gas_cost_usd_micros g = 0.
Proof.
  intros Hp Hd Hk Hst Hdl.
  pose proof (reachable_rows policy d Hp Hd k r Hk) as [_ (_ & Hpos & _) _ Htx Hpr].
  pose proof (reachable_keyed policy d Hp Hd k r Hk) as Hid.
  assert (is_signed r = false) as Hun.
  { unfold is_signed. destruct Htx as [Hs Hr _ _ _ _|? ? ? _ _ _ _ _ _ _ Hss _].
    - by rewrite Hs, Hr.
    - unfold signed_states in Hss. by_members. }
  set (r' := expired_release_row r now).
  assert (presentable r') as Hpr' by (apply presentable_expired; [done|lia]).
  unfold presentable in Hpr'. destruct (record r') as [h|] eqn:Hrec; [|done].
  assert (∃ d1, mark_gate_terminal policy r' GateReleased "deadline_expired" true now d = Ok (tt, d1)
    ∧ db_executions d1 = db_executions d
    ∧ ∀ p, policy = Some p → ∃ g, db_gate d1 !! k = Some g ∧ gr_state g = GateReleased ∧
                                  gr_gas_cost_usd_micros g = 0) as (d1 & Hm & He & Hg).
  { destruct policy as [p|]; [|by exists d]. rewrite <- Hid in Hk |- *.
    destruct (close_open_gate p r r' now d Hp Hd Hk eq_refl Hst) as (g & d1 & _ & Hm & He & Hg).
    exists d1. split_and!; try done. intros p0 _. by exists (closed_gate g GateReleased true now). }
  exists h. eexists. exists r'. split_and!.
  - unfold release_expired, before_session, now_or. simpl. rewrite (proj2 (Z.ltb_lt 0 now)) by lia.
    simpl. apply write_session_Ok. unfold locked_execution.
    apply txn_bind_Ok. exists r, d. split; [by unfold reads, lifts, mbind, txn_bind; rewrite Hk|].
    rewrite (bool_decide_eq_false_2 (er_status r ∈ [RELEASED; EXPIRED])) by by_members.
    apply txn_bind_Ok. exists tt, d. split; [apply requires_Ok; by rewrite bool_decide_eq_true_2|].
    apply txn_bind_Ok. exists tt, d. split.
    { apply requires_Ok. split; [|done]. rewrite (proj2 (Z.ltb_ge now (er_deadline r))) by lia. done. }
    apply txn_bind_Ok. exists tt, d. split.
    { apply requires_Ok. split; [|done]. fold (is_signed r). by rewrite Hun. }
    fold r'. apply txn_bind_Ok. exists tt, d1. split; [exact Hm|].
    apply txn_bind_Ok. eexists _, _. split; [by unfold put_execution, writes|].
    unfold lifts. by rewrite Hrec.
  - simpl. by rewrite He, <- Hid.
  - done.
  - done.
  - done.
  - exact Hg.
Qed.

(** ** The allocation loop *)

(** The columns of a validated intent satisfy the CHECK constraints; SHA-256
    digests have 64 hexadecimal digits. *)
Lemma new_row_checks id i n t :
  (∀ s, str_len (sha256_hex s) = 64) → make_intent i = Ok i → 0 <= n →
  row_checks (new_execution id i n t) = true.
Proof.
  intros Hsha Hi Hn. unfold make_intent in Hi.
  repeat (apply result_bind_Ok in Hi as (? & ? & Hi)).
  pose proof (validate_fixed_chain_scope_id _ _ Hi) as E.
  unfold validate_fixed_chain_scope in Hi. cbn [chain] in Hi.
  destruct (chain_profile (chain i)) as [profile|] eqn:Hchain; [|done].
  apply chain_profile_cases in Hchain.
  assert (bool_decide (chain i ∈ ["eip155:8453"; "eip155:137"; "eip155:84532";
                                  "eip155:80002"]%string) = true) as Hc.
  { apply bool_decide_eq_true. destruct Hchain as [(_ & _ & [-> | ->])|(_ & _ & [-> | ->])];
      list_member. }
  clear Hi E. unfold validate_hash, validate_positive_int, validate_atomic_amount,
    validate_uint256 in *.
  txn_inv. repeat match goal with Hx : is_prefixed is_hex 64 ?s = true |- _ =>
    apply is_prefixed_len in Hx end. bool_inv.
  assert (0 < str_len (amount_atomic i)) as Ham.
  { unfold str_len. destruct (amount_atomic i); [done|]. cbn [String.length]. lia. }
  assert (0 < str_len (pretty (owner_nonce i))) as Hon.
  { pose proof (parse_digits_pretty (owner_nonce i) ltac:(done)) as Hd. unfold str_len.
    destruct (pretty (owner_nonce i)); [done|]. cbn [String.length]. lia. }
  assert (str_len (canonical_hash i) = 66) as Hch.
  { unfold canonical_hash. specialize (Hsha (canonical_bytes i)). unfold str_len in *.
    change (String.length ("0x" +:+ ?s)) with (S (S (String.length s))). lia. }
  apply (bool_decide_eq_true_2 _) in Hc.
  unfold row_checks, terminal_evidence_check. cbn -[str_len Z.ltb Z.leb Z.eqb].
  rewrite Hc, Hch. repeat match goal with Hx : str_len ?s = 64 + 2 |- _ => rewrite Hx; clear Hx end.
  rewrite (bool_decide_eq_false_2 (PREFLIGHT_APPROVED ∈ _)) by by_members.
  by rewrite !andb_true_iff, !Z.ltb_lt, !Z.leb_le.
Qed.

Lemma add_distinct_nonempty rows o : rows ≠ [] → add_distinct rows o ≠ [].
Proof.
  unfold add_distinct. destruct o; [|done]. destruct (existsb _ _); [done|].
  intros _ Happ. by apply app_nil in Happ as [_ ?].
Qed.
Lemma add_distinct_some rows r : add_distinct rows (Some r) ≠ [].
Proof.
  unfold add_distinct. destruct (existsb _ rows) eqn:E; [by destruct rows|].
  intros Happ. by apply app_nil in Happ as [_ ?].
Qed.

Lemma foldl_add_distinct_nil os : ∀ rows, foldl add_distinct rows os = [] → Forall (eq None) os.
Proof.
  assert (∀ os rows, rows ≠ [] → foldl add_distinct rows os ≠ []) as Hne.
  { intros l. induction l as [|o l IH]; simpl; [done|]. intros rows Hr.
    by apply IH, add_distinct_nonempty. }
  induction os as [|o os IH]; simpl; intros rows Hnil; constructor; [|by eapply IH].
  destruct o as [r|]; [|done]. exfalso. by eapply Hne; [apply add_distinct_some|].
Qed.

(** The lookups of an intent found no execution. *)
Lemma existing_for_intent_none i d :
  existing_for_intent i d = Ok None →
  ∀ p, p ∈ identity_matches i → find_row p (db_executions d) = None.
Proof.
  unfold existing_for_intent. intros He p Hp.
  destruct (foldl _ _ _) as [|r [|r2 l]] eqn:E; try done.
  apply foldl_add_distinct_nil in E. rewrite Forall_forall in E. symmetry. apply E.
  apply list_elem_of_fmap. by exists p.
Qed.

(** A new row made from such an intent collides with no stored row. *)
Lemma new_row_collides_none policy d id i pending confirmed n next t :
  valid_policy policy → reachable policy d → existing_for_intent i d = Ok None →
  nonce_choice d (chain i, relayer_address i) pending confirmed n next →
  find_row (rows_collide (new_execution id i n t)) (db_executions d) = None.
Proof.
  intros Hp Hd He Hn. destruct (find_row _ _) as [r|] eqn:E; [|done].
  apply find_row_Some in E as [Hc [k Hk]]. exfalso.
  destruct (reachable_nonces policy d Hp Hd) as [Hahead _].
  assert (Forall (λ p, p r = false) (identity_matches i)) as Hnone.
  { apply Forall_forall. intros p Hin. eapply find_row_None; [|exact Hk].
    by eapply existing_for_intent_none. }
  unfold identity_matches in Hnone. rewrite !Forall_cons in Hnone.
  destruct Hnone as (H1 & H2 & H3 & H4 & _).
  unfold er_idempotency_key, er_tenant_id, er_node_id in H4.
  unfold rows_collide in Hc. simpl in Hc. rewrite !orb_true_iff, !andb_true_iff,
    !bool_decide_eq_true in Hc.
  destruct Hc as [[[[Hc|Hc]|Hc]|[[Ht Hno] Hke]]|[[[Ha Hch] Hre] Hnn]].
  - by rewrite bool_decide_eq_true_2 in H1.
  - by rewrite bool_decide_eq_true_2 in H2.
  - by rewrite bool_decide_eq_true_2 in H3.
  - by rewrite !bool_decide_eq_true_2 in H4.
  - assert (holds_nonce r = false) as Hh.
    { eapply nonce_choice_fresh; [exact Hahead|exact Hn|exact Hk|done|done|]. bool_inv. done. }
    unfold holds_nonce in Hh. by rewrite Ha in Hh.
Qed.

(** The row of a new intent violates no constraint: in a session that no other writer
    interleaves with, the first attempt meets no integrity error.  The retries are
    for the writers that commit in between. *)
Lemma allocate_once_integrity policy id i pending confirmed t d c :
  valid_policy policy → reachable policy d → (∀ s, str_len (sha256_hex s) = 64) →
  make_intent i = Ok i → existing_for_intent i d = Ok None →
  db_executions d !! id = None → 0 <= pending →
  allocate_once policy id i pending confirmed t d ≠ Err (IntegrityError c).
Proof.
  intros Hp Hd Hsha Hi He Hnew Hpend. unfold allocate_once.
  destruct (allocate_relayer_nonce (chain i) (relayer_address i) pending confirmed t d)
    as [[n d1]|e] eqn:Hn.
  - unfold mbind at 1, txn_bind at 1. rewrite Hn.
    apply allocate_relayer_nonce_Ok in Hn as (next & Hn & ->).
    destruct (reachable_nonces policy d Hp Hd) as [Hahead _].
    pose proof (nonce_choice_bounds _ _ _ _ _ _ _ Hpend Hahead Hn) as [[Hn0 _] _].
    pose proof (new_row_collides_none policy d id i _ _ _ _ t Hp Hd He Hn) as Hcol.
    unfold mbind at 1, txn_bind at 1, insert_execution. simpl.
    rewrite Hnew, Hcol, new_row_checks by done. simpl.
    destruct policy as [p|]; [|done]. unfold utc_day, gate_positive_int, mbind, txn_bind, lifts.
    simpl. by destruct (0 <? t).
  - unfold mbind at 1, txn_bind at 1. rewrite Hn. intros [= ->].
    unfold allocate_relayer_nonce, mbind, txn_bind, reads, requires, lifts, require in Hn.
    simpl in Hn. repeat (case_match; try done); congruence.
Qed.

End Liveness.
