(* ===== verification/WatchQueue.v ===== *)
(** * The watch queue

    [list_watchable_ids] returns the executions a watcher should look at next:
    least recently attempted first, ties by id. *)

From S2P Require Import Prelude PyValue ExecutionModels ExecutionTables ExecutionRepository.
From S2P Require Import ExecutionSettlement.
From Stdlib Require Import Ascii Strings.String.
From Stdlib Require Import Sorting.Sorted.

Open Scope Z_scope.

(** ** The order of strings *)

Lemma ascii_compare_code a b : Ascii.compare a b = (code a ?= code b).
Proof. unfold Ascii.compare, code. by rewrite N2Z.inj_compare. Qed.

Lemma string_leb_cons a s b t :
  String.leb (String a s) (String b t) =
  (code a <? code b) || ((code a =? code b) && String.leb s t).
Proof.
  unfold String.leb. simpl. rewrite ascii_compare_code.
  destruct (Z.compare_spec (code a) (code b)) as [E|E|E].
  - rewrite (proj2 (Z.eqb_eq _ _) E), (proj2 (Z.ltb_ge _ _)) by lia. done.
  - by rewrite (proj2 (Z.ltb_lt _ _) E).
  - rewrite (proj2 (Z.ltb_ge _ _)), (proj2 (Z.eqb_neq _ _)) by lia. done.
Qed.

Lemma string_leb_trans s t u :
  String.leb s t = true → String.leb t u = true → String.leb s u = true.
Proof.
  revert t u. induction s as [|a s IH]; intros [|b t] [|c u]; try done.
  rewrite !string_leb_cons, !orb_true_iff, !andb_true_iff.
  intros [?|[? ?]] [?|[? ?]]; bool_inv; try (left; apply Z.ltb_lt; lia).
  right. split; [apply Z.eqb_eq; lia|]. by eapply IH.
Qed.

Lemma string_leb_refl s : String.leb s s = true.
Proof. by destruct (String.leb_total s s). Qed.

(** ** The order of the queue *)

Lemma watch_leb_trans r1 r2 r3 :
  watch_leb r1 r2 = true → watch_leb r2 r3 = true → watch_leb r1 r3 = true.
Proof.
  unfold watch_leb. rewrite !orb_true_iff, !andb_true_iff.
  intros [?|[? ?]] [?|[? ?]]; bool_inv; try (left; apply Z.ltb_lt; lia).
  right. split; [apply Z.eqb_eq; lia|]. by eapply string_leb_trans.
Qed.

Lemma watch_leb_total r1 r2 : watch_leb r1 r2 = false → watch_leb r2 r1 = true.
Proof.
  unfold watch_leb. rewrite orb_false_iff, andb_false_iff, orb_true_iff, andb_true_iff.
  intros [? Hl]. bool_inv.
  destruct (Z.eq_dec (default 0 (er_watcher_attempted_at r1))
              (default 0 (er_watcher_attempted_at r2))) as [E|E].
  - right. split; [apply Z.eqb_eq; lia|]. destruct Hl as [?|Hl]; [bool_inv; done|].
    destruct (String.leb_total (er_execution_id r1) (er_execution_id r2)); congruence.
  - left. apply Z.ltb_lt. lia.
Qed.

Definition watch_le (r r' : HostedExecutionRow) : Prop := watch_leb r r' = true.

Lemma insert_watch_perm r l : insert_watch r l ≡ₚ r :: l.
Proof.
  induction l as [|r' l IH]; [done|]. simpl. case_match; [done|].
  rewrite IH. apply Permutation_swap.
Qed.
Lemma sort_watch_perm l : sort_watch l ≡ₚ l.
Proof. induction l as [|r l IH]; [done|]. simpl. by rewrite insert_watch_perm, IH. Qed.

Lemma insert_watch_sorted r l :
  StronglySorted watch_le l → StronglySorted watch_le (insert_watch r l).
Proof.
  induction 1 as [|r' l Hs IH Hall]; simpl; [by repeat constructor|].
  destruct (watch_leb r r') eqn:E.
  - constructor; [by constructor|]. constructor; [done|].
    eapply Forall_impl; [exact Hall|]. intros r2 Hr2. by eapply watch_leb_trans.
  - constructor; [done|]. rewrite insert_watch_perm. constructor; [|done].
    by apply watch_leb_total.
Qed.
Lemma sort_watch_sorted l : StronglySorted watch_le (sort_watch l).
Proof. induction l; simpl; [constructor|]. by apply insert_watch_sorted. Qed.

Lemma StronglySorted_take {A} (R : A → A → Prop) n l x y :
  StronglySorted R l → x ∈ take n l → y ∈ drop n l → R x y.
Proof.
  intros Hs. revert n. induction Hs as [|a l Hs IH Hall]; intros [|n]; simpl;
    try (intros ? ?; by match goal with H : _ ∈ [] |- _ => apply elem_of_nil in H end).
  rewrite elem_of_cons. intros [->|Hx] Hy; [|by eapply IH].
  rewrite Forall_forall in Hall. apply Hall. rewrite <- (take_drop n l). apply elem_of_app. by right.
Qed.

Lemma StronglySorted_prefix {A} (R : A → A → Prop) n l :
  StronglySorted R l → StronglySorted R (take n l).
Proof.
  intros Hs. revert n. induction Hs as [|a l Hs IH Hall]; intros [|n]; simpl; try constructor; auto.
  by apply Forall_take.
Qed.

(** What the query returns: the first rows, in the order of the queue, of the
    watchable rows. *)
Lemma list_watchable_ids_Ok chain after limit d ids :
  list_watchable_ids chain after limit d = Ok ids →
  ∃ rows, ids = er_execution_id <$> take (Z.to_nat limit) rows ∧
    StronglySorted watch_le rows ∧ 1 <= limit <= 1000 ∧
    ∀ r, r ∈ rows ↔ is_watchable chain after r = true ∧
                    ∃ k, db_executions d !! k = Some r.
Proof.
  unfold list_watchable_ids. intros Hl. txn_inv. bool_inv.
  eexists. split; [reflexivity|]. split; [apply sort_watch_sorted|]. split; [lia|].
  intros r. rewrite sort_watch_perm, list_elem_of_filter, list_elem_of_fmap.
  split; (intros [Hw Hr]; split; [done|]).
  - destruct Hr as ([k r'] & -> & Hr). apply elem_of_map_to_list in Hr. eauto.
  - destruct Hr as [k Hk]. exists (k, r). split; [done|]. by apply elem_of_map_to_list.
Qed.
