(* ===== verification/ExecutionProperties.v ===== *)
(** * Properties of the hosted execution repository

    The guarantees of the repository, over every database reachable by calls of
    its operations, each with a concrete witness on the demonstration run. *)

From S2P Require Import Prelude PyValue ExecutionModels ExecutionTables PilotGate.
From S2P Require Import NonceAllocator ExecutionRepository ExecutionSettlement.
From S2P Require Import ExecutionMachine ExecutionRefinement ExecutionInvariants.
From S2P Require Import GateInvariants Scenario DerivedInvariants ExecutionIdentity.
From S2P Require Import Atomicity WatchQueue Evm.
From Stdlib Require Import Sorting.Sorted.

Open Scope Z_scope.

Section Properties.
Context `{Sha256, Keccak}.
Implicit Types (policy : option PilotGatePolicy) (clock : Z) (d : HostedDb)
  (r : HostedExecutionRow).

(** C2: every operation of the repository, on every branch, changes the database
    only through steps of the abstract execution machine. *)
Theorem operations_refine_machine policy clock c d :
  valid_policy policy → reachable policy d → 0 < clock →
  rtc (db_step policy) d (run policy clock c d).2.
Proof.
  intros Hp Hd Hc. apply run_refines; [done..|]. by eapply reachable_keyed.
Qed.

(** C20: in every reachable database, of two executions of one relayer account with
    the same nonce at least one is closed and unsigned: a nonce is never signed
    twice, nor held by an open execution once another one signed it. *)
Theorem relayer_nonce_signed_once policy d k k' r r' :
  valid_policy policy → reachable policy d →
  db_executions d !! k = Some r → db_executions d !! k' = Some r' → k ≠ k' →
  er_chain r = er_chain r' → er_relayer_address r = er_relayer_address r' →
  er_relayer_nonce r = er_relayer_nonce r' →
  is_active r || is_signed r = false ∨ is_active r' || is_signed r' = false.
Proof.
  intros Hp Hd Hk Hk' Hne ? ? ?. destruct (reachable_nonces _ _ Hp Hd) as [_ Hx].
  destruct (is_active r || is_signed r) eqn:Ha; [right|by left].
  apply not_true_iff_false. intros Ha'. by apply (Hx k k' r r').
Qed.

(** C29: under a policy, the gas charged to a UTC day never exceeds the ceiling of
    a node, nor the ceiling of the platform. *)
Theorem daily_gas_within_budget p d tenant node day :
  make_policy p = Ok p → reachable (Some p) d →
  table_sum (gas_on day (in_scope tenant node)) (db_gate d)
    <= max_gas_usd_micros_per_node_utc_day p ∧
  table_sum (gas_on day platform_scope) (db_gate d)
    <= max_gas_usd_micros_platform_utc_day p.
Proof.
  intros Hp Hd. destruct (reachable_gates p d Hp Hd) as (_ & [Hn Hpl] & _).
  split; [apply Hn|apply Hpl].
Qed.

(** C30: under a policy, the executions of a node in flight, accepted on one UTC
    day and accepted in all never exceed their quotas. *)
Theorem admission_within_quotas p d tenant node day :
  make_policy p = Ok p → reachable (Some p) d →
  in_flight d tenant node <= max_in_flight_per_node p ∧
  accepted_on d tenant node day <= max_accepted_per_node_utc_day p ∧
  accepted_lifetime d tenant node <= max_accepted_per_node_lifetime p.
Proof.
  intros Hp Hd. destruct (reachable_gates p d Hp Hd) as (_ & _ & Hq & _).
  destruct (Hq tenant node) as (? & Hday & ?). split_and!; auto.
Qed.

(** Under a policy, every execution has a gate reservation that agrees with
    its state, and a signed execution has gas charged to a day. *)
Theorem reservation_agrees_with_execution p d k r :
  make_policy p = Ok p → reachable (Some p) d → db_executions d !! k = Some r →
  ∃ g, db_gate d !! k = Some g ∧
    (gr_state g = GateReserved → er_status r ∉ [EXPIRED; RELEASED; REVERTED]) ∧
    (gr_state g = GateSettled → er_status r ∈ [FINALIZED; REVERTED; REORG_REVIEW]) ∧
    (gr_state g = GateReleased → er_status r ∈ [EXPIRED; RELEASED]) ∧
    (is_signed r = true → 0 < gr_gas_cost_usd_micros g ∧ is_Some (gr_gas_utc_day g)).
Proof.
  intros Hp Hd Hk. destruct (reachable_gates p d Hp Hd) as (_ & _ & _ & Ha).
  destruct (Ha k r Hk) as (_ & g & Hg & Hag). by exists g.
Qed.

Lemma row_move_lifecycle r r' :
  rtc row_move r r' → rtc (λ s s', s' ∈ lifecycle s) (er_status r) (er_status r').
Proof.
  induction 1 as [|r1 r2 r3 [a Hs] _ IH]; [done|].
  destruct (row_step_status _ _ _ Hs) as [<-|Hl]; [done|]. by eapply rtc_l.
Qed.

(** C35: whatever calls follow, an execution is never deleted, keeps its intent
    columns, its nonce and its id, and moves only along the lifecycle; a closed or
    reviewed execution stays where it is. *)
Theorem execution_follows_lifecycle policy d d' k r :
  valid_policy policy → reachable policy d → rtc (call policy) d d' →
  db_executions d !! k = Some r →
  ∃ r', db_executions d' !! k = Some r' ∧
    er_execution_id r' = er_execution_id r ∧ er_columns r' = er_columns r ∧
    er_relayer_nonce r' = er_relayer_nonce r ∧
    rtc (λ s s', s' ∈ lifecycle s) (er_status r) (er_status r') ∧
    (er_status r ∈ [EXPIRED; RELEASED; REORG_REVIEW] → er_status r' = er_status r).
Proof.
  intros Hp Hd Hc Hk. destruct (calls_row _ _ _ _ _ Hp Hd Hc Hk) as (r' & Hk' & Hm).
  exists r'. split; [done|]. destruct (row_move_identity _ _ Hm) as (? & ? & ? & _).
  apply row_move_lifecycle in Hm. split_and!; try done.
  intros Hcl. inversion Hm as [|s s1 s2 Hs _]; [done|]. subst.
  destruct (er_status r); simpl in Hs; by_members.
Qed.

Lemma row_move_signed r r' :
  rtc row_move r r' → transaction_shape r → is_signed r = true → same_transaction r r'.
Proof.
  induction 1 as [|r1 r2 r3 [a Hs] _ IH]; [done|]. intros Hsh Hsig.
  pose proof (transaction_shape_step _ _ _ Hs Hsh) as Hsh2.
  destruct (row_step_transaction _ _ _ Hs) as [(E & _)|[(E1 & E2 & E3) _]].
  - exfalso. unfold is_signed in Hsig.
    destruct Hsh as [E1 E2 _ _ _ _|? ? ? _ _ _ _ _ _ _ Hin _].
    + by rewrite E1, E2 in Hsig.
    + unfold signed_states in Hin. rewrite E in Hin. by_members.
  - destruct IH as (F1 & F2 & F3); [done| |].
    + unfold is_signed in *. by rewrite E1, E2.
    + unfold same_transaction. split_and!; congruence.
Qed.

(** C36: once an execution is signed, its signature, its raw transaction and its
    hash never change again, whatever calls follow. *)
Theorem signed_transaction_immutable policy d d' k r :
  valid_policy policy → reachable policy d → rtc (call policy) d d' →
  db_executions d !! k = Some r → is_signed r = true →
  ∃ r', db_executions d' !! k = Some r' ∧ er_signature r' = er_signature r ∧
    er_raw_transaction r' = er_raw_transaction r ∧
    er_raw_transaction_hash r' = er_raw_transaction_hash r.
Proof.
  intros Hp Hd Hc Hk Hs. destruct (calls_row _ _ _ _ _ Hp Hd Hc Hk) as (r' & Hk' & Hm).
  exists r'. split; [done|]. apply row_move_signed; [done| |done].
  by apply (reachable_rows policy d Hp Hd k r Hk).
Qed.

(** In every reachable database the transaction stored with a signed execution
    is complete and is the one its hash names, so the integrity check every
    submission makes never fails. *)
Theorem stored_transaction_verifies policy d k r :
  valid_policy policy → reachable policy d → db_executions d !! k = Some r →
  is_signed r = true →
  ∃ raw h, require_raw_transaction r = Ok raw ∧ er_raw_transaction r = Some raw ∧
    ethereum_transaction_hash raw = Ok h ∧ er_raw_transaction_hash r = Some h.
Proof.
  intros Hp Hd Hk Hs. destruct (reachable_rows policy d Hp Hd k r Hk) as [_ _ _ Hsh _].
  destruct Hsh as [E1 E2 _ _ _ _|signature raw h Es Er Eh _ Hl Hh _ _ _].
  - unfold is_signed in Hs. by rewrite E1, E2 in Hs.
  - exists raw, h. split_and!; try done. unfold require_raw_transaction. rewrite Er, Eh.
    destruct raw as [|b raw]; [unfold blen in Hl; simpl in Hl; lia|].
    rewrite Hh. simpl. by rewrite bool_decide_eq_true_2.
Qed.

(** In every reachable database every execution and every gate reservation
    satisfies the CHECK constraints of its table and no two executions violate a
    unique constraint; finality evidence of the depth its chain asks for backs
    every settled execution. *)
Theorem table_constraints_hold p d k k' r r' g :
  make_policy p = Ok p → reachable (Some p) d →
  db_executions d !! k = Some r → db_executions d !! k' = Some r' → db_gate d !! k = Some g →
  row_checks r = true ∧ gate_checks g = true ∧ (k ≠ k' → rows_collide r r' = false) ∧
  (er_status r ∈ [CONFIRMED; FINALIZED; REVERTED; REORG_REVIEW] → boundary_evidence r).
Proof.
  intros Hmp Hd Hk Hk' Hg. pose proof (reachable_gate_rows p d Hmp Hd k g Hg) as Hgc.
  set (policy := Some p) in *. assert (valid_policy policy) as Hp by done. destruct (reachable_rows policy d Hp Hd k r Hk) as [Hc Hl Hf _ _].
  destruct (reachable_identity policy d Hp Hd) as [Hu _].
  split_and!; [by apply row_checks_intro|exact Hgc|by eauto|exact Hf].
Qed.

(** C32: an execution is closed only after its deadline: without a signature, or on
    a validated proof that its transaction reverted and nothing of the payment took
    effect by a boundary past the deadline. *)
Theorem closed_only_when_safe policy d k r :
  valid_policy policy → reachable policy d → db_executions d !! k = Some r →
  er_status r ∈ [EXPIRED; RELEASED] →
  (is_signed r = false ∧ ∃ t, er_deadline r <= t ∧
     (er_released_at r = Some t ∨ er_expired_at r = Some t)) ∨
  (is_signed r = true ∧ er_receipt_status r = Some 0 ∧ boundary_evidence r ∧
   ∃ evidence t, er_release_evidence r = Some evidence ∧ release_proof evidence ∧
     er_released_at r = Some t ∧ er_deadline r <= boundary_timestamp evidence <= t).
Proof.
  intros Hp Hd Hk Hs. destruct (reachable_closed policy d Hp Hd k r Hk) as [_ Hj]. by apply Hj.
Qed.

(** The attempts logged for an execution are numbered 0, 1, 2, ... without a
    gap up to its broadcast count, and all name its transaction; an unsigned
    execution has none. *)
Theorem attempt_log_gapless policy d k r :
  valid_policy policy → reachable policy d → db_executions d !! k = Some r →
  match er_raw_transaction_hash r with
  | None => attempts_of d k = []
  | Some h =>
      at_attempt_number <$> attempts_of d k = seqZ 0 (er_broadcast_attempts r + 1) ∧
      Forall (λ a, at_raw_transaction_hash a = h) (attempts_of d k)
  end.
Proof. intros Hp Hd Hk. destruct (reachable_logs policy d Hp Hd) as (_ & _ & Hl & _). by apply Hl. Qed.

(** C39: a call that raises leaves every table as it was; at most it appends one
    denial to the gate log. *)
Theorem raising_call_changes_nothing policy clock c d e d' :
  run policy clock c d = (Err e, d') →
  d' = d ∨ ∃ event, ge_event_type event = "denied"%string ∧
    d' = d <| db_events := db_events d ++ [event] |>.
Proof. apply run_Err. Qed.

Lemma stored_execution_readable_row policy d k r :
  valid_policy policy → reachable policy d → db_executions d !! k = Some r →
  ∃ h, record r = Ok h.
Proof.
  intros Hp Hd Hk. destruct (reachable_rows policy d Hp Hd k r Hk) as [_ _ _ _ Hpr].
  unfold presentable in Hpr. destruct (record r) as [h|]; [by exists h|done].
Qed.

(** In every reachable database every execution can be read back, as the
    values its row stores. *)
Theorem stored_execution_readable policy d k r :
  valid_policy policy → reachable policy d → db_executions d !! k = Some r →
  ∃ h, get_execution k d = Ok (Some h) ∧ he_execution_id h = k ∧ he_status h = er_status r ∧
    he_relayer_nonce h = er_relayer_nonce r ∧ he_raw_transaction h = er_raw_transaction r.
Proof.
  intros Hp Hd Hk. destruct (stored_execution_readable_row policy d k r Hp Hd Hk) as [h Hr].
  exists h. unfold get_execution. rewrite Hk, Hr.
  pose proof (reachable_keyed policy d Hp Hd k r Hk) as <-.
  destruct (record_shows r h Hr) as (? & ? & ? & _ & _ & ?). by split_and!.
Qed.

(** *** Signing claims *)

Lemma claim_signing_won policy clock execution_id now d h d' :
  keyed d → claim_signing policy clock execution_id now d = (Ok (h, true), d') →
  ∃ r t, db_executions d !! execution_id = Some r ∧
    db_executions d' !! execution_id = Some (claimed_row r t) ∧
    record (claimed_row r t) = Ok h.
Proof.
  intros Hkd. unfold claim_signing, put_execution.
  intros (t & _ & Hs)%before_session_Ok.
  apply after_session_Ok in Hs as (o & Hb & Ho). apply denied_or_Ok in Ho. subst o. txn_inv.
  match goal with H : locked_execution _ _ = Ok _ |- _ =>
    apply locked_execution_Ok in H as [-> Hk] end.
  pose proof (Hkd _ _ Hk). subst execution_id.
  match goal with o : option string |- _ => destruct o end; txn_inv.
  match goal with H : gate_admission _ _ _ _ = Ok _ |- _ => apply admit_Ok in H as [_ Hsame] end.
  rewrite (Hsame eq_refl) in *.
  repeat (case_match; txn_inv); eexists _, t; (split; [exact Hk|]); simpl;
    (split; [apply lookup_insert_eq|done]).
Qed.

Lemma row_move_generation r r' :
  rtc row_move r r' → er_signing_claim_generation r <= er_signing_claim_generation r'.
Proof.
  induction 1 as [|r1 r2 r3 [a Hs] _ IH]; [lia|].
  destruct (row_step_lease _ _ _ Hs) as [[Hg _]|(t & -> & _)]; simpl in *; lia.
Qed.

Lemma persist_stale policy clock execution_id signature raw generation unsigned now d r :
  db_executions d !! execution_id = Some r → er_signing_claim_generation r ≠ generation →
  is_ok (persist_signed_transaction policy clock execution_id signature raw generation
           unsigned now d).1 = false.
Proof.
  intros Hk Hne. apply not_true_iff_false. intros Hok.
  destruct (persist_signed_transaction _ _ _ _ _ _ _ _ _) as [[h|] d'] eqn:Hp; [|done].
  unfold persist_signed_transaction in Hp.
  apply before_session_Ok in Hp as ([t h0] & _ & Hs).
  apply after_session_Ok in Hs as (o & Hb & _). txn_inv.
  match goal with H : locked_execution _ _ = Ok _ |- _ =>
    apply locked_execution_Ok in H as [-> Hk2] end. simplify_eq.
  bool_inv. done.
Qed.

(** A signing claim is exclusive: of two granted claims the later carries the
    higher generation, and from then on nothing can be persisted under the earlier
    one, whatever calls come in between. *)
Theorem signing_claim_exclusive policy d d1 d2 d3 d4 execution_id c1 n1 h1 c2 n2 h2 :
  valid_policy policy → reachable policy d → 0 < c1 → 0 < c2 →
  claim_signing policy c1 execution_id n1 d = (Ok (h1, true), d1) →
  rtc (call policy) d1 d2 →
  claim_signing policy c2 execution_id n2 d2 = (Ok (h2, true), d3) →
  rtc (call policy) d3 d4 →
  he_signing_claim_generation h1 < he_signing_claim_generation h2 ∧
  ∀ clock signature raw unsigned now,
    is_ok (persist_signed_transaction policy clock execution_id signature raw
             (he_signing_claim_generation h1) unsigned now d4).1 = false.
Proof.
  intros Hp Hd Hc1 Hc2 Hcl1 H12 Hcl2 H34.
  assert (reachable policy d1) as Hd1.
  { eapply reachable_trans, rtc_once; [done|].
    apply (call_intro _ _ _ c1 (CClaimSigning execution_id n1)); [done|]. simpl. by rewrite Hcl1. }
  assert (reachable policy d2) as Hd2 by by eapply reachable_trans.
  assert (reachable policy d3) as Hd3.
  { eapply reachable_trans, rtc_once; [done|].
    apply (call_intro _ _ _ c2 (CClaimSigning execution_id n2)); [done|]. simpl. by rewrite Hcl2. }
  apply claim_signing_won in Hcl1 as (r & t & Hk & Hk1 & Hr1); [|by eapply reachable_keyed].
  apply claim_signing_won in Hcl2 as (r2 & t2 & Hk2 & Hk3 & Hr2); [|by eapply reachable_keyed].
  destruct (record_shows _ _ Hr1) as (_ & _ & _ & -> & _).
  destruct (record_shows _ _ Hr2) as (_ & _ & _ & -> & _).
  destruct (calls_row _ _ _ _ _ Hp Hd1 H12 Hk1) as (r2' & Hk2' & Hm). simplify_eq.
  apply row_move_generation in Hm.
  destruct (calls_row _ _ _ _ _ Hp Hd3 H34 Hk3) as (r4 & Hk4 & Hm4).
  apply row_move_generation in Hm4. simpl in *.
  split; [lia|]. intros. eapply persist_stale; [exact Hk4|]. lia.
Qed.

(** *** Replays *)

(** Replaying an allocation, at any later time and with any chain observation,
    returns the execution the first call made, with its nonce, and changes
    nothing. *)
Theorem allocation_replay_exact policy d d1 d2 i ids1 p1 q1 n1 h1 c1 c2 ids2 p2 q2 n2 :
  valid_policy policy → reachable policy d → 0 < c1 →
  allocate_or_return policy c1 ids1 i p1 q1 n1 d = (Ok h1, d1) →
  rtc (call policy) d1 d2 →
  0 <= default p2 q2 <= p2 → p2 <= MAX_RELAYER_NONCE → is_ok (now_or c2 n2) = true →
  ∃ h2, allocate_or_return policy c2 ids2 i p2 q2 n2 d2 = (Ok h2, d2) ∧
    he_execution_id h2 = he_execution_id h1 ∧ he_relayer_nonce h2 = he_relayer_nonce h1.
Proof.
  intros Hp Hd Hc1 Ha H12 Hq Hmax Hn.
  assert (reachable policy d1) as Hd1.
  { eapply reachable_trans, rtc_once; [done|].
    apply (call_intro _ _ _ c1 (CAllocate ids1 i p1 q1 n1)); [done|]. simpl. by rewrite Ha. }
  assert (reachable policy d2) as Hd2 by by eapply reachable_trans.
  apply allocate_or_return_made in Ha as (k & r & Hk & Hm & Hr);
    [|by apply (reachable_identity policy)].
  destruct (calls_row _ _ _ _ _ Hp Hd1 H12 Hk) as (r2 & Hk2 & Hmove).
  apply row_move_identity in Hmove as (Hid & Hcol & Hnonce & _).
  destruct (stored_execution_readable_row policy d2 k r2 Hp Hd2 Hk2) as (h2 & Hr2).
  destruct (record_shows _ _ Hr) as (-> & _ & -> & _).
  exists h2. destruct (record_shows _ _ Hr2) as (-> & _ & -> & _).
  split; [|by split]. eapply allocate_or_return_replays; try done.
  - by apply (reachable_identity policy).
  - unfold made_from. by rewrite Hcol.
  - unfold canonical_nonce. rewrite (proj2 (Z.ltb_ge _ _)), (proj2 (Z.ltb_ge _ _)) by lia. done.
  - unfold canonical_nonce. rewrite (proj2 (Z.ltb_ge _ _)), (proj2 (Z.ltb_ge _ _)) by lia. done.
  - lia.
Qed.

Lemma persist_stored policy clock execution_id signature raw generation unsigned now d h d' :
  keyed d →
  persist_signed_transaction policy clock execution_id signature raw generation unsigned now d
    = (Ok h, d') →
  ∃ r, db_executions d' !! execution_id = Some r ∧ er_raw_transaction r = Some raw ∧
    is_signed r = true.
Proof.
  intros Hkd. unfold persist_signed_transaction, put_execution.
  intros ([t h0] & _ & Hs)%before_session_Ok.
  apply after_session_Ok in Hs as (o & Hb & Ho). apply denied_or_Ok in Ho. subst o. txn_inv.
  match goal with H : locked_execution _ _ = Ok _ |- _ =>
    apply locked_execution_Ok in H as [-> Hk] end.
  pose proof (Hkd _ _ Hk). subst execution_id.
  case_bool_decide; txn_inv.
  - bool_inv. eexists. split; [exact Hk|]. split; [done|]. unfold is_signed.
    apply orb_true_iff. left. by apply bool_decide_eq_true.
  - case_match; txn_inv.
    match goal with H : add_attempt _ _ _ _ _ _ = Ok _ |- _ => apply add_attempt_Ok in H; subst end.
    simpl. eexists.
    split; [apply lookup_insert_eq|]. by split.
Qed.

Lemma rebroadcast_stored policy clock execution_id raw now d sent d' :
  rebroadcast_raw_transaction policy clock execution_id raw now d = (Ok sent, d') →
  ∃ r, db_executions d !! execution_id = Some r ∧ er_raw_transaction r = Some sent.
Proof.
  unfold rebroadcast_raw_transaction. intros (t & _ & Hs)%before_session_Ok.
  apply after_session_Ok in Hs as (o & Hb & Ho). apply denied_or_Ok in Ho. subst o. txn_inv.
  match goal with H : locked_execution _ _ = Ok _ |- _ =>
    apply locked_execution_Ok in H as [-> Hk] end.
  case_match; txn_inv. eexists. split; [exact Hk|].
  match goal with H : require_raw_transaction _ = Ok _ |- _ =>
    by apply require_raw_transaction_Ok in H as (? & _) end.
Qed.

(** Whatever is ever rebroadcast for an execution is, byte for byte, the raw
    transaction that was persisted for it. *)
Theorem broadcast_is_signed_transaction policy d d1 d2 d3 execution_id c1 c2
    signature raw generation unsigned n1 n2 given h sent :
  valid_policy policy → reachable policy d → 0 < c1 →
  persist_signed_transaction policy c1 execution_id signature raw generation unsigned n1 d
    = (Ok h, d1) →
  rtc (call policy) d1 d2 →
  rebroadcast_raw_transaction policy c2 execution_id given n2 d2 = (Ok sent, d3) →
  sent = raw.
Proof.
  intros Hp Hd Hc1 Hper H12 Hreb.
  assert (reachable policy d1) as Hd1.
  { eapply reachable_trans, rtc_once; [done|].
    apply (call_intro _ _ _ c1 (CPersist execution_id signature raw generation unsigned n1));
      [done|]. simpl. by rewrite Hper. }
  apply persist_stored in Hper as (r & Hk & Hraw & Hsig); [|by eapply reachable_keyed].
  destruct (calls_row _ _ _ _ _ Hp Hd1 H12 Hk) as (r2 & Hk2 & Hm).
  apply row_move_signed in Hm as (_ & Hr2 & _); [|by apply (reachable_rows policy d1 Hp Hd1 _ _ Hk)|done].
  apply rebroadcast_stored in Hreb as (r3 & Hk3 & Hr3). simplify_eq. congruence.
Qed.

(** *** Pauses *)

Lemma paused_reason_known d tenant node reason :
  paused_reason d tenant node = Some reason → pilot_gate_denied reason = PilotGateDenied reason.
Proof.
  unfold paused_reason, pilot_controls, pilot_gate_denied. intros Hr.
  rewrite bool_decide_eq_true_2; [done|]. unfold PILOT_GATE_REASON_CODES.
  rewrite !filter_cons in Hr. simpl in Hr.
  repeat (case_decide; simpl in Hr; [injection Hr as <-; by_members|]). done.
Qed.

Lemma paused_denial p d tenant node reason t include :
  paused_reason d tenant node = Some reason →
  pilot_admission_denial (Some p) tenant node t include d = Ok (Some reason).
Proof. unfold pilot_admission_denial. by intros ->. Qed.

#[local] Arguments pilot_admission_denial : simpl never.

(** While the platform, the tenant or the node of an execution is paused, it can
    neither be claimed for signing, nor claimed for submission, nor rebroadcast, and
    no new execution of the node is accepted: each call raises the denial. *)
Theorem paused_gate_denies p d reason clock execution_id now r i ids pending raw :
  paused_reason d (er_tenant_id r) (er_node_id r) = Some reason →
  db_executions d !! execution_id = Some r → is_ok (now_or clock now) = true →
  (claim_signing (Some p) clock execution_id now d).1 = Err (PilotGateDenied reason) ∧
  (claim_submission (Some p) clock execution_id now d).1 = Err (PilotGateDenied reason) ∧
  (er_status r ∈ [SUBMITTED; SUBMISSION_UNKNOWN; SUBMISSION_REJECTED] →
   require_raw_transaction r = Ok raw →
   (rebroadcast_raw_transaction (Some p) clock execution_id None now d).1
     = Err (PilotGateDenied reason)) ∧
  (existing_for_intent i d = Ok None → tenant_id i = er_tenant_id r →
   node_id i = er_node_id r → 0 <= pending <= MAX_RELAYER_NONCE →
   (allocate_or_return (Some p) clock ids i pending None now d).1
     = Err (PilotGateDenied reason)).
Proof.
  intros Hpause Hk Hn. pose proof (paused_reason_known _ _ _ _ Hpause) as Hcode.
  destruct (now_or clock now) as [t|] eqn:Ht; [|done].
  pose proof (paused_denial p _ _ _ _ t false Hpause) as Hden.
  pose proof (paused_denial p _ _ _ _ t true Hpause) as Hden'.
  split_and!.
  - unfold claim_signing, before_session, after_session, write_session, gate_admission, deny_paused,
      locked_execution, mbind, txn_bind, reads, lifts, id. rewrite Ht. simpl. rewrite Hk. simpl.
    rewrite Hden. simpl. by rewrite Hcode.
  - unfold claim_submission, before_session, after_session, write_session, admit_with_gas,
      deny_paused, locked_execution, mbind, txn_bind, reads, lifts, id.
    rewrite Ht. simpl. rewrite Hk. simpl. rewrite Hden. simpl. by rewrite Hcode.
  - intros Hst Hraw.
    unfold rebroadcast_raw_transaction, before_session, after_session, write_session,
      admit_with_gas, deny_paused, locked_execution, requires, transaction_hash, mbind,
      txn_bind, reads, lifts, id. rewrite Ht. simpl. rewrite Hk. simpl.
    rewrite (bool_decide_eq_true_2 _ Hst). simpl. rewrite Hraw. simpl.
    apply require_raw_transaction_Ok in Hraw as (_ & _ & h & _ & Hh). rewrite Hh. simpl.
    rewrite Hden. simpl. by rewrite Hcode.
  - intros He Hti Hni Hpe.
    unfold allocate_or_return, before_session, canonical_nonce.
    rewrite (proj2 (Z.ltb_ge _ _)), (proj2 (Z.ltb_ge _ _)) by lia. simpl.
    rewrite (proj2 (Z.ltb_ge _ _)), (proj2 (Z.ltb_ge _ _)) by lia. simpl.
    rewrite (proj2 (Z.ltb_ge _ _)) by lia. simpl. rewrite Ht. simpl.
    unfold after_session, write_session, mbind, txn_bind, reads, lifts, id.
    rewrite He, Hti, Hni, Hden'. simpl. by rewrite Hcode.
Qed.

(** *** The watch queue *)

(** [list_watchable_ids] returns at most [limit] ids, each of a stored watchable
    execution of the chain past the cursor, least recently attempted first; a
    watchable execution it leaves out was attempted no earlier than any it
    returns. *)
Theorem watch_queue_fair chain after limit d ids :
  list_watchable_ids chain after limit d = Ok ids →
  Z.of_nat (length ids) <= limit ∧
  ∃ rows, ids = er_execution_id <$> rows ∧ StronglySorted watch_le rows ∧
    (∀ r, r ∈ rows → is_watchable chain after r = true ∧
                     ∃ k, db_executions d !! k = Some r) ∧
    (∀ k r r', db_executions d !! k = Some r → is_watchable chain after r = true →
       r ∉ rows → r' ∈ rows → watch_le r' r).
Proof.
  intros (rows & -> & Hs & Hl & Hrows)%list_watchable_ids_Ok.
  split; [rewrite length_fmap, length_take; lia|].
  exists (take (Z.to_nat limit) rows). split; [done|]. split_and!.
  - by apply StronglySorted_prefix.
  - intros r Hr. apply Hrows. rewrite <- (take_drop (Z.to_nat limit) rows).
    apply elem_of_app. by left.
  - intros k r r' Hk Hw Hn Hr'. eapply (StronglySorted_take _ (Z.to_nat limit)); [exact Hs|done|].
    assert (r ∈ rows) as Hr by (apply Hrows; eauto).
    rewrite <- (take_drop (Z.to_nat limit) rows) in Hr. apply elem_of_app in Hr as [?|?]; done.
Qed.
End Properties.
