(* ===== verification/ExecutionWitnesses.v ===== *)
(** * Witnesses for the repository's properties

    Each property of [ExecutionProperties] applied to a database, and to calls, of
    the demonstration run. *)

From S2P Require Import Prelude PyValue ExecutionModels ExecutionTables PilotGate.
From S2P Require Import NonceAllocator ExecutionRepository ExecutionSettlement.
From S2P Require Import ExecutionMachine ExecutionRefinement ExecutionInvariants.
From S2P Require Import GateInvariants Scenario DerivedInvariants ExecutionIdentity.
From S2P Require Import ModelProperties ExecutionLiveness WatchQueue ExecutionProperties.
From S2P Require Import Evm.

From Stdlib Require Import Ascii.

Open Scope Z_scope.

(** The value of a call that returned on the run. *)
Definition ok_or {A} (default : A) (r : result A) : A :=
  match r with Ok a => a | Err _ => default end.
Definition demo_execution : HostedExecution :=
  ltac:(let r := eval vm_compute in (record (demo_row 1 "exec_a")) in
        lazymatch r with Ok ?h => exact h end).

Ltac on_run := vm_compute; reflexivity.

Lemma operations_refine_machine_witness :
  rtc (db_step (Some demo_policy)) (demo_db 2)
    (run (Some demo_policy) demo_start (CClaimSigning "exec_a" None) (demo_db 2)).2.
Proof. apply operations_refine_machine; [reflexivity|apply demo_reachable|reflexivity]. Defined.

(** The nonce of the expired execution was recycled; only the new one holds it. *)
Lemma relayer_nonce_signed_once_witness :
  let r := demo_row 11 "exec_b" in let r' := demo_row 11 "exec_c" in
  er_relayer_nonce r = er_relayer_nonce r' ∧
  (is_active r || is_signed r = false ∨ is_active r' || is_signed r' = false).
Proof.
  split; [on_run|].
  apply (relayer_nonce_signed_once (Some demo_policy) (demo_db 11) "exec_b" "exec_c");
    [reflexivity|apply demo_reachable|on_run|on_run|discriminate|on_run|on_run|on_run].
Defined.

Lemma daily_gas_within_budget_witness :
  let spent := table_sum (gas_on (demo_start / 86400) (in_scope "tenant" "node"))
                 (db_gate (demo_db 11)) in
  spent = 2500 ∧ spent <= 1000000 ∧
  table_sum (gas_on (demo_start / 86400) platform_scope) (db_gate (demo_db 11)) <= 100000000.
Proof.
  split; [on_run|].
  apply (daily_gas_within_budget demo_policy (demo_db 11) "tenant" "node" (demo_start / 86400));
    [reflexivity|apply demo_reachable].
Defined.

Lemma admission_within_quotas_witness :
  in_flight (demo_db 9) "tenant" "node" = 2 ∧
  in_flight (demo_db 9) "tenant" "node" <= 10 ∧
  accepted_on (demo_db 9) "tenant" "node" (demo_start / 86400) <= 50 ∧
  accepted_lifetime (demo_db 9) "tenant" "node" <= 250.
Proof.
  split; [on_run|].
  apply (admission_within_quotas demo_policy (demo_db 9) "tenant" "node" (demo_start / 86400));
    [reflexivity|apply demo_reachable].
Defined.

Lemma reservation_agrees_with_execution_witness :
  ∃ g, db_gate (demo_db 11) !! "exec_a" = Some g ∧
    (gr_state g = GateReserved → er_status (demo_row 11 "exec_a") ∉ [EXPIRED; RELEASED; REVERTED]) ∧
    (gr_state g = GateSettled → er_status (demo_row 11 "exec_a") ∈ [FINALIZED; REVERTED; REORG_REVIEW]) ∧
    (gr_state g = GateReleased → er_status (demo_row 11 "exec_a") ∈ [EXPIRED; RELEASED]) ∧
    (is_signed (demo_row 11 "exec_a") = true →
     0 < gr_gas_cost_usd_micros g ∧ is_Some (gr_gas_utc_day g)).
Proof.
  apply (reservation_agrees_with_execution demo_policy (demo_db 11) "exec_a");
    [reflexivity|apply demo_reachable|on_run].
Defined.

Lemma execution_follows_lifecycle_witness :
  ∃ r', db_executions (demo_db 11) !! "exec_a" = Some r' ∧
    er_execution_id r' = er_execution_id (demo_row 3 "exec_a") ∧
    er_columns r' = er_columns (demo_row 3 "exec_a") ∧
    er_relayer_nonce r' = er_relayer_nonce (demo_row 3 "exec_a") ∧
    rtc (λ s s', s' ∈ lifecycle s) (er_status (demo_row 3 "exec_a")) (er_status r') ∧
    (er_status (demo_row 3 "exec_a") ∈ [EXPIRED; RELEASED; REORG_REVIEW] →
     er_status r' = er_status (demo_row 3 "exec_a")).
Proof.
  apply (execution_follows_lifecycle (Some demo_policy) (demo_db 3) (demo_db 11) "exec_a");
    [reflexivity|apply demo_reachable|apply demo_calls; lia|on_run].
Defined.

Lemma signed_transaction_immutable_witness :
  er_raw_transaction (demo_row 5 "exec_a") = Some demo_raw ∧
  ∃ r', db_executions (demo_db 11) !! "exec_a" = Some r' ∧
    er_signature r' = er_signature (demo_row 5 "exec_a") ∧
    er_raw_transaction r' = er_raw_transaction (demo_row 5 "exec_a") ∧
    er_raw_transaction_hash r' = er_raw_transaction_hash (demo_row 5 "exec_a").
Proof.
  split; [on_run|].
  apply (signed_transaction_immutable (Some demo_policy) (demo_db 5) (demo_db 11) "exec_a");
    [reflexivity|apply demo_reachable|apply demo_calls; lia|on_run|on_run].
Defined.

Lemma stored_transaction_verifies_witness :
  ∃ raw h, require_raw_transaction (demo_row 5 "exec_a") = Ok raw ∧
    er_raw_transaction (demo_row 5 "exec_a") = Some raw ∧
    ethereum_transaction_hash raw = Ok h ∧
    er_raw_transaction_hash (demo_row 5 "exec_a") = Some h.
Proof.
  apply (stored_transaction_verifies (Some demo_policy) (demo_db 5) "exec_a");
    [reflexivity|apply demo_reachable|on_run|on_run].
Defined.

Lemma table_constraints_hold_witness :
  let r := demo_row 11 "exec_a" in
  let g := default (MkGateReservation EmptyString EmptyString EmptyString 0 GateReserved 0 None 0 0)
             (db_gate (demo_db 11) !! "exec_a") in
  row_checks r = true ∧ gate_checks g = true ∧
  ("exec_a"%string ≠ "exec_b"%string → rows_collide r (demo_row 11 "exec_b") = false) ∧
  (er_status r ∈ [CONFIRMED; FINALIZED; REVERTED; REORG_REVIEW] → boundary_evidence r).
Proof.
  apply (table_constraints_hold demo_policy (demo_db 11));
    [reflexivity|apply demo_reachable|on_run|on_run|on_run].
Defined.

Lemma closed_only_when_safe_witness :
  let r := demo_row 11 "exec_b" in
  (is_signed r = false ∧ ∃ t, er_deadline r <= t ∧
     (er_released_at r = Some t ∨ er_expired_at r = Some t)) ∨
  (is_signed r = true ∧ er_receipt_status r = Some 0 ∧ boundary_evidence r ∧
   ∃ evidence t, er_release_evidence r = Some evidence ∧ release_proof evidence ∧
     er_released_at r = Some t ∧ er_deadline r <= boundary_timestamp evidence <= t).
Proof.
  apply (closed_only_when_safe (Some demo_policy) (demo_db 11) "exec_b");
    [reflexivity|apply demo_reachable|on_run|].
  apply (bool_decide_unpack _). on_run.
Defined.

Lemma attempt_log_gapless_witness :
  match er_raw_transaction_hash (demo_row 7 "exec_a") with
  | None => attempts_of (demo_db 7) "exec_a" = []
  | Some h =>
      at_attempt_number <$> attempts_of (demo_db 7) "exec_a"
        = seqZ 0 (er_broadcast_attempts (demo_row 7 "exec_a") + 1) ∧
      Forall (λ a, at_raw_transaction_hash a = h) (attempts_of (demo_db 7) "exec_a")
  end.
Proof.
  apply (attempt_log_gapless (Some demo_policy) (demo_db 7) "exec_a");
    [reflexivity|apply demo_reachable|on_run].
Defined.

(** A claim after the deadline raises. *)
Lemma raising_call_changes_nothing_witness :
  let c := CClaimSigning "exec_a" (Some (demo_start + 600)) in
  let d' := (run (Some demo_policy) demo_start c (demo_db 2)).2 in
  d' = demo_db 2 ∨ ∃ event, ge_event_type event = "denied"%string ∧
    d' = (demo_db 2) <| db_events := db_events (demo_db 2) ++ [event] |>.
Proof.
  apply (raising_call_changes_nothing (Some demo_policy) demo_start
    (CClaimSigning "exec_a" (Some (demo_start + 600))) (demo_db 2)
    (ExecutionConflict "execution deadline has expired")). on_run.
Defined.

Lemma stored_execution_readable_witness :
  ∃ h, get_execution "exec_a" (demo_db 11) = Ok (Some h) ∧ he_execution_id h = "exec_a"%string ∧
    he_status h = er_status (demo_row 11 "exec_a") ∧
    he_relayer_nonce h = er_relayer_nonce (demo_row 11 "exec_a") ∧
    he_raw_transaction h = er_raw_transaction (demo_row 11 "exec_a").
Proof.
  apply (stored_execution_readable (Some demo_policy) (demo_db 11) "exec_a");
    [reflexivity|apply demo_reachable|on_run].
Defined.

(** The first claim is taken at the start, the second once its lease ran out. *)
Definition demo_claim (now : Z) (d : HostedDb) :=
  claim_signing (Some demo_policy) demo_start "exec_a" (Some now) d.
Definition demo_claimed (now : Z) (d : HostedDb) : HostedExecution :=
  (ok_or (demo_execution, false) (demo_claim now d).1).1.

Lemma signing_claim_exclusive_witness :
  let d1 := (demo_claim demo_start (demo_db 2)).2 in
  let h1 := demo_claimed demo_start (demo_db 2) in
  let d3 := (demo_claim (demo_start + 20) d1).2 in
  let h2 := demo_claimed (demo_start + 20) d1 in
  he_signing_claim_generation h1 < he_signing_claim_generation h2 ∧
  ∀ clock signature raw unsigned now,
    is_ok (persist_signed_transaction (Some demo_policy) clock "exec_a" signature raw
             (he_signing_claim_generation h1) unsigned now d3).1 = false.
Proof.
  intros d1 h1 d3 h2.
  apply (signing_claim_exclusive (Some demo_policy) (demo_db 2) d1 d1 d3 d3 "exec_a"
    demo_start (Some demo_start) h1 demo_start (Some (demo_start + 20)) h2);
    [reflexivity|apply demo_reachable|reflexivity|reflexivity
    |on_run|apply rtc_refl|on_run|apply rtc_refl].
Defined.

Lemma allocation_replay_exact_witness :
  ∃ h2, allocate_or_return (Some demo_policy) demo_start (demo_ids "z")
          (demo_intent "a" (demo_start + 600)) 50 (Some 48) None (demo_db 11)
        = (Ok h2, demo_db 11) ∧
    he_execution_id h2 = "exec_a"%string ∧ he_relayer_nonce h2 = 41.
Proof.
  apply (allocation_replay_exact (Some demo_policy) empty_db (demo_db 1) (demo_db 11)
    (demo_intent "a" (demo_start + 600)) (demo_ids "a") 41 None None demo_execution
    demo_start demo_start (demo_ids "z") 50 (Some 48) None);
    [reflexivity|apply rtc_refl|reflexivity|on_run|apply demo_calls; lia|simpl; lia
    |unfold MAX_RELAYER_NONCE; lia|reflexivity].
Defined.

Definition demo_rebroadcast : result bytes * HostedDb :=
  rebroadcast_raw_transaction (Some demo_policy) demo_start "exec_a" None None (demo_db 6).

Lemma broadcast_is_signed_transaction_witness :
  let sent := ok_or [] demo_rebroadcast.1 in
  demo_rebroadcast.1 = Ok sent ∧ sent = demo_raw.
Proof.
  intros sent. split; [on_run|].
  apply (broadcast_is_signed_transaction (Some demo_policy) (demo_db 4) (demo_db 5) (demo_db 6)
    demo_rebroadcast.2 "exec_a" demo_start demo_start demo_signature demo_raw 1 None None None
    None (ok_or demo_execution (persist_signed_transaction (Some demo_policy) demo_start "exec_a"
       demo_signature demo_raw 1 None None (demo_db 4)).1) sent);
    [reflexivity|apply demo_reachable|reflexivity|on_run|apply demo_calls; lia|on_run].
Defined.

(** The node is paused before its execution is claimed. *)
Definition demo_paused : HostedDb :=
  demo_call (CSetPause "node" true "operator_pause" "tenant" "node" None) (demo_db 2).

Lemma paused_gate_denies_witness :
  (claim_signing (Some demo_policy) demo_start "exec_a" None demo_paused).1
    = Err (PilotGateDenied "node_paused") ∧
  (allocate_or_return (Some demo_policy) demo_start (demo_ids "c")
     (demo_intent "c" (demo_start + 900)) 42 None None demo_paused).1
    = Err (PilotGateDenied "node_paused").
Proof.
  destruct (paused_gate_denies demo_policy demo_paused "node_paused" demo_start "exec_a" None
    (demo_row 2 "exec_a") (demo_intent "c" (demo_start + 900)) (demo_ids "c") 42 [])
    as (Hclaim & _ & _ & Halloc); [on_run|on_run|reflexivity|].
  split; [exact Hclaim|].
  apply Halloc; [on_run|reflexivity|reflexivity|unfold MAX_RELAYER_NONCE; lia].
Defined.

Lemma watch_queue_fair_witness :
  list_watchable_ids "eip155:8453" None 1 (demo_db 2) = Ok ["exec_a"%string] ∧
  Z.of_nat (length ["exec_a"%string]) <= 1.
Proof.
  split; [on_run|].
  apply (watch_queue_fair "eip155:8453" None 1 (demo_db 2) ["exec_a"%string]). on_run.
Defined.

(** The demonstration intent with addresses and a hash in upper case. *)
Definition demo_mixed_case : ExecutionIntent :=
  MkIntent "tenant" "node" "binding" "cap_a" "res_a" "pur_a" "req_a" (demo_hash "1") "key_a"
    "eip155:8453" (demo_address "A") (demo_address "B") HOSTED_BASE_USDC "1000000"
    (demo_address "C") 1 7 (demo_start + 600) (demo_hash "2") (demo_hash "3") (demo_hash "4")
    (demo_hash "5") (demo_address "D").

Lemma make_intent_idempotent_witness :
  let i := demo_intent "a" (demo_start + 600) in
  make_intent demo_mixed_case = Ok i ∧ make_intent i = Ok i.
Proof.
  split; [on_run|].
  apply (make_intent_idempotent demo_mixed_case). on_run.
Defined.

Lemma intent_columns_roundtrip_witness :
  let i := demo_intent "a" (demo_start + 600) in intent_of_columns (intent_columns i) = Ok i.
Proof.
  apply (intent_columns_roundtrip (demo_intent "a" (demo_start + 600))). on_run.
Defined.

(** ** A settlement the gate misses

    [transition] also finalizes a confirmed execution: its status becomes
    [FINALIZED] without [finalized_at], and its reservation stays in flight. *)
Definition demo_transitioned : HostedDb :=
  demo_call (CTransition "exec_a" FINALIZED None None) (demo_db 10).

(** the generic [transition] finalizes a confirmed execution without settling
    its reservation, which [finalize] then leaves in flight for good. *)
Theorem transition_finalizes_unsettled :
  let d := demo_transitioned in
  let d' := demo_call (CFinalize "exec_a" "safe" None) d in
  reachable (Some demo_policy) d' ∧
  er_status <$> db_executions d' !! "exec_a" = Some FINALIZED ∧
  er_finalized_at <$> db_executions d' !! "exec_a" = Some None ∧
  gr_state <$> db_gate d' !! "exec_a" = Some GateReserved.
Proof.
  split; [|split_and!; on_run].
  eapply reachable_trans; [apply (demo_reachable 10)|].
  eapply rtc_l; [by apply (call_intro _ _ _ demo_start (CTransition "exec_a" FINALIZED None None))|].
  apply rtc_once. by apply (call_intro _ _ _ demo_start (CFinalize "exec_a" "safe" None)).
Qed.

(** The second execution, still unsigned at its deadline. *)
Lemma open_execution_can_be_released_witness :
  ∃ h d' r', release_expired (Some demo_policy) demo_start "exec_b" (Some (demo_start + 300))
               (demo_db 2) = (Ok h, d') ∧
    db_executions d' = <["exec_b" := r']> (db_executions (demo_db 2)) ∧ er_status r' = RELEASED.
Proof.
  destruct (open_execution_can_be_released (Some demo_policy) demo_start (demo_db 2) "exec_b"
    (demo_row 2 "exec_b") (demo_start + 300)) as (h & d' & r' & Hr & Hd & Hs & _);
    [reflexivity|apply demo_reachable|on_run|decided|vm_compute; discriminate|].
  exists h, d', r'. split; [exact Hr|]. split; [exact Hd|exact Hs].
Defined.
