(* ===== verification/Relayer.v ===== *)
(** * The hosted relayer

    [HostedSubmissionReconciler] and [HostedRelayer] of [facilitator/relayer.py]:
    building, signing, persisting and submitting one transaction for an
    execution, inspecting it and sending it again.  A call is a program on the
    shared database and the log of what was sent; before each of its
    interactions other processes may have used the repository. *)

From S2P Require Import Prelude PyValue ExecutionModels ExecutionTables PilotGate.
From S2P Require Import NonceAllocator ExecutionRepository ExecutionSettlement Evm.
From Stdlib Require Import Ascii.

Open Scope string_scope.
Open Scope Z_scope.

Definition BASE_GAS_PRICE_ORACLE : string := "0x420000000000000000000000000000000000000f".
Definition BASE_L1_BLOCK : string := "0x4200000000000000000000000000000000000015".
Definition GET_L1_FEE_UPPER_BOUND_SELECTOR : string := "f1c7a58b".
Definition OPERATOR_FEE_SCALAR_SELECTOR : string := "0x4d5d9a2a".
Definition OPERATOR_FEE_CONSTANT_SELECTOR : string := "0x16d3bc7f".
Definition OPERATOR_FEE_DECIMALS : Z := 1000000.

(** ** Answers of a node *)

(** [_quantity]: [0x0], or lower-case digits without a leading zero. *)
Definition quantity (field : string) (value : pyval) : result Z :=
  let invalid := RelayerExecutionError (field +:+ " is invalid") in
  match value with
  | PStr (String zero (String x (String c digits))) =>
      require (Ascii.eqb zero "0" && Ascii.eqb x "x" && all_chars is_lower_hex (String c digits)
               && (negb (Ascii.eqb c "0") || bool_decide (digits = EmptyString))) invalid;;
      from_option_or (hex_number 0 (String c digits)) invalid
  | _ => Err invalid
  end.

(** [_uint256_word]. *)
Definition uint256_word (field : string) (value : pyval) : result Z :=
  let invalid := RelayerExecutionError (field +:+ " is invalid") in
  match value with
  | PStr s =>
      require (is_prefixed is_lower_hex 64 s) invalid;;
      from_option_or (hex_number 0 (String.substring 2 64 s)) invalid
  | _ => Err invalid
  end.

(** ** Configuration *)

(** [_address]. *)
Definition configured_address (field value : string) : result string :=
  let invalid := ValueError (field +:+ " is invalid") in
  match value with
  | String "0" (String "x" digits) =>
      require (str_len value =? 42) invalid;;
      raw ← from_option_or (from_hex digits) invalid;
      require ((length raw =? 20)%nat && negb (bool_decide (raw = zeros 20))) invalid;;
      mret ("0x" +:+ hex raw)
  | _ => Err invalid
  end.
(** [_positive_limit]. *)
Definition positive_limit (field : string) (value : Z) : result Z :=
  require (0 <? value) (ValueError (field +:+ " is invalid"));; mret value.

(** What the constructor of a relayer is given, beyond its collaborators. *)
Record RelayerSettings := MkSettings {
  st_chain : string;
  st_chain_id : Z;
  st_token : string;
  st_executor_address : string;
  st_relayer_address : string;
  st_execution_key_id : string;
  st_execution_signer_address : string;
  st_gas_key_id : string;
  st_gas_signer_address : string;
  st_max_gas_limit : Z;
  st_max_fee_per_gas_wei : Z;
  st_max_priority_fee_per_gas_wei : Z;
  st_max_total_fee_wei : option Z;
}.

(** The attributes of a [HostedRelayer] and of its reconciler. *)
Record HostedRelayer := MkRelayer {
  ry_chain : string;
  ry_chain_id : Z;
  ry_token : string;
  ry_executor_address : string;
  ry_relayer_address : string;
  ry_execution_signer_address : string;
  ry_max_gas_limit : Z;
  ry_max_fee_per_gas_wei : Z;
  ry_max_priority_fee_per_gas_wei : Z;
  ry_max_total_fee_wei : option Z;
}.

(** The checks of both constructors on the chain and the two addresses. *)
Definition bound_identity (chain : string) (chain_id : Z) (token executor_address relayer_address : string)
    : result (HostedChainProfile * string * string) :=
  profile ← from_option_or (chain_profile chain) (ValueError "relayer chain profile is invalid");
  require (profile_chain_id profile =? chain_id) (ValueError "relayer chain profile is invalid");;
  require (bool_decide (lower token = profile_token profile))
    (ValueError "relayer token does not match chain profile");;
  executor ← configured_address "executor address" executor_address;
  relayer ← configured_address "relayer address" relayer_address;
  require (negb (bool_decide (executor = relayer)))
    (ValueError "executor and relayer addresses must differ");;
  mret (profile, executor, relayer).

(** [HostedRelayer.__init__], its reconciler included. *)
Definition make_relayer (s : RelayerSettings) : result HostedRelayer :=
  '(profile, executor, relayer) ← bound_identity (st_chain s) (st_chain_id s) (st_token s)
    (st_executor_address s) (st_relayer_address s);
  require (negb (bool_decide (st_execution_key_id s = EmptyString))
           && negb (bool_decide (st_gas_key_id s = EmptyString)))
    (ValueError "signer key identities are required");;
  require (negb (bool_decide (st_execution_key_id s = st_gas_key_id s)))
    (ValueError "execution and gas signer keys must differ");;
  execution_address ← configured_address "execution signer address" (st_execution_signer_address s);
  gas_address ← configured_address "gas signer address" (st_gas_signer_address s);
  require (negb (bool_decide (execution_address = gas_address)))
    (ValueError "execution and gas signer addresses must differ");;
  require (bool_decide (gas_address = relayer))
    (ValueError "gas signer does not match relayer address");;
  max_gas ← positive_limit "gas limit" (st_max_gas_limit s);
  max_fee ← positive_limit "fee limit" (st_max_fee_per_gas_wei s);
  max_priority ← positive_limit "priority fee limit" (st_max_priority_fee_per_gas_wei s);
  require (negb (max_fee <? max_priority)) (ValueError "priority fee limit exceeds fee limit");;
  max_total ← validate_optional (positive_limit "total fee limit") (st_max_total_fee_wei s);
  bound_identity (profile_chain profile) (profile_chain_id profile) (profile_token profile)
    executor relayer;;
  mret (MkRelayer (profile_chain profile) (profile_chain_id profile) (profile_token profile)
    executor relayer execution_address max_gas max_fee max_priority max_total).

(** ** The systems a call uses *)

(** The database, the number of interactions so far, and what this relayer handed
    to the node to broadcast, each with the interaction it was sent in. *)
Record Exchange := MkExchange {
  ex_db : HostedDb;
  ex_tick : nat;
  ex_sent : list (nat * bytes);
}.

(** Each system answers the n-th interaction as it likes; other processes may do
    [rw_others n] to the database right before it. *)
Record RelayWorld := MkWorld {
  rw_rpc : nat → string → list pyval → result pyval;
  rw_inspection_rpc : nat → string → list pyval → result pyval;
  rw_clock : nat → result Z;
  rw_execution_signer : nat → bytes → result bytes;
  rw_gas_signer : nat → bytes → result bytes;
  rw_verify : nat → ExecutionIntent → result unit;
  rw_ids : nat → nat → string;
  rw_others : nat → HostedDb → HostedDb;
}.

Definition SUBMISSION_STATES : list ExecutionState :=
  [SIGNED; SUBMITTED; SUBMISSION_UNKNOWN; SUBMISSION_REJECTED].
(** The states whose execution [execute] returns as it is, and those it may sign. *)
Definition RETURNED_STATES : list ExecutionState :=
  [SUBMITTED; SUBMISSION_UNKNOWN; SUBMISSION_REJECTED; CONFIRMED; FINALIZED; REVERTED;
   EXPIRED; RELEASED; REORG_REVIEW].
Definition UNSIGNED_STATES : list ExecutionState := [PREFLIGHT_APPROVED; SIGNING].

Definition in_states (h : HostedExecution) (states : list ExecutionState) : bool :=
  bool_decide (he_status h ∈ states).

Section Relayer.
Context `{Sha256} `{Keccak} `{AbiEncode} `{RlpEncode}.
Context (policy : option PilotGatePolicy) (relayer : HostedRelayer) (w : RelayWorld).

Abbreviation call A := (service Exchange A).

(** ** Interactions *)

(** The next interaction, after what other processes did. *)
Definition turn : call nat := λ x,
  (Ok (ex_tick x),
   MkExchange (rw_others w (ex_tick x) (ex_db x)) (S (ex_tick x)) (ex_sent x)).
(** A question to another system. *)
Definition asks {A} (f : nat → result A) : call A := n ← turn; answers (λ _, f n).
(** An operation of the repository, and one that only reads. *)
Definition stored {A} (op : HostedDb → result A * HostedDb) : call A :=
  turn;; runs (λ x, ((op (ex_db x)).1, MkExchange (op (ex_db x)).2 (ex_tick x) (ex_sent x))).
Definition looked_up {A} (query : HostedDb → result A) : call A :=
  turn;; answers (λ x, query (ex_db x)).
(** [eth_sendRawTransaction]; the outcome is judged by the caller. *)
Definition send (raw : bytes) : call (result pyval) :=
  n ← turn;
  runs (λ x, (Ok (rw_rpc w n "eth_sendRawTransaction" [PStr ("0x" +:+ hex raw)]),
              MkExchange (ex_db x) (ex_tick x) (ex_sent x ++ [(n, raw)]))).

Definition returns {A} (r : result A) : call A := answers (λ _, r).
Definition fails {A} (e : exn) : call A := returns (Err e).
Definition ensures (b : bool) (e : exn) : call unit := returns (require b e).

(** ** The reconciler *)

(** [_now]. *)
Definition relayer_now : call Z :=
  value ← asks (rw_clock w);
  ensures (0 <? value) (RelayerExecutionError "relayer clock is unavailable");;
  mret value.

(** [_rpc_read]. *)
Definition rpc_read (method : string) (params : list pyval) : call pyval :=
  recover (asks (λ n, rw_inspection_rpc w n method params))
    (λ e, match e with
          | RelayerExecutionError _ => fails e
          | _ => fails (RelayerExecutionError "RPC dependency is unavailable")
          end).
Definition read_quantity (field method : string) (params : list pyval) : call Z :=
  value ← rpc_read method params; returns (quantity field value).
Definition read_word (field method : string) (params : list pyval) : call Z :=
  value ← rpc_read method params; returns (uint256_word field value).

(** [_require_rpc_chain]. *)
Definition require_rpc_chain : call unit :=
  chain_id ← read_quantity "RPC chain ID" "eth_chainId" [];
  ensures (chain_id =? ry_chain_id relayer)
    (RelayerExecutionError "RPC chain does not match operator configuration").
(** [_require_submission_rpc_chain]. *)
Definition require_submission_rpc_chain : call unit :=
  value ← recover (asks (λ n, rw_rpc w n "eth_chainId" []))
            (λ _, fails (RelayerExecutionError "submission RPC dependency is unavailable"));
  chain_id ← returns (quantity "submission RPC chain ID" value);
  ensures (chain_id =? ry_chain_id relayer)
    (RelayerExecutionError "submission RPC chain does not match operator configuration").

(** [_require_bound_execution]. *)
Definition bound_execution (i : ExecutionIntent) : bool :=
  bool_decide (chain i = ry_chain relayer) && bool_decide (token i = ry_token relayer)
  && bool_decide (executor i = ry_executor_address relayer)
  && bool_decide (relayer_address i = ry_relayer_address relayer).
Definition require_bound_execution (h : HostedExecution) : result unit :=
  require (bound_execution (he_intent h))
    (RelayerExecutionError "execution chain or token does not match operator configuration").

(** [_authorization]. *)
Definition relayer_authorization (i : ExecutionIntent) : result ExecutionAuthorization :=
  make_authorization (capability_hash i) (reservation_hash i) (owner i) (payee i) (token i)
    (digits_value 0 (amount_atomic i)) (owner_nonce i) (deadline i) (signer_epoch i)
    (relayer_address i) (Some (ry_chain_id relayer)).

(** The fields a node must report for the transaction of an execution. *)
Definition expected_fields (h : HostedExecution) (input : bytes) : list (string * string) :=
  [("from", ry_relayer_address relayer); ("to", ry_executor_address relayer);
   ("nonce", py_hex (he_relayer_nonce h)); ("value", "0x0"); ("type", "0x2");
   ("chainId", py_hex (ry_chain_id relayer)); ("input", "0x" +:+ hex input)].
Definition field_matches (reported : pydict) (expected : string * string) : bool :=
  match dict_get reported expected.1 with
  | PStr actual =>
      if bool_decide (expected.1 ∈ ["from"; "to"; "input"])
      then bool_decide (lower actual = lower expected.2)
      else bool_decide (actual = expected.2)
  | _ => false
  end.

(** [_lookup_exact_transaction]. *)
Definition lookup_exact_transaction (h : HostedExecution) : call bool :=
  let unavailable := RelayerExecutionError "persisted transaction hash is unavailable" in
  let inconsistent := RelayerExecutionError "RPC transaction lookup is inconsistent" in
  tx_hash ← returns (from_option_or (he_raw_transaction_hash h) unavailable);
  ensures (is_prefixed is_lower_hex 64 tx_hash) unavailable;;
  reported ← rpc_read "eth_getTransactionByHash" [PStr tx_hash];
  match reported with
  | PNone => mret false
  | PDict reported =>
      ensures (py_eqb (dict_get reported "hash") (PStr tx_hash)) inconsistent;;
      authorization ← returns (relayer_authorization (he_intent h));
      input ← returns (encode_execute_calldata authorization (he_signature h));
      ensures (forallb (field_matches reported) (expected_fields h input)) inconsistent;;
      mret true
  | _ => fails inconsistent
  end.

(** [_require_raw_transaction]: the bytes and their hash. *)
Definition persisted_transaction (h : HostedExecution) : result (bytes * string) :=
  match he_raw_transaction h, he_raw_transaction_hash h with
  | Some (b :: raw), Some tx_hash => Ok (b :: raw, tx_hash)
  | _, _ => Err (RelayerExecutionError "persisted transaction is unavailable")
  end.

(** [inspect_submission_with_evidence] ([_inspect_submission]). *)
Definition inspect_submission (execution_id : string) : call (HostedExecution * bool) :=
  found ← looked_up (get_execution execution_id);
  execution ← returns (from_option_or found
                (RelayerExecutionError "persisted execution is unavailable"));
  returns (require_bound_execution execution);;
  if negb (in_states execution SUBMISSION_STATES) then mret (execution, false) else
  require_rpc_chain;;
  known ← lookup_exact_transaction execution;
  if negb known then mret (execution, false)
  else if in_states execution [SIGNED; SUBMISSION_UNKNOWN; SUBMISSION_REJECTED] then
    now ← relayer_now;
    submitted ← stored (mark_submitted now execution_id (Some now));
    mret (submitted, true)
  else mret (execution, true).

(** The end of [rebroadcast_identical]: the bytes it claimed are sent, and what
    the node answers is recorded. *)
Definition resend (execution_id : string) (now : Z) (raw : bytes) (expected : HostedExecution)
    : call HostedExecution :=
  '(expected_raw, tx_hash) ← returns (persisted_transaction expected);
  ensures (bool_decide (raw = expected_raw))
    (RelayerExecutionError "persisted transaction is unavailable");;
  outcome ← send raw;
  match outcome with
  | Err (RpcSubmissionUnknown _) =>
      stored (mark_submission_unknown now execution_id (Some now))
  | Err (RpcSubmissionRejected reason_code) =>
      stored (mark_submission_rejected now execution_id reason_code (Some now))
  | Err _ => mret expected
  | Ok returned_hash =>
      if py_eqb returned_hash (PStr tx_hash)
      then stored (mark_submitted now execution_id (Some now))
      else stored (mark_submission_unknown now execution_id (Some now));;
           fails (RelayerExecutionError "RPC returned a conflicting transaction hash")
  end.

(** A claim that lost a race with a submission that succeeded. *)
Definition claim_or_latest (execution_id : string) (now : Z)
    : call (HostedExecution + HostedExecution * bool) :=
  recover (claim ← stored (claim_submission policy now execution_id (Some now)); mret (inr claim))
    (λ e, match e with
          | ExecutionConflict _ =>
              found ← looked_up (get_execution execution_id);
              latest ← returns (from_option_or found
                         (RelayerExecutionError "persisted execution is unavailable"));
              if in_states latest [SUBMITTED] then mret (inl latest) else fails e
          | _ => fails e
          end).

(** [rebroadcast_identical]. *)
Definition rebroadcast_identical (execution_id : string) : call HostedExecution :=
  '(execution, found) ← inspect_submission execution_id;
  if found || negb (in_states execution SUBMISSION_STATES) then mret execution else
  require_submission_rpc_chain;;
  now ← relayer_now;
  if in_states execution [SIGNED] then
    claim ← claim_or_latest execution_id now;
    match claim with
    | inl latest => mret latest
    | inr (claimed, true) =>
        '(raw, _) ← returns (persisted_transaction claimed);
        resend execution_id now raw claimed
    | inr (_, false) => '(latest, _) ← inspect_submission execution_id; mret latest
    end
  else
    raw ← stored (rebroadcast_raw_transaction policy now execution_id None (Some now));
    expected ← stored (mark_submission_unknown now execution_id (Some now));
    resend execution_id now raw expected.

(** ** Signing *)

(** [_gas_limit]: the node's estimate and a fifth more. *)
Definition relayer_gas_limit (calldata : bytes) : call Z :=
  estimate ← read_quantity "gas estimate" "eth_estimateGas"
    [PDict [("from", PStr (ry_relayer_address relayer)); ("to", PStr (ry_executor_address relayer));
            ("value", PStr "0x0"); ("data", PStr ("0x" +:+ hex calldata))]];
  ensures (negb ((estimate <=? 0) || (ry_max_gas_limit relayer <? estimate)))
    (RelayerExecutionError "gas estimate exceeds operator limit");;
  let buffered := estimate + Z.max 1 (estimate / 5) in
  ensures (negb (ry_max_gas_limit relayer <? buffered))
    (RelayerExecutionError "gas estimate exceeds operator limit");;
  mret buffered.

(** [_fee_quote]. *)
Definition fee_quote : call (Z * Z) :=
  priority ← read_quantity "priority fee" "eth_maxPriorityFeePerGas" [];
  gas_price ← read_quantity "fee quote" "eth_gasPrice" [];
  ensures (negb (ry_max_priority_fee_per_gas_wei relayer <? priority))
    (RelayerExecutionError "priority fee exceeds operator limit");;
  ensures (negb ((gas_price <=? 0) || (ry_max_fee_per_gas_wei relayer <? gas_price)))
    (RelayerExecutionError "fee quote exceeds operator limit");;
  let max_fee := gas_price * 2 + priority in
  ensures (negb (ry_max_fee_per_gas_wei relayer <? max_fee))
    (RelayerExecutionError "fee quote exceeds operator limit");;
  mret (priority, max_fee).

(** [_additional_fee_upper_bound]: what a Base chain charges besides gas. *)
Definition additional_fee_upper_bound (transaction : EIP1559Transaction) : call Z :=
  if negb (bool_decide (ry_chain_id relayer ∈ [BASE_CHAIN_ID; BASE_SEPOLIA_CHAIN_ID])) then mret 0
  else
    let unsigned_size := blen (unsigned_bytes transaction) in
    l1_fee ← read_word "L1 fee upper bound" "eth_call"
      [PDict [("to", PStr BASE_GAS_PRICE_ORACLE);
              ("data", PStr ("0x" +:+ GET_L1_FEE_UPPER_BOUND_SELECTOR +:+ hex (be_bytes 32 unsigned_size)))];
       PStr "latest"];
    operator_scalar ← read_word "operator fee scalar" "eth_call"
      [PDict [("to", PStr BASE_L1_BLOCK); ("data", PStr OPERATOR_FEE_SCALAR_SELECTOR)]; PStr "latest"];
    operator_constant ← read_word "operator fee constant" "eth_call"
      [PDict [("to", PStr BASE_L1_BLOCK); ("data", PStr OPERATOR_FEE_CONSTANT_SELECTOR)]; PStr "latest"];
    let operator_fee :=
      tx_gas_limit transaction * operator_scalar / OPERATOR_FEE_DECIMALS + operator_constant in
    mret (l1_fee + operator_fee).

(** The fee [_sign] compares with the operator's limit, when there is one. *)
Definition total_fee (transaction : EIP1559Transaction) : call (option Z) :=
  match ry_max_total_fee_wei relayer with
  | None => mret None
  | Some limit =>
      additional ← additional_fee_upper_bound transaction;
      let total := tx_gas_limit transaction * tx_max_fee_per_gas transaction + additional in
      ensures (negb (limit <? total)) (RelayerExecutionError "total fee exceeds operator limit");;
      mret (Some total)
  end.

(** The gas reservation of the pilot gate, when there is a policy. *)
Definition reserve_gas (execution : HostedExecution) (transaction : EIP1559Transaction)
    (total_fee_wei : option Z) : call unit :=
  match policy with
  | None => mret tt
  | Some p =>
      now ← relayer_now;
      ensures (now <? deadline (he_intent execution))
        (RelayerExecutionError "execution deadline has expired");;
      cost ← returns (worst_case_gas_usd_micros
        (match total_fee_wei with Some _ => 1 | None => tx_gas_limit transaction end)
        (default (tx_max_fee_per_gas transaction) total_fee_wei)
        (native_asset_usd_price_ceiling_micros p));
      stored (reserve_pilot_gas policy now (he_execution_id execution) cost
                (he_signing_claim_generation execution) (Some now));;
      mret tt
  end.

(** The transaction [_sign] builds. *)
Definition build_transaction (execution : HostedExecution) (calldata : bytes) : call EIP1559Transaction :=
  gas_limit ← relayer_gas_limit calldata;
  '(priority_fee, max_fee) ← fee_quote;
  returns (make_transaction (MkTransaction (he_relayer_nonce execution) priority_fee max_fee gas_limit
    (ry_executor_address relayer) calldata 0 (ry_chain_id relayer))).

(** [_sign]. *)
Definition sign_execution (execution : HostedExecution) : call HostedExecution :=
  let unclaimed := RelayerExecutionError "execution signing claim is unavailable" in
  ensures (in_states execution [SIGNING]) unclaimed;;
  ensures (0 <? he_signing_claim_generation execution) unclaimed;;
  authorization ← returns (relayer_authorization (he_intent execution));
  digest ← returns (hash_execution authorization (ry_executor_address relayer) (Some (ry_chain_id relayer)));
  ensures (bool_decide ("0x" +:+ hex digest = execution_digest (he_intent execution)))
    (RelayerExecutionError "authorization digest does not match Core scope");;
  signature ← recover (asks (λ n, rw_execution_signer w n digest))
    (λ _, fails (RelayerExecutionError "execution signing is unavailable"));
  calldata ← returns (encode_execute_calldata authorization (Some signature));
  transaction ← build_transaction execution calldata;
  total_fee_wei ← total_fee transaction;
  reserve_gas execution transaction total_fee_wei;;
  gas_signature ← recover (asks (λ n, rw_gas_signer w n (signing_hash transaction)))
    (λ _, fails (RelayerExecutionError "gas signing is unavailable"));
  raw ← returns (signed_bytes transaction gas_signature);
  now ← relayer_now;
  ensures (now <? deadline (he_intent execution))
    (RelayerExecutionError "execution deadline has expired");;
  stored (persist_signed_transaction policy now (he_execution_id execution) signature raw
            (he_signing_claim_generation execution)
            (Some ("0x" +:+ hex (signing_hash transaction))) (Some now)).

(** ** Submitting *)

(** [_submit_signed]. *)
Definition submit_signed (execution : HostedExecution) : call HostedExecution :=
  ensures (in_states execution [SUBMISSION_UNKNOWN])
    (RelayerExecutionError "execution submission claim is unavailable");;
  known ← lookup_exact_transaction execution;
  if known : bool then
    now ← relayer_now; stored (mark_submitted now (he_execution_id execution) (Some now))
  else
    raw ← returns (from_option_or (he_raw_transaction execution)
                     (RelayerExecutionError "persisted transaction is unavailable"));
    tx_hash ← returns (from_option_or (he_raw_transaction_hash execution)
                         (RelayerExecutionError "persisted transaction is unavailable"));
    now ← relayer_now;
    if deadline (he_intent execution) <=? now then mret execution else
    outcome ← send raw;
    match outcome with
    | Err (RpcSubmissionRejected reason_code) =>
        stored (mark_submission_rejected now (he_execution_id execution) reason_code (Some now))
    | Err _ => mret execution
    | Ok returned_hash =>
        if py_eqb returned_hash (PStr tx_hash)
        then stored (mark_submitted now (he_execution_id execution) (Some now))
        else stored (mark_submission_unknown now (he_execution_id execution) (Some now));;
             fails (RelayerExecutionError "RPC returned a conflicting transaction hash")
    end.

(** ** Executing an intent *)

(** [_require_bound_intent]. *)
Definition require_bound_intent (i : ExecutionIntent) : result unit :=
  require (bool_decide (chain i = ry_chain relayer) && bool_decide (token i = ry_token relayer))
    (RelayerExecutionError "execution chain or token does not match operator configuration");;
  require (bool_decide (executor i = ry_executor_address relayer))
    (RelayerExecutionError "executor does not match operator configuration");;
  require (bool_decide (relayer_address i = ry_relayer_address relayer))
    (RelayerExecutionError "relayer does not match operator configuration");;
  authorization ← relayer_authorization i;
  digest ← hash_execution authorization (ry_executor_address relayer) (Some (ry_chain_id relayer));
  require (bool_decide ("0x" +:+ hex digest = execution_digest i))
    (RelayerExecutionError "authorization digest does not match Core scope").

(** A new execution, with the nonces the chain reports. *)
Definition allocate_execution (i : ExecutionIntent) (now : Z) : call HostedExecution :=
  ensures (now <? deadline i) (RelayerExecutionError "execution deadline has expired");;
  require_rpc_chain;;
  chain_nonce ← read_quantity "chain pending nonce" "eth_getTransactionCount"
    [PStr (ry_relayer_address relayer); PStr "pending"];
  confirmed_nonce ← read_quantity "chain confirmed nonce" "eth_getTransactionCount"
    [PStr (ry_relayer_address relayer); PStr "latest"];
  n ← turn;
  runs (λ x, let r := allocate_or_return policy now (rw_ids w n) i chain_nonce (Some confirmed_nonce)
                        (Some now) (ex_db x) in
             (r.1, MkExchange r.2 (ex_tick x) (ex_sent x))).

Definition check_chain (rpc_chain_checked : bool) : call unit :=
  if rpc_chain_checked then mret tt else require_rpc_chain.

(** What a failed claim leaves to return: the stored execution, if [usable]. *)
Definition latest_or_raise (execution_id : string) (usable : HostedExecution → bool) (e : exn)
    : call HostedExecution :=
  found ← looked_up (get_execution execution_id);
  match found with
  | Some latest => if usable latest then mret latest else fails e
  | None => fails e
  end.

(** Claiming and signing: the execution to return, or the one to go on with. *)
Definition claim_and_sign (rpc_chain_checked : bool) (now : Z) (execution : HostedExecution)
    : call (HostedExecution + HostedExecution) :=
  check_chain rpc_chain_checked;;
  claim ← recover
    (claim ← stored (claim_signing policy now (he_execution_id execution) (Some now));
     mret (inr claim))
    (λ e, inl <$> latest_or_raise (he_execution_id execution)
                    (λ h, negb (in_states h UNSIGNED_STATES)) e);
  match claim with
  | inl latest => mret (inl latest)
  | inr (claimed, false) => mret (inl claimed)
  | inr (claimed, true) => inr <$> sign_execution claimed
  end.

(** Claiming and submitting a signed execution. *)
Definition claim_and_submit (rpc_chain_checked : bool) (execution : HostedExecution)
    : call HostedExecution :=
  submission_now ← relayer_now;
  if deadline (he_intent execution) <=? submission_now then mret execution else
  check_chain rpc_chain_checked;;
  claim ← recover
    (claim ← stored (claim_submission policy submission_now (he_execution_id execution)
                       (Some submission_now));
     mret (inr claim))
    (λ e, match e with
          | PilotGateDenied _ => fails e
          | _ => inl <$> latest_or_raise (he_execution_id execution) (λ _, true) e
          end);
  match claim with
  | inl latest => mret latest
  | inr (claimed, false) => mret claimed
  | inr (claimed, true) => submit_signed claimed
  end.

(** [execute], once the execution is allocated. *)
Definition advance (rpc_chain_checked : bool) (now : Z) (execution : HostedExecution)
    : call HostedExecution :=
  if deadline (he_intent execution) <=? now then
    if in_states execution UNSIGNED_STATES
    then stored (release_expired policy now (he_execution_id execution) (Some now))
    else mret execution
  else
    signed ← (if in_states execution UNSIGNED_STATES
              then claim_and_sign rpc_chain_checked now execution
              else mret (inr execution));
    match signed with
    | inl h => mret h
    | inr h => if in_states h [SIGNED] then claim_and_submit rpc_chain_checked h else mret h
    end.

(** [execute]. *)
Definition execute (i : ExecutionIntent) : call HostedExecution :=
  returns (require_bound_intent i);;
  found ← looked_up (find_for_intent i);
  match found with
  | Some h => if in_states h RETURNED_STATES then mret h else
              recover (asks (λ n, rw_verify w n i))
                (λ _, fails (RelayerExecutionError "Core execution approval is invalid"));;
              now ← relayer_now;
              advance false now h
  | None => recover (asks (λ n, rw_verify w n i))
              (λ _, fails (RelayerExecutionError "Core execution approval is invalid"));;
            now ← relayer_now;
            h ← allocate_execution i now;
            advance true now h
  end.
End Relayer.
