(* ===== verification/RelayMachine.v ===== *)
(** * What a relayer may do

    The step relation of relayers that share the database: other processes use the
    repository, a call is made, a transaction is sent with a justification that
    holds when it leaves.  A program is judged by triples in the style of Hoare:
    assertions on the database that survive the calls of other processes,
    and a bound on the number of transactions a program sends. *)

From S2P Require Import Prelude PyValue ExecutionModels ExecutionTables PilotGate.
From S2P Require Import NonceAllocator ExecutionRepository ExecutionSettlement.
From S2P Require Import ExecutionMachine ExecutionRefinement Evm Relayer.

Open Scope list_scope.
Open Scope Z_scope.

Section Machine.
Context `{Sha256, Keccak} (policy : option PilotGatePolicy).

(** What justifies sending bytes in an interaction, given the database. *)
Definition justification : Type := nat → bytes → HostedDb → Prop.

Inductive relay_step (J : justification) (x : Exchange) : Exchange → Prop :=
| relay_calls d' :
    call policy (ex_db x) d' → relay_step J x (MkExchange d' (ex_tick x) (ex_sent x))
| relay_turn :
    relay_step J x (MkExchange (ex_db x) (S (ex_tick x)) (ex_sent x))
| relay_sends n raw :
    ex_tick x = S n → J n raw (ex_db x) →
    relay_step J x (MkExchange (ex_db x) (ex_tick x) (ex_sent x ++ [(n, raw)])).

(** The path of a program that sends at most [k] transactions. *)
Definition moved (J : justification) (k : nat) (x x' : Exchange) : Prop :=
  rtc (relay_step J) x x' ∧ (length (ex_sent x') <= length (ex_sent x) + k)%nat.

Lemma moved_refl J k x : moved J k x x.
Proof. split; [done|lia]. Qed.
Lemma moved_trans J k1 k2 x1 x2 x3 :
  moved J k1 x1 x2 → moved J k2 x2 x3 → moved J (k1 + k2) x1 x3.
Proof. intros [Hp1 ?] [Hp2 ?]. split; [by etrans|lia]. Qed.
Lemma moved_weaken J k k' x x' : (k <= k')%nat → moved J k x x' → moved J k' x x'.
Proof. intros ? [??]. split; [done|lia]. Qed.

Lemma relay_calls_rtc J d d' n sent :
  rtc (call policy) d d' →
  rtc (relay_step J) (MkExchange d n sent) (MkExchange d' n sent).
Proof.
  revert d'. apply rtc_ind_r; [done|]. intros d1 d2 _ Hc IH. eapply rtc_r; [exact IH|].
  by apply (relay_calls J (MkExchange d1 n sent)).
Qed.
Lemma relay_path_calls J x x' : rtc (relay_step J) x x' → rtc (call policy) (ex_db x) (ex_db x').
Proof.
  revert x'. apply rtc_ind_r; [done|]. intros x1 x2 _ Hs IH.
  destruct Hs; simpl; [by eapply rtc_r|done..].
Qed.
Lemma relay_path_tick J x x' : rtc (relay_step J) x x' → (ex_tick x <= ex_tick x')%nat.
Proof. revert x'. apply rtc_ind_r; [done|]. intros x1 x2 _ Hs IH. destruct Hs; simpl; lia. Qed.
Lemma relay_path_sent J x x' : rtc (relay_step J) x x' → ∃ new, ex_sent x' = ex_sent x ++ new.
Proof.
  revert x'. apply rtc_ind_r; [exists []; by rewrite app_nil_r|].
  intros x1 x2 _ Hs [new IH]. destruct Hs as [| |n raw]; simpl; [by exists new..|].
  exists (new ++ [(n, raw)]). by rewrite IH, app_assoc.
Qed.
Lemma relay_path_mono (J J' : justification) x x' :
  (∀ n raw d, J n raw d → J' n raw d) → rtc (relay_step J) x x' → rtc (relay_step J') x x'.
Proof.
  intros HJ. revert x'. apply rtc_ind_r; [done|]. intros x1 x2 _ Hs IH. eapply rtc_r; [exact IH|].
  destruct Hs; [by constructor..|]. constructor; auto.
Qed.

(** A path that sends at most one transaction sends none, or one that was
    justified by a database on the way. *)
Lemma moved_once J x x' :
  moved J 1 x x' →
  ex_sent x' = ex_sent x ∨
  ∃ n raw d, ex_sent x' = ex_sent x ++ [(n, raw)] ∧ (ex_tick x <= S n <= ex_tick x')%nat ∧
    J n raw d ∧ rtc (call policy) (ex_db x) d ∧ rtc (call policy) d (ex_db x').
Proof.
  intros [Hpath Hlen]. revert x' Hpath Hlen.
  apply (rtc_ind_r (λ x', (length (ex_sent x') <= length (ex_sent x) + 1)%nat → _)); [by left|].
  intros x1 x2 Hp Hs IH Hlen.
  destruct Hs as [d' Hc| |n raw Ht HJ]; simpl in *.
  - destruct IH as [?|(n & raw & d & ? & [? ?] & ? & ? & ?)]; [lia|by left|right].
    exists n, raw, d. split_and!; try done. by eapply rtc_r.
  - destruct IH as [?|(n & raw & d & ? & [? ?] & ? & ? & ?)]; [lia|by left|right].
    exists n, raw, d. split_and!; try done. lia.
  - right. destruct (relay_path_sent _ _ _ Hp) as [new Hnew].
    rewrite Hnew, !length_app in Hlen. simpl in Hlen.
    destruct new as [|e new]; [|simpl in Hlen; lia]. rewrite app_nil_r in Hnew.
    exists n, raw, (ex_db x1). rewrite Hnew, <- Ht. split_and!; try done.
    + by eapply relay_path_tick.
    + by eapply relay_path_calls.
Qed.

(** ** Assertions and triples *)

(** An assertion that the calls of any process preserve. *)
Definition stable (P : HostedDb → Prop) : Prop :=
  ∀ d d', reachable policy d → rtc (call policy) d d' → P d → P d'.

Lemma stable_and P Q : stable P → stable Q → stable (λ d, P d ∧ Q d).
Proof. intros HP HQ d d' ? ? [??]. split; eauto. Qed.
Lemma stable_pure (P : Prop) : stable (λ _, P).
Proof. by intros d d'. Qed.

Definition acts {A} (J : justification) (k : nat) (P : HostedDb → Prop) (m : service Exchange A)
    (Q : A → HostedDb → Prop) : Prop :=
  ∀ x, reachable policy (ex_db x) → P (ex_db x) →
    moved J k x (m x).2 ∧ ∀ a, (m x).1 = Ok a → Q a (ex_db (m x).2).

(** A program that sends nothing. *)
Definition quiet {A} (m : service Exchange A) : Prop :=
  ∀ J x, reachable policy (ex_db x) → moved J 0 x (m x).2.

Lemma moved_reachable J k x x' :
  reachable policy (ex_db x) → moved J k x x' → reachable policy (ex_db x').
Proof. intros Hr [Hp _]. eapply reachable_trans; [done|by eapply relay_path_calls]. Qed.
Lemma moved_stable J k P x x' :
  stable P → reachable policy (ex_db x) → moved J k x x' → P (ex_db x) → P (ex_db x').
Proof. intros HP Hr [Hp _]. apply HP; [done|by eapply relay_path_calls]. Qed.

Section Rules.
Context (J : justification).

Lemma quiet_acts {A} (P : HostedDb → Prop) (m : service Exchange A) :
  quiet m → stable P → acts J 0 P m (λ _, P).
Proof.
  intros Hq HP x Hr Hx. specialize (Hq J x Hr). split; [done|]. intros a _.
  by eapply moved_stable.
Qed.
Lemma acts_weaken {A} k k' (P P' : HostedDb → Prop) (m : service Exchange A)
    (Q Q' : A → HostedDb → Prop) :
  (k <= k')%nat → (∀ d, P' d → P d) → (∀ a d, reachable policy d → Q a d → Q' a d) →
  acts J k P m Q → acts J k' P' m Q'.
Proof.
  intros Hk HP HQ Hm x Hr Hx. destruct (Hm x Hr (HP _ Hx)) as [Hmv Hv].
  split; [by eapply moved_weaken|]. intros a Ha. apply HQ; [by eapply moved_reachable|auto].
Qed.
Lemma acts_ret {A} k (P : HostedDb → Prop) (a : A) (Q : A → HostedDb → Prop) :
  (∀ d, reachable policy d → P d → Q a d) → acts J k P (mret a) Q.
Proof. intros HQ x ? Hx. split; [apply moved_refl|]. intros b [= <-]. by apply HQ. Qed.
Lemma acts_returns {A} k (P : HostedDb → Prop) (r : result A) (Q : A → HostedDb → Prop) :
  (∀ a d, r = Ok a → P d → Q a d) → acts J k P (returns r) Q.
Proof. intros HQ x _ Hx. split; [apply moved_refl|]. intros b Hb. by apply HQ. Qed.
Lemma acts_fails {A} k P e (Q : A → HostedDb → Prop) : acts J k P (fails e) Q.
Proof. by apply acts_returns. Qed.
Lemma acts_bind {A B} k1 k2 (P : HostedDb → Prop) (m : service Exchange A) Q1
    (f : A → service Exchange B) Q :
  acts J k1 P m Q1 → (∀ a, acts J k2 (Q1 a) (f a) Q) → acts J (k1 + k2) P (m ≫= f) Q.
Proof.
  intros Hm Hf x Hr Hx. destruct (Hm x Hr Hx) as [Hmv Hv].
  unfold mbind, service_bind. destruct (m x) as [[a|e] x1]; simpl in *.
  - destruct (Hf a x1 (moved_reachable _ _ _ _ Hr Hmv) (Hv a eq_refl)) as [Hmv2 Hv2].
    split; [by eapply moved_trans|done].
  - split; [|done]. eapply moved_weaken; [|done]. lia.
Qed.
Lemma acts_fmap {A B} k (P : HostedDb → Prop) (f : A → B) (m : service Exchange A)
    (Q : B → HostedDb → Prop) :
  acts J k P m (λ a, Q (f a)) → acts J k P (f <$> m) Q.
Proof.
  intros Hm x Hr Hx. destruct (Hm x Hr Hx) as [Hmv Hv]. split; [done|]. simpl.
  destruct (m x).1 as [a|] eqn:E; [|done]. intros b [= <-]. by apply Hv.
Qed.
(** A quiet program first. *)
Lemma acts_after {A B} k (P : HostedDb → Prop) (m : service Exchange A)
    (f : A → service Exchange B) Q :
  quiet m → stable P → (∀ a, acts J k P (f a) Q) → acts J k P (m ≫= f) Q.
Proof. intros Hm HP Hf. by apply (acts_bind 0 k P m (λ _, P)); [apply quiet_acts|]. Qed.
Lemma acts_returning {A B} k (P : HostedDb → Prop) (r : result A)
    (f : A → service Exchange B) Q :
  (∀ a, r = Ok a → acts J k P (f a) Q) → acts J k P (returns r ≫= f) Q.
Proof.
  intros Hf x Hr Hx. unfold returns, answers, mbind, service_bind. destruct r as [a|e]; simpl.
  - by apply Hf.
  - split; [apply moved_refl|done].
Qed.
Lemma acts_ensuring {A} k (P : HostedDb → Prop) b e (m : service Exchange A) Q :
  (b = true → acts J k P m Q) → acts J k P (ensures b e;; m) Q.
Proof. intros Hm. apply acts_returning. intros u Hu. txn_inv. auto. Qed.
Lemma acts_recover {A} k (P : HostedDb → Prop) (m : service Exchange A)
    (handler : exn → service Exchange A) Q :
  acts J 0 P m Q → stable P → (∀ e, acts J k P (handler e) Q) → acts J k P (recover m handler) Q.
Proof.
  intros Hm HP Hh x Hr Hx. unfold recover. destruct (Hm x Hr Hx) as [Hmv Hv].
  destruct (m x) as [[a|e] x1]; simpl in *.
  - split; [|auto]. eapply moved_weaken; [|done]. lia.
  - destruct (Hh e x1) as [Hmv2 Hv2]; [by eapply moved_reachable|by eapply moved_stable|].
    split; [by apply (moved_trans J 0 k _ x1)|done].
Qed.
End Rules.

(** ** Quiet programs *)

Lemma quiet_ret {A} (a : A) : quiet (mret a).
Proof. intros J x _. apply moved_refl. Qed.
Lemma quiet_returns {A} (r : result A) : quiet (returns r).
Proof. intros J x _. apply moved_refl. Qed.
Lemma quiet_answers {A} (f : Exchange → result A) : quiet (answers f).
Proof. intros J x _. apply moved_refl. Qed.
Lemma quiet_bind {A B} (m : service Exchange A) (f : A → service Exchange B) :
  quiet m → (∀ a, quiet (f a)) → quiet (m ≫= f).
Proof.
  intros Hm Hf J x Hr. specialize (Hm J x Hr). unfold mbind, service_bind.
  destruct (m x) as [[a|e] x1]; simpl in *; [|done].
  eapply (moved_trans J 0 0); [done|]. apply Hf. by eapply moved_reachable.
Qed.
Lemma quiet_fmap {A B} (f : A → B) (m : service Exchange A) : quiet m → quiet (f <$> m).
Proof. intros Hm J x Hr. apply (Hm J x Hr). Qed.
Lemma quiet_recover {A} (m : service Exchange A) (handler : exn → service Exchange A) :
  quiet m → (∀ e, quiet (handler e)) → quiet (recover m handler).
Proof.
  intros Hm Hh J x Hr. specialize (Hm J x Hr). unfold recover.
  destruct (m x) as [[a|e] x1]; simpl in *; [done|].
  eapply (moved_trans J 0 0); [done|]. apply Hh. by eapply moved_reachable.
Qed.

Section World.
Context (w : RelayWorld).
(** The other processes only use the repository. *)
Definition lawful : Prop := ∀ n d, reachable policy d → rtc (call policy) d (rw_others w n d).
Hypothesis Hw : lawful.

Lemma turn_moved J x : reachable policy (ex_db x) → moved J 0 x (turn w x).2.
Proof.
  intros Hr. split; [|simpl; lia]. unfold turn. simpl.
  destruct x as [d n sent]. simpl in *.
  apply (rtc_r _ (MkExchange (rw_others w n d) n sent)); [|apply (relay_turn J (MkExchange _ n sent))].
  apply relay_calls_rtc. by apply Hw.
Qed.
Lemma quiet_turn : quiet (turn w).
Proof. intros J x. apply turn_moved. Qed.
Lemma quiet_asks {A} (f : nat → result A) : quiet (asks w f).
Proof. apply quiet_bind; [apply quiet_turn|]. intros n. apply quiet_answers. Qed.
Lemma quiet_looked_up {A} (query : HostedDb → result A) : quiet (looked_up w query).
Proof. apply quiet_bind; [apply quiet_turn|]. intros n. apply quiet_answers. Qed.

(** An operation that is a history of calls. *)
Definition operation {A} (op : HostedDb → result A * HostedDb) : Prop :=
  ∀ d, rtc (call policy) d (op d).2.

Lemma runs_moved {A} J (op : HostedDb → result A * HostedDb) x :
  operation op → moved J 0 x (MkExchange (op (ex_db x)).2 (ex_tick x) (ex_sent x)).
Proof.
  intros Hop. split; [|simpl; lia]. destruct x as [d n sent]. by apply relay_calls_rtc.
Qed.
Lemma quiet_stored {A} (op : HostedDb → result A * HostedDb) :
  operation op → quiet (stored w op).
Proof.
  intros Hop. apply quiet_bind; [apply quiet_turn|]. intros _ J x _. by apply runs_moved.
Qed.

(** What a query and an operation show, on databases where the assertion holds. *)
Lemma acts_looked_up {A} J (P : HostedDb → Prop) (query : HostedDb → result A)
    (Q : A → HostedDb → Prop) :
  stable P → (∀ d a, reachable policy d → P d → query d = Ok a → Q a d) →
  acts J 0 P (looked_up w query) Q.
Proof.
  intros HP HQ. apply (acts_bind J 0 0 P (turn w) (λ _, P)); [apply quiet_acts; [apply quiet_turn|done]|].
  intros _ x Hr Hx. split; [apply moved_refl|]. intros a Ha. by apply HQ.
Qed.
Lemma acts_stored {A} J (P : HostedDb → Prop) (op : HostedDb → result A * HostedDb)
    (Q : A → HostedDb → Prop) :
  operation op → stable P →
  (∀ d a d', reachable policy d → reachable policy d' → P d → P d' → op d = (Ok a, d') → Q a d') →
  acts J 0 P (stored w op) Q.
Proof.
  intros Hop HP HQ. apply (acts_bind J 0 0 P (turn w) (λ _, P)); [apply quiet_acts; [apply quiet_turn|done]|].
  intros _ x Hr Hx. unfold runs. simpl.
  pose proof (runs_moved J op x Hop) as Hmv. split; [done|]. intros a Ha.
  apply (HQ (ex_db x)); try done.
  - by apply (moved_reachable _ _ _ _ Hr Hmv).
  - by apply (moved_stable _ _ _ _ _ HP Hr Hmv).
  - destruct (op (ex_db x)) as [r d']. simpl in *. by subst.
Qed.
(** What is sent was justified when it left. *)
Lemma send_moved (J : justification) (P : HostedDb → Prop) raw x :
  stable P → reachable policy (ex_db x) → P (ex_db x) →
  (∀ d, reachable policy d → P d → J (ex_tick x) raw d) → moved J 1 x (send w raw x).2.
Proof.
  intros HP Hr Hx HJ. pose proof (turn_moved J x Hr) as Hmv.
  apply (moved_trans J 0 1 _ _ _ Hmv). split; [|simpl; rewrite length_app; simpl; lia].
  apply rtc_once. apply (relay_sends J (turn w x).2 (ex_tick x) raw eq_refl). apply HJ.
  - by apply (moved_reachable _ _ _ _ Hr Hmv).
  - by apply (moved_stable _ _ _ _ _ HP Hr Hmv).
Qed.
Lemma acts_send (J : justification) (P : HostedDb → Prop) raw :
  stable P → (∀ n d, reachable policy d → P d → J n raw d) → acts J 1 P (send w raw) (λ _, P).
Proof.
  intros HP HJ x Hr Hx. pose proof (send_moved J P raw x HP Hr Hx (HJ _)) as Hmv.
  split; [done|]. intros a _. by apply (moved_stable _ _ _ _ _ HP Hr Hmv).
Qed.
End World.
End Machine.

(** [auto with quiet] shows that a program built from quiet ones sends nothing. *)
Create HintDb quiet.
#[export] Hint Resolve quiet_ret quiet_returns quiet_answers quiet_bind quiet_fmap quiet_recover
  quiet_turn quiet_asks quiet_looked_up quiet_stored stable_and stable_pure : quiet.
