(* ===== verification/RelayPrograms.v ===== *)
(** * The relayer's programs

    The repository operations a relayer uses are calls of the machine and return
    the stored row; an execution whose broadcast was claimed stays claimed and
    keeps its transaction.  Triples for the programs of [Relayer]: which send
    nothing, which send at most one transaction, and what justifies it. *)

From S2P Require Import Prelude PyValue ExecutionModels ExecutionTables PilotGate.
From S2P Require Import NonceAllocator ExecutionRepository ExecutionSettlement.
From S2P Require Import ExecutionMachine ExecutionRefinement ExecutionInvariants.
From S2P Require Import ExecutionIdentity ExecutionProperties Evm Relayer RelayMachine.

Section Facts.
Context `{Sha256, Keccak} (policy : option PilotGatePolicy).
Implicit Types (d : HostedDb) (r : HostedExecutionRow) (h : HostedExecution).

(** ** Operations are calls *)

Lemma call_operation {A} (op : HostedDb → result A * HostedDb) clock c :
  0 < clock → (∀ d, (op d).2 = (run policy clock c d).2) → operation policy op.
Proof. intros Hc Hop d. apply rtc_once. by apply (call_intro _ _ _ clock c). Qed.

Section Operations.
Context (clock : Z) (Hclock : 0 < clock) (execution_id : string) (now : option Z).
Lemma claim_signing_operation : operation policy (claim_signing policy clock execution_id now).
Proof. by apply (call_operation _ clock (CClaimSigning execution_id now)). Qed.
Lemma claim_submission_operation : operation policy (claim_submission policy clock execution_id now).
Proof. by apply (call_operation _ clock (CClaimSubmission execution_id now)). Qed.
Lemma mark_submitted_operation : operation policy (mark_submitted clock execution_id now).
Proof. by apply (call_operation _ clock (CMarkSubmitted execution_id now)). Qed.
Lemma mark_unknown_operation : operation policy (mark_submission_unknown clock execution_id now).
Proof. by apply (call_operation _ clock (CMarkUnknown execution_id now)). Qed.
Lemma mark_rejected_operation reason :
  operation policy (mark_submission_rejected clock execution_id reason now).
Proof. by apply (call_operation _ clock (CMarkRejected execution_id reason now)). Qed.
Lemma rebroadcast_operation raw :
  operation policy (rebroadcast_raw_transaction policy clock execution_id raw now).
Proof. by apply (call_operation _ clock (CRebroadcast execution_id raw now)). Qed.
Lemma release_expired_operation : operation policy (release_expired policy clock execution_id now).
Proof. by apply (call_operation _ clock (CReleaseExpired execution_id now)). Qed.
Lemma reserve_gas_operation gas generation :
  operation policy (reserve_pilot_gas policy clock execution_id gas generation now).
Proof. by apply (call_operation _ clock (CReserveGas execution_id gas generation now)). Qed.
Lemma persist_operation signature raw generation unsigned :
  operation policy
    (persist_signed_transaction policy clock execution_id signature raw generation unsigned now).
Proof. by apply (call_operation _ clock (CPersist execution_id signature raw generation unsigned now)). Qed.
End Operations.

Lemma allocate_operation clock ids i pending confirmed now :
  0 < clock → operation policy (allocate_or_return policy clock ids i pending confirmed now).
Proof. intros Hc. by apply (call_operation _ clock (CAllocate ids i pending confirmed now)). Qed.

(** ** Offered executions *)

Definition unoffered_states : list ExecutionState :=
  [REQUESTED; PREFLIGHT_APPROVED; SIGNING; SIGNED].

(** An execution whose broadcast was never claimed shows no attempt. *)
Definition unoffered_shape r : Prop :=
  er_status r ∈ unoffered_states → er_broadcast_attempts r = 0.

Lemma unoffered_step r a r' : row_step r a r' → unoffered_shape r → unoffered_shape r'.
Proof.
  unfold unoffered_shape. intros Hs Hsh Hin.
  assert (er_status r ∈ unoffered_states) as Hin0.
  { destruct (row_step_status _ _ _ Hs) as [E|E]; [congruence|].
    unfold unoffered_states in *. destruct (er_status r); simpl in E; by_members. }
  destruct (row_step_attempts _ _ _ Hs) as [->|[Hsub Ha]]; [auto|].
  exfalso. unfold unoffered_states, submittable_states in *.
  assert (er_status r = SIGNED) as E by by_members.
  destruct Hs; rewrite ?(proj1 (observed_attempts _ _ _ _)), ?(proj1 (transitioned_attempts _ _ _)) in Ha;
    simpl in *; try lia; try congruence; clear Hsub Hin0 Hsh; unfold awaiting_states in *; by_members.
Qed.

Lemma reachable_unoffered d :
  valid_policy policy → reachable policy d → all_rows unoffered_shape d.
Proof.
  intros Hp. apply invariant_reachable; [done|apply all_rows_empty|].
  intros d1 d2. apply all_rows_step; [by intros|]. intros r a r' Hs _. by eapply unoffered_step.
Qed.

Definition offered_row (raw : bytes) r : Prop :=
  er_raw_transaction r = Some raw ∧ 0 < er_broadcast_attempts r.
(** The broadcast of the execution was claimed, and these are its bytes. *)
Definition offered (execution_id : string) (raw : bytes) d : Prop :=
  ∃ r, db_executions d !! execution_id = Some r ∧ offered_row raw r.
(** The execution was made from the intent. *)
Definition of_intent (i : ExecutionIntent) (execution_id : string) d : Prop :=
  ∃ r, db_executions d !! execution_id = Some r ∧ made_from r i.
(** Some execution of the intent was claimed for broadcast. *)
Definition intent_offered (i : ExecutionIntent) d : Prop :=
  ∃ k r, db_executions d !! k = Some r ∧ made_from r i ∧ 0 < er_broadcast_attempts r.

Lemma row_move_attempts r r' :
  rtc row_move r r' → er_broadcast_attempts r <= er_broadcast_attempts r'.
Proof.
  induction 1 as [|r1 r2 r3 [a Hs] _ IH]; [lia|].
  destruct (row_step_attempts _ _ _ Hs) as [?|[_ ?]]; lia.
Qed.

Section Stability.
Context (Hp : valid_policy policy).

Lemma offered_stable execution_id raw : stable policy (offered execution_id raw).
Proof.
  intros d d' Hd Hc (r & Hk & Hraw & Ha).
  destruct (calls_row _ _ _ _ _ Hp Hd Hc Hk) as (r' & Hk' & Hm).
  exists r'. split; [done|]. split; [|apply row_move_attempts in Hm; lia].
  apply row_move_signed in Hm as (_ & -> & _); [done| |].
  - by apply (reachable_rows policy d Hp Hd _ _ Hk).
  - unfold is_signed. rewrite Hraw. by rewrite orb_true_r.
Qed.
Lemma of_intent_stable i execution_id : stable policy (of_intent i execution_id).
Proof.
  intros d d' Hd Hc (r & Hk & Hi).
  destruct (calls_row _ _ _ _ _ Hp Hd Hc Hk) as (r' & Hk' & Hm).
  exists r'. split; [done|]. apply row_move_identity in Hm as (_ & Hcol & _).
  unfold made_from in *. by rewrite Hcol.
Qed.
Lemma intent_offered_stable i : stable policy (intent_offered i).
Proof.
  intros d d' Hd Hc (k & r & Hk & Hi & Ha).
  destruct (calls_row _ _ _ _ _ Hp Hd Hc Hk) as (r' & Hk' & Hm).
  exists k, r'. split; [done|]. pose proof (row_move_attempts _ _ Hm).
  apply row_move_identity in Hm as (_ & Hcol & _).
  unfold made_from in *. rewrite Hcol. split; [done|lia].
Qed.
End Stability.

(** ** What an operation returns is stored *)

Definition recorded (execution_id : string) h d : Prop :=
  ∃ r, db_executions d !! execution_id = Some r ∧ record r = Ok h.

Lemma record_deadline r h : record r = Ok h → deadline (he_intent h) = er_deadline r.
Proof.
  unfold record, make_hosted_execution. intros Hrec.
  apply result_bind_Ok in Hrec as (i & Hi & Hrec). simpl in Hrec.
  apply result_bind_Ok in Hrec as (i' & Hi' & Hrec).
  assert (he_intent h = i') as ->.
  { do 23 (apply result_bind_Ok in Hrec as (? & _ & Hrec)).
    unfold validate_chain_finality in Hrec. case_match; [|done]. by txn_inv. }
  unfold intent_of_columns in Hi. txn_inv.
  unfold make_intent in Hi'. txn_inv. unfold validate_fixed_chain_scope in Hi'.
  case_match; [|done]. txn_inv. simpl.
  match goal with H : validate_positive_int "deadline" _ = Ok _ |- _ =>
    unfold validate_positive_int in H; txn_inv end.
  done.
Qed.

Lemma get_execution_recorded execution_id d h :
  get_execution execution_id d = Ok (Some h) → recorded execution_id h d.
Proof.
  unfold get_execution, recorded. intros Hg. case_match; txn_inv. eauto.
Qed.

Lemma gated_recorded {B} message (body : repo (option string * option B)) d b d' :
  after_session (denied_or message) (write_session body d) = (Ok b, d') →
  body d = Ok ((None, Some b), d').
Proof. intros (o & Hb & Ho)%after_session_Ok. by apply denied_or_Ok in Ho as ->. Qed.

(** The row an operation locked. *)
Ltac locked_row Hkeyed :=
  match goal with H : locked_execution _ _ = Ok _ |- _ =>
    let Hk := fresh "Hk" in
    apply locked_execution_Ok in H as [-> Hk]; pose proof (Hkeyed _ _ Hk) end.

Lemma claim_signing_recorded clock execution_id now d h b d' :
  keyed d → claim_signing policy clock execution_id now d = (Ok (h, b), d') →
  recorded execution_id h d'.
Proof.
  intros Hkd. unfold claim_signing, put_execution.
  intros (t & _ & Hs)%before_session_Ok. apply gated_recorded in Hs. txn_inv.
  locked_row Hkd. subst execution_id.
  match goal with o : option string |- _ => destruct o end; txn_inv.
  match goal with H : gate_admission _ _ _ _ = Ok _ |- _ => apply admit_Ok in H as [_ Hsame] end.
  rewrite (Hsame eq_refl) in *.
  repeat (case_match; txn_inv); eexists; (split; [|done]); try done; simpl; apply lookup_insert_eq.
Qed.

Lemma persist_returned clock execution_id signature raw generation unsigned now d h d' :
  persist_signed_transaction policy clock execution_id signature raw generation unsigned now d
    = (Ok h, d') → he_signature h = Some signature ∧ he_raw_transaction h = Some raw.
Proof.
  unfold persist_signed_transaction, put_execution.
  intros ([t h0] & _ & Hs)%before_session_Ok. apply gated_recorded in Hs. txn_inv.
  case_bool_decide; txn_inv; [|case_match; txn_inv];
    match goal with H : record _ = Ok _ |- _ => apply record_shows in H as (_ & _ & _ & _ & -> & ->) end;
    bool_inv; done.
Qed.

Lemma persist_recorded clock execution_id signature raw generation unsigned now d h d' :
  keyed d →
  persist_signed_transaction policy clock execution_id signature raw generation unsigned now d
    = (Ok h, d') → recorded execution_id h d'.
Proof.
  intros Hkd. unfold persist_signed_transaction, put_execution.
  intros ([t h0] & _ & Hs)%before_session_Ok. apply gated_recorded in Hs. txn_inv.
  locked_row Hkd. subst execution_id. case_bool_decide; txn_inv; [by eexists|].
  case_match; txn_inv.
  match goal with H : add_attempt _ _ _ _ _ _ = Ok _ |- _ => apply add_attempt_Ok in H; subst end.
  eexists; split; [|eassumption]; simpl; apply lookup_insert_eq.
Qed.

(** The shape of a row bounds its attempts from below. *)
Lemma row_ok_attempts r : row_ok r → 0 <= er_broadcast_attempts r.
Proof. intros [_ _ _ [? ? ? ? -> ?|] _]; lia. Qed.

(** A claim on the submission counts the broadcast before it is made. *)
Lemma claim_submission_recorded clock execution_id now d h b d' :
  valid_policy policy → 0 < clock → keyed d → all_rows row_ok d →
  claim_submission policy clock execution_id now d = (Ok (h, b), d') →
  ∃ r, db_executions d' !! execution_id = Some r ∧ record r = Ok h ∧
    (b = true → 0 < er_broadcast_attempts r).
Proof.
  intros Hp Hc Hkd Hok. unfold claim_submission, put_execution, transaction_hash.
  intros (t & Ht & Hs)%before_session_Ok. apply gated_recorded in Hs. txn_inv.
  apply now_or_pos in Ht; [|done]. locked_row Hkd. subst execution_id.
  match goal with H : admit_with_gas _ _ _ _ = Ok _ |- _ =>
    apply admit_with_gas_Ok in H as (_ & He & _); [|done..] end.
  match goal with o : option string |- _ => destruct o end; txn_inv.
  pose proof (row_ok_attempts _ (Hok _ _ Hk)).
  case_bool_decide; txn_inv.
  - eexists. rewrite He. by split_and!.
  - match goal with H : add_attempt _ _ _ _ _ _ = Ok _ |- _ => apply add_attempt_Ok in H; subst end.
    eexists. split; [simpl; apply lookup_insert_eq|]. split; [done|]. intros _. simpl. lia.
Qed.

(** So does a rebroadcast, and its bytes are the stored ones. *)
Lemma rebroadcast_offered clock execution_id raw now d sent d' :
  valid_policy policy → 0 < clock → keyed d → all_rows row_ok d →
  rebroadcast_raw_transaction policy clock execution_id raw now d = (Ok sent, d') →
  offered execution_id sent d'.
Proof.
  intros Hp Hc Hkd Hok. unfold rebroadcast_raw_transaction, put_execution, transaction_hash.
  intros (t & Ht & Hs)%before_session_Ok. apply gated_recorded in Hs. txn_inv.
  apply now_or_pos in Ht; [|done]. locked_row Hkd. subst execution_id.
  match goal with H : admit_with_gas _ _ _ _ = Ok _ |- _ =>
    apply admit_with_gas_Ok in H as (_ & He & _); [|done..] end.
  match goal with o : option string |- _ => destruct o end; txn_inv.
  pose proof (row_ok_attempts _ (Hok _ _ Hk)).
  match goal with H : require_raw_transaction _ = Ok _ |- _ =>
    apply require_raw_transaction_Ok in H as (Hraw & _) end.
  match goal with H : add_attempt _ _ _ _ _ _ = Ok _ |- _ => apply add_attempt_Ok in H; subst end.
  eexists. split; [simpl; apply lookup_insert_eq|]. split; [done|]. simpl. lia.
Qed.

(** ** The execution of an intent *)

Lemma find_for_intent_found i d h :
  all_rows (λ r, ∃ i, made_from r i) d → find_for_intent i d = Ok (Some h) →
  ∃ k r, db_executions d !! k = Some r ∧ made_from r i ∧ record r = Ok h.
Proof.
  intros Hall. unfold find_for_intent. intros Hf. txn_inv.
  match goal with o : option HostedExecutionRow |- _ => destruct o as [row|] end; txn_inv.
  match goal with H : existing_for_intent _ _ = _ |- _ => apply existing_for_intent_stored in H as [k Hk] end.
  destruct (Hall _ _ Hk) as [i0 Hi0]. exists k, row. split; [done|]. split; [|done].
  by eapply require_exact_intent_made.
Qed.

(** An execution claimed for broadcast is found in a state that is returned. *)
Lemma find_for_intent_offered i d found :
  valid_policy policy → reachable policy d → intent_offered i d → find_for_intent i d = Ok found →
  ∃ h, found = Some h ∧ in_states h RETURNED_STATES = true.
Proof.
  intros Hp Hd (k & r & Hk & Hi & Ha) Hf.
  destruct (reachable_identity policy d Hp Hd) as [Hu _].
  unfold find_for_intent in Hf. rewrite (existing_for_intent_made _ _ _ _ Hu Hk Hi) in Hf. txn_inv.
  eexists. split; [done|].
  match goal with H : record _ = Ok _ |- _ => apply record_shows in H as (_ & Hst & _) end.
  unfold in_states. apply bool_decide_eq_true. rewrite Hst. unfold RETURNED_STATES.
  pose proof (reachable_unoffered d Hp Hd _ _ Hk) as Hun. unfold unoffered_shape, unoffered_states in Hun.
  destruct (er_status r); try list_member; exfalso; rewrite Hun in Ha by list_member; lia.
Qed.

(** The value belongs to an execution of the intent. *)
Definition held (i : ExecutionIntent) h d : Prop :=
  of_intent i (he_execution_id h) d ∧ deadline (he_intent h) = deadline i.

Lemma recorded_held i execution_id h d :
  keyed d → of_intent i execution_id d → recorded execution_id h d →
  he_execution_id h = execution_id ∧ held i h d.
Proof.
  intros Hkd (r & Hk & Hi) (r' & Hk' & Hr). simplify_eq.
  destruct (record_shows _ _ Hr) as (Hid & _). rewrite (Hkd _ _ Hk) in Hid.
  split; [done|]. split; [rewrite Hid; by exists r|].
  rewrite (record_deadline _ _ Hr). unfold er_deadline. by rewrite Hi.
Qed.

Lemma held_stable i h : valid_policy policy → stable policy (held i h).
Proof. intros Hp. apply stable_and; [by apply of_intent_stable|apply stable_pure]. Qed.
End Facts.

(** The calls of a relayer. *)
Inductive relay_call : Type :=
| RExecute (i : ExecutionIntent)
| RRebroadcast (execution_id : string)
| RInspect (execution_id : string).

Section Programs.
Context `{Sha256, Keccak} `{AbiEncode} `{RlpEncode}.
Context (policy : option PilotGatePolicy) (Hp : valid_policy policy).
Context (relayer : HostedRelayer) (w : RelayWorld) (Hw : lawful policy w).

Abbreviation quiet := (quiet policy).
Abbreviation acts := (acts policy).
Abbreviation stable := (stable policy).

(** ** The clock *)

Lemma relayer_now_Ok x t x' :
  relayer_now w x = (Ok t, x') → 0 < t ∧ rw_clock w (ex_tick x) = Ok t ∧ x' = (turn w x).2.
Proof.
  unfold relayer_now, asks, ensures, returns, answers, mbind, service_bind. simpl.
  destruct (rw_clock w (ex_tick x)) as [v|]; [|done].
  unfold require, mret, service_ret. destruct (0 <? v) eqn:E; [|done].
  intros [= <- <-]. apply Z.ltb_lt in E. done.
Qed.

Lemma quiet_now : quiet (relayer_now w).
Proof.
  apply quiet_bind; [by apply quiet_asks|]. intros v. apply quiet_bind; [apply quiet_returns|].
  intros _. apply quiet_ret.
Qed.

Lemma quiet_finish {A} J k (P : HostedDb → Prop) (m : service Exchange A) :
  quiet m → acts J k P m (λ _ _, True).
Proof.
  intros Hm x Hr _. split; [|done]. eapply moved_weaken; [|by apply Hm]. lia.
Qed.

Lemma acts_clocked {A} J k P (f : Z → service Exchange A) Q :
  stable P → (∀ t, 0 < t → acts J k P (f t) Q) → acts J k P (relayer_now w ≫= f) Q.
Proof.
  intros HP Hf. apply (acts_bind policy J 0 k P _ (λ t d, P d ∧ 0 < t)).
  - intros x Hr Hx. pose proof (quiet_now J x Hr) as Hmv. split; [done|].
    intros t Ht. split; [by eapply moved_stable|].
    destruct (relayer_now w x) as [r x1] eqn:E. simpl in Ht. subst r.
    by apply relayer_now_Ok in E as (? & _).
  - intros t x Hr [Hx Ht]. by apply Hf.
Qed.
Lemma quiet_clocked {A} (f : Z → service Exchange A) :
  (∀ t, 0 < t → quiet (f t)) → quiet (relayer_now w ≫= f).
Proof.
  intros Hf J x Hr.
  assert (acts J 0 (λ _, True) (relayer_now w ≫= f) (λ _ _, True)) as Ha.
  { apply acts_clocked; [apply stable_pure|]. intros t Ht. apply quiet_finish. auto. }
  by apply Ha.
Qed.

(** A transaction that is sent right after the clock was read. *)
Lemma acts_send_before {A} (J : justification) P raw limit (a : A)
    (f : Z → result pyval → service Exchange A) :
  stable P →
  (∀ n t d, reachable policy d → P d → rw_clock w n = Ok t → t < limit → J (S n) raw d) →
  (∀ t outcome, 0 < t → quiet (f t outcome)) →
  acts J 1 P (now ← relayer_now w;
              if limit <=? now then mret a
              else outcome ← send w raw; f now outcome) (λ _ _, True).
Proof.
  intros HP HJ Hf x Hr Hx. pose proof (quiet_now J x Hr) as Hmv. split; [|done].
  unfold mbind at 1, service_bind.
  destruct (relayer_now w x) as [[t|e] x1] eqn:E; simpl in Hmv |- *;
    [|eapply moved_weaken; [|done]; lia].
  pose proof (moved_reachable _ _ _ _ _ Hr Hmv) as Hr1.
  pose proof (moved_stable _ _ _ _ _ _ HP Hr Hmv Hx) as Hx1.
  apply relayer_now_Ok in E as (Ht & Hclock & ->).
  destruct (limit <=? t) eqn:El; [simpl; eapply moved_weaken; [|done]; lia|].
  apply Z.leb_gt in El. apply (moved_trans policy J 0 1 _ _ _ Hmv).
  assert (moved policy J 1 (turn w x).2 (send w raw (turn w x).2).2) as Hsend.
  { apply (send_moved policy w Hw J P); [done..|]. intros d Hd HPd. by eapply HJ. }
  unfold mbind, service_bind.
  destruct (send w raw (turn w x).2) as [[outcome|e] x2]; simpl in Hsend |- *; [|done].
  apply (moved_trans policy J 1 0 _ _ _ Hsend). apply Hf; [done|].
  by apply (moved_reachable _ _ _ _ _ Hr1 Hsend).
Qed.

(** ** Programs that send nothing *)

(** Follows the structure of a program down to its interactions. *)
Ltac quiet_step :=
  match goal with
  | |- RelayMachine.quiet _ (if ?b then _ else _) => destruct b
  | |- RelayMachine.quiet _ (match ?v with _ => _ end) => destruct v
  | |- RelayMachine.quiet _ (relayer_now _ ≫= _) => apply quiet_clocked; intros ? ?
  | |- RelayMachine.quiet _ (_ ≫= _) => apply quiet_bind; [|intros ?]
  | |- RelayMachine.quiet _ (_ <$> _) => apply quiet_fmap
  | |- RelayMachine.quiet _ (recover _ _) => apply quiet_recover; [|intros ?]
  | |- RelayMachine.quiet _ (fails _) => apply quiet_returns
  | |- RelayMachine.quiet _ (ensures _ _) => apply quiet_returns
  | |- RelayMachine.quiet _ (stored _ _) => apply quiet_stored; [done|]
  | _ => solve [auto with quiet]
  end.
Ltac quietly := repeat quiet_step.

Lemma quiet_rpc_read method params : quiet (rpc_read w method params).
Proof. unfold rpc_read. quietly. Qed.
#[local] Hint Resolve quiet_rpc_read : quiet.
Lemma quiet_read_quantity field method params : quiet (read_quantity w field method params).
Proof. unfold read_quantity. quietly. Qed.
Lemma quiet_read_word field method params : quiet (read_word w field method params).
Proof. unfold read_word. quietly. Qed.
#[local] Hint Resolve quiet_read_quantity quiet_read_word : quiet.
Lemma quiet_require_rpc_chain : quiet (require_rpc_chain relayer w).
Proof. unfold require_rpc_chain. quietly. Qed.
Lemma quiet_require_submission_rpc_chain : quiet (require_submission_rpc_chain relayer w).
Proof. unfold require_submission_rpc_chain. quietly. Qed.
Lemma quiet_lookup h : quiet (lookup_exact_transaction relayer w h).
Proof. unfold lookup_exact_transaction. quietly. Qed.
#[local] Hint Resolve quiet_require_rpc_chain quiet_require_submission_rpc_chain quiet_lookup : quiet.
#[local] Hint Resolve mark_submitted_operation mark_unknown_operation mark_rejected_operation
  rebroadcast_operation release_expired_operation reserve_gas_operation persist_operation
  claim_signing_operation claim_submission_operation : quiet.

Lemma quiet_inspect execution_id : quiet (inspect_submission relayer w execution_id).
Proof. unfold inspect_submission. quietly. Qed.
Lemma quiet_check_chain checked : quiet (check_chain relayer w checked).
Proof. unfold check_chain. quietly. Qed.
Lemma quiet_latest_or_raise execution_id usable e : quiet (latest_or_raise w execution_id usable e).
Proof. unfold latest_or_raise. quietly. Qed.
Lemma quiet_additional_fee tx : quiet (additional_fee_upper_bound relayer w tx).
Proof. unfold additional_fee_upper_bound. quietly. Qed.
#[local] Hint Resolve quiet_inspect quiet_check_chain quiet_latest_or_raise quiet_additional_fee : quiet.
Lemma quiet_total_fee tx : quiet (total_fee relayer w tx).
Proof. unfold total_fee. quietly. Qed.
Lemma quiet_reserve_gas h tx fee : quiet (reserve_gas policy w h tx fee).
Proof. unfold reserve_gas. generalize policy at 2. intros o. quietly. Qed.
Lemma quiet_build h calldata : quiet (build_transaction relayer w h calldata).
Proof. unfold build_transaction, relayer_gas_limit, fee_quote. quietly. Qed.
#[local] Hint Resolve quiet_total_fee quiet_reserve_gas quiet_build : quiet.
Lemma quiet_claim_or_latest execution_id now :
  0 < now → quiet (claim_or_latest policy w execution_id now).
Proof. intros Hn. unfold claim_or_latest. quietly. Qed.
#[local] Hint Resolve quiet_claim_or_latest : quiet.

(** ** Sending again *)

(** The bytes were claimed for broadcast when they left. *)
Definition claimed_bytes : justification := λ _ raw d, ∃ execution_id, offered execution_id raw d.

Lemma persisted_transaction_Ok h raw tx_hash :
  persisted_transaction h = Ok (raw, tx_hash) →
  he_raw_transaction h = Some raw ∧ he_raw_transaction_hash h = Some tx_hash.
Proof. unfold persisted_transaction. repeat case_match; intros [= <- <-]; done. Qed.

Lemma resend_acts execution_id now raw expected :
  0 < now →
  acts claimed_bytes 1 (offered execution_id raw) (resend w execution_id now raw expected)
    (λ _ _, True).
Proof.
  intros Hn. unfold resend. apply acts_returning. intros [expected_raw tx_hash] _.
  apply acts_ensuring. intros _.
  apply (acts_bind policy _ 1 0 _ _ (λ _, offered execution_id raw)).
  - apply acts_send; [done|by apply offered_stable|]. intros n d _ Hd. by exists execution_id.
  - intros outcome. apply quiet_finish. quietly.
Qed.

(** A submission that was claimed shows the bytes to send. *)
Lemma claim_submission_acts J (P : HostedDb → Prop) execution_id now :
  0 < now → stable P →
  acts J 0 P (stored w (claim_submission policy now execution_id (Some now)))
    (λ c d, P d ∧ ∃ r, db_executions d !! execution_id = Some r ∧ record r = Ok c.1 ∧
       (c.2 = true → 0 < er_broadcast_attempts r)).
Proof.
  intros Hn HP. apply (acts_stored policy w Hw); [by apply claim_submission_operation|done|].
  intros d [h b] d' Hd _ _ Hd' Hop. split; [done|].
  eapply claim_submission_recorded; [done..| | |done]; [by eapply reachable_keyed|by eapply reachable_rows].
Qed.

Lemma claimed_offered execution_id r h raw d :
  db_executions d !! execution_id = Some r → record r = Ok h → 0 < er_broadcast_attempts r →
  he_raw_transaction h = Some raw → offered execution_id raw d.
Proof.
  intros Hk Hr Ha Hraw. exists r. split; [done|]. split; [|done].
  apply record_shows in Hr as (_ & _ & _ & _ & _ & E). congruence.
Qed.

Lemma rebroadcast_acts execution_id :
  acts claimed_bytes 1 (λ _, True) (rebroadcast_identical policy relayer w execution_id)
    (λ _ _, True).
Proof.
  unfold rebroadcast_identical. apply acts_after; [apply quiet_inspect|apply stable_pure|].
  intros [execution found]. destruct (_ || _); [by apply acts_ret|].
  apply acts_after; [apply quiet_require_submission_rpc_chain|apply stable_pure|]. intros _.
  apply acts_clocked; [apply stable_pure|]. intros now Hn. destruct (in_states _ _).
  - eapply (acts_bind policy _ 0 1 _ _ (λ c d, match c with
      | inr (h, true) => ∀ raw, he_raw_transaction h = Some raw → offered execution_id raw d
      | _ => True end)).
    + unfold claim_or_latest. apply acts_recover; [|apply stable_pure|].
      * apply (acts_bind policy _ 0 0 _ _ _ _ _ (claim_submission_acts _ _ _ _ Hn (stable_pure policy True))).
        intros [h b]. apply acts_ret. intros d _ (_ & r & Hk & Hr & Ha). destruct b; [|done].
        intros raw. simpl in *. eauto using claimed_offered.
      * intros e. destruct e; try apply acts_fails.
        apply acts_after; [by apply quiet_looked_up|apply stable_pure|]. intros latest.
        apply acts_returning. intros h _. destruct (in_states _ _); [by apply acts_ret|apply acts_fails].
    + intros [latest|[h [|]]]; [by apply acts_ret| |].
      * apply acts_returning. intros [raw tx_hash] [Hraw _]%persisted_transaction_Ok.
        eapply acts_weaken; [..|by apply resend_acts]; [done| |done]. auto.
      * apply quiet_finish. quietly.
  - apply (acts_bind policy _ 0 1 _ _ (λ raw, offered execution_id raw)).
    + apply (acts_stored policy w Hw); [by apply rebroadcast_operation|apply stable_pure|].
      intros d raw d' Hd _ _ _ Hop. eapply rebroadcast_offered; [done..| | |done];
        [by eapply reachable_keyed|by eapply reachable_rows].
    + intros raw. apply acts_after; [|by apply offered_stable|].
      * apply quiet_stored; [done|by apply mark_unknown_operation].
      * intros expected. by apply resend_acts.
Qed.

(** ** Executing an intent *)

(** What [execute] of an intent may send: the transaction of an execution of that
    intent, claimed, right after the clock was read before the deadline. *)
Definition intent_bytes (i : ExecutionIntent) : justification := λ n raw d,
  ∃ m t execution_id, n = S m ∧ rw_clock w m = Ok t ∧ t < deadline i ∧
    of_intent i execution_id d ∧ offered execution_id raw d.

(** A value of an execution of the intent whose broadcast was claimed. *)
Definition claimed_value (i : ExecutionIntent) (h : HostedExecution) (d : HostedDb) : Prop :=
  held i h d ∧ match he_raw_transaction h with
               | Some raw => offered (he_execution_id h) raw d
               | None => True
               end.
Lemma claimed_value_stable i h : stable (claimed_value i h).
Proof.
  apply stable_and; [by apply held_stable|].
  destruct (he_raw_transaction h); [by apply offered_stable|apply stable_pure].
Qed.

Lemma submit_signed_acts i h :
  acts (intent_bytes i) 1 (claimed_value i h) (submit_signed relayer w h) (λ _ _, True).
Proof.
  unfold submit_signed. apply acts_ensuring. intros _.
  apply acts_after; [apply quiet_lookup|apply claimed_value_stable|]. intros [|].
  { apply quiet_finish. quietly. }
  apply acts_returning. intros raw Hraw%from_option_or_Ok.
  apply acts_returning. intros tx_hash _.
  apply acts_send_before; [apply claimed_value_stable| |].
  - intros n t d Hd [[Hi Hdl] Hoff] Hclock Ht. rewrite Hraw in Hoff. rewrite Hdl in Ht.
    by exists n, t, (he_execution_id h).
  - intros t outcome Ht. quietly.
Qed.

(** A value read back from the execution a program holds. *)
Lemma recorded_held_reachable i h h' d :
  reachable policy d → held i h d → recorded (he_execution_id h) h' d → held i h' d.
Proof.
  intros Hd [Hi _] Hr. eapply recorded_held; [by eapply reachable_keyed|done|done].
Qed.

Lemma sign_acts J i h :
  acts J 0 (held i h) (sign_execution policy relayer w h) (λ h', held i h').
Proof.
  unfold sign_execution.
  repeat match goal with
  | |- RelayMachine.acts _ _ _ _ (ensures _ _ ≫= _) _ => apply acts_ensuring; intros _
  | |- RelayMachine.acts _ _ _ _ (returns _ ≫= _) _ => apply acts_returning; intros ? _
  | |- RelayMachine.acts _ _ _ _ (relayer_now _ ≫= _) _ =>
      apply acts_clocked; [by apply held_stable|]; intros ? ?
  | |- RelayMachine.acts _ _ _ _ (_ ≫= _) _ =>
      apply acts_after; [solve [quietly]|by apply held_stable|]; intros ?
  end.
  apply (acts_stored policy w Hw); [by apply persist_operation|by apply held_stable|].
  intros d h' d' Hd Hd' _ Hheld Hop. eapply recorded_held_reachable; [done..|].
  eapply persist_recorded; [|exact Hop]. by eapply reachable_keyed.
Qed.

(** Only an execution that goes on is claimed and signed. *)
Definition goes_on (i : ExecutionIntent) (c : HostedExecution + HostedExecution) (d : HostedDb) : Prop :=
  match c with inl _ => True | inr h => held i h d end.

Lemma claim_and_sign_acts J i checked now h :
  0 < now →
  acts J 0 (held i h) (claim_and_sign policy relayer w checked now h) (goes_on i).
Proof.
  intros Hn. unfold claim_and_sign. apply acts_after; [apply quiet_check_chain|by apply held_stable|].
  intros _. apply (acts_bind policy _ 0 0 _ _ (λ c d, match c with
    | inr (h', _) => held i h' d | inl _ => True end)).
  - apply acts_recover; [|by apply held_stable|].
    + apply (acts_bind policy _ 0 0 _ _ (λ c d, held i c.1 d)).
      * apply (acts_stored policy w Hw); [by apply claim_signing_operation|by apply held_stable|].
        intros d [h' b] d' Hd Hd' _ Hheld Hop. eapply recorded_held_reachable; [done..|].
        eapply claim_signing_recorded; [|exact Hop]. by eapply reachable_keyed.
      * intros [h' b]. by apply acts_ret.
    + intros e. apply acts_fmap, quiet_finish. apply quiet_latest_or_raise.
  - intros [latest|[h' [|]]]; [by apply acts_ret| |by apply acts_ret].
    apply acts_fmap. apply sign_acts.
Qed.

Lemma claim_and_submit_acts i checked h :
  acts (intent_bytes i) 1 (held i h) (claim_and_submit policy relayer w checked h) (λ _ _, True).
Proof.
  unfold claim_and_submit. apply acts_clocked; [by apply held_stable|]. intros now Hn.
  destruct (_ <=? _); [by apply acts_ret|].
  apply acts_after; [apply quiet_check_chain|by apply held_stable|]. intros _.
  apply (acts_bind policy _ 0 1 _ _ (λ c d, match c with
    | inr (h', true) => claimed_value i h' d | _ => True end)).
  - apply acts_recover; [|by apply held_stable|].
    + apply (acts_bind policy _ 0 0 _ _ _ _ _
        (claim_submission_acts _ _ (he_execution_id h) _ Hn (held_stable policy i h Hp))).
      intros [h' b]. apply acts_ret. intros d Hd (Hheld & r & Hk & Hr & Ha). destruct b; [|done].
      simpl in *. assert (recorded (he_execution_id h) h' d) as Hrec by by exists r.
      destruct (recorded_held i (he_execution_id h) h' d) as [Hid Hheld']; [by eapply reachable_keyed|apply Hheld|done|].
      split; [done|]. rewrite Hid. destruct (he_raw_transaction h') as [raw|] eqn:E; [|done].
      eauto using claimed_offered.
    + intros e. destruct e; try apply acts_fails;
        (apply acts_fmap, quiet_finish; apply quiet_latest_or_raise).
  - intros [latest|[h' [|]]]; [by apply acts_ret| |by apply acts_ret]. apply submit_signed_acts.
Qed.

Lemma advance_acts i checked now h :
  0 < now → acts (intent_bytes i) 1 (held i h) (advance policy relayer w checked now h) (λ _ _, True).
Proof.
  intros Hn. unfold advance. destruct (_ <=? _).
  { apply quiet_finish. quietly. }
  apply (acts_bind policy _ 0 1 _ _ (goes_on i)).
  - destruct (in_states _ _); [by apply claim_and_sign_acts|by apply acts_ret].
  - intros [h'|h']; [by apply acts_ret|].
    destruct (in_states _ _); [apply claim_and_submit_acts|by apply acts_ret].
Qed.

Lemma allocate_acts J i now :
  0 < now → acts J 0 (λ _, True) (allocate_execution policy relayer w i now) (λ h, held i h).
Proof.
  intros Hn. unfold allocate_execution. apply acts_ensuring. intros _.
  do 3 (apply acts_after; [auto with quiet|apply stable_pure|]; intros ?).
  apply (acts_bind policy _ 0 0 _ _ (λ _ _, True)).
  { apply quiet_finish. by apply quiet_turn. }
  intros n x Hr _. unfold runs. cbn [fst snd].
  pose proof (runs_moved policy J _ x (allocate_operation policy now (rw_ids w n) i a0 (Some a1)
    (Some now) Hn)) as Hmv.
  split; [done|]. intros h Hh. pose proof (moved_reachable _ _ _ _ _ Hr Hmv) as Hr'.
  destruct (allocate_or_return _ _ _ _ _ _ _ _) as [r d'] eqn:E. simpl in *. subst r.
  apply allocate_or_return_made in E as (k & r & Hk & Hi & Hrec);
    [|by eapply reachable_identity].
  eapply (recorded_held i k); [by eapply reachable_keyed|by exists r|by exists r].
Qed.

Lemma find_acts J i :
  acts J 0 (λ _, True) (looked_up w (find_for_intent i))
    (λ found d, match found with Some h => held i h d | None => True end).
Proof.
  apply (acts_looked_up policy w Hw); [apply stable_pure|]. intros d [h|] Hd _ Hf; [|done].
  apply find_for_intent_found in Hf as (k & r & Hk & Hi & Hrec); [|by eapply reachable_identity].
  eapply (recorded_held i k); [by eapply reachable_keyed|by exists r|by exists r].
Qed.

Lemma execute_acts i :
  acts (intent_bytes i) 1 (λ _, True) (execute policy relayer w i) (λ _ _, True).
Proof.
  unfold execute. apply acts_returning. intros _ _.
  apply (acts_bind policy _ 0 1 _ _ _ _ _ (find_acts _ i)). intros [h|].
  - destruct (in_states _ _); [by apply acts_ret|].
    apply acts_after; [quietly|by apply held_stable|]. intros _.
    apply acts_clocked; [by apply held_stable|]. intros now Hn. by apply advance_acts.
  - apply acts_after; [quietly|apply stable_pure|]. intros _.
    apply acts_clocked; [apply stable_pure|]. intros now Hn.
    apply (acts_bind policy _ 0 1 _ _ _ _ _ (allocate_acts _ _ _ Hn)).
    intros h. by apply advance_acts.
Qed.

(** An execution of the intent that was claimed is only looked at. *)
Lemma execute_offered_quiet J i :
  acts J 0 (intent_offered i) (execute policy relayer w i) (λ _ _, True).
Proof.
  unfold execute. apply acts_returning. intros _ _.
  apply (acts_bind policy _ 0 0 _ _ (λ found _, ∃ h, found = Some h ∧
    in_states h RETURNED_STATES = true)).
  - apply (acts_looked_up policy w Hw); [by apply intent_offered_stable|].
    intros d found Hd Hi Hf. by eapply find_for_intent_offered.
  - intros found x Hr (h & -> & Hin). rewrite Hin. split; [apply moved_refl|done].
Qed.

(** ** Every call *)

(** The value of a call is its execution. *)
Definition relay_run (c : relay_call) : service Exchange HostedExecution :=
  match c with
  | RExecute i => execute policy relayer w i
  | RRebroadcast execution_id => rebroadcast_identical policy relayer w execution_id
  | RInspect execution_id => fst <$> inspect_submission relayer w execution_id
  end.

Lemma relay_run_acts c :
  acts claimed_bytes 1 (λ _, True) (relay_run c) (λ _ _, True).
Proof.
  destruct c as [i|id|id]; simpl.
  - intros x Hr Hx. destruct (execute_acts i x Hr Hx) as [[Hpath Hlen] _]. split; [|done].
    split; [|done]. eapply relay_path_mono; [|exact Hpath].
    intros n raw d (m & t & id & _ & _ & _ & _ & Hoff). by exists id.
  - apply rebroadcast_acts.
  - apply quiet_finish, quiet_fmap, quiet_inspect.
Qed.
End Programs.
