(* ===== verification/RelayProperties.v ===== *)
(** * What the relayer promises

    Its calls are histories of repository calls in which every transaction sent is
    the stored, claimed one; an account's nonce is spent on one transaction;
    executing an intent sends at most one transaction, before the deadline and
    never again; a signed transaction stays within the operator's limits. *)

From S2P Require Import Prelude PyValue ExecutionModels ExecutionTables PilotGate.
From S2P Require Import NonceAllocator ExecutionRepository ExecutionSettlement.
From S2P Require Import ExecutionMachine ExecutionRefinement ExecutionInvariants.
From S2P Require Import DerivedInvariants ExecutionIdentity Evm Relayer RelayMachine.
From S2P Require Import RelayPrograms.
From Stdlib Require Import Ascii.

Open Scope string_scope.
Open Scope list_scope.
Open Scope Z_scope.

Section Properties.
Context `{Sha256, Keccak} `{AbiEncode} `{RlpEncode}.
Context (policy : option PilotGatePolicy).

(** ** Histories *)

(** C9: a call of the relayer, whatever the node, the clock and the signers answer and
    whatever other processes do to the repository meanwhile, is a history of
    repository calls and of broadcasts; a broadcast sends the stored transaction of
    an execution whose submission was claimed in the database before. *)
Theorem relayer_calls_refine relayer w c x :
  valid_policy policy → lawful policy w → reachable policy (ex_db x) →
  rtc (relay_step policy claimed_bytes) x (relay_run policy relayer w c x).2.
Proof. intros Hp Hw Hr. by apply (relay_run_acts policy Hp relayer w Hw c x). Qed.

(** Relayers that share the database, each with its configuration and its world,
    and any other use of the repository. *)
Inductive system_step (x : Exchange) : Exchange → Prop :=
| system_relayer relayer w c :
    lawful policy w → system_step x (relay_run policy relayer w c x).2
| system_call d' :
    call policy (ex_db x) d' → system_step x (MkExchange d' (ex_tick x) (ex_sent x)).

Lemma system_path x x' :
  valid_policy policy → reachable policy (ex_db x) → rtc system_step x x' →
  rtc (relay_step policy claimed_bytes) x x'.
Proof.
  intros Hp Hr. revert x'. apply rtc_ind_r; [done|]. intros x1 x2 _ Hs IH.
  etrans; [exact IH|]. destruct Hs as [relayer w c Hw|d' Hc].
  - apply relayer_calls_refine; [done..|]. eapply reachable_trans; [done|].
    by eapply relay_path_calls.
  - by apply rtc_once, relay_calls.
Qed.

(** What was sent stays the stored transaction of an execution. *)
Lemma sent_offered x x' n raw :
  valid_policy policy → reachable policy (ex_db x) → ex_sent x = [] →
  rtc (relay_step policy claimed_bytes) x x' → (n, raw) ∈ ex_sent x' →
  ∃ execution_id, offered execution_id raw (ex_db x').
Proof.
  intros Hp Hr Hnil Hpath. revert x' Hpath. apply (rtc_ind_r (λ x', (n, raw) ∈ ex_sent x' → _)).
  { rewrite Hnil. by intros ?%elem_of_nil. }
  intros x1 x2 Hpath Hs IH. destruct Hs as [d' Hc| |m raw' _ HJ]; simpl.
  - intros [id Hid]%IH. exists id. eapply offered_stable; [done| |by apply rtc_once|done].
    eapply reachable_trans; [done|by eapply relay_path_calls].
  - auto.
  - rewrite elem_of_app, list_elem_of_singleton. intros [?|[= -> ->]]; auto.
Qed.

(** C10: however many relayers run, fail and retry on one database, each transaction
    they sent is the stored transaction of an execution, and two transactions sent
    for one nonce of one account are the same bytes: a nonce pays once. *)
Theorem sent_once_per_nonce x x' n1 raw1 n2 raw2 :
  valid_policy policy → reachable policy (ex_db x) → ex_sent x = [] → rtc system_step x x' →
  (n1, raw1) ∈ ex_sent x' → (n2, raw2) ∈ ex_sent x' →
  ∃ k1 r1 k2 r2,
    db_executions (ex_db x') !! k1 = Some r1 ∧ offered_row raw1 r1 ∧
    db_executions (ex_db x') !! k2 = Some r2 ∧ offered_row raw2 r2 ∧
    (er_chain r1 = er_chain r2 → er_relayer_address r1 = er_relayer_address r2 →
     er_relayer_nonce r1 = er_relayer_nonce r2 → raw1 = raw2).
Proof.
  intros Hp Hr Hnil Hpath%system_path H1' H2'; [|done..].
  destruct (sent_offered _ _ _ _ Hp Hr Hnil Hpath H1') as (k1 & r1 & Hk1 & Ho1).
  destruct (sent_offered _ _ _ _ Hp Hr Hnil Hpath H2') as (k2 & r2 & Hk2 & Ho2).
  exists k1, r1, k2, r2. split_and!; try done. intros ???.
  assert (reachable policy (ex_db x')) as Hr'.
  { eapply reachable_trans; [done|by eapply relay_path_calls]. }
  destruct (decide (k1 = k2)) as [<-|Hne].
  - simplify_eq. destruct Ho1 as [E1 _], Ho2 as [E2 _]. congruence.
  - exfalso. assert (∀ raw r, offered_row raw r → holds_nonce r = true) as Hh.
    { intros raw r [E _]. unfold holds_nonce, is_signed. rewrite E. by rewrite !orb_true_r. }
    destruct (reachable_nonces _ _ Hp Hr') as [_ Hx].
    apply (Hx k1 k2 r1 r2 Hk1 Hk2 Hne); [by split_and!|by eapply Hh..].
Qed.

(** ** Executing *)

(** C11: executing an intent sends nothing, or one transaction: that of an execution
    of exactly this intent, whose submission was claimed, sent in the interaction
    after the relayer read a clock that was before the deadline. *)
Theorem execute_sends_once relayer w i x :
  valid_policy policy → lawful policy w → reachable policy (ex_db x) →
  let x' := (execute policy relayer w i x).2 in
  ex_sent x' = ex_sent x ∨
  ∃ n raw t d k r,
    ex_sent x' = ex_sent x ++ [(S n, raw)] ∧ rw_clock w n = Ok t ∧ t < deadline i ∧
    rtc (call policy) (ex_db x) d ∧ rtc (call policy) d (ex_db x') ∧
    db_executions d !! k = Some r ∧ er_columns r = intent_columns i ∧
    er_raw_transaction r = Some raw ∧ 0 < er_broadcast_attempts r.
Proof.
  intros Hp Hw Hr x'. destruct (execute_acts policy Hp relayer w Hw i x Hr I) as [Hmv _].
  apply moved_once in Hmv as [?|(n & raw & d & Hs & _ & HJ & Hd & Hd')]; [by left|right].
  destruct HJ as (m & t & id & -> & Hclock & Ht & (r & Hk & Hi) & (r' & Hk' & Hraw & Ha)).
  simplify_eq. exists m, raw, t, d, id, r. by split_and!.
Qed.

(** C12: once the submission of an execution of an intent was claimed, executing the
    intent again, at any time and by any relayer, sends nothing. *)
Theorem execute_never_resends relayer w i x k r :
  valid_policy policy → lawful policy w → reachable policy (ex_db x) →
  db_executions (ex_db x) !! k = Some r → er_columns r = intent_columns i →
  0 < er_broadcast_attempts r →
  ex_sent (execute policy relayer w i x).2 = ex_sent x.
Proof.
  intros Hp Hw Hr Hk Hi Ha.
  destruct (execute_offered_quiet policy Hp relayer w Hw claimed_bytes i x Hr) as [[Hpath Hlen] _];
    [by exists k, r|].
  apply relay_path_sent in Hpath as [new Hnew]. rewrite Hnew, length_app in Hlen.
  rewrite Hnew. destruct new; [by rewrite app_nil_r|]. simpl in Hlen. lia.
Qed.
End Properties.
