(* ===== verification/SigningLimits.v ===== *)
(** * What the relayer signs

    The fields of an EIP-1559 transaction determine it.  The transaction that
    signing stores encodes the authorization of the intent, for the operator's
    executor and chain, within the operator's limits on gas and fees. *)

From S2P Require Import Prelude PyValue ChainFacts ExecutionModels ExecutionTables.
From S2P Require Import PilotGate NonceAllocator ExecutionRepository ExecutionSettlement.
From S2P Require Import ExecutionMachine ExecutionRefinement ExecutionInvariants.
From S2P Require Import ExecutionIdentity Evm Relayer RelayMachine RelayPrograms.
From Stdlib Require Import Ascii Strings.Byte.
From Stdlib Require Import Ascii.

Open Scope string_scope.
Open Scope Z_scope.

(** ** Integers *)

Lemma uint_length_enough v : 0 < v → v < 256 ^ Z.of_nat (Z.to_nat ((Z.log2 v + 8) / 8)).
Proof.
  intros Hv. pose proof (Z.log2_spec v Hv) as [_ Hl]. pose proof (Z.log2_nonneg v).
  rewrite Z2Nat.id by (apply Z.div_pos; lia).
  change 256 with (2 ^ 8). rewrite <- Z.pow_mul_r by (try apply Z.div_pos; lia).
  eapply Z.lt_le_trans; [exact Hl|]. apply Z.pow_le_mono_r; [lia|].
  pose proof (Z.div_mod (Z.log2 v + 8) 8 ltac:(lia)). pose proof (Z.mod_pos_bound (Z.log2 v + 8) 8 ltac:(lia)).
  lia.
Qed.

Lemma uint_bytes_value v : 0 <= v → be_value (uint_bytes v) = v.
Proof.
  intros Hv. unfold uint_bytes. destruct (v =? 0) eqn:E; bool_inv; [by subst|].
  apply be_value_bytes. split; [done|]. apply uint_length_enough. lia.
Qed.

Lemma be_value_zero bs : be_value (x00 :: bs) = be_value bs.
Proof. reflexivity. Qed.

(** No byte could be left out. *)
Lemma uint_bytes_shortest v : 0 <= v → head (uint_bytes v) ≠ Some x00.
Proof.
  intros Hv Hh. pose proof (uint_bytes_value v Hv) as Hval. unfold uint_bytes in *.
  destruct (v =? 0) eqn:E; bool_inv; [done|].
  set (n := Z.to_nat ((Z.log2 v + 8) / 8)) in *.
  pose proof (be_bytes_length n v) as Hlen.
  destruct (be_bytes n v) as [|b bs]; [done|]. injection Hh as ->. simpl in Hlen.
  rewrite be_value_zero in Hval. pose proof (be_value_range bs) as [_ Hlt]. rewrite Hval in Hlt.
  pose proof (Z.log2_spec v ltac:(lia)) as [Hl _]. pose proof (Z.log2_nonneg v).
  assert (Z.of_nat (length bs) = Z.log2 v / 8) as Hn.
  { assert (Z.of_nat n = Z.log2 v / 8 + 1); [|lia].
    unfold n. replace (Z.log2 v + 8) with (Z.log2 v + 1 * 8) by lia. rewrite Z.div_add by lia.
    pose proof (Z.div_pos (Z.log2 v) 8 ltac:(lia) ltac:(lia)). rewrite Z2Nat.id by lia. lia. }
  rewrite Hn in Hlt. change 256 with (2 ^ 8) in Hlt.
  rewrite <- Z.pow_mul_r in Hlt by (try apply Z.div_pos; lia).
  assert (2 ^ (8 * (Z.log2 v / 8)) <= 2 ^ Z.log2 v).
  { apply Z.pow_le_mono_r; [lia|]. apply Z.mul_div_le. lia. }
  lia.
Qed.

(** ** Addresses *)

(** What both address validators return. *)
Definition plain_address (s : string) : Prop :=
  ∃ raw, s = "0x" +:+ hex raw ∧ length raw = 20%nat ∧ raw ≠ zeros 20.

Lemma prefixed_hex s :
  (∃ digits, s = String "0" (String "x" digits)) ∨ ∀ A (f : string → A) (a : A),
    (match s with String "0" (String "x" digits) => f digits | _ => a end) = a.
Proof.
  destruct s as [|c s]; [right; reflexivity|].
  destruct (ascii_dec c "0") as [->|Hc];
    [|right; destruct c as [[] [] [] [] [] [] [] []]; first [reflexivity|by destruct Hc]].
  destruct s as [|c s]; [right; reflexivity|].
  destruct (ascii_dec c "x") as [->|Hc];
    [|right; destruct c as [[] [] [] [] [] [] [] []]; first [reflexivity|by destruct Hc]].
  left. by exists s.
Qed.

Lemma evm_address_plain field value address :
  evm_address field value = Ok address → plain_address address.
Proof.
  unfold evm_address. destruct (prefixed_hex value) as [[digits ->]|Hno]; [|by rewrite Hno].
  cbv beta iota. intros. txn_inv. bool_inv. eexists. split; [done|]. split; [|done].
  by apply Nat.eqb_eq.
Qed.

Lemma evm_address_of_plain field s : plain_address s → evm_address field s = Ok s.
Proof.
  intros (raw & -> & Hl & Hz).
  change ("0x" +:+ hex raw) with (String "0" (String "x" (hex raw))).
  assert ((str_len (String "0" (String "x" (hex raw))) =? 42) = true) as Hlen.
  { apply Z.eqb_eq. pose proof (str_len_hex raw) as Hh. unfold str_len, blen in *. rewrite Hl in Hh.
    change (Z.of_nat (S (S (String.length (hex raw)))) = 42). lia. }
  unfold evm_address, require. cbv iota beta. rewrite Hlen, from_hex_hex.
  cbn [mbind result_bind from_option_or]. by rewrite Hl, (bool_decide_eq_false_2 _ Hz).
Qed.

Lemma address_bytes_hex raw : address_bytes ("0x" +:+ hex raw) = raw.
Proof. change (default [] (from_hex (hex raw)) = raw). by rewrite from_hex_hex. Qed.

(** ** Transactions *)

(** A reader of the fields of an unsigned transaction. *)
Definition read_uint (item : rlp_item) : option Z :=
  match item with
  | RBytes bs => if bool_decide (head bs = Some x00) then None else Some (be_value bs)
  | RList _ => None
  end.
Definition read_transaction (items : list rlp_item) : option EIP1559Transaction :=
  match items with
  | [chain_id; nonce; priority; max_fee; gas_limit; RBytes to; value; RBytes data; RList []] =>
      chain_id ← read_uint chain_id;
      nonce ← read_uint nonce;
      priority ← read_uint priority;
      max_fee ← read_uint max_fee;
      gas_limit ← read_uint gas_limit;
      value ← read_uint value;
      Some (MkTransaction nonce priority max_fee gas_limit ("0x" +:+ hex to) data value chain_id)
  | _ => None
  end.

Lemma read_uint_bytes v : 0 <= v → read_uint (RBytes (uint_bytes v)) = Some v.
Proof.
  intros Hv. simpl. rewrite bool_decide_eq_false_2 by by apply uint_bytes_shortest.
  by rewrite uint_bytes_value.
Qed.

Lemma evm_uint_Ok field positive v v' :
  evm_uint field positive v = Ok v' → v' = v ∧ 0 <= v <= UINT256_MAX ∧ (positive = true → 0 < v).
Proof.
  unfold evm_uint. intros. txn_inv. bool_inv. split; [done|]. split; [lia|]. intros ->.
  match goal with H : true && _ = false |- _ => simpl in H; bool_inv end. lia.
Qed.

Lemma approved_chain_Ok v v' : approved_chain v = Ok v' → v' = v ∧ 0 <= v.
Proof.
  unfold approved_chain. intros. txn_inv.
  match goal with H : evm_uint _ _ _ = Ok _ |- _ => apply evm_uint_Ok in H as (-> & ? & _) end.
  split; [done|lia].
Qed.

(** A validated transaction is the one described. *)
Record transaction_valid (t tx : EIP1559Transaction) : Prop := {
  tv_chain : tx_chain_id tx = tx_chain_id t ∧ 0 <= tx_chain_id t;
  tv_nonce : tx_nonce tx = tx_nonce t ∧ 0 <= tx_nonce t;
  tv_priority : tx_max_priority_fee_per_gas tx = tx_max_priority_fee_per_gas t ∧
                0 <= tx_max_priority_fee_per_gas t <= tx_max_fee_per_gas t;
  tv_fee : tx_max_fee_per_gas tx = tx_max_fee_per_gas t ∧ 0 < tx_max_fee_per_gas t;
  tv_gas : tx_gas_limit tx = tx_gas_limit t ∧ 0 < tx_gas_limit t;
  tv_to : evm_address "to" (tx_to t) = Ok (tx_to tx);
  tv_data : tx_data tx = tx_data t;
  tv_value : tx_value tx = 0;
}.

Lemma make_transaction_valid t tx : make_transaction t = Ok tx → transaction_valid t tx.
Proof.
  unfold make_transaction. intros. txn_inv. bool_inv.
  repeat match goal with H : evm_uint _ _ _ = Ok _ |- _ => apply evm_uint_Ok in H as (-> & ? & ?) end.
  match goal with H : approved_chain _ = Ok _ |- _ => apply approved_chain_Ok in H as (-> & ?) end.
  split; simpl; try done; try (split; [done|]; auto; lia).
Qed.

(** C16: the fields of a validated transaction, as they are handed to the RLP encoder,
    determine it: integers are written without a leading zero byte and read back,
    and so does the address; two transactions never share an encoding. *)
Theorem transaction_fields_round_trip t tx :
  make_transaction t = Ok tx → read_transaction (unsigned_fields tx) = Some tx.
Proof.
  intros [[Hc ?] [Hn ?] [Hpr ?] [Hf ?] [Hg ?] Hto _ Hv]%make_transaction_valid.
  unfold unsigned_fields, read_transaction.
  rewrite !read_uint_bytes by lia. simpl.
  apply evm_address_plain in Hto as (raw & Hraw & _).
  destruct tx; simpl in *. by rewrite Hraw, address_bytes_hex.
Qed.

(** ** Configurations *)

(** What the constructor guarantees of its attributes. *)
Record relayer_valid (relayer : HostedRelayer) : Prop := {
  rv_profile : ∃ profile, chain_profile (ry_chain relayer) = Some profile ∧
    profile_chain_id profile = ry_chain_id relayer ∧ profile_token profile = ry_token relayer;
  rv_executor : plain_address (ry_executor_address relayer);
  rv_relayer : plain_address (ry_relayer_address relayer);
  rv_distinct : ry_executor_address relayer ≠ ry_relayer_address relayer ∧
                ry_execution_signer_address relayer ≠ ry_relayer_address relayer;
  rv_limits : 0 < ry_max_gas_limit relayer ∧
    0 < ry_max_priority_fee_per_gas_wei relayer <= ry_max_fee_per_gas_wei relayer;
}.

Lemma configured_address_plain field value address :
  configured_address field value = Ok address → plain_address address.
Proof.
  unfold configured_address. destruct (prefixed_hex value) as [[digits ->]|Hno]; [|by rewrite Hno].
  cbv beta iota. intros. txn_inv. bool_inv. eexists. split; [done|]. split; [|done].
  by apply Nat.eqb_eq.
Qed.

Lemma chain_profile_chain chain profile :
  chain_profile chain = Some profile → profile_chain profile = chain.
Proof.
  unfold chain_profile. simpl. intros Hc.
  repeat (case_bool_decide; [simplify_eq; done|]). done.
Qed.

Lemma make_relayer_valid s relayer : make_relayer s = Ok relayer → relayer_valid relayer.
Proof.
  unfold make_relayer, bound_identity, positive_limit. intros. txn_inv. bool_inv.
  repeat match goal with H : configured_address _ _ = Ok _ |- _ => apply configured_address_plain in H end.
  split; simpl; try done.
  - match goal with H : chain_profile (st_chain _) = Some ?p |- _ =>
      exists p; rewrite (chain_profile_chain _ _ H); by split_and! end.
  - split; congruence.
Qed.

(** ** Numbers a node reports *)

Lemma hex_number_nonneg acc s n : 0 <= acc → hex_number acc s = Some n → 0 <= n.
Proof.
  revert acc. induction s as [|c s IH]; intros acc Ha; simpl; [by intros [= <-]|].
  destruct (hex_value c) as [v|] eqn:E; simpl; [|done].
  apply hex_value_digit in E as [? _]. apply IH. lia.
Qed.
Lemma quantity_nonneg field value n : quantity field value = Ok n → 0 <= n.
Proof.
  unfold quantity. repeat (case_match; try done). intros. txn_inv. by eapply hex_number_nonneg.
Qed.
Lemma uint256_word_nonneg field value n : uint256_word field value = Ok n → 0 <= n.
Proof. unfold uint256_word. case_match; try done. intros. txn_inv. by eapply hex_number_nonneg. Qed.

(** ** Programs that return *)

Lemma service_bind_Ok {S A B} (m : service S A) (f : A → service S B) s b s' :
  (m ≫= f) s = (Ok b, s') → ∃ a s1, m s = (Ok a, s1) ∧ f a s1 = (Ok b, s').
Proof.
  unfold mbind, service_bind. destruct (m s) as [[a|e] s1]; [eauto|done].
Qed.
Lemma returns_Ok {A} (r : result A) x a x' : returns r x = (Ok a, x') → r = Ok a ∧ x' = x.
Proof. unfold returns, answers. by intros [= -> ->]. Qed.
Lemma ensures_Ok b e x u x' : ensures b e x = (Ok u, x') → b = true ∧ x' = x.
Proof. intros [[? _]%require_Ok ->]%returns_Ok. done. Qed.
Lemma service_ret_Ok {A} (a b : A) (x x' : Exchange) :
  (mret a : service Exchange A) x = (Ok b, x') → b = a ∧ x' = x.
Proof. by intros [= <- <-]. Qed.
Lemma stored_Ok {A} w (op : HostedDb → result A * HostedDb) x a x' :
  stored w op x = (Ok a, x') → ∃ d, op d = (Ok a, ex_db x').
Proof.
  intros Hs. apply service_bind_Ok in Hs as (n & x1 & _ & Hs). unfold runs in Hs. exists (ex_db x1).
  injection Hs as Ha <-. simpl. by destruct (op (ex_db x1)); simpl in *; subst.
Qed.
(** A handler that only raises leaves what the program returned. *)
Lemma recover_fails_Ok {A} (m : service Exchange A) e x a x' :
  recover m (λ _, fails e) x = (Ok a, x') → m x = (Ok a, x').
Proof. unfold recover, fails, returns, answers. destruct (m x) as [[b|?] x1]; [done|by intros [=]]. Qed.

Ltac service_inv :=
  repeat first
    [ match goal with
      | H : mbind _ _ _ = (Ok _, _) |- _ =>
          apply service_bind_Ok in H; destruct H as (? & ? & ? & H)
      | H : returns _ _ = (Ok _, _) |- _ => apply returns_Ok in H; destruct H as [? ->]
      | H : ensures _ _ _ = (Ok _, _) |- _ => apply ensures_Ok in H; destruct H as [? ->]
      | H : mret _ _ = (Ok _, _) |- _ => apply service_ret_Ok in H; destruct H as [? ?]; simplify_eq
      | H : recover _ (λ _, fails _) _ = (Ok _, _) |- _ => apply recover_fails_Ok in H
      | p : (_ * _)%type |- _ => destruct p
      end; cbv beta iota in * ].

Section Signing.
Context `{Sha256, Keccak} `{AbiEncode} `{RlpEncode}.
Context (policy : option PilotGatePolicy) (relayer : HostedRelayer) (w : RelayWorld).

Lemma gas_limit_Ok calldata x g x' :
  relayer_gas_limit relayer w calldata x = (Ok g, x') → 0 < g <= ry_max_gas_limit relayer.
Proof.
  unfold relayer_gas_limit. intros. service_inv. bool_inv.
  match goal with |- 0 < ?e + _ <= _ => pose proof (Z.div_pos e 5 ltac:(lia) ltac:(lia)) end. lia.
Qed.

Lemma fee_quote_Ok x priority max_fee x' :
  fee_quote relayer w x = (Ok (priority, max_fee), x') →
  0 <= priority <= ry_max_priority_fee_per_gas_wei relayer ∧
  priority < max_fee <= ry_max_fee_per_gas_wei relayer.
Proof.
  unfold fee_quote, read_quantity. intros. service_inv.
  repeat match goal with H : quantity _ _ = Ok _ |- _ => apply quantity_nonneg in H end.
  bool_inv. lia.
Qed.

Lemma additional_fee_nonneg tx x fee x' :
  0 < tx_gas_limit tx → additional_fee_upper_bound relayer w tx x = (Ok fee, x') → 0 <= fee.
Proof.
  unfold additional_fee_upper_bound, read_word, OPERATOR_FEE_DECIMALS. intros Hg. case_match; intros; service_inv; [lia|].
  repeat match goal with H : uint256_word _ _ = Ok _ |- _ => apply uint256_word_nonneg in H end.
  match goal with |- 0 <= _ + (?n / ?m + _) => pose proof (Z.div_pos n m ltac:(nia) ltac:(lia)) end.
  lia.
Qed.

(** The fees of a transaction are within the operator's total, if there is one. *)
Definition total_within (tx : EIP1559Transaction) : Prop :=
  match ry_max_total_fee_wei relayer with
  | None => True
  | Some limit => tx_gas_limit tx * tx_max_fee_per_gas tx <= limit
  end.

Lemma total_fee_within tx x fee x' :
  0 < tx_gas_limit tx → total_fee relayer w tx x = (Ok fee, x') → total_within tx.
Proof.
  unfold total_fee, total_within. intros Hg. case_match; [|done]. intros. service_inv. bool_inv.
  match goal with H : additional_fee_upper_bound _ _ _ _ = _ |- _ =>
    apply additional_fee_nonneg in H; [|done] end.
  lia.
Qed.

(** The transaction the relayer builds for a call of its executor. *)
Record within_limits (h : HostedExecution) (calldata : bytes) (tx : EIP1559Transaction) : Prop := {
  wl_nonce : tx_nonce tx = he_relayer_nonce h;
  wl_to : tx_to tx = ry_executor_address relayer;
  wl_chain : tx_chain_id tx = ry_chain_id relayer;
  wl_value : tx_value tx = 0;
  wl_data : tx_data tx = calldata;
  wl_gas : 0 < tx_gas_limit tx <= ry_max_gas_limit relayer;
  wl_priority : 0 <= tx_max_priority_fee_per_gas tx <= ry_max_priority_fee_per_gas_wei relayer;
  wl_fee : tx_max_priority_fee_per_gas tx < tx_max_fee_per_gas tx <= ry_max_fee_per_gas_wei relayer;
  wl_total : total_within tx;
}.

Lemma build_transaction_valid h calldata x tx x' fee x'' :
  relayer_valid relayer → build_transaction relayer w h calldata x = (Ok tx, x') →
  total_fee relayer w tx x' = (Ok fee, x'') → within_limits h calldata tx.
Proof.
  intros Hv Hb Htot. unfold build_transaction in Hb. service_inv.
  match goal with H : relayer_gas_limit _ _ _ _ = _ |- _ => apply gas_limit_Ok in H end.
  match goal with H : fee_quote _ _ _ = _ |- _ => apply fee_quote_Ok in H as [? ?] end.
  match goal with H : make_transaction _ = _ |- _ => apply make_transaction_valid in H
    as [[? _] [? _] [? _] [? _] [? _] Hto ? ?] end.
  simpl in *. rewrite evm_address_of_plain in Hto by apply Hv. injection Hto as Hto.
  split; try congruence; try (split; congruence || lia).
  eapply total_fee_within; [|exact Htot]. lia.
Qed.

(** C13: when signing returns, the transaction stored for the execution is the signed
    encoding of a call of the operator's executor, on its chain, with the nonce of
    the execution and the authorization whose digest the intent names; gas and
    fees are positive and within every limit of the operator. *)
Theorem signed_within_limits settings h x h' x' :
  make_relayer settings = Ok relayer →
  sign_execution policy relayer w h x = (Ok h', x') →
  ∃ authorization digest signature gas_signature tx raw,
    relayer_authorization relayer (he_intent h) = Ok authorization ∧
    hash_execution authorization (ry_executor_address relayer) (Some (ry_chain_id relayer)) = Ok digest ∧
    execution_digest (he_intent h) = "0x" +:+ hex digest ∧
    encode_execute_calldata authorization (Some signature) = Ok (tx_data tx) ∧
    within_limits h (tx_data tx) tx ∧ signed_bytes tx gas_signature = Ok raw ∧
    he_signature h' = Some signature ∧ he_raw_transaction h' = Some raw.
Proof.
  intros Hv%make_relayer_valid Hs. unfold sign_execution in Hs. service_inv. bool_inv.
  match goal with H : stored _ _ _ = _ |- _ =>
    apply stored_Ok in H as [d Hper]; apply persist_returned in Hper as [Hsig Hraw] end.
  match goal with Hb : build_transaction _ _ _ _ _ = _, Ht : total_fee _ _ _ _ = _ |- _ =>
    pose proof (build_transaction_valid _ _ _ _ _ _ _ Hv Hb Ht) as Hl end.
  pose proof (wl_data _ _ _ Hl) as Hdata. rewrite <- Hdata in *.
  do 6 eexists. split_and!; first [eassumption | by symmetry].
Qed.
End Signing.
