(* ===== verification/Watcher.v ===== *)
(** * The chain watcher

    [HostedChainWatcher] of [facilitator/watcher.py]: what it asks its node about an
    execution, how it judges the answers, and what it then does to the execution;
    and one round of [WatcherWorker] of [facilitator/watcher_worker.py]. *)

From S2P Require Import Prelude PyValue Evm ExecutionModels ExecutionTables PilotGate.
From S2P Require Import ExecutionRepository ExecutionSettlement.
From Stdlib Require Import Ascii Strings.Byte.

#[local] Open Scope string_scope.
#[local] Open Scope Z_scope.

Definition PAYMENT_EVENT_TOPIC : string :=
  "0x068133bf9486e7726dcaa3b2b03cb0dd7af09dbbf7f53efcc181881a885059fd".
Definition TRANSFER_EVENT_TOPIC : string :=
  "0xddf252ad1be2c89b69c2b068fc378daa952ba7f163c4a11628f55a4df523b3ef".

(** ** Reading a node's answers *)

Definition evidence_error {A} (reason : string) : result A := Err (EvidenceError reason false).
Definition demand (b : bool) (reason : string) : result unit :=
  require b (EvidenceError reason false).

(** [_address] and [_hash]. *)
Definition ev_address (field : string) (value : pyval) : result string :=
  match value with
  | PStr s => demand (is_prefixed is_hex 40 s) (field +:+ "_invalid");; mret (lower s)
  | _ => evidence_error (field +:+ "_invalid")
  end.
Definition ev_hash (field : string) (value : pyval) : result string :=
  match value with
  | PStr s => demand (is_prefixed is_hex 64 s) (field +:+ "_invalid");; mret (lower s)
  | _ => evidence_error (field +:+ "_invalid")
  end.
(** [_bytes]. *)
Definition ev_bytes (field : string) (allow_empty : bool) (value : pyval) : result bytes :=
  match value with
  | PStr (String zero (String x encoded)) =>
      demand (Ascii.eqb zero "0" && Ascii.eqb x "x" && all_chars is_hex encoded)
        (field +:+ "_invalid");;
      demand (Nat.even (String.length encoded)) (field +:+ "_invalid");;
      bs ← from_option_or (from_hex encoded) (EvidenceError (field +:+ "_invalid") false);
      demand (allow_empty || negb (bool_decide (bs = []))) (field +:+ "_missing");;
      mret bs
  | _ => evidence_error (field +:+ "_invalid")
  end.
(** [_quantity]. *)
Definition ev_quantity (field : string) (value : pyval) : result Z :=
  match value with
  | PStr (String zero (String x (String c digits))) =>
      demand (Ascii.eqb zero "0" && Ascii.eqb x "x" && all_chars is_hex (String c digits)
              && (negb (Ascii.eqb c "0") || bool_decide (digits = EmptyString)))
        (field +:+ "_invalid");;
      from_option_or (hex_number 0 (String c digits)) (EvidenceError (field +:+ "_invalid") false)
  | _ => evidence_error (field +:+ "_invalid")
  end.

(** [_word], [_word_uint], [_word_bytes32], [_word_address]. *)
Definition ev_word (field : string) (value : bytes) : result bytes :=
  demand (length value =? 32)%nat (field +:+ "_invalid");; mret value.
Definition word_uint (field : string) (value : bytes) : result Z := be_value <$> ev_word field value.
Definition word_bytes32 (field : string) (value : bytes) : result string :=
  (λ bs, "0x" +:+ hex bs) <$> ev_word field value.
Definition word_address (field : string) (value : bytes) : result string :=
  bs ← ev_word field value;
  demand (bool_decide (take 12 bs = zeros 12)) (field +:+ "_invalid");;
  mret ("0x" +:+ hex (drop 12 bs)).

(** [_same_hash]. *)
Definition same_hash (field : string) (left right : pyval) : result bool :=
  l ← ev_hash field left; r ← ev_hash field right; mret (bool_decide (l = r)).

(** [_decode_bool]. *)
Definition decode_bool (field : string) (value : pyval) : result bool :=
  raw ← ev_bytes field true value;
  demand (length raw =? 32)%nat (field +:+ "_invalid");;
  demand (bool_decide (be_value raw ∈ [0; 1])) (field +:+ "_invalid");;
  mret (be_value raw =? 1).

(** ** The call of the executor *)

(** What [_decode_execute_input] returns, and what [_match_execution] expects. *)
Record CallScope := MkScope {
  cs_capability_hash : string;
  cs_reservation_hash : string;
  cs_owner : string;
  cs_payee : string;
  cs_token : string;
  cs_amount : Z;
  cs_nonce : Z;
  cs_deadline : Z;
  cs_signer_epoch : Z;
  cs_relayer : string;
}.
#[export] Instance CallScope_eq_dec : EqDecision CallScope.
Proof. solve_decision. Defined.

(** [body[32 * i : 32 * (i + 1)]]. *)
Definition word_at (i : nat) (body : bytes) : bytes := slice body (32 * i) (32 * (i + 1)).

Section Decoding.
Context `{Keccak}.

(** [_decode_execute_input]. *)
Definition decode_execute_input (value : pyval) : result CallScope :=
  raw ← ev_bytes "transaction_input" false value;
  demand ((4 <=? length raw)%nat && bool_decide (take 4 raw = EXECUTE_SELECTOR))
    "transaction_selector_mismatch";;
  let body := drop 4 raw in
  demand (length body =? 480)%nat "transaction_input_shape_invalid";;
  offset ← word_uint "signature_offset" (word_at 10 body);
  demand (offset =? 352) "transaction_input_shape_invalid";;
  signature_length ← word_uint "signature_length" (word_at 11 body);
  demand (signature_length =? 65) "transaction_signature_invalid";;
  demand (bool_decide (slice body 449 480 = zeros 31)) "transaction_signature_padding_invalid";;
  capability_hash ← word_bytes32 "capability_hash" (word_at 0 body);
  reservation_hash ← word_bytes32 "reservation_hash" (word_at 1 body);
  owner ← word_address "owner" (word_at 2 body);
  payee ← word_address "payee" (word_at 3 body);
  token ← word_address "token" (word_at 4 body);
  amount ← word_uint "amount" (word_at 5 body);
  nonce ← word_uint "nonce" (word_at 6 body);
  deadline ← word_uint "deadline" (word_at 7 body);
  signer_epoch ← word_uint "signer_epoch" (word_at 8 body);
  relayer ← word_address "relayer" (word_at 9 body);
  mret (MkScope capability_hash reservation_hash owner payee token amount nonce deadline
          signer_epoch relayer).

(** The scope of an execution, as its intent names it. *)
Definition expected_scope (i : ExecutionIntent) : result CallScope :=
  capability_hash ← ev_hash "capability_hash" (PStr (capability_hash i));
  reservation_hash ← ev_hash "reservation_hash" (PStr (reservation_hash i));
  owner ← ev_address "owner" (PStr (owner i));
  payee ← ev_address "payee" (PStr (payee i));
  token ← ev_address "token" (PStr (token i));
  relayer ← ev_address "relayer_address" (PStr (relayer_address i));
  mret (MkScope capability_hash reservation_hash owner payee token
          (digits_value 0 (amount_atomic i)) (owner_nonce i) (deadline i) (signer_epoch i) relayer).

(** [_match_execution]; both sides are in lower case. *)
Definition match_execution (decoded : CallScope) (i : ExecutionIntent) : result unit :=
  expected ← expected_scope i;
  demand (bool_decide (decoded = expected)) "transaction_scope_mismatch".

(** ** Events *)

(** [log.get("topics")], a list of the given length. *)
Definition event_topics (reason : string) (n : nat) (log : pydict) : result (list pyval) :=
  match dict_get log "topics" with
  | PList topics => demand (length topics =? n)%nat reason;; mret topics
  | _ => evidence_error reason
  end.
Definition topic (topics : list pyval) (i : nat) : pyval := nth i topics PNone.

(** [_decode_payment_event]. *)
Definition decode_payment_event (log : pydict) (i : ExecutionIntent) : result bool :=
  let mismatch := "payment_event_scope_mismatch" in
  address ← ev_address "event_address" (dict_get log "address");
  executor ← ev_address "executor" (PStr (executor i));
  if negb (bool_decide (address = executor)) then mret false else
  topics ← event_topics "payment_event_topics_invalid" 4 log;
  named ← same_hash "event_topic" (topic topics 0) (PStr PAYMENT_EVENT_TOPIC);
  if negb named then mret false else
  same_capability ← same_hash "capability_hash" (topic topics 1) (PStr (capability_hash i));
  demand same_capability mismatch;;
  same_reservation ← same_hash "reservation_hash" (topic topics 2) (PStr (reservation_hash i));
  demand same_reservation mismatch;;
  owner_word ← ev_bytes "owner_topic" false (topic topics 3);
  owner_topic ← word_address "owner_topic" owner_word;
  owner ← ev_address "owner" (PStr (owner i));
  demand (bool_decide (owner_topic = owner)) mismatch;;
  data ← ev_bytes "payment_event_data" true (dict_get log "data");
  demand (length data =? 256)%nat "payment_event_data_invalid";;
  event_payee ← word_address "event_payee" (word_at 0 data);
  event_token ← word_address "event_token" (word_at 1 data);
  event_amount ← word_uint "event_amount" (word_at 2 data);
  event_nonce ← word_uint "event_nonce" (word_at 3 data);
  event_deadline ← word_uint "event_deadline" (word_at 4 data);
  event_signer ← word_address "event_signer" (word_at 5 data);
  event_signer_epoch ← word_uint "event_signer_epoch" (word_at 6 data);
  event_relayer ← word_address "event_relayer" (word_at 7 data);
  demand (negb (bool_decide (event_signer = "0x" +:+ hex (zeros 20))))
    "payment_event_signer_invalid";;
  payee ← ev_address "payee" (PStr (payee i));
  demand (bool_decide (event_payee = payee)) mismatch;;
  token ← ev_address "token" (PStr (token i));
  demand (bool_decide (event_token = token)
          && (event_amount =? digits_value 0 (amount_atomic i)) && (event_nonce =? owner_nonce i)
          && (event_deadline =? deadline i) && (event_signer_epoch =? signer_epoch i)) mismatch;;
  relayer ← ev_address "relayer_address" (PStr (relayer_address i));
  demand (bool_decide (event_relayer = relayer)) mismatch;;
  mret true.

(** [_decode_transfer_event]. *)
Definition decode_transfer_event (log : pydict) (i : ExecutionIntent) : result bool :=
  address ← ev_address "transfer_event_address" (dict_get log "address");
  token ← ev_address "token" (PStr (token i));
  if negb (bool_decide (address = token)) then mret false else
  topics ← event_topics "transfer_event_topics_invalid" 3 log;
  named ← same_hash "transfer_event_topic" (topic topics 0) (PStr TRANSFER_EVENT_TOPIC);
  if negb named then mret false else
  sender_word ← ev_bytes "transfer_from_topic" false (topic topics 1);
  sender ← word_address "transfer_from_topic" sender_word;
  recipient_word ← ev_bytes "transfer_to_topic" false (topic topics 2);
  recipient ← word_address "transfer_to_topic" recipient_word;
  data ← ev_bytes "transfer_event_data" true (dict_get log "data");
  demand (length data =? 32)%nat "transfer_event_data_invalid";;
  amount ← word_uint "transfer_event_amount" data;
  owner ← ev_address "owner" (PStr (owner i));
  demand (bool_decide (sender = owner)) "transfer_event_scope_mismatch";;
  payee ← ev_address "payee" (PStr (payee i));
  demand (bool_decide (recipient = payee) && (amount =? digits_value 0 (amount_atomic i)))
    "transfer_event_scope_mismatch";;
  mret true.
End Decoding.

(** ** Configuration *)

(** The attributes of a [HostedChainWatcher]. *)
Record HostedChainWatcher := MkWatcher {
  hw_executor : string;
  hw_executor_code_hash : option string;
  hw_watcher_version : string;
  hw_confirmation_depth : Z;
  hw_chain : string;
  hw_chain_id : Z;
  hw_token : string;
  hw_finality_boundary : string;
}.

(** [WatcherConfigurationError], a [ValueError]. *)
Definition watcher_policy (b : bool) (message : string) : result unit := require b (ValueError message).

(** [HostedChainWatcher.__init__]: the executor's address and code hash, the version,
    the depth, and the chain profile they must fit. *)
Definition make_watcher (executor_address : string) (executor_code_hash : option string)
    (watcher_version : string) (confirmation_depth : Z) (chain token finality_boundary : string)
    (chain_id : Z) : result HostedChainWatcher :=
  watcher_policy (is_prefixed is_hex 40 executor_address) "executor address is invalid";;
  watcher_policy (negb (bool_decide (lower executor_address = "0x" +:+ hex (zeros 20))))
    "executor address is invalid";;
  watcher_policy (match executor_code_hash with
                 | None => true
                 | Some h => is_prefixed is_hex 64 h
                 end) "executor code hash is invalid";;
  watcher_policy ((0 <? str_len watcher_version) && (str_len watcher_version <=? 128))
    "watcher version is invalid";;
  watcher_policy (no_control watcher_version) "watcher version is invalid";;
  profile ← from_option_or (chain_profile chain) (ValueError "chain profile is not supported");
  watcher_policy (chain_id =? profile_chain_id profile) "chain ID does not match chain profile";;
  watcher_policy (bool_decide (lower token = profile_token profile))
    "token does not match chain profile";;
  watcher_policy (bool_decide (finality_boundary = profile_finality_boundary profile))
    "finality boundary does not match chain profile";;
  watcher_policy (profile_min_confirmation_depth profile <=? confirmation_depth)
    "confirmation depth cannot be weakened";;
  mret (MkWatcher (lower executor_address) (lower <$> executor_code_hash) watcher_version
    confirmation_depth (profile_chain profile) (profile_chain_id profile) (profile_token profile)
    finality_boundary).

(** ** Observing *)

(** A valid [_Observation]; its [accepted_transfer] is [transfer_event_found]. *)
Record ChainEvidence := MkEvidence {
  ce_receipt_status : Z;
  ce_receipt_block_number : Z;
  ce_receipt_block_hash : string;
  ce_confirmations : Z;
  ce_safe_block_number : Z;
  ce_safe_block_hash : string;
  ce_capability_used : bool;
  ce_owner_nonce_used : bool;
  ce_payment_event_found : bool;
  ce_transfer_event_found : bool;
  ce_finality_boundary_timestamp : Z;
}.
(** [_Observation]: valid, or not and why. *)
Inductive Observation :=
| Observed (evidence : ChainEvidence)
| Unobserved (reorg : bool) (reason : string).

Section Observing.
Context `{Keccak} (watcher : HostedChainWatcher).
(** The node's answers to the requests of one observation, by their number. *)
Context (rpc : nat → string → list pyval → result pyval).

(** [_node_call]. *)
Definition node_call (n : nat) (method : string) (params : list pyval) : result pyval :=
  match rpc n method params with
  | Ok value => Ok value
  | Err _ => evidence_error "rpc_unavailable"
  end.
Definition rpc_mapping (reason : string) (value : pyval) : result pydict :=
  match value with PDict d => Ok d | _ => evidence_error reason end.

(** The execution and the chain the watcher is configured for; the hash to look up. *)
Definition check_scope (e : HostedExecution) : result (string * string) :=
  let i := he_intent e in
  raw_hash ← from_option_or (he_raw_transaction_hash e) (EvidenceError "transaction_hash_missing" false);
  demand (bool_decide (chain i = hw_chain watcher)) "chain_scope_mismatch";;
  demand (match he_finality_boundary e with
          | None => true
          | Some boundary => bool_decide (boundary = hw_finality_boundary watcher)
          end) "finality_boundary_mismatch";;
  token ← ev_address "token" (PStr (token i));
  demand (bool_decide (token = hw_token watcher)) "token_scope_mismatch";;
  tx_hash ← ev_hash "transaction_hash" (PStr raw_hash);
  executor ← ev_address "executor" (PStr (executor i));
  demand (bool_decide (executor = hw_executor watcher)) "executor_scope_mismatch";;
  relayer_address ← ev_address "relayer_address" (PStr (relayer_address i));
  value ← node_call 0 "eth_chainId" [];
  chain_id ← ev_quantity "chain_id" value;
  demand (chain_id =? hw_chain_id watcher) "chain_id_mismatch";;
  mret (tx_hash, relayer_address).

(** The transaction and the receipt the node reports, when the transaction is
    exactly the execution's. *)
Definition check_transaction (e : HostedExecution) (tx_hash relayer_address : string)
    : result (pydict * pydict) :=
  transaction ← node_call 1 "eth_getTransactionByHash" [PStr tx_hash];
  receipt ← node_call 2 "eth_getTransactionReceipt" [PStr tx_hash];
  transaction ← rpc_mapping "evidence_unavailable" transaction;
  receipt ← rpc_mapping "evidence_unavailable" receipt;
  reported ← ev_hash "transaction_hash" (dict_get transaction "hash");
  demand (bool_decide (reported = tx_hash)) "transaction_hash_mismatch";;
  receipt_hash ← ev_hash "receipt_transaction_hash" (dict_get receipt "transactionHash");
  demand (bool_decide (receipt_hash = tx_hash)) "receipt_transaction_hash_mismatch";;
  to ← ev_address "transaction_to" (dict_get transaction "to");
  demand (bool_decide (to = hw_executor watcher)) "transaction_destination_mismatch";;
  from ← ev_address "transaction_from" (dict_get transaction "from");
  demand (bool_decide (from = relayer_address)) "transaction_sender_mismatch";;
  nonce ← ev_quantity "transaction_nonce" (dict_get transaction "nonce");
  demand (nonce =? he_relayer_nonce e) "transaction_nonce_mismatch";;
  value ← ev_quantity "transaction_value" (dict_get transaction "value");
  demand (value =? 0) "transaction_value_mismatch";;
  type ← ev_quantity "transaction_type" (dict_get transaction "type");
  demand (type =? 2) "transaction_type_mismatch";;
  chain_id ← ev_quantity "transaction_chain_id" (dict_get transaction "chainId");
  demand (chain_id =? hw_chain_id watcher) "transaction_chain_id_mismatch";;
  decoded ← decode_execute_input (dict_get transaction "input");
  match_execution decoded (he_intent e);;
  mret (transaction, receipt).

(** [_check_block]. *)
Definition check_block (block : pyval) (expected_number : Z) (expected_hash : string) : result unit :=
  block ← rpc_mapping "receipt_block_unavailable" block;
  number ← ev_quantity "receipt_block_number" (dict_get block "number");
  block_hash ← ev_hash "receipt_block_hash" (dict_get block "hash");
  demand ((number =? expected_number) && bool_decide (block_hash = expected_hash))
    "canonical_block_mismatch".

(** A block that is not the canonical one any more. *)
Definition block_changed (detect_reorg : bool) (r : result unit) : result unit :=
  match r with
  | Err (EvidenceError reason reorg) =>
      if detect_reorg && bool_decide (reason = "canonical_block_mismatch")
      then Err (EvidenceError "canonical_block_changed" true)
      else Err (EvidenceError reason reorg)
  | r => r
  end.

(** The block of a receipt and its status. *)
Record ReceiptBlock := MkReceiptBlock { rb_number : Z; rb_hash : string; rb_status : Z }.

Definition check_receipt (detect_reorg : bool) (transaction receipt : pydict) : result ReceiptBlock :=
  number ← ev_quantity "receipt_block_number" (dict_get receipt "blockNumber");
  block_hash ← ev_hash "receipt_block_hash" (dict_get receipt "blockHash");
  status ← ev_quantity "receipt_status" (dict_get receipt "status");
  demand (bool_decide (status ∈ [0; 1])) "receipt_status_invalid";;
  tx_number ← ev_quantity "transaction_block_number" (dict_get transaction "blockNumber");
  tx_hash ← ev_hash "transaction_block_hash" (dict_get transaction "blockHash");
  require ((tx_number =? number) && bool_decide (tx_hash = block_hash))
    (EvidenceError (if detect_reorg then "canonical_block_changed" else "block_evidence_mismatch")
       detect_reorg);;
  mret (MkReceiptBlock number block_hash status).

(** The finality boundary. *)
Record Boundary := MkBoundary { bd_number : Z; bd_hash : string; bd_timestamp : Z }.

(** The canonical block of the receipt, and the boundary far enough behind it. *)
Definition check_finality (detect_reorg : bool) (e : HostedExecution) (rb : ReceiptBlock)
    : result Boundary :=
  receipt_block ← node_call 3 "eth_getBlockByNumber" [PStr (py_hex (rb_number rb)); PBool false];
  safe_block ← node_call 4 "eth_getBlockByNumber" [PStr (hw_finality_boundary watcher); PBool false];
  block_changed detect_reorg (check_block receipt_block (rb_number rb) (rb_hash rb));;
  safe_block ← rpc_mapping "safe_block_unavailable" safe_block;
  number ← ev_quantity "safe_block_number" (dict_get safe_block "number");
  safe_hash ← ev_hash "safe_block_hash" (dict_get safe_block "hash");
  timestamp ← ev_quantity "finality_boundary_timestamp" (dict_get safe_block "timestamp");
  let confirmations := number - rb_number rb in
  demand (negb ((number <? rb_number rb) || (confirmations <? hw_confirmation_depth watcher)))
    "confirmation_depth_insufficient";;
  (if detect_reorg then
     require (rb_status rb =? 1) (EvidenceError "receipt_status_changed" true);;
     match he_receipt_block_hash e with
     | None => mret ()
     | Some previous =>
         previous ← ev_hash "stored_receipt_block_hash" (PStr previous);
         require (bool_decide (rb_hash rb = previous)) (EvidenceError "canonical_block_changed" true)
     end
   else mret ());;
  mret (MkBoundary number safe_hash timestamp).

(** Both contracts have code at the boundary, the executor the expected one. *)
Definition check_code (boundary_block : string) : result unit :=
  value ← node_call 5 "eth_getCode" [PStr (hw_executor watcher); PStr boundary_block];
  code ← ev_bytes "executor_code" true value;
  demand (negb (bool_decide (code = []))) "executor_code_missing";;
  demand (match hw_executor_code_hash watcher with
          | None => true
          | Some h => bool_decide ("0x" +:+ hex (keccak code) = h)
          end) "executor_code_mismatch";;
  value ← node_call 6 "eth_getCode" [PStr (hw_token watcher); PStr boundary_block];
  code ← ev_bytes "token_code" true value;
  demand (negb (bool_decide (code = []))) "token_code_missing".

Definition USED_CAPABILITY_SELECTOR : bytes := take 4 (keccak_text "usedCapabilityHashes(bytes32)").
Definition USED_NONCE_SELECTOR : bytes := take 4 (keccak_text "usedNonces(address,uint256)").
(** [value[2:]] of an address or a hash. *)
Definition without_prefix (s : string) : string := String.substring 2 (String.length s - 2) s.

(** Whether the executor has consumed the capability and the owner's nonce. *)
Definition check_used (i : ExecutionIntent) (boundary_block : string) : result (bool * bool) :=
  let ask n data := node_call n "eth_call"
    [PDict [("to", PStr (hw_executor watcher)); ("data", PStr data)]; PStr boundary_block] in
  capability ← ev_hash "capability_hash" (PStr (capability_hash i));
  value ← ask 7%nat ("0x" +:+ hex USED_CAPABILITY_SELECTOR +:+ without_prefix capability);
  used ← decode_bool "used_capability" value;
  owner ← ev_address "owner" (PStr (owner i));
  value ← ask 8%nat ("0x" +:+ hex USED_NONCE_SELECTOR +:+ "000000000000000000000000"
                     +:+ without_prefix owner +:+ hex (be_bytes 32 (owner_nonce i)));
  owner_nonce_used ← decode_bool "used_owner_nonce" value;
  mret (used, owner_nonce_used).

(** The logs an address emitted under a topic. *)
Definition emitted_by (topic address : string) (log : pydict) : bool :=
  match dict_get log "topics" with
  | PList (PStr t :: _) =>
      bool_decide (lower t = topic) &&
      match ev_address "event_address" (dict_get log "address") with
      | Ok a => bool_decide (a = address)
      | Err _ => false
      end
  | _ => false
  end.
Fixpoint log_mappings (logs : list pyval) : result (list pydict) :=
  match logs with
  | [] => Ok []
  | log :: logs' =>
      log ← rpc_mapping "receipt_log_invalid" log; rest ← log_mappings logs'; mret (log :: rest)
  end.

(** The one event among the matching logs, if any. *)
Definition single_event (invalid : string) (decode : pydict → result bool)
    (logs : list pydict) : result bool :=
  match logs with
  | [] => Ok false
  | log :: _ =>
      found ← decode log;
      demand found invalid;;
      mret true
  end.

(** The payment and the transfer the receipt proves. *)
Definition check_events (i : ExecutionIntent) (receipt : pydict) : result (bool * bool) :=
  match dict_get receipt "logs" with
  | PList logs =>
      logs ← log_mappings logs;
      let payments := filter (λ log, emitted_by PAYMENT_EVENT_TOPIC (hw_executor watcher) log = true) logs in
      let transfers := filter (λ log, emitted_by TRANSFER_EVENT_TOPIC (hw_token watcher) log = true) logs in
      demand (length payments <=? 1)%nat "payment_event_ambiguous";;
      demand (length transfers <=? 1)%nat "transfer_event_ambiguous";;
      payment ← single_event "payment_event_invalid" (λ log, decode_payment_event log i) payments;
      transfer ← single_event "transfer_event_invalid" (λ log, decode_transfer_event log i) transfers;
      mret (payment, transfer)
  | _ => evidence_error "receipt_logs_invalid"
  end.

(** The body of [_observe]. *)
Definition gather_evidence (e : HostedExecution) (detect_reorg : bool) : result ChainEvidence :=
  '(tx_hash, relayer_address) ← check_scope e;
  '(transaction, receipt) ← check_transaction e tx_hash relayer_address;
  rb ← check_receipt detect_reorg transaction receipt;
  bd ← check_finality detect_reorg e rb;
  let boundary_block := py_hex (bd_number bd) in
  check_code boundary_block;;
  '(used, owner_nonce_used) ← check_used (he_intent e) boundary_block;
  '(payment, transfer) ← check_events (he_intent e) receipt;
  (if rb_status rb =? 1
   then demand (payment && transfer && used && owner_nonce_used) "accepted_transfer_unverified"
   else demand (negb (payment || transfer || used || owner_nonce_used))
          "failed_receipt_transfer_ambiguous");;
  mret (MkEvidence (rb_status rb) (rb_number rb) (rb_hash rb) (bd_number bd - rb_number rb)
          (bd_number bd) (bd_hash bd) used owner_nonce_used payment transfer (bd_timestamp bd)).

(** [_observe]. *)
Definition observe (e : HostedExecution) (detect_reorg : bool) : Observation :=
  match gather_evidence e detect_reorg with
  | Ok evidence => Observed evidence
  | Err (EvidenceError reason reorg) => Unobserved reorg reason
  | Err _ => Unobserved false "evidence_unavailable"
  end.

(** [_evidence] and [_release_evidence]. *)
Definition observation_evidence (ce : ChainEvidence) : pyval := PDict [
  ("accepted_transfer", PBool (ce_transfer_event_found ce));
  ("boundary", PStr (hw_finality_boundary watcher));
  ("finality_boundary", PStr (hw_finality_boundary watcher));
  ("confirmations", PInt (ce_confirmations ce));
  ("receipt_block_number", PInt (ce_receipt_block_number ce));
  ("safe_block_number", PInt (ce_safe_block_number ce));
  ("watcher_version", PStr (hw_watcher_version watcher));
  ("capability_used", PBool (ce_capability_used ce));
  ("owner_nonce_used", PBool (ce_owner_nonce_used ce));
  ("payment_event_found", PBool (ce_payment_event_found ce));
  ("transfer_event_found", PBool (ce_transfer_event_found ce));
  ("finality_boundary_timestamp", PInt (ce_finality_boundary_timestamp ce))].
Definition release_proof_of (ce : ChainEvidence) : pyval := PDict [
  ("receipt_status", PInt 0);
  ("canonical_receipt", PBool true);
  ("finality_boundary_timestamp", PInt (ce_finality_boundary_timestamp ce));
  ("capability_used", PBool false);
  ("owner_nonce_used", PBool false);
  ("payment_event_found", PBool false);
  ("transfer_event_found", PBool false)].
(** The receipt an operation of the repository is given. *)
Definition receipt_of (status : Z) (ce : ChainEvidence) : Receipt :=
  MkReceipt status (ce_receipt_block_number ce) (ce_receipt_block_hash ce) (ce_confirmations ce)
    (ce_safe_block_number ce) (ce_safe_block_hash ce) (hw_watcher_version watcher)
    (hw_finality_boundary watcher).
End Observing.

(** ** The systems a pass uses *)

(** What the watcher asks of the repository. *)
Inductive watcher_call : Type :=
| WReleaseExpired (execution_id : string)
| WConfirm (execution_id : string) (rc : Receipt) (evidence : pyval)
| WFinalize (execution_id finality_boundary : string)
| WRevert (execution_id : string) (rc : Receipt) (evidence : pyval)
| WReleaseReverted (execution_id : string) (rc : Receipt) (release_evidence : pyval)
| WReorgReview (execution_id : string) (evidence : pyval).

(** The database, the number of interactions so far, what the watcher asked of the
    repository, each with the interaction it was asked in, and the cursor of the
    worker. *)
Record Watching := MkWatching {
  wt_db : HostedDb;
  wt_tick : nat;
  wt_asked : list (nat * watcher_call);
  wt_cursor : option string;
}.

(** The node answers the requests of an observation as it likes; other processes may
    do [ww_others n] to the database right before the n-th interaction. *)
Record WatcherWorld := MkWatcherWorld {
  ww_rpc : nat → nat → string → list pyval → result pyval;
  ww_clock : nat → Z;
  ww_stopped : nat → bool;
  ww_others : nat → HostedDb → HostedDb;
}.

(** [WatchResult]. *)
Record WatchResult := MkWatchResult {
  wr_execution_id : string;
  wr_status : ExecutionState;
  wr_action : string;
  wr_reason : string;
  wr_finality_boundary : option string;
}.

(** The attributes of a [WatcherWorker]. *)
Record WatcherWorker := MkWorker { wk_chain : string; wk_batch_size : Z; wk_poll_seconds : Z }.

(** [WatcherWorker.__init__]: the bounds of a batch and of the pause, and the chain. *)
Definition make_worker (watcher : HostedChainWatcher) (batch_size poll_seconds : Z)
    (chain : option string) : result WatcherWorker :=
  require ((1 <=? batch_size) && (batch_size <=? 1000)) (ValueError "watch batch size is unsafe");;
  require ((0 <=? poll_seconds) && (poll_seconds <=? 3600))
    (ValueError "watch poll interval is unsafe");;
  let selected_chain := default (hw_chain watcher) chain in
  require (bool_decide (is_Some (chain_profile selected_chain)))
    (ValueError "watch chain is required and unsupported");;
  require (bool_decide (hw_chain watcher = selected_chain))
    (ValueError "watch chain does not match watcher instance");;
  mret (MkWorker selected_chain batch_size poll_seconds).

Section Watching.
Context `{Sha256} `{Keccak} (policy : option PilotGatePolicy) (watcher : HostedChainWatcher).
Context (w : WatcherWorld).

Abbreviation pass A := (service Watching A).

(** ** Interactions *)

(** The next interaction, after what other processes did. *)
Definition watch_turn : pass nat := λ x,
  (Ok (wt_tick x),
   MkWatching (ww_others w (wt_tick x) (wt_db x)) (S (wt_tick x)) (wt_asked x) (wt_cursor x)).
(** A query of the repository. *)
Definition reads_store {A} (query : HostedDb → result A) : pass A :=
  watch_turn;; answers (λ x, query (wt_db x)).
(** An observation. *)
Definition observes (e : HostedExecution) (detect_reorg : bool) : pass Observation :=
  n ← watch_turn; answers (λ _, Ok (observe watcher (ww_rpc w n) e detect_reorg)).

(** What a call does to the database. *)
Definition call_repository (clock : Z) (c : watcher_call)
    : HostedDb → result HostedExecution * HostedDb :=
  match c with
  | WReleaseExpired id => release_expired policy clock id None
  | WConfirm id rc evidence => confirm policy clock id rc (Some evidence) None
  | WFinalize id boundary => finalize policy clock id boundary None
  | WRevert id rc evidence => revert policy clock id rc false (Some evidence) None
  | WReleaseReverted id rc evidence => release_reverted policy clock id rc evidence None
  | WReorgReview id evidence => mark_reorg_review clock id evidence None
  end.
Definition asks_repository (c : watcher_call) : pass HostedExecution :=
  n ← watch_turn;
  runs (λ x, let '(r, d) := call_repository (ww_clock w n) c (wt_db x) in
             (r, MkWatching d (wt_tick x) (wt_asked x ++ [(n, c)]) (wt_cursor x))).
Definition stops {A} (e : exn) : pass A := answers (λ _, Err e).

(** ** [HostedChainWatcher.watch] *)

Definition watched (execution_id : string) (status : ExecutionState) (action reason : string)
    : pass WatchResult :=
  mret (MkWatchResult execution_id status action reason None).
(** A result that names the finality boundary. *)
Definition watched_at_boundary (execution_id : string) (status : ExecutionState)
    (action reason : string) : pass WatchResult :=
  mret (MkWatchResult execution_id status action reason (Some (hw_finality_boundary watcher))).

(** The branch of [watch] for an execution that is not signed. *)
Definition watch_unsigned (execution_id : string) (status : ExecutionState) : pass WatchResult :=
  recover
    (released ← asks_repository (WReleaseExpired execution_id);
     watched execution_id (he_status released) "released" "deadline_expired")
    (λ e, match e with
          | ExecutionConflict _ => watched execution_id status "unchanged" "authorization_active"
          | e => stops e
          end).

(** Its branch for a transaction that was offered to the network. *)
Definition watch_submitted (id : string) (e : HostedExecution) : pass WatchResult :=
  let verified := hw_finality_boundary watcher +:+ "_evidence_verified" in
  observation ← observes e false;
  match observation with
  | Unobserved _ reason => watched id (he_status e) "unchanged" reason
  | Observed ce =>
      recover
        (if ce_receipt_status ce =? 1 then
           confirmed ← asks_repository
             (WConfirm id (receipt_of watcher 1 ce) (observation_evidence watcher ce));
           if bool_decide (he_status confirmed = CONFIRMED) then
             recover
               (finalized ← asks_repository (WFinalize id (hw_finality_boundary watcher));
                watched_at_boundary id (he_status finalized) "finalized" verified)
               (λ _, watched_at_boundary id CONFIRMED "confirmed" verified)
           else watched_at_boundary id (he_status confirmed) "confirmed" verified
         else
           reverted ← asks_repository
             (WRevert id (receipt_of watcher 0 ce) (observation_evidence watcher ce));
           watched_at_boundary id (he_status reverted) "reverted"
             (hw_finality_boundary watcher +:+ "_revert_evidence_verified"))
        (λ _, watched id (he_status e) "unchanged" "repository_rejected")
  end.

(** [_watch_reverted]. *)
Definition watch_reverted (e : HostedExecution) : pass WatchResult :=
  let id := he_execution_id e in
  let unchanged := watched_at_boundary id REVERTED "unchanged" in
  observation ← observes e false;
  match observation with
  | Unobserved _ reason => unchanged reason
  | Observed ce =>
      if negb (ce_receipt_status ce =? 0) then unchanged "receipt_status_changed"
      else if ce_finality_boundary_timestamp ce <? deadline (he_intent e)
      then unchanged "authorization_replay_window"
      else recover
        (released ← asks_repository
           (WReleaseReverted id (receipt_of watcher 0 ce) (release_proof_of ce));
         watched_at_boundary id (he_status released) "released" "safe_revert_release")
        (λ _, unchanged "repository_rejected")
  end.

(** [_watch_finalized]; an observation that failed names no block. *)
Definition reorg_evidence (e : HostedExecution) (reason : string) : pyval := PDict [
  ("canonical", PBool false);
  ("observed_block_hash", PStr "unknown");
  ("previous_block_hash", PStr (match he_receipt_block_hash e with
                                | None | Some EmptyString => "unknown"
                                | Some h => h
                                end));
  ("reason", PStr reason);
  ("watcher_version", PStr (hw_watcher_version watcher))].
Definition watch_finalized (e : HostedExecution) : pass WatchResult :=
  let id := he_execution_id e in
  let unchanged := watched_at_boundary id FINALIZED "unchanged" in
  observation ← observes e true;
  match observation with
  | Unobserved true reason =>
      recover
        (reviewed ← asks_repository (WReorgReview id (reorg_evidence e reason));
         watched_at_boundary id (he_status reviewed) "reorg_review" reason)
        (λ _, unchanged "repository_rejected")
  | Unobserved false reason => unchanged reason
  | Observed _ => unchanged "canonical_evidence_verified"
  end.

(** [watch]. *)
Definition watch (execution_id : string) : pass WatchResult :=
  found ← reads_store (get_execution execution_id);
  match found with
  | None => stops (WatcherNotFound "execution not found")
  | Some e =>
      match he_status e with
      | FINALIZED => watch_finalized e
      | REVERTED => watch_reverted e
      | PREFLIGHT_APPROVED | SIGNING => watch_unsigned execution_id (he_status e)
      | SUBMITTED | SUBMISSION_UNKNOWN | SUBMISSION_REJECTED | CONFIRMED => watch_submitted execution_id e
      | _ => watched execution_id (he_status e) "unchanged" "state_not_watchable"
      end
  end.

(** ** [WatcherWorker.run_once] *)

(** [self._stop_event.is_set()], and the assignment of the cursor. *)
Definition stop_requested : pass bool := n ← watch_turn; mret (ww_stopped w n).
Definition moves_cursor (cursor : option string) : pass unit :=
  runs (λ x, (Ok tt, MkWatching (wt_db x) (wt_tick x) (wt_asked x) cursor)).
(** [try: result = ...; except Exception: result = None]. *)
Definition attempted {A} (m : pass A) : pass (option A) := recover (Some <$> m) (λ _, mret None).
(** [record_watcher_attempt]. *)
Definition records_attempt (execution_id : string) : pass unit :=
  n ← watch_turn;
  runs (λ x, let '(r, d) := record_watcher_attempt (ww_clock w n) execution_id None (wt_db x) in
             (r, MkWatching d (wt_tick x) (wt_asked x) (wt_cursor x))).

Fixpoint watch_batch (execution_ids : list string) : pass (list WatchResult) :=
  match execution_ids with
  | [] => mret []
  | id :: ids =>
      stopped ← stop_requested;
      if (stopped : bool) then mret []
      else if bool_decide (id = EmptyString) then watch_batch ids
      else
        recorded ← attempted (records_attempt id);
        match recorded with
        | None => watch_batch ids
        | Some _ =>
            result ← attempted (watch id);
            moves_cursor (Some id);;
            results ← watch_batch ids;
            mret (match result with Some r => r :: results | None => results end)
        end
  end.

(** [run_once]. *)
Definition run_once (worker : WatcherWorker) : pass (list WatchResult) :=
  stopped ← stop_requested;
  if (stopped : bool) then mret [] else
  execution_ids ← reads_store (list_watchable_ids (wk_chain worker) None (wk_batch_size worker));
  match execution_ids with
  | [] => moves_cursor None;; mret []
  | _ => watch_batch execution_ids
  end.
End Watching.
