(* ===== verification/WatcherFacts.v ===== *)
(** * What the watcher's readers accept

    The calldata of [execute] as words: the watcher's decoder accepts exactly the
    canonical layout.  What an observation that succeeds says about the answers of
    the node, and what a pass may ask of the repository. *)

From S2P Require Import Prelude PyValue Evm ExecutionModels ExecutionTables PilotGate.
From S2P Require Import ExecutionRepository ExecutionSettlement ExecutionMachine ExecutionRefinement.
From S2P Require Import ChainFacts Relayer SigningLimits ModelProperties Watcher.
From Stdlib Require Import Ascii Strings.Byte.

#[local] Open Scope string_scope.
#[local] Open Scope list_scope.
#[local] Open Scope Z_scope.

(** ** Words *)

(** Text [0x] followed by the digits of [n] bytes. *)
Definition hex_text (n : nat) (s : string) : Prop :=
  ∃ bs, length bs = n ∧ s = "0x" +:+ hex bs.

Lemma demand_Ok b reason u : demand b reason = Ok u → b = true.
Proof. intros Hd. unfold demand in Hd. by txn_inv. Qed.
Lemma demand_true b reason : b = true → demand b reason = Ok tt.
Proof. by intros ->. Qed.

Lemma slice_app (bs : bytes) i j k : (i <= j <= k)%nat → slice bs i j ++ slice bs j k = slice bs i k.
Proof.
  intros Hij. unfold slice. replace (k - i)%nat with ((j - i) + (k - j))%nat by lia.
  rewrite <- (take_take_drop (drop i bs) (j - i) (k - j)), drop_drop. do 3 f_equal. lia.
Qed.
Lemma slice_whole (bs : bytes) n : length bs = n → slice bs 0 n = bs.
Proof. intros <-. unfold slice. by rewrite Nat.sub_0_r, drop_0, firstn_all. Qed.

(** A body of [n] words and what follows them. *)
Lemma body_words n (body : bytes) :
  (32 * n <= length body)%nat →
  body = concat (map (λ i, word_at i body) (seq 0 n)) ++ drop (32 * n) body.
Proof.
  induction n as [|n IH]; intros Hl; [by rewrite drop_0|].
  rewrite seq_S, map_app, concat_app. simpl concat. rewrite app_nil_r, <- app_assoc.
  rewrite (IH ltac:(lia)) at 1. f_equal. unfold word_at, slice.
  replace (32 * (n + 1) - 32 * n)%nat with 32%nat by lia.
  rewrite <- (take_drop 32 (drop (32 * n) body)) at 1. rewrite drop_drop.
  replace (32 * n + 32)%nat with (32 * S n)%nat by lia. done.
Qed.
Lemma word_of_body (words : list bytes) (rest : bytes) i word :
  Forall (λ v, length v = 32%nat) words → words !! i = Some word →
  word_at i (concat words ++ rest) = word.
Proof.
  intros Hw. revert i. induction Hw as [|v words Hv _ IH]; intros i Hi; [done|].
  simpl concat. rewrite <- app_assoc. unfold word_at, slice in *.
  replace (32 * (i + 1) - 32 * i)%nat with 32%nat in * by lia.
  destruct i as [|i]; simpl in Hi.
  - injection Hi as ->. rewrite Nat.mul_0_r, drop_0, <- Hv. apply take_app_length.
  - specialize (IH i Hi). replace (32 * (i + 1) - 32 * i)%nat with 32%nat in IH by lia.
    replace (32 * S i)%nat with (length v + 32 * i)%nat by lia. by rewrite drop_app_add.
Qed.

Lemma concat_words (words : list bytes) :
  Forall (λ v, length v = 32%nat) words → length (concat words) = (32 * length words)%nat.
Proof.
  induction 1 as [|v words Hv _ IH]; [done|]. cbn [concat length]. rewrite length_app, Hv, IH. lia.
Qed.

Section Words.
Context (field : string).

Lemma word_uint_Ok v n : word_uint field v = Ok n ↔ length v = 32%nat ∧ n = be_value v.
Proof.
  unfold word_uint, ev_word, demand, require. destruct (length v =? 32)%nat eqn:E; simpl.
  - apply Nat.eqb_eq in E. split; [by intros [= <-]|by intros [_ ->]].
  - apply Nat.eqb_neq in E. split; [done|by intros [? _]].
Qed.
Lemma word_bytes32_Ok v s :
  word_bytes32 field v = Ok s ↔ length v = 32%nat ∧ s = "0x" +:+ hex v.
Proof.
  unfold word_bytes32, ev_word, demand, require. destruct (length v =? 32)%nat eqn:E; simpl.
  - apply Nat.eqb_eq in E. split; [by intros [= <-]|by intros [_ ->]].
  - apply Nat.eqb_neq in E. split; [done|by intros [? _]].
Qed.
Lemma word_address_Ok v s :
  word_address field v = Ok s ↔ ∃ raw, length raw = 20%nat ∧ v = zeros 12 ++ raw ∧ s = "0x" +:+ hex raw.
Proof.
  unfold word_address, ev_word, demand, require. destruct (length v =? 32)%nat eqn:E; simpl.
  - apply Nat.eqb_eq in E. case_bool_decide as Hz; simpl.
    + split.
      * intros [= <-]. exists (drop 12 v). rewrite length_drop, E. split_and!; [done| |done].
        transitivity (take 12 v ++ drop 12 v); [symmetry; apply take_drop|by rewrite Hz].
      * by intros (raw & _ & -> & ->).
    + split; [done|]. intros (raw & _ & -> & _). by destruct Hz.
  - apply Nat.eqb_neq in E. split; [done|]. intros (raw & Hl & -> & _). destruct E.
    simpl. by rewrite Hl.
Qed.
Lemma word_uint_word n : 0 <= n < 2 ^ 256 → word_uint field (be_bytes 32 n) = Ok n.
Proof.
  intros Hn. apply word_uint_Ok. rewrite be_bytes_length. split; [done|].
  symmetry. by apply be_value_bytes.
Qed.
Lemma word_bytes32_of v : length v = 32%nat → word_bytes32 field v = Ok ("0x" +:+ hex v).
Proof. intros Hv. by apply word_bytes32_Ok. Qed.
Lemma word_address_of raw :
  length raw = 20%nat → word_address field (zeros 12 ++ raw) = Ok ("0x" +:+ hex raw).
Proof. intros Hr. apply word_address_Ok. by exists raw. Qed.
End Words.

(** A uint256 as a word, and a word as its uint256. *)
Lemma word_uint_bytes v : length v = 32%nat → be_bytes 32 (be_value v) = v.
Proof. intros <-. apply be_bytes_value. Qed.
Lemma word_uint_bound v : length v = 32%nat → 0 <= be_value v < 2 ^ 256.
Proof. intros Hv. pose proof (be_value_range v) as Hr. by rewrite Hv in Hr. Qed.

(** [_bytes] of bytes written as text. *)
Lemma ev_bytes_hex field allow_empty bs :
  allow_empty = true ∨ bs ≠ [] → ev_bytes field allow_empty (PStr ("0x" +:+ hex bs)) = Ok bs.
Proof.
  intros He. change ("0x" +:+ hex bs) with (String "0" (String "x" (hex bs))).
  unfold ev_bytes. rewrite from_hex_hex. destruct (hex_lower bs) as [Hl _].
  assert (all_chars is_hex (hex bs) = true) as ->.
  { eapply all_chars_weaken; [|exact Hl]. apply lower_hex_is_hex. }
  assert (Nat.even (String.length (hex bs)) = true) as ->.
  { apply Nat.even_spec. exists (length bs). pose proof (str_len_hex bs).
    unfold str_len, blen in *. lia. }
  simpl. destruct He as [->|He]; [done|]. rewrite bool_decide_eq_false_2 by done.
  by rewrite orb_true_r.
Qed.

(** ** The call of the executor *)

Definition canonical_scope (s : CallScope) : Prop :=
  hex_text 32 (cs_capability_hash s) ∧ hex_text 32 (cs_reservation_hash s) ∧
  hex_text 20 (cs_owner s) ∧ hex_text 20 (cs_payee s) ∧ hex_text 20 (cs_token s) ∧
  hex_text 20 (cs_relayer s) ∧
  0 <= cs_amount s < 2 ^ 256 ∧ 0 <= cs_nonce s < 2 ^ 256 ∧ 0 <= cs_deadline s < 2 ^ 256 ∧
  0 <= cs_signer_epoch s < 2 ^ 256.

(** The twelve words of the arguments, and the canonical body: the words, the
    signature and the padding to a whole word. *)
Definition padded_address (a : string) : bytes := zeros 12 ++ address_bytes a.
Definition scope_words (s : CallScope) : list bytes :=
  [address_bytes (cs_capability_hash s); address_bytes (cs_reservation_hash s);
   padded_address (cs_owner s); padded_address (cs_payee s); padded_address (cs_token s);
   be_bytes 32 (cs_amount s); be_bytes 32 (cs_nonce s); be_bytes 32 (cs_deadline s);
   be_bytes 32 (cs_signer_epoch s); padded_address (cs_relayer s);
   be_bytes 32 352; be_bytes 32 65].
Definition execute_body (s : CallScope) (signature : bytes) : bytes :=
  concat (scope_words s) ++ signature ++ zeros 31.

Lemma scope_words_length s : canonical_scope s → Forall (λ v, length v = 32%nat) (scope_words s).
Proof.
  intros ((h & Hh & Eh) & (r & Hr & Er) & (o & Ho & Eo) & (p & Hp & Ep) & (t & Ht & Et) &
          (l & Hl & El) & _).
  unfold scope_words, padded_address. rewrite Eh, Er, Eo, Ep, Et, El, !address_bytes_hex.
  repeat constructor; first [by rewrite be_bytes_length|done|by rewrite length_app, ?Ho, ?Hp, ?Ht, ?Hl].
Qed.

Section Call.
Context `{Keccak}.

Lemma execute_input_words body scope signature :
  canonical_scope scope → length signature = 65%nat → body = execute_body scope signature →
  length body = 480%nat ∧ slice body 449 480 = zeros 31 ∧
  ∀ i word, scope_words scope !! i = Some word → word_at i body = word.
Proof.
  intros Hc Hs ->. pose proof (scope_words_length _ Hc) as Hw.
  assert (length (concat (scope_words scope)) = 384%nat) as Hl by apply (concat_words _ Hw).
  split_and!.
  - unfold execute_body. rewrite !length_app, Hl, Hs. done.
  - unfold execute_body, slice. rewrite app_assoc. rewrite drop_app_length' by (rewrite length_app; lia). done.
  - intros i word Hi. by apply word_of_body.
Qed.

(** What the decoder read, as words of the body. *)
Lemma decode_execute_words value s :
  decode_execute_input value = Ok s →
  canonical_scope s ∧ ∃ body,
    ev_bytes "transaction_input" false value = Ok (EXECUTE_SELECTOR ++ body) ∧
    length EXECUTE_SELECTOR = 4%nat ∧ length body = 480%nat ∧ slice body 449 480 = zeros 31 ∧
    map (λ i, word_at i body) (seq 0 12) = scope_words s.
Proof.
  intros Hd. unfold decode_execute_input in Hd.
  apply result_bind_Ok in Hd as (raw & Hraw & Hd).
  apply result_bind_Ok in Hd as (_ & Hsel%demand_Ok & Hd). cbv zeta in Hd.
  apply result_bind_Ok in Hd as (_ & Hlen%demand_Ok%Nat.eqb_eq & Hd).
  apply result_bind_Ok in Hd as (offset & Hoffset & Hd).
  apply result_bind_Ok in Hd as (_ & Ho%demand_Ok%Z.eqb_eq & Hd).
  apply result_bind_Ok in Hd as (size & Hsize & Hd).
  apply result_bind_Ok in Hd as (_ & Hs%demand_Ok%Z.eqb_eq & Hd).
  apply result_bind_Ok in Hd as (_ & Hpad%demand_Ok%bool_decide_eq_true & Hd).
  apply andb_true_iff in Hsel as [Hfour%Nat.leb_le Hsel%bool_decide_eq_true].
  apply result_bind_Ok in Hd as (h & [Hh ->]%word_bytes32_Ok & Hd).
  apply result_bind_Ok in Hd as (r & [Hr ->]%word_bytes32_Ok & Hd).
  apply result_bind_Ok in Hd as (o & (ow & Hoc & Hol & ->)%word_address_Ok & Hd).
  apply result_bind_Ok in Hd as (p & (pw & Hpc & Hpl & ->)%word_address_Ok & Hd).
  apply result_bind_Ok in Hd as (t & (tw & Htc & Htl & ->)%word_address_Ok & Hd).
  apply result_bind_Ok in Hd as (amount & [Hal ->]%word_uint_Ok & Hd).
  apply result_bind_Ok in Hd as (nonce & [Hnl ->]%word_uint_Ok & Hd).
  apply result_bind_Ok in Hd as (dl & [Hdl ->]%word_uint_Ok & Hd).
  apply result_bind_Ok in Hd as (epoch & [Hel ->]%word_uint_Ok & Hd).
  apply result_bind_Ok in Hd as (rel & (lw & Hlc & Hll & ->)%word_address_Ok & Hd).
  injection Hd as <-. subst offset size.
  apply word_uint_Ok in Hoffset as [Hol' Ho]. apply word_uint_Ok in Hsize as [Hsl' Hs].
  split.
  - unfold canonical_scope, hex_text. simpl. split_and!; first [by apply word_uint_bound|eexists; split; [|reflexivity]; done].
  - exists (drop 4 raw). rewrite <- Hsel, take_drop, length_take. split_and!; try done; [lia|].
    unfold scope_words, padded_address. cbn [cs_capability_hash cs_reservation_hash cs_owner cs_payee
      cs_token cs_amount cs_nonce cs_deadline cs_signer_epoch cs_relayer].
    rewrite !address_bytes_hex, !word_uint_bytes by done.
    rewrite <- Hol, <- Hpl, <- Htl, <- Hll. rewrite Ho, Hs, !word_uint_bytes by done. done.
Qed.

(** The decoder accepts exactly the canonical calldata. *)
Lemma decode_execute_exact value s :
  decode_execute_input value = Ok s ↔
  canonical_scope s ∧ ∃ signature, length signature = 65%nat ∧ length EXECUTE_SELECTOR = 4%nat ∧
    ev_bytes "transaction_input" false value = Ok (EXECUTE_SELECTOR ++ execute_body s signature).
Proof.
  split.
  - intros (Hc & body & Hv & Hsel & Hl & Hpad & Hw)%decode_execute_words. split; [done|].
    exists (slice body 384 449). split_and!; [|done|].
    + unfold slice. rewrite length_take, length_drop. lia.
    + rewrite Hv. do 2 f_equal. unfold execute_body. rewrite <- Hw, <- Hpad, slice_app by lia.
      rewrite (body_words 12 body) at 1 by lia. f_equal. unfold slice.
      symmetry. apply take_ge. rewrite length_drop. lia.
  - intros (Hc & signature & Hs & Hsel & Hv).
    destruct (execute_input_words _ s signature Hc Hs eq_refl) as (Hl & Hpad & Hw).
    remember (execute_body s signature) as body eqn:Hbody. clear Hbody.
    unfold decode_execute_input. rewrite Hv. cbn [mbind result_bind].
    rewrite (take_app_length' _ _ 4), (drop_app_length' _ _ 4) by done.
    rewrite length_app, Hsel, Hl, Hpad, !bool_decide_eq_true_2 by done.
    destruct Hc as ((h & Hh & Eh) & (r & Hr & Er) & (o & Ho & Eo) & (p & Hp & Ep) & (t & Ht & Et) &
          (l & Hll & El) & Ha & Hn & Hd & He).
    destruct s as [ch rh ow pa to am no dl ep rl]; simpl in Eh, Er, Eo, Ep, Et, El, Ha, Hn, Hd, He.
    subst ch rh ow pa to rl.
    assert (∀ i word, scope_words (MkScope ("0x" +:+ hex h) ("0x" +:+ hex r) ("0x" +:+ hex o)
      ("0x" +:+ hex p) ("0x" +:+ hex t) am no dl ep ("0x" +:+ hex l)) !! i = Some word →
      word_at i body = word) as Hw' by exact Hw. clear Hw.
    rewrite (Hw' 10%nat _ eq_refl), (word_uint_word _ 352) by lia. cbn [mbind result_bind].
    rewrite (Hw' 11%nat _ eq_refl), (word_uint_word _ 65) by lia. cbn [mbind result_bind].
    rewrite (Hw' 0%nat _ eq_refl), (Hw' 1%nat _ eq_refl), (Hw' 2%nat _ eq_refl),
      (Hw' 3%nat _ eq_refl), (Hw' 4%nat _ eq_refl), (Hw' 5%nat _ eq_refl), (Hw' 6%nat _ eq_refl),
      (Hw' 7%nat _ eq_refl), (Hw' 8%nat _ eq_refl), (Hw' 9%nat _ eq_refl).
    cbn [cs_capability_hash cs_reservation_hash cs_owner cs_payee cs_token cs_amount cs_nonce
      cs_deadline cs_signer_epoch cs_relayer]. unfold padded_address. rewrite !address_bytes_hex.
    rewrite !word_bytes32_of, !word_address_of, !word_uint_word by done. done.
Qed.
End Call.

(** ** The call the relayer signs *)

(** A validated text, and the bytes its digits spell. *)
Lemma prefixed_bytes n s :
  is_prefixed is_hex (2 * Z.of_nat n) s = true →
  ∃ digits bs, s = String "0" (String "x" digits) ∧ from_hex digits = Some bs ∧ length bs = n ∧
    lower s = "0x" +:+ hex bs.
Proof.
  unfold is_prefixed. destruct s as [|c0 [|c1 digits]]; try done. intros Hp. bool_inv.
  repeat match goal with H : Ascii.eqb _ _ = true |- _ => apply Ascii.eqb_eq in H end. subst.
  destruct (from_hex_digits n digits) as (bs & Hbs & Hl & Hx); [done|unfold str_len in *; lia|].
  exists digits, bs. split_and!; try done. cbn [lower]. by rewrite <- Hx.
Qed.
Lemma evm_bytes32_prefixed field s bs :
  is_prefixed is_hex 64 s = true → evm_bytes32 field s = Ok bs →
  length bs = 32%nat ∧ ev_hash field (PStr s) = Ok ("0x" +:+ hex bs).
Proof.
  intros Hp He. destruct (prefixed_bytes 32 s Hp) as (digits & bs' & -> & Hbs & Hl & Hlow).
  assert (bs' = bs) as ->.
  { unfold evm_bytes32, evm_bytes in He. rewrite Hbs in He. txn_inv. done. }
  split; [done|]. unfold ev_hash. rewrite Hp, Hlow. done.
Qed.
Lemma evm_address_prefixed field field' s a :
  is_prefixed is_hex 40 s = true → evm_address field s = Ok a →
  hex_text 20 a ∧ ev_address field' (PStr s) = Ok a.
Proof.
  intros Hp He. destruct (prefixed_bytes 20 s Hp) as (digits & bs & -> & Hbs & Hl & Hlow).
  assert (a = "0x" +:+ hex bs) as ->.
  { unfold evm_address in He. rewrite Hbs in He. txn_inv. done. }
  split; [by exists bs|]. unfold ev_address. rewrite Hp, Hlow. done.
Qed.

Definition scope_values (s : CallScope) : list abi_value :=
  [ABytes (address_bytes (cs_capability_hash s)); ABytes (address_bytes (cs_reservation_hash s));
   AAddress (cs_owner s); AAddress (cs_payee s); AAddress (cs_token s); AUint (cs_amount s);
   AUint (cs_nonce s); AUint (cs_deadline s); AUint (cs_signer_epoch s); AAddress (cs_relayer s)].

Section Authorization.
Context (relayer : HostedRelayer).

Lemma intent_texts i :
  make_intent i = Ok i →
  is_prefixed is_hex 64 (capability_hash i) = true ∧ is_prefixed is_hex 64 (reservation_hash i) = true ∧
  is_prefixed is_hex 40 (owner i) = true ∧ is_prefixed is_hex 40 (payee i) = true ∧
  is_prefixed is_hex 40 (token i) = true ∧ is_prefixed is_hex 40 (relayer_address i) = true.
Proof.
  assert (∀ f v x, validate_hash f (HashStr v) = Ok x → is_prefixed is_hex 64 v = true) as Hh.
  { unfold validate_hash. intros. by txn_inv. }
  assert (∀ f v x, validate_address f v = Ok x → is_prefixed is_hex 40 v = true) as Ha.
  { unfold validate_address. intros. by txn_inv. }
  intros Hi. unfold make_intent in Hi.
  repeat (let v := fresh "v" in let Hv := fresh "Hv" in apply result_bind_Ok in Hi as (v & Hv & Hi)).
  split_and!; first [by eapply Hh|by eapply Ha].
Qed.

Lemma authorization_scope i authorization :
  make_intent i = Ok i → relayer_authorization relayer i = Ok authorization →
  ∃ s, expected_scope i = Ok s ∧ canonical_scope s ∧ execution_values authorization = scope_values s.
Proof.
  intros (Hc & Hr & Ho & Hp & Ht & Hl)%intent_texts Ha.
  unfold relayer_authorization, make_authorization in Ha.
  apply result_bind_Ok in Ha as (cap & Hcap & Ha). apply result_bind_Ok in Ha as (res & Hres & Ha).
  apply result_bind_Ok in Ha as (_ & _ & Ha). apply result_bind_Ok in Ha as (_ & _ & Ha).
  apply result_bind_Ok in Ha as (ow & How & Ha). apply result_bind_Ok in Ha as (pa & Hpa & Ha).
  apply result_bind_Ok in Ha as (rl & Hrl & Ha). apply result_bind_Ok in Ha as (tk & Htk & Ha).
  apply result_bind_Ok in Ha as (cid & _ & Ha). apply result_bind_Ok in Ha as (_ & _ & Ha).
  apply result_bind_Ok in Ha as (am & (-> & Ham & _)%evm_uint_Ok & Ha).
  apply result_bind_Ok in Ha as (no & (-> & Hno & _)%evm_uint_Ok & Ha).
  apply result_bind_Ok in Ha as (dl & (-> & Hdl & _)%evm_uint_Ok & Ha).
  apply result_bind_Ok in Ha as (ep & (-> & Hep & _)%evm_uint_Ok & Ha). injection Ha as <-.
  destruct (evm_bytes32_prefixed _ _ _ Hc Hcap) as [Hcl Hc'].
  destruct (evm_bytes32_prefixed _ _ _ Hr Hres) as [Hrl' Hr'].
  destruct (evm_address_prefixed _ "owner" _ _ Ho How) as [Hox Ho'].
  destruct (evm_address_prefixed _ "payee" _ _ Hp Hpa) as [Hpx Hp'].
  destruct (evm_address_prefixed _ "token" _ _ Ht Htk) as [Htx Ht'].
  destruct (evm_address_prefixed _ "relayer_address" _ _ Hl Hrl) as [Hlx Hl'].
  eexists. split; [|split].
  - unfold expected_scope. rewrite Hc', Hr', Ho', Hp', Ht', Hl'. reflexivity.
  - unfold canonical_scope, UINT256_MAX in *. simpl. split_and!; first [done|lia|eexists; split; [|reflexivity]; done].
  - unfold execution_values, scope_values.
    cbn [cs_capability_hash cs_reservation_hash cs_owner cs_payee cs_token cs_amount cs_nonce
      cs_deadline cs_signer_epoch cs_relayer]. by rewrite !address_bytes_hex.
Qed.
End Authorization.

(** [eth_abi.encode] lays out the arguments of [execute] canonically: ten static
    words, the offset and the length of the signature, the signature padded to a
    whole number of words. *)
Definition abi_canonical `{AbiEncode} : Prop := ∀ s signature,
  canonical_scope s → length signature = 65%nat →
  abi_encode [EXECUTION_TUPLE; "bytes"] [ATuple (scope_values s); ABytes signature]
  = execute_body s signature.

(** ** What the node showed *)

(** The readers, whatever they name the field in an error. *)
Definition reads_hash (v : pyval) (h : string) : Prop := ∃ field, ev_hash field v = Ok h.
Definition reads_address (v : pyval) (a : string) : Prop := ∃ field, ev_address field v = Ok a.
Definition reads_quantity (v : pyval) (n : Z) : Prop := ∃ field, ev_quantity field v = Ok n.
Definition reads_bytes (v : pyval) (bs : bytes) : Prop := ∃ field e, ev_bytes field e v = Ok bs.

Lemma ev_hash_field f f' v h : ev_hash f v = Ok h → ev_hash f' v = Ok h.
Proof. unfold ev_hash, demand. destruct v; try done. by destruct (is_prefixed _ _ _). Qed.
Lemma ev_address_field f f' v a : ev_address f v = Ok a → ev_address f' v = Ok a.
Proof. unfold ev_address, demand. destruct v; try done. by destruct (is_prefixed _ _ _). Qed.

Lemma ev_hash_lower f s h : ev_hash f (PStr s) = Ok h → h = lower s.
Proof. unfold ev_hash, demand. destruct (is_prefixed _ _ _); [by intros [= <-]|done]. Qed.

(** The scope of an execution, field by field. *)
Lemma scope_reads i s f :
  expected_scope i = Ok s →
  ev_hash f (PStr (capability_hash i)) = Ok (cs_capability_hash s) ∧
  ev_hash f (PStr (reservation_hash i)) = Ok (cs_reservation_hash s) ∧
  ev_address f (PStr (owner i)) = Ok (cs_owner s) ∧ ev_address f (PStr (payee i)) = Ok (cs_payee s) ∧
  ev_address f (PStr (token i)) = Ok (cs_token s) ∧
  ev_address f (PStr (relayer_address i)) = Ok (cs_relayer s) ∧
  cs_amount s = digits_value 0 (amount_atomic i) ∧ cs_nonce s = owner_nonce i ∧
  cs_deadline s = deadline i ∧ cs_signer_epoch s = signer_epoch i.
Proof.
  unfold expected_scope. intros. txn_inv.
  cbn [cs_capability_hash cs_reservation_hash cs_owner cs_payee cs_token cs_amount cs_nonce
    cs_deadline cs_signer_epoch cs_relayer].
  split_and!; first [done|eapply ev_hash_field; eassumption|eapply ev_address_field; eassumption].
Qed.

(** A payment the executor logged: the scope byte for byte, and a signer. *)
Record payment_log (executor : string) (s : CallScope) (log : pydict) : Prop := {
  pl_address : reads_address (dict_get log "address") executor;
  pl_topics : ∃ named capability reservation owner_topic,
    dict_get log "topics" = PList [named; capability; reservation; owner_topic] ∧
    reads_hash named PAYMENT_EVENT_TOPIC ∧ reads_hash capability (cs_capability_hash s) ∧
    reads_hash reservation (cs_reservation_hash s) ∧
    reads_bytes owner_topic (padded_address (cs_owner s));
  pl_data : ∃ signer, length signer = 20%nat ∧ signer ≠ zeros 20 ∧
    reads_bytes (dict_get log "data") (concat
      [padded_address (cs_payee s); padded_address (cs_token s); be_bytes 32 (cs_amount s);
       be_bytes 32 (cs_nonce s); be_bytes 32 (cs_deadline s); zeros 12 ++ signer;
       be_bytes 32 (cs_signer_epoch s); padded_address (cs_relayer s)]);
}.
(** A transfer the token logged. *)
Record transfer_log (token : string) (s : CallScope) (log : pydict) : Prop := {
  tl_address : reads_address (dict_get log "address") token;
  tl_topics : ∃ named sender recipient, dict_get log "topics" = PList [named; sender; recipient] ∧
    reads_hash named TRANSFER_EVENT_TOPIC ∧ reads_bytes sender (padded_address (cs_owner s)) ∧
    reads_bytes recipient (padded_address (cs_payee s));
  tl_data : reads_bytes (dict_get log "data") (be_bytes 32 (cs_amount s));
}.

Lemma same_hash_true f left h :
  same_hash f left (PStr h) = Ok true → ∃ r, ev_hash f (PStr h) = Ok r ∧ reads_hash left r.
Proof.
  unfold same_hash. intros Hs. apply result_bind_Ok in Hs as (l & Hl & Hs).
  apply result_bind_Ok in Hs as (r & Hr & Hs). injection Hs as Hs%bool_decide_eq_true. subst l.
  exists r. split; [done|by exists f].
Qed.
Lemma event_topics_Ok reason n log topics :
  event_topics reason n log = Ok topics → dict_get log "topics" = PList topics ∧ length topics = n.
Proof.
  unfold event_topics. case_match; try done. intros Ht.
  apply result_bind_Ok in Ht as (_ & Hn%demand_Ok%Nat.eqb_eq & [= <-]). done.
Qed.
(** An address read from a word, and the word. *)
Lemma word_address_word f v a : word_address f v = Ok a → v = padded_address a.
Proof. intros (raw & _ & -> & ->)%word_address_Ok. unfold padded_address. by rewrite address_bytes_hex. Qed.
Lemma word_uint_is f v n : word_uint f v = Ok n → v = be_bytes 32 n.
Proof. intros [Hl ->]%word_uint_Ok. by rewrite word_uint_bytes. Qed.

Lemma payment_topic_text f r : ev_hash f (PStr PAYMENT_EVENT_TOPIC) = Ok r → r = PAYMENT_EVENT_TOPIC.
Proof. intros Hr%(ev_hash_field _ ""). vm_compute in Hr. injection Hr as <-. reflexivity. Qed.
Lemma transfer_topic_text f r : ev_hash f (PStr TRANSFER_EVENT_TOPIC) = Ok r → r = TRANSFER_EVENT_TOPIC.
Proof. intros Hr%(ev_hash_field _ ""). vm_compute in Hr. injection Hr as <-. reflexivity. Qed.

(** The two decoders, on an execution of the scope. *)
Lemma decode_payment_shows log i s a :
  expected_scope i = Ok s → ev_address "" (PStr (executor i)) = Ok a →
  decode_payment_event log i = Ok true → payment_log a s log.
Proof.
  intros Hs Ha Hd. unfold decode_payment_event in Hd. cbv zeta in Hd.
  destruct (scope_reads i s "" Hs) as (Hc & Hr & Ho & Hp & Ht & Hl & Ham & Hno & Hdl & Hep).
  apply result_bind_Ok in Hd as (address & Haddr & Hd).
  rewrite (ev_address_field _ _ _ _ Ha) in Hd. cbn [mbind result_bind] in Hd.
  case_bool_decide as Hsame; [subst address|done]. cbn [negb] in Hd.
  apply result_bind_Ok in Hd as (topics & [Htop Hlen]%event_topics_Ok & Hd).
  destruct topics as [|t0 [|t1 [|t2 [|t3 [|]]]]]; try done. unfold topic in Hd. cbn [nth] in Hd.
  apply result_bind_Ok in Hd as ([|] & Hnamed & Hd); [|done]. cbn [negb] in Hd.
  apply result_bind_Ok in Hd as (b1 & Hcap & Hd).
  apply result_bind_Ok in Hd as (_ & ->%demand_Ok & Hd).
  apply result_bind_Ok in Hd as (b2 & Hres & Hd).
  apply result_bind_Ok in Hd as (_ & ->%demand_Ok & Hd).
  apply result_bind_Ok in Hd as (ow & How & Hd).
  apply result_bind_Ok in Hd as (ot & Hot%word_address_word & Hd). subst ow.
  rewrite (ev_address_field _ _ _ _ Ho) in Hd. cbn [mbind result_bind] in Hd.
  apply result_bind_Ok in Hd as (_ & ->%demand_Ok%bool_decide_eq_true & Hd).
  apply result_bind_Ok in Hd as (data & Hdata & Hd).
  apply result_bind_Ok in Hd as (_ & Hdlen%demand_Ok%Nat.eqb_eq & Hd).
  apply result_bind_Ok in Hd as (epa & Hw0%word_address_word & Hd).
  apply result_bind_Ok in Hd as (etk & Hw1%word_address_word & Hd).
  apply result_bind_Ok in Hd as (eam & Hw2%word_uint_is & Hd).
  apply result_bind_Ok in Hd as (eno & Hw3%word_uint_is & Hd).
  apply result_bind_Ok in Hd as (edl & Hw4%word_uint_is & Hd).
  apply result_bind_Ok in Hd as (esg & (signer & Hsl & Hw5 & ->)%word_address_Ok & Hd).
  apply result_bind_Ok in Hd as (eep & Hw6%word_uint_is & Hd).
  apply result_bind_Ok in Hd as (erl & Hw7%word_address_word & Hd).
  apply result_bind_Ok in Hd as (_ & Hsg%demand_Ok & Hd).
  rewrite (ev_address_field _ _ _ _ Hp) in Hd. cbn [mbind result_bind] in Hd.
  apply result_bind_Ok in Hd as (_ & ->%demand_Ok%bool_decide_eq_true & Hd).
  rewrite (ev_address_field _ _ _ _ Ht) in Hd. cbn [mbind result_bind] in Hd.
  apply result_bind_Ok in Hd as (_ & Hm%demand_Ok & Hd). bool_inv. subst.
  rewrite (ev_address_field _ _ _ _ Hl) in Hd. cbn [mbind result_bind] in Hd.
  apply result_bind_Ok in Hd as (_ & ->%demand_Ok%bool_decide_eq_true & Hd).
  split.
  - by exists "event_address".
  - exists t0, t1, t2, t3. split; [done|]. split_and!.
    + apply same_hash_true in Hnamed as (r & ->%payment_topic_text & ?). done.
    + apply same_hash_true in Hcap as (r & Hcap & ?).
      rewrite (ev_hash_field _ _ _ _ Hc) in Hcap. by injection Hcap as <-.
    + apply same_hash_true in Hres as (r & Hres & ?).
      rewrite (ev_hash_field _ _ _ _ Hr) in Hres. by injection Hres as <-.
    + by do 2 eexists.
  - exists signer. split_and!; [done| |].
    + intros ->. by apply Hsg.
    + do 2 eexists. rewrite Hdata. f_equal.
      rewrite (body_words 8 data) by lia. rewrite drop_ge, app_nil_r by lia. f_equal.
      cbn [seq map]. rewrite Hw0, Hw1, Hw2, Hw3, Hw4, Hw5, Hw6, Hw7. congruence.
Qed.

Lemma decode_transfer_shows log i s :
  expected_scope i = Ok s → decode_transfer_event log i = Ok true → transfer_log (cs_token s) s log.
Proof.
  intros Hs Hd. unfold decode_transfer_event in Hd.
  destruct (scope_reads i s "" Hs) as (_ & _ & Ho & Hp & Ht & _ & Ham & _).
  apply result_bind_Ok in Hd as (address & Haddr & Hd).
  rewrite (ev_address_field _ _ _ _ Ht) in Hd. cbn [mbind result_bind] in Hd.
  case_bool_decide as Hsame; [subst address|done]. cbn [negb] in Hd.
  apply result_bind_Ok in Hd as (topics & [Htop Hlen]%event_topics_Ok & Hd).
  destruct topics as [|t0 [|t1 [|t2 [|]]]]; try done. unfold topic in Hd. cbn [nth] in Hd.
  apply result_bind_Ok in Hd as ([|] & Hnamed & Hd); [|done]. cbn [negb] in Hd.
  apply result_bind_Ok in Hd as (fw & Hfw & Hd).
  apply result_bind_Ok in Hd as (from & Hf%word_address_word & Hd). subst fw.
  apply result_bind_Ok in Hd as (rw & Hrw & Hd).
  apply result_bind_Ok in Hd as (recipient & Hr%word_address_word & Hd). subst rw.
  apply result_bind_Ok in Hd as (data & Hdata & Hd).
  apply result_bind_Ok in Hd as (_ & _ & Hd).
  apply result_bind_Ok in Hd as (amount & Ha%word_uint_is & Hd). subst data.
  rewrite (ev_address_field _ _ _ _ Ho) in Hd. cbn [mbind result_bind] in Hd.
  apply result_bind_Ok in Hd as (_ & ->%demand_Ok%bool_decide_eq_true & Hd).
  rewrite (ev_address_field _ _ _ _ Hp) in Hd. cbn [mbind result_bind] in Hd.
  apply result_bind_Ok in Hd as (_ & Hm%demand_Ok & Hd). bool_inv. subst.
  split.
  - by exists "transfer_event_address".
  - exists t0, t1, t2. split; [done|]. split_and!; [|by do 2 eexists..].
    apply same_hash_true in Hnamed as (r & ->%transfer_topic_text & ?). done.
  - rewrite Ham. by do 2 eexists.
Qed.

(** Digits after digits; and the text of an address or a hash without its [0x]. *)
Lemma hex_app bs cs : hex (bs ++ cs) = hex bs +:+ hex cs.
Proof. induction bs as [|b bs IH]; [done|]. cbn [hex app]. rewrite IH. done. Qed.
Lemma without_prefix_text n s : hex_text n s → without_prefix s = hex (address_bytes s).
Proof.
  intros (bs & _ & ->). rewrite address_bytes_hex. unfold without_prefix.
  change (String.substring 0 (String.length (hex bs) - 0) (hex bs) = hex bs).
  rewrite Nat.sub_0_r. apply substring_all.
Qed.
Lemma ev_hash_text f s h : ev_hash f (PStr s) = Ok h → hex_text 32 h.
Proof.
  unfold ev_hash. intros Hh. apply result_bind_Ok in Hh as (_ & Hp%demand_Ok & [= <-]).
  destruct (prefixed_bytes 32 s Hp) as (_ & bs & _ & _ & Hl & ->). by exists bs.
Qed.
Lemma ev_address_text f s a : ev_address f (PStr s) = Ok a → hex_text 20 a.
Proof.
  unfold ev_address. intros Hh. apply result_bind_Ok in Hh as (_ & Hp%demand_Ok & [= <-]).
  destruct (prefixed_bytes 20 s Hp) as (_ & bs & _ & _ & Hl & ->). by exists bs.
Qed.

Section Shown.
Context `{Keccak} (watcher : HostedChainWatcher) (rpc : nat → string → list pyval → result pyval).

(** The reported transaction is the execution's call of the executor, byte for byte. *)
Record names_call (e : HostedExecution) (s : CallScope) (h : string) (tx : pydict) : Prop := {
  nc_hash : reads_hash (dict_get tx "hash") (lower h);
  nc_to : reads_address (dict_get tx "to") (hw_executor watcher);
  nc_from : reads_address (dict_get tx "from") (cs_relayer s);
  nc_nonce : reads_quantity (dict_get tx "nonce") (he_relayer_nonce e);
  nc_value : reads_quantity (dict_get tx "value") 0;
  nc_type : reads_quantity (dict_get tx "type") 2;
  nc_chain : reads_quantity (dict_get tx "chainId") (hw_chain_id watcher);
  nc_input : ∃ signature, length signature = 65%nat ∧
    reads_bytes (dict_get tx "input") (EXECUTE_SELECTOR ++ execute_body s signature);
}.
(** It was mined in the canonical block of its height, with the status reported. *)
Record mined (h : string) (tx receipt : pydict) (ce : ChainEvidence) : Prop := {
  mn_receipt : reads_hash (dict_get receipt "transactionHash") (lower h);
  mn_status : reads_quantity (dict_get receipt "status") (ce_receipt_status ce);
  mn_block : reads_quantity (dict_get receipt "blockNumber") (ce_receipt_block_number ce) ∧
    reads_hash (dict_get receipt "blockHash") (ce_receipt_block_hash ce) ∧
    reads_quantity (dict_get tx "blockNumber") (ce_receipt_block_number ce) ∧
    reads_hash (dict_get tx "blockHash") (ce_receipt_block_hash ce);
  mn_canonical : ∃ block,
    rpc 3 "eth_getBlockByNumber" [PStr (py_hex (ce_receipt_block_number ce)); PBool false]
      = Ok (PDict block) ∧
    reads_quantity (dict_get block "number") (ce_receipt_block_number ce) ∧
    reads_hash (dict_get block "hash") (ce_receipt_block_hash ce);
}.
(** The block behind the finality boundary is far enough behind it. *)
Definition settled (ce : ChainEvidence) : Prop := ∃ boundary,
  rpc 4 "eth_getBlockByNumber" [PStr (hw_finality_boundary watcher); PBool false]
    = Ok (PDict boundary) ∧
  reads_quantity (dict_get boundary "number") (ce_safe_block_number ce) ∧
  reads_hash (dict_get boundary "hash") (ce_safe_block_hash ce) ∧
  reads_quantity (dict_get boundary "timestamp") (ce_finality_boundary_timestamp ce) ∧
  ce_confirmations ce = ce_safe_block_number ce - ce_receipt_block_number ce ∧
  ce_receipt_block_number ce <= ce_safe_block_number ce ∧
  hw_confirmation_depth watcher <= ce_confirmations ce.
(** The executor has, or has not, consumed the capability and the owner's nonce. *)
Definition consumed (s : CallScope) (boundary : string) (used : bool) : Prop :=
  let answer v := ∃ bs, reads_bytes v bs ∧ be_value bs = (if used then 1 else 0) ∧ length bs = 32%nat in
  let ask n data v := rpc n "eth_call"
    [PDict [("to", PStr (hw_executor watcher)); ("data", PStr ("0x" +:+ hex data))]; PStr boundary]
    = Ok v ∧ answer v in
  (∃ v, ask 7%nat (USED_CAPABILITY_SELECTOR ++ address_bytes (cs_capability_hash s)) v) ∧
  (∃ v, ask 8%nat (USED_NONCE_SELECTOR ++ padded_address (cs_owner s) ++ be_bytes 32 (cs_nonce s)) v).

(** The receipt proves the payment, or excludes it. *)
Definition proves_payment (s : CallScope) (receipt : pydict) (boundary : string) : Prop :=
  consumed s boundary true ∧ ∃ logs paid moved, dict_get receipt "logs" = PList logs ∧
    PDict paid ∈ logs ∧ payment_log (hw_executor watcher) s paid ∧
    PDict moved ∈ logs ∧ transfer_log (hw_token watcher) s moved.
Definition excludes_payment (s : CallScope) (receipt : pydict) (boundary : string) : Prop :=
  consumed s boundary false ∧ ∃ logs, dict_get receipt "logs" = PList logs ∧
    ∀ log, PDict log ∈ logs →
      emitted_by PAYMENT_EVENT_TOPIC (hw_executor watcher) log = false ∧
      emitted_by TRANSFER_EVENT_TOPIC (hw_token watcher) log = false.

(** What the answers of the node say about an execution. *)
Definition chain_shows (e : HostedExecution) (ce : ChainEvidence) : Prop :=
  ∃ s h tx receipt,
    expected_scope (he_intent e) = Ok s ∧ chain (he_intent e) = hw_chain watcher ∧
    cs_token s = hw_token watcher ∧ he_raw_transaction_hash e = Some h ∧
    rpc 1 "eth_getTransactionByHash" [PStr (lower h)] = Ok (PDict tx) ∧
    rpc 2 "eth_getTransactionReceipt" [PStr (lower h)] = Ok (PDict receipt) ∧
    names_call e s h tx ∧ mined h tx receipt ce ∧ settled ce ∧
    let boundary := py_hex (ce_safe_block_number ce) in
    (ce_receipt_status ce = 1 ∧ proves_payment s receipt boundary ∨
     ce_receipt_status ce = 0 ∧ excludes_payment s receipt boundary).

Lemma node_call_Ok n method params v :
  node_call rpc n method params = Ok v → rpc n method params = Ok v.
Proof. unfold node_call. by destruct (rpc n method params). Qed.
Lemma rpc_mapping_Ok reason v d : rpc_mapping reason v = Ok d → v = PDict d.
Proof. unfold rpc_mapping. case_match; try done. by intros [= ->]. Qed.

(** One step of a computation that returned. *)
Ltac step H :=
  let v := fresh "v" in let E := fresh "E" in
  apply result_bind_Ok in H as (v & E & H);
  first
    [ apply demand_Ok in E | apply require_Ok in E as [E _] | apply node_call_Ok in E
    | apply rpc_mapping_Ok in E; subst | idtac ].

Lemma check_scope_shows e tx_hash from :
  check_scope watcher rpc e = Ok (tx_hash, from) →
  ∃ h, he_raw_transaction_hash e = Some h ∧ tx_hash = lower h ∧
    chain (he_intent e) = hw_chain watcher ∧
    ev_address "" (PStr (token (he_intent e))) = Ok (hw_token watcher) ∧
    ev_address "" (PStr (executor (he_intent e))) = Ok (hw_executor watcher) ∧
    ev_address "" (PStr (relayer_address (he_intent e))) = Ok from.
Proof.
  intros Hc. unfold check_scope in Hc. cbv zeta in Hc. do 12 step Hc. injection Hc as <- <-.
  repeat match goal with E : from_option_or _ _ = Ok _ |- _ => apply from_option_or_Ok in E end.
  bool_inv. subst. eexists. split; [eassumption|]. split_and!; try done.
  - by eapply ev_hash_lower.
  - by eapply ev_address_field.
  - by eapply ev_address_field.
  - by eapply ev_address_field.
Qed.

Lemma check_transaction_shows e h from tx receipt :
  check_transaction watcher rpc e (lower h) from = Ok (tx, receipt) →
  ev_address "" (PStr (relayer_address (he_intent e))) = Ok from →
  ∃ s, expected_scope (he_intent e) = Ok s ∧
    rpc 1 "eth_getTransactionByHash" [PStr (lower h)] = Ok (PDict tx) ∧
    rpc 2 "eth_getTransactionReceipt" [PStr (lower h)] = Ok (PDict receipt) ∧
    names_call e s h tx ∧ reads_hash (dict_get receipt "transactionHash") (lower h).
Proof.
  intros Hc Hfrom. unfold check_transaction in Hc. do 22 step Hc. injection Hc as <- <-.
  bool_inv. subst.
  match goal with E : match_execution ?d _ = Ok _ |- _ =>
    rename E into Hm; rename d into s end.
  unfold match_execution in Hm. step Hm. apply demand_Ok in Hm. bool_inv. subst.
  match goal with E : decode_execute_input _ = Ok _ |- _ =>
    apply decode_execute_exact in E as (_ & signature & Hl & _ & Hin) end.
  match goal with E : expected_scope _ = Ok ?s |- _ => exists s; rename E into Hs end.
  destruct (scope_reads _ _ "" Hs) as (_ & _ & _ & _ & _ & Hrel & _).
  rewrite Hrel in Hfrom. injection Hfrom as <-.
  split_and!; try done; [|by eexists].
  split; try by eexists. exists signature. split; [done|by do 2 eexists].
Qed.

Lemma check_receipt_shows detect tx receipt rb :
  check_receipt detect tx receipt = Ok rb →
  reads_quantity (dict_get receipt "blockNumber") (rb_number rb) ∧
  reads_hash (dict_get receipt "blockHash") (rb_hash rb) ∧
  reads_quantity (dict_get receipt "status") (rb_status rb) ∧
  reads_quantity (dict_get tx "blockNumber") (rb_number rb) ∧
  reads_hash (dict_get tx "blockHash") (rb_hash rb) ∧ (rb_status rb = 0 ∨ rb_status rb = 1).
Proof.
  intros Hc. unfold check_receipt in Hc. do 7 step Hc. injection Hc as <-. bool_inv. subst.
  cbn [rb_number rb_hash rb_status].
  match goal with H : _ ∈ [0; 1] |- _ => rename H into Hs end.
  split_and!; try by eexists. list_cases; auto.
Qed.

Lemma check_block_shows v n h :
  check_block v n h = Ok tt →
  ∃ block, v = PDict block ∧ reads_quantity (dict_get block "number") n ∧
    reads_hash (dict_get block "hash") h.
Proof.
  intros Hc. unfold check_block in Hc. do 3 step Hc. apply demand_Ok in Hc. bool_inv. subst.
  eexists. split; [done|]. split; by eexists.
Qed.
Lemma block_changed_Ok detect r u : block_changed detect r = Ok u → r = Ok tt.
Proof.
  unfold block_changed. destruct r as [[]|e]; [done|]. destruct e; try done. by destruct (_ && _).
Qed.

Lemma check_finality_shows detect e rb bd :
  check_finality watcher rpc detect e rb = Ok bd →
  (∃ block, rpc 3 "eth_getBlockByNumber" [PStr (py_hex (rb_number rb)); PBool false] = Ok (PDict block) ∧
     reads_quantity (dict_get block "number") (rb_number rb) ∧
     reads_hash (dict_get block "hash") (rb_hash rb)) ∧
  (∃ boundary, rpc 4 "eth_getBlockByNumber" [PStr (hw_finality_boundary watcher); PBool false]
       = Ok (PDict boundary) ∧
     reads_quantity (dict_get boundary "number") (bd_number bd) ∧
     reads_hash (dict_get boundary "hash") (bd_hash bd) ∧
     reads_quantity (dict_get boundary "timestamp") (bd_timestamp bd)) ∧
  rb_number rb <= bd_number bd ∧ hw_confirmation_depth watcher <= bd_number bd - rb_number rb.
Proof.
  intros Hc. unfold check_finality in Hc. cbv zeta in Hc. do 9 step Hc. injection Hc as <-.
  match goal with E : block_changed _ _ = Ok _ |- _ =>
    apply block_changed_Ok, check_block_shows in E as (block & -> & ? & ?) end.
  bool_inv. cbn [bd_number bd_hash bd_timestamp].
  split_and!; [by eexists| |lia|lia]. eexists. split; [eassumption|]. split_and!; by eexists.
Qed.

Lemma decode_bool_shows field v b :
  decode_bool field v = Ok b →
  ∃ bs, reads_bytes v bs ∧ be_value bs = (if b : bool then 1 else 0) ∧ length bs = 32%nat.
Proof.
  intros Hd. unfold decode_bool in Hd. do 3 step Hd. injection Hd as <-. bool_inv.
  match goal with E : ev_bytes _ _ _ = Ok ?raw |- _ => exists raw end.
  split_and!; [by do 2 eexists| |by apply Nat.eqb_eq].
  match goal with H : _ ∈ [0; 1] |- _ => rename H into Hs end.
  list_cases; rewrite Hs; reflexivity.
Qed.

Lemma check_used_shows i s boundary used nonce_used :
  expected_scope i = Ok s → check_used watcher rpc i boundary = Ok (used, nonce_used) →
  used = nonce_used → consumed s boundary used.
Proof.
  intros Hs Hc <-. destruct (scope_reads _ _ "" Hs) as (Hcap & _ & Ho & _ & _ & _ & _ & Hn & _).
  unfold check_used in Hc. rewrite (ev_hash_field _ _ _ _ Hcap) in Hc. cbn [mbind result_bind] in Hc.
  do 2 step Hc. rewrite (ev_address_field _ _ _ _ Ho) in Hc. cbn [mbind result_bind] in Hc.
  do 2 step Hc. injection Hc as <- <-.
  repeat match goal with E : decode_bool _ _ = Ok _ |- _ => apply decode_bool_shows in E end.
  pose proof (without_prefix_text 32 _ (ev_hash_text _ _ _ Hcap)) as Hcw.
  pose proof (without_prefix_text 20 _ (ev_address_text _ _ _ Ho)) as How.
  split; eexists; split.
  - rewrite hex_app, <- Hcw. eassumption.
  - eassumption.
  - unfold padded_address. rewrite !hex_app, <- How, Hn. eassumption.
  - eassumption.
Qed.

(** The logs that are looked at, and the events found in them. *)
Lemma log_mappings_Ok logs ds : log_mappings logs = Ok ds → logs = map PDict ds.
Proof.
  revert ds. induction logs as [|log logs IH]; intros ds Hl; [by injection Hl as <-|].
  cbn [log_mappings] in Hl. do 2 step Hl. injection Hl as <-. simpl. f_equal. by apply IH.
Qed.
Lemma single_event_Ok invalid decode ds b :
  single_event invalid decode ds = Ok b →
  (b = true ∧ ∃ log, log ∈ ds ∧ decode log = Ok true) ∨ (b = false ∧ ds = []).
Proof.
  unfold single_event. destruct ds as [|log ds]; intros Hs; [right; split; congruence|].
  do 2 step Hs. injection Hs as <-. left. subst. split; [done|]. exists log.
  split; [left|congruence].
Qed.

Lemma matching_event invalid decode (p : pydict → bool) logs b :
  single_event invalid decode (filter (λ log, p log = true) logs) = Ok b →
  (b = true → ∃ log, log ∈ logs ∧ decode log = Ok true) ∧
  (b = false → ∀ log, log ∈ logs → p log = false).
Proof.
  intros [(-> & log & [_ Hin]%list_elem_of_filter & Hd)|[-> Hnil]]%single_event_Ok; split; try done.
  - intros _. by exists log.
  - intros _ log Hin. apply not_true_is_false. intros Hp.
    assert (log ∈ filter (λ log, p log = true) logs) as Hf by by apply list_elem_of_filter.
    rewrite Hnil in Hf. by apply elem_of_nil in Hf.
Qed.

Lemma check_events_shows i s receipt payment transfer :
  expected_scope i = Ok s → ev_address "" (PStr (executor i)) = Ok (hw_executor watcher) →
  cs_token s = hw_token watcher → check_events watcher i receipt = Ok (payment, transfer) →
  ∃ logs, dict_get receipt "logs" = PList (map PDict logs) ∧
    (payment = true → ∃ log, log ∈ logs ∧ payment_log (hw_executor watcher) s log) ∧
    (payment = false → ∀ log, log ∈ logs →
       emitted_by PAYMENT_EVENT_TOPIC (hw_executor watcher) log = false) ∧
    (transfer = true → ∃ log, log ∈ logs ∧ transfer_log (hw_token watcher) s log) ∧
    (transfer = false → ∀ log, log ∈ logs →
       emitted_by TRANSFER_EVENT_TOPIC (hw_token watcher) log = false).
Proof.
  intros Hs Ha Ht Hc. unfold check_events in Hc.
  destruct (dict_get receipt "logs") as [| | | |logs|] eqn:Elogs; try done. cbv zeta in Hc.
  apply result_bind_Ok in Hc as (ds & ->%log_mappings_Ok & Hc). do 2 step Hc.
  apply result_bind_Ok in Hc as (b & [Hp Hp']%matching_event & Hc).
  apply result_bind_Ok in Hc as (b' & [Hm Hm']%matching_event & Hc). injection Hc as <- <-.
  exists ds. split; [done|]. split_and!; [|done| |done].
  - intros (log & Hin & Hd)%Hp. exists log. split; [done|]. by eapply decode_payment_shows.
  - intros (log & Hin & Hd)%Hm. exists log. split; [done|]. rewrite <- Ht. by eapply decode_transfer_shows.
Qed.

(** ** Observations *)

(** Evidence that was gathered is what the node showed. *)
Lemma gather_evidence_shows e detect ce :
  gather_evidence watcher rpc e detect = Ok ce → chain_shows e ce.
Proof.
  intros Hg. unfold gather_evidence in Hg. cbv zeta in Hg.
  apply result_bind_Ok in Hg as ([tx_hash from] & Hsc & Hg).
  apply check_scope_shows in Hsc as (h & Hh & -> & Hchain & Htok & Hex & Hfrom).
  apply result_bind_Ok in Hg as ([tx receipt] & Htx & Hg).
  apply check_transaction_shows in Htx as (s & Hs & Hr1 & Hr2 & Hcall & Hrh); [|done].
  apply result_bind_Ok in Hg as (rb & (Hn & Hb & Hst & Htn & Htb & Hcases)%check_receipt_shows & Hg).
  apply result_bind_Ok in Hg as (bd & (Hcan & Hbd & Hle & Hdepth)%check_finality_shows & Hg).
  apply result_bind_Ok in Hg as (u & _ & Hg).
  apply result_bind_Ok in Hg as ([used nonce_used] & Hused & Hg).
  apply result_bind_Ok in Hg as ([payment transfer] & Hev & Hg).
  apply result_bind_Ok in Hg as (u' & Hverdict & Hg). injection Hg as <-.
  assert (cs_token s = hw_token watcher) as Hts.
  { destruct (scope_reads _ _ "" Hs) as (_ & _ & _ & _ & Ht & _). congruence. }
  destruct (check_events_shows _ s _ _ _ Hs Hex Hts Hev) as (logs & Hlogs & Hp & Hp' & Ht & Ht').
  exists s, h, tx, receipt. split_and!; try done.
  - destruct Hbd as (boundary & ? & ? & ? & ?). exists boundary. cbn. split_and!; done.
  - cbn. destruct Hcases as [Hz|Hz]; rewrite Hz in Hverdict; apply demand_Ok in Hverdict.
    + right. split; [done|].
      destruct payment, transfer, used, nonce_used; try discriminate Hverdict.
      split; [by eapply check_used_shows|]. exists (map PDict logs). split; [done|].
      intros log (log' & [= ->] & Hin)%list_elem_of_fmap. auto.
    + left. split; [done|].
      destruct payment, transfer, used, nonce_used; try discriminate Hverdict.
      split; [by eapply check_used_shows|].
      destruct (Hp eq_refl) as (paid & Hpin & Hpaid), (Ht eq_refl) as (moved & Hmin & Hmoved).
      exists (map PDict logs), paid, moved.
      split_and!; try done; by apply list_elem_of_fmap_2.
Qed.

Lemma observe_shows e detect ce : observe watcher rpc e detect = Observed ce → chain_shows e ce.
Proof.
  unfold observe. destruct (gather_evidence watcher rpc e detect) as [ce'|[]] eqn:E; try done.
  intros [= <-]. by eapply gather_evidence_shows.
Qed.

(** ** Contradictions *)

(** A computation that never reports a reorganization. *)
Definition settles {A} (r : result A) : Prop := ∀ reason, r ≠ Err (EvidenceError reason true).

Lemma settles_ret {A} (a : A) : settles (mret a).
Proof. done. Qed.
Lemma settles_bind {A B} (r : result A) (k : A → result B) :
  settles r → (∀ a, settles (k a)) → settles (r ≫= k).
Proof. intros Hr Hk. destruct r as [a|e]; [apply Hk|].
  intros reason [= ->]. by apply (Hr reason).
Qed.
Lemma settles_evidence {A} reason : settles (evidence_error reason : result A).
Proof. done. Qed.
Lemma settles_demand b reason : settles (demand b reason).
Proof. by destruct b. Qed.
Lemma settles_option {A} (o : option A) reason : settles (from_option_or o (EvidenceError reason false)).
Proof. by destruct o. Qed.
Lemma settles_call n method params : settles (node_call rpc n method params).
Proof. unfold node_call. by destruct (rpc n method params). Qed.
Lemma settles_mapping reason v : settles (rpc_mapping reason v).
Proof. by destruct v. Qed.
Create HintDb settles.
#[local] Hint Resolve settles_ret settles_bind settles_evidence settles_demand settles_option
  settles_call settles_mapping : settles.
Ltac settle :=
  repeat first
    [ apply settles_bind; [|intros ?] | progress auto with settles
    | match goal with |- settles (match ?x with _ => _ end) => destruct x end
    | match goal with |- settles (let _ := _ in _) => cbv zeta end ].

Lemma settles_address f v : settles (ev_address f v).
Proof. unfold ev_address. settle. Qed.
Lemma settles_hash f v : settles (ev_hash f v).
Proof. unfold ev_hash. settle. Qed.
Lemma settles_bytes f b v : settles (ev_bytes f b v).
Proof. unfold ev_bytes. settle. Qed.
Lemma settles_quantity f v : settles (ev_quantity f v).
Proof. unfold ev_quantity. settle. Qed.
#[local] Hint Resolve settles_address settles_hash settles_bytes settles_quantity : settles.
Lemma settles_word_uint f v : settles (word_uint f v).
Proof. unfold word_uint, ev_word. by destruct (_ =? _)%nat. Qed.
Lemma settles_word_bytes32 f v : settles (word_bytes32 f v).
Proof. unfold word_bytes32, ev_word. by destruct (_ =? _)%nat. Qed.
Lemma settles_word_address f v : settles (word_address f v).
Proof. unfold word_address, ev_word. settle. Qed.
#[local] Hint Resolve settles_word_uint settles_word_bytes32 settles_word_address : settles.
Lemma settles_scope e : settles (check_scope watcher rpc e).
Proof. unfold check_scope. settle. Qed.
Lemma settles_transaction e h from : settles (check_transaction watcher rpc e h from).
Proof. unfold check_transaction, decode_execute_input, match_execution, expected_scope. settle. Qed.
Lemma settles_code boundary : settles (check_code watcher rpc boundary).
Proof. unfold check_code. settle. Qed.
Lemma settles_bool f v : settles (decode_bool f v).
Proof. unfold decode_bool. settle. Qed.
#[local] Hint Resolve settles_bool : settles.
Lemma settles_used i boundary : settles (check_used watcher rpc i boundary).
Proof. unfold check_used. settle. Qed.
Lemma settles_logs logs : settles (log_mappings logs).
Proof. induction logs as [|log logs IH]; [done|]. cbn [log_mappings]. settle. Qed.
Lemma settles_topics reason n log : settles (event_topics reason n log).
Proof. unfold event_topics. settle. Qed.
Lemma settles_same f l r : settles (same_hash f l r).
Proof. unfold same_hash. settle. Qed.
#[local] Hint Resolve settles_logs settles_topics settles_same : settles.
Lemma settles_payment log i : settles (decode_payment_event log i).
Proof. unfold decode_payment_event. settle. Qed.
Lemma settles_transfer log i : settles (decode_transfer_event log i).
Proof. unfold decode_transfer_event. settle. Qed.
#[local] Hint Resolve settles_payment settles_transfer : settles.
Lemma settles_single invalid decode logs :
  (∀ log, settles (decode log)) → settles (single_event invalid decode logs).
Proof. intros Hd. unfold single_event. settle. Qed.
#[local] Hint Resolve settles_single : settles.
Lemma settles_events i receipt : settles (check_events watcher i receipt).
Proof. unfold check_events. settle. Qed.

(** What shows that the block of a finalized execution is not canonical any more. *)
Definition contradicted (e : HostedExecution) (tx receipt : pydict) : Prop := ∃ n h,
  reads_quantity (dict_get receipt "blockNumber") n ∧ reads_hash (dict_get receipt "blockHash") h ∧
  ((∃ n' h', reads_quantity (dict_get tx "blockNumber") n' ∧ reads_hash (dict_get tx "blockHash") h' ∧
      (n', h') ≠ (n, h)) ∨
   (∃ block n' h',
      rpc 3 "eth_getBlockByNumber" [PStr (py_hex n); PBool false] = Ok (PDict block) ∧
      reads_quantity (dict_get block "number") n' ∧ reads_hash (dict_get block "hash") h' ∧
      (n', h') ≠ (n, h)) ∨
   reads_quantity (dict_get receipt "status") 0 ∨
   (∃ stored, he_receipt_block_hash e = Some stored ∧ lower stored ≠ h)).
Definition reorg_shown (e : HostedExecution) : Prop := ∃ s h tx receipt,
  expected_scope (he_intent e) = Ok s ∧ he_raw_transaction_hash e = Some h ∧
  rpc 1 "eth_getTransactionByHash" [PStr (lower h)] = Ok (PDict tx) ∧
  rpc 2 "eth_getTransactionReceipt" [PStr (lower h)] = Ok (PDict receipt) ∧
  names_call e s h tx ∧ contradicted e tx receipt.

Lemma bind_reorg {A B} (r : result A) (k : A → result B) reason :
  settles r → r ≫= k = Err (EvidenceError reason true) →
  ∃ a, r = Ok a ∧ k a = Err (EvidenceError reason true).
Proof. intros Hs Hr. destruct r as [a|e]; [eauto|]. injection Hr as ->. by destruct (Hs reason). Qed.
Lemma require_reorg {A} b detect reason reason' (k : () → result A) :
  (∀ u, settles (k u)) →
  require b (EvidenceError reason detect) ≫= k = Err (EvidenceError reason' true) → b = false ∧ detect = true.
Proof. intros Hk. destruct b; [by intros ?%Hk|]. by intros [= _ ->]. Qed.

Lemma check_receipt_reorg detect e tx receipt reason :
  check_receipt detect tx receipt = Err (EvidenceError reason true) → contradicted e tx receipt.
Proof.
  intros Hc. unfold check_receipt in Hc.
  do 6 (apply bind_reorg in Hc as (? & ? & Hc); [|by auto with settles]).
  apply require_reorg in Hc as [Hb _]; [|done].
  eexists _, _. split; [by eexists|]. split; [by eexists|]. left.
  eexists _, _. split; [by eexists|]. split; [by eexists|].
  intros [= -> ->]. rewrite Z.eqb_refl, bool_decide_eq_true_2 in Hb by done. done.
Qed.

Lemma demand_error b reason r x : demand b reason = Err (EvidenceError r x) → b = false ∧ r = reason.
Proof. destruct b; [done|]. by intros [= <-]. Qed.
Lemma quantity_error f v r x : ev_quantity f v = Err (EvidenceError r x) → r = f +:+ "_invalid".
Proof.
  unfold ev_quantity. destruct v as [| | |s| |]; try (by intros [= <-]).
  destruct s as [|c0 [|c1 [|c s]]]; try (by intros [= <-]).
  destruct (_ && _); cbn [demand require mbind result_bind]; [|by intros [= <-]].
  destruct (hex_number 0 _); [done|]. by intros [= <-].
Qed.
Lemma hash_error f v r x : ev_hash f v = Err (EvidenceError r x) → r = f +:+ "_invalid".
Proof.
  unfold ev_hash. destruct v as [| | |s| |]; try (by intros [= <-]).
  destruct (is_prefixed _ _ _); simpl; [done|]. by intros [= <-].
Qed.
Lemma check_block_mismatch v n h x :
  check_block v n h = Err (EvidenceError "canonical_block_mismatch" x) →
  ∃ block n' h', v = PDict block ∧ reads_quantity (dict_get block "number") n' ∧
    reads_hash (dict_get block "hash") h' ∧ (n', h') ≠ (n, h).
Proof.
  unfold check_block. destruct v as [| | | | |block]; try (by intros [=]). cbn [rpc_mapping mbind result_bind].
  destruct (ev_quantity _ _) as [n'|] eqn:En; cbn [mbind result_bind].
  2:{ intros [= ->]. by apply quantity_error in En. }
  destruct (ev_hash _ _) as [h'|] eqn:Eh; cbn [mbind result_bind].
  2:{ intros [= ->]. by apply hash_error in Eh. }
  intros [Hb _]%demand_error. exists block, n', h'. split; [done|].
  split; [by eexists|]. split; [by eexists|].
  intros [= -> ->]. rewrite Z.eqb_refl, bool_decide_eq_true_2 in Hb by done. done.
Qed.
Lemma block_changed_reorg detect v n h reason :
  block_changed detect (check_block v n h) = Err (EvidenceError reason true) →
  ∃ block n' h', v = PDict block ∧ reads_quantity (dict_get block "number") n' ∧
    reads_hash (dict_get block "hash") h' ∧ (n', h') ≠ (n, h).
Proof.
  assert (settles (check_block v n h)) as Hs by (unfold check_block; settle).
  unfold block_changed. destruct (check_block v n h) as [[]|err] eqn:E; [done|].
  destruct err; try done. case_bool_decide as Hr.
  - subst. intros _. by eapply check_block_mismatch.
  - rewrite andb_false_r. intros [= -> ->]. by destruct (Hs reason).
Qed.

Lemma check_finality_reorg detect e tx receipt rb reason :
  reads_quantity (dict_get receipt "blockNumber") (rb_number rb) →
  reads_hash (dict_get receipt "blockHash") (rb_hash rb) →
  reads_quantity (dict_get receipt "status") (rb_status rb) → (rb_status rb = 0 ∨ rb_status rb = 1) →
  check_finality watcher rpc detect e rb = Err (EvidenceError reason true) → contradicted e tx receipt.
Proof.
  intros Hn Hh Hst Hcases Hc. exists (rb_number rb), (rb_hash rb). split; [done|]. split; [done|]. right.
  unfold check_finality in Hc. cbv zeta in Hc.
  apply bind_reorg in Hc as (block & Hblock%node_call_Ok & Hc); [|by auto with settles].
  apply bind_reorg in Hc as (safe & _ & Hc); [|by auto with settles].
  destruct (block_changed _ _) as [u|err] eqn:Ebc.
  2:{ injection Hc as ->. apply block_changed_reorg in Ebc as (d & n' & h' & -> & ? & ? & ?).
      left. exists d, n', h'. by split_and!. }
  cbn [mbind result_bind] in Hc. right.
  do 5 (apply bind_reorg in Hc as (? & _ & Hc); [|by auto with settles]).
  destruct detect; [|done].
  destruct (require (rb_status rb =? 1) _) as [u'|] eqn:Er.
  2:{ left. destruct Hcases as [<-|H1]; [done|]. by rewrite H1 in Er. }
  cbn [mbind result_bind] in Hc. right.
  destruct (he_receipt_block_hash e) as [stored|]; [|done]. exists stored. split; [done|].
  destruct (ev_hash _ (PStr stored)) as [h'|err] eqn:Eh; cbn [mbind result_bind] in Hc.
  2:{ injection Hc as ->. by destruct (settles_hash _ _ _ Eh). }
  apply ev_hash_lower in Eh as <-. intros ->. by rewrite bool_decide_eq_true_2 in Hc.
Qed.

(** A reported reorganization was shown. *)
Lemma observe_reorg e detect reason :
  observe watcher rpc e detect = Unobserved true reason → reorg_shown e.
Proof.
  unfold observe. destruct (gather_evidence watcher rpc e detect) as [ce|[]] eqn:Hg; try done.
  intros [= -> ->]. unfold gather_evidence in Hg. cbv zeta in Hg.
  apply bind_reorg in Hg as ([tx_hash from] & Hsc & Hg); [|apply settles_scope].
  apply check_scope_shows in Hsc as (h & Hh & -> & Hchain & Htok & Hex & Hfrom).
  apply bind_reorg in Hg as ([tx receipt] & Htx & Hg); [|apply settles_transaction].
  apply check_transaction_shows in Htx as (s & Hs & Hr1 & Hr2 & Hcall & Hrh); [|done].
  exists s, h, tx, receipt. split_and!; try done.
  destruct (check_receipt detect tx receipt) as [rb|err] eqn:Ercpt.
  2:{ injection Hg as ->. by eapply check_receipt_reorg. }
  apply check_receipt_shows in Ercpt as (Hn & Hb & Hst & _ & _ & Hcases).
  cbn [mbind result_bind] in Hg.
  destruct (check_finality watcher rpc detect e rb) as [bd|err] eqn:Efin.
  2:{ injection Hg as ->. by eapply check_finality_reorg. }
  exfalso. cbn [mbind result_bind] in Hg. revert Hg.
  apply settles_bind; [apply settles_code|intros _].
  apply settles_bind; [apply settles_used|intros [used nonce_used]].
  apply settles_bind; [apply settles_events|intros [payment transfer]].
  apply settles_bind; [|intros; apply settles_ret].
  destruct (rb_status rb =? 1); apply settles_demand.
Qed.
End Shown.
