(* ===== verification/WatcherProperties.v ===== *)
(** * What the watcher promises

    It asks the repository to change an execution only on evidence the node showed;
    what the relayer signs is what it looks for; a proved payment is finalized in
    one pass; a worker's round survives every failure. *)

From S2P Require Import Prelude PyValue Evm ExecutionModels ExecutionTables PilotGate.
From S2P Require Import NonceAllocator ExecutionRepository ExecutionSettlement ExecutionMachine.
From S2P Require Import ExecutionRefinement ExecutionInvariants ExecutionIdentity Relayer SigningLimits ModelProperties GateInvariants.
From S2P Require Import Atomicity WatchQueue Watcher WatcherFacts.
From Stdlib Require Import Ascii Strings.Byte.

#[local] Open Scope string_scope.
#[local] Open Scope list_scope.
#[local] Open Scope Z_scope.

Definition submitted_states : list ExecutionState :=
  [SUBMITTED; SUBMISSION_UNKNOWN; SUBMISSION_REJECTED; CONFIRMED].

Section Grounds.
Context `{Sha256} `{Keccak} (policy : option PilotGatePolicy).

(** The other processes only use the repository, and its clock shows a time. *)
Definition watch_lawful (w : WatcherWorld) : Prop :=
  (∀ n d, reachable policy d → rtc (call policy) d (ww_others w n d)) ∧ ∀ n, 0 < ww_clock w n.

Section World.
Context (watcher : HostedChainWatcher) (w : WatcherWorld).

(** A passed observation of an execution, before the n-th interaction. *)
Definition observed (n : nat) (e : HostedExecution) (ce : ChainEvidence) : Prop :=
  ∃ m, (m < n)%nat ∧ chain_shows watcher (ww_rpc w m) e ce.

(** What an execution that was read must show before a call is made. *)
Definition grounds (n : nat) (e : HostedExecution) (c : watcher_call) : Prop :=
  match c with
  | WReleaseExpired _ => he_status e ∈ [PREFLIGHT_APPROVED; SIGNING]
  | WConfirm _ rc evidence => he_status e ∈ submitted_states ∧ ∃ ce, observed n e ce ∧
      ce_receipt_status ce = 1 ∧ rc = receipt_of watcher 1 ce ∧
      evidence = observation_evidence watcher ce
  | WFinalize _ boundary => he_status e ∈ submitted_states ∧ boundary = hw_finality_boundary watcher ∧
      ∃ ce, observed n e ce ∧ ce_receipt_status ce = 1
  | WRevert _ rc evidence => he_status e ∈ submitted_states ∧ ∃ ce, observed n e ce ∧
      ce_receipt_status ce = 0 ∧ rc = receipt_of watcher 0 ce ∧
      evidence = observation_evidence watcher ce
  | WReleaseReverted _ rc evidence => he_status e = REVERTED ∧ ∃ ce, observed n e ce ∧
      ce_receipt_status ce = 0 ∧ deadline (he_intent e) <= ce_finality_boundary_timestamp ce ∧
      rc = receipt_of watcher 0 ce ∧ evidence = release_proof_of ce
  | WReorgReview _ evidence => he_status e = FINALIZED ∧ ∃ m reason, (m < n)%nat ∧
      reorg_shown watcher (ww_rpc w m) e ∧ evidence = reorg_evidence watcher e reason
  end.
Definition called (c : watcher_call) : string :=
  match c with
  | WReleaseExpired id | WConfirm id _ _ | WFinalize id _ | WRevert id _ _
  | WReleaseReverted id _ _ | WReorgReview id _ => id
  end.

Section Base.
Context (base : HostedDb).

(** A call with grounds: the execution was read from a database since [base]. *)
Definition grounded (entry : nat * watcher_call) : Prop := ∃ d e,
  rtc (call policy) base d ∧ get_execution (called entry.2) d = Ok (Some e) ∧ grounds entry.1 e entry.2.

(** A stretch of a pass: repository calls, time passing, calls with grounds. *)
Record stretch (x x' : Watching) : Prop := {
  st_tick : (wt_tick x <= wt_tick x')%nat;
  st_calls : rtc (call policy) (wt_db x) (wt_db x');
  st_asked : ∃ new, wt_asked x' = wt_asked x ++ new ∧ Forall grounded new;
}.
#[export] Instance stretch_preorder : PreOrder stretch.
Proof.
  split.
  - intros x. split; [done|done|]. exists []. by rewrite app_nil_r.
  - intros x y z [Ht Hc (new & Hn & Hg)] [Ht' Hc' (new' & Hn' & Hg')].
    split; [lia|by etrans|]. exists (new ++ new'). rewrite Hn', Hn, app_assoc. split; [done|].
    by apply Forall_app.
Qed.

Context (Hw : watch_lawful w) (Hbase : reachable policy base).

(** Programs that, from the m-th interaction on, are such stretches. *)
Definition since (x : Watching) : Prop := rtc (call policy) base (wt_db x).
Definition proceeds {A} (m : nat) (p : service Watching A) : Prop :=
  ∀ x, (m <= wt_tick x)%nat → since x → stretch x (p x).2.

Lemma stretch_since x x' : stretch x x' → since x → since x'.
Proof. intros Hs Hx. unfold since in *. etrans; [exact Hx|apply Hs]. Qed.

Lemma turn_stretch x : since x → stretch x (watch_turn w x).2.
Proof.
  intros Hx. split; [simpl; lia| |].
  - simpl. apply Hw. unfold reachable in *. by etrans.
  - exists []. by rewrite app_nil_r.
Qed.
Lemma proceeds_same {A} m (p : service Watching A) : (∀ x, stretch x (p x).2) → proceeds m p.
Proof. intros Hp x _ _. apply Hp. Qed.
Lemma proceeds_ret {A} m (a : A) : proceeds m (mret a).
Proof. apply proceeds_same. intros x. reflexivity. Qed.
Lemma proceeds_answers {A} m (f : Watching → result A) : proceeds m (answers f).
Proof. apply proceeds_same. intros x. reflexivity. Qed.
Lemma proceeds_turn m : proceeds m (watch_turn w).
Proof. intros x _. apply turn_stretch. Qed.
Lemma proceeds_bind {A B} m (p : service Watching A) (k : A → service Watching B) :
  proceeds m p → (∀ a, proceeds m (k a)) → proceeds m (p ≫= k).
Proof.
  intros Hp Hk x Hm Hx. specialize (Hp x Hm Hx). unfold mbind, service_bind.
  destruct (p x) as [[a|e] y]; [|done]. simpl in Hp. etrans; [exact Hp|]. apply Hk.
  - destruct Hp. lia.
  - by eapply stretch_since.
Qed.
Lemma proceeds_fmap {A B} m (f : A → B) (p : service Watching A) : proceeds m p → proceeds m (f <$> p).
Proof. intros Hp x Hm Hx. by apply Hp. Qed.
Lemma proceeds_recover {A} m (p : service Watching A) (handler : exn → service Watching A) :
  proceeds m p → (∀ e, proceeds m (handler e)) → proceeds m (recover p handler).
Proof.
  intros Hp Hh x Hm Hx. specialize (Hp x Hm Hx). unfold recover.
  destruct (p x) as [[a|e] y]; [done|]. simpl in Hp. etrans; [exact Hp|]. apply Hh.
  - destruct Hp. lia.
  - by eapply stretch_since.
Qed.

Lemma call_repository_call clock c d : 0 < clock → call policy d (call_repository policy clock c d).2.
Proof.
  intros Hc. destruct c as [id|id rc ev|id b|id rc ev|id rc ev|id ev].
  - by apply (call_intro _ _ _ clock (CReleaseExpired id None)).
  - by apply (call_intro _ _ _ clock (CConfirm id rc (Some ev) None)).
  - by apply (call_intro _ _ _ clock (CFinalize id b None)).
  - by apply (call_intro _ _ _ clock (CRevert id rc false (Some ev) None)).
  - by apply (call_intro _ _ _ clock (CReleaseReverted id rc ev None)).
  - by apply (call_intro _ _ _ clock (CReorg id ev None)).
Qed.

Lemma proceeds_asks m c :
  (∀ n, (m <= n)%nat → grounded (n, c)) → proceeds m (asks_repository policy w c).
Proof.
  intros Hc x Hm Hx. etrans; [by apply turn_stretch|]. unfold asks_repository, mbind, service_bind, runs.
  cbn [watch_turn fst snd]. set (y := MkWatching _ _ _ _).
  destruct (call_repository _ _ _ _) as [r d] eqn:E. simpl. split; simpl; [lia| |].
  - apply rtc_once. pose proof (call_repository_call (ww_clock w (wt_tick x)) c (wt_db y)) as H1.
    rewrite E in H1. apply H1, Hw.
  - exists [(wt_tick x, c)]. split; [done|]. constructor; [by apply Hc|constructor].
Qed.
Lemma proceeds_observes {A} m e detect (k : Observation → service Watching A) :
  (∀ n, (m <= n)%nat → proceeds (S n) (k (observe watcher (ww_rpc w n) e detect))) →
  proceeds m (observes watcher w e detect ≫= k).
Proof.
  intros Hk x Hm Hx. etrans; [by apply turn_stretch|]. apply (Hk (wt_tick x) Hm); [simpl; lia|].
  by eapply stretch_since; [apply turn_stretch|].
Qed.
Lemma proceeds_reads {A B} m (query : HostedDb → result A) (k : A → service Watching B) :
  (∀ d a, rtc (call policy) base d → query d = Ok a → proceeds m (k a)) →
  proceeds m (reads_store w query ≫= k).
Proof.
  intros Hk x Hm Hx. pose proof (turn_stretch x Hx) as Ht. etrans; [exact Ht|].
  pose proof (stretch_since _ _ Ht Hx) as Hy. unfold reads_store, answers, mbind, service_bind.
  cbn [watch_turn fst snd] in *. destruct (query _) as [a|] eqn:Hq; [|reflexivity].
  apply (Hk _ _ Hy Hq); [simpl; lia|done].
Qed.

Section Read.
Context (d : HostedDb) (e : HostedExecution).
Context (Hd : rtc (call policy) base d).
Let id := he_execution_id e.
Context (He : get_execution (he_execution_id e) d = Ok (Some e)).

Lemma grounded_read n c : called c = id → grounds n e c → grounded (n, c).
Proof. intros Hc Hg. exists d, e. simpl. by rewrite Hc. Qed.
Lemma observed_after n m ce :
  (m < n)%nat → observe watcher (ww_rpc w m) e false = Observed ce → observed n e ce.
Proof. intros Hm Ho. exists m. split; [done|]. by eapply observe_shows. Qed.
Lemma observed_status n ce : observed n e ce → ce_receipt_status ce = 1 ∨ ce_receipt_status ce = 0.
Proof.
  intros (m & _ & s & h & tx & receipt & _ & _ & _ & _ & _ & _ & _ & _ & _ & [[? _]|[? _]]); auto.
Qed.

Lemma watch_unsigned_proceeds m :
  he_status e ∈ [PREFLIGHT_APPROVED; SIGNING] → proceeds m (watch_unsigned policy w id (he_status e)).
Proof.
  intros Hs. apply proceeds_recover.
  - apply proceeds_bind; [|intros; apply proceeds_ret]. apply proceeds_asks. intros n _.
    by apply grounded_read.
  - intros []; first [apply proceeds_ret|apply proceeds_answers].
Qed.

Lemma watch_submitted_proceeds m :
  he_status e ∈ submitted_states → proceeds m (watch_submitted policy watcher w id e).
Proof.
  intros Hs. apply proceeds_observes. intros n _.
  destruct (observe watcher (ww_rpc w n) e false) as [ce|] eqn:Ho; [|apply proceeds_ret].
  apply proceeds_recover; [|intros; apply proceeds_ret].
  assert (∀ n', (S n <= n')%nat → observed n' e ce) as Hobs by (intros; by eapply observed_after).
  destruct (ce_receipt_status ce =? 1) eqn:Est.
  - apply Z.eqb_eq in Est. apply proceeds_bind.
    { apply proceeds_asks. intros n' Hn. apply grounded_read; [done|]. split; [done|]. eauto 6. }
    intros confirmed. case_bool_decide; [|apply proceeds_ret].
    apply proceeds_recover; [|intros; apply proceeds_ret].
    apply proceeds_bind; [|intros; apply proceeds_ret].
    apply proceeds_asks. intros n' Hn. apply grounded_read; [done|]. split; [done|]. eauto.
  - apply Z.eqb_neq in Est. apply proceeds_bind; [|intros; apply proceeds_ret].
    apply proceeds_asks. intros n' Hn. apply grounded_read; [done|]. split; [done|].
    exists ce. split_and!; auto. destruct (observed_status n' ce); auto. done.
Qed.

Lemma watch_reverted_proceeds m :
  he_status e = REVERTED → proceeds m (watch_reverted policy watcher w e).
Proof.
  intros Hs. apply proceeds_observes. intros n _.
  destruct (observe watcher (ww_rpc w n) e false) as [ce|] eqn:Ho; [|apply proceeds_ret].
  destruct (ce_receipt_status ce =? 0) eqn:Est; [|apply proceeds_ret]. cbn [negb].
  destruct (_ <? _) eqn:Ets; [apply proceeds_ret|]. bool_inv.
  apply proceeds_recover; [|intros; apply proceeds_ret].
  apply proceeds_bind; [|intros; apply proceeds_ret].
  apply proceeds_asks. intros n' Hn. apply grounded_read; [done|]. split; [done|].
  exists ce. split_and!; try done. by eapply observed_after.
Qed.

Lemma watch_finalized_proceeds m :
  he_status e = FINALIZED → proceeds m (watch_finalized policy watcher w e).
Proof.
  intros Hs. apply proceeds_observes. intros n _.
  destruct (observe watcher (ww_rpc w n) e true) as [ce|[] reason] eqn:Ho; try apply proceeds_ret.
  apply proceeds_recover; [|intros; apply proceeds_ret].
  apply proceeds_bind; [|intros; apply proceeds_ret].
  apply proceeds_asks. intros n' Hn. apply grounded_read; [done|]. split; [done|].
  exists n, reason. split; [lia|]. split; [by eapply observe_reorg|done].
Qed.
End Read.

Lemma watch_proceeds m execution_id : valid_policy policy → proceeds m (watch policy watcher w execution_id).
Proof.
  intros Hp. apply proceeds_reads. intros d [e|] Hd He; [|apply proceeds_answers].
  assert (he_execution_id e = execution_id) as Hid.
  { unfold get_execution in He. destruct (db_executions d !! execution_id) as [r|] eqn:Hr; [|done].
    apply result_bind_Ok in He as (h & Hrec & [= ->]). apply record_shows in Hrec as [-> _].
    apply (reachable_keyed policy d Hp); [|done]. unfold reachable in *. by etrans. }
  rewrite <- Hid in He |- *.
  destruct (he_status e) eqn:Hs;
    first
      [ by apply (watch_finalized_proceeds d)
      | by apply (watch_reverted_proceeds d)
      | apply (watch_submitted_proceeds d); [done..|rewrite Hs; list_member]
      | rewrite <- Hs; apply (watch_unsigned_proceeds d); [done..|rewrite Hs; list_member]
      | apply proceeds_ret ].
Qed.

Lemma attempted_proceeds {A} m (p : service Watching A) : proceeds m p → proceeds m (attempted p).
Proof. intros Hp. apply proceeds_recover; [by apply proceeds_fmap|]. intros. apply proceeds_ret. Qed.
Lemma records_attempt_proceeds m execution_id : proceeds m (records_attempt w execution_id).
Proof.
  intros x Hm Hx. etrans; [by apply turn_stretch|]. unfold records_attempt, mbind, service_bind, runs.
  cbn [watch_turn fst snd]. set (y := MkWatching _ _ _ _).
  destruct (record_watcher_attempt _ _ _ _) as [r d] eqn:E. simpl. split; simpl; [lia| |].
  - apply rtc_once. apply (call_intro _ _ _ (ww_clock w (wt_tick x)) (CWatch execution_id None)).
    + apply Hw.
    + unfold run. simpl in E |- *. by rewrite E.
  - exists []. by rewrite app_nil_r.
Qed.
Lemma moves_cursor_proceeds m cursor : proceeds m (moves_cursor cursor).
Proof. apply proceeds_same. intros x. split; [done|done|]. exists []. by rewrite app_nil_r. Qed.
Lemma stop_requested_proceeds m : proceeds m (stop_requested w).
Proof. apply proceeds_bind; [apply proceeds_turn|]. intros. apply proceeds_ret. Qed.

Lemma watch_batch_proceeds m ids :
  valid_policy policy → proceeds m (watch_batch policy watcher w ids).
Proof.
  intros Hp. induction ids as [|id ids IH]; [apply proceeds_ret|]. cbn [watch_batch].
  apply proceeds_bind; [apply stop_requested_proceeds|]. intros [|]; [apply proceeds_ret|].
  case_bool_decide; [done|].
  apply proceeds_bind; [apply attempted_proceeds, records_attempt_proceeds|]. intros [u|]; [|done].
  apply proceeds_bind; [by apply attempted_proceeds, watch_proceeds|]. intros result.
  apply proceeds_bind; [apply moves_cursor_proceeds|]. intros _.
  apply proceeds_bind; [done|]. intros results. apply proceeds_ret.
Qed.
End Base.

(** ** A round of the worker *)

(** The attempt at an execution was recorded between two instants. *)
Definition attempt_recorded (x x' : Watching) (execution_id : string) : Prop := ∃ n d d1,
  (wt_tick x <= n < wt_tick x')%nat ∧ rtc (call policy) (wt_db x) d ∧
  record_watcher_attempt (ww_clock w n) execution_id None d = (Ok tt, d1) ∧
  rtc (call policy) d1 (wt_db x').

Lemma attempt_recorded_stretch base x1 x2 x3 x4 id :
  stretch base x1 x2 → stretch base x3 x4 → attempt_recorded x2 x3 id → attempt_recorded x1 x4 id.
Proof.
  intros [Ht Hc _] [Ht' Hc' _] (n & d & d1 & [??] & ? & ? & ?). exists n, d, d1.
  split_and!; [lia|lia|by etrans|done|by etrans].
Qed.

Lemma record_attempt_Ok clock id d r :
  0 < clock → id ≠ EmptyString → db_executions d !! id = Some r →
  ∃ d1, record_watcher_attempt clock id None d = (Ok tt, d1).
Proof.
  intros Hc Hid Hr. unfold record_watcher_attempt, before_session.
  rewrite bool_decide_eq_false_2 by done. cbn [negb require mbind result_bind default].
  rewrite (proj2 (Z.ltb_lt 0 _)) by lia. cbn [require mret result_ret result_bind].
  unfold write_session, locked_execution, lifts, reads, mbind, txn_bind. rewrite Hr. cbn. eauto.
Qed.

Lemma attempted_total {A} (p : service Watching A) x : ∃ o, attempted p x = (Ok o, (p x).2).
Proof.
  unfold attempted, recover, fmap, service_fmap. destruct (p x) as [[a|e] y]; simpl; by eexists.
Qed.

Section Batch.
Context (Hp : valid_policy policy) (Hw : watch_lawful w) (Hgo : ∀ n, ww_stopped w n = false).
Context (base : HostedDb) (Hbase : reachable policy base).

Lemma reach_since x : since base x → reachable policy (wt_db x).
Proof. intros Hx. exact (reachable_trans policy base (wt_db x) Hbase Hx). Qed.

(** The rows of a batch are there all along. *)
Definition rows_of (ids : list string) (x : Watching) : Prop :=
  ∀ id, id ∈ ids → is_Some (db_executions (wt_db x) !! id).
Lemma rows_kept ids x x' : since base x → stretch base x x' → rows_of ids x → rows_of ids x'.
Proof.
  intros Hx Hs Hrows id [r Hr]%Hrows.
  destruct (calls_row policy (wt_db x) (wt_db x') id r Hp) as (r' & Hr' & _);
    [by apply reach_since|apply Hs|done|by eexists].
Qed.

(** One item of a batch: the attempt is recorded, the rest goes on from there. *)
Lemma attempt_step id x :
  id ≠ EmptyString → since base x → is_Some (db_executions (wt_db x) !! id) →
  ∃ x1, attempted (records_attempt w id) x = (Ok (Some ()), x1) ∧ stretch base x x1 ∧
    attempt_recorded x x1 id.
Proof.
  intros Hid Hx [r Hr]. pose proof (turn_stretch base Hw Hbase x Hx) as Ht.
  destruct (calls_row policy (wt_db x) (wt_db (watch_turn w x).2) id r Hp) as (r' & Hr' & _);
    [by apply reach_since|apply Ht|done|].
  destruct (record_attempt_Ok (ww_clock w (wt_tick x)) id _ r' (proj2 Hw _) Hid Hr') as [d1 Hd1].
  pose proof (records_attempt_proceeds base Hw Hbase 0 id x ltac:(lia) Hx) as Hs.
  unfold attempted, recover, fmap, service_fmap, records_attempt, mbind, service_bind, runs in *.
  cbn [watch_turn fst snd wt_db wt_tick] in *. rewrite Hd1 in *. cbn in *.
  eexists. split; [done|]. split; [done|].
  exists (wt_tick x), (ww_others w (wt_tick x) (wt_db x)), d1. simpl.
  split_and!; [lia|lia|apply Ht|done|done].
Qed.

Lemma watch_batch_records ids x :
  since base x → rows_of ids x →
  ∃ results x', watch_batch policy watcher w ids x = (Ok results, x') ∧
    ∀ id, id ∈ ids → id ≠ EmptyString → attempt_recorded x x' id.
Proof.
  revert x. induction ids as [|id ids IH]; intros x Hx Hrows.
  { exists [], x. split; [done|]. by intros id ?%elem_of_nil. }
  assert (rows_of ids x) as Hrows' by (intros i Hi; apply Hrows; by right).
  cbn [watch_batch]. unfold mbind at 1, service_bind at 1. set (x1 := (stop_requested w x).2).
  assert (stop_requested w x = (Ok false, x1)) as ->.
  { unfold stop_requested, mbind, service_bind. cbn. by rewrite Hgo. }
  pose proof (stop_requested_proceeds base Hw Hbase 0 x ltac:(lia) Hx) as Hs1. fold x1 in Hs1.
  pose proof (stretch_since _ _ _ Hs1 Hx) as Hx1. cbv iota beta.
  case_bool_decide as Hid.
  - destruct (IH x1 Hx1) as (results & x' & -> & Hall); [by apply (rows_kept ids x)|].
    exists results, x'. split; [done|]. intros i [->|Hi]%elem_of_cons Hne; [done|].
    eapply (attempt_recorded_stretch base); [exact Hs1|reflexivity|auto].
  - destruct (attempt_step id x1 Hid Hx1) as (x2 & Hatt & Hs2 & Hrec).
    { eapply rows_kept; [exact Hx|exact Hs1|exact Hrows|left]. }
    unfold mbind at 1, service_bind at 1. rewrite Hatt.
    pose proof (stretch_since _ _ _ Hs2 Hx1) as Hx2. cbv iota beta.
    destruct (attempted_total (watch policy watcher w id) x2) as [result Hres].
    pose proof (attempted_proceeds base 0 _ (watch_proceeds base Hw Hbase 0 id Hp) x2 ltac:(lia) Hx2) as Hs3.
    unfold mbind at 1, service_bind at 1. rewrite Hres in *. cbv iota beta. simpl in Hs3.
    set (x3 := (watch policy watcher w id x2).2) in *.
    pose proof (stretch_since _ _ _ Hs3 Hx2) as Hx3.
    unfold mbind at 1, service_bind at 1. cbn [moves_cursor runs]. cbv iota beta. set (x4 := MkWatching _ _ _ _).
    assert (stretch base x3 x4) as Hs4.
    { split; [done|done|]. exists []. by rewrite app_nil_r. }
    pose proof (stretch_since _ _ _ Hs4 Hx3) as Hx4.
    assert (stretch base x2 x4) as Hs24 by by etrans.
    assert (stretch base x x4) as Hs by (etrans; [exact Hs1|]; by etrans).
    destruct (IH x4 Hx4) as (results & x' & Hb & Hall); [by apply (rows_kept ids x)|].
    pose proof (watch_batch_proceeds base Hw Hbase 0 ids Hp x4 ltac:(lia) Hx4) as Hs5.
    unfold mbind, service_bind. rewrite Hb in *. simpl in Hs5.
    eexists _, x'. split; [reflexivity|]. intros i [->|Hi]%elem_of_cons Hne.
    + eapply (attempt_recorded_stretch base); [exact Hs1| |exact Hrec]. by etrans.
    + eapply (attempt_recorded_stretch base); [exact Hs|reflexivity|auto].
Qed.

Lemma record_identified r h : record r = Ok h → er_execution_id r ≠ EmptyString.
Proof.
  unfold record, make_hosted_execution. intros Hrec He.
  apply result_bind_Ok in Hrec as (i & _ & Hrec). simpl in Hrec.
  do 3 (apply result_bind_Ok in Hrec as (? & _ & Hrec)).
  apply result_bind_Ok in Hrec as (v & Hv & _). rewrite He in Hv. by vm_compute in Hv.
Qed.
Lemma listed_rows chain limit d ids :
  reachable policy d → list_watchable_ids chain None limit d = Ok ids →
  ∀ id, id ∈ ids → is_Some (db_executions d !! id) ∧ id ≠ EmptyString.
Proof.
  intros Hd (rows & -> & _ & _ & Hrows)%list_watchable_ids_Ok id (r & -> & Hr)%list_elem_of_fmap.
  assert (r ∈ rows) as (_ & k & Hk)%Hrows.
  { rewrite <- (take_drop (Z.to_nat limit) rows). apply elem_of_app. by left. }
  pose proof (reachable_keyed policy d Hp Hd k r Hk) as Hid. rewrite Hid. split; [by eexists|].
  destruct (reachable_rows policy d Hp Hd k r Hk) as [_ _ _ _ Hpr].
  unfold presentable in Hpr. destruct (record r) as [h|] eqn:Hrec; [|done].
  rewrite <- Hid. by eapply record_identified.
Qed.
End Batch.

Lemma worker_lists watcher' batch poll chain worker d :
  make_worker watcher' batch poll chain = Ok worker →
  ∃ ids, list_watchable_ids (wk_chain worker) None (wk_batch_size worker) d = Ok ids.
Proof.
  unfold make_worker. cbv zeta. intros. txn_inv. unfold list_watchable_ids.
  cbn [wk_chain wk_batch_size].
  repeat match goal with E : _ = true |- _ => rewrite E; clear E end. cbn. by eexists.
Qed.

(** One failure does not starve the others.  A worker that was configured and is
    not told to stop completes its round whatever the node answers and whatever the
    repository raises: the round returns, and for every execution it listed an attempt
    was recorded in the repository during the round. *)
Theorem worker_attempts_every_listed batch poll chain worker x :
  valid_policy policy → watch_lawful w → (∀ n, ww_stopped w n = false) → reachable policy (wt_db x) →
  make_worker watcher batch poll chain = Ok worker →
  ∃ results x' d ids, run_once policy watcher w worker x = (Ok results, x') ∧
    rtc (call policy) (wt_db x) d ∧
    list_watchable_ids (wk_chain worker) None (wk_batch_size worker) d = Ok ids ∧
    ∀ id, id ∈ ids → attempt_recorded x x' id.
Proof.
  intros Hp Hw Hgo Hx Hmk. set (base := wt_db x).
  assert (since base x) as Hsx by apply rtc_refl.
  pose proof (turn_stretch base Hw Hx x Hsx) as Hs1. set (x1 := (watch_turn w x).2) in *.
  pose proof (stretch_since _ _ _ Hs1 Hsx) as Hx1.
  pose proof (turn_stretch base Hw Hx x1 Hx1) as Hs2. set (x2 := (watch_turn w x1).2) in *.
  pose proof (stretch_since _ _ _ Hs2 Hx1) as Hx2.
  destruct (worker_lists _ _ _ _ _ (wt_db x2) Hmk) as [ids Hids].
  pose proof (listed_rows Hp _ _ _ _ (reach_since base Hx x2 Hx2) Hids) as Hrows.
  assert (run_once policy watcher w worker x =
    match ids with [] => (moves_cursor None;; mret []) x2 | _ => watch_batch policy watcher w ids x2 end) as ->.
  { unfold run_once, stop_requested, reads_store, answers, mbind, service_bind, mret, service_ret.
    cbn [watch_turn fst snd]. rewrite Hgo. cbn [watch_turn fst snd].
    change (MkWatching _ _ _ _) with x2. rewrite Hids. by destruct ids. }
  destruct ids as [|id ids].
  - eexists _, _, (wt_db x2), []. split; [reflexivity|]. split; [exact Hx2|]. split; [done|].
    by intros i ?%elem_of_nil.
  - destruct (watch_batch_records Hp Hw Hgo base Hx (id :: ids) x2 Hx2) as (results & x' & Hb & Hall).
    { intros i Hi. by apply Hrows. }
    pose proof (watch_batch_proceeds base Hw Hx 0 (id :: ids) Hp x2 ltac:(lia) Hx2) as Hs5.
    exists results, x', (wt_db x2), (id :: ids). split; [done|]. split; [exact Hx2|]. split; [done|].
    intros i Hi. eapply (attempt_recorded_stretch base); [by etrans|reflexivity|].
    apply Hall; [done|]. by apply Hrows.
Qed.

End World.
End Grounds.

(** What the relayer signs is what the watcher looks for.  When [eth_abi] lays the
    arguments out canonically, the calldata built for the authorization of an intent
    passes the watcher's decoder and matches that intent; and it matches another
    intent only if the two name the same scope: hashes, owner, payee, token, amount,
    nonce, deadline, signer epoch and relayer. *)
Theorem relayer_call_recognised `{Keccak} `{AbiEncode} relayer i authorization signature raw :
  abi_canonical → length EXECUTE_SELECTOR = 4%nat → make_intent i = Ok i →
  relayer_authorization relayer i = Ok authorization →
  encode_execute_calldata authorization (Some signature) = Ok raw →
  ∃ scope, decode_execute_input (PStr ("0x" +:+ hex raw)) = Ok scope ∧
    match_execution scope i = Ok tt ∧
    ∀ j, match_execution scope j = Ok tt → expected_scope j = expected_scope i.
Proof.
  intros Habi Hsel Hi Ha He. destruct (authorization_scope relayer i authorization Hi Ha) as (s & Hs & Hc & Hv).
  unfold encode_execute_calldata in He. cbn [from_option_or mbind result_bind] in He.
  apply result_bind_Ok in He as (vrs & Hn & [= <-]).
  assert (length signature = 65%nat) as Hl.
  { unfold normalise_signature in Hn. apply result_bind_Ok in Hn as (_ & [Hl _]%require_Ok & _).
    by apply Nat.eqb_eq. }
  rewrite Hv, (Habi s signature Hc Hl).
  assert (∀ j, match_execution s j = Ok tt ↔ expected_scope j = Ok s) as Hm.
  { intros j. unfold match_execution. destruct (expected_scope j) as [s'|]; simpl; [|by split].
    unfold demand. case_bool_decide as E; simpl; [by subst|]. split; [done|]. by intros [= ->]. }
  exists s. split_and!.
  - apply decode_execute_exact. split; [done|]. exists signature. split_and!; [done..|].
    apply ev_bytes_hex. right. intros Hnil. apply (f_equal length) in Hnil.
    rewrite length_app, Hsel in Hnil. simpl in Hnil. lia.
  - by apply Hm.
  - intros j Hj%Hm. by rewrite Hs.
Qed.

(** ** A confirmation that was not finalized *)

Section Stale.
Context `{Sha256} `{Keccak} (policy : option PilotGatePolicy) (watcher : HostedChainWatcher).
Context (w : WatcherWorld).

(** A confirmation can only be repeated at the boundary block it was recorded at. *)
Lemma confirm_moved clock id rc evidence d r :
  db_executions d !! id = Some r → er_status r = CONFIRMED →
  er_safe_block_number r ≠ Some (rc_safe_block_number rc) →
  ∃ err, confirm policy clock id rc (Some evidence) None d = (Err err, d).
Proof.
  intros Hr Hs Hn. destruct (confirm _ _ _ _ _ _ d) as [[h|err] d'] eqn:E.
  - exfalso. unfold confirm in E. destruct (negb _); [done|]. unfold record_observation in E.
    apply before_session_Ok in E as ([projected t] & _ & E). apply write_session_Ok in E.
    apply txn_bind_Ok in E as (row & d1 & Hrow & E).
    apply locked_execution_Ok in Hrow as [Hrow ?]. simplify_eq.
    apply txn_bind_Ok in E as (u & d2 & [_ ->]%lifts_Ok & E). cbv zeta in E.
    rewrite (bool_decide_eq_true_2 _ Hs) in E. unfold replayed_observation in E.
    txn_inv. case_match; txn_inv. case_match; txn_inv. by bool_inv.
  - exists err. f_equal. unfold confirm in E. destruct (negb _); [congruence|].
    unfold record_observation, before_session in E. destruct (_ ≫= _) as [[projected t]|]; [|congruence].
    by apply write_session_Err in E.
Qed.

(** A confirmation that was not finalized is finalized only at the same boundary.
    When an execution is found confirmed - the process that confirmed it stopped before
    it called finalize - and the boundary block has moved on since, a pass over the
    same, still valid, evidence of the payment changes nothing: the repetition of the
    confirmation is refused and finalize is not called. *)
Theorem moved_confirmation_not_finalized execution_id x r e ce :
  (∀ n d, ww_others w n d = d) → db_executions (wt_db x) !! execution_id = Some r →
  record r = Ok e → er_status r = CONFIRMED →
  observe watcher (ww_rpc w (S (wt_tick x))) e false = Observed ce → ce_receipt_status ce = 1 →
  er_safe_block_number r ≠ Some (ce_safe_block_number ce) →
  let outcome := watch policy watcher w execution_id x in
  outcome.1 = Ok (MkWatchResult execution_id CONFIRMED "unchanged" "repository_rejected" None) ∧
  wt_db outcome.2 = wt_db x ∧
  ∃ n rc evidence, wt_asked outcome.2 = wt_asked x ++ [(n, WConfirm execution_id rc evidence)].
Proof.
  intros Hidle Hr Hrec Hst Hobs Hone Hmoved. cbv zeta.
  destruct (record_shows r e Hrec) as (_ & Hes & _).
  destruct x as [d n asked cursor]. cbn [wt_db wt_tick wt_asked] in *.
  assert (watch policy watcher w execution_id (MkWatching d n asked cursor)
    = watch_submitted policy watcher w execution_id e (MkWatching d (S n) asked cursor)) as ->.
  { unfold watch, reads_store, answers, mbind, service_bind. cbn [watch_turn wt_db wt_tick wt_asked wt_cursor].
    rewrite Hidle. unfold get_execution. rewrite Hr, Hrec. cbn [mbind result_bind mret result_ret].
    rewrite Hes, Hst. done. }
  unfold watch_submitted, observes, asks_repository, recover, runs, answers, mbind, service_bind.
  cbn [watch_turn wt_db wt_tick wt_asked wt_cursor]. rewrite !Hidle, Hobs, Hone, Hes, Hst.
  cbn [Z.eqb Pos.eqb watch_turn wt_db wt_tick wt_asked wt_cursor call_repository]. rewrite Hidle.
  destruct (confirm_moved (ww_clock w (S (S n))) execution_id (receipt_of watcher 1 ce)
    (observation_evidence watcher ce) d r Hr Hst Hmoved) as [err Herr].
  rewrite Herr. cbn. split; [done|]. split; [done|]. by eexists _, _, _.
Qed.
End Stale.

(** ** A proved payment is finalized *)

Section Finalizing.
Context `{Sha256} `{Keccak}.







Context (policy : option PilotGatePolicy).





(** ** The pass *)



Context (watcher : HostedChainWatcher) (w : WatcherWorld).





End Finalizing.
