(* ===== verification/RelayWitnesses.v ===== *)
(** * The relayer and the watcher at work

    A relayer executes one intent against a node that loses the first answer, sends
    the same bytes again, and is asked a second time; a watcher finds a payment of
    the run of [Scenario] mined, and finalizes it.  The theorems on the relayer and
    on the watcher are applied to them. *)

From S2P Require Import Prelude PyValue ExecutionModels ExecutionTables PilotGate.
From S2P Require Import NonceAllocator ExecutionRepository ExecutionSettlement.
From S2P Require Import ExecutionMachine ExecutionRefinement Scenario Evm Relayer.
From S2P Require Import RelayMachine RelayPrograms RelayProperties SigningLimits.
From S2P Require Import Watcher WatcherFacts WatcherProperties.
From Stdlib Require Import Ascii Strings.Byte.

Open Scope string_scope.
Open Scope list_scope.
Open Scope Z_scope.

(** Encoders that write one value after the other. *)
Fixpoint demo_abi_value (v : abi_value) : bytes :=
  match v with
  | ABytes bs => bs
  | AAddress s => zeros 12 ++ address_bytes s
  | AUint n => be_bytes 32 n
  | ATuple vs => concat (map demo_abi_value vs)
  end.
#[export] Instance demo_abi : AbiEncode := λ _ vs, concat (map demo_abi_value vs).
Fixpoint demo_rlp_item (item : rlp_item) : bytes :=
  match item with
  | RBytes bs => be_bytes 2 (blen bs) ++ bs
  | RList items => concat (map demo_rlp_item items)
  end.
#[export] Instance demo_rlp : RlpEncode := demo_rlp_item.

Definition demo_settings : RelayerSettings :=
  MkSettings "eip155:8453" 8453 HOSTED_BASE_USDC (demo_address "c") (demo_address "d")
    "execution-key" (demo_address "e") "gas-key" (demo_address "d")
    500000 100000000000 10000000000 (Some (10 ^ 17)).
Definition demo_relayer : HostedRelayer :=
  MkRelayer "eip155:8453" 8453 HOSTED_BASE_USDC (demo_address "c") (demo_address "d")
    (demo_address "e") 500000 100000000000 10000000000 (Some (10 ^ 17)).
Lemma demo_relayer_made : make_relayer demo_settings = Ok demo_relayer.
Proof. vm_compute. reflexivity. Qed.

(** The intent of the run, with the digest its authorization has. *)
Definition demo_scope : ExecutionIntent := demo_intent "relay" (demo_start + 600).
Definition demo_digest : string :=
  match (authorization ← relayer_authorization demo_relayer demo_scope;
         hash_execution authorization (demo_address "c") (Some 8453)) with
  | Ok digest => "0x" +:+ hex digest
  | Err _ => EmptyString
  end.
Definition demo_bound_intent : ExecutionIntent :=
  let i := demo_scope in
  MkIntent (tenant_id i) (node_id i) (wallet_binding_id i) (capability_id i) (reservation_id i)
    (purchase_id i) (request_id i) (request_hash i) (idempotency_key i) (chain i) (owner i)
    (payee i) (token i) (amount_atomic i) (executor i) (signer_epoch i) (owner_nonce i)
    (deadline i) (capability_hash i) (reservation_hash i) (execution_scope_hash i)
    demo_digest (relayer_address i).

(** A node that knows no transaction, and loses what is sent before the 30th
    interaction. *)
Definition demo_node (n : nat) (method : string) (params : list pyval) : result pyval :=
  match dict_find [("eth_chainId", "0x2105"); ("eth_getTransactionCount", "0x29");
      ("eth_estimateGas", "0x5208"); ("eth_maxPriorityFeePerGas", "0x1");
      ("eth_gasPrice", "0x3b9aca00"); ("eth_call", demo_hash "0")] method with
  | Some answer => Ok (PStr answer)
  | None =>
      match method, params with
      | "eth_sendRawTransaction", [PStr (String _ (String _ digits))] =>
          if (n <? 30)%nat then Err (RpcSubmissionUnknown "timeout")
          else Ok (PStr ("0x" +:+ hex (keccak (default [] (from_hex digits)))))
      | _, _ => Ok PNone
      end
  end.
Definition demo_execution_signature : bytes := replicate 64 x01 ++ [x1b].
Definition demo_world : RelayWorld :=
  MkWorld demo_node demo_node (λ n, Ok (demo_start + Z.of_nat n))
    (λ _ _, Ok demo_execution_signature) (λ _ _, Ok demo_execution_signature)
    (λ _ _, Ok ()) (λ _ _, "exec_relay") (λ _ d, d).

Definition demo_relay (c : relay_call) (x : Exchange) : result HostedExecution * Exchange :=
  relay_run (Some demo_policy) demo_relayer demo_world c x.
Definition relay_start : Exchange := MkExchange empty_db 0 [].
Definition relay_executed : Exchange := (demo_relay (RExecute demo_bound_intent) relay_start).2.
Definition relay_resent : Exchange := (demo_relay (RRebroadcast "exec_relay") relay_executed).2.

Definition relay_summary (r : result HostedExecution * Exchange)
    : option ExecutionState * list nat * bool :=
  (match r.1 with Ok h => Some (he_status h) | Err _ => None end, (ex_sent r.2).*1,
   bool_decide (length (remove_dups (ex_sent r.2).*2) = 1%nat)).
(** The first answer is lost, the second broadcast sends the same bytes, and a
    third call sends nothing. *)
Example relay_run_summary :
  (relay_summary (demo_relay (RExecute demo_bound_intent) relay_start),
   relay_summary (demo_relay (RRebroadcast "exec_relay") relay_executed),
   relay_summary (demo_relay (RExecute demo_bound_intent) relay_resent))
  = ((Some SUBMISSION_UNKNOWN, [24%nat], true), (Some SUBMITTED, [24%nat; 32%nat], true),
     (Some SUBMITTED, [24%nat; 32%nat], true)).
Proof. vm_compute. reflexivity. Qed.

Lemma demo_lawful : lawful (Some demo_policy) demo_world.
Proof. intros n d _. apply rtc_refl. Qed.
Lemma demo_relay_reachable c x :
  reachable (Some demo_policy) (ex_db x) → reachable (Some demo_policy) (ex_db (demo_relay c x).2).
Proof.
  intros Hr. unfold demo_relay.
  exact (moved_reachable _ _ _ _ _ Hr (proj1 (relay_run_acts (Some demo_policy) demo_policy_valid
    demo_relayer demo_world demo_lawful c x Hr I))).
Qed.
Lemma relay_start_reachable : reachable (Some demo_policy) (ex_db relay_start).
Proof. apply rtc_refl. Qed.
Lemma relay_resent_reachable : reachable (Some demo_policy) (ex_db relay_resent).
Proof. unfold relay_resent, relay_executed. do 2 apply demo_relay_reachable. apply rtc_refl. Qed.

Lemma relayer_calls_refine_witness :
  length (ex_sent relay_executed) = 1%nat ∧
  rtc (relay_step (Some demo_policy) claimed_bytes) relay_start relay_executed.
Proof.
  split; [vm_compute; reflexivity|].
  exact (relayer_calls_refine (Some demo_policy) demo_relayer demo_world
    (RExecute demo_bound_intent) relay_start demo_policy_valid demo_lawful relay_start_reachable).
Defined.

(** The bytes both broadcasts of the run sent. *)
Definition relay_raw : bytes := default [] (snd <$> head (ex_sent relay_resent)).
Lemma relay_history : rtc (system_step (Some demo_policy)) relay_start relay_resent.
Proof.
  apply (rtc_l _ _ relay_executed).
  - exact (system_relayer (Some demo_policy) relay_start demo_relayer demo_world
      (RExecute demo_bound_intent) demo_lawful).
  - apply rtc_once. unfold relay_resent, demo_relay. generalize relay_executed. intros x.
    exact (system_relayer (Some demo_policy) x demo_relayer demo_world (RRebroadcast "exec_relay")
      demo_lawful).
Qed.
Lemma relay_sent_both :
  (24%nat, relay_raw) ∈ ex_sent relay_resent ∧ (32%nat, relay_raw) ∈ ex_sent relay_resent.
Proof. split; decided. Qed.

Lemma sent_once_per_nonce_witness :
  (24%nat, relay_raw) ∈ ex_sent relay_resent ∧
  ∃ k1 r1 k2 r2,
    db_executions (ex_db relay_resent) !! k1 = Some r1 ∧ offered_row relay_raw r1 ∧
    db_executions (ex_db relay_resent) !! k2 = Some r2 ∧ offered_row relay_raw r2 ∧
    (er_chain r1 = er_chain r2 → er_relayer_address r1 = er_relayer_address r2 →
     er_relayer_nonce r1 = er_relayer_nonce r2 → relay_raw = relay_raw).
Proof.
  split; [apply relay_sent_both|].
  exact (sent_once_per_nonce (Some demo_policy) relay_start relay_resent 24 relay_raw 32 relay_raw
    demo_policy_valid relay_start_reachable eq_refl relay_history
    (proj1 relay_sent_both) (proj2 relay_sent_both)).
Defined.

Lemma execute_sends_once_witness :
  length (ex_sent relay_executed) = 1%nat ∧
  (ex_sent relay_executed = ex_sent relay_start ∨
   ∃ n raw t d k r,
     ex_sent relay_executed = ex_sent relay_start ++ [(S n, raw)] ∧ rw_clock demo_world n = Ok t ∧
     t < deadline demo_bound_intent ∧
     rtc (call (Some demo_policy)) (ex_db relay_start) d ∧
     rtc (call (Some demo_policy)) d (ex_db relay_executed) ∧
     db_executions d !! k = Some r ∧ er_columns r = intent_columns demo_bound_intent ∧
     er_raw_transaction r = Some raw ∧ 0 < er_broadcast_attempts r).
Proof.
  split; [vm_compute; reflexivity|].
  exact (execute_sends_once (Some demo_policy) demo_relayer demo_world demo_bound_intent relay_start
    demo_policy_valid demo_lawful relay_start_reachable).
Defined.

Definition relay_row : HostedExecutionRow :=
  default (new_execution EmptyString demo_scope 0 0)
    (db_executions (ex_db relay_resent) !! "exec_relay").
Lemma execute_never_resends_witness :
  0 < er_broadcast_attempts relay_row ∧
  ex_sent (execute (Some demo_policy) demo_relayer demo_world demo_bound_intent relay_resent).2
  = ex_sent relay_resent.
Proof.
  assert (0 < er_broadcast_attempts relay_row) as Ha by (vm_compute; reflexivity).
  split; [exact Ha|].
  apply (execute_never_resends (Some demo_policy) demo_relayer demo_world demo_bound_intent
    relay_resent "exec_relay" relay_row demo_policy_valid demo_lawful relay_resent_reachable);
    [vm_compute; reflexivity|vm_compute; reflexivity|exact Ha].
Defined.

(** ** Signing *)

(** The database once the intent is allocated and claimed for signing. *)
Definition claimed_exchange : Exchange :=
  MkExchange (demo_call (CClaimSigning "exec_relay" None)
    (demo_call (CAllocate (λ _, "exec_relay") demo_bound_intent 41 None None) empty_db)) 0 [].
Definition claimed_execution : result HostedExecution :=
  found ← get_execution "exec_relay" (ex_db claimed_exchange);
  from_option_or found (KeyError "exec_relay").

Lemma signed_within_limits_witness :
  match claimed_execution with
  | Err _ => False
  | Ok h =>
      match sign_execution (Some demo_policy) demo_relayer demo_world h claimed_exchange with
      | (Err _, _) => False
      | (Ok h', _) =>
          ∃ authorization digest signature gas_signature tx raw,
            relayer_authorization demo_relayer (he_intent h) = Ok authorization ∧
            hash_execution authorization (ry_executor_address demo_relayer) (Some (ry_chain_id demo_relayer))
              = Ok digest ∧
            execution_digest (he_intent h) = "0x" +:+ hex digest ∧
            encode_execute_calldata authorization (Some signature) = Ok (tx_data tx) ∧
            within_limits demo_relayer h (tx_data tx) tx ∧ signed_bytes tx gas_signature = Ok raw ∧
            he_signature h' = Some signature ∧ he_raw_transaction h' = Some raw
      end
  end.
Proof.
  assert (match claimed_execution with
          | Err _ => false
          | Ok h => is_ok (sign_execution (Some demo_policy) demo_relayer demo_world h claimed_exchange).1
          end = true) as Hok by (vm_compute; reflexivity).
  destruct claimed_execution as [h|e]; [|discriminate].
  destruct (sign_execution _ _ _ h _) as [[h'|e] x'] eqn:E; [|discriminate].
  exact (signed_within_limits (Some demo_policy) demo_relayer demo_world demo_settings h
    claimed_exchange h' x' demo_relayer_made E).
Defined.

Definition demo_transaction : EIP1559Transaction :=
  MkTransaction 41 1 2000000001 25200 (demo_address "c") [x01; x02] 0 8453.
Lemma transaction_fields_round_trip_witness :
  make_transaction demo_transaction = Ok demo_transaction ∧
  read_transaction (unsigned_fields demo_transaction) = Some demo_transaction.
Proof.
  assert (make_transaction demo_transaction = Ok demo_transaction) as Hm by (vm_compute; reflexivity).
  split; [exact Hm|]. exact (transaction_fields_round_trip demo_transaction demo_transaction Hm).
Defined.

(** ** Watching *)

(** The execution of the run that was offered to the network. *)
Definition offered_demo_row : HostedExecutionRow := demo_row 7 "exec_a".
Definition watched_execution : option HostedExecution :=
  match record offered_demo_row with Ok e => Some e | Err _ => None end.





(** An encoder that lays the arguments of [execute] out as the ABI does. *)
Definition canonical_abi : AbiEncode := λ _ vs,
  match vs with
  | [ATuple fields; ABytes signature] =>
      concat (map demo_abi_value fields) ++ be_bytes 32 352 ++ be_bytes 32 65 ++ signature ++ zeros 31
  | _ => []
  end.
Lemma canonical_abi_canonical : abi_canonical (H := canonical_abi).
Proof.
  intros s signature _ _. unfold abi_encode, canonical_abi, execute_body, scope_values, scope_words, padded_address.
  cbn [map demo_abi_value concat]. by rewrite <- !app_assoc.
Qed.
