(* ===== verification/DeviceKeys.v ===== *)
(** * Device keys

    The P-256 public keys of nodes as JSON Web Keys, and their thumbprints
    ([shared/hosted_facilitator_protocol.py]): base64url text, the checks of a
    key, and the identifier a key has. *)

From S2P Require Import Prelude PyValue.
From Stdlib Require Import Ascii Strings.Byte.

Open Scope string_scope.
Open Scope Z_scope.

(** [hashlib.sha256(value).digest()]. *)
Class Sha256Bytes := sha256 : bytes → bytes.
(** The curve of the [cryptography] package: whether
    [EllipticCurvePublicNumbers(x, y, SECP256R1()).public_key()] returns. *)
Class P256 := is_p256_point : Z → Z → bool.

(** [text.encode("ascii")]. *)
Definition ascii_bytes (text : string) : bytes := String.list_byte_of_string text.

(** ** Base64url *)

(** The character of six bits. *)
Definition base64_char (n : Z) : ascii :=
  ascii_of_N (Z.to_N
    (if n <? 26 then 65 + n else if n <? 52 then 71 + n else if n <? 62 then n - 4
     else if n =? 62 then 45 else 95)).
Definition base64_value (c : ascii) : option Z :=
  let n := code c in
  if (65 <=? n) && (n <=? 90) then Some (n - 65)
  else if (97 <=? n) && (n <=? 122) then Some (n - 71)
  else if (48 <=? n) && (n <=? 57) then Some (n + 4)
  else if n =? 45 then Some 62 else if n =? 95 then Some 63 else None.

(** [_base64url_encode]: groups of three bytes, without padding. *)
Fixpoint base64url_encode (bs : bytes) : string :=
  match bs with
  | [] => EmptyString
  | [a] =>
      let n := byte_value a * 16 in
      String (base64_char (n / 64)) (String (base64_char (n mod 64)) EmptyString)
  | [a; b] =>
      let n := (byte_value a * 256 + byte_value b) * 4 in
      String (base64_char (n / 4096)) (String (base64_char (n / 64 mod 64))
        (String (base64_char (n mod 64)) EmptyString))
  | a :: b :: c :: bs' =>
      let n := (byte_value a * 256 + byte_value b) * 256 + byte_value c in
      String (base64_char (n / 262144)) (String (base64_char (n / 4096 mod 64))
        (String (base64_char (n / 64 mod 64)) (String (base64_char (n mod 64))
          (base64url_encode bs'))))
  end.

(** The six-bit values of a text. *)
Fixpoint base64_values (s : string) : option (list Z) :=
  match s with
  | EmptyString => Some []
  | String c s' => v ← base64_value c; vs ← base64_values s'; Some (v :: vs)
  end.
(** The bytes of six-bit values: the spare bits of the last group are dropped, a
    single value left over is an error. *)
Fixpoint base64_bytes (vs : list Z) : option bytes :=
  match vs with
  | [] => Some []
  | [_] => None
  | [a; b] => Some (be_bytes 1 ((a * 64 + b) / 16))
  | [a; b; c] => Some (be_bytes 2 (((a * 64 + b) * 64 + c) / 4))
  | a :: b :: c :: d :: vs' =>
      bs ← base64_bytes vs'; Some (be_bytes 3 (((a * 64 + b) * 64 + c) * 64 + d) ++ bs)%list
  end.
(** [base64.b64decode(value + "=" * (-len(value) % 4), altchars=b"-_", validate=True)]. *)
Definition b64decode (value : string) : option bytes := base64_values value ≫= base64_bytes.

Definition base64url_char (c : ascii) : bool :=
  is_alnum c || Ascii.eqb c "_" || Ascii.eqb c "-".
(** The pattern [[A-Za-z0-9_-]+]. *)
Definition is_base64url (value : string) : bool :=
  negb (bool_decide (value = EmptyString)) && all_chars base64url_char value.

Definition malformed_key : exn := HostedProtocolError "public key is malformed".

(** [_base64url_decode]: only the text [_base64url_encode] writes is accepted. *)
Definition base64url_decode (value : pyval) (expected_length : option nat) : result bytes :=
  match value with
  | PStr value =>
      require (is_base64url value) malformed_key;;
      decoded ← from_option_or (b64decode value) malformed_key;
      require (match expected_length with
               | Some n => (length decoded =? n)%nat
               | None => true
               end) malformed_key;;
      require (bool_decide (base64url_encode decoded = value)) malformed_key;;
      mret decoded
  | _ => Err malformed_key
  end.

(** ** Keys *)

Definition JWK_FIELDS : list string := ["kty"; "crv"; "x"; "y"].

(** [_public_key_from_jwk]: the coordinates of the key. *)
Definition public_key_from_jwk `{P256} (jwk_value : pyval) : result (Z * Z) :=
  match jwk_value with
  | PDict jwk =>
      require (same_keys (dict_keys jwk) JWK_FIELDS) malformed_key;;
      require (py_eqb (dict_get jwk "kty") (PStr "EC") && py_eqb (dict_get jwk "crv") (PStr "P-256"))
        (HostedProtocolError "public key is not a P-256 device key");;
      x ← base64url_decode (dict_get jwk "x") (Some 32%nat);
      y ← base64url_decode (dict_get jwk "y") (Some 32%nat);
      require (is_p256_point (be_value x) (be_value y)) malformed_key;;
      mret (be_value x, be_value y)
  | _ => Err malformed_key
  end.

(** [_public_jwk]. *)
Definition public_jwk (key : Z * Z) : pydict :=
  [("kty", PStr "EC"); ("crv", PStr "P-256");
   ("x", PStr (base64url_encode (be_bytes 32 key.1)));
   ("y", PStr (base64url_encode (be_bytes 32 key.2)))].

(** [_jwk_thumbprint]: the canonical JSON of a key is ASCII. *)
Definition jwk_thumbprint `{P256} `{Sha256Bytes} (jwk_value : pyval) : result string :=
  key ← public_key_from_jwk jwk_value;
  mret (base64url_encode (sha256 (ascii_bytes (json_dumps (PDict (public_jwk key)))))).

(** ** Facts *)

(** What holds of the sixty-four characters holds by looking at each. *)
Lemma sextet_all (p : Z → bool) :
  forallb p (Z.of_nat <$> seq 0 64) = true → ∀ n, 0 <= n < 64 → p n = true.
Proof.
  intros Hall n Hn. rewrite forallb_forall in Hall. apply Hall.
  apply list_elem_of_In, list_elem_of_fmap. exists (Z.to_nat n).
  split; [lia|]. apply elem_of_seq. lia.
Qed.

Lemma base64_value_char n : 0 <= n < 64 → base64_value (base64_char n) = Some n.
Proof.
  intros Hn.
  assert (bool_decide (base64_value (base64_char n) = Some n) = true) as Hv.
  { exact (sextet_all (λ n, bool_decide (base64_value (base64_char n) = Some n)) eq_refl n Hn). }
  by apply bool_decide_eq_true in Hv.
Qed.

Lemma base64_char_url n : 0 <= n < 64 → base64url_char (base64_char n) = true.
Proof. by apply (sextet_all (λ n, base64url_char (base64_char n))). Qed.

(** Induction by groups of three bytes. *)
Lemma triples_ind (P : bytes → Prop) :
  P [] → (∀ a, P [a]) → (∀ a b, P [a; b]) →
  (∀ a b c bs, P bs → P (a :: b :: c :: bs)) → ∀ bs, P bs.
Proof.
  intros H0 H1 H2 H3.
  refine (fix go bs := match bs with
    | [] => H0 | [a] => H1 a | [a; b] => H2 a b
    | a :: b :: c :: bs' => H3 a b c bs' (go bs') end).
Qed.

(** The bytes an integer was read from, of a group. *)
Lemma be_bytes_group bs n v :
  n = length bs → v = be_value bs → be_bytes n v = bs.
Proof. intros -> ->. apply be_bytes_value. Qed.

Ltac sextets := repeat match goal with
  | b : byte |- _ =>
      lazymatch goal with
      | _ : 0 <= byte_value b < 256 |- _ => fail
      | _ => pose proof (byte_value_range b)
      end
  end; Z.to_euclidean_division_equations; lia.

(** Decoding reads back what was encoded. *)
Lemma b64decode_encode bs : b64decode (base64url_encode bs) = Some bs.
Proof.
  unfold b64decode. induction bs as [|a|a b|a b c bs IH] using triples_ind; [done|..];
    cbn [base64url_encode base64_values];
    rewrite !base64_value_char by sextets; cbn [mbind option_bind base64_values].
  - cbn [base64_bytes]. f_equal. apply (be_bytes_group [a]); [done|]. unfold be_value; simpl. sextets.
  - cbn [base64_bytes]. f_equal. apply (be_bytes_group [a; b]); [done|]. unfold be_value; simpl. sextets.
  - destruct (base64_values (base64url_encode bs)) as [vs|]; [|done].
    cbn [mbind option_bind base64_bytes] in IH |- *.
    rewrite IH. cbn [mbind option_bind]. f_equal.
    change (a :: b :: c :: bs) with ([a; b; c] ++ bs)%list. f_equal.
    apply (be_bytes_group [a; b; c]); [done|]. unfold be_value; simpl. sextets.
Qed.

Lemma base64url_encode_chars bs : all_chars base64url_char (base64url_encode bs) = true.
Proof.
  induction bs as [|a|a b|a b c bs IH] using triples_ind; [done|..];
    cbn [base64url_encode all_chars]; rewrite !base64_char_url by sextets; done.
Qed.

(** A text decodes exactly when it is the text of some bytes. *)
Lemma base64url_decode_Ok v n bs :
  base64url_decode v (Some n) = Ok bs ↔
  v = PStr (base64url_encode bs) ∧ length bs = n ∧ bs ≠ [].
Proof.
  split.
  - destruct v as [| | |s| |]; try done. unfold base64url_decode. intros Hd. txn_inv.
    unfold is_base64url in *. bool_inv. subst s.
    split_and!; [done|by apply Nat.eqb_eq|]. by intros ->.
  - intros (-> & <- & Hne). unfold base64url_decode, is_base64url.
    rewrite base64url_encode_chars, b64decode_encode.
    rewrite bool_decide_eq_false_2; [simpl; rewrite Nat.eqb_refl; simpl; by case_bool_decide|].
    destruct bs as [|? [|? [|? ?]]]; done.
Qed.

Section Keys.
Context `{P256}.

(** A key that is read is, as Python compares dictionaries, its canonical form. *)
Lemma public_key_canonical jwk key :
  public_key_from_jwk (PDict jwk) = Ok key →
  same_keys (dict_keys jwk) JWK_FIELDS = true ∧
  ∀ k, k ∈ JWK_FIELDS → dict_get jwk k = dict_get (public_jwk key) k.
Proof.
  unfold public_key_from_jwk. intros Hk. txn_inv. bool_inv.
  match goal with
  | Hx : base64url_decode (dict_get jwk "x") _ = _, Hy : base64url_decode (dict_get jwk "y") _ = _ |- _ =>
      apply base64url_decode_Ok in Hx as (Hx & Lx & _); apply base64url_decode_Ok in Hy as (Hy & Ly & _)
  end.
  split; [done|]. intros k Hk. unfold public_jwk, JWK_FIELDS in *. cbn [fst snd].
  assert (∀ v t, py_eqb v (PStr t) = true → v = PStr t) as Htext.
  { intros [] t Hs; try done. simpl in Hs. by apply bool_decide_eq_true in Hs as ->. }
  rewrite <- Lx at 1. rewrite be_bytes_value. rewrite <- Ly. rewrite be_bytes_value.
  list_cases; subst k; first [by apply Htext | assumption].
Qed.
End Keys.
