(* ===== verification/ControlPlane.v ===== *)
(** * Records and calls of the node registry

    The data of [facilitator/models.py] with the checks their constructors make and
    the binding digest of an enrollment; and [ControlPlaneRepository] of
    [facilitator/repository.py]: the calls a repository of nodes answers, as an
    interface two adapters implement. *)

From S2P Require Import Prelude PyValue ExecutionModels DeviceKeys.
From Stdlib Require Import Ascii Strings.Byte.

Open Scope string_scope.
Open Scope Z_scope.

(** ** Records *)

(** [EnrollmentTokenRecord]; a row of [hosted_enrollment_tokens] has its columns. *)
Record EnrollmentTokenRecord := MkToken {
  et_tenant_id : string;
  et_token_digest : bytes;
  et_expires_at : Z;
  et_consumed_at : option Z;
  et_enrolled_node_id : option string;
  et_enrollment_binding_digest : option bytes;
}.

(** [HostedRotationRecord]; a row of [hosted_node_rotations]. *)
Record HostedRotationRecord := MkRotation {
  hr_rotation_id : string;
  hr_tenant_id : string;
  hr_node_id : string;
  hr_wallet_binding_id : string;
  hr_expected_epoch : Z;
  hr_next_epoch : Z;
  hr_pending_public_jwk : pydict;
  hr_pending_device_key_id : string;
  hr_pending_access_token_digest : bytes;
  hr_status : string;
  hr_prepared_at : Z;
  hr_committed_at : option Z;
}.

(** [NodeRegistration]; a row of [hosted_node_registrations]. *)
Record NodeRegistration := MkNode {
  nr_tenant_id : string;
  nr_node_id : string;
  nr_wallet_binding_id : string;
  nr_device_public_jwk : pydict;
  nr_device_key_id : string;
  nr_access_token_digest : bytes;
  nr_credential_epoch : Z;
  nr_status : string;
  nr_created_at : Z;
  nr_updated_at : Z;
  nr_revocation_id : option string;
}.

(** [PreflightRecord]; a row of [hosted_preflight_records] but for its key. *)
Record PreflightRecord := MkPreflight {
  pf_tenant_id : string;
  pf_node_id : string;
  pf_request_id : string;
  pf_idempotency_key : string;
  pf_request_nonce : string;
  pf_capability_hash : string;
  pf_reservation_id : string;
  pf_request_hash : string;
  pf_signed_response_jws : string;
  pf_created_at : Z;
}.

#[export] Instance eta_token : Eta EnrollmentTokenRecord := λ r,
  MkToken (et_tenant_id r) (et_token_digest r) (et_expires_at r) (et_consumed_at r)
    (et_enrolled_node_id r) (et_enrollment_binding_digest r).
#[export] Instance eta_rotation : Eta HostedRotationRecord := λ r,
  MkRotation (hr_rotation_id r) (hr_tenant_id r) (hr_node_id r) (hr_wallet_binding_id r)
    (hr_expected_epoch r) (hr_next_epoch r) (hr_pending_public_jwk r)
    (hr_pending_device_key_id r) (hr_pending_access_token_digest r) (hr_status r)
    (hr_prepared_at r) (hr_committed_at r).
#[export] Instance eta_node : Eta NodeRegistration := λ r,
  MkNode (nr_tenant_id r) (nr_node_id r) (nr_wallet_binding_id r) (nr_device_public_jwk r)
    (nr_device_key_id r) (nr_access_token_digest r) (nr_credential_epoch r) (nr_status r)
    (nr_created_at r) (nr_updated_at r) (nr_revocation_id r).

(** ** Validation *)

(** [validate_identifier]: the pattern of [ExecutionModels.is_identifier]. *)
Definition check_identifier (field_name value : string) : result unit :=
  require (is_identifier value) (ValueError (field_name +:+ " is invalid")).
(** [validate_digest]. *)
Definition check_digest (field_name : string) (value : bytes) : result unit :=
  require (length value =? 32)%nat (ValueError (field_name +:+ " is invalid")).
(** [validate_hash]. *)
Definition check_hash (field_name value : string) : result unit :=
  require (is_prefixed is_lower_hex 64 value) (ValueError (field_name +:+ " is invalid")).
(** [value > 0]. *)
Definition check_positive (field_name : string) (value : Z) : result unit :=
  require (0 <? value) (ValueError (field_name +:+ " is invalid")).
(** A check of a value that may be [None]. *)
Definition check_optional {A} (check : A → result unit) (value : option A) : result unit :=
  match value with Some v => check v | None => Ok tt end.

(** The pattern [[A-Za-z0-9_-]{16,128}] of a key id. *)
Definition is_key_id (value : string) : bool :=
  all_chars base64url_char value && (16 <=? str_len value) && (str_len value <=? 128).

(** A key and its identifier: the thumbprint, whatever prevents computing it. *)
Definition check_key `{P256} `{Sha256Bytes} (jwk_name id_name : string) (jwk : pydict)
    (key_id : string) : result unit :=
  require (is_key_id key_id) (ValueError (id_name +:+ " is invalid"));;
  match jwk_thumbprint (PDict jwk) with
  | Ok thumbprint =>
      require (bool_decide (thumbprint = key_id))
        (ValueError (id_name +:+ " does not match " +:+ jwk_name))
  | Err _ => Err (ValueError (jwk_name +:+ " is invalid"))
  end.

(** [EnrollmentTokenRecord(...)]. *)
Definition make_token (r : EnrollmentTokenRecord) : result EnrollmentTokenRecord :=
  check_identifier "tenant_id" (et_tenant_id r);;
  check_digest "token_digest" (et_token_digest r);;
  check_positive "expires_at" (et_expires_at r);;
  check_optional (check_positive "consumed_at") (et_consumed_at r);;
  require (Bool.eqb (bool_decide (et_enrolled_node_id r = None))
                    (bool_decide (et_enrollment_binding_digest r = None)))
    (ValueError "enrollment binding is incomplete");;
  check_optional (check_identifier "enrolled_node_id") (et_enrolled_node_id r);;
  check_optional (check_digest "enrollment_binding_digest") (et_enrollment_binding_digest r);;
  mret r.

Section Keyed.
Context `{P256} `{Sha256Bytes}.

(** [HostedRotationRecord(...)]. *)
Definition make_rotation (r : HostedRotationRecord) : result HostedRotationRecord :=
  check_identifier "rotation_id" (hr_rotation_id r);;
  check_identifier "tenant_id" (hr_tenant_id r);;
  check_identifier "node_id" (hr_node_id r);;
  check_identifier "wallet_binding_id" (hr_wallet_binding_id r);;
  check_positive "expected_epoch" (hr_expected_epoch r);;
  require (hr_next_epoch r =? hr_expected_epoch r + 1) (ValueError "next_epoch is invalid");;
  check_key "pending_public_jwk" "pending_device_key_id" (hr_pending_public_jwk r)
    (hr_pending_device_key_id r);;
  check_digest "pending_access_token_digest" (hr_pending_access_token_digest r);;
  require (bool_decide (hr_status r ∈ ["prepared"; "committed"; "cancelled" : string]))
    (ValueError "status is invalid");;
  check_positive "prepared_at" (hr_prepared_at r);;
  check_optional (check_positive "committed_at") (hr_committed_at r);;
  require (negb (bool_decide (hr_status r = "committed") && bool_decide (hr_committed_at r = None)))
    (ValueError "committed_at is required");;
  require (bool_decide (hr_status r = "committed") || bool_decide (hr_committed_at r = None))
    (ValueError "committed_at is only valid for committed rotations");;
  mret r.

(** [NodeRegistration(...)]. *)
Definition make_node (r : NodeRegistration) : result NodeRegistration :=
  check_identifier "tenant_id" (nr_tenant_id r);;
  check_identifier "node_id" (nr_node_id r);;
  check_identifier "wallet_binding_id" (nr_wallet_binding_id r);;
  check_key "device_public_jwk" "device_key_id" (nr_device_public_jwk r) (nr_device_key_id r);;
  check_digest "access_token_digest" (nr_access_token_digest r);;
  check_positive "credential_epoch" (nr_credential_epoch r);;
  require (bool_decide (nr_status r ∈ ["active"; "revoked" : string]))
    (ValueError "status is invalid");;
  check_positive "created_at" (nr_created_at r);;
  check_positive "updated_at" (nr_updated_at r);;
  check_optional (check_identifier "revocation_id") (nr_revocation_id r);;
  mret r.

Definition MAX_SIGNED_RESPONSE_BYTES : Z := 64 * 1024.

(** [PreflightRecord(...)]. *)
Definition make_preflight (r : PreflightRecord) : result PreflightRecord :=
  check_identifier "tenant_id" (pf_tenant_id r);;
  check_identifier "node_id" (pf_node_id r);;
  check_identifier "request_id" (pf_request_id r);;
  check_identifier "idempotency_key" (pf_idempotency_key r);;
  check_identifier "reservation_id" (pf_reservation_id r);;
  check_hash "request_nonce" (pf_request_nonce r);;
  check_hash "capability_hash" (pf_capability_hash r);;
  check_hash "request_hash" (pf_request_hash r);;
  require (negb (bool_decide (pf_signed_response_jws r = EmptyString))
           && all_chars (λ c, code c <? 128) (pf_signed_response_jws r)
           && (str_len (pf_signed_response_jws r) <=? MAX_SIGNED_RESPONSE_BYTES))
    (ValueError "signed_response_jws is invalid");;
  check_positive "created_at" (pf_created_at r);;
  mret r.

(** ** Bindings *)

(** What the client of an enrollment chose, as [enrollment_binding_digest] writes it. *)
Definition enrollment_binding (node : NodeRegistration) : result pydict :=
  crv ← dict_item (nr_device_public_jwk node) "crv";
  kty ← dict_item (nr_device_public_jwk node) "kty";
  x ← dict_item (nr_device_public_jwk node) "x";
  y ← dict_item (nr_device_public_jwk node) "y";
  mret [("tenant_id", PStr (nr_tenant_id node));
        ("wallet_binding_id", PStr (nr_wallet_binding_id node));
        ("device_public_jwk", PDict [("crv", crv); ("kty", kty); ("x", x); ("y", y)]);
        ("device_key_id", PStr (nr_device_key_id node));
        ("access_token_digest", PStr (hex (nr_access_token_digest node)));
        ("credential_epoch", PInt (nr_credential_epoch node));
        ("status", PStr (nr_status node))].
(** [enrollment_binding_digest]. *)
Definition enrollment_binding_digest (node : NodeRegistration) : result bytes :=
  canonical ← enrollment_binding node;
  mret (sha256 (ascii_bytes (json_dumps (PDict canonical)))).

(** [_enrollment_binding_for]. *)
Definition enrollment_binding_for (node : NodeRegistration) (binding_digest : option bytes)
    : result bytes :=
  expected ← enrollment_binding_digest node;
  match binding_digest with
  | None => mret expected
  | Some digest =>
      require ((length digest =? 32)%nat && bool_decide (digest = expected))
        (RepositoryConflict "enrollment binding conflict");;
      mret digest
  end.

(** [_rotation_request_binding]: what the client of a rotation chose. *)
Definition rotation_request_binding (r : HostedRotationRecord) :=
  (hr_rotation_id r, hr_tenant_id r, hr_node_id r, hr_wallet_binding_id r,
   hr_expected_epoch r, hr_next_epoch r, json_dumps (PDict (hr_pending_public_jwk r)),
   hr_pending_device_key_id r, hr_pending_access_token_digest r, hr_status r).
End Keyed.

(** [digest_secret], of a text. *)
Definition digest_secret `{Sha256Bytes} (value : string) : result bytes :=
  require (negb (bool_decide (value = EmptyString))) (ValueError "secret is invalid");;
  mret (sha256 (ascii_bytes value)).

(** The calls, with the type of what they return. *)
Inductive RegistryCall : Type → Type :=
| PutEnrollmentToken (record : EnrollmentTokenRecord) : RegistryCall unit
| GetEnrollmentToken (token_digest : bytes) : RegistryCall (option EnrollmentTokenRecord)
| ConsumeEnrollmentToken (token_digest : bytes) (now : Z)
    : RegistryCall (option EnrollmentTokenRecord)
| EnrollNode (token_digest : bytes) (node : NodeRegistration) (now : Z)
    (binding_digest : option bytes) : RegistryCall NodeRegistration
| PutNode (node : NodeRegistration) : RegistryCall unit
| GetNode (tenant_id node_id : string) : RegistryCall (option NodeRegistration)
| GetNodeByAccessDigest (access_token_digest : bytes) : RegistryCall (option NodeRegistration)
| PrepareRotation (record : HostedRotationRecord) : RegistryCall HostedRotationRecord
| GetPendingRotation (access_token_digest : bytes) (tenant_id node_id : string)
    : RegistryCall (option HostedRotationRecord)
| CommitRotation (rotation_id tenant_id node_id : string) (expected_epoch : Z)
    (pending_access_token_digest : bytes) (now : Z) : RegistryCall NodeRegistration
| RevokeNode (tenant_id node_id : string) (expected_epoch : Z)
    (revocation_id : option string) (drawn_id : string) : RegistryCall NodeRegistration
| GetRevokedNode (access_token_digest : bytes) (tenant_id node_id revocation_id : string)
    (expected_epoch : Z) : RegistryCall (option NodeRegistration)
| ConsumeDpopJti (tenant_id node_id : string) (credential_epoch : Z) (jti : string)
    (expires_at now : Z) : RegistryCall bool
| BindPreflight (record : PreflightRecord) : RegistryCall PreflightRecord.

(** A repository over a state [S]. *)
Class ControlPlane (S : Type) := control : ∀ A, RegistryCall A → service S A.
Arguments control {S _ A} _.

(** [rotate_node], which both adapters write alike; [rotation_id] is drawn. *)
Definition rotate_node {S} `{ControlPlane S} `{P256} `{Sha256Bytes} (rotation_id : string)
    (tenant_id node_id : string) (expected_epoch : Z) (replacement : NodeRegistration)
    : service S NodeRegistration :=
  answers (λ _, require (bool_decide (nr_tenant_id replacement = tenant_id)
                         && bool_decide (nr_node_id replacement = node_id)
                         && (nr_credential_epoch replacement =? expected_epoch + 1)
                         && bool_decide (nr_status replacement = "active"))
                  (RepositoryConflict "rotation is invalid"));;
  current ← control (GetNode tenant_id node_id);
  current ← answers (λ _, from_option_or current (RepositoryConflict "node is revoked"));
  record ← answers (λ _, make_rotation
    (MkRotation rotation_id tenant_id node_id (nr_wallet_binding_id current) expected_epoch
       (expected_epoch + 1) (nr_device_public_jwk replacement) (nr_device_key_id replacement)
       (nr_access_token_digest replacement) "prepared" (nr_updated_at replacement) None));
  control (PrepareRotation record);;
  control (CommitRotation (hr_rotation_id record) tenant_id node_id expected_epoch
             (nr_access_token_digest replacement) (nr_updated_at replacement)).

(** ** Checks the two adapters share *)

(** The rotation a commit names is the one it asks for. *)
Definition rotation_matches (record : HostedRotationRecord) (tenant_id node_id : string)
    (expected_epoch : Z) (pending_access_token_digest : bytes) : bool :=
  bool_decide (hr_tenant_id record = tenant_id) && bool_decide (hr_node_id record = node_id)
  && (hr_expected_epoch record =? expected_epoch)
  && bool_decide (hr_pending_access_token_digest record = pending_access_token_digest).

(** The node carries the credential of a committed rotation. *)
Definition rotation_applied (record : HostedRotationRecord) (node : NodeRegistration) : bool :=
  bool_decide (nr_status node = "active") && (nr_credential_epoch node =? hr_next_epoch record)
  && bool_decide (nr_wallet_binding_id node = hr_wallet_binding_id record)
  && py_eqb (PDict (nr_device_public_jwk node)) (PDict (hr_pending_public_jwk record))
  && bool_decide (nr_device_key_id node = hr_pending_device_key_id record)
  && bool_decide (nr_access_token_digest node = hr_pending_access_token_digest record)
  && bool_decide (nr_revocation_id node = None).

(** The node with the credential of a rotation. *)
Definition rotated_node (record : HostedRotationRecord) (now : Z) (node : NodeRegistration)
    : NodeRegistration :=
  node <| nr_device_public_jwk := hr_pending_public_jwk record |>
       <| nr_device_key_id := hr_pending_device_key_id record |>
       <| nr_access_token_digest := hr_pending_access_token_digest record |>
       <| nr_credential_epoch := hr_next_epoch record |>
       <| nr_updated_at := now |>
       <| nr_revocation_id := None |>.

(** The node revoked. *)
Definition revoked_node (revocation_id : string) (node : NodeRegistration) : NodeRegistration :=
  node <| nr_credential_epoch := nr_credential_epoch node + 1 |>
       <| nr_status := "revoked" |>
       <| nr_updated_at := nr_updated_at node + 1 |>
       <| nr_revocation_id := Some revocation_id |>.

(** The key of a node. *)
Definition node_key (node : NodeRegistration) : string * string :=
  (nr_tenant_id node, nr_node_id node).

(** The keys a preflight record is found by, within its node. *)
Definition by_request (r : PreflightRecord) := (pf_tenant_id r, pf_node_id r, pf_request_id r).
Definition by_idempotency (r : PreflightRecord) :=
  (pf_tenant_id r, pf_node_id r, pf_idempotency_key r).
Definition by_nonce (r : PreflightRecord) := (pf_tenant_id r, pf_node_id r, pf_request_nonce r).
Definition by_capability (r : PreflightRecord) :=
  (pf_tenant_id r, pf_node_id r, pf_capability_hash r).
Definition by_reservation (r : PreflightRecord) :=
  (pf_tenant_id r, pf_node_id r, pf_reservation_id r).
