(* ===== verification/NodeRegistry.v ===== *)
(** * The node registry in PostgreSQL

    [PostgresRepository] of [facilitator/repository.py]: its tables with their
    constraints, and each call as one transaction.  A violated constraint is a
    [RepositoryConflict]; whatever raises is rolled back. *)

From S2P Require Import Prelude PyValue DeviceKeys ControlPlane.

Open Scope string_scope.
Open Scope Z_scope.

(** ** Tables *)

(** [hosted_retired_credentials]. *)
Record RetiredCredentialRow := MkRetired {
  rc_access_token_digest : bytes;
  rc_tenant_id : string;
  rc_node_id : string;
  rc_retired_at : Z;
}.

(** [hosted_dpop_replays], but for its key. *)
Record DPoPReplayRow := MkReplay {
  dr_tenant_id : string;
  dr_node_id : string;
  dr_credential_epoch : Z;
  dr_jti : string;
  dr_expires_at : Z;
  dr_created_at : Z;
}.

Record RegistryDb := MkRegistryDb {
  rd_tokens : gmap bytes EnrollmentTokenRecord;
  rd_nodes : gmap (string * string) NodeRegistration;
  rd_rotations : gmap string HostedRotationRecord;
  rd_retired : gmap bytes RetiredCredentialRow;
  rd_replays : gmap string DPoPReplayRow;
  rd_preflights : gmap string PreflightRecord;
}.
#[export] Instance eta_registry : Eta RegistryDb := λ d,
  MkRegistryDb (rd_tokens d) (rd_nodes d) (rd_rotations d) (rd_retired d) (rd_replays d)
    (rd_preflights d).

Definition empty_registry : RegistryDb := MkRegistryDb ∅ ∅ ∅ ∅ ∅ ∅.

(** The scope a DPoP proof is unique in. *)
Definition replay_scope (r : DPoPReplayRow) :=
  (dr_tenant_id r, dr_node_id r, dr_credential_epoch r, dr_jti r).

(** ** Constraints *)

Abbreviation session A := (txn RegistryDb A).

(** A unique constraint: no row of another key satisfies [same]. *)
Definition unique_besides {K A} `{Countable K} (k : K) (same : A → bool) (m : gmap K A) : bool :=
  bool_decide (find_row same (delete k m) = None).

(** Two columns that may be NULL agree on a value. *)
Definition same_value {A} `{EqDecision A} (a b : option A) : bool :=
  bool_decide (a = b) && bool_decide (is_Some a).

(** The constraints of [hosted_enrollment_tokens]. *)
Definition store_token (row : EnrollmentTokenRecord) : session unit :=
  d ← reads id;
  requires (Bool.eqb (bool_decide (et_enrolled_node_id row = None))
                     (bool_decide (et_enrollment_binding_digest row = None)))
    (IntegrityError "ck_hosted_enrollment_binding");;
  requires (unique_besides (et_token_digest row)
              (λ r, bool_decide (et_tenant_id r = et_tenant_id row)
                    && same_value (et_enrolled_node_id r) (et_enrolled_node_id row)) (rd_tokens d))
    (IntegrityError "uq_hosted_enrollment_node_binding");;
  writes (λ d, d <| rd_tokens := <[et_token_digest row := row]> (rd_tokens d) |>).
Definition add_token (row : EnrollmentTokenRecord) : session unit :=
  d ← reads id;
  requires (bool_decide (rd_tokens d !! et_token_digest row = None))
    (IntegrityError "hosted_enrollment_tokens_pkey");;
  store_token row.

(** The constraints of [hosted_node_registrations]. *)
Definition store_node (row : NodeRegistration) : session unit :=
  d ← reads id;
  requires (unique_besides (node_key row)
              (λ r, bool_decide (nr_access_token_digest r = nr_access_token_digest row)) (rd_nodes d))
    (IntegrityError "uq_hosted_node_access_digest");;
  requires (unique_besides (node_key row)
              (λ r, same_value (nr_revocation_id r) (nr_revocation_id row)) (rd_nodes d))
    (IntegrityError "uq_hosted_node_revocation_id");;
  writes (λ d, d <| rd_nodes := <[node_key row := row]> (rd_nodes d) |>).
Definition add_node (row : NodeRegistration) : session unit :=
  d ← reads id;
  requires (bool_decide (rd_nodes d !! node_key row = None))
    (IntegrityError "hosted_node_registrations_pkey");;
  store_node row.

(** The CHECK constraints of [hosted_node_rotations]. *)
Definition rotation_checks (r : HostedRotationRecord) : bool :=
  (0 <? hr_expected_epoch r) && (hr_next_epoch r =? hr_expected_epoch r + 1)
  && (bool_decide (hr_status r = "committed") && bool_decide (is_Some (hr_committed_at r))
      || bool_decide (hr_status r ∈ ["prepared"; "cancelled" : string])
         && bool_decide (hr_committed_at r = None)).
Definition store_rotation (row : HostedRotationRecord) : session unit :=
  d ← reads id;
  requires (rotation_checks row) (IntegrityError "ck_hosted_rotation");;
  requires (unique_besides (hr_rotation_id row)
              (λ r, bool_decide (hr_tenant_id r = hr_tenant_id row)
                    && bool_decide (hr_node_id r = hr_node_id row)
                    && (hr_expected_epoch r =? hr_expected_epoch row)) (rd_rotations d))
    (IntegrityError "uq_hosted_rotation_node_expected_epoch");;
  requires (unique_besides (hr_rotation_id row)
              (λ r, bool_decide (hr_pending_access_token_digest r
                                 = hr_pending_access_token_digest row)) (rd_rotations d))
    (IntegrityError "uq_hosted_rotation_pending_access_digest");;
  writes (λ d, d <| rd_rotations := <[hr_rotation_id row := row]> (rd_rotations d) |>).
Definition add_rotation (row : HostedRotationRecord) : session unit :=
  d ← reads id;
  requires (bool_decide (rd_rotations d !! hr_rotation_id row = None))
    (IntegrityError "hosted_node_rotations_pkey");;
  store_rotation row.

Definition add_retired (row : RetiredCredentialRow) : session unit :=
  d ← reads id;
  requires (bool_decide (rd_retired d !! rc_access_token_digest row = None))
    (IntegrityError "hosted_retired_credentials_pkey");;
  writes (λ d, d <| rd_retired := <[rc_access_token_digest row := row]> (rd_retired d) |>).

Definition add_replay (replay_id : string) (row : DPoPReplayRow) : session unit :=
  d ← reads id;
  requires (bool_decide (rd_replays d !! replay_id = None))
    (IntegrityError "hosted_dpop_replays_pkey");;
  requires (unique_besides replay_id (λ r, bool_decide (replay_scope r = replay_scope row))
              (rd_replays d))
    (IntegrityError "uq_hosted_dpop_scope_jti");;
  writes (λ d, d <| rd_replays := <[replay_id := row]> (rd_replays d) |>).

Definition add_preflight (record_id : string) (row : PreflightRecord) : session unit :=
  d ← reads id;
  let unique {K} `{EqDecision K} (key : PreflightRecord → K) :=
    unique_besides record_id (λ r, bool_decide (key r = key row)) (rd_preflights d) in
  requires (bool_decide (rd_preflights d !! record_id = None)
            && unique by_request && unique by_idempotency && unique by_nonce
            && unique by_capability && unique by_reservation)
    (IntegrityError "uq_hosted_preflight");;
  writes (λ d, d <| rd_preflights := <[record_id := row]> (rd_preflights d) |>).

(** [with session.begin_nested()]: the savepoint takes back what failed in it. *)
Definition savepoint {A} (body : session A) (failed : session A) : session A := λ d,
  match body d with
  | Err (IntegrityError _) => failed d
  | r => r
  end.

(** The rows that [begin_nested] finds pending are flushed before the savepoint
    begins: what they violate rolls the whole transaction back, and the body,
    which catches the error, returns with nothing written. *)
Definition flushed_before {A} (body : session A) (failed : A) : session A := λ d,
  match body d with
  | Err (IntegrityError _) => Ok (failed, d)
  | r => r
  end.

(** [_run]. *)
Definition run_session {A} (body : session A) : service RegistryDb A := λ d,
  match write_session body d with
  | (Err (IntegrityError _), d') => (Err (RepositoryConflict "repository uniqueness conflict"), d')
  | r => r
  end.

(** ** Calls *)

Definition conflict {A} (message : string) : session A := raises (RepositoryConflict message).
Definition conflict_unless (b : bool) (message : string) : session unit :=
  requires b (RepositoryConflict message).

(** Ids the database draws: [secrets.token_urlsafe] with its prefix, given those in use. *)
Class DrawnIds := drawn_id : string → gset string → string.

Section Calls.
Context `{P256} `{Sha256Bytes} `{DrawnIds}.

Definition put_enrollment_token (record : EnrollmentTokenRecord) : session unit :=
  add_token record.

(** [_record_from_row], [_node_from_row], [_rotation_from_row], [_preflight_from_row]
    validate again; a row that is absent is [None]. *)
Definition from_row {A} (make : A → result A) (row : option A) : result (option A) :=
  match row with Some r => Some <$> make r | None => Ok None end.

Definition get_enrollment_token (token_digest : bytes) : session (option EnrollmentTokenRecord) :=
  d ← reads id;
  lifts (from_row make_token (rd_tokens d !! token_digest)).

Definition consume_enrollment_token (token_digest : bytes) (now : Z)
    : session (option EnrollmentTokenRecord) :=
  d ← reads id;
  match rd_tokens d !! token_digest with
  | None => mret None
  | Some row =>
      if bool_decide (is_Some (et_consumed_at row)) then mret None
      else
        conflict_unless (negb (et_expires_at row <=? now)) "enrollment token expired";;
        let consumed := row <| et_consumed_at := Some now |> in
        store_token consumed;;
        consumed ← lifts (make_token consumed);
        mret (Some consumed)
  end.

(** A consumed token answers the enrollment it was used for, and no other. *)
Definition replay_enrollment (row : EnrollmentTokenRecord) (expected_binding : bytes)
    : session NodeRegistration :=
  d ← reads id;
  match et_enrolled_node_id row with
  | None => conflict "enrollment binding conflict"
  | Some node_id =>
      conflict_unless
        (bool_decide (default [] (et_enrollment_binding_digest row) = expected_binding))
        "enrollment binding conflict";;
      match rd_nodes d !! (et_tenant_id row, node_id) with
      | None => conflict "enrollment binding conflict"
      | Some existing =>
          enrolled ← lifts (make_node existing);
          digest ← lifts (enrollment_binding_digest enrolled);
          conflict_unless (bool_decide (digest = expected_binding))
            "enrollment binding conflict";;
          mret enrolled
      end
  end.

Definition enroll_node (token_digest : bytes) (node : NodeRegistration) (now : Z)
    (binding_digest : option bytes) : session NodeRegistration :=
  expected_binding ← lifts (enrollment_binding_for node binding_digest);
  d ← reads id;
  match rd_tokens d !! token_digest with
  | None => conflict "enrollment token is invalid"
  | Some row =>
      if bool_decide (is_Some (et_consumed_at row)) then replay_enrollment row expected_binding
      else
        conflict_unless (negb (et_expires_at row <=? now)) "enrollment token expired";;
        conflict_unless (bool_decide (nr_tenant_id node = et_tenant_id row))
          "enrollment tenant mismatch";;
        conflict_unless (bool_decide (rd_retired d !! nr_access_token_digest node = None))
          "access token is retired";;
        add_node node;;
        store_token (row <| et_consumed_at := Some now |>
                         <| et_enrolled_node_id := Some (nr_node_id node) |>
                         <| et_enrollment_binding_digest := Some expected_binding |>);;
        mret node
  end.

Definition put_node (node : NodeRegistration) : session unit :=
  d ← reads id;
  conflict_unless (bool_decide (rd_retired d !! nr_access_token_digest node = None))
    "access token is retired";;
  add_node node.

Definition get_node (tenant_id node_id : string) : session (option NodeRegistration) :=
  d ← reads id;
  lifts (from_row make_node (rd_nodes d !! (tenant_id, node_id))).

Definition get_node_by_access_digest (access_token_digest : bytes)
    : session (option NodeRegistration) :=
  d ← reads id;
  lifts (from_row make_node
    (find_row (λ r, bool_decide (nr_access_token_digest r = access_token_digest)
                    && bool_decide (nr_status r = "active")) (rd_nodes d))).

(** The rotation stored under the id of a request: the same request, or a conflict. *)
Definition same_rotation (existing record : HostedRotationRecord) : session HostedRotationRecord :=
  current ← lifts (make_rotation existing);
  conflict_unless
    (bool_decide (rotation_request_binding current = rotation_request_binding record))
    "rotation request conflict";;
  mret current.

Definition prepare_rotation (record : HostedRotationRecord) : session HostedRotationRecord :=
  conflict_unless (bool_decide (hr_status record = "prepared")) "rotation status is invalid";;
  d ← reads id;
  match rd_rotations d !! hr_rotation_id record with
  | Some existing => same_rotation existing record
  | None =>
      match rd_nodes d !! (hr_tenant_id record, hr_node_id record) with
      | None => conflict "node is revoked"
      | Some current =>
          conflict_unless (bool_decide (nr_status current = "active")) "node is revoked";;
          conflict_unless (nr_credential_epoch current =? hr_expected_epoch record)
            "credential epoch conflict";;
          conflict_unless (bool_decide (nr_wallet_binding_id current = hr_wallet_binding_id record))
            "rotation scope conflict";;
          conflict_unless
            (bool_decide (find_row (λ r, bool_decide (hr_tenant_id r = hr_tenant_id record)
                                         && bool_decide (hr_node_id r = hr_node_id record)
                                         && (hr_expected_epoch r =? hr_expected_epoch record))
                            (rd_rotations d) = None)) "rotation request conflict";;
          conflict_unless
            (bool_decide (find_row (λ r, bool_decide (hr_pending_access_token_digest r
                                           = hr_pending_access_token_digest record))
                            (rd_rotations d) = None)) "rotation credential conflict";;
          savepoint (add_rotation record;; mret record)
            (match rd_rotations d !! hr_rotation_id record with
             | Some existing => same_rotation existing record
             | None => conflict "rotation request conflict"
             end)
      end
  end.

Definition get_pending_rotation_by_access_digest (access_token_digest : bytes)
    (tenant_id node_id : string) : session (option HostedRotationRecord) :=
  d ← reads id;
  lifts (from_row make_rotation
    (find_row (λ r, bool_decide (hr_tenant_id r = tenant_id) && bool_decide (hr_node_id r = node_id)
                    && bool_decide (hr_pending_access_token_digest r = access_token_digest)
                    && bool_decide (hr_status r = "prepared")) (rd_rotations d))).

(** The commit of a prepared rotation. *)
Definition apply_rotation (row : NodeRegistration) (record : HostedRotationRecord)
    (expected_epoch : Z) (pending_access_token_digest : bytes) (now : Z)
    : session NodeRegistration :=
  d ← reads id;
  conflict_unless (bool_decide (nr_status row = "active")) "node is revoked";;
  conflict_unless (nr_credential_epoch row =? expected_epoch) "credential epoch conflict";;
  conflict_unless (bool_decide (nr_wallet_binding_id row = hr_wallet_binding_id record))
    "rotation scope conflict";;
  conflict_unless (negb (bool_decide (pending_access_token_digest = nr_access_token_digest row)))
    "replacement access token must be new";;
  conflict_unless (bool_decide (rd_retired d !! pending_access_token_digest = None))
    "access token is retired";;
  conflict_unless
    (unique_besides (node_key row)
       (λ r, bool_decide (nr_access_token_digest r = pending_access_token_digest)) (rd_nodes d))
    "access token already exists";;
  add_retired (MkRetired (nr_access_token_digest row) (nr_tenant_id row) (nr_node_id row) now);;
  let rotated := (rotated_node record now row)
      <| nr_wallet_binding_id := hr_wallet_binding_id record |> <| nr_status := "active" |> in
  store_node rotated;;
  store_rotation (record <| hr_status := "committed" |> <| hr_committed_at := Some now |>);;
  lifts (make_node rotated).

Definition commit_rotation (rotation_id tenant_id node_id : string) (expected_epoch : Z)
    (pending_access_token_digest : bytes) (now : Z) : session NodeRegistration :=
  conflict_unless (0 <? now) "rotation timestamp is invalid";;
  d ← reads id;
  match rd_nodes d !! (tenant_id, node_id), rd_rotations d !! rotation_id with
  | None, _ => conflict "node is unavailable"
  | _, None => conflict "rotation is unavailable"
  | Some row, Some record_row =>
      record ← lifts (make_rotation record_row);
      conflict_unless
        (rotation_matches record tenant_id node_id expected_epoch pending_access_token_digest)
        "rotation request conflict";;
      if bool_decide (hr_status record = "committed") then
        conflict_unless (rotation_applied record row) "rotation state conflict";;
        lifts (make_node row)
      else
        conflict_unless (bool_decide (hr_status record = "prepared")) "rotation is cancelled";;
        apply_rotation row record expected_epoch pending_access_token_digest now
  end.

Definition revoke_node (tenant_id node_id : string) (expected_epoch : Z)
    (revocation_id : option string) (drawn : string) : session NodeRegistration :=
  conflict_unless (0 <? expected_epoch) "credential epoch conflict";;
  d ← reads id;
  match rd_nodes d !! (tenant_id, node_id) with
  | None => conflict "node is unavailable"
  | Some row =>
      if bool_decide (nr_status row = "revoked") then
        conflict_unless (bool_decide (nr_revocation_id row = revocation_id)
                         && (nr_credential_epoch row =? expected_epoch + 1))
          "revocation request conflict";;
        lifts (make_node row)
      else
        conflict_unless (nr_credential_epoch row =? expected_epoch) "credential epoch conflict";;
        let effective_revocation_id := default drawn revocation_id in
        conflict_unless
          (unique_besides (tenant_id, node_id)
             (λ r, bool_decide (nr_revocation_id r = Some effective_revocation_id)) (rd_nodes d))
          "revocation ID already exists";;
        let revoked := revoked_node effective_revocation_id row in
        store_node revoked;;
        add_retired (MkRetired (nr_access_token_digest row) (nr_tenant_id row) (nr_node_id row)
                       (nr_updated_at revoked));;
        lifts (make_node revoked)
  end.

Definition get_revoked_node_by_access_digest (access_token_digest : bytes)
    (tenant_id node_id revocation_id : string) (expected_epoch : Z)
    : session (option NodeRegistration) :=
  d ← reads id;
  lifts (from_row make_node
    (row ← rd_nodes d !! (tenant_id, node_id);
     if bool_decide (nr_access_token_digest row = access_token_digest)
        && bool_decide (nr_revocation_id row = Some revocation_id)
        && (nr_credential_epoch row =? expected_epoch + 1)
        && bool_decide (nr_status row = "revoked")
     then Some row else None)).

Definition consume_dpop_jti (tenant_id node_id : string) (credential_epoch : Z) (jti : string)
    (expires_at now : Z) : session bool :=
  flushed_before
    (writes (λ d, d <| rd_replays := filter (λ kr, now < dr_expires_at kr.2) (rd_replays d) |>);;
     d ← reads id;
     add_replay (drawn_id "dpop_" (dom (rd_replays d)))
       (MkReplay tenant_id node_id credential_epoch jti expires_at now);;
     mret true)
    false.

(** The record bound to an idempotency key: the same request, or a conflict. *)
Definition same_preflight (existing record : PreflightRecord) : session PreflightRecord :=
  current ← lifts (make_preflight existing);
  conflict_unless (bool_decide (pf_request_hash current = pf_request_hash record))
    "idempotency key conflict";;
  mret current.

Definition bind_preflight (record : PreflightRecord) : session PreflightRecord :=
  d ← reads id;
  let bound {K} `{EqDecision K} (key : PreflightRecord → K) :=
    find_row (λ r, bool_decide (key r = key record)) (rd_preflights d) in
  match bound by_idempotency with
  | Some existing => same_preflight existing record
  | None =>
      conflict_unless (bool_decide (bound by_request = None)) "request ID conflict";;
      conflict_unless (bool_decide (bound by_nonce = None)) "request nonce replay";;
      conflict_unless (bool_decide (bound by_capability = None)) "capability hash conflict";;
      conflict_unless (bool_decide (bound by_reservation = None)) "reservation conflict";;
      savepoint (add_preflight (drawn_id "preflight_" (dom (rd_preflights d))) record;; mret record)
        (match bound by_idempotency with
         | Some existing => same_preflight existing record
         | None => raises (IntegrityError "uq_hosted_preflight")
         end)
  end.

(** [PostgresRepository]. *)
#[export] Instance PostgresRepository : ControlPlane RegistryDb := λ A c,
  match c with
  | PutEnrollmentToken record => run_session (put_enrollment_token record)
  | GetEnrollmentToken digest => run_session (get_enrollment_token digest)
  | ConsumeEnrollmentToken digest now => run_session (consume_enrollment_token digest now)
  | EnrollNode digest node now binding => run_session (enroll_node digest node now binding)
  | PutNode node => run_session (put_node node)
  | GetNode tenant_id node_id => run_session (get_node tenant_id node_id)
  | GetNodeByAccessDigest digest => run_session (get_node_by_access_digest digest)
  | PrepareRotation record => run_session (prepare_rotation record)
  | GetPendingRotation digest tenant_id node_id =>
      run_session (get_pending_rotation_by_access_digest digest tenant_id node_id)
  | CommitRotation rotation_id tenant_id node_id epoch digest now =>
      run_session (commit_rotation rotation_id tenant_id node_id epoch digest now)
  | RevokeNode tenant_id node_id epoch revocation_id drawn =>
      run_session (revoke_node tenant_id node_id epoch revocation_id drawn)
  | GetRevokedNode digest tenant_id node_id revocation_id epoch =>
      run_session (get_revoked_node_by_access_digest digest tenant_id node_id revocation_id epoch)
  | ConsumeDpopJti tenant_id node_id epoch jti expires_at now =>
      run_session (consume_dpop_jti tenant_id node_id epoch jti expires_at now)
  | BindPreflight record => run_session (bind_preflight record)
  end.
End Calls.
