(* ===== verification/NodeMemory.v ===== *)
(** * The node registry in memory

    [InMemoryRepository] of [facilitator/repository.py]: the dictionaries of the
    adapter and its calls, which change them in place.  What a call changed
    before it raises stays changed. *)

From S2P Require Import Prelude PyValue DeviceKeys ControlPlane NodeRegistry.

Open Scope string_scope.
Open Scope Z_scope.

(** A dictionary the code iterates over until a first match keeps its order. *)
Record MemoryStore := MkMemoryStore {
  ms_tokens : gmap bytes EnrollmentTokenRecord;
  ms_nodes : gmap (string * string) NodeRegistration;
  ms_rotations : list (string * HostedRotationRecord);
  ms_retired : gset bytes;
  ms_dpop_jtis : gmap (string * string * Z * string) Z;
  ms_preflights : gmap (string * string * string) PreflightRecord;
  ms_requests : gmap (string * string * string) PreflightRecord;
  ms_nonces : gmap (string * string * string) PreflightRecord;
  ms_capabilities : gmap (string * string * string) PreflightRecord;
  ms_reservations : gmap (string * string * string) PreflightRecord;
}.
#[export] Instance eta_memory : Eta MemoryStore := λ m,
  MkMemoryStore (ms_tokens m) (ms_nodes m) (ms_rotations m) (ms_retired m) (ms_dpop_jtis m)
    (ms_preflights m) (ms_requests m) (ms_nonces m) (ms_capabilities m) (ms_reservations m).

Definition empty_store : MemoryStore := MkMemoryStore ∅ ∅ [] ∅ ∅ ∅ ∅ ∅ ∅ ∅.

(** ** Calls *)

Abbreviation call A := (service MemoryStore A).

(** The dictionaries as they are, a change of them, and [raise]. *)
Definition store : call MemoryStore := λ m, (Ok m, m).
Definition edits (f : MemoryStore → MemoryStore) : call unit := λ m, (Ok tt, f m).
Definition refuses {A} (message : string) : call A :=
  answers (λ _, Err (RepositoryConflict message)).
Definition demands (b : bool) (message : string) : call unit :=
  answers (λ _, require b (RepositoryConflict message)).
Definition built {A} (r : result A) : call A := answers (λ _, r).

Section Calls.
Context `{P256} `{Sha256Bytes}.

(** [any(p(v) for v in d.values())]. *)
Definition any_value {K A} `{Countable K} (p : A → bool) (m : gmap K A) : bool :=
  bool_decide (is_Some (find_row p m)).

(** A token of the tenant is bound to the node. *)
Definition bound_to (tenant_id node_id : string) (r : EnrollmentTokenRecord) : bool :=
  bool_decide (et_tenant_id r = tenant_id) && bool_decide (et_enrolled_node_id r = Some node_id).

Definition mem_put_enrollment_token (record : EnrollmentTokenRecord) : call unit :=
  m ← store;
  demands (bool_decide (ms_tokens m !! et_token_digest record = None))
    "enrollment token already exists";;
  demands (match et_enrolled_node_id record with
           | Some node_id => negb (any_value (bound_to (et_tenant_id record) node_id) (ms_tokens m))
           | None => true
           end) "enrollment node binding already exists";;
  edits (λ m, m <| ms_tokens := <[et_token_digest record := record]> (ms_tokens m) |>).

Definition mem_get_enrollment_token (token_digest : bytes) : call (option EnrollmentTokenRecord) :=
  m ← store;
  mret (ms_tokens m !! token_digest).

Definition mem_consume_enrollment_token (token_digest : bytes) (now : Z)
    : call (option EnrollmentTokenRecord) :=
  m ← store;
  match ms_tokens m !! token_digest with
  | None => mret None
  | Some record =>
      if bool_decide (is_Some (et_consumed_at record)) then mret None
      else
        demands (negb (et_expires_at record <=? now)) "enrollment token expired";;
        consumed ← built (make_token (record <| et_consumed_at := Some now |>));
        edits (λ m, m <| ms_tokens := <[token_digest := consumed]> (ms_tokens m) |>);;
        mret (Some consumed)
  end.

Definition mem_replay_enrollment (record : EnrollmentTokenRecord) (binding_digest : bytes)
    : call NodeRegistration :=
  m ← store;
  match et_enrolled_node_id record with
  | None => refuses "enrollment binding conflict"
  | Some node_id =>
      demands (bool_decide (et_enrollment_binding_digest record = Some binding_digest))
        "enrollment binding conflict";;
      match ms_nodes m !! (et_tenant_id record, node_id) with
      | None => refuses "enrollment binding conflict"
      | Some existing =>
          digest ← built (enrollment_binding_digest existing);
          demands (bool_decide (digest = binding_digest)) "enrollment binding conflict";;
          mret existing
      end
  end.

(** The access token of another node, or of any. *)
Definition uses_token (digest : bytes) (r : NodeRegistration) : bool :=
  bool_decide (nr_access_token_digest r = digest).
Definition has_revocation (revocation_id : option string) (r : NodeRegistration) : bool :=
  bool_decide (nr_revocation_id r = revocation_id).
(** The revocation id of a new node is not that of another. *)
Definition revocation_free (node : NodeRegistration) (m : MemoryStore) : bool :=
  bool_decide (nr_revocation_id node = None)
  || negb (any_value (has_revocation (nr_revocation_id node)) (delete (node_key node) (ms_nodes m))).

Definition mem_enroll_node (token_digest : bytes) (node : NodeRegistration) (now : Z)
    (binding_digest : option bytes) : call NodeRegistration :=
  m ← store;
  match ms_tokens m !! token_digest with
  | None => refuses "enrollment token is invalid"
  | Some record =>
      binding ← built (enrollment_binding_for node binding_digest);
      if bool_decide (is_Some (et_consumed_at record)) then mem_replay_enrollment record binding
      else
        demands (negb (et_expires_at record <=? now)) "enrollment token expired";;
        demands (bool_decide (nr_tenant_id node = et_tenant_id record))
          "enrollment tenant mismatch";;
        demands (bool_decide (ms_nodes m !! node_key node = None)) "node already exists";;
        demands (negb (any_value (bound_to (nr_tenant_id node) (nr_node_id node)) (ms_tokens m)))
          "enrollment node binding already exists";;
        demands (revocation_free node m) "revocation ID already exists";;
        demands (negb (bool_decide (nr_access_token_digest node ∈ ms_retired m)
                       || any_value (uses_token (nr_access_token_digest node)) (ms_nodes m)))
          "access token already exists";;
        enrolled ← built (make_token (record <| et_consumed_at := Some now |>
                                             <| et_enrolled_node_id := Some (nr_node_id node) |>
                                             <| et_enrollment_binding_digest := Some binding |>));
        edits (λ m, m <| ms_tokens := <[token_digest := enrolled]> (ms_tokens m) |>
                      <| ms_nodes := <[node_key node := node]> (ms_nodes m) |>);;
        mret node
  end.

Definition mem_put_node (node : NodeRegistration) : call unit :=
  m ← store;
  demands (negb (bool_decide (is_Some (ms_nodes m !! node_key node))
                 || bool_decide (nr_access_token_digest node ∈ ms_retired m)))
    "node or access token already exists";;
  demands (negb (any_value (uses_token (nr_access_token_digest node)) (ms_nodes m)))
    "access token already exists";;
  demands (revocation_free node m) "revocation ID already exists";;
  edits (λ m, m <| ms_nodes := <[node_key node := node]> (ms_nodes m) |>).

Definition mem_get_node (tenant_id node_id : string) : call (option NodeRegistration) :=
  m ← store;
  mret (ms_nodes m !! (tenant_id, node_id)).

(** At most one node carries a token, so which is found first does not matter. *)
Definition mem_get_node_by_access_digest (access_token_digest : bytes)
    : call (option NodeRegistration) :=
  m ← store;
  mret (find_row (λ r, bool_decide (nr_status r = "active") && uses_token access_token_digest r
                       && negb (bool_decide (access_token_digest ∈ ms_retired m))) (ms_nodes m)).

(** The first stored rotation a new one conflicts with. *)
Fixpoint rotation_conflict (record : HostedRotationRecord)
    (l : list (string * HostedRotationRecord)) : option string :=
  match l with
  | [] => None
  | (_, current) :: l' =>
      if bool_decide (hr_tenant_id current = hr_tenant_id record)
         && bool_decide (hr_node_id current = hr_node_id record)
         && (hr_expected_epoch current =? hr_expected_epoch record)
      then Some "rotation request conflict"
      else if bool_decide (hr_pending_access_token_digest current
                           = hr_pending_access_token_digest record)
      then Some "rotation credential conflict"
      else rotation_conflict record l'
  end.

Definition mem_prepare_rotation (record : HostedRotationRecord) : call HostedRotationRecord :=
  m ← store;
  demands (bool_decide (hr_status record = "prepared")) "rotation status is invalid";;
  match dict_find (ms_rotations m) (hr_rotation_id record) with
  | Some existing =>
      demands (bool_decide (rotation_request_binding existing = rotation_request_binding record))
        "rotation request conflict";;
      mret existing
  | None =>
      match rotation_conflict record (ms_rotations m) with
      | Some message => refuses message
      | None =>
          match ms_nodes m !! (hr_tenant_id record, hr_node_id record) with
          | None => refuses "node is revoked"
          | Some current =>
              demands (bool_decide (nr_status current = "active")) "node is revoked";;
              demands (nr_credential_epoch current =? hr_expected_epoch record)
                "credential epoch conflict";;
              demands (bool_decide (nr_wallet_binding_id current = hr_wallet_binding_id record))
                "rotation scope conflict";;
              edits (λ m, m <| ms_rotations :=
                dict_set (ms_rotations m) (hr_rotation_id record) record |>);;
              mret record
          end
      end
  end.

Definition mem_get_pending_rotation (access_token_digest : bytes) (tenant_id node_id : string)
    : call (option HostedRotationRecord) :=
  m ← store;
  mret (head (filter (λ r, bool_decide (hr_status r = "prepared")
                           && bool_decide (hr_pending_access_token_digest r = access_token_digest)
                           && bool_decide (hr_tenant_id r = tenant_id)
                           && bool_decide (hr_node_id r = node_id) = true) (ms_rotations m).*2)).

(** The commit of a prepared rotation: the old token is retired first. *)
Definition mem_apply_rotation (rotation_id : string) (current : option NodeRegistration)
    (record : HostedRotationRecord) (key : string * string) (expected_epoch : Z)
    (pending_access_token_digest : bytes) (now : Z) : call NodeRegistration :=
  m ← store;
  match current with
  | None => refuses "node is revoked"
  | Some current =>
      demands (bool_decide (nr_status current = "active")) "node is revoked";;
      demands (nr_credential_epoch current =? expected_epoch) "credential epoch conflict";;
      demands (bool_decide (nr_wallet_binding_id current = hr_wallet_binding_id record))
        "rotation scope conflict";;
      demands (negb (bool_decide (pending_access_token_digest = nr_access_token_digest current)))
        "replacement access token must be new";;
      demands (negb (bool_decide (pending_access_token_digest ∈ ms_retired m)
                     || any_value (uses_token pending_access_token_digest) (delete key (ms_nodes m))))
        "access token already exists";;
      edits (λ m, m <| ms_retired := {[nr_access_token_digest current]} ∪ ms_retired m |>);;
      active ← built (make_node (rotated_node record now current));
      edits (λ m, m <| ms_nodes := <[key := active]> (ms_nodes m) |>);;
      committed ← built (make_rotation (record <| hr_status := "committed" |>
                                               <| hr_committed_at := Some now |>));
      edits (λ m, m <| ms_rotations :=
        dict_set (ms_rotations m) rotation_id committed |>);;
      mret active
  end.

Definition mem_commit_rotation (rotation_id tenant_id node_id : string) (expected_epoch : Z)
    (pending_access_token_digest : bytes) (now : Z) : call NodeRegistration :=
  m ← store;
  match dict_find (ms_rotations m) rotation_id with
  | None => refuses "rotation is unavailable"
  | Some record =>
      demands (rotation_matches record tenant_id node_id expected_epoch pending_access_token_digest)
        "rotation request conflict";;
      demands (0 <? now) "rotation timestamp is invalid";;
      let current := ms_nodes m !! (tenant_id, node_id) in
      if bool_decide (hr_status record = "committed") then
        match current with
        | None => refuses "rotation state conflict"
        | Some current =>
            demands (rotation_applied record current) "rotation state conflict";;
            mret current
        end
      else
        demands (bool_decide (hr_status record = "prepared")) "rotation is cancelled";;
        mem_apply_rotation rotation_id current record (tenant_id, node_id) expected_epoch
          pending_access_token_digest now
  end.

(** The token is retired before the revoked node is validated. *)
Definition mem_revoke_node (tenant_id node_id : string) (expected_epoch : Z)
    (revocation_id : option string) (drawn : string) : call NodeRegistration :=
  m ← store;
  demands (0 <? expected_epoch) "credential epoch conflict";;
  match ms_nodes m !! (tenant_id, node_id) with
  | None => refuses "node is unavailable"
  | Some current =>
      if bool_decide (nr_status current = "revoked") then
        demands (bool_decide (nr_revocation_id current = revocation_id)
                 && (nr_credential_epoch current =? expected_epoch + 1))
          "revocation request conflict";;
        mret current
      else
        demands (nr_credential_epoch current =? expected_epoch) "credential epoch conflict";;
        let revocation_id := default drawn revocation_id in
        demands (negb (any_value (has_revocation (Some revocation_id))
                         (delete (tenant_id, node_id) (ms_nodes m))))
          "revocation ID already exists";;
        edits (λ m, m <| ms_retired := {[nr_access_token_digest current]} ∪ ms_retired m |>);;
        revoked ← built (make_node (revoked_node revocation_id current));
        edits (λ m, m <| ms_nodes := <[(tenant_id, node_id) := revoked]> (ms_nodes m) |>);;
        mret revoked
  end.

Definition mem_get_revoked_node (access_token_digest : bytes)
    (tenant_id node_id revocation_id : string) (expected_epoch : Z)
    : call (option NodeRegistration) :=
  m ← store;
  mret (current ← ms_nodes m !! (tenant_id, node_id);
        if negb (bool_decide (nr_status current = "revoked")) then None
        else if negb (uses_token access_token_digest current
                      && bool_decide (nr_revocation_id current = Some revocation_id)
                      && (nr_credential_epoch current =? expected_epoch + 1)) then None
        else Some current).

Definition mem_consume_dpop_jti (tenant_id node_id : string) (credential_epoch : Z) (jti : string)
    (expires_at now : Z) : call bool :=
  edits (λ m, m <| ms_dpop_jtis := filter (λ ke, now < ke.2) (ms_dpop_jtis m) |>);;
  m ← store;
  let key := (tenant_id, node_id, credential_epoch, jti) in
  if bool_decide (is_Some (ms_dpop_jtis m !! key)) then mret false
  else
    edits (λ m, m <| ms_dpop_jtis := <[key := expires_at]> (ms_dpop_jtis m) |>);;
    mret true.

Definition mem_bind_preflight (record : PreflightRecord) : call PreflightRecord :=
  m ← store;
  match ms_preflights m !! by_idempotency record with
  | Some existing =>
      demands (bool_decide (pf_request_hash existing = pf_request_hash record))
        "idempotency key conflict";;
      mret existing
  | None =>
      demands (bool_decide (ms_requests m !! by_request record = None)) "request ID conflict";;
      demands (bool_decide (ms_nonces m !! by_nonce record = None)) "request nonce replay";;
      demands (bool_decide (ms_capabilities m !! by_capability record = None))
        "capability hash conflict";;
      demands (bool_decide (ms_reservations m !! by_reservation record = None))
        "reservation conflict";;
      edits (λ m, m <| ms_preflights := <[by_idempotency record := record]> (ms_preflights m) |>
                    <| ms_requests := <[by_request record := record]> (ms_requests m) |>
                    <| ms_nonces := <[by_nonce record := record]> (ms_nonces m) |>
                    <| ms_capabilities := <[by_capability record := record]> (ms_capabilities m) |>
                    <| ms_reservations := <[by_reservation record := record]> (ms_reservations m) |>);;
      mret record
  end.

(** [InMemoryRepository]. *)
#[export] Instance InMemoryRepository : ControlPlane MemoryStore := λ A c,
  match c with
  | PutEnrollmentToken record => mem_put_enrollment_token record
  | GetEnrollmentToken digest => mem_get_enrollment_token digest
  | ConsumeEnrollmentToken digest now => mem_consume_enrollment_token digest now
  | EnrollNode digest node now binding => mem_enroll_node digest node now binding
  | PutNode node => mem_put_node node
  | GetNode tenant_id node_id => mem_get_node tenant_id node_id
  | GetNodeByAccessDigest digest => mem_get_node_by_access_digest digest
  | PrepareRotation record => mem_prepare_rotation record
  | GetPendingRotation digest tenant_id node_id => mem_get_pending_rotation digest tenant_id node_id
  | CommitRotation rotation_id tenant_id node_id epoch digest now =>
      mem_commit_rotation rotation_id tenant_id node_id epoch digest now
  | RevokeNode tenant_id node_id epoch revocation_id drawn =>
      mem_revoke_node tenant_id node_id epoch revocation_id drawn
  | GetRevokedNode digest tenant_id node_id revocation_id epoch =>
      mem_get_revoked_node digest tenant_id node_id revocation_id epoch
  | ConsumeDpopJti tenant_id node_id epoch jti expires_at now =>
      mem_consume_dpop_jti tenant_id node_id epoch jti expires_at now
  | BindPreflight record => mem_bind_preflight record
  end.
End Calls.
