(* ===== verification/NodeSpec.v ===== *)
(** * What the adapters of the node registry promise

    The contract of the interface [ControlPlane]: every adapter answers like the
    dictionaries of [NodeMemory], up to the wording of a conflict.  The class
    [Adapter] states it; the clients of the registry are verified against it. *)

From S2P Require Import Prelude PyValue ExecutionModels DeviceKeys ControlPlane.
From S2P Require Import NodeRegistry NodeMemory.

Open Scope string_scope.
Open Scope Z_scope.

(** ** Answers *)

Definition is_conflict (e : exn) : bool :=
  match e with RepositoryConflict _ => true | _ => false end.

(** The same value, the same error, or a conflict each. *)
Definition alike {A} (r r' : result A) : Prop :=
  match r, r' with
  | Ok a, Ok a' => a = a'
  | Err e, Err e' => e = e' ∨ is_conflict e = true ∧ is_conflict e' = true
  | _, _ => False
  end.

#[export] Instance alike_refl {A} : Reflexive (@alike A).
Proof. intros []; [done|by left]. Qed.

(** ** Admissible calls *)

Section Spec.
Context `{P256} `{Sha256Bytes}.

(** The records of a call were built by their constructors, times are positive,
    a token is issued unbound, and a revocation id is an identifier. *)
Definition admissible {A} (c : RegistryCall A) : Prop :=
  match c with
  | PutEnrollmentToken record => make_token record = Ok record ∧ et_enrolled_node_id record = None
  | ConsumeEnrollmentToken _ now => 0 < now
  | EnrollNode _ node now _ => make_node node = Ok node ∧ 0 < now
  | PutNode node => make_node node = Ok node
  | PrepareRotation record => make_rotation record = Ok record
  | RevokeNode _ _ _ revocation_id drawn =>
      is_identifier (default drawn revocation_id) = true
  | BindPreflight record => make_preflight record = Ok record
  | _ => True
  end.

(** ** Well-formed dictionaries *)

(** Two entries with the same key value are one entry. *)
Definition injective_on {K A V} `{Countable K} (key : A → option V) (m : gmap K A) : Prop :=
  ∀ k k' r r' v, m !! k = Some r → m !! k' = Some r' → key r = Some v → key r' = Some v → k = k'.

Definition token_binding (r : EnrollmentTokenRecord) : option (string * string) :=
  pair (et_tenant_id r) <$> et_enrolled_node_id r.
Definition rotation_epoch (r : HostedRotationRecord) : string * string * Z :=
  (hr_tenant_id r, hr_node_id r, hr_expected_epoch r).

Record store_ok (m : MemoryStore) : Prop := {
  so_tokens : ∀ k r, ms_tokens m !! k = Some r →
    et_token_digest r = k ∧ make_token r = Ok r ∧
    (et_consumed_at r = None → et_enrolled_node_id r = None);
  so_bindings : injective_on token_binding (ms_tokens m);
  so_nodes : ∀ k r, ms_nodes m !! k = Some r → node_key r = k ∧ make_node r = Ok r;
  so_access : injective_on (λ r, Some (nr_access_token_digest r)) (ms_nodes m);
  so_revocations : injective_on nr_revocation_id (ms_nodes m);
  so_active : ∀ k r, ms_nodes m !! k = Some r → nr_status r = "active" →
    nr_access_token_digest r ∉ ms_retired m;
  so_rotations : ∀ k r, dict_find (ms_rotations m) k = Some r →
    hr_rotation_id r = k ∧ make_rotation r = Ok r;
  so_rotation_keys : NoDup (dict_keys (ms_rotations m));
  so_epochs : ∀ k k' r r', dict_find (ms_rotations m) k = Some r →
    dict_find (ms_rotations m) k' = Some r' → rotation_epoch r = rotation_epoch r' → k = k';
  so_pending : ∀ k k' r r', dict_find (ms_rotations m) k = Some r →
    dict_find (ms_rotations m) k' = Some r' →
    hr_pending_access_token_digest r = hr_pending_access_token_digest r' → k = k';
  so_preflights : ∀ k r, ms_preflights m !! k = Some r → make_preflight r = Ok r;
  so_bound : ∀ k r, ms_preflights m !! k = Some r → by_idempotency r = k ∧
    ms_requests m !! by_request r = Some r ∧ ms_nonces m !! by_nonce r = Some r ∧
    ms_capabilities m !! by_capability r = Some r ∧ ms_reservations m !! by_reservation r = Some r;
}.

(** ** Histories *)

Inductive Request : Type :=
| Call (A : Type) (c : RegistryCall A).
#[global] Arguments Call {A} c.
Definition admitted (q : Request) : Prop := match q with Call c => admissible c end.
Definition serve {S} `{ControlPlane S} (s : S) (q : Request) : S :=
  match q with Call c => (control c s).2 end.
Definition serves {S} `{ControlPlane S} (qs : list Request) (s : S) : S := foldl serve s qs.

(** ** Clocks *)

(** The latest clock of the proofs of possession that were checked so far, or [None]
    when one of them was checked with an earlier clock than the one before. *)
Definition tick {A} (t : option Z) (c : RegistryCall A) : option Z :=
  match c with
  | ConsumeDpopJti _ _ _ _ _ now => t0 ← t; if t0 <=? now then Some now else None
  | _ => t
  end.
Definition ticks (t : option Z) (qs : list Request) : option Z :=
  foldl (λ t q, match q with Call c => tick t c end) t qs.

(** The call does not check a proof, or the clocks of all checks were in order and it
    does not go back. *)
Definition in_time {A} (t : option Z) (c : RegistryCall A) : Prop :=
  match c with
  | ConsumeDpopJti _ _ _ _ _ now => match t with Some t0 => t0 ≤ now | None => False end
  | _ => True
  end.

(** ** The contract *)

(** [shows t s m]: at the clock [t], the state [s] of the adapter stands for the
    dictionaries [m]; without a clock, for all of them but the replayed proofs. *)
Class Adapter (S : Type) `{ControlPlane S} (shows : option Z → S → MemoryStore → Prop) := {
  adapter_ok : ∀ t s m, shows t s m → store_ok m;
  adapter_call : ∀ A (c : RegistryCall A) t s m, shows t s m → admissible c →
    (in_time t c → alike (control c s).1 (control c m).1) ∧
    shows (tick t c) (control c s).2 (control c m).2;
}.

Lemma adapter_history {S} `{Adapter S shows} t qs s m :
  shows t s m → Forall admitted qs → shows (ticks t qs) (serves qs s) (serves qs m).
Proof.
  revert t s m. induction qs as [|[A c] qs IH]; intros t s m Hs Hq; [done|].
  apply Forall_cons_1 in Hq as [Hc Hq]. apply IH; [|done].
  exact (proj2 (adapter_call _ c t s m Hs Hc)).
Qed.

(** Without a clock there is none later. *)
Lemma ticks_None qs : ticks None qs = None.
Proof. unfold ticks. induction qs as [|[A c] qs IH]; [done|]. by destruct c. Qed.
Lemma history_unclocked {S} `{Adapter S shows} qs s m :
  shows None s m → Forall admitted qs → shows None (serves qs s) (serves qs m).
Proof. intros Hs Hq. rewrite <- (ticks_None qs). by apply adapter_history. Qed.

(** ** Replayed proofs *)

(** No proof is checked at a time after [x]. *)
Definition clock_before (x : Z) (q : Request) : Prop :=
  match q with Call (ConsumeDpopJti _ _ _ _ _ now) => now < x | _ => True end.

(** What every adapter promises of the proofs it accepted, in whatever order the clocks
    come: [recorded s k x], the proof [k] is on record until [x]. *)
Class ReplayLog (S : Type) `{ControlPlane S}
    (recorded : S → string * string * Z * string → Z → Prop) := {
  log_accepts : ∀ s tenant_id node_id epoch jti x now,
    let call := control (ConsumeDpopJti tenant_id node_id epoch jti x now) s in
    call.1 = Ok true → recorded call.2 (tenant_id, node_id, epoch, jti) x;
  log_keeps : ∀ A (c : RegistryCall A) s k x,
    clock_before x (Call c) → recorded s k x → recorded (control c s).2 k x;
  log_refuses : ∀ s tenant_id node_id epoch jti x x' now,
    recorded s (tenant_id, node_id, epoch, jti) x → now < x →
    (control (ConsumeDpopJti tenant_id node_id epoch jti x' now) s).1 = Ok false;
}.

Lemma log_history {S} `{ReplayLog S recorded} qs s k x :
  Forall (clock_before x) qs → recorded s k x → recorded (serves qs s) k x.
Proof.
  revert s. induction qs as [|[A c] qs IH]; intros s Hq Hk; [done|].
  apply Forall_cons_1 in Hq as [Hc Hq]. apply (IH (control c s).2); [done|]. by apply log_keeps.
Qed.

Lemma log_accepted_once {S} `{ReplayLog S recorded} s tenant_id node_id epoch jti x now qs x' now' :
  let check := ConsumeDpopJti tenant_id node_id epoch jti x now in
  Forall (clock_before x) qs → now' < x → (control check s).1 = Ok true →
  (control (ConsumeDpopJti tenant_id node_id epoch jti x' now') (serves qs (control check s).2)).1 = Ok false.
Proof. intros check Hx Hnow Hc. eapply log_refuses, Hnow. apply log_history; [done|]. by apply log_accepts. Qed.
End Spec.
