(* ===== verification/NodeFacts.v ===== *)
(** * What a call of the node registry decides

    Each call either makes one change, under a condition on the tables, or
    refuses and changes nothing.  [decides] says so, and the rules below read it
    off a transaction of [NodeRegistry] and off a call of [NodeMemory]. *)

From S2P Require Import Prelude PyValue ExecutionModels DeviceKeys ControlPlane.
From S2P Require Import NodeRegistry NodeMemory NodeSpec.

Open Scope string_scope.
Open Scope Z_scope.

(** ** Decisions *)

(** Under [G] the call returns [a] and leaves [s']; otherwise it is a conflict and
    [s] stays. *)
Definition decides {S A} (G : Prop) (r : result A * S) (s : S) (a : A) (s' : S) : Prop :=
  G ∧ r = (Ok a, s') ∨ ¬ G ∧ ∃ message, r = (Err (RepositoryConflict message), s).

(** Two decisions on the same condition. *)
Lemma decides_alike {S S' A} G G' (r : result A * S) (r' : result A * S') s s' a t t' (R : S → S' → Prop) :
  decides G r s a t → decides G' r' s' a t' → (G ↔ G') → R s s' → (G' → R t t') →
  alike r.1 r'.1 ∧ R r.2 r'.2.
Proof.
  intros [[HG ->]|[HG [m ->]]] [[HG' ->]|[HG' [m' ->]]] Hi Hs Ht; simpl; tauto.
Qed.

Lemma decides_iff {S A} G G' (r : result A * S) s a s' :
  decides G r s a s' → (G ↔ G') → decides G' r s a s'.
Proof. unfold decides. tauto. Qed.

(** *** In memory *)

Lemma demands_decides {A} b G message (k : unit → service MemoryStore A) m a m' :
  (b = true → decides G (k tt m) m a m') →
  decides (b = true ∧ G) ((demands b message ≫= k) m) m a m'.
Proof.
  intros Hk. unfold mbind, service_bind, demands, answers, require. destruct b.
  - destruct (Hk eq_refl) as [[HG E]|[HG E]]; [left|right]; split; first [tauto|exact E].
  - right. split; [by intros [[=] _]|by exists message].
Qed.

Lemma run_store {A} (k : MemoryStore → service MemoryStore A) m : (store ≫= k) m = k m m.
Proof. done. Qed.
Lemma run_built {A B} (r : result A) (k : A → service MemoryStore B) m a :
  r = Ok a → (built r ≫= k) m = k a m.
Proof. by intros ->. Qed.
Lemma run_edits {A} f (k : unit → service MemoryStore A) m : (edits f ≫= k) m = k tt (f m).
Proof. done. Qed.

Lemma refuses_decides {A} message m (a : A) m' :
  decides False (refuses message m) m a m'.
Proof. right. split; [by intros []|]. by exists message. Qed.

Lemma done_decides {S A} (r : result A * S) s a s' : r = (Ok a, s') → decides True r s a s'.
Proof. by left. Qed.

(** *** In the database *)

Lemma run_bind {A B} (p : txn RegistryDb A) (k : A → txn RegistryDb B) d a d' :
  p d = Ok (a, d') → (p ≫= k) d = k a d'.
Proof. intros Hp. unfold mbind, txn_bind. by rewrite Hp. Qed.

Lemma run_reads {A} (k : RegistryDb → txn RegistryDb A) d : (reads id ≫= k) d = k d d.
Proof. done. Qed.
Lemma run_lifts {A} (r : result A) (d : RegistryDb) a : r = Ok a → lifts r d = Ok (a, d).
Proof. by intros ->. Qed.

(** A transaction under way: what is left of it starts in [d1]; it started in [d]. *)
Definition commits {A} (G : Prop) (r : result (A * RegistryDb)) (a : A) (d' : RegistryDb) : Prop :=
  G ∧ r = Ok (a, d') ∨ ¬ G ∧ ∃ message,
    r = Err (RepositoryConflict message) ∨ r = Err (IntegrityError message).

Lemma commits_iff {A} G G' (r : result (A * RegistryDb)) a d' :
  commits G r a d' → (G ↔ G') → commits G' r a d'.
Proof. unfold commits. tauto. Qed.

Lemma commits_decides {A} G (p : txn RegistryDb A) d a d' :
  commits G (p d) a d' → decides G (run_session p d) d a d'.
Proof.
  unfold run_session, write_session. intros [[HG ->]|[HG [m [->| ->]]]].
  - by left.
  - right. split; [done|by eexists].
  - right. split; [done|by eexists].
Qed.

Lemma requires_commits {A} b G e (k : unit → txn RegistryDb A) d a d' :
  (∃ message, e = RepositoryConflict message ∨ e = IntegrityError message) →
  (b = true → commits G (k tt d) a d') →
  commits (b = true ∧ G) ((requires b e ≫= k) d) a d'.
Proof.
  intros (message & He) Hk. unfold mbind, txn_bind, requires, lifts, require. destruct b.
  - destruct (Hk eq_refl) as [[HG E]|[HG E]]; [left|right]; split; first [tauto|exact E].
  - right. split; [by intros [[=] _]|]. exists message. destruct He as [->| ->]; auto.
Qed.

Lemma conflict_commits {A} message (a : A) d d' : commits False (conflict message d) a d'.
Proof. right. split; [by intros []|]. exists message. by left. Qed.

Lemma done_commits {A} (r : result (A * RegistryDb)) a d' : r = Ok (a, d') → commits True r a d'.
Proof. by left. Qed.

(** A step that may refuse, followed by the rest. *)
Lemma bind_commits {A B} G1 G2 (p : txn RegistryDb A) (k : A → txn RegistryDb B) d a d1 b d' :
  commits G1 (p d) a d1 → (G1 → commits G2 (k a d1) b d') →
  commits (G1 ∧ G2) ((p ≫= k) d) b d'.
Proof.
  intros [[HG Hp]|[HG [m Hp]]] Hk; unfold mbind, txn_bind.
  - rewrite Hp. destruct (Hk HG) as [[HG2 E]|[HG2 E]]; [left|right]; split; first [tauto|exact E].
  - right. split; [tauto|]. exists m. destruct Hp as [->| ->]; auto.
Qed.

Lemma run_writes {A} f (k : unit → txn RegistryDb A) d : (writes f ≫= k) d = k tt (f d).
Proof. done. Qed.
Lemma run_session_Ok {A} (p : txn RegistryDb A) d a d' :
  p d = Ok (a, d') → run_session p d = (Ok a, d').
Proof. intros Hp. unfold run_session, write_session. by rewrite Hp. Qed.
Lemma savepoint_Ok {A} (body failed : txn RegistryDb A) d r :
  body d = Ok r → savepoint body failed d = Ok r.
Proof. unfold savepoint. by intros ->. Qed.
Lemma savepoint_failed {A} (body failed : txn RegistryDb A) d constraint :
  body d = Err (IntegrityError constraint) → savepoint body failed d = failed d.
Proof. unfold savepoint. by intros ->. Qed.

Lemma add_replay_Ok replay_id row d :
  rd_replays d !! replay_id = None →
  unique_besides replay_id (λ r, bool_decide (replay_scope r = replay_scope row)) (rd_replays d) = true →
  add_replay replay_id row d = Ok (tt, d <| rd_replays := <[replay_id := row]> (rd_replays d) |>).
Proof.
  intros Hn Hu. unfold add_replay. rewrite run_reads. unfold id. rewrite Hn, Hu.
  by rewrite bool_decide_eq_true_2.
Qed.
Lemma add_replay_refused replay_id row d :
  rd_replays d !! replay_id = None →
  unique_besides replay_id (λ r, bool_decide (replay_scope r = replay_scope row)) (rd_replays d) = false →
  add_replay replay_id row d = Err (IntegrityError "uq_hosted_dpop_scope_jti").
Proof.
  intros Hn Hu. unfold add_replay. rewrite run_reads. unfold id. rewrite Hn, Hu.
  by rewrite bool_decide_eq_true_2.
Qed.

Lemma add_preflight_Ok record_id row d :
  let unique {K} `{EqDecision K} (key : PreflightRecord → K) :=
    unique_besides record_id (λ r, bool_decide (key r = key row)) (rd_preflights d) = true in
  rd_preflights d !! record_id = None → unique by_request → unique by_idempotency →
  unique by_nonce → unique by_capability → unique by_reservation →
  add_preflight record_id row d
    = Ok (tt, d <| rd_preflights := <[record_id := row]> (rd_preflights d) |>).
Proof.
  intros unique Hn H1 H2 H3 H4 H5. unfold add_preflight. rewrite run_reads. cbn zeta.
  unfold unique in *. rewrite Hn, H1, H2, H3, H4, H5. by rewrite bool_decide_eq_true_2.
Qed.

(** The failed half of a savepoint is not reached. *)
Lemma savepoint_commits {A} G (body failed : txn RegistryDb A) d a d' :
  commits G (body d) a d' → G → commits True (savepoint body failed d) a d'.
Proof. intros [[_ Hb]|[? _]] HG; [|done]. left. split; [done|]. unfold savepoint. by rewrite Hb. Qed.

(** ** Valid records *)

Definition all_of {A} (p : A → bool) (o : option A) : bool :=
  match o with Some a => p a | None => true end.

Lemma require_then {A} b e (r : result A) a : (require b e;; r) = Ok a ↔ b = true ∧ r = Ok a.
Proof. destruct b; simpl; [tauto|]. split; [done|by intros [? _]]. Qed.
Lemma optional_then {A B} (p : A → bool) e (o : option A) (r : result B) b :
  (check_optional (λ a, require (p a) e) o;; r) = Ok b ↔ all_of p o = true ∧ r = Ok b.
Proof. destruct o as [a|]; simpl; [apply require_then|tauto]. Qed.
Lemma ret_Ok {A} (a b : A) : (mret a : result A) = Ok b ↔ b = a.
Proof. unfold mret, result_ret. split; congruence. Qed.

Definition valid_token (r : EnrollmentTokenRecord) : Prop :=
  is_identifier (et_tenant_id r) = true ∧ (length (et_token_digest r) =? 32)%nat = true ∧
  (0 <? et_expires_at r) = true ∧ all_of (λ t, 0 <? t) (et_consumed_at r) = true ∧
  Bool.eqb (bool_decide (et_enrolled_node_id r = None))
    (bool_decide (et_enrollment_binding_digest r = None)) = true ∧
  all_of is_identifier (et_enrolled_node_id r) = true ∧
  all_of (λ d : bytes, length d =? 32)%nat (et_enrollment_binding_digest r) = true.

Lemma make_token_Ok r r' : make_token r = Ok r' ↔ valid_token r ∧ r' = r.
Proof.
  unfold make_token, valid_token, check_identifier, check_digest, check_positive.
  rewrite !require_then, !optional_then, require_then, !optional_then, ret_Ok. tauto.
Qed.

Section Keyed.
Context {p256 : P256} {sha : Sha256Bytes}.

Definition valid_key (jwk : pydict) (key_id : string) : Prop :=
  is_key_id key_id = true ∧ jwk_thumbprint (PDict jwk) = Ok key_id.

Lemma check_key_then {A} a b jwk key_id (r : result A) x :
  (check_key a b jwk key_id;; r) = Ok x ↔ valid_key jwk key_id ∧ r = Ok x.
Proof.
  unfold check_key, valid_key. destruct (is_key_id key_id); simpl; [|naive_solver].
  destruct (jwk_thumbprint _) as [t|e]; simpl; [|naive_solver].
  case_bool_decide; simpl; naive_solver.
Qed.

Definition valid_rotation (r : HostedRotationRecord) : Prop :=
  is_identifier (hr_rotation_id r) = true ∧ is_identifier (hr_tenant_id r) = true ∧
  is_identifier (hr_node_id r) = true ∧ is_identifier (hr_wallet_binding_id r) = true ∧
  (0 <? hr_expected_epoch r) = true ∧ (hr_next_epoch r =? hr_expected_epoch r + 1) = true ∧
  valid_key (hr_pending_public_jwk r) (hr_pending_device_key_id r) ∧
  (length (hr_pending_access_token_digest r) =? 32)%nat = true ∧
  bool_decide (hr_status r ∈ ["prepared"; "committed"; "cancelled" : string]) = true ∧
  (0 <? hr_prepared_at r) = true ∧ all_of (λ t, 0 <? t) (hr_committed_at r) = true ∧
  negb (bool_decide (hr_status r = "committed") && bool_decide (hr_committed_at r = None)) = true ∧
  bool_decide (hr_status r = "committed") || bool_decide (hr_committed_at r = None) = true.

Lemma make_rotation_Ok r r' : make_rotation r = Ok r' ↔ valid_rotation r ∧ r' = r.
Proof.
  unfold make_rotation, valid_rotation, check_identifier, check_digest, check_positive.
  rewrite !require_then, check_key_then, !require_then, optional_then, !require_then, ret_Ok. tauto.
Qed.

Definition valid_node (r : NodeRegistration) : Prop :=
  is_identifier (nr_tenant_id r) = true ∧ is_identifier (nr_node_id r) = true ∧
  is_identifier (nr_wallet_binding_id r) = true ∧
  valid_key (nr_device_public_jwk r) (nr_device_key_id r) ∧
  (length (nr_access_token_digest r) =? 32)%nat = true ∧ (0 <? nr_credential_epoch r) = true ∧
  bool_decide (nr_status r ∈ ["active"; "revoked" : string]) = true ∧
  (0 <? nr_created_at r) = true ∧ (0 <? nr_updated_at r) = true ∧
  all_of is_identifier (nr_revocation_id r) = true.

Lemma make_node_Ok r r' : make_node r = Ok r' ↔ valid_node r ∧ r' = r.
Proof.
  unfold make_node, valid_node, check_identifier, check_digest, check_positive.
  rewrite !require_then, check_key_then, !require_then, optional_then, ret_Ok. tauto.
Qed.

(** The fields of a valid key are there, so what is hashed can be written. *)
Lemma enrollment_binding_digest_Ok r :
  valid_node r → ∃ digest, enrollment_binding_digest r = Ok digest.
Proof.
  intros (_ & _ & _ & [_ Hk] & _). unfold jwk_thumbprint in Hk.
  apply result_bind_Ok in Hk as (key & Hk & _).
  unfold public_key_from_jwk in Hk. apply require_then in Hk as [Hs _].
  assert (∀ k, k ∈ JWK_FIELDS → ∃ v, dict_item (nr_device_public_jwk r) k = Ok v) as Hi.
  { intros k Hk. unfold same_keys in Hs. apply bool_decide_eq_true in Hs.
    assert (k ∈ (list_to_set (dict_keys (nr_device_public_jwk r)) : gset string)) as Hin
      by (rewrite Hs; by apply elem_of_list_to_set).
    apply elem_of_list_to_set, list_elem_of_fmap in Hin as ([k' v] & -> & Hin).
    unfold dict_item. destruct (dict_find _ _) as [w|] eqn:E; [by exists w|].
    exfalso. clear - E Hin. induction (nr_device_public_jwk r) as [|[k0 v0] l IH]; simpl in *.
    - by apply elem_of_nil in Hin.
    - case_bool_decide; [done|]. apply elem_of_cons in Hin as [[= -> ->]|Hin]; [done|auto]. }
  unfold JWK_FIELDS in Hi. unfold enrollment_binding_digest, enrollment_binding.
  destruct (Hi "crv" ltac:(list_member)) as [? ->], (Hi "kty" ltac:(list_member)) as [? ->],
    (Hi "x" ltac:(list_member)) as [? ->], (Hi "y" ltac:(list_member)) as [? ->]. simpl. eauto.
Qed.
End Keyed.

(** ** Searches *)

Lemma find_row_is_None {K A} `{Countable K} p (m : gmap K A) :
  find_row p m = None ↔ ∀ k r, m !! k = Some r → p r = false.
Proof.
  split; [intros Hf k r; by apply find_row_None|]. intros Hp.
  destruct (find_row p m) as [r|] eqn:E; [|done].
  apply find_row_Some in E as (Hr & k & Hk). rewrite (Hp k r Hk) in Hr. done.
Qed.

Lemma unique_besides_spec {K A} `{Countable K} (k : K) (p : A → bool) m :
  unique_besides k p m = true ↔ ∀ k' r, m !! k' = Some r → k' ≠ k → p r = false.
Proof.
  unfold unique_besides. rewrite bool_decide_eq_true, find_row_is_None. split.
  - intros Hp k' r Hr Hne. apply (Hp k'). by rewrite lookup_delete_ne.
  - intros Hp k' r [Hne Hr]%lookup_delete_Some. by apply (Hp k').
Qed.

Lemma any_value_spec {K A} `{Countable K} (p : A → bool) (m : gmap K A) :
  any_value p m = false ↔ ∀ k r, m !! k = Some r → p r = false.
Proof.
  unfold any_value. rewrite bool_decide_eq_false, <- eq_None_not_Some. apply find_row_is_None.
Qed.

Lemma any_value_delete {K A} `{Countable K} (p : A → bool) (k : K) (m : gmap K A) :
  any_value p (delete k m) = negb (unique_besides k p m).
Proof.
  unfold any_value, unique_besides. destruct (find_row p (delete k m)) as [r|];
    repeat case_bool_decide; simpl; try done; exfalso; naive_solver eauto.
Qed.

(** The row a unique column finds. *)
Lemma find_row_unique {K A} `{Countable K} p (m : gmap K A) k r :
  m !! k = Some r → p r = true → (∀ k' r', m !! k' = Some r' → p r' = true → k' = k) →
  find_row p m = Some r.
Proof.
  intros Hk Hp Hu. destruct (find_row p m) as [r'|] eqn:E.
  - apply find_row_Some in E as (Hr' & k' & Hk'). rewrite (Hu k' r' Hk' Hr') in Hk'. congruence.
  - by rewrite (find_row_None p m k r E Hk) in Hp.
Qed.

Lemma find_row_ext {K A} `{Countable K} p q (m : gmap K A) :
  (∀ k r, m !! k = Some r → p r = q r) → find_row p m = find_row q m.
Proof.
  intros Hpq. unfold find_row. f_equal. f_equal.
  assert (∀ l : list (K * A), (∀ kr, kr ∈ l → m !! kr.1 = Some kr.2) →
    filter (λ ka : K * A, p ka.2 = true) l = filter (λ ka : K * A, q ka.2 = true) l) as Hl.
  { intros l. induction l as [|[k r] l IH]; intros Hm; [done|].
    rewrite !filter_cons. simpl.
    rewrite (Hpq k r) by (apply (Hm (k, r)); left).
    rewrite IH by (intros kr Hkr; apply Hm; by right). done. }
  apply Hl. intros [k r] Hin. by apply elem_of_map_to_list in Hin.
Qed.
