(* ===== verification/NodeRefinement.v ===== *)
(** * The database adapter answers like the dictionaries

    The relation between the tables of [NodeRegistry] and the dictionaries of
    [NodeMemory], and the proof, call by call, that the two adapters decide on
    the same condition and stay related. *)

From S2P Require Import Prelude PyValue ExecutionModels DeviceKeys ControlPlane.
From S2P Require Import NodeRegistry NodeMemory NodeSpec NodeFacts.

Open Scope string_scope.
Open Scope Z_scope.

(** ** Indexes *)

(** The dictionary [index] finds in [table], by [key], the column [val]. *)
Definition indexes {K L A V} `{Countable K} `{Countable L} (key : A → K) (val : A → V)
    (table : gmap L A) (index : gmap K V) : Prop :=
  ∀ k v, index !! k = Some v ↔ ∃ id r, table !! id = Some r ∧ key r = k ∧ val r = v.

Section Indexes.
Context {K L A V : Type} `{Countable K} `{Countable L}.
Implicit Types (table : gmap L A) (index : gmap K V).

Lemma index_absent (key : A → K) (val : A → V) table index k :
  indexes key val table index →
  (index !! k = None ↔ ∀ id r, table !! id = Some r → key r ≠ k).
Proof.
  intros Hi. split.
  - intros Hn id r Hr <-. assert (index !! key r = Some (val r)) by (apply Hi; eauto). congruence.
  - intros Hn. destruct (index !! k) as [v|] eqn:E; [|done].
    apply Hi in E as (id & r & Hr & Hk & _). by destruct (Hn id r Hr).
Qed.

Lemma index_insert (key : A → K) (val : A → V) table index id r :
  indexes key val table index → table !! id = None → index !! key r = None →
  indexes key val (<[id:=r]> table) (<[key r:=val r]> index).
Proof.
  intros Hi Hid Hk k v. rewrite lookup_insert_Some, (Hi k v). split.
  - intros [[<- <-]|[Hne (id' & r' & Hr' & <- & <-)]].
    + exists id, r. by rewrite lookup_insert_eq.
    + exists id', r'. rewrite lookup_insert_ne by (intros ->; congruence). done.
  - intros (id' & r' & Hr' & <- & <-). apply lookup_insert_Some in Hr' as [[<- <-]|[Hne Hr']].
    + by left.
    + right. split; [|eauto]. intros Heq.
      by eapply (proj1 (index_absent key val table index (key r) Hi)).
Qed.

Lemma index_filter (key : A → K) (val : A → V) (p : V → Prop) `{!∀ v, Decision (p v)} table index :
  indexes key val table index →
  indexes key val (filter (λ kr, p (val kr.2)) table) (filter (λ kv, p kv.2) index).
Proof.
  intros Hi k v. rewrite map_lookup_filter_Some, (Hi k v). simpl. split.
  - intros [(id & r & Hr & <- & <-) Hp]. exists id, r. by rewrite map_lookup_filter_Some.
  - intros (id & r & [Hr Hp]%map_lookup_filter_Some & <- & <-). simpl in Hp. split; [|done]. eauto.
Qed.

Lemma index_unique (key : A → K) (val : A → V) table index id r :
  indexes key val table index → index !! key r = None → table !! id = None →
  unique_besides id (λ r', bool_decide (key r' = key r)) table = true.
Proof.
  intros Hi Hn Hid. apply unique_besides_spec. intros id' r' Hr' _. apply bool_decide_eq_false_2.
  by eapply (proj1 (index_absent key val table index (key r) Hi)).
Qed.
End Indexes.

(** The column found by searching the table. *)
Lemma index_find {K L A} `{Countable K} `{Countable L} (key : A → K) (table : gmap L A)
    (index : gmap K A) k :
  indexes key id table index →
  find_row (λ r, bool_decide (key r = k)) table = index !! k.
Proof.
  intros Hi. destruct (find_row _ table) as [r|] eqn:E.
  - apply find_row_Some in E as (Hk%bool_decide_eq_true & i & Hr). symmetry. apply Hi. by exists i, r.
  - symmetry. apply (index_absent key id table index k Hi).
    intros i r Hr Hk. pose proof (find_row_None _ table i r E Hr) as Hn. simpl in Hn.
    by rewrite bool_decide_eq_true_2 in Hn.
Qed.

(** ** The relation *)

(** A dictionary of preflight records is the index of the table by a key. *)
Abbreviation preflight_index key d index := (indexes key id (rd_preflights d) index).

Section Refinement.
Context {p256 : P256} {sha : Sha256Bytes} {ids : DrawnIds}.

(** The proofs of possession that have not expired are the same.  Those that have are
    not: a refused check deletes them from the dictionaries, while the database
    undoes the delete. *)
Record shows_at (clock : option Z) (d : RegistryDb) (m : MemoryStore) : Prop := {
  sh_ok : store_ok m;
  sh_tokens : rd_tokens d = ms_tokens m;
  sh_nodes : rd_nodes d = ms_nodes m;
  sh_rotations : ∀ k, rd_rotations d !! k = dict_find (ms_rotations m) k;
  sh_retired : ∀ k, is_Some (rd_retired d !! k) ↔ k ∈ ms_retired m;
  sh_replays : ∀ now, clock = Some now →
    indexes replay_scope dr_expires_at (filter (λ kr, now < dr_expires_at kr.2) (rd_replays d))
      (filter (λ kv, now < kv.2) (ms_dpop_jtis m));
  sh_preflights : preflight_index by_idempotency d (ms_preflights m);
  sh_requests : preflight_index by_request d (ms_requests m);
  sh_nonces : preflight_index by_nonce d (ms_nonces m);
  sh_capabilities : preflight_index by_capability d (ms_capabilities m);
  sh_reservations : preflight_index by_reservation d (ms_reservations m);
}.
#[global] Arguments sh_ok {clock}.
#[global] Arguments sh_tokens {clock}.
#[global] Arguments sh_nodes {clock}.
#[global] Arguments sh_rotations {clock}.
#[global] Arguments sh_retired {clock}.
#[global] Arguments sh_preflights {clock}.
#[global] Arguments sh_requests {clock}.
#[global] Arguments sh_nonces {clock}.
#[global] Arguments sh_capabilities {clock}.
#[global] Arguments sh_reservations {clock}.

(** Calls that check no proof of possession, at any clock. *)
Section AtClock.
Context {clock : option Z}.
#[local] Abbreviation shows := (shows_at clock).

(** What a call must show of an admissible call. *)
Definition refined {A} (c : RegistryCall A) : Prop :=
  ∀ d m, shows d m → admissible c →
    alike (control c d).1 (control c m).1 ∧ shows (control c d).2 (control c m).2.

(** A call decided alike in both adapters. *)
Lemma decided_refines {A} (c : RegistryCall A) d m a d' m' G G' :
  decides G (control c d) d a d' → decides G' (control c m) m a m' → (G ↔ G') →
  shows d m → (G' → shows d' m') →
  alike (control c d).1 (control c m).1 ∧ shows (control c d).2 (control c m).2.
Proof. apply decides_alike. Qed.
Lemma answer_refines {A} (c : RegistryCall A) d m a :
  control c d = (Ok a, d) → control c m = (Ok a, m) → shows d m →
  alike (control c d).1 (control c m).1 ∧ shows (control c d).2 (control c m).2.
Proof. by intros -> ->. Qed.

Lemma run_answers {A} (p : txn RegistryDb A) d a : p d = Ok (a, d) → run_session p d = (Ok a, d).
Proof. intros Hp. unfold run_session, write_session. by rewrite Hp. Qed.

(** *** Reading *)

Lemma from_row_Ok {A} (make : A → result A) (row : option A) :
  (∀ r, row = Some r → make r = Ok r) → from_row make row = Ok row.
Proof. intros Hr. destruct row as [r|]; [|done]. simpl. by rewrite (Hr r). Qed.

Lemma get_enrollment_token_refines digest : refined (GetEnrollmentToken digest).
Proof.
  intros d m Hs _. apply answer_refines with (ms_tokens m !! digest); [|done|done].
  apply run_answers. unfold get_enrollment_token. rewrite run_reads. apply run_lifts.
  rewrite (sh_tokens d m Hs), from_row_Ok; [done|].
  intros r Hr. by apply (so_tokens m (sh_ok d m Hs) digest r Hr).
Qed.

Lemma get_node_refines tenant_id node_id : refined (GetNode tenant_id node_id).
Proof.
  intros d m Hs _. apply answer_refines with (ms_nodes m !! (tenant_id, node_id)); [|done|done].
  apply run_answers. unfold get_node. rewrite run_reads. apply run_lifts.
  rewrite (sh_nodes d m Hs), from_row_Ok; [done|].
  intros r Hr. by apply (so_nodes m (sh_ok d m Hs) _ r Hr).
Qed.

Lemma get_node_by_access_digest_refines digest : refined (GetNodeByAccessDigest digest).
Proof.
  intros d m Hs _. eapply answer_refines; [|done|done].
  apply run_answers. unfold get_node_by_access_digest. rewrite run_reads. apply run_lifts.
  rewrite (sh_nodes d m Hs), from_row_Ok.
  - f_equal. apply find_row_ext. intros k r Hr. unfold uses_token.
    repeat case_bool_decide; simpl; try done. exfalso. subst.
    by eapply (so_active m (sh_ok d m Hs) k r).
  - intros r (_ & k & Hr)%find_row_Some. by apply (so_nodes m (sh_ok d m Hs) k r Hr).
Qed.

Lemma get_revoked_node_refines digest tenant_id node_id revocation_id epoch :
  refined (GetRevokedNode digest tenant_id node_id revocation_id epoch).
Proof.
  intros d m Hs _. eapply answer_refines; [|done|done].
  apply run_answers. unfold get_revoked_node_by_access_digest. rewrite run_reads. apply run_lifts.
  rewrite (sh_nodes d m Hs), from_row_Ok.
  - f_equal. destruct (ms_nodes m !! _) as [r|]; [|done]. simpl. unfold uses_token.
    repeat case_bool_decide; simpl; try done; destruct (_ =? _); done.
  - intros r Hr. destruct (ms_nodes m !! _) as [r'|] eqn:E; [|done]. simpl in Hr.
    destruct (_ && _); [|done]. injection Hr as <-. by apply (so_nodes m (sh_ok d m Hs) _ _ E).
Qed.

(** The first pending rotation is the only one. *)
Lemma pending_find (m : MemoryStore) (p : HostedRotationRecord → bool) (t : gmap string HostedRotationRecord) :
  NoDup (dict_keys (ms_rotations m)) →
  (∀ k, t !! k = dict_find (ms_rotations m) k) →
  (∀ k k' r r', t !! k = Some r → t !! k' = Some r' → p r = true → p r' = true → k = k') →
  find_row p t = head (filter (λ r, p r = true) (ms_rotations m).*2).
Proof.
  intros Hd Ht Hu. destruct (filter _ (ms_rotations m).*2) as [|r l] eqn:E; simpl.
  - apply find_row_is_None. intros k r Hk. rewrite Ht in Hk.
    destruct (p r) eqn:Hp; [|done]. exfalso.
    assert (r ∈ filter (λ r, p r = true) (ms_rotations m).*2) as Hin.
    { apply list_elem_of_filter. split; [done|]. apply list_elem_of_fmap. exists (k, r).
      split; [done|]. by apply dict_find_entry. }
    rewrite E in Hin. by apply elem_of_nil in Hin.
  - assert (r ∈ filter (λ r, p r = true) (ms_rotations m).*2) as Hin by (rewrite E; left).
    apply list_elem_of_filter in Hin as [Hp ([k r'] & -> & Hin)%list_elem_of_fmap]. simpl in *.
    apply dict_find_entry in Hin; [|done]. rewrite <- Ht in Hin.
    apply (find_row_unique p t k); [done..|]. intros k' r'' Hr'' Hp''. by eapply Hu.
Qed.

Lemma get_pending_rotation_refines digest tenant_id node_id :
  refined (GetPendingRotation digest tenant_id node_id).
Proof.
  intros d m Hs _. pose proof (sh_ok d m Hs) as Hm. eapply answer_refines; [|done|done].
  apply run_answers. unfold get_pending_rotation_by_access_digest. rewrite run_reads. apply run_lifts.
  rewrite from_row_Ok.
  - f_equal. rewrite <- (pending_find m _ (rd_rotations d)).
    + apply find_row_ext. intros k r _. repeat case_bool_decide; done.
    + apply (so_rotation_keys m Hm).
    + apply (sh_rotations d m Hs).
    + intros k k' r r' Hr Hr' Hp Hp'. rewrite (sh_rotations d m Hs) in Hr, Hr'. bool_inv.
      eapply (so_pending m Hm); [done..|congruence].
  - intros r (_ & k & Hr)%find_row_Some. rewrite (sh_rotations d m Hs) in Hr.
    by apply (so_rotations m Hm k r Hr).
Qed.

(** *** Changing the dictionaries *)

Lemma injective_insert {K A V} `{Countable K} (key : A → option V) (m : gmap K A) k r :
  injective_on key m →
  (∀ k' r' v, m !! k' = Some r' → k' ≠ k → key r = Some v → key r' ≠ Some v) →
  injective_on key (<[k:=r]> m).
Proof.
  intros Hm Hr k1 k2 r1 r2 v H1 H2 Hv1 Hv2.
  apply lookup_insert_Some in H1 as [[<- <-]|[Hne1 H1]], H2 as [[<- <-]|[Hne2 H2]];
    [done| | |by eapply Hm]; exfalso; by eapply Hr.
Qed.

Lemma store_ok_token m k r :
  store_ok m → et_token_digest r = k → make_token r = Ok r →
  (et_consumed_at r = None → et_enrolled_node_id r = None) →
  (∀ k' r' v, ms_tokens m !! k' = Some r' → k' ≠ k →
     token_binding r = Some v → token_binding r' ≠ Some v) →
  store_ok (m <| ms_tokens := <[k:=r]> (ms_tokens m) |>).
Proof.
  intros [] Hk Hr Hu Hb. constructor; simpl; try done.
  - intros k' r' [[<- <-]|[_ Hr']]%lookup_insert_Some; [done|auto].
  - by apply injective_insert.
Qed.

Lemma store_ok_node m k r :
  store_ok m → node_key r = k → make_node r = Ok r →
  (∀ k' r', ms_nodes m !! k' = Some r' → k' ≠ k →
     nr_access_token_digest r' ≠ nr_access_token_digest r) →
  (∀ k' r' v, ms_nodes m !! k' = Some r' → k' ≠ k →
     nr_revocation_id r = Some v → nr_revocation_id r' ≠ Some v) →
  (nr_status r = "active" → nr_access_token_digest r ∉ ms_retired m) →
  store_ok (m <| ms_nodes := <[k:=r]> (ms_nodes m) |>).
Proof.
  intros [] Hk Hr Ha Hv Hs. constructor; simpl; try done.
  - intros k' r' [[<- <-]|[_ Hr']]%lookup_insert_Some; [done|auto].
  - apply injective_insert; [done|]. intros k' r' v Hr' Hne [= <-] [= Heq]. by eapply Ha.
  - by apply injective_insert.
  - intros k' r' [[<- <-]|[_ Hr']]%lookup_insert_Some; [done|eauto].
Qed.

Lemma shows_token d m k r :
  shows d m → store_ok (m <| ms_tokens := <[k:=r]> (ms_tokens m) |>) →
  shows (d <| rd_tokens := <[k:=r]> (rd_tokens d) |>) (m <| ms_tokens := <[k:=r]> (ms_tokens m) |>).
Proof. intros [] Hm. constructor; simpl; try done. by f_equal. Qed.

Lemma shows_node d m k r :
  shows d m → store_ok (m <| ms_nodes := <[k:=r]> (ms_nodes m) |>) →
  shows (d <| rd_nodes := <[k:=r]> (rd_nodes d) |>) (m <| ms_nodes := <[k:=r]> (ms_nodes m) |>).
Proof. intros [] Hm. constructor; simpl; try done. by f_equal. Qed.

(** *** Enrollment tokens *)

Lemma store_token_commits row d :
  commits
    (Bool.eqb (bool_decide (et_enrolled_node_id row = None))
       (bool_decide (et_enrollment_binding_digest row = None)) = true ∧
     unique_besides (et_token_digest row)
       (λ r, bool_decide (et_tenant_id r = et_tenant_id row)
             && same_value (et_enrolled_node_id r) (et_enrolled_node_id row)) (rd_tokens d) = true ∧
     True)
    (store_token row d) tt (d <| rd_tokens := <[et_token_digest row := row]> (rd_tokens d) |>).
Proof.
  unfold store_token. rewrite run_reads. apply requires_commits; [by eexists; right|]. intros _.
  apply requires_commits; [by eexists; right|]. intros _. by apply done_commits.
Qed.

(** The binding a token takes is free. *)
Lemma binding_free (t : gmap bytes EnrollmentTokenRecord) k row :
  unique_besides k (λ r, bool_decide (et_tenant_id r = et_tenant_id row)
     && same_value (et_enrolled_node_id r) (et_enrolled_node_id row)) t = true ↔
  ∀ k' r' v, t !! k' = Some r' → k' ≠ k →
    token_binding row = Some v → token_binding r' ≠ Some v.
Proof.
  rewrite unique_besides_spec. unfold token_binding, same_value. split.
  - intros Hu k' r' v Hr' Hne Hv Hv'. specialize (Hu k' r' Hr' Hne).
    destruct (et_enrolled_node_id row) as [n|] eqn:En; [|done].
    destruct (et_enrolled_node_id r') as [n'|] eqn:En'; [|done]. simpl in *.
    injection Hv as <-. injection Hv' as Ht ->. rewrite !bool_decide_eq_true_2 in Hu; done.
  - intros Hu k' r' Hr' Hne. apply not_true_is_false. intros Hb. bool_inv.
    destruct (et_enrolled_node_id r') as [n|] eqn:En; [|by eapply is_Some_None].
    match goal with H : Some n = et_enrolled_node_id row |- _ => rename H into Hn end.
    match goal with H : et_tenant_id r' = _ |- _ => rename H into Ht end.
    apply (Hu k' r' (et_tenant_id row, n) Hr' Hne); [by rewrite <- Hn|]. by rewrite Ht, En.
Qed.

Lemma unbound_free (t : gmap bytes EnrollmentTokenRecord) k row :
  et_enrolled_node_id row = None →
  ∀ k' r' v, t !! k' = Some r' → k' ≠ k →
    token_binding row = Some v → token_binding r' ≠ Some v.
Proof. unfold token_binding. intros ->. by intros. Qed.

Lemma put_enrollment_token_refines record : refined (PutEnrollmentToken record).
Proof.
  intros d m Hs [[Hr _]%make_token_Ok Hn]. pose proof (sh_ok d m Hs) as Hm.
  eapply decided_refines; [| | |done|].
  - apply commits_decides. unfold put_enrollment_token, add_token. rewrite run_reads.
    apply requires_commits; [by eexists; right|]. intros _. apply store_token_commits.
  - unfold control, InMemoryRepository, mem_put_enrollment_token.
    apply demands_decides. intros _. apply demands_decides. intros _. by apply done_decides.
  - rewrite binding_free, (sh_tokens d m Hs).
    pose proof (unbound_free (ms_tokens m) (et_token_digest record) record Hn).
    destruct Hr as (_ & _ & _ & _ & -> & _). rewrite Hn. tauto.
  - intros _. apply shows_token; [done|].
    apply store_ok_token; try done; [by apply make_token_Ok|by apply unbound_free].
Qed.

(** A token that is not consumed is not bound. *)
Lemma unconsumed_token m k r :
  store_ok m → ms_tokens m !! k = Some r → et_consumed_at r = None →
  et_token_digest r = k ∧ et_enrolled_node_id r = None ∧ et_enrollment_binding_digest r = None ∧
  valid_token r.
Proof.
  intros Hm Hk Hc. destruct (so_tokens m Hm k r Hk) as (Hd & [Hr _]%make_token_Ok & Hu).
  specialize (Hu Hc). pose proof Hr as (_ & _ & _ & _ & Hb & _). rewrite Hu in Hb. simpl in Hb.
  split_and!; try done. by case_bool_decide.
Qed.

Lemma consume_enrollment_token_refines digest now : refined (ConsumeEnrollmentToken digest now).
Proof.
  intros d m Hs Hnow. simpl in Hnow. pose proof (sh_ok d m Hs) as Hm.
  destruct (ms_tokens m !! digest) as [r|] eqn:Hk; [destruct (et_consumed_at r) as [t|] eqn:Hc|].
  - apply answer_refines with None; [| |done].
    + apply run_answers. unfold consume_enrollment_token. rewrite run_reads. unfold id.
      by rewrite (sh_tokens d m Hs), Hk, Hc.
    + unfold control, InMemoryRepository, mem_consume_enrollment_token. by rewrite run_store, Hk, Hc.
  - destruct (unconsumed_token m digest r Hm Hk Hc) as (<- & Hn & Hb & Hr).
    pose (r' := r <| et_consumed_at := Some now |>).
    assert (valid_token r') as Hr'.
    { unfold valid_token in *. simpl. rewrite (proj2 (Z.ltb_lt 0 now)) by done. tauto. }
    eapply decided_refines; [| | |done|].
    + apply commits_decides. unfold consume_enrollment_token. rewrite run_reads. unfold id.
      rewrite (sh_tokens d m Hs), Hk, Hc. simpl.
      apply requires_commits; [by eexists; left|]. intros _.
      eapply bind_commits; [apply store_token_commits|]. intros _.
      apply done_commits. erewrite run_bind; [done|]. apply run_lifts. by apply make_token_Ok.
    + unfold control, InMemoryRepository, mem_consume_enrollment_token.
      rewrite run_store, Hk, Hc. simpl. apply demands_decides. intros _. apply done_decides.
      erewrite run_built by by apply make_token_Ok. done.
    + rewrite binding_free. pose proof Hr' as (_ & _ & _ & _ & Hbr & _).
      pose proof (unbound_free (rd_tokens d) (et_token_digest r) r' Hn). tauto.
    + intros _. apply (shows_token d m (et_token_digest r) r' Hs).
      apply store_ok_token; try done; [by apply make_token_Ok|by apply unbound_free].
  - apply answer_refines with None; [| |done].
    + apply run_answers. unfold consume_enrollment_token. rewrite run_reads. unfold id.
      by rewrite (sh_tokens d m Hs), Hk.
    + unfold control, InMemoryRepository, mem_consume_enrollment_token. by rewrite run_store, Hk.
Qed.

(** *** Nodes *)

(** A node can be added: it is new, and its token and revocation id are free. *)
Definition node_free (m : MemoryStore) (node : NodeRegistration) : Prop :=
  ms_nodes m !! node_key node = None ∧ nr_access_token_digest node ∉ ms_retired m ∧
  (∀ k r, ms_nodes m !! k = Some r → nr_access_token_digest r ≠ nr_access_token_digest node) ∧
  (∀ k r v, ms_nodes m !! k = Some r → k ≠ node_key node →
     nr_revocation_id node = Some v → nr_revocation_id r ≠ Some v).

Lemma token_free {K} `{Countable K} (t : gmap K NodeRegistration) k digest :
  unique_besides k (λ r, bool_decide (nr_access_token_digest r = digest)) t = true ↔
  ∀ k' r', t !! k' = Some r' → k' ≠ k → nr_access_token_digest r' ≠ digest.
Proof.
  rewrite unique_besides_spec. split; intros Hu k' r' Hr' Hne; specialize (Hu k' r' Hr' Hne).
  - by apply bool_decide_eq_false in Hu.
  - by apply bool_decide_eq_false.
Qed.

Lemma revocation_unique {K} `{Countable K} (t : gmap K NodeRegistration) k revocation_id :
  unique_besides k (λ r, same_value (nr_revocation_id r) revocation_id) t = true ↔
  ∀ k' r' v, t !! k' = Some r' → k' ≠ k → revocation_id = Some v → nr_revocation_id r' ≠ Some v.
Proof.
  rewrite unique_besides_spec. unfold same_value. split.
  - intros Hu k' r' v Hr' Hne Hv Hv'. specialize (Hu k' r' Hr' Hne). subst revocation_id.
    rewrite Hv', !bool_decide_eq_true_2 in Hu; done.
  - intros Hu k' r' Hr' Hne. apply not_true_is_false. intros Hb. bool_inv.
    destruct (nr_revocation_id r') as [v|] eqn:Ev; [|by eapply is_Some_None].
    by eapply (Hu k' r' v).
Qed.

Lemma revocation_free_spec node m :
  revocation_free node m = true ↔
  ∀ k' r' v, ms_nodes m !! k' = Some r' → k' ≠ node_key node → nr_revocation_id node = Some v →
    nr_revocation_id r' ≠ Some v.
Proof.
  unfold revocation_free. rewrite any_value_delete, negb_involutive.
  destruct (nr_revocation_id node) as [v|] eqn:Ev.
  - rewrite bool_decide_eq_false_2 by done. simpl. unfold has_revocation.
    rewrite unique_besides_spec. split.
    + intros Hu k' r' v' Hr' Hne [= <-] Hv. specialize (Hu k' r' Hr' Hne).
      by apply bool_decide_eq_false in Hu.
    + intros Hu k' r' Hr' Hne. apply bool_decide_eq_false_2. by eapply Hu.
  - rewrite bool_decide_eq_true_2 by done. simpl. by split.
Qed.

Lemma uses_token_spec {K} `{Countable K} digest (t : gmap K NodeRegistration) :
  any_value (uses_token digest) t = false ↔
  ∀ k r, t !! k = Some r → nr_access_token_digest r ≠ digest.
Proof.
  rewrite any_value_spec. unfold uses_token.
  split; intros Hu k r Hr; specialize (Hu k r Hr); [by apply bool_decide_eq_false in Hu|].
  by apply bool_decide_eq_false.
Qed.

Lemma store_node_commits row d :
  commits
    (unique_besides (node_key row)
       (λ r, bool_decide (nr_access_token_digest r = nr_access_token_digest row)) (rd_nodes d) = true ∧
     unique_besides (node_key row)
       (λ r, same_value (nr_revocation_id r) (nr_revocation_id row)) (rd_nodes d) = true ∧ True)
    (store_node row d) tt (d <| rd_nodes := <[node_key row := row]> (rd_nodes d) |>).
Proof.
  unfold store_node. rewrite run_reads. apply requires_commits; [by eexists; right|]. intros _.
  apply requires_commits; [by eexists; right|]. intros _. by apply done_commits.
Qed.

Lemma add_node_commits row d :
  commits
    (bool_decide (rd_nodes d !! node_key row = None) = true ∧
     unique_besides (node_key row)
       (λ r, bool_decide (nr_access_token_digest r = nr_access_token_digest row)) (rd_nodes d) = true ∧
     unique_besides (node_key row)
       (λ r, same_value (nr_revocation_id r) (nr_revocation_id row)) (rd_nodes d) = true ∧ True)
    (add_node row d) tt (d <| rd_nodes := <[node_key row := row]> (rd_nodes d) |>).
Proof.
  unfold add_node. rewrite run_reads. apply requires_commits; [by eexists; right|]. intros _.
  apply store_node_commits.
Qed.

(** Of a new key, every other entry has another key. *)
Lemma other_entries {K A} `{Countable K} (t : gmap K A) k (Q : A → Prop) :
  t !! k = None →
  ((∀ k' r', t !! k' = Some r' → k' ≠ k → Q r') ↔ ∀ k' r', t !! k' = Some r' → Q r').
Proof. intros Hk. split; [|by eauto]. intros HQ k' r' Hr'. apply (HQ k' r' Hr'). intros ->. congruence. Qed.

Lemma retired_lookup d m k :
  shows d m → (bool_decide (rd_retired d !! k = None) = true ↔ k ∉ ms_retired m).
Proof.
  intros Hs. rewrite bool_decide_eq_true, <- (sh_retired d m Hs k), <- not_eq_None_Some.
  destruct (rd_retired d !! k); naive_solver.
Qed.

Lemma node_free_db d m node :
  shows d m →
  (bool_decide (rd_retired d !! nr_access_token_digest node = None) = true ∧
   bool_decide (rd_nodes d !! node_key node = None) = true ∧
   unique_besides (node_key node)
     (λ r, bool_decide (nr_access_token_digest r = nr_access_token_digest node)) (rd_nodes d) = true ∧
   unique_besides (node_key node)
     (λ r, same_value (nr_revocation_id r) (nr_revocation_id node)) (rd_nodes d) = true ∧ True
   ↔ node_free m node).
Proof.
  intros Hs. unfold node_free.
  rewrite (retired_lookup d m), (sh_nodes d m Hs), token_free, revocation_unique by done.
  rewrite bool_decide_eq_true.
  destruct (ms_nodes m !! node_key node) as [r|] eqn:E; [naive_solver|].
  rewrite (other_entries (ms_nodes m) (node_key node)
    (λ r, nr_access_token_digest r ≠ nr_access_token_digest node)) by done. tauto.
Qed.

Lemma store_ok_new_node m node :
  store_ok m → valid_node node → node_free m node →
  store_ok (m <| ms_nodes := <[node_key node := node]> (ms_nodes m) |>).
Proof.
  intros Hm Hv (Hk & Hr & Ha & Hrev). apply store_ok_node; try done; [by apply make_node_Ok|].
  intros k' r' Hr' _. by eapply Ha.
Qed.

Lemma put_node_refines node : refined (PutNode node).
Proof.
  intros d m Hs [Hv _]%make_node_Ok. pose proof (sh_ok d m Hs) as Hm.
  eapply decided_refines with (G' := node_free m node); [| |apply (node_free_db d m node Hs)|done|].
  - apply commits_decides. unfold put_node. rewrite run_reads.
    apply requires_commits; [by eexists; left|]. intros _. apply add_node_commits.
  - eapply decides_iff.
    + unfold control, InMemoryRepository, mem_put_node. rewrite run_store.
      apply demands_decides. intros _. apply demands_decides. intros _.
      apply demands_decides. intros _. by apply done_decides.
    + rewrite !negb_true_iff, orb_false_iff, uses_token_spec, revocation_free_spec, !bool_decide_eq_false.
      rewrite <- eq_None_not_Some. unfold node_free. tauto.
  - intros Hf. apply shows_node; [done|]. by apply store_ok_new_node.
Qed.

(** *** Enrolling *)

Lemma enrollment_binding_for_cases node binding :
  valid_node node →
  (∃ b, enrollment_binding_for node binding = Ok b ∧ enrollment_binding_digest node = Ok b) ∨
  ∃ message, enrollment_binding_for node binding = Err (RepositoryConflict message).
Proof.
  intros [b Hb]%enrollment_binding_digest_Ok. unfold enrollment_binding_for. rewrite Hb. simpl.
  destruct binding as [b'|]; [|by left; exists b].
  destruct (_ && _) eqn:E; simpl; [|by right; eexists].
  left. exists b'. bool_inv. by subst.
Qed.

(** A token used before answers its enrollment again. *)
Lemma replay_refines d m k r binding :
  shows d m → ms_tokens m !! k = Some r →
  ∃ G a, commits G (replay_enrollment r binding d) a d ∧
    decides G (mem_replay_enrollment r binding m) m a m.
Proof.
  intros Hs Hk. pose proof (sh_ok d m Hs) as Hm.
  unfold replay_enrollment, mem_replay_enrollment. rewrite run_reads, run_store. unfold id.
  pose (dummy := MkNode "" "" "" [] "" [] 0 "" 0 0 None).
  destruct (et_enrolled_node_id r) as [n|] eqn:En;
    [|exists False, dummy; split; [apply conflict_commits|apply refuses_decides]].
  destruct (so_tokens m Hm k r Hk) as (_ & [Hr _]%make_token_Ok & _).
  destruct (et_enrollment_binding_digest r) as [b|] eqn:Eb.
  2:{ exfalso. destruct Hr as (_ & _ & _ & _ & Hb & _). by rewrite En, Eb in Hb. }
  rewrite (sh_nodes d m Hs). simpl.
  destruct (ms_nodes m !! (et_tenant_id r, n)) as [e|] eqn:Ee.
  - destruct (so_nodes m Hm _ e Ee) as [_ He]. pose proof He as [Hve _]%make_node_Ok.
    destruct (enrollment_binding_digest_Ok e Hve) as [b' Hb'].
    exists (bool_decide (b = binding) = true ∧ bool_decide (b' = binding) = true ∧ True), e. split.
    + apply requires_commits; [by eexists; left|]. intros _.
      erewrite run_bind by by apply run_lifts. erewrite run_bind by by apply run_lifts.
      apply requires_commits; [by eexists; left|]. intros _. by apply done_commits.
    + eapply decides_iff.
      * apply demands_decides. intros _. erewrite run_built by done.
        apply demands_decides. intros _. by apply done_decides.
      * rewrite !bool_decide_eq_true. naive_solver.
  - exists (bool_decide (b = binding) = true ∧ False), dummy. split.
    + apply requires_commits; [by eexists; left|]. intros _. apply conflict_commits.
    + eapply decides_iff.
      * apply demands_decides. intros _. apply refuses_decides.
      * rewrite !bool_decide_eq_true. naive_solver.
Qed.

(** No token of the tenant is bound to the node. *)
Lemma bound_to_spec (tenant_id node_id : string) (t : gmap bytes EnrollmentTokenRecord) :
  any_value (bound_to tenant_id node_id) t = false ↔
  ∀ k r, t !! k = Some r → token_binding r ≠ Some (tenant_id, node_id).
Proof.
  rewrite any_value_spec. unfold bound_to, token_binding.
  split; intros Hu k r Hr; specialize (Hu k r Hr).
  - intros Hb. destruct (et_enrolled_node_id r) as [n|] eqn:En; [|done]. simpl in Hb.
    injection Hb as Ht ->. by rewrite !bool_decide_eq_true_2 in Hu.
  - apply not_true_is_false. intros Hb. bool_inv. apply Hu.
    match goal with H : et_enrolled_node_id r = _ |- _ => rewrite H end. simpl. by f_equal; f_equal.
Qed.

(** The token a new node was enrolled with. *)
Definition used_token (r : EnrollmentTokenRecord) (now : Z) (node_id : string) (binding : bytes)
    : EnrollmentTokenRecord :=
  r <| et_consumed_at := Some now |> <| et_enrolled_node_id := Some node_id |>
    <| et_enrollment_binding_digest := Some binding |>.

Lemma valid_used_token r now node binding :
  valid_token r → valid_node node → 0 < now → length binding = 32%nat →
  valid_token (used_token r now (nr_node_id node) binding).
Proof.
  intros Hr Hn Hnow Hb. unfold valid_token, used_token in *. simpl.
  rewrite (proj2 (Z.ltb_lt 0 now)), (proj2 (Nat.eqb_eq _ _) Hb) by done.
  destruct Hn as (_ & Hn & _). tauto.
Qed.

(** The condition under which an unused token enrolls a new node. *)
Definition enrolls (m : MemoryStore) (r : EnrollmentTokenRecord) (node : NodeRegistration)
    (now : Z) : Prop :=
  now < et_expires_at r ∧ nr_tenant_id node = et_tenant_id r ∧ node_free m node ∧
  ∀ k r', ms_tokens m !! k = Some r' → token_binding r' ≠ Some (node_key node).

Lemma enroll_db_commits d m r node now binding :
  shows d m → ms_tokens m !! et_token_digest r = Some r → et_consumed_at r = None →
  valid_token r →
  commits (enrolls m r node now)
    ((conflict_unless (negb (et_expires_at r <=? now)) "enrollment token expired";;
      conflict_unless (bool_decide (nr_tenant_id node = et_tenant_id r)) "enrollment tenant mismatch";;
      conflict_unless (bool_decide (rd_retired d !! nr_access_token_digest node = None))
        "access token is retired";;
      add_node node;; store_token (used_token r now (nr_node_id node) binding);; mret node) d)
    node
    (d <| rd_nodes := <[node_key node := node]> (rd_nodes d) |>
       <| rd_tokens := <[et_token_digest r := used_token r now (nr_node_id node) binding]>
            (rd_tokens d) |>).
Proof.
  intros Hs Hk Hc Hr. destruct (unconsumed_token m _ r (sh_ok d m Hs) Hk Hc) as (_ & Hn & _).
  match goal with |- commits ?G ?p ?a ?d' => assert (∃ G', commits G' p a d' ∧ (G' ↔ G)) as (G' & HG & Hi) end.
  { eexists. split.
    - apply requires_commits; [by eexists; left|]. intros _.
      apply requires_commits; [by eexists; left|]. intros Ht.
      apply requires_commits; [by eexists; left|]. intros _.
      eapply bind_commits; [apply add_node_commits|]. intros _.
      eapply bind_commits; [apply store_token_commits|]. intros _. by apply done_commits.
    - rewrite binding_free, negb_true_iff, Z.leb_gt. simpl.
      pose proof (node_free_db d m node Hs) as Hf. unfold enrolls. rewrite (sh_tokens d m Hs).
      assert (nr_tenant_id node = et_tenant_id r →
        ((∀ k' r' v, ms_tokens m !! k' = Some r' → k' ≠ et_token_digest r →
           token_binding (used_token r now (nr_node_id node) binding) = Some v →
           token_binding r' ≠ Some v) ↔
         ∀ k r', ms_tokens m !! k = Some r' → token_binding r' ≠ Some (node_key node))) as Hb.
      { intros Ht. unfold node_key. rewrite Ht. split.
        - intros Hb k' r' Hr'. destruct (decide (k' = et_token_digest r)) as [->|Hne]; [|by eapply Hb].
          assert (r' = r) as -> by congruence. unfold token_binding. by rewrite Hn.
        - intros Hb k' r' v Hr' Hne [= <-]. by eapply Hb. }
      rewrite bool_decide_eq_true. tauto. }
  by eapply commits_iff.
Qed.

(** What both adapters hold after an enrollment. *)
Definition enrolled_store (m : MemoryStore) (r : EnrollmentTokenRecord) (node : NodeRegistration)
    (now : Z) (binding : bytes) : MemoryStore :=
  m <| ms_tokens := <[et_token_digest r := used_token r now (nr_node_id node) binding]> (ms_tokens m) |>
    <| ms_nodes := <[node_key node := node]> (ms_nodes m) |>.

Lemma enroll_memory_decides m r node now binding_digest binding :
  ms_tokens m !! et_token_digest r = Some r → et_consumed_at r = None →
  enrollment_binding_for node binding_digest = Ok binding →
  valid_token (used_token r now (nr_node_id node) binding) →
  decides (enrolls m r node now) (mem_enroll_node (et_token_digest r) node now binding_digest m) m
    node (enrolled_store m r node now binding).
Proof.
  intros Hk Hc Hb Hv. unfold mem_enroll_node. rewrite run_store, Hk.
  erewrite run_built by done. rewrite Hc. simpl. eapply decides_iff.
  - do 6 (apply demands_decides; intros _). apply done_decides.
    erewrite run_built by by apply make_token_Ok. done.
  - rewrite !negb_true_iff, orb_false_iff, Z.leb_gt, bound_to_spec, uses_token_spec,
      revocation_free_spec, bool_decide_eq_false, !bool_decide_eq_true.
    unfold enrolls, node_free. fold (node_key node). tauto.
Qed.

(** Binding a token to a new node. *)
Lemma store_ok_enrolled m r node now binding :
  store_ok m → ms_tokens m !! et_token_digest r = Some r → et_consumed_at r = None →
  valid_token (used_token r now (nr_node_id node) binding) → valid_node node →
  enrolls m r node now → store_ok (enrolled_store m r node now binding).
Proof.
  intros Hm Hk Hc Hv Hn (_ & Ht & Hf & Hb).
  pose proof (store_ok_new_node m node Hm Hn Hf) as Hm1.
  apply (store_ok_token _ (et_token_digest r) (used_token r now (nr_node_id node) binding)) in Hm1;
    try done; [by apply make_token_Ok|].
  intros k' r' v Hr' _ [= <-]. rewrite <- Ht. by eapply Hb.
Qed.

(** The two calls up to the token they find. *)
Lemma enroll_db_run d m digest node now binding_digest binding r :
  shows d m → enrollment_binding_for node binding_digest = Ok binding →
  ms_tokens m !! digest = Some r → is_Some (et_consumed_at r) →
  enroll_node digest node now binding_digest d = replay_enrollment r binding d.
Proof.
  intros Hs Hb Hk [t Ht]. unfold enroll_node. erewrite run_bind by by apply run_lifts.
  rewrite run_reads. unfold id. by rewrite (sh_tokens d m Hs), Hk, Ht.
Qed.
Lemma enroll_memory_run m digest node now binding_digest binding r :
  enrollment_binding_for node binding_digest = Ok binding →
  ms_tokens m !! digest = Some r → is_Some (et_consumed_at r) →
  mem_enroll_node digest node now binding_digest m = mem_replay_enrollment r binding m.
Proof.
  intros Hb Hk [t Ht]. unfold mem_enroll_node. rewrite run_store, Hk.
  erewrite run_built by done. by rewrite Ht.
Qed.

(** Both refuse. *)
Lemma both_refuse {A} (r : result A * RegistryDb) (r' : result A * MemoryStore) d m message message' :
  r = (Err (RepositoryConflict message), d) → r' = (Err (RepositoryConflict message'), m) →
  shows d m → alike r.1 r'.1 ∧ shows r.2 r'.2.
Proof. intros -> -> Hs. split; [by right|done]. Qed.

Lemma run_refuses {A} (p : txn RegistryDb A) d message :
  p d = Err (RepositoryConflict message) → run_session p d = (Err (RepositoryConflict message), d).
Proof. intros Hp. unfold run_session, write_session. by rewrite Hp. Qed.

Lemma enroll_node_refines digest node now binding_digest :
  (∀ x, length (sha256 x) = 32%nat) → refined (EnrollNode digest node now binding_digest).
Proof.
  intros Hlen d m Hs [[Hv _]%make_node_Ok Hnow]. pose proof (sh_ok d m Hs) as Hm.
  unfold control, PostgresRepository, InMemoryRepository.
  destruct (enrollment_binding_for_cases node binding_digest Hv) as [(b & Hb & Hd)|(message & Hb)].
  2:{ assert (enroll_node digest node now binding_digest d = Err (RepositoryConflict message)) as E.
      { unfold enroll_node, mbind, txn_bind, lifts. by rewrite Hb. }
      destruct (ms_tokens m !! digest) as [r|] eqn:Hk;
        (eapply both_refuse; [by apply run_refuses| |done]); unfold mem_enroll_node; rewrite run_store, Hk;
        [unfold mbind, service_bind, built, answers; by rewrite Hb|done]. }
  destruct (ms_tokens m !! digest) as [r|] eqn:Hk.
  2:{ eapply both_refuse; [apply run_refuses| |done].
      - unfold enroll_node. erewrite run_bind by by apply run_lifts. rewrite run_reads. unfold id.
        by rewrite (sh_tokens d m Hs), Hk.
      - unfold mem_enroll_node. by rewrite run_store, Hk. }
  destruct (et_consumed_at r) as [t|] eqn:Hc.
  - destruct (replay_refines d m digest r b Hs Hk) as (G & a & Hpg & Hmem).
    rewrite <- (enroll_db_run d m digest node now binding_digest b r) in Hpg by done || by rewrite Hc.
    rewrite <- (enroll_memory_run m digest node now binding_digest b r) in Hmem by done || by rewrite Hc.
    by eapply (decides_alike G G); [apply commits_decides; exact Hpg|exact Hmem| |exact Hs|].
  - destruct (unconsumed_token m digest r Hm Hk Hc) as (<- & _ & _ & Hr).
    assert (length b = 32%nat) as Hb32.
    { unfold enrollment_binding_digest in Hd. apply result_bind_Ok in Hd as (c & _ & [= <-]). apply Hlen. }
    pose proof (valid_used_token r now node b Hr Hv Hnow Hb32) as Hu.
    eapply (decides_alike (enrolls m r node now) (enrolls m r node now));
      [|by apply (enroll_memory_decides m r node now binding_digest b)|done|exact Hs|].
    + apply commits_decides. unfold enroll_node. erewrite run_bind by by apply run_lifts.
      rewrite run_reads. unfold id. rewrite (sh_tokens d m Hs), Hk, Hc.
      by apply (enroll_db_commits d m r node now b).
    + intros HG. pose proof (store_ok_enrolled m r node now b Hm Hk Hc Hu Hv HG).
      destruct HG as (_ & _ & Hf & _). destruct Hs. constructor; simpl; try done; by f_equal.
Qed.

(** *** Revoking *)

Lemma store_ok_retire m digest :
  store_ok m →
  (∀ k r, ms_nodes m !! k = Some r → nr_status r = "active" → nr_access_token_digest r ≠ digest) →
  store_ok (m <| ms_retired := {[digest]} ∪ ms_retired m |>).
Proof.
  intros [] Hd. constructor; simpl; try done. intros k r Hk Hr.
  apply not_elem_of_union. split; [|eauto]. apply not_elem_of_singleton. by eapply Hd.
Qed.

Lemma add_retired_commits row d :
  commits (bool_decide (rd_retired d !! rc_access_token_digest row = None) = true ∧ True)
    (add_retired row d) tt
    (d <| rd_retired := <[rc_access_token_digest row := row]> (rd_retired d) |>).
Proof.
  unfold add_retired. rewrite run_reads. apply requires_commits; [by eexists; right|]. intros _.
  by apply done_commits.
Qed.

(** A token retired in both. *)
Lemma retired_insert (t : gmap bytes RetiredCredentialRow) (x : gset bytes) k row :
  (∀ k', is_Some (t !! k') ↔ k' ∈ x) →
  ∀ k', is_Some (<[k:=row]> t !! k') ↔ k' ∈ {[k]} ∪ x.
Proof.
  intros Ht k'. rewrite elem_of_union, elem_of_singleton, <- Ht.
  destruct (decide (k' = k)) as [->|Hne].
  - rewrite lookup_insert_eq. naive_solver.
  - rewrite lookup_insert_ne by done. naive_solver.
Qed.

Lemma revoked_by {K} `{Countable K} (t : gmap K NodeRegistration) k revocation_id :
  unique_besides k (λ r, bool_decide (nr_revocation_id r = Some revocation_id)) t = true ↔
  ∀ k' r', t !! k' = Some r' → k' ≠ k → nr_revocation_id r' ≠ Some revocation_id.
Proof.
  rewrite unique_besides_spec. split; intros Hu k' r' Hr' Hne; specialize (Hu k' r' Hr' Hne).
  - by apply bool_decide_eq_false in Hu.
  - by apply bool_decide_eq_false.
Qed.

(** The revocation of a node that is not revoked. *)
Definition revokes (m : MemoryStore) (r : NodeRegistration) (epoch : Z) (revocation_id : string) : Prop :=
  nr_credential_epoch r = epoch ∧
  ∀ k' r', ms_nodes m !! k' = Some r' → k' ≠ node_key r → nr_revocation_id r' ≠ Some revocation_id.
Definition revoked_store (m : MemoryStore) (r : NodeRegistration) (revocation_id : string)
    : MemoryStore :=
  m <| ms_retired := {[nr_access_token_digest r]} ∪ ms_retired m |>
    <| ms_nodes := <[node_key r := revoked_node revocation_id r]> (ms_nodes m) |>.

Lemma valid_revoked_node revocation_id r :
  valid_node r → is_identifier revocation_id = true → valid_node (revoked_node revocation_id r).
Proof.
  unfold valid_node, revoked_node. simpl. intros Hr Hi. rewrite !Z.ltb_lt in *.
  destruct Hr as (? & ? & ? & ? & ? & ? & ? & ? & ? & ?). split_and!; try done; lia.
Qed.

Lemma store_ok_revoked m r epoch revocation_id :
  store_ok m → ms_nodes m !! node_key r = Some r → nr_status r = "active" →
  is_identifier revocation_id = true → revokes m r epoch revocation_id →
  store_ok (revoked_store m r revocation_id).
Proof.
  intros Hm Hk Ha Hi [_ Hu]. destruct (so_nodes m Hm _ r Hk) as [_ [Hv _]%make_node_Ok].
  assert (store_ok (m <| ms_nodes := <[node_key r := revoked_node revocation_id r]> (ms_nodes m) |>)) as Hm1.
  { apply store_ok_node; try done.
    - by apply make_node_Ok, (conj (valid_revoked_node revocation_id r Hv Hi)).
    - intros k' r' Hr' Hne Heq. by apply Hne, (so_access m Hm k' _ r' r _ Hr' Hk (f_equal Some Heq)).
    - intros k' r' v Hr' Hne [= <-]. by eapply Hu. }
  apply (store_ok_retire _ (nr_access_token_digest r)) in Hm1; [done|]. simpl.
  intros k' r' [[<- <-]|[Hne Hr']]%lookup_insert_Some Hs Heq; [done|].
  by apply Hne, (so_access m Hm _ k' r r' _ Hk Hr' eq_refl (f_equal Some Heq)).
Qed.

Lemma revoke_node_refines tenant_id node_id epoch revocation_id drawn :
  refined (RevokeNode tenant_id node_id epoch revocation_id drawn).
Proof.
  intros d m Hs Hi. simpl in Hi. pose proof (sh_ok d m Hs) as Hm.
  unfold control, PostgresRepository, InMemoryRepository.
  set (rid := default drawn revocation_id) in *.
  destruct (ms_nodes m !! (tenant_id, node_id)) as [r|] eqn:Hk.
  2:{ eapply decides_alike; [apply commits_decides| | |exact Hs|].
      - unfold revoke_node. apply requires_commits; [by eexists; left|]. intros _.
        rewrite run_reads. unfold id. rewrite (sh_nodes d m Hs), Hk.
        by apply (conflict_commits _ (MkNode "" "" "" [] "" [] 0 "" 0 0 None) d d).
      - unfold mem_revoke_node. rewrite run_store, Hk. apply demands_decides. intros _.
        apply (refuses_decides _ m _ m).
      - done.
      - tauto. }
  destruct (so_nodes m Hm _ r Hk) as [Hkey Hr]. pose proof Hr as [Hv _]%make_node_Ok.
  assert (nr_tenant_id r = tenant_id ∧ nr_node_id r = node_id) as [Ht Hn] by (by injection Hkey).
  destruct (bool_decide (nr_status r = "revoked")) eqn:Est.
  - eapply decides_alike; [apply commits_decides| | |exact Hs|].
    + unfold revoke_node. apply requires_commits; [by eexists; left|]. intros _.
      rewrite run_reads. unfold id. rewrite (sh_nodes d m Hs), Hk, Est.
      apply requires_commits; [by eexists; left|]. intros _. apply done_commits. by apply run_lifts.
    + unfold mem_revoke_node. rewrite run_store, Hk, Est. apply demands_decides. intros _.
      apply demands_decides. intros _. by apply done_decides.
    + done.
    + done.
  - assert (nr_status r = "active") as Ha.
    { destruct Hv as (_ & _ & _ & _ & _ & _ & Hst & _). apply bool_decide_eq_true in Hst.
      apply bool_decide_eq_false in Est. by list_cases. }
    eapply (decides_alike ((0 <? epoch) = true ∧ revokes m r epoch rid)
                          ((0 <? epoch) = true ∧ revokes m r epoch rid)); [| |done|exact Hs|].
    + apply commits_decides. eapply commits_iff.
      * unfold revoke_node. apply requires_commits; [by eexists; left|]. intros _.
        rewrite run_reads. unfold id. rewrite (sh_nodes d m Hs), Hk, Est. fold rid.
        apply requires_commits; [by eexists; left|]. intros _.
        apply requires_commits; [by eexists; left|]. intros _.
        eapply bind_commits; [apply store_node_commits|]. intros _.
        eapply bind_commits; [apply add_retired_commits|]. intros _.
        apply done_commits. apply run_lifts. apply make_node_Ok. split; [by apply valid_revoked_node|done].
      * rewrite token_free, revocation_unique, revoked_by, (sh_nodes d m Hs). simpl.
        assert (bool_decide (rd_retired d !! nr_access_token_digest r = None) = true) as ->
          by (apply (retired_lookup d m); [done|by eapply (so_active m Hm)]).
        unfold revokes, node_key. simpl. rewrite Z.eqb_eq, Ht, Hn.
        assert (∀ k' r', ms_nodes m !! k' = Some r' → k' ≠ (tenant_id, node_id) →
          nr_access_token_digest r' ≠ nr_access_token_digest r) as Hacc.
        { intros k' r' Hr' Hne Heq. by apply Hne, (so_access m Hm k' _ r' r _ Hr' Hk (f_equal Some Heq)). }
        naive_solver.
    + eapply decides_iff.
      * unfold mem_revoke_node. rewrite run_store, Hk, Est. apply demands_decides. intros _.
        apply demands_decides. intros _. apply demands_decides. intros _. apply done_decides.
        rewrite run_edits. erewrite run_built by (by apply make_node_Ok; split; [by apply valid_revoked_node|]).
        done.
      * fold rid. unfold has_revocation. rewrite any_value_delete, negb_involutive, revoked_by.
        unfold revokes. rewrite Z.eqb_eq, Hkey. tauto.
    + intros [_ HG]. pose proof (store_ok_revoked m r epoch rid Hm) as Hm'. rewrite Hkey in Hm'.
      specialize (Hm' Hk Ha Hi HG). rewrite <- Hkey. change (node_key (revoked_node rid r)) with (node_key r).
      destruct Hs. constructor; simpl; try done; [by f_equal|]. by apply retired_insert.
Qed.

(** *** Rotations *)

(** A rotation takes an epoch of the node and a token no other rotation has. *)
Definition rotation_fresh (m : MemoryStore) (record : HostedRotationRecord) : Prop :=
  ∀ k r, dict_find (ms_rotations m) k = Some r → k ≠ hr_rotation_id record →
    rotation_epoch r ≠ rotation_epoch record ∧
    hr_pending_access_token_digest r ≠ hr_pending_access_token_digest record.

Lemma store_ok_rotation m k r :
  store_ok m → hr_rotation_id r = k → valid_rotation r → rotation_fresh m r →
  store_ok (m <| ms_rotations := dict_set (ms_rotations m) k r |>).
Proof.
  intros [] <- Hr Hf. constructor; simpl; try done.
  - intros k' r'. rewrite dict_find_set. case_decide; [intros [= <-]|auto].
    split; [done|by apply make_rotation_Ok].
  - by apply dict_keys_set.
  - intros k1 k2 r1 r2. rewrite !dict_find_set.
    repeat case_decide; subst; try done; [intros [= <-] H2 He|intros H1 [= <-] He|by eauto];
      exfalso; [destruct (Hf k2 r2)|destruct (Hf k1 r1)]; congruence.
  - intros k1 k2 r1 r2. rewrite !dict_find_set.
    repeat case_decide; subst; try done; [intros [= <-] H2 He|intros H1 [= <-] He|by eauto];
      exfalso; [destruct (Hf k2 r2)|destruct (Hf k1 r1)]; congruence.
Qed.

Lemma rotations_insert (t : gmap string HostedRotationRecord) l k r :
  (∀ k', t !! k' = dict_find l k') → ∀ k', <[k:=r]> t !! k' = dict_find (dict_set l k r) k'.
Proof.
  intros Ht k'. rewrite dict_find_set, <- Ht. case_decide as Hk; subst.
  - apply lookup_insert_eq.
  - by apply lookup_insert_ne.
Qed.

Lemma epoch_taken r record :
  bool_decide (hr_tenant_id r = hr_tenant_id record)
  && bool_decide (hr_node_id r = hr_node_id record)
  && (hr_expected_epoch r =? hr_expected_epoch record) = false ↔
  rotation_epoch r ≠ rotation_epoch record.
Proof.
  unfold rotation_epoch. split.
  - intros Hb [= Ht Hn He]. rewrite Ht, Hn, He, !bool_decide_eq_true_2, Z.eqb_refl in Hb; done.
  - intros Hne. apply not_true_is_false. intros Hb. bool_inv. apply Hne. congruence.
Qed.

(** The first conflict the dictionary has, if any. *)
Lemma rotation_conflict_None record l :
  rotation_conflict record l = None ↔
  ∀ kr, kr ∈ l → rotation_epoch kr.2 ≠ rotation_epoch record ∧
    hr_pending_access_token_digest kr.2 ≠ hr_pending_access_token_digest record.
Proof.
  induction l as [|[k r] l IH]; simpl.
  - split; [|done]. by intros _ kr ?%elem_of_nil.
  - destruct (_ && _ && _) eqn:E.
    + split; [done|]. intros Hl. destruct (Hl (k, r) ltac:(left)) as [He _]. simpl in He.
      apply epoch_taken in He. congruence.
    + apply epoch_taken in E. case_bool_decide as Hd.
      * split; [done|]. intros Hl. by destruct (Hl (k, r) ltac:(left)) as [_ ?].
      * rewrite IH. split; [|by intros Hl kr ?; apply Hl; right].
        intros Hl kr [->|Hkr]%elem_of_cons; [done|by apply Hl].
Qed.

Lemma rotation_fresh_memory m record :
  store_ok m → dict_find (ms_rotations m) (hr_rotation_id record) = None →
  (rotation_conflict record (ms_rotations m) = None ↔ rotation_fresh m record).
Proof.
  intros Hm Hn. rewrite rotation_conflict_None. split.
  - intros Hl k r Hr _. apply (Hl (k, r)). apply dict_find_entry; [|done]. apply (so_rotation_keys m Hm).
  - intros Hf [k r] Hin. simpl. apply dict_find_entry in Hin; [|apply (so_rotation_keys m Hm)].
    apply (Hf k r Hin). intros ->. congruence.
Qed.

(** The constraints of the table say the same. *)
Lemma rotation_fresh_db d m record :
  shows d m →
  (unique_besides (hr_rotation_id record)
     (λ r, bool_decide (hr_tenant_id r = hr_tenant_id record)
           && bool_decide (hr_node_id r = hr_node_id record)
           && (hr_expected_epoch r =? hr_expected_epoch record)) (rd_rotations d) = true ∧
   unique_besides (hr_rotation_id record)
     (λ r, bool_decide (hr_pending_access_token_digest r = hr_pending_access_token_digest record))
     (rd_rotations d) = true ↔ rotation_fresh m record).
Proof.
  intros Hs. rewrite !unique_besides_spec. unfold rotation_fresh. split.
  - intros [He Hp] k r Hr Hne. rewrite <- (sh_rotations d m Hs) in Hr. split.
    + apply epoch_taken. by eapply He.
    + specialize (Hp k r Hr Hne). by apply bool_decide_eq_false in Hp.
  - intros Hf. split; intros k r Hr Hne; rewrite (sh_rotations d m Hs) in Hr.
    + apply epoch_taken. by eapply Hf.
    + apply bool_decide_eq_false_2. by eapply Hf.
Qed.

Lemma store_rotation_commits row d :
  commits
    (rotation_checks row = true ∧
     unique_besides (hr_rotation_id row)
       (λ r, bool_decide (hr_tenant_id r = hr_tenant_id row)
             && bool_decide (hr_node_id r = hr_node_id row)
             && (hr_expected_epoch r =? hr_expected_epoch row)) (rd_rotations d) = true ∧
     unique_besides (hr_rotation_id row)
       (λ r, bool_decide (hr_pending_access_token_digest r = hr_pending_access_token_digest row))
       (rd_rotations d) = true ∧ True)
    (store_rotation row d) tt
    (d <| rd_rotations := <[hr_rotation_id row := row]> (rd_rotations d) |>).
Proof.
  unfold store_rotation. rewrite run_reads. do 3 (apply requires_commits; [by eexists; right|]; intros _).
  by apply done_commits.
Qed.

(** A valid record satisfies the CHECK constraints. *)
Lemma valid_rotation_checks r : valid_rotation r → rotation_checks r = true.
Proof.
  intros (_ & _ & _ & _ & He & Hn & _ & _ & Hs & _ & _ & Hc & Hc'). unfold rotation_checks.
  rewrite He, Hn. simpl. apply bool_decide_eq_true in Hs.
  destruct (hr_committed_at r) as [t|]; simpl in *.
  - rewrite orb_false_r in Hc'. by rewrite Hc'.
  - rewrite andb_true_r in Hc. apply negb_true_iff, bool_decide_eq_false in Hc.
    apply orb_true_iff. right. rewrite andb_true_r. apply bool_decide_eq_true.
    list_cases; subst; [list_member|done|list_member].
Qed.

(** The condition under which a rotation is prepared. *)
Definition prepares (m : MemoryStore) (record : HostedRotationRecord) (current : NodeRegistration)
    : Prop :=
  hr_status record = "prepared" ∧ rotation_fresh m record ∧ nr_status current = "active" ∧
  nr_credential_epoch current = hr_expected_epoch record ∧
  nr_wallet_binding_id current = hr_wallet_binding_id record.

(** The stored rotation a request repeats. *)
Lemma same_rotation_commits existing record d :
  make_rotation existing = Ok existing →
  commits (bool_decide (rotation_request_binding existing = rotation_request_binding record) = true
           ∧ True) (same_rotation existing record d) existing d.
Proof.
  intros He. unfold same_rotation. erewrite run_bind by by apply run_lifts.
  apply requires_commits; [by eexists; left|]. intros _. by apply done_commits.
Qed.

Lemma prepare_db_commits d m record current :
  shows d m → valid_rotation record → dict_find (ms_rotations m) (hr_rotation_id record) = None →
  ms_nodes m !! (hr_tenant_id record, hr_node_id record) = Some current →
  commits (prepares m record current) (prepare_rotation record d) record
    (d <| rd_rotations := <[hr_rotation_id record := record]> (rd_rotations d) |>).
Proof.
  intros Hs Hv Hn Hk. eapply commits_iff.
  - unfold prepare_rotation. apply requires_commits; [by eexists; left|]. intros _. rewrite run_reads.
    unfold id. rewrite (sh_rotations d m Hs), Hn, (sh_nodes d m Hs), Hk.
    do 3 (apply requires_commits; [by eexists; left|]; intros _).
    apply requires_commits; [by eexists; left|]. intros He.
    apply requires_commits; [by eexists; left|]. intros Hd.
    eapply savepoint_commits.
    + eapply bind_commits; [|intros _; by apply done_commits].
      unfold add_rotation. rewrite run_reads. apply requires_commits; [by eexists; right|]. intros _.
      apply store_rotation_commits.
    + unfold id. rewrite (sh_rotations d m Hs), Hn, bool_decide_eq_true_2, valid_rotation_checks by done.
      rewrite !unique_besides_spec.
      apply bool_decide_eq_true in He, Hd. rewrite find_row_is_None in He. rewrite find_row_is_None in Hd.
      split_and!; eauto.
  - rewrite !bool_decide_eq_true, !find_row_is_None, Z.eqb_eq. unfold prepares.
    pose proof (rotation_fresh_db d m record Hs) as Hf. rewrite !unique_besides_spec in Hf.
    rewrite (other_entries (rd_rotations d) (hr_rotation_id record) (λ r, _ && _ = false)) in Hf
      by by rewrite (sh_rotations d m Hs).
    rewrite (other_entries (rd_rotations d) (hr_rotation_id record) (λ r, bool_decide _ = false)) in Hf
      by by rewrite (sh_rotations d m Hs).
    tauto.
Qed.

Lemma prepare_memory_decides m record current :
  store_ok m → dict_find (ms_rotations m) (hr_rotation_id record) = None →
  ms_nodes m !! (hr_tenant_id record, hr_node_id record) = Some current →
  decides (prepares m record current) (mem_prepare_rotation record m) m record
    (m <| ms_rotations := dict_set (ms_rotations m) (hr_rotation_id record) record |>).
Proof.
  intros Hm Hn Hk. unfold mem_prepare_rotation, prepares. rewrite run_store, Hn.
  pose proof (rotation_fresh_memory m record Hm Hn) as Hf.
  destruct (rotation_conflict record (ms_rotations m)) as [message|].
  - eapply decides_iff; [apply demands_decides; intros _; apply refuses_decides|].
    assert (¬ rotation_fresh m record) by (intros ?%Hf; done). tauto.
  - rewrite Hk. eapply decides_iff.
    + do 4 (apply demands_decides; intros _). by apply done_decides.
    + rewrite !bool_decide_eq_true, Z.eqb_eq. tauto.
Qed.

Lemma prepare_rotation_refines record : refined (PrepareRotation record).
Proof.
  intros d m Hs [Hv _]%make_rotation_Ok. pose proof (sh_ok d m Hs) as Hm.
  unfold control, PostgresRepository, InMemoryRepository.
  destruct (dict_find (ms_rotations m) (hr_rotation_id record)) as [e|] eqn:He.
  - destruct (so_rotations m Hm _ e He) as [_ Hre].
    eapply decides_alike; [apply commits_decides| | |exact Hs|].
    + unfold prepare_rotation. apply requires_commits; [by eexists; left|]. intros _. rewrite run_reads.
      unfold id. rewrite (sh_rotations d m Hs), He. by apply same_rotation_commits.
    + unfold mem_prepare_rotation. rewrite run_store, He. apply demands_decides. intros _.
      apply demands_decides. intros _. by apply done_decides.
    + done.
    + done.
  - destruct (ms_nodes m !! (hr_tenant_id record, hr_node_id record)) as [current|] eqn:Hk.
    + eapply decides_alike; [apply commits_decides; by eapply prepare_db_commits
        |by apply prepare_memory_decides|done|exact Hs|].
      intros (_ & Hf & _).
      pose proof (store_ok_rotation m _ record Hm eq_refl Hv Hf).
      destruct Hs. constructor; simpl; try done. by apply rotations_insert.
    + eapply decides_alike; [apply commits_decides| | |exact Hs|].
      * unfold prepare_rotation. apply requires_commits; [by eexists; left|]. intros _. rewrite run_reads.
        unfold id. rewrite (sh_rotations d m Hs), He, (sh_nodes d m Hs), Hk.
        by apply (conflict_commits _ record d d).
      * unfold mem_prepare_rotation. rewrite run_store, He. apply demands_decides. intros _.
        destruct (rotation_conflict _ _); [apply (refuses_decides _ m _ m)|].
        rewrite Hk. apply (refuses_decides _ m _ m).
      * done.
      * tauto.
Qed.

(** The condition under which a prepared rotation is committed. *)
Definition rotates (m : MemoryStore) (r : NodeRegistration) (record : HostedRotationRecord) : Prop :=
  nr_status r = "active" ∧ nr_credential_epoch r = hr_expected_epoch record ∧
  nr_wallet_binding_id r = hr_wallet_binding_id record ∧
  hr_pending_access_token_digest record ≠ nr_access_token_digest r ∧
  hr_pending_access_token_digest record ∉ ms_retired m ∧
  ∀ k' r', ms_nodes m !! k' = Some r' → k' ≠ node_key r →
    nr_access_token_digest r' ≠ hr_pending_access_token_digest record.
Definition committed_rotation (record : HostedRotationRecord) (now : Z) : HostedRotationRecord :=
  record <| hr_status := "committed" |> <| hr_committed_at := Some now |>.
Definition rotated_store (m : MemoryStore) (r : NodeRegistration) (record : HostedRotationRecord)
    (now : Z) : MemoryStore :=
  m <| ms_retired := {[nr_access_token_digest r]} ∪ ms_retired m |>
    <| ms_nodes := <[node_key r := rotated_node record now r]> (ms_nodes m) |>
    <| ms_rotations := dict_set (ms_rotations m) (hr_rotation_id record)
         (committed_rotation record now) |>.

Lemma valid_rotated_node record now r :
  valid_node r → valid_rotation record → 0 < now → valid_node (rotated_node record now r).
Proof.
  intros Hr Hv Hnow. unfold valid_node, valid_rotation, rotated_node in *. simpl.
  destruct Hv as (_ & _ & _ & _ & He & Hn & Hkey & Hd & _).
  apply Z.ltb_lt in He. apply Z.eqb_eq in Hn. rewrite (proj2 (Z.ltb_lt 0 now)) by done.
  rewrite (proj2 (Z.ltb_lt 0 (hr_next_epoch record))) by lia. tauto.
Qed.

Lemma valid_committed_rotation record now :
  valid_rotation record → 0 < now → valid_rotation (committed_rotation record now).
Proof.
  intros Hv Hnow. unfold valid_rotation, committed_rotation in *. simpl.
  rewrite (proj2 (Z.ltb_lt 0 now)) by done. tauto.
Qed.

Lemma committed_fresh m record now :
  store_ok m → dict_find (ms_rotations m) (hr_rotation_id record) = Some record →
  rotation_fresh m (committed_rotation record now).
Proof.
  intros Hm Hr k r' Hk Hne. change (hr_rotation_id (committed_rotation record now))
    with (hr_rotation_id record) in Hne. split; intros Heq; apply Hne.
  - by eapply (so_epochs m Hm k (hr_rotation_id record) r' record).
  - by eapply (so_pending m Hm k (hr_rotation_id record) r' record).
Qed.

Lemma store_ok_rotated m r record now :
  store_ok m → ms_nodes m !! node_key r = Some r →
  dict_find (ms_rotations m) (hr_rotation_id record) = Some record → 0 < now →
  rotates m r record → store_ok (rotated_store m r record now).
Proof.
  intros Hm Hk Hr Hnow (Ha & He & Hw & Hne & Hret & Hu).
  destruct (so_nodes m Hm _ r Hk) as [_ [Hv _]%make_node_Ok].
  destruct (so_rotations m Hm _ record Hr) as [_ [Hvr _]%make_rotation_Ok].
  assert (store_ok (m <| ms_nodes := <[node_key r := rotated_node record now r]> (ms_nodes m) |>)) as Hm1.
  { apply store_ok_node; try done. apply make_node_Ok. split; [by apply valid_rotated_node|done]. }
  apply (store_ok_retire _ (nr_access_token_digest r)) in Hm1.
  2:{ simpl. intros k' r' [[<- <-]|[Hne' Hr']]%lookup_insert_Some _ Heq; [done|].
      by apply Hne', (so_access m Hm _ k' r r' _ Hk Hr' eq_refl (f_equal Some Heq)). }
  apply (store_ok_rotation _ (hr_rotation_id record) (committed_rotation record now)) in Hm1;
    [done|done|by apply valid_committed_rotation|].
  by apply (committed_fresh m record now).
Qed.

Lemma apply_db_commits d m r record now :
  shows d m → ms_nodes m !! node_key r = Some r →
  dict_find (ms_rotations m) (hr_rotation_id record) = Some record → 0 < now →
  commits (rotates m r record)
    (apply_rotation r record (hr_expected_epoch record) (hr_pending_access_token_digest record) now d)
    (rotated_node record now r)
    (d <| rd_retired := <[nr_access_token_digest r :=
            MkRetired (nr_access_token_digest r) (nr_tenant_id r) (nr_node_id r) now]> (rd_retired d) |>
       <| rd_nodes := <[node_key r := rotated_node record now r]> (rd_nodes d) |>
       <| rd_rotations := <[hr_rotation_id record := committed_rotation record now]> (rd_rotations d) |>).
Proof.
  intros Hs Hk Hr Hnow. pose proof (sh_ok d m Hs) as Hm.
  destruct (so_nodes m Hm _ r Hk) as [_ [Hv _]%make_node_Ok].
  destruct (so_rotations m Hm _ record Hr) as [_ [Hvr _]%make_rotation_Ok].
  pose proof (committed_fresh m record now Hm Hr) as Hfresh.
  apply (rotation_fresh_db d m _ Hs) in Hfresh as [Hf1 Hf2].
  assert (rotates m r record → bool_decide (rd_retired d !! nr_access_token_digest r = None) = true)
    as Hret by (intros [Ha _]; apply (retired_lookup d m); [done|by eapply (so_active m Hm)]).
  eapply commits_iff.
  - unfold apply_rotation. rewrite run_reads.
    apply requires_commits; [by eexists; left|]. intros Ha.
    apply requires_commits; [by eexists; left|]. intros _.
    apply requires_commits; [by eexists; left|]. intros Hw.
    do 3 (apply requires_commits; [by eexists; left|]; intros _).
    eapply bind_commits; [apply add_retired_commits|]. intros _.
    apply bool_decide_eq_true in Ha, Hw.
    assert ((rotated_node record now r) <| nr_wallet_binding_id := hr_wallet_binding_id record |>
              <| nr_status := "active" |> = rotated_node record now r) as ->
      by (unfold rotated_node; simpl; by rewrite Ha, Hw).
    eapply bind_commits; [apply store_node_commits|]. intros _.
    eapply bind_commits; [apply store_rotation_commits|]. intros _.
    apply done_commits. apply run_lifts. apply make_node_Ok. split; [by apply valid_rotated_node|done].
  - split.
    + intros (Ha & He & Hw & Hne & Hret' & Hu & _). unfold rotates.
      rewrite token_free, (sh_nodes d m Hs) in Hu. apply (retired_lookup d m _ Hs) in Hret'.
      apply bool_decide_eq_true in Ha, Hw. apply Z.eqb_eq in He. by apply negb_true_iff, bool_decide_eq_false in Hne.
    + intros HG. specialize (Hret HG). destruct HG as (Ha & He & Hw & Hne & Hnr & Hu).
      apply (retired_lookup d m _ Hs) in Hnr. rewrite <- (sh_nodes d m Hs) in Hu.
      split_and!; try done.
      * by apply bool_decide_eq_true.
      * by apply Z.eqb_eq.
      * by apply bool_decide_eq_true.
      * by apply negb_true_iff, bool_decide_eq_false.
      * by apply token_free.
      * apply token_free. exact Hu.
      * apply revocation_unique. by intros.
      * by apply (valid_rotation_checks (committed_rotation record now)), valid_committed_rotation.
Qed.

Lemma apply_memory_decides m r record now :
  store_ok m → ms_nodes m !! node_key r = Some r →
  dict_find (ms_rotations m) (hr_rotation_id record) = Some record → 0 < now →
  decides (rotates m r record)
    (mem_apply_rotation (hr_rotation_id record) (Some r) record (node_key r)
       (hr_expected_epoch record) (hr_pending_access_token_digest record) now m) m
    (rotated_node record now r) (rotated_store m r record now).
Proof.
  intros Hm Hk Hr Hnow.
  destruct (so_nodes m Hm _ r Hk) as [_ [Hv _]%make_node_Ok].
  destruct (so_rotations m Hm _ record Hr) as [_ [Hvr _]%make_rotation_Ok].
  eapply decides_iff.
  - unfold mem_apply_rotation. rewrite run_store. do 5 (apply demands_decides; intros _).
    apply done_decides. rewrite run_edits.
    erewrite run_built by (apply make_node_Ok; split; [by apply valid_rotated_node|done]).
    rewrite run_edits.
    erewrite run_built by (apply make_rotation_Ok; split; [by apply (valid_committed_rotation record now)|done]).
    done.
  - rewrite any_value_delete, !negb_true_iff, orb_false_iff, negb_false_iff, !bool_decide_eq_false.
    unfold uses_token. rewrite token_free, !bool_decide_eq_true, Z.eqb_eq. unfold rotates. tauto.
Qed.

Lemma matched_rotation record tenant_id node_id epoch digest :
  rotation_matches record tenant_id node_id epoch digest = true →
  hr_tenant_id record = tenant_id ∧ hr_node_id record = node_id ∧
  hr_expected_epoch record = epoch ∧ hr_pending_access_token_digest record = digest.
Proof. unfold rotation_matches. intros Hm. by bool_inv. Qed.

Lemma commit_rotation_refines rotation_id tenant_id node_id epoch digest now :
  refined (CommitRotation rotation_id tenant_id node_id epoch digest now).
Proof.
  intros d m Hs _. pose proof (sh_ok d m Hs) as Hm.
  unfold control, PostgresRepository, InMemoryRepository.
  pose (dummy := MkNode "" "" "" [] "" [] 0 "" 0 0 None).
  destruct (dict_find (ms_rotations m) rotation_id) as [record|] eqn:Hr.
  2:{ eapply (decides_alike ((0 <? now) = true ∧ False)); [apply commits_decides| | |exact Hs|].
      - unfold commit_rotation. apply requires_commits; [by eexists; left|]. intros _. rewrite run_reads.
        unfold id. rewrite (sh_rotations d m Hs), Hr.
        destruct (rd_nodes d !! _); by apply (conflict_commits _ dummy d d).
      - unfold mem_commit_rotation. rewrite run_store, Hr. apply (refuses_decides _ m dummy m).
      - tauto.
      - tauto. }
  destruct (so_rotations m Hm _ record Hr) as [<- Hvr].
  destruct (ms_nodes m !! (tenant_id, node_id)) as [r|] eqn:Hk.
  2:{ eapply (decides_alike ((0 <? now) = true ∧ False) False);
        [apply commits_decides| |tauto|exact Hs|tauto].
      - unfold commit_rotation. apply requires_commits; [by eexists; left|]. intros _. rewrite run_reads.
        unfold id. rewrite (sh_nodes d m Hs), Hk. by apply (conflict_commits _ dummy d d).
      - eapply (decides_iff (rotation_matches record tenant_id node_id epoch digest = true ∧
                             (0 <? now) = true ∧ False)); [|tauto].
        unfold mem_commit_rotation. rewrite run_store, Hr.
        apply demands_decides. intros _. apply demands_decides. intros _. rewrite Hk.
        destruct (bool_decide (hr_status record = "committed")); [apply (refuses_decides _ m dummy m)|].
        eapply decides_iff; [apply demands_decides; intros _; apply (refuses_decides _ m dummy m)|tauto]. }
  destruct (so_nodes m Hm _ r Hk) as [Hkey Hvn].
  destruct (bool_decide (hr_status record = "committed")) eqn:Hc.
  - eapply (decides_alike ((0 <? now) = true ∧ rotation_matches record tenant_id node_id epoch digest = true
              ∧ rotation_applied record r = true ∧ True)); [apply commits_decides| | |exact Hs|].
    + unfold commit_rotation. apply requires_commits; [by eexists; left|]. intros _. rewrite run_reads.
      unfold id. rewrite (sh_nodes d m Hs), Hk, (sh_rotations d m Hs), Hr.
      erewrite run_bind by by apply run_lifts. apply requires_commits; [by eexists; left|]. intros _.
      rewrite Hc. apply requires_commits; [by eexists; left|]. intros _. apply done_commits. by apply run_lifts.
    + unfold mem_commit_rotation. rewrite run_store, Hr. apply demands_decides. intros _.
      apply demands_decides. intros _. rewrite Hk, Hc. apply demands_decides. intros _. by apply done_decides.
    + tauto.
    + done.
  - pose proof (matched_rotation record tenant_id node_id epoch digest) as Hmatch.
    eapply (decides_alike ((0 <? now) = true ∧ rotation_matches record tenant_id node_id epoch digest = true
              ∧ bool_decide (hr_status record = "prepared") = true ∧ rotates m r record));
      [apply commits_decides| | |exact Hs|].
    + unfold commit_rotation. apply requires_commits; [by eexists; left|]. intros Hnow%Z.ltb_lt.
      rewrite run_reads. unfold id. rewrite (sh_nodes d m Hs), Hk, (sh_rotations d m Hs), Hr.
      erewrite run_bind by by apply run_lifts.
      apply requires_commits; [by eexists; left|]. intros (<- & <- & <- & <-)%Hmatch. rewrite Hc.
      apply requires_commits; [by eexists; left|]. intros _.
      apply apply_db_commits; try done. by rewrite Hkey.
    + unfold mem_commit_rotation. rewrite run_store, Hr. apply demands_decides. intros Hm1.
      apply demands_decides. intros Hnow%Z.ltb_lt. rewrite Hk, Hc.
      apply demands_decides. intros _. destruct (Hmatch Hm1) as (<- & <- & <- & <-).
      rewrite <- Hkey. apply apply_memory_decides; try done. by rewrite Hkey.
    + tauto.
    + intros (_ & Hnow%Z.ltb_lt & _ & HG). rewrite <- Hkey in Hk.
      pose proof (store_ok_rotated m r record now Hm Hk Hr Hnow HG).
      destruct Hs. constructor; simpl; try done; [by f_equal|by apply rotations_insert|by apply retired_insert].
Qed.

(** *** Preflights *)

(** A record is new under each of its keys. *)
Definition preflight_free (m : MemoryStore) (record : PreflightRecord) : Prop :=
  ms_requests m !! by_request record = None ∧ ms_nonces m !! by_nonce record = None ∧
  ms_capabilities m !! by_capability record = None ∧ ms_reservations m !! by_reservation record = None.

Lemma bind_preflight_refines record :
  (∀ prefix taken, drawn_id prefix taken ∉ taken) → refined (BindPreflight record).
Proof.
  intros Hfresh d m Hs Hp. simpl in Hp. pose proof (sh_ok d m Hs) as Hm.
  unfold control, PostgresRepository, InMemoryRepository.
  set (new := drawn_id "preflight_" (dom (rd_preflights d))).
  assert (rd_preflights d !! new = None) as Hnew by apply not_elem_of_dom, Hfresh.
  assert (∀ r, rd_preflights d !! new = Some r → False) as Hnone by congruence.
  unfold bind_preflight, mem_bind_preflight.
  destruct (ms_preflights m !! by_idempotency record) as [e|] eqn:He.
  - pose proof (so_preflights m Hm _ e He) as Hpe.
    eapply decides_alike; [apply commits_decides| | |exact Hs|].
    + rewrite run_reads. cbn zeta.
      rewrite (index_find by_idempotency _ _ _ (sh_preflights d m Hs)), He.
      unfold same_preflight. erewrite run_bind by by apply run_lifts.
      apply requires_commits; [by eexists; left|]. intros _. by apply done_commits.
    + rewrite run_store, He. apply demands_decides. intros _. by apply done_decides.
    + done.
    + done.
  - eapply (decides_alike (preflight_free m record) (preflight_free m record));
      [apply commits_decides; eapply commits_iff| |done|exact Hs|].
    + rewrite run_reads. cbn zeta.
      rewrite (index_find by_idempotency _ _ _ (sh_preflights d m Hs)), He.
      rewrite (index_find by_request _ _ _ (sh_requests d m Hs)).
      rewrite (index_find by_nonce _ _ _ (sh_nonces d m Hs)).
      rewrite (index_find by_capability _ _ _ (sh_capabilities d m Hs)).
      rewrite (index_find by_reservation _ _ _ (sh_reservations d m Hs)).
      apply requires_commits; [by eexists; left|]. intros H1%bool_decide_eq_true.
      apply requires_commits; [by eexists; left|]. intros H2%bool_decide_eq_true.
      apply requires_commits; [by eexists; left|]. intros H3%bool_decide_eq_true.
      apply requires_commits; [by eexists; left|]. intros H4%bool_decide_eq_true.
      apply done_commits, savepoint_Ok. fold new.
      erewrite run_bind; [done|]. apply add_preflight_Ok; [done|..].
      * apply (index_unique by_request id _ _ new record (sh_requests d m Hs) H1 Hnew).
      * apply (index_unique by_idempotency id _ _ new record (sh_preflights d m Hs) He Hnew).
      * apply (index_unique by_nonce id _ _ new record (sh_nonces d m Hs) H2 Hnew).
      * apply (index_unique by_capability id _ _ new record (sh_capabilities d m Hs) H3 Hnew).
      * apply (index_unique by_reservation id _ _ new record (sh_reservations d m Hs) H4 Hnew).
    + unfold preflight_free. rewrite !bool_decide_eq_true. tauto.
    + eapply decides_iff.
      * rewrite run_store, He. do 4 (apply demands_decides; intros _). by apply done_decides.
      * unfold preflight_free. rewrite !bool_decide_eq_true. tauto.
    + intros (H1 & H2 & H3 & H4). destruct Hs. constructor; simpl; try done.
      * destruct Hm. constructor; simpl; try done.
        -- intros k r [[<- <-]|[_ Hr]]%lookup_insert_Some; [done|eauto].
        -- intros k r [[<- <-]|[_ Hr]]%lookup_insert_Some; [by rewrite !lookup_insert_eq|].
           destruct (so_bound k r Hr) as (? & ? & ? & ? & ?).
           rewrite !lookup_insert_ne by congruence. done.
      * by apply (index_insert by_idempotency id _ _ new record).
      * by apply (index_insert by_request id _ _ new record).
      * by apply (index_insert by_nonce id _ _ new record).
      * by apply (index_insert by_capability id _ _ new record).
      * by apply (index_insert by_reservation id _ _ new record).
Qed.

End AtClock.

(** *** Proofs of possession *)

(** Deleting expired entries from one side leaves the others. *)
Lemma filter_later {K A} `{Countable K} (expiry : A → Z) (t0 now : Z) (m : gmap K A) :
  t0 ≤ now →
  filter (λ kr, now < expiry kr.2) (filter (λ kr, t0 < expiry kr.2) m)
    = filter (λ kr, now < expiry kr.2) m.
Proof.
  intros Ht. apply map_eq. intros k. apply option_eq. intros r.
  rewrite !map_lookup_filter_Some. simpl. split; [tauto|]. intros [? ?]. split_and!; [done|lia|done].
Qed.
Lemma filter_twice {K A} `{Countable K} (expiry : A → Z) (now : Z) (m : gmap K A) :
  filter (λ kr, now < expiry kr.2) (filter (λ kr, now < expiry kr.2) m)
    = filter (λ kr, now < expiry kr.2) m.
Proof. by apply filter_later. Qed.

(** What the check does to the tables and to the dictionaries, whose answers agree
    when the unexpired proofs do. *)
Lemma consume_dpop_jti_runs tenant_id node_id epoch jti expires_at now d :
  (∀ prefix taken, drawn_id prefix taken ∉ taken) →
  let row := MkReplay tenant_id node_id epoch jti expires_at now in
  let kept := filter (λ kr, now < dr_expires_at kr.2) (rd_replays d) in
  let new := drawn_id "dpop_" (dom kept) in
  control (ConsumeDpopJti tenant_id node_id epoch jti expires_at now) d
  = if unique_besides new (λ r, bool_decide (replay_scope r = replay_scope row)) kept
    then (Ok true, d <| rd_replays := <[new:=row]> kept |>) else (Ok false, d).
Proof.
  intros Hfresh row kept new. assert (kept !! new = None) as Hnew by apply not_elem_of_dom, Hfresh.
  destruct (unique_besides _ _ kept) eqn:Hu; apply run_session_Ok;
    unfold consume_dpop_jti, flushed_before; rewrite run_writes, run_reads; unfold mbind, txn_bind.
  - by rewrite add_replay_Ok.
  - by rewrite add_replay_refused.
Qed.

Lemma mem_consume_dpop_jti_runs tenant_id node_id epoch jti expires_at now (m : MemoryStore) :
  let kept := filter (λ ke, now < ke.2) (ms_dpop_jtis m) in
  let key := (tenant_id, node_id, epoch, jti) in
  control (ConsumeDpopJti tenant_id node_id epoch jti expires_at now) m
  = if bool_decide (is_Some (kept !! key)) then (Ok false, m <| ms_dpop_jtis := kept |>)
    else (Ok true, m <| ms_dpop_jtis := <[key:=expires_at]> kept |>).
Proof.
  intros kept key. unfold control, InMemoryRepository, mem_consume_dpop_jti.
  rewrite run_edits, run_store. cbn zeta. change (ms_dpop_jtis (over ms_dpop_jtis _ m)) with kept.
  fold key. by case_bool_decide.
Qed.

(** The unexpired proofs after a check, recorded or refused. *)
Lemma recorded_indexed (kept : gmap string DPoPReplayRow) (index : gmap (string * string * Z * string) Z)
    now new row :
  indexes replay_scope dr_expires_at kept index → kept !! new = None → index !! replay_scope row = None →
  indexes replay_scope dr_expires_at (filter (λ kr, now < dr_expires_at kr.2) (<[new:=row]> kept))
    (filter (λ kv, now < kv.2) (<[replay_scope row:=dr_expires_at row]> index)).
Proof. intros Hi Hnew Hx. by apply (index_filter _ _ (λ v, now < v)), index_insert. Qed.
Lemma refused_indexed (table : gmap string DPoPReplayRow) (index : gmap (string * string * Z * string) Z) now :
  indexes replay_scope dr_expires_at (filter (λ kr, now < dr_expires_at kr.2) table)
    (filter (λ kv, now < kv.2) index) →
  indexes replay_scope dr_expires_at (filter (λ kr, now < dr_expires_at kr.2) table)
    (filter (λ kv, now < kv.2) (filter (λ kv, now < kv.2) index)).
Proof. intros Hi. by rewrite (filter_twice (λ v, v)). Qed.

Lemma replays_only clock clock' d m table index :
  shows_at clock d m →
  (∀ now, clock' = Some now →
     indexes replay_scope dr_expires_at (filter (λ kr, now < dr_expires_at kr.2) table)
       (filter (λ kv, now < kv.2) index)) →
  shows_at clock' (d <| rd_replays := table |>) (m <| ms_dpop_jtis := index |>).
Proof. intros [[]] Hi. by constructor. Qed.

(** A scope is taken in the table when the dictionary has it. *)
Lemma scope_taken (kept : gmap string DPoPReplayRow) (index : gmap (string * string * Z * string) Z) new row :
  indexes replay_scope dr_expires_at kept index → kept !! new = None →
  unique_besides new (λ r, bool_decide (replay_scope r = replay_scope row)) kept
    = negb (bool_decide (is_Some (index !! replay_scope row))).
Proof.
  intros Hi Hnew. destruct (index !! replay_scope row) as [e|] eqn:Hx.
  - rewrite bool_decide_eq_true_2 by done. apply not_true_is_false. rewrite unique_besides_spec.
    intros Hu. apply Hi in Hx as (i & r & Hr & Hk & _).
    specialize (Hu i r Hr ltac:(intros ->; congruence)). by apply bool_decide_eq_false in Hu.
  - rewrite bool_decide_eq_false_2 by apply is_Some_None. by eapply index_unique.
Qed.

Lemma consume_dpop_jti_refines clock tenant_id node_id epoch jti expires_at now d m :
  (∀ prefix taken, drawn_id prefix taken ∉ taken) → shows_at clock d m →
  let c := ConsumeDpopJti tenant_id node_id epoch jti expires_at now in
  (in_time clock c → alike (control c d).1 (control c m).1) ∧
  shows_at (tick clock c) (control c d).2 (control c m).2.
Proof.
  intros Hfresh Hs c. subst c. rewrite consume_dpop_jti_runs, mem_consume_dpop_jti_runs by done. simpl.
  set (kept := filter (λ kr, now < dr_expires_at kr.2) (rd_replays d)).
  set (keptm := filter (λ ke, now < ke.2) (ms_dpop_jtis m)).
  set (row := MkReplay tenant_id node_id epoch jti expires_at now).
  change (tenant_id, node_id, epoch, jti) with (replay_scope row).
  set (new := drawn_id "dpop_" (dom kept)).
  assert (kept !! new = None) as Hnew by apply not_elem_of_dom, Hfresh.
  assert (∀ index, shows_at None d (m <| ms_dpop_jtis := index |>)) as Hlost.
  { intros index. replace d with (d <| rd_replays := rd_replays d |>) by by destruct d.
    by eapply replays_only. }
  destruct clock as [t0|]; simpl.
  2:{ split; [done|]. destruct (unique_besides _ _ _), (bool_decide _); simpl; try apply Hlost;
        by eapply replays_only. }
  destruct (Z.leb_spec t0 now) as [Ht|Ht].
  2:{ split; [lia|]. destruct (unique_besides _ _ _), (bool_decide _); simpl; try apply Hlost;
        by eapply replays_only. }
  pose proof (index_filter _ _ (λ v, now < v) _ _ (sh_replays _ d m Hs t0 eq_refl)) as Hi.
  rewrite (filter_later dr_expires_at) in Hi by done. rewrite (filter_later (λ v, v)) in Hi by done.
  fold kept in Hi. rewrite (scope_taken _ _ new row Hi Hnew). unfold keptm. simpl.
  case_bool_decide as Hx; simpl; (split; [done|]).
  - replace d with (d <| rd_replays := rd_replays d |>) by by destruct d.
    eapply replays_only; [done|]. intros ? [= <-]. by apply refused_indexed.
  - eapply replays_only; [done|]. intros ? [= <-]. apply recorded_indexed; [done..|].
    by apply eq_None_not_Some.
Qed.

(** *** Every call *)

Lemma call_refines {A} (c : RegistryCall A) clock d m :
  (∀ x, length (sha256 x) = 32%nat) → (∀ prefix taken, drawn_id prefix taken ∉ taken) →
  shows_at clock d m → admissible c →
  (in_time clock c → alike (control c d).1 (control c m).1) ∧
  shows_at (tick clock c) (control c d).2 (control c m).2.
Proof.
  intros Hlen Hfresh Hs Hc.
  assert (∀ P Q R : Prop, P ∧ Q → (R → P) ∧ Q) as timed by tauto.
  destruct c; first [by apply consume_dpop_jti_refines|apply timed].
  - by apply put_enrollment_token_refines.
  - by apply get_enrollment_token_refines.
  - by apply consume_enrollment_token_refines.
  - by apply enroll_node_refines.
  - by apply put_node_refines.
  - by apply get_node_refines.
  - by apply get_node_by_access_digest_refines.
  - by apply prepare_rotation_refines.
  - by apply get_pending_rotation_refines.
  - by apply commit_rotation_refines.
  - by apply revoke_node_refines.
  - by apply get_revoked_node_refines.
  - by apply bind_preflight_refines.
Qed.

(** The database adapter keeps the contract. *)
Lemma postgres_adapter :
  (∀ x, length (sha256 x) = 32%nat) → (∀ prefix taken, drawn_id prefix taken ∉ taken) →
  Adapter RegistryDb shows_at.
Proof.
  intros Hlen Hfresh. split; [by intros clock s m []|]. intros A c clock s m. by apply call_refines.
Qed.

Lemma empty_store_ok : store_ok empty_store.
Proof.
  constructor; simpl; try done; try (intros k r Hk; by rewrite lookup_empty in Hk).
  apply NoDup_nil_2.
Qed.

Lemma empty_shows clock : shows_at clock empty_registry empty_store.
Proof.
  constructor; simpl; try done; [apply empty_store_ok|..].
  1: intros k; split; [by intros [? Hk]; rewrite lookup_empty in Hk|set_solver].
  1: intros now _; rewrite !map_filter_empty.
  all: intros k v; split; [by rewrite lookup_empty|].
  all: by intros (i & r & Hr & _); rewrite lookup_empty in Hr.
Qed.
End Refinement.
