(* ===== verification/NodeHistory.v ===== *)
(** * How the node registry evolves

    What one call may do to the dictionaries, as a preorder, and what follows for
    the histories of any adapter: credentials are retired for good, a token is
    used once, a proof is accepted once, a preflight is bound once. *)

From S2P Require Import Prelude PyValue ExecutionModels DeviceKeys ControlPlane.
From S2P Require Import NodeRegistry NodeMemory NodeSpec NodeFacts.

Open Scope string_scope.
Open Scope Z_scope.

Section History.
Context {p256 : P256} {sha : Sha256Bytes}.

(** ** One call *)

(** A node stays, or moves to a later epoch and its token is retired. *)
Definition node_later (m' : MemoryStore) (r r' : NodeRegistration) : Prop :=
  r' = r ∨ nr_status r ≠ "revoked" ∧ nr_credential_epoch r < nr_credential_epoch r' ∧
           nr_access_token_digest r ∈ ms_retired m'.

Record store_later (m m' : MemoryStore) : Prop := {
  sl_nodes : ∀ k r, ms_nodes m !! k = Some r →
    ∃ r', ms_nodes m' !! k = Some r' ∧ node_later m' r r';
  sl_retired : ms_retired m ⊆ ms_retired m';
  sl_tokens : ∀ k r, ms_tokens m !! k = Some r → is_Some (et_consumed_at r) →
    ms_tokens m' !! k = Some r;
  sl_preflights : ms_preflights m ⊆ ms_preflights m';
  sl_rotations : ∀ k r, dict_find (ms_rotations m) k = Some r → hr_status r = "committed" →
    dict_find (ms_rotations m') k = Some r;
}.

#[export] Instance store_later_po : PreOrder store_later.
Proof.
  split.
  - intros m. constructor; try done. intros k r Hk. exists r. split; [done|by left].
  - intros m1 m2 m3 [Hn1 Hr1 Ht1 Hp1 Hc1] [Hn2 Hr2 Ht2 Hp2 Hc2].
    constructor; [|by etrans|by eauto|by etrans|by eauto].
    intros k r Hk. destruct (Hn1 k r Hk) as (r2 & Hk2 & L1). destruct (Hn2 k r2 Hk2) as (r3 & Hk3 & L2).
    exists r3. split; [done|]. destruct L1 as [->|(? & ? & ?)]; [done|right].
    destruct L2 as [->|(? & ? & ?)]; split_and!; try done; try lia; by apply Hr2.
Qed.

(** Dictionaries that differ elsewhere. *)
Lemma later_elsewhere m m' :
  ms_nodes m' = ms_nodes m → ms_retired m' = ms_retired m → ms_tokens m' = ms_tokens m →
  ms_rotations m' = ms_rotations m → ms_preflights m ⊆ ms_preflights m' → store_later m m'.
Proof.
  intros Hn Hr Ht Hc Hp. constructor; try done; rewrite ?Hn, ?Hr, ?Ht, ?Hc; try done.
  intros k r Hk. exists r. split; [done|by left].
Qed.
Lemma later_token m k r :
  (∀ r0, ms_tokens m !! k = Some r0 → et_consumed_at r0 = None) →
  store_later m (m <| ms_tokens := <[k:=r]> (ms_tokens m) |>).
Proof.
  intros Hk. constructor; simpl; try done.
  - intros k' r' Hk'. exists r'. split; [done|by left].
  - intros k' r' Hk' [t Ht]. destruct (decide (k' = k)) as [->|Hne]; [|by rewrite lookup_insert_ne].
    rewrite (Hk r' Hk') in Ht. done.
Qed.
(** A rotation that was not committed. *)
Lemma later_rotation m k r :
  (∀ r0, dict_find (ms_rotations m) k = Some r0 → hr_status r0 ≠ "committed") →
  store_later m (m <| ms_rotations := dict_set (ms_rotations m) k r |>).
Proof.
  intros Hk. constructor; simpl; try done.
  - intros k' r' Hk'. exists r'. split; [done|by left].
  - intros k' r' Hk' Hs. destruct (decide (k' = k)) as [->|Hne]; [by destruct (Hk r')|].
    by rewrite dict_find_set_ne.
Qed.
Lemma later_new_node m k r :
  ms_nodes m !! k = None → store_later m (m <| ms_nodes := <[k:=r]> (ms_nodes m) |>).
Proof.
  intros Hk. constructor; simpl; try done. intros k' r' Hk'. exists r'. split; [|by left].
  rewrite lookup_insert_ne; [done|]. intros ->. congruence.
Qed.
Lemma later_retired m digest : store_later m (m <| ms_retired := {[digest]} ∪ ms_retired m |>).
Proof.
  constructor; simpl; try done; [|apply union_subseteq_r]. intros k r Hk. exists r. split; [done|by left].
Qed.
(** A node with a retired token moves on. *)
Lemma later_moved m k r r' :
  ms_nodes m !! k = Some r → nr_status r ≠ "revoked" →
  nr_credential_epoch r < nr_credential_epoch r' → nr_access_token_digest r ∈ ms_retired m →
  store_later m (m <| ms_nodes := <[k:=r']> (ms_nodes m) |>).
Proof.
  intros Hk Hs He Hr. constructor; simpl; try done. intros k' r1 Hk'.
  destruct (decide (k' = k)) as [->|Hne].
  - exists r'. rewrite lookup_insert_eq. split; [done|]. right. simpl. naive_solver.
  - exists r1. rewrite lookup_insert_ne by done. split; [done|by left].
Qed.

(** The steps of a call one after the other. *)
Lemma demands_later {A} b message (k : unit → service MemoryStore A) m :
  (b = true → store_later m (k tt m).2) → store_later m ((demands b message ≫= k) m).2.
Proof. intros Hk. unfold demands, answers, require. destruct b; [by apply Hk|done]. Qed.
Lemma built_later {A B} (r : result A) (k : A → service MemoryStore B) m :
  (∀ a, r = Ok a → store_later m (k a m).2) → store_later m ((built r ≫= k) m).2.
Proof. intros Hk. unfold built, answers. destruct r as [a|e]; [by apply Hk|done]. Qed.
Lemma edits_later {A} f (k : unit → service MemoryStore A) m :
  store_later m (f m) → store_later (f m) (k tt (f m)).2 → store_later m ((edits f ≫= k) m).2.
Proof. intros Hf Hk. rewrite run_edits. by etrans. Qed.

(** Follow a call to what it changes. *)
Ltac later := repeat first
  [ done
  | rewrite run_store
  | apply demands_later; intros ?
  | apply built_later; intros ? ?
  | case_match ].

Lemma not_consumed (r : EnrollmentTokenRecord) :
  bool_decide (is_Some (et_consumed_at r)) = false → et_consumed_at r = None.
Proof. intros H%bool_decide_eq_false. by apply eq_None_not_Some. Qed.

Lemma enroll_later digest node now binding m : store_later m (mem_enroll_node digest node now binding m).2.
Proof.
  unfold mem_enroll_node. later.
  bool_inv. apply edits_later; [|done].
  etrans; [apply (later_new_node m (node_key node) node); by bool_inv|].
  match goal with |- store_later _ (m <| ms_tokens := <[?k:=?r]> _ |> <| _ := _ |>) =>
    refine (later_token (m <| ms_nodes := <[node_key node := node]> (ms_nodes m) |>) k r _) end.
  simpl. intros r0 Hr0. apply eq_None_not_Some. by simplify_map_eq.
Qed.

Lemma commit_later rotation_id tenant_id node_id epoch digest now m :
  store_ok m → store_later m (mem_commit_rotation rotation_id tenant_id node_id epoch digest now m).2.
Proof.
  intros Hm. unfold mem_commit_rotation. later. unfold mem_apply_rotation. later.
  apply edits_later; [apply later_retired|]. later.
  match goal with H : make_node _ = Ok _ |- _ => apply make_node_Ok in H as [_ ->] end.
  match goal with H : dict_find _ _ = Some _ |- _ =>
    pose proof (so_rotations m Hm _ _ H) as [_ [Hv _]%make_rotation_Ok] end.
  destruct Hv as (_ & _ & _ & _ & _ & Hnext & _). apply Z.eqb_eq in Hnext.
  apply edits_later.
  - eapply later_moved; [done| | |simpl; set_solver].
    + intros Hs. bool_inv. congruence.
    + simpl. unfold rotation_matches in *. bool_inv. lia.
  - later. apply edits_later; [|done]. apply later_rotation. simpl. intros r0 Hr0 Hs.
    bool_inv. congruence.
Qed.

Lemma revoke_later tenant_id node_id epoch revocation_id drawn m :
  store_later m (mem_revoke_node tenant_id node_id epoch revocation_id drawn m).2.
Proof.
  unfold mem_revoke_node. later. apply edits_later; [apply later_retired|]. later.
  match goal with H : make_node _ = Ok _ |- _ => apply make_node_Ok in H as [_ ->] end.
  apply edits_later; [|done].
  eapply later_moved; [done|by bool_inv|simpl; lia|simpl; set_solver].
Qed.

Lemma bind_later record m : store_later m (mem_bind_preflight record m).2.
Proof.
  unfold mem_bind_preflight. later. apply edits_later; [|done].
  apply later_elsewhere; try done. simpl. by apply insert_subseteq.
Qed.

Lemma call_later {A} (c : RegistryCall A) m : store_ok m → store_later m (control c m).2.
Proof.
  intros Hm. unfold control, InMemoryRepository. destruct c.
  - unfold mem_put_enrollment_token. later; apply later_token; bool_inv; congruence.
  - done.
  - unfold mem_consume_enrollment_token. later. apply edits_later; [|done].
    match goal with |- store_later m (m <| ms_tokens := <[?k:=?r]> _ |>) =>
      apply (later_token m k r) end. intros r0 Hr0. apply not_consumed. by simplify_map_eq.
  - apply enroll_later.
  - unfold mem_put_node. later. apply later_new_node. bool_inv. by apply eq_None_not_Some.
  - done.
  - done.
  - unfold mem_prepare_rotation. later. apply edits_later; [|done]. apply later_rotation. congruence.
  - done.
  - by apply commit_later.
  - apply revoke_later.
  - done.
  - unfold mem_consume_dpop_jti. apply edits_later; [by apply later_elsewhere|]. later.
    apply edits_later; [by apply later_elsewhere|done].
  - apply bind_later.
Qed.

(** ** Proofs of possession *)

Lemma demands_leaves {A} (P : MemoryStore → Prop) b message (k : unit → service MemoryStore A) m :
  P m → (b = true → P (k tt m).2) → P ((demands b message ≫= k) m).2.
Proof. intros Hm Hk. unfold demands, answers, require. destruct b; [by apply Hk|done]. Qed.
Lemma built_leaves {A B} (P : MemoryStore → Prop) (r : result A) (k : A → service MemoryStore B) m :
  P m → (∀ a, r = Ok a → P (k a m).2) → P ((built r ≫= k) m).2.
Proof. intros Hm Hk. unfold built, answers. destruct r as [a|e]; [by apply Hk|done]. Qed.

(** In memory, a proof that has not expired stays recorded. *)
Definition mem_recorded (m : MemoryStore) (k : string * string * Z * string) (x : Z) : Prop :=
  ms_dpop_jtis m !! k = Some x.

Lemma call_keeps_jti {A} (c : RegistryCall A) m k x :
  clock_before x (Call c) → mem_recorded m k x → mem_recorded (control c m).2 k x.
Proof.
  intros Hx Hm. unfold control, InMemoryRepository. destruct c; try done;
    unfold mem_put_enrollment_token, mem_consume_enrollment_token, mem_enroll_node, mem_replay_enrollment,
      mem_put_node, mem_prepare_rotation, mem_commit_rotation, mem_apply_rotation, mem_revoke_node,
      mem_bind_preflight;
    try (repeat first [exact Hm | rewrite run_store | rewrite run_edits
      | apply (demands_leaves (λ m, mem_recorded m k x)); [exact Hm|intros _]
      | apply (built_leaves (λ m, mem_recorded m k x)); [exact Hm|intros ? _]
      | case_match]; fail).
  unfold mem_consume_dpop_jti. rewrite run_edits, run_store. simpl in Hx. cbn zeta.
  set (t := filter _ (ms_dpop_jtis m)).
  assert (t !! k = Some x) as Ht by (apply map_lookup_filter_Some; split; [exact Hm|exact Hx]).
  unfold mem_recorded. case_bool_decide as Hd; [exact Ht|]. rewrite run_edits. simpl.
  rewrite lookup_insert_ne; [exact Ht|]. intros <-. apply Hd. simpl. by exists x.
Qed.

Lemma memory_replay_log : ReplayLog MemoryStore mem_recorded.
Proof.
  split.
  - intros m tenant_id node_id epoch jti x now call. subst call. unfold mem_recorded.
    unfold control, InMemoryRepository, mem_consume_dpop_jti. rewrite run_edits, run_store. cbn zeta.
    case_bool_decide; [done|]. intros _. rewrite run_edits. simpl. apply lookup_insert_eq.
  - intros A c m k x. apply call_keeps_jti.
  - intros m tenant_id node_id epoch jti x x' now Hk Hx.
    unfold control, InMemoryRepository, mem_consume_dpop_jti. rewrite run_edits, run_store. cbn zeta.
    rewrite bool_decide_eq_true_2; [done|]. exists x. apply map_lookup_filter_Some. by split.
Qed.

(** In the database, a row of the proof expires at [x]. *)
Definition db_recorded (d : RegistryDb) (k : string * string * Z * string) (x : Z) : Prop :=
  ∃ id r, rd_replays d !! id = Some r ∧ replay_scope r = k ∧ dr_expires_at r = x.

(** The other calls do not touch the table. *)
Definition same_replays (d d' : RegistryDb) : Prop := rd_replays d' = rd_replays d.
#[local] Instance same_replays_po : PreOrder same_replays.
Proof. unfold same_replays. split; [done|]. intros ? ? ? ? ?. by etrans. Qed.

Lemma session_same {A} (p : session A) d :
  steps_by same_replays p → rd_replays (run_session p d).2 = rd_replays d.
Proof.
  intros Hp. unfold run_session. pose proof (session_moves same_replays p Hp d) as Hd.
  unfold runs in Hd. by destruct (write_session p d) as [[a|[]] d'].
Qed.
Lemma writes_same f : (∀ d, rd_replays (f d) = rd_replays d) → steps_by same_replays (writes f).
Proof. intros Hf s a s' [_ ->]%writes_Ok. apply Hf. Qed.
Lemma savepoint_same {A} (body failed : session A) :
  steps_by same_replays body → steps_by same_replays failed → steps_by same_replays (savepoint body failed).
Proof.
  intros Hb Hf d a d'. unfold savepoint. destruct (body d) as [[a0 d0]|[]] eqn:E; try done;
    try (intros [= <- <-]; by eapply Hb). by apply Hf.
Qed.
Ltac same_replays := repeat first
  [ apply ret_steps; exact _ | apply lifts_steps; exact _ | apply requires_steps; exact _
  | apply reads_steps; exact _ | apply raises_steps | apply writes_same; intros ?; reflexivity
  | apply savepoint_same | apply bind_steps; [exact _| |intros ?]
  | progress cbn zeta | case_match ].

Context {ids : DrawnIds}.
Lemma call_same_replays {A} (c : RegistryCall A) (d : RegistryDb) :
  (∀ x, clock_before x (Call c)) → rd_replays (control c d).2 = rd_replays d.
Proof.
  intros Hc. unfold control, PostgresRepository. destruct c; try apply session_same;
    unfold put_enrollment_token, get_enrollment_token, consume_enrollment_token, enroll_node,
      replay_enrollment, put_node, get_node, get_node_by_access_digest, prepare_rotation, same_rotation,
      get_pending_rotation_by_access_digest, commit_rotation, apply_rotation, revoke_node,
      get_revoked_node_by_access_digest, bind_preflight, same_preflight, add_token, store_token, add_node,
      store_node, add_rotation, store_rotation, add_retired, add_preflight, conflict_unless, conflict.
  all: try (same_replays; fail).
  specialize (Hc now). simpl in Hc. lia.
Qed.

(** A check that accepts adds its row to those that have not expired; one that does
    not changes nothing. *)
Lemma consume_dpop_jti_steps tenant_id node_id epoch jti x now d :
  let kept := filter (λ kr, now < dr_expires_at kr.2) (rd_replays d) in
  let row := MkReplay tenant_id node_id epoch jti x now in
  let call := control (ConsumeDpopJti tenant_id node_id epoch jti x now) d in
  (∃ id, kept !! id = None ∧
     unique_besides id (λ r, bool_decide (replay_scope r = replay_scope row)) kept = true ∧
     call = (Ok true, d <| rd_replays := <[id:=row]> kept |>)) ∨
  call = (Ok false, d).
Proof.
  intros kept row call. subst call. unfold control, PostgresRepository, run_session, write_session.
  unfold consume_dpop_jti, flushed_before. rewrite run_writes, run_reads.
  change (rd_replays (over rd_replays _ d)) with kept. fold row.
  set (new := drawn_id "dpop_" (dom kept)). unfold mbind, txn_bind, add_replay.
  rewrite run_reads. unfold id. change (rd_replays (over rd_replays _ d)) with kept.
  case_bool_decide as Hn; [|by right].
  destruct (unique_besides _ _ kept) eqn:Hu; [left; by exists new|by right].
Qed.

Lemma postgres_replay_log : ReplayLog RegistryDb db_recorded.
Proof.
  split.
  - intros d tenant_id node_id epoch jti x now call Hc. subst call.
    destruct (consume_dpop_jti_steps tenant_id node_id epoch jti x now d)
      as [(i & Hi & Hu & E)|E]; [|by rewrite E in Hc].
    rewrite E. eexists i, _. simpl. by rewrite lookup_insert_eq.
  - intros A c d k x Hx Hk.
    assert (rd_replays (control c d).2 = rd_replays d ∨
      ∃ tenant_id node_id epoch jti x' now, now < x ∧
        (control c d).2 = (control (ConsumeDpopJti tenant_id node_id epoch jti x' now) d).2) as [E|E].
    { destruct c; try (left; by apply call_same_replays). right. simpl in Hx. by repeat eexists. }
    + unfold db_recorded. by rewrite E.
    + destruct E as (tenant_id & node_id & epoch & jti & x' & now & Hnow & ->).
      destruct (consume_dpop_jti_steps tenant_id node_id epoch jti x' now d)
        as [(i & Hi & Hu & ->)| ->]; [|done].
      destruct Hk as (i' & r & Hr & Hs & He). exists i', r. split; [|done]. simpl.
      assert (filter (λ kr, now < dr_expires_at kr.2) (rd_replays d) !! i' = Some r) as Hr'
        by (apply map_lookup_filter_Some; simpl; split; [done|lia]).
      rewrite lookup_insert_ne; [done|]. intros ->. congruence.
  - intros d tenant_id node_id epoch jti x x' now (i & r & Hr & Hs & He) Hx.
    destruct (consume_dpop_jti_steps tenant_id node_id epoch jti x' now d)
      as [(i' & Hi & Hu & E)| ->]; [|done].
    assert (filter (λ kr, now < dr_expires_at kr.2) (rd_replays d) !! i = Some r) as Hr'
      by (apply map_lookup_filter_Some; simpl; split; [done|lia]).
    rewrite unique_besides_spec in Hu. specialize (Hu i r Hr' ltac:(intros ->; congruence)).
    by rewrite bool_decide_eq_true_2 in Hu.
Qed.
End History.
