(* ===== verification/NodeProperties.v ===== *)
(** * Properties of the node registry

    What every adapter of the control plane promises its clients, proved against
    the interface, and that the database is such an adapter. *)

From S2P Require Import Prelude PyValue ExecutionModels DeviceKeys ControlPlane.
From S2P Require Import NodeRegistry NodeMemory NodeSpec NodeFacts NodeRefinement.
From S2P Require Import NodeHistory.

Open Scope string_scope.
Open Scope Z_scope.

(** ** Answers of an adapter *)

Section Clients.
Context {p256 : P256} {sha : Sha256Bytes} {S : Type} {cp : ControlPlane S}.
Context {shown : option Z → S → MemoryStore → Prop} {adapter : Adapter S shown}.

Lemma answer_memory {A} (c : RegistryCall A) s m a :
  shown None s m → admissible c → in_time None c →
  (control c s).1 = Ok a ↔ (control c m).1 = Ok a.
Proof.
  intros Hs Hc Ht. destruct (adapter_call A c None s m Hs Hc) as [Ha _].
  specialize (Ha Ht). unfold alike in Ha.
  destruct (control c s).1 as [x|], (control c m).1 as [y|]; try done. by subst.
Qed.

Lemma call_shown {A} (c : RegistryCall A) s m :
  shown None s m → admissible c → shown None (control c s).2 (control c m).2.
Proof.
  intros Hs Hc. replace None with (tick None c) by by destruct c.
  exact (proj2 (adapter_call A c None s m Hs Hc)).
Qed.

Lemma history_later qs s m :
  shown None s m → Forall admitted qs → store_later m (serves qs m).
Proof.
  revert s m. induction qs as [|[A c] qs IH]; intros s m Hs Hq; [done|].
  apply Forall_cons_1 in Hq as [Hc Hq]. etrans; [apply (call_later c m), (adapter_ok None s m Hs)|].
  apply (IH (control c s).2); [by apply call_shown|done].
Qed.

(** A retired token authenticates no node. *)
Lemma retired_unknown m digest :
  digest ∈ ms_retired m → (control (GetNodeByAccessDigest digest) m).1 = Ok None.
Proof.
  intros Hd. unfold control, InMemoryRepository, mem_get_node_by_access_digest. simpl. f_equal.
  apply find_row_is_None. intros k r _. rewrite (bool_decide_eq_true_2 (digest ∈ _)) by done.
  simpl. by rewrite andb_false_r.
Qed.

(** C21: safety.  A credential that was rotated or revoked never authenticates again:
    when a node is later seen with anything changed, it was not revoked before,
    its epoch has grown, and from then on, whatever calls follow, its earlier
    access token is the token of no node. *)
Theorem credential_never_returns s m qs qs' tenant_id node_id old new :
  shown None s m → Forall admitted qs → Forall admitted qs' →
  (control (GetNode tenant_id node_id) s).1 = Ok (Some old) →
  (control (GetNode tenant_id node_id) (serves qs s)).1 = Ok (Some new) → new ≠ old →
  nr_status old ≠ "revoked" ∧ nr_credential_epoch old < nr_credential_epoch new ∧
  (control (GetNodeByAccessDigest (nr_access_token_digest old)) (serves qs' (serves qs s))).1 = Ok None.
Proof.
  intros Hs Hq Hq' Hold Hnew Hne. pose proof (history_unclocked qs s m Hs Hq) as Hs1.
  pose proof (history_unclocked qs' _ _ Hs1 Hq') as Hs2.
  apply (answer_memory (GetNode _ _) s m) in Hold; [|done..].
  apply (answer_memory (GetNode _ _) _ _ _ Hs1) in Hnew; [|done..].
  injection Hold as Hold. injection Hnew as Hnew.
  destruct (sl_nodes _ _ (history_later qs s m Hs Hq) _ old Hold) as (r & Hr & [->|(Hst & He & Hret)]);
    [congruence|]. assert (r = new) as -> by congruence. split_and!; [done..|].
  apply (answer_memory (GetNodeByAccessDigest _) _ _ _ Hs2); [done..|]. apply retired_unknown.
  by apply (sl_retired _ _ (history_later qs' _ _ Hs1 Hq')).
Qed.

Lemma returned {S' A} (r : result A * S') a : r.1 = Ok a → r = (Ok a, r.2).
Proof. destruct r; simpl. congruence. Qed.

(** What a call went through to return. *)
Lemma demands_Ok {A} b message (k : unit → service MemoryStore A) m a m' :
  (demands b message ≫= k) m = (Ok a, m') → b = true ∧ k tt m = (Ok a, m').
Proof. unfold mbind, service_bind, demands, answers, require. by destruct b. Qed.
Lemma built_Ok {A B} (r : result A) (k : A → service MemoryStore B) m b m' :
  (built r ≫= k) m = (Ok b, m') → ∃ a, r = Ok a ∧ k a m = (Ok b, m').
Proof. unfold mbind, service_bind, built, answers. destruct r as [a|]; [by exists a|done]. Qed.

(** An enrollment that returns leaves the token used for the node it returns. *)
Lemma enrolled_memory m digest node now binding e m' :
  store_ok m → mem_enroll_node digest node now binding m = (Ok e, m') →
  ∃ r0 r b, ms_tokens m !! digest = Some r0 ∧ ms_tokens m' !! digest = Some r ∧
    is_Some (et_consumed_at r) ∧ et_tenant_id r = et_tenant_id r0 ∧ et_tenant_id r = nr_tenant_id e ∧ et_enrolled_node_id r = Some (nr_node_id e) ∧
    et_enrollment_binding_digest r = Some b ∧ enrollment_binding_digest e = Ok b ∧
    enrollment_binding_digest node = Ok b.
Proof.
  intros Hm. unfold mem_enroll_node. rewrite run_store.
  destruct (ms_tokens m !! digest) as [r|] eqn:Hr; [|done].
  intros (b & Hb & E)%built_Ok.
  assert (enrollment_binding_digest node = Ok b) as Hnode.
  { unfold enrollment_binding_for in Hb. apply result_bind_Ok in Hb as (b0 & Hb0 & Hb).
    destruct binding as [b1|]; [|by injection Hb as <-].
    apply result_bind_Ok in Hb as (u & [Hu _]%require_Ok & [= <-]). bool_inv. congruence. }
  case_bool_decide as Hused.
  - unfold mem_replay_enrollment in E. rewrite run_store in E.
    destruct (et_enrolled_node_id r) as [node_id|] eqn:Hn; [|done].
    apply demands_Ok in E as [Hrb E]. bool_inv.
    destruct (ms_nodes m !! _) as [existing|] eqn:Hex; [|done].
    apply built_Ok in E as (b' & Hb' & E). apply demands_Ok in E as [Hbb E]. injection E as <- <-.
    apply (so_nodes m Hm) in Hex as [[= Ht Hi] _]. bool_inv. subst. by exists r, r, b.
  - do 6 (apply demands_Ok in E as [? E]). apply built_Ok in E as (r' & Hr' & E).
    rewrite run_edits in E. injection E as <- <-. apply make_token_Ok in Hr' as [_ ->].
    eexists r, _, b. simpl. rewrite lookup_insert_eq. bool_inv. naive_solver.
Qed.

(** C23: safety.  An enrollment token enrolls one node: whatever calls come between two
    enrollments with a token that both return, they return the same node, and the
    second one asked for the same binding (tenant, wallet binding, device key,
    access token, epoch and status) as the first. *)
Theorem enrollment_token_enrolls_once s m digest node now binding e qs node' now' binding' e' :
  shown None s m → make_node node = Ok node → 0 < now → Forall admitted qs →
  make_node node' = Ok node' → 0 < now' →
  (control (EnrollNode digest node now binding) s).1 = Ok e →
  (control (EnrollNode digest node' now' binding')
     (serves qs (control (EnrollNode digest node now binding) s).2)).1 = Ok e' →
  node_key e' = node_key e ∧ enrollment_binding_digest e' = enrollment_binding_digest e ∧
  enrollment_binding_digest node' = enrollment_binding_digest node.
Proof.
  intros Hs Hn Hnow Hq Hn' Hnow' He He'.
  pose proof (call_shown (EnrollNode digest node now binding) s m Hs (conj Hn Hnow)) as Hs1.
  pose proof (history_unclocked qs _ _ Hs1 Hq) as Hs2. pose proof (history_later qs _ _ Hs1 Hq) as Hl.
  apply (answer_memory (EnrollNode digest node now binding) s m e Hs) in He; [|done..].
  apply (answer_memory (EnrollNode digest node' now' binding') _ _ e' Hs2) in He'; [|done..].
  set (m1 := (control (EnrollNode digest node now binding) m).2) in *. set (m2 := serves qs m1) in *.
  destruct (enrolled_memory m digest node now binding e m1) as (r0 & r & b & _ & Hr & Hu & _ & Ht & Hi & Hb & Eb & Nb);
    [by apply (adapter_ok None s m)|by apply returned|].
  destruct (enrolled_memory m2 digest node' now' binding' e' (mem_enroll_node digest node' now' binding' m2).2)
    as (r0' & r' & b' & _ & Hr' & _ & _ & Ht' & Hi' & Hb' & Eb' & Nb'); [by eapply adapter_ok|by apply returned|].
  apply (sl_tokens _ _ Hl) in Hr; [|done].
  assert (ms_tokens (mem_enroll_node digest node' now' binding' m2).2 !! digest = Some r) as Hsame.
  { by apply (sl_tokens _ _ (call_later (EnrollNode digest node' now' binding') m2 (adapter_ok _ _ _ Hs2))). }
  assert (r' = r) as -> by congruence. unfold node_key. split_and!; congruence.
Qed.

(** *** Preflights *)

(** A preflight that is returned is bound under its idempotency key, for the
    request it was asked for. *)
Lemma bound_memory m record r m' :
  store_ok m → mem_bind_preflight record m = (Ok r, m') →
  ms_preflights m' !! by_idempotency record = Some r ∧ pf_request_hash r = pf_request_hash record.
Proof.
  intros Hm. unfold mem_bind_preflight. rewrite run_store.
  destruct (ms_preflights m !! by_idempotency record) as [e|] eqn:He; intros E.
  - apply demands_Ok in E as [Hh E]. injection E as <- <-. by bool_inv.
  - do 4 (apply demands_Ok in E as [_ E]). rewrite run_edits in E. injection E as <- <-.
    simpl. by rewrite lookup_insert_eq.
Qed.

(** C25: safety.  A preflight is bound once: an answer is for the request that was
    asked; a later one under the same idempotency key, or that carries the
    request, the nonce, the capability or the reservation of the first, is the
    first. *)
Theorem preflight_bound_once s m record r qs record' r' :
  shown None s m → make_preflight record = Ok record → Forall admitted qs →
  make_preflight record' = Ok record' →
  (control (BindPreflight record) s).1 = Ok r →
  (control (BindPreflight record') (serves qs (control (BindPreflight record) s).2)).1 = Ok r' →
  pf_request_hash r' = pf_request_hash record' ∧
  (by_idempotency record' = by_idempotency record ∨ by_request r' = by_request r ∨
   by_nonce r' = by_nonce r ∨ by_capability r' = by_capability r ∨
   by_reservation r' = by_reservation r → r' = r).
Proof.
  intros Hs Hp Hq Hp' Hr Hr'.
  pose proof (call_shown (BindPreflight record) s m Hs Hp) as Hs1.
  pose proof (history_unclocked qs _ _ Hs1 Hq) as Hs2. pose proof (history_later qs _ _ Hs1 Hq) as Hl.
  pose proof (call_shown (BindPreflight record') _ _ Hs2 Hp') as Hs3.
  apply (answer_memory (BindPreflight record) s m r Hs Hp I) in Hr.
  apply (answer_memory (BindPreflight record') _ _ r' Hs2 Hp' I) in Hr'.
  set (m1 := (control (BindPreflight record) m).2) in *. set (m2 := serves qs m1) in *.
  destruct (bound_memory m record r m1) as [Hb _]; [by apply (adapter_ok None s m)|by apply returned|].
  set (m3 := (control (BindPreflight record') m2).2) in *.
  destruct (bound_memory m2 record' r' m3) as [Hb' Hh]; [by eapply adapter_ok|by apply returned|].
  split; [done|].
  assert (ms_preflights m3 !! by_idempotency record = Some r) as Hb3.
  { assert (ms_preflights m2 !! by_idempotency record = Some r) as Hb2
      by by apply (lookup_weaken _ _ _ _ Hb (sl_preflights _ _ Hl)).
    by apply (lookup_weaken _ _ _ _ Hb2 (sl_preflights _ _ (call_later (BindPreflight record') m2 (adapter_ok _ _ _ Hs2)))). }
  pose proof (so_bound m3 (adapter_ok _ _ _ Hs3) _ _ Hb3) as (_ & ? & ? & ? & ?).
  pose proof (so_bound m3 (adapter_ok _ _ _ Hs3) _ _ Hb') as (_ & ? & ? & ? & ?).
  intros [E|[E|[E|[E|E]]]]; congruence.
Qed.
End Clients.

(** ** Proofs of possession *)

(** C24: safety.  A DPoP proof is accepted once, by the database as in memory: after a
    proof was accepted until [x], whatever calls follow, the same proof is refused,
    provided no clock has shown [x] or later. *)
Theorem dpop_proof_accepted_once {p256 : P256} {sha : Sha256Bytes} {ids : DrawnIds}
    (d : RegistryDb) (m : MemoryStore) tenant_id node_id epoch jti x now qs x' now' :
  let check := ConsumeDpopJti tenant_id node_id epoch jti x now in
  let recheck := ConsumeDpopJti tenant_id node_id epoch jti x' now' in
  Forall (clock_before x) qs → now' < x →
  ((control check d).1 = Ok true →
   (control recheck (serves qs (control check d).2)).1 = Ok false) ∧
  ((control check m).1 = Ok true →
   (control recheck (serves qs (control check m).2)).1 = Ok false).
Proof.
  intros check recheck Hx Hnow. pose proof postgres_replay_log. pose proof memory_replay_log.
  split; intros Hc; by apply log_accepted_once.
Qed.

(** ** The two adapters *)

Section Adapters.
Context {p256 : P256} {sha : Sha256Bytes} {ids : DrawnIds}.
Hypothesis digests : ∀ x, length (sha256 x) = 32%nat.
Hypothesis ids_fresh : ∀ prefix taken, drawn_id prefix taken ∉ taken.

(** C7: refinement.  The database adapter answers like the dictionaries: after any
    history of calls from an empty registry, a call returns the same value from
    both adapters, or raises the same error from both, or a conflict from both.
    The check of a proof of possession, and no other call, is asked to come in the
    order of the clocks: it and the checks before it, from [t] on. *)
Theorem registry_adapters_agree {A} t qs (c : RegistryCall A) :
  Forall admitted qs → admissible c → in_time (ticks (Some t) qs) c →
  alike (control c (serves qs empty_registry)).1 (control c (serves qs empty_store)).1.
Proof.
  intros Hq Hc Ht. pose proof (postgres_adapter digests ids_fresh) as Ha.
  apply (adapter_call _ c _ _ _ (adapter_history (Some t) qs _ _ (empty_shows (Some t)) Hq) Hc), Ht.
Qed.
End Adapters.
