(* ===== verification/Enrollment.v ===== *)
(** * The enrollment service

    [EnrollmentService] of [facilitator/enrollment.py] over any repository: what
    it checks of the values it is given, the calls it makes, and the errors it
    lets through.  The clock's reading and the secrets drawn are arguments. *)

From S2P Require Import Prelude PyValue ChainEvidence ExecutionModels DeviceKeys.
From S2P Require Import ControlPlane NodeSpec.
From Stdlib Require Import Ascii.

Open Scope string_scope.
Open Scope Z_scope.

(** ** Checks *)

Definition invalid (field_name : string) : exn := EnrollmentError (field_name +:+ " is invalid").

(** [_now], of the reading of the clock. *)
Definition now_of (clock : Z) : result Z :=
  require (0 <? clock) (RuntimeError "clock is invalid");; mret clock.

(** A character of [string.printable] that is no space, tab or line end. *)
Definition token_char (c : ascii) : bool :=
  (33 <=? code c) && (code c <=? 126) || (code c =? 11) || (code c =? 12).
(** [_validate_token]. *)
Definition validate_token (field_name : string) (value : pyval) : result string :=
  match value with
  | PStr value =>
      require (negb (bool_decide (value = EmptyString)) && (str_len value <=? 8192)) (invalid field_name);;
      require (all_chars token_char value) (invalid field_name);;
      mret value
  | _ => Err (invalid field_name)
  end.

(** [_validate_public_jwk]: the key as given, and its thumbprint. *)
Definition validate_public_jwk `{P256} `{Sha256Bytes} (value : pyval) : result (pydict * string) :=
  match value with
  | PDict jwk =>
      thumbprint ← catching is_type_or_value_error (jwk_thumbprint value) (Err (invalid "public key"));
      require (same_keys (dict_keys jwk) JWK_FIELDS && forallb is_str jwk.*2) (invalid "public key");;
      mret (jwk, thumbprint)
  | _ => Err (invalid "public key")
  end.

(** [_validate_identifier], and [_validate_wallet_binding] of "wallet binding". *)
Definition identifier_of (field_name : string) (value : pyval) : result string :=
  match value with
  | PStr value => require (is_identifier value) (invalid field_name);; mret value
  | _ => Err (invalid field_name)
  end.

(** [_validate_epoch]. *)
Definition validate_epoch (field_name : string) (value : pyval) : result Z :=
  match value with
  | PInt value => require (0 <? value) (invalid field_name);; mret value
  | _ => Err (invalid field_name)
  end.
(** [type(value) is not int or value != expected]. *)
Definition exactly (field_name : string) (value : pyval) (expected : Z) : result unit :=
  match value with
  | PInt value => require (value =? expected) (invalid field_name)
  | _ => Err (invalid field_name)
  end.
(** [value != expected], of a text. *)
Definition text_is (error : exn) (value : pyval) (expected : string) : result unit :=
  require (py_eqb value (PStr expected)) error.

(** [_validate_digest]: a digest is written in one way. *)
Definition validate_digest (field_name : string) (value : pyval) : result bytes :=
  match value with
  | PStr value =>
      require (is_base64url value) (invalid field_name);;
      decoded ← from_option_or (b64decode value) (invalid field_name);
      require ((length decoded =? 32)%nat && bool_decide (base64url_encode decoded = value))
        (invalid field_name);;
      mret decoded
  | _ => Err (invalid field_name)
  end.

(** ** Calls *)

(** [except (RepositoryConflict, ValueError): raise EnrollmentError(message)]. *)
Definition refused (e : exn) : bool := is_conflict e || is_value_error e.
Definition refusing {S A} (message : string) (m : service S A) : service S A :=
  recover m (λ e, answers (λ _, Err (if refused e then EnrollmentError message else e))).
(** A computation outside the repository. *)
Definition value_of {S A} (r : result A) : service S A := answers (λ _, r).

Section EnrollmentService.
Context {p256 : P256} {sha : Sha256Bytes} {S : Type} {cp : ControlPlane S}.

(** The constructor's bound of [enrollment_ttl_seconds]. *)
Definition enrollment_ttl_ok (enrollment_ttl_seconds : Z) : bool :=
  (30 <=? enrollment_ttl_seconds) && (enrollment_ttl_seconds <=? 900).

(** [issue_enrollment_token]; [token] is drawn. *)
Definition issue_enrollment_token (enrollment_ttl_seconds clock : Z) (token tenant_id : string)
    : service S string :=
  now ← value_of (now_of clock);
  refusing "enrollment token could not be issued"
    (token_digest ← value_of (digest_secret token);
     record ← value_of (make_token
       (MkToken tenant_id token_digest (now + enrollment_ttl_seconds) None None None));
     control (PutEnrollmentToken record));;
  mret token.

(** The node id of an enrollment: the one a consumed token is bound to, or a new
    one, of [drawn]. *)
Definition enrollment_node_id (record : EnrollmentTokenRecord) (drawn : string) : string :=
  match et_consumed_at record, et_enrolled_node_id record with
  | Some _, Some node_id => node_id
  | _, _ => "node_" +:+ drawn
  end.

(** The arguments of [enroll] and the checks it makes of them. *)
Record EnrollmentArgs := MkEnrollmentArgs {
  ea_token : pyval;
  ea_public_jwk : pyval;
  ea_wallet_binding_id : pyval;
  ea_expected_epoch : pyval;
  ea_next_epoch : pyval;
  ea_access_token_digest : pyval;
  ea_device_key_id : pyval;
  ea_status : pyval;
}.
Definition enrollment_request (args : EnrollmentArgs)
    : result (string * pydict * string * string * bytes) :=
  token ← validate_token "enrollment token" (ea_token args);
  '(public_jwk, derived_device_key_id) ← validate_public_jwk (ea_public_jwk args);
  require (is_none (ea_device_key_id args)
           || py_eqb (ea_device_key_id args) (PStr derived_device_key_id)) (invalid "device key ID");;
  wallet_binding_id ← identifier_of "wallet binding" (ea_wallet_binding_id args);
  exactly "expected epoch" (ea_expected_epoch args) 0;;
  exactly "next epoch" (ea_next_epoch args) 1;;
  text_is (invalid "enrollment status") (ea_status args) "pending";;
  access_digest ← validate_digest "access token digest" (ea_access_token_digest args);
  mret (token, public_jwk, derived_device_key_id, wallet_binding_id, access_digest).

(** [enroll]. *)
Definition enroll (clock : Z) (drawn : string) (args : EnrollmentArgs) : service S NodeRegistration :=
  '(token, public_jwk, device_key_id, wallet_binding_id, access_digest) ←
    value_of (enrollment_request args);
  now ← value_of (now_of clock);
  token_digest ← value_of (digest_secret token);
  found ← control (GetEnrollmentToken token_digest);
  record ← value_of (from_option_or found (invalid "enrollment token"));
  value_of (require (negb (bool_decide (et_consumed_at record = None) && (et_expires_at record <=? now)))
              (EnrollmentError "enrollment token expired"));;
  node ← value_of (make_node
    (MkNode (et_tenant_id record) (enrollment_node_id record drawn) wallet_binding_id public_jwk
       device_key_id access_digest 1 "active" now now None));
  refusing "enrollment token is invalid or already consumed"
    (control (EnrollNode token_digest node now None)).

(** The arguments of [prepare_rotation] and [commit_rotation], and the checks both
    make of them. *)
Record RotationArgs := MkRotationArgs {
  ra_rotation_id : pyval;
  ra_tenant_id : pyval;
  ra_node_id : pyval;
  ra_wallet_binding_id : pyval;
  ra_expected_epoch : pyval;
  ra_next_epoch : pyval;
  ra_public_jwk : pyval;
  ra_device_key_id : pyval;
  ra_access_token_digest : pyval;
}.
Record RotationRequest := MkRotationRequest {
  rq_rotation_id : string;
  rq_tenant_id : string;
  rq_node_id : string;
  rq_wallet_binding_id : string;
  rq_expected_epoch : Z;
  rq_next_epoch : Z;
  rq_public_jwk : pydict;
  rq_device_key_id : string;
  rq_access_digest : bytes;
}.
Definition rotation_request (args : RotationArgs) : result RotationRequest :=
  rotation_id ← identifier_of "rotation_id" (ra_rotation_id args);
  tenant_id ← identifier_of "tenant_id" (ra_tenant_id args);
  node_id ← identifier_of "node_id" (ra_node_id args);
  wallet_binding_id ← identifier_of "wallet binding" (ra_wallet_binding_id args);
  expected_epoch ← validate_epoch "expected epoch" (ra_expected_epoch args);
  exactly "next epoch" (ra_next_epoch args) (expected_epoch + 1);;
  '(public_jwk, thumbprint) ← validate_public_jwk (ra_public_jwk args);
  text_is (invalid "device key ID") (ra_device_key_id args) thumbprint;;
  access_digest ← validate_digest "access token digest" (ra_access_token_digest args);
  mret (MkRotationRequest rotation_id tenant_id node_id wallet_binding_id expected_epoch
          (expected_epoch + 1) public_jwk thumbprint access_digest).

(** [prepare_rotation]. *)
Definition prepare_rotation_request (clock : Z) (args : RotationArgs) : service S HostedRotationRecord :=
  q ← value_of (rotation_request args);
  now ← value_of (now_of clock);
  record ← value_of (make_rotation
    (MkRotation (rq_rotation_id q) (rq_tenant_id q) (rq_node_id q) (rq_wallet_binding_id q)
       (rq_expected_epoch q) (rq_next_epoch q) (rq_public_jwk q) (rq_device_key_id q)
       (rq_access_digest q) "prepared" now None));
  refusing "rotation request is invalid or unavailable" (control (PrepareRotation record)).

(** The pending rotation is the requested one. *)
Definition pending_requested (q : RotationRequest) (pending : HostedRotationRecord) : bool :=
  bool_decide (hr_rotation_id pending = rq_rotation_id q)
  && bool_decide (hr_wallet_binding_id pending = rq_wallet_binding_id q)
  && (hr_expected_epoch pending =? rq_expected_epoch q)
  && (hr_next_epoch pending =? rq_next_epoch q)
  && dict_eqb (hr_pending_public_jwk pending) (rq_public_jwk q)
  && bool_decide (hr_pending_device_key_id pending = rq_device_key_id q)
  && bool_decide (hr_pending_access_token_digest pending = rq_access_digest q).
(** The node already carries the requested credential. *)
Definition already_rotated (q : RotationRequest) (current : NodeRegistration) : bool :=
  bool_decide (nr_status current = "active")
  && bool_decide (nr_wallet_binding_id current = rq_wallet_binding_id q)
  && dict_eqb (nr_device_public_jwk current) (rq_public_jwk q)
  && bool_decide (nr_device_key_id current = rq_device_key_id q)
  && bool_decide (nr_access_token_digest current = rq_access_digest q)
  && (nr_credential_epoch current =? rq_next_epoch q).

(** [commit_rotation]. *)
Definition commit_rotation_request (clock : Z) (args : RotationArgs) : service S NodeRegistration :=
  q ← value_of (rotation_request args);
  pending ← control (GetPendingRotation (rq_access_digest q) (rq_tenant_id q) (rq_node_id q));
  match pending with
  | Some pending =>
      value_of (require (pending_requested q pending)
                  (EnrollmentError "rotation request conflicts with prepared state"))
  | None =>
      current ← control (GetNode (rq_tenant_id q) (rq_node_id q));
      value_of (require (match current with Some current => already_rotated q current | None => false end)
                  (EnrollmentError "rotation request is unavailable"))
  end;;
  now ← value_of (now_of clock);
  refusing "rotation request is invalid or unavailable"
    (control (CommitRotation (rq_rotation_id q) (rq_tenant_id q) (rq_node_id q)
                (rq_expected_epoch q) (rq_access_digest q) now)).

(** The arguments of [revoke] and the checks it makes of them. *)
Record RevocationArgs := MkRevocationArgs {
  va_revocation_id : pyval;
  va_tenant_id : pyval;
  va_node_id : pyval;
  va_wallet_binding_id : pyval;
  va_credential_epoch : pyval;
  va_expected_epoch : pyval;
  va_next_epoch : pyval;
  va_device_key_id : pyval;
  va_access_token_digest : pyval;
  va_status : pyval;
}.
Record RevocationRequest := MkRevocationRequest {
  vq_revocation_id : string;
  vq_tenant_id : string;
  vq_node_id : string;
  vq_wallet_binding_id : string;
  vq_expected_epoch : Z;
  vq_device_key_id : string;
  vq_access_digest : bytes;
}.
Definition revocation_request (args : RevocationArgs) : result RevocationRequest :=
  revocation_id ← identifier_of "revocation_id" (va_revocation_id args);
  tenant_id ← identifier_of "tenant_id" (va_tenant_id args);
  node_id ← identifier_of "node_id" (va_node_id args);
  wallet_binding_id ← identifier_of "wallet binding" (va_wallet_binding_id args);
  credential_epoch ← validate_epoch "credential epoch" (va_credential_epoch args);
  expected_epoch ← validate_epoch "expected epoch" (va_expected_epoch args);
  require (credential_epoch =? expected_epoch) (invalid "credential epoch");;
  exactly "next epoch" (va_next_epoch args) (expected_epoch + 1);;
  text_is (invalid "revocation status") (va_status args) "revoking";;
  access_digest ← validate_digest "access token digest" (va_access_token_digest args);
  device_key_id ← match va_device_key_id args with
                  | PStr device_key_id => mret device_key_id
                  | _ => Err (invalid "device key ID")
                  end;
  mret (MkRevocationRequest revocation_id tenant_id node_id wallet_binding_id expected_epoch
          device_key_id access_digest).

(** The node is the one to revoke, at the epoch named. *)
Definition credential_named (q : RevocationRequest) (epoch : Z) (r : NodeRegistration) : bool :=
  bool_decide (nr_wallet_binding_id r = vq_wallet_binding_id q)
  && bool_decide (nr_device_key_id r = vq_device_key_id q)
  && (nr_credential_epoch r =? epoch).

(** [revoke]; the revocation id is always given, so the repository draws none. *)
Definition revoke (args : RevocationArgs) : service S NodeRegistration :=
  q ← value_of (revocation_request args);
  current ← control (GetNode (vq_tenant_id q) (vq_node_id q));
  current ← value_of (from_option_or current (EnrollmentError "current node registration is unavailable"));
  if bool_decide (nr_status current = "revoked") then
    replay ← control (GetRevokedNode (vq_access_digest q) (vq_tenant_id q) (vq_node_id q)
                        (vq_revocation_id q) (vq_expected_epoch q));
    value_of (match replay with
              | Some replay =>
                  require (credential_named q (vq_expected_epoch q + 1) replay)
                    (EnrollmentError "revocation request is unavailable");;
                  mret replay
              | None => Err (EnrollmentError "revocation request is unavailable")
              end)
  else
    value_of (require (bool_decide (nr_status current = "active")
                       && credential_named q (vq_expected_epoch q) current
                       && bool_decide (nr_access_token_digest current = vq_access_digest q))
                (EnrollmentError "revocation request is invalid or unavailable"));;
    refusing "revocation request is invalid or unavailable"
      (control (RevokeNode (vq_tenant_id q) (vq_node_id q) (vq_expected_epoch q)
                  (Some (vq_revocation_id q)) EmptyString)).

(** The calls of the service. *)
Inductive ServiceCall : Type → Type :=
| IssueEnrollmentToken (enrollment_ttl_seconds clock : Z) (token tenant_id : string) : ServiceCall string
| Enroll (clock : Z) (drawn : string) (args : EnrollmentArgs) : ServiceCall NodeRegistration
| PrepareRotationRequest (clock : Z) (args : RotationArgs) : ServiceCall HostedRotationRecord
| CommitRotationRequest (clock : Z) (args : RotationArgs) : ServiceCall NodeRegistration
| Revoke (args : RevocationArgs) : ServiceCall NodeRegistration.
Definition serviced {A} (c : ServiceCall A) : service S A :=
  match c with
  | IssueEnrollmentToken ttl clock token tenant_id => issue_enrollment_token ttl clock token tenant_id
  | Enroll clock drawn args => enroll clock drawn args
  | PrepareRotationRequest clock args => prepare_rotation_request clock args
  | CommitRotationRequest clock args => commit_rotation_request clock args
  | Revoke args => revoke args
  end.

Inductive ServiceRequest : Type :=
| Asked (A : Type) (c : ServiceCall A).
#[global] Arguments Asked {A} c.
(** The state after a request, and after several. *)
Definition attend (s : S) (q : ServiceRequest) : S := match q with Asked c => (serviced c s).2 end.
Definition attends (qs : list ServiceRequest) (s : S) : S := foldl attend s qs.
End EnrollmentService.
