(* ===== verification/EnrollmentProperties.v ===== *)
(** * Properties of the enrollment service

    The service gives the same answers over every adapter of the registry, and a
    client that lost an answer gets it again by asking again. *)

From S2P Require Import Prelude PyValue ChainEvidence ExecutionModels DeviceKeys.
From S2P Require Import ControlPlane NodeRegistry NodeMemory NodeSpec NodeFacts.
From S2P Require Import NodeRefinement NodeHistory NodeProperties Enrollment.

Open Scope string_scope.
Open Scope Z_scope.

(** ** Running a call *)

Section Running.
Context {S : Type}.

Lemma run_value {A B} (r : result A) (k : A → service S B) s a :
  r = Ok a → (value_of r ≫= k) s = k a s.
Proof. by intros ->. Qed.
(** A run that returns goes past each computation. *)
Lemma value_runs {A B} (r : result A) (k : A → service S B) s p b :
  (value_of r ≫= k) s = p → p.1 = Ok b → ∃ a, r = Ok a ∧ k a s = p.
Proof. intros <-. unfold mbind, service_bind, value_of, answers. destruct r as [a|]; [eauto|done]. Qed.
Lemma run_call {A B} (p : service S A) (k : A → service S B) s a s' :
  p s = (Ok a, s') → (p ≫= k) s = k a s'.
Proof. intros Hp. unfold mbind, service_bind. by rewrite Hp. Qed.
Lemma run_assoc {A B C} (p : service S A) (k : A → service S B) (h : B → service S C) s :
  ((p ≫= k) ≫= h) s = (p ≫= λ a, k a ≫= h) s.
Proof. unfold mbind, service_bind. by destruct (p s) as [[a|e] s']. Qed.
Lemma refusing_Ok {A} message (p : service S A) s a :
  (refusing message p s).1 = Ok a ↔ (p s).1 = Ok a.
Proof. unfold refusing, recover. destruct (p s) as [[x|e] s']; simpl; done. Qed.
Lemma refusing_state {A} message (p : service S A) s : (refusing message p s).2 = (p s).2.
Proof. unfold refusing, recover. by destruct (p s) as [[x|e] s']. Qed.
End Running.

(** ** Programs that agree *)

Section Agreement.
Context {p256 : P256} {sha : Sha256Bytes} {S : Type} {cp : ControlPlane S}.
Context {shown : option Z → S → MemoryStore → Prop} {adapter : Adapter S shown}.

(** From states that are shown, two programs answer alike, or the same, and leave
    states that are shown. *)
Definition alikes {A} (p : service S A) (p' : service MemoryStore A) : Prop :=
  ∀ s m, shown None s m → alike (p s).1 (p' m).1 ∧ shown None (p s).2 (p' m).2.
Definition agrees {A} (p : service S A) (p' : service MemoryStore A) : Prop :=
  ∀ s m, shown None s m → (p s).1 = (p' m).1 ∧ shown None (p s).2 (p' m).2.

Lemma alikes_call {A} (c : RegistryCall A) : admissible c → in_time None c → alikes (control c) (control c).
Proof.
  intros Hc Ht s m Hs. destruct (adapter_call _ c None s m Hs Hc) as [Ha _]. split; [by apply Ha|].
  by apply call_shown.
Qed.
Lemma agrees_read {A} (c : RegistryCall A) :
  admissible c → in_time None c → (∀ m : MemoryStore, is_ok (control c m).1 = true) → agrees (control c) (control c).
Proof.
  intros Hc Ht Hok s m Hs. destruct (alikes_call c Hc Ht s m Hs) as [Ha ?]. split; [|done].
  specialize (Hok m). unfold alike in Ha. destruct (control c s).1, (control c m).1; try done. by subst.
Qed.
Lemma agrees_value {A} (r : result A) : agrees (value_of r) (value_of r).
Proof. by intros s m Hs. Qed.
Lemma agrees_bind {A B} (p : service S A) p' (k : A → service S B) k' :
  agrees p p' → (∀ a, agrees (k a) (k' a)) → agrees (p ≫= k) (p' ≫= k').
Proof.
  intros Hp Hk s m Hs. unfold mbind, service_bind. destruct (Hp s m Hs) as [Ea Hs1].
  destruct (p s) as [r s1], (p' m) as [r' m1]. simpl in *. subst r'. destruct r; [by apply Hk|done].
Qed.
Lemma agrees_from {A B} (r : result A) (k : A → service S B) k' :
  (∀ a, r = Ok a → agrees (k a) (k' a)) → agrees (value_of r ≫= k) (value_of r ≫= k').
Proof.
  intros Hk s m Hs. unfold mbind, service_bind, value_of, answers. destruct r; [by apply Hk|done].
Qed.
Lemma alikes_from {A B} (r : result A) (k : A → service S B) k' :
  (∀ a, r = Ok a → alikes (k a) (k' a)) → alikes (value_of r ≫= k) (value_of r ≫= k').
Proof.
  intros Hk s m Hs. unfold mbind, service_bind, value_of, answers. destruct r; [by apply Hk|].
  split; [by left|done].
Qed.
(** Conflicts differ in their wording, which the service does not let through. *)
Lemma agrees_refusing {A} message (p : service S A) p' :
  alikes p p' → agrees (refusing message p) (refusing message p').
Proof.
  intros Hp s m Hs. destruct (Hp s m Hs) as [Ha Hs1]. unfold refusing, recover, answers, refused.
  destruct (p s) as [[a|e] s1], (p' m) as [[a'|e'] m1]; simpl in *; try done; [by subst|].
  split; [|done]. destruct Ha as [->|[-> ->]]; done.
Qed.

(** Follow two runs of one program. *)
Ltac agree := repeat first
  [ apply agrees_from; intros ? ?
  | apply agrees_bind; [apply agrees_read; [done|done|intros ?; done]|intros ?]
  | apply agrees_value
  | match goal with
    | |- agrees (match ?x with _ => _ end) _ => destruct x
    | |- agrees (match ?x with _ => _ end ≫= _) _ => destruct x
    | |- agrees (value_of _ ≫= _) _ => fail 1
    end ].

Lemma issue_agrees ttl clock token tenant_id :
  agrees (issue_enrollment_token ttl clock token tenant_id) (issue_enrollment_token ttl clock token tenant_id).
Proof.
  unfold issue_enrollment_token. agree. apply agrees_bind; [|intros; apply (agrees_value (Ok token))].
  apply agrees_refusing. apply alikes_from; intros digest _. apply alikes_from; intros record Hr.
  pose proof (proj1 (make_token_Ok _ _) Hr) as [_ ->]. by apply alikes_call.
Qed.
Lemma enroll_agrees clock drawn args : agrees (enroll clock drawn args) (enroll clock drawn args).
Proof.
  unfold enroll. apply agrees_from; intros ((((token & jwk) & key_id) & wallet) & digest) _.
  apply agrees_from; intros now (? & [Hnow _]%require_Ok & [= <-])%result_bind_Ok. agree.
  apply agrees_refusing, alikes_call; [|done]. split; [|by apply Z.ltb_lt].
  match goal with H : make_node _ = Ok _ |- _ => by pose proof (proj1 (make_node_Ok _ _) H) as [_ ->] end.
Qed.
Lemma prepare_agrees clock args : agrees (prepare_rotation_request clock args) (prepare_rotation_request clock args).
Proof.
  unfold prepare_rotation_request. agree. apply agrees_refusing, alikes_call; [|done].
  match goal with H : make_rotation _ = Ok _ |- _ => by pose proof (proj1 (make_rotation_Ok _ _) H) as [_ ->] end.
Qed.
Lemma commit_agrees clock args : agrees (commit_rotation_request clock args) (commit_rotation_request clock args).
Proof.
  unfold commit_rotation_request. agree.
  - by apply agrees_refusing, alikes_call.
  - apply agrees_bind; [agree|intros _]. agree. by apply agrees_refusing, alikes_call.
Qed.
Lemma revocation_identified args q :
  revocation_request args = Ok q → is_identifier (vq_revocation_id q) = true.
Proof.
  unfold revocation_request. intros (id & Hid & Hq)%result_bind_Ok. unfold identifier_of in Hid.
  destruct (va_revocation_id args); try done. apply result_bind_Ok in Hid as (? & [Hid _]%require_Ok & [= <-]).
  do 10 apply result_bind_Ok in Hq as (? & _ & Hq). by injection Hq as <-.
Qed.
Lemma revoke_agrees args : agrees (revoke args) (revoke args).
Proof.
  unfold revoke. apply agrees_from; intros q Hq%revocation_identified. agree.
  by apply agrees_refusing, alikes_call.
Qed.

Lemma serviced_agrees {A} (c : ServiceCall A) : agrees (serviced c) (serviced c).
Proof.
  destruct c; [apply issue_agrees|apply enroll_agrees|apply prepare_agrees|apply commit_agrees|apply revoke_agrees].
Qed.
Lemma attends_shown qs s m : shown None s m → shown None (attends qs s) (attends qs m).
Proof.
  revert s m. induction qs as [|[A c] qs IH]; intros s m Hs; [done|].
  apply IH, (serviced_agrees c), Hs.
Qed.

(** *** Retried enrollments *)

(** What an enrollment that returns asked of the repository. *)
Lemma enroll_memory (m : MemoryStore) clock drawn args e :
  (enroll clock drawn args m).1 = Ok e →
  ∃ token jwk key_id wallet digest token_digest r0,
    enrollment_request args = Ok (token, jwk, key_id, wallet, digest) ∧
    digest_secret token = Ok token_digest ∧ ms_tokens m !! token_digest = Some r0 ∧
    let node := MkNode (et_tenant_id r0) (enrollment_node_id r0 drawn) wallet jwk key_id digest
                  1 "active" clock clock None in
    make_node node = Ok node ∧
    mem_enroll_node token_digest node clock None m = (Ok e, (enroll clock drawn args m).2).
Proof.
  intros He. remember (enroll clock drawn args m) as p eqn:Hp. symmetry in Hp. unfold enroll in Hp.
  eapply value_runs in Hp as (((((token & jwk) & key_id) & wallet) & digest) & Hq & Hp); [|done].
  eapply value_runs in Hp as (now & (? & _ & [= <-])%result_bind_Ok & Hp); [|done].
  eapply value_runs in Hp as (td & Htd & Hp); [|done].
  erewrite (run_call (control (GetEnrollmentToken td))) in Hp by reflexivity.
  eapply value_runs in Hp as (r0 & Hr0%from_option_or_Ok & Hp); [|done].
  eapply value_runs in Hp as ([] & _ & Hp); [|done].
  eapply value_runs in Hp as (node & Hnode & Hp); [|done].
  pose proof (proj1 (make_node_Ok _ _) Hnode) as [_ ->]. subst p. rewrite refusing_Ok in He.
  exists token, jwk, key_id, wallet, digest, td, r0. rewrite refusing_state.
  do 3 (split; [done|]). split; [exact Hnode|by apply returned].
Qed.

(** The enrollment of a token used by the node, for the same binding. *)
Lemma enroll_again (m : MemoryStore) clock drawn args token jwk key_id wallet digest td r b e :
  enrollment_request args = Ok (token, jwk, key_id, wallet, digest) → digest_secret token = Ok td →
  store_ok m → 0 < clock → ms_tokens m !! td = Some r → is_Some (et_consumed_at r) →
  et_tenant_id r = nr_tenant_id e → et_enrolled_node_id r = Some (nr_node_id e) →
  et_enrollment_binding_digest r = Some b → ms_nodes m !! node_key e = Some e →
  enrollment_binding_digest e = Ok b →
  let node := MkNode (et_tenant_id r) (nr_node_id e) wallet jwk key_id digest 1 "active" clock clock None in
  make_node node = Ok node → enrollment_binding_digest node = Ok b →
  (enroll clock drawn args m).1 = Ok e.
Proof.
  intros Hq Htd Hm Hclock Hr [t Ht] Hten Hnid Hrb He Eb node Hnode Nb. unfold enroll.
  erewrite run_value by done. cbv beta iota. erewrite (run_value (now_of clock) _ _ clock).
  2:{ unfold now_of, require. apply Z.ltb_lt in Hclock. by rewrite Hclock. }
  erewrite run_value by done. erewrite (run_call (control (GetEnrollmentToken td))) by reflexivity.
  erewrite run_value by by rewrite Hr. erewrite (run_value (require _ _) _ _ tt) by by rewrite Ht.
  unfold enrollment_node_id. rewrite Ht, Hnid. erewrite run_value by done. apply refusing_Ok.
  change ((mem_enroll_node td node clock None m).1 = Ok e). unfold mem_enroll_node.
  rewrite run_store, Hr. erewrite run_built by (unfold enrollment_binding_for; by rewrite Nb).
  rewrite Ht. simpl. unfold mem_replay_enrollment. rewrite run_store, Hnid, Hrb.
  rewrite bool_decide_eq_true_2 by done. unfold demands at 1, answers at 1, mbind at 1, service_bind at 1. simpl.
  rewrite Hten. change (nr_tenant_id e, nr_node_id e) with (node_key e). rewrite He.
  erewrite run_built by done. by rewrite bool_decide_eq_true_2.
Qed.

(** C26: safety.  An enrollment can be asked for again: while the node it returned is
    as it was, the same request, at any time and after any other calls, returns
    that node, so a client that lost the answer recovers it. *)
Theorem enrollment_retry_returns s m clock drawn args e qs clock' drawn' :
  shown None s m → Forall admitted qs → 0 < clock' → (enroll clock drawn args s).1 = Ok e →
  (control (GetNode (nr_tenant_id e) (nr_node_id e)) (serves qs (enroll clock drawn args s).2)).1
    = Ok (Some e) →
  (enroll clock' drawn' args (serves qs (enroll clock drawn args s).2)).1 = Ok e.
Proof.
  intros Hs Hq Hclock He Hnow. destruct (enroll_agrees clock drawn args s m Hs) as [Ea Hs1].
  pose proof (history_unclocked qs _ _ Hs1 Hq) as Hs2. pose proof (history_later qs _ _ Hs1 Hq) as Hl.
  rewrite Ea in He. rewrite (proj1 (enroll_agrees clock' drawn' args _ _ Hs2)).
  apply (answer_memory (GetNode _ _) _ _ _ Hs2) in Hnow; [|done..]. injection Hnow as Hnow.
  apply enroll_memory in He as (token & jwk & key_id & wallet & digest & td & r0 & Hreq & Htd & Hr0 & Hnode & He).
  apply enrolled_memory in He as (r0' & r & b & Hr0' & Hr & Hu & Ht0 & Ht & Hi & Hb & Eb & Nb);
    [|by apply (adapter_ok None s m)].
  rewrite Hr0 in Hr0'. injection Hr0' as <-. apply (sl_tokens _ _ Hl) in Hr; [|done].
  eapply enroll_again; try done; [by eapply adapter_ok| |].
  - apply make_node_Ok in Hnode as [Hv _]. apply make_node_Ok. split; [|done].
    pose proof (so_nodes _ (adapter_ok _ _ _ Hs2) _ _ Hnow) as [_ [He _]%make_node_Ok].
    unfold valid_node in *. simpl in *. apply Z.ltb_lt in Hclock. rewrite Ht0. tauto.
  - rewrite Ht0. exact Nb.
Qed.

(** *** Retried revocations *)

(** The node a revocation asks for, revoked. *)
Definition revoked_as (q : RevocationRequest) (e : NodeRegistration) : Prop :=
  nr_status e = "revoked" ∧ nr_access_token_digest e = vq_access_digest q ∧
  nr_revocation_id e = Some (vq_revocation_id q) ∧
  nr_credential_epoch e = vq_expected_epoch q + 1 ∧
  credential_named q (vq_expected_epoch q + 1) e = true.

Lemma revoke_node_memory m tenant_id node_id epoch revocation_id drawn current e m' :
  ms_nodes m !! (tenant_id, node_id) = Some current → nr_status current ≠ "revoked" →
  mem_revoke_node tenant_id node_id epoch (Some revocation_id) drawn m = (Ok e, m') →
  e = revoked_node revocation_id current ∧ ms_nodes m' !! (tenant_id, node_id) = Some e.
Proof.
  intros Hn Hst. unfold mem_revoke_node. rewrite run_store. intros [_ E]%demands_Ok. rewrite Hn in E.
  rewrite bool_decide_eq_false_2 in E by done. apply demands_Ok in E as [_ E]. cbn zeta in E.
  apply demands_Ok in E as [_ E]. rewrite run_edits in E. apply built_Ok in E as (e' & He' & E).
  rewrite run_edits in E. injection E as <- <-. apply make_node_Ok in He' as [_ ->].
  simpl. by rewrite lookup_insert_eq.
Qed.

Lemma revoke_memory (m : MemoryStore) args e :
  (revoke args m).1 = Ok e →
  ∃ q, revocation_request args = Ok q ∧ revoked_as q e ∧
    ms_nodes (revoke args m).2 !! (vq_tenant_id q, vq_node_id q) = Some e.
Proof.
  intros He. remember (revoke args m) as p eqn:Hp. symmetry in Hp. unfold revoke in Hp.
  eapply value_runs in Hp as (q & Hq & Hp); [|done].
  erewrite (run_call (control (GetNode _ _))) in Hp by reflexivity.
  eapply value_runs in Hp as (r & Hr%from_option_or_Ok & Hp); [|done].
  exists q. split; [done|]. case_bool_decide as Hst.
  - erewrite (run_call (control (GetRevokedNode _ _ _ _ _))) in Hp by reflexivity. rewrite Hr in Hp.
    simpl in Hp. rewrite bool_decide_eq_true_2 in Hp by done. simpl in Hp.
    destruct (uses_token _ r && _ && _) eqn:Hu; subst p; simpl in He |- *; [|done].
    apply result_bind_Ok in He as (? & [Hc _]%require_Ok & [= <-]).
    unfold uses_token in Hu. bool_inv. by repeat split.
  - eapply value_runs in Hp as ([] & [Hc _]%require_Ok & Hp); [|done]. subst p.
    rewrite refusing_Ok in He. rewrite refusing_state. apply returned in He.
    eapply revoke_node_memory in He as [-> Hn]; [|done..]. split; [|exact Hn].
    unfold credential_named in *. bool_inv. split_and!; simpl; try done; [by f_equal|].
    unfold credential_named. simpl. rewrite !bool_decide_eq_true_2 by done. apply Z.eqb_eq. lia.
Qed.

Lemma revoke_again (m : MemoryStore) args q e :
  revocation_request args = Ok q → revoked_as q e →
  ms_nodes m !! (vq_tenant_id q, vq_node_id q) = Some e → (revoke args m).1 = Ok e.
Proof.
  intros Hq (Hst & Ht & Hi & Hep & Hc) He. unfold revoke. erewrite run_value by done.
  erewrite (run_call (control (GetNode _ _))) by reflexivity. erewrite run_value by by rewrite He.
  rewrite bool_decide_eq_true_2 by done.
  erewrite (run_call (control (GetRevokedNode _ _ _ _ _))) by reflexivity. rewrite He.
  unfold value_of, answers, uses_token. simpl.
  rewrite Hst, Ht, Hi, Hep, Z.eqb_refl, !bool_decide_eq_true_2 by done. simpl. by rewrite Hc.
Qed.

(** C22: safety.  A revocation is final: after any other calls the same request
    returns the same node, the node is still revoked, and its access token
    authenticates no node. *)
Theorem revocation_is_final s m args e qs :
  shown None s m → Forall admitted qs → (revoke args s).1 = Ok e →
  let s' := serves qs (revoke args s).2 in
  (revoke args s').1 = Ok e ∧ nr_status e = "revoked" ∧
  (control (GetNode (nr_tenant_id e) (nr_node_id e)) s').1 = Ok (Some e) ∧
  (control (GetNodeByAccessDigest (nr_access_token_digest e)) s').1 = Ok None.
Proof.
  intros Hs Hq He s'. destruct (revoke_agrees args s m Hs) as [Ea Hs1].
  pose proof (history_unclocked qs _ _ Hs1 Hq) as Hs2. pose proof (history_later qs _ _ Hs1 Hq) as Hl.
  rewrite Ea in He. apply revoke_memory in He as (q & Hreq & Hrev & Hn).
  pose proof (adapter_ok _ _ _ Hs2) as Hm2.
  destruct (sl_nodes _ _ Hl _ _ Hn) as (r & Hr & [->|(Hst & _)]); [|by destruct Hrev].
  pose proof (so_nodes _ Hm2 _ _ Hr) as [Hk _]. injection Hk as Ht Hi. subst s'.
  rewrite (proj1 (revoke_agrees args _ _ Hs2)). split; [by eapply revoke_again|].
  destruct Hrev as (Hst & _). split; [done|]. split.
  - apply (answer_memory (GetNode _ _) _ _ _ Hs2); [done..|]. simpl. by rewrite Ht, Hi, Hr.
  - apply (answer_memory (GetNodeByAccessDigest _) _ _ _ Hs2); [done..|].
    change (Ok (find_row (λ r, bool_decide (nr_status r = "active")
      && uses_token (nr_access_token_digest e) r && negb (bool_decide (nr_access_token_digest e ∈
        ms_retired (serves qs (revoke args m).2)))) (ms_nodes (serves qs (revoke args m).2))) = Ok None).
    f_equal. apply find_row_is_None. intros k r0 Hr0. apply not_true_is_false. intros Hb. unfold uses_token in Hb.
    bool_inv. assert (k = (vq_tenant_id q, vq_node_id q)) as ->
      by by eapply (so_access _ Hm2 _ _ r0 e _ Hr0 Hr); [done|congruence].
    congruence.
Qed.

(** *** Retried rotations *)

(** The rotation that [GetPendingRotation] returns, and what it returns when the
    rotation of a credential is committed. *)
Definition pending_of (m : MemoryStore) (digest : bytes) (tenant_id node_id : string)
    : option HostedRotationRecord :=
  head (filter (λ r, bool_decide (hr_status r = "prepared")
    && bool_decide (hr_pending_access_token_digest r = digest)
    && bool_decide (hr_tenant_id r = tenant_id)
    && bool_decide (hr_node_id r = node_id) = true) (ms_rotations m).*2).

Lemma pending_found m digest tenant_id node_id r :
  store_ok m → pending_of m digest tenant_id node_id = Some r →
  hr_status r = "prepared" ∧ dict_find (ms_rotations m) (hr_rotation_id r) = Some r.
Proof.
  intros Hm Hp. apply head_Some_elem_of, list_elem_of_filter in Hp as [Hr Hin]. bool_inv.
  split; [done|]. apply list_elem_of_fmap in Hin as ([k r'] & -> & Hin).
  apply dict_find_entry in Hin; [|by apply so_rotation_keys]. simpl.
  by pose proof (so_rotations m Hm k r' Hin) as [-> _].
Qed.
Lemma pending_absent m digest tenant_id node_id :
  store_ok m →
  (pending_of m digest tenant_id node_id = None ↔
   ∀ k r, dict_find (ms_rotations m) k = Some r → hr_status r = "prepared" →
     hr_pending_access_token_digest r = digest → hr_tenant_id r = tenant_id → hr_node_id r ≠ node_id).
Proof.
  intros Hm. unfold pending_of. rewrite head_None. split.
  - intros Hf k r Hk Hs Hd Ht Hn.
    apply (not_elem_of_nil r). rewrite <- Hf. apply list_elem_of_filter. split.
    + by rewrite Hs, Hd, Ht, Hn, !bool_decide_eq_true_2.
    + apply list_elem_of_fmap. exists (k, r). split; [done|]. by apply dict_find_in.
  - intros Hn. destruct (filter _ _) as [|r l] eqn:Hf; [done|].
    assert (r ∈ r :: l) as Hr by left. rewrite <- Hf in Hr.
    apply list_elem_of_filter in Hr as [Hr Hin]. bool_inv.
    apply list_elem_of_fmap in Hin as ([k r'] & -> & Hin).
    apply dict_find_entry in Hin; [|by apply so_rotation_keys]. by destruct (Hn k r' Hin).
Qed.

(** A rotation that was committed, and the node that carries its credential. *)
Definition committed_as (m : MemoryStore) (q : RotationRequest) (e : NodeRegistration) : Prop :=
  already_rotated q e = true ∧ ∃ record, dict_find (ms_rotations m) (rq_rotation_id q) = Some record ∧
  hr_status record = "committed" ∧
  rotation_matches record (rq_tenant_id q) (rq_node_id q) (rq_expected_epoch q) (rq_access_digest q) = true ∧
  rotation_applied record e = true.

(** A commit that returns: it found the rotation committed and changed nothing, or
    it gave the node the credential of the prepared rotation. *)
Lemma commit_rotation_memory m rotation_id tenant_id node_id epoch digest now e m' :
  mem_commit_rotation rotation_id tenant_id node_id epoch digest now m = (Ok e, m') →
  ∃ record, dict_find (ms_rotations m) rotation_id = Some record ∧
    rotation_matches record tenant_id node_id epoch digest = true ∧
    (hr_status record = "committed" ∧ m' = m ∧ ms_nodes m !! (tenant_id, node_id) = Some e ∧
       rotation_applied record e = true ∨
     hr_status record = "prepared" ∧ ms_nodes m' !! (tenant_id, node_id) = Some e ∧
       dict_find (ms_rotations m') rotation_id
         = Some (record <| hr_status := "committed" |> <| hr_committed_at := Some now |>) ∧
       ∃ current, nr_status current = "active" ∧
         nr_wallet_binding_id current = hr_wallet_binding_id record ∧ e = rotated_node record now current).
Proof.
  unfold mem_commit_rotation. rewrite run_store.
  destruct (dict_find (ms_rotations m) rotation_id) as [record|] eqn:Hk; [|done].
  intros [Hmatch E]%demands_Ok. apply demands_Ok in E as [_ E]. cbn zeta in E.
  exists record. split; [done|]. split; [done|]. case_bool_decide as Hc.
  - left. destruct (ms_nodes m !! (tenant_id, node_id)) as [current|] eqn:Hn; [|done].
    apply demands_Ok in E as [Ha E]. injection E as <- <-. done.
  - right. apply demands_Ok in E as [Hp E]. unfold mem_apply_rotation in E. rewrite run_store in E.
    destruct (ms_nodes m !! (tenant_id, node_id)) as [current|]; [|done].
    do 5 (apply demands_Ok in E as [? E]). rewrite run_edits in E. apply built_Ok in E as (active & Ha & E).
    rewrite run_edits in E. apply built_Ok in E as (committed & Hcm & E). rewrite run_edits in E.
    injection E as <- <-. apply make_node_Ok in Ha as [_ ->]. apply make_rotation_Ok in Hcm as [_ ->].
    bool_inv. simpl. rewrite lookup_insert_eq, dict_find_set_eq. split_and!; [done..|]. by exists current.
Qed.

Lemma rotated_applied record now current :
  nr_status current = "active" → nr_wallet_binding_id current = hr_wallet_binding_id record →
  py_wf (PDict (hr_pending_public_jwk record)) →
  rotation_applied (record <| hr_status := "committed" |> <| hr_committed_at := Some now |>)
    (rotated_node record now current) = true.
Proof.
  intros Hs Hw Hj. unfold rotation_applied, rotated_node.
  cbn -[py_eqb]. rewrite Hs, Hw, (py_eqb_refl _ Hj), Z.eqb_refl. by rewrite !bool_decide_eq_true_2.
Qed.

Lemma commit_memory (m : MemoryStore) clock args e :
  store_ok m → py_wf (PDict (nr_device_public_jwk e)) → (commit_rotation_request clock args m).1 = Ok e →
  ∃ q, rotation_request args = Ok q ∧ committed_as (commit_rotation_request clock args m).2 q e ∧
    ms_nodes (commit_rotation_request clock args m).2 !! (rq_tenant_id q, rq_node_id q) = Some e.
Proof.
  intros Hm Hj He. remember (commit_rotation_request clock args m) as p eqn:Hp. symmetry in Hp.
  unfold commit_rotation_request in Hp. eapply value_runs in Hp as (q & Hq & Hp); [|done].
  erewrite (run_call (control (GetPendingRotation _ _ _))) in Hp by reflexivity.
  change (head _) with (pending_of m (rq_access_digest q) (rq_tenant_id q) (rq_node_id q)) in Hp.
  exists q. split; [done|]. unfold committed_as.
  destruct (pending_of m _ _ _) as [r|] eqn:Hr.
  - apply pending_found in Hr as [Hs Hk]; [|done].
    eapply value_runs in Hp as ([] & [Hreq _]%require_Ok & Hp); [|done].
    eapply value_runs in Hp as (now & _ & Hp); [|done]. subst p.
    rewrite refusing_Ok in He. rewrite refusing_state. apply returned in He.
    pose proof (make_rotation_Ok r r) as [Hvr _]. pose proof (so_rotations m Hm _ _ Hk) as [_ Hv].
    destruct (Hvr Hv) as [(_ & _ & _ & _ & _ & Hnext & _) _].
    eapply commit_rotation_memory in He as (record & Hrec & Hmatch & [(Hc & _)|(Hs' & Hn & Hk' & current & Hcs & Hcw & ->)]).
    + unfold pending_requested in Hreq. bool_inv. congruence.
    + unfold pending_requested in Hreq. bool_inv. assert (record = r) as -> by congruence.
      split; [|exact Hn]. split; [|eexists; split; [exact Hk'|]; split; [done|]; split; [done|by apply rotated_applied]].
      unfold already_rotated, rotated_node. cbn -[dict_eqb]. rewrite Hcs, Hcw.
      rewrite !bool_decide_eq_true_2 by done.
      match goal with H : dict_eqb _ _ = true |- _ => rewrite H end. by apply Z.eqb_eq.
  - rewrite run_assoc in Hp. erewrite (run_call (control (GetNode _ _))) in Hp by reflexivity.
    eapply value_runs in Hp as ([] & [Hreq _]%require_Ok & Hp); [|done].
    eapply value_runs in Hp as (now & _ & Hp); [|done]. subst p.
    rewrite refusing_Ok in He. rewrite refusing_state. apply returned in He.
    eapply commit_rotation_memory in He as (record & Hrec & Hmatch & [(Hc & -> & Hn & Ha)|(Hs & _)]).
    + rewrite Hn in Hreq. split; [|exact Hn]. split; [done|]. by exists record.
    + rewrite (pending_absent m _ _ _ Hm) in Hr. unfold rotation_matches in Hmatch. bool_inv.
      by destruct (Hr _ _ Hrec).
Qed.

Lemma commit_again (m : MemoryStore) clock args q e :
  store_ok m → rotation_request args = Ok q → committed_as m q e → 0 < clock →
  ms_nodes m !! (rq_tenant_id q, rq_node_id q) = Some e →
  (commit_rotation_request clock args m).1 = Ok e.
Proof.
  intros Hm Hq (Hdone & record & Hrec & Hc & Hmatch & Ha) Hclock%Z.ltb_lt Hn.
  unfold commit_rotation_request. erewrite run_value by done.
  erewrite (run_call (control (GetPendingRotation _ _ _))) by reflexivity.
  change (head _) with (pending_of m (rq_access_digest q) (rq_tenant_id q) (rq_node_id q)).
  rewrite (proj2 (pending_absent m _ _ _ Hm)).
  2:{ intros k r Hk Hs Hd _ _. assert (k = rq_rotation_id q) as ->; [|congruence].
      eapply (so_pending m Hm _ _ r record Hk Hrec). unfold rotation_matches in Hmatch. bool_inv. congruence. }
  rewrite run_assoc. erewrite (run_call (control (GetNode _ _))) by reflexivity. rewrite Hn, Hdone.
  erewrite run_value by done. erewrite (run_value (now_of clock) _ _ clock).
  2:{ unfold now_of, require. by rewrite Hclock. }
  apply refusing_Ok.
  change ((mem_commit_rotation (rq_rotation_id q) (rq_tenant_id q) (rq_node_id q) (rq_expected_epoch q)
    (rq_access_digest q) clock m).1 = Ok e).
  unfold mem_commit_rotation. rewrite run_store, Hrec, Hmatch, Hclock, Hn.
  rewrite bool_decide_eq_true_2 by done. by rewrite Ha.
Qed.

(** C27: safety.  A committed rotation can be asked for again: while the node is as the
    commit returned it, the same request, at any time and after any other calls,
    returns the node again. *)
Theorem rotation_retry_returns s m clock args e qs clock' :
  shown None s m → Forall admitted qs → 0 < clock' → py_wf (PDict (nr_device_public_jwk e)) →
  (commit_rotation_request clock args s).1 = Ok e →
  (control (GetNode (nr_tenant_id e) (nr_node_id e))
     (serves qs (commit_rotation_request clock args s).2)).1 = Ok (Some e) →
  (commit_rotation_request clock' args (serves qs (commit_rotation_request clock args s).2)).1 = Ok e.
Proof.
  intros Hs Hq Hclock Hj He Hnow. destruct (commit_agrees clock args s m Hs) as [Ea Hs1].
  pose proof (history_unclocked qs _ _ Hs1 Hq) as Hs2. pose proof (history_later qs _ _ Hs1 Hq) as Hl.
  rewrite Ea in He. rewrite (proj1 (commit_agrees clock' args _ _ Hs2)).
  apply (answer_memory (GetNode _ _) _ _ _ Hs2) in Hnow; [|done..]. injection Hnow as Hnow.
  pose proof (commit_memory m clock args e (adapter_ok _ _ _ Hs) Hj He) 
    as (q & Hreq & (Hdone & record & Hrec & Hc & Hrest) & Hn).
  apply (sl_rotations _ _ Hl) in Hrec; [|done].
  pose proof (so_nodes _ (adapter_ok _ _ _ Hs1) _ _ Hn) as [[= Ht Hi] _]. rewrite Ht, Hi in Hnow.
  eapply commit_again; [by eapply adapter_ok|done| |done|done]. split; [done|by exists record].
Qed.
End Agreement.

(** ** The two adapters *)

Section ServiceAdapters.
Context {p256 : P256} {sha : Sha256Bytes} {ids : DrawnIds}.
Hypothesis digests : ∀ x, length (sha256 x) = 32%nat.
Hypothesis ids_fresh : ∀ prefix taken, drawn_id prefix taken ∉ taken.

(** C8: equivalence.  A client of the enrollment service cannot tell the database from
    the dictionaries: after the same requests from an empty registry, a request
    returns the same value or raises the same error over both. *)
Theorem enrollment_service_adapters_agree {A} qs (c : ServiceCall A) :
  (serviced c (attends qs empty_registry)).1 = (serviced c (attends qs empty_store)).1.
Proof.
  pose proof (postgres_adapter digests ids_fresh) as Ha.
  apply (serviced_agrees c), (attends_shown qs), empty_shows.
Qed.
End ServiceAdapters.
