(* ===== verification/NodeWitnesses.v ===== *)
(** * Runs of the node registry

    A tenant enrolls a node, rotates its credential and revokes it, on the database
    adapter with a concrete digest, the curve P-256 and concrete drawn ids; the
    theorems of [NodeProperties] and [EnrollmentProperties] at these runs. *)

From S2P Require Import Prelude PyValue ChainEvidence ChainFacts ExecutionModels DeviceKeys.
From S2P Require Import ControlPlane NodeRegistry NodeMemory NodeSpec NodeFacts.
From S2P Require Import NodeRefinement NodeProperties Enrollment EnrollmentProperties.

Open Scope string_scope.
Open Scope Z_scope.

Module NodeDemo.
(** A digest of 32 bytes. *)
#[export] Instance demo_sha256 : Sha256Bytes := λ bs,
  be_bytes 32 (be_value bs mod (2 ^ 256 - 189)).
(** The points of the curve [y * y = x * x * x - 3 * x + b] modulo [p]. *)
Definition p256_p : Z := 2 ^ 256 - 2 ^ 224 + 2 ^ 192 + 2 ^ 96 - 1.
Definition p256_b : Z :=
  41058363725152142129326129780047268409114441015993725554835256314039467401291.
#[export] Instance demo_p256 : P256 := λ x y,
  (0 <=? x) && (x <? p256_p) && (0 <=? y) && (y <? p256_p)
  && ((y * y - (x * x * x - 3 * x + p256_b)) mod p256_p =? 0).
(** An id longer than every id in use. *)
#[export] Instance demo_ids : DrawnIds := λ prefix taken,
  prefix +:+ foldr String.append "x" (elements taken).

(** The generator of the curve and its opposite. *)
Definition key_x : string := "axfR8uEsQkf4vOblY6RA8ncDfYEt6zOg9KE5RdiYwpY".
Definition jwk_of (y : string) : pydict :=
  [("kty", PStr "EC"); ("crv", PStr "P-256"); ("x", PStr key_x); ("y", PStr y)].
Definition jwk1 : pydict := jwk_of "T-NC4v4af5uO5-tKfA-eFivOM1drMV7Oy7ZAaDe_UfU".
Definition jwk2 : pydict := jwk_of "sBy9HAHlgGVxGBS1g_Bh6dQxzKmUzqExNEm_l8hArgo".
Definition key_id (jwk : pydict) : string :=
  match jwk_thumbprint (PDict jwk) with Ok thumbprint => thumbprint | Err _ => EmptyString end.
Definition access (secret : string) : bytes := sha256 (ascii_bytes secret).

(** ** Requests to the registry *)

Definition node1 : NodeRegistration :=
  MkNode "tenant-1" "node-1" "wallet-1" jwk1 (key_id jwk1) (access "access-1") 1 "active" 1010 1010 None.
Definition token1 : bytes := sha256 (ascii_bytes "invite-1").
Definition token_record : EnrollmentTokenRecord := MkToken "tenant-1" token1 1300 None None None.
Definition preflight (idempotency_key : string) (created_at : Z) : PreflightRecord :=
  MkPreflight "tenant-1" "node-1" "request-1" idempotency_key
    ("0x" +:+ hex (access "nonce")) ("0x" +:+ hex (access "capability")) "reservation-1"
    ("0x" +:+ hex (access "body")) "header.payload.signature" created_at.

Definition d0 : RegistryDb := empty_registry.
Definition setup : list Request := [Call (PutEnrollmentToken token_record)].
Definition d1 : RegistryDb := serves setup d0.
Definition revocation : list Request :=
  [Call (RevokeNode "tenant-1" "node-1" 1 (Some "revocation-1") EmptyString)].

(** ** Requests to the enrollment service *)

Definition digest_text (secret : string) : pyval := PStr (base64url_encode (access secret)).
Definition enrollment : EnrollmentArgs :=
  MkEnrollmentArgs (PStr "invite-1") (PDict jwk1) (PStr "wallet-1") (PInt 0) (PInt 1)
    (digest_text "access-1") PNone (PStr "pending").
Definition rotation : RotationArgs :=
  MkRotationArgs (PStr "rotation-1") (PStr "tenant-1") (PStr "node-1") (PStr "wallet-1") (PInt 1) (PInt 2)
    (PDict jwk2) (PStr (key_id jwk2)) (digest_text "access-2").
Definition revoking : RevocationArgs :=
  MkRevocationArgs (PStr "revocation-1") (PStr "tenant-1") (PStr "node-1") (PStr "wallet-1") (PInt 1) (PInt 1)
    (PInt 2) (PStr (key_id jwk1)) (digest_text "access-1") (PStr "revoking").
(** The node in the registry. *)
Definition d2 : RegistryDb := serves [Call (PutNode node1)] d0.
(** The rotation of its credential is prepared. *)
Definition d3 : RegistryDb := (prepare_rotation_request 1020 rotation d2).2.

Definition answer {A} (otherwise : A) (r : result A) : A :=
  match r with Ok a => a | Err _ => otherwise end.
End NodeDemo.
Import NodeDemo.

(** ** The parameters *)

Lemma digests32 x : length (sha256 x) = 32%nat.
Proof. apply be_bytes_length. Qed.

Lemma demo_ids_fresh prefix (taken : gset string) : drawn_id prefix taken ∉ taken.
Proof.
  unfold drawn_id, demo_ids. rewrite <- elem_of_elements. intros Hin.
  assert (∀ (l : list string) k, k ∈ l → (String.length k < String.length (foldr String.append "x" l))%nat) as Hlong.
  { assert (∀ l : list string, (0 < String.length (foldr String.append "x" l))%nat) as Hpos
      by (intros l; induction l as [|s l IH]; cbn [foldr]; [simpl|rewrite length_app_string]; lia).
    intros l. induction l as [|s l IH]; intros k Hk; [by apply elem_of_nil in Hk|].
    cbn [foldr]. rewrite length_app_string. apply elem_of_cons in Hk as [->|Hk].
    - specialize (Hpos l). lia.
    - specialize (IH k Hk). lia. }
  apply Hlong in Hin. rewrite length_app_string in Hin. lia.
Qed.

#[local] Instance demo_adapter : Adapter RegistryDb shows_at := postgres_adapter digests32 demo_ids_fresh.

(** The registries of the runs show dictionaries. *)
Lemma shown0 : shows_at None d0 empty_store.
Proof. apply empty_shows. Qed.
Lemma setup_admitted : Forall admitted setup.
Proof. repeat constructor. Qed.
Lemma shown1 : shows_at None d1 (serves setup empty_store).
Proof. apply history_unclocked; [apply shown0|apply setup_admitted]. Qed.
Lemma node1_valid : make_node node1 = Ok node1.
Proof. vm_compute. reflexivity. Qed.
Lemma shown2 : shows_at None d2 (serves [Call (PutNode node1)] empty_store).
Proof. apply history_unclocked; [apply shown0|]. constructor; [apply node1_valid|constructor]. Qed.
Lemma shown3 : shows_at None d3 (prepare_rotation_request 1020 rotation (serves [Call (PutNode node1)] empty_store)).2.
Proof. exact (proj2 (prepare_agrees 1020 rotation d2 _ shown2)). Qed.
Lemma revocation_admitted : Forall admitted revocation.
Proof. repeat constructor. Qed.
(** ** The theorems at the runs *)

Lemma credential_never_returns_witness :
  (control (GetNodeByAccessDigest (access "access-1")) d2).1 = Ok (Some node1) ∧
  (control (GetNodeByAccessDigest (access "access-1")) (serves setup (serves revocation d2))).1 = Ok None.
Proof.
  split; [vm_compute; reflexivity|].
  eapply (credential_never_returns d2 _ revocation setup "tenant-1" "node-1" node1 (revoked_node "revocation-1" node1)).
  - apply shown2.
  - apply revocation_admitted.
  - apply setup_admitted.
  - vm_compute. reflexivity.
  - vm_compute. reflexivity.
  - vm_compute. discriminate.
Defined.

Definition again1 : NodeRegistration := node1 <| nr_node_id := "node-2" |> <| nr_created_at := 2000 |> <| nr_updated_at := 2000 |>.
Lemma enrollment_token_enrolls_once_witness :
  (control (EnrollNode token1 node1 1010 None) d1).1 = Ok node1 ∧
  node_key node1 = ("tenant-1", "node-1") ∧ enrollment_binding_digest again1 = enrollment_binding_digest node1.
Proof.
  assert ((control (EnrollNode token1 node1 1010 None) d1).1 = Ok node1) as He by (vm_compute; reflexivity).
  split; [exact He|]. split; [reflexivity|].
  eapply (enrollment_token_enrolls_once d1 _ token1 node1 1010 None node1 setup again1 2000 None node1).
  - apply shown1.
  - apply node1_valid.
  - reflexivity.
  - apply setup_admitted.
  - vm_compute. reflexivity.
  - reflexivity.
  - exact He.
  - vm_compute. reflexivity.
Defined.

Lemma dpop_proof_accepted_once_witness :
  (control (ConsumeDpopJti "tenant-1" "node-1" 1 "proof-1" 1100 1000) d0).1 = Ok true ∧
  (control (ConsumeDpopJti "tenant-1" "node-1" 1 "proof-1" 1150 1050)
     (serves [Call (ConsumeDpopJti "tenant-1" "node-1" 1 "proof-2" 1120 1020)]
        (control (ConsumeDpopJti "tenant-1" "node-1" 1 "proof-1" 1100 1000) d0).2)).1 = Ok false.
Proof.
  split; [vm_compute; reflexivity|].
  apply (dpop_proof_accepted_once d0 empty_store).
  - repeat constructor.
  - reflexivity.
  - vm_compute. reflexivity.
Defined.

Lemma preflight_bound_once_witness :
  (control (BindPreflight (preflight "key-1" 1020)) d0).1 = Ok (preflight "key-1" 1020) ∧
  (control (BindPreflight (preflight "key-1" 1999))
     (serves setup (control (BindPreflight (preflight "key-1" 1020)) d0).2)).1 = Ok (preflight "key-1" 1020) ∧
  pf_request_hash (preflight "key-1" 1020) = pf_request_hash (preflight "key-1" 1999).
Proof.
  assert ((control (BindPreflight (preflight "key-1" 1020)) d0).1 = Ok (preflight "key-1" 1020)) as Hb
    by (vm_compute; reflexivity).
  assert ((control (BindPreflight (preflight "key-1" 1999))
     (serves setup (control (BindPreflight (preflight "key-1" 1020)) d0).2)).1
       = Ok (preflight "key-1" 1020)) as Hb' by (vm_compute; reflexivity).
  split; [exact Hb|]. split; [exact Hb'|].
  eapply (preflight_bound_once d0 empty_store (preflight "key-1" 1020) (preflight "key-1" 1020) setup
    (preflight "key-1" 1999) (preflight "key-1" 1020)).
  - apply shown0.
  - vm_compute. reflexivity.
  - apply setup_admitted.
  - vm_compute. reflexivity.
  - exact Hb.
  - exact Hb'.
Defined.

Definition past : list Request := Call (PutNode node1) :: revocation.
Lemma past_admitted : Forall admitted past.
Proof. constructor; [apply node1_valid|apply revocation_admitted]. Qed.
Lemma registry_adapters_agree_witness :
  let proof jti expires_at now := ConsumeDpopJti "tenant-1" "node-1" 1 jti expires_at now in
  let checked := (past ++ [Call (proof "proof-1" 1100 1000); Call (proof "proof-1" 1150 1050)])%list in
  alike (control (proof "proof-1" 1200 1100) (serves checked empty_registry)).1
        (control (proof "proof-1" 1200 1100) (serves checked empty_store)).1.
Proof.
  intros proof checked.
  apply (registry_adapters_agree digests32 demo_ids_fresh 0 checked (proof "proof-1" 1200 1100)).
  - apply Forall_app. split; [apply past_admitted|repeat constructor].
  - exact I.
  - vm_compute. discriminate.
Defined.

Definition enrolled1 : NodeRegistration :=
  answer node1 (enroll 1010 "abc" enrollment d1).1.
Lemma enrollment_retry_returns_witness :
  nr_node_id enrolled1 = "node_abc" ∧ (enroll 1010 "abc" enrollment d1).1 = Ok enrolled1 ∧
  (enroll 5000 "xyz" enrollment (serves setup (enroll 1010 "abc" enrollment d1).2)).1 = Ok enrolled1.
Proof.
  assert ((enroll 1010 "abc" enrollment d1).1 = Ok enrolled1) as He by (vm_compute; reflexivity).
  split; [vm_compute; reflexivity|]. split; [exact He|].
  eapply enrollment_retry_returns.
  - apply shown1.
  - apply setup_admitted.
  - reflexivity.
  - exact He.
  - vm_compute. reflexivity.
Defined.

Definition revoked1 : NodeRegistration := answer node1 (revoke revoking d2).1.
Lemma revocation_is_final_witness :
  (revoke revoking d2).1 = Ok revoked1 ∧
  (revoke revoking (serves setup (revoke revoking d2).2)).1 = Ok revoked1 ∧ nr_status revoked1 = "revoked".
Proof.
  assert ((revoke revoking d2).1 = Ok revoked1) as He by (vm_compute; reflexivity).
  split; [exact He|].
  destruct (revocation_is_final d2 _ revoking revoked1 setup shown2 setup_admitted He) as (? & ? & _). by split.
Defined.

Definition rotated1 : NodeRegistration := answer node1 (commit_rotation_request 1030 rotation d3).1.
Lemma rotation_retry_returns_witness :
  nr_credential_epoch rotated1 = 2 ∧ (commit_rotation_request 1030 rotation d3).1 = Ok rotated1 ∧
  (commit_rotation_request 5000 rotation (serves setup (commit_rotation_request 1030 rotation d3).2)).1
    = Ok rotated1.
Proof.
  assert ((commit_rotation_request 1030 rotation d3).1 = Ok rotated1) as He by (vm_compute; reflexivity).
  split; [vm_compute; reflexivity|]. split; [exact He|].
  eapply rotation_retry_returns.
  - apply shown3.
  - apply setup_admitted.
  - reflexivity.
  - vm_compute. split; [|tauto]. apply (bool_decide_unpack _). vm_compute. exact I.
  - exact He.
  - vm_compute. reflexivity.
Defined.

Lemma enrollment_service_adapters_agree_witness :
  (serviced (Revoke revoking) (attends [Asked (IssueEnrollmentToken 300 1000 "invite-1" "tenant-1");
     Asked (Enroll 1010 "abc" enrollment)] empty_registry)).1
  = (serviced (Revoke revoking) (attends [Asked (IssueEnrollmentToken 300 1000 "invite-1" "tenant-1");
     Asked (Enroll 1010 "abc" enrollment)] empty_store)).1.
Proof. apply (enrollment_service_adapters_agree digests32 demo_ids_fresh). Defined.

(** A revocation id that is no identifier, which the enrollment service never passes
    on: the database rolls everything back; in memory the token is already retired,
    so the node stays active and can authenticate no more. *)
Lemma invalid_revocation_locks_node :
  let m2 := serves [Call (PutNode node1)] empty_store in
  let bad := RevokeNode "tenant-1" "node-1" 1 (Some "not an id") EmptyString in
  (control bad d2).1 = (control bad m2).1 ∧ (control bad d2).2 = d2 ∧
  (control (GetNode "tenant-1" "node-1") (control bad m2).2).1 = Ok (Some node1) ∧
  (control (GetNodeByAccessDigest (access "access-1")) (control bad m2).2).1 = Ok None.
Proof. vm_compute. split_and!; reflexivity. Qed.

(** Clocks that go back divide the adapters.  The refused check at 50 makes the
    database undo its delete of the proof that expired at 10, which is deleted from
    the dictionaries: checked again at 5, the proof is refused by the one and
    accepted by the others. *)
Lemma late_clock_divides_adapters :
  let proof jti expires_at now := ConsumeDpopJti "tenant-1" "node-1" 1 jti expires_at now in
  let checked := [Call (proof "proof-1" 10 1); Call (proof "proof-2" 100 1); Call (proof "proof-2" 100 50)] in
  (control (proof "proof-1" 20 5) (serves checked empty_registry)).1 = Ok false ∧
  (control (proof "proof-1" 20 5) (serves checked empty_store)).1 = Ok true.
Proof. vm_compute. split; reflexivity. Qed.
